(* ===== verification/_CoqProject ===== *)
-Q . S2P
Prelude.v
NetBytes.v
RtpPacket.v
RtpExt.v
RtxBuild.v
Rtx.v
Pacer.v
OpenAddr.v
SeqTranslate.v
RoomRegistry.v
HashIndex.v
RoutingTable.v
SessionAnswer.v
SessionTable.v
Rtcp.v
TwccParser.v
TwccFeedback.v
TwccHistory.v
Bandwidth.v
Gcc.v
Ring.v
PacedSend.v
PriorityQueue.v
ProbeController.v
LayerScheduler.v
SvcParser.v
Egress.v
LayerUpdate.v
Feedback.v
Upstream.v
SpscRing.v
AfXdpFrame.v
Stun.v
