(* ===== verification/Prelude.v ===== *)
(** Verification of the Mezon selective forwarding unit (SFU).

    The program is a WebRTC media server in C.  A publisher's RTP packets come
    in encrypted over UDP, are decrypted and parsed (ingress), fanned out to
    the subscribers of the room, and for each subscriber filtered by layer,
    renumbered, given its header extensions, paced, encrypted and sent
    (egress).  Subscribers answer with RTCP: transport-wide feedback drives a
    bandwidth estimate that is divided between streams, NACKs are answered from
    a cache, keyframe requests go upstream.  Clients arrive over a signaling
    connection and are bound to a transport address by STUN checks.

    * Parts and files

    Bytes and packets.
    - [NetBytes]: [src/util/netbytes.h].
    - [RtpPacket]: [src/rtp/rtp_packet.c]; [RtpExt]: [src/rtp/rtp_ext.c];
      [RtxBuild]: [src/rtp/rtx_build.c], [src/rtp/rtp_padding.c];
      [Rtx]: [src/rtp/rtx.c]; [SeqTranslate]: [src/rtp/rtp_seq_translate.c].
    - [Rtcp]: [src/rtcp/]; [TwccParser], [TwccFeedback], [TwccHistory]:
      [src/congestion/twcc_*]; [SvcParser]: [src/media/svc/svc_parser.c].
    - [AfXdpFrame]: [src/net/af_xdp_frame.c]; [Stun]:
      [src/transport/stun/stun.c].

    Congestion control and sending.
    - [Pacer]: [src/congestion/pacer.c]; [Bandwidth]:
      [src/congestion/bandwidth_allocator.c]; [Gcc]: [src/congestion/gcc.c];
      [ProbeController]: [src/congestion/probe_controller.c].
    - [Ring], [PacedSend], [PriorityQueue]: [src/pipeline/paced_send.c].
    - [LayerScheduler]: [src/media/svc/layer_scheduler.c].
    - [Egress]: [src/pipeline/egress.c], over all of the above.
    - [LayerUpdate], [Feedback]: the RTCP half of [src/pipeline/ingress.c].
    - [Upstream]: the feedback to publishers of [src/peer/session.c].

    Tables, threads and memory.
    - [OpenAddr] (linear probing) and [HashIndex] (indices of positions with
      tombstones) carry the proofs of [SeqTranslate], [RoomRegistry]
      ([src/room/]), [RoutingTable] ([src/runtime/routing_context.c]) and
      [SessionTable] (the table of [src/peer/session.c]).
    - [SessionAnswer]: [sfu_session_apply_pending_answer] and the
      reconciliation of the routing table with a session.
    - [SpscRing]: [src/util/ringbuffer.c].
    [Prelude] (this file) has the machine integers, the result type, record
    updates and the lemmas on lists and bytes that the files share.

    * How the code is translated

    A definition has the name of its C function.  State is a record with the
    fields the function reads or writes, passed and returned; an operation is
    the whole C function, with its guards and early returns.  An unsigned
    integer of N bits is an integer in [0, 2^N) and operations that can leave
    the range wrap explicitly ([u8] ... [u64]); signed 64-bit times and byte
    balances are unbounded.  A buffer is a list of bytes; [res] has a value, an
    error code, or [Fault] for an access outside a buffer or to freed memory.
    Loops are recursive on the data or on fuel that is the loop's own bound
    (the capacity of a ring, the slots of a table, the bytes left); where fuel
    could run out, the theorems prove that it does not.

    What is not C of this repository is an argument: HMAC, SRTP, the network,
    allocation, the clock and random numbers enter as functions or as the
    outcome of the call.  NULL arguments, metrics, diagnostic logs and locks
    are left out.  Operations run one after the other, except where
    interleaving is the point: the sequence lock of [Upstream], the ring of
    [SpscRing] are interleaved access by access under sequential
    consistency, and registration and reconciliation in [RoutingTable] and the
    connectivity check of [SessionTable] let other threads change the table
    between their critical sections.  A call of [LayerUpdate] or
    [Feedback] reads the clock once; the doubles of [Gcc] are IEEE binary64
    without contraction; reference counts do not wrap.

    * What the theorems show

    - Parsers and builders are exact: they accept the grammar of their format
      and nothing else, read what was written, and never leave the buffer, on
      any input ([rtp_parse_iff_grammar], [write_twcc_correct],
      [compound_iteration_exact], [descriptor_parsers_exact],
      [twcc_parse_exact], [feedback_roundtrip], [frame_roundtrip],
      [remb_encoding], [nack_iteration_exact]).
    - Every reachable state of a component satisfies its invariant: the pacer's
      budget is the sum of the reservations held ([pacer_reachable_inv],
      [paced_reachable_inv]), nothing leaks on an error path
      ([egress_never_leaks], [failed_frame_leaves_no_trace]), the estimator
      stays in its bounds ([gcc_reachable_inv], [feedback_reachable_ok],
      [scheduler_reachable_ok]).
    - Subscribers get decodable streams (nothing before a keyframe accepted
      without a gap) with gapless numbers
      ([egress_keyframe_gate], [translate_gapless]); losses are answered and
      counted once ([nack_answered], [feedback_counted_once],
      [rtx_cache_last_packet]); the estimate reaches the streams by priority
      ([allocation_fair_priority], [layers_follow_allocation],
      [probe_cluster_outcome]); publishers are told what subscribers can take
      ([remb_follows_demand], [remb_read_consistent], [keyframes_throttled],
      [feedback_catches_up]).
    - Data structures refine their specification: queues
      ([priority_queue_refines_fifo], [drain_sends_due_prefix],
      [spsc_linearizable]), maps ([routing_table_refines_map],
      [session_lookups_exact]), the send history ([history_answers_past]).
    - Only authenticated checks move a client ([binding_authenticated],
      [binding_answered]); sessions are neither leaked nor used after their
      end ([session_references_safe]); an answer takes effect once
      ([register_exact], [answer_applied], [reconcile_once]).

    * Not modelled

    Code that is system calls, third-party libraries or wiring around them:
    sockets, io_uring and AF_XDP rings ([src/net] except the frames),
    DTLS and SRTP ([src/transport]: OpenSSL and libsrtp), configuration, logging,
    metrics, signals, CPU pinning, [main.c], the worker loop, the dispatcher
    and the fan-out between threads, which move packets between the modelled
    parts.  Signaling and SDP ([src/protocol/signaling]) build and read text
    over sockets.  The media half of
    [ingress.c] is the glue between SRTP, the RTP parser and the fan-out.  Of
    the room, the graph of who receives whom ([room_media_graph.c]) works on
    shared snapshots reclaimed by hazard pointers and epochs, and only what it
    does to one peer's role is modelled; of the session, construction,
    destruction and the DTLS state machine are not. *)

From stdpp Require Export base tactics list numbers option.
From Stdlib Require Export ZArith Lia Bool.

Open Scope Z_scope.

(** * Machine integers

    A [uintN_t] is an integer kept in [0, 2^N); every C operation that can
    leave the range is wrapped explicitly with one of these. *)

Definition u8 (x : Z) : Z := x mod 256.
Definition u16 (x : Z) : Z := x mod 65536.
Definition u32 (x : Z) : Z := x mod 4294967296.
Definition u64 (x : Z) : Z := x mod 18446744073709551616.

Definition UINT16_MAX : Z := 65535.
Definition UINT32_MAX : Z := 4294967295.
Definition UINT64_MAX : Z := 18446744073709551615.

Definition is_u8 (x : Z) : Prop := 0 <= x < 256.
Definition is_u16 (x : Z) : Prop := 0 <= x < 65536.
Definition is_u32 (x : Z) : Prop := 0 <= x < 4294967296.
Definition is_u64 (x : Z) : Prop := 0 <= x < 18446744073709551616.

(** Two's-complement reading of a 16-bit pattern, the cast [(int16_t)x]. *)
Definition i16 (x : Z) : Z := (x + 32768) mod 65536 - 32768.

(** [lia] extended with the definitions of division and remainder. *)
Ltac dlia :=
  unfold u8, u16, u32, u64, i16, is_u8, is_u16, is_u32, is_u64,
    UINT16_MAX, UINT32_MAX, UINT64_MAX in *;
  Z.to_euclidean_division_equations; lia.

Lemma u8_range x : is_u8 (u8 x).
Proof. dlia. Qed.
Lemma u16_range x : is_u16 (u16 x).
Proof. dlia. Qed.
Lemma u32_range x : is_u32 (u32 x).
Proof. dlia. Qed.
Lemma u64_range x : is_u64 (u64 x).
Proof. dlia. Qed.

(** * Outcomes of a C routine

    [Ok] is the success return with its results, [Err] the failure return
    ([false], [-1] or [NULL]) and [Fault] an access outside the object the
    pointer refers to, or a loop that does not stop within its fuel.  A
    theorem [f args <> Fault] is memory safety and termination of [f]. *)

Inductive res (A : Type) : Type :=
| Ok (a : A)
| Err
| Fault.
Arguments Ok {A} a.
Arguments Err {A}.
Arguments Fault {A}.

Definition res_bind {A B} (m : res A) (k : A -> res B) : res B :=
  match m with Ok a => k a | Err => Err | Fault => Fault end.

Declare Scope sfu_scope.
Delimit Scope sfu_scope with sfu.
Open Scope sfu_scope.

Notation "'let!' x := m 'in' k" := (res_bind m (fun x => k))
  (at level 10, x pattern, m at level 100, k at level 200) : sfu_scope.
(** [reject c k] is the early return [if (c) return false;] before [k]. *)
Definition reject {A} (c : bool) (k : res A) : res A := if c then Err else k.

Lemma res_bind_ok {A B} (m : res A) (k : A -> res B) b :
  res_bind m k = Ok b <-> exists a, m = Ok a /\ k a = Ok b.
Proof. destruct m; simpl; split; [eauto|intros (? & [= <-] & ?); done|done|by intros (? & ? & ?)|done|by intros (? & ? & ?)]. Qed.

Lemma res_bind_no_fault {A B} (m : res A) (k : A -> res B) :
  m <> Fault -> (forall a, m = Ok a -> k a <> Fault) -> res_bind m k <> Fault.
Proof. destruct m; simpl; naive_solver. Qed.

Lemma reject_ok {A} c (k : res A) a : reject c k = Ok a <-> c = false /\ k = Ok a.
Proof. destruct c; simpl; [split; [done|by intros []]|tauto]. Qed.

Lemma reject_no_fault {A} c (k : res A) :
  (c = false -> k <> Fault) -> reject c k <> Fault.
Proof. destruct c; simpl; naive_solver. Qed.

Lemma reject_true {A} c (k : res A) : c = true -> reject c k = Err.
Proof. by intros ->. Qed.

Lemma reject_false {A} c (k : res A) : c = false -> reject c k = k.
Proof. by intros ->. Qed.

(** * Buffers

    A buffer is the list of the bytes of the object a pointer points into;
    offsets are integers and every access is bounds-checked. *)

Definition zlen {A} (l : list A) : Z := Z.of_nat (length l).
Definition byte_at (b : list Z) (i : Z) : Z := nth (Z.to_nat i) b 0.
Definition slice (b : list Z) (i n : Z) : list Z :=
  take (Z.to_nat n) (drop (Z.to_nat i) b).
Definition patch (b : list Z) (i : Z) (s : list Z) : list Z :=
  take (Z.to_nat i) b ++ s ++ drop (Z.to_nat i + length s) b.

Definition bytes_ok (b : list Z) : Prop := Forall is_u8 b.

(** The same, by evaluation. *)
Definition bytes_okb (b : list Z) : bool := forallb (fun x => (0 <=? x) && (x <? 256)) b.
Lemma bytes_okb_ok b : bytes_okb b = true -> bytes_ok b.
Proof.
  unfold bytes_okb, bytes_ok. rewrite forallb_forall, Forall_forall. intros H x Hx.
  specialize (H x Hx). unfold is_u8. lia.
Qed.

(** [b[i]], [memcpy] out of [b], and [memcpy]/[memset] into [b]. *)
Definition rd (b : list Z) (i : Z) : res Z :=
  if (0 <=? i) && (i <? zlen b) then Ok (byte_at b i) else Fault.
Definition rd_n (b : list Z) (i n : Z) : res (list Z) :=
  if (0 <=? i) && (0 <=? n) && (i + n <=? zlen b) then Ok (slice b i n) else Fault.
Definition wr_n (b : list Z) (i : Z) (s : list Z) : res (list Z) :=
  if (0 <=? i) && (i + zlen s <=? zlen b) then Ok (patch b i s) else Fault.
Definition wr (b : list Z) (i v : Z) : res (list Z) := wr_n b i [v].
Definition zeros (n : Z) : list Z := replicate (Z.to_nat n) 0.
Definition memset (b : list Z) (i v n : Z) : res (list Z) :=
  wr_n b i (replicate (Z.to_nat n) v).

Definition memmove (b : list Z) (dst src n : Z) : res (list Z) :=
  match rd_n b src n with Ok s => wr_n b dst s | Err => Err | Fault => Fault end.

Lemma rd_ok b i : 0 <= i < zlen b -> rd b i = Ok (byte_at b i).
Proof. intros. unfold rd. by rewrite (proj2 (Z.leb_le _ _)), (proj2 (Z.ltb_lt _ _)) by lia. Qed.

Lemma rd_n_ok b i n : 0 <= i -> 0 <= n -> i + n <= zlen b -> rd_n b i n = Ok (slice b i n).
Proof. intros. unfold rd_n. by rewrite !(proj2 (Z.leb_le _ _)) by lia. Qed.

Lemma wr_n_ok b i s : 0 <= i -> i + zlen s <= zlen b -> wr_n b i s = Ok (patch b i s).
Proof. intros. unfold wr_n. by rewrite !(proj2 (Z.leb_le _ _)) by lia. Qed.

Lemma zlen_nonneg {A} (l : list A) : 0 <= zlen l.
Proof. unfold zlen. lia. Qed.

Lemma zlen_app {A} (l k : list A) : zlen (l ++ k) = zlen l + zlen k.
Proof. unfold zlen. rewrite length_app. lia. Qed.

Lemma zlen_cons {A} (x : A) l : zlen (x :: l) = 1 + zlen l.
Proof. unfold zlen. simpl. lia. Qed.

Lemma zlen_nil {A} : zlen (@nil A) = 0.
Proof. done. Qed.

Lemma zlen_replicate {A} n (x : A) : 0 <= n -> zlen (replicate (Z.to_nat n) x) = n.
Proof. unfold zlen. rewrite length_replicate. lia. Qed.

Lemma zlen_patch b i s : 0 <= i -> i + zlen s <= zlen b -> zlen (patch b i s) = zlen b.
Proof.
  unfold zlen, patch. intros. rewrite !length_app, length_take, length_drop. lia.
Qed.

Lemma zlen_slice b i n : 0 <= i -> 0 <= n -> i + n <= zlen b -> zlen (slice b i n) = n.
Proof. unfold zlen, slice. intros. rewrite length_take, length_drop. lia. Qed.

Lemma byte_at_patch b i s j :
  0 <= i -> i + zlen s <= zlen b -> 0 <= j ->
  byte_at (patch b i s) j =
    if (i <=? j) && (j <? i + zlen s) then byte_at s (j - i) else byte_at b j.
Proof.
  unfold byte_at, patch, zlen. intros Hi Hs Hj.
  destruct (Z.leb_spec i j); simpl.
  - rewrite app_nth2 by (rewrite length_take; lia).
    rewrite length_take. replace (Z.to_nat i `min` length b)%nat with (Z.to_nat i) by lia.
    destruct (Z.ltb_spec j (i + Z.of_nat (length s))).
    + rewrite app_nth1 by lia. f_equal. lia.
    + rewrite app_nth2 by lia.
      rewrite <- (take_drop (Z.to_nat i + length s) b) at 2.
      rewrite app_nth2 by (rewrite length_take; lia).
      rewrite length_take. f_equal. lia.
  - rewrite app_nth1 by (rewrite length_take; lia).
    rewrite <- (take_drop (Z.to_nat i) b) at 2.
    by rewrite app_nth1 by (rewrite length_take; lia).
Qed.

Lemma byte_at_slice b i n j :
  0 <= i -> 0 <= j < n -> byte_at (slice b i n) j = byte_at b (i + j).
Proof.
  unfold byte_at, slice. intros Hi Hj.
  rewrite !nth_lookup, lookup_take_lt by lia.
  rewrite lookup_drop. do 3 f_equal. lia.
Qed.

Lemma byte_at_app b c j :
  0 <= j -> byte_at (b ++ c) j = if j <? zlen b then byte_at b j else byte_at c (j - zlen b).
Proof.
  unfold byte_at, zlen. intros Hj. destruct (Z.ltb_spec j (Z.of_nat (length b))).
  - apply app_nth1. lia.
  - rewrite app_nth2 by lia. f_equal. lia.
Qed.

Lemma byte_at_cons x b j : 0 <= j -> byte_at (x :: b) j = if j =? 0 then x else byte_at b (j - 1).
Proof.
  intros. change (x :: b) with ([x] ++ b). rewrite byte_at_app by done.
  change (zlen [x]) with 1. destruct (Z.ltb_spec j 1), (Z.eqb_spec j 0); try lia; by subst.
Qed.

Lemma byte_at_replicate n v j : 0 <= j < n -> byte_at (replicate (Z.to_nat n) v) j = v.
Proof.
  unfold byte_at. intros. rewrite nth_lookup.
  by rewrite lookup_replicate_2 by lia.
Qed.

Lemma byte_at_u8 b i : bytes_ok b -> is_u8 (byte_at b i).
Proof.
  unfold bytes_ok, byte_at. intros Hb. rewrite nth_lookup.
  destruct (b !! Z.to_nat i) eqn:E; simpl; [|unfold is_u8; lia].
  by eapply Forall_lookup_1 in Hb.
Qed.

Lemma byte_at_ext b c :
  zlen b = zlen c -> (forall i, 0 <= i < zlen b -> byte_at b i = byte_at c i) -> b = c.
Proof.
  unfold zlen, byte_at. intros Hl He. apply (nth_ext b c 0 0); [lia|].
  intros n Hn. specialize (He (Z.of_nat n)). rewrite Nat2Z.id in He. apply He. lia.
Qed.

Lemma bytes_ok_app b c : bytes_ok b -> bytes_ok c -> bytes_ok (b ++ c).
Proof. intros. by apply Forall_app. Qed.

Lemma bytes_ok_cons x b : is_u8 x -> bytes_ok b -> bytes_ok (x :: b).
Proof. by constructor. Qed.

Lemma bytes_ok_nil : bytes_ok [].
Proof. constructor. Qed.

Lemma bytes_ok_patch b i s : bytes_ok b -> bytes_ok s -> bytes_ok (patch b i s).
Proof. intros. apply Forall_app; split; [by apply Forall_take|]. apply Forall_app; auto using Forall_drop. Qed.

Lemma bytes_ok_slice b i n : bytes_ok b -> bytes_ok (slice b i n).
Proof. intros. by apply Forall_take, Forall_drop. Qed.

Lemma bytes_ok_replicate n v : is_u8 v -> bytes_ok (replicate n v).
Proof. intros. by apply Forall_replicate. Qed.

(** Slices split and join; the first byte of a slice is the byte at its offset. *)
Lemma slice_split b i n m :
  0 <= i -> 0 <= n -> 0 <= m -> slice b i (n + m) = slice b i n ++ slice b (i + n) m.
Proof.
  intros. unfold slice. rewrite Z2Nat.inj_add, (Z2Nat.inj_add i) by done.
  by rewrite <- drop_drop, take_take_drop.
Qed.

Lemma slice_cons b i n :
  0 <= i < zlen b -> 0 < n -> slice b i n = byte_at b i :: slice b (i + 1) (n - 1).
Proof.
  unfold slice, byte_at, zlen. intros.
  replace (Z.to_nat n) with (S (Z.to_nat (n - 1))) by lia.
  replace (Z.to_nat (i + 1)) with (S (Z.to_nat i)) by lia.
  destruct (lookup_lt_is_Some_2 b (Z.to_nat i)) as [x Hx]; [lia|].
  by rewrite (drop_S _ _ _ Hx), (nth_lookup_Some _ _ 0 _ Hx).
Qed.

Lemma slice_0 b i : slice b i 0 = [].
Proof. done. Qed.

Lemma slice_2 b i :
  0 <= i -> i + 2 <= zlen b -> slice b i 2 = [byte_at b i; byte_at b (i + 1)].
Proof. intros. by rewrite !(slice_cons b) by lia. Qed.

Lemma slice_4 b i :
  0 <= i -> i + 4 <= zlen b ->
  slice b i 4 = [byte_at b i; byte_at b (i + 1); byte_at b (i + 2); byte_at b (i + 3)].
Proof.
  intros. change 4 with (2 + 2). rewrite slice_split, !slice_2 by lia.
  by replace (i + 2 + 1) with (i + 3) by lia.
Qed.

Lemma slice_join b i n j m :
  0 <= i -> 0 <= n -> 0 <= m -> j = i + n -> slice b i n ++ slice b j m = slice b i (n + m).
Proof. intros ? ? ? ->. by rewrite slice_split. Qed.

Lemma slice_all b : slice b 0 (zlen b) = b.
Proof. unfold slice, zlen. by rewrite drop_0, Nat2Z.id, firstn_all. Qed.

Lemma slice_app_l b c : slice (b ++ c) 0 (zlen b) = b.
Proof. unfold slice, zlen. by rewrite drop_0, Nat2Z.id, take_app_length. Qed.

Lemma slice_slice b i n j m :
  0 <= i -> 0 <= j -> 0 <= m -> j + m <= n -> slice (slice b i n) j m = slice b (i + j) m.
Proof.
  intros. unfold slice. rewrite skipn_firstn_comm, take_take, drop_drop.
  f_equal; [lia|]. f_equal. lia.
Qed.

Lemma slice_prefix_split b n : 0 <= n <= zlen b -> b = slice b 0 n ++ drop (Z.to_nat n) b.
Proof. intros. unfold slice. by rewrite drop_0, take_drop. Qed.

(** Reading and overwriting a part of a buffer given by its pieces. *)
Lemma slice_mid a m c i n : i = zlen a -> n = zlen m -> slice (a ++ m ++ c) i n = m.
Proof.
  intros -> ->. unfold slice, zlen. by rewrite !Nat2Z.id, drop_app_length, take_app_length.
Qed.

Lemma patch_mid a m c i s : i = zlen a -> zlen m = zlen s -> patch (a ++ m ++ c) i s = a ++ s ++ c.
Proof.
  unfold patch, zlen. intros -> Hm. apply Nat2Z.inj in Hm.
  by rewrite Nat2Z.id, take_app_length, <- Hm, <- drop_drop, drop_app_length, drop_app_length.
Qed.

Lemma byte_at_mid a x c i : i = zlen a -> byte_at (a ++ x :: c) i = x.
Proof. intros ->. unfold byte_at, zlen. by rewrite Nat2Z.id, nth_middle. Qed.

(** * Bit operations as arithmetic *)

Lemma land_ones_mod x n : 0 <= n -> Z.land x (2 ^ n - 1) = x mod 2 ^ n.
Proof. intros. rewrite <- Z.land_ones by done. f_equal. rewrite Z.ones_equiv. lia. Qed.

Lemma lor_shiftl_add a b n : 0 <= n -> 0 <= b < 2 ^ n -> Z.lor (Z.shiftl a n) b = a * 2 ^ n + b.
Proof.
  intros Hn Hb. rewrite Z.shiftl_mul_pow2 by done.
  rewrite <- Z.add_lor_land.
  enough (Z.land (a * 2 ^ n) b = 0) as -> by lia.
  apply Z.bits_inj'. intros i Hi. rewrite Z.land_spec, Z.bits_0.
  destruct (Z.lt_ge_cases i n).
  - by rewrite Z.mul_pow2_bits_low.
  - rewrite andb_false_iff. right.
    rewrite <- (Z.mod_small b (2 ^ n)) by done. by apply Z.mod_pow2_bits_high.
Qed.

(** [(x + 3) & ~3] rounds up to a multiple of 4. *)
Lemma land_lnot3 x : Z.land x (Z.lnot 3) = x / 4 * 4.
Proof.
  rewrite <- Z.ldiff_land. change 3 with (Z.ones 2).
  rewrite Z.ldiff_ones_r, Z.shiftl_mul_pow2, Z.shiftr_div_pow2 by done. done.
Qed.

(** A property of bytes decided by running it on all 256 of them. *)
Lemma byte_forall (P : Z -> bool) :
  forallb P (seqZ 0 256) = true -> forall x, is_u8 x -> P x = true.
Proof.
  rewrite forallb_forall. intros HP x Hx. apply HP, list_elem_of_In, elem_of_seqZ.
  unfold is_u8 in Hx. lia.
Qed.

(** * Functional record update

    [r <| f := v |>] is the assignment [r->f = v]; [eta] of a record type
    rebuilds a record from its fields and is declared once per type. *)

Class Eta (R : Type) := eta : R -> R.
Class Setter {R T : Type} (proj : R -> T) := set : (T -> T) -> R -> R.
Arguments set {R T} proj {_} _ _.

Ltac solve_setter :=
  lazymatch goal with
  | |- @Setter ?R ?T ?proj =>
      let i := constr:(_ : Eta R) in
      let body := eval hnf in i in
      lazymatch eval pattern proj in body with
      | ?abs _ => exact (fun (f : T -> T) => abs (fun r => f (proj r)))
      end
  end.
#[export] Hint Extern 1 (Setter _) => solve_setter : typeclass_instances.

Notation "r <| f := v |>" := (set f (fun _ => v) r)
  (at level 1, f at level 0, v at level 99, left associativity) : sfu_scope.
Notation "r <| f ::= g |>" := (set f g r)
  (at level 1, f at level 0, g at level 99, left associativity) : sfu_scope.

(** * Proof automation *)

Lemma lor_u8 a b : is_u8 a -> is_u8 b -> is_u8 (Z.lor a b).
Proof.
  intros Ha Hb. unfold is_u8 in *. assert (Hn : 0 <= Z.lor a b) by (apply Z.lor_nonneg; lia). split; [done|].
  destruct (decide (Z.lor a b = 0)) as [->|Hz]; [lia|]. apply Z.log2_lt_pow2 with (b := 8); [lia|].
  rewrite Z.log2_lor by lia. apply Z.max_lub_lt.
  - destruct (decide (a = 0)) as [->|]; [done|]. apply Z.log2_lt_pow2; lia.
  - destruct (decide (b = 0)) as [->|]; [done|]. apply Z.log2_lt_pow2; lia.
Qed.
Lemma land_u8 a b : 0 <= a -> is_u8 b -> is_u8 (Z.land a b).
Proof.
  intros Ha Hb. unfold is_u8 in *. assert (Hn : 0 <= Z.land a b) by (apply Z.land_nonneg; lia). split; [done|].
  destruct (decide (Z.land a b = 0)) as [->|Hz]; [lia|]. apply Z.log2_lt_pow2 with (b := 8); [lia|].
  pose proof (Z.log2_land a b ltac:(lia) ltac:(lia)) as Hl. destruct (decide (b = 0)) as [->|]; [by rewrite Z.land_0_r in Hz|].
  assert (Z.log2 b < 8) by (apply Z.log2_lt_pow2; lia). lia.
Qed.
Lemma rd_u8 b i v : rd b i = Ok v -> bytes_ok b -> is_u8 v.
Proof. unfold rd. destruct (_ && _); [|done]. intros [= <-] Hb. by apply byte_at_u8. Qed.

(** Turn the boolean guards of the code into facts about integers. *)
Ltac bool_hyps :=
  repeat match goal with
  | H : (_ && _) = true |- _ => apply andb_true_iff in H as [? ?]
  | H : (_ || _) = false |- _ => apply orb_false_iff in H as [? ?]
  | H : negb _ = true |- _ => apply negb_true_iff in H
  | H : negb _ = false |- _ => apply negb_false_iff in H
  | H : (_ <? _) = true |- _ => apply Z.ltb_lt in H
  | H : (_ <? _) = false |- _ => apply Z.ltb_ge in H
  | H : (_ <=? _) = true |- _ => apply Z.leb_le in H
  | H : (_ <=? _) = false |- _ => apply Z.leb_gt in H
  | H : (_ =? _) = true |- _ => apply Z.eqb_eq in H
  | H : (_ =? _) = false |- _ => apply Z.eqb_neq in H
  end.

(** Split an [Ok] outcome of a sequence of C statements into its steps. *)
Ltac res_inv :=
  repeat match goal with
  | H : Ok _ = Ok _ |- _ => injection H; clear H; intros; try subst
  | H : Err = Ok _ |- _ => discriminate H
  | H : Fault = Ok _ |- _ => discriminate H
  | H : reject _ _ = Ok _ |- _ => apply reject_ok in H as [? ?]
  | H : res_bind _ _ = Ok _ |- _ =>
      let a := fresh "a" in apply res_bind_ok in H as (a & ? & ?)
  end; bool_hyps.

Create HintDb sfu discriminated.
#[export] Hint Resolve u8_range u16_range u32_range u64_range : sfu.
#[export] Hint Resolve byte_at_u8 bytes_ok_app bytes_ok_cons bytes_ok_nil bytes_ok_patch bytes_ok_slice bytes_ok_replicate zlen_nonneg : sfu.

(** Lengths of the encodings the components define. *)
Create Rewrite HintDb zlen.
#[export] Hint Rewrite @zlen_nil : zlen.

(** Add that the lengths in the context are not negative. *)
Ltac zlen_pos :=
  repeat match goal with
  | |- context [@zlen ?A ?l] =>
      lazymatch goal with H : 0 <= zlen l |- _ => fail | _ => pose proof (@zlen_nonneg A l) end
  | _ : context [@zlen ?A ?l] |- _ =>
      lazymatch goal with H : 0 <= zlen l |- _ => fail | _ => pose proof (@zlen_nonneg A l) end
  end.

(** Compute the length of a buffer built by writes and finish with [lia]. *)
Ltac zlen :=
  repeat first
    [ rewrite !zlen_app | rewrite !zlen_cons | rewrite !@zlen_nil
    | rewrite zlen_patch by zlen | rewrite zlen_slice by zlen
    | rewrite zlen_replicate by zlen | progress autorewrite with zlen ];
  try (zlen_pos; lia).

(** Reduce in-bounds buffer accesses; the side conditions go to [lia]. *)
Ltac buf_step :=
  first [ rewrite rd_ok by zlen | rewrite rd_n_ok by zlen | rewrite wr_n_ok by zlen ];
  cbn [res_bind].

(** Decide every comparison of the goal that [lia] settles. *)
Ltac decide_ifs :=
  repeat match goal with
  | |- context [?a <? ?b] =>
      first [ rewrite (proj2 (Z.ltb_lt a b)) by lia | rewrite (proj2 (Z.ltb_ge a b)) by lia ]
  | |- context [?a <=? ?b] =>
      first [ rewrite (proj2 (Z.leb_le a b)) by lia | rewrite (proj2 (Z.leb_gt a b)) by lia ]
  | |- context [?a =? ?b] =>
      first [ rewrite (proj2 (Z.eqb_eq a b)) by lia | rewrite (proj2 (Z.eqb_neq a b)) by lia ]
  end; cbn [andb orb negb].

Lemma patch_patch_adj b i s t :
  0 <= i -> i + zlen s + zlen t <= zlen b ->
  patch (patch b i s) (i + zlen s) t = patch b i (s ++ t).
Proof.
  intros Hi Hl. pose proof (zlen_nonneg s). pose proof (zlen_nonneg t).
  apply byte_at_ext; [zlen|]. intros j Hj.
  rewrite !zlen_patch in Hj by zlen.
  rewrite !byte_at_patch by zlen.
  rewrite zlen_app.
  destruct (Z.leb_spec i j), (Z.ltb_spec j (i + zlen s)),
    (Z.ltb_spec j (i + zlen s + zlen t)); try (exfalso; lia);
    rewrite ?byte_at_app by lia; decide_ifs; try done; f_equal; lia.
Qed.

(** Merge the writes of a builder that fills a buffer from left to right. *)
Lemma patch_join b i s j t :
  j = i + zlen s -> 0 <= i -> i + zlen s + zlen t <= zlen b ->
  patch (patch b i s) j t = patch b i (s ++ t).
Proof. intros -> ? ?. by apply patch_patch_adj. Qed.
Ltac patch_join :=
  repeat match goal with
  | |- context [patch (patch ?b ?i ?s) ?j ?t] =>
      lazymatch b with patch _ _ _ => fail | _ => rewrite (patch_join b i s j t) by zlen end
  end.

(** Moving [tail] up by the length of [g] opens a gap in front of it. *)
Lemma patch_shift A tail g R :
  exists X, zlen X = zlen g /\
    patch (A ++ tail ++ g ++ R) (zlen A + zlen g) tail = A ++ X ++ tail ++ R.
Proof.
  exists (take (length g) (tail ++ g)). split.
  - unfold zlen. rewrite length_take, length_app. lia.
  - rewrite (app_assoc tail g), <- (take_drop (length g) (tail ++ g)) at 1.
    rewrite <- app_assoc, (app_assoc A).
    rewrite (patch_mid (A ++ take (length g) (tail ++ g))); [by rewrite <- app_assoc|..];
      unfold zlen; rewrite ?length_app, ?length_take, ?length_drop, ?length_app; lia.
Qed.

Lemma patch_over b i s t :
  0 <= i -> i + zlen t <= zlen b -> zlen s <= zlen t ->
  patch (patch b i t) i s = patch b i (s ++ drop (length s) t).
Proof.
  intros Hi Hb Hs.
  assert (Hz : zlen (s ++ drop (length s) t) = zlen t)
    by (unfold zlen in *; rewrite length_app, length_drop; lia).
  remember (s ++ drop (length s) t) as t' eqn:Ht.
  apply byte_at_ext; [zlen|]. intros j Hj. rewrite !zlen_patch in Hj by zlen.
  rewrite !byte_at_patch by zlen. rewrite Hz. zlen_pos.
  destruct (Z.leb_spec i j), (Z.ltb_spec j (i + zlen s)), (Z.ltb_spec j (i + zlen t));
    try (exfalso; lia); cbn [andb]; try done; subst t'.
  - rewrite byte_at_app by lia. by decide_ifs.
  - rewrite byte_at_app by lia. decide_ifs. unfold byte_at. rewrite !nth_lookup, lookup_drop.
    do 2 f_equal. unfold zlen in *. lia.
Qed.
