(* ===== verification/NetBytes.v ===== *)
(** Big-endian integer access, [src/util/netbytes.h]: the readers and writers
    every packet parser and builder of the program goes through, their
    arithmetic meaning and their round trips. *)

From S2P Require Import Prelude.

Definition sfu_read_be16 (b : list Z) (p : Z) : res Z :=
  let! b0 := rd b p in
  let! b1 := rd b (p + 1) in
  Ok (u16 (Z.lor (Z.shiftl b0 8) b1)).

Definition sfu_read_be24 (b : list Z) (p : Z) : res Z :=
  let! b0 := rd b p in
  let! b1 := rd b (p + 1) in
  let! b2 := rd b (p + 2) in
  Ok (Z.lor (Z.lor (Z.shiftl b0 16) (Z.shiftl b1 8)) b2).

Definition sfu_read_be32 (b : list Z) (p : Z) : res Z :=
  let! b0 := rd b p in
  let! b1 := rd b (p + 1) in
  let! b2 := rd b (p + 2) in
  let! b3 := rd b (p + 3) in
  Ok (Z.lor (Z.lor (Z.lor (Z.shiftl b0 24) (Z.shiftl b1 16)) (Z.shiftl b2 8)) b3).

Definition sfu_write_be16 (b : list Z) (p v : Z) : res (list Z) :=
  let! b := wr b p (u8 (Z.shiftr v 8)) in
  wr b (p + 1) (u8 v).

Definition sfu_write_be32 (b : list Z) (p v : Z) : res (list Z) :=
  let! b := wr b p (u8 (Z.shiftr v 24)) in
  let! b := wr b (p + 1) (u8 (Z.shiftr v 16)) in
  let! b := wr b (p + 2) (u8 (Z.shiftr v 8)) in
  wr b (p + 3) (u8 v).

(** * What the accesses compute *)

Definition be16 (b : list Z) (p : Z) : Z := byte_at b p * 256 + byte_at b (p + 1).
Definition be24 (b : list Z) (p : Z) : Z :=
  byte_at b p * 65536 + byte_at b (p + 1) * 256 + byte_at b (p + 2).
Definition be32 (b : list Z) (p : Z) : Z :=
  byte_at b p * 16777216 + byte_at b (p + 1) * 65536 + byte_at b (p + 2) * 256 + byte_at b (p + 3).
Definition enc16 (v : Z) : list Z := [v / 256 mod 256; v mod 256].
Definition enc32 (v : Z) : list Z :=
  [v / 16777216 mod 256; v / 65536 mod 256; v / 256 mod 256; v mod 256].
#[global] Arguments enc16 : simpl never.
#[global] Arguments enc32 : simpl never.

Lemma be16_u16 b p : bytes_ok b -> is_u16 (be16 b p).
Proof.
  intros Hb. pose proof (byte_at_u8 b p Hb). pose proof (byte_at_u8 b (p + 1) Hb).
  unfold be16, is_u8, is_u16 in *. lia.
Qed.

Lemma be32_u32 b p : bytes_ok b -> is_u32 (be32 b p).
Proof.
  intros Hb. pose proof (byte_at_u8 b p Hb). pose proof (byte_at_u8 b (p + 1) Hb).
  pose proof (byte_at_u8 b (p + 2) Hb). pose proof (byte_at_u8 b (p + 3) Hb).
  unfold be32, is_u8, is_u32 in *. lia.
Qed.

Lemma read_be16_ok b p :
  bytes_ok b -> 0 <= p -> p + 2 <= zlen b -> sfu_read_be16 b p = Ok (be16 b p).
Proof.
  intros Hb Hp Hl. unfold sfu_read_be16. do 2 buf_step. f_equal.
  pose proof (be16_u16 b p Hb). pose proof (byte_at_u8 b (p + 1) Hb).
  rewrite lor_shiftl_add by (unfold is_u8 in *; lia). unfold be16 in *. dlia.
Qed.

Lemma read_be24_ok b p :
  bytes_ok b -> 0 <= p -> p + 3 <= zlen b -> sfu_read_be24 b p = Ok (be24 b p).
Proof.
  intros Hb Hp Hl. unfold sfu_read_be24. do 3 buf_step. f_equal.
  pose proof (byte_at_u8 b (p + 1) Hb). pose proof (byte_at_u8 b (p + 2) Hb).
  replace (Z.shiftl (byte_at b p) 16) with (Z.shiftl (Z.shiftl (byte_at b p) 8) 8)
    by (rewrite Z.shiftl_shiftl by lia; done).
  rewrite <- Z.shiftl_lor, !lor_shiftl_add by (unfold is_u8 in *; lia). unfold be24. lia.
Qed.

Lemma read_be32_ok b p :
  bytes_ok b -> 0 <= p -> p + 4 <= zlen b -> sfu_read_be32 b p = Ok (be32 b p).
Proof.
  intros Hb Hp Hl. unfold sfu_read_be32. do 4 buf_step. f_equal.
  pose proof (byte_at_u8 b (p + 1) Hb). pose proof (byte_at_u8 b (p + 2) Hb).
  pose proof (byte_at_u8 b (p + 3) Hb).
  replace (Z.shiftl (byte_at b p) 24) with (Z.shiftl (Z.shiftl (Z.shiftl (byte_at b p) 8) 8) 8)
    by (rewrite !Z.shiftl_shiftl by lia; done).
  replace (Z.shiftl (byte_at b (p + 1)) 16) with (Z.shiftl (Z.shiftl (byte_at b (p + 1)) 8) 8)
    by (rewrite !Z.shiftl_shiftl by lia; done).
  rewrite <- !Z.shiftl_lor, !lor_shiftl_add by (unfold is_u8 in *; lia). unfold be32. lia.
Qed.

Lemma write_be16_ok b p v :
  0 <= p -> p + 2 <= zlen b -> sfu_write_be16 b p v = Ok (patch b p (enc16 v)).
Proof.
  intros. unfold sfu_write_be16, wr. buf_step.
  rewrite wr_n_ok by zlen. f_equal.
  rewrite (patch_patch_adj b p [_] [_]) by zlen.
  unfold enc16, u8. by rewrite Z.shiftr_div_pow2.
Qed.

Lemma write_be32_ok b p v :
  0 <= p -> p + 4 <= zlen b -> sfu_write_be32 b p v = Ok (patch b p (enc32 v)).
Proof.
  intros. unfold sfu_write_be32, wr. buf_step.
  do 3 (rewrite wr_n_ok by zlen; cbn [res_bind]).
  f_equal. rewrite (patch_patch_adj b p [_] [_]) by zlen.
  cbn [app]. rewrite (patch_patch_adj b p [_; _] [_]) by zlen.
  cbn [app]. rewrite (patch_patch_adj b p [_; _; _] [_]) by zlen.
  unfold enc32, u8. by rewrite !Z.shiftr_div_pow2.
Qed.

Lemma write_be16_wr_n b p v : sfu_write_be16 b p v = wr_n b p (enc16 v).
Proof.
  destruct (decide (0 <= p /\ p + 2 <= zlen b)) as [[? ?]|Hn].
  - by rewrite write_be16_ok, wr_n_ok by (done || zlen).
  - assert (E : wr_n b p (enc16 v) = Fault).
    { unfold wr_n. change (zlen (enc16 v)) with 2.
      destruct (Z.leb_spec 0 p), (Z.leb_spec (p + 2) (zlen b)); simpl; try done. lia. }
    rewrite E. unfold sfu_write_be16, wr, wr_n at 1. change (zlen [_]) with 1.
    destruct (Z.leb_spec 0 p), (Z.leb_spec (p + 1) (zlen b)); simpl; try done.
    unfold wr_n. change (zlen [_]) with 1. rewrite zlen_patch by zlen.
    by destruct (Z.leb_spec 0 (p + 1)), (Z.leb_spec (p + 1 + 1) (zlen b)); simpl; try lia.
Qed.

(** * Encoding and decoding are inverse *)

Lemma be16_app_r b c k : 0 <= k -> be16 (b ++ c) (zlen b + k) = be16 c k.
Proof.
  intros. pose proof (zlen_nonneg b). unfold be16. rewrite !byte_at_app by lia.
  decide_ifs.
  replace (zlen b + k - zlen b) with k by lia.
  by replace (zlen b + k + 1 - zlen b) with (k + 1) by lia.
Qed.

Lemma be16_app_0 b c : be16 (b ++ c) (zlen b) = be16 c 0.
Proof. rewrite <- (be16_app_r b c 0) by done. by rewrite Z.add_0_r. Qed.

Lemma be32_app_r b c k : 0 <= k -> be32 (b ++ c) (zlen b + k) = be32 c k.
Proof.
  intros. pose proof (zlen_nonneg b). unfold be32. rewrite !byte_at_app by lia.
  decide_ifs. by repeat (f_equal; try lia).
Qed.

Lemma be24_app_r b c k : 0 <= k -> be24 (b ++ c) (zlen b + k) = be24 c k.
Proof.
  intros. pose proof (zlen_nonneg b). unfold be24. rewrite !byte_at_app by lia.
  decide_ifs. by repeat (f_equal; try lia).
Qed.

Lemma be16_enc16 v c : is_u16 v -> be16 (enc16 v ++ c) 0 = v.
Proof. intros. change (v / 256 mod 256 * 256 + v mod 256 = v). dlia. Qed.

Lemma be32_enc32 v c : is_u32 v -> be32 (enc32 v ++ c) 0 = v.
Proof.
  intros. change (v / 16777216 mod 256 * 16777216 + v / 65536 mod 256 * 65536
                  + v / 256 mod 256 * 256 + v mod 256 = v). dlia.
Qed.

Lemma be16_at A v C i : is_u16 v -> i = zlen A -> be16 (A ++ enc16 v ++ C) i = v.
Proof. intros Hv ->. rewrite be16_app_0. by apply be16_enc16. Qed.
Lemma be32_at A v C i : is_u32 v -> i = zlen A -> be32 (A ++ enc32 v ++ C) i = v.
Proof. intros Hv ->. rewrite <- (Z.add_0_r (zlen A)), be32_app_r by done. by apply be32_enc32. Qed.

Lemma enc16_be16 b p : bytes_ok b -> enc16 (be16 b p) = [byte_at b p; byte_at b (p + 1)].
Proof.
  intros Hb. pose proof (byte_at_u8 b p Hb). pose proof (byte_at_u8 b (p + 1) Hb).
  unfold enc16, be16. do 2 f_equal; [|f_equal]; dlia.
Qed.

Lemma enc32_be32 b p :
  bytes_ok b ->
  enc32 (be32 b p) = [byte_at b p; byte_at b (p + 1); byte_at b (p + 2); byte_at b (p + 3)].
Proof.
  intros Hb. pose proof (byte_at_u8 b p Hb). pose proof (byte_at_u8 b (p + 1) Hb).
  pose proof (byte_at_u8 b (p + 2) Hb). pose proof (byte_at_u8 b (p + 3) Hb).
  unfold enc32, be32. repeat f_equal; dlia.
Qed.

Lemma enc16_slice b p :
  bytes_ok b -> 0 <= p -> p + 2 <= zlen b -> enc16 (be16 b p) = slice b p 2.
Proof. intros. by rewrite enc16_be16, slice_2. Qed.

Lemma enc32_slice b p :
  bytes_ok b -> 0 <= p -> p + 4 <= zlen b -> enc32 (be32 b p) = slice b p 4.
Proof. intros. by rewrite enc32_be32, slice_4. Qed.

Lemma enc16_bytes_ok v : bytes_ok (enc16 v).
Proof. repeat constructor; dlia. Qed.

Lemma enc32_bytes_ok v : bytes_ok (enc32 v).
Proof. repeat constructor; dlia. Qed.

Lemma zlen_enc16 v : zlen (enc16 v) = 2.
Proof. done. Qed.

Lemma zlen_enc32 v : zlen (enc32 v) = 4.
Proof. done. Qed.

#[export] Hint Resolve enc16_bytes_ok enc32_bytes_ok be16_u16 be32_u32 : sfu.
#[export] Hint Rewrite zlen_enc16 zlen_enc32 : zlen.

(** Run the in-bounds buffer accesses of a routine, one after the other. *)
Ltac buf_run :=
  unfold memmove, memset, wr;
  repeat (first
    [ progress cbn [res_bind]
    | rewrite rd_ok by zlen | rewrite rd_n_ok by zlen | rewrite wr_n_ok by zlen
    | rewrite write_be16_ok by zlen | rewrite write_be32_ok by zlen ]).
