(* ===== verification/RtpPacket.v ===== *)
(** RTP packets, [src/rtp/rtp_packet.c]: the header parser and the in-place
    field setters, related to the packet grammar of RFC 3550. *)

From S2P Require Import Prelude NetBytes.

Definition RTP_FIXED_HEADER_LEN : Z := 12.

(** [extension_data] and [payload] are pointers into the datagram: they are
    kept as offsets, [None] standing for the [NULL] left by [memset]. *)
Record sfu_rtp_packet := mk_rtp_packet {
  version : Z;
  padding : bool;
  extension : bool;
  csrc_count : Z;
  marker : bool;
  payload_type : Z;
  sequence_number : Z;
  timestamp : Z;
  ssrc : Z;
  extension_profile : Z;
  extension_data : option Z;
  extension_length : Z;
  header_len : Z;
  payload : Z;
  payload_len : Z
}.
#[export] Instance eta_rtp_packet : Eta sfu_rtp_packet := fun r =>
  mk_rtp_packet (version r) (padding r) (extension r) (csrc_count r) (marker r)
    (payload_type r) (sequence_number r) (timestamp r) (ssrc r)
    (extension_profile r) (extension_data r) (extension_length r)
    (header_len r) (payload r) (payload_len r).

(** The optional header extension: profile, data offset, length and the
    header length after it. *)
Definition parse_extension (data : list Z) (len : Z) (has : bool) (hlen : Z)
  : res (Z * option Z * Z * Z) :=
  if has then
    reject (len - hlen <? 4) (
    let! profile := sfu_read_be16 data hlen in
    let! words := sfu_read_be16 data (hlen + 2) in
    let extension_bytes := words * 4 in
    let hlen := hlen + 4 in
    reject (len - hlen <? extension_bytes) (
    Ok (profile, Some hlen, extension_bytes, hlen + extension_bytes)))
  else Ok (0, None, 0, hlen).

(** The payload length once the padding count in the last byte is removed. *)
Definition strip_padding (data : list Z) (len : Z) (has : bool) (span : Z) : res Z :=
  if has then
    reject (span =? 0) (
    let! padding_count := rd data (len - 1) in
    reject ((padding_count =? 0) || (span <? padding_count)) (
    Ok (span - padding_count)))
  else Ok span.

Definition sfu_rtp_packet_parse (data : list Z) (len : Z) : res sfu_rtp_packet :=
  reject (len <? RTP_FIXED_HEADER_LEN) (
  let! d0 := rd data 0 in
  let version := Z.shiftr d0 6 in
  reject (negb (version =? 2)) (
  let! d1 := rd data 1 in
  let padding := negb (Z.land d0 0x20 =? 0) in
  let extension := negb (Z.land d0 0x10 =? 0) in
  let csrc_count := Z.land d0 0x0f in
  let! sequence_number := sfu_read_be16 data 2 in
  let! timestamp := sfu_read_be32 data 4 in
  let! ssrc := sfu_read_be32 data 8 in
  let hlen := RTP_FIXED_HEADER_LEN + csrc_count * 4 in
  reject (len <? hlen) (
  let! ext := parse_extension data len extension hlen in
  let '(profile, ext_data, ext_len, hlen) := ext in
  let! plen := strip_padding data len padding (len - hlen) in
  Ok (mk_rtp_packet version padding extension csrc_count
        (negb (Z.land d1 0x80 =? 0)) (Z.land d1 0x7f)
        sequence_number timestamp ssrc profile ext_data ext_len hlen hlen plen)))).

Definition sfu_rtp_packet_set_pt (data : list Z) (len pt : Z) : res (list Z) :=
  reject ((len <? RTP_FIXED_HEADER_LEN) || (127 <? pt)) (
  let! d1 := rd data 1 in
  wr data 1 (u8 (Z.lor (Z.land d1 0x80) pt))).

Definition sfu_rtp_packet_set_marker (data : list Z) (len : Z) (m : bool) : res (list Z) :=
  reject (len <? RTP_FIXED_HEADER_LEN) (
  let! d1 := rd data 1 in
  if m then wr data 1 (Z.lor d1 0x80) else wr data 1 (Z.land d1 0x7f)).

Definition sfu_rtp_packet_set_seq (data : list Z) (len seq : Z) : res (list Z) :=
  reject (len <? RTP_FIXED_HEADER_LEN) (sfu_write_be16 data 2 seq).

Definition sfu_rtp_packet_set_ssrc (data : list Z) (len s : Z) : res (list Z) :=
  reject (len <? RTP_FIXED_HEADER_LEN) (sfu_write_be32 data 8 s).

(** * The packet grammar of RFC 3550

    An abstract packet and its wire image: fixed header, contributing
    sources, optional extension block, payload, optional padding whose last
    byte counts it. *)

Record rtp_abs := mk_rtp_abs {
  a_marker : bool; a_pt : Z; a_seq : Z; a_ts : Z; a_ssrc : Z;
  a_csrcs : list Z;
  a_ext : option (Z * list Z);
  a_payload : list Z;
  a_pad : option (list Z)
}.
#[export] Instance eta_rtp_abs : Eta rtp_abs := fun a =>
  mk_rtp_abs (a_marker a) (a_pt a) (a_seq a) (a_ts a) (a_ssrc a) (a_csrcs a) (a_ext a)
    (a_payload a) (a_pad a).

Definition ext_wire (e : option (Z * list Z)) : list Z :=
  match e with
  | None => []
  | Some (profile, body) => enc16 profile ++ enc16 (zlen body / 4) ++ body
  end.
Definition pad_wire (p : option (list Z)) : list Z :=
  match p with None => [] | Some filler => filler ++ [zlen filler + 1] end.
Definition is_some {A} (o : option A) : bool := match o with Some _ => true | None => false end.
Definition flag (b : bool) (v : Z) : Z := if b then v else 0.

Definition fixed_header (a : rtp_abs) : list Z :=
  [128 + flag (is_some (a_pad a)) 32 + flag (is_some (a_ext a)) 16 + zlen (a_csrcs a) / 4;
   flag (a_marker a) 128 + a_pt a] ++ enc16 (a_seq a) ++ enc32 (a_ts a) ++ enc32 (a_ssrc a).
Definition rtp_wire (a : rtp_abs) : list Z :=
  fixed_header a ++ a_csrcs a ++ ext_wire (a_ext a) ++ a_payload a ++ pad_wire (a_pad a).

Definition ext_wf (e : option (Z * list Z)) : Prop :=
  match e with
  | None => True
  | Some (profile, body) =>
      is_u16 profile /\ bytes_ok body /\ zlen body mod 4 = 0 /\ zlen body / 4 <= 65535
  end.
Definition pad_wf (p : option (list Z)) : Prop :=
  match p with None => True | Some filler => bytes_ok filler /\ zlen filler <= 254 end.
Definition rtp_abs_wf (a : rtp_abs) : Prop :=
  0 <= a_pt a <= 127 /\ is_u16 (a_seq a) /\ is_u32 (a_ts a) /\ is_u32 (a_ssrc a) /\
  bytes_ok (a_csrcs a) /\ zlen (a_csrcs a) mod 4 = 0 /\ zlen (a_csrcs a) <= 60 /\
  ext_wf (a_ext a) /\ bytes_ok (a_payload a) /\ pad_wf (a_pad a).

(** What the parser must report for an abstract packet. *)
Definition rtp_view (a : rtp_abs) : sfu_rtp_packet :=
  let base := 12 + zlen (a_csrcs a) in
  let hlen := base + zlen (ext_wire (a_ext a)) in
  {| version := 2; padding := is_some (a_pad a); extension := is_some (a_ext a);
     csrc_count := zlen (a_csrcs a) / 4; marker := a_marker a; payload_type := a_pt a;
     sequence_number := a_seq a; timestamp := a_ts a; ssrc := a_ssrc a;
     extension_profile := match a_ext a with Some (p, _) => p | None => 0 end;
     extension_data := match a_ext a with Some _ => Some (base + 4) | None => None end;
     extension_length := match a_ext a with Some (_, e) => zlen e | None => 0 end;
     header_len := hlen; payload := hlen; payload_len := zlen (a_payload a) |}.

Definition ex_abs : rtp_abs :=
  mk_rtp_abs true 98 65535 7 4294967295 [1;2;3;4] (Some (48862, [16;170;0;0])) [9;8;7] (Some [0;0]).
Example parse_ex : sfu_rtp_packet_parse (rtp_wire ex_abs) (zlen (rtp_wire ex_abs)) = Ok (rtp_view ex_abs).
Proof. vm_compute. reflexivity. Qed.

(** * Memory safety *)

Lemma parse_extension_no_fault data len has hlen :
  bytes_ok data -> len <= zlen data -> 0 <= hlen -> parse_extension data len has hlen <> Fault.
Proof.
  intros Hb Hl Hh. destruct has; [|done]. apply reject_no_fault. intros ?. bool_hyps.
  rewrite !read_be16_ok by (done || lia). cbn [res_bind].
  apply reject_no_fault. done.
Qed.

Lemma parse_extension_inv data len has hlen profile off elen hlen' :
  bytes_ok data -> len <= zlen data -> 0 <= hlen <= len ->
  parse_extension data len has hlen = Ok (profile, off, elen, hlen') ->
  hlen <= hlen' <= len.
Proof.
  intros Hb Hl Hh. destruct has; simpl; intros E; res_inv; [|lia].
  match goal with H : sfu_read_be16 data (hlen + 2) = Ok _ |- _ =>
    rewrite read_be16_ok in H by (done || lia) end.
  res_inv. pose proof (be16_u16 data (hlen + 2) Hb). unfold is_u16 in *. lia.
Qed.

Lemma strip_padding_no_fault data len has span :
  0 <= span <= len -> len <= zlen data -> strip_padding data len has span <> Fault.
Proof.
  intros. destruct has; [|done]. apply reject_no_fault. intros ?. bool_hyps.
  buf_step. by apply reject_no_fault.
Qed.

(** Parsing any datagram reads only bytes inside the [len] bytes it was
    given and always returns. *)
Theorem rtp_parse_memory_safe data len :
  bytes_ok data -> len <= zlen data -> sfu_rtp_packet_parse data len <> Fault.
Proof.
  intros Hb Hl. apply reject_no_fault. unfold RTP_FIXED_HEADER_LEN. intros ?. bool_hyps.
  buf_step. apply reject_no_fault. intros _. buf_step.
  rewrite read_be16_ok, !read_be32_ok by (done || lia). cbn [res_bind].
  apply reject_no_fault. intros ?. bool_hyps.
  assert (0 <= Z.land (byte_at data 0) 15) by (apply Z.land_nonneg; lia).
  apply res_bind_no_fault; [apply parse_extension_no_fault; done || lia|].
  intros [[[profile off] elen] hlen] E.
  apply parse_extension_inv in E; [|done|lia|lia].
  apply res_bind_no_fault; [|done]. apply strip_padding_no_fault; lia.
Qed.

Lemma rtp_parse_memory_safe_witness :
  sfu_rtp_packet_parse (rtp_wire ex_abs) (zlen (rtp_wire ex_abs)) <> Fault.
Proof. apply rtp_parse_memory_safe; [apply bytes_okb_ok; reflexivity|reflexivity]. Defined.

(** * The parser accepts exactly the packets of the grammar *)

Lemma byte0_fields p x cc :
  0 <= cc <= 15 ->
  let b := 128 + flag p 32 + flag x 16 + cc in
  Z.shiftr b 6 = 2 /\ negb (Z.land b 0x20 =? 0) = p /\
  negb (Z.land b 0x10 =? 0) = x /\ Z.land b 0x0f = cc /\ is_u8 b.
Proof.
  intros Hcc b.
  assert (Hb : is_u8 cc) by (unfold is_u8; lia).
  pose proof (byte_forall (fun c => (15 <? c) ||
    let b := 128 + flag p 32 + flag x 16 + c in
    (Z.shiftr b 6 =? 2) && eqb (negb (Z.land b 0x20 =? 0)) p &&
    eqb (negb (Z.land b 0x10 =? 0)) x && (Z.land b 0x0f =? c) && (0 <=? b) && (b <? 256))) as H.
  specialize (H ltac:(destruct p, x; vm_compute; reflexivity) cc Hb). cbv beta zeta in H.
  apply orb_true_iff in H as [?|H]; [lia|]. fold b in H. bool_hyps.
  rewrite !eqb_true_iff in *. unfold is_u8. auto with lia.
Qed.

Lemma byte0_rebuild b :
  is_u8 b -> Z.shiftr b 6 = 2 ->
  b = 128 + flag (negb (Z.land b 0x20 =? 0)) 32 + flag (negb (Z.land b 0x10 =? 0)) 16 + Z.land b 0x0f
  /\ 0 <= Z.land b 0x0f <= 15.
Proof.
  intros Hb H6.
  pose proof (byte_forall (fun b => negb (Z.shiftr b 6 =? 2) ||
    ((b =? 128 + flag (negb (Z.land b 0x20 =? 0)) 32 + flag (negb (Z.land b 0x10 =? 0)) 16
           + Z.land b 0x0f) && (0 <=? Z.land b 0x0f) && (Z.land b 0x0f <=? 15)))
    ltac:(vm_compute; reflexivity) b Hb) as H.
  cbv beta in H. rewrite H6 in H. simpl in H. bool_hyps. auto.
Qed.

Lemma byte1_fields m pt :
  0 <= pt <= 127 ->
  let b := flag m 128 + pt in
  negb (Z.land b 0x80 =? 0) = m /\ Z.land b 0x7f = pt /\ is_u8 b.
Proof.
  intros Hpt b. assert (Hb : is_u8 pt) by (unfold is_u8; lia).
  pose proof (byte_forall (fun c => (127 <? c) ||
    let b := flag m 128 + c in
    eqb (negb (Z.land b 0x80 =? 0)) m && (Z.land b 0x7f =? c) && (0 <=? b) && (b <? 256))) as H.
  specialize (H ltac:(destruct m; vm_compute; reflexivity) pt Hb). cbv beta zeta in H.
  apply orb_true_iff in H as [?|H]; [lia|]. fold b in H. bool_hyps.
  rewrite !eqb_true_iff in *. unfold is_u8. auto with lia.
Qed.

Lemma byte1_rebuild b :
  is_u8 b -> b = flag (negb (Z.land b 0x80 =? 0)) 128 + Z.land b 0x7f /\ 0 <= Z.land b 0x7f <= 127.
Proof.
  intros Hb.
  pose proof (byte_forall (fun b =>
    ((b =? flag (negb (Z.land b 0x80 =? 0)) 128 + Z.land b 0x7f) &&
     (0 <=? Z.land b 0x7f) && (Z.land b 0x7f <=? 127)))
    ltac:(vm_compute; reflexivity) b Hb) as H.
  cbv beta in H. bool_hyps. auto.
Qed.

Lemma ext_wire_bytes_ok e : ext_wf e -> bytes_ok (ext_wire e).
Proof.
  destruct e as [[profile body]|]; [intros (? & ? & _)|intros _]; unfold ext_wire; auto with sfu.
Qed.

Lemma pad_wire_bytes_ok p : pad_wf p -> bytes_ok (pad_wire p).
Proof.
  destruct p as [filler|]; [intros [? ?]|intros _]; unfold pad_wire; [|auto with sfu].
  pose proof (zlen_nonneg filler).
  apply bytes_ok_app; [done|]. apply bytes_ok_cons; [unfold is_u8; lia|auto with sfu].
Qed.

Lemma zlen_ext_wire e :
  zlen (ext_wire e) = match e with None => 0 | Some (_, body) => 4 + zlen body end.
Proof. destruct e as [[profile body]|]; simpl; [|done]. unfold enc16. zlen. Qed.

Lemma fixed_header_bytes_ok a : rtp_abs_wf a -> bytes_ok (fixed_header a).
Proof.
  intros (? & _ & _ & _ & _ & ? & ? & _). pose proof (zlen_nonneg (a_csrcs a)).
  unfold fixed_header. apply bytes_ok_app; [|auto with sfu].
  apply bytes_ok_cons; [apply byte0_fields; dlia|].
  apply bytes_ok_cons; [by apply byte1_fields|auto with sfu].
Qed.

Lemma rtp_wire_bytes_ok a : rtp_abs_wf a -> bytes_ok (rtp_wire a).
Proof.
  intros Hwf. pose proof (fixed_header_bytes_ok a Hwf).
  destruct Hwf as (_ & _ & _ & _ & ? & _ & _ & ? & ? & ?).
  unfold rtp_wire. auto 8 using ext_wire_bytes_ok, pad_wire_bytes_ok with sfu.
Qed.

Lemma parse_extension_wire pre e post has hlen len :
  ext_wf e -> bytes_ok (pre ++ ext_wire e ++ post) -> has = is_some e -> hlen = zlen pre ->
  len <= zlen (pre ++ ext_wire e ++ post) -> zlen (pre ++ ext_wire e) <= len ->
  parse_extension (pre ++ ext_wire e ++ post) len has hlen =
    Ok (match e with Some (p, _) => p | None => 0 end,
        match e with Some _ => Some (hlen + 4) | None => None end,
        match e with Some (_, b) => zlen b | None => 0 end, hlen + zlen (ext_wire e)).
Proof.
  intros Hwf Hb -> -> Hl Hl2. pose proof (zlen_nonneg pre).
  rewrite zlen_app, zlen_ext_wire in Hl2. rewrite zlen_ext_wire.
  destruct e as [[profile body]|]; cbn [ext_wire ext_wf is_some parse_extension] in *;
    [|by rewrite Z.add_0_r].
  destruct Hwf as (Hp & _ & Hm & Hw). pose proof (zlen_nonneg body).
  rewrite reject_false by lia.
  rewrite !read_be16_ok by (done || zlen). cbn [res_bind].
  rewrite <- !app_assoc, be16_app_r by lia.
  rewrite !be16_app_0, !be16_enc16 by (done || dlia).
  replace (zlen body / 4 * 4) with (zlen body) by dlia.
  rewrite reject_false by lia. do 2 f_equal. lia.
Qed.

Lemma strip_padding_wire pre p post has len span :
  pad_wf p -> has = is_some p -> len = zlen pre + zlen (pad_wire p) ->
  zlen (pad_wire p) <= span ->
  strip_padding (pre ++ pad_wire p ++ post) len has span = Ok (span - zlen (pad_wire p)).
Proof.
  intros Hwf -> -> Hs. pose proof (zlen_nonneg pre). pose proof (zlen_nonneg post).
  destruct p as [filler|]; cbn [pad_wire is_some strip_padding] in *;
    [|by rewrite zlen_nil, Z.sub_0_r].
  assert (Hz : zlen (filler ++ [zlen filler + 1]) = zlen filler + 1) by zlen.
  rewrite Hz in *. zlen_pos. rewrite reject_false by lia.
  rewrite rd_ok by zlen. cbn [res_bind]. rewrite !byte_at_app by lia. rewrite Hz. decide_ifs.
  replace (zlen pre + (zlen filler + 1) - 1 - zlen pre - zlen filler) with 0 by lia.
  change (byte_at [zlen filler + 1] 0) with (zlen filler + 1).
  by rewrite reject_false by lia.
Qed.

(** Every wire image is accepted and read back. *)
Lemma rtp_parse_wire a rest :
  rtp_abs_wf a -> bytes_ok rest ->
  sfu_rtp_packet_parse (rtp_wire a ++ rest) (zlen (rtp_wire a)) = Ok (rtp_view a).
Proof.
  intros Hwf Hr. pose proof (rtp_wire_bytes_ok a Hwf) as Hb.
  assert (Hb' : bytes_ok (rtp_wire a ++ rest)) by (by apply Forall_app).
  destruct Hwf as (Hpt & Hseq & Hts & Hss & Hc & Hc4 & Hc60 & He & Hp & Hpad).
  assert (Hlen : zlen (rtp_wire a) = 12 + zlen (a_csrcs a) + zlen (ext_wire (a_ext a))
                  + zlen (a_payload a) + zlen (pad_wire (a_pad a))).
  { unfold rtp_wire, fixed_header, enc16, enc32. zlen. }
  pose proof (zlen_nonneg (a_csrcs a)). pose proof (zlen_nonneg (ext_wire (a_ext a))).
  pose proof (zlen_nonneg (a_payload a)). pose proof (zlen_nonneg (pad_wire (a_pad a))).
  pose proof (zlen_nonneg rest).
  unfold sfu_rtp_packet_parse, RTP_FIXED_HEADER_LEN. rewrite reject_false by lia.
  rewrite !rd_ok, read_be16_ok, !read_be32_ok by (done || zlen). cbn [res_bind].
  destruct (byte0_fields (is_some (a_pad a)) (is_some (a_ext a)) (zlen (a_csrcs a) / 4))
    as (E6 & Ep & Ex & Ecc & _); [dlia|].
  destruct (byte1_fields (a_marker a) (a_pt a)) as (Em & Ept & _); [done|].
  change (byte_at (rtp_wire a ++ rest) 0) with
    (128 + flag (is_some (a_pad a)) 32 + flag (is_some (a_ext a)) 16 + zlen (a_csrcs a) / 4).
  change (byte_at (rtp_wire a ++ rest) 1) with (flag (a_marker a) 128 + a_pt a).
  rewrite E6, Ep, Ex, Ecc, Em, Ept. rewrite reject_false by done.
  replace (be16 (rtp_wire a ++ rest) 2) with (a_seq a)
    by (symmetry; apply (be16_enc16 (a_seq a) []); done).
  replace (be32 (rtp_wire a ++ rest) 4) with (a_ts a)
    by (symmetry; apply (be32_enc32 (a_ts a) []); done).
  replace (be32 (rtp_wire a ++ rest) 8) with (a_ssrc a)
    by (symmetry; apply (be32_enc32 (a_ssrc a) []); done).
  replace (12 + zlen (a_csrcs a) / 4 * 4) with (12 + zlen (a_csrcs a)) by dlia.
  rewrite reject_false by lia.
  assert (Hsplit : rtp_wire a ++ rest =
    (fixed_header a ++ a_csrcs a) ++ ext_wire (a_ext a) ++
      (a_payload a ++ pad_wire (a_pad a) ++ rest)) by (unfold rtp_wire; by rewrite <- !app_assoc).
  rewrite Hsplit at 1. rewrite parse_extension_wire; [|try done..].
  2: { by rewrite <- Hsplit. }
  2: { unfold fixed_header, enc16, enc32. zlen. }
  2: { rewrite <- Hsplit. zlen. }
  2: { unfold fixed_header, enc16, enc32. zlen. }
  cbn [res_bind].
  replace (rtp_wire a ++ rest) with
    ((fixed_header a ++ a_csrcs a ++ ext_wire (a_ext a) ++ a_payload a) ++ pad_wire (a_pad a) ++ rest)
    by (unfold rtp_wire; by rewrite <- !app_assoc).
  rewrite strip_padding_wire; [|try done..].
  2: { rewrite Hlen. unfold fixed_header, enc16, enc32. zlen. }
  2: lia.
  cbn [res_bind]. unfold rtp_view. do 2 f_equal. lia.
Qed.

(** Conversely, what the two optional blocks read is a block of the grammar. *)
Lemma parse_extension_split data len has hlen profile off elen hlen' :
  bytes_ok data -> len <= zlen data -> 0 <= hlen <= len ->
  parse_extension data len has hlen = Ok (profile, off, elen, hlen') ->
  exists e, ext_wf e /\ is_some e = has /\ hlen' = hlen + zlen (ext_wire e) /\
    ext_wire e = slice data hlen (hlen' - hlen) /\
    profile = match e with Some (p, _) => p | None => 0 end /\
    off = match e with Some _ => Some (hlen + 4) | None => None end /\
    elen = match e with Some (_, b) => zlen b | None => 0 end.
Proof.
  intros Hb Hl Hh. destruct has; cbn [parse_extension]; intros E; res_inv.
  2: { exists None. rewrite Z.sub_diag, slice_0. cbn. by rewrite Z.add_0_r. }
  rewrite read_be16_ok in * by (done || lia). res_inv.
  pose proof (be16_u16 data hlen Hb) as Hp. pose proof (be16_u16 data (hlen + 2) Hb) as Hw16.
  set (w := be16 data (hlen + 2)) in *. unfold is_u16 in Hw16.
  assert (Hz : zlen (slice data (hlen + 4) (w * 4)) = w * 4) by zlen.
  assert (Hw : ext_wire (Some (be16 data hlen, slice data (hlen + 4) (w * 4))) =
               slice data hlen (hlen + 4 + w * 4 - hlen)).
  { cbn [ext_wire]. rewrite Hz, Z.div_mul by done. unfold w.
    rewrite !enc16_slice by (done || lia).
    rewrite (app_assoc (slice data hlen 2)), <- slice_split, <- slice_split by lia.
    f_equal. lia. }
  eexists (Some (_, _)). split_and!; [|done| |exact Hw|done..|by rewrite Hz].
  - cbn. rewrite Hz, Z.div_mul by done. split_and!; [done|auto with sfu|dlia|lia].
  - rewrite Hw. zlen.
Qed.

Lemma strip_padding_split data len has span plen :
  bytes_ok data -> len <= zlen data -> 0 <= span <= len ->
  strip_padding data len has span = Ok plen ->
  exists p, pad_wf p /\ is_some p = has /\ 0 <= plen /\ span = plen + zlen (pad_wire p) /\
    pad_wire p = slice data (len - span + plen) (span - plen).
Proof.
  intros Hb Hl Hs. destruct has; cbn [strip_padding]; intros E; res_inv.
  2: { exists None. rewrite Z.sub_diag, slice_0. cbn [pad_wf pad_wire is_some].
       split_and!; done || zlen. }
  rewrite rd_ok in * by lia. res_inv.
  pose proof (byte_at_u8 data (len - 1) Hb) as Hc. unfold is_u8 in Hc.
  set (c := byte_at data (len - 1)) in *.
  assert (Hz : zlen (slice data (len - c) (c - 1)) = c - 1) by zlen.
  exists (Some (slice data (len - c) (c - 1))). cbn [pad_wf is_some pad_wire].
  rewrite !zlen_app, zlen_cons, @zlen_nil, Hz.
  replace (len - span + (span - c)) with (len - c) by lia.
  replace (span - (span - c)) with ((c - 1) + 1) by lia.
  rewrite slice_split, (slice_cons _ (len - c + (c - 1))) by lia.
  replace (len - c + (c - 1)) with (len - 1) by lia. fold c.
  replace (c - 1 + 1) with c by lia.
  split_and!; [auto with sfu|lia|done|lia|lia|done].
Qed.

Lemma rtp_parse_sound data len p :
  bytes_ok data -> len <= zlen data -> sfu_rtp_packet_parse data len = Ok p ->
  exists a, rtp_abs_wf a /\ slice data 0 len = rtp_wire a /\ p = rtp_view a.
Proof.
  unfold sfu_rtp_packet_parse, RTP_FIXED_HEADER_LEN. intros Hb Hl E.
  apply reject_ok in E as [Hlen E]. bool_hyps. revert E.
  rewrite !rd_ok, read_be16_ok, !read_be32_ok by (done || lia). cbn [res_bind]. intros E.
  apply reject_ok in E as [Hv E]. apply reject_ok in E as [Hcc E]. bool_hyps.
  pose proof (byte_at_u8 data 0 Hb) as H0. pose proof (byte_at_u8 data 1 Hb) as H1.
  destruct (byte0_rebuild _ H0 Hv) as [B0 Hcc15]. destruct (byte1_rebuild _ H1) as [B1 Hpt].
  set (cc := Z.land (byte_at data 0) 15) in *.
  apply res_bind_ok in E as ([[[profile off] elen] hlen] & E1 & E).
  assert (12 + cc * 4 <= hlen <= len)
    by (eapply parse_extension_inv; [..|exact E1]; done || lia).
  apply parse_extension_split in E1 as (e & He & Hse & Hh & Hew & -> & -> & ->); [|done|lia..].
  apply res_bind_ok in E as (plen & E2 & E). pose proof (zlen_nonneg (ext_wire e)).
  apply strip_padding_split in E2 as (pd & Hpd & Hsp & Hpl & Hspan & Hpw); [|done|lia..].
  injection E as <-. exists (mk_rtp_abs (negb (Z.land (byte_at data 1) 0x80 =? 0))
    (Z.land (byte_at data 1) 0x7f) (be16 data 2) (be32 data 4) (be32 data 8)
    (slice data 12 (cc * 4)) e (slice data hlen plen) pd).
  assert (Hz : zlen (slice data 12 (cc * 4)) = cc * 4) by zlen.
  split_and!.
  - unfold rtp_abs_wf. cbn. rewrite Hz. split_and!; auto with sfu; try lia. dlia.
  - unfold rtp_wire, fixed_header. cbn [a_pad a_ext a_csrcs a_marker a_pt a_seq a_ts a_ssrc a_payload].
    rewrite Hz, Z.div_mul, Hse, Hsp, Hew, Hpw, <- B0, <- B1 by done.
    change (byte_at data 1) with (byte_at data (0 + 1)).
    rewrite enc16_slice, !enc32_slice, <- (slice_2 data 0) by (done || lia).
    zlen_pos. rewrite <- !app_assoc. rewrite !slice_join by lia. f_equal. lia.
  - unfold rtp_view. cbn. rewrite Hz, Z.div_mul by done. f_equal; try done; try lia. zlen.
Qed.

(** C17: the parser accepts exactly the datagrams that are packets of the RFC
    3550 grammar, and reports their fields: fixed header, contributing
    sources, extension block, payload span and padding. *)
Theorem rtp_parse_iff_grammar data len p :
  bytes_ok data -> len <= zlen data ->
  sfu_rtp_packet_parse data len = Ok p <->
  exists a, rtp_abs_wf a /\ len = zlen (rtp_wire a) /\ slice data 0 len = rtp_wire a /\ p = rtp_view a.
Proof.
  intros Hb Hl. split.
  - intros E. assert (0 <= len).
    { apply reject_ok in E as [E _]. unfold RTP_FIXED_HEADER_LEN in E. lia. }
    destruct (rtp_parse_sound _ _ _ Hb Hl E) as (a & Hwf & Hs & ->).
    exists a. split_and!; [done| |done..]. rewrite <- Hs. zlen.
  - intros (a & Hwf & -> & Hs & ->).
    rewrite (slice_prefix_split data (zlen (rtp_wire a))), Hs by (split; [zlen|done]).
    apply rtp_parse_wire; [done|]. by apply Forall_drop.
Qed.

Lemma rtp_parse_iff_grammar_witness :
  exists a, rtp_abs_wf a /\ zlen (rtp_wire ex_abs) = zlen (rtp_wire a) /\
    slice (rtp_wire ex_abs) 0 (zlen (rtp_wire ex_abs)) = rtp_wire a /\ rtp_view ex_abs = rtp_view a.
Proof.
  apply (rtp_parse_iff_grammar (rtp_wire ex_abs) (zlen (rtp_wire ex_abs)) (rtp_view ex_abs)).
  - apply bytes_okb_ok. reflexivity.
  - reflexivity.
  - vm_compute. reflexivity.
Defined.

(** * In-place rewriting *)

Lemma set_pt_byte m pt pt' :
  0 <= pt <= 127 -> 0 <= pt' <= 127 ->
  u8 (Z.lor (Z.land (flag m 128 + pt) 0x80) pt') = flag m 128 + pt'.
Proof.
  intros Hpt Hpt'. assert (is_u8 pt) by (unfold is_u8; lia).
  assert (E : Z.land (flag m 128 + pt) 0x80 = Z.shiftl (flag m 1) 7).
  { pose proof (byte_forall (fun pt => (127 <? pt) ||
      (Z.land (flag m 128 + pt) 0x80 =? Z.shiftl (flag m 1) 7))
      ltac:(destruct m; vm_compute; reflexivity) pt H) as E. cbv beta in E. lia. }
  rewrite E, lor_shiftl_add by (change (2 ^ 7) with 128; lia).
  change (2 ^ 7) with 128. destruct m; unfold flag; dlia.
Qed.

Lemma set_marker_byte m pt :
  0 <= pt <= 127 ->
  Z.lor (flag m 128 + pt) 0x80 = 128 + pt /\ Z.land (flag m 128 + pt) 0x7f = pt.
Proof.
  intros Hpt. assert (Hb : is_u8 pt) by (unfold is_u8; lia).
  pose proof (byte_forall (fun pt => (127 <? pt) ||
    ((Z.lor (flag m 128 + pt) 0x80 =? 128 + pt) && (Z.land (flag m 128 + pt) 0x7f =? pt)))
    ltac:(destruct m; vm_compute; reflexivity) pt Hb) as E. cbv beta in E. lia.
Qed.

(** The edited packet is the wire image of the edited abstract packet. *)
Ltac reparse a :=
  apply (rtp_parse_wire a); [|done]; unfold rtp_abs_wf in *; simpl in *; tauto.

(** On an accepted packet each setter succeeds, and the packet it leaves
    parses to the same packet with exactly that field replaced. *)
Theorem rtp_setters_exact data len p :
  bytes_ok data -> len <= zlen data -> sfu_rtp_packet_parse data len = Ok p ->
  (forall s, is_u16 s -> exists d, sfu_rtp_packet_set_seq data len s = Ok d /\
     sfu_rtp_packet_parse d len = Ok (p <| sequence_number := s |>)) /\
  (forall s, is_u32 s -> exists d, sfu_rtp_packet_set_ssrc data len s = Ok d /\
     sfu_rtp_packet_parse d len = Ok (p <| ssrc := s |>)) /\
  (forall pt, 0 <= pt <= 127 -> exists d, sfu_rtp_packet_set_pt data len pt = Ok d /\
     sfu_rtp_packet_parse d len = Ok (p <| payload_type := pt |>)) /\
  (forall m, exists d, sfu_rtp_packet_set_marker data len m = Ok d /\
     sfu_rtp_packet_parse d len = Ok (p <| marker := m |>)).
Proof.
  intros Hb Hl E. assert (Hlen : 12 <= len).
  { apply reject_ok in E as [E _]. unfold RTP_FIXED_HEADER_LEN in E. lia. }
  destruct (rtp_parse_sound _ _ _ Hb Hl E) as (a & Hwf & Hs & ->).
  assert (Hz : len = zlen (rtp_wire a)) by (rewrite <- Hs; zlen).
  assert (Hr : bytes_ok (drop (Z.to_nat len) data)) by (by apply Forall_drop).
  rewrite (slice_prefix_split data len) in Hl |- * by lia. rewrite Hs in Hl |- *.
  set (rest := drop (Z.to_nat len) data) in *.
  unfold sfu_rtp_packet_set_seq, sfu_rtp_packet_set_ssrc, sfu_rtp_packet_set_pt,
    sfu_rtp_packet_set_marker, RTP_FIXED_HEADER_LEN, wr.
  subst len. destruct a as [m0 pt0 sq ts ss cs ex pl pd].
  assert (Hpt0 : 0 <= pt0 <= 127) by apply Hwf.
  split_and!.
  - intros s Hu. rewrite reject_false, write_be16_ok by lia. eexists; split; [done|].
    reparse (mk_rtp_abs m0 pt0 s ts ss cs ex pl pd).
  - intros s Hu. rewrite reject_false, write_be32_ok by lia. eexists; split; [done|].
    reparse (mk_rtp_abs m0 pt0 sq ts s cs ex pl pd).
  - intros pt Hu. rewrite reject_false by lia. rewrite rd_ok by lia. cbn [res_bind].
    rewrite wr_n_ok by (change (zlen [_]) with 1; lia).
    change (byte_at _ 1) with (flag m0 128 + pt0). rewrite set_pt_byte by done.
    eexists; split; [done|].
    reparse (mk_rtp_abs m0 pt sq ts ss cs ex pl pd).
  - intros m. rewrite reject_false by lia. rewrite rd_ok by lia. cbn [res_bind].
    change (byte_at _ 1) with (flag m0 128 + pt0).
    destruct (set_marker_byte m0 pt0 Hpt0) as [-> ->].
    rewrite !wr_n_ok by (change (zlen [_]) with 1; lia).
    exists (patch (rtp_wire (mk_rtp_abs m0 pt0 sq ts ss cs ex pl pd) ++ rest) 1 [flag m 128 + pt0]).
    split; [by destruct m|].
    reparse (mk_rtp_abs m pt0 sq ts ss cs ex pl pd).
Qed.

Lemma rtp_setters_exact_witness :
  exists d, sfu_rtp_packet_set_seq (rtp_wire ex_abs) (zlen (rtp_wire ex_abs)) 5 = Ok d /\
    sfu_rtp_packet_parse d (zlen (rtp_wire ex_abs)) = Ok ((rtp_view ex_abs) <| sequence_number := 5 |>).
Proof.
  refine (proj1 (rtp_setters_exact (rtp_wire ex_abs) (zlen (rtp_wire ex_abs)) (rtp_view ex_abs) _ _ _) 5 _).
  - by apply bytes_okb_ok.
  - lia.
  - vm_compute. reflexivity.
  - unfold is_u16. lia.
Defined.
