(* ===== verification/RtpExt.v ===== *)
(** RTP header extensions, [src/rtp/rtp_ext.c]: the scanners and readers of
    RFC 8285 one-byte and two-byte element blocks, the transport-cc and MID
    writers that edit a packet in place, and their refinement of an edit of
    the abstract packet of [RtpPacket]. *)

From S2P Require Import Prelude NetBytes RtpPacket.

Definition RTP_EXT_ONE_BYTE_PROFILE : Z := 0xBEDE.
Definition RTP_EXT_TWO_BYTE_PROFILE : Z := 0x1000.
Definition SFU_TWCC_EXT_LEN : Z := 2.

Definition is_two_byte_profile (profile : Z) : bool :=
  Z.land profile 0xFFF0 =? RTP_EXT_TWO_BYTE_PROFILE.

(** * Scanning a block

    [ext] is the offset of the block in the buffer [b].  The element decoders
    yield [None] on a padding byte and the id, header size and data size of an
    element otherwise; a reserved id or a truncated element is the scan's
    [return false]. *)

Definition one_byte_elem (b : list Z) (ext ext_len pos : Z) : res (option (Z * Z * Z)) :=
  let! h := rd b (ext + pos) in
  if h =? 0 then Ok None else
  let id := Z.shiftr h 4 in
  let data_len := Z.land h 0x0f + 1 in
  reject (id =? 15) (
  reject (ext_len <? pos + 1 + data_len) (
  Ok (Some (id, 1, data_len)))).

Definition two_byte_elem (b : list Z) (ext ext_len pos : Z) : res (option (Z * Z * Z)) :=
  let! id := rd b (ext + pos) in
  if id =? 0 then Ok None else
  reject (ext_len <? pos + 2) (
  let! data_len := rd b (ext + pos + 1) in
  reject (ext_len <? pos + 2 + data_len) (
  Ok (Some (id, 2, data_len)))).

(** The [while (pos < ext_len)] loop, to the first element with [ext_id]. *)
Fixpoint ext_scan (elem : Z -> res (option (Z * Z * Z))) (ext_len ext_id : Z)
    (fuel : nat) (pos : Z) : res (Z * Z * Z) :=
  match fuel with
  | O => Fault
  | S fuel =>
      if pos <? ext_len then
        let! e := elem pos in
        match e with
        | None => ext_scan elem ext_len ext_id fuel (pos + 1)
        | Some (id, header_len, data_len) =>
            if id =? ext_id then Ok (pos, header_len, data_len)
            else ext_scan elem ext_len ext_id fuel (pos + header_len + data_len)
        end
      else Err
  end.

(** Every round moves [pos] forward, so [ext_len + 1] rounds are enough. *)
Definition scan_fuel (ext_len : Z) : nat := S (Z.to_nat ext_len).

Definition one_byte_find (b : list Z) (ext ext_len ext_id : Z) : res (Z * Z) :=
  let! r := ext_scan (one_byte_elem b ext ext_len) ext_len ext_id (scan_fuel ext_len) 0 in
  let '(pos, header_len, data_len) := r in
  Ok (pos, header_len + data_len).

Definition two_byte_find (b : list Z) (ext ext_len ext_id : Z) : res (Z * Z) :=
  let! r := ext_scan (two_byte_elem b ext ext_len) ext_len ext_id (scan_fuel ext_len) 0 in
  let '(pos, header_len, data_len) := r in
  Ok (pos, header_len + data_len).

(** * Readers *)

Definition sfu_rtp_ext_read_twcc (profile : Z) (b : list Z) (ext ext_len ext_id : Z) : res Z :=
  reject ((ext_id =? 0) || (14 <? ext_id)) (
  let read elem :=
    let! r := ext_scan elem ext_len ext_id (scan_fuel ext_len) 0 in
    let '(pos, header_len, data_len) := r in
    reject (data_len <? SFU_TWCC_EXT_LEN) (sfu_read_be16 b (ext + pos + header_len)) in
  if profile =? RTP_EXT_ONE_BYTE_PROFILE then read (one_byte_elem b ext ext_len)
  else if is_two_byte_profile profile then read (two_byte_elem b ext ext_len)
  else Err).

(** The bytes stored in [out_mid]: the element's data and the terminator. *)
Definition sfu_rtp_ext_read_mid (profile : Z) (b : list Z) (ext ext_len ext_id out_cap : Z)
  : res (list Z) :=
  reject ((out_cap <? 2) || (ext_id =? 0)) (
  let read elem :=
    let! r := ext_scan elem ext_len ext_id (scan_fuel ext_len) 0 in
    let '(pos, header_len, data_len) := r in
    reject ((data_len =? 0) || (out_cap <=? data_len)) (
    let! mid := rd_n b (ext + pos + header_len) data_len in
    Ok (mid ++ [0])) in
  if profile =? RTP_EXT_ONE_BYTE_PROFILE then read (one_byte_elem b ext ext_len)
  else if is_two_byte_profile profile then read (two_byte_elem b ext ext_len)
  else Err).

(** * Locating the block in a packet *)

(** The offset after the fixed header and the CSRC list, 0 when malformed. *)
Definition rtp_csrc_end (data : list Z) (len : Z) : res Z :=
  if len <? RTP_FIXED_HEADER_LEN then Ok 0 else
  let! d0 := rd data 0 in
  if negb (Z.shiftr d0 6 =? 2) then Ok 0 else
  let fin := RTP_FIXED_HEADER_LEN + Z.land d0 0x0f * 4 in
  Ok (if fin <=? len then fin else 0).

(** Offset of the profile field and byte length of the block, if any. *)
Definition rtp_ext_block (data : list Z) (len : Z) : res (option (Z * Z)) :=
  let! pos := rtp_csrc_end data len in
  if pos =? 0 then Ok None else
  let! d0 := rd data 0 in
  if Z.land d0 0x10 =? 0 then Ok None else
  if len - pos <? 4 then Ok None else
  let! words := sfu_read_be16 data (pos + 2) in
  let block_len := words * 4 in
  if len - pos - 4 <? block_len then Ok None else Ok (Some (pos, block_len)).

(** [rtp_ext_block] with the profile the writers read after it. *)
Definition block_profile (data : list Z) (blk : option (Z * Z)) : res Z :=
  match blk with Some (ext_off, _) => sfu_read_be16 data ext_off | None => Ok 0 end.

Definition ext_block_grow (data : list Z) (len ext_off ext_len new_ext_len : Z) : res (list Z) :=
  let payload_off := ext_off + 4 + ext_len in
  let tail := len - payload_off in
  let grow := new_ext_len - ext_len in
  let! data := memmove data (payload_off + grow) payload_off tail in
  let! data := memset data payload_off 0 grow in
  sfu_write_be16 data (ext_off + 2) (u16 (new_ext_len / 4)).

(** * Writers *)

(** A failure return leaves the packet untouched, so it carries no buffer. *)
Definition sfu_rtp_ext_write_twcc (data : list Z) (len cap ext_id twcc_seq : Z) : res (list Z * Z) :=
  reject ((ext_id =? 0) || (14 <? ext_id) || (len <? RTP_FIXED_HEADER_LEN) || (cap <? len)) (
  let! blk := rtp_ext_block data len in
  let! profile := block_profile data blk in
  match blk with
  | Some (ext_off, ext_len) =>
      if profile =? RTP_EXT_ONE_BYTE_PROFILE then
        match one_byte_find data (ext_off + 4) ext_len ext_id with
        | Ok (elem_off, elem_size) =>
            reject (negb (elem_size =? 1 + SFU_TWCC_EXT_LEN)) (
            let! data := sfu_write_be16 data (ext_off + 4 + elem_off + 1) twcc_seq in
            Ok (data, len))
        | Err =>
            let needed := 1 + SFU_TWCC_EXT_LEN in
            let new_ext_len := Z.land (ext_len + needed + 3) (Z.lnot 3) in
            let grow := new_ext_len - ext_len in
            reject ((0xFFFF <? new_ext_len / 4) || (cap <? len + grow)) (
            let insert_at := ext_off + 4 + ext_len in
            let! data := ext_block_grow data len ext_off ext_len new_ext_len in
            let! data := wr data insert_at (u8 (Z.lor (Z.shiftl ext_id 4) (SFU_TWCC_EXT_LEN - 1))) in
            let! data := sfu_write_be16 data (insert_at + 1) twcc_seq in
            Ok (data, len + grow))
        | Fault => Fault
        end
      else if is_two_byte_profile profile then
        match two_byte_find data (ext_off + 4) ext_len ext_id with
        | Ok (elem_off, elem_size) =>
            reject (negb (elem_size =? 2 + SFU_TWCC_EXT_LEN)) (
            let! data := sfu_write_be16 data (ext_off + 4 + elem_off + 2) twcc_seq in
            Ok (data, len))
        | Err =>
            let new_ext_len := ext_len + 4 in
            reject ((0xFFFF <? new_ext_len / 4) || (cap <? len + 4)) (
            let insert_at := ext_off + 4 + ext_len in
            let! data := ext_block_grow data len ext_off ext_len new_ext_len in
            let! data := wr data insert_at ext_id in
            let! data := wr data (insert_at + 1) SFU_TWCC_EXT_LEN in
            let! data := sfu_write_be16 data (insert_at + 2) twcc_seq in
            Ok (data, len + 4))
        | Fault => Fault
        end
      else Err
  | None =>
      let! d0 := rd data 0 in
      reject (negb (Z.land d0 0x10 =? 0)) (
      let! csrc_end := rtp_csrc_end data len in
      reject ((csrc_end =? 0) || (cap <? len + 8)) (
      let! data := memmove data (csrc_end + 8) csrc_end (len - csrc_end) in
      let! d0 := rd data 0 in
      let! data := wr data 0 (Z.lor d0 0x10) in
      let! data := sfu_write_be16 data csrc_end RTP_EXT_ONE_BYTE_PROFILE in
      let! data := sfu_write_be16 data (csrc_end + 2) 1 in
      let! data := wr data (csrc_end + 4) (u8 (Z.lor (Z.shiftl ext_id 4) (SFU_TWCC_EXT_LEN - 1))) in
      let! data := sfu_write_be16 data (csrc_end + 5) twcc_seq in
      let! data := wr data (csrc_end + 7) 0 in
      Ok (data, len + 8)))
  end).

(** An element header, in either format, followed by the value. *)
Definition put_elem (data : list Z) (at_ header_len ext_id : Z) (value : list Z) : res (list Z) :=
  let! data :=
    if header_len =? 1 then wr data at_ (u8 (Z.lor (Z.shiftl ext_id 4) (zlen value - 1)))
    else let! data := wr data at_ ext_id in wr data (at_ + 1) (u8 (zlen value)) in
  wr_n data (at_ + header_len) value.

(** The common tail of the writer: grow the block and store the element. *)
Definition append_elem (data : list Z) (len cap ext_off ext_len header_len ext_id : Z)
    (value : list Z) : res (option Z * list Z) :=
  let elem_len := header_len + zlen value in
  let new_ext_len := Z.land (ext_len + elem_len + 3) (Z.lnot 3) in
  let grow := new_ext_len - ext_len in
  if (UINT16_MAX <? new_ext_len / 4) || (cap <? len + grow) then Ok (None, data) else
  let insert_at := ext_off + 4 + ext_len in
  let! data := ext_block_grow data len ext_off ext_len new_ext_len in
  let! data := put_elem data insert_at header_len ext_id value in
  Ok (Some (len + grow), data).

(** An element of the right size is overwritten; one of another size is
    blanked and the new one appended. *)
Definition replace_elem (data : list Z) (len cap ext_off ext_len header_len ext_id : Z)
    (value : list Z) (found : res (Z * Z)) : res (option Z * list Z) :=
  match found with
  | Ok (elem_off, elem_size) =>
      if elem_size =? header_len + zlen value then
        let! data := put_elem data (ext_off + 4 + elem_off) header_len ext_id value in
        Ok (Some len, data)
      else
        let! data := memset data (ext_off + 4 + elem_off) 0 elem_size in
        append_elem data len cap ext_off ext_len header_len ext_id value
  | Err => append_elem data len cap ext_off ext_len header_len ext_id value
  | Fault => Fault
  end.

(** The new length ([None] for [return false]) and the buffer after the call,
    which a failing call may have changed. *)
Definition rtp_ext_write_value (data : list Z) (len cap ext_id : Z) (value : list Z)
  : res (option Z * list Z) :=
  if (ext_id =? 0) || (zlen value =? 0) || (len <? RTP_FIXED_HEADER_LEN) || (cap <? len)
  then Ok (None, data) else
  let! blk := rtp_ext_block data len in
  let! profile := block_profile data blk in
  match blk with
  | Some (ext_off, ext_len) =>
      if profile =? RTP_EXT_ONE_BYTE_PROFILE then
        if (14 <? ext_id) || (16 <? zlen value) then Ok (None, data) else
        replace_elem data len cap ext_off ext_len 1 ext_id value
          (one_byte_find data (ext_off + 4) ext_len ext_id)
      else if is_two_byte_profile profile then
        if 255 <? zlen value then Ok (None, data) else
        replace_elem data len cap ext_off ext_len 2 ext_id value
          (two_byte_find data (ext_off + 4) ext_len ext_id)
      else Ok (None, data)
  | None =>
      let! d0 := rd data 0 in
      if (14 <? ext_id) || (16 <? zlen value) || negb (Z.land d0 0x10 =? 0) then Ok (None, data) else
      let! csrc_end := rtp_csrc_end data len in
      let elem_len := 1 + zlen value in
      let block_len := Z.land (elem_len + 3) (Z.lnot 3) in
      let grow := 4 + block_len in
      if (csrc_end =? 0) || (cap <? len + grow) then Ok (None, data) else
      let! data := memmove data (csrc_end + grow) csrc_end (len - csrc_end) in
      let! d0 := rd data 0 in
      let! data := wr data 0 (Z.lor d0 0x10) in
      let! data := sfu_write_be16 data csrc_end RTP_EXT_ONE_BYTE_PROFILE in
      let! data := sfu_write_be16 data (csrc_end + 2) (u16 (block_len / 4)) in
      let! data := memset data (csrc_end + 4) 0 block_len in
      let! data := wr data (csrc_end + 4) (u8 (Z.lor (Z.shiftl ext_id 4) (zlen value - 1))) in
      let! data := wr_n data (csrc_end + 5) value in
      Ok (Some (len + grow), data)
  end.

(** [mid] is the C string's bytes before its terminator. *)
Definition sfu_rtp_ext_write_mid (data : list Z) (len cap ext_id : Z) (mid : list Z)
  : res (option Z * list Z) :=
  rtp_ext_write_value data len cap ext_id mid.

(** * The element grammar of RFC 8285

    A block is a sequence of padding bytes and elements, in one of the two
    formats ([two] tells which). *)

Inductive ext_item :=
| XPad
| XElem (id : Z) (data : list Z).

Definition elem_hdr (two : bool) (id n : Z) : list Z :=
  if two then [id; n] else [id * 16 + (n - 1)].
Definition item_wire (two : bool) (i : ext_item) : list Z :=
  match i with XPad => [0] | XElem id d => elem_hdr two id (zlen d) ++ d end.
Definition items_wire (two : bool) (its : list ext_item) : list Z :=
  concat (map (item_wire two) its).

Definition item_wf (two : bool) (i : ext_item) : Prop :=
  match i with
  | XPad => True
  | XElem id d =>
      bytes_ok d /\
      if two then 1 <= id <= 255 /\ zlen d <= 255
      else 0 <= id <= 14 /\ 1 <= zlen d <= 16 /\ ~ (id = 0 /\ zlen d = 1)
  end.

(** The block split at its first element with the wanted id. *)
Fixpoint split_item (id : Z) (its : list ext_item)
  : option (list ext_item * list Z * list ext_item) :=
  match its with
  | [] => None
  | XElem i d :: post =>
      if i =? id then Some ([], d, post)
      else match split_item id post with
           | Some (pre, d', post') => Some (XElem i d :: pre, d', post')
           | None => None
           end
  | XPad :: post =>
      match split_item id post with
      | Some (pre, d', post') => Some (XPad :: pre, d', post')
      | None => None
      end
  end.

Definition hdr_len (two : bool) : Z := if two then 2 else 1.
Definition elem_of_fmt (two : bool) (b : list Z) (ext ext_len : Z)
  : Z -> res (option (Z * Z * Z)) :=
  if two then two_byte_elem b ext ext_len else one_byte_elem b ext ext_len.
Definition find_of_fmt (two : bool) (b : list Z) (ext ext_len id : Z) : res (Z * Z) :=
  if two then two_byte_find b ext ext_len id else one_byte_find b ext ext_len id.

Lemma zlen_elem_hdr two id n : zlen (elem_hdr two id n) = hdr_len two.
Proof. by destruct two. Qed.

Lemma items_wire_app two a b : items_wire two (a ++ b) = items_wire two a ++ items_wire two b.
Proof. unfold items_wire. by rewrite map_app, concat_app. Qed.

Lemma items_wire_cons two i its : items_wire two (i :: its) = item_wire two i ++ items_wire two its.
Proof. done. Qed.

Lemma split_item_some id its pre d post :
  split_item id its = Some (pre, d, post) -> its = pre ++ XElem id d :: post.
Proof.
  revert pre. induction its as [|[|i e] its IH]; simpl; intros pre H; [done|..].
  - destruct (split_item id its) as [[[p d'] q]|]; [|done]. injection H as <- <- <-.
    by rewrite (IH p).
  - destruct (Z.eqb_spec i id) as [->|_]; [by injection H as <- <- <-|].
    destruct (split_item id its) as [[[p d'] q]|]; [|done]. injection H as <- <- <-.
    by rewrite (IH p).
Qed.

Lemma split_item_app_none id its its' :
  split_item id its = None ->
  split_item id (its ++ its') =
    match split_item id its' with Some (p, d, q) => Some (its ++ p, d, q) | None => None end.
Proof.
  induction its as [|[|i e] its IH]; simpl.
  - by destruct (split_item id its') as [[[p d] q]|].
  - destruct (split_item id its) as [[[p d] q]|]; [done|]. intros _.
    rewrite IH by done. by destruct (split_item id its') as [[[p d] q]|].
  - destruct (i =? id); [done|]. destruct (split_item id its) as [[[p d] q]|]; [done|]. intros _.
    rewrite IH by done. by destruct (split_item id its') as [[[p d] q]|].
Qed.

(** A first byte of a one-byte element decodes to its id and length. *)
Lemma one_byte_header id n :
  0 <= id <= 14 -> 1 <= n <= 16 ->
  Z.shiftr (id * 16 + (n - 1)) 4 = id /\ Z.land (id * 16 + (n - 1)) 0x0f = n - 1 /\
  u8 (Z.lor (Z.shiftl id 4) (n - 1)) = id * 16 + (n - 1).
Proof.
  intros Hi Hn. rewrite Z.shiftr_div_pow2, lor_shiftl_add by (change (2 ^ 4) with 16; lia).
  change 0x0f with (2 ^ 4 - 1). rewrite land_ones_mod by done. change (2 ^ 4) with 16. dlia.
Qed.

Lemma elem_at_pad two A R ext ext_len pos :
  0 <= ext -> 0 <= pos -> ext + pos = zlen A ->
  elem_of_fmt two (A ++ [0] ++ R) ext ext_len pos = Ok None.
Proof.
  intros. destruct two; unfold elem_of_fmt, one_byte_elem, two_byte_elem;
    (rewrite rd_ok by zlen; cbn [res_bind app]; by rewrite byte_at_mid).
Qed.

Lemma elem_at_item two A id d R ext ext_len pos :
  0 <= ext -> 0 <= pos -> ext + pos = zlen A -> item_wf two (XElem id d) ->
  pos + hdr_len two + zlen d <= ext_len ->
  elem_of_fmt two (A ++ item_wire two (XElem id d) ++ R) ext ext_len pos =
    Ok (Some (id, hdr_len two, zlen d)).
Proof.
  intros He Hp HA [_ Hwf] Hl. unfold hdr_len in *.
  destruct two; cbn [elem_of_fmt item_wire elem_hdr app].
  - unfold two_byte_elem. rewrite rd_ok by zlen. cbn [res_bind].
    rewrite byte_at_mid by done. decide_ifs. zlen_pos. rewrite reject_false by lia.
    rewrite rd_ok by zlen. cbn [res_bind].
    change (A ++ id :: zlen d :: d ++ R) with (A ++ [id] ++ zlen d :: d ++ R).
    rewrite app_assoc, byte_at_mid by zlen. by rewrite reject_false by lia.
  - destruct Hwf as (Hid & Hd & Hne). destruct (one_byte_header id (zlen d)) as (E1 & E2 & _); [done..|].
    unfold one_byte_elem. rewrite rd_ok by zlen. cbn [res_bind].
    rewrite byte_at_mid by done. decide_ifs. rewrite E1, E2.
    rewrite !reject_false by lia. repeat f_equal. lia.
Qed.

Lemma scan_items two id A its R ext ext_len pos fuel :
  Forall (item_wf two) its -> 0 <= ext -> 0 <= pos -> ext + pos = zlen A ->
  ext_len = pos + zlen (items_wire two its) ->
  (Z.to_nat (zlen (items_wire two its)) < fuel)%nat ->
  ext_scan (elem_of_fmt two (A ++ items_wire two its ++ R) ext ext_len) ext_len id fuel pos =
    match split_item id its with
    | Some (pre, d, _) => Ok (pos + zlen (items_wire two pre), hdr_len two, zlen d)
    | None => Err
    end.
Proof.
  intros Hwf He. revert A pos fuel.
  induction Hwf as [|i its Hi Hwf IH]; intros A pos fuel Hp HA -> Hf;
    (destruct fuel as [|fuel]; [lia|]); cbn [ext_scan].
  { change (zlen (items_wire two [])) with 0. by decide_ifs. }
  rewrite items_wire_cons in *. rewrite zlen_app in *.
  destruct i as [|i d]; cbn [split_item].
  - cbn [item_wire] in *. rewrite !zlen_cons, !@zlen_nil in *. zlen_pos. decide_ifs.
    rewrite <- app_assoc, elem_at_pad by done. cbn [res_bind].
    rewrite app_assoc. rewrite (IH (A ++ [0])) by zlen.
    destruct (split_item id its) as [[[p d] q]|]; [|done].
    rewrite items_wire_cons. cbn [item_wire]. do 3 f_equal. zlen.
  - assert (Hz : zlen (item_wire two (XElem i d)) = hdr_len two + zlen d)
      by (cbn [item_wire]; rewrite zlen_app; by rewrite zlen_elem_hdr).
    assert (0 < hdr_len two) by (by destruct two). zlen_pos. decide_ifs.
    rewrite <- app_assoc, elem_at_item by (done || lia). cbn [res_bind].
    destruct (Z.eqb_spec i id) as [->|Hne].
    { do 3 f_equal. change (zlen (items_wire two [])) with 0. lia. }
    rewrite app_assoc. rewrite (IH (A ++ item_wire two (XElem i d))) by zlen.
    destruct (split_item id its) as [[[p e] q]|]; [|done].
    rewrite items_wire_cons. do 3 f_equal. rewrite zlen_app. lia.
Qed.

(** * Memory safety on arbitrary packets *)

Section scan_safety.
Context (two : bool) (b : list Z) (ext ext_len : Z).
Context (Hb : bytes_ok b) (Hext : 0 <= ext) (Hend : ext + ext_len <= zlen b).

Lemma elem_safe pos :
  0 <= pos < ext_len ->
  elem_of_fmt two b ext ext_len pos <> Fault /\
  forall id h d, elem_of_fmt two b ext ext_len pos = Ok (Some (id, h, d)) ->
    h = hdr_len two /\ 0 <= d /\ pos + h + d <= ext_len.
Proof using Hb Hext Hend.
  intros Hp. destruct two; unfold elem_of_fmt, two_byte_elem, one_byte_elem, hdr_len;
    rewrite rd_ok by lia; cbn [res_bind].
  - destruct (_ =? _); [done|]. destruct (Z.ltb_spec ext_len (pos + 2)); cbn [reject]; [done|].
    rewrite rd_ok by lia. cbn [res_bind].
    pose proof (byte_at_u8 b (ext + pos + 1) Hb) as Hd. unfold is_u8 in Hd.
    split; [by apply reject_no_fault|]. intros id h d E. res_inv. lia.
  - destruct (_ =? _); [done|].
    assert (0 <= Z.land (byte_at b (ext + pos)) 15) by (apply Z.land_nonneg; lia).
    split; [by repeat (apply reject_no_fault; intros _)|]. intros id h d E. res_inv. lia.
Qed.

Lemma scan_safe id fuel pos :
  0 <= pos -> (Z.to_nat (ext_len - pos) < fuel)%nat ->
  ext_scan (elem_of_fmt two b ext ext_len) ext_len id fuel pos <> Fault /\
  forall p h d, ext_scan (elem_of_fmt two b ext ext_len) ext_len id fuel pos = Ok (p, h, d) ->
    0 <= p /\ h = hdr_len two /\ 0 <= d /\ p + h + d <= ext_len.
Proof using Hb Hext Hend.
  assert (1 <= hdr_len two) by (by destruct two).
  revert pos. induction fuel as [|fuel IH]; intros pos Hp Hf; [lia|]. cbn [ext_scan].
  destruct (Z.ltb_spec pos ext_len); [|done].
  destruct (elem_safe pos) as [HF HS]; [lia|].
  destruct (elem_of_fmt two b ext ext_len pos) as [[[[i h] d]|]| |] eqn:E; cbn [res_bind]; try done.
  - destruct (HS _ _ _ eq_refl) as (-> & ? & ?).
    destruct (i =? id); [|apply IH; lia].
    split; [done|]. intros p h d' [= <- <- <-]. lia.
  - apply IH; lia.
Qed.

Lemma scan_start_safe id :
  ext_scan (elem_of_fmt two b ext ext_len) ext_len id (scan_fuel ext_len) 0 <> Fault /\
  forall p h d,
    ext_scan (elem_of_fmt two b ext ext_len) ext_len id (scan_fuel ext_len) 0 = Ok (p, h, d) ->
    0 <= p /\ h = hdr_len two /\ 0 <= d /\ p + h + d <= ext_len.
Proof using Hb Hext Hend. apply scan_safe; unfold scan_fuel; lia. Qed.

Lemma find_safe id :
  find_of_fmt two b ext ext_len id <> Fault /\
  forall off size, find_of_fmt two b ext ext_len id = Ok (off, size) ->
    0 <= off /\ hdr_len two <= size /\ off + size <= ext_len.
Proof using Hb Hext Hend.
  destruct (scan_start_safe id) as [HF HS].
  destruct two; unfold find_of_fmt, one_byte_find, two_byte_find; cbn [elem_of_fmt] in *;
    (destruct (ext_scan _ _ _ _ _) as [[[p h] d]| |]; cbn [res_bind]; try done;
     destruct (HS _ _ _ eq_refl) as (? & -> & ? & ?); split; [done|];
     intros off size [= <- <-]; simpl in *; lia).
Qed.
End scan_safety.

Lemma rtp_csrc_end_ok data len :
  bytes_ok data -> len <= zlen data ->
  exists e, rtp_csrc_end data len = Ok e /\ (e = 0 \/ 12 <= e <= len).
Proof.
  intros Hb Hl. unfold rtp_csrc_end, RTP_FIXED_HEADER_LEN.
  destruct (Z.ltb_spec len 12); [eauto|]. rewrite rd_ok by lia. cbn [res_bind].
  destruct (negb _); [eauto|].
  assert (0 <= Z.land (byte_at data 0) 15) by (apply Z.land_nonneg; lia).
  eexists; split; [done|]. destruct (Z.leb_spec (12 + Z.land (byte_at data 0) 15 * 4) len); lia.
Qed.

Lemma rtp_ext_block_ok data len :
  bytes_ok data -> len <= zlen data ->
  exists blk, rtp_ext_block data len = Ok blk /\
    match blk with
    | Some (off, n) => 12 <= off /\ 0 <= n /\ n mod 4 = 0 /\ n / 4 <= 65535 /\ off + 4 + n <= len
    | None => True
    end.
Proof.
  intros Hb Hl. unfold rtp_ext_block.
  destruct (rtp_csrc_end_ok data len Hb Hl) as (e & -> & He). cbn [res_bind].
  destruct (Z.eqb_spec e 0); [by eexists|]. rewrite rd_ok by lia. cbn [res_bind].
  destruct (_ =? _); [by eexists|]. destruct (Z.ltb_spec (len - e) 4); [by eexists|].
  rewrite read_be16_ok by (done || lia). cbn [res_bind].
  pose proof (be16_u16 data (e + 2) Hb). unfold is_u16 in *.
  destruct (Z.ltb_spec (len - e - 4) (be16 data (e + 2) * 4)); eexists; (split; [done|]); [done|].
  dlia.
Qed.

Lemma ext_block_grow_ok data len off n n' :
  0 <= off -> 0 <= n <= n' -> off + 4 + n <= len -> len + (n' - n) <= zlen data ->
  exists d, ext_block_grow data len off n n' = Ok d /\ zlen d = zlen data.
Proof.
  intros. unfold ext_block_grow, memmove, memset.
  rewrite rd_n_ok by lia. rewrite wr_n_ok by zlen. cbn [res_bind].
  rewrite wr_n_ok by zlen. cbn [res_bind]. rewrite write_be16_ok by zlen.
  eexists; split; [done|]. zlen.
Qed.

Lemma put_elem_ok data at_ two id v :
  0 <= at_ -> at_ + hdr_len two + zlen v <= zlen data ->
  exists d, put_elem data at_ (hdr_len two) id v = Ok d /\ zlen d = zlen data.
Proof.
  intros. unfold put_elem, wr. zlen_pos. unfold hdr_len in *. destruct two; cbn [Z.eqb Pos.eqb].
  - rewrite wr_n_ok by zlen. cbn [res_bind]. rewrite wr_n_ok by zlen. cbn [res_bind].
    rewrite wr_n_ok by zlen. eexists; split; [done|]. zlen.
  - rewrite wr_n_ok by zlen. cbn [res_bind].
    rewrite wr_n_ok by zlen. eexists; split; [done|]. zlen.
Qed.

(** What a writer may do to the caller: no access outside the buffer, the
    buffer keeps its size and a reported length stays within the capacity. *)
Definition write_safe (cap : Z) (data : list Z) (r : res (option Z * list Z)) : Prop :=
  exists l d, r = Ok (l, d) /\ zlen d = zlen data /\
    match l with Some n => 0 <= n <= cap | None => True end.

Lemma write_safe_some cap data n d :
  zlen d = zlen data -> 0 <= n <= cap -> write_safe cap data (Ok (Some n, d)).
Proof. by eexists _, _. Qed.

Lemma write_safe_none cap data : write_safe cap data (Ok (None, data)).
Proof. by eexists _, _. Qed.
#[local] Hint Resolve write_safe_none : core.

Lemma append_elem_safe data len cap off n two id v :
  0 <= off -> 0 <= n -> off + 4 + n <= len -> len <= cap <= zlen data ->
  write_safe cap data (append_elem data len cap off n (hdr_len two) id v).
Proof.
  intros. unfold append_elem, UINT16_MAX. rewrite !land_lnot3. zlen_pos.
  set (n' := (n + (hdr_len two + zlen v) + 3) / 4 * 4).
  assert (Hn' : n + (hdr_len two + zlen v) <= n') by (unfold n'; dlia).
  assert (0 < hdr_len two) by (by destruct two).
  destruct (_ || _) eqn:E; [done|]. bool_hyps.
  destruct (ext_block_grow_ok data len off n n') as (d & -> & Hd); [lia..|]. cbn [res_bind].
  destruct (put_elem_ok d (off + 4 + n) two id v) as (d' & -> & Hd'); [lia..|].
  apply write_safe_some; lia.
Qed.

Lemma replace_elem_safe data len cap off n two id v :
  bytes_ok data -> 0 <= off -> 0 <= n -> off + 4 + n <= len -> len <= cap <= zlen data ->
  write_safe cap data (replace_elem data len cap off n (hdr_len two) id v
                         (find_of_fmt two data (off + 4) n id)).
Proof.
  intros. destruct (find_safe two data (off + 4) n ltac:(done) ltac:(lia) ltac:(lia) id) as [HF HS].
  unfold replace_elem. assert (1 <= hdr_len two) by (by destruct two).
  destruct (find_of_fmt _ _ _ _ _) as [[eo es]| |]; [|by apply append_elem_safe|done].
  destruct (HS _ _ eq_refl) as (? & ? & ?). destruct (Z.eqb_spec es (hdr_len two + zlen v)).
  - destruct (put_elem_ok data (off + 4 + eo) two id v) as (d & -> & Hd); [lia..|].
    apply write_safe_some; lia.
  - unfold memset. rewrite wr_n_ok by zlen. cbn [res_bind].
    destruct (append_elem_safe (patch data (off + 4 + eo) (replicate (Z.to_nat es) 0))
                len cap off n two id v) as (l & d & -> & Hd & ?); [lia..|zlen|].
    rewrite zlen_patch in Hd by zlen. by eexists _, _.
Qed.

Lemma write_value_safe data len cap id v :
  bytes_ok data -> cap <= zlen data ->
  write_safe cap data (rtp_ext_write_value data len cap id v).
Proof.
  intros Hb Hc. unfold rtp_ext_write_value, RTP_FIXED_HEADER_LEN.
  destruct (_ || _) eqn:G; [done|]. bool_hyps.
  destruct (rtp_ext_block_ok data len) as (blk & -> & Hblk); [done|lia|]. cbn [res_bind].
  destruct blk as [[off n]|]; cbn [block_profile].
  - rewrite read_be16_ok by (done || lia). cbn [res_bind].
    destruct (_ =? RTP_EXT_ONE_BYTE_PROFILE).
    + destruct (_ || _); [done|]. apply (replace_elem_safe data len cap off n false); lia || done.
    + destruct (is_two_byte_profile _); [|done].
      destruct (_ <? _); [done|]. apply (replace_elem_safe data len cap off n true); lia || done.
  - rewrite rd_ok by lia. cbn [res_bind]. destruct (_ || _) eqn:G1; [done|]. bool_hyps.
    destruct (rtp_csrc_end_ok data len) as (e & -> & He); [done|lia|]. cbn [res_bind].
    rewrite land_lnot3. zlen_pos. set (k := (1 + zlen v + 3) / 4 * 4).
    assert (1 + zlen v <= k) by (unfold k; dlia).
    destruct (_ || _) eqn:G2; [done|]. bool_hyps.
    buf_run. apply write_safe_some; [zlen|lia].
Qed.

(** * The writers on well-formed blocks *)

Lemma ext_block_grow_wire P w body tail g R len off n n' :
  0 <= off -> zlen P = off + 2 -> zlen w = 2 -> zlen body = n -> zlen g = n' - n ->
  len = off + 4 + n + zlen tail -> n' / 4 <= 65535 ->
  ext_block_grow (P ++ w ++ body ++ tail ++ g ++ R) len off n n' =
    Ok (P ++ enc16 (n' / 4) ++ body ++ zeros (n' - n) ++ tail ++ R).
Proof.
  intros Hoff HP Hw Hbody Hg -> Hn'. unfold ext_block_grow. zlen_pos.
  unfold memmove, memset. rewrite rd_n_ok by zlen. cbn [res_bind].
  assert (E1 : P ++ w ++ body ++ tail ++ g ++ R = (P ++ w ++ body) ++ tail ++ g ++ R)
    by (by rewrite <- !app_assoc).
  rewrite E1. rewrite slice_mid by zlen. rewrite wr_n_ok by zlen.
  replace (off + 4 + n + (n' - n)) with (zlen (P ++ w ++ body) + zlen g) by zlen.
  destruct (patch_shift (P ++ w ++ body) tail g R) as (X & HX & ->). cbn [res_bind].
  rewrite wr_n_ok by zlen. cbn [res_bind].
  rewrite patch_mid by zlen. rewrite write_be16_ok by (unfold zeros; zlen).
  rewrite <- !app_assoc. rewrite patch_mid by (unfold zeros; zlen).
  unfold zeros, u16. by rewrite Z.mod_small by dlia.
Qed.

Lemma put_elem_wire two A m c at_ id v :
  at_ = zlen A -> zlen m = hdr_len two + zlen v -> item_wf two (XElem id v) ->
  put_elem (A ++ m ++ c) at_ (hdr_len two) id v = Ok (A ++ item_wire two (XElem id v) ++ c).
Proof.
  intros -> Hm [_ Hwf]. unfold put_elem, hdr_len in *. zlen_pos.
  destruct two; cbn [Z.eqb Pos.eqb item_wire elem_hdr]; buf_run.
  - rewrite (patch_patch_adj _ _ [_] [_]) by zlen. cbn [app].
    rewrite (patch_patch_adj _ _ [_; _]) by zlen.
    rewrite patch_mid by zlen. unfold u8. by rewrite Z.mod_small by lia.
  - rewrite (patch_patch_adj _ _ [_]) by zlen. rewrite patch_mid by zlen.
    destruct Hwf as (? & ? & _). by destruct (one_byte_header id (zlen v)) as (_ & _ & ->).
Qed.

Definition fmt_of_profile (profile : Z) : option bool :=
  if profile =? RTP_EXT_ONE_BYTE_PROFILE then Some false
  else if is_two_byte_profile profile then Some true else None.

(** The abstract edit: an element of the same size is replaced where it is,
    any other is blanked and the new one goes at the end, padded to a word. *)
Definition pad4 (two : bool) (its : list ext_item) : list ext_item :=
  its ++ replicate (Z.to_nat (- zlen (items_wire two its) mod 4)) XPad.
Definition put_item (two : bool) (id : Z) (v : list Z) (its : list ext_item) : list ext_item :=
  match split_item id its with
  | Some (pre, d, post) =>
      if zlen d =? zlen v then pre ++ XElem id v :: post
      else pad4 two ((pre ++ replicate (Z.to_nat (hdr_len two + zlen d)) XPad ++ post) ++ [XElem id v])
  | None => pad4 two (its ++ [XElem id v])
  end.

Lemma items_wire_pads two n : items_wire two (replicate n XPad) = replicate n 0.
Proof. induction n as [|n IH]; [done|]. simpl. rewrite items_wire_cons, IH. done. Qed.

Lemma zlen_item_wire two id d : zlen (item_wire two (XElem id d)) = hdr_len two + zlen d.
Proof. cbn [item_wire]. by rewrite zlen_app, zlen_elem_hdr. Qed.

Lemma items_wire_pad4 two its :
  items_wire two (pad4 two its) = items_wire two its ++ zeros (- zlen (items_wire two its) mod 4).
Proof. unfold pad4. by rewrite items_wire_app, items_wire_pads. Qed.

Lemma zlen_pad4 two its :
  zlen (items_wire two (pad4 two its)) = (zlen (items_wire two its) + 3) / 4 * 4.
Proof. rewrite items_wire_pad4. unfold zeros. rewrite zlen_app, zlen_replicate; dlia. Qed.

Lemma append_elem_wire two P its tail R len cap off n id v :
  0 <= off -> zlen P = off + 2 -> n = zlen (items_wire two its) ->
  n mod 4 = 0 -> len = off + 4 + n + zlen tail -> cap <= len + zlen R ->
  item_wf two (XElem id v) ->
  let its' := pad4 two (its ++ [XElem id v]) in
  let n' := zlen (items_wire two its') in
  append_elem (P ++ enc16 (n / 4) ++ items_wire two its ++ tail ++ R) len cap off n (hdr_len two) id v =
    if (65535 <? n' / 4) || (cap <? len + (n' - n))
    then Ok (None, P ++ enc16 (n / 4) ++ items_wire two its ++ tail ++ R)
    else Ok (Some (len + (n' - n)),
             P ++ enc16 (n' / 4) ++ items_wire two its' ++ tail ++ drop (Z.to_nat (n' - n)) R).
Proof.
  intros Hoff HP Hn Hn4 Hlen Hcap Hwf its' n'.
  assert (Hsnoc : items_wire two (its ++ [XElem id v]) = items_wire two its ++ item_wire two (XElem id v))
    by (rewrite items_wire_app, items_wire_cons; by rewrite app_nil_r).
  assert (En' : n' = (n + (hdr_len two + zlen v) + 3) / 4 * 4).
  { unfold n', its'. rewrite zlen_pad4, Hsnoc, zlen_app, zlen_item_wire. by rewrite Hn. }
  unfold append_elem, UINT16_MAX. rewrite land_lnot3, <- En'.
  destruct (_ || _) eqn:G; [done|]. bool_hyps. zlen_pos.
  assert (0 < hdr_len two) by (by destruct two).
  assert (n + (hdr_len two + zlen v) <= n') by dlia.
  rewrite <- (take_drop (Z.to_nat (n' - n)) R) at 1.
  set (g := take (Z.to_nat (n' - n)) R). set (R' := drop (Z.to_nat (n' - n)) R).
  assert (Hg : zlen g = n' - n) by (unfold g, zlen in *; rewrite length_take; lia).
  rewrite ext_block_grow_wire by (done || lia). cbn [res_bind].
  set (k := n' - n - (hdr_len two + zlen v)).
  assert (Ez : zeros (n' - n) = zeros (hdr_len two + zlen v) ++ zeros k).
  { unfold zeros, k. rewrite <- replicate_add. f_equal. lia. }
  rewrite Ez.
  replace (P ++ enc16 (n' / 4) ++ items_wire two its ++ (zeros (hdr_len two + zlen v) ++ zeros k) ++ tail ++ R')
    with ((P ++ enc16 (n' / 4) ++ items_wire two its) ++ zeros (hdr_len two + zlen v) ++ (zeros k ++ tail ++ R'))
    by (by rewrite <- !app_assoc).
  rewrite put_elem_wire; [|zlen|unfold zeros; zlen|done].
  cbn [res_bind]. do 2 f_equal. unfold its'.
  rewrite items_wire_pad4, Hsnoc, zlen_app, zlen_item_wire.
  replace (- (zlen (items_wire two its) + (hdr_len two + zlen v)) mod 4) with k; [by rewrite <- !app_assoc|].
  rewrite <- Hn. unfold k. dlia.
Qed.

Definition with_ext (a : rtp_abs) (profile : Z) (body : list Z) : rtp_abs :=
  a <| a_ext := Some (profile, body) |>.
Definition ext_prefix (a : rtp_abs) (profile : Z) : list Z :=
  fixed_header (with_ext a profile []) ++ a_csrcs a ++ enc16 profile.
Definition ext_tail (a : rtp_abs) : list Z := a_payload a ++ pad_wire (a_pad a).

Lemma rtp_wire_with_ext a p body :
  rtp_wire (with_ext a p body) = ext_prefix a p ++ enc16 (zlen body / 4) ++ body ++ ext_tail a.
Proof.
  unfold rtp_wire, ext_prefix, ext_tail. cbn [a_ext with_ext set ext_wire].
  rewrite <- !app_assoc. done.
Qed.

Lemma zlen_fixed_header a : zlen (fixed_header a) = 12.
Proof. done. Qed.
#[local] Hint Rewrite zlen_fixed_header : zlen.

Lemma zlen_ext_prefix a p : zlen (ext_prefix a p) = 12 + zlen (a_csrcs a) + 2.
Proof. unfold ext_prefix. zlen. Qed.
#[local] Hint Rewrite zlen_ext_prefix zlen_item_wire : zlen.

Lemma rtp_wire_no_ext a :
  a_ext a = None -> rtp_wire a = (fixed_header a ++ a_csrcs a) ++ ext_tail a.
Proof. intros E. unfold rtp_wire, ext_tail. rewrite E. cbn [ext_wire]. by rewrite <- !app_assoc. Qed.

Lemma zlen_rtp_wire a :
  zlen (rtp_wire a) = 12 + zlen (a_csrcs a) + zlen (ext_wire (a_ext a)) + zlen (ext_tail a).
Proof. unfold rtp_wire, ext_tail. zlen. Qed.

Lemma zlen_rtp_wire_ext a p body :
  zlen (rtp_wire (with_ext a p body)) = 16 + zlen (a_csrcs a) + zlen body + zlen (ext_tail a).
Proof. rewrite rtp_wire_with_ext. zlen. Qed.

(** Finding the block of a packet of the grammar. *)
Lemma csrc_end_wire a rest :
  rtp_abs_wf a ->
  rtp_csrc_end (rtp_wire a ++ rest) (zlen (rtp_wire a)) = Ok (12 + zlen (a_csrcs a)) /\
  rd (rtp_wire a ++ rest) 0 = Ok (byte_at (fixed_header a) 0) /\
  (Z.land (byte_at (fixed_header a) 0) 0x10 =? 0) = negb (is_some (a_ext a)).
Proof.
  intros Hwf. pose proof (zlen_rtp_wire a) as Hz. zlen_pos.
  destruct Hwf as (_ & _ & _ & _ & _ & Hc4 & Hc60 & _).
  destruct (byte0_fields (is_some (a_pad a)) (is_some (a_ext a)) (zlen (a_csrcs a) / 4))
    as (E6 & _ & Ex & Ecc & _); [dlia|].
  unfold rtp_csrc_end, RTP_FIXED_HEADER_LEN. decide_ifs. rewrite rd_ok by zlen. cbn [res_bind].
  change (byte_at (rtp_wire a ++ rest) 0) with (byte_at (fixed_header a) 0).
  change (byte_at (fixed_header a) 0) with
    (128 + flag (is_some (a_pad a)) 32 + flag (is_some (a_ext a)) 16 + zlen (a_csrcs a) / 4).
  rewrite E6, Ecc. cbn [negb Z.eqb Pos.eqb].
  replace (12 + zlen (a_csrcs a) / 4 * 4) with (12 + zlen (a_csrcs a)) by dlia. decide_ifs.
  split_and!; [done..|]. rewrite <- (negb_involutive (_ =? 0)). by rewrite Ex.
Qed.

Lemma ext_block_wire a p body rest :
  rtp_abs_wf (with_ext a p body) -> bytes_ok rest ->
  let data := rtp_wire (with_ext a p body) ++ rest in
  rtp_ext_block data (zlen (rtp_wire (with_ext a p body))) =
    Ok (Some (12 + zlen (a_csrcs a), zlen body)) /\
  sfu_read_be16 data (12 + zlen (a_csrcs a)) = Ok p.
Proof.
  intros Hwf Hr data. pose proof (rtp_wire_bytes_ok _ Hwf) as Hb.
  assert (Hd : bytes_ok data) by (by apply bytes_ok_app).
  destruct (csrc_end_wire _ rest Hwf) as (Ec & E0 & Ex). fold data in Ec, E0.
  pose proof (zlen_rtp_wire_ext a p body) as Hz.
  assert (Hdz : zlen data = zlen (rtp_wire (with_ext a p body)) + zlen rest) by (unfold data; zlen).
  zlen_pos.
  destruct Hwf as (_ & _ & _ & _ & _ & _ & _ & (Hp & _ & Hm & Hw) & _).
  assert (Es : data = (fixed_header (with_ext a p []) ++ a_csrcs a) ++
    enc16 p ++ enc16 (zlen body / 4) ++ (body ++ ext_tail a ++ rest)).
  { unfold data. rewrite rtp_wire_with_ext. unfold ext_prefix. by rewrite <- !app_assoc. }
  assert (El : 12 + zlen (a_csrcs a) = zlen (fixed_header (with_ext a p []) ++ a_csrcs a)) by zlen.
  split.
  - unfold rtp_ext_block. rewrite Ec. cbn [res_bind]. change (a_csrcs (with_ext a p body)) with (a_csrcs a).
    decide_ifs. rewrite E0. cbn [res_bind]. rewrite Ex. cbn [a_ext with_ext set is_some negb].
    decide_ifs. rewrite read_be16_ok by (done || lia). cbn [res_bind].
    rewrite Es, El, be16_app_r by lia. rewrite (be16_app_0 (enc16 p)), be16_enc16 by dlia.
    replace (zlen body / 4 * 4) with (zlen body) by dlia. rewrite <- El. decide_ifs. done.
  - rewrite read_be16_ok by (done || lia). by rewrite Es, El, be16_app_0, be16_enc16.
Qed.

Lemma find_items two id A its R ext n :
  Forall (item_wf two) its -> ext = zlen A -> n = zlen (items_wire two its) ->
  find_of_fmt two (A ++ items_wire two its ++ R) ext n id =
    match split_item id its with
    | Some (pre, d, _) => Ok (zlen (items_wire two pre), hdr_len two + zlen d)
    | None => Err
    end.
Proof.
  intros Hwf -> ->. zlen_pos.
  pose proof (scan_items two id A its R (zlen A) (zlen (items_wire two its)) 0
                (scan_fuel (zlen (items_wire two its))) Hwf) as E.
  specialize (E ltac:(lia) ltac:(lia) ltac:(lia) ltac:(lia) ltac:(unfold scan_fuel; lia)).
  destruct two; unfold find_of_fmt, one_byte_find, two_byte_find; cbn [elem_of_fmt] in E; rewrite E;
    by destruct (split_item id its) as [[[p d] q]|].
Qed.

(** What a packet's extension is: none, or a well-formed block of a known
    format; [blk_profile] and [blk_items] are the block the edit starts from. *)
Definition ext_desc (two : bool) (a : rtp_abs) (x : option (Z * list ext_item)) : Prop :=
  match x with
  | None => a_ext a = None /\ two = false
  | Some (p, its) =>
      a_ext a = Some (p, items_wire two its) /\ fmt_of_profile p = Some two /\
      Forall (item_wf two) its
  end.
Definition blk_profile (x : option (Z * list ext_item)) : Z :=
  match x with None => RTP_EXT_ONE_BYTE_PROFILE | Some (p, _) => p end.
Definition blk_items (x : option (Z * list ext_item)) : list ext_item :=
  match x with None => [] | Some (_, its) => its end.

Definition edited (two : bool) (a : rtp_abs) (x : option (Z * list ext_item)) (id : Z) (v : list Z)
  : rtp_abs :=
  with_ext a (blk_profile x) (items_wire two (put_item two id v (blk_items x))).
(** The edited packet can be stored: block length field and buffer capacity. *)
Definition fits (two : bool) (a : rtp_abs) (x : option (Z * list ext_item)) (id : Z) (v : list Z)
    (cap : Z) : bool :=
  (zlen (items_wire two (put_item two id v (blk_items x))) / 4 <=? 65535) &&
  (zlen (rtp_wire (edited two a x id v)) <=? cap).

(** The packet occupies the front of the buffer; growth eats into [rest]. *)
Definition stored (a' : rtp_abs) (len : Z) (rest : list Z) : list Z :=
  rtp_wire a' ++ drop (Z.to_nat (zlen (rtp_wire a') - len)) rest.

Lemma split_item_wf two id its pre d post :
  split_item id its = Some (pre, d, post) -> Forall (item_wf two) its ->
  Forall (item_wf two) pre /\ item_wf two (XElem id d) /\ Forall (item_wf two) post.
Proof.
  intros E Hf. apply split_item_some in E. subst its. apply Forall_app in Hf as [? Hf].
  by inversion_clear Hf.
Qed.

Lemma append_elem_stored two a p its rest cap id v :
  let n := zlen (items_wire two its) in
  let len := 16 + zlen (a_csrcs a) + n + zlen (ext_tail a) in
  let a' := with_ext a p (items_wire two (pad4 two (its ++ [XElem id v]))) in
  item_wf two (XElem id v) -> n mod 4 = 0 -> len <= cap <= len + zlen rest ->
  exists d,
    append_elem ((ext_prefix a p ++ enc16 (n / 4)) ++ items_wire two its ++ ext_tail a ++ rest)
      len cap (12 + zlen (a_csrcs a)) n (hdr_len two) id v =
    Ok (if (zlen (items_wire two (pad4 two (its ++ [XElem id v]))) / 4 <=? 65535) &&
           (zlen (rtp_wire a') <=? cap)
        then Some (zlen (rtp_wire a')) else None, d) /\
    (zlen (items_wire two (pad4 two (its ++ [XElem id v]))) / 4 <= 65535 ->
     zlen (rtp_wire a') <= cap -> d = stored a' len rest).
Proof.
  intros n len a' Hv Hn4 Hcap. zlen_pos.
  rewrite <- app_assoc. rewrite append_elem_wire by (done || zlen).
  unfold stored, a'. rewrite zlen_rtp_wire_ext.
  set (n' := zlen (items_wire two (pad4 two (its ++ [XElem id v])))).
  assert (E : 16 + zlen (a_csrcs a) + n' + zlen (ext_tail a) = len + (n' - n)) by lia.
  rewrite E. rewrite !Z.leb_antisym, <- negb_orb.
  destruct (_ || _) eqn:G; cbn [negb]; (eexists; split; [done|]); intros F1 F2; [lia|].
  rewrite rtp_wire_with_ext. fold n'. rewrite <- !app_assoc. do 5 f_equal. lia.
Qed.

Lemma replace_elem_wire two a p its rest cap id v :
  let body := items_wire two its in
  let len := zlen (rtp_wire (with_ext a p body)) in
  let n := zlen body in
  let off := 12 + zlen (a_csrcs a) in
  let data := rtp_wire (with_ext a p body) ++ rest in
  Forall (item_wf two) its -> item_wf two (XElem id v) -> n mod 4 = 0 -> n / 4 <= 65535 ->
  len <= cap <= len + zlen rest ->
  exists d, replace_elem data len cap off n (hdr_len two) id v (find_of_fmt two data (off + 4) n id) =
    Ok (if fits two a (Some (p, its)) id v cap
        then Some (zlen (rtp_wire (edited two a (Some (p, its)) id v))) else None, d) /\
    (fits two a (Some (p, its)) id v cap = true -> d = stored (edited two a (Some (p, its)) id v) len rest).
Proof.
  intros body len n off data Hits Hv Hn4 Hn16 Hcap.
  assert (Hlen : len = 16 + zlen (a_csrcs a) + n + zlen (ext_tail a)) by apply zlen_rtp_wire_ext.
  zlen_pos. unfold fits, stored, edited. cbn [blk_items blk_profile]. unfold put_item.
  rewrite zlen_rtp_wire_ext.
  set (A := ext_prefix a p ++ enc16 (n / 4)).
  assert (HA : zlen A = off + 4) by (unfold A, off; zlen).
  assert (Ed : forall ys, zlen (items_wire two ys) = n ->
    rtp_wire (with_ext a p (items_wire two ys)) ++ rest = A ++ items_wire two ys ++ (ext_tail a ++ rest)).
  { intros ys Hys. rewrite rtp_wire_with_ext, Hys. unfold A. by rewrite <- !app_assoc. }
  unfold data, body. rewrite (Ed its) by done. rewrite find_items by (done || lia).
  pose proof (split_item_some id its) as Hs. pose proof (split_item_wf two id its) as Hsw.
  destruct (split_item id its) as [[[pre d] post]|]; cbn [replace_elem].
  - specialize (Hs _ _ _ eq_refl). destruct (Hsw _ _ _ eq_refl Hits) as (Wpre & Wd & Wpost).
    assert (Hn : n = zlen (items_wire two pre) + (hdr_len two + zlen d) + zlen (items_wire two post)).
    { unfold n, body. rewrite Hs, items_wire_app, items_wire_cons, !zlen_app, zlen_item_wire. lia. }
    rewrite Hs, items_wire_app, items_wire_cons.
    destruct (Z.eqb_spec (zlen d) (zlen v)) as [E|E].
    + rewrite E, Z.eqb_refl.
      replace (A ++ (items_wire two pre ++ item_wire two (XElem id d) ++ items_wire two post) ++ ext_tail a ++ rest)
        with ((A ++ items_wire two pre) ++ item_wire two (XElem id d) ++ (items_wire two post ++ ext_tail a ++ rest))
        by (by rewrite <- !app_assoc).
      rewrite put_elem_wire by (done || zlen). cbn [res_bind].
      assert (Hn' : zlen (items_wire two (pre ++ XElem id v :: post)) = n).
      { rewrite items_wire_app, items_wire_cons, !zlen_app, zlen_item_wire. lia. }
      rewrite Hn', <- Hlen. decide_ifs. eexists; split; [done|]. intros _.
      rewrite Z.sub_diag. change (Z.to_nat 0) with 0%nat. rewrite drop_0, (Ed _ Hn').
      rewrite items_wire_app, items_wire_cons. by rewrite <- !app_assoc.
    + decide_ifs. assert (0 < hdr_len two) by (by destruct two).
      set (blank := pre ++ replicate (Z.to_nat (hdr_len two + zlen d)) XPad ++ post).
      assert (Hw : items_wire two blank = items_wire two pre ++ zeros (hdr_len two + zlen d) ++ items_wire two post).
      { unfold blank, zeros. by rewrite !items_wire_app, items_wire_pads. }
      assert (Hn' : zlen (items_wire two blank) = n) by (rewrite Hw; unfold zeros; zlen).
      unfold memset. replace (off + 4 + zlen (items_wire two pre)) with (zlen (A ++ items_wire two pre)) by zlen.
      replace (A ++ (items_wire two pre ++ item_wire two (XElem id d) ++ items_wire two post) ++ ext_tail a ++ rest)
        with ((A ++ items_wire two pre) ++ item_wire two (XElem id d) ++ (items_wire two post ++ ext_tail a ++ rest))
        by (by rewrite <- !app_assoc).
      rewrite wr_n_ok by zlen. cbn [res_bind].
      rewrite patch_mid by zlen.
      replace ((A ++ items_wire two pre) ++ replicate (Z.to_nat (hdr_len two + zlen d)) 0 ++ items_wire two post ++ ext_tail a ++ rest)
        with (A ++ items_wire two blank ++ ext_tail a ++ rest)
        by (rewrite Hw; unfold zeros; by rewrite <- !app_assoc).
      pose proof (append_elem_stored two a p blank rest cap id v) as H'. cbv zeta in H'. unfold stored in H'.
      rewrite Hn', <- Hlen in H'. rewrite zlen_rtp_wire_ext in H'. fold A off in H'.
      destruct H' as (d' & -> & Hd'); [done..|]. eexists; split; [done|]. intros F. bool_hyps. by apply Hd'.
  - pose proof (append_elem_stored two a p its rest cap id v) as H'. cbv zeta in H'. unfold stored in H'.
    change (zlen (items_wire two its)) with n in H'. rewrite <- Hlen in H'. rewrite zlen_rtp_wire_ext in H'. fold A off in H'.
    destruct H' as (d' & -> & Hd'); [done..|]. eexists; split; [done|]. intros F. bool_hyps. by apply Hd'.
Qed.

(** Creating the block: the extension bit, the block header and one element. *)
Lemma set_x_bit a p :
  a_ext a = None -> rtp_abs_wf a ->
  exists F, fixed_header a = byte_at (fixed_header a) 0 :: F /\
    fixed_header (with_ext a p []) = Z.lor (byte_at (fixed_header a) 0) 0x10 :: F.
Proof.
  intros E (_ & _ & _ & _ & _ & Hc4 & Hc60 & _). eexists. split; [done|].
  unfold fixed_header. rewrite E. cbn [with_ext set a_ext is_some app]. f_equal.
  change (byte_at (?x :: ?l) 0) with x. unfold flag at 2. zlen_pos.
  set (cc := zlen (a_csrcs a) / 4). assert (Hcc : 0 <= cc <= 15) by (unfold cc; dlia).
  assert (Hb : is_u8 cc) by (unfold is_u8; lia).
  pose proof (byte_forall (fun c => (15 <? c) ||
    (Z.lor (128 + flag (is_some (a_pad a)) 32 + 0 + c) 16 =? 128 + flag (is_some (a_pad a)) 32 + 16 + c))) as HB.
  specialize (HB ltac:(destruct (a_pad a); vm_compute; reflexivity) cc Hb). cbv beta in HB.
  apply orb_true_iff in HB as [?|HB]; [lia|]. apply Z.eqb_eq in HB. symmetry. exact HB.
Qed.

Lemma open_gap a p g R :
  a_ext a = None -> rtp_abs_wf a ->
  exists X, zlen X = zlen g /\
  let e := 12 + zlen (a_csrcs a) in
  memmove (rtp_wire a ++ g ++ R) (e + zlen g) e (zlen (rtp_wire a) - e) =
    Ok ((fixed_header a ++ a_csrcs a) ++ X ++ ext_tail a ++ R) /\
  patch ((fixed_header a ++ a_csrcs a) ++ X ++ ext_tail a ++ R) 0
    [Z.lor (byte_at (fixed_header a) 0) 0x10] =
    (fixed_header (with_ext a p []) ++ a_csrcs a) ++ X ++ ext_tail a ++ R.
Proof.
  intros E Hwf. destruct (patch_shift (fixed_header a ++ a_csrcs a) (ext_tail a) g R) as (X & HX & HP).
  exists X. split; [done|]. rewrite rtp_wire_no_ext by done.
  assert (Ez : zlen (fixed_header a ++ a_csrcs a) = 12 + zlen (a_csrcs a)) by zlen.
  split.
  - unfold memmove. rewrite <- app_assoc.
    replace (zlen ((fixed_header a ++ a_csrcs a) ++ ext_tail a) - (12 + zlen (a_csrcs a)))
      with (zlen (ext_tail a)) by zlen.
    rewrite rd_n_ok by zlen. rewrite slice_mid by (done || lia). rewrite wr_n_ok by zlen.
    by rewrite <- Ez, HP.
  - destruct (set_x_bit a p E Hwf) as (F & EF & ->). by rewrite EF.
Qed.

Lemma create_wire a id v :
  let a' := edited false a None id v in
  let k := (1 + zlen v + 3) / 4 * 4 in
  let e := 12 + zlen (a_csrcs a) in
  a_ext a = None -> rtp_abs_wf a -> item_wf false (XElem id v) ->
  zlen (rtp_wire a') = zlen (rtp_wire a) + (4 + k) /\
  rtp_wire a' = (fixed_header (with_ext a RTP_EXT_ONE_BYTE_PROFILE []) ++ a_csrcs a) ++
    (enc16 RTP_EXT_ONE_BYTE_PROFILE ++ enc16 (k / 4) ++
     item_wire false (XElem id v) ++ zeros (k - (1 + zlen v))) ++ ext_tail a.
Proof.
  intros a' k e E Hwf Hv. zlen_pos.
  assert (Ei : items_wire false (put_item false id v []) =
               item_wire false (XElem id v) ++ zeros (k - (1 + zlen v))).
  { unfold put_item. cbn [split_item app]. rewrite items_wire_pad4. unfold items_wire at 1 2.
    cbn [map concat]. rewrite app_nil_r, zlen_item_wire. cbn [hdr_len]. do 2 f_equal. unfold k. dlia. }
  assert (Ek : zlen (items_wire false (put_item false id v [])) = k).
  { rewrite Ei, zlen_app, zlen_item_wire. unfold zeros. cbn [hdr_len].
    rewrite zlen_replicate; unfold k; dlia. }
  unfold a', edited. cbn [blk_profile blk_items]. split.
  - rewrite zlen_rtp_wire_ext, Ek, zlen_rtp_wire, E. cbn [ext_wire]. zlen.
  - rewrite rtp_wire_with_ext, Ek, Ei. unfold ext_prefix. by rewrite <- !app_assoc.
Qed.

Lemma write_value_create a rest cap id v :
  let len := zlen (rtp_wire a) in
  a_ext a = None -> rtp_abs_wf a -> item_wf false (XElem id v) -> id <> 0 ->
  bytes_ok rest -> len <= cap <= len + zlen rest ->
  exists d, rtp_ext_write_value (rtp_wire a ++ rest) len cap id v =
    Ok (if fits false a None id v cap then Some (zlen (rtp_wire (edited false a None id v))) else None, d) /\
    (fits false a None id v cap = true -> d = stored (edited false a None id v) len rest).
Proof.
  intros len E Hwf Hv Hid Hr Hcap. destruct (create_wire a id v E Hwf Hv) as [El Ew].
  destruct (csrc_end_wire a rest Hwf) as (Ec & E0 & Ex). rewrite E in Ex. cbn [is_some negb] in Ex.
  fold len in Ec, El.
  assert (Hz : len = 12 + zlen (a_csrcs a) + zlen (ext_tail a)).
  { unfold len. rewrite zlen_rtp_wire, E. cbn [ext_wire]. zlen. }
  zlen_pos. destruct Hv as [_ (Hi & Hl & _)].
  unfold rtp_ext_write_value, RTP_FIXED_HEADER_LEN. decide_ifs.
  assert (Eb : rtp_ext_block (rtp_wire a ++ rest) len = Ok None).
  { unfold rtp_ext_block. rewrite Ec. cbn [res_bind]. decide_ifs. by rewrite E0; cbn [res_bind]; rewrite Ex. }
  rewrite Eb. cbn [res_bind block_profile]. rewrite E0. cbn [res_bind]. rewrite Ex. decide_ifs.
  rewrite Ec. cbn [res_bind]. rewrite land_lnot3. set (k := (1 + zlen v + 3) / 4 * 4) in *.
  assert (Hk : 1 + zlen v <= k <= 20 /\ k mod 4 = 0) by (unfold k; dlia).
  assert (Hf : fits false a None id v cap = negb (cap <? len + (4 + k))).
  { unfold fits. rewrite El, <- Z.leb_antisym. cbn [blk_items].
    assert (zlen (items_wire false (put_item false id v [])) = k) as ->; [|by rewrite (proj2 (Z.leb_le _ _)) by dlia].
    unfold edited in El. cbn [blk_profile blk_items] in El. rewrite zlen_rtp_wire_ext in El. lia. }
  rewrite Hf. decide_ifs. replace (12 + zlen (a_csrcs a) =? 0) with false by lia. cbn [orb].
  destruct (Z.ltb_spec cap (len + (4 + k))); cbn [negb]; [by eexists|].
  rewrite <- (take_drop (Z.to_nat (4 + k)) rest).
  set (g := take (Z.to_nat (4 + k)) rest). set (R := drop (Z.to_nat (4 + k)) rest).
  assert (Hg : zlen g = 4 + k) by (unfold g, zlen in *; rewrite length_take; lia).
  destruct (open_gap a RTP_EXT_ONE_BYTE_PROFILE g R E Hwf) as (X & HX & HM & HB).
  fold len in HM. rewrite <- Hg, HM. cbn [res_bind]. rewrite rd_ok by zlen. cbn [res_bind].
  change (byte_at ((fixed_header a ++ a_csrcs a) ++ X ++ ext_tail a ++ R) 0) with (byte_at (fixed_header a) 0).
  unfold wr at 1. rewrite wr_n_ok by zlen. rewrite HB. cbn [res_bind].
  set (F := fixed_header (with_ext a RTP_EXT_ONE_BYTE_PROFILE []) ++ a_csrcs a) in *.
  assert (HF : zlen F = 12 + zlen (a_csrcs a)) by (unfold F; zlen). rewrite <- HF in *.
  buf_run. eexists; split; [by rewrite El, Hg|]. intros _. unfold stored. rewrite El, Ew.
  replace (Z.to_nat (len + (4 + k) - len)) with (length g) by (unfold zlen in Hg; lia).
  rewrite drop_app_length.
  destruct (one_byte_header id (zlen v)) as (_ & _ & ->); [done..|].
  replace (zlen F + 5) with (zlen F + 4 + 1) by lia.
  rewrite (patch_patch_adj _ (zlen F + 4) [_] v) by zlen.
  rewrite patch_over by zlen.
  rewrite (patch_patch_adj _ (zlen F) (enc16 _) (enc16 _)) by zlen.
  rewrite drop_replicate.
  replace (Z.to_nat k - length ([(id * 16 + (zlen v - 1))%Z] ++ v))%nat
    with (Z.to_nat (k - (1 + zlen v))) by (unfold zlen in *; simpl; lia).
  rewrite (patch_patch_adj _ (zlen F) (enc16 _ ++ enc16 _)) by zlen.
  rewrite patch_mid by zlen. unfold u16. rewrite (Z.mod_small (k / 4)) by dlia.
  cbn [item_wire elem_hdr]. unfold zeros. by rewrite <- !app_assoc.
Qed.

(** The MID writer is the abstract edit. *)
Lemma write_mid_refines two a x rest cap id mid :
  let len := zlen (rtp_wire a) in
  rtp_abs_wf a -> ext_desc two a x -> item_wf two (XElem id mid) -> id <> 0 -> 1 <= zlen mid ->
  bytes_ok rest -> len <= cap <= len + zlen rest ->
  exists d, sfu_rtp_ext_write_mid (rtp_wire a ++ rest) len cap id mid =
    Ok (if fits two a x id mid cap then Some (zlen (rtp_wire (edited two a x id mid))) else None, d) /\
    (fits two a x id mid cap = true -> d = stored (edited two a x id mid) len rest).
Proof.
  intros len Hwf Hx Hv Hid Hmid Hr Hcap. unfold sfu_rtp_ext_write_mid.
  destruct x as [[p its]|]; [|destruct Hx as [? ->]; by apply write_value_create].
  destruct Hx as (Ea & Hp & Hits).
  assert (E : a = with_ext a p (items_wire two its)) by (destruct a; simpl in *; by subst).
  rewrite E in Hwf. unfold len in *. rewrite E in Hcap |- *.
  destruct (ext_block_wire a p (items_wire two its) rest Hwf Hr) as [Eb Er].
  pose proof (zlen_rtp_wire_ext a p (items_wire two its)). zlen_pos.
  destruct Hwf as (_ & _ & _ & _ & _ & _ & _ & (_ & _ & Hm & Hw) & _).
  destruct (replace_elem_wire two a p its rest cap id mid) as (d & Ed & Hd); [done..|].
  exists d. split; [|exact Hd]. etransitivity; [|exact Ed].
  unfold rtp_ext_write_value, RTP_FIXED_HEADER_LEN. decide_ifs. rewrite Eb. cbn [res_bind block_profile].
  rewrite Er. cbn [res_bind]. unfold fmt_of_profile in Hp. destruct Hv as [_ Hv].
  destruct (_ =? RTP_EXT_ONE_BYTE_PROFILE).
  - injection Hp as <-. by decide_ifs.
  - destruct (is_two_byte_profile p); [|done]. injection Hp as <-. by decide_ifs.
Qed.

(** The transport-cc writer appends like the general one. *)
Definition as_twcc (r : res (option Z * list Z)) : res (list Z * Z) :=
  match r with
  | Ok (Some l, d) => Ok (d, l) | Ok (None, _) => Err | Err => Err | Fault => Fault
  end.

Lemma as_twcc_bind (m : res (list Z)) l :
  as_twcc (let! d := m in Ok (Some l, d)) = let! d := m in Ok (d, l).
Proof. by destruct m. Qed.

Lemma res_bind_assoc {A B C} (m : res A) (f : A -> res B) (g : B -> res C) :
  res_bind (res_bind m f) g = res_bind m (fun x => res_bind (f x) g).
Proof. by destruct m. Qed.

Lemma twcc_append two data len cap off n id seq :
  n mod 4 = 0 ->
  let n' := Z.land (n + (hdr_len two + 2) + 3) (Z.lnot 3) in
  as_twcc (append_elem data len cap off n (hdr_len two) id (enc16 seq)) =
  reject ((0xFFFF <? n' / 4) || (cap <? len + (n' - n))) (
    let! data := ext_block_grow data len off n n' in
    let! data :=
      if two then let! data := wr data (off + 4 + n) id in wr data (off + 4 + n + 1) 2
      else wr data (off + 4 + n) (u8 (Z.lor (Z.shiftl id 4) (2 - 1))) in
    let! data := sfu_write_be16 data (off + 4 + n + hdr_len two) seq in
    Ok (data, len + (n' - n))).
Proof.
  intros Hn n'. unfold append_elem, UINT16_MAX. change (zlen (enc16 seq)) with 2. fold n'.
  destruct (_ || _); [done|]. cbn [reject].
  destruct (ext_block_grow data len off n n') as [d| |]; cbn [res_bind as_twcc]; try done.
  rewrite as_twcc_bind. unfold put_elem. rewrite res_bind_assoc. change (zlen (enc16 seq)) with 2.
  destruct two; cbn [hdr_len Z.eqb Pos.eqb].
  - destruct (let! _ := wr d _ _ in _); cbn [res_bind]; try done. by rewrite write_be16_wr_n.
  - destruct (wr d _ _); cbn [res_bind]; try done. by rewrite write_be16_wr_n.
Qed.

(** What the writer must do: refuse an element of the same id and another
    size, otherwise store the edited packet when it fits. *)
Definition twcc_outcome (two : bool) (a : rtp_abs) (x : option (Z * list ext_item)) (cap id seq : Z)
    (rest : list Z) : res (list Z * Z) :=
  let clash := match split_item id (blk_items x) with
               | Some (_, d, _) => negb (zlen d =? SFU_TWCC_EXT_LEN) | None => false end in
  let a' := edited two a x id (enc16 seq) in
  if clash || negb (fits two a x id (enc16 seq) cap) then Err
  else Ok (stored a' (zlen (rtp_wire a)) rest, zlen (rtp_wire a')).

Lemma find_in_packet two a p its rest id :
  Forall (item_wf two) its ->
  find_of_fmt two (rtp_wire (with_ext a p (items_wire two its)) ++ rest)
    (12 + zlen (a_csrcs a) + 4) (zlen (items_wire two its)) id =
  match split_item id its with
  | Some (pre, d, _) => Ok (zlen (items_wire two pre), hdr_len two + zlen d)
  | None => Err
  end.
Proof.
  intros Hits. rewrite rtp_wire_with_ext.
  rewrite <- !app_assoc, (app_assoc (ext_prefix a p)). apply find_items; [done|zlen|done].
Qed.

Lemma twcc_in_place two a p pre d post rest id seq :
  let W ys := rtp_wire (with_ext a p (items_wire two ys)) in
  zlen d = 2 ->
  sfu_write_be16 (W (pre ++ XElem id d :: post) ++ rest)
    (12 + zlen (a_csrcs a) + 4 + zlen (items_wire two pre) + hdr_len two) seq =
  Ok (W (pre ++ XElem id (enc16 seq) :: post) ++ rest) /\
  zlen (W (pre ++ XElem id (enc16 seq) :: post)) = zlen (W (pre ++ XElem id d :: post)).
Proof.
  intros W Hd. unfold W. rewrite !zlen_rtp_wire_ext.
  assert (Hn : zlen (items_wire two (pre ++ XElem id (enc16 seq) :: post)) =
               zlen (items_wire two (pre ++ XElem id d :: post))).
  { rewrite !items_wire_app, !items_wire_cons. zlen. }
  split; [|lia]. rewrite !rtp_wire_with_ext, Hn.
  set (n := zlen (items_wire two (pre ++ XElem id d :: post))).
  rewrite !items_wire_app, !items_wire_cons. cbn [item_wire]. rewrite Hd.
  change (zlen (enc16 seq)) with 2.
  remember (ext_prefix a p ++ enc16 (n / 4) ++ items_wire two pre ++ elem_hdr two id 2) as B eqn:EB.
  assert (HB : zlen B = 12 + zlen (a_csrcs a) + 4 + zlen (items_wire two pre) + hdr_len two)
    by (rewrite EB, !zlen_app, zlen_elem_hdr; zlen).
  assert (0 < hdr_len two) by (by destruct two).
  replace ((ext_prefix a p ++ enc16 (n / 4) ++ (items_wire two pre ++ (elem_hdr two id 2 ++ d) ++ items_wire two post) ++ ext_tail a) ++ rest)
    with (B ++ d ++ (items_wire two post ++ ext_tail a ++ rest)) by (rewrite EB; by rewrite <- !app_assoc).
  rewrite write_be16_ok by zlen. rewrite patch_mid by (rewrite ?Hd; zlen).
  rewrite EB. by rewrite <- !app_assoc.
Qed.

Lemma write_twcc_create a rest cap id seq :
  let len := zlen (rtp_wire a) in
  a_ext a = None -> rtp_abs_wf a -> 1 <= id <= 14 ->
  bytes_ok rest -> len <= cap <= len + zlen rest ->
  sfu_rtp_ext_write_twcc (rtp_wire a ++ rest) len cap id seq = twcc_outcome false a None cap id seq rest.
Proof.
  intros len E Hwf Hid Hr Hcap.
  assert (Hv : item_wf false (XElem id (enc16 seq))).
  { split; [auto with sfu|]. change (zlen (enc16 seq)) with 2. lia. }
  destruct (create_wire a id (enc16 seq) E Hwf Hv) as [El Ew].
  destruct (csrc_end_wire a rest Hwf) as (Ec & E0 & Ex). rewrite E in Ex. cbn [is_some negb] in Ex.
  fold len in Ec, El. change ((1 + zlen (enc16 seq) + 3) / 4 * 4) with 4 in *.
  assert (Hz : len = 12 + zlen (a_csrcs a) + zlen (ext_tail a)).
  { unfold len. rewrite zlen_rtp_wire, E. cbn [ext_wire]. zlen. }
  zlen_pos. unfold sfu_rtp_ext_write_twcc, RTP_FIXED_HEADER_LEN. rewrite reject_false by lia.
  assert (Eb : rtp_ext_block (rtp_wire a ++ rest) len = Ok None).
  { unfold rtp_ext_block. rewrite Ec. cbn [res_bind]. decide_ifs. by rewrite E0; cbn [res_bind]; rewrite Ex. }
  rewrite Eb. cbn [res_bind block_profile]. rewrite E0. cbn [res_bind]. rewrite Ex. cbn [negb reject].
  rewrite Ec. cbn [res_bind]. unfold twcc_outcome. cbn [blk_items split_item orb].
  assert (Hf : fits false a None id (enc16 seq) cap = negb (cap <? len + 8)).
  { unfold fits. rewrite El, <- Z.leb_antisym. cbn [blk_items].
    assert (zlen (items_wire false (put_item false id (enc16 seq) [])) = 4) as ->; [|done].
    unfold edited in El. cbn [blk_profile blk_items] in El. rewrite zlen_rtp_wire_ext in El. lia. }
  rewrite Hf, negb_involutive. replace (12 + zlen (a_csrcs a) =? 0) with false by lia. cbn [orb].
  destruct (Z.ltb_spec cap (len + 8)); [done|]. cbn [reject].
  rewrite <- (take_drop (Z.to_nat 8) rest).
  set (g := take (Z.to_nat 8) rest). set (R := drop (Z.to_nat 8) rest).
  assert (Hg : zlen g = 8) by (unfold g, zlen in *; rewrite length_take; lia).
  destruct (open_gap a RTP_EXT_ONE_BYTE_PROFILE g R E Hwf) as (X & HX & HM & HB).
  fold len in HM. rewrite Hg in HM. rewrite HM. cbn [res_bind]. rewrite rd_ok by zlen. cbn [res_bind].
  change (byte_at ((fixed_header a ++ a_csrcs a) ++ X ++ ext_tail a ++ R) 0) with (byte_at (fixed_header a) 0).
  unfold wr at 1. rewrite wr_n_ok by zlen. rewrite HB. cbn [res_bind].
  set (F := fixed_header (with_ext a RTP_EXT_ONE_BYTE_PROFILE []) ++ a_csrcs a) in *.
  assert (HF : zlen F = 12 + zlen (a_csrcs a)) by (unfold F; zlen). rewrite <- HF in *.
  buf_run. rewrite El. do 2 f_equal. unfold stored. rewrite El, Ew. fold len.
  replace (Z.to_nat (len + (4 + 4) - len)) with (length g) by (unfold zlen in Hg; lia).
  rewrite drop_app_length.
  destruct (one_byte_header id 2) as (_ & _ & Eh); [lia..|]. unfold SFU_TWCC_EXT_LEN. rewrite Eh.
  rewrite (patch_patch_adj _ (zlen F) (enc16 _) (enc16 _)) by zlen.
  rewrite (patch_patch_adj _ (zlen F) (enc16 _ ++ enc16 _)) by zlen.
  rewrite (patch_patch_adj _ (zlen F) ((enc16 _ ++ enc16 _) ++ [_])) by zlen.
  rewrite (patch_patch_adj _ (zlen F) (((enc16 _ ++ enc16 _) ++ [_]) ++ enc16 _)) by zlen.
  rewrite patch_mid by zlen. by rewrite <- !app_assoc.
Qed.

(** On a packet with a block, the writer is: look the element up, overwrite
    its data or append a new element. *)
Lemma write_twcc_cases two a p body rest cap id seq :
  let data := rtp_wire (with_ext a p body) ++ rest in
  let len := zlen (rtp_wire (with_ext a p body)) in
  let off := 12 + zlen (a_csrcs a) in
  rtp_abs_wf (with_ext a p body) -> fmt_of_profile p = Some two -> 1 <= id <= 14 ->
  bytes_ok rest -> len <= cap ->
  sfu_rtp_ext_write_twcc data len cap id seq =
    match find_of_fmt two data (off + 4) (zlen body) id with
    | Ok (eo, es) => reject (negb (es =? hdr_len two + 2)) (
        let! data := sfu_write_be16 data (off + 4 + eo + hdr_len two) seq in Ok (data, len))
    | Err => as_twcc (append_elem data len cap off (zlen body) (hdr_len two) id (enc16 seq))
    | Fault => Fault
    end.
Proof.
  intros data len off Hwf Hp Hid Hr Hcap.
  destruct (ext_block_wire a p body rest Hwf Hr) as [Eb Er]. fold data len in Eb, Er.
  assert (Hz : len = 16 + zlen (a_csrcs a) + zlen body + zlen (ext_tail a)) by apply zlen_rtp_wire_ext.
  destruct Hwf as (_ & _ & _ & _ & _ & _ & _ & (_ & _ & Hm & Hw) & _). zlen_pos.
  unfold sfu_rtp_ext_write_twcc, RTP_FIXED_HEADER_LEN, SFU_TWCC_EXT_LEN.
  rewrite reject_false by lia. rewrite Eb. cbn [res_bind block_profile].
  rewrite Er. cbn [res_bind]. unfold fmt_of_profile in Hp.
  destruct (_ =? RTP_EXT_ONE_BYTE_PROFILE).
  - injection Hp as <-. cbn [find_of_fmt]. fold off.
    destruct (one_byte_find data (off + 4) (zlen body) id) as [[eo es]| |]; [done| |done].
    by rewrite twcc_append.
  - destruct (is_two_byte_profile p); [|done]. injection Hp as <-. cbn [find_of_fmt]. fold off.
    destruct (two_byte_find data (off + 4) (zlen body) id) as [[eo es]| |]; [done| |done].
    rewrite twcc_append by done. cbn [hdr_len].
    replace (Z.land (zlen body + (2 + 2) + 3) (Z.lnot 3)) with (zlen body + 4)
      by (rewrite land_lnot3; dlia).
    replace (zlen body + 4 - zlen body) with 4 by lia.
    destruct (_ || _); [done|]. cbn [reject].
    destruct (ext_block_grow _ _ _ _ _); cbn [res_bind]; try done.
    by rewrite res_bind_assoc.
Qed.

(** The transport-cc writer is the abstract edit. *)
Lemma write_twcc_refines two a x rest cap id seq :
  let len := zlen (rtp_wire a) in
  rtp_abs_wf a -> ext_desc two a x -> 1 <= id <= 14 -> bytes_ok rest ->
  len <= cap <= len + zlen rest ->
  sfu_rtp_ext_write_twcc (rtp_wire a ++ rest) len cap id seq = twcc_outcome two a x cap id seq rest.
Proof.
  intros len Hwf Hx Hid Hr Hcap.
  destruct x as [[p its]|]; [|destruct Hx as [? ->]; by apply write_twcc_create].
  destruct Hx as (Ea & Hp & Hits).
  assert (Hv : item_wf two (XElem id (enc16 seq))).
  { split; [auto with sfu|]. change (zlen (enc16 seq)) with 2. destruct two; lia. }
  assert (E : a = with_ext a p (items_wire two its)) by (destruct a; simpl in *; by subst).
  unfold twcc_outcome. cbn [blk_items]. unfold len in *. clear len.
  rewrite E in Hwf. rewrite E in Hcap. rewrite E at 1 2 5.
  rewrite (write_twcc_cases two) by (done || lia). rewrite find_in_packet by done.
  destruct Hwf as (_ & _ & _ & _ & _ & _ & _ & (_ & _ & Hm & Hw) & _).
  destruct (replace_elem_wire two a p its rest cap id (enc16 seq)) as (d & Ed & Hd); [done..|].
  rewrite find_in_packet in Ed by done. pose proof (split_item_some id its) as Hs.
  destruct (split_item id its) as [[[pre d0] post]|] eqn:Es; cbn [replace_elem] in Ed.
  - specialize (Hs _ _ _ eq_refl). unfold SFU_TWCC_EXT_LEN.
    replace (hdr_len two + zlen d0 =? hdr_len two + 2) with (zlen d0 =? 2) by lia.
    destruct (Z.eqb_spec (zlen d0) 2) as [E2|]; [|done]. cbn [negb orb reject].
    destruct (twcc_in_place two a p pre d0 post rest id seq E2) as [Ew El].
    assert (Ee : edited two a (Some (p, its)) id (enc16 seq) =
                 with_ext a p (items_wire two (pre ++ XElem id (enc16 seq) :: post))).
    { unfold edited, put_item. cbn [blk_items blk_profile]. rewrite Es, E2. done. }
    assert (Ef : fits two a (Some (p, its)) id (enc16 seq) cap = true).
    { unfold fits. rewrite Ee, El, <- Hs. unfold put_item. cbn [blk_items]. rewrite Es, E2.
      change (2 =? zlen (enc16 seq)) with true. cbv iota.
      rewrite !zlen_rtp_wire_ext, <- Hs in El.
      replace (zlen (items_wire two (pre ++ XElem id (enc16 seq) :: post)))
        with (zlen (items_wire two its)) by lia.
      lia. }
    rewrite Ef. cbn [negb]. rewrite Hs, Ew. cbn [res_bind]. rewrite <- Hs. unfold stored.
    rewrite Ee, El, <- Hs, Z.sub_diag. done.
  - rewrite Ed. cbn [orb].
    destruct (fits two a (Some (p, its)) id (enc16 seq) cap); cbn [as_twcc negb]; [|done].
    by rewrite Hd.
Qed.

(** * Reading back what was written *)

Lemma items_wire_bytes_ok two its : Forall (item_wf two) its -> bytes_ok (items_wire two its).
Proof.
  induction 1 as [|[|id d] its Hi _ IH]; [constructor|..]; rewrite items_wire_cons;
    apply bytes_ok_app; auto; [by repeat constructor|].
  destruct Hi as [Hd Hi]. cbn [item_wire]. apply bytes_ok_app; [|done]. zlen_pos.
  destruct two; repeat constructor; unfold is_u8; lia.
Qed.

Lemma put_item_wf two id v its :
  Forall (item_wf two) its -> item_wf two (XElem id v) -> Forall (item_wf two) (put_item two id v its).
Proof.
  intros Hits Hv. assert (Hpads : forall n, Forall (item_wf two) (replicate n XPad))
    by (intros; by apply Forall_replicate).
  unfold put_item, pad4. pose proof (split_item_wf two id its) as Hs.
  destruct (split_item id its) as [[[pre d] post]|].
  - destruct (Hs _ _ _ eq_refl Hits) as (? & ? & ?).
    destruct (zlen d =? zlen v); repeat first [apply Forall_app; split | apply Forall_cons; split | done | constructor]; auto.
  - repeat first [apply Forall_app; split | apply Forall_cons; split | done | constructor]; auto.
Qed.

Lemma put_item_mod4 two id v its :
  zlen (items_wire two its) mod 4 = 0 -> zlen (items_wire two (put_item two id v its)) mod 4 = 0.
Proof.
  intros H4. unfold put_item. pose proof (split_item_some id its) as Hs.
  destruct (split_item id its) as [[[pre d] post]|].
  - specialize (Hs _ _ _ eq_refl). destruct (Z.eqb_spec (zlen d) (zlen v)); [|rewrite zlen_pad4; dlia].
    rewrite Hs, items_wire_app, items_wire_cons, !zlen_app, zlen_item_wire in H4.
    rewrite items_wire_app, items_wire_cons, !zlen_app, zlen_item_wire. congruence.
  - rewrite zlen_pad4. dlia.
Qed.

Lemma split_item_hit id its pre d post v :
  split_item id its = Some (pre, d, post) ->
  split_item id (pre ++ XElem id v :: post) = Some (pre, v, post).
Proof.
  revert pre. induction its as [|[|i e] its IH]; simpl; intros pre H; [done|..].
  - destruct (split_item id its) as [[[p d'] q]|]; [|done]. injection H as <- <- <-.
    simpl. by rewrite IH.
  - destruct (Z.eqb_spec i id) as [->|Hne]; [injection H as <- <- <-; simpl; by rewrite Z.eqb_refl|].
    destruct (split_item id its) as [[[p d'] q]|]; [|done]. injection H as <- <- <-.
    simpl. rewrite IH by done. by rewrite (proj2 (Z.eqb_neq _ _) Hne).
Qed.

Lemma split_item_pre id its pre d post :
  split_item id its = Some (pre, d, post) -> split_item id pre = None.
Proof.
  revert pre. induction its as [|[|i e] its IH]; simpl; intros pre H; [done|..].
  - destruct (split_item id its) as [[[p d'] q]|]; [|done]. injection H as <- <- <-.
    simpl. by rewrite (IH p).
  - destruct (Z.eqb_spec i id) as [->|Hne]; [by injection H as <- <- <-|].
    destruct (split_item id its) as [[[p d'] q]|]; [|done]. injection H as <- <- <-.
    simpl. rewrite (IH p) by done. by rewrite (proj2 (Z.eqb_neq _ _) Hne).
Qed.

Lemma split_item_pads id n : split_item id (replicate n XPad) = None.
Proof. induction n as [|n IH]; simpl; [done|]. by rewrite IH. Qed.

Lemma split_item_last id its v pads :
  split_item id its = None -> split_item id ((its ++ [XElem id v]) ++ pads) = Some (its, v, pads).
Proof.
  intros H. rewrite <- app_assoc, split_item_app_none by done. simpl.
  by rewrite Z.eqb_refl, app_nil_r.
Qed.

(** The edited block's first element with the id carries the new value, when
    the edited element was its only occurrence or kept its size. *)
Lemma put_item_lookup two id v its :
  (forall pre d post, split_item id its = Some (pre, d, post) -> zlen d <> zlen v ->
     split_item id post = None) ->
  exists pre post, split_item id (put_item two id v its) = Some (pre, v, post).
Proof.
  intros Honce. unfold put_item, pad4. pose proof (split_item_hit id its) as Hh.
  pose proof (split_item_pre id its) as Hp.
  destruct (split_item id its) as [[[pre d] post]|] eqn:E.
  - destruct (Z.eqb_spec (zlen d) (zlen v)); [eexists _, _; by eapply Hh|].
    eexists _, _. apply split_item_last.
    rewrite split_item_app_none, split_item_app_none by (eauto using split_item_pads).
    by rewrite (Honce _ _ _ eq_refl n).
  - eexists _, _. by apply split_item_last.
Qed.

Lemma edited_wf two a x id v cap :
  rtp_abs_wf a -> ext_desc two a x -> item_wf two (XElem id v) -> fits two a x id v cap = true ->
  rtp_abs_wf (edited two a x id v) /\ Forall (item_wf two) (put_item two id v (blk_items x)) /\
  fmt_of_profile (blk_profile x) = Some two.
Proof.
  intros Hwf Hx Hv Hf.
  assert (Hi : Forall (item_wf two) (blk_items x)) by (destruct x as [[p its]|]; [apply Hx|constructor]).
  pose proof (put_item_wf two id v _ Hi Hv) as Hw.
  assert (H4 : zlen (items_wire two (put_item two id v (blk_items x))) mod 4 = 0).
  { apply put_item_mod4. destruct x as [[p its]|]; [|done]. destruct Hx as (E & _).
    destruct Hwf as (_ & _ & _ & _ & _ & _ & _ & He & _). rewrite E in He. apply He. }
  unfold fits in Hf. bool_hyps. split_and!; [|done|].
  - destruct Hwf as (? & ? & ? & ? & ? & ? & ? & He & ? & ?). unfold rtp_abs_wf, edited. simpl.
    split_and!; try done; try lia; try by apply items_wire_bytes_ok.
    all: destruct x as [[p its]|]; [|done]. destruct Hx as (E & _). rewrite E in He. apply He.
  - destruct x as [[p its]|]; [apply Hx|]. by destruct Hx as [_ ->].
Qed.

(** The scan of a packet of the grammar finds the element and its data. *)
Lemma scan_stored two a p its rest id v pre post :
  let data := rtp_wire (with_ext a p (items_wire two its)) ++ rest in
  let ext := 12 + zlen (a_csrcs a) + 4 in
  let n := zlen (items_wire two its) in
  Forall (item_wf two) its -> split_item id its = Some (pre, v, post) ->
  exists pos, ext_scan (elem_of_fmt two data ext n) n id (scan_fuel n) 0 = Ok (pos, hdr_len two, zlen v) /\
    exists A R, data = A ++ v ++ R /\ zlen A = ext + pos + hdr_len two.
Proof.
  intros data ext n Hits Hs. exists (zlen (items_wire two pre)). zlen_pos. split.
  - pose proof (scan_items two id (ext_prefix a p ++ enc16 (n / 4)) its (ext_tail a ++ rest)
                  ext n 0 (scan_fuel n) Hits) as E.
    rewrite Hs in E. unfold data. rewrite rtp_wire_with_ext, <- !app_assoc.
    rewrite <- !app_assoc in E. apply E; unfold ext, n, scan_fuel; zlen.
  - apply split_item_some in Hs. subst its. unfold data. rewrite rtp_wire_with_ext. fold n.
    rewrite items_wire_app, items_wire_cons. cbn [item_wire].
    exists (ext_prefix a p ++ enc16 (n / 4) ++ items_wire two pre ++ elem_hdr two id (zlen v)),
      (items_wire two post ++ ext_tail a ++ rest).
    split; [by rewrite <- !app_assoc|]. unfold ext. rewrite !zlen_app, zlen_elem_hdr. zlen.
Qed.

Lemma parse_edited two a x id v rest len :
  let a' := edited two a x id v in
  rtp_abs_wf a' -> bytes_ok rest ->
  exists p off, sfu_rtp_packet_parse (stored a' len rest) (zlen (rtp_wire a')) = Ok p /\
    extension_data p = Some off /\ off = 12 + zlen (a_csrcs a) + 4 /\
    extension_profile p = blk_profile x /\
    extension_length p = zlen (items_wire two (put_item two id v (blk_items x))) /\
    slice (stored a' len rest) (payload p) (payload_len p) = a_payload a /\
    (marker p, payload_type p, sequence_number p, timestamp p, ssrc p) =
      (a_marker a, a_pt a, a_seq a, a_ts a, a_ssrc a).
Proof.
  intros a' Hwf Hr. unfold stored. rewrite rtp_parse_wire; [|done|by apply Forall_drop].
  eexists _, _. split_and!; try done. unfold rtp_wire, a', edited, rtp_view.
  cbn [payload payload_len a_payload a_csrcs a_ext a_pad with_ext set].
  rewrite <- !app_assoc, app_assoc, app_assoc. apply slice_mid; [zlen|done].
Qed.

(** What a receiver sees of an edited packet: the new value under the id, the
    old payload and the old header fields. *)
Definition read_back (a : rtp_abs) (d : list Z) (len : Z) (read : Z -> Z -> Z -> Prop) : Prop :=
  exists p off, sfu_rtp_packet_parse d len = Ok p /\ extension_data p = Some off /\
    read (extension_profile p) off (extension_length p) /\
    slice d (payload p) (payload_len p) = a_payload a /\
    (marker p, payload_type p, sequence_number p, timestamp p, ssrc p) =
      (a_marker a, a_pt a, a_seq a, a_ts a, a_ssrc a).

Lemma stored_read_twcc two a x rest id seq cap len :
  rtp_abs_wf a -> ext_desc two a x -> 1 <= id <= 14 -> is_u16 seq -> bytes_ok rest ->
  fits two a x id (enc16 seq) cap = true ->
  (forall pre d post, split_item id (blk_items x) = Some (pre, d, post) -> zlen d = 2) ->
  let a' := edited two a x id (enc16 seq) in
  read_back a (stored a' len rest) (zlen (rtp_wire a'))
    (fun prof off n => sfu_rtp_ext_read_twcc prof (stored a' len rest) off n id = Ok seq).
Proof.
  intros Hwf Hx Hid Hseq Hr Hf Hd a'.
  assert (Hv : item_wf two (XElem id (enc16 seq))).
  { split; [auto with sfu|]. change (zlen (enc16 seq)) with 2. destruct two; lia. }
  destruct (edited_wf two a x id _ cap Hwf Hx Hv Hf) as (Hwf' & Hits & Hfmt).
  destruct (parse_edited two a x id (enc16 seq) rest len Hwf' Hr)
    as (p & off & Hparse & Hoff & -> & Hprof & Hlen & Hpl & Hfields).
  exists p, (12 + zlen (a_csrcs a) + 4). split_and!; [done..| |done|done].
  destruct (put_item_lookup two id (enc16 seq) (blk_items x)) as (pre & post & Hs).
  { intros ? ? ? E Hne. destruct Hne. by rewrite (Hd _ _ _ E). }
  destruct (scan_stored two a (blk_profile x) _ (drop (Z.to_nat (zlen (rtp_wire a') - len)) rest)
              id _ _ _ Hits Hs) as (pos & Hscan & A & R & Hdata & HA).
  fold (edited two a x id (enc16 seq)) in Hscan, Hdata. fold a' in Hscan, Hdata.
  fold (stored a' len rest) in Hscan, Hdata.
  assert (Hok : bytes_ok (stored a' len rest)).
  { apply bytes_ok_app; [by apply rtp_wire_bytes_ok|by apply Forall_drop]. }
  rewrite Hprof, Hlen. unfold sfu_rtp_ext_read_twcc. rewrite reject_false by lia.
  assert (Hread : sfu_read_be16 (stored a' len rest) (12 + zlen (a_csrcs a) + 4 + pos + hdr_len two) = Ok seq).
  { zlen_pos. rewrite read_be16_ok; [|done|lia|rewrite Hdata; zlen].
    by rewrite <- HA, Hdata, be16_app_0, be16_enc16. }
  unfold fmt_of_profile in Hfmt. destruct (_ =? RTP_EXT_ONE_BYTE_PROFILE);
    [|destruct (is_two_byte_profile _); [|done]]; injection Hfmt as <-;
    cbn [elem_of_fmt] in Hscan; rewrite Hscan; cbn [res_bind];
    change (zlen (enc16 seq) <? SFU_TWCC_EXT_LEN) with false; exact Hread.
Qed.

Lemma stored_read_mid two a x rest id mid cap len out_cap :
  rtp_abs_wf a -> ext_desc two a x -> id <> 0 -> item_wf two (XElem id mid) -> bytes_ok rest ->
  fits two a x id mid cap = true -> 1 <= zlen mid < out_cap ->
  (forall pre d post, split_item id (blk_items x) = Some (pre, d, post) -> zlen d <> zlen mid ->
     split_item id post = None) ->
  let a' := edited two a x id mid in
  read_back a (stored a' len rest) (zlen (rtp_wire a'))
    (fun prof off n => sfu_rtp_ext_read_mid prof (stored a' len rest) off n id out_cap = Ok (mid ++ [0])).
Proof.
  intros Hwf Hx Hid Hv Hr Hf Hout Hd a'.
  destruct (edited_wf two a x id _ cap Hwf Hx Hv Hf) as (Hwf' & Hits & Hfmt).
  destruct (parse_edited two a x id mid rest len Hwf' Hr)
    as (p & off & Hparse & Hoff & -> & Hprof & Hlen & Hpl & Hfields).
  exists p, (12 + zlen (a_csrcs a) + 4). split_and!; [done..| |done|done].
  destruct (put_item_lookup two id mid (blk_items x) Hd) as (pre & post & Hs).
  destruct (scan_stored two a (blk_profile x) _ (drop (Z.to_nat (zlen (rtp_wire a') - len)) rest)
              id _ _ _ Hits Hs) as (pos & Hscan & A & R & Hdata & HA).
  fold (edited two a x id mid) in Hscan, Hdata. fold a' in Hscan, Hdata.
  fold (stored a' len rest) in Hscan, Hdata.
  rewrite Hprof, Hlen. unfold sfu_rtp_ext_read_mid. rewrite reject_false by lia.
  assert (Hread : rd_n (stored a' len rest) (12 + zlen (a_csrcs a) + 4 + pos + hdr_len two) (zlen mid) = Ok mid).
  { zlen_pos. rewrite rd_n_ok; [|lia|lia|rewrite Hdata; zlen]. f_equal. rewrite Hdata. by apply slice_mid. }
  unfold fmt_of_profile in Hfmt. destruct (_ =? RTP_EXT_ONE_BYTE_PROFILE);
    [|destruct (is_two_byte_profile _); [|done]]; injection Hfmt as <-;
    cbn [elem_of_fmt] in Hscan; rewrite Hscan; cbn [res_bind hdr_len] in *;
    rewrite reject_false by lia; by rewrite Hread.
Qed.

(** C18: writing a transport-wide sequence number into a packet of the grammar
    whose extension block is well formed (or absent) is exactly the abstract
    edit of the packet, or refused (an element of the id with another size,
    the block length field or the capacity exceeded); what was written is read
    back from the parsed result with payload and header fields unchanged. *)
Theorem write_twcc_correct two a x rest cap id seq :
  let len := zlen (rtp_wire a) in
  rtp_abs_wf a -> ext_desc two a x -> 1 <= id <= 14 -> is_u16 seq -> bytes_ok rest ->
  len <= cap <= len + zlen rest ->
  sfu_rtp_ext_write_twcc (rtp_wire a ++ rest) len cap id seq = twcc_outcome two a x cap id seq rest /\
  (forall d len', sfu_rtp_ext_write_twcc (rtp_wire a ++ rest) len cap id seq = Ok (d, len') ->
     read_back a d len'
       (fun prof off n => sfu_rtp_ext_read_twcc prof d off n id = Ok seq)).
Proof.
  intros len Hwf Hx Hid Hseq Hr Hcap. rewrite (write_twcc_refines two a x) by done. split; [done|].
  intros d len'. unfold twcc_outcome.
  destruct (_ || _) eqn:G; [done|]. apply orb_false_iff in G as [Gc Gf]. intros [= <- <-].
  apply negb_false_iff in Gf. apply (stored_read_twcc two a x rest id seq cap); try done.
  intros pre d post E. rewrite E in Gc. unfold SFU_TWCC_EXT_LEN in Gc. lia.
Qed.

(** A packet whose block holds one element (id 3) and a padding byte. *)
Definition ex_block : option (Z * list ext_item) :=
  Some (RTP_EXT_ONE_BYTE_PROFILE, [XElem 3 [97; 98]; XPad]).
Definition ex_packet : rtp_abs :=
  mk_rtp_abs false 96 10 20 30 [] (Some (RTP_EXT_ONE_BYTE_PROFILE, [0x31; 97; 98; 0])) [1; 2; 3] None.

Lemma ex_packet_wf : rtp_abs_wf ex_packet /\ ext_desc false ex_packet ex_block.
Proof.
  split.
  - unfold rtp_abs_wf, ex_packet, ext_wf, is_u16, is_u32, RTP_EXT_ONE_BYTE_PROFILE. simpl.
    split_and!; try lia; try done; apply bytes_okb_ok; reflexivity.
  - split_and!; [reflexivity..|]. repeat constructor; unfold is_u8; try lia; vm_compute; try done; intros [? ?]; done.
Qed.

Lemma write_twcc_correct_witness :
  sfu_rtp_ext_write_twcc (rtp_wire ex_packet ++ zeros 8) 23 31 5 4660 =
    twcc_outcome false ex_packet ex_block 31 5 4660 (zeros 8).
Proof.
  apply (write_twcc_correct false ex_packet ex_block (zeros 8) 31 5 4660).
  - apply ex_packet_wf.
  - apply ex_packet_wf.
  - lia.
  - unfold is_u16. lia.
  - apply bytes_okb_ok. reflexivity.
  - vm_compute. split; discriminate.
Defined.

(** Writing a MID is the abstract edit of the packet whenever the edited
    packet fits, and the MID is then read back from the parsed result, with
    payload and header fields unchanged, provided a replaced element of
    another size was the only one of its id. *)
Theorem write_mid_correct two a x rest cap id mid out_cap :
  let len := zlen (rtp_wire a) in
  rtp_abs_wf a -> ext_desc two a x -> id <> 0 -> item_wf two (XElem id mid) -> bytes_ok rest ->
  len <= cap <= len + zlen rest -> 1 <= zlen mid < out_cap ->
  (forall pre d post, split_item id (blk_items x) = Some (pre, d, post) -> zlen d <> zlen mid ->
     split_item id post = None) ->
  exists d, sfu_rtp_ext_write_mid (rtp_wire a ++ rest) len cap id mid =
    Ok (if fits two a x id mid cap then Some (zlen (rtp_wire (edited two a x id mid))) else None, d) /\
    (fits two a x id mid cap = true ->
     read_back a d (zlen (rtp_wire (edited two a x id mid)))
       (fun prof off n => sfu_rtp_ext_read_mid prof d off n id out_cap = Ok (mid ++ [0]))).
Proof.
  intros len Hwf Hx Hid Hv Hr Hcap Hout Hd.
  destruct (write_mid_refines two a x rest cap id mid) as (d & E & Hst); [done..|lia|done|done|].
  exists d. split; [done|]. intros Hf. rewrite (Hst Hf). by apply (stored_read_mid two a x rest id mid cap).
Qed.

Lemma write_mid_correct_witness :
  exists d, sfu_rtp_ext_write_mid (rtp_wire ex_packet ++ zeros 8) 23 31 3 [48; 49; 50] =
    Ok (Some 27, d) /\
    read_back ex_packet d 27
      (fun prof off n => sfu_rtp_ext_read_mid prof d off n 3 16 = Ok [48; 49; 50; 0]).
Proof.
  destruct (write_mid_correct false ex_packet ex_block (zeros 8) 31 3 [48; 49; 50] 16) as (d & E & H).
  - apply ex_packet_wf.
  - apply ex_packet_wf.
  - lia.
  - split; [apply bytes_okb_ok; reflexivity|]. vm_compute. intuition discriminate.
  - apply bytes_okb_ok. reflexivity.
  - vm_compute. split; discriminate.
  - vm_compute. split; [discriminate|reflexivity].
  - intros pre e post E _. vm_compute in E. injection E as <- <- <-. reflexivity.
  - exists d. split; [exact E|]. apply H. vm_compute. reflexivity.
Defined.

Lemma write_twcc_safe data len cap id seq :
  bytes_ok data -> cap <= zlen data ->
  match sfu_rtp_ext_write_twcc data len cap id seq with
  | Ok (d, len') => zlen d = zlen data /\ len <= len' <= cap
  | Err => True
  | Fault => False
  end.
Proof.
  intros Hb Hc. unfold sfu_rtp_ext_write_twcc, RTP_FIXED_HEADER_LEN, SFU_TWCC_EXT_LEN.
  destruct (_ || _) eqn:G; cbn [reject]; [done|]. bool_hyps.
  destruct (rtp_ext_block_ok data len) as (blk & -> & Hblk); [done|lia|]. cbn [res_bind].
  destruct blk as [[off n]|]; cbn [block_profile].
  - rewrite read_be16_ok by (done || lia). cbn [res_bind].
    destruct (_ =? RTP_EXT_ONE_BYTE_PROFILE); [|destruct (is_two_byte_profile _); [|done]].
    + destruct (find_safe false data (off + 4) n Hb ltac:(lia) ltac:(lia) id) as [HF HS].
      cbn [find_of_fmt hdr_len] in *.
      destruct (one_byte_find _ _ _ _) as [[eo es]| |]; [| |done].
      * destruct (HS _ _ eq_refl) as (? & ? & ?). destruct (negb _) eqn:G2; cbn [reject]; [done|].
        bool_hyps. rewrite write_be16_ok by lia. cbn [res_bind]. split; [zlen|lia].
      * rewrite land_lnot3. set (n' := (n + (1 + 2) + 3) / 4 * 4). assert (n + 3 <= n') by (unfold n'; dlia).
        destruct (_ || _) eqn:G2; cbn [reject]; [done|]. bool_hyps.
        destruct (ext_block_grow_ok data len off n n') as (d & -> & Hd); [lia..|]. cbn [res_bind].
        buf_run. split; [zlen|lia].
    + destruct (find_safe true data (off + 4) n Hb ltac:(lia) ltac:(lia) id) as [HF HS].
      cbn [find_of_fmt hdr_len] in *.
      destruct (two_byte_find _ _ _ _) as [[eo es]| |]; [| |done].
      * destruct (HS _ _ eq_refl) as (? & ? & ?). destruct (negb _) eqn:G2; cbn [reject]; [done|].
        bool_hyps. rewrite write_be16_ok by lia. cbn [res_bind]. split; [zlen|lia].
      * destruct (_ || _) eqn:G2; cbn [reject]; [done|]. bool_hyps.
        destruct (ext_block_grow_ok data len off n (n + 4)) as (d & -> & Hd); [lia..|]. cbn [res_bind].
        buf_run. split; [zlen|lia].
  - rewrite rd_ok by lia. cbn [res_bind]. destruct (negb _); cbn [reject]; [done|].
    destruct (rtp_csrc_end_ok data len) as (e & -> & He); [done|lia|]. cbn [res_bind].
    destruct (_ || _) eqn:G2; cbn [reject]; [done|]. bool_hyps. buf_run. split; [zlen|lia].
Qed.

Lemma read_mid_safe profile b ext ext_len id out_cap :
  bytes_ok b -> 0 <= ext -> ext + ext_len <= zlen b ->
  match sfu_rtp_ext_read_mid profile b ext ext_len id out_cap with
  | Ok mid => zlen mid <= out_cap
  | Err => True
  | Fault => False
  end.
Proof.
  intros Hb He Hl. unfold sfu_rtp_ext_read_mid. destruct (_ || _); [done|]. cbn [reject].
  destruct (_ =? _); [|destruct (is_two_byte_profile _); [|done]].
  - destruct (scan_start_safe false b ext ext_len Hb He Hl id) as [HF HS]. cbn [elem_of_fmt] in *.
    destruct (ext_scan _ _ _ _ _) as [[[p h] d]| |]; cbn [res_bind]; [|done..].
    destruct (HS _ _ _ eq_refl) as (? & ? & ? & ?). destruct (_ || _) eqn:G; [done|]. cbn [reject].
    simpl in *. bool_hyps. rewrite rd_n_ok by lia. cbn [res_bind]. zlen.
  - destruct (scan_start_safe true b ext ext_len Hb He Hl id) as [HF HS]. cbn [elem_of_fmt] in *.
    destruct (ext_scan _ _ _ _ _) as [[[p h] d]| |]; cbn [res_bind]; [|done..].
    destruct (HS _ _ _ eq_refl) as (? & ? & ? & ?). destruct (_ || _) eqn:G; [done|]. cbn [reject].
    simpl in *. bool_hyps. rewrite rd_n_ok by lia. cbn [res_bind]. zlen.
Qed.

Lemma read_twcc_safe profile b ext ext_len id :
  bytes_ok b -> 0 <= ext -> ext + ext_len <= zlen b ->
  sfu_rtp_ext_read_twcc profile b ext ext_len id <> Fault.
Proof.
  intros Hb He Hl. apply reject_no_fault. intros _.
  destruct (_ =? _); [|destruct (is_two_byte_profile _); [|done]].
  - destruct (scan_start_safe false b ext ext_len Hb He Hl id) as [HF HS]. cbn [elem_of_fmt] in *.
    destruct (ext_scan _ _ _ _ _) as [[[p h] d]| |]; cbn [res_bind]; [|done..].
    destruct (HS _ _ _ eq_refl) as (? & ? & ? & ?). apply reject_no_fault. unfold SFU_TWCC_EXT_LEN.
    intros ?. simpl in *. by rewrite read_be16_ok by (done || lia).
  - destruct (scan_start_safe true b ext ext_len Hb He Hl id) as [HF HS]. cbn [elem_of_fmt] in *.
    destruct (ext_scan _ _ _ _ _) as [[[p h] d]| |]; cbn [res_bind]; [|done..].
    destruct (HS _ _ _ eq_refl) as (? & ? & ? & ?). apply reject_no_fault. unfold SFU_TWCC_EXT_LEN.
    intros ?. simpl in *. by rewrite read_be16_ok by (done || lia).
Qed.

(** On any packet, however malformed its extension block, the readers and
    the writers terminate, stay inside the buffer and within the capacity,
    and keep the buffer's size. *)
Theorem ext_memory_safe data len cap id :
  bytes_ok data -> cap <= zlen data ->
  (forall seq, match sfu_rtp_ext_write_twcc data len cap id seq with
               | Ok (d, len') => zlen d = zlen data /\ len <= len' <= cap
               | Err => True | Fault => False end) /\
  (forall mid, write_safe cap data (sfu_rtp_ext_write_mid data len cap id mid)) /\
  (forall profile ext ext_len out_cap, 0 <= ext -> ext + ext_len <= zlen data ->
     sfu_rtp_ext_read_twcc profile data ext ext_len id <> Fault /\
     match sfu_rtp_ext_read_mid profile data ext ext_len id out_cap with
     | Ok mid => zlen mid <= out_cap | Err => True | Fault => False end).
Proof.
  intros Hb Hc. split_and!.
  - intros seq. by apply write_twcc_safe.
  - intros mid. by apply write_value_safe.
  - intros. split; [by apply read_twcc_safe|by apply read_mid_safe].
Qed.

Lemma ext_memory_safe_witness :
  write_safe 20 (zeros 20) (sfu_rtp_ext_write_mid (zeros 20) 16 20 3 [48]).
Proof.
  apply (ext_memory_safe (zeros 20) 16 20 3); [apply bytes_okb_ok; reflexivity|reflexivity].
Defined.

(** * Behaviour on blocks that do not parse to their end *)

(** ** The writers keep a buffer of bytes *)

Lemma wr_n_bytes b i v b' : wr_n b i v = Ok b' -> bytes_ok b -> bytes_ok v -> bytes_ok b'.
Proof. unfold wr_n. destruct (_ && _); [|done]. intros [= <-]. apply bytes_ok_patch. Qed.
Lemma wr_bytes b i v b' : wr b i v = Ok b' -> bytes_ok b -> is_u8 v -> bytes_ok b'.
Proof. intros E Hb Hv. eapply wr_n_bytes; [exact E|done|]. apply bytes_ok_cons; [done|apply bytes_ok_nil]. Qed.
Lemma memset_bytes b i v n b' : memset b i v n = Ok b' -> bytes_ok b -> is_u8 v -> bytes_ok b'.
Proof. intros E Hb Hv. eapply wr_n_bytes; [exact E|done|]. by apply bytes_ok_replicate. Qed.
Lemma memmove_bytes b i j n b' : memmove b i j n = Ok b' -> bytes_ok b -> bytes_ok b'.
Proof.
  unfold memmove, rd_n. destruct (_ && _); [|done]. intros E Hb. eapply wr_n_bytes; [exact E|done|]. by apply bytes_ok_slice.
Qed.
Lemma write_be16_bytes b p v b' : sfu_write_be16 b p v = Ok b' -> bytes_ok b -> bytes_ok b'.
Proof.
  unfold sfu_write_be16. intros E Hb. apply res_bind_ok in E as (b1 & E1 & E2).
  eapply wr_bytes; [exact E2| |apply u8_range]. eapply wr_bytes; [exact E1|done|apply u8_range].
Qed.
Lemma ext_block_grow_bytes b len off n n' b' : ext_block_grow b len off n n' = Ok b' -> bytes_ok b -> bytes_ok b'.
Proof.
  unfold ext_block_grow. intros E Hb. apply res_bind_ok in E as (b1 & E1 & E). apply res_bind_ok in E as (b2 & E2 & E3).
  eapply write_be16_bytes; [exact E3|]. eapply memset_bytes; [exact E2| |unfold is_u8; lia]. by eapply memmove_bytes.
Qed.
Lemma put_elem_bytes b i h id v b' : put_elem b i h id v = Ok b' -> bytes_ok b -> is_u8 id -> bytes_ok v -> bytes_ok b'.
Proof.
  unfold put_elem. intros E Hb Hi Hv. apply res_bind_ok in E as (b1 & E1 & E2). eapply wr_n_bytes; [exact E2| |done].
  destruct (h =? 1); [eapply wr_bytes; [exact E1|done|apply u8_range]|].
  apply res_bind_ok in E1 as (b2 & E3 & E4). eapply wr_bytes; [exact E4| |apply u8_range]. by eapply wr_bytes.
Qed.
Lemma append_elem_bytes b len cap off n h id v l b' :
  append_elem b len cap off n h id v = Ok (l, b') -> bytes_ok b -> is_u8 id -> bytes_ok v -> bytes_ok b'.
Proof.
  unfold append_elem. intros E Hb Hi Hv. destruct (_ || _); [by injection E as <- <-|].
  apply res_bind_ok in E as (b1 & E1 & E). apply res_bind_ok in E as (b2 & E2 & E3). injection E3 as <- <-.
  eapply put_elem_bytes; [exact E2| |done|done]. by eapply ext_block_grow_bytes.
Qed.
Lemma replace_elem_bytes b len cap off n h id v f l b' :
  replace_elem b len cap off n h id v f = Ok (l, b') -> bytes_ok b -> is_u8 id -> bytes_ok v -> bytes_ok b'.
Proof.
  unfold replace_elem. intros E Hb Hi Hv. destruct f as [[o z]| |]; [|by eapply append_elem_bytes|done].
  destruct (z =? _); apply res_bind_ok in E as (b1 & E1 & E2).
  - injection E2 as <- <-. by eapply put_elem_bytes.
  - eapply append_elem_bytes; [exact E2| |done|done]. eapply memset_bytes; [exact E1|done|unfold is_u8; lia].
Qed.
Lemma write_value_bytes b len cap id v l b' :
  rtp_ext_write_value b len cap id v = Ok (l, b') -> bytes_ok b -> is_u8 id -> bytes_ok v -> bytes_ok b'.
Proof.
  unfold rtp_ext_write_value. intros E Hb Hi Hv. destruct (_ || _); [by injection E as <- <-|].
  apply res_bind_ok in E as (blk & _ & E). apply res_bind_ok in E as (pr & _ & E). destruct blk as [[off n]|].
  - destruct (pr =? _); [destruct (_ || _); [by injection E as <- <-|]; by eapply replace_elem_bytes|].
    destruct (is_two_byte_profile pr); [|by injection E as <- <-].
    destruct (_ <? _); [by injection E as <- <-|]. by eapply replace_elem_bytes.
  - apply res_bind_ok in E as (d0 & _ & E). destruct (_ || _); [by injection E as <- <-|].
    apply res_bind_ok in E as (ce & _ & E). destruct (_ || _); [by injection E as <- <-|].
    repeat (apply res_bind_ok in E as (? & ? & E)). injection E as <- <-.
    repeat match goal with
    | H : memmove ?b _ _ _ = Ok ?c, Hb : bytes_ok ?b |- _ => apply memmove_bytes in H; [|done]
    | H : sfu_write_be16 ?b _ _ = Ok ?c, Hb : bytes_ok ?b |- _ => apply write_be16_bytes in H; [|done]
    | H : memset ?b _ 0 _ = Ok ?c, Hb : bytes_ok ?b |- _ => apply memset_bytes in H; [|done|unfold is_u8; lia]
    | H : wr ?b _ (u8 _) = Ok ?c, Hb : bytes_ok ?b |- _ => apply wr_bytes in H; [|done|apply u8_range]
    | H : wr_n ?b _ _ = Ok ?c, Hb : bytes_ok ?b |- _ => apply wr_n_bytes in H; [|done|done]
    | H : wr ?b 0 (Z.lor ?d 0x10) = Ok ?c, Hb : bytes_ok ?b, Hd : rd ?b 0 = Ok ?d |- _ =>
        apply wr_bytes in H; [|done|apply lor_u8; [by apply (rd_u8 _ _ _ Hd)|unfold is_u8; lia]]
    end; done.
Qed.


(** A block whose first element has the reserved id 15. *)
Definition reserved_block : list Z :=
  [0x90; 96; 0; 1; 0; 0; 0; 2; 0; 0; 0; 3; 0xBE; 0xDE; 0; 1; 0xF0; 0; 0; 0; 77] ++ zeros 32.

(** The transport-cc writer appends behind the reserved element, where every
    reader has already stopped: it reports success and the number it wrote
    cannot be read. *)
Example twcc_behind_reserved_unreadable :
  match sfu_rtp_ext_write_twcc reserved_block 21 53 5 4660 with
  | Ok (d, len') =>
      match sfu_rtp_packet_parse d len' with
      | Ok p => extension_data p = Some 16 /\ extension_length p = 8 /\
                sfu_rtp_ext_read_twcc (extension_profile p) d 16 8 5 = Err
      | _ => False
      end
  | _ => False
  end.
Proof. vm_compute. auto. Qed.

(** A one-byte block holding the four-byte element 3, in a buffer with no room. *)
Definition full_packet : list Z :=
  [0x90; 96; 0; 1; 0; 0; 0; 2; 0; 0; 0; 3; 0xBE; 0xDE; 0; 1; 0x32; 97; 98; 99].

(** A MID write that fails for lack of room has already erased the old MID. *)
Example mid_failed_write_erases :
  sfu_rtp_ext_read_mid RTP_EXT_ONE_BYTE_PROFILE full_packet 16 4 3 16 = Ok [97; 98; 99; 0] /\
  match sfu_rtp_ext_write_mid full_packet 20 20 3 [97; 98; 99; 100; 101] with
  | Ok (None, d) => sfu_rtp_ext_read_mid RTP_EXT_ONE_BYTE_PROFILE d 16 4 3 16 = Err
  | _ => False
  end.
Proof. vm_compute. auto. Qed.
