(* ===== verification/RtxBuild.v ===== *)
(** Packets the unit builds itself: RFC 4588 retransmissions,
    [src/rtp/rtx_build.c], and padding-only probe packets,
    [src/rtp/rtp_padding.c].  Both are related to the packet grammar of
    [RtpPacket], so what they build is what the parser reads back. *)

From S2P Require Import Prelude NetBytes RtpPacket RtpExt.

Definition SFU_RTP_PADDING_DEFAULT_BYTES : Z := 224.
Definition SFU_RTP_PADDING_MAX_BYTES : Z := 255.

(** A call whose result is cast to void: a refusal leaves the buffer alone. *)
Definition ignore_result (out : list Z) (r : res (list Z)) : res (list Z) :=
  match r with Ok d => Ok d | Err => Ok out | Fault => Fault end.

(** The buffer and its used length; a failure writes nothing. *)
Definition sfu_rtx_build (orig : list Z) (orig_len rtx_pt rtx_seq rtx_ssrc : Z)
    (out : list Z) (out_cap : Z) : res (list Z * Z) :=
  reject (127 <? rtx_pt) (
  let! packet := sfu_rtp_packet_parse orig orig_len in
  reject ((orig_len <? header_len packet) || (UINT64_MAX - 2 <? orig_len) ||
          (UINT64_MAX - header_len packet - 2 <? payload_len packet)) (
  let built_len := header_len packet + 2 + payload_len packet in
  reject (out_cap <? orig_len + 2) (
  let! h := rd_n orig 0 (header_len packet) in
  let! out := wr_n out 0 h in
  let! d0 := rd out 0 in
  let! out := wr out 0 (Z.land d0 (u8 (Z.lnot 0x20))) in
  let! out := ignore_result out (sfu_rtp_packet_set_pt out (header_len packet) rtx_pt) in
  let! out := ignore_result out (sfu_rtp_packet_set_seq out (header_len packet) rtx_seq) in
  let! out := ignore_result out (sfu_rtp_packet_set_ssrc out (header_len packet) rtx_ssrc) in
  let! out := sfu_write_be16 out (header_len packet) (sequence_number packet) in
  let! body := rd_n orig (payload packet) (payload_len packet) in
  let! out := wr_n out (header_len packet + 2) body in
  Ok (out, built_len)))).

Definition sfu_rtp_padding_build (out : list Z) (out_cap payload_type seq timestamp ssrc
    padding_bytes twcc_ext_id twcc_seq : Z) : res (list Z * Z) :=
  reject ((127 <? payload_type) || (ssrc =? 0)) (
  reject (14 <? twcc_ext_id) (
  let padding_bytes := if padding_bytes =? 0 then SFU_RTP_PADDING_DEFAULT_BYTES else padding_bytes in
  reject (SFU_RTP_PADDING_MAX_BYTES <? padding_bytes) (
  let header_len := RTP_FIXED_HEADER_LEN in
  reject (out_cap <? header_len) (
  let! out := wr out 0 0x80 in
  let! out := wr out 1 (Z.land payload_type 0x7f) in
  let! out := sfu_write_be16 out 2 seq in
  let! out := sfu_write_be32 out 4 timestamp in
  let! out := sfu_write_be32 out 8 ssrc in
  let! r :=
    if 0 <? twcc_ext_id
    then sfu_rtp_ext_write_twcc out header_len out_cap twcc_ext_id twcc_seq
    else Ok (out, header_len) in
  let '(out, header_len) := r in
  reject (out_cap <? header_len + padding_bytes) (
  let! d0 := rd out 0 in
  let! out := wr out 0 (Z.lor d0 0x20) in
  let! out := memset out header_len 0 padding_bytes in
  let! out := wr out (header_len + padding_bytes - 1) (u8 padding_bytes) in
  Ok (out, header_len + padding_bytes)))))).

(** * Retransmissions *)

(** The abstract retransmission of a packet. *)
Definition rtx_of (a : rtp_abs) (pt seq ss : Z) : rtp_abs :=
  a <| a_pt := pt |> <| a_seq := seq |> <| a_ssrc := ss |> <| a_pad := None |>
    <| a_payload := enc16 (a_seq a) ++ a_payload a |>.

Lemma clear_pad_bit p x cc :
  0 <= cc <= 15 ->
  Z.land (128 + flag p 32 + flag x 16 + cc) (u8 (Z.lnot 0x20)) = 128 + flag false 32 + flag x 16 + cc.
Proof.
  intros Hcc. assert (Hb : is_u8 cc) by (unfold is_u8; lia).
  pose proof (byte_forall (fun c => (15 <? c) ||
    (Z.land (128 + flag p 32 + flag x 16 + c) (u8 (Z.lnot 0x20)) =? 128 + flag false 32 + flag x 16 + c))) as H.
  specialize (H ltac:(destruct p, x; vm_compute; reflexivity) cc Hb). cbv beta in H.
  apply orb_true_iff in H as [?|H]; [lia|]. by apply Z.eqb_eq in H.
Qed.

Definition hdr_bytes (a : rtp_abs) : list Z := fixed_header a ++ a_csrcs a ++ ext_wire (a_ext a).

Lemma rtp_wire_hdr a : rtp_wire a = hdr_bytes a ++ a_payload a ++ pad_wire (a_pad a).
Proof. unfold rtp_wire, hdr_bytes. by rewrite <- !app_assoc. Qed.

Lemma zlen_hdr_bytes a : zlen (hdr_bytes a) = header_len (rtp_view a).
Proof. unfold hdr_bytes, rtp_view. cbn [header_len]. rewrite !zlen_app. change (zlen (fixed_header a)) with 12. lia. Qed.

(** The header edits, on the copied header. *)
Lemma rtx_header_edits {B} a pt seq ss R (k : list Z -> res B) :
  rtp_abs_wf a -> 0 <= pt <= 127 ->
  let n := header_len (rtp_view a) in
  (let! d0 := rd (hdr_bytes a ++ R) 0 in
   let! out := wr (hdr_bytes a ++ R) 0 (Z.land d0 (u8 (Z.lnot 0x20))) in
   let! out := ignore_result out (sfu_rtp_packet_set_pt out n pt) in
   let! out := ignore_result out (sfu_rtp_packet_set_seq out n seq) in
   let! out := ignore_result out (sfu_rtp_packet_set_ssrc out n ss) in k out) =
  k (hdr_bytes (rtx_of a pt seq ss) ++ R).
Proof.
  intros Hwf Hpt n. assert (Hn : 12 <= n) by (unfold n, rtp_view; cbn [header_len]; zlen_pos; lia).
  pose proof (zlen_hdr_bytes a) as Hz. fold n in Hz. zlen_pos.
  destruct Hwf as (Hpt0 & _ & _ & _ & _ & Hc4 & Hc60 & _). zlen_pos.
  rewrite rd_ok by zlen. cbn [res_bind].
  change (byte_at (hdr_bytes a ++ R) 0) with
    (128 + flag (is_some (a_pad a)) 32 + flag (is_some (a_ext a)) 16 + zlen (a_csrcs a) / 4).
  rewrite clear_pad_bit by dlia. unfold wr at 1. rewrite wr_n_ok by zlen. cbn [res_bind].
  unfold sfu_rtp_packet_set_pt, sfu_rtp_packet_set_seq, sfu_rtp_packet_set_ssrc, RTP_FIXED_HEADER_LEN.
  rewrite reject_false by lia. rewrite rd_ok by zlen. cbn [res_bind].
  change (byte_at (patch (hdr_bytes a ++ R) 0 ?s) 1) with (flag (a_marker a) 128 + a_pt a).
  rewrite set_pt_byte by done. unfold wr. rewrite wr_n_ok by zlen. cbn [ignore_result res_bind].
  rewrite reject_false by lia. rewrite write_be16_ok by zlen. cbn [ignore_result res_bind].
  rewrite reject_false by lia. rewrite write_be32_ok by zlen. done.
Qed.

Lemma rtx_build_wire a rest pt seq ss out cap :
  rtp_abs_wf a -> 0 <= pt <= 127 -> bytes_ok rest -> cap <= zlen out ->
  zlen (rtp_wire a) + 2 <= UINT64_MAX ->
  sfu_rtx_build (rtp_wire a ++ rest) (zlen (rtp_wire a)) pt seq ss out cap =
    if cap <? zlen (rtp_wire a) + 2 then Err else
    let a' := rtx_of a pt seq ss in
    Ok (rtp_wire a' ++ drop (length (rtp_wire a')) out, zlen (rtp_wire a')).
Proof.
  intros Hwf Hpt Hr Hcap Hmax. unfold sfu_rtx_build. rewrite reject_false by lia.
  rewrite rtp_parse_wire by done. cbn [res_bind].
  pose proof (zlen_hdr_bytes a) as Hh. set (n := header_len (rtp_view a)) in *.
  change (payload (rtp_view a)) with n. change (payload_len (rtp_view a)) with (zlen (a_payload a)).
  change (sequence_number (rtp_view a)) with (a_seq a).
  assert (Hz : zlen (rtp_wire a) = n + zlen (a_payload a) + zlen (pad_wire (a_pad a)))
    by (rewrite rtp_wire_hdr, !zlen_app; lia).
  zlen_pos. rewrite reject_false by (unfold UINT64_MAX in *; lia).
  destruct (Z.ltb_spec cap (zlen (rtp_wire a) + 2)); cbn [reject]; [done|].
  rewrite rtp_wire_hdr, <- !app_assoc.
  rewrite rd_n_ok by zlen. cbn [res_bind]. rewrite <- Hh at 1. rewrite slice_app_l.
  rewrite wr_n_ok by zlen. cbn [res_bind].
  set (R := drop (length (hdr_bytes a)) out).
  assert (HR : zlen R = zlen out - n) by (unfold R, zlen in *; rewrite length_drop; lia).
  replace (patch out 0 (hdr_bytes a)) with (hdr_bytes a ++ R) by done.
  rewrite rtx_header_edits by done.
  assert (Hh' : zlen (hdr_bytes (rtx_of a pt seq ss)) = n) by (by rewrite zlen_hdr_bytes).
  rewrite write_be16_ok by zlen. cbn [res_bind].
  rewrite rd_n_ok by zlen. rewrite slice_mid by done. cbn [res_bind].
  rewrite wr_n_ok by zlen. cbn [res_bind].
  rewrite (patch_patch_adj _ n (enc16 _)) by zlen.
  cbv zeta. rewrite rtp_wire_hdr. cbn [pad_wire a_pad a_payload rtx_of set]. rewrite app_nil_r.
  set (body := enc16 (a_seq a) ++ a_payload a).
  assert (Hb : zlen body = 2 + zlen (a_payload a)) by (unfold body; zlen).
  replace (n + 2 + zlen (a_payload a)) with (zlen (hdr_bytes (rtx_of a pt seq ss) ++ body)) by zlen.
  do 2 f_equal. unfold patch. rewrite <- Hh'. unfold zlen at 1 2. rewrite Nat2Z.id, take_app_length.
  rewrite drop_app_add, <- app_assoc. unfold R. rewrite drop_drop.
  do 3 f_equal. rewrite length_app. unfold zlen in *. lia.
Qed.

(** The parser's view of a retransmission. *)
Lemma rtp_view_rtx a pt seq ss :
  rtp_view (rtx_of a pt seq ss) =
    (rtp_view a) <| payload_type := pt |> <| sequence_number := seq |> <| ssrc := ss |>
      <| padding := false |> <| payload_len := payload_len (rtp_view a) + 2 |>.
Proof.
  assert (E : zlen (enc16 (a_seq a) ++ a_payload a) = zlen (a_payload a) + 2) by zlen.
  change (payload_len (rtp_view a)) with (zlen (a_payload a)). rewrite <- E. by destruct a.
Qed.

(** A retransmission of any packet the parser accepts is built whenever
    the buffer has room for the original and two bytes, and parses to the same
    header with payload type, sequence number and SSRC replaced and no
    padding; its payload is the original sequence number followed by the
    original payload. *)
Theorem rtx_build_correct orig len p pt seq ss out cap :
  bytes_ok orig -> len <= zlen orig -> sfu_rtp_packet_parse orig len = Ok p ->
  0 <= pt <= 127 -> is_u16 seq -> is_u32 ss -> bytes_ok out ->
  len + 2 <= cap <= zlen out -> cap <= UINT64_MAX ->
  exists d n p', sfu_rtx_build orig len pt seq ss out cap = Ok (d, n) /\
    zlen d = zlen out /\ n <= cap /\ sfu_rtp_packet_parse d n = Ok p' /\
    p' = p <| payload_type := pt |> <| sequence_number := seq |> <| ssrc := ss |>
           <| padding := false |> <| payload_len := payload_len p + 2 |> /\
    be16 d (payload p') = sequence_number p /\
    slice d (payload p' + 2) (payload_len p) = slice orig (payload p) (payload_len p).
Proof.
  intros Hb Hl Hparse Hpt Hseq Hss Hout Hcap Hmax.
  assert (H0 : 0 <= len).
  { apply reject_ok in Hparse as [E _]. unfold RTP_FIXED_HEADER_LEN in E. lia. }
  destruct (rtp_parse_sound _ _ _ Hb Hl Hparse) as (a & Hwf & Hs & ->).
  assert (Hz : len = zlen (rtp_wire a)) by (rewrite <- Hs; zlen).
  assert (Ho : orig = rtp_wire a ++ drop (Z.to_nat len) orig)
    by (rewrite <- Hs; by apply slice_prefix_split).
  set (rest := drop (Z.to_nat len) orig) in *.
  assert (Hr : bytes_ok rest) by (by apply Forall_drop).
  set (a' := rtx_of a pt seq ss).
  assert (Hwf' : rtp_abs_wf a').
  { destruct Hwf as (? & ? & ? & ? & ? & ? & ? & ? & ? & ?). unfold rtp_abs_wf, a', rtx_of. simpl.
    split_and!; try done; try lia. apply (bytes_ok_app (enc16 (a_seq a))); [auto with sfu|done]. }
  pose proof (zlen_hdr_bytes a) as Hh. pose proof (zlen_hdr_bytes a') as Hh'.
  assert (Hz' : zlen (rtp_wire a') <= len + 2).
  { rewrite Hz, !rtp_wire_hdr, !zlen_app, Hh'. change (header_len (rtp_view a')) with (header_len (rtp_view a)).
    rewrite <- Hh. cbn [a' rtx_of a_pad a_payload set pad_wire]. zlen. }
  eexists _, _, (rtp_view a').
  rewrite Ho at 1. rewrite Hz at 1. rewrite rtx_build_wire by (done || lia).
  rewrite (proj2 (Z.ltb_ge _ _)) by lia. fold a'. split; [done|].
  split; [unfold zlen in *; rewrite length_app, length_drop; lia|]. split; [lia|].
  split; [apply rtp_parse_wire; [done|by apply Forall_drop]|].
  split; [apply rtp_view_rtx|].
  change (payload (rtp_view a')) with (header_len (rtp_view a)). rewrite <- Hh.
  change (payload (rtp_view a)) with (header_len (rtp_view a)). rewrite <- Hh.
  change (zlen (hdr_bytes a)) with (zlen (hdr_bytes a')).
  fold a'. rewrite rtp_wire_hdr. cbn [a' rtx_of a_pad a_payload set pad_wire].
  change (sequence_number (rtp_view a)) with (a_seq a).
  change (payload_len (rtp_view a)) with (zlen (a_payload a)).
  split.
  - rewrite <- !app_assoc, be16_app_0, be16_enc16; [done|apply Hwf].
  - transitivity (a_payload a).
    + rewrite <- !app_assoc, app_assoc. apply slice_mid; [zlen|done].
    + rewrite Ho, rtp_wire_hdr, <- !app_assoc. symmetry. by apply slice_mid.
Qed.

Lemma rtx_build_correct_witness :
  exists d n p', sfu_rtx_build (rtp_wire ex_packet) 23 97 7 99 (zeros 64) 64 = Ok (d, n) /\
    sfu_rtp_packet_parse d n = Ok p' /\ be16 d (payload p') = 10.
Proof.
  destruct (rtx_build_correct (rtp_wire ex_packet) 23 (rtp_view ex_packet) 97 7 99 (zeros 64) 64)
    as (d & n & p' & E & _ & _ & Ep & _ & Eo & _);
    [apply bytes_okb_ok; reflexivity|reflexivity|vm_compute; reflexivity|lia|unfold is_u16; lia
    |unfold is_u32; lia|apply bytes_okb_ok; reflexivity|vm_compute; split; discriminate|done|].
  by exists d, n, p'.
Defined.

(** For any cached bytes: the builder stays inside both buffers. *)
Lemma rtx_build_safe orig len pt seq ss out cap :
  bytes_ok orig -> len <= zlen orig -> len + 2 <= UINT64_MAX -> 0 <= pt -> is_u16 seq -> is_u32 ss -> bytes_ok out -> cap <= zlen out ->
  match sfu_rtx_build orig len pt seq ss out cap with
  | Ok (d, n) => zlen d = zlen out /\ bytes_ok d /\ 12 <= n <= cap
  | Err => True
  | Fault => False
  end.
Proof.
  intros Hb Hl Hmax Hpt Hseq Hss Hout Hcap. destruct (Z.ltb_spec 127 pt) as [Hp|Hp]; [unfold sfu_rtx_build; by rewrite reject_true by lia|].
  pose proof (rtp_parse_memory_safe orig len Hb Hl) as Hf. destruct (sfu_rtp_packet_parse orig len) as [p| |] eqn:Hparse;
    [|unfold sfu_rtx_build; rewrite reject_false by lia; by rewrite Hparse|done].
  assert (H0 : 0 <= len) by (apply reject_ok in Hparse as [E _]; unfold RTP_FIXED_HEADER_LEN in E; lia).
  destruct (rtp_parse_sound _ _ _ Hb Hl Hparse) as (a & Hwf & Hs & _).
  assert (Hz : len = zlen (rtp_wire a)) by (rewrite <- Hs; zlen).
  assert (Ho : orig = rtp_wire a ++ drop (Z.to_nat len) orig) by (rewrite <- Hs; by apply slice_prefix_split).
  pose proof (rtx_build_wire a (drop (Z.to_nat len) orig) pt seq ss out cap Hwf (conj Hpt Hp) (Forall_drop _ _ _ Hb) Hcap ltac:(lia)) as Ew.
  rewrite <- Hz, <- Ho in Ew. rewrite Ew, Hz.
  destruct (Z.ltb_spec cap (zlen (rtp_wire a) + 2)) as [|Hc]; [done|]. cbv zeta. set (a' := rtx_of a pt seq ss).
  assert (Hwf' : rtp_abs_wf a').
  { destruct Hwf as (? & ? & ? & ? & ? & ? & ? & ? & ? & ?). unfold rtp_abs_wf, a', rtx_of. simpl.
    split_and!; try done; try lia. apply (bytes_ok_app (enc16 (a_seq a))); [auto with sfu|done]. }
  pose proof (zlen_hdr_bytes a) as Hh. pose proof (zlen_hdr_bytes a') as Hh'.
  assert (Hz' : 12 <= zlen (rtp_wire a') <= zlen (rtp_wire a) + 2).
  { split; [rewrite zlen_rtp_wire; zlen_pos; lia|]. rewrite !rtp_wire_hdr, !zlen_app, Hh'. change (header_len (rtp_view a')) with (header_len (rtp_view a)).
    rewrite <- Hh. cbn [a' rtx_of a_pad a_payload set pad_wire]. zlen. }
  split; [unfold zlen in *; rewrite length_app, length_drop; lia|]. split; [|lia].
  apply bytes_ok_app; [by apply rtp_wire_bytes_ok|by apply Forall_drop].
Qed.

(** * Padding packets *)

(** The bare packet the builder starts from, and the one it must produce. *)
Definition bare_packet (pt seq ts ss : Z) : rtp_abs :=
  mk_rtp_abs false pt seq ts ss [] None [] None.
Definition padding_count (padding_bytes : Z) : Z :=
  if padding_bytes =? 0 then 224 else padding_bytes.
Definition padding_packet (pt seq ts ss n ext_id twcc : Z) : rtp_abs :=
  let a := bare_packet pt seq ts ss in
  (if 0 <? ext_id then edited false a None ext_id (enc16 twcc) else a)
    <| a_pad := Some (zeros (n - 1)) |>.

Lemma set_pad_bit x :
  Z.lor (128 + flag false 32 + flag x 16 + 0) 0x20 = 128 + flag true 32 + flag x 16 + 0.
Proof. by destruct x. Qed.

(** Turning a packet with empty payload and no padding into a padding packet. *)
Lemma pad_out_wire a n R :
  a_csrcs a = [] -> a_payload a = [] -> a_pad a = None -> 1 <= n <= 255 -> n <= zlen R ->
  let h := zlen (rtp_wire a) in
  (let! d0 := rd (rtp_wire a ++ R) 0 in
   let! out := wr (rtp_wire a ++ R) 0 (Z.lor d0 0x20) in
   let! out := memset out h 0 n in
   let! out := wr out (h + n - 1) (u8 n) in
   Ok (out, h + n)) =
  (let a' := a <| a_pad := Some (zeros (n - 1)) |> in
   Ok (rtp_wire a' ++ drop (Z.to_nat n) R, zlen (rtp_wire a'))) /\
  zlen (rtp_wire (a <| a_pad := Some (zeros (n - 1)) |>)) = h + n.
Proof.
  destruct a as [m pt sq ts ss cs ex pl pd]. intros E1 E2 E3 Hn HR h. simpl in E1, E2, E3. subst cs pl pd.
  set (a := mk_rtp_abs m pt sq ts ss [] ex [] None) in *.
  set (a' := a <| a_pad := Some (zeros (n - 1)) |>).
  assert (Hw : rtp_wire a = hdr_bytes a) by (rewrite rtp_wire_hdr; cbn [a a_payload a_pad pad_wire]; by rewrite !app_nil_r).
  assert (Hw' : rtp_wire a' = hdr_bytes a' ++ zeros (n - 1) ++ [n]).
  { rewrite rtp_wire_hdr. cbn [a' a a_payload a_pad pad_wire set app]. unfold zeros.
    rewrite zlen_replicate by lia. by replace (n - 1 + 1) with n by lia. }
  assert (Hh : zlen (hdr_bytes a') = h) by (unfold h; by rewrite Hw).
  assert (H12 : 12 <= h) by (unfold h; rewrite Hw, zlen_hdr_bytes; unfold rtp_view; cbn [header_len]; zlen_pos; lia).
  assert (Hz' : zlen (rtp_wire a') = h + n) by (rewrite Hw'; unfold zeros; zlen).
  split; [|done]. cbv zeta. rewrite Hz'.
  rewrite rd_ok by zlen. cbn [res_bind].
  change (byte_at (rtp_wire a ++ R) 0) with (128 + flag false 32 + flag (is_some ex) 16 + 0).
  rewrite set_pad_bit. unfold wr. rewrite wr_n_ok by zlen. cbn [res_bind].
  rewrite Hw. change (patch (hdr_bytes a ++ R) 0 [128 + flag true 32 + flag (is_some ex) 16 + 0])
    with (hdr_bytes a' ++ R).
  rewrite <- (take_drop (Z.to_nat n) R) at 1.
  set (g := take (Z.to_nat n) R). set (R' := drop (Z.to_nat n) R).
  assert (Hg : zlen g = n) by (unfold g, zlen in *; rewrite length_take; lia).
  unfold memset. rewrite wr_n_ok by zlen. cbn [res_bind]. rewrite patch_mid by zlen.
  replace (replicate (Z.to_nat n) 0) with (zeros (n - 1) ++ [0]).
  2: { unfold zeros. rewrite <- replicate_S_end. f_equal. lia. }
  rewrite wr_n_ok by (unfold zeros; zlen). cbn [res_bind].
  rewrite <- !app_assoc, (app_assoc (hdr_bytes a')), patch_mid by (unfold zeros; zlen).
  rewrite Hw'. unfold u8. rewrite Z.mod_small by lia. by rewrite <- !app_assoc.
Qed.

Lemma bare_packet_wf pt seq ts ss :
  0 <= pt <= 127 -> is_u16 seq -> is_u32 ts -> is_u32 ss -> rtp_abs_wf (bare_packet pt seq ts ss).
Proof.
  intros. unfold rtp_abs_wf, bare_packet. simpl. split_and!; try done; try lia; constructor.
Qed.

(** The fixed header the builder writes first. *)
Lemma bare_header_writes {B} out pt seq ts ss (k : list Z -> res B) :
  12 <= zlen out -> 0 <= pt <= 127 ->
  (let! out := wr out 0 0x80 in
   let! out := wr out 1 (Z.land pt 0x7f) in
   let! out := sfu_write_be16 out 2 seq in
   let! out := sfu_write_be32 out 4 ts in
   let! out := sfu_write_be32 out 8 ss in k out) =
  k (rtp_wire (bare_packet pt seq ts ss) ++ drop 12 out).
Proof.
  intros Ho Hpt.
  assert (E : Z.land pt 0x7f = pt).
  { change 0x7f with (2 ^ 7 - 1). rewrite land_ones_mod by done. change (2 ^ 7) with 128. dlia. }
  rewrite E. buf_run. f_equal.
  rewrite (patch_patch_adj _ 0 [_] [_]) by zlen. cbn [app].
  rewrite (patch_patch_adj _ 0 [_; _] (enc16 _)) by zlen.
  rewrite (patch_patch_adj _ 0 ([_; _] ++ enc16 _) (enc32 _)) by zlen.
  rewrite (patch_patch_adj _ 0 (([_; _] ++ enc16 _) ++ enc32 _) (enc32 _)) by zlen.
  done.
Qed.

(** The optional transport-cc element of the bare packet. *)
Lemma bare_twcc pt seq ts ss R cap ext_id twcc :
  rtp_abs_wf (bare_packet pt seq ts ss) -> bytes_ok R -> 0 <= ext_id <= 14 -> 12 <= cap <= 12 + zlen R ->
  let a := bare_packet pt seq ts ss in
  let a1 := if 0 <? ext_id then edited false a None ext_id (enc16 twcc) else a in
  (if 0 <? ext_id then sfu_rtp_ext_write_twcc (rtp_wire a ++ R) 12 cap ext_id twcc
   else Ok (rtp_wire a ++ R, 12)) =
  (if zlen (rtp_wire a1) <=? cap
   then Ok (rtp_wire a1 ++ drop (Z.to_nat (zlen (rtp_wire a1) - 12)) R, zlen (rtp_wire a1)) else Err) /\
  12 <= zlen (rtp_wire a1) /\ a_csrcs a1 = [] /\ a_payload a1 = [] /\ a_pad a1 = None.
Proof.
  intros Hwf HR Hid Hcap a a1. unfold a1.
  destruct (Z.ltb_spec 0 ext_id) as [Hpos|Hz].
  - assert (Hv : item_wf false (XElem ext_id (enc16 twcc))).
    { split; [auto with sfu|]. change (zlen (enc16 twcc)) with 2. lia. }
    destruct (create_wire a ext_id (enc16 twcc) eq_refl Hwf Hv) as [El _].
    change (zlen (rtp_wire a)) with 12 in El. change ((1 + zlen (enc16 twcc) + 3) / 4 * 4) with 4 in El.
    split; [|by rewrite El].
    pose proof (write_twcc_refines false a None R cap ext_id twcc) as E. cbv zeta in E.
    change (zlen (rtp_wire a)) with 12 in E. rewrite E by (done || lia).
    unfold twcc_outcome, fits. cbn [blk_items split_item orb]. rewrite El.
    assert (Hi : zlen (items_wire false (put_item false ext_id (enc16 twcc) [])) = 4).
    { unfold edited in El. cbn [blk_profile blk_items] in El. rewrite zlen_rtp_wire_ext in El.
      change (zlen (a_csrcs a)) with 0 in El. change (zlen (ext_tail a)) with 0 in El. lia. }
    rewrite Hi. change (4 / 4 <=? 65535) with true. cbn [andb].
    unfold stored. rewrite El. by destruct (12 + (4 + 4) <=? cap).
  - change (zlen (rtp_wire a)) with 12. rewrite (proj2 (Z.leb_le 12 cap)) by lia. done.
Qed.

(** A probe's padding packet is built exactly when the arguments are valid
    and it fits, and is then the RFC 3550 packet with no payload, the given
    fields, the requested padding count and, when an id is given, one
    transport-cc element. *)
Theorem padding_build_correct out cap pt seq ts ss padding ext_id twcc :
  bytes_ok out -> cap <= zlen out -> 0 <= pt -> is_u16 seq -> is_u32 ts -> is_u32 ss ->
  0 <= padding -> 0 <= ext_id ->
  let n := padding_count padding in
  let a := padding_packet pt seq ts ss n ext_id twcc in
  sfu_rtp_padding_build out cap pt seq ts ss padding ext_id twcc =
    if (pt <=? 127) && negb (ss =? 0) && (ext_id <=? 14) && (n <=? 255) && (zlen (rtp_wire a) <=? cap)
    then Ok (rtp_wire a ++ drop (length (rtp_wire a)) out, zlen (rtp_wire a)) else Err.
Proof.
  intros Hb Hc Hpt Hseq Hts Hss Hp Hid n a. unfold sfu_rtp_padding_build, RTP_FIXED_HEADER_LEN.
  destruct (Z.leb_spec pt 127); [|by rewrite reject_true by lia].
  destruct (Z.eqb_spec ss 0); [by rewrite reject_true by lia|].
  rewrite reject_false by lia. cbn [andb negb].
  destruct (Z.leb_spec ext_id 14); [|by rewrite reject_true by lia]. rewrite reject_false by lia.
  change (if padding =? 0 then SFU_RTP_PADDING_DEFAULT_BYTES else padding) with n.
  assert (Hn : 1 <= n) by (unfold n, padding_count; destruct (Z.eqb_spec padding 0); lia).
  unfold SFU_RTP_PADDING_MAX_BYTES.
  destruct (Z.leb_spec n 255); [|by rewrite reject_true by lia]. rewrite reject_false by lia.
  cbn [andb]. unfold a, padding_packet.
  pose proof (bare_packet_wf pt seq ts ss ltac:(lia) Hseq Hts Hss) as Hwf.
  set (a0 := bare_packet pt seq ts ss) in *.
  set (a1 := if 0 <? ext_id then edited false a0 None ext_id (enc16 twcc) else a0).
  destruct (Z.ltb_spec cap 12); cbn [reject].
  { assert (12 <= zlen (rtp_wire (a1 <| a_pad := Some (zeros (n - 1)) |>)))
      by (rewrite zlen_rtp_wire; zlen_pos; lia).
    by rewrite (proj2 (Z.leb_gt _ _)) by lia. }
  rewrite bare_header_writes by lia. fold a0.
  set (R := drop 12 out). assert (HR : zlen R = zlen out - 12) by (unfold R, zlen in *; rewrite length_drop; lia).
  destruct (bare_twcc pt seq ts ss R cap ext_id twcc) as (E & H12 & E1 & E2 & E3);
    [done|by apply Forall_drop|lia|lia|].
  fold a0 in E, H12, E1, E2, E3. fold a1 in E, H12, E1, E2, E3. rewrite E.
  destruct (pad_out_wire a1 n (zeros n) E1 E2 E3 ltac:(lia)) as [_ Hz2];
    [unfold zeros; rewrite zlen_replicate; lia|].
  set (a2 := a1 <| a_pad := Some (zeros (n - 1)) |>) in *. set (h := zlen (rtp_wire a1)) in *.
  destruct (Z.leb_spec h cap); cbn [res_bind]; [|by rewrite (proj2 (Z.leb_gt _ _)) by lia].
  destruct (Z.ltb_spec cap (h + n)); cbn [reject]; [by rewrite (proj2 (Z.leb_gt _ _)) by lia|].
  rewrite (proj2 (Z.leb_le _ _)) by lia.
  set (R1 := drop (Z.to_nat (h - 12)) R).
  assert (HR1 : zlen R1 = zlen out - h) by (unfold R1, zlen in *; rewrite length_drop; lia).
  destruct (pad_out_wire a1 n R1 E1 E2 E3) as [Ep _]; [lia..|].
  fold h in Ep. rewrite Ep. fold a2. cbv zeta. do 3 f_equal.
  unfold R1, R. rewrite !drop_drop. f_equal. unfold h, zlen in *. lia.
Qed.

Lemma padding_build_correct_witness :
  sfu_rtp_padding_build (zeros 300) 300 97 7 8 9 0 5 4660 =
    Ok (rtp_wire (padding_packet 97 7 8 9 224 5 4660) ++ zeros 56, 244).
Proof.
  etransitivity.
  - apply (padding_build_correct (zeros 300) 300 97 7 8 9 0 5 4660);
      [apply bytes_okb_ok; reflexivity|reflexivity|..]; unfold is_u16, is_u32; lia.
  - vm_compute. reflexivity.
Defined.
