(* ===== verification/Rtx.v ===== *)
(** Retransmission on request, [src/rtp/rtx.c]: the iterator over the lost
    packets of a generic NACK and the cache of sent packets it looks them up
    in. *)

From S2P Require Import Prelude NetBytes.

(** * Generic NACK iteration *)

(** [nack_ptr] is an offset in the RTCP member, [None] for [NULL]. *)
Record sfu_nack_parser := mk_nack_parser {
  nack_ptr : option Z;
  nack_end : Z;
  media_ssrc : Z;
  current_pid : Z;
  current_blp : Z;
  bit_index : Z
}.
#[export] Instance eta_nack_parser : Eta sfu_nack_parser := fun p =>
  mk_nack_parser (nack_ptr p) (nack_end p) (media_ssrc p) (current_pid p) (current_blp p) (bit_index p).

Definition sfu_nack_parser_init (data : list Z) (len : Z) : res sfu_nack_parser :=
  reject (len <? 16) (
  let! d0 := rd data 0 in
  reject (negb (Z.shiftr d0 6 =? 2) || negb (Z.land d0 0x1F =? 1)) (
  let! d1 := rd data 1 in
  reject (negb (d1 =? 205)) (
  let fci_len := len - 12 in
  reject (negb (fci_len mod 4 =? 0)) (
  let! ss := sfu_read_be32 data 8 in
  Ok (mk_nack_parser (Some 12) len ss 0 0 16))))).

Definition sfu_nack_parser_media_ssrc (p : sfu_nack_parser) : Z := media_ssrc p.

(** The [while (bit_index < 16)] scan of the bitmask. *)
Fixpoint blp_scan (fuel : nat) (p : sfu_nack_parser) : option Z * sfu_nack_parser :=
  match fuel with
  | O => (None, p)
  | S fuel =>
      if bit_index p <? 16 then
        let is_lost := negb (Z.land (current_blp p) (Z.shiftl 1 (bit_index p)) =? 0) in
        let offset := bit_index p + 1 in
        let p := p <| bit_index ::= fun i => i + 1 |> in
        if is_lost then (Some (u16 (current_pid p + offset)), p) else blp_scan fuel p
      else (None, p)
  end.

(** Load the next block when the mask is exhausted; [None] ends the iteration. *)
Definition load_block (data : list Z) (p : sfu_nack_parser) : res (option sfu_nack_parser) :=
  if 15 <? bit_index p then
    match nack_ptr p with
    | None => Ok None
    | Some ptr =>
        if nack_end p - ptr <? 4 then Ok None else
        let! pid := sfu_read_be16 data ptr in
        let! blp := sfu_read_be16 data (ptr + 2) in
        Ok (Some (p <| current_pid := pid |> <| current_blp := blp |>
                    <| nack_ptr := Some (ptr + 4) |> <| bit_index := -1 |>))
    end
  else Ok (Some p).

(** The [for (;;)] loop: at most one exhausted mask, then a fresh block. *)
Fixpoint nack_loop (fuel : nat) (data : list Z) (p : sfu_nack_parser) : res (option Z * sfu_nack_parser) :=
  match fuel with
  | O => Fault
  | S fuel =>
      let! q := load_block data p in
      match q with
      | None => Ok (None, p)
      | Some p =>
          if bit_index p =? -1 then Ok (Some (current_pid p), p <| bit_index ::= fun i => i + 1 |>)
          else match blp_scan 16 p with
               | (Some s, p) => Ok (Some s, p)
               | (None, p) => nack_loop fuel data p
               end
      end
  end.

Definition sfu_nack_parser_next (data : list Z) (p : sfu_nack_parser) : res (option Z * sfu_nack_parser) :=
  match nack_ptr p with
  | None => Ok (None, p)
  | Some _ => nack_loop 2 data p
  end.

(** The caller's loop: all sequence numbers until the iterator says stop. *)
Fixpoint nack_collect (fuel : nat) (data : list Z) (p : sfu_nack_parser) : res (list Z) :=
  match fuel with
  | O => Fault
  | S fuel =>
      let! r := sfu_nack_parser_next data p in
      match r with
      | (None, _) => Ok []
      | (Some s, p) => let! l := nack_collect fuel data p in Ok (s :: l)
      end
  end.

(** ** RFC 4585: what a NACK says is lost *)

Fixpoint mask_seqs (n : nat) (pid blp i : Z) : list Z :=
  match n with
  | O => []
  | S n => (if Z.testbit blp i then [u16 (pid + i + 1)] else []) ++ mask_seqs n pid blp (i + 1)
  end.
Definition block_seqs (pid blp : Z) : list Z := pid :: mask_seqs 16 pid blp 0.
Fixpoint fci_seqs (n : nat) (data : list Z) (ptr : Z) : list Z :=
  match n with
  | O => []
  | S n => block_seqs (be16 data ptr) (be16 data (ptr + 2)) ++ fci_seqs n data (ptr + 4)
  end.

(** What an iterator state still has to yield. *)
Definition remaining (data : list Z) (p : sfu_nack_parser) : list Z :=
  match nack_ptr p with
  | None => []
  | Some ptr =>
      (if bit_index p =? -1 then [current_pid p] else []) ++
      mask_seqs (Z.to_nat (16 - Z.max 0 (bit_index p))) (current_pid p) (current_blp p) (Z.max 0 (bit_index p)) ++
      fci_seqs (Z.to_nat ((nack_end p - ptr) / 4)) data ptr
  end.

Definition nack_inv (data : list Z) (p : sfu_nack_parser) : Prop :=
  -1 <= bit_index p <= 16 /\
  match nack_ptr p with
  | None => False
  | Some ptr => 0 <= ptr <= nack_end p /\ nack_end p <= zlen data /\ (nack_end p - ptr) mod 4 = 0
  end.

Lemma land_bit_testbit x i : 0 <= i -> negb (Z.land x (Z.shiftl 1 i) =? 0) = Z.testbit x i.
Proof.
  intros Hi. rewrite Z.shiftl_1_l. destruct (Z.testbit x i) eqn:E.
  - apply negb_true_iff, Z.eqb_neq. intros H. apply (f_equal (fun z => Z.testbit z i)) in H.
    rewrite Z.land_spec, E, Z.pow2_bits_true, Z.bits_0 in H by done. done.
  - apply negb_false_iff, Z.eqb_eq, Z.bits_inj'. intros j Hj.
    rewrite Z.land_spec, Z.bits_0. destruct (Z.eq_dec i j) as [<-|Hne]; [by rewrite E|].
    by rewrite Z.pow2_bits_false, andb_false_r.
Qed.

Lemma blp_scan_spec fuel p :
  0 <= bit_index p <= 16 -> (Z.to_nat (16 - bit_index p) <= fuel)%nat ->
  match blp_scan fuel p with
  | (Some s, q) =>
      mask_seqs (Z.to_nat (16 - bit_index p)) (current_pid p) (current_blp p) (bit_index p) =
        s :: mask_seqs (Z.to_nat (16 - bit_index q)) (current_pid p) (current_blp p) (bit_index q) /\
      q = p <| bit_index := bit_index q |> /\ bit_index p < bit_index q <= 16
  | (None, q) =>
      mask_seqs (Z.to_nat (16 - bit_index p)) (current_pid p) (current_blp p) (bit_index p) = [] /\
      q = p <| bit_index := 16 |>
  end.
Proof.
  revert p. induction fuel as [|fuel IH]; intros [ptr en ms pid blp i] Hi Hf; cbn -[Z.sub Z.shiftl u16] in *.
  { replace i with 16 by lia. done. }
  destruct (Z.ltb_spec i 16).
  2: { replace i with 16 by lia. done. }
  rewrite land_bit_testbit by lia.
  replace (Z.to_nat (16 - i)) with (S (Z.to_nat (16 - (i + 1)))) by lia. cbn [mask_seqs].
  specialize (IH (mk_nack_parser ptr en ms pid blp (i + 1))). cbn -[Z.sub Z.shiftl u16 Z.add] in IH.
  destruct (Z.testbit blp i) eqn:E.
  - cbn -[Z.sub u16 Z.add].
    replace (pid + (i + 1)) with (pid + i + 1) by lia. split_and!; [done|done|lia|lia].
  - specialize (IH ltac:(lia) ltac:(lia)). cbn [app].
    unfold set, eta_nack_parser in *. cbn -[Z.sub u16 Z.add Z.shiftl] in *.
    destruct (blp_scan fuel _) as [[s|] q]; [|done].
    destruct IH as (-> & -> & Hq). cbn -[Z.sub u16 Z.add] in *. split_and!; [done|done|lia|lia].
Qed.

Lemma mask_seqs_0 pid blp i : mask_seqs 0 pid blp i = [].
Proof. done. Qed.

(** The three phases of an iterator state. *)
Lemma remaining_exhausted data ptr en ms pid blp :
  remaining data (mk_nack_parser (Some ptr) en ms pid blp 16) = fci_seqs (Z.to_nat ((en - ptr) / 4)) data ptr.
Proof.
  unfold remaining. cbn [nack_ptr bit_index current_pid current_blp nack_end].
  replace (Z.to_nat (16 - Z.max 0 16)) with 0%nat by lia. by rewrite mask_seqs_0.
Qed.
Lemma remaining_mask data ptr en ms pid blp i :
  0 <= i ->
  remaining data (mk_nack_parser (Some ptr) en ms pid blp i) =
    mask_seqs (Z.to_nat (16 - i)) pid blp i ++ fci_seqs (Z.to_nat ((en - ptr) / 4)) data ptr.
Proof.
  intros Hi. unfold remaining. cbn [nack_ptr bit_index current_pid current_blp nack_end].
  by rewrite (proj2 (Z.eqb_neq i (-1))), Z.max_r by lia.
Qed.
Lemma remaining_loaded data ptr en ms pid blp :
  remaining data (mk_nack_parser (Some ptr) en ms pid blp (-1)) =
    pid :: remaining data (mk_nack_parser (Some ptr) en ms pid blp 0).
Proof. done. Qed.

(** One round from an exhausted mask: the end, or the next block's own number. *)
Lemma nack_loop_fresh fuel data ptr en ms pid blp :
  bytes_ok data -> 0 <= ptr -> en <= zlen data ->
  nack_loop (S fuel) data (mk_nack_parser (Some ptr) en ms pid blp 16) =
    if en - ptr <? 4 then Ok (None, mk_nack_parser (Some ptr) en ms pid blp 16)
    else Ok (Some (be16 data ptr),
             mk_nack_parser (Some (ptr + 4)) en ms (be16 data ptr) (be16 data (ptr + 2)) 0).
Proof.
  intros Hb Hp He. cbn [nack_loop]. unfold load_block. cbn [bit_index nack_ptr nack_end Z.ltb Z.compare Pos.compare Pos.compare_cont].
  destruct (Z.ltb_spec (en - ptr) 4); [done|]. rewrite !read_be16_ok by (done || lia). done.
Qed.

Lemma nack_fresh_spec fuel data ptr en ms pid blp :
  let p := mk_nack_parser (Some ptr) en ms pid blp 16 in
  bytes_ok data -> nack_inv data p ->
  exists r q, nack_loop (S fuel) data p = Ok (r, q) /\ nack_inv data q /\
    remaining data p = match r with Some s => s :: remaining data q | None => [] end.
Proof.
  intros p Hb Hinv. destruct Hinv as [_ Hp]. cbn [p nack_ptr nack_end] in Hp.
  unfold p. rewrite nack_loop_fresh, remaining_exhausted by (done || lia).
  destruct (Z.ltb_spec (en - ptr) 4); eexists _, _; (split; [reflexivity|]); unfold nack_inv;
    cbn [nack_ptr nack_end bit_index].
  - replace ((en - ptr) / 4) with 0 by dlia. split; [lia|done].
  - split; [dlia|]. rewrite remaining_mask by lia.
    replace (Z.to_nat ((en - ptr) / 4)) with (S (Z.to_nat ((en - (ptr + 4)) / 4))) by dlia. done.
Qed.

(** A call to the iterator hands out the next number still to be yielded. *)
Lemma nack_next_spec data p :
  bytes_ok data -> nack_inv data p ->
  exists r q, sfu_nack_parser_next data p = Ok (r, q) /\ nack_inv data q /\
    remaining data p = match r with Some s => s :: remaining data q | None => [] end.
Proof.
  intros Hb Hinv. destruct p as [[ptr|] en ms pid blp i]; [|by destruct Hinv].
  unfold sfu_nack_parser_next. cbn [nack_ptr].
  destruct (decide (i = 16)) as [->|Hne]; [by apply nack_fresh_spec|].
  pose proof Hinv as [Hi Hp]. cbn [nack_ptr nack_end bit_index] in Hi, Hp.
  cbn [nack_loop]. unfold load_block at 1. cbn [bit_index]. decide_ifs. cbn [res_bind bit_index].
  destruct (Z.eqb_spec i (-1)) as [->|Hne'].
  { eexists _, _. split; [reflexivity|]. rewrite remaining_loaded. split; [by split; cbn; [lia|]|done]. }
  pose proof (blp_scan_spec 16 (mk_nack_parser (Some ptr) en ms pid blp i)) as Hs.
  cbn [bit_index current_pid current_blp] in Hs. specialize (Hs ltac:(lia) ltac:(lia)).
  rewrite remaining_mask by lia.
  destruct (blp_scan 16 _) as [[s|] q].
  - destruct Hs as (Em & Eq & Hq). eexists _, _. split; [reflexivity|]. rewrite Em, Eq.
    set (j := bit_index q) in *. clearbody j.
    unfold set, eta_nack_parser. cbn [nack_ptr nack_end media_ssrc current_pid current_blp bit_index].
    rewrite remaining_mask by lia. split; [by split; cbn [bit_index]; [lia|]|done].
  - destruct Hs as [Em ->]. rewrite Em. cbn [app]. rewrite <- (remaining_exhausted data ptr en ms pid blp).
    apply (nack_fresh_spec 0); [done|]. by split; cbn [bit_index]; [lia|].
Qed.

Lemma nack_collect_spec fuel data p :
  bytes_ok data -> nack_inv data p -> (length (remaining data p) < fuel)%nat ->
  nack_collect fuel data p = Ok (remaining data p).
Proof.
  intros Hb. revert p. induction fuel as [|fuel IH]; intros p Hinv Hf; [lia|]. cbn [nack_collect].
  destruct (nack_next_spec data p Hb Hinv) as (r & q & -> & Hq & Er). cbn [res_bind].
  destruct r as [s|]; rewrite Er in *; [|done]. simpl in Hf.
  by rewrite IH by (done || lia).
Qed.

Lemma fci_seqs_length n data ptr : (length (fci_seqs n data ptr) <= 17 * n)%nat.
Proof.
  assert (Hm : forall n pid blp i, (length (mask_seqs n pid blp i) <= n)%nat).
  { clear. induction n; intros; cbn; [lia|]. rewrite length_app. specialize (IHn pid blp (i + 1)).
    destruct (Z.testbit blp i); cbn; lia. }
  revert ptr. induction n; intros; cbn [fci_seqs]; [done|]. rewrite length_app.
  specialize (IHn (ptr + 4)). specialize (Hm 16%nat (be16 data ptr) (be16 data (ptr + 2)) 0).
  cbn [block_seqs length]. lia.
Qed.
Lemma nack_init_spec data len :
  bytes_ok data -> 0 <= len <= zlen data ->
  match sfu_nack_parser_init data len with
  | Ok p => sfu_nack_parser_media_ssrc p = be32 data 8 /\ nack_inv data p /\
            remaining data p = fci_seqs (Z.to_nat ((len - 12) / 4)) data 12
  | Err => len < 16 \/ Z.shiftr (byte_at data 0) 6 <> 2 \/ Z.land (byte_at data 0) 0x1F <> 1 \/
           byte_at data 1 <> 205 \/ (len - 12) mod 4 <> 0
  | Fault => False
  end.
Proof.
  intros Hb Hl. unfold sfu_nack_parser_init.
  destruct (Z.ltb_spec len 16); cbn [reject]; [lia|].
  rewrite rd_ok by lia. cbn [res_bind]. destruct (_ || _) eqn:G; cbn [reject]; [lia|]. bool_hyps.
  rewrite rd_ok by lia. cbn [res_bind]. destruct (negb _) eqn:G1; cbn [reject]; [lia|]. bool_hyps.
  destruct (negb _) eqn:G2; cbn [reject]; [lia|].
  rewrite read_be32_ok by (done || lia). cbn [res_bind]. split_and!; [done| |done].
  unfold nack_inv. cbn. bool_hyps. lia.
Qed.

(** A generic NACK of RFC 4585: version 2, format 1 of the transport layer
    feedback type 205, and one or more whole blocks. *)
Definition nack_member (data : list Z) (len : Z) : Prop :=
  Z.shiftr (byte_at data 0) 6 = 2 /\ Z.land (byte_at data 0) 0x1F = 1 /\ byte_at data 1 = 205 /\ 16 <= len /\ (len - 12) mod 4 = 0.
Lemma nack_init_member data len p : 0 <= len <= zlen data -> sfu_nack_parser_init data len = Ok p -> nack_member data len.
Proof.
  intros Hl. unfold sfu_nack_parser_init, nack_member. destruct (Z.ltb_spec len 16); cbn [reject]; [done|].
  rewrite rd_ok by lia. cbn [res_bind]. destruct (_ || _) eqn:G; cbn [reject]; [done|]. bool_hyps.
  rewrite rd_ok by lia. cbn [res_bind]. destruct (negb _) eqn:G1; cbn [reject]; [done|]. bool_hyps.
  destruct (negb _) eqn:G2; cbn [reject]; [done|]. bool_hyps. intros _. done.
Qed.

(** C26: the parser of a generic NACK accepts exactly the version 2
    RTPFB/NACK members of one or more whole blocks.  Iterating one yields, in
    order and nothing else, every block's packet id followed by the ids its
    bitmask marks, modulo 2^16; the iteration reads only the member and
    ends. *)
Theorem nack_iteration_exact data len :
  bytes_ok data -> 0 <= len <= zlen data ->
  match sfu_nack_parser_init data len with
  | Ok p => nack_member data len /\ sfu_nack_parser_media_ssrc p = be32 data 8 /\
            forall fuel, (17 * Z.to_nat ((len - 12) / 4) < fuel)%nat ->
            nack_collect fuel data p = Ok (fci_seqs (Z.to_nat ((len - 12) / 4)) data 12)
  | Err => ~ nack_member data len
  | Fault => False
  end.
Proof.
  intros Hb Hl. pose proof (nack_init_spec data len Hb Hl) as H. destruct (sfu_nack_parser_init data len) as [p| |] eqn:E; [|unfold nack_member; lia|done].
  split; [by eapply nack_init_member|]. destruct H as (H1 & H2 & H3). split; [done|]. intros fuel Hf.
  pose proof (fci_seqs_length (Z.to_nat ((len - 12) / 4)) data 12) as Hn. rewrite nack_collect_spec by (done || rewrite H3; lia). by rewrite H3.
Qed.

Definition ex_nack : list Z := [0x81; 205; 0; 3; 0; 0; 0; 1; 0; 0; 0; 2; 0xFF; 0xFF; 0; 3].

Lemma nack_iteration_exact_witness :
  match sfu_nack_parser_init ex_nack 16 with
  | Ok p => nack_collect 40 ex_nack p = Ok [65535; 0; 1]
  | _ => False
  end.
Proof.
  pose proof (nack_iteration_exact ex_nack 16
    (bytes_okb_ok ex_nack eq_refl) ltac:(vm_compute; split; discriminate)) as H.
  destruct (sfu_nack_parser_init ex_nack 16) as [p| |] eqn:E; [|vm_compute in E; discriminate E..].
  destruct H as (_ & _ & H). rewrite H; [vm_compute; reflexivity|]. vm_compute. lia.
Defined.

(** * The cache of sent packets *)

Definition SFU_RTX_CACHE_SIZE : Z := 1024.
Definition SFU_RTX_CACHE_MASK : Z := SFU_RTX_CACHE_SIZE - 1.
Definition SFU_MAX_PAYLOAD_SIZE : Z := 2048.

(** [e_data] is the entry's own slice of the slab. *)
Record sfu_rtx_entry := mk_rtx_entry {
  e_data : list Z;
  e_len : Z;
  e_rtx_ssrc : Z;
  e_rtx_pt : Z;
  e_seq : Z;
  e_valid : bool;
  e_media_ssrc : Z;
  e_generation : Z
}.
Record sfu_rtx_cache := mk_rtx_cache {
  entries : list sfu_rtx_entry;
  next_rtx_seq : Z
}.

Definition sfu_rtx_cache_init (alloc_ok : bool) : res sfu_rtx_cache :=
  reject (negb alloc_ok) (
  Ok (mk_rtx_cache
        (replicate (Z.to_nat SFU_RTX_CACHE_SIZE)
           (mk_rtx_entry (zeros SFU_MAX_PAYLOAD_SIZE) 0 0 0 0 false 0 0)) 0)).

Definition rtx_index (seq ssrc : Z) : Z :=
  Z.land (Z.lxor (Z.lxor seq ssrc) (Z.shiftr ssrc 16)) SFU_RTX_CACHE_MASK.

Definition sfu_rtx_cache_put_stream (c : sfu_rtx_cache) (seq : Z) (data : list Z)
    (len rtx_ssrc rtx_pt ssrc generation : Z) : res sfu_rtx_cache :=
  if SFU_MAX_PAYLOAD_SIZE <? u32 (len + 2) then Ok c else
  let idx := Z.to_nat (rtx_index seq ssrc) in
  match entries c !! idx with
  | None => Fault
  | Some entry =>
      let! src := rd_n data 0 len in
      let! dst := wr_n (e_data entry) 0 src in
      Ok (mk_rtx_cache
            (<[idx := mk_rtx_entry dst len rtx_ssrc rtx_pt seq true ssrc generation]> (entries c))
            (next_rtx_seq c))
  end.

(** The copied packet with its retransmission SSRC and payload type. *)
Definition sfu_rtx_cache_get_stream (c : sfu_rtx_cache) (seq ssrc generation : Z)
  : res (list Z * Z * Z) :=
  match entries c !! Z.to_nat (rtx_index seq ssrc) with
  | None => Fault
  | Some entry =>
      reject (negb (e_valid entry && (e_seq entry =? seq) && (e_media_ssrc entry =? ssrc)
                    && (e_generation entry =? generation))) (
      let! out := rd_n (e_data entry) 0 (e_len entry) in
      Ok (out, e_rtx_ssrc entry, e_rtx_pt entry))
  end.

Definition sfu_rtx_cache_put (c : sfu_rtx_cache) (seq : Z) (data : list Z) (len rtx_ssrc rtx_pt : Z) :=
  sfu_rtx_cache_put_stream c seq data len rtx_ssrc rtx_pt 0 0.
Definition sfu_rtx_cache_get (c : sfu_rtx_cache) (seq : Z) := sfu_rtx_cache_get_stream c seq 0 0.

(** The slab is freed: an entry keeps no bytes and is no longer valid. *)
Definition sfu_rtx_cache_destroy (c : sfu_rtx_cache) : sfu_rtx_cache :=
  mk_rtx_cache
    (map (fun e => mk_rtx_entry [] (e_len e) (e_rtx_ssrc e) (e_rtx_pt e) (e_seq e) false
                     (e_media_ssrc e) (e_generation e)) (entries c))
    (next_rtx_seq c).

(** ** The cache keeps, per slot, the last packet stored there *)

Record sent_packet := mk_sent {
  s_seq : Z; s_bytes : list Z; s_rtx_ssrc : Z; s_rtx_pt : Z; s_ssrc : Z; s_gen : Z
}.
Definition cacheable (u : sent_packet) : bool := zlen (s_bytes u) + 2 <=? SFU_MAX_PAYLOAD_SIZE.
Definition slot (u : sent_packet) : Z := rtx_index (s_seq u) (s_ssrc u).

Fixpoint put_all (c : sfu_rtx_cache) (us : list sent_packet) : res sfu_rtx_cache :=
  match us with
  | [] => Ok c
  | u :: us =>
      let! c := sfu_rtx_cache_put_stream c (s_seq u) (s_bytes u) (zlen (s_bytes u))
                  (s_rtx_ssrc u) (s_rtx_pt u) (s_ssrc u) (s_gen u) in
      put_all c us
  end.

(** The last cacheable packet of the history stored in slot [i]. *)
Fixpoint last_in_slot (i : Z) (us : list sent_packet) : option sent_packet :=
  match us with
  | [] => None
  | u :: us =>
      match last_in_slot i us with
      | Some w => Some w
      | None => if cacheable u && (slot u =? i) then Some u else None
      end
  end.

Lemma rtx_index_range seq ssrc : 0 <= rtx_index seq ssrc < 1024.
Proof.
  unfold rtx_index, SFU_RTX_CACHE_MASK, SFU_RTX_CACHE_SIZE. change (1024 - 1) with (2 ^ 10 - 1).
  rewrite land_ones_mod by done. change (2 ^ 10) with 1024. dlia.
Qed.

(** Entry [e] holds packet [o] (nothing, when [None]). *)
Definition holds (e : sfu_rtx_entry) (o : option sent_packet) : Prop :=
  zlen (e_data e) = SFU_MAX_PAYLOAD_SIZE /\
  match o with
  | None => e_valid e = false
  | Some u => e_valid e = true /\ e_seq e = s_seq u /\ e_media_ssrc e = s_ssrc u /\
      e_generation e = s_gen u /\ e_rtx_ssrc e = s_rtx_ssrc u /\ e_rtx_pt e = s_rtx_pt u /\
      e_len e = zlen (s_bytes u) /\ zlen (s_bytes u) <= SFU_MAX_PAYLOAD_SIZE /\
      slice (e_data e) 0 (e_len e) = s_bytes u
  end.
Definition cache_holds (c : sfu_rtx_cache) (f : Z -> option sent_packet) : Prop :=
  forall i, 0 <= i < 1024 -> exists e, entries c !! Z.to_nat i = Some e /\ holds e (f i).

Lemma put_holds c f u :
  cache_holds c f -> zlen (s_bytes u) < 4294967294 ->
  exists c', sfu_rtx_cache_put_stream c (s_seq u) (s_bytes u) (zlen (s_bytes u))
               (s_rtx_ssrc u) (s_rtx_pt u) (s_ssrc u) (s_gen u) = Ok c' /\
    cache_holds c' (fun i => if cacheable u && (slot u =? i) then Some u else f i).
Proof.
  intros Hc Hlen. unfold sfu_rtx_cache_put_stream, cacheable. zlen_pos.
  replace (u32 (zlen (s_bytes u) + 2)) with (zlen (s_bytes u) + 2) by dlia.
  destruct (Z.ltb_spec SFU_MAX_PAYLOAD_SIZE (zlen (s_bytes u) + 2)).
  { exists c. split; [done|]. rewrite (proj2 (Z.leb_gt _ _)) by lia. done. }
  rewrite (proj2 (Z.leb_le _ _)) by lia. cbn [andb]. fold (slot u).
  pose proof (rtx_index_range (s_seq u) (s_ssrc u)) as Hi. fold (slot u) in Hi.
  destruct (Hc (slot u) Hi) as (e & He & Hz & _). rewrite He.
  rewrite rd_n_ok by lia. rewrite slice_all. cbn [res_bind].
  rewrite wr_n_ok by lia. cbn [res_bind]. eexists; split; [done|]. intros i Hir. cbn [entries].
  assert (Z.to_nat (slot u) < length (entries c))%nat by (by apply lookup_lt_Some in He).
  destruct (Z.eqb_spec (slot u) i) as [<-|Hne].
  - rewrite list_lookup_insert_eq by done. eexists; split; [done|]. unfold holds. cbn.
    split; [rewrite zlen_patch by lia; done|]. split_and!; try done; [lia|].
    change (patch (e_data e) 0 (s_bytes u)) with (s_bytes u ++ drop (length (s_bytes u)) (e_data e)).
    apply slice_app_l.
  - rewrite list_lookup_insert_ne by lia. by apply Hc.
Qed.

Lemma put_all_holds us c f :
  cache_holds c f -> Forall (fun u => zlen (s_bytes u) < 4294967294) us ->
  exists c', put_all c us = Ok c' /\
    cache_holds c' (fun i => match last_in_slot i us with Some u => Some u | None => f i end).
Proof.
  intros Hc Hus. revert c f Hc. induction Hus as [|u us Hu _ IH]; intros c f Hc; cbn [put_all]; [by exists c|].
  destruct (put_holds c f u Hc Hu) as (c1 & -> & Hc1). cbn [res_bind].
  destruct (IH _ _ Hc1) as (c2 & -> & Hc2). exists c2. split; [done|].
  intros i Hi. destruct (Hc2 i Hi) as (e & He & Hh). exists e. split; [done|].
  cbn [last_in_slot]. destruct (last_in_slot i us); [done|].
  by destruct (cacheable u && (slot u =? i)).
Qed.

Lemma get_holds c f seq ssrc gen :
  cache_holds c f ->
  sfu_rtx_cache_get_stream c seq ssrc gen =
    match f (rtx_index seq ssrc) with
    | Some u => if (s_seq u =? seq) && (s_ssrc u =? ssrc) && (s_gen u =? gen)
                then Ok (s_bytes u, s_rtx_ssrc u, s_rtx_pt u) else Err
    | None => Err
    end.
Proof.
  intros Hc. destruct (Hc _ (rtx_index_range seq ssrc)) as (e & He & Hz & Hh).
  unfold sfu_rtx_cache_get_stream. rewrite He.
  destruct (f (rtx_index seq ssrc)) as [u|]; [|by rewrite Hh].
  destruct Hh as (-> & -> & -> & -> & -> & -> & El & Hl & Hs). cbn [andb].
  destruct (_ && _); cbn [negb reject]; [|done]. zlen_pos. rewrite rd_n_ok by lia. by rewrite Hs.
Qed.

(** C25: after any history of sent packets, asking for a sequence number returns
    exactly the bytes, SSRC and payload type of the last packet stored in its
    slot when that packet has the sequence number, SSRC and generation asked
    for, and a miss otherwise; storing and looking up stay inside the slab. *)
Theorem rtx_cache_last_packet us seq ssrc gen :
  Forall (fun u => zlen (s_bytes u) < 4294967294) us ->
  (let! c := sfu_rtx_cache_init true in
   let! c := put_all c us in
   sfu_rtx_cache_get_stream c seq ssrc gen) =
  match last_in_slot (rtx_index seq ssrc) us with
  | Some u => if (s_seq u =? seq) && (s_ssrc u =? ssrc) && (s_gen u =? gen)
              then Ok (s_bytes u, s_rtx_ssrc u, s_rtx_pt u) else Err
  | None => Err
  end.
Proof.
  intros Hus. cbn [sfu_rtx_cache_init negb reject res_bind].
  match goal with |- res_bind (put_all ?c us) _ = _ => assert (Hc : cache_holds c (fun _ => None)) end.
  { intros i Hi. cbn [entries]. rewrite lookup_replicate_2 by (unfold SFU_RTX_CACHE_SIZE; lia).
    eexists; split; [done|]. split; [|done]. cbn [e_data]. unfold zeros. by rewrite zlen_replicate. }
  destruct (put_all_holds us _ _ Hc Hus) as (c & -> & Hc'). cbn [res_bind].
  rewrite (get_holds _ _ seq ssrc gen Hc').
  by destruct (last_in_slot (rtx_index seq ssrc) us).
Qed.

Lemma rtx_cache_last_packet_witness :
  (let! c := sfu_rtx_cache_init true in
   let! c := put_all c [mk_sent 5 [1; 2; 3] 77 97 1000 1; mk_sent 6 [4; 5] 77 97 1000 1] in
   sfu_rtx_cache_get_stream c 5 1000 1) = Ok ([1; 2; 3], 77, 97).
Proof.
  etransitivity.
  - apply (rtx_cache_last_packet [mk_sent 5 [1; 2; 3] 77 97 1000 1; mk_sent 6 [4; 5] 77 97 1000 1] 5 1000 1).
    repeat constructor.
  - vm_compute. reflexivity.
Defined.

(** The bound is computed in 32 bits, so a length close to 2^32 passes it and
    the copy runs past the entry. *)
Example put_length_wraps :
  (SFU_MAX_PAYLOAD_SIZE <? u32 (4294967294 + 2)) = false.
Proof. reflexivity. Qed.

(** A destroyed cache answers no request. *)
Lemma destroyed_cache_misses c seq ssrc generation out :
  sfu_rtx_cache_get_stream (sfu_rtx_cache_destroy c) seq ssrc generation <> Ok out.
Proof.
  unfold sfu_rtx_cache_get_stream, sfu_rtx_cache_destroy. cbn [entries].
  rewrite list_lookup_fmap. by destruct (entries c !! _).
Qed.
