(* ===== verification/Pacer.v ===== *)
(** The egress pacer, [src/congestion/pacer.c]: a token bucket with
    reservations for the media classes and a second bucket that limits
    retransmissions.  The state is one [sfu_pacer] per receiving session and
    the reservations its queued packets hold. *)

From S2P Require Import Prelude.
From stdpp Require Import relations.
Local Open Scope Z_scope.

Inductive sfu_pacer_class :=
| CLASS_AUDIO
| CLASS_RTX
| CLASS_VIDEO_BASE
| CLASS_VIDEO_TRANSITION
| CLASS_VIDEO_ENH.
#[export] Instance sfu_pacer_class_eq_dec : EqDecision sfu_pacer_class.
Proof. solve_decision. Defined.

(** Index of a class in the [sent] counters. *)
Definition class_index (c : sfu_pacer_class) : nat :=
  match c with
  | CLASS_AUDIO => 0 | CLASS_RTX => 1 | CLASS_VIDEO_BASE => 2
  | CLASS_VIDEO_TRANSITION => 3 | CLASS_VIDEO_ENH => 4
  end.

Record sfu_pacer := mk_pacer {
  sent : list Z;
  balance_bytes : Z;
  bucket_cap_bytes : Z;
  reserved_bytes : Z;
  last_refill_us : Z;
  dropped_enh : Z;
  rtx_dropped_budget : Z;
  rtx_budget_bytes : Z;
  rtx_budget_cap_bytes : Z;
  rtx_last_refill_us : Z;
  pacing_bps : Z;
  rtx_budget_bps : Z;
  active : bool
}.
#[export] Instance eta_pacer : Eta sfu_pacer := fun p =>
  mk_pacer (sent p) (balance_bytes p) (bucket_cap_bytes p) (reserved_bytes p)
    (last_refill_us p) (dropped_enh p) (rtx_dropped_budget p) (rtx_budget_bytes p)
    (rtx_budget_cap_bytes p) (rtx_last_refill_us p) (pacing_bps p) (rtx_budget_bps p) (active p).

Record sfu_pacer_reservation := mk_reservation {
  r_bytes : Z;
  r_class : sfu_pacer_class;
  r_charged : bool;
  r_active : bool
}.
#[export] Instance eta_reservation : Eta sfu_pacer_reservation := fun r =>
  mk_reservation (r_bytes r) (r_class r) (r_charged r) (r_active r).

Definition SFU_PACER_FACTOR_NUM : Z := 5.
Definition SFU_PACER_FACTOR_DEN : Z := 2.
Definition SFU_PACER_BURST_US : Z := 10000.
Definition SFU_PACER_MIN_BUCKET_BYTES : Z := 1500.

Definition sfu_pacer_class_droppable (c : sfu_pacer_class) : bool :=
  bool_decide (c = CLASS_VIDEO_ENH).

Definition sfu_pacer_init : sfu_pacer :=
  mk_pacer (replicate 5 0) 0 0 0 0 0 0 0 0 0 0 0 false.

(** The bucket size for a rate: ten milliseconds of it, at least one packet. *)
Definition bucket_cap (bps : Z) : Z :=
  let cap := bps / 8 * SFU_PACER_BURST_US / 1000000 in
  if cap <? SFU_PACER_MIN_BUCKET_BYTES then SFU_PACER_MIN_BUCKET_BYTES else cap.

Definition sfu_pacer_set_rate (p : sfu_pacer) (bps now_us : Z) : sfu_pacer :=
  if bps =? 0 then p <| active := false |> <| pacing_bps := 0 |> else
  let paced := u64 (bps * SFU_PACER_FACTOR_NUM) / SFU_PACER_FACTOR_DEN in
  let p := p <| pacing_bps := u32 paced |> in
  let p := p <| bucket_cap_bytes := bucket_cap paced |> in
  let p := p <| rtx_budget_bps := u32 (paced / 4) |> in
  let p := p <| rtx_budget_cap_bytes := bucket_cap (rtx_budget_bps p) |> in
  if negb (active p) then
    p <| balance_bytes := bucket_cap_bytes p |> <| last_refill_us := now_us |>
      <| rtx_budget_bytes := rtx_budget_cap_bytes p |> <| rtx_last_refill_us := now_us |>
      <| active := true |>
  else
    let p := if bucket_cap_bytes p <? balance_bytes p
             then p <| balance_bytes := bucket_cap_bytes p |> else p in
    if rtx_budget_cap_bytes p <? rtx_budget_bytes p
    then p <| rtx_budget_bytes := rtx_budget_cap_bytes p |> else p.

Definition sfu_pacer_refill (p : sfu_pacer) (now_us : Z) : sfu_pacer :=
  if (last_refill_us p =? 0) || (now_us <=? last_refill_us p) then
    if last_refill_us p =? 0 then p <| last_refill_us := now_us |> else p
  else
    let elapsed_us := now_us - last_refill_us p in
    let p := p <| last_refill_us := now_us |> in
    let tokens := pacing_bps p / 8 * elapsed_us / 1000000 in
    if tokens <=? 0 then p else
    let p := p <| balance_bytes ::= Z.add tokens |> in
    if bucket_cap_bytes p <? balance_bytes p
    then p <| balance_bytes := bucket_cap_bytes p |> else p.

Definition sfu_pacer_debt_after (p : sfu_pacer) (bytes now_us : Z) : Z :=
  if negb (active p) then 0 else
  let tmp := sfu_pacer_refill p now_us in
  let after := balance_bytes tmp - bytes in
  if after <? 0 then - after else 0.

Definition sfu_pacer_reserve (p : sfu_pacer) (cls : sfu_pacer_class) (bytes : Z)
    (allow_congestion_drop : bool) (now_us : Z) (r : sfu_pacer_reservation)
  : bool * sfu_pacer * sfu_pacer_reservation :=
  if r_active r then (false, p, r) else
  let charged := negb (bool_decide (cls = CLASS_AUDIO)) && active p in
  let keep p := (true, p, mk_reservation bytes cls charged true) in
  if charged then
    let p := sfu_pacer_refill p now_us in
    let after := balance_bytes p - reserved_bytes p - bytes in
    let is_transition_or_base :=
      bool_decide (cls = CLASS_VIDEO_BASE) || bool_decide (cls = CLASS_VIDEO_TRANSITION) in
    if (after <? 0) && allow_congestion_drop && sfu_pacer_class_droppable cls
       && negb is_transition_or_base && (bucket_cap_bytes p <? - after)
    then (false, p <| dropped_enh ::= fun n => u64 (n + 1) |>, r)
    else keep (p <| reserved_bytes ::= Z.add bytes |>)
  else keep p.

Definition sfu_pacer_commit (p : sfu_pacer) (r : sfu_pacer_reservation)
  : sfu_pacer * sfu_pacer_reservation :=
  if negb (r_active r) then (p, r) else
  let p := if r_charged r
           then p <| reserved_bytes ::= fun n => n - r_bytes r |>
                  <| balance_bytes ::= fun n => n - r_bytes r |>
           else p in
  let p := p <| sent ::= alter (fun n => u64 (n + 1)) (class_index (r_class r)) |> in
  (p, r <| r_active := false |>).

Definition sfu_pacer_cancel (p : sfu_pacer) (r : sfu_pacer_reservation)
  : sfu_pacer * sfu_pacer_reservation :=
  if negb (r_active r) then (p, r) else
  let p := if r_charged r then p <| reserved_bytes ::= fun n => n - r_bytes r |> else p in
  (p, r <| r_active := false |>).

Definition sfu_pacer_should_send (p : sfu_pacer) (cls : sfu_pacer_class) (bytes : Z)
    (allow_congestion_drop : bool) (now_us : Z) : bool * sfu_pacer :=
  let r := mk_reservation 0 CLASS_AUDIO false false in
  match sfu_pacer_reserve p cls bytes allow_congestion_drop now_us r with
  | (false, p, _) => (false, p)
  | (true, p, r) => (true, (sfu_pacer_commit p r).1)
  end.

Definition rtx_refill (p : sfu_pacer) (now_us : Z) : sfu_pacer :=
  if rtx_last_refill_us p =? 0 then p <| rtx_last_refill_us := now_us |>
  else if rtx_last_refill_us p <? now_us then
    let elapsed_us := now_us - rtx_last_refill_us p in
    let p := p <| rtx_last_refill_us := now_us |> in
    let tokens := rtx_budget_bps p / 8 * elapsed_us / 1000000 in
    if 0 <? tokens then
      let p := p <| rtx_budget_bytes ::= Z.add tokens |> in
      if rtx_budget_cap_bytes p <? rtx_budget_bytes p
      then p <| rtx_budget_bytes := rtx_budget_cap_bytes p |> else p
    else p
  else p.

Definition sfu_pacer_rtx_allow (p : sfu_pacer) (bytes now_us : Z) : bool * sfu_pacer :=
  if negb (active p) then (true, p) else
  let p := rtx_refill p now_us in
  if rtx_budget_bytes p <? bytes
  then (false, p <| rtx_dropped_budget ::= fun n => u64 (n + 1) |>)
  else (true, p <| rtx_budget_bytes ::= fun n => n - bytes |>).

Definition sfu_pacer_rtx_refund (p : sfu_pacer) (bytes : Z) : sfu_pacer :=
  if negb (active p) || (bytes =? 0) then p else
  let p := p <| rtx_budget_bytes ::= Z.add bytes |> in
  if rtx_budget_cap_bytes p <? rtx_budget_bytes p
  then p <| rtx_budget_bytes := rtx_budget_cap_bytes p |> else p.

(** * The pacer as a state machine

    A state is the pacer with the reservation records of the packets it is
    used for; a step is one call, on any of the records. *)

Definition pacer_state : Type := sfu_pacer * list sfu_pacer_reservation.

Inductive pacer_step : pacer_state -> pacer_state -> Prop :=
| step_set_rate p rs bps now :
    is_u32 bps -> pacer_step (p, rs) (sfu_pacer_set_rate p bps now, rs)
| step_reserve p rs i r cls bytes drop now ok p' r' :
    is_u32 bytes -> rs !! i = Some r ->
    sfu_pacer_reserve p cls bytes drop now r = (ok, p', r') ->
    pacer_step (p, rs) (p', <[i := r']> rs)
| step_commit p rs i r p' r' :
    rs !! i = Some r -> sfu_pacer_commit p r = (p', r') ->
    pacer_step (p, rs) (p', <[i := r']> rs)
| step_cancel p rs i r p' r' :
    rs !! i = Some r -> sfu_pacer_cancel p r = (p', r') ->
    pacer_step (p, rs) (p', <[i := r']> rs)
| step_rtx_allow p rs bytes now ok p' :
    is_u32 bytes -> sfu_pacer_rtx_allow p bytes now = (ok, p') ->
    pacer_step (p, rs) (p', rs)
| step_rtx_refund p rs bytes :
    is_u32 bytes -> pacer_step (p, rs) (sfu_pacer_rtx_refund p bytes, rs)
| step_should_send p rs cls bytes drop now :
    is_u32 bytes -> pacer_step (p, rs) ((sfu_pacer_should_send p cls bytes drop now).2, rs).

Definition held (r : sfu_pacer_reservation) : Z :=
  if r_active r && r_charged r then r_bytes r else 0.
Fixpoint held_sum (rs : list sfu_pacer_reservation) : Z :=
  match rs with [] => 0 | r :: rs => held r + held_sum rs end.

(** The reserved bytes are exactly those of the open charged reservations and
    neither bucket overflows its capacity or, for retransmissions, underflows. *)
Record pacer_inv (s : pacer_state) : Prop := {
  inv_reserved : reserved_bytes s.1 = held_sum s.2;
  inv_bytes : Forall (fun r => is_u32 (r_bytes r)) s.2;
  inv_balance : balance_bytes s.1 <= bucket_cap_bytes s.1;
  inv_rtx : 0 <= rtx_budget_bytes s.1 <= rtx_budget_cap_bytes s.1;
  inv_rates : is_u32 (pacing_bps s.1) /\ is_u32 (rtx_budget_bps s.1);
  inv_active : active s.1 = true ->
    SFU_PACER_MIN_BUCKET_BYTES <= bucket_cap_bytes s.1 /\
    SFU_PACER_MIN_BUCKET_BYTES <= rtx_budget_cap_bytes s.1
}.

Lemma bucket_cap_min bps : SFU_PACER_MIN_BUCKET_BYTES <= bucket_cap bps.
Proof. unfold bucket_cap. by destruct (Z.ltb_spec (bps / 8 * SFU_PACER_BURST_US / 1000000) SFU_PACER_MIN_BUCKET_BYTES). Qed.

Lemma held_sum_insert rs i r r' :
  rs !! i = Some r -> held_sum (<[i := r']> rs) = held_sum rs - held r + held r'.
Proof.
  revert i. induction rs as [|x rs IH]; intros [|i] H; simplify_eq/=; [lia|].
  rewrite (IH _ H). lia.
Qed.

(** A refill only touches the balance and the refill time, and clamps. *)
Lemma refill_spec p now :
  exists b t, sfu_pacer_refill p now = p <| balance_bytes := b |> <| last_refill_us := t |> /\
    (balance_bytes p <= bucket_cap_bytes p -> balance_bytes p <= b <= bucket_cap_bytes p).
Proof.
  destruct p as [se ba ca re la dr rd rb rc rl pb rp ac]. unfold sfu_pacer_refill. cbn.
  destruct (_ || _).
  - destruct (_ =? _); [exists ba, now|exists ba, la]; split; done || lia.
  - generalize (pb / 8 * (now - la) / 1000000). intros tokens.
    destruct (Z.leb_spec tokens 0); [exists ba, now; split; done || lia|].
    cbn. destruct (Z.ltb_spec ca (tokens + ba)); [exists ca, now|exists (tokens + ba), now];
      (split; [done|]); lia.
Qed.

Lemma rtx_refill_spec p now :
  exists b t, rtx_refill p now = p <| rtx_budget_bytes := b |> <| rtx_last_refill_us := t |> /\
    (rtx_budget_bytes p <= rtx_budget_cap_bytes p ->
     rtx_budget_bytes p <= b <= rtx_budget_cap_bytes p).
Proof.
  destruct p as [se ba ca re la dr rd rb rc rl pb rp ac]. unfold rtx_refill. cbn.
  destruct (_ =? _); [exists rb, now; split; done || lia|].
  destruct (_ <? _); [|exists rb, rl; split; done || lia].
  generalize (rp / 8 * (now - rl) / 1000000). intros tokens.
  destruct (Z.ltb_spec 0 tokens); [|exists rb, now; split; done || lia].
  cbn. destruct (Z.ltb_spec rc (tokens + rb)); [exists rc, now|exists (tokens + rb), now];
    (split; [done|]); lia.
Qed.

Lemma set_rate_inv p rs bps now :
  pacer_inv (p, rs) -> is_u32 bps -> pacer_inv (sfu_pacer_set_rate p bps now, rs).
Proof.
  intros [H1 H2 H3 H4 [H5 H5'] H6] Hb. unfold sfu_pacer_set_rate.
  destruct (Z.eqb_spec bps 0); [constructor; cbn in *; auto; by split|].
  generalize (u64 (bps * SFU_PACER_FACTOR_NUM) / SFU_PACER_FACTOR_DEN). intros paced.
  pose proof (bucket_cap_min paced) as Hc. pose proof (bucket_cap_min (u32 (paced / 4))) as Hc'.
  assert (Hr : is_u32 (u32 paced) /\ is_u32 (u32 (paced / 4))) by auto with sfu.
  destruct p as [se ba ca re la dr rd rb rc rl pb rp ac]. cbn in *.
  unfold SFU_PACER_MIN_BUCKET_BYTES in *. destruct ac; cbn.
  - destruct (Z.ltb_spec (bucket_cap paced) ba); cbn;
      destruct (Z.ltb_spec (bucket_cap (u32 (paced / 4))) rb); cbn;
      (constructor; cbn; [done|done|lia|lia|done|done]).
  - constructor; cbn; [done|done|lia|lia|done|done].
Qed.

Lemma reserve_inv p rs i r cls bytes drop now ok p' r' :
  pacer_inv (p, rs) -> is_u32 bytes -> rs !! i = Some r ->
  sfu_pacer_reserve p cls bytes drop now r = (ok, p', r') -> pacer_inv (p', <[i := r']> rs).
Proof.
  intros [H1 H2 H3 H4 H5 H6] Hb Hi E. cbn [fst snd] in *.
  unfold sfu_pacer_reserve in E.
  assert (Hr : held r = if r_active r && r_charged r then r_bytes r else 0) by done.
  assert (Hins : forall x, is_u32 (r_bytes x) -> Forall (fun r => is_u32 (r_bytes r)) (<[i := x]> rs))
    by (intros; by apply Forall_insert).
  assert (Hru : is_u32 (r_bytes r)) by (by eapply Forall_lookup_1 in H2).
  destruct (r_active r) eqn:Ea; simpl in Hr.
  { injection E as <- <- <-. rewrite list_insert_id by done. by constructor. }
  destruct (negb (bool_decide (cls = CLASS_AUDIO)) && active p) eqn:Ec.
  - destruct (refill_spec p now) as (b & t & Er & Hbal). rewrite Er in E. cbn [fst snd] in E.
    destruct (_ && _) in E; injection E as <- <- <-.
    + rewrite list_insert_id by done. constructor; cbn; auto; lia.
    + constructor; cbn; auto; [|lia].
      rewrite (held_sum_insert rs i r) by done. unfold held at 2. cbn. lia.
  - injection E as <- <- <-. constructor; cbn; auto.
    rewrite (held_sum_insert rs i r) by done. unfold held at 2. cbn. lia.
Qed.

Lemma release_inv p rs i r p' r' :
  pacer_inv (p, rs) -> rs !! i = Some r ->
  sfu_pacer_commit p r = (p', r') \/ sfu_pacer_cancel p r = (p', r') ->
  pacer_inv (p', <[i := r']> rs).
Proof.
  intros [H1 H2 H3 H4 H5 H6] Hi E. cbn [fst snd] in *.
  assert (Hru : is_u32 (r_bytes r)) by (by eapply Forall_lookup_1 in H2).
  assert (Hs : held_sum (<[i := r <| r_active := false |>]> rs) = held_sum rs - held r)
    by (rewrite (held_sum_insert rs i r) by done;
        change (held (r <| r_active := false |>)) with 0; lia).
  assert (Hins : forall x, is_u32 (r_bytes x) -> Forall (fun r => is_u32 (r_bytes r)) (<[i := x]> rs))
    by (intros; by apply Forall_insert).
  unfold sfu_pacer_commit, sfu_pacer_cancel, is_u32 in *.
  destruct (r_active r) eqn:Ea; cbn [negb] in E.
  - unfold held in Hs. rewrite Ea in Hs.
    destruct (r_charged r), E as [[= <- <-]|[= <- <-]]; cbn [andb] in Hs;
      (constructor; cbn; [lia|by apply Hins|lia|lia|done|done]).
  - destruct E as [[= <- <-]|[= <- <-]]; rewrite list_insert_id by done; by constructor.
Qed.

Lemma rtx_inv p rs bytes now ok p' :
  pacer_inv (p, rs) -> is_u32 bytes -> sfu_pacer_rtx_allow p bytes now = (ok, p') ->
  pacer_inv (p', rs).
Proof.
  intros [H1 H2 H3 H4 H5 H6] Hb E. cbn [fst snd] in *. unfold sfu_pacer_rtx_allow in E.
  destruct (negb (active p)); [injection E as <- <-; by constructor|].
  destruct (rtx_refill_spec p now) as (b & t & Er & Hbal). rewrite Er in E. cbn in E.
  unfold is_u32 in Hb. destruct (Z.ltb_spec b bytes); injection E as <- <-;
    (constructor; cbn; auto; lia).
Qed.

(** Sending at once opens a reservation of its own and closes it. *)
Lemma held_sum_app rs rs' : held_sum (rs ++ rs') = held_sum rs + held_sum rs'.
Proof. induction rs as [|r rs IH]; cbn; lia. Qed.
Lemma pacer_inv_app p rs r : held r = 0 -> is_u32 (r_bytes r) -> pacer_inv (p, rs ++ [r]) <-> pacer_inv (p, rs).
Proof.
  intros Hh Hr. split; intros [H1 H2 H3 H4 H5 H6]; (constructor; cbn [fst snd] in *; [|..|done|done|done|done]);
    rewrite ?held_sum_app, ?Forall_app in *; cbn [held_sum] in *; try lia; [tauto|]. split; [done|]. by constructor.
Qed.
Lemma should_send_inv p rs cls bytes drop now :
  pacer_inv (p, rs) -> is_u32 bytes -> pacer_inv ((sfu_pacer_should_send p cls bytes drop now).2, rs).
Proof.
  intros H Hb. unfold sfu_pacer_should_send. set (r := mk_reservation 0 CLASS_AUDIO false false).
  apply (pacer_inv_app p rs r) in H; [|done|by unfold is_u32].
  assert (Hl : forall x, (rs ++ [x]) !! length rs = Some x) by (intros x; by apply list_lookup_middle).
  assert (Hi : forall x y, <[length rs := y]> (rs ++ [x]) = rs ++ [y]) by (intros x y; by rewrite insert_app_r_alt, Nat.sub_diag by lia).
  destruct (sfu_pacer_reserve p cls bytes drop now r) as [[ok p1] r1] eqn:E.
  pose proof (reserve_inv _ _ (length rs) _ _ _ _ _ _ _ _ H Hb (Hl r) E) as H1. rewrite Hi in H1.
  destruct (sfu_pacer_commit p1 r1) as [p2 r2] eqn:E2.
  pose proof (release_inv _ _ (length rs) _ _ _ H1 (Hl r1) (or_introl E2)) as H2. rewrite Hi in H2.
  assert (Hr2 : held r2 = 0).
  { unfold sfu_pacer_commit in E2. destruct (r_active r1) eqn:Ea; cbn [negb] in E2; injection E2 as <- <-; [done|]. unfold held. by rewrite Ea. }
  assert (Hu : forall q x, pacer_inv (q, rs ++ [x]) -> is_u32 (r_bytes x)).
  { intros q x [_ Hf _ _ _ _]. cbn [snd] in Hf. apply Forall_app in Hf as [_ Hf]. by apply Forall_inv in Hf. }
  destruct ok; cbn [snd fst].
  - apply (pacer_inv_app p2 rs r2); [done|by eapply Hu|done].
  - apply (pacer_inv_app p1 rs r1); [|by eapply Hu|done]. unfold sfu_pacer_reserve in E. cbn [r_active r] in E.
    destruct (_ && active p); [|discriminate E]. destruct (_ && _) in E; [by injection E as _ <-|discriminate E].
Qed.
Lemma pacer_step_inv s s' : pacer_inv s -> pacer_step s s' -> pacer_inv s'.
Proof.
  intros Hs Hstep. destruct Hstep; eauto using set_rate_inv, reserve_inv, release_inv, rtx_inv, should_send_inv.
  destruct Hs as [H1 H2 H3 H4 H5 H6]. cbn [fst snd] in *. unfold sfu_pacer_rtx_refund, is_u32 in *.
  destruct (_ || _); [by constructor|]. destruct p as [se ba ca re la dr rd rb rc rl pb rp ac]. cbn in *.
  destruct (Z.ltb_spec rc (bytes + rb)); constructor; cbn; auto; lia.
Qed.

Definition no_reservation : sfu_pacer_reservation := mk_reservation 0 CLASS_AUDIO false false.
Definition pacer_start (n : nat) : pacer_state := (sfu_pacer_init, replicate n no_reservation).

Lemma pacer_start_inv n : pacer_inv (pacer_start n).
Proof.
  assert (E : held_sum (replicate n no_reservation) = 0) by (induction n; cbn; lia).
  constructor; cbn; unfold is_u32; [done| |lia|lia|lia|done].
  apply Forall_replicate. cbn. lia.
Qed.

(** C22: whatever calls that change the pacer are made (setting the rate,
    reserving, committing, cancelling, sending at once, asking for and giving
    back the retransmission budget), in whatever order and on any number of
    reservation records, the pacer's reserved bytes are exactly the bytes of
    the open charged reservations (none leaks, none is released twice), the
    balance never exceeds the bucket and the retransmission budget stays
    within zero and its capacity. *)
Theorem pacer_reachable_inv n s :
  rtc pacer_step (pacer_start n) s -> pacer_inv s.
Proof.
  intros H. remember (pacer_start n) as s0 eqn:E.
  assert (Hs : pacer_inv s0) by (rewrite E; apply pacer_start_inv). clear E.
  induction H; eauto using pacer_step_inv.
Qed.

Definition ex_paced : sfu_pacer := sfu_pacer_set_rate sfu_pacer_init 1000000 5.
(** Two packets reserved, the first one sent, another sent at once, a
    retransmission allowed: the second reservation is open. *)
Definition ex_first : sfu_pacer * sfu_pacer_reservation :=
  let '(_, p, r) := sfu_pacer_reserve ex_paced CLASS_VIDEO_BASE 1000 false 10 no_reservation in (p, r).
Definition ex_second : sfu_pacer * sfu_pacer_reservation :=
  let '(_, p, r) := sfu_pacer_reserve ex_first.1 CLASS_VIDEO_TRANSITION 700 false 20 no_reservation in (p, r).
Definition ex_sent : sfu_pacer * sfu_pacer_reservation := sfu_pacer_commit ex_second.1 ex_first.2.
Definition ex_sent_now : sfu_pacer := (sfu_pacer_should_send ex_sent.1 CLASS_VIDEO_BASE 300 false 30).2.
Definition ex_allowed : sfu_pacer := (sfu_pacer_rtx_allow ex_sent_now 200 40).2.
Lemma pacer_reachable_inv_witness :
  pacer_inv (ex_allowed, [ex_sent.2; ex_second.2]) /\ reserved_bytes ex_allowed = 700 /\ held_sum [ex_sent.2; ex_second.2] = 700.
Proof.
  split; [|by vm_compute]. apply (pacer_reachable_inv 2).
  transitivity (ex_paced, [no_reservation; no_reservation]); [apply rtc_once, step_set_rate; unfold is_u32; lia|].
  transitivity (ex_first.1, [ex_first.2; no_reservation]);
    [apply rtc_once, (step_reserve ex_paced [no_reservation; no_reservation] 0 no_reservation CLASS_VIDEO_BASE 1000 false 10 true);
       [unfold is_u32; lia|done|vm_compute; reflexivity]|].
  transitivity (ex_second.1, [ex_first.2; ex_second.2]);
    [apply rtc_once, (step_reserve ex_first.1 [ex_first.2; no_reservation] 1 no_reservation CLASS_VIDEO_TRANSITION 700 false 20 true);
       [unfold is_u32; lia|done|vm_compute; reflexivity]|].
  transitivity (ex_sent.1, [ex_sent.2; ex_second.2]);
    [apply rtc_once, (step_commit ex_second.1 [ex_first.2; ex_second.2] 0 ex_first.2); [done|vm_compute; reflexivity]|].
  transitivity (ex_sent_now, [ex_sent.2; ex_second.2]); [apply rtc_once, (step_should_send ex_sent.1); unfold is_u32; lia|].
  apply rtc_once, (step_rtx_allow ex_sent_now _ 200 40 true); [unfold is_u32; lia|vm_compute; reflexivity].
Defined.

(** * The retransmission budget limits the rate *)

(** Requests served one after the other: the bytes granted. *)
Fixpoint rtx_run (p : sfu_pacer) (reqs : list (Z * Z)) : Z * sfu_pacer :=
  match reqs with
  | [] => (0, p)
  | (bytes, now) :: reqs =>
      let (ok, p) := sfu_pacer_rtx_allow p bytes now in
      let (g, p) := rtx_run p reqs in
      ((if ok then bytes else 0) + g, p)
  end.

Lemma rtx_allow_account p bytes now ok p' :
  active p = true -> 0 < rtx_last_refill_us p -> 0 <= rtx_budget_bps p -> 0 <= bytes ->
  0 <= rtx_budget_bytes p <= rtx_budget_cap_bytes p ->
  sfu_pacer_rtx_allow p bytes now = (ok, p') ->
  active p' = true /\ rtx_last_refill_us p <= rtx_last_refill_us p' /\
  rtx_budget_bps p' = rtx_budget_bps p /\
  0 <= rtx_budget_bytes p' <= rtx_budget_cap_bytes p' /\
  1000000 * ((if ok then bytes else 0) + rtx_budget_bytes p') <=
    1000000 * rtx_budget_bytes p
    + rtx_budget_bps p / 8 * (rtx_last_refill_us p' - rtx_last_refill_us p).
Proof.
  destruct p as [se ba ca re la dr rd rb rc rl pb rp ac].
  intros Ha Hl Hbps Hb Hbud E. unfold sfu_pacer_rtx_allow, rtx_refill in E. cbn in *. subst ac. cbn in E.
  rewrite (proj2 (Z.eqb_neq rl 0)) in E by lia.
  assert (Hq : 0 <= rp / 8) by (apply Z.div_pos; lia).
  destruct (Z.ltb_spec rl now).
  2: { cbn in E. destruct (Z.ltb_spec rb bytes); injection E as <- <-; cbn; lia. }
  assert (Ht : 1000000 * (rp / 8 * (now - rl) / 1000000) <= rp / 8 * (now - rl))
    by (apply Z.mul_div_le; lia).
  revert E Ht. generalize (rp / 8 * (now - rl) / 1000000). intros tokens E Ht.
  assert (0 <= rp / 8 * (now - rl)) by (apply Z.mul_nonneg_nonneg; lia).
  destruct (Z.ltb_spec 0 tokens); cbn in E;
    [destruct (Z.ltb_spec rc (tokens + rb)); cbn in E|];
    match type of E with (if ?b then _ else _) = _ => destruct b eqn:G end;
    injection E as <- <-; bool_hyps; cbn; split_and!; try done; lia.
Qed.

(** However the requests arrive, the retransmission bytes granted in a
    period are at most the budget at its start plus a quarter of the pacing
    rate over the period's length. *)
Theorem rtx_rate_bounded p reqs g p' :
  active p = true -> 0 < rtx_last_refill_us p -> 0 <= rtx_budget_bps p ->
  0 <= rtx_budget_bytes p <= rtx_budget_cap_bytes p -> Forall (fun r => 0 <= r.1) reqs ->
  rtx_run p reqs = (g, p') ->
  rtx_last_refill_us p <= rtx_last_refill_us p' /\
  1000000 * g <= 1000000 * rtx_budget_bytes p
    + rtx_budget_bps p / 8 * (rtx_last_refill_us p' - rtx_last_refill_us p).
Proof.
  intros Ha Hl Hbps Hbud Hreqs E.
  enough (rtx_last_refill_us p <= rtx_last_refill_us p' /\ 0 <= rtx_budget_bytes p' /\
    1000000 * (g + rtx_budget_bytes p') <= 1000000 * rtx_budget_bytes p
    + rtx_budget_bps p / 8 * (rtx_last_refill_us p' - rtx_last_refill_us p)) by lia.
  revert p g Ha Hl Hbps Hbud E. induction Hreqs as [|[bytes now] reqs Hb _ IH]; intros p g; cbn.
  - intros _ _ _ Hbud [= <- <-]. lia.
  - intros Ha Hl Hbps Hbud.
    destruct (sfu_pacer_rtx_allow p bytes now) as [ok p1] eqn:E1.
    destruct (rtx_run p1 reqs) as [g1 p2] eqn:E2. intros [= <- <-].
    apply rtx_allow_account in E1 as (Ha1 & Hl1 & Eb & Hbud1 & Hacc); [|done..].
    apply IH in E2 as (Hl2 & Hbud2 & Hacc2); [|done|lia|lia|done].
    rewrite Eb in Hacc2. rewrite Z.mul_sub_distr_l in *. lia.
Qed.

Lemma rtx_rate_bounded_witness :
  1000000 * (rtx_run ex_paced [(1200, 10); (900, 20000); (1400, 30000)]).1 <=
    1000000 * rtx_budget_bytes ex_paced + rtx_budget_bps ex_paced / 8 * (30000 - 5).
Proof.
  apply (rtx_rate_bounded ex_paced [(1200, 10); (900, 20000); (1400, 30000)]
           (rtx_run ex_paced [(1200, 10); (900, 20000); (1400, 30000)]).1
           (rtx_run ex_paced [(1200, 10); (900, 20000); (1400, 30000)]).2).
  - reflexivity.
  - reflexivity.
  - vm_compute. discriminate.
  - vm_compute. split; discriminate.
  - repeat constructor; cbn; lia.
  - apply surjective_pairing.
Defined.

(** * Admission *)

(** The three ways out of [sfu_pacer_reserve] on a free record. *)
Lemma reserve_cases p cls bytes drop now r :
  r_active r = false ->
  let q := sfu_pacer_refill p now in
  let after := balance_bytes q - reserved_bytes q - bytes in
  sfu_pacer_reserve p cls bytes drop now r =
    if bool_decide (cls = CLASS_AUDIO) || negb (active p)
    then (true, p, mk_reservation bytes cls false true)
    else if bool_decide (cls = CLASS_VIDEO_ENH) && drop && ((after <? 0) && (bucket_cap_bytes q <? - after))
    then (false, q <| dropped_enh ::= fun n => u64 (n + 1) |>, r)
    else (true, q <| reserved_bytes ::= Z.add bytes |>, mk_reservation bytes cls true true).
Proof.
  intros Hr q after. unfold sfu_pacer_reserve, sfu_pacer_class_droppable. rewrite Hr. fold q after.
  destruct (active p); [|by rewrite orb_true_r, andb_false_r].
  rewrite orb_false_r, andb_true_r.
  destruct (bool_decide_reflect (cls = CLASS_AUDIO)) as [->|]; cbn [negb]; [done|].
  destruct (bool_decide_reflect (cls = CLASS_VIDEO_ENH)) as [->|]; cbn [andb].
  - rewrite !bool_decide_eq_false_2 by done. cbn [orb negb].
    by destruct (after <? 0), drop, (bucket_cap_bytes q <? - after).
  - by rewrite andb_false_r.
Qed.

(** Audio and traffic of an unpaced session are always admitted without
    charge; base and transition video and retransmissions are always admitted;
    enhancement video that may be dropped is admitted only while the debt of
    everything reserved stays within one bucket; an admission is recorded in
    the reservation and a refusal only counts a drop. *)
Theorem reserve_admission p cls bytes drop now r ok p' r' :
  r_active r = false -> 0 <= bucket_cap_bytes p ->
  sfu_pacer_reserve p cls bytes drop now r = (ok, p', r') ->
  (cls = CLASS_AUDIO \/ active p = false -> ok = true /\ p' = p /\ held r' = 0) /\
  (cls <> CLASS_VIDEO_ENH \/ drop = false -> ok = true) /\
  (ok = true -> cls = CLASS_VIDEO_ENH -> drop = true -> active p = true ->
     - bucket_cap_bytes p' <= balance_bytes p' - reserved_bytes p') /\
  (ok = true -> r_active r' = true /\ r_bytes r' = bytes /\ r_class r' = cls /\
     reserved_bytes p' = reserved_bytes p + held r') /\
  (ok = false -> r' = r /\ reserved_bytes p' = reserved_bytes p /\ sent p' = sent p /\
     dropped_enh p' = u64 (dropped_enh p + 1)).
Proof.
  intros Hr Hcap. rewrite reserve_cases by done. cbv zeta.
  destruct (refill_spec p now) as (b & t & -> & _). cbn [balance_bytes reserved_bytes bucket_cap_bytes set].
  destruct (bool_decide_reflect (cls = CLASS_AUDIO)) as [->|Hna], (active p) eqn:Ea; cbn [orb negb].
  1,2,4: intros [= <- <- <-]; unfold held; cbn; split_and!; intros; split_and?; first [done|lia].
  destruct (_ && _) eqn:G; intros [= <- <- <-]; unfold held; cbn -[u64].
  - apply andb_true_iff in G as [[Ge Gd]%andb_true_iff _]. apply bool_decide_eq_true in Ge. subst.
    split_and!; try done; intros [|]; done.
  - split_and!; try done; try (intros [|]; done); intros; split_and?; try done; try lia.
    subst drop. rewrite bool_decide_eq_true_2 in G by done. cbn [andb] in G.
    apply andb_false_iff in G. lia.
Qed.

Definition ex_reserved : sfu_pacer :=
  (sfu_pacer_reserve ex_paced CLASS_VIDEO_ENH 1200 true 10 no_reservation).1.2.

Lemma reserve_admission_witness :
  - bucket_cap_bytes ex_reserved <= balance_bytes ex_reserved - reserved_bytes ex_reserved.
Proof.
  apply (reserve_admission ex_paced CLASS_VIDEO_ENH 1200 true 10 no_reservation true ex_reserved
    (sfu_pacer_reserve ex_paced CLASS_VIDEO_ENH 1200 true 10 no_reservation).2).
  - reflexivity.
  - vm_compute. discriminate.
  - vm_compute. reflexivity.
  - reflexivity.
  - reflexivity.
  - reflexivity.
  - vm_compute. reflexivity.
Defined.

(** * Rates *)

(** Up to about 1.7 Gbps a rate is paced at exactly two and a half times
    the estimate with ten milliseconds of burst (at least one packet), and a
    quarter of it is the retransmission budget; retuning an active pacer never
    raises the balance or the budget. *)
Theorem set_rate_exact p bps now :
  0 < bps <= 1717986917 ->
  let p' := sfu_pacer_set_rate p bps now in
  active p' = true /\
  pacing_bps p' = bps * 5 / 2 /\
  rtx_budget_bps p' = pacing_bps p' / 4 /\
  bucket_cap_bytes p' = Z.max 1500 (pacing_bps p' / 8 / 100) /\
  rtx_budget_cap_bytes p' = Z.max 1500 (rtx_budget_bps p' / 8 / 100) /\
  (active p = true -> balance_bytes p' = Z.min (balance_bytes p) (bucket_cap_bytes p') /\
     rtx_budget_bytes p' = Z.min (rtx_budget_bytes p) (rtx_budget_cap_bytes p')) /\
  (active p = false -> balance_bytes p' = bucket_cap_bytes p' /\
     rtx_budget_bytes p' = rtx_budget_cap_bytes p') /\
  reserved_bytes p' = reserved_bytes p.
Proof.
  intros Hb p'.
  assert (E1 : u64 (bps * SFU_PACER_FACTOR_NUM) / SFU_PACER_FACTOR_DEN = bps * 5 / 2)
    by (unfold SFU_PACER_FACTOR_NUM, SFU_PACER_FACTOR_DEN; dlia).
  assert (Hcap : forall r, 0 <= r -> bucket_cap r = Z.max 1500 (r / 8 / 100)).
  { intros r Hr. unfold bucket_cap, SFU_PACER_BURST_US, SFU_PACER_MIN_BUCKET_BYTES.
    replace (r / 8 * 10000 / 1000000) with (r / 8 / 100) by dlia.
    destruct (Z.ltb_spec (r / 8 / 100) 1500); lia. }
  unfold p', sfu_pacer_set_rate. rewrite E1, (proj2 (Z.eqb_neq bps 0)) by lia.
  assert (E2 : u32 (bps * 5 / 2) = bps * 5 / 2) by dlia.
  assert (E3 : u32 (bps * 5 / 2 / 4) = bps * 5 / 2 / 4) by dlia.
  assert (0 <= bps * 5 / 2 /\ 0 <= bps * 5 / 2 / 4) as [Hp Hp4] by dlia.
  rewrite E2, E3. destruct p as [se ba ca re la dr rd rb rc rl pb rp ac].
  cbn [active rtx_budget_bps set rtx_budget_cap_bytes bucket_cap_bytes balance_bytes rtx_budget_bytes
    eta_pacer pacing_bps reserved_bytes].
  rewrite (Hcap _ Hp), (Hcap _ Hp4). destruct ac; cbn [negb].
  2: by split_and!.
  set (c1 := Z.max 1500 (bps * 5 / 2 / 8 / 100)). set (c2 := Z.max 1500 (bps * 5 / 2 / 4 / 8 / 100)).
  destruct (Z.ltb_spec c1 ba); cbn [rtx_budget_cap_bytes rtx_budget_bytes set eta_pacer];
    (destruct (Z.ltb_spec c2 rb));
    cbn [active rtx_budget_bps set rtx_budget_cap_bytes bucket_cap_bytes balance_bytes rtx_budget_bytes
      eta_pacer pacing_bps reserved_bytes]; split_and!; intros; split_and?; try done; lia.
Qed.

Lemma set_rate_exact_witness : pacing_bps (sfu_pacer_set_rate sfu_pacer_init 1000000 5) = 1000000 * 5 / 2.
Proof. apply (set_rate_exact sfu_pacer_init 1000000 5). lia. Defined.

(** Above that the 32-bit rate wraps: at 2 Gbps the pacer refills at 705 Mbps. *)
Example set_rate_wraps :
  pacing_bps (sfu_pacer_set_rate sfu_pacer_init 2000000000 5) = 705032704.
Proof. reflexivity. Qed.
