(* ===== verification/OpenAddr.v ===== *)
(** Linear probing in a fixed table, the scheme the sequence translator, the
    room registry and the ufrag routing table share: a key's probe path, the
    invariant that makes a lookup along it complete, and its preservation by
    insertion and by deletion with tombstones.  The components show that
    their loops are [probe]. *)

From S2P Require Import Prelude.

Inductive slot (K : Type) : Type :=
| SEmpty
| SDeleted
| SKey (k : K).
Arguments SEmpty {K}.
Arguments SDeleted {K}.
Arguments SKey {K} k.

Section open_addressing.
Context {K : Type} `{EqDecision K}.
(** The table has [n] slots and [hash k] is the home slot of [k]. *)
Context (n : Z) (hash : K -> Z).
Context (Hn : 0 < n).

(** A table is what each slot index holds. *)
Definition table : Type := Z -> slot K.

Definition path (k : K) (i : Z) : Z := (hash k + i) mod n.

(** The first slot on [k]'s path that is empty (flag [false]) or holds [k]. *)
Fixpoint probe (t : table) (k : K) (fuel : nat) (i : Z) : option (Z * bool) :=
  match fuel with
  | O => None
  | S fuel =>
      match t (path k i) with
      | SEmpty => Some (path k i, false)
      | SDeleted => probe t k fuel (i + 1)
      | SKey k' => if decide (k' = k) then Some (path k i, true) else probe t k fuel (i + 1)
      end
  end.
Definition oa_find (t : table) (k : K) : option (Z * bool) := probe t k (Z.to_nat n) 0.

(** The slot an insertion takes: the key's own, else the first tombstone
    before the first empty slot, else that slot. *)
Fixpoint probe_insert (t : table) (k : K) (fuel : nat) (i : Z) (first : option Z) : option Z :=
  match fuel with
  | O => first
  | S fuel =>
      match t (path k i) with
      | SEmpty => Some (default (path k i) first)
      | SDeleted => probe_insert t k fuel (i + 1) (Some (default (path k i) first))
      | SKey k' => if decide (k' = k) then Some (path k i) else probe_insert t k fuel (i + 1) first
      end
  end.
Definition oa_insert (t : table) (k : K) : option Z := probe_insert t k (Z.to_nat n) 0 None.

(** Neither empty nor the key: a probe for [k] goes on. *)
Definition skips (t : table) (k : K) (idx : Z) : Prop :=
  t idx <> SEmpty /\ t idx <> SKey k.
Definition stored (t : table) (k : K) : Prop := exists idx, 0 <= idx < n /\ t idx = SKey k.

Record wf_table (t : table) : Prop := {
  wf_unique : forall i j k, 0 <= i < n -> 0 <= j < n -> t i = SKey k -> t j = SKey k -> i = j;
  wf_reach : forall idx k, 0 <= idx < n -> t idx = SKey k ->
    exists d, 0 <= d < n /\ idx = path k d /\ forall e, 0 <= e < d -> t (path k e) <> SEmpty
}.

Definition update (t : table) (idx : Z) (s : slot K) : table :=
  fun i => if i =? idx then s else t i.

Lemma path_range k i : 0 <= path k i < n.
Proof using Hn. apply Z.mod_pos_bound. lia. Qed.

Lemma path_inj k i j : 0 <= i < n -> 0 <= j < n -> path k i = path k j -> i = j.
Proof using Hn.
  unfold path. intros Hi Hj E.
  assert (H : (hash k + i - (hash k + j)) mod n = 0) by (by rewrite Zminus_mod, E, Z.sub_diag, Zmod_0_l).
  apply Zmod_divides in H as [q Hq]; [|lia].
  assert (Hij : i - j = n * q) by lia. clear Hq E.
  destruct (Z.lt_trichotomy q 0) as [Hq|[->|Hq]]; [nia|lia|nia].
Qed.

(** Every slot is on the path. *)
Lemma path_surj k idx : 0 <= idx < n -> exists d, 0 <= d < n /\ idx = path k d.
Proof using Hn.
  intros Hi. exists ((idx - hash k) mod n). split; [apply Z.mod_pos_bound; lia|].
  unfold path. rewrite Z.add_mod_idemp_r by lia.
  replace (hash k + (idx - hash k)) with idx by lia. by rewrite Z.mod_small.
Qed.

Lemma probe_spec t k fuel i :
  0 <= i ->
  match probe t k fuel i with
  | Some (idx, b) => exists d, i <= d < i + Z.of_nat fuel /\ idx = path k d /\
      t idx = (if b then SKey k else SEmpty) /\ forall e, i <= e < d -> skips t k (path k e)
  | None => forall e, i <= e < i + Z.of_nat fuel -> skips t k (path k e)
  end.
Proof using.
  revert i. induction fuel as [|fuel IH]; intros i Hi; cbn [probe]; [lia|].
  specialize (IH (i + 1) ltac:(lia)). unfold skips in *.
  assert (Hgo : t (path k i) <> SEmpty -> t (path k i) <> SKey k ->
    match probe t k fuel (i + 1) with
    | Some (idx, b) => exists d, i <= d < i + Z.of_nat (S fuel) /\ idx = path k d /\
        t idx = (if b then SKey k else SEmpty) /\ forall e, i <= e < d -> skips t k (path k e)
    | None => forall e, i <= e < i + Z.of_nat (S fuel) -> skips t k (path k e)
    end).
  { intros H1 H2. unfold skips. destruct (probe t k fuel (i + 1)) as [[idx b]|].
    - destruct IH as (d & Hd & -> & E & Hs). exists d. split_and!; try done; try lia.
      intros e He. destruct (decide (e = i)) as [->|]; [done|]. apply Hs. lia.
    - intros e He. destruct (decide (e = i)) as [->|]; [done|]. apply IH. lia. }
  unfold skips in Hgo. destruct (t (path k i)) as [| |k'] eqn:E.
  - exists i. split_and!; try done; lia.
  - by apply Hgo.
  - destruct (decide (k' = k)) as [->|Hne]; [exists i; split_and!; try done; lia|].
    apply Hgo; [done|]. by intros [= ->].
Qed.

(** A stored key is found, and only a stored key. *)
Lemma find_hit t k idx :
  wf_table t -> 0 <= idx < n -> t idx = SKey k -> oa_find t k = Some (idx, true).
Proof using Hn.
  intros Ht Hidx E. destruct (wf_reach t Ht idx k Hidx E) as (d & Hd & Ei & Hpath).
  pose proof (probe_spec t k (Z.to_nat n) 0 ltac:(lia)) as Hp. unfold oa_find.
  destruct (probe t k (Z.to_nat n) 0) as [[idx' b]|].
  - destruct Hp as (d' & Hd' & -> & E' & Hskip). rewrite Z2Nat.id in Hd' by lia.
    assert (d = d') as <-; [|rewrite <- Ei in E' |- *; rewrite E in E'; by destruct b].
    destruct (Z.lt_trichotomy d d') as [Hlt|[?|Hgt]]; [|done|].
    + destruct (Hskip d ltac:(lia)) as [_ H]. by rewrite <- Ei in H.
    + destruct b; [|by destruct (Hpath d' ltac:(lia))].
      assert (Eq : idx = path k d') by (eapply wf_unique; eauto using path_range).
      rewrite Ei in Eq. by apply path_inj in Eq; lia.
  - destruct (Hp d) as [_ H]; [lia|]. by rewrite <- Ei in H.
Qed.

Lemma find_sound t k :
  match oa_find t k with
  | Some (idx, true) => 0 <= idx < n /\ t idx = SKey k
  | Some (idx, false) => 0 <= idx < n /\ t idx = SEmpty /\
      exists d, 0 <= d < n /\ idx = path k d /\ forall e, 0 <= e < d -> t (path k e) <> SEmpty
  | None => forall idx, 0 <= idx < n -> skips t k idx
  end.
Proof using Hn.
  unfold oa_find. pose proof (probe_spec t k (Z.to_nat n) 0 ltac:(lia)) as Hp.
  destruct (probe t k (Z.to_nat n) 0) as [[idx [|]]|].
  - destruct Hp as (d & _ & -> & E & _). split; [apply path_range|done].
  - destruct Hp as (d & Hd & -> & E & Hs). split; [apply path_range|]. split; [done|].
    exists d. split; [lia|]. split; [done|]. intros e He. by apply Hs.
  - intros idx Hidx. destruct (path_surj k idx Hidx) as (d & Hd & ->). apply Hp. lia.
Qed.

Lemma find_miss t k :
  wf_table t -> ~ stored t k ->
  match oa_find t k with Some (idx, b) => b = false /\ 0 <= idx < n /\ t idx = SEmpty | None => True end.
Proof using Hn.
  intros Ht Hk. pose proof (find_sound t k) as H. destruct (oa_find t k) as [[idx [|]]|]; [|by destruct H as (? & ? & _)|done].
  destruct Hk. by exists idx.
Qed.

Lemma find_not_stored t k idx : wf_table t -> oa_find t k = Some (idx, false) \/ oa_find t k = None -> ~ stored t k.
Proof using Hn. intros Ht H (i & Hi & E). rewrite (find_hit t k i Ht Hi E) in H. by destruct H. Qed.

(** Storing a new key on its path, past non-empty slots, keeps the table. *)
Lemma insert_wf t k d :
  wf_table t -> ~ stored t k -> 0 <= d < n ->
  (forall e, 0 <= e < d -> t (path k e) <> SEmpty) ->
  (forall k', t (path k d) <> SKey k') ->
  wf_table (update t (path k d) (SKey k)).
Proof using Hn.
  intros Ht Hk Hd Hpath Hfree. unfold update. split.
  - intros i j k' Hi Hj. destruct (Z.eqb_spec i (path k d)), (Z.eqb_spec j (path k d)); subst; try done.
    + intros [= ->] E. destruct Hk. by exists j.
    + intros E [= ->]. destruct Hk. by exists i.
    + by apply wf_unique.
  - intros idx k' Hidx. destruct (Z.eqb_spec idx (path k d)) as [->|Hne].
    + intros [= <-]. exists d. split; [done|]. split; [done|]. intros e He.
      destruct (Z.eqb_spec (path k e) (path k d)); [done|]. by apply Hpath.
    + intros E. destruct (wf_reach t Ht idx k' Hidx E) as (d' & Hd' & Ei & Hp). exists d'.
      split; [done|]. split; [done|]. intros e He.
      destruct (Z.eqb_spec (path k' e) (path k d)); [done|]. by apply Hp.
Qed.

(** A tombstone keeps every other key reachable. *)
Lemma delete_wf t idx : wf_table t -> wf_table (update t idx SDeleted).
Proof using.
  intros Ht. unfold update. split.
  - intros i j k' Hi Hj. destruct (Z.eqb_spec i idx), (Z.eqb_spec j idx); try done. by apply wf_unique.
  - intros i k' Hi. destruct (Z.eqb_spec i idx); [done|]. intros E.
    destruct (wf_reach t Ht i k' Hi E) as (d & Hd & Ei & Hp). exists d.
    split; [done|]. split; [done|]. intros e He. destruct (Z.eqb_spec (path k' e) idx); [done|]. by apply Hp.
Qed.

(** A free slot on the path of [k] that an insertion may take. *)
Definition free_at (t : table) (k : K) (idx : Z) : Prop :=
  exists d, 0 <= d < n /\ idx = path k d /\ (forall e, 0 <= e < d -> t (path k e) <> SEmpty) /\ (t idx = SEmpty \/ t idx = SDeleted).
Lemma probe_insert_spec t k fuel i first :
  0 <= i -> i + Z.of_nat fuel = n -> (forall e, 0 <= e < i -> skips t k (path k e)) ->
  match first with Some idx => free_at t k idx | None => forall e, 0 <= e < i -> t (path k e) <> SDeleted end ->
  match probe_insert t k fuel i first with
  | Some idx => free_at t k idx /\ probe t k fuel i <> None /\ (exists j, probe t k fuel i = Some (j, false)) \/
                free_at t k idx /\ probe t k fuel i = None \/ probe t k fuel i = Some (idx, true)
  | None => probe t k fuel i = None /\ forall e, 0 <= e < n -> exists k', t (path k e) = SKey k'
  end.
Proof using Hn.
  revert i first. induction fuel as [|fuel IH]; intros i first Hi Hf Hs Hfirst; cbn [probe_insert probe].
  - destruct first as [idx|]; [right; by left|]. split; [done|]. intros e He. destruct (Hs e ltac:(lia)) as [H1 _]. specialize (Hfirst e ltac:(lia)).
    destruct (t (path k e)) as [| |k']; [done|done|by exists k'].
  - assert (Hgo : skips t k (path k i) -> forall e, 0 <= e < i + 1 -> skips t k (path k e)).
    { intros H e He. destruct (decide (e = i)) as [->|]; [done|]. apply Hs. lia. }
    unfold skips in Hgo. destruct (t (path k i)) as [| |k'] eqn:E.
    + left. split; [|split; [done|by eexists]]. destruct first as [idx|]; [done|]. exists i. split; [lia|]. split; [done|]. split; [intros e He; by apply Hs|by left].
    + apply IH; [lia|lia|by apply Hgo|]. destruct first as [idx|]; [done|]. exists i. split; [lia|]. split; [done|]. split; [intros e He; by apply Hs|by right].
    + destruct (decide (k' = k)) as [->|Hne]; [right; by right|]. apply IH; [lia|lia|apply Hgo; split; [done|by intros [= ->]]|].
      destruct first as [idx|]; [done|]. intros e He. destruct (decide (e = i)) as [->|]; [by rewrite E|]. apply Hfirst. lia.
Qed.
(** The key's own slot if it is stored, else a free one, unless every slot holds a key. *)
Lemma insert_hit t k idx : wf_table t -> 0 <= idx < n -> t idx = SKey k -> oa_insert t k = Some idx.
Proof using Hn.
  intros Ht Hi E. unshelve epose proof (probe_insert_spec t k (Z.to_nat n) 0 None _ _ _ _) as H; [lia|lia|intros e He; lia|intros e He; lia|].
  pose proof (find_hit t k idx Ht Hi E) as Hf. unfold oa_find, oa_insert in *. rewrite Hf in H. destruct (probe_insert _ _ _ _ _) as [j|]; [|by destruct H].
  destruct H as [(_ & _ & j' & ?)|[(_ & ?)|H]]; [done|done|]. by injection H as <-.
Qed.
Lemma insert_free t k : wf_table t -> ~ stored t k -> (exists i, 0 <= i < n /\ forall k', t i <> SKey k') -> exists idx, oa_insert t k = Some idx /\ 0 <= idx < n /\ free_at t k idx.
Proof using Hn.
  intros Ht Hk (i & Hi & Hfree). unshelve epose proof (probe_insert_spec t k (Z.to_nat n) 0 None _ _ _ _) as H; [lia|lia|intros e He; lia|intros e He; lia|].
  pose proof (find_miss t k Ht Hk) as Hm. unfold oa_find, oa_insert in *. destruct (probe_insert _ _ _ _ _) as [idx|].
  - exists idx. split; [done|]. assert (Hf : free_at t k idx) by (destruct H as [(? & _)|[(? & _)|H]]; [done|done|rewrite H in Hm; by destruct Hm]).
    split; [|done]. destruct Hf as (d & _ & -> & _). apply path_range.
  - destruct H as [_ H]. destruct (path_surj k i Hi) as (d & Hd & ->). destruct (H d Hd) as [k' E]. by destruct (Hfree k').
Qed.
Lemma insert_free_wf t k idx : wf_table t -> ~ stored t k -> free_at t k idx -> wf_table (update t idx (SKey k)).
Proof using Hn. intros Ht Hk (d & Hd & -> & Hp & He). apply insert_wf; try done. intros k' E. rewrite E in He. by destruct He. Qed.

Lemma empty_wf : wf_table (fun _ => SEmpty).
Proof using. by split. Qed.

Lemma table_ext t t' : (forall i, 0 <= i < n -> t i = t' i) -> wf_table t -> wf_table t'.
Proof using Hn.
  intros E [Hu Hr]. split.
  - intros i j k Hi Hj. rewrite <- !E by done. by apply Hu.
  - intros idx k Hidx. rewrite <- E by done. intros H. destruct (Hr idx k Hidx H) as (d & Hd & Ei & Hp).
    exists d. split; [done|]. split; [done|]. intros e He. rewrite <- E by apply path_range. by apply Hp.
Qed.
End open_addressing.

Arguments wf_unique {K n hash t}.
Arguments wf_reach {K n hash t}.
