(* ===== verification/SeqTranslate.v ===== *)
(** Per-stream sequence renumbering, [src/rtp/rtp_seq_translate.c]: an
    open-addressed table from SSRC to the next output sequence number, shown
    to implement a finite map. *)

From S2P Require Import Prelude OpenAddr.
From stdpp Require Import gmap.
Local Open Scope Z_scope.

Definition SFU_RTP_SEQ_TRANSLATOR_CAP : Z := 2048.

Record seq_entry := mk_seq_entry {
  t_ssrc : Z;
  next_output_seq : Z;
  t_valid : bool
}.
(** [sfu_rtp_seq_translator_t]: the 2048 entries. *)
Abbreviation seq_translator := (list seq_entry).

Definition hash_ssrc (ssrc : Z) : Z :=
  let ssrc := Z.lxor ssrc (Z.shiftr ssrc 16) in
  let ssrc := u32 (ssrc * 0x7feb352d) in
  let ssrc := Z.lxor ssrc (Z.shiftr ssrc 15) in
  let ssrc := u32 (ssrc * 0x846ca68b) in
  Z.lxor ssrc (Z.shiftr ssrc 16).

Definition sfu_rtp_seq_translator_init : seq_translator :=
  replicate (Z.to_nat SFU_RTP_SEQ_TRANSLATOR_CAP) (mk_seq_entry 0 0 false).

(** The probe loops; [fuel] is the number of probes left. *)
Fixpoint translate_loop (fuel : nat) (t : seq_translator) (index ssrc source_seq : Z)
  : res (Z * seq_translator) :=
  match fuel with
  | O => Err
  | S fuel =>
      match t !! Z.to_nat index with
      | None => Fault
      | Some entry =>
          if negb (t_valid entry) then
            Ok (source_seq, <[Z.to_nat index := mk_seq_entry ssrc (u16 (source_seq + 1)) true]> t)
          else if t_ssrc entry =? ssrc then
            Ok (next_output_seq entry,
                <[Z.to_nat index := mk_seq_entry ssrc (u16 (next_output_seq entry + 1)) true]> t)
          else translate_loop fuel t (Z.land (index + 1) (SFU_RTP_SEQ_TRANSLATOR_CAP - 1)) ssrc source_seq
      end
  end.

Definition home (ssrc : Z) : Z := Z.land (hash_ssrc ssrc) (SFU_RTP_SEQ_TRANSLATOR_CAP - 1).

Definition sfu_rtp_seq_translate (t : seq_translator) (ssrc source_seq : Z) : res (Z * seq_translator) :=
  translate_loop (Z.to_nat SFU_RTP_SEQ_TRANSLATOR_CAP) t (home ssrc) ssrc source_seq.

Fixpoint rollback_loop (fuel : nat) (t : seq_translator) (index ssrc count : Z) : res seq_translator :=
  match fuel with
  | O => Err
  | S fuel =>
      match t !! Z.to_nat index with
      | None => Fault
      | Some entry =>
          if negb (t_valid entry) then Err
          else if t_ssrc entry =? ssrc then
            Ok (<[Z.to_nat index := mk_seq_entry ssrc (u16 (next_output_seq entry - count)) true]> t)
          else rollback_loop fuel t (Z.land (index + 1) (SFU_RTP_SEQ_TRANSLATOR_CAP - 1)) ssrc count
      end
  end.

Definition sfu_rtp_seq_translator_rollback (t : seq_translator) (ssrc count : Z) : res seq_translator :=
  reject (count =? 0) (
  rollback_loop (Z.to_nat SFU_RTP_SEQ_TRANSLATOR_CAP) t (home ssrc) ssrc count).

(** * The loops are linear probing *)

Abbreviation CAP := SFU_RTP_SEQ_TRANSLATOR_CAP.
Definition slot_of (o : option seq_entry) : slot Z :=
  match o with Some e => if t_valid e then SKey (t_ssrc e) else SEmpty | None => SEmpty end.
Definition view (t : seq_translator) : table := fun i => slot_of (t !! Z.to_nat i).

Lemma mask_mod x : Z.land x (CAP - 1) = x mod CAP.
Proof. change (CAP - 1) with (2 ^ 11 - 1). by rewrite land_ones_mod. Qed.

Lemma home_path ssrc : home ssrc = path CAP home ssrc 0.
Proof. unfold path, home. rewrite mask_mod, Z.add_0_r, Z.mod_mod; done. Qed.

Lemma path_next ssrc i : Z.land (path CAP home ssrc i + 1) (CAP - 1) = path CAP home ssrc (i + 1).
Proof.
  rewrite mask_mod. unfold path. rewrite Z.add_mod_idemp_l by done. f_equal. lia.
Qed.

Lemma translate_loop_probe fuel t ssrc seq i :
  zlen t = CAP ->
  translate_loop fuel t (path CAP home ssrc i) ssrc seq =
    match probe CAP home (view t) ssrc fuel i with
    | Some (idx, true) =>
        match t !! Z.to_nat idx with
        | Some e => Ok (next_output_seq e,
                        <[Z.to_nat idx := mk_seq_entry ssrc (u16 (next_output_seq e + 1)) true]> t)
        | None => Fault
        end
    | Some (idx, false) => Ok (seq, <[Z.to_nat idx := mk_seq_entry ssrc (u16 (seq + 1)) true]> t)
    | None => Err
    end.
Proof.
  intros Hl. revert i. induction fuel as [|fuel IH]; intros i; cbn [translate_loop probe]; [done|].
  pose proof (path_range CAP home ltac:(done) ssrc i) as Hr.   destruct (lookup_lt_is_Some_2 t (Z.to_nat (path CAP home ssrc i))) as [e He];
    [unfold zlen in Hl; lia|].
  unfold view, slot_of at 1. rewrite He.
  destruct (t_valid e) eqn:Ev; cbn [negb]; [|done].
  destruct (Z.eqb_spec (t_ssrc e) ssrc), (decide (t_ssrc e = ssrc)); try done.
  - by rewrite He.
  - by rewrite path_next, IH.
Qed.

Lemma rollback_loop_probe fuel t ssrc count i :
  zlen t = CAP ->
  rollback_loop fuel t (path CAP home ssrc i) ssrc count =
    match probe CAP home (view t) ssrc fuel i with
    | Some (idx, true) =>
        match t !! Z.to_nat idx with
        | Some e => Ok (<[Z.to_nat idx := mk_seq_entry ssrc (u16 (next_output_seq e - count)) true]> t)
        | None => Fault
        end
    | _ => Err
    end.
Proof.
  intros Hl. revert i. induction fuel as [|fuel IH]; intros i; cbn [rollback_loop probe]; [done|].
  pose proof (path_range CAP home ltac:(done) ssrc i) as Hr.   destruct (lookup_lt_is_Some_2 t (Z.to_nat (path CAP home ssrc i))) as [e He];
    [unfold zlen in Hl; lia|].
  unfold view, slot_of at 1. rewrite He.
  destruct (t_valid e) eqn:Ev; cbn [negb]; [|done].
  destruct (Z.eqb_spec (t_ssrc e) ssrc), (decide (t_ssrc e = ssrc)); try done.
  - by rewrite He.
  - by rewrite path_next, IH.
Qed.

Lemma translate_find t ssrc seq :
  zlen t = CAP ->
  sfu_rtp_seq_translate t ssrc seq =
    match oa_find CAP home (view t) ssrc with
    | Some (idx, true) =>
        match t !! Z.to_nat idx with
        | Some e => Ok (next_output_seq e,
                        <[Z.to_nat idx := mk_seq_entry ssrc (u16 (next_output_seq e + 1)) true]> t)
        | None => Fault
        end
    | Some (idx, false) => Ok (seq, <[Z.to_nat idx := mk_seq_entry ssrc (u16 (seq + 1)) true]> t)
    | None => Err
    end.
Proof.
  intros Hl. unfold sfu_rtp_seq_translate, oa_find. rewrite (home_path ssrc).
  by apply translate_loop_probe.
Qed.

Lemma rollback_find t ssrc count :
  zlen t = CAP ->
  sfu_rtp_seq_translator_rollback t ssrc count =
    reject (count =? 0)
    match oa_find CAP home (view t) ssrc with
    | Some (idx, true) =>
        match t !! Z.to_nat idx with
        | Some e => Ok (<[Z.to_nat idx := mk_seq_entry ssrc (u16 (next_output_seq e - count)) true]> t)
        | None => Fault
        end
    | _ => Err
    end.
Proof.
  intros Hl. unfold sfu_rtp_seq_translator_rollback, oa_find. rewrite (home_path ssrc).
  f_equal. by apply rollback_loop_probe.
Qed.

(** * The table is a finite map *)

Record represents (t : seq_translator) (m : gmap Z Z) : Prop := {
  rep_len : zlen t = CAP;
  rep_wf : wf_table CAP home (view t);
  rep_map : forall k v, m !! k = Some v <->
    exists i, t !! i = Some (mk_seq_entry k v true)
}.

Lemma view_key t i k : view t i = SKey k <-> exists v, t !! Z.to_nat i = Some (mk_seq_entry k v true).
Proof.
  unfold view, slot_of. destruct (t !! Z.to_nat i) as [[k' v [|]]|]; simpl; split.
  - intros [= ->]. eauto.
  - by intros [v' [= -> ->]].
  - done.
  - by intros [v' ?].
  - done.
  - by intros [v' ?].
Qed.

Section represented.
Context {t : seq_translator} {m : gmap Z Z} (Hrep : represents t m).

Lemma stored_iff k : stored CAP (view t) k <-> is_Some (m !! k).
Proof using Hrep.
  destruct Hrep as [Hlen Hwf Hmap]. split.
  - intros (i & Hi & E). apply view_key in E as [v E]. exists v. apply Hmap. eauto.
  - intros [v Hv]. apply Hmap in Hv as [i Hi]. exists (Z.of_nat i).
    split; [apply lookup_lt_Some in Hi; unfold zlen in Hlen; lia|].
    apply view_key. exists v. by rewrite Nat2Z.id.
Qed.

Lemma find_some k v :
  m !! k = Some v ->
  exists i, (0 <= i < CAP) /\ t !! Z.to_nat i = Some (mk_seq_entry k v true) /\
    oa_find CAP home (view t) k = Some (i, true).
Proof using Hrep.
  destruct Hrep as [Hlen Hwf Hmap]. intros Hv. apply Hmap in Hv as [i Hi].
  assert (0 <= Z.of_nat i < CAP) by (apply lookup_lt_Some in Hi; unfold zlen in Hlen; lia).
  exists (Z.of_nat i). rewrite Nat2Z.id. split; [done|]. split; [done|].
  apply find_hit; [done..|]. apply view_key. exists v. by rewrite Nat2Z.id.
Qed.

(** A full table has as many streams as slots. *)
Lemma find_full k : m !! k = None -> oa_find CAP home (view t) k = None -> CAP <= Z.of_nat (size m).
Proof using Hrep.
  intros Hk Hf. pose proof (find_sound CAP home ltac:(done) (view t) k) as Hs. rewrite Hf in Hs.
  destruct Hrep as [Hlen Hwf Hmap].
  assert (Hnd : NoDup (t_ssrc <$> t)).
  { apply NoDup_alt. intros i j x Hi Hj.
    assert (Hkey : forall i, (t_ssrc <$> t) !! i = Some x -> 0 <= Z.of_nat i < CAP /\ view t (Z.of_nat i) = SKey x).
    { intros l Hl. assert (Hr : 0 <= Z.of_nat l < CAP).
      { apply lookup_lt_Some in Hl. rewrite length_fmap in Hl. unfold zlen in Hlen. lia. }
      split; [done|]. destruct (Hs _ Hr) as [He _]. revert He. unfold view, slot_of. rewrite Nat2Z.id.
      rewrite list_lookup_fmap in Hl. destruct (t !! l) as [[k' v [|]]|]; simplify_eq/=; done. }
    destruct (Hkey i Hi), (Hkey j Hj).
    apply Nat2Z.inj. eapply (wf_unique Hwf); eauto. }
  assert (Hsub : list_to_set (t_ssrc <$> t) ⊆@{gset Z} dom m).
  { intros x. rewrite elem_of_list_to_set, elem_of_dom. intros [e [-> He]]%list_elem_of_fmap.
    apply list_elem_of_lookup in He as [i He].
    assert (Hr : 0 <= Z.of_nat i < CAP) by (apply lookup_lt_Some in He; unfold zlen in Hlen; lia).
    destruct (Hs _ Hr) as [Hne _]. revert Hne. unfold view, slot_of. rewrite Nat2Z.id, He.
    destruct e as [k' v [|]]; simpl; [|done]. intros _. exists v. apply Hmap. eauto. }
  apply subseteq_size in Hsub. rewrite size_list_to_set, length_fmap, size_dom in Hsub by done.
  unfold zlen in Hlen. lia.
Qed.
End represented.

(** Overwriting a stream's counter, and adding a stream on its path. *)
Lemma represents_bump t m k v w i :
  represents t m -> 0 <= i < CAP -> t !! Z.to_nat i = Some (mk_seq_entry k v true) ->
  represents (<[Z.to_nat i := mk_seq_entry k w true]> t) (<[k := w]> m).
Proof.
  intros [Hlen Hwf Hmap] Hi Ht.
  assert (Hlt : (Z.to_nat i < length t)%nat) by (by apply lookup_lt_Some in Ht).
  split.
  - unfold zlen in *. by rewrite length_insert.
  - eapply table_ext; [done| |exact Hwf]. intros j Hj. unfold view.
    destruct (decide (j = i)) as [->|Hne].
    + by rewrite list_lookup_insert_eq, Ht by done.
    + by rewrite list_lookup_insert_ne by lia.
  - intros k' v'. destruct (decide (k' = k)) as [->|Hne].
    + rewrite lookup_insert_eq. split.
      * intros [= <-]. exists (Z.to_nat i). by rewrite list_lookup_insert_eq.
      * intros [j Hj]. destruct (decide (j = Z.to_nat i)) as [->|Hj'].
        { rewrite list_lookup_insert_eq in Hj by done. congruence. }
        rewrite list_lookup_insert_ne in Hj by done.
        assert (Z.of_nat j = i); [|lia].
        eapply (wf_unique Hwf); [|done|apply view_key; exists v'; by rewrite Nat2Z.id|apply view_key; eauto].
        apply lookup_lt_Some in Hj. unfold zlen in Hlen. lia.
    + rewrite lookup_insert_ne, Hmap by done. split; intros [j Hj]; exists j.
      * rewrite list_lookup_insert_ne; [done|]. intros <-. rewrite Ht in Hj. congruence.
      * destruct (decide (j = Z.to_nat i)) as [->|Hj'].
        { rewrite list_lookup_insert_eq in Hj by done. congruence. }
        by rewrite list_lookup_insert_ne in Hj.
Qed.

Lemma represents_add t m k w i :
  represents t m -> m !! k = None -> oa_find CAP home (view t) k = Some (i, false) ->
  represents (<[Z.to_nat i := mk_seq_entry k w true]> t) (<[k := w]> m).
Proof.
  intros Hrep Hk Hf. pose proof (find_sound CAP home ltac:(done) (view t) k) as Hs.
  rewrite Hf in Hs. destruct Hs as (Hi & He & d & Hd & Ei & Hpath).
  assert (Hns : ~ stored CAP (view t) k) by (rewrite (stored_iff Hrep), Hk; by intros [? ?]).
  destruct Hrep as [Hlen Hwf Hmap].
  assert (Hlt : (Z.to_nat i < length t)%nat) by (unfold zlen in Hlen; lia).
  split.
  - unfold zlen in *. by rewrite length_insert.
  - eapply (table_ext CAP home); [done| |apply (insert_wf CAP home ltac:(done) (view t) k d); try done].
    + intros j Hj. unfold update. rewrite <- Ei. unfold view.
      destruct (Z.eqb_spec j i) as [->|Hne]; [by rewrite list_lookup_insert_eq|].
      by rewrite list_lookup_insert_ne by lia.
    + intros k'. rewrite <- Ei. by rewrite He.
  - intros k' v'. destruct (decide (k' = k)) as [->|Hne].
    + rewrite lookup_insert_eq. split.
      * intros [= <-]. exists (Z.to_nat i). by rewrite list_lookup_insert_eq.
      * intros [j Hj]. destruct (decide (j = Z.to_nat i)) as [->|Hj'].
        { rewrite list_lookup_insert_eq in Hj by done. congruence. }
        rewrite list_lookup_insert_ne in Hj by done.
        assert (m !! k = Some v') by (apply Hmap; eauto). congruence.
    + rewrite lookup_insert_ne, Hmap by done. split; intros [j Hj]; exists j.
      * rewrite list_lookup_insert_ne; [done|]. intros <-.
        unfold view, slot_of in He. by rewrite Hj in He.
      * destruct (decide (j = Z.to_nat i)) as [->|Hj'].
        { rewrite list_lookup_insert_eq in Hj by done. congruence. }
        by rewrite list_lookup_insert_ne in Hj.
Qed.

Lemma init_represents : represents sfu_rtp_seq_translator_init ∅.
Proof.
  assert (Hl : forall i e, sfu_rtp_seq_translator_init !! i = Some e -> t_valid e = false).
  { intros i e He. apply lookup_replicate in He as [-> _]. done. }
  split.
  - unfold sfu_rtp_seq_translator_init. by rewrite zlen_replicate.
  - eapply table_ext; [done| |apply empty_wf]. intros i _. unfold view, slot_of.
    destruct (sfu_rtp_seq_translator_init !! Z.to_nat i) as [e|] eqn:E; [|done].
    by rewrite (Hl _ _ E).
  - intros k v. rewrite lookup_empty. split; [done|]. intros [i Hi]. by apply Hl in Hi.
Qed.

(** What a call does to the map of the streams' next numbers. *)
Lemma translate_refines t m ssrc seq :
  represents t m ->
  match m !! ssrc with
  | Some v => exists t', sfu_rtp_seq_translate t ssrc seq = Ok (v, t') /\
                represents t' (<[ssrc := u16 (v + 1)]> m)
  | None => (exists t', sfu_rtp_seq_translate t ssrc seq = Ok (seq, t') /\
                represents t' (<[ssrc := u16 (seq + 1)]> m)) \/
            sfu_rtp_seq_translate t ssrc seq = Err /\ CAP <= Z.of_nat (size m)
  end.
Proof.
  intros Hrep. rewrite translate_find by apply Hrep.
  destruct (m !! ssrc) as [v|] eqn:Em.
  - destruct (find_some Hrep ssrc v Em) as (i & Hi & Ht & ->). rewrite Ht. cbn [next_output_seq].
    eexists; split; [done|]. by eapply represents_bump.
  - destruct (oa_find CAP home (view t) ssrc) as [[i [|]]|] eqn:Ef.
    + pose proof (find_sound CAP home ltac:(done) (view t) ssrc) as Hs. rewrite Ef in Hs.
      destruct (stored_iff Hrep ssrc) as [Hst _]. destruct Hst as [v Hv]; [by exists i|]. congruence.
    + left. eexists; split; [done|]. by apply represents_add.
    + right. split; [done|]. by apply (find_full Hrep ssrc).
Qed.

Lemma rollback_represents t m ssrc count :
  represents t m ->
  match m !! ssrc with
  | Some v =>
      if count =? 0 then sfu_rtp_seq_translator_rollback t ssrc count = Err else
      exists t', sfu_rtp_seq_translator_rollback t ssrc count = Ok t' /\
        represents t' (<[ssrc := u16 (v - count)]> m)
  | None => sfu_rtp_seq_translator_rollback t ssrc count = Err
  end.
Proof.
  intros Hrep. rewrite rollback_find by apply Hrep.
  destruct (count =? 0); cbn [reject]; [by destruct (m !! ssrc)|].
  destruct (m !! ssrc) as [v|] eqn:Em.
  - destruct (find_some Hrep ssrc v Em) as (i & Hi & Ht & ->). rewrite Ht. cbn [next_output_seq].
    eexists; split; [done|]. by eapply represents_bump.
  - destruct (oa_find CAP home (view t) ssrc) as [[i [|]]|] eqn:Ef; [|done|done].
    pose proof (find_sound CAP home ltac:(done) (view t) ssrc) as Hs. rewrite Ef in Hs.
    destruct (stored_iff Hrep ssrc) as [Hst _]. destruct Hst as [v Hv]; [by exists i|]. congruence.
Qed.

(** Taking back numbers of a known stream lowers exactly its counter, and
    nothing happens for an unknown stream or a zero count. *)
Theorem rollback_refines t m ssrc count :
  represents t m ->
  match m !! ssrc with
  | Some v =>
      if count =? 0 then sfu_rtp_seq_translator_rollback t ssrc count = Err else
      exists t', sfu_rtp_seq_translator_rollback t ssrc count = Ok t' /\
        represents t' (<[ssrc := u16 (v - count)]> m)
  | None => sfu_rtp_seq_translator_rollback t ssrc count = Err
  end.
Proof. apply rollback_represents. Qed.

Lemma rollback_refines_witness :
  sfu_rtp_seq_translator_rollback sfu_rtp_seq_translator_init 7 1 = Err.
Proof.
  pose proof (rollback_refines sfu_rtp_seq_translator_init ∅ 7 1 init_represents) as H.
  rewrite lookup_empty in H. exact H.
Defined.

(** ** Streams are renumbered independently and without gaps *)

(** A session's calls in order: stream and source number of each packet. *)
Fixpoint run (t : seq_translator) (calls : list (Z * Z)) : res (list Z * seq_translator) :=
  match calls with
  | [] => Ok ([], t)
  | (ssrc, seq) :: calls =>
      let! r := sfu_rtp_seq_translate t ssrc seq in
      let '(out, t) := r in
      let! r := run t calls in
      let '(outs, t) := r in
      Ok (out :: outs, t)
  end.

Definition of_stream (ssrc : Z) (calls : list (Z * Z)) : list (Z * Z) :=
  filter (fun c => c.1 = ssrc) calls.
(** The number a packet must get when [before] were sent earlier: the stream's
    first source number plus the count of its packets so far. *)
Definition renumber (before : list (Z * Z)) (c : Z * Z) : Z :=
  match of_stream c.1 before with
  | [] => c.2
  | first :: rest => u16 (first.2 + 1 + Z.of_nat (length rest))
  end.
Fixpoint renumber_all (before calls : list (Z * Z)) : list Z :=
  match calls with
  | [] => []
  | c :: calls => renumber before c :: renumber_all (before ++ [c]) calls
  end.
Definition streams (calls : list (Z * Z)) : gset Z := list_to_set calls.*1.

(** The map after [before]: every stream seen, with its next number. *)
Definition counters_ok (before : list (Z * Z)) (m : gmap Z Z) : Prop :=
  dom m = streams before /\
  forall ssrc v, m !! ssrc = Some v ->
    match of_stream ssrc before with
    | [] => False
    | first :: rest => v = u16 (first.2 + 1 + Z.of_nat (length rest))
    end.

Lemma counters_none before m ssrc :
  counters_ok before m -> m !! ssrc = None -> of_stream ssrc before = [].
Proof.
  intros [Hdom _] E. destruct (of_stream ssrc before) as [|f r] eqn:Ef; [done|].
  assert (Hin : f ∈ of_stream ssrc before) by (rewrite Ef; left).
  unfold of_stream in Hin. apply list_elem_of_filter in Hin as [Ec Hin].
  assert (Hd : ssrc ∈ dom m).
  { rewrite Hdom. unfold streams. apply elem_of_list_to_set. rewrite <- Ec. by apply list_elem_of_fmap_2. }
  apply elem_of_dom in Hd as [w Hw]. congruence.
Qed.

Lemma counters_step before m c out :
  counters_ok before m -> out = renumber before c ->
  (m !! c.1 = None -> out = c.2) ->
  (forall v, m !! c.1 = Some v -> out = v) ->
  counters_ok (before ++ [c]) (<[c.1 := u16 (out + 1)]> m).
Proof.
  intros [Hdom Hm] Hout Hnew Hold. split.
  - rewrite dom_insert_L, Hdom. unfold streams. rewrite fmap_app, list_to_set_app_L.
    cbn. by rewrite union_empty_r_L, union_comm_L.
  - intros ssrc v. unfold of_stream in *. rewrite filter_app.
    destruct (decide (ssrc = c.1)) as [->|Hne].
    + rewrite lookup_insert_eq. intros [= <-]. rewrite filter_cons_True by done. rewrite filter_nil.
      destruct (m !! c.1) as [w|] eqn:E.
      * specialize (Hold w eq_refl). specialize (Hm _ _ E).
        destruct (filter (fun c0 => c0.1 = c.1) before) as [|f r]; [done|]. cbn [app].
        rewrite Hold, Hm, length_app. cbn [length]. dlia.
      * pose proof (counters_none before m c.1 (conj Hdom Hm) E) as Ef. unfold of_stream in Ef.
        rewrite Ef. cbn [app length]. rewrite Hnew by done. f_equal. lia.
    + rewrite lookup_insert_ne by done. intros Hv. rewrite filter_cons_False by congruence.
      rewrite filter_nil, app_nil_r. by apply Hm.
Qed.

Lemma renumber_map before m c :
  counters_ok before m -> is_u16 c.2 ->
  renumber before c = match m !! c.1 with Some v => v | None => c.2 end.
Proof.
  intros [Hdom Hm] Hc. unfold renumber. destruct (m !! c.1) as [v|] eqn:E.
  - specialize (Hm _ _ E). by destruct (of_stream c.1 before).
  - by rewrite (counters_none before m c.1 (conj Hdom Hm) E).
Qed.

Lemma run_refines calls before t m :
  represents t m -> counters_ok before m -> Forall (fun c => is_u16 c.2) calls ->
  Z.of_nat (size (streams (before ++ calls))) <= CAP ->
  exists t', run t calls = Ok (renumber_all before calls, t').
Proof.
  revert before t m. induction calls as [|[ssrc seq] calls IH]; intros before t m Hrep Hc Hcalls Hsize;
    cbn [run renumber_all]; [by eexists|].
  inversion_clear Hcalls as [|? ? Hseq Hrest].
  pose proof (renumber_map before m (ssrc, seq) Hc Hseq) as Hr. cbn [fst snd] in Hr.
  pose proof (translate_refines t m ssrc seq Hrep) as Ht.
  assert (Hok : exists t', sfu_rtp_seq_translate t ssrc seq = Ok (renumber before (ssrc, seq), t') /\
            represents t' (<[ssrc := u16 (renumber before (ssrc, seq) + 1)]> m)).
  { rewrite Hr. destruct (m !! ssrc) as [v|] eqn:Em; [done|]. destruct Ht as [Ht|[_ Hfull]]; [done|].
    destruct Hc as [Hdom _]. exfalso.
    assert (Hsub : {[ssrc]} ∪ dom m ⊆ streams (before ++ (ssrc, seq) :: calls)).
    { rewrite Hdom. unfold streams. rewrite fmap_app, list_to_set_app_L. clear. set_solver. }
    apply subseteq_size in Hsub. rewrite size_union in Hsub.
    2: { apply not_elem_of_dom in Em. clear -Em. set_solver. }
    rewrite size_singleton, size_dom in Hsub. lia. }
  destruct Hok as (t1 & -> & Hrep1). cbn [res_bind].
  destruct (IH (before ++ [(ssrc, seq)]) t1 _ Hrep1) as (t2 & ->).
  - apply (counters_step before m (ssrc, seq)); [done|done|..]; cbn [fst snd].
    + intros E. by rewrite Hr, E.
    + intros v E. by rewrite Hr, E.
  - done.
  - by rewrite <- app_assoc.
  - by eexists.
Qed.

(** C24: for any interleaving of packets of up to 2048 streams, every stream's
    output numbers start at its first source number and grow by exactly one
    per packet modulo 2^16, whatever the source numbers do afterwards and
    whatever the other streams send; no packet is refused. *)
Theorem translate_gapless calls :
  Forall (fun c => is_u16 c.2) calls -> Z.of_nat (size (streams calls)) <= CAP ->
  exists t, run sfu_rtp_seq_translator_init calls = Ok (renumber_all [] calls, t).
Proof.
  intros Hc Hs. apply (run_refines calls [] _ ∅); [apply init_represents| |done|done].
  split; [by rewrite dom_empty_L|]. intros ssrc v H. by rewrite lookup_empty in H.
Qed.

Lemma translate_gapless_witness :
  exists t, run sfu_rtp_seq_translator_init [(7, 65535); (9, 5); (7, 100); (7, 3)] =
    Ok ([65535; 5; 0; 1], t).
Proof.
  apply (translate_gapless [(7, 65535); (9, 5); (7, 100); (7, 3)]).
  - repeat constructor; unfold is_u16; cbn; lia.
  - vm_compute. discriminate.
Defined.
