(* ===== verification/RoomRegistry.v ===== *)
(** Rooms and their registry, [src/room/room.c] and
    [src/room/room_registry.c]: rooms live in an array that only grows and are
    found by identifier through an open-addressed index. *)

From S2P Require Import Prelude OpenAddr.
From stdpp Require Import gmap.
Local Open Scope Z_scope.

Definition SFU_MAX_ROOMS : Z := 1024.
Definition SFU_ROOM_REGISTRY_INDEX_SIZE : Z := SFU_MAX_ROOMS * 2.
Definition SFU_ROOM_MAX_PEERS : Z := 300.

(** Peers are named by their session's identity. *)
Record sfu_room := mk_room {
  peers : list (option Z);
  free_slots : list Z;
  occupied : list bool;
  room_id : Z;
  peer_capacity : Z;
  peer_count : Z;
  free_count : Z;
  membership_revision : Z;
  alone_user_id : Z;
  alone_deadline_ms : Z;
  alone_generation : Z;
  alone_expiry_claimed : bool
}.

(** The free stack is filled so that slot 0 is taken first; [mutex_ok] is the
    outcome of creating the lock. *)
Definition sfu_room_init (mutex_ok : bool) (id : Z) : res sfu_room :=
  let n := Z.to_nat SFU_ROOM_MAX_PEERS in
  reject (negb mutex_ok) (
  Ok (mk_room (replicate n None) (map (fun i => u16 (SFU_ROOM_MAX_PEERS - 1 - i)) (seqZ 0 SFU_ROOM_MAX_PEERS))
        (replicate n false) id SFU_ROOM_MAX_PEERS 0 SFU_ROOM_MAX_PEERS 0 0 0 0 false)).

(** The rooms in use ([room_count] is their number) and the index, whose
    entries are a room's position plus one, zero for empty. *)
Record sfu_room_registry := mk_registry {
  rooms : list sfu_room;
  room_index : list Z
}.
Definition room_count (reg : sfu_room_registry) : Z := zlen (rooms reg).

Definition sfu_room_registry_init : sfu_room_registry :=
  mk_registry [] (replicate (Z.to_nat SFU_ROOM_REGISTRY_INDEX_SIZE) 0).

Definition room_index_bucket (id : Z) : Z :=
  let id := Z.lxor id (Z.shiftr id 30) in
  let id := u64 (id * 0xbf58476d1ce4e5b9) in
  let id := Z.lxor id (Z.shiftr id 27) in
  let id := u64 (id * 0x94d049bb133111eb) in
  let id := Z.lxor id (Z.shiftr id 31) in
  Z.land (u32 id) (SFU_ROOM_REGISTRY_INDEX_SIZE - 1).

(** The index slot for a room: its own or the first empty one on the path;
    [Err] is the [NULL] of a full index. *)
Fixpoint room_index_loop (fuel : nat) (reg : sfu_room_registry) (bucket id : Z) : res Z :=
  match fuel with
  | O => Err
  | S fuel =>
      match room_index reg !! Z.to_nat bucket with
      | None => Fault
      | Some entry =>
          if entry =? 0 then Ok bucket else
          match rooms reg !! Z.to_nat (entry - 1) with
          | None => Fault
          | Some room =>
              if room_id room =? id then Ok bucket
              else room_index_loop fuel reg
                     (Z.land (bucket + 1) (SFU_ROOM_REGISTRY_INDEX_SIZE - 1)) id
          end
      end
  end.
Definition room_index_entry (reg : sfu_room_registry) (id : Z) : res Z :=
  room_index_loop (Z.to_nat SFU_ROOM_REGISTRY_INDEX_SIZE) reg (room_index_bucket id) id.

(** The position of the room, [Err] for [NULL]; a failed call may not change
    the registry, so the state is returned only on success. *)
Definition sfu_room_registry_get_or_create (mutex_ok : bool) (reg : sfu_room_registry) (id : Z)
  : res (Z * sfu_room_registry) :=
  let entry := room_index_entry reg id in
  let create (slot : Z) :=
    reject (SFU_MAX_ROOMS <=? room_count reg) (
    let room_slot := room_count reg in
    let! room := sfu_room_init mutex_ok id in
    Ok (room_slot, mk_registry (rooms reg ++ [room])
                     (<[Z.to_nat slot := u32 (room_slot + 1)]> (room_index reg)))) in
  match entry with
  | Ok slot =>
      match room_index reg !! Z.to_nat slot with
      | None => Fault
      | Some e => if negb (e =? 0) then Ok (e - 1, reg) else create slot
      end
  | Err => Err
  | Fault => Fault
  end.

(** * The index is a finite map from identifiers to positions *)

Abbreviation SIZE := SFU_ROOM_REGISTRY_INDEX_SIZE.
Definition slot_of (reg : sfu_room_registry) (o : option Z) : slot Z :=
  match o with
  | Some e => if e =? 0 then SEmpty else
              match rooms reg !! Z.to_nat (e - 1) with Some r => SKey (room_id r) | None => SEmpty end
  | None => SEmpty
  end.
Definition view (reg : sfu_room_registry) : table :=
  fun i => slot_of reg (room_index reg !! Z.to_nat i).

Record reg_inv (reg : sfu_room_registry) : Prop := {
  reg_len : zlen (room_index reg) = SIZE;
  reg_cap : room_count reg <= SFU_MAX_ROOMS;
  reg_wf : wf_table SIZE room_index_bucket (view reg);
  (** every index entry names a room in use *)
  reg_entries : forall i e, room_index reg !! i = Some e -> 0 <= e <= room_count reg;
  (** every room in use is indexed *)
  reg_indexed : forall p r, rooms reg !! p = Some r ->
    exists i, room_index reg !! i = Some (Z.of_nat p + 1)
}.

Lemma index_mask_mod x : Z.land x (SIZE - 1) = x mod SIZE.
Proof. change (SIZE - 1) with (2 ^ 11 - 1). by rewrite land_ones_mod. Qed.

Lemma room_index_loop_probe fuel reg id i :
  reg_inv reg ->
  room_index_loop fuel reg (path SIZE room_index_bucket id i) id =
    match probe SIZE room_index_bucket (view reg) id fuel i with
    | Some (idx, _) => Ok idx
    | None => Err
    end.
Proof.
  intros [Hlen _ _ Hent _]. revert i.
  induction fuel as [|fuel IH]; intros i; cbn [room_index_loop probe]; [done|].
  pose proof (path_range SIZE room_index_bucket ltac:(done) id i) as Hr.
  destruct (lookup_lt_is_Some_2 (room_index reg) (Z.to_nat (path SIZE room_index_bucket id i))) as [e He];
    [unfold zlen in Hlen; lia|].
  pose proof (Hent _ _ He) as Hrange. 
  assert (Hv : view reg (path SIZE room_index_bucket id i) = slot_of reg (Some e))
    by (unfold view; by rewrite He).
  rewrite Hv, He. unfold slot_of.
  destruct (Z.eqb_spec e 0); [done|].
  destruct (lookup_lt_is_Some_2 (rooms reg) (Z.to_nat (e - 1))) as [r Hrm];
    [unfold room_count, zlen in Hrange; lia|].
  rewrite Hrm. destruct (Z.eqb_spec (room_id r) id), (decide (room_id r = id)); try done.
  rewrite index_mask_mod. unfold path at 1. rewrite Z.add_mod_idemp_l by done.
  rewrite <- (IH (i + 1)). unfold path. do 2 f_equal. lia.
Qed.

Lemma room_index_entry_find reg id :
  reg_inv reg ->
  room_index_entry reg id =
    match oa_find SIZE room_index_bucket (view reg) id with Some (idx, _) => Ok idx | None => Err end.
Proof.
  intros Hinv. unfold room_index_entry, oa_find.
  replace (room_index_bucket id) with (path SIZE room_index_bucket id 0); [by apply room_index_loop_probe|].
  unfold path. rewrite Z.add_0_r. unfold room_index_bucket at 1. rewrite index_mask_mod, Z.mod_mod by done.
  by rewrite <- index_mask_mod.
Qed.

(** Room [id] is at position [p]. *)
Definition room_at (reg : sfu_room_registry) (id p : Z) : Prop :=
  0 <= p /\ exists r, rooms reg !! Z.to_nat p = Some r /\ room_id r = id.

Lemma room_at_stored reg id :
  reg_inv reg -> (exists p, room_at reg id p) <-> stored SIZE (view reg) id.
Proof.
  intros [Hlen _ _ Hent Hind]. split.
  - intros (p & Hp & r & Hr & Eid). destruct (Hind _ _ Hr) as [i Hi].
    exists (Z.of_nat i). split; [apply lookup_lt_Some in Hi; unfold zlen in Hlen; lia|].
    unfold view. rewrite Nat2Z.id, Hi. unfold slot_of.
    destruct (Z.eqb_spec (Z.of_nat (Z.to_nat p) + 1) 0); [lia|].
    replace (Z.to_nat (Z.of_nat (Z.to_nat p) + 1 - 1)) with (Z.to_nat p) by lia.
    by rewrite Hr, Eid.
  - intros (i & Hi & E). unfold view, slot_of in E.
    destruct (room_index reg !! Z.to_nat i) as [e|] eqn:He; [|done].
    destruct (Z.eqb_spec e 0); [done|].
    destruct (rooms reg !! Z.to_nat (e - 1)) as [r|] eqn:Hr; [|done]. injection E as <-.
    exists (e - 1). pose proof (Hent _ _ He). split; [lia|]. eauto.
Qed.

Lemma registry_init_inv : reg_inv sfu_room_registry_init.
Proof.
  assert (Hz : forall i e, room_index sfu_room_registry_init !! i = Some e -> e = 0)
    by (intros i e He; by apply lookup_replicate in He as [-> _]).
  split.
  - cbn [room_index sfu_room_registry_init]. by rewrite zlen_replicate.
  - done.
  - eapply table_ext; [done| |apply empty_wf]. intros i _. unfold view, slot_of.
    destruct (room_index _ !! _) as [e|] eqn:E; [|done]. by rewrite (Hz _ _ E).
  - intros i e He. apply Hz in He as ->. done.
  - intros p r Hr. change (rooms sfu_room_registry_init) with (@nil sfu_room) in Hr.
    by rewrite lookup_nil in Hr.
Qed.

(** The index has twice as many slots as there can be rooms: it is never full. *)
Lemma index_never_full reg id :
  reg_inv reg -> oa_find SIZE room_index_bucket (view reg) id <> None.
Proof.
  intros [Hlen Hle Hwf Hent Hind] Hf.
  pose proof (find_sound SIZE room_index_bucket ltac:(done) (view reg) id) as Hs. rewrite Hf in Hs.
  assert (Hkey : forall i e, room_index reg !! i = Some e ->
    0 <= Z.of_nat i < SIZE /\ 1 <= e <= room_count reg /\
    exists r, rooms reg !! Z.to_nat (e - 1) = Some r /\ view reg (Z.of_nat i) = SKey (room_id r)).
  { intros i e He. assert (Hr : 0 <= Z.of_nat i < SIZE)
      by (apply lookup_lt_Some in He; unfold zlen in Hlen; lia).
    destruct (Hs _ Hr) as [Hne _]. pose proof (Hent _ _ He). revert Hne. unfold view, slot_of.
    rewrite Nat2Z.id, He. destruct (Z.eqb_spec e 0); [done|].
    destruct (rooms reg !! Z.to_nat (e - 1)) as [r|]; [|done]. intros _. split_and!; [lia..|eauto]. }
  assert (Hnd : NoDup (room_index reg)).
  { apply NoDup_alt. intros i j e Hi Hj. destruct (Hkey _ _ Hi) as (Hir & _ & r & Hr & Hiv).
    destruct (Hkey _ _ Hj) as (Hjr & _ & r' & Hr' & Hjv). rewrite Hr in Hr'. injection Hr' as <-.
    apply Nat2Z.inj. eapply (wf_unique Hwf); eauto. }
  assert (Hsub : room_index reg ⊆+ seqZ 1 (room_count reg)).
  { apply NoDup_submseteq; [done|]. intros e [i Hi]%list_elem_of_lookup.
    destruct (Hkey _ _ Hi) as (_ & He & _). apply elem_of_seqZ. lia. }
  apply submseteq_length in Hsub. rewrite length_seqZ in Hsub.
  change SIZE with 2048 in Hlen. unfold zlen, SFU_MAX_ROOMS in *. lia.
Qed.

(** A new room at the end of the array, indexed at the probed slot. *)
Lemma create_inv reg id idx room :
  reg_inv reg -> room_count reg < SFU_MAX_ROOMS -> room_id room = id ->
  oa_find SIZE room_index_bucket (view reg) id = Some (idx, false) ->
  reg_inv (mk_registry (rooms reg ++ [room]) (<[Z.to_nat idx := u32 (room_count reg + 1)]> (room_index reg))).
Proof.
  intros Hinv Hcap Eid Hf. pose proof (find_sound SIZE room_index_bucket ltac:(done) (view reg) id) as Hs.
  rewrite Hf in Hs. destruct Hs as (Hi & He & d & Hd & Ei & Hpath).
  assert (Hns : ~ stored SIZE (view reg) id)
    by (eapply (find_not_stored SIZE room_index_bucket); [done|apply Hinv|by left]).
  pose proof Hinv as [Hlen Hle Hwf Hent Hind]. set (c := room_count reg) in *.
  assert (Hc : 0 <= c) by (unfold c, room_count; zlen_pos; lia).
  assert (Eu : u32 (c + 1) = c + 1) by (unfold SFU_MAX_ROOMS in Hcap; dlia).
  assert (Hlt : (Z.to_nat idx < length (room_index reg))%nat) by (unfold zlen in Hlen; lia).
  assert (Hc' : room_count (mk_registry (rooms reg ++ [room]) (<[Z.to_nat idx := u32 (c + 1)]> (room_index reg))) = c + 1)
    by (unfold room_count; cbn [rooms]; unfold c, room_count; zlen).
  assert (Hold : forall i e, room_index reg !! i = Some e -> e <> 0 ->
    (rooms reg ++ [room]) !! Z.to_nat (e - 1) = rooms reg !! Z.to_nat (e - 1)).
  { intros i e Hie Hne. apply lookup_app_l. pose proof (Hent _ _ Hie). unfold c, room_count, zlen in *. lia. }
  rewrite Eu in *. split.
  - cbn [room_index]. unfold zlen in *. by rewrite length_insert.
  - rewrite Hc'. lia.
  - eapply (table_ext SIZE room_index_bucket); [done| |apply (insert_wf SIZE room_index_bucket ltac:(done) (view reg) id d); try done].
    + intros j Hj. unfold update. rewrite <- Ei. unfold view. cbn [room_index].
      destruct (Z.eqb_spec j idx) as [->|Hne].
      * rewrite list_lookup_insert_eq by done. unfold slot_of. cbn [rooms].
        destruct (Z.eqb_spec (c + 1) 0); [lia|].
        replace (Z.to_nat (c + 1 - 1)) with (length (rooms reg)) by (unfold c, room_count, zlen; lia).
        by rewrite list_lookup_middle, Eid.
      * rewrite list_lookup_insert_ne by lia. unfold slot_of. cbn [rooms].
        destruct (room_index reg !! Z.to_nat j) as [e|] eqn:E; [|done].
        destruct (Z.eqb_spec e 0); [done|]. by rewrite (Hold _ _ E).
    + intros k'. rewrite <- Ei. by rewrite He.
  - intros i e. rewrite Hc'. cbn [room_index]. destruct (decide (i = Z.to_nat idx)) as [->|Hne].
    + rewrite list_lookup_insert_eq by done. intros [= <-]. lia.
    + rewrite list_lookup_insert_ne by done. intros Hie. pose proof (Hent _ _ Hie). lia.
  - intros p r Hp. cbn [rooms room_index] in *.
    destruct (decide (p < length (rooms reg))%nat) as [Hlt'|Hge].
    + rewrite lookup_app_l in Hp by done. destruct (Hind _ _ Hp) as [i Hie]. exists i.
      rewrite list_lookup_insert_ne; [done|]. intros <-. unfold view, slot_of in He. rewrite Hie in He.
      destruct (Z.eqb_spec (Z.of_nat p + 1) 0); [lia|].
      replace (Z.to_nat (Z.of_nat p + 1 - 1)) with p in He by lia. by rewrite Hp in He.
    + apply lookup_lt_Some in Hp as Hp'. rewrite length_app in Hp'. cbn in Hp'.
      exists (Z.to_nat idx). rewrite list_lookup_insert_eq by done. f_equal.
      unfold c, room_count, zlen. lia.
Qed.

(** Two rooms in use never share an identifier. *)
Lemma room_at_inj reg id p q : reg_inv reg -> room_at reg id p -> room_at reg id q -> p = q.
Proof.
  intros [Hlen _ Hwf Hent Hind] (Hp & r & Hr & Er) (Hq & s & Hs & Es).
  destruct (Hind _ _ Hr) as [i Hi]. destruct (Hind _ _ Hs) as [j Hj].
  assert (Hv : forall x (y : nat) w, room_index reg !! x = Some (Z.of_nat y + 1) -> rooms reg !! y = Some w ->
    0 <= Z.of_nat x < SIZE /\ view reg (Z.of_nat x) = SKey (room_id w)).
  { intros x y w Hx Hw. split; [apply lookup_lt_Some in Hx; unfold zlen in Hlen; lia|].
    unfold view. rewrite Nat2Z.id, Hx. unfold slot_of. destruct (Z.eqb_spec (Z.of_nat y + 1) 0); [lia|].
    replace (Z.to_nat (Z.of_nat y + 1 - 1)) with y by lia. by rewrite Hw. }
  destruct (Hv _ _ _ Hi Hr) as [Hir Hiv]. destruct (Hv _ _ _ Hj Hs) as [Hjr Hjv].
  rewrite Er in Hiv. rewrite Es in Hjv.
  pose proof (wf_unique Hwf _ _ _ Hir Hjr Hiv Hjv) as E. apply Nat2Z.inj in E. subst j.
  rewrite Hi in Hj. injection Hj as Hj. lia.
Qed.

Lemma get_or_create_spec reg id mutex_ok :
  reg_inv reg ->
  match sfu_room_registry_get_or_create mutex_ok reg id with
  | Ok (p, reg') => reg_inv reg' /\ room_at reg' id p /\
      (forall id' p', room_at reg id' p' -> room_at reg' id' p') /\
      ((exists q, room_at reg id q) -> reg' = reg) /\ room_count reg' <= room_count reg + 1
  | Err => (forall p, ~ room_at reg id p) /\ (room_count reg = SFU_MAX_ROOMS \/ mutex_ok = false)
  | Fault => False
  end.
Proof.
  intros Hinv. unfold sfu_room_registry_get_or_create. rewrite room_index_entry_find by done.
  pose proof (find_sound SIZE room_index_bucket ltac:(done) (view reg) id) as Hs.
  pose proof (room_at_stored reg id Hinv) as Hst. pose proof Hinv as [Hlen Hle Hwf Hent Hind].
  destruct (oa_find SIZE room_index_bucket (view reg) id) as [[idx [|]]|] eqn:Ef.
  - destruct Hs as [Hr Hv]. unfold view, slot_of in Hv.
    destruct (room_index reg !! Z.to_nat idx) as [e|] eqn:He; [|done].
    destruct (Z.eqb_spec e 0); [done|]. cbn [negb].
    destruct (rooms reg !! Z.to_nat (e - 1)) as [r|] eqn:Hrm; [|done]. injection Hv as Eid.
    pose proof (Hent _ _ He). split_and!; [done|split; [lia|eauto]|done|done|lia].
  - assert (Hnone : forall p, ~ room_at reg id p).
    { intros p Hp. eapply (find_not_stored SIZE room_index_bucket); [done|done|by left|]. apply Hst. eauto. }
    pose proof Hs as (Hr & Hv & _).
    destruct (lookup_lt_is_Some_2 (room_index reg) (Z.to_nat idx)) as [e He]; [unfold zlen in Hlen; lia|].
    assert (Ee : e = 0).
    { destruct (Z.eq_dec e 0) as [|Hne]; [done|]. unfold view, slot_of in Hv. rewrite He in Hv.
      pose proof (Hent _ _ He). destruct (Z.eqb_spec e 0); [done|].
      destruct (lookup_lt_is_Some_2 (rooms reg) (Z.to_nat (e - 1))) as [r Hrm];
        [unfold room_count, zlen in *; lia|]. by rewrite Hrm in Hv. }
    rewrite He, Ee. cbn [Z.eqb negb].
    destruct (Z.leb_spec SFU_MAX_ROOMS (room_count reg)); cbn [reject]; [split; [done|left; lia]|].
    unfold sfu_room_init. destruct mutex_ok; cbn [negb reject res_bind]; [|split; [done|by right]].
    assert (Hc : 0 <= room_count reg) by (unfold room_count; zlen_pos; lia).
    split_and!.
    + by apply (create_inv reg id).
    + split; [done|]. eexists. cbn [rooms].
      replace (Z.to_nat (room_count reg)) with (length (rooms reg)) by (unfold room_count, zlen; lia).
      rewrite list_lookup_middle by done. done.
    + intros id' p' (Hp' & r & Hrm & Er). split; [done|]. exists r. cbn [rooms].
      split; [|done]. by apply lookup_app_l_Some.
    + intros [q Hq]. by destruct (Hnone q).
    + unfold room_count. cbn [rooms]. zlen.
  - by destruct (index_never_full reg id Hinv).
Qed.

(** A history of requests, each with the outcome of creating a lock; a refused
    request leaves the registry as it was. *)
Fixpoint registry_run (reg : sfu_room_registry) (reqs : list (bool * Z)) : sfu_room_registry :=
  match reqs with
  | [] => reg
  | (ok, id) :: reqs =>
      match sfu_room_registry_get_or_create ok reg id with
      | Ok (_, reg) => registry_run reg reqs
      | _ => registry_run reg reqs
      end
  end.

Lemma registry_run_inv reg reqs :
  reg_inv reg -> reg_inv (registry_run reg reqs) /\
  forall id p, room_at reg id p -> room_at (registry_run reg reqs) id p.
Proof.
  revert reg. induction reqs as [|[ok id] reqs IH]; intros reg Hinv; cbn [registry_run]; [done|].
  pose proof (get_or_create_spec reg id ok Hinv) as Hs.
  destruct (sfu_room_registry_get_or_create ok reg id) as [[p reg']| |]; [|by apply IH|done].
  destruct Hs as (Hinv' & _ & Hmono & _). destruct (IH reg' Hinv') as [H1 H2].
  split; [done|]. intros id' p' Hp. by apply H2, Hmono.
Qed.

(** Whatever rooms were asked for before, a request returns the room of the
    identifier: the same room as long as the process lives, no other
    identifier's room, and a new one only when there was none; it is refused
    only when all 1024 rooms are in use or a lock cannot be created, and never
    touches memory outside the tables. *)
Theorem registry_get_or_create_map reqs ok id later :
  let reg := registry_run sfu_room_registry_init reqs in
  match sfu_room_registry_get_or_create ok reg id with
  | Ok (p, reg') =>
      room_at (registry_run reg' later) id p /\
      (forall id' p', room_at (registry_run reg' later) id' p' -> p' = p -> id' = id) /\
      (forall p', room_at reg id p' -> p' = p /\ reg' = reg)
  | Err => (forall p, ~ room_at reg id p) /\ (room_count reg = SFU_MAX_ROOMS \/ ok = false)
  | Fault => False
  end.
Proof.
  intros reg. destruct (registry_run_inv _ reqs registry_init_inv) as [Hinv _]. fold reg in Hinv.
  pose proof (get_or_create_spec reg id ok Hinv) as Hs.
  destruct (sfu_room_registry_get_or_create ok reg id) as [[p reg']| |]; [|done|done].
  destruct Hs as (Hinv' & Hat & Hmono & Hsame & _).
  destruct (registry_run_inv reg' later Hinv') as [Hinv2 Hmono2]. split; [by apply Hmono2|]. split.
  - intros id' p' (_ & r & Hr & Er) ->. destruct (Hmono2 _ _ Hat) as (_ & r' & Hr' & Er'). congruence.
  - intros p' Hp'. split; [|apply Hsame; eauto]. eapply (room_at_inj reg'); [done|by apply Hmono|done].
Qed.
