(* ===== verification/HashIndex.v ===== *)
(** Hash indices with tombstones over an array, as the ufrag routing table
    ([src/runtime/routing_context.c]) and the session table
    ([src/peer/session.c]) use them: slots hold a hash and a position in the
    array.  The probe loop both share, the invariant of an index over the
    generic open addressing of OpenAddr, and its preservation. *)

From S2P Require Import Prelude OpenAddr.
Local Open Scope Z_scope.

Record sfu_hash_slot := mk_hash_slot { hs_hash : Z; hs_index : Z }.
#[export] Instance eta_hash_slot : Eta sfu_hash_slot := fun s => mk_hash_slot (hs_hash s) (hs_index s).
Definition SFU_HASH_EMPTY : Z := 0xFFFFFFFF.
Definition SFU_HASH_DELETED : Z := 0xFFFFFFFE.

Definition fnv1a_step (h b : Z) : Z := u32 (Z.lxor h b * 16777619).
Definition fnv1a (data : list Z) : Z := fold_left fnv1a_step data 2166136261.

(** How a walk along the slots ends: at an empty slot, at a match or after all
    of them, with the first tombstone seen. *)
Inductive scan_result := ScanEmpty (slot : Z) (first_deleted : option Z) | ScanHit (slot : Z) | ScanEnd (first_deleted : option Z).
Fixpoint scan (fuel : nat) (table : list sfu_hash_slot) (cap hash probe : Z) (matches : sfu_hash_slot -> res bool) (first_deleted : option Z) : res scan_result :=
  match fuel with
  | O => Ok (ScanEnd first_deleted)
  | S fuel =>
      let slot := Z.land (u32 (hash + probe)) (cap - 1) in
      match table !! Z.to_nat slot with
      | None => Fault
      | Some s =>
          if hs_index s =? SFU_HASH_EMPTY then Ok (ScanEmpty slot first_deleted)
          else if hs_index s =? SFU_HASH_DELETED then scan fuel table cap hash (probe + 1) matches (Some (default slot first_deleted))
          else let! hit := (if hs_hash s =? hash then matches s else Ok false) in
               if hit then Ok (ScanHit slot) else scan fuel table cap hash (probe + 1) matches first_deleted
      end
  end.

(** * Indices *)

Lemma bits16 : 0 <= 16 <= 31.
Proof. lia. Qed.
Lemma lookup_set {A} (l : list A) (i j : nat) (x y : A) : (i < length l)%nat -> <[i := x]> l !! j = Some y <-> j = i /\ y = x \/ j <> i /\ l !! j = Some y.
Proof.
  intros Hi. destruct (decide (j = i)) as [->|Hne]; [rewrite list_lookup_insert_eq by done; split; [intros [= ->]; by left|by intros [[_ ->]|[? _]]]|].
  rewrite list_lookup_insert_ne by done. split; [by right|by intros [[? _]|[_ ?]]].
Qed.
Section HashIndex.
Context {K : Type} `{EqDecision K} (bits : Z) (hash : K -> Z) (Hbits : 0 <= bits <= 31).
Abbreviation cap := (2 ^ bits).
(** [key p] is the key of what is at position [p] of the array. *)
Implicit Types (key : Z -> option K) (idx : list sfu_hash_slot).

Definition live (s : sfu_hash_slot) : Prop := 0 <= hs_index s < SFU_HASH_DELETED.
Definition slot_view key (s : sfu_hash_slot) : slot K :=
  if hs_index s =? SFU_HASH_EMPTY then SEmpty else if hs_index s =? SFU_HASH_DELETED then SDeleted
  else match key (hs_index s) with Some k => SKey k | None => SDeleted end.
Definition index_view key idx : table := fun i => match idx !! Z.to_nat i with Some s => slot_view key s | None => SEmpty end.
Definition slot_ok key (s : sfu_hash_slot) : Prop :=
  hs_index s = SFU_HASH_EMPTY \/ hs_index s = SFU_HASH_DELETED \/ live s /\ exists k, key (hs_index s) = Some k /\ hs_hash s = hash k.
Record index_ok key idx : Prop := {
  ix_len : zlen idx = cap;
  ix_slots : forall i s, idx !! i = Some s -> slot_ok key s;
  ix_wf : wf_table cap hash (index_view key idx)
}.
(** The index has key [k] at position [p]. *)
Definition holds key idx (k : K) (p : Z) : Prop := exists i s, idx !! i = Some s /\ live s /\ hs_index s = p /\ key p = Some k.

Lemma cap_pos : 0 < cap.
Proof. apply Z.pow_pos_nonneg; lia. Qed.
Lemma live_view key s : live s -> slot_view key s = match key (hs_index s) with Some k => SKey k | None => SDeleted end.
Proof. unfold live, slot_view, SFU_HASH_EMPTY, SFU_HASH_DELETED. intros H. destruct (Z.eqb_spec (hs_index s) 0xFFFFFFFF), (Z.eqb_spec (hs_index s) 0xFFFFFFFE); done || lia. Qed.
Lemma index_view_key key idx i s k : index_ok key idx -> idx !! i = Some s -> slot_view key s = SKey k -> live s /\ key (hs_index s) = Some k /\ hs_hash s = hash k.
Proof.
  intros Hix Hi E. destruct (ix_slots _ _ Hix _ _ Hi) as [H|[H|(Hl & k' & Hk & Hh)]].
  1,2: unfold slot_view in E; rewrite H in E; done. rewrite live_view, Hk in E by done. injection E as <-. done.
Qed.
Lemma index_bound key idx i s : index_ok key idx -> idx !! i = Some s -> 0 <= Z.of_nat i < cap.
Proof. intros Hix Hi. apply lookup_lt_Some in Hi. pose proof (ix_len _ _ Hix). unfold zlen in *. lia. Qed.
Lemma index_lookup key idx i : index_ok key idx -> 0 <= i < cap -> exists s, idx !! Z.to_nat i = Some s /\ index_view key idx i = slot_view key s.
Proof.
  intros Hix Hi. destruct (lookup_lt_is_Some_2 idx (Z.to_nat i)) as [s Hs]; [pose proof (ix_len _ _ Hix); unfold zlen in *; lia|]. exists s. split; [done|]. unfold index_view. by rewrite Hs.
Qed.
Lemma stored_holds key idx k : index_ok key idx -> stored cap (index_view key idx) k <-> exists p, holds key idx k p.
Proof.
  intros Hix. split.
  - intros (i & Hi & E). destruct (index_lookup key idx i Hix Hi) as (s & Hs & Ev). rewrite Ev in E. destruct (index_view_key _ _ _ _ _ Hix Hs E) as (Hl & Hk & _). by exists (hs_index s), (Z.to_nat i), s.
  - intros (p & i & s & Hs & Hl & <- & Hk). exists (Z.of_nat i). split; [by eapply index_bound|]. unfold index_view. rewrite Nat2Z.id, Hs, live_view, Hk by done. done.
Qed.
Lemma holds_view key idx i s k : idx !! i = Some s -> live s -> key (hs_index s) = Some k -> index_view key idx (Z.of_nat i) = SKey k.
Proof. intros Hs Hl Hk. unfold index_view. by rewrite Nat2Z.id, Hs, live_view, Hk. Qed.
(** A key has one slot. *)
Lemma holds_slot key idx i j s s' k : index_ok key idx -> idx !! i = Some s -> live s -> key (hs_index s) = Some k -> idx !! j = Some s' -> live s' -> key (hs_index s') = Some k -> i = j.
Proof.
  intros Hix Hi Hl Hk Hj Hl' Hk'. apply Nat2Z.inj. eapply (wf_unique (ix_wf _ _ Hix)); [by eapply index_bound|by eapply index_bound|by eapply holds_view|by eapply holds_view].
Qed.
Lemma holds_fun key idx k p q : index_ok key idx -> holds key idx k p -> holds key idx k q -> p = q.
Proof.
  intros Hix (i & s & Hi & Hl & <- & Hk) (j & s' & Hj & Hl' & <- & Hk'). pose proof (holds_slot key idx i j s s' k Hix Hi Hl Hk Hj Hl' Hk') as <-. rewrite Hi in Hj. by injection Hj as <-.
Qed.
Lemma holds_pos key idx i j s s' : index_ok key idx -> idx !! i = Some s -> idx !! j = Some s' -> live s -> hs_index s = hs_index s' -> i = j.
Proof.
  intros Hix Hi Hj Hl E. assert (Hl' : live s') by (unfold live in *; by rewrite <- E). assert (Hk : exists k, key (hs_index s) = Some k).
  { destruct (ix_slots _ _ Hix _ _ Hi) as [H|[H|(_ & k & Hk & _)]]; [unfold live in Hl; rewrite H in Hl; done || (unfold SFU_HASH_EMPTY, SFU_HASH_DELETED in Hl; lia)..|by exists k]. }
  destruct Hk as [k Hk]. eapply holds_slot; try done. by rewrite <- E.
Qed.

(** ** Walks *)

Lemma mask_path k i : is_u32 (hash k) -> Z.land (u32 (hash k + i)) (cap - 1) = path cap hash k i.
Proof.
  intros Hh. unfold path. rewrite land_ones_mod by lia. unfold u32. change (2 ^ 32) with 4294967296. replace 4294967296 with (cap * 2 ^ (32 - bits)); [|rewrite <- Z.pow_add_r by lia; by replace (bits + (32 - bits)) with 32 by lia].
  rewrite Z.rem_mul_r by (try apply Z.pow_pos_nonneg; try apply Z.pow_nonzero; lia). rewrite (Z.mul_comm cap), Z_mod_plus_full. apply Z.mod_mod, Z.pow_nonzero; lia.
Qed.
Definition find_of (r : scan_result) : option (Z * bool) :=
  match r with ScanEmpty i _ => Some (i, false) | ScanHit i => Some (i, true) | ScanEnd _ => None end.
Definition insert_of (r : scan_result) : option Z :=
  match r with ScanEmpty i first => Some (default i first) | ScanHit i => Some i | ScanEnd first => first end.
Lemma scan_loop_spec key idx k matches fuel i first : index_ok key idx -> is_u32 (hash k) ->
  (forall j s, idx !! j = Some s -> live s -> hs_hash s = hash k -> matches s = Ok (bool_decide (key (hs_index s) = Some k))) ->
  exists r, scan fuel idx cap (hash k) i matches first = Ok r /\ probe cap hash (index_view key idx) k fuel i = find_of r /\
    probe_insert cap hash (index_view key idx) k fuel i first = insert_of r.
Proof.
  intros Hix Hh Hm. revert i first. induction fuel as [|fuel IH]; intros i first; cbn [scan probe probe_insert]; [by eexists|].
  rewrite mask_path by done. destruct (index_lookup key idx (path cap hash k i) Hix) as (s & Hs & Ev); [apply path_range, cap_pos|]. rewrite Hs, Ev. unfold slot_view.
  destruct (Z.eqb_spec (hs_index s) SFU_HASH_EMPTY) as [|He]; [by eexists|]. destruct (Z.eqb_spec (hs_index s) SFU_HASH_DELETED) as [|Hd]; [apply IH|].
  destruct (ix_slots _ _ Hix _ _ Hs) as [?|[?|(Hl & k' & Hk & Eh)]]; [done|done|]. rewrite Hk. destruct (Z.eqb_spec (hs_hash s) (hash k)) as [E|E].
  - rewrite (Hm _ _ Hs Hl E), Hk. cbn [res_bind]. destruct (decide (k' = k)) as [->|Hne]; [rewrite bool_decide_true by done; by eexists|]. rewrite bool_decide_false by congruence. apply IH.
  - cbn [res_bind]. destruct (decide (k' = k)) as [->|Hne]; [congruence|]. apply IH.
Qed.
Lemma scan_spec key idx k matches : index_ok key idx -> is_u32 (hash k) ->
  (forall j s, idx !! j = Some s -> live s -> hs_hash s = hash k -> matches s = Ok (bool_decide (key (hs_index s) = Some k))) ->
  exists r, scan (Z.to_nat cap) idx cap (hash k) 0 matches None = Ok r /\ oa_find cap hash (index_view key idx) k = find_of r /\ oa_insert cap hash (index_view key idx) k = insert_of r.
Proof. intros Hix Hh Hm. by apply scan_loop_spec. Qed.

(** ** Changes *)

Definition agrees key key' idx : Prop := forall i s, idx !! i = Some s -> live s -> key' (hs_index s) = key (hs_index s).
Lemma agrees_view key key' idx i : index_ok key idx -> agrees key key' idx -> index_view key' idx i = index_view key idx i.
Proof.
  intros Hix Ha. unfold index_view. destruct (idx !! Z.to_nat i) as [s|] eqn:Hs; [|done]. destruct (ix_slots _ _ Hix _ _ Hs) as [E|[E|(Hl & _)]]; [unfold slot_view; by rewrite E..|].
  rewrite !live_view by done. by rewrite (Ha _ _ Hs Hl).
Qed.
Lemma rekey_ok key key' idx : index_ok key idx -> agrees key key' idx -> index_ok key' idx.
Proof.
  intros Hix Ha. split; [apply Hix| |].
  - intros i s Hs. destruct (ix_slots _ _ Hix _ _ Hs) as [E|[E|(Hl & k & Hk & Hh)]]; [by left|right; by left|right; right]. split; [done|]. exists k. by rewrite (Ha _ _ Hs Hl).
  - eapply table_ext; [apply cap_pos| |apply (ix_wf _ _ Hix)]. intros i _. symmetry. by apply agrees_view.
Qed.
Lemma rekey_holds key key' idx k p : agrees key key' idx -> holds key' idx k p <-> holds key idx k p.
Proof. intros Ha. split; intros (i & s & Hs & Hl & <- & Hk); exists i, s; (split; [done|]; split; [done|]; split; [done|]); [by rewrite <- (Ha _ _ Hs Hl)|by rewrite (Ha _ _ Hs Hl)]. Qed.
Lemma view_set key idx i s j : index_ok key idx -> 0 <= i < cap -> 0 <= j -> index_view key (<[Z.to_nat i := s]> idx) j = update (index_view key idx) i (slot_view key s) j.
Proof.
  intros Hix Hi Hj. unfold index_view, update. destruct (Z.eqb_spec j i) as [->|Hne].
  - rewrite list_lookup_insert_eq; [done|]. pose proof (ix_len _ _ Hix). unfold zlen in *. lia.
  - by rewrite list_lookup_insert_ne by lia.
Qed.
Lemma zlen_set idx i s : zlen (<[i := s]> idx) = zlen idx.
Proof. unfold zlen. by rewrite length_insert. Qed.
(** A new key in a free slot. *)
Section Set_.
Context key key' idx (k : K) (p i : Z) (Hix : index_ok key idx) (Hp : 0 <= p < SFU_HASH_DELETED) (Hk : key' p = Some k)
  (Hagree : forall j s, idx !! j = Some s -> live s -> key' (hs_index s) = key (hs_index s)) (Hnew : forall q, ~ holds key idx k q) (Hi : 0 <= i < cap)
  (Hfree : free_at cap hash (index_view key idx) k i).
Let s := mk_hash_slot (hash k) p.
Let idx' := <[Z.to_nat i := s]> idx.
Lemma set_live : live s.
Proof. done. Qed.
Lemma set_at : idx' !! Z.to_nat i = Some s.
Proof. unfold idx'. apply list_lookup_insert_eq. pose proof (ix_len _ _ Hix). unfold zlen in *. lia. Qed.
Lemma set_other j s0 : idx' !! j = Some s0 -> j = Z.to_nat i /\ s0 = s \/ j <> Z.to_nat i /\ idx !! j = Some s0.
Proof.
  destruct (decide (j = Z.to_nat i)) as [->|Hne]; [rewrite set_at; intros [= <-]; by left|]. unfold idx'. rewrite list_lookup_insert_ne by done. by right.
Qed.
Lemma set_free_slot s0 : idx !! Z.to_nat i = Some s0 -> ~ live s0.
Proof.
  intros Hs0 Hl. destruct (ix_slots _ _ Hix _ _ Hs0) as [E|[E|(_ & k0 & Hk0 & _)]]; [unfold live, SFU_HASH_EMPTY, SFU_HASH_DELETED in *; lia..|].
  destruct Hfree as (_ & _ & _ & _ & Hf). unfold index_view in Hf. rewrite Hs0, live_view, Hk0 in Hf by done. by destruct Hf.
Qed.
Lemma set_ok : index_ok key' idx'.
Proof.
  assert (Hix' : index_ok key' idx) by (by eapply rekey_ok). split.
  - unfold idx'. rewrite zlen_set. apply Hix.
  - intros j s0 Hj. destruct (set_other _ _ Hj) as [[-> ->]|[_ Hj']]; [right; right; split; [apply set_live|by exists k]|]. by apply (ix_slots _ _ Hix' _ _ Hj').
  - eapply table_ext; [apply cap_pos| |apply (insert_free_wf cap hash cap_pos (index_view key idx) k i); [apply Hix|by intros [q Hq]%stored_holds; [apply (Hnew q)|]|done]].
    intros j Hj. unfold idx'. rewrite view_set by (done || lia). unfold update. rewrite live_view by apply set_live. cbn [hs_index s]. rewrite Hk. destruct (j =? i); [done|]. symmetry. by apply agrees_view.
Qed.
Lemma set_holds k' q : holds key' idx' k' q <-> k' = k /\ q = p \/ holds key idx k' q.
Proof.
  split.
  - intros (j & s0 & Hj & Hl & <- & Hk'). destruct (set_other _ _ Hj) as [[-> ->]|[_ Hj']]; [left; cbn in *; rewrite Hk in Hk'; by injection Hk' as <-|right].
    exists j, s0. split_and!; try done. by rewrite <- (Hagree _ _ Hj' Hl).
  - intros [[-> ->]|(j & s0 & Hj & Hl & <- & Hk')]; [exists (Z.to_nat i), s; split_and!; try done; apply set_at|]. exists j, s0. split_and!; [|done|done|by rewrite (Hagree _ _ Hj Hl)].
    unfold idx'. rewrite list_lookup_insert_ne; [done|]. intros <-. by apply (set_free_slot s0).
Qed.
End Set_.
(** A slot becomes a tombstone. *)
Section Delete.
Context key idx (i : nat) (s : sfu_hash_slot) (Hix : index_ok key idx) (Hs : idx !! i = Some s) (Hl : live s).
Let idx' := <[i := s <| hs_index := SFU_HASH_DELETED |>]> idx.
Lemma delete_at j s0 : idx' !! j = Some s0 -> j = i /\ hs_index s0 = SFU_HASH_DELETED \/ j <> i /\ idx !! j = Some s0.
Proof.
  unfold idx'. destruct (decide (j = i)) as [->|Hne]; [|rewrite list_lookup_insert_ne by done; by right]. rewrite list_lookup_insert_eq by (by eapply lookup_lt_Some). intros [= <-]. by left.
Qed.
Lemma delete_ok : index_ok key idx'.
Proof.
  split.
  - unfold idx'. rewrite zlen_set. apply Hix.
  - intros j s0 Hj. destruct (delete_at _ _ Hj) as [[_ E]|[_ Hj']]; [right; by left|by apply (ix_slots _ _ Hix _ _ Hj')].
  - eapply table_ext; [apply cap_pos| |apply (delete_wf cap hash (index_view key idx) (Z.of_nat i)), Hix]. intros j Hj. unfold idx'.
    rewrite <- (Nat2Z.id i), view_set by (lia || done || by eapply index_bound). unfold update. rewrite Nat2Z.id. done.
Qed.
Lemma delete_holds k q : holds key idx' k q <-> holds key idx k q /\ q <> hs_index s.
Proof.
  split.
  - intros (j & s0 & Hj & Hl0 & <- & Hk). destruct (delete_at _ _ Hj) as [[_ E]|[Hne Hj']]; [unfold live in Hl0; rewrite E in Hl0; lia|].
    split; [by exists j, s0|]. intros E. apply Hne. eapply holds_pos; try done.
  - intros [(j & s0 & Hj & Hl0 & <- & Hk) Hne]. exists j, s0. split_and!; try done. unfold idx'. rewrite list_lookup_insert_ne; [done|]. intros <-. rewrite Hs in Hj. by injection Hj as <-.
Qed.
Lemma delete_free k j : 0 <= j < cap -> free_at cap hash (index_view key idx) k j -> free_at cap hash (index_view key idx') k j.
Proof.
  intros Hj (d & Hd & -> & Hbefore & Hat). assert (Hv : forall x, index_view key idx' x = SDeleted \/ index_view key idx' x = index_view key idx x).
  { intros x. unfold index_view, idx'. destruct (decide (Z.to_nat x = i)) as [E|Hne]; [left|right; by rewrite list_lookup_insert_ne]. rewrite E, list_lookup_insert_eq by (by eapply lookup_lt_Some). done. }
  exists d. split; [done|]. split; [done|]. split.
  - intros e He. destruct (Hv (path cap hash k e)) as [->| ->]; [done|by apply Hbefore].
  - destruct (Hv (path cap hash k d)) as [->| ->]; [by right|done].
Qed.
End Delete.
(** What was at one position of the array is now at another. *)
Section Move.
Context key key' idx (i : nat) (s : sfu_hash_slot) (k : K) (new : Z) (Hix : index_ok key idx) (Hs : idx !! i = Some s) (Hl : live s) (Hk : key (hs_index s) = Some k)
  (Hnew : 0 <= new < SFU_HASH_DELETED) (Hk' : key' new = Some k)
  (Hagree : forall j s0, idx !! j = Some s0 -> live s0 -> j <> i -> key' (hs_index s0) = key (hs_index s0)).
Let idx' := <[i := s <| hs_index := new |>]> idx.
Lemma move_at j s0 : idx' !! j = Some s0 -> j = i /\ s0 = s <| hs_index := new |> \/ j <> i /\ idx !! j = Some s0.
Proof.
  unfold idx'. destruct (decide (j = i)) as [->|Hne]; [|rewrite list_lookup_insert_ne by done; by right]. rewrite list_lookup_insert_eq by (by eapply lookup_lt_Some). intros [= <-]. by left.
Qed.
Lemma move_view j : index_view key' idx' j = index_view key idx j.
Proof.
  unfold index_view, idx'. destruct (decide (Z.to_nat j = i)) as [E|Hne].
  - rewrite E, list_lookup_insert_eq by (by eapply lookup_lt_Some). rewrite Hs, !live_view by done. cbn. by rewrite Hk, Hk'.
  - rewrite list_lookup_insert_ne by done. destruct (idx !! Z.to_nat j) as [s0|] eqn:Hj; [|done].
    destruct (ix_slots _ _ Hix _ _ Hj) as [E|[E|(Hl0 & _)]]; [unfold slot_view; by rewrite E..|]. rewrite !live_view by done. by rewrite (Hagree _ _ Hj Hl0 Hne).
Qed.
Lemma move_ok : index_ok key' idx'.
Proof.
  split.
  - unfold idx'. rewrite zlen_set. apply Hix.
  - intros j s0 Hj. destruct (move_at _ _ Hj) as [[_ ->]|[Hne Hj']].
    + right; right. split; [done|]. exists k. split; [done|]. cbn. destruct (ix_slots _ _ Hix _ _ Hs) as [E|[E|(_ & k0 & Hk0 & Hh)]]; [unfold live, SFU_HASH_EMPTY, SFU_HASH_DELETED in *; lia..|]. congruence.
    + destruct (ix_slots _ _ Hix _ _ Hj') as [E|[E|(Hl0 & k0 & Hk0 & Hh)]]; [by left|right; by left|right; right]. split; [done|]. exists k0. by rewrite (Hagree _ _ Hj' Hl0 Hne).
  - eapply table_ext; [apply cap_pos| |apply (ix_wf _ _ Hix)]. intros j _. symmetry. apply move_view.
Qed.
Lemma move_holds k0 q : holds key' idx' k0 q <-> k0 = k /\ q = new \/ holds key idx k0 q /\ q <> hs_index s.
Proof.
  split.
  - intros (j & s0 & Hj & Hl0 & <- & Hk0). destruct (move_at _ _ Hj) as [[_ ->]|[Hne Hj']]; [left; cbn in *; split; [congruence|done]|right].
    split; [exists j, s0; split_and!; try done; by rewrite <- (Hagree _ _ Hj' Hl0 Hne)|]. intros E. apply Hne. eapply holds_pos; try done.
  - intros [[-> ->]|[(j & s0 & Hj & Hl0 & <- & Hk0) Hne]].
    + exists i, (s <| hs_index := new |>). split_and!; try done. unfold idx'. apply list_lookup_insert_eq. by eapply lookup_lt_Some.
    + assert (Hji : j <> i) by (intros ->; rewrite Hs in Hj; by injection Hj as <-). exists j, s0. split_and!; [|done|done|by rewrite (Hagree _ _ Hj Hl0 Hji)]. unfold idx'. by rewrite list_lookup_insert_ne.
Qed.
End Move.

Definition empty_slots : list sfu_hash_slot := replicate (Z.to_nat cap) (mk_hash_slot 0 SFU_HASH_EMPTY).
Lemma cleared_ok key idx : zlen idx = cap -> (forall i s, idx !! i = Some s -> hs_index s = SFU_HASH_EMPTY) -> index_ok key idx /\ forall k p, ~ holds key idx k p.
Proof.
  intros Hz He. split.
  - split; [done|intros i s Hs; left; by eapply He|]. eapply table_ext; [apply cap_pos| |apply empty_wf]. intros i _. unfold index_view. destruct (idx !! Z.to_nat i) as [s|] eqn:Hs; [|done].
    unfold slot_view. by rewrite (He _ _ Hs).
  - intros k p (i & s & Hs & Hl & _). unfold live in Hl. rewrite (He _ _ Hs) in Hl. unfold SFU_HASH_EMPTY, SFU_HASH_DELETED in Hl. lia.
Qed.
(** With fewer positions than slots an insertion finds room. *)
Lemma room_left key idx c : index_ok key idx -> c < cap -> (forall k p, holds key idx k p -> 0 <= p < c) -> exists i, 0 <= i < cap /\ forall k, index_view key idx i <> SKey k.
Proof.
  intros Hix Hc Hb. destruct (decide (Forall (fun s => 0 <= hs_index s < SFU_HASH_DELETED) idx)) as [Hall|Hnot].
  - exfalso. assert (Hlive : forall i s, idx !! i = Some s -> live s) by (intros i s Hs; eapply (Forall_lookup_1 _ _ _ _ Hall Hs)).
    assert (Hsub : map hs_index idx ⊆+ seqZ 0 c).
    { apply NoDup_submseteq.
      - apply NoDup_alt. intros i j p Hi Hj. rewrite list_lookup_fmap in Hi, Hj. destruct (idx !! i) as [s|] eqn:Es; [|done]. destruct (idx !! j) as [s'|] eqn:Es'; [|done].
        injection Hi as Hi. injection Hj as Hj. eapply holds_pos; [done|done|done|by eapply Hlive|congruence].
      - intros p Hp. apply list_elem_of_fmap in Hp as (s & -> & Hs). apply list_elem_of_lookup in Hs as [i Hs]. pose proof (Hlive _ _ Hs) as Hl.
        destruct (ix_slots _ _ Hix _ _ Hs) as [E|[E|(_ & k & Hk & _)]]; [unfold live, SFU_HASH_EMPTY, SFU_HASH_DELETED in *; lia..|]. apply elem_of_seqZ.
        assert (0 <= hs_index s < c); [|lia]. apply (Hb k). by exists i, s. }
    apply submseteq_length in Hsub. rewrite length_map, length_seqZ in Hsub. pose proof (ix_len _ _ Hix). unfold zlen in *. pose proof cap_pos. lia.
  - apply not_Forall_Exists, Exists_exists in Hnot; [|intros s; apply _]. destruct Hnot as (s & Hs & Hn). apply list_elem_of_In, list_elem_of_lookup in Hs as [i Hs].
    exists (Z.of_nat i). split; [by eapply index_bound|]. intros k E. unfold index_view in E. rewrite Nat2Z.id, Hs in E. apply Hn. by eapply index_view_key.
Qed.
(** A walk for [k], with room in the table: it ends at the slot of the key, or
    the key is not there, an insertion has a free slot, and a walk that ends
    early ends at an empty slot. *)
Lemma scan_cases key idx k matches c : index_ok key idx -> is_u32 (hash k) -> c < cap -> (forall k p, holds key idx k p -> 0 <= p < c) ->
  (forall j s, idx !! j = Some s -> live s -> hs_hash s = hash k -> matches s = Ok (bool_decide (key (hs_index s) = Some k))) ->
  exists r, scan (Z.to_nat cap) idx cap (hash k) 0 matches None = Ok r /\
    ((exists i s, r = ScanHit (Z.of_nat i) /\ idx !! i = Some s /\ live s /\ key (hs_index s) = Some k) \/
     (forall p, ~ holds key idx k p) /\ (exists j, insert_of r = Some j /\ 0 <= j < cap /\ free_at cap hash (index_view key idx) k j) /\
     match r with ScanEmpty i _ => exists s, idx !! Z.to_nat i = Some s /\ hs_index s = SFU_HASH_EMPTY | ScanHit _ => False | ScanEnd _ => True end).
Proof.
  intros Hix Hh Hc Hb Hm. destruct (scan_spec key idx k matches Hix Hh Hm) as (r & Er & Ef & Ei). exists r. split; [done|]. pose proof (find_sound cap hash cap_pos (index_view key idx) k) as Hs. rewrite Ef in Hs.
  assert (Hno : (forall i, find_of r <> Some (i, true)) -> forall p, ~ holds key idx k p).
  { intros Hr p Hp. assert (Hst : stored cap (index_view key idx) k) by (apply stored_holds; [done|by exists p]). destruct Hst as (i & Hi & E). rewrite (find_hit cap hash cap_pos _ k i (ix_wf _ _ Hix) Hi E) in Ef. by destruct (Hr i). }
  assert (Hins : (forall p, ~ holds key idx k p) -> exists j, insert_of r = Some j /\ 0 <= j < cap /\ free_at cap hash (index_view key idx) k j).
  { intros H. rewrite <- Ei. apply insert_free; [apply cap_pos|apply Hix|intros [p Hp]%stored_holds; [by apply (H p)|done]|]. by apply (room_left key idx c). }
  destruct r as [i first|i|first]; cbn [find_of] in *.
  - right. assert (H : forall p, ~ holds key idx k p) by (apply Hno; congruence). split; [done|]. split; [by apply Hins|]. destruct Hs as (Hi & Hv & _). destruct (index_lookup key idx i Hix Hi) as (s & Hs & Ev). exists s. split; [done|].
    rewrite Ev in Hv. unfold slot_view in Hv. destruct (Z.eqb_spec (hs_index s) SFU_HASH_EMPTY); [done|]. destruct (_ =? _); [done|]. by destruct (key (hs_index s)).
  - left. destruct Hs as [Hi Hv]. destruct (index_lookup key idx i Hix Hi) as (s & Hs & Ev). rewrite Ev in Hv. destruct (index_view_key key idx _ s k Hix Hs Hv) as (Hl & Hk & _). exists (Z.to_nat i), s. rewrite Z2Nat.id by lia. done.
  - right. assert (H : forall p, ~ holds key idx k p) by (by apply Hno). split; [done|]. split; [by apply Hins|done].
Qed.
End HashIndex.

(** ** Tombstones *)

Definition tombstones (idx : list sfu_hash_slot) : Z := zlen (filter (fun s => hs_index s = SFU_HASH_DELETED) idx).
Definition is_tomb (s : sfu_hash_slot) : Z := if hs_index s =? SFU_HASH_DELETED then 1 else 0.
Lemma tombstones_sum idx : tombstones idx = fold_right (fun s n => is_tomb s + n) 0 idx.
Proof.
  unfold tombstones. induction idx as [|s idx IH]; [done|]. cbn [fold_right]. rewrite filter_cons. unfold is_tomb at 1. destruct (decide (hs_index s = SFU_HASH_DELETED)) as [E|E].
  - rewrite E, Z.eqb_refl, zlen_cons, IH. lia.
  - rewrite (proj2 (Z.eqb_neq _ _) E), IH. lia.
Qed.
Lemma tombstones_set idx i s0 s : idx !! i = Some s0 -> tombstones (<[i := s]> idx) = tombstones idx - is_tomb s0 + is_tomb s.
Proof.
  rewrite !tombstones_sum. revert i. induction idx as [|s1 idx IH]; intros [|i] H; [done|done|injection H as ->|].
  - change (<[0%nat := s]> (s0 :: idx)) with (s :: idx). cbn [fold_right]. lia.
  - change (<[S i := s]> (s1 :: idx)) with (s1 :: <[i := s]> idx). cbn [fold_right]. rewrite (IH i H). lia.
Qed.
Lemma fnv1a_u32 data : is_u32 (fnv1a data).
Proof.
  unfold fnv1a. assert (H : forall l h, is_u32 h -> is_u32 (fold_left fnv1a_step l h)); [|apply H; done].
  induction l as [|b l IH]; intros h Hh; [done|]. apply IH. unfold fnv1a_step. apply u32_range.
Qed.
