(* ===== verification/RoutingTable.v ===== *)
(** The routing table, [src/runtime/routing_context.c]: from the ICE user
    fragment of a client to its room, its signaling connection and the media
    answer that waits to be applied.  Routes live in an array that is kept
    dense by moving the last one into a gap, and are found through a hash
    index with tombstones.  An operation is one critical section under the
    table's lock, except that registering an answer takes the lock twice, to
    reserve and to commit, and reconciling one too; what other threads do to
    the table in between is an argument of the two.  Rooms and connections are
    numbers. *)

From S2P Require Import Prelude OpenAddr HashIndex.
From stdpp Require Import gmap relations.
Local Open Scope Z_scope.

Definition SFU_MAX_UFRAG_MAPPINGS : Z := 32768.
Definition SFU_ROUTING_UFRAG_HASH_SLOTS : Z := 65536.
Abbreviation SLOTS := SFU_ROUTING_UFRAG_HASH_SLOTS.

Record sfu_pending_answer := mk_answer {
  pa_audio_ssrc : Z; pa_video_ssrc : Z; pa_rtx_ssrc : Z; pa_screen_ssrc : Z; pa_screen_rtx_ssrc : Z; pa_peer_id : Z; pa_user_id : Z; pa_generation : Z;
  pa_video_pt : Z; pa_rtx_pt : Z; pa_video_codec : Z; pa_screen_pt : Z; pa_screen_rtx_pt : Z; pa_screen_codec : Z; pa_screen_codec_preference : Z;
  pa_twcc_recv_extmap_id : Z; pa_twcc_send_extmap_id : Z; pa_mid_recv_extmap_id : Z;
  pa_audio_section_present : bool; pa_video_section_present : bool; pa_screen_section_present : bool;
  pa_audio_sends : bool; pa_video_sends : bool; pa_screen_sends : bool; pa_is_audience : bool; pa_valid : bool
}.
#[export] Instance eta_answer : Eta sfu_pending_answer := fun a =>
  mk_answer (pa_audio_ssrc a) (pa_video_ssrc a) (pa_rtx_ssrc a) (pa_screen_ssrc a) (pa_screen_rtx_ssrc a) (pa_peer_id a) (pa_user_id a) (pa_generation a)
    (pa_video_pt a) (pa_rtx_pt a) (pa_video_codec a) (pa_screen_pt a) (pa_screen_rtx_pt a) (pa_screen_codec a) (pa_screen_codec_preference a)
    (pa_twcc_recv_extmap_id a) (pa_twcc_send_extmap_id a) (pa_mid_recv_extmap_id a) (pa_audio_section_present a) (pa_video_section_present a)
    (pa_screen_section_present a) (pa_audio_sends a) (pa_video_sends a) (pa_screen_sends a) (pa_is_audience a) (pa_valid a).
Definition zero_answer : sfu_pending_answer := mk_answer 0 0 0 0 0 0 0 0 0 0 0 0 0 0 0 0 0 0 false false false false false false false false.
(** A fragment is the list of its bytes without the final zero; a room of a
    cleared entry is 0. *)
Record sfu_routing_entry := mk_route { re_ufrag : list Z; re_room : Z; re_worker_index : Z; re_fd : Z; re_has_owner : bool; re_pending_answer : sfu_pending_answer }.
#[export] Instance eta_route : Eta sfu_routing_entry := fun e => mk_route (re_ufrag e) (re_room e) (re_worker_index e) (re_fd e) (re_has_owner e) (re_pending_answer e).
Definition zero_route : sfu_routing_entry := mk_route [] 0 0 0 false zero_answer.
Record sfu_routing_snapshot := mk_route_snapshot { rs_room : Z; rs_worker_index : Z; rs_fd : Z; rs_has_owner : bool; rs_pending_generation : Z }.
Inductive sfu_routing_register_result :=
| SFU_ROUTING_REGISTER_OK | SFU_ROUTING_REGISTER_INVALID_ARGUMENT | SFU_ROUTING_REGISTER_OWNERSHIP_CONFLICT | SFU_ROUTING_REGISTER_TABLE_FULL.
Record sfu_routing_table := mk_routing { rt_entries : list sfu_routing_entry; rt_ufrag_index : list sfu_hash_slot; rt_count : Z; rt_deleted_slots : Z }.
#[export] Instance eta_routing : Eta sfu_routing_table := fun t => mk_routing (rt_entries t) (rt_ufrag_index t) (rt_count t) (rt_deleted_slots t).
(** The table is the argument of the operations, and the entry is named by its position. *)
Record sfu_routing_answer_reservation := mk_reservation_route {
  ra_answer : sfu_pending_answer; ra_generation : Z; ra_entry_index : Z; ra_ufrag_len : Z; ra_ufrag : list Z; ra_room : Z; ra_fd : Z; ra_new_entry : bool; ra_active : bool
}.
#[export] Instance eta_route_reservation : Eta sfu_routing_answer_reservation := fun r =>
  mk_reservation_route (ra_answer r) (ra_generation r) (ra_entry_index r) (ra_ufrag_len r) (ra_ufrag r) (ra_room r) (ra_fd r) (ra_new_entry r) (ra_active r).
Definition zero_reservation : sfu_routing_answer_reservation := mk_reservation_route zero_answer 0 0 0 [] 0 0 false false.

(** ** The index *)

Definition entry_at (t : sfu_routing_table) (i : Z) : res sfu_routing_entry := match rt_entries t !! Z.to_nat i with Some e => Ok e | None => Fault end.
Definition slot_at (t : sfu_routing_table) (i : Z) : res sfu_hash_slot := match rt_ufrag_index t !! Z.to_nat i with Some s => Ok s | None => Fault end.
Definition set_entry (t : sfu_routing_table) (i : Z) (e : sfu_routing_entry) : sfu_routing_table := t <| rt_entries ::= <[Z.to_nat i := e]> |>.
Definition set_slot (t : sfu_routing_table) (i : Z) (s : sfu_hash_slot) : sfu_routing_table := t <| rt_ufrag_index ::= <[Z.to_nat i := s]> |>.
Definition routing_matches (t : sfu_routing_table) (client_ufrag : list Z) (s : sfu_hash_slot) : res bool :=
  if hs_index s <? rt_count t then let! e := entry_at t (hs_index s) in Ok (bool_decide (re_ufrag e = client_ufrag)) else Ok false.
(** [None] is [SFU_HASH_EMPTY]. *)
Definition routing_probe (t : sfu_routing_table) (client_ufrag : list Z) (hash : Z) (for_insert : bool) : res (option Z) :=
  let! r := scan (Z.to_nat SLOTS) (rt_ufrag_index t) SLOTS hash 0 (routing_matches t client_ufrag) None in
  Ok (match r with
      | ScanEmpty slot_index first_deleted => Some (if for_insert then default slot_index first_deleted else slot_index)
      | ScanHit slot_index => Some slot_index
      | ScanEnd first_deleted => if for_insert then first_deleted else None
      end).
Definition index_entry_locked (t : sfu_routing_table) (entry_index : Z) : res (bool * sfu_routing_table) :=
  let! entry := entry_at t entry_index in
  let hash := fnv1a (re_ufrag entry) in
  let! slot_index := routing_probe t (re_ufrag entry) hash true in
  match slot_index with
  | None => Ok (false, t)
  | Some slot_index =>
      let! slot := slot_at t slot_index in
      let t := if (hs_index slot =? SFU_HASH_DELETED) && (0 <? rt_deleted_slots t) then t <| rt_deleted_slots ::= fun n => n - 1 |> else t in
      Ok (true, set_slot t slot_index (mk_hash_slot hash entry_index))
  end.
Fixpoint rebuild_loop (fuel : nat) (t : sfu_routing_table) (i : Z) : res (bool * sfu_routing_table) :=
  match fuel with
  | O => Ok (true, t)
  | S fuel =>
      let! (ok, t) := index_entry_locked t i in
      if negb ok then Ok (false, t) else rebuild_loop fuel t (i + 1)
  end.
Definition rebuild_index_locked (t : sfu_routing_table) : res (bool * sfu_routing_table) :=
  let t := t <| rt_ufrag_index ::= map (fun s => s <| hs_index := SFU_HASH_EMPTY |>) |> <| rt_deleted_slots := 0 |> in
  rebuild_loop (Z.to_nat (rt_count t)) t 0.
Definition rebuild_if_sparse (t : sfu_routing_table) : res (bool * sfu_routing_table) :=
  if rt_count t <? rt_deleted_slots t then rebuild_index_locked t else Ok (true, t).
Definition sfu_routing_table_init : sfu_routing_table :=
  mk_routing (replicate (Z.to_nat SFU_MAX_UFRAG_MAPPINGS) zero_route) (replicate (Z.to_nat SLOTS) (mk_hash_slot 0 SFU_HASH_EMPTY)) 0 0.
Definition find_entry_locked (t : sfu_routing_table) (client_ufrag : list Z) : res (option Z) :=
  let! slot_index := routing_probe t client_ufrag (fnv1a client_ufrag) false in
  match slot_index with
  | None => Ok None
  | Some slot_index => let! slot := slot_at t slot_index in Ok (if hs_index slot <? rt_count t then Some (hs_index slot) else None)
  end.
Definition remove_index_locked (t : sfu_routing_table) (client_ufrag : list Z) (expected_index : Z) : res sfu_routing_table :=
  let! slot_index := routing_probe t client_ufrag (fnv1a client_ufrag) false in
  match slot_index with
  | None => Ok t
  | Some slot_index =>
      let! slot := slot_at t slot_index in
      if hs_index slot =? expected_index
      then Ok ((set_slot t slot_index (slot <| hs_index := SFU_HASH_DELETED |>)) <| rt_deleted_slots ::= fun n => u32 (n + 1) |>)
      else Ok t
  end.
Definition update_index_locked (t : sfu_routing_table) (client_ufrag : list Z) (old_index new_index : Z) : res (bool * sfu_routing_table) :=
  let! slot_index := routing_probe t client_ufrag (fnv1a client_ufrag) false in
  match slot_index with
  | None => Ok (false, t)
  | Some slot_index =>
      let! slot := slot_at t slot_index in
      if negb (hs_index slot =? old_index) then Ok (false, t) else Ok (true, set_slot t slot_index (slot <| hs_index := new_index |>))
  end.
(** [Fault] also stands for the call of [abort]. *)
Definition remove_entry_at_locked (t : sfu_routing_table) (removed_index : Z) : res sfu_routing_table :=
  let last_index := rt_count t - 1 in
  let! removed := entry_at t removed_index in
  let! t := remove_index_locked t (re_ufrag removed) removed_index in
  let! t := (if removed_index =? last_index then Ok t else
             let! moved := entry_at t last_index in
             let t := set_entry t removed_index moved in
             let! (ok, t) := update_index_locked t (re_ufrag moved) last_index removed_index in
             if ok then Ok t else Fault) in
  let t := t <| rt_count ::= fun n => n - 1 |> in
  Ok (set_entry t (rt_count t) zero_route).

(** ** Operations *)

Definition next_generation (generation : Z) : Z := let generation := u32 (generation + 1) in if generation =? 0 then 1 else generation.
(** The entry made for a new fragment: whether there is one and its position. *)
Definition new_route (t : sfu_routing_table) (client_ufrag : list Z) (room fd : Z) : res (bool * Z * sfu_routing_table) :=
  if SFU_MAX_UFRAG_MAPPINGS <=? rt_count t then Ok (false, 0, t) else
  let! (ok, t) := rebuild_if_sparse t in
  if negb ok then Ok (false, 0, t) else
  let entry_index := rt_count t in
  let! _ := entry_at t entry_index in
  let t := set_entry t entry_index (zero_route <| re_ufrag := client_ufrag |> <| re_room := room |> <| re_fd := fd |>) in
  let! (ok, t) := index_entry_locked t entry_index in
  let! (ok, t) := (if ok then Ok (true, t) else
                   let! (ok, t) := rebuild_index_locked t in
                   if negb ok then Ok (false, t) else index_entry_locked t entry_index) in
  if negb ok then Ok (false, 0, set_entry t entry_index zero_route) else Ok (true, entry_index, t <| rt_count ::= fun n => n + 1 |>).
Definition reserve_entry (t : sfu_routing_table) (entry_index : Z) (client_ufrag : list Z) (room fd : Z) (answer : sfu_pending_answer) (new_entry : bool)
  : res (sfu_routing_register_result * sfu_routing_table * sfu_routing_answer_reservation) :=
  let! entry := entry_at t entry_index in
  Ok (SFU_ROUTING_REGISTER_OK, t,
      mk_reservation_route answer (next_generation (pa_generation (re_pending_answer entry))) entry_index (zlen client_ufrag) client_ufrag room fd new_entry true).
Definition sfu_routing_table_prepare_answer (t : sfu_routing_table) (client_ufrag : list Z) (room fd : Z) (answer : sfu_pending_answer)
  : res (sfu_routing_register_result * sfu_routing_table * sfu_routing_answer_reservation) :=
  let ufrag_len := Z.min (zlen client_ufrag) 32 in
  if (fd <? 0) || (ufrag_len =? 0) || (32 <=? ufrag_len) then Ok (SFU_ROUTING_REGISTER_INVALID_ARGUMENT, t, zero_reservation) else
  let! found := find_entry_locked t client_ufrag in
  match found with
  | Some entry_index =>
      let! entry := entry_at t entry_index in
      if negb (re_room entry =? room) || negb (re_fd entry =? fd) then Ok (SFU_ROUTING_REGISTER_OWNERSHIP_CONFLICT, t, zero_reservation)
      else reserve_entry t entry_index client_ufrag room fd answer false
  | None =>
      let! (made, entry_index, t) := new_route t client_ufrag room fd in
      if negb made then Ok (SFU_ROUTING_REGISTER_TABLE_FULL, t, zero_reservation) else reserve_entry t entry_index client_ufrag room fd answer true
  end.
(** The answer as it is published: the peer keeps the identity it has. *)
Definition published_answer (entry : sfu_routing_entry) (answer : sfu_pending_answer) (generation : Z) : sfu_pending_answer :=
  let published := if pa_peer_id (re_pending_answer entry) =? 0 then answer else answer <| pa_peer_id := pa_peer_id (re_pending_answer entry) |> in
  published <| pa_generation := generation |> <| pa_valid := true |>.
(** The generation if the answer is published. *)
Definition sfu_routing_table_commit_answer (t : sfu_routing_table) (r : sfu_routing_answer_reservation) : res (option Z * sfu_routing_table * sfu_routing_answer_reservation) :=
  if negb (ra_active r) then Ok (None, t, r) else
  let! found := find_entry_locked t (ra_ufrag r) in
  match found with
  | None => Ok (None, t, r <| ra_active := false |>)
  | Some i =>
      let! entry := entry_at t i in
      if negb (re_room entry =? ra_room r) || negb (re_fd entry =? ra_fd r) || negb (i =? ra_entry_index r) then Ok (None, t, r <| ra_active := false |>) else
      let published := published_answer entry (ra_answer r) (ra_generation r) in
      Ok (Some (ra_generation r), set_entry t i (entry <| re_room := ra_room r |> <| re_fd := ra_fd r |> <| re_pending_answer := published |>), r <| ra_active := false |>)
  end.
Definition sfu_routing_table_cancel_answer (t : sfu_routing_table) (r : sfu_routing_answer_reservation) : res (sfu_routing_table * sfu_routing_answer_reservation) :=
  if negb (ra_active r) then Ok (t, r) else
  let! t := (if negb (ra_new_entry r) then Ok t else
    let! found := find_entry_locked t (ra_ufrag r) in
    match found with
    | None => Ok t
    | Some i =>
        let! entry := entry_at t i in
        if (i =? ra_entry_index r) && negb (pa_valid (re_pending_answer entry)) && (re_room entry =? ra_room r) && (re_fd entry =? ra_fd r) then
          let! t := remove_entry_at_locked t (ra_entry_index r) in
          let! (_, t) := rebuild_if_sparse t in Ok t
        else Ok t
    end) in
  Ok (t, r <| ra_active := false |>).
(** [others] is what other threads do to the table between the two critical
    sections; the cancellation of an ended reservation does not lock. *)
Definition sfu_routing_table_register_answer (t : sfu_routing_table) (others : sfu_routing_table -> sfu_routing_table) (client_ufrag : list Z)
    (room fd : Z) (answer : sfu_pending_answer) : res (sfu_routing_register_result * option Z * sfu_routing_table) :=
  let! (result, t, reservation) := sfu_routing_table_prepare_answer t client_ufrag room fd answer in
  match result with
  | SFU_ROUTING_REGISTER_OK =>
      let! (generation, t, reservation) := sfu_routing_table_commit_answer (others t) reservation in
      match generation with
      | None => let! (t, _) := sfu_routing_table_cancel_answer t reservation in Ok (SFU_ROUTING_REGISTER_TABLE_FULL, None, t)
      | Some g => Ok (SFU_ROUTING_REGISTER_OK, Some g, t)
      end
  | _ => Ok (result, None, t)
  end.
Definition snapshot_of (entry : sfu_routing_entry) : sfu_routing_snapshot :=
  mk_route_snapshot (re_room entry) (re_worker_index entry) (re_fd entry) (re_has_owner entry) (if pa_valid (re_pending_answer entry) then pa_generation (re_pending_answer entry) else 0).
Definition sfu_routing_table_lookup_route (t : sfu_routing_table) (client_ufrag : list Z) (worker_index : Z) : res (option sfu_routing_snapshot * sfu_routing_table) :=
  let! found := find_entry_locked t client_ufrag in
  match found with
  | None => Ok (None, t)
  | Some i =>
      let! entry := entry_at t i in
      let entry := entry <| re_worker_index := worker_index |> <| re_has_owner := true |> in
      Ok (Some (snapshot_of entry), set_entry t i entry)
  end.
Definition sfu_routing_table_peek_route (t : sfu_routing_table) (client_ufrag : list Z) : res (option sfu_routing_snapshot) :=
  let! found := find_entry_locked t client_ufrag in
  match found with None => Ok None | Some i => let! entry := entry_at t i in Ok (Some (snapshot_of entry)) end.
Definition sfu_routing_table_invalidate_pending (t : sfu_routing_table) (client_ufrag : list Z) (room fd : Z) : res (option Z * sfu_routing_table) :=
  if fd <? 0 then Ok (None, t) else
  let! found := find_entry_locked t client_ufrag in
  match found with
  | None => Ok (None, t)
  | Some i =>
      let! entry := entry_at t i in
      if negb (re_room entry =? room) || negb (re_fd entry =? fd) then Ok (None, t) else
      let generation := next_generation (pa_generation (re_pending_answer entry)) in
      Ok (Some generation, set_entry t i (entry <| re_pending_answer := (re_pending_answer entry) <| pa_generation := generation |> <| pa_valid := false |> |>))
  end.
Fixpoint unregister_loop (fuel : nat) (t : sfu_routing_table) (fd i : Z) : res sfu_routing_table :=
  if i <? rt_count t then
    match fuel with
    | O => Fault
    | S fuel =>
        let! entry := entry_at t i in
        if re_fd entry =? fd then let! t := remove_entry_at_locked t i in unregister_loop fuel t fd i else unregister_loop fuel t fd (i + 1)
    end
  else Ok t.
Definition sfu_routing_table_unregister_fd (t : sfu_routing_table) (fd : Z) : res sfu_routing_table :=
  let! t := unregister_loop (Z.to_nat (rt_count t)) t fd 0 in
  let! (ok, t) := rebuild_if_sparse t in
  if ok then Ok t else Fault.

(** The pending answer goes to the session: [apply] is
    [sfu_session_apply_pending_answer] for it, [session_room] its room if it
    has one, and [others] what other threads do to the table while the
    lock is free. *)
Section Reconcile.
Context {S : Type} (session_room : S -> option Z) (apply : S -> sfu_pending_answer -> Z -> bool * S).
Definition pending_matches (entry : sfu_routing_entry) (room fd generation : Z) : bool :=
  (re_room entry =? room) && (re_fd entry =? fd) && pa_valid (re_pending_answer entry) && (pa_generation (re_pending_answer entry) =? generation).
Definition retire_pending (t : sfu_routing_table) (client_ufrag : list Z) (room fd generation : Z) : res sfu_routing_table :=
  let! found := find_entry_locked t client_ufrag in
  match found with
  | None => Ok t
  | Some i =>
      let! entry := entry_at t i in
      Ok (if pending_matches entry room fd generation then set_entry t i (entry <| re_pending_answer ::= fun a => a <| pa_valid := false |> |>) else t)
  end.
Definition sfu_routing_table_reconcile_answer (t : sfu_routing_table) (client_ufrag : list Z) (room fd generation : Z) (session : S)
    (others : sfu_routing_table -> sfu_routing_table) : res (bool * S * sfu_routing_table) :=
  if (fd <? 0) || (generation =? 0) then Ok (false, session, t) else
  let! found := find_entry_locked t client_ufrag in
  match found with
  | None => Ok (false, session, t)
  | Some i =>
      let! entry := entry_at t i in
      if negb (pending_matches entry room fd generation) then Ok (false, session, t) else
      let pending := re_pending_answer entry in
      let t := others t in
      if match session_room session with Some r => negb (r =? room) | None => false end then Ok (false, session, t) else
      let (applied, session) := apply session pending fd in
      if negb applied then Ok (false, session, t) else
      let! t := retire_pending t client_ufrag room fd generation in
      Ok (true, session, t)
  end.
End Reconcile.

(** * Invariant *)

Definition route_key (t : sfu_routing_table) (p : Z) : option (list Z) :=
  if (0 <=? p) && (p <? rt_count t) then re_ufrag <$> rt_entries t !! Z.to_nat p else None.
Abbreviation rt_holds t := (holds (route_key t) (rt_ufrag_index t)).
Record rt_ok (t : sfu_routing_table) : Prop := {
  ro_entries : zlen (rt_entries t) = SFU_MAX_UFRAG_MAPPINGS;
  ro_count : 0 <= rt_count t <= SFU_MAX_UFRAG_MAPPINGS;
  ro_index : index_ok 16 fnv1a (route_key t) (rt_ufrag_index t);
  ro_deleted : rt_deleted_slots t = tombstones (rt_ufrag_index t)
}.
Definition at_pos (t : sfu_routing_table) (p : Z) (e : sfu_routing_entry) : Prop := 0 <= p < rt_count t /\ rt_entries t !! Z.to_nat p = Some e.
(** The first [c] entries are indexed; no two entries share a fragment. *)
Definition indexed_to (t : sfu_routing_table) (c : Z) : Prop := forall p e, at_pos t p e -> p < c -> rt_holds t (re_ufrag e) p.
Definition distinct_routes (t : sfu_routing_table) : Prop := forall p q e e', at_pos t p e -> at_pos t q e' -> re_ufrag e = re_ufrag e' -> p = q.

Lemma key_at_pos t p u : route_key t p = Some u <-> exists e, at_pos t p e /\ re_ufrag e = u.
Proof.
  unfold route_key, at_pos. destruct (Z.leb_spec 0 p), (Z.ltb_spec p (rt_count t)); cbn [andb].
  2-4: split; [done|intros (? & (? & _) & _); lia].
  destruct (rt_entries t !! Z.to_nat p) as [e|] eqn:E; cbn.
  - split; [intros [= <-]; exists e; split_and!; done || lia|]. intros (e' & (_ & [= <-]) & <-). done.
  - split; [done|]. by intros (? & (_ & ?) & _).
Qed.
Lemma pos_exists t p : rt_ok t -> 0 <= p < SFU_MAX_UFRAG_MAPPINGS -> exists e, rt_entries t !! Z.to_nat p = Some e.
Proof. intros Ht Hp. apply lookup_lt_is_Some_2. pose proof (ro_entries _ Ht). unfold zlen in *. lia. Qed.
Lemma holds_at t u p : rt_holds t u p -> exists e, at_pos t p e /\ re_ufrag e = u.
Proof. intros (i & s & _ & _ & _ & Hk). by apply key_at_pos. Qed.
Lemma small_live t p : rt_ok t -> 0 <= p < SFU_MAX_UFRAG_MAPPINGS -> 0 <= p < SFU_HASH_DELETED.
Proof. unfold SFU_MAX_UFRAG_MAPPINGS, SFU_HASH_DELETED. lia. Qed.

(** ** Probes *)

Lemma held_key t i s : rt_ok t -> rt_ufrag_index t !! i = Some s -> live s -> exists k, route_key t (hs_index s) = Some k /\ rt_holds t k (hs_index s).
Proof.
  intros Ht Hs Hl. destruct (ix_slots _ _ _ _ (ro_index _ Ht) _ _ Hs) as [E|[E|(_ & k & Hk & _)]]; [unfold live, SFU_HASH_EMPTY, SFU_HASH_DELETED in *; lia..|]. exists k. split; [done|]. by exists i, s.
Qed.
Lemma probe_scan t u : rt_ok t -> exists r,
  scan (Z.to_nat SLOTS) (rt_ufrag_index t) SLOTS (fnv1a u) 0 (routing_matches t u) None = Ok r /\
  ((exists i s, r = ScanHit (Z.of_nat i) /\ rt_ufrag_index t !! i = Some s /\ live s /\ route_key t (hs_index s) = Some u) \/
   (forall p, ~ rt_holds t u p) /\ (exists j, insert_of r = Some j /\ 0 <= j < SLOTS /\ free_at SLOTS fnv1a (index_view (route_key t) (rt_ufrag_index t)) u j) /\
   match r with ScanEmpty i _ => exists s, rt_ufrag_index t !! Z.to_nat i = Some s /\ hs_index s = SFU_HASH_EMPTY | ScanHit _ => False | ScanEnd _ => True end).
Proof.
  intros Ht. apply (scan_cases 16 fnv1a bits16 (route_key t) (rt_ufrag_index t) u (routing_matches t u) (rt_count t) (ro_index _ Ht) (fnv1a_u32 u)).
  - pose proof (ro_count _ Ht). unfold SFU_MAX_UFRAG_MAPPINGS in *. lia.
  - intros k p Hh. by apply holds_at in Hh as (e & [Hp _] & _).
  - intros j s Hs Hl _. destruct (held_key t j s Ht Hs Hl) as (k & Hk & _). rewrite Hk. apply key_at_pos in Hk as (e & (Hp & He) & <-). unfold routing_matches, entry_at.
    rewrite (proj2 (Z.ltb_lt _ _)) by lia. rewrite He. cbn [res_bind]. f_equal. apply bool_decide_ext. split; [by intros ->|by intros [= ->]].
Qed.
Lemma probe_hit t u p b : rt_ok t -> rt_holds t u p ->
  exists i s, routing_probe t u (fnv1a u) b = Ok (Some (Z.of_nat i)) /\ rt_ufrag_index t !! i = Some s /\ live s /\ hs_index s = p /\ route_key t p = Some u.
Proof.
  intros Ht Hh. destruct (probe_scan t u Ht) as (r & Er & [(i & s & -> & Hs & Hl & Hk)|(Hno & _)]); [|by destruct (Hno p)]. exists i, s. unfold routing_probe. rewrite Er. cbn [res_bind].
  assert (hs_index s = p) as <- by (eapply (holds_fun 16 fnv1a bits16); [apply Ht|by exists i, s|done]). done.
Qed.
Lemma probe_miss t u : rt_ok t -> (forall p, ~ rt_holds t u p) ->
  exists r, routing_probe t u (fnv1a u) false = Ok r /\ match r with None => True | Some i => exists s, rt_ufrag_index t !! Z.to_nat i = Some s /\ hs_index s = SFU_HASH_EMPTY end.
Proof.
  intros Ht Hno. destruct (probe_scan t u Ht) as (r & Er & [(i & s & -> & Hs & Hl & Hk)|(_ & _ & Hr)]); [destruct (Hno (hs_index s)); by exists i, s|].
  unfold routing_probe. rewrite Er. cbn [res_bind]. eexists. split; [done|]. by destruct r.
Qed.
Lemma probe_free t u : rt_ok t -> (forall p, ~ rt_holds t u p) ->
  exists i s, routing_probe t u (fnv1a u) true = Ok (Some i) /\ 0 <= i < SLOTS /\ rt_ufrag_index t !! Z.to_nat i = Some s /\ free_at SLOTS fnv1a (index_view (route_key t) (rt_ufrag_index t)) u i /\
    ~ live s.
Proof.
  intros Ht Hno. destruct (probe_scan t u Ht) as (r & Er & [(i & s & -> & Hs & Hl & Hk)|(_ & (i & Hi & Hb & Hf) & Hr)]); [destruct (Hno (hs_index s)); by exists i, s|].
  destruct (index_lookup 16 fnv1a bits16 _ _ _ (ro_index _ Ht) Hb) as (s & Hs & _). exists i, s. unfold routing_probe. rewrite Er. cbn [res_bind]. split; [f_equal; by destruct r|]. split; [done|]. split; [done|]. split; [done|].
  eapply (set_free_slot 16 fnv1a bits16); [apply Ht|exact Hf|exact Hs].
Qed.
Lemma classic_holds t u : rt_ok t -> (exists p, rt_holds t u p) \/ forall p, ~ rt_holds t u p.
Proof. intros Ht. destruct (probe_scan t u Ht) as (r & _ & [(i & s & _ & Hs & Hl & Hk)|(Hno & _)]); [left; exists (hs_index s); by exists i, s|by right]. Qed.
Lemma find_entry_spec t u : rt_ok t ->
  (exists p, find_entry_locked t u = Ok (Some p) /\ rt_holds t u p) \/ find_entry_locked t u = Ok None /\ forall p, ~ rt_holds t u p.
Proof.
  intros Ht. unfold find_entry_locked. destruct (classic_holds t u Ht) as [[p Hh]|Hno].
  - left. exists p. split; [|done]. destruct (probe_hit t u p false Ht Hh) as (i & s & -> & Hs & Hl & <- & Hk). cbn [res_bind]. unfold slot_at. rewrite Nat2Z.id, Hs. cbn [res_bind].
    apply key_at_pos in Hk as (e & [Hp _] & _). by rewrite (proj2 (Z.ltb_lt _ _)) by lia.
  - right. split; [|done]. destruct (probe_miss t u Ht Hno) as ([i|] & -> & Hr); cbn [res_bind]; [|done]. destruct Hr as (s & Hs & E). unfold slot_at. rewrite Hs. cbn [res_bind]. rewrite E.
    pose proof (ro_count _ Ht). unfold SFU_HASH_EMPTY, SFU_MAX_UFRAG_MAPPINGS in *. by rewrite (proj2 (Z.ltb_ge _ _)) by lia.
Qed.

(** ** Changes of the index *)

Lemma is_tomb_live s : live s -> is_tomb s = 0.
Proof. unfold live, is_tomb, SFU_HASH_DELETED. intros H. by rewrite (proj2 (Z.eqb_neq _ _)) by lia. Qed.
Lemma tombstones_nonneg idx : 0 <= tombstones idx <= zlen idx.
Proof. unfold tombstones. split; [apply zlen_nonneg|]. unfold zlen. pose proof (length_filter (fun s : sfu_hash_slot => hs_index s = SFU_HASH_DELETED) idx). lia. Qed.
Lemma no_tombstones idx : (forall i s, idx !! i = Some s -> hs_index s = SFU_HASH_EMPTY) -> tombstones idx = 0.
Proof.
  rewrite tombstones_sum. induction idx as [|s idx IH]; intros H; [done|]. cbn [fold_right]. rewrite IH by (intros i s' Hs; apply (H (S i) s' Hs)). unfold is_tomb. by rewrite (H O s eq_refl).
Qed.
Lemma is_tomb_bounds s : 0 <= is_tomb s <= 1.
Proof. unfold is_tomb. destruct (_ =? _); lia. Qed.
(** An entry is indexed: the slot, the positions the index holds afterwards
    and the tombstones it may reuse. *)
Lemma index_entry_spec t p e key' : rt_ok t -> rt_entries t !! Z.to_nat p = Some e -> 0 <= p < SFU_MAX_UFRAG_MAPPINGS -> (forall q, ~ rt_holds t (re_ufrag e) q) ->
  key' p = Some (re_ufrag e) -> agrees (route_key t) key' (rt_ufrag_index t) ->
  exists t', index_entry_locked t p = Ok (true, t') /\ rt_entries t' = rt_entries t /\ rt_count t' = rt_count t /\ index_ok 16 fnv1a key' (rt_ufrag_index t') /\
    (forall k q, holds key' (rt_ufrag_index t') k q <-> k = re_ufrag e /\ q = p \/ rt_holds t k q) /\
    rt_deleted_slots t' = tombstones (rt_ufrag_index t') /\ tombstones (rt_ufrag_index t') <= tombstones (rt_ufrag_index t).
Proof.
  intros Ht He Hp Hno Hk Ha. unfold index_entry_locked, entry_at. rewrite He. cbn [res_bind]. destruct (probe_free t (re_ufrag e) Ht Hno) as (i & s & -> & Hi & Hs & Hf & Hl).
  cbn [res_bind]. unfold slot_at. rewrite Hs. cbn [res_bind]. pose proof (ro_index _ Ht) as Hix. pose proof (small_live t p Ht Hp) as Hp'.
  pose proof (tombstones_set _ _ _ (mk_hash_slot (fnv1a (re_ufrag e)) p) Hs) as Htomb. rewrite (is_tomb_live (mk_hash_slot (fnv1a (re_ufrag e)) p)) in Htomb by done.
  pose proof (tombstones_nonneg (<[Z.to_nat i := mk_hash_slot (fnv1a (re_ufrag e)) p]> (rt_ufrag_index t))). pose proof (ro_deleted _ Ht) as Hd. pose proof (is_tomb_bounds s).
  eexists. split; [reflexivity|]. assert (Hidx : forall c : bool, rt_ufrag_index (set_slot (if c then t <| rt_deleted_slots ::= fun n => n - 1 |> else t) i (mk_hash_slot (fnv1a (re_ufrag e)) p)) =
    <[Z.to_nat i := mk_hash_slot (fnv1a (re_ufrag e)) p]> (rt_ufrag_index t)) by (by intros []). rewrite !Hidx.
  split; [by destruct (_ && _)|]. split; [by destruct (_ && _)|]. split; [by apply (set_ok 16 fnv1a bits16 (route_key t))|].
  split; [intros k q; by apply (set_holds 16 fnv1a bits16 (route_key t))|]. split; [|lia]. rewrite Htomb. unfold is_tomb in *. destruct (hs_index s =? SFU_HASH_DELETED); cbn [andb].
  - rewrite (proj2 (Z.ltb_lt _ _)) by lia. cbn. lia.
  - cbn. lia.
Qed.
Lemma same_key t t' : rt_entries t' = rt_entries t -> rt_count t' = rt_count t -> route_key t' = route_key t.
Proof. intros E1 E2. unfold route_key. by rewrite E1, E2. Qed.
Lemma same_pos t t' p e : rt_entries t' = rt_entries t -> rt_count t' = rt_count t -> at_pos t' p e <-> at_pos t p e.
Proof. intros E1 E2. unfold at_pos. by rewrite E1, E2. Qed.
Lemma rebuild_loop_spec fuel t i : rt_ok t -> distinct_routes t -> (forall u p, rt_holds t u p -> p < i) -> indexed_to t i -> rt_deleted_slots t = 0 -> 0 <= i -> i + Z.of_nat fuel = rt_count t ->
  exists t', rebuild_loop fuel t i = Ok (true, t') /\ rt_entries t' = rt_entries t /\ rt_count t' = rt_count t /\ rt_ok t' /\ indexed_to t' (rt_count t) /\ rt_deleted_slots t' = 0.
Proof.
  revert t i. induction fuel as [|fuel IH]; intros t i Ht Hdis Hlt Hin Hd Hi Hf; cbn [rebuild_loop].
  { exists t. split_and!; try done. by replace (rt_count t) with i by lia. }
  pose proof (ro_count _ Ht) as Hc. destruct (pos_exists t i Ht) as [e He]; [lia|]. assert (Hpos : at_pos t i e) by (split; [lia|done]).
  assert (Hno : forall q, ~ rt_holds t (re_ufrag e) q).
  { intros q Hq. pose proof (Hlt _ _ Hq). destruct (holds_at _ _ _ Hq) as (e' & Hp' & E). pose proof (Hdis _ _ _ _ Hp' Hpos E). lia. }
  destruct (index_entry_spec t i e (route_key t) Ht He ltac:(lia) Hno) as (t1 & -> & E1 & E2 & Hix & Hh & Hd1 & Hle); [apply key_at_pos; by exists e|by intros j s _ _|].
  cbn [res_bind negb]. pose proof (same_key t t1 E1 E2) as Ek. pose proof (tombstones_nonneg (rt_ufrag_index t1)). pose proof (ro_deleted _ Ht).
  destruct (IH t1 (i + 1)) as (t' & -> & E3 & E4 & Ht' & Hin' & Hd').
  - split; [rewrite E1; apply Ht|rewrite E2; apply Ht|by rewrite Ek|done].
  - intros p q a b Hp Hq. rewrite !(same_pos t t1) in * by done. by apply Hdis.
  - intros u p Hp. rewrite Ek in Hp. apply Hh in Hp as [[_ ->]|Hp]; [lia|]. pose proof (Hlt _ _ Hp). lia.
  - intros p a Hp Hpi. rewrite Ek. apply Hh. apply (same_pos t t1) in Hp; [|done|done]. destruct (decide (p = i)) as [->|Hne].
    + left. split; [|done]. destruct Hp as [_ Hp]. rewrite He in Hp. by injection Hp as <-.
    + right. apply Hin; [done|lia].
  - lia.
  - lia.
  - lia.
  - exists t'. split_and!; try congruence. by rewrite <- E2.
Qed.
Lemma rebuild_spec t : rt_ok t -> distinct_routes t ->
  exists t', rebuild_index_locked t = Ok (true, t') /\ rt_entries t' = rt_entries t /\ rt_count t' = rt_count t /\ rt_ok t' /\ indexed_to t' (rt_count t) /\ rt_deleted_slots t' = 0.
Proof.
  intros Ht Hdis. unfold rebuild_index_locked. set (t0 := t <| rt_ufrag_index ::= _ |> <| rt_deleted_slots := 0 |>).
  assert (He : forall i s, rt_ufrag_index t0 !! i = Some s -> hs_index s = SFU_HASH_EMPTY).
  { intros i s Hs. change (rt_ufrag_index t0) with (map (fun s => s <| hs_index := SFU_HASH_EMPTY |>) (rt_ufrag_index t)) in Hs. rewrite list_lookup_fmap in Hs. destruct (rt_ufrag_index t !! i); [|done]. by injection Hs as <-. }
  assert (Hz : zlen (rt_ufrag_index t0) = 2 ^ 16).
  { change (rt_ufrag_index t0) with (map (fun s => s <| hs_index := SFU_HASH_EMPTY |>) (rt_ufrag_index t)). unfold zlen. rewrite length_map. apply (ix_len _ _ _ _ (ro_index _ Ht)). }
  destruct (cleared_ok 16 fnv1a bits16 (route_key t0) (rt_ufrag_index t0) Hz He) as [Hix Hno]. change (rt_count t0) with (rt_count t) at 1.
  apply (rebuild_loop_spec (Z.to_nat (rt_count t)) t0 0).
  - split; [apply Ht|apply Ht|done|]. change (rt_deleted_slots t0) with 0. symmetry. by apply no_tombstones.
  - done.
  - intros u p Hp. by destruct (Hno u p).
  - intros p e [Hp _] Hlt. lia.
  - done.
  - lia.
  - pose proof (ro_count _ Ht). change (rt_count t0) with (rt_count t). lia.
Qed.

Definition rt_inv (t : sfu_routing_table) : Prop := rt_ok t /\ indexed_to t (rt_count t).
Lemma inv_distinct t : rt_inv t -> distinct_routes t.
Proof.
  intros [Ht Hin] p q e e' Hp Hq E. eapply (holds_fun 16 fnv1a bits16); [apply Ht|apply (Hin p e Hp); apply Hp|]. rewrite E. apply (Hin q e' Hq). apply Hq.
Qed.
Lemma remove_index_spec t u p : rt_ok t -> rt_holds t u p ->
  exists t', remove_index_locked t u p = Ok t' /\ rt_entries t' = rt_entries t /\ rt_count t' = rt_count t /\ rt_ok t' /\ rt_deleted_slots t' = rt_deleted_slots t + 1 /\
    forall k q, rt_holds t' k q <-> rt_holds t k q /\ q <> p.
Proof.
  intros Ht Hh. unfold remove_index_locked. destruct (probe_hit t u p false Ht Hh) as (i & s & -> & Hs & Hl & <- & Hk). cbn [res_bind]. unfold slot_at. rewrite Nat2Z.id, Hs. cbn [res_bind].
  rewrite Z.eqb_refl. eexists. split; [reflexivity|]. set (t' := _ <| rt_deleted_slots ::= _ |>). pose proof (ro_index _ Ht) as Hix.
  assert (Ei : rt_ufrag_index t' = <[i := s <| hs_index := SFU_HASH_DELETED |>]> (rt_ufrag_index t)) by (unfold t', set_slot; cbn; by rewrite Nat2Z.id).
  assert (Ek : route_key t' = route_key t) by (by apply same_key). pose proof (delete_ok 16 fnv1a bits16 (route_key t) (rt_ufrag_index t) i s Hix Hs) as Hok.
  pose proof (tombstones_set _ _ _ (s <| hs_index := SFU_HASH_DELETED |>) Hs) as Htomb. rewrite (is_tomb_live s Hl) in Htomb. change (is_tomb (s <| hs_index := SFU_HASH_DELETED |>)) with 1 in Htomb.
  assert (Ed : rt_deleted_slots t' = rt_deleted_slots t + 1).
  { change (rt_deleted_slots t') with (u32 (rt_deleted_slots t + 1)). rewrite (ro_deleted _ Ht). pose proof (tombstones_nonneg (rt_ufrag_index t)). pose proof (ix_len _ _ _ _ Hix) as Hz. apply Z.mod_small. lia. }
  split; [done|]. split; [done|]. split; [split; [apply Ht|apply Ht|by rewrite Ek, Ei|rewrite Ed, Ei, Htomb, (ro_deleted _ Ht); lia]|].
  split; [done|]. intros k q. rewrite Ek, Ei. by apply (delete_holds 16 fnv1a bits16).
Qed.
Lemma update_index_spec t u old new : rt_ok t -> rt_holds t u old ->
  exists i s, update_index_locked t u old new = Ok (true, set_slot t (Z.of_nat i) (s <| hs_index := new |>)) /\ rt_ufrag_index t !! i = Some s /\ live s /\ hs_index s = old /\ route_key t old = Some u.
Proof.
  intros Ht Hh. unfold update_index_locked. destruct (probe_hit t u old false Ht Hh) as (i & s & -> & Hs & Hl & <- & Hk). exists i, s. split; [|done]. cbn [res_bind]. unfold slot_at. rewrite Nat2Z.id, Hs. cbn [res_bind].
  by rewrite Z.eqb_refl.
Qed.
(** The last entry is dropped. *)
Lemma remove_last_spec t p e0 : rt_inv t -> at_pos t p e0 -> p = rt_count t - 1 ->
  exists t', remove_entry_at_locked t p = Ok t' /\ rt_inv t' /\ rt_count t' = rt_count t - 1 /\ rt_deleted_slots t' = rt_deleted_slots t + 1 /\
    forall q e, at_pos t' q e <-> q < rt_count t - 1 /\ (q <> p /\ at_pos t q e \/ q = p /\ at_pos t (rt_count t - 1) e).
Proof.
  intros [Ht Hin] Hp0 Epl0. pose proof Hp0 as [Hp He0]. unfold remove_entry_at_locked, entry_at. rewrite He0. cbn [res_bind]. pose proof (ro_count _ Ht) as Hc. pose proof (ro_entries _ Ht) as Hz.
  destruct (remove_index_spec t (re_ufrag e0) p Ht) as (t1 & -> & E1 & C1 & Ht1 & D1 & Hh1); [apply (Hin p e0 Hp0); lia|]. cbn [res_bind]. remember (rt_count t - 1) as last eqn:El.
  assert (Hlen : (Z.to_nat last < length (rt_entries t))%nat) by (unfold zlen, SFU_MAX_UFRAG_MAPPINGS in *; lia).
  assert (Hlenp : (Z.to_nat p < length (rt_entries t))%nat) by (unfold zlen, SFU_MAX_UFRAG_MAPPINGS in *; lia).
  destruct (Z.eqb_spec p last) as [Epl|]; [|lia].
  cbn [res_bind]. eexists. split; [reflexivity|]. set (t' := set_entry _ _ _). change (rt_count (t1 <| rt_count ::= fun n => n - 1 |>)) with (rt_count t1 - 1) in *.
  assert (C' : rt_count t' = last) by (change (rt_count t') with (rt_count t1 - 1); rewrite C1; lia).
  assert (E' : rt_entries t' = <[Z.to_nat last := zero_route]> (rt_entries t)) by (unfold t', set_entry; cbn; rewrite E1, C1, El; done).
  assert (Hpos : forall q e, at_pos t' q e <-> q < last /\ at_pos t q e).
  { intros q e. unfold at_pos. rewrite C', E', lookup_set by done. split; [intros [Hq [[? _]|[_ H]]]; [exfalso; lia|]; split_and!; done || lia|]. intros [Hq [Hq' H]]. split; [lia|]. right. split; [lia|done]. }
  assert (Ha : agrees (route_key t1) (route_key t') (rt_ufrag_index t1)).
  { intros i s Hs Hl. destruct (held_key t1 i s Ht1 Hs Hl) as (k & Hk & Hh). apply Hh1 in Hh as [_ Hnp]. rewrite Hk. apply key_at_pos in Hk as (e & He & <-). apply key_at_pos. exists e. split; [|done].
    apply Hpos. apply (same_pos t t1) in He; [|done|done]. split; [destruct He; lia|done]. }
  split; [split|split; [lia|split; [done|]]].
  - split; [rewrite E'; unfold zlen in *; by rewrite length_insert|lia|change (rt_ufrag_index t') with (rt_ufrag_index t1); by eapply rekey_ok; [apply bits16|apply Ht1|]|apply Ht1].
  - intros q e Hq _. change (rt_ufrag_index t') with (rt_ufrag_index t1). apply (rekey_holds _ _ _ _ _ Ha). apply Hpos in Hq as [Hq Hq']. apply Hh1. split; [apply Hin; [done|apply Hq']|lia].
  - intros q e. rewrite Hpos. split; [intros [? ?]; split; [done|left; split; [lia|done]]|]. intros [? [[? ?]|[? _]]]; [done|lia].
Qed.
(** Another one is replaced by the last. *)
Lemma remove_inner_spec t p e0 : rt_inv t -> at_pos t p e0 -> p <> rt_count t - 1 ->
  exists t', remove_entry_at_locked t p = Ok t' /\ rt_inv t' /\ rt_count t' = rt_count t - 1 /\ rt_deleted_slots t' = rt_deleted_slots t + 1 /\
    forall q e, at_pos t' q e <-> q < rt_count t - 1 /\ (q <> p /\ at_pos t q e \/ q = p /\ at_pos t (rt_count t - 1) e).
Proof.
  intros [Ht Hin] Hp0 Hne0. pose proof Hp0 as [Hp He0]. unfold remove_entry_at_locked, entry_at. rewrite He0. cbn [res_bind]. pose proof (ro_count _ Ht) as Hc. pose proof (ro_entries _ Ht) as Hz.
  destruct (remove_index_spec t (re_ufrag e0) p Ht) as (t1 & -> & E1 & C1 & Ht1 & D1 & Hh1); [apply (Hin p e0 Hp0); lia|]. cbn [res_bind]. remember (rt_count t - 1) as last eqn:El.
  assert (Hlen : (Z.to_nat last < length (rt_entries t))%nat) by (unfold zlen, SFU_MAX_UFRAG_MAPPINGS in *; lia).
  assert (Hlenp : (Z.to_nat p < length (rt_entries t))%nat) by (unfold zlen, SFU_MAX_UFRAG_MAPPINGS in *; lia).
  destruct (Z.eqb_spec p last) as [|Hne]; [lia|].
  destruct (pos_exists t last Ht) as [m Hm]; [lia|]. rewrite E1, Hm. cbn [res_bind]. assert (Hml : at_pos t last m) by (split; [lia|done]).
  set (t2 := set_entry t1 p m). assert (E2 : rt_entries t2 = <[Z.to_nat p := m]> (rt_entries t)) by (unfold t2, set_entry; cbn; by rewrite E1).
  assert (Hpos2 : forall q e, at_pos t2 q e <-> q = p /\ e = m \/ q <> p /\ at_pos t q e).
  { intros q e. unfold at_pos. rewrite E2, lookup_set by done. change (rt_count t2) with (rt_count t1). rewrite C1. split.
    - intros [Hq [[? ->]|[? H]]]; [left; split; [lia|done]|right]. split; [by intros ->|done].
    - intros [[-> ->]|[? [Hq H]]]; [split; [lia|by left]|]. split; [lia|]. right. split; [lia|done]. }
  assert (Ha2 : agrees (route_key t1) (route_key t2) (rt_ufrag_index t1)).
  { intros i s Hs Hl. destruct (held_key t1 i s Ht1 Hs Hl) as (k & Hk & Hh). apply Hh1 in Hh as [_ Hnp]. rewrite Hk. apply key_at_pos in Hk as (e & He & <-). apply key_at_pos. exists e. split; [|done].
    apply Hpos2. right. split; [done|]. by apply (same_pos t t1) in He. }
  assert (Ht2 : rt_ok t2).
  { split; [rewrite E2; unfold zlen in *; by rewrite length_insert|apply Ht1|change (rt_ufrag_index t2) with (rt_ufrag_index t1); by eapply rekey_ok; [apply bits16|apply Ht1|]|apply Ht1]. }
  assert (Hh2 : forall k q, rt_holds t2 k q <-> rt_holds t k q /\ q <> p) by (intros k q; change (rt_ufrag_index t2) with (rt_ufrag_index t1); rewrite <- Hh1; by apply rekey_holds).
  destruct (update_index_spec t2 (re_ufrag m) last p) as (i & s & -> & Hs & Hl & Hsl & Hk2); [done|apply Hh2; split; [apply Hin; [done|lia]|lia]|]. cbn [res_bind]. eexists. split; [reflexivity|].
  set (t' := set_entry _ _ _). assert (C' : rt_count t' = last) by (change (rt_count t') with (rt_count t1 - 1); rewrite C1; lia).
  assert (E' : rt_entries t' = <[Z.to_nat last := zero_route]> (<[Z.to_nat p := m]> (rt_entries t))) by (unfold t', set_entry; cbn; rewrite E1, C1, El; done).
  assert (Hpos : forall q e, at_pos t' q e <-> q < last /\ (q <> p /\ at_pos t q e \/ q = p /\ at_pos t last e)).
  { intros q e. unfold at_pos at 1. rewrite C', E', lookup_set by (by rewrite length_insert). rewrite lookup_set by done. split.
    - intros [Hq [[? _]|[_ [[? ->]|[? H]]]]]; [lia|split; [lia|right; split; [lia|done]]|]. split; [lia|]. left. split; [by intros ->|]. split; [lia|done].
    - intros [Hq [[? [Hq' H]]|[-> [_ H]]]]; (split; [lia|]; right; split; [lia|]); [right; split; [lia|done]|left; split; [done|congruence]]. }
  assert (Ei : rt_ufrag_index t' = <[i := s <| hs_index := p |>]> (rt_ufrag_index t2)) by (unfold t', set_slot; cbn; by rewrite Nat2Z.id).
  assert (Hkp : route_key t' p = Some (re_ufrag m)) by (apply key_at_pos; exists m; split; [apply Hpos; split; [lia|by right]|done]).
  assert (Hag : forall j s0, rt_ufrag_index t2 !! j = Some s0 -> live s0 -> j <> i -> route_key t' (hs_index s0) = route_key t2 (hs_index s0)).
  { intros j s0 Hj Hl0 Hji. destruct (held_key t2 j s0 Ht2 Hj Hl0) as (k & Hk & Hh). apply Hh2 in Hh as [_ Hnp]. rewrite Hk. apply key_at_pos in Hk as (e & He & <-). apply key_at_pos. exists e. split; [|done].
    apply Hpos. apply Hpos2 in He as [[? _]|[_ He]]; [done|]. split; [|by left]. assert (hs_index s0 <> last); [|destruct He; lia].
    intros E. apply Hji. eapply (holds_pos 16 fnv1a bits16); [apply Ht2|done|done|done|congruence]. }
  assert (Hp' : 0 <= p < SFU_HASH_DELETED) by (apply (small_live t); [done|lia]). rewrite <- Hsl in Hk2.
  split; [split|split; [lia|split; [done|exact Hpos]]].
  - split; [rewrite E'; unfold zlen in *; by rewrite !length_insert|lia|rewrite Ei; by eapply (move_ok 16 fnv1a bits16 (route_key t2)); [apply Ht2|..]|].
    rewrite Ei, (tombstones_set _ _ _ _ Hs), !is_tomb_live by done. change (rt_deleted_slots t') with (rt_deleted_slots t2). rewrite (ro_deleted _ Ht2). lia.
  - intros q e Hq _. rewrite Ei. eapply (move_holds 16 fnv1a bits16 (route_key t2) (route_key t')); try done; [apply Ht2|]. apply Hpos in Hq as [Hq [[Hqp He]|[-> He]]].
    + right. rewrite Hsl. split; [|lia]. apply Hh2. split; [apply Hin; [done|apply He]|done].
    + left. split; [|done]. destruct He as [_ He]. rewrite Hm in He. by injection He as <-.
Qed.
Lemma remove_entry_spec t p e0 : rt_inv t -> at_pos t p e0 ->
  exists t', remove_entry_at_locked t p = Ok t' /\ rt_inv t' /\ rt_count t' = rt_count t - 1 /\ rt_deleted_slots t' = rt_deleted_slots t + 1 /\
    forall q e, at_pos t' q e <-> q < rt_count t - 1 /\ (q <> p /\ at_pos t q e \/ q = p /\ at_pos t (rt_count t - 1) e).
Proof. intros Hi Hp. destruct (decide (p = rt_count t - 1)); [by eapply remove_last_spec|by eapply remove_inner_spec]. Qed.

(** * The table as a map *)

Definition routes (t : sfu_routing_table) : gmap (list Z) sfu_routing_entry :=
  list_to_map ((fun e => (re_ufrag e, e)) <$> take (Z.to_nat (rt_count t)) (rt_entries t)).
(** Between operations there are no more tombstones than routes. *)
Definition rt_good (t : sfu_routing_table) : Prop := rt_inv t /\ rt_deleted_slots t <= rt_count t.

Lemma take_pos t i e : take (Z.to_nat (rt_count t)) (rt_entries t) !! i = Some e <-> at_pos t (Z.of_nat i) e.
Proof. rewrite lookup_take_Some. unfold at_pos. rewrite Nat2Z.id. split; intros [H1 H2]; (split; [lia || done|lia || done]). Qed.
Lemma routes_nodup t : rt_inv t -> NoDup ((fun e => (re_ufrag e, e)) <$> take (Z.to_nat (rt_count t)) (rt_entries t)).*1.
Proof.
  intros Ht. apply NoDup_alt. intros i j u Hi Hj. rewrite <- list_fmap_compose, list_lookup_fmap in Hi, Hj.
  destruct (take _ _ !! i) as [e|] eqn:Ei; [|done]. destruct (take _ _ !! j) as [e'|] eqn:Ej; [|done]. injection Hi as Hi. injection Hj as Hj.
  apply take_pos in Ei. apply take_pos in Ej. apply Nat2Z.inj. eapply inv_distinct; [done|done|done|]. cbn in *. congruence.
Qed.
Lemma routes_lookup t u e : rt_inv t -> routes t !! u = Some e <-> exists p, at_pos t p e /\ re_ufrag e = u.
Proof.
  intros Ht. unfold routes. rewrite <- elem_of_list_to_map by (by apply routes_nodup). rewrite list_elem_of_fmap. split.
  - intros (e' & [= -> ->] & [i Hi]%list_elem_of_lookup). apply take_pos in Hi. by exists (Z.of_nat i).
  - intros (p & Hp & <-). exists e. split; [done|]. apply list_elem_of_lookup. exists (Z.to_nat p). apply take_pos. destruct Hp. by rewrite Z2Nat.id by lia.
Qed.
Lemma routes_size t : rt_inv t -> Z.of_nat (size (routes t)) = rt_count t.
Proof.
  intros Ht. unfold routes. rewrite map_size_list_to_map by (by apply routes_nodup). rewrite length_fmap, length_take. destruct Ht as [Ht _]. pose proof (ro_count _ Ht). pose proof (ro_entries _ Ht).
  unfold zlen in *. lia.
Qed.
(** A table whose positions are those of a map holds that map. *)
Lemma routes_ext t m : rt_inv t -> (forall u e, m !! u = Some e <-> exists p, at_pos t p e /\ re_ufrag e = u) -> routes t = m.
Proof. intros Ht H. apply map_eq. intros u. apply option_eq. intros e. by rewrite routes_lookup, H. Qed.
Lemma routes_holds t u p : rt_inv t -> rt_holds t u p <-> exists e, at_pos t p e /\ re_ufrag e = u.
Proof. intros [Ht Hin]. split; [apply holds_at|]. intros (e & He & <-). apply Hin; [done|apply He]. Qed.
Lemma find_route t u : rt_inv t ->
  match routes t !! u with
  | Some e => exists p, find_entry_locked t u = Ok (Some p) /\ at_pos t p e /\ re_ufrag e = u
  | None => find_entry_locked t u = Ok None /\ forall p, ~ rt_holds t u p
  end.
Proof.
  intros Hi. destruct (find_entry_spec t u (proj1 Hi)) as [(p & Hf & Hh)|[Hf Hno]].
  - apply routes_holds in Hh as (e & He & <-); [|done]. assert (routes t !! re_ufrag e = Some e) as -> by (apply routes_lookup; [done|by exists p]). by exists p.
  - destruct (routes t !! u) as [e|] eqn:E; [|done]. apply routes_lookup in E as (p & He & <-); [|done]. destruct (Hno p). apply routes_holds; [done|]. by exists e.
Qed.
(** ** One entry changes *)
Lemma set_entry_spec t p e e' : rt_good t -> at_pos t p e -> re_ufrag e' = re_ufrag e -> rt_good (set_entry t p e') /\ routes (set_entry t p e') = <[re_ufrag e := e']> (routes t).
Proof.
  intros [[Ht Hin] Hd] Hp Eu. pose proof Hp as [Hp1 Hp2]. assert (Hlt : (Z.to_nat p < length (rt_entries t))%nat) by (by eapply lookup_lt_Some).
  assert (Hpos : forall q a, at_pos (set_entry t p e') q a <-> q = p /\ a = e' \/ q <> p /\ at_pos t q a).
  { intros q a. unfold at_pos. change (rt_entries (set_entry t p e')) with (<[Z.to_nat p := e']> (rt_entries t)). change (rt_count (set_entry t p e')) with (rt_count t). rewrite lookup_set by done. split.
    - intros [Hq [[? ->]|[? H]]]; [left; split; [lia|done]|right]. split; [by intros ->|done].
    - intros [[-> ->]|[? [Hq H]]]; [split; [lia|by left]|]. split; [lia|]. right. split; [lia|done]. }
  assert (Hk : agrees (route_key t) (route_key (set_entry t p e')) (rt_ufrag_index t)).
  { intros j s _ _. generalize (hs_index s). clear j s. intros q. unfold route_key. change (rt_count (set_entry t p e')) with (rt_count t). change (rt_entries (set_entry t p e')) with (<[Z.to_nat p := e']> (rt_entries t)).
    destruct (Z.leb_spec 0 q), (q <? rt_count t); try done. cbn [andb]. destruct (decide (q = p)) as [->|]; [rewrite list_lookup_insert_eq, Hp2 by done; cbn; by rewrite Eu|].
    by rewrite list_lookup_insert_ne by lia. }
  assert (Hinv : rt_inv (set_entry t p e')).
  { split.
    - split; [|apply Ht|by eapply rekey_ok; [apply bits16|apply Ht|]|apply Ht]. change (rt_entries (set_entry t p e')) with (<[Z.to_nat p := e']> (rt_entries t)). unfold zlen. rewrite length_insert. apply Ht.
    - intros q a Hq _. change (rt_ufrag_index (set_entry t p e')) with (rt_ufrag_index t). apply (rekey_holds _ _ _ _ _ Hk). apply Hpos in Hq as [[-> ->]|[_ Hq]]; [rewrite Eu; apply Hin; [done|lia]|apply Hin; [done|apply Hq]]. }
  split; [by split|]. apply routes_ext; [done|]. intros u a. split.
  - destruct (decide (u = re_ufrag e)) as [->|Hne]; [rewrite lookup_insert_eq; intros [= <-]; exists p; split; [apply Hpos; by left|done]|]. rewrite lookup_insert_ne by done.
    intros (q & Hq & <-)%routes_lookup; [|by split]. exists q. split; [|done]. apply Hpos. right. split; [|done]. intros ->. apply Hne. destruct Hq as [_ Hq]. congruence.
  - intros (q & Hq & <-). apply Hpos in Hq as [[-> ->]|[Hqp Hq]]; [by rewrite Eu, lookup_insert_eq|]. rewrite lookup_insert_ne; [apply routes_lookup; [by split|by exists q]|].
    intros E. apply Hqp. by eapply (inv_distinct t (conj Ht Hin)).
Qed.
(** ** Routes come and go *)
Lemma sparse_spec t : rt_inv t -> exists t', rebuild_if_sparse t = Ok (true, t') /\ rt_good t' /\ rt_count t' = rt_count t /\ (forall p e, at_pos t' p e <-> at_pos t p e) /\ routes t' = routes t.
Proof.
  intros Ht. unfold rebuild_if_sparse. destruct (Z.ltb_spec (rt_count t) (rt_deleted_slots t)); [|exists t; split_and!; done].
  destruct (rebuild_spec t (proj1 Ht) (inv_distinct t Ht)) as (t' & -> & E & C & Ht' & Hin & Hd). exists t'. split; [done|]. pose proof (ro_count _ Ht').
  split; [split; [split; [done|by rewrite C]|lia]|]. split; [done|]. split; [intros p e; by apply same_pos|]. unfold routes. by rewrite E, C.
Qed.
Definition fresh_route (u : list Z) (room fd : Z) : sfu_routing_entry := zero_route <| re_ufrag := u |> <| re_room := room |> <| re_fd := fd |>.
Lemma new_route_spec t u room fd : rt_good t -> (forall p, ~ rt_holds t u p) ->
  if SFU_MAX_UFRAG_MAPPINGS <=? rt_count t then new_route t u room fd = Ok (false, 0, t)
  else exists t', new_route t u room fd = Ok (true, rt_count t, t') /\ rt_good t' /\ at_pos t' (rt_count t) (fresh_route u room fd) /\ routes t' = <[u := fresh_route u room fd]> (routes t).
Proof.
  intros [Hi Hd] Hno. unfold new_route. destruct (Z.leb_spec SFU_MAX_UFRAG_MAPPINGS (rt_count t)) as [|Hlt]; [done|]. unfold rebuild_if_sparse. rewrite (proj2 (Z.ltb_ge _ _)) by lia.
  cbn [res_bind negb]. pose proof Hi as [Ht Hin]. pose proof (ro_count _ Ht) as Hc. destruct (pos_exists t (rt_count t) Ht) as [e0 He0]; [lia|]. unfold entry_at. rewrite He0. cbn [res_bind].
  fold (fresh_route u room fd). set (t1 := set_entry t (rt_count t) (fresh_route u room fd)). assert (Hlen : (Z.to_nat (rt_count t) < length (rt_entries t))%nat) by (by eapply lookup_lt_Some).
  assert (Hl1 : forall q e, rt_entries t1 !! Z.to_nat q = Some e <-> Z.to_nat q = Z.to_nat (rt_count t) /\ e = fresh_route u room fd \/ Z.to_nat q <> Z.to_nat (rt_count t) /\ rt_entries t !! Z.to_nat q = Some e)
    by (intros q e; by apply lookup_set).
  assert (Hp1 : forall q e, at_pos t1 q e <-> at_pos t q e).
  { intros q e. unfold at_pos. change (rt_count t1) with (rt_count t). rewrite Hl1. split; [intros [? [[? _]|[_ ?]]]; [lia|done]|]. intros [? ?]. split; [done|]. right. split; [lia|done]. }
  assert (Hk1 : forall q, route_key t1 q = route_key t q) by (intros q; apply option_eq; intros k; rewrite !key_at_pos; by setoid_rewrite Hp1).
  assert (Ht1 : rt_ok t1).
  { split; [|apply Ht|eapply rekey_ok; [apply bits16|apply Ht|intros j s _ _; apply Hk1]|apply Ht]. change (rt_entries t1) with (<[Z.to_nat (rt_count t) := fresh_route u room fd]> (rt_entries t)). unfold zlen. rewrite length_insert. apply Ht. }
  assert (Hh1 : forall k q, rt_holds t1 k q <-> rt_holds t k q) by (intros k q; apply rekey_holds; intros j s _ _; apply Hk1).
  set (key' q := if q =? rt_count t then Some u else route_key t q).
  destruct (index_entry_spec t1 (rt_count t) (fresh_route u room fd) key' Ht1) as (t2 & -> & E2 & C2 & Hix & Hh2 & D2 & Hle); [apply Hl1; by left|lia|intros q Hq; apply Hh1 in Hq; by apply (Hno q)|unfold key'; by rewrite Z.eqb_refl| |].
  { intros j s Hs Hl. rewrite Hk1. destruct (held_key t1 j s Ht1 Hs Hl) as (k & Hk & _). rewrite Hk1 in Hk. unfold key'. destruct (Z.eqb_spec (hs_index s) (rt_count t)) as [E|]; [|done].
    apply key_at_pos in Hk as (e & [? _] & _). lia. }
  cbn [res_bind negb]. eexists. split; [reflexivity|]. set (t' := _ <| rt_count ::= _ |>). assert (C' : rt_count t' = rt_count t + 1) by (change (rt_count t') with (rt_count t2 + 1); by rewrite C2).
  assert (Hpos : forall q e, at_pos t' q e <-> q = rt_count t /\ e = fresh_route u room fd \/ at_pos t q e).
  { intros q e. unfold at_pos at 1. rewrite C'. change (rt_entries t') with (rt_entries t2). rewrite E2, Hl1. split.
    - intros [Hq [[? ->]|[? H]]]; [left; split; [lia|done]|right]. split; [lia|done].
    - intros [[-> ->]|[Hq H]]; [split; [lia|by left]|]. split; [lia|]. right. split; [lia|done]. }
  assert (Hk' : forall q, route_key t' q = key' q).
  { intros q. apply option_eq. intros k. rewrite key_at_pos. unfold key'. setoid_rewrite Hpos. destruct (Z.eqb_spec q (rt_count t)) as [->|Hne].
    - split; [intros (e & [[_ ->]|[? _]] & <-); [done|lia]|]. intros [= <-]. exists (fresh_route u room fd). split; [by left|done].
    - rewrite key_at_pos. split; intros (e & He & <-); exists e; (split; [|done]); [destruct He as [[? _]|He]; done|by right]. }
  assert (Hinv : rt_inv t').
  { split.
    - split; [change (rt_entries t') with (rt_entries t2); rewrite E2; apply Ht1|lia|eapply rekey_ok; [apply bits16|exact Hix|intros j s _ _; apply Hk']|exact D2].
    - intros q e Hq _. apply (rekey_holds key'); [intros j s _ _; apply Hk'|]. change (rt_ufrag_index t') with (rt_ufrag_index t2). apply Hh2. apply Hpos in Hq as [[-> ->]|Hq]; [by left|].
      right. apply Hh1. apply Hin; [done|apply Hq]. }
  split; [split; [done|]|].
  { rewrite C'. change (rt_deleted_slots t') with (rt_deleted_slots t2). rewrite D2. pose proof (ro_deleted _ Ht) as Hdt. change (rt_ufrag_index t1) with (rt_ufrag_index t) in Hle. lia. }
  split; [apply Hpos; by left|]. apply routes_ext; [done|]. intros k e. setoid_rewrite Hpos. destruct (decide (k = u)) as [->|Hne].
  - rewrite lookup_insert_eq. split; [intros [= <-]; exists (rt_count t); split; [by left|done]|]. intros (q & [[_ ->]|Hq] & E); [done|]. destruct (Hno q). apply (routes_holds t); [done|]. by exists e.
  - rewrite lookup_insert_ne, routes_lookup by done. split; intros (q & Hq & <-); exists q; (split; [|done]); [by right|]. by destruct Hq as [[_ ->]|Hq].
Qed.
Lemma remove_routes t p e : rt_inv t -> at_pos t p e ->
  exists t', remove_entry_at_locked t p = Ok t' /\ rt_inv t' /\ rt_count t' = rt_count t - 1 /\ routes t' = delete (re_ufrag e) (routes t) /\
    forall q a, q < p -> at_pos t' q a <-> at_pos t q a.
Proof.
  intros Hi Hp. destruct (remove_entry_spec t p e Hi Hp) as (t' & E & Hi' & C & _ & Hpos). exists t'. split; [done|]. split; [done|]. split; [done|].
  assert (Hpc : p < rt_count t) by (by destruct Hp as [[]]). split.
  - apply routes_ext; [done|]. intros u a. rewrite lookup_delete_Some, routes_lookup by done. setoid_rewrite Hpos. split.
    + intros (Hne & q & Hq & <-). destruct (decide (q = rt_count t - 1)) as [->|Hql].
      * exists p. split; [|done]. assert (p <> rt_count t - 1); [|split; [lia|by right]]. intros ->. apply Hne. destruct Hp as [_ Hp], Hq as [_ Hq]. congruence.
      * exists q. split; [|done]. split; [destruct Hq; lia|]. left. split; [|done]. intros ->. apply Hne. destruct Hp as [_ Hp], Hq as [_ Hq]. congruence.
    + intros (q & (Hlt & Hq) & <-). assert (Hat : exists q', q' <> p /\ at_pos t q' a) by (destruct Hq as [[? Hq]|[-> Hq]]; [by exists q|exists (rt_count t - 1); split; [lia|done]]).
      destruct Hat as (q' & Hne & Hq'). split; [|by exists q']. intros Eu. apply Hne. by eapply (inv_distinct t Hi q' p a e).
  - intros q a Hq. rewrite Hpos. split; [intros (_ & [[_ ?]|[? _]]); [done|lia]|]. intros Ha. split; [lia|]. left. split; [lia|done].
Qed.
Definition without_fd (fd : Z) (m : gmap (list Z) sfu_routing_entry) : gmap (list Z) sfu_routing_entry := filter (fun kv => re_fd kv.2 <> fd) m.
Lemma unregister_loop_spec fuel t fd i : rt_inv t -> 0 <= i -> rt_count t - i <= Z.of_nat fuel -> (forall q e, q < i -> at_pos t q e -> re_fd e <> fd) ->
  exists t', unregister_loop fuel t fd i = Ok t' /\ rt_inv t' /\ routes t' = without_fd fd (routes t).
Proof.
  revert t i. induction fuel as [|fuel IH]; intros t i Hi H0 Hf Hpre; cbn [unregister_loop]; destruct (Z.ltb_spec i (rt_count t)) as [Hlt|Hge]; [lia| | |].
  1,3: exists t; split; [done|]; split; [done|]; symmetry; apply map_filter_id; intros u e (q & Hq & _)%routes_lookup; [|done]; apply (Hpre q e); [destruct Hq; lia|done].
  destruct (pos_exists t i (proj1 Hi)) as [e He]; [pose proof (ro_count _ (proj1 Hi)); lia|]. assert (Hp : at_pos t i e) by (split; [lia|done]). unfold entry_at. rewrite He. cbn [res_bind].
  destruct (Z.eqb_spec (re_fd e) fd) as [Efd|Hne].
  - destruct (remove_routes t i e Hi Hp) as (t1 & -> & Hi1 & C1 & R1 & Hp1). cbn [res_bind]. destruct (IH t1 i Hi1 H0) as (t' & -> & Hi' & R'); [lia|intros q a Hq Ha; apply (Hpre q a Hq); by apply Hp1|].
    exists t'. split; [done|]. split; [done|]. rewrite R', R1. unfold without_fd. rewrite map_filter_delete. apply delete_id. apply map_lookup_filter_None. right.
    intros a (q & Hq & E)%routes_lookup; [|done]. cbn. rewrite (inv_distinct t Hi q i a e Hq Hp E) in Hq. destruct Hq as [_ Hq]. intros Hn. apply Hn. congruence.
  - destruct (IH t (i + 1) Hi) as (t' & -> & Hi' & R'); [lia|lia| |by exists t']. intros q a Hq Ha. destruct (decide (q = i)) as [->|]; [|apply (Hpre q a); [lia|done]].
    destruct Ha as [_ Ha]. congruence.
Qed.
Lemma unregister_spec t fd : rt_good t -> exists t', sfu_routing_table_unregister_fd t fd = Ok t' /\ rt_good t' /\ routes t' = without_fd fd (routes t).
Proof.
  intros [Hi _]. unfold sfu_routing_table_unregister_fd. pose proof (ro_count _ (proj1 Hi)).
  destruct (unregister_loop_spec (Z.to_nat (rt_count t)) t fd 0 Hi ltac:(lia) ltac:(lia)) as (t1 & -> & Hi1 & R1); [intros q e Hq [Hq' _]; lia|]. cbn [res_bind].
  destruct (sparse_spec t1 Hi1) as (t2 & -> & Hg & _ & _ & R2). cbn [res_bind]. exists t2. split; [done|]. split; [done|]. congruence.
Qed.
Lemma init_good : rt_good sfu_routing_table_init /\ routes sfu_routing_table_init = ∅.
Proof.
  assert (Hi : rt_inv sfu_routing_table_init).
  { split; [|intros p e [? _]; change (rt_count sfu_routing_table_init) with 0 in *; lia]. split; [change (rt_entries sfu_routing_table_init) with (replicate (Z.to_nat SFU_MAX_UFRAG_MAPPINGS) zero_route); by rewrite zlen_replicate|done| |].
    - apply (cleared_ok 16 fnv1a bits16).
      + change (rt_ufrag_index sfu_routing_table_init) with (replicate (Z.to_nat SLOTS) (mk_hash_slot 0 SFU_HASH_EMPTY)). by rewrite zlen_replicate.
      + change (rt_ufrag_index sfu_routing_table_init) with (replicate (Z.to_nat SLOTS) (mk_hash_slot 0 SFU_HASH_EMPTY)). intros i s [-> _]%lookup_replicate. done.
    - symmetry. apply no_tombstones. change (rt_ufrag_index sfu_routing_table_init) with (replicate (Z.to_nat SLOTS) (mk_hash_slot 0 SFU_HASH_EMPTY)). intros i s [-> _]%lookup_replicate. done. }
  split; [by split|]. apply routes_ext; [done|]. intros u e. rewrite lookup_empty. split; [done|]. intros (p & [? _] & _). change (rt_count sfu_routing_table_init) with 0 in *. lia.
Qed.

(** * The contract *)

Inductive route_op :=
| RoPrepare (u : list Z) (room fd : Z) (answer : sfu_pending_answer)
| RoCommit (r : sfu_routing_answer_reservation)
| RoCancel (r : sfu_routing_answer_reservation)
| RoLookup (u : list Z) (worker : Z)
| RoPeek (u : list Z)
| RoInvalidate (u : list Z) (room fd : Z)
| RoUnregister (fd : Z).
Inductive route_out :=
| RoPrepared (result : sfu_routing_register_result) (r : sfu_routing_answer_reservation)
| RoGeneration (g : option Z)
| RoSnapshot (s : option sfu_routing_snapshot)
| RoDone.
Definition route_run (t : sfu_routing_table) (op : route_op) : res (route_out * sfu_routing_table) :=
  match op with
  | RoPrepare u room fd answer => let! (result, t, r) := sfu_routing_table_prepare_answer t u room fd answer in Ok (RoPrepared result r, t)
  | RoCommit r => let! (g, t, _) := sfu_routing_table_commit_answer t r in Ok (RoGeneration g, t)
  | RoCancel r => let! (t, _) := sfu_routing_table_cancel_answer t r in Ok (RoDone, t)
  | RoLookup u worker => let! (s, t) := sfu_routing_table_lookup_route t u worker in Ok (RoSnapshot s, t)
  | RoPeek u => let! s := sfu_routing_table_peek_route t u in Ok (RoSnapshot s, t)
  | RoInvalidate u room fd => let! (g, t) := sfu_routing_table_invalidate_pending t u room fd in Ok (RoGeneration g, t)
  | RoUnregister fd => let! t := sfu_routing_table_unregister_fd t fd in Ok (RoDone, t)
  end.

(** What a map from fragments to routes does. *)
Abbreviation route_map := (gmap (list Z) sfu_routing_entry).
Definition owned (e : sfu_routing_entry) (room fd : Z) : Prop := re_room e = room /\ re_fd e = fd.
Definition bad_argument (u : list Z) (fd : Z) : Prop := fd < 0 \/ zlen u = 0 \/ 32 <= zlen u.
(** A reservation for [u] whose answer will have generation [g]. *)
Definition reserved (r : sfu_routing_answer_reservation) (u : list Z) (room fd : Z) (answer : sfu_pending_answer) (g : Z) (new : bool) : Prop :=
  ra_ufrag r = u /\ ra_room r = room /\ ra_fd r = fd /\ ra_answer r = answer /\ ra_generation r = g /\ ra_new_entry r = new /\ ra_active r = true.
Definition publish (e : sfu_routing_entry) (r : sfu_routing_answer_reservation) : sfu_routing_entry :=
  e <| re_room := ra_room r |> <| re_fd := ra_fd r |> <| re_pending_answer := published_answer e (ra_answer r) (ra_generation r) |>.
Definition adopt (e : sfu_routing_entry) (worker : Z) : sfu_routing_entry := e <| re_worker_index := worker |> <| re_has_owner := true |>.
Definition invalidate (e : sfu_routing_entry) : sfu_routing_entry :=
  e <| re_pending_answer := (re_pending_answer e) <| pa_generation := next_generation (pa_generation (re_pending_answer e)) |> <| pa_valid := false |> |>.
Definition map_prepare (m : route_map) (u : list Z) (room fd : Z) (answer : sfu_pending_answer) (result : sfu_routing_register_result) (r : sfu_routing_answer_reservation) (m' : route_map) : Prop :=
  match result with
  | SFU_ROUTING_REGISTER_INVALID_ARGUMENT => bad_argument u fd /\ m' = m
  | SFU_ROUTING_REGISTER_OWNERSHIP_CONFLICT => ~ bad_argument u fd /\ (exists e, m !! u = Some e /\ ~ owned e room fd) /\ m' = m
  | SFU_ROUTING_REGISTER_TABLE_FULL => ~ bad_argument u fd /\ m !! u = None /\ Z.of_nat (size m) = SFU_MAX_UFRAG_MAPPINGS /\ m' = m
  | SFU_ROUTING_REGISTER_OK => ~ bad_argument u fd /\
      match m !! u with
      | Some e => owned e room fd /\ m' = m /\ reserved r u room fd answer (next_generation (pa_generation (re_pending_answer e))) false
      | None => Z.of_nat (size m) < SFU_MAX_UFRAG_MAPPINGS /\ m' = <[u := fresh_route u room fd]> m /\ reserved r u room fd answer 1 true
      end
  end.
Definition map_step (m : route_map) (op : route_op) (out : route_out) (m' : route_map) : Prop :=
  match op, out with
  | RoPrepare u room fd answer, RoPrepared result r => map_prepare m u room fd answer result r m'
  | RoCommit r, RoGeneration g =>
      match g with
      | Some g => g = ra_generation r /\ ra_active r = true /\ exists e, m !! ra_ufrag r = Some e /\ owned e (ra_room r) (ra_fd r) /\ m' = <[ra_ufrag r := publish e r]> m
      | None => m' = m
      end
  | RoCancel r, RoDone => m' = m \/ ra_active r = true /\ ra_new_entry r = true /\
      exists e, m !! ra_ufrag r = Some e /\ owned e (ra_room r) (ra_fd r) /\ pa_valid (re_pending_answer e) = false /\ m' = delete (ra_ufrag r) m
  | RoLookup u worker, RoSnapshot s =>
      match m !! u with Some e => s = Some (snapshot_of (adopt e worker)) /\ m' = <[u := adopt e worker]> m | None => s = None /\ m' = m end
  | RoPeek u, RoSnapshot s => s = snapshot_of <$> m !! u /\ m' = m
  | RoInvalidate u room fd, RoGeneration g =>
      match g with
      | Some g => exists e, m !! u = Some e /\ owned e room fd /\ 0 <= fd /\ g = next_generation (pa_generation (re_pending_answer e)) /\ m' = <[u := invalidate e]> m
      | None => (fd < 0 \/ forall e, m !! u = Some e -> ~ owned e room fd) /\ m' = m
      end
  | RoUnregister fd, RoDone => m' = without_fd fd m
  | _, _ => False
  end.

(** ** Each operation meets it *)
Definition meets (t : sfu_routing_table) (op : route_op) : Prop :=
  exists out t', route_run t op = Ok (out, t') /\ rt_good t' /\ map_step (routes t) op out (routes t').
Lemma entry_pos t p e : at_pos t p e -> entry_at t p = Ok e.
Proof. intros [_ H]. unfold entry_at. by rewrite H. Qed.
Lemma owner_test e room fd : (negb (re_room e =? room) || negb (re_fd e =? fd)) = false <-> owned e room fd.
Proof. unfold owned. rewrite orb_false_iff, !negb_false_iff, !Z.eqb_eq. done. Qed.
Lemma argument_test u fd : ((fd <? 0) || (Z.min (zlen u) 32 =? 0) || (32 <=? Z.min (zlen u) 32)) = true <-> bad_argument u fd.
Proof. unfold bad_argument. rewrite !orb_true_iff, Z.ltb_lt, Z.eqb_eq, Z.leb_le. pose proof (zlen_nonneg u). lia. Qed.
Lemma prepare_meets t u room fd answer : rt_good t -> meets t (RoPrepare u room fd answer).
Proof.
  intros Hg. pose proof Hg as [Hi _]. unfold meets, route_run, sfu_routing_table_prepare_answer. destruct ((fd <? 0) || _ || _) eqn:Ea.
  { apply argument_test in Ea. cbn [res_bind]. eexists _, t. split; [done|]. done. }
  assert (Hna : ~ bad_argument u fd) by (intros H; apply argument_test in H; congruence). pose proof (find_route t u Hi) as Hf. destruct (routes t !! u) as [e|] eqn:Em.
  - destruct Hf as (p & -> & Hp & <-). cbn [res_bind]. rewrite (entry_pos t p e Hp). cbn [res_bind]. destruct (negb _ || negb _) eqn:Eo.
    + cbn [res_bind]. eexists _, t. split; [done|]. split; [done|]. split; [done|]. split; [|done]. exists e. split; [done|]. intros H. apply owner_test in H. congruence.
    + apply owner_test in Eo. unfold reserve_entry. rewrite (entry_pos t p e Hp). cbn [res_bind]. eexists _, t. split; [done|]. split; [done|]. split; [done|]. rewrite Em. done.
  - destruct Hf as [-> Hno]. cbn [res_bind]. pose proof (new_route_spec t u room fd Hg Hno) as Hn. pose proof (routes_size t Hi) as Hsz. pose proof (ro_count _ (proj1 Hi)).
    destruct (Z.leb_spec SFU_MAX_UFRAG_MAPPINGS (rt_count t)).
    + rewrite Hn. cbn [res_bind negb]. eexists _, t. split; [done|]. split; [done|]. split; [done|]. split; [done|]. split; [lia|done].
    + destruct Hn as (t' & -> & Hg' & Hp & R). cbn [res_bind negb]. unfold reserve_entry. rewrite (entry_pos t' _ _ Hp). cbn [res_bind]. eexists _, t'. split; [done|]. split; [done|].
      split; [done|]. rewrite Em. split; [lia|]. split; [done|]. done.
Qed.
(** A reservation names the position of its entry. *)
Lemma prepare_place t u room fd answer : rt_good t -> exists result t' r, sfu_routing_table_prepare_answer t u room fd answer = Ok (result, t', r) /\
  (result = SFU_ROUTING_REGISTER_OK -> exists e, at_pos t' (ra_entry_index r) e /\ re_ufrag e = u).
Proof.
  intros Hg. pose proof Hg as [Hi _]. unfold sfu_routing_table_prepare_answer. destruct ((fd <? 0) || _ || _); [by eexists _, _, _|].
  pose proof (find_route t u Hi) as Hf. destruct (routes t !! u) as [e|] eqn:Em.
  - destruct Hf as (p & -> & Hp & <-). cbn [res_bind]. rewrite (entry_pos t p e Hp). cbn [res_bind]. destruct (negb _ || negb _); [by eexists _, _, _|]. unfold reserve_entry. rewrite (entry_pos t p e Hp). cbn [res_bind].
    eexists _, _, _. split; [reflexivity|]. intros _. by exists e.
  - destruct Hf as [-> Hno]. cbn [res_bind]. pose proof (new_route_spec t u room fd Hg Hno) as Hn. destruct (Z.leb_spec SFU_MAX_UFRAG_MAPPINGS (rt_count t)); [rewrite Hn; cbn [res_bind negb]; by eexists _, _, _|].
    destruct Hn as (t' & -> & Hg' & Hp & R). cbn [res_bind negb]. unfold reserve_entry. rewrite (entry_pos t' _ _ Hp). cbn [res_bind]. eexists _, _, _. split; [reflexivity|]. intros _. by exists (fresh_route u room fd).
Qed.
Lemma commit_meets t r : rt_good t -> meets t (RoCommit r).
Proof.
  intros Hg. pose proof Hg as [Hi _]. unfold meets, route_run, sfu_routing_table_commit_answer. destruct (ra_active r) eqn:Ea; cbn [negb]; [|cbn [res_bind]; by eexists _, t].
  pose proof (find_route t (ra_ufrag r) Hi) as Hf. destruct (routes t !! ra_ufrag r) as [e|] eqn:Em; [|destruct Hf as [-> _]; cbn [res_bind]; by eexists _, t].
  destruct Hf as (p & -> & Hp & Eu). cbn [res_bind]. rewrite (entry_pos t p e Hp). cbn [res_bind]. destruct (negb (re_room e =? ra_room r) || negb (re_fd e =? ra_fd r)) eqn:Eo; cbn [orb]; [cbn [res_bind]; by eexists _, t|].
  destruct (p =? ra_entry_index r); cbn [negb res_bind]; [|by eexists _, t]. apply owner_test in Eo. destruct (set_entry_spec t p e (publish e r) Hg Hp eq_refl) as [Hg' R].
  eexists _, _. split; [reflexivity|]. split; [exact Hg'|]. split; [done|]. split; [done|]. exists e. split; [done|]. split; [done|]. rewrite <- Eu. exact R.
Qed.
Lemma cancel_meets t r : rt_good t -> meets t (RoCancel r).
Proof.
  intros Hg. pose proof Hg as [Hi _]. unfold meets, route_run, sfu_routing_table_cancel_answer. destruct (ra_active r) eqn:Ea; cbn [negb]; [|cbn [res_bind]; eexists _, t; split; [done|]; split; [done|]; by left].
  destruct (ra_new_entry r) eqn:En; cbn [negb]; [|cbn [res_bind]; eexists _, t; split; [done|]; split; [done|]; by left].
  pose proof (find_route t (ra_ufrag r) Hi) as Hf. destruct (routes t !! ra_ufrag r) as [e|] eqn:Em; [|destruct Hf as [-> _]; cbn [res_bind]; eexists _, t; split; [done|]; split; [done|]; by left].
  destruct Hf as (p & -> & Hp & Eu). cbn [res_bind]. rewrite (entry_pos t p e Hp). cbn [res_bind]. destruct (_ && _ && _ && _) eqn:Eo; [|cbn [res_bind]; eexists _, t; split; [done|]; split; [done|]; by left].
  rewrite !andb_true_iff, !Z.eqb_eq, negb_true_iff in Eo. destruct Eo as (((<- & Hv) & Hr) & Hfd). destruct (remove_routes t p e Hi Hp) as (t1 & -> & Hi1 & _ & R1 & _). cbn [res_bind].
  destruct (sparse_spec t1 Hi1) as (t2 & -> & Hg2 & _ & _ & R2). cbn [res_bind]. eexists _, t2. split; [done|]. split; [done|]. right. split; [done|]. split; [done|]. exists e. split; [done|]. split; [done|]. split; [done|].
  rewrite R2, R1, Eu. done.
Qed.
Lemma peek_spec t u : rt_good t -> sfu_routing_table_peek_route t u = Ok (snapshot_of <$> routes t !! u).
Proof.
  intros [Hi _]. unfold sfu_routing_table_peek_route. pose proof (find_route t u Hi) as Hf. destruct (routes t !! u) as [e|] eqn:Em; [|by destruct Hf as [-> _]].
  destruct Hf as (p & -> & Hp & <-). cbn [res_bind]. by rewrite (entry_pos t p e Hp).
Qed.
Lemma simple_meets t op : rt_good t -> match op with RoLookup _ _ | RoPeek _ | RoInvalidate _ _ _ | RoUnregister _ => True | _ => False end -> meets t op.
Proof.
  intros Hg Hop. pose proof Hg as [Hi _]. unfold meets, route_run. destruct op as [| | |u w|u|u room fd|fd]; try done.
  - unfold sfu_routing_table_lookup_route. pose proof (find_route t u Hi) as Hf. destruct (routes t !! u) as [e|] eqn:Em; [|destruct Hf as [-> _]; cbn [res_bind]; eexists _, t; split; [done|]; split; [done|]; cbn; by rewrite Em].
    destruct Hf as (p & -> & Hp & <-). cbn [res_bind]. rewrite (entry_pos t p e Hp). cbn [res_bind]. destruct (set_entry_spec t p e (adopt e w) Hg Hp eq_refl) as [Hg' R].
    eexists _, _. split; [reflexivity|]. split; [exact Hg'|]. cbn [map_step]. rewrite Em. split; [done|exact R].
  - rewrite peek_spec by done. cbn [res_bind]. by eexists _, t.
  - unfold sfu_routing_table_invalidate_pending. destruct (Z.ltb_spec fd 0); [cbn [res_bind]; eexists _, t; split; [done|]; split; [done|]; cbn; split; [by left|done]|]. pose proof (find_route t u Hi) as Hf.
    destruct (routes t !! u) as [e|] eqn:Em; [|destruct Hf as [-> _]; cbn [res_bind]; eexists _, t; split; [done|]; split; [done|]; cbn; rewrite Em; split; [by right|done]].
    destruct Hf as (p & -> & Hp & <-). cbn [res_bind]. rewrite (entry_pos t p e Hp). cbn [res_bind]. destruct (negb _ || negb _) eqn:Eo.
    + cbn [res_bind]. eexists _, t. split; [done|]. split; [done|]. cbn. rewrite Em. split; [|done]. right. intros a [= <-] H'. apply owner_test in H'. congruence.
    + apply owner_test in Eo. destruct (set_entry_spec t p e (invalidate e) Hg Hp eq_refl) as [Hg' R]. cbn [res_bind]. eexists _, _. split; [reflexivity|]. split; [exact Hg'|]. exists e. split_and!; try done; apply Eo.
  - destruct (unregister_spec t fd Hg) as (t' & -> & Hg' & R). cbn [res_bind]. by eexists _, t'.
Qed.
Lemma op_meets t op : rt_good t -> meets t op.
Proof. intros Hg. destruct op; [by apply prepare_meets|by apply commit_meets|by apply cancel_meets|by apply simple_meets..]. Qed.

Definition retired (e : sfu_routing_entry) : sfu_routing_entry := e <| re_pending_answer ::= fun a => a <| pa_valid := false |> |>.
Lemma retire_spec t u room fd g : rt_good t -> exists t', retire_pending t u room fd g = Ok t' /\ rt_good t' /\
  routes t' = match routes t !! u with Some e => if pending_matches e room fd g then <[u := retired e]> (routes t) else routes t | None => routes t end.
Proof.
  intros Hg. pose proof Hg as [Hi _]. unfold retire_pending. pose proof (find_route t u Hi) as Hf. destruct (routes t !! u) as [e|] eqn:Em; [|destruct Hf as [-> _]; by exists t].
  destruct Hf as (p & -> & Hp & <-). cbn [res_bind]. rewrite (entry_pos t p e Hp). cbn [res_bind]. destruct (pending_matches e room fd g); [|by exists t].
  destruct (set_entry_spec t p e (retired e) Hg Hp eq_refl) as [Hg' R]. eexists. split; [reflexivity|]. split; [exact Hg'|exact R].
Qed.

(** * Properties *)

Fixpoint routes_run (t : sfu_routing_table) (ops : list route_op) : res (list route_out * sfu_routing_table) :=
  match ops with
  | [] => Ok ([], t)
  | op :: ops => let! (out, t) := route_run t op in let! (outs, t) := routes_run t ops in Ok (out :: outs, t)
  end.
Inductive map_run : route_map -> list route_op -> list route_out -> route_map -> Prop :=
| map_run_nil m : map_run m [] [] m
| map_run_cons m op out m1 ops outs m2 : map_step m op out m1 -> map_run m1 ops outs m2 -> map_run m (op :: ops) (out :: outs) m2.
Lemma run_meets ops t : rt_good t -> exists outs t', routes_run t ops = Ok (outs, t') /\ rt_good t' /\ map_run (routes t) ops outs (routes t').
Proof.
  revert t. induction ops as [|op ops IH]; intros t Hg; [exists [], t; split_and!; try done; constructor|].
  destruct (op_meets t op Hg) as (out & t1 & E1 & Hg1 & M1). destruct (IH t1 Hg1) as (outs & t2 & E2 & Hg2 & M2). exists (out :: outs), t2. cbn [routes_run]. rewrite E1. cbn [res_bind]. rewrite E2.
  split; [done|]. split; [done|]. by eapply map_run_cons.
Qed.
Lemma run_good ops outs t : routes_run sfu_routing_table_init ops = Ok (outs, t) -> rt_good t.
Proof. intros E. destruct (run_meets ops sfu_routing_table_init (proj1 init_good)) as (outs' & t' & E' & Hg & _). rewrite E in E'. by injection E' as <- <-. Qed.

(** C12: The routing table is a map from fragments to routes.  Any sequence of
    registrations, commits, cancellations, lookups, invalidations and
    disconnections, with any reservations in between, runs without an access
    out of bounds and without the abort of a lost index entry; every result
    is that of the map: a fragment is refused to another connection, the table
    is full only when it holds its 32768 routes, a disconnection removes
    exactly the routes of that connection.  There are never more tombstones
    than routes. *)
Theorem routing_table_refines_map ops :
  exists outs t, routes_run sfu_routing_table_init ops = Ok (outs, t) /\ map_run ∅ ops outs (routes t) /\
    rt_count t = Z.of_nat (size (routes t)) /\ rt_count t <= SFU_MAX_UFRAG_MAPPINGS /\ rt_deleted_slots t = tombstones (rt_ufrag_index t) /\ rt_deleted_slots t <= rt_count t.
Proof.
  destruct init_good as [Hg0 R0]. destruct (run_meets ops _ Hg0) as (outs & t & E & [Hi Hd] & M). rewrite R0 in M. exists outs, t. pose proof (routes_size t Hi). destruct Hi as [Ht _].
  split; [done|]. split; [done|]. split; [lia|]. split; [apply Ht|]. split; [apply Ht|done].
Qed.

Definition can_register (m : route_map) (u : list Z) (room fd : Z) : Prop :=
  ~ bad_argument u fd /\ match m !! u with Some e => owned e room fd | None => Z.of_nat (size m) < SFU_MAX_UFRAG_MAPPINGS end.
(** The answer of a route after a registration: the peer keeps the identity it has. *)
Definition registered (e : sfu_routing_entry) (answer : sfu_pending_answer) (generation : Z) : sfu_routing_entry :=
  let old := pa_peer_id (re_pending_answer e) in
  e <| re_pending_answer := answer <| pa_peer_id := if old =? 0 then pa_peer_id answer else old |> <| pa_generation := generation |> <| pa_valid := true |> |>.
(** The operations of other threads. *)
Definition interfere (ops : list route_op) (t : sfu_routing_table) : sfu_routing_table := match routes_run t ops with Ok (_, t') => t' | _ => t end.
(** The route of [u] is where it was, and has the same owner. *)
Definition stays (t1 t2 : sfu_routing_table) (u : list Z) (room fd : Z) (e2 : sfu_routing_entry) : Prop :=
  exists p e1, at_pos t1 p e1 /\ re_ufrag e1 = u /\ at_pos t2 p e2 /\ re_ufrag e2 = u /\ owned e2 room fd.

Lemma next_generation_spec g : next_generation g <> 0 /\ (0 <= g < UINT32_MAX -> next_generation g = g + 1).
Proof.
  unfold next_generation, UINT32_MAX. split; [destruct (Z.eqb_spec (u32 (g + 1)) 0); lia|]. intros Hg. unfold u32. rewrite Z.mod_small by lia.
  by destruct (Z.eqb_spec (g + 1) 0); [lia|].
Qed.
Lemma can_register_dec m u room fd : can_register m u room fd \/ ~ can_register m u room fd.
Proof.
  unfold can_register. assert (Hb : bad_argument u fd \/ ~ bad_argument u fd) by (unfold bad_argument; lia).
  destruct Hb as [Hb|Hb]; [right; by intros [? _]|]. destruct (m !! u) as [e|].
  - unfold owned. destruct (decide (re_room e = room)), (decide (re_fd e = fd)); tauto.
  - destruct (decide (Z.of_nat (size m) < SFU_MAX_UFRAG_MAPPINGS)); tauto.
Qed.
Lemma interfere_good ops t : rt_good t -> rt_good (interfere ops t).
Proof. intros Hg. unfold interfere. destruct (run_meets ops t Hg) as (outs & t' & -> & Hg' & _). done. Qed.
Lemma publish_registered e r room fd answer g : owned e room fd -> ra_room r = room -> ra_fd r = fd -> ra_answer r = answer -> ra_generation r = g ->
  publish e r = registered e answer g.
Proof.
  intros [<- <-] E1 E2 <- <-. unfold publish, registered, published_answer. rewrite E1, E2. destruct e as [a b c d f p]. cbn. f_equal. destruct (ra_answer r).
  by destruct (pa_peer_id p =? 0).
Qed.
(** The commit of a reservation, exactly. *)
Lemma commit_exact t r : rt_good t -> ra_active r = true ->
  (exists e, at_pos t (ra_entry_index r) e /\ re_ufrag e = ra_ufrag r /\ owned e (ra_room r) (ra_fd r) /\
     exists t', sfu_routing_table_commit_answer t r = Ok (Some (ra_generation r), t', r <| ra_active := false |>) /\ rt_good t' /\
       routes t' = <[ra_ufrag r := publish e r]> (routes t)) \/
  (forall e, at_pos t (ra_entry_index r) e -> re_ufrag e = ra_ufrag r -> ~ owned e (ra_room r) (ra_fd r)) /\
  sfu_routing_table_commit_answer t r = Ok (None, t, r <| ra_active := false |>).
Proof.
  intros Hg Ha. pose proof Hg as [Hi _]. unfold sfu_routing_table_commit_answer. rewrite Ha. cbn [negb].
  pose proof (find_route t (ra_ufrag r) Hi) as Hf. destruct (routes t !! ra_ufrag r) as [e|] eqn:Em.
  2: { right. destruct Hf as [-> Hno]. split; [|done]. intros e Hp Eu _. apply (Hno (ra_entry_index r)), (routes_holds _ _ _ Hi). by exists e. }
  destruct Hf as (p & -> & Hp & Eu). cbn [res_bind]. rewrite (entry_pos t p e Hp). cbn [res_bind].
  assert (Hsame : forall e', at_pos t (ra_entry_index r) e' -> re_ufrag e' = ra_ufrag r -> p = ra_entry_index r /\ e' = e).
  { intros e' Hp' Eu'. assert (E : ra_entry_index r = p) by (eapply (inv_distinct t Hi); [exact Hp'|exact Hp|congruence]). split; [done|].
    destruct Hp as [_ Hp], Hp' as [_ Hp']. rewrite E in Hp'. congruence. }
  destruct (negb (re_room e =? ra_room r) || negb (re_fd e =? ra_fd r)) eqn:Eo; cbn [orb].
  { right. split; [|done]. intros e' Hp' Eu' Ho. destruct (Hsame e' Hp' Eu') as [_ ->]. apply owner_test in Ho. congruence. }
  apply owner_test in Eo. destruct (Z.eqb_spec p (ra_entry_index r)) as [E|E]; cbn [negb].
  - left. exists e. rewrite <- E. split; [done|]. split; [done|]. split; [done|]. destruct (set_entry_spec t p e (publish e r) Hg Hp eq_refl) as [Hg' R].
    eexists. split; [reflexivity|]. split; [exact Hg'|]. rewrite <- Eu. exact R.
  - right. split; [|done]. intros e' Hp' Eu' _. by destruct (Hsame e' Hp' Eu').
Qed.
(** The reservation of a route that can be registered. *)
Lemma prepare_exact t u room fd answer : rt_good t ->
  (can_register (routes t) u room fd -> exists t1 r e1, sfu_routing_table_prepare_answer t u room fd answer = Ok (SFU_ROUTING_REGISTER_OK, t1, r) /\ rt_good t1 /\
     let e := default (fresh_route u room fd) (routes t !! u) in routes t1 = <[u := e]> (routes t) /\ at_pos t1 (ra_entry_index r) e1 /\ re_ufrag e1 = u /\ owned e1 room fd /\
     ra_ufrag r = u /\ ra_room r = room /\ ra_fd r = fd /\ ra_answer r = answer /\ ra_generation r = next_generation (pa_generation (re_pending_answer e)) /\ ra_active r = true) /\
  (~ can_register (routes t) u room fd -> exists result t1 r, sfu_routing_table_prepare_answer t u room fd answer = Ok (result, t1, r) /\
     result <> SFU_ROUTING_REGISTER_OK /\ routes t1 = routes t).
Proof.
  intros Hg. destruct (prepare_meets t u room fd answer Hg) as (out & t1 & E1 & Hg1 & M1). unfold route_run in E1.
  destruct (prepare_place t u room fd answer Hg) as (result & t1' & r & Ep & Hok). rewrite Ep in E1 |- *. cbn [res_bind] in E1. injection E1 as <- <-.
  cbn [map_step] in M1. unfold map_prepare, can_register in *. split.
  - intros [Hb Hcan]. destruct result; [|destruct M1; done|destruct M1 as (_ & (e & Em & Ho) & _); by rewrite Em in Hcan|destruct M1 as (_ & Em & Hs & _); rewrite Em in Hcan; lia].
    destruct M1 as [_ M1]. destruct (Hok eq_refl) as (e1 & Hp & Eu). exists t1', r, e1. split; [done|]. split; [done|]. cbv zeta.
    assert (Ht1 : routes t1' !! u = Some e1) by (apply routes_lookup; [apply Hg1|by exists (ra_entry_index r)]).
    destruct (routes t !! u) as [e|] eqn:Em; cbn [default].
    + destruct M1 as (Ho & Et & R1 & R2 & R3 & R4 & R5 & _ & R7). rewrite Et, Em in Ht1. injection Ht1 as <-. rewrite Et, insert_id by done. by split_and!.
    + destruct M1 as (Hs & Et & R1 & R2 & R3 & R4 & R5 & _ & R7). rewrite Et, lookup_insert_eq in Ht1. injection Ht1 as <-. by split_and!.
  - intros Hcan. exists result, t1', r. split; [done|]. destruct result; [|by destruct M1|by destruct M1 as (_ & _ & ->)|by destruct M1 as (_ & _ & _ & ->)].
    exfalso. apply Hcan. destruct M1 as [Hb M1]. split; [done|]. destruct (routes t !! u); [apply M1|apply M1].
Qed.

(** Between the reservation and the commit of a route another one goes away,
    and the last one moves into its place: the commit then refuses its own
    entry and ends the reservation, so that the cancellation that follows
    does nothing and the route stays without an answer. *)
Definition moved_reservation : res (option Z * option sfu_routing_snapshot) :=
  let! (_, t, _) := sfu_routing_table_prepare_answer sfu_routing_table_init [97] 1 5 zero_answer in
  let! (_, t, r) := sfu_routing_table_prepare_answer t [98] 1 6 zero_answer in
  let! t := sfu_routing_table_unregister_fd t 5 in
  let! (g, t, r) := sfu_routing_table_commit_answer t r in
  let! (t, _) := sfu_routing_table_cancel_answer t r in
  let! s := sfu_routing_table_peek_route t [98] in
  Ok (g, s).
Example moved_reservation_stuck : moved_reservation = Ok (None, Some (mk_route_snapshot 1 0 6 false 0)).
Proof. vm_compute. reflexivity. Qed.

(** * Witnesses *)

