(* ===== verification/SessionAnswer.v ===== *)
(** Media answers at a session, [src/peer/session.c]
    ([sfu_session_apply_pending_answer] and what it calls), the peer's own
    part of [room_update_peer_role] of [src/room/room_media_graph.c], and the
    reconciliation of the routing table with a session.  The session is the
    part of it these functions read and write; its locks are held
    throughout, and the snapshot of the media state is stored at once. *)

From S2P Require Import Prelude OpenAddr HashIndex RoutingTable.
From stdpp Require Import gmap.
Local Open Scope Z_scope.

Record sfu_transceiver := mk_transceiver { tx_codec : Z; tx_ssrc : Z; tx_rtx_ssrc : Z; tx_payload_type : Z; tx_rtx_payload_type : Z; tx_active : bool }.
#[export] Instance eta_transceiver : Eta sfu_transceiver := fun x =>
  mk_transceiver (tx_codec x) (tx_ssrc x) (tx_rtx_ssrc x) (tx_payload_type x) (tx_rtx_payload_type x) (tx_active x).
Record sfu_media_snapshot := mk_media_snapshot {
  ms_audio_ssrc : Z; ms_video_ssrc : Z; ms_video_rtx_ssrc : Z; ms_screen_ssrc : Z; ms_screen_rtx_ssrc : Z;
  ms_video_pt : Z; ms_video_rtx_pt : Z; ms_screen_pt : Z; ms_screen_rtx_pt : Z; ms_video_codec : Z; ms_screen_codec : Z;
  ms_twcc_recv_extmap_id : Z; ms_twcc_send_extmap_id : Z; ms_mid_recv_extmap_id : Z; ms_audio_active : bool; ms_video_active : bool; ms_screen_active : bool
}.
Record sfu_session_media := mk_media {
  me_uplink_audio : sfu_transceiver; me_uplink_video : sfu_transceiver; me_screen : sfu_transceiver; me_snapshot : sfu_media_snapshot; me_pt_map : list Z;
  me_twcc_recv_extmap_id : Z; me_twcc_send_extmap_id : Z; me_mid_recv_extmap_id : Z;
  me_ptt_active : bool; me_camera_enabled : bool; me_screen_enabled : bool; me_camera_rtp_observed : bool; me_screen_rtp_observed : bool;
  me_audio_send_negotiated : bool; me_video_send_negotiated : bool; me_screen_send_negotiated : bool; me_screen_send_negotiated_pending : bool;
  me_screen_keyframe_recovery_pending : bool
}.
#[export] Instance eta_media : Eta sfu_session_media := fun m =>
  mk_media (me_uplink_audio m) (me_uplink_video m) (me_screen m) (me_snapshot m) (me_pt_map m) (me_twcc_recv_extmap_id m) (me_twcc_send_extmap_id m) (me_mid_recv_extmap_id m)
    (me_ptt_active m) (me_camera_enabled m) (me_screen_enabled m) (me_camera_rtp_observed m) (me_screen_rtp_observed m) (me_audio_send_negotiated m)
    (me_video_send_negotiated m) (me_screen_send_negotiated m) (me_screen_send_negotiated_pending m) (me_screen_keyframe_recovery_pending m).
Inductive sfu_video_runtime_state := SFU_VIDEO_RUNTIME_UNINITIALIZED | SFU_VIDEO_RUNTIME_INITIALIZING | SFU_VIDEO_RUNTIME_READY | SFU_VIDEO_RUNTIME_FAILED.
#[export] Instance runtime_state_dec : EqDecision sfu_video_runtime_state.
Proof. solve_decision. Defined.
Record peer_session := mk_peer {
  ps_media : sfu_session_media; ps_room : option Z; ps_is_audience : bool; ps_applied_answer_generation : Z; ps_video_runtime_state : sfu_video_runtime_state;
  ps_peer_id : Z; ps_user_id : Z; ps_fd : Z; ps_screen_codec_preference : Z; ps_last_screen_remb_bps : Z; ps_last_screen_remb_time_us : Z
}.
#[export] Instance eta_peer : Eta peer_session := fun s =>
  mk_peer (ps_media s) (ps_room s) (ps_is_audience s) (ps_applied_answer_generation s) (ps_video_runtime_state s) (ps_peer_id s) (ps_user_id s) (ps_fd s)
    (ps_screen_codec_preference s) (ps_last_screen_remb_bps s) (ps_last_screen_remb_time_us s).

(** ** Helpers of the session *)

Definition media_snapshot (m : sfu_session_media) : sfu_media_snapshot :=
  let v := me_uplink_video m in let c := me_screen m in
  mk_media_snapshot (tx_ssrc (me_uplink_audio m)) (tx_ssrc v) (tx_rtx_ssrc v) (tx_ssrc c) (tx_rtx_ssrc c) (tx_payload_type v) (tx_rtx_payload_type v)
    (tx_payload_type c) (tx_rtx_payload_type c) (tx_codec v) (tx_codec c) (me_twcc_recv_extmap_id m) (me_twcc_send_extmap_id m) (me_mid_recv_extmap_id m)
    (tx_active (me_uplink_audio m)) (tx_active v) (tx_active c).
Definition sfu_session_publish_media (s : peer_session) : peer_session := s <| ps_media ::= fun m => m <| me_snapshot := media_snapshot m |> |>.
Definition camera_should_be_active (s : peer_session) : bool :=
  let m := ps_media s in
  negb (ps_is_audience s) && me_camera_enabled m && me_video_send_negotiated m && me_camera_rtp_observed m && negb (tx_ssrc (me_uplink_video m) =? 0).
Definition screen_should_be_active (s : peer_session) : bool :=
  let m := ps_media s in
  negb (ps_is_audience s) && me_screen_enabled m && me_screen_send_negotiated m && me_screen_rtp_observed m && negb (tx_ssrc (me_screen m) =? 0).
Definition sfu_session_recompute_video_activity_locked (s : peer_session) : bool * peer_session :=
  let camera_active := camera_should_be_active s in
  let screen_active := screen_should_be_active s in
  let m := ps_media s in
  let changed := negb (eqb (tx_active (me_uplink_video m)) camera_active) || negb (eqb (tx_active (me_screen m)) screen_active) in
  (changed, s <| ps_media := m <| me_uplink_video ::= fun x => x <| tx_active := camera_active |> |> <| me_screen ::= fun x => x <| tx_active := screen_active |> |> |>).
(** [alloc] is the outcome of the allocations. *)
Definition sfu_session_ensure_video_runtime (s : peer_session) (alloc : bool) : bool * peer_session :=
  match ps_video_runtime_state s with
  | SFU_VIDEO_RUNTIME_READY => (true, s)
  | _ => if alloc then (true, s <| ps_video_runtime_state := SFU_VIDEO_RUNTIME_READY |>) else (false, s <| ps_video_runtime_state := SFU_VIDEO_RUNTIME_FAILED |>)
  end.
Definition sfu_resolve_media_ssrc (live live_rtx answer_ssrc answer_rtx : Z) : Z :=
  let rtx := if negb (answer_rtx =? 0) then answer_rtx else live_rtx in
  let ssrc := if negb (live =? 0) && negb (live =? rtx) then live else answer_ssrc in
  if negb (ssrc =? 0) && negb (rtx =? 0) && (ssrc =? rtx) then (if negb (answer_ssrc =? 0) && negb (answer_ssrc =? rtx) then answer_ssrc else 0) else ssrc.

(** ** The role of a peer in its room *)

Definition silence (x : sfu_transceiver) : sfu_transceiver := x <| tx_ssrc := 0 |> <| tx_rtx_ssrc := 0 |> <| tx_active := false |>.
(** What [room_update_peer_role] does to the peer; [slots] tells whether every
    other member had a slot for it. *)
Definition room_update_peer_role (s : peer_session) (room : Z) (slots is_audience : bool) : bool * peer_session :=
  if negb (match ps_room s with Some r => r =? room | None => false end) || eqb (ps_is_audience s) is_audience then (false, s) else
  if negb is_audience && negb slots then (false, s) else
  let s := s <| ps_is_audience := is_audience |> <| ps_media ::= fun m => m <| me_ptt_active := false |> |> in
  let s := if is_audience then
    s <| ps_media ::= fun m => m <| me_audio_send_negotiated := false |> <| me_video_send_negotiated := false |> <| me_screen_send_negotiated := false |>
         <| me_screen_keyframe_recovery_pending := false |> <| me_camera_enabled := false |> <| me_screen_enabled := false |>
         <| me_camera_rtp_observed := false |> <| me_screen_rtp_observed := false |>
         <| me_uplink_audio ::= fun x => x <| tx_ssrc := 0 |> <| tx_active := false |> |> <| me_uplink_video ::= silence |> <| me_screen ::= silence |> |>
    else
    (sfu_session_recompute_video_activity_locked
      (s <| ps_media ::= fun m => if tx_ssrc (me_uplink_audio m) =? 0 then m else m <| me_uplink_audio ::= fun x => x <| tx_active := true |> |> |>)).2 in
  (true, sfu_session_publish_media s).

(** ** Applying an answer *)

Definition apply_role (s : peer_session) (a : sfu_pending_answer) (slots : bool) : bool * peer_session :=
  let role_diff := negb (eqb (ps_is_audience s) (pa_is_audience a)) in
  match ps_room s with
  | Some room => if role_diff then room_update_peer_role s room slots (pa_is_audience a) else (role_diff, s)
  | None => (role_diff, s <| ps_is_audience := pa_is_audience a |>)
  end.
Definition apply_screen_negotiation (s : peer_session) (a : sfu_pending_answer) : peer_session :=
  let new_screen_neg := pa_screen_sends a && negb (pa_is_audience a) in
  let old_screen_neg := me_screen_send_negotiated (ps_media s) in
  let s := if new_screen_neg && negb old_screen_neg
    then s <| ps_media ::= fun m => m <| me_screen_keyframe_recovery_pending := false |> |> <| ps_last_screen_remb_bps := 0 |> <| ps_last_screen_remb_time_us := 0 |> else s in
  let s := s <| ps_media ::= fun m => m <| me_screen_send_negotiated := new_screen_neg |> |> in
  if new_screen_neg || pa_is_audience a then s <| ps_media ::= fun m => m <| me_screen_send_negotiated_pending := false |> |> else s.
Definition apply_negotiation (s : peer_session) (a : sfu_pending_answer) : peer_session :=
  let s := if pa_audio_section_present a then s <| ps_media ::= fun m => m <| me_audio_send_negotiated := pa_audio_sends a |> |> else s in
  let s := if pa_video_section_present a then s <| ps_media ::= fun m => m <| me_video_send_negotiated := pa_video_sends a && negb (pa_is_audience a) |> |> else s in
  if pa_screen_section_present a then apply_screen_negotiation s a else s.
(** The source and the retransmission source of a section of the answer. *)
Definition answered_ssrcs (x : sfu_transceiver) (present sends : bool) (ssrc rtx_ssrc : Z) : Z * Z :=
  if present then (if sends then (sfu_resolve_media_ssrc (tx_ssrc x) (tx_rtx_ssrc x) ssrc rtx_ssrc, rtx_ssrc) else (0, 0)) else (tx_ssrc x, tx_rtx_ssrc x).
Definition answered_transceiver (x : sfu_transceiver) (present sends : bool) (ssrc rtx_ssrc pt rtx_pt codec : Z) : sfu_transceiver :=
  let '(ssrc, rtx_ssrc) := answered_ssrcs x present sends ssrc rtx_ssrc in
  x <| tx_ssrc := ssrc |> <| tx_rtx_ssrc := rtx_ssrc |> <| tx_payload_type := (if negb (pt =? 0) then pt else tx_payload_type x) |>
    <| tx_rtx_payload_type := (if present then (if sends then rtx_pt else 0) else tx_rtx_payload_type x) |> <| tx_codec := (if negb (codec =? 0) then codec else tx_codec x) |>.
(** Whether the uplink counts as seen, given what the answer says of it. *)
Definition observed_after (old audience present sends : bool) (ssrc : Z) : bool :=
  if audience || (present && (negb sends || (ssrc =? 0))) then false else if present && sends && negb (ssrc =? 0) then true else old.
Definition same_transceiver (x y : sfu_transceiver) : bool :=
  (tx_ssrc x =? tx_ssrc y) && (tx_rtx_ssrc x =? tx_rtx_ssrc y) && (tx_payload_type x =? tx_payload_type y) && (tx_rtx_payload_type x =? tx_rtx_payload_type y) && (tx_codec x =? tx_codec y).
Definition answered_video (m : sfu_session_media) (a : sfu_pending_answer) : sfu_transceiver :=
  answered_transceiver (me_uplink_video m) (pa_video_section_present a) (pa_video_sends a) (pa_video_ssrc a) (pa_rtx_ssrc a) (pa_video_pt a) (pa_rtx_pt a) (pa_video_codec a).
Definition answered_screen (m : sfu_session_media) (a : sfu_pending_answer) : sfu_transceiver :=
  answered_transceiver (me_screen m) (pa_screen_section_present a) (pa_screen_sends a) (pa_screen_ssrc a) (pa_screen_rtx_ssrc a) (pa_screen_pt a) (pa_screen_rtx_pt a) (pa_screen_codec a).
Definition answered_audio (m : sfu_session_media) (a : sfu_pending_answer) (current_audience : bool) : sfu_transceiver :=
  let audio_ssrc := if pa_audio_section_present a then (if pa_audio_sends a then pa_audio_ssrc a else 0) else tx_ssrc (me_uplink_audio m) in
  let audio_active := negb (audio_ssrc =? 0) && (negb current_audience || me_ptt_active m) in
  (me_uplink_audio m) <| tx_ssrc := audio_ssrc |> <| tx_active := audio_active |>.
Definition media_differs (m : sfu_session_media) (audio video screen : sfu_transceiver) : bool :=
  negb ((tx_ssrc (me_uplink_audio m) =? tx_ssrc audio) && eqb (tx_active (me_uplink_audio m)) (tx_active audio) && same_transceiver (me_uplink_video m) video && same_transceiver (me_screen m) screen).
Definition answered_media (m : sfu_session_media) (a : sfu_pending_answer) (current_audience : bool) : sfu_session_media :=
  let audio := answered_audio m a current_audience in
  let video := answered_video m a in
  let screen := answered_screen m a in
  m <| me_camera_rtp_observed ::= fun o => observed_after o current_audience (pa_video_section_present a) (pa_video_sends a) (tx_ssrc video) |>
    <| me_screen_rtp_observed ::= fun o => observed_after o current_audience (pa_screen_section_present a) (pa_screen_sends a) (tx_ssrc screen) |>
    <| me_uplink_audio := audio |> <| me_uplink_video := video |> <| me_screen := screen |>
    <| me_twcc_recv_extmap_id := pa_twcc_recv_extmap_id a |> <| me_twcc_send_extmap_id := pa_twcc_send_extmap_id a |> <| me_mid_recv_extmap_id := pa_mid_recv_extmap_id a |>.
Definition apply_media (s : peer_session) (a : sfu_pending_answer) : bool * peer_session :=
  let m := ps_media s in
  let changed := media_differs m (answered_audio m a (ps_is_audience s)) (answered_video m a) (answered_screen m a) in
  let '(activity_changed, s) := sfu_session_recompute_video_activity_locked (s <| ps_media := answered_media m a (ps_is_audience s) |>) in
  (changed || activity_changed, sfu_session_publish_media s).
(** The outcomes [slots] and [alloc] are those of the room's slots and of the
    allocations; the results are whether it was applied and whether the role
    and the media changed. *)
Definition sfu_session_apply_pending_answer (s : peer_session) (a : sfu_pending_answer) (fd : Z) (slots alloc : bool) : bool * bool * bool * peer_session :=
  if negb (pa_valid a) then (false, false, false, s) else
  if pa_generation a <=? ps_applied_answer_generation s then (false, false, false, s) else
  let '(role_diff, s) := apply_role s a slots in
  let '(runtime, s) := if (pa_video_sends a || pa_screen_sends a) && negb (pa_is_audience a) then sfu_session_ensure_video_runtime s alloc else (true, s) in
  if negb runtime then (false, false, false, s) else
  let s := apply_negotiation s a in
  let '(changed, s) := apply_media s a in
  let s := if negb (pa_peer_id a =? 0) then s <| ps_peer_id := pa_peer_id a |> else s in
  let s := s <| ps_user_id := pa_user_id a |> <| ps_fd := fd |> <| ps_screen_codec_preference := pa_screen_codec_preference a |>
             <| ps_media ::= fun m => m <| me_pt_map := seqZ 0 128 |> |> <| ps_applied_answer_generation := pa_generation a |> in
  (true, role_diff, changed, s).
(** The reconciliation of the routing table with a session. *)
Definition reconcile (t : sfu_routing_table) (u : list Z) (room fd generation : Z) (s : peer_session) (slots alloc : bool) (others : sfu_routing_table -> sfu_routing_table)
  : res (bool * peer_session * sfu_routing_table) :=
  sfu_routing_table_reconcile_answer ps_room (fun s a fd => let '(applied, _, _, s) := sfu_session_apply_pending_answer s a fd slots alloc in (applied, s)) t u room fd generation s others.

(** * Lemmas *)

(** A video source counts as active exactly if the peer is no mere listener,
    the source is switched on, negotiated and seen, and has an SSRC. *)
Definition source_active (s : peer_session) (x : sfu_transceiver) (enabled negotiated observed : bool) : Prop :=
  tx_active x = true <-> ps_is_audience s = false /\ enabled = true /\ negotiated = true /\ observed = true /\ tx_ssrc x <> 0.
Definition activity_ok (s : peer_session) : Prop :=
  let m := ps_media s in
  source_active s (me_uplink_video m) (me_camera_enabled m) (me_video_send_negotiated m) (me_camera_rtp_observed m) /\
  source_active s (me_screen m) (me_screen_enabled m) (me_screen_send_negotiated m) (me_screen_rtp_observed m).
(** What readers see of the media is what the session has. *)
Record shown (m : sfu_session_media) (v : sfu_media_snapshot) : Prop := {
  sh_audio : ms_audio_ssrc v = tx_ssrc (me_uplink_audio m) /\ ms_audio_active v = tx_active (me_uplink_audio m);
  sh_video : ms_video_ssrc v = tx_ssrc (me_uplink_video m) /\ ms_video_rtx_ssrc v = tx_rtx_ssrc (me_uplink_video m) /\
    ms_video_pt v = tx_payload_type (me_uplink_video m) /\ ms_video_rtx_pt v = tx_rtx_payload_type (me_uplink_video m) /\
    ms_video_codec v = tx_codec (me_uplink_video m) /\ ms_video_active v = tx_active (me_uplink_video m);
  sh_screen : ms_screen_ssrc v = tx_ssrc (me_screen m) /\ ms_screen_rtx_ssrc v = tx_rtx_ssrc (me_screen m) /\
    ms_screen_pt v = tx_payload_type (me_screen m) /\ ms_screen_rtx_pt v = tx_rtx_payload_type (me_screen m) /\
    ms_screen_codec v = tx_codec (me_screen m) /\ ms_screen_active v = tx_active (me_screen m);
  sh_extensions : ms_twcc_recv_extmap_id v = me_twcc_recv_extmap_id m /\ ms_twcc_send_extmap_id v = me_twcc_send_extmap_id m /\
    ms_mid_recv_extmap_id v = me_mid_recv_extmap_id m
}.
Definition published_ok (s : peer_session) : Prop := shown (ps_media s) (me_snapshot (ps_media s)).
Definition ssrcs_apart (x : sfu_transceiver) : Prop := tx_ssrc x <> 0 -> tx_ssrc x <> tx_rtx_ssrc x.

Lemma active_spec s x (enabled negotiated observed : bool) :
  tx_active x = negb (ps_is_audience s) && enabled && negotiated && observed && negb (tx_ssrc x =? 0) -> source_active s x enabled negotiated observed.
Proof. intros E. unfold source_active. rewrite E, !andb_true_iff, !negb_true_iff, Z.eqb_neq. tauto. Qed.
Lemma recompute_ok s : activity_ok (sfu_session_recompute_video_activity_locked s).2.
Proof. split; by apply active_spec. Qed.
Lemma publish_ok s : activity_ok s -> activity_ok (sfu_session_publish_media s) /\ published_ok (sfu_session_publish_media s).
Proof. intros [H1 H2]. split; [by split|by constructor]. Qed.
Lemma resolve_apart live live_rtx ssrc rtx : let r := sfu_resolve_media_ssrc live live_rtx ssrc rtx in r <> 0 -> r <> rtx.
Proof.
  cbv zeta. unfold sfu_resolve_media_ssrc. destruct (Z.eqb_spec rtx 0) as [->|Hr]; [done|]. cbn [negb]. set (x := if negb (live =? 0) && negb (live =? rtx) then live else ssrc).
  destruct (Z.eqb_spec x 0) as [E|Hx]; cbn [negb andb]; [by rewrite E|]. destruct (Z.eqb_spec rtx 0); [done|]. cbn [negb andb]. destruct (Z.eqb_spec x rtx); [|done].
  destruct (Z.eqb_spec ssrc 0); cbn [negb andb]; [done|]. by destruct (Z.eqb_spec ssrc rtx).
Qed.
Lemma answered_apart x present sends ssrc rtx pt rtx_pt codec : ssrcs_apart x -> ssrcs_apart (answered_transceiver x present sends ssrc rtx pt rtx_pt codec).
Proof.
  intros Hx. unfold answered_transceiver, answered_ssrcs. destruct present; [|exact Hx]. destruct sends; [|by intros H]. unfold ssrcs_apart. cbn. apply resolve_apart.
Qed.
(** The room has no slots for a member of the audience that wants to speak. *)
Definition role_refused (s : peer_session) (a : sfu_pending_answer) (slots : bool) : bool :=
  match ps_room s with Some _ => ps_is_audience s && negb (pa_is_audience a) && negb slots | None => false end.
Definition apart_ok (s : peer_session) : Prop := ssrcs_apart (me_uplink_video (ps_media s)) /\ ssrcs_apart (me_screen (ps_media s)).
(** What a step leaves alone. *)
Definition same_rest (s s' : peer_session) : Prop :=
  ps_room s' = ps_room s /\ ps_applied_answer_generation s' = ps_applied_answer_generation s /\ (apart_ok s -> apart_ok s').
Lemma silence_apart x : ssrcs_apart (silence x).
Proof. by intros H. Qed.
Lemma recompute_apart s : apart_ok s -> apart_ok (sfu_session_recompute_video_activity_locked s).2.
Proof. intros [H1 H2]. split; [exact H1|exact H2]. Qed.
Lemma publish_apart s : apart_ok s -> apart_ok (sfu_session_publish_media s).
Proof. intros [H1 H2]. split; [exact H1|exact H2]. Qed.
Lemma unmute_apart s : apart_ok s ->
  apart_ok (s <| ps_media ::= fun m => if tx_ssrc (me_uplink_audio m) =? 0 then m else m <| me_uplink_audio ::= fun x => x <| tx_active := true |> |> |>).
Proof.
  intros [H1 H2]. unfold apart_ok. set (s' := s <| ps_media ::= _ |>).
  assert (E : ps_media s' = ps_media s \/ ps_media s' = (ps_media s) <| me_uplink_audio ::= fun x => x <| tx_active := true |> |>)
    by (change (ps_media s') with (if tx_ssrc (me_uplink_audio (ps_media s)) =? 0 then ps_media s else (ps_media s) <| me_uplink_audio ::= fun x => x <| tx_active := true |> |>); destruct (_ =? 0); auto).
  destruct E as [-> | ->]; split; [exact H1|exact H2|exact H1|exact H2].
Qed.
Lemma role_spec s room slots aud : ps_room s = Some room -> ps_is_audience s <> aud ->
  let '(ok, s') := room_update_peer_role s room slots aud in
  ok = aud || slots /\ ps_is_audience s' = (if ok then aud else ps_is_audience s) /\ ps_video_runtime_state s' = ps_video_runtime_state s /\ same_rest s s'.
Proof.
  intros Hr Ha. unfold room_update_peer_role. rewrite Hr, Z.eqb_refl. cbn [negb orb]. rewrite (proj2 (eqb_false_iff _ _) Ha). destruct aud; cbn [negb andb orb].
  - split; [done|]. split; [done|]. split; [done|]. split; [done|]. split; [done|]. intros _. split; apply silence_apart.
  - destruct slots; cbn [negb]; [|split; [done|]; split; [done|]; split; [done|]; by split]. split; [done|]. split; [done|]. split; [done|]. split; [done|]. split; [done|]. intros [H1 H2].
    apply publish_apart, recompute_apart, unmute_apart. by split.
Qed.
Lemma apply_role_spec s a slots : let '(d, s') := apply_role s a slots in
  ps_is_audience s' = (if role_refused s a slots then ps_is_audience s else pa_is_audience a) /\ ps_video_runtime_state s' = ps_video_runtime_state s /\ same_rest s s' /\
  d = negb (eqb (ps_is_audience s) (ps_is_audience s')).
Proof.
  unfold apply_role, role_refused. destruct (ps_room s) as [room|] eqn:Er; [|split; [done|]; split; [done|]; split; [by split|done]]. destruct (eqb (ps_is_audience s) (pa_is_audience a)) eqn:Ea; cbn [negb].
  - apply eqb_prop in Ea. rewrite Ea. split; [by destruct (pa_is_audience a)|]. split; [done|]. split; [by split|]. by rewrite eqb_reflx.
  - apply eqb_false_iff in Ea. pose proof (role_spec s room slots (pa_is_audience a) Er Ea) as H. destruct (room_update_peer_role s room slots (pa_is_audience a)) as [ok s']. destruct H as (-> & Hau & Hrt & Hsame).
    split; [|split; [done|]; split; [done|]]; destruct (ps_is_audience s), (pa_is_audience a), slots; rewrite Hau; done.
Qed.
Lemma runtime_spec s alloc : let '(ok, s') := sfu_session_ensure_video_runtime s alloc in
  ok = bool_decide (ps_video_runtime_state s = SFU_VIDEO_RUNTIME_READY) || alloc /\ ps_is_audience s' = ps_is_audience s /\ same_rest s s'.
Proof. unfold sfu_session_ensure_video_runtime. destruct (ps_video_runtime_state s), alloc; split; try done; split; try done; by split. Qed.
Lemma set_flags_same s (f : sfu_session_media -> sfu_session_media) : (forall m, me_uplink_video (f m) = me_uplink_video m /\ me_screen (f m) = me_screen m) ->
  ps_is_audience (s <| ps_media ::= f |>) = ps_is_audience s /\ same_rest s (s <| ps_media ::= f |>).
Proof.
  intros Hf. split; [done|]. split; [done|]. split; [done|]. intros [H1 H2]. unfold apart_ok. change (ps_media (s <| ps_media ::= f |>)) with (f (ps_media s)). destruct (Hf (ps_media s)) as [-> ->]. by split.
Qed.
Lemma same_rest_trans s1 s2 s3 : same_rest s1 s2 -> same_rest s2 s3 -> same_rest s1 s3.
Proof. intros (A1 & A2 & A3) (B1 & B2 & B3). split; [congruence|]. split; [congruence|]. auto. Qed.
Lemma same_rest_refl s : same_rest s s.
Proof. by split. Qed.
Ltac flag_step := apply set_flags_same; intros ?; split; reflexivity.
Lemma screen_negotiation_spec s a : ps_is_audience (apply_screen_negotiation s a) = ps_is_audience s /\ same_rest s (apply_screen_negotiation s a).
Proof.
  unfold apply_screen_negotiation. set (s1 := if _ && _ then _ else s). assert (H1 : ps_is_audience s1 = ps_is_audience s /\ same_rest s s1) by (unfold s1; destruct (_ && _); by split).
  set (s2 := s1 <| ps_media ::= _ |>). assert (H2 : ps_is_audience s2 = ps_is_audience s1 /\ same_rest s1 s2) by (unfold s2; flag_step). destruct H1 as [A1 R1], H2 as [A2 R2].
  destruct (_ || _); [|split; [congruence|by eapply same_rest_trans]]. set (s3 := s2 <| ps_media ::= _ |>). assert (H3 : ps_is_audience s3 = ps_is_audience s2 /\ same_rest s2 s3) by (unfold s3; flag_step).
  destruct H3 as [A3 R3]. split; [congruence|]. eapply same_rest_trans; [exact R1|]. by eapply same_rest_trans.
Qed.
Lemma negotiation_spec s a : ps_is_audience (apply_negotiation s a) = ps_is_audience s /\ same_rest s (apply_negotiation s a).
Proof.
  unfold apply_negotiation. set (s1 := if pa_audio_section_present a then _ else s). assert (H1 : ps_is_audience s1 = ps_is_audience s /\ same_rest s s1) by (unfold s1; destruct (pa_audio_section_present a); [flag_step|by split]).
  set (s2 := if pa_video_section_present a then _ else s1). assert (H2 : ps_is_audience s2 = ps_is_audience s1 /\ same_rest s1 s2) by (unfold s2; destruct (pa_video_section_present a); [flag_step|by split]).
  destruct H1 as [A1 R1], H2 as [A2 R2]. assert (R : same_rest s s2) by (by eapply same_rest_trans). destruct (pa_screen_section_present a); [|split; [congruence|done]].
  destruct (screen_negotiation_spec s2 a) as [A3 R3]. split; [congruence|by eapply same_rest_trans].
Qed.
(** After the media part of an answer the activity is what the session's state
    says, it is published, and the audience is heard only while it talks. *)
Lemma media_spec s a : let s' := (apply_media s a).2 in
  activity_ok s' /\ published_ok s' /\ ps_is_audience s' = ps_is_audience s /\ same_rest s s' /\
  (tx_active (me_uplink_audio (ps_media s')) = true -> ps_is_audience s' = false \/ me_ptt_active (ps_media s') = true).
Proof.
  unfold apply_media. set (s1 := s <| ps_media := _ |>). pose proof (recompute_ok s1) as Hact. destruct (sfu_session_recompute_video_activity_locked s1) as [d s2] eqn:E. cbn [snd] in *.
  assert (E2 : s2 = (sfu_session_recompute_video_activity_locked s1).2) by (by rewrite E). destruct (publish_ok s2 Hact) as [H1 H2]. split; [done|]. split; [done|]. rewrite E2. split; [done|].
  split; [split; [done|split; [done|]]|].
  - intros [A1 A2]. apply publish_apart, recompute_apart. split; [by apply answered_apart|by apply answered_apart].
  - intros Ha. assert (Hx : tx_active (answered_audio (ps_media s) a (ps_is_audience s)) = true) by exact Ha. unfold answered_audio in Hx. cbn in Hx.
    apply andb_true_iff in Hx as [_ Hx]. apply orb_true_iff in Hx as [Hx|Hx]; [left|right; exact Hx]. by apply negb_true_iff in Hx.
Qed.
Definition needs_runtime (a : sfu_pending_answer) : bool := (pa_video_sends a || pa_screen_sends a) && negb (pa_is_audience a).
Definition applicable (s : peer_session) (a : sfu_pending_answer) (alloc : bool) : Prop :=
  pa_valid a = true /\ ps_applied_answer_generation s < pa_generation a /\ (needs_runtime a = true -> ps_video_runtime_state s = SFU_VIDEO_RUNTIME_READY \/ alloc = true).
Definition answered (s : peer_session) (a : sfu_pending_answer) (fd : Z) (slots : bool) (s' : peer_session) : Prop :=
  ps_applied_answer_generation s' = pa_generation a /\ ps_fd s' = fd /\ ps_user_id s' = pa_user_id a /\ ps_room s' = ps_room s /\
  ps_is_audience s' = (if role_refused s a slots then ps_is_audience s else pa_is_audience a) /\
  activity_ok s' /\ published_ok s' /\ (apart_ok s -> apart_ok s') /\
  (tx_active (me_uplink_audio (ps_media s')) = true -> ps_is_audience s' = false \/ me_ptt_active (ps_media s') = true).
Lemma apply_spec s a fd slots alloc : let '(applied, role, changed, s') := sfu_session_apply_pending_answer s a fd slots alloc in
  (applied = true <-> applicable s a alloc) /\ (applied = false -> ps_applied_answer_generation s' = ps_applied_answer_generation s) /\ (applied = true -> answered s a fd slots s').
Proof.
  unfold sfu_session_apply_pending_answer, applicable. destruct (pa_valid a); cbn [negb]; [|by split_and!; [split; [done|]; intros (? & _)|..]].
  destruct (Z.leb_spec (pa_generation a) (ps_applied_answer_generation s)) as [Hle|Hlt]; [split_and!; try done; split; [done|]; lia|].
  pose proof (apply_role_spec s a slots) as Hrole. destruct (apply_role s a slots) as [d s1]. destruct Hrole as (Hau & Hrt & R1 & _). fold (needs_runtime a).
  set (rt := if needs_runtime a then sfu_session_ensure_video_runtime s1 alloc else (true, s1)).
  assert (Hrts : rt.1 = (negb (needs_runtime a) || (bool_decide (ps_video_runtime_state s = SFU_VIDEO_RUNTIME_READY) || alloc)) /\ ps_is_audience rt.2 = ps_is_audience s1 /\ same_rest s1 rt.2).
  { unfold rt. destruct (needs_runtime a); cbn [negb orb]; [|by split_and!]. pose proof (runtime_spec s1 alloc) as H. destruct (sfu_session_ensure_video_runtime s1 alloc) as [ok s2]. by rewrite Hrt in H. }
  destruct rt as [ok s2]. cbn [fst snd] in Hrts. destruct Hrts as (Hok & A2 & R2).
  assert (Hiff : ok = true <-> (needs_runtime a = true -> ps_video_runtime_state s = SFU_VIDEO_RUNTIME_READY \/ alloc = true)).
  { rewrite Hok, !orb_true_iff, bool_decide_eq_true, negb_true_iff. destruct (needs_runtime a); [|split; [done|by left]]. split; [by intros [?|?]|]. intros H. right. by apply H. }
  destruct ok; cbn [negb]; [|split; [split; [done|]; intros (_ & _ & H); by apply Hiff in H|]; split; [|done]; intros _; destruct R1 as (_ & E1 & _), R2 as (_ & E2 & _); congruence].
  destruct (negotiation_spec s2 a) as [A3 R3]. pose proof (media_spec (apply_negotiation s2 a) a) as Hm. destruct (apply_media (apply_negotiation s2 a) a) as [ch s4]. cbn [snd] in Hm.
  destruct Hm as (H1 & H2 & A4 & R4 & Haud). assert (R : same_rest s s4) by (repeat (eapply same_rest_trans; [eassumption|]); apply same_rest_refl). destruct R as (Q1 & _ & Q3).
  split; [split; [intros _; split_and!; [done|lia|by apply Hiff]|done]|]. split; [done|]. intros _. assert (Hau4 : ps_is_audience s4 = (if role_refused s a slots then ps_is_audience s else pa_is_audience a)) by congruence.
  destruct (negb (pa_peer_id a =? 0)); split_and!; try done; try exact Hau4; try exact Q1; try (by destruct H2; constructor); try exact Haud; try (exact (proj1 H1)); try (exact (proj2 H1)); exact Q3.
Qed.
Lemma apply_stale s a fd slots alloc : pa_generation a <= ps_applied_answer_generation s -> sfu_session_apply_pending_answer s a fd slots alloc = (false, false, false, s).
Proof. intros H. unfold sfu_session_apply_pending_answer. destruct (pa_valid a); cbn [negb]; [|done]. by rewrite (proj2 (Z.leb_le _ _)). Qed.

(** * Properties *)

(** C13: Applying an answer.  An answer is applied exactly if it is valid, newer
    than the last one applied, and the state for video it needs can be had;
    then the session has its generation and, unless the room has no slots for
    a new speaker, its role; the camera and the screen count as active exactly
    if the peer is no mere listener, has them switched on, negotiated and seen
    and has a source for them; a listener is heard only while it talks; if no
    source of the session was its own retransmission source, none is
    afterwards; and the published snapshot has the sources, payload types,
    codecs, extension ids and activity of the session.  An answer that is not
    applied leaves the generation, and applying one again changes nothing. *)
Theorem answer_applied s a fd slots alloc :
  let '(applied, role, changed, s') := sfu_session_apply_pending_answer s a fd slots alloc in
  (applied = true <-> applicable s a alloc) /\
  (applied = false -> ps_applied_answer_generation s' = ps_applied_answer_generation s) /\
  (applied = true -> answered s a fd slots s' /\ forall fd' slots' alloc', sfu_session_apply_pending_answer s' a fd' slots' alloc' = (false, false, false, s')).
Proof.
  pose proof (apply_spec s a fd slots alloc) as H. destruct (sfu_session_apply_pending_answer s a fd slots alloc) as [[[applied role] changed] s']. destruct H as (H1 & H2 & H3).
  split; [done|]. split; [done|]. intros Ha. specialize (H3 Ha). split; [done|]. intros fd' slots' alloc'. apply apply_stale. destruct H3 as (-> & _). lia.
Qed.

(** C14: A pending answer reaches its session once.  In any state of the routing
    table, and whatever other threads do to the table while the answer is
    applied, reconciliation returns; it succeeds exactly if the route belongs
    to the room and the connection, its answer is valid with that generation,
    the session is in no other room and can apply it; then the session has
    that generation, so that no other thread can apply the answer to it again,
    and the answer is retired in the table unless a newer one has replaced it,
    which stays pending. *)
Theorem reconcile_once ops outs t ops' outs' t1 u room fd g s slots alloc :
  routes_run sfu_routing_table_init ops = Ok (outs, t) -> routes_run t ops' = Ok (outs', t1) ->
  exists b s' t', reconcile t u room fd g s slots alloc (fun _ => t1) = Ok (b, s', t') /\
    (b = true <-> 0 <= fd /\ g <> 0 /\ (forall r, ps_room s = Some r -> r = room) /\ exists e, routes t !! u = Some e /\ pending_matches e room fd g = true /\ applicable s (re_pending_answer e) alloc) /\
    (b = true -> ps_applied_answer_generation s' = g /\
      (forall e fd' slots' alloc', routes t !! u = Some e -> sfu_session_apply_pending_answer s' (re_pending_answer e) fd' slots' alloc' = (false, false, false, s')) /\
      routes t' = match routes t1 !! u with Some e => if pending_matches e room fd g then <[u := retired e]> (routes t1) else routes t1 | None => routes t1 end).
Proof.
  intros Hrun Hrun'. apply run_good in Hrun as Hg. assert (Hg1 : rt_good t1) by (destruct (run_meets ops' t Hg) as (o & t2 & E & Hg2 & _); rewrite Hrun' in E; by injection E as _ <-).
  unfold reconcile, sfu_routing_table_reconcile_answer. destruct (Z.ltb_spec fd 0); cbn [orb]; [eexists _, _, _; split; [reflexivity|]; split; [split; [done|]; lia|done]|].
  destruct (Z.eqb_spec g 0); [eexists _, _, _; split; [reflexivity|]; split; [split; [done|]; by intros (_ & ? & _)|done]|]. pose proof (find_route t u (proj1 Hg)) as Hf.
  destruct (routes t !! u) as [e|] eqn:Em; [|destruct Hf as [-> _]; eexists _, _, _; split; [reflexivity|]; split; [split; [done|]; by intros (_ & _ & _ & ? & ? & _)|done]].
  destruct Hf as (p & -> & Hp & _). cbn [res_bind]. rewrite (entry_pos t p e Hp). cbn [res_bind]. destruct (pending_matches e room fd g) eqn:Epm; cbn [negb].
  2: { eexists _, _, _. split; [reflexivity|]. split; [split; [done|]|done]. intros (_ & _ & _ & e' & [= <-] & ? & _). congruence. }
  destruct (match ps_room s with Some r => negb (r =? room) | None => false end) eqn:Er.
  { eexists _, _, _. split; [reflexivity|]. split; [split; [done|]|done]. intros (_ & _ & Hr & _). destruct (ps_room s) as [r|]; [|done]. rewrite (Hr r eq_refl), Z.eqb_refl in Er. done. }
  assert (Hr : forall r, ps_room s = Some r -> r = room) by (intros r E; rewrite E in Er; by apply negb_false_iff, Z.eqb_eq in Er).
  pose proof (apply_spec s (re_pending_answer e) fd slots alloc) as Ha. destruct (sfu_session_apply_pending_answer s (re_pending_answer e) fd slots alloc) as [[[applied role] changed] s']. destruct Ha as (H1 & _ & H3).
  destruct applied; cbn [negb]; [|eexists _, _, _; split; [reflexivity|]; split; [split; [done|]; intros (_ & _ & _ & e' & [= <-] & _ & ?); by apply H1|done]].
  destruct (retire_spec t1 u room fd g Hg1) as (t2 & -> & _ & R). cbn [res_bind]. eexists _, _, _. split; [reflexivity|]. split; [split; [intros _|done]; split_and!; try done; exists e; split_and!; try done; by apply H1|].
  intros _. assert (Eg : pa_generation (re_pending_answer e) = g) by (unfold pending_matches in Epm; rewrite !andb_true_iff in Epm; apply Z.eqb_eq, Epm). destruct (H3 eq_refl) as (E & _). split; [congruence|]. split; [|exact R].
  intros e' fd' slots' alloc' [= <-]. apply apply_stale. lia.
Qed.

(** * Witnesses *)

(** A speaker's first answer, with a camera, for the route [a] of connection 5 in room 1. *)
Definition demo_answer : sfu_pending_answer :=
  zero_answer <| pa_video_ssrc := 1000 |> <| pa_rtx_ssrc := 1001 |> <| pa_video_pt := 96 |> <| pa_rtx_pt := 97 |> <| pa_video_codec := 1 |> <| pa_user_id := 7 |> <| pa_video_section_present := true |> <| pa_video_sends := true |>.
Definition demo_routes : list route_op := [RoPrepare [97] 1 5 demo_answer; RoCommit (mk_reservation_route demo_answer 1 0 1 [97] 1 5 true true)].
Definition demo_route : sfu_routing_entry := registered (fresh_route [97] 1 5) demo_answer 1.
Definition demo_peer : peer_session :=
  let x := mk_transceiver 0 0 0 0 0 false in
  mk_peer (mk_media x x x (mk_media_snapshot 0 0 0 0 0 0 0 0 0 0 0 0 0 0 false false false) [] 0 0 0 false true false false false false false false false false)
    None false 0 SFU_VIDEO_RUNTIME_UNINITIALIZED 0 0 0 0 0 0.
Lemma demo_routes_table : match routes_run sfu_routing_table_init demo_routes with Ok (_, t) => routes t !! [97] | _ => None end = Some demo_route.
Proof. vm_compute. reflexivity. Qed.
Lemma reconcile_once_witness : exists t s' t', rt_good t /\ reconcile t [97] 1 5 1 demo_peer true true (fun _ => t) = Ok (true, s', t') /\ ps_applied_answer_generation s' = 1.
Proof.
  pose proof demo_routes_table as Hd. destruct (routes_run sfu_routing_table_init demo_routes) as [[outs t]| |] eqn:E; [|discriminate Hd|discriminate Hd].
  destruct (reconcile_once demo_routes outs t [] [] t [97] 1 5 1 demo_peer true true E eq_refl) as (b & s' & t' & Er & Hb & Hres).
  assert (b = true) as ->.
  { apply Hb. split; [discriminate|]. split; [discriminate|]. split; [discriminate|]. exists demo_route. split; [exact Hd|]. split; [reflexivity|]. split; [reflexivity|]. split; [reflexivity|]. intros _. right. reflexivity. }
  exists t, s', t'. split; [exact (run_good demo_routes outs t E)|]. split; [exact Er|]. exact (proj1 (Hres eq_refl)).
Defined.
