(* ===== verification/SessionTable.v ===== *)
(** The session table, [src/peer/session.c]: sessions by transport address and
    by ICE user fragment, each through a hash index with tombstones, the
    positions of closed sessions reused, and the reference counts that keep a
    session alive while the table or a caller has it.  Sessions live on a
    heap; reading one that has been freed is a [Fault].  The rest of a
    session is built with it ([built] is the outcome).  An operation is one
    critical section under the table's lock, except that the connectivity
    check ([sfu_session_table_get_or_create_by_ufrag]) runs under a lock of
    its own and takes the table's lock for each of its parts: what other
    threads do to the table in between is an argument of it.  Its parts are
    also operations of their own in the histories of C10, so that every
    interleaving of them is a history. *)

From S2P Require Import Prelude OpenAddr HashIndex.
From stdpp Require Import gmap relations.
Local Open Scope Z_scope.

Definition SFU_SESSION_TABLE_MAX : Z := 32768.
Definition SFU_SESSION_HASH_SLOTS : Z := 65536.
Definition NO_INDEX : Z := 0xFFFFFFFF.
Abbreviation SLOTS := SFU_SESSION_HASH_SLOTS.

(** Addresses are the bytes of the socket address, fragments those before the
    final zero. *)
Record session := mk_session {
  ss_addr : list Z; ss_ufrag : list Z; ss_table_index : Z; ss_refcount : Z; ss_open : bool; ss_accepts_work : bool; ss_address_generation : Z
}.
#[export] Instance eta_session : Eta session := fun s =>
  mk_session (ss_addr s) (ss_ufrag s) (ss_table_index s) (ss_refcount s) (ss_open s) (ss_accepts_work s) (ss_address_generation s).
(** [st_free] are the [free_count] free indices, the last one on top. *)
Record sfu_session_table := mk_session_table {
  st_sessions : list (option Z); st_free : list Z; st_count : Z; st_active_count : Z; st_addr_index : list sfu_hash_slot; st_ufrag_index : list sfu_hash_slot
}.
#[export] Instance eta_session_table : Eta sfu_session_table := fun t =>
  mk_session_table (st_sessions t) (st_free t) (st_count t) (st_active_count t) (st_addr_index t) (st_ufrag_index t).
Record world := mk_world { w_table : sfu_session_table; w_heap : gmap Z session; w_next : Z }.
#[export] Instance eta_world : Eta world := fun w => mk_world (w_table w) (w_heap w) (w_next w).

Definition sfu_session_table_init : sfu_session_table :=
  mk_session_table (replicate (Z.to_nat SFU_SESSION_TABLE_MAX) None) [] 0 0
    (replicate (Z.to_nat SLOTS) (mk_hash_slot 0 SFU_HASH_EMPTY)) (replicate (Z.to_nat SLOTS) (mk_hash_slot 0 SFU_HASH_EMPTY)).
Definition empty_world : world := mk_world sfu_session_table_init ∅ 0.

(** ** References *)

Definition deref (w : world) (id : Z) : res session := match w_heap w !! id with Some s => Ok s | None => Fault end.
Definition set_session (w : world) (id : Z) (s : session) : world := w <| w_heap ::= <[id := s]> |>.
Definition retain (w : world) (id : Z) : res world :=
  let! s := deref w id in Ok (set_session w id (s <| ss_refcount ::= fun n => n + 1 |>)).
(** The last reference frees the session. *)
Definition sfu_session_release (w : world) (id : Z) : res world :=
  let! s := deref w id in
  if ss_refcount s =? 1 then Ok (w <| w_heap ::= delete id |>) else Ok (set_session w id (s <| ss_refcount ::= fun n => n - 1 |>)).

(** ** The two indices *)

Definition member_at (w : world) (idx : Z) : res (option Z) :=
  if idx <? st_count (w_table w) then match st_sessions (w_table w) !! Z.to_nat idx with Some o => Ok o | None => Fault end else Ok None.
(** [None] is [SFU_HASH_EMPTY]. *)
Definition addr_probe (table : list sfu_hash_slot) (hash : Z) (matches : sfu_hash_slot -> res bool) (for_insert : bool) : res (option Z) :=
  let! r := scan (Z.to_nat SLOTS) table SLOTS hash 0 matches None in
  Ok (match r with
      | ScanEmpty slot first_deleted => if for_insert then Some (default slot first_deleted) else None
      | ScanHit slot => Some slot
      | ScanEnd first_deleted => if for_insert then first_deleted else None
      end).
Definition addr_matches_direct (w : world) (addr : list Z) (sl : sfu_hash_slot) : res bool :=
  let! o := member_at w (hs_index sl) in
  match o with None => Ok false | Some id => let! s := deref w id in Ok (bool_decide (ss_addr s = addr)) end.
Definition ufrag_matches_direct (w : world) (ufrag : list Z) (sl : sfu_hash_slot) : res bool :=
  let! o := member_at w (hs_index sl) in
  match o with None => Ok false | Some id => let! s := deref w id in Ok (negb (bool_decide (ss_ufrag s = [])) && bool_decide (ss_ufrag s = ufrag)) end.
Definition table_member_index (w : world) (id : Z) : res (option Z) :=
  let! s := deref w id in
  let! o := member_at w (ss_table_index s) in
  Ok (if bool_decide (o = Some id) then Some (ss_table_index s) else None).
Definition slot_of (table : list sfu_hash_slot) (slot : Z) : res sfu_hash_slot := match table !! Z.to_nat slot with Some s => Ok s | None => Fault end.
Definition probe_addr (w : world) (addr : list Z) (for_insert : bool) : res (option Z) :=
  addr_probe (st_addr_index (w_table w)) (fnv1a addr) (addr_matches_direct w addr) for_insert.
Definition probe_ufrag (w : world) (ufrag : list Z) (for_insert : bool) : res (option Z) :=
  addr_probe (st_ufrag_index (w_table w)) (fnv1a ufrag) (ufrag_matches_direct w ufrag) for_insert.
Definition set_addr_slot (w : world) (slot : Z) (s : sfu_hash_slot) : world := w <| w_table ::= fun t => t <| st_addr_index ::= <[Z.to_nat slot := s]> |> |>.
Definition set_ufrag_slot (w : world) (slot : Z) (s : sfu_hash_slot) : world := w <| w_table ::= fun t => t <| st_ufrag_index ::= <[Z.to_nat slot := s]> |> |>.
Definition table_remove_addr_hash (w : world) (s : session) (idx : Z) : res world :=
  if bool_decide (ss_addr s = []) then Ok w else
  let! slot := probe_addr w (ss_addr s) false in
  match slot with
  | None => Ok w
  | Some slot => let! e := slot_of (st_addr_index (w_table w)) slot in Ok (if hs_index e =? idx then set_addr_slot w slot (e <| hs_index := SFU_HASH_DELETED |>) else w)
  end.
Definition table_remove_ufrag_hash (w : world) (s : session) (idx : Z) : res world :=
  if bool_decide (ss_ufrag s = []) then Ok w else
  let! slot := probe_ufrag w (ss_ufrag s) false in
  match slot with
  | None => Ok w
  | Some slot => let! e := slot_of (st_ufrag_index (w_table w)) slot in Ok (if hs_index e =? idx then set_ufrag_slot w slot (e <| hs_index := SFU_HASH_DELETED |>) else w)
  end.
Definition table_index_addr_locked (w : world) (s : session) (idx : Z) : res (bool * world) :=
  let! slot := probe_addr w (ss_addr s) true in
  match slot with None => Ok (false, w) | Some slot => Ok (true, set_addr_slot w slot (mk_hash_slot (fnv1a (ss_addr s)) idx)) end.

(** ** Operations *)

Definition member_of_slot (w : world) (table : list sfu_hash_slot) (slot : option Z) : res (option Z) :=
  match slot with
  | None => Ok None
  | Some slot => let! e := slot_of table slot in if hs_index e =? SFU_HASH_EMPTY then Ok None else member_at w (hs_index e)
  end.
Definition retained (w : world) (o : option Z) : res (option Z * world) :=
  match o with None => Ok (None, w) | Some id => let! w := retain w id in Ok (Some id, w) end.
Definition sfu_session_table_find (w : world) (addr : list Z) : res (option Z * world) :=
  if bool_decide (addr = []) then Ok (None, w) else
  let! slot := probe_addr w addr false in
  let! o := member_of_slot w (st_addr_index (w_table w)) slot in
  retained w o.
Definition sfu_session_table_find_by_ufrag (w : world) (ufrag : list Z) : res (option Z * world) :=
  if bool_decide (ufrag = []) then Ok (None, w) else
  let! slot := probe_ufrag w ufrag false in
  let! o := member_of_slot w (st_ufrag_index (w_table w)) slot in
  retained w o.
Definition push_free (t : sfu_session_table) (index : Z) : res sfu_session_table :=
  if zlen (st_free t) <? SFU_SESSION_TABLE_MAX then Ok (t <| st_free ::= fun l => l ++ [index] |>) else Fault.
Definition table_rollback_reserved_slot (w : world) (index : Z) (reused : bool) : res world :=
  if reused then let! t := push_free (w_table w) index in Ok (w <| w_table := t |>)
  else if index + 1 =? st_count (w_table w) then Ok (w <| w_table ::= fun t => t <| st_count ::= fun n => n - 1 |> |>) else Fault.
(** A position for a new session: a free one if there is any. *)
Definition reserve_index (w : world) : option (Z * bool * world) :=
  let t := w_table w in
  match last (st_free t) with
  | Some index => Some (index, true, w <| w_table := t <| st_free := removelast (st_free t) |> |>)
  | None => if SFU_SESSION_TABLE_MAX <=? st_count t then None else Some (st_count t, false, w <| w_table := t <| st_count ::= fun n => n + 1 |> |>)
  end.
Definition set_member (w : world) (index : Z) (o : option Z) : world := w <| w_table ::= fun t => t <| st_sessions ::= <[Z.to_nat index := o]> |> |>.
(** The new session enters the table, with one reference for it and one for the caller. *)
Definition publish_session (w : world) (addr : list Z) (index : Z) (reused : bool) : res (option Z * world) :=
  let id := w_next w in
  let s := mk_session addr [] index 2 true true 0 in
  let w := set_member (set_session (w <| w_next ::= fun n => n + 1 |>) id s) index (Some id) in
  let! (ok, w) := table_index_addr_locked w s index in
  if negb ok then
    let! w := table_rollback_reserved_slot (set_member w index None) index reused in
    Ok (None, w <| w_heap ::= delete id |>)
  else Ok (Some id, w <| w_table ::= fun t => t <| st_active_count ::= fun n => n + 1 |> |>).
Definition sfu_session_table_get_or_create (w : world) (addr : list Z) (built : bool) : res (option Z * world) :=
  if bool_decide (addr = []) || (128 <? zlen addr) then Ok (None, w) else
  let! slot := probe_addr w addr false in
  let! existing := member_of_slot w (st_addr_index (w_table w)) slot in
  match existing with
  | Some id => retained w (Some id)
  | None =>
      match reserve_index w with
      | None => Ok (None, w)
      | Some (index, reused, w) =>
          if negb built then let! w := table_rollback_reserved_slot w index reused in Ok (None, w)
          else publish_session w addr index reused
      end
  end.
Definition unlink (w : world) (id : Z) (s : session) (idx : Z) : res world :=
  let! w := table_remove_addr_hash w s idx in
  let! w := table_remove_ufrag_hash w s idx in
  let w := set_member w idx None in
  let w := set_session w id (s <| ss_table_index := NO_INDEX |>) in
  let! t := push_free (w_table w) idx in
  Ok (w <| w_table := t <| st_active_count ::= fun n => if 0 <? n then n - 1 else n |> |>).
(** The removal from the room is not part of the table. *)
Definition sfu_session_begin_close (w : world) (id : Z) : res (bool * world) :=
  let! s := deref w id in
  if negb (ss_open s) then Ok (false, w) else
  let s := s <| ss_open := false |> <| ss_accepts_work := false |> in
  let w := set_session w id s in
  let! idx := table_member_index w id in
  let! w := (match idx with Some idx => unlink w id s idx | None => Ok w end) in
  let! w := sfu_session_release w id in
  Ok (true, w).
Definition sfu_session_table_rebind_addr (w : world) (id : Z) (addr : list Z) : res (bool * world) :=
  if bool_decide (addr = []) || (128 <? zlen addr) then Ok (false, w) else
  let! idx := table_member_index w id in
  let! s := deref w id in
  match idx with
  | None => Ok (false, w)
  | Some idx =>
      if negb (ss_open s) || negb (ss_accepts_work s) then Ok (false, w) else
      let! occupied := probe_addr w addr false in
      let! taken := (match occupied with None => Ok false | Some slot => let! e := slot_of (st_addr_index (w_table w)) slot in Ok (negb (hs_index e =? idx)) end) in
      if taken then Ok (false, w) else
      let! insert_slot := probe_addr w addr true in
      match insert_slot with
      | None => Ok (false, w)
      | Some insert_slot =>
          let! w := table_remove_addr_hash w s idx in
          let w := set_session w id (s <| ss_addr := addr |> <| ss_address_generation ::= fun n => u32 (n + 1) |>) in
          Ok (true, set_addr_slot w insert_slot (mk_hash_slot (fnv1a addr) idx))
      end
  end.
Definition sfu_session_table_index_ufrag (w : world) (id : Z) : res (bool * world) :=
  let! s := deref w id in
  if bool_decide (ss_ufrag s = []) then Ok (false, w) else
  let! idx := table_member_index w id in
  match idx with
  | None => Ok (false, w)
  | Some idx =>
      if negb (ss_open s) || negb (ss_accepts_work s) then Ok (false, w) else
      let! existing := probe_ufrag w (ss_ufrag s) false in
      let! taken := (match existing with None => Ok false | Some slot => let! e := slot_of (st_ufrag_index (w_table w)) slot in Ok (negb (hs_index e =? idx)) end) in
      if taken then Ok (false, w) else
      let! slot := probe_ufrag w (ss_ufrag s) true in
      match slot with None => Ok (false, w) | Some slot => Ok (true, set_ufrag_slot w slot (mk_hash_slot (fnv1a (ss_ufrag s)) idx)) end
  end.
Inductive sfu_session_rebind_result := SFU_SESSION_REBIND_UNCHANGED | SFU_SESSION_REBIND_APPLIED | SFU_SESSION_REBIND_REJECTED.
(** [others] is what other threads do while the table's lock is free. *)
Definition quiet (w : world) : world := w.
(** The session at an address that has no fragment yet, or this one, is given it. *)
Definition claim_ufrag (others : world -> world) (w : world) (id : Z) (ufrag : list Z) : res (option Z * world) :=
  let! s := deref w id in
  if negb (bool_decide (ss_ufrag s = [])) && negb (bool_decide (ss_ufrag s = ufrag)) then let! w := sfu_session_release w id in Ok (None, w) else
  let w := if bool_decide (ss_ufrag s = []) then set_session w id (s <| ss_ufrag := take 31 ufrag |>) else w in
  let! (indexed, w) := sfu_session_table_index_ufrag w id in
  if indexed then Ok (Some id, w) else
  let! (winner, w) := sfu_session_table_find_by_ufrag (others w) ufrag in
  let! w := sfu_session_release w id in
  Ok (winner, w).
Definition sfu_session_table_get_or_create_by_ufrag (others : world -> world) (w : world) (addr ufrag : list Z) (allow_rebind built : bool)
  : res (option Z * sfu_session_rebind_result * world) :=
  if bool_decide (addr = []) || (128 <? zlen addr) || bool_decide (ufrag = []) then Ok (None, SFU_SESSION_REBIND_UNCHANGED, w) else
  let! (found, w) := sfu_session_table_find_by_ufrag w ufrag in
  match found with
  | Some id =>
      let! s := deref w id in
      if negb (bool_decide (ss_addr s = addr)) && allow_rebind then
        let! (rebound, w) := sfu_session_table_rebind_addr (others w) id addr in
        if rebound then Ok (Some id, SFU_SESSION_REBIND_APPLIED, w)
        else let! w := sfu_session_release w id in Ok (None, SFU_SESSION_REBIND_REJECTED, w)
      else Ok (Some id, SFU_SESSION_REBIND_UNCHANGED, w)
  | None =>
      let! (made, w) := sfu_session_table_get_or_create (others w) addr built in
      match made with
      | None => Ok (None, SFU_SESSION_REBIND_UNCHANGED, w)
      | Some id => let! (o, w) := claim_ufrag others (others w) id ufrag in Ok (o, SFU_SESSION_REBIND_UNCHANGED, w)
      end
  end.

(** * Invariant *)

Definition session_at (w : world) (p id : Z) (s : session) : Prop :=
  0 <= p < st_count (w_table w) /\ st_sessions (w_table w) !! Z.to_nat p = Some (Some id) /\ w_heap w !! id = Some s.
Definition at_index (w : world) (p : Z) : option session :=
  if (0 <=? p) && (p <? st_count (w_table w)) then match st_sessions (w_table w) !! Z.to_nat p with Some (Some id) => w_heap w !! id | _ => None end else None.
Definition addr_key (w : world) (p : Z) : option (list Z) := ss_addr <$> at_index w p.
Definition ufrag_key (w : world) (p : Z) : option (list Z) :=
  match at_index w p with Some s => if bool_decide (ss_ufrag s = []) then None else Some (ss_ufrag s) | None => None end.
Abbreviation addr_holds w := (holds (addr_key w) (st_addr_index (w_table w))).
Abbreviation ufrag_holds w := (holds (ufrag_key w) (st_ufrag_index (w_table w))).
Record links_ok (w : world) : Prop := {
  lk_len : zlen (st_sessions (w_table w)) = SFU_SESSION_TABLE_MAX;
  lk_count : 0 <= st_count (w_table w) <= SFU_SESSION_TABLE_MAX;
  lk_member : forall p id, st_sessions (w_table w) !! p = Some (Some id) -> Z.of_nat p < st_count (w_table w) /\
    exists s, w_heap w !! id = Some s /\ ss_table_index s = Z.of_nat p /\ ss_open s = true /\ ss_accepts_work s = true /\ ss_addr s <> [];
  lk_outside : forall id s, w_heap w !! id = Some s ->
    if ss_open s then 0 <= ss_table_index s /\ st_sessions (w_table w) !! Z.to_nat (ss_table_index s) = Some (Some id) else ss_table_index s = NO_INDEX;
  lk_free : forall p, p ∈ st_free (w_table w) <-> 0 <= p < st_count (w_table w) /\ st_sessions (w_table w) !! Z.to_nat p = Some None;
  lk_nodup : NoDup (st_free (w_table w));
  lk_active : st_active_count (w_table w) = st_count (w_table w) - zlen (st_free (w_table w));
  lk_fresh : forall id s, w_heap w !! id = Some s -> id < w_next w
}.
(** What lookups need of the table. *)
Record tbl_ok (w : world) : Prop := {
  tb_len : zlen (st_sessions (w_table w)) = SFU_SESSION_TABLE_MAX;
  tb_count : 0 <= st_count (w_table w) <= SFU_SESSION_TABLE_MAX;
  tb_member : forall p id, st_sessions (w_table w) !! p = Some (Some id) -> Z.of_nat p < st_count (w_table w) /\ exists s, w_heap w !! id = Some s
}.
Lemma links_tbl w : links_ok w -> tbl_ok w.
Proof. intros Hl. split; [apply Hl|apply Hl|]. intros p id Hp. destruct (lk_member _ Hl p id Hp) as (? & s & ? & _). split; [done|by exists s]. Qed.
Record st_ok (w : world) : Prop := {
  so_links : links_ok w;
  so_addr : index_ok 16 fnv1a (addr_key w) (st_addr_index (w_table w));
  so_addr_all : forall p id s, session_at w p id s -> addr_holds w (ss_addr s) p;
  so_ufrag : index_ok 16 fnv1a (ufrag_key w) (st_ufrag_index (w_table w))
}.
(** [held id] are the references callers have; an open session has one more,
    that of the table. *)
Definition refs_ok (w : world) (held : Z -> Z) : Prop :=
  forall id, 0 <= held id /\ match w_heap w !! id with Some s => ss_refcount s = (if ss_open s then 1 else 0) + held id /\ 1 <= ss_refcount s | None => held id = 0 end.

Lemma at_index_iff w p s : at_index w p = Some s <-> exists id, session_at w p id s.
Proof.
  unfold at_index, session_at. destruct (Z.leb_spec 0 p), (Z.ltb_spec p (st_count (w_table w))); cbn [andb].
  2-4: split; [done|intros (? & ? & _); lia].
  split.
  - destruct (st_sessions (w_table w) !! Z.to_nat p) as [[id|]|]; try done. intros E. exists id. split_and!; done || lia.
  - intros (id & _ & -> & E). done.
Qed.
Lemma addr_key_iff w p k : addr_key w p = Some k <-> exists id s, session_at w p id s /\ ss_addr s = k.
Proof.
  unfold addr_key. destruct (at_index w p) as [s|] eqn:E; cbn.
  - apply at_index_iff in E as [id Hs]. split; [intros [= <-]; by exists id, s|]. intros (id' & s' & Hs' & <-). f_equal. destruct Hs as (_ & E1 & E2), Hs' as (_ & E1' & E2'). congruence.
  - split; [done|]. intros (id & s & Hs & _). assert (at_index w p = Some s) by (apply at_index_iff; by exists id). congruence.
Qed.
Lemma ufrag_key_iff w p k : ufrag_key w p = Some k <-> exists id s, session_at w p id s /\ ss_ufrag s = k /\ k <> [].
Proof.
  unfold ufrag_key. destruct (at_index w p) as [s|] eqn:E; cbn.
  - apply at_index_iff in E as [id Hs]. assert (Hu : forall id' s', session_at w p id' s' -> s' = s) by (intros id' s' Hs'; destruct Hs as (_ & E1 & E2), Hs' as (_ & E1' & E2'); congruence).
    case_bool_decide as Eu; split; [done|intros (id' & s' & Hs' & <- & Hn); by rewrite (Hu _ _ Hs') in Hn|intros [= <-]; by exists id, s|]. intros (id' & s' & Hs' & <- & _). by rewrite (Hu _ _ Hs').
  - split; [done|]. intros (id & s & Hs & _). assert (at_index w p = Some s) by (apply at_index_iff; by exists id). congruence.
Qed.
Lemma member_spec w p : tbl_ok w -> 0 <= p -> member_at w p = Ok None /\ (forall id s, ~ session_at w p id s) \/ exists id s, member_at w p = Ok (Some id) /\ session_at w p id s.
Proof.
  intros Hl Hp. unfold member_at. destruct (Z.ltb_spec p (st_count (w_table w))) as [Hlt|]; [|left; split; [done|]; intros id s (? & _); lia].
  destruct (lookup_lt_is_Some_2 (st_sessions (w_table w)) (Z.to_nat p)) as [o Ho]; [pose proof (tb_len _ Hl); pose proof (tb_count _ Hl); unfold zlen in *; lia|]. rewrite Ho.
  destruct o as [id|]; [|left; split; [done|]; intros id s (_ & ? & _); congruence]. right. destruct (tb_member _ Hl _ _ Ho) as (_ & s & Hs). exists id, s. split; [done|]. split; [lia|done].
Qed.

(** ** Probes *)

Section Probe.
Context (key : Z -> option (list Z)) (idx : list sfu_hash_slot) (k : list Z) (matches : sfu_hash_slot -> res bool)
  (Hix : index_ok 16 fnv1a key idx) (Hroom : forall k p, holds key idx k p -> 0 <= p < SFU_SESSION_TABLE_MAX)
  (Hm : forall j s, idx !! j = Some s -> live s -> hs_hash s = fnv1a k -> matches s = Ok (bool_decide (key (hs_index s) = Some k))).
Lemma addr_probe_cases :
  (exists i s, (forall b, addr_probe idx (fnv1a k) matches b = Ok (Some (Z.of_nat i))) /\ idx !! i = Some s /\ live s /\ key (hs_index s) = Some k) \/
  (forall p, ~ holds key idx k p) /\ addr_probe idx (fnv1a k) matches false = Ok None /\
    exists j, addr_probe idx (fnv1a k) matches true = Ok (Some j) /\ 0 <= j < SLOTS /\ free_at SLOTS fnv1a (index_view key idx) k j.
Proof.
  destruct (scan_cases 16 fnv1a bits16 key idx k matches SFU_SESSION_TABLE_MAX Hix (fnv1a_u32 k) ltac:(done) Hroom Hm) as (r & Er & [(i & s & -> & Hs & Hl & Hk)|(Hno & (j & Hj & Hb & Hf) & Hr)]).
  - left. exists i, s. split; [|done]. intros b. unfold addr_probe. change (2 ^ 16) with SLOTS in Er. rewrite Er. done.
  - right. split; [done|]. unfold addr_probe. change (2 ^ 16) with SLOTS in Er. rewrite Er. cbn [res_bind]. split; [by destruct r|]. exists j. split; [|done]. f_equal. by destruct r.
Qed.
End Probe.
Lemma addr_room w k p : tbl_ok w -> addr_holds w k p -> 0 <= p < SFU_SESSION_TABLE_MAX.
Proof. intros Hl (i & s & _ & _ & _ & Hk). apply addr_key_iff in Hk as (id & x & (Hp & _) & _). pose proof (tb_count _ Hl). lia. Qed.
Lemma ufrag_room w k p : tbl_ok w -> ufrag_holds w k p -> 0 <= p < SFU_SESSION_TABLE_MAX.
Proof. intros Hl (i & s & _ & _ & _ & Hk). apply ufrag_key_iff in Hk as (id & x & (Hp & _) & _). pose proof (tb_count _ Hl). lia. Qed.
Lemma addr_match_ok w k sl : tbl_ok w -> live sl -> addr_matches_direct w k sl = Ok (bool_decide (addr_key w (hs_index sl) = Some k)).
Proof.
  intros Hl Hlv. unfold addr_matches_direct. destruct (member_spec w (hs_index sl) Hl) as [[-> Hno]|(id & s & -> & Hs)]; [apply Hlv|cbn [res_bind]; rewrite bool_decide_false; [done|]; intros (id & s & Hs & _)%addr_key_iff; by apply (Hno id s)|].
  cbn [res_bind]. unfold deref. rewrite (proj2 (proj2 Hs)). cbn [res_bind]. f_equal. apply bool_decide_ext. rewrite addr_key_iff. split; [by intros <-; exists id, s|].
  intros (id' & s' & Hs' & <-). destruct Hs as (_ & E1 & E2), Hs' as (_ & E1' & E2'). congruence.
Qed.
Lemma ufrag_match_ok w k sl : tbl_ok w -> live sl -> ufrag_matches_direct w k sl = Ok (bool_decide (ufrag_key w (hs_index sl) = Some k)).
Proof.
  intros Hl Hlv. unfold ufrag_matches_direct. destruct (member_spec w (hs_index sl) Hl) as [[-> Hno]|(id & s & -> & Hs)]; [apply Hlv|cbn [res_bind]; rewrite bool_decide_false; [done|]; intros (id & s & Hs & _)%ufrag_key_iff; by apply (Hno id s)|].
  cbn [res_bind]. unfold deref. rewrite (proj2 (proj2 Hs)). cbn [res_bind]. f_equal. rewrite <- bool_decide_not, <- bool_decide_and. apply bool_decide_ext. rewrite ufrag_key_iff. split; [by intros [? <-]; exists id, s|].
  intros (id' & s' & Hs' & <- & Hn). assert (s' = s) as -> by (destruct Hs as (_ & E1 & E2), Hs' as (_ & E1' & E2'); congruence). done.
Qed.
Lemma addr_cases w k : tbl_ok w -> index_ok 16 fnv1a (addr_key w) (st_addr_index (w_table w)) ->
  (exists i sl id s, (forall b, probe_addr w k b = Ok (Some (Z.of_nat i))) /\ st_addr_index (w_table w) !! i = Some sl /\ live sl /\ session_at w (hs_index sl) id s /\ ss_addr s = k) \/
  (forall p, ~ addr_holds w k p) /\ probe_addr w k false = Ok None /\
    exists j, probe_addr w k true = Ok (Some j) /\ 0 <= j < SLOTS /\ free_at SLOTS fnv1a (index_view (addr_key w) (st_addr_index (w_table w))) k j.
Proof.
  intros Hl Hix. destruct (addr_probe_cases (addr_key w) (st_addr_index (w_table w)) k (addr_matches_direct w k)) as [(i & sl & Hp & Hs & Hlv & Hk)|H]; [done|intros k' p; by apply addr_room|intros j s _ Hlv _; by apply addr_match_ok| |by right].
  left. apply addr_key_iff in Hk as (id & s & Hat & <-). exists i, sl, id, s. done.
Qed.
Lemma ufrag_cases w k : tbl_ok w -> index_ok 16 fnv1a (ufrag_key w) (st_ufrag_index (w_table w)) ->
  (exists i sl id s, (forall b, probe_ufrag w k b = Ok (Some (Z.of_nat i))) /\ st_ufrag_index (w_table w) !! i = Some sl /\ live sl /\ session_at w (hs_index sl) id s /\ ss_ufrag s = k /\ k <> []) \/
  (forall p, ~ ufrag_holds w k p) /\ probe_ufrag w k false = Ok None /\
    exists j, probe_ufrag w k true = Ok (Some j) /\ 0 <= j < SLOTS /\ free_at SLOTS fnv1a (index_view (ufrag_key w) (st_ufrag_index (w_table w))) k j.
Proof.
  intros Hl Hix. destruct (addr_probe_cases (ufrag_key w) (st_ufrag_index (w_table w)) k (ufrag_matches_direct w k)) as [(i & sl & Hp & Hs & Hlv & Hk)|H]; [done|intros k' p; by apply ufrag_room|intros j s _ Hlv _; by apply ufrag_match_ok| |by right].
  left. apply ufrag_key_iff in Hk as (id & s & Hat & <- & Hn). exists i, sl, id, s. done.
Qed.
(** The owner of an address and of a fragment. *)
Definition addr_owner (w : world) (addr : list Z) (id : Z) : Prop := exists p s, session_at w p id s /\ ss_addr s = addr.
Definition ufrag_owner (w : world) (ufrag : list Z) (id : Z) : Prop := exists p s, session_at w p id s /\ ufrag_holds w ufrag p.
Lemma session_at_fun w p id s id' s' : session_at w p id s -> session_at w p id' s' -> id' = id /\ s' = s.
Proof. intros (_ & E1 & E2) (_ & E1' & E2'). split; congruence. Qed.
Lemma session_at_pos w p q id s s' : links_ok w -> session_at w p id s -> session_at w q id s' -> p = q /\ s' = s.
Proof.
  intros Hl ([Hp _] & E1 & E2) ([Hq _] & E1' & E2'). assert (s' = s) as -> by congruence. split; [|done]. destruct (lk_member _ Hl _ _ E1) as (_ & x & Hx & Ix & _). destruct (lk_member _ Hl _ _ E1') as (_ & y & Hy & Iy & _).
  assert (x = s) as -> by congruence. assert (y = s) as -> by congruence. lia.
Qed.
(** Addresses and fragments have one owner. *)
Lemma addr_owner_fun w addr id id' : st_ok w -> addr_owner w addr id -> addr_owner w addr id' -> id = id'.
Proof.
  intros Hw (p & s & Hs & <-) (q & s' & Hs' & E). pose proof (so_addr_all _ Hw _ _ _ Hs) as H1. pose proof (so_addr_all _ Hw _ _ _ Hs') as H2. rewrite E in H2.
  pose proof (holds_fun 16 fnv1a bits16 _ _ _ _ _ (so_addr _ Hw) H1 H2) as <-. by destruct (session_at_fun _ _ _ _ _ _ Hs Hs') as [-> _].
Qed.
Lemma ufrag_owner_fun w u id id' : st_ok w -> ufrag_owner w u id -> ufrag_owner w u id' -> id = id'.
Proof.
  intros Hw (p & s & Hs & H1) (q & s' & Hs' & H2). pose proof (holds_fun 16 fnv1a bits16 _ _ _ _ _ (so_ufrag _ Hw) H1 H2) as <-. by destruct (session_at_fun _ _ _ _ _ _ Hs Hs') as [-> _].
Qed.

(** ** Changes that the indices do not see *)

Definition member_id (w : world) (p id : Z) : Prop := 0 <= p < st_count (w_table w) /\ st_sessions (w_table w) !! Z.to_nat p = Some (Some id).
Record same_view (w w' : world) : Prop := {
  sv_members : forall p id, member_id w' p id <-> member_id w p id;
  sv_addr : forall p, addr_key w' p = addr_key w p;
  sv_ufrag : forall p, ufrag_key w' p = ufrag_key w p;
  sv_addr_index : st_addr_index (w_table w') = st_addr_index (w_table w);
  sv_ufrag_index : st_ufrag_index (w_table w') = st_ufrag_index (w_table w)
}.
Lemma addr_owner_key w addr id : links_ok w -> addr_owner w addr id <-> exists p, member_id w p id /\ addr_key w p = Some addr.
Proof.
  intros Hl. split.
  - intros (p & s & Hs & <-). exists p. split; [by destruct Hs as (? & ? & _)|]. apply addr_key_iff. by exists id, s.
  - intros (p & [Hp Hm] & (id' & s & Hs & <-)%addr_key_iff). exists p, s. split; [|done]. assert (id' = id) as -> by (destruct Hs as (_ & E & _); congruence). done.
Qed.
Lemma ufrag_owner_key w u id : links_ok w -> ufrag_owner w u id <-> exists p, member_id w p id /\ ufrag_holds w u p.
Proof.
  intros Hl. split.
  - intros (p & s & Hs & H). exists p. split; [by destruct Hs as (? & ? & _)|done].
  - intros (p & [Hp Hm] & H). destruct (lk_member _ Hl _ _ Hm) as (_ & s & Hs & _). exists p, s. split; [|done]. by split.
Qed.
Lemma same_view_holds w w' : same_view w w' -> (forall k p, addr_holds w' k p <-> addr_holds w k p) /\ (forall k p, ufrag_holds w' k p <-> ufrag_holds w k p).
Proof.
  intros [_ Ha Hu Ea Eu]. split; intros k p; [rewrite Ea|rewrite Eu]; apply rekey_holds; intros j s _ _; [apply Ha|apply Hu].
Qed.
Lemma same_view_owners w w' : links_ok w -> links_ok w' -> same_view w w' -> (forall a id, addr_owner w' a id <-> addr_owner w a id) /\ (forall u id, ufrag_owner w' u id <-> ufrag_owner w u id).
Proof.
  intros Hl Hl' Hv. pose proof (same_view_holds w w' Hv) as [_ Hu]. destruct Hv as [Hm Ha _ _ _]. split; intros k id.
  - rewrite !addr_owner_key by done. split; intros (p & H1 & H2); exists p; (split; [by apply Hm|]); [by rewrite <- Ha|by rewrite Ha].
  - rewrite !ufrag_owner_key by done. split; intros (p & H1 & H2); exists p; (split; [by apply Hm|]); by apply Hu.
Qed.
Lemma same_view_ok w w' : st_ok w -> links_ok w' -> same_view w w' -> st_ok w'.
Proof.
  intros Hw Hl' Hv. pose proof (same_view_holds w w' Hv) as [Hah _]. destruct Hv as [Hm Ha Hu Ea Eu]. split; [done|rewrite Ea; eapply rekey_ok; [apply bits16|apply Hw|intros j s _ _; apply Ha]| |rewrite Eu; eapply rekey_ok; [apply bits16|apply Hw|intros j s _ _; apply Hu]].
  intros p id s Hs. apply Hah. assert (E : addr_key w p = Some (ss_addr s)) by (rewrite <- Ha; apply addr_key_iff; by exists id, s). apply addr_key_iff in E as (id0 & s0 & Hs0 & <-). by apply (so_addr_all _ Hw p id0 s0).
Qed.
Definition same_face (s s' : session) : Prop :=
  ss_addr s' = ss_addr s /\ ss_ufrag s' = ss_ufrag s /\ ss_table_index s' = ss_table_index s /\ ss_open s' = ss_open s /\ ss_accepts_work s' = ss_accepts_work s.
Lemma set_links w id s s' : links_ok w -> w_heap w !! id = Some s -> ss_table_index s' = ss_table_index s -> ss_open s' = ss_open s -> ss_accepts_work s' = ss_accepts_work s -> ss_addr s' <> [] \/ ss_addr s' = ss_addr s ->
  links_ok (set_session w id s').
Proof.
  intros Hl Hs Ei Eo Ea Eadr. pose proof (lk_outside _ Hl id s Hs) as Hout. split; try apply Hl.
  - intros p j Hj. destruct (lk_member _ Hl p j Hj) as (Hlt & x & Hx & H). split; [done|]. change (w_heap (set_session w id s')) with (<[id := s']> (w_heap w)). destruct (decide (j = id)) as [->|Hne].
    + rewrite lookup_insert_eq. assert (x = s) as -> by congruence. exists s'. split; [done|]. rewrite Ei, Eo, Ea. destruct H as (? & ? & ? & ?). split_and!; try done. destruct Eadr as [?|E]; [done|by rewrite E].
    + rewrite lookup_insert_ne by done. by exists x.
  - intros j x. change (w_heap (set_session w id s')) with (<[id := s']> (w_heap w)). rewrite lookup_insert_Some. intros [[<- <-]|[_ Hx]]; [by rewrite Eo, Ei|by apply (lk_outside _ Hl)].
  - intros j x. change (w_heap (set_session w id s')) with (<[id := s']> (w_heap w)). rewrite lookup_insert_Some. intros [[<- _]|[_ Hx]]; [by apply (lk_fresh _ Hl _ s)|by apply (lk_fresh _ Hl _ x)].
Qed.
Lemma set_at_index w id s s' p : w_heap w !! id = Some s ->
  at_index (set_session w id s') p = (if bool_decide (member_id w p id) then Some s' else at_index w p).
Proof.
  intros Hs. unfold at_index, member_id. change (w_table (set_session w id s')) with (w_table w). change (w_heap (set_session w id s')) with (<[id := s']> (w_heap w)).
  destruct (Z.leb_spec 0 p), (Z.ltb_spec p (st_count (w_table w))); cbn [andb]; try (rewrite bool_decide_false; [done|lia]). destruct (st_sessions (w_table w) !! Z.to_nat p) as [[j|]|] eqn:E.
  - destruct (decide (j = id)) as [->|Hne]; [rewrite lookup_insert_eq, bool_decide_true by (split; [lia|done]); done|]. rewrite lookup_insert_ne, bool_decide_false by (done || (intros [_ [= ?]]; done)). done.
  - rewrite bool_decide_false; [done|]. by intros [_ ?].
  - rewrite bool_decide_false; [done|]. by intros [_ ?].
Qed.
Lemma member_index w id s p : links_ok w -> w_heap w !! id = Some s -> member_id w p id -> at_index w p = Some s.
Proof. intros Hl Hs [Hp Hm]. apply at_index_iff. by exists id. Qed.
Lemma touch_view w id s s' : links_ok w -> w_heap w !! id = Some s -> same_face s s' -> same_view w (set_session w id s').
Proof.
  intros Hl Hs (Ea & Eu & _). split; try done; intros p.
  - unfold addr_key. rewrite (set_at_index w id s s') by done. case_bool_decide as Hm; [|done]. rewrite (member_index w id s p Hl Hs Hm). cbn. by rewrite Ea.
  - unfold ufrag_key. rewrite (set_at_index w id s s') by done. case_bool_decide as Hm; [|done]. rewrite (member_index w id s p Hl Hs Hm). by rewrite Eu.
Qed.
Lemma touch_ok w id s s' : st_ok w -> w_heap w !! id = Some s -> same_face s s' -> st_ok (set_session w id s') /\ same_view w (set_session w id s').
Proof.
  intros Hw Hs Hf. pose proof (so_links _ Hw) as Hl. pose proof (touch_view w id s s' Hl Hs Hf) as Hv. split; [|done]. eapply same_view_ok; [done| |done].
  destruct Hf as (Ea & _ & Ei & Eo & Ew). eapply set_links; try done. by right.
Qed.
Definition one_more (held : Z -> Z) (id : Z) : Z -> Z := fun i => if i =? id then held i + 1 else held i.
Definition one_less (held : Z -> Z) (id : Z) : Z -> Z := fun i => if i =? id then held i - 1 else held i.
Lemma free_links w id s : links_ok w -> w_heap w !! id = Some s -> ss_open s = false -> links_ok (w <| w_heap ::= delete id |>).
Proof.
  intros Hl Hs Ho. split; try apply Hl.
  - intros p j Hj. destruct (lk_member _ Hl p j Hj) as (Hlt & x & Hx & H). split; [done|]. exists x. split; [|done]. change (w_heap (w <| w_heap ::= delete id |>)) with (delete id (w_heap w)). rewrite lookup_delete_ne; [done|].
    intros <-. destruct H as (_ & Ho' & _). congruence.
  - intros j x. change (w_heap (w <| w_heap ::= delete id |>)) with (delete id (w_heap w)). intros [_ Hx]%lookup_delete_Some. by apply (lk_outside _ Hl).
  - intros j x. change (w_heap (w <| w_heap ::= delete id |>)) with (delete id (w_heap w)). intros [_ Hx]%lookup_delete_Some. by apply (lk_fresh _ Hl _ x).
Qed.
Lemma free_view w id s : links_ok w -> w_heap w !! id = Some s -> ss_open s = false -> same_view w (w <| w_heap ::= delete id |>).
Proof.
  intros Hl Hs Ho. assert (E : forall p, at_index (w <| w_heap ::= delete id |>) p = at_index w p).
  { intros p. unfold at_index. change (w_table (w <| w_heap ::= delete id |>)) with (w_table w). change (w_heap (w <| w_heap ::= delete id |>)) with (delete id (w_heap w)). destruct (_ && _); [|done].
    destruct (st_sessions (w_table w) !! Z.to_nat p) as [[j|]|] eqn:Ep; try done. apply lookup_delete_ne. intros <-. destruct (lk_member _ Hl _ _ Ep) as (_ & x & Hx & _ & Hox & _). congruence. }
  split; try done; intros p; [unfold addr_key|unfold ufrag_key]; by rewrite E.
Qed.
Lemma retain_spec w held id : st_ok w -> refs_ok w held -> w_heap w !! id <> None ->
  exists w', retain w id = Ok w' /\ st_ok w' /\ refs_ok w' (one_more held id) /\ same_view w w' /\ w_heap w' !! id <> None.
Proof.
  intros Hw Hr Hin. destruct (w_heap w !! id) as [s|] eqn:Hs; [|done]. unfold retain, deref. rewrite Hs. cbn [res_bind]. eexists. split; [reflexivity|]. set (s' := s <| ss_refcount ::= _ |>).
  destruct (touch_ok w id s s' Hw Hs) as [Hw' Hv]; [done|]. split; [done|]. split; [|split; [done|change (w_heap (set_session w id s')) with (<[id := s']> (w_heap w)); by rewrite lookup_insert_eq]].
  intros i. destruct (Hr i) as [H0 H]. unfold one_more. change (w_heap (set_session w id s')) with (<[id := s']> (w_heap w)). destruct (Z.eqb_spec i id) as [->|Hne].
  - rewrite lookup_insert_eq. rewrite Hs in H. change (ss_refcount s') with (ss_refcount s + 1). change (ss_open s') with (ss_open s). lia.
  - rewrite lookup_insert_ne by done. done.
Qed.
(** Giving back a reference: the session is freed exactly if it is closed and
    it was the last one. *)
Lemma release_spec w held id s : st_ok w -> refs_ok w held -> 1 <= held id -> w_heap w !! id = Some s ->
  exists w', sfu_session_release w id = Ok w' /\ st_ok w' /\ refs_ok w' (one_less held id) /\ same_view w w' /\ (w_heap w' !! id = None <-> ss_open s = false /\ held id = 1).
Proof.
  intros Hw Hr Hh Hs. unfold sfu_session_release, deref. rewrite Hs. cbn [res_bind]. destruct (Hr id) as [_ Hid]. rewrite Hs in Hid. destruct Hid as [Hc Hc1]. destruct (Z.eqb_spec (ss_refcount s) 1) as [E1|Hn1].
  - assert (Ho : ss_open s = false) by (destruct (ss_open s); [lia|done]). rewrite Ho in Hc. pose proof (free_view w id s (so_links _ Hw) Hs Ho) as Hv. eexists. split; [reflexivity|].
    split; [eapply same_view_ok; [done|by eapply free_links; [apply Hw|..]|done]|]. change (w_heap (w <| w_heap ::= delete id |>)) with (delete id (w_heap w)). split; [|split; [done|rewrite lookup_delete_eq; split; [intros _; split; [done|lia]|done]]].
    intros i. unfold one_less. change (w_heap (w <| w_heap ::= delete id |>)) with (delete id (w_heap w)). destruct (Hr i) as [H0 H]. destruct (Z.eqb_spec i id) as [->|Hne]; [rewrite lookup_delete_eq; lia|by rewrite lookup_delete_ne].
  - set (s' := s <| ss_refcount ::= _ |>). destruct (touch_ok w id s s' Hw Hs) as [Hw' Hv]; [done|]. eexists. split; [reflexivity|]. split; [done|].
    split; [|split; [done|change (w_heap (set_session w id s')) with (<[id := s']> (w_heap w)); rewrite lookup_insert_eq; split; [done|]; intros [Ho ?]; rewrite Ho in Hc; lia]].
    intros i. destruct (Hr i) as [H0 H]. unfold one_less. change (w_heap (set_session w id s')) with (<[id := s']> (w_heap w)). destruct (Z.eqb_spec i id) as [->|Hne].
    + rewrite lookup_insert_eq. change (ss_refcount s') with (ss_refcount s - 1). change (ss_open s') with (ss_open s). lia.
    + by rewrite lookup_insert_ne.
Qed.
Lemma member_slot_spec w (idx : list sfu_hash_slot) i sl id s : links_ok w -> idx !! i = Some sl -> live sl -> session_at w (hs_index sl) id s -> member_of_slot w idx (Some (Z.of_nat i)) = Ok (Some id).
Proof.
  intros Hl Hs Hlv (Hp & E & _). unfold member_of_slot, slot_of. rewrite Nat2Z.id, Hs. cbn [res_bind]. rewrite (proj2 (Z.eqb_neq _ _)) by (unfold live, SFU_HASH_EMPTY, SFU_HASH_DELETED in *; lia).
  unfold member_at. rewrite (proj2 (Z.ltb_lt _ _)) by lia. by rewrite E.
Qed.
Definition got (held : Z -> Z) (o : option Z) : Z -> Z := match o with Some id => one_more held id | None => held end.
Lemma retained_spec w held o : st_ok w -> refs_ok w held -> (forall id, o = Some id -> w_heap w !! id <> None) ->
  exists w', retained w o = Ok (o, w') /\ st_ok w' /\ refs_ok w' (got held o) /\ same_view w w' /\ forall id, o = Some id -> w_heap w' !! id <> None.
Proof.
  intros Hw Hr Ho. destruct o as [id|]; cbn [retained got]; [|exists w; split_and!; try done; by split]. destruct (retain_spec w held id Hw Hr (Ho id eq_refl)) as (w' & -> & Hw' & Hr' & Hv & Hin). cbn [res_bind]. exists w'.
  split_and!; try done. by intros id' [= <-].
Qed.
(** ** Lookups *)
Lemma find_spec w held addr : st_ok w -> refs_ok w held ->
  exists o w', sfu_session_table_find w addr = Ok (o, w') /\ st_ok w' /\ refs_ok w' (got held o) /\ same_view w w' /\ (forall id, o = Some id <-> addr_owner w addr id) /\ forall id, o = Some id -> w_heap w' !! id <> None.
Proof.
  intros Hw Hr. pose proof (so_links _ Hw) as Hl. unfold sfu_session_table_find. case_bool_decide as Ea.
  { exists None, w. split_and!; try done. intros id. split; [done|]. intros (p & s & (_ & Hm & Hs) & E). destruct (lk_member _ Hl _ _ Hm) as (_ & x & Hx & _ & _ & _ & Hne). assert (x = s) as -> by congruence. congruence. }
  destruct (addr_cases w addr (links_tbl _ Hl) (so_addr _ Hw)) as [(i & sl & id & s & Hp & Hsl & Hlv & Hs & Eadr)|(Hno & Hp & _)]; rewrite Hp; cbn [res_bind].
  - rewrite (member_slot_spec w _ i sl id s Hl Hsl Hlv Hs). cbn [res_bind]. destruct (retained_spec w held (Some id) Hw Hr) as (w' & -> & Hw' & Hr' & Hv & Hin); [intros id' [= <-]; by rewrite (proj2 (proj2 Hs))|].
    exists (Some id), w'. split_and!; try done. intros id'. assert (Hown : addr_owner w addr id) by (by exists (hs_index sl), s). split; [by intros [= <-]|]. intros H. f_equal. by apply (addr_owner_fun w addr).
  - cbn [member_of_slot res_bind retained]. exists None, w. split_and!; try done. intros id. split; [done|]. intros (p & s & Hs & <-). by destruct (Hno p (so_addr_all _ Hw _ _ _ Hs)).
Qed.
Lemma find_ufrag_spec w held u : st_ok w -> refs_ok w held ->
  exists o w', sfu_session_table_find_by_ufrag w u = Ok (o, w') /\ st_ok w' /\ refs_ok w' (got held o) /\ same_view w w' /\ (forall id, o = Some id <-> ufrag_owner w u id) /\ forall id, o = Some id -> w_heap w' !! id <> None.
Proof.
  intros Hw Hr. pose proof (so_links _ Hw) as Hl. unfold sfu_session_table_find_by_ufrag. case_bool_decide as Ea.
  { exists None, w. split_and!; try done. intros id. split; [done|]. intros (p & s & _ & (i & sl & _ & _ & _ & Hk)). apply ufrag_key_iff in Hk as (_ & _ & _ & _ & ?). congruence. }
  destruct (ufrag_cases w u (links_tbl _ Hl) (so_ufrag _ Hw)) as [(i & sl & id & s & Hp & Hsl & Hlv & Hs & Eu & Hne)|(Hno & Hp & _)]; rewrite Hp; cbn [res_bind].
  - rewrite (member_slot_spec w _ i sl id s Hl Hsl Hlv Hs). cbn [res_bind]. destruct (retained_spec w held (Some id) Hw Hr) as (w' & -> & Hw' & Hr' & Hv & Hin); [intros id' [= <-]; by rewrite (proj2 (proj2 Hs))|].
    exists (Some id), w'. split_and!; try done. intros id'. assert (Hown : ufrag_owner w u id) by (exists (hs_index sl), s; split; [done|]; exists i, sl; split_and!; try done; apply ufrag_key_iff; by exists id, s).
    split; [by intros [= <-]|]. intros H. f_equal. by apply (ufrag_owner_fun w u).
  - cbn [member_of_slot res_bind retained]. exists None, w. split_and!; try done. intros id. split; [done|]. intros (p & s & Hs & Hh). by destruct (Hno p).
Qed.

(** ** Creation *)

Lemma free_small w : links_ok w -> zlen (st_free (w_table w)) <= st_count (w_table w).
Proof.
  intros Hl. pose proof (lk_count _ Hl). assert (Hsub : st_free (w_table w) ⊆+ seqZ 0 (st_count (w_table w))).
  { apply NoDup_submseteq; [apply Hl|]. intros p Hp. apply (lk_free _ Hl) in Hp as [? _]. apply elem_of_seqZ. lia. }
  apply submseteq_length in Hsub. rewrite length_seqZ in Hsub. unfold zlen. lia.
Qed.
(** What a reservation changes. *)
Record reserved_index (w w1 : world) (index : Z) (reused : bool) : Prop := {
  ri_range : 0 <= index < st_count (w_table w1);
  ri_count : st_count (w_table w1) = (if reused then st_count (w_table w) else st_count (w_table w) + 1);
  ri_max : st_count (w_table w1) <= SFU_SESSION_TABLE_MAX;
  ri_free : if reused then st_free (w_table w) = st_free (w_table w1) ++ [index] else st_free (w_table w1) = st_free (w_table w) /\ index = st_count (w_table w);
  ri_empty : st_sessions (w_table w) !! Z.to_nat index = Some None;
  ri_same : w_heap w1 = w_heap w /\ w_next w1 = w_next w /\ st_sessions (w_table w1) = st_sessions (w_table w) /\ st_active_count (w_table w1) = st_active_count (w_table w) /\
    st_addr_index (w_table w1) = st_addr_index (w_table w) /\ st_ufrag_index (w_table w1) = st_ufrag_index (w_table w);
  ri_back : table_rollback_reserved_slot w1 index reused = Ok w
}.
Lemma reserve_spec w : links_ok w ->
  match reserve_index w with
  | None => st_count (w_table w) = SFU_SESSION_TABLE_MAX /\ forall p, 0 <= p < SFU_SESSION_TABLE_MAX -> exists id, st_sessions (w_table w) !! Z.to_nat p = Some (Some id)
  | Some (index, reused, w1) => reserved_index w w1 index reused
  end.
Proof.
  intros Hl. pose proof (lk_count _ Hl) as Hc. pose proof (lk_len _ Hl) as Hz. pose proof (free_small w Hl) as Hfs. unfold reserve_index. destruct (last (st_free (w_table w))) as [index|] eqn:Elast.
  - apply last_Some in Elast as [l' El]. pose proof (lk_free _ Hl index) as Hf. rewrite El in Hf. destruct (proj1 Hf) as [Hi Hn]; [apply elem_of_app; right; by left|]. rewrite El, removelast_last. rewrite El, zlen_app in Hfs. change (zlen [index]) with 1 in Hfs.
    split; try done; [apply Hc|]. unfold table_rollback_reserved_slot, push_free. cbn. rewrite (proj2 (Z.ltb_lt _ _)) by lia. cbn. f_equal. destruct w as [[] ? ?]. cbn in El |- *. by rewrite El.
  - apply last_None in Elast. destruct (Z.leb_spec SFU_SESSION_TABLE_MAX (st_count (w_table w))).
    + split; [lia|]. intros p Hp. destruct (lookup_lt_is_Some_2 (st_sessions (w_table w)) (Z.to_nat p)) as [[id|] Ho]; [unfold zlen in *; lia|by exists id|].
      assert (Hin : p ∈ st_free (w_table w)) by (apply (lk_free _ Hl); split; [lia|done]). rewrite Elast in Hin. by apply not_elem_of_nil in Hin.
    + split; try done; cbn; [lia|lia| |].
      * destruct (lookup_lt_is_Some_2 (st_sessions (w_table w)) (Z.to_nat (st_count (w_table w)))) as [[id|] Ho]; [unfold zlen in *; lia| |done]. destruct (lk_member _ Hl _ _ Ho). lia.
      * unfold table_rollback_reserved_slot. cbn. rewrite Z.eqb_refl. destruct w as [[sessions free count active addrs ufrags] heap next]. transitivity (Ok (mk_world (mk_session_table sessions free (count + 1 - 1) active addrs ufrags) heap next)); [done|]. by replace (count + 1 - 1) with count by lia.
Qed.
Lemma probe_addr_ext w w' addr b : st_addr_index (w_table w') = st_addr_index (w_table w) -> st_sessions (w_table w') = st_sessions (w_table w) -> st_count (w_table w') = st_count (w_table w) -> w_heap w' = w_heap w ->
  probe_addr w addr b = probe_addr w' addr b.
Proof. intros E1 E2 E3 E4. unfold probe_addr, addr_matches_direct, member_at, deref. by rewrite E1, E2, E3, E4. Qed.
Section Create.
Context (w w1 : world) (index : Z) (reused : bool) (addr : list Z) (Hw : st_ok w) (Hri : reserved_index w w1 index reused) (Haddr : addr <> []) (Hnew : forall p, ~ addr_holds w addr p).
Let id := w_next w.
Let s := mk_session addr [] index 2 true true 0.
Let w2 := set_member (set_session (w1 <| w_next ::= fun n => n + 1 |>) (w_next w1) s) index (Some (w_next w1)).
Lemma create_id : w_next w1 = id.
Proof. apply Hri. Qed.
Lemma create_fresh : w_heap w !! id = None.
Proof. destruct (w_heap w !! id) as [x|] eqn:E; [|done]. pose proof (lk_fresh _ (so_links _ Hw) _ _ E). unfold id in *. lia. Qed.
Lemma create_heap : w_heap w2 = <[id := s]> (w_heap w).
Proof. change (w_heap w2) with (<[w_next w1 := s]> (w_heap w1)). destruct (ri_same _ _ _ _ Hri) as (-> & -> & _). done. Qed.
Lemma create_sessions p o : st_sessions (w_table w2) !! p = Some o <-> p = Z.to_nat index /\ o = Some id \/ p <> Z.to_nat index /\ st_sessions (w_table w) !! p = Some o.
Proof.
  change (st_sessions (w_table w2)) with (<[Z.to_nat index := Some (w_next w1)]> (st_sessions (w_table w1))). destruct (ri_same _ _ _ _ Hri) as (_ & -> & -> & _). apply lookup_set. by eapply lookup_lt_Some, ri_empty.
Qed.
Lemma create_count : st_count (w_table w2) = st_count (w_table w1) /\ st_count (w_table w) <= st_count (w_table w1).
Proof. split; [done|]. rewrite (ri_count _ _ _ _ Hri). destruct reused; lia. Qed.
Lemma create_free p : p ∈ st_free (w_table w1) <-> p ∈ st_free (w_table w) /\ p <> index.
Proof.
  pose proof (ri_free _ _ _ _ Hri) as Hf. pose proof (lk_nodup _ (so_links _ Hw)) as Hnd. destruct reused.
  - rewrite Hf in *. apply NoDup_app in Hnd as (_ & Hd & _). rewrite elem_of_app, list_elem_of_singleton. split; [intros Hp; split; [by left|]; intros ->; apply (Hd _ Hp); by left|]. by intros [[?|?] ?].
  - destruct Hf as [-> ->]. split; [|by intros [? _]]. intros Hp. split; [done|]. apply (lk_free _ (so_links _ Hw)) in Hp as [? _]. lia.
Qed.
Lemma create_links (f : sfu_session_table -> sfu_session_table) : st_sessions (f (w_table w2)) = st_sessions (w_table w2) -> st_count (f (w_table w2)) = st_count (w_table w2) -> st_free (f (w_table w2)) = st_free (w_table w2) ->
  st_active_count (f (w_table w2)) = st_active_count (w_table w2) + 1 -> links_ok (w2 <| w_table ::= f |>).
Proof.
  intros F1 F2 F3 F4. pose proof (so_links _ Hw) as Hl. pose proof create_count as [_ Hcw]. pose proof (ri_range _ _ _ _ Hri) as Hi.
  split; change (w_table (w2 <| w_table ::= f |>)) with (f (w_table w2)); change (w_heap (w2 <| w_table ::= f |>)) with (w_heap w2); rewrite ?F1, ?F2, ?F3, ?F4, ?create_heap.
  - unfold zlen. change (st_sessions (w_table w2)) with (<[Z.to_nat index := Some (w_next w1)]> (st_sessions (w_table w1))). rewrite length_insert. destruct (ri_same _ _ _ _ Hri) as (_ & _ & -> & _). apply Hl.
  - change (st_count (w_table w2)) with (st_count (w_table w1)). pose proof (ri_max _ _ _ _ Hri). lia.
  - intros p j Hj. change (st_count (w_table w2)) with (st_count (w_table w1)). apply create_sessions in Hj as [[-> [= ->]]|[Hne Hj]].
    + split; [lia|]. exists s. rewrite lookup_insert_eq. split_and!; try done. cbn. lia.
    + destruct (lk_member _ Hl _ _ Hj) as (Hlt & x & Hx & H). split; [lia|]. exists x. split; [|done]. rewrite lookup_insert_ne; [done|]. intros <-. rewrite create_fresh in Hx. done.
  - intros j x. rewrite lookup_insert_Some. intros [[<- <-]|[Hne Hx]]; [split; [cbn; lia|]; apply create_sessions; by left|]. pose proof (lk_outside _ Hl _ _ Hx) as Ho. destruct (ss_open x); [|done].
    destruct Ho as [H0 Ho]. split; [done|]. apply create_sessions. right. split; [|done]. intros E. rewrite E, (ri_empty _ _ _ _ Hri) in Ho. done.
  - intros p. change (st_free (w_table w2)) with (st_free (w_table w1)). change (st_count (w_table w2)) with (st_count (w_table w1)). rewrite create_free, (lk_free _ Hl), create_sessions. split.
    + intros [[Hp Ho] Hne]. split; [lia|]. right. split; [lia|done].
    + intros [Hp [[_ ?]|[Hne Ho]]]; [done|]. assert (p <> index) by (by intros ->). split; [|done]. split; [|done]. pose proof (ri_count _ _ _ _ Hri) as Hc. pose proof (ri_free _ _ _ _ Hri) as Hf. destruct reused; [lia|]. destruct Hf as [_ ->]. lia.
  - change (st_free (w_table w2)) with (st_free (w_table w1)). pose proof (lk_nodup _ Hl) as Hnd. pose proof (ri_free _ _ _ _ Hri) as Hf. destruct reused; [rewrite Hf in Hnd; by apply NoDup_app in Hnd as (? & _)|by destruct Hf as [-> _]].
  - change (st_active_count (w_table w2)) with (st_active_count (w_table w1)). destruct (ri_same _ _ _ _ Hri) as (_ & _ & _ & -> & _). change (st_count (w_table w2)) with (st_count (w_table w1)). change (st_free (w_table w2)) with (st_free (w_table w1)).
    rewrite (lk_active _ Hl), (ri_count _ _ _ _ Hri). pose proof (ri_free _ _ _ _ Hri) as Hf. destruct reused; [rewrite Hf, zlen_app; change (zlen [index]) with 1; lia|]. destruct Hf as [-> _]. lia.
  - change (w_next (w2 <| w_table ::= f |>)) with (w_next w1 + 1). rewrite create_id. intros j x. rewrite lookup_insert_Some. intros [[<- _]|[_ Hx]]; [lia|]. pose proof (lk_fresh _ Hl _ _ Hx). unfold id. lia.
Qed.
Let w2' := w2 <| w_table ::= fun t => t <| st_active_count ::= fun n => n + 1 |> |>.
Lemma create_links' : links_ok w2'.
Proof. by apply create_links. Qed.
Lemma create_at p : at_index w2' p = if p =? index then Some s else at_index w p.
Proof.
  pose proof (ri_range _ _ _ _ Hri) as Hi. destruct (Z.eqb_spec p index) as [->|Hne].
  - apply at_index_iff. exists id. split; [done|]. split; [apply create_sessions; by left|]. change (w_heap w2') with (w_heap w2). by rewrite create_heap, lookup_insert_eq.
  - apply option_eq. intros x. rewrite !at_index_iff. pose proof create_count as [_ Hcw]. split.
    + intros (j & Hp & Hj & Hx). apply create_sessions in Hj as [[? _]|[_ Hj]]; [change (st_count (w_table w2')) with (st_count (w_table w1)) in Hp; lia|]. exists j. destruct (lk_member _ (so_links _ Hw) _ _ Hj) as (Hlt & y & Hy & _).
      split; [change (st_count (w_table w2')) with (st_count (w_table w1)) in Hp; lia|]. split; [done|]. change (w_heap w2') with (w_heap w2) in Hx. rewrite create_heap, lookup_insert_ne in Hx; [done|]. intros <-. rewrite create_fresh in Hy. done.
    + intros (j & Hp & Hj & Hx). exists j. split; [change (st_count (w_table w2')) with (st_count (w_table w1)); lia|]. split; [apply create_sessions; right; split; [lia|done]|]. change (w_heap w2') with (w_heap w2).
      rewrite create_heap, lookup_insert_ne; [done|]. intros <-. rewrite create_fresh in Hx. done.
Qed.
Lemma create_not_before : at_index w index = None.
Proof. unfold at_index. rewrite (ri_empty _ _ _ _ Hri). by destruct (_ && _). Qed.
Lemma create_indices : st_addr_index (w_table w2') = st_addr_index (w_table w) /\ st_ufrag_index (w_table w2') = st_ufrag_index (w_table w).
Proof. destruct (ri_same _ _ _ _ Hri) as (_ & _ & _ & _ & <- & <-). done. Qed.
Lemma create_agrees : agrees (addr_key w) (addr_key w2') (st_addr_index (w_table w)) /\ forall p, ufrag_key w2' p = ufrag_key w p.
Proof.
  split.
  - intros i sl Hs Hl. unfold addr_key. rewrite create_at. destruct (Z.eqb_spec (hs_index sl) index) as [E|]; [|done]. exfalso.
    destruct (ix_slots _ _ _ _ (so_addr _ Hw) _ _ Hs) as [H|[H|(_ & k & Hk & _)]]; [unfold live, SFU_HASH_EMPTY, SFU_HASH_DELETED in *; lia..|]. unfold addr_key in Hk. rewrite E, create_not_before in Hk. done.
  - intros p. unfold ufrag_key. rewrite create_at. destruct (Z.eqb_spec p index) as [->|]; [|done]. by rewrite create_not_before.
Qed.
(** The new session is in place: it owns its address, everything else is as before. *)
Lemma create_spec held : refs_ok w held -> exists w', table_index_addr_locked w2 s index = Ok (true, w') /\
  let w3 := w' <| w_table ::= fun t => t <| st_active_count ::= fun n => n + 1 |> |> in
  st_ok w3 /\ refs_ok w3 (one_more held id) /\ w_heap w3 !! id = Some s /\
  (forall a i, addr_owner w3 a i <-> a = addr /\ i = id \/ addr_owner w a i) /\ (forall u i, ufrag_owner w3 u i <-> ufrag_owner w u i).
Proof.
  intros Hr. destruct create_agrees as [Hag Huf]. destruct create_indices as [Eai Eui]. pose proof (so_links _ Hw) as Hl. pose proof (ri_range _ _ _ _ Hri) as Hi. pose proof (ri_max _ _ _ _ Hri) as Hmx.
  assert (Hix2 : index_ok 16 fnv1a (addr_key w2') (st_addr_index (w_table w2'))) by (rewrite Eai; eapply rekey_ok; [apply bits16|apply Hw|exact Hag]).
  assert (Hh2 : forall k p, addr_holds w2' k p <-> addr_holds w k p) by (intros k p; rewrite Eai; by apply rekey_holds).
  destruct (addr_cases w2' addr (links_tbl _ create_links') Hix2) as [(i & sl & j & x & _ & Hsl & Hlv & Hx & Ex)|(_ & _ & (j & Hp & Hj & Hf))].
  { exfalso. apply (Hnew (hs_index sl)), Hh2. exists i, sl. split_and!; try done. apply addr_key_iff. by exists j, x. }
  unfold table_index_addr_locked. rewrite (probe_addr_ext w2 w2') by done. change (ss_addr s) with addr. rewrite Hp. cbn [res_bind]. eexists. split; [reflexivity|]. cbv zeta.
  set (w3 := _ <| w_table ::= _ |>). assert (E3 : forall p, at_index w3 p = at_index w2' p) by done. assert (Hk3 : addr_key w2' index = Some addr) by (unfold addr_key; by rewrite create_at, Z.eqb_refl).
  assert (Hi' : 0 <= index < SFU_HASH_DELETED) by (unfold SFU_HASH_DELETED, SFU_SESSION_TABLE_MAX in *; lia). assert (Hno2 : forall q, ~ addr_holds w2' addr q) by (intros q Hq; apply (Hnew q); by apply Hh2).
  pose proof (set_ok 16 fnv1a bits16 (addr_key w2') (addr_key w2') (st_addr_index (w_table w2')) addr index j Hix2 Hi' Hk3 (fun _ _ _ _ => eq_refl) Hno2 Hj Hf) as Hok3.
  pose proof (set_holds 16 fnv1a bits16 (addr_key w2') (addr_key w2') (st_addr_index (w_table w2')) addr index j Hix2 Hi' Hk3 (fun _ _ _ _ => eq_refl) Hj Hf) as Hh3.
  assert (Hl3 : links_ok w3) by (change w3 with (w2 <| w_table ::= fun t => (t <| st_addr_index ::= <[Z.to_nat j := mk_hash_slot (fnv1a addr) index]> |>) <| st_active_count ::= fun n => n + 1 |> |>); by apply create_links).
  assert (Hw3 : st_ok w3).
  { split; [done|exact Hok3| |change (st_ufrag_index (w_table w3)) with (st_ufrag_index (w_table w2')); rewrite Eui; eapply rekey_ok; [apply bits16|apply Hw|intros ? ? _ _; apply Huf]].
    intros p i x Hx. apply Hh3. assert (Hat : at_index w2' p = Some x) by (rewrite <- E3; apply at_index_iff; by exists i). rewrite create_at in Hat. destruct (Z.eqb_spec p index) as [->|Hne]; [injection Hat as <-; by left|right].
    apply Hh2. apply at_index_iff in Hat as [i' Hx']. by apply (so_addr_all _ Hw p i'). }
  split; [done|]. change (w_heap w3) with (w_heap w2). rewrite create_heap, lookup_insert_eq. split; [|split; [done|]].
  { intros i. unfold one_more. change (w_heap w3) with (w_heap w2). rewrite create_heap. destruct (Hr i) as [H0 H]. destruct (Z.eqb_spec i id) as [->|Hne]; [|by rewrite lookup_insert_ne]. rewrite lookup_insert_eq. rewrite create_fresh in H. cbn. lia. }
  assert (Hm3 : forall p i, member_id w3 p i <-> p = index /\ i = id \/ member_id w p i).
  { intros p i. unfold member_id. change (st_sessions (w_table w3)) with (st_sessions (w_table w2)). rewrite create_sessions. change (st_count (w_table w3)) with (st_count (w_table w1)). pose proof create_count as [_ Hcw]. split.
    - intros [Hpp [[? [= ->]]|[_ Hm]]]; [left; split; [lia|done]|right]. split; [|done]. destruct (lk_member _ Hl _ _ Hm). lia.
    - intros [[-> ->]|[Hpp Hm]]; [split; [lia|by left]|]. split; [lia|]. right. split; [|done]. intros E. rewrite E, (ri_empty _ _ _ _ Hri) in Hm. done. }
  assert (Hnm : forall i, ~ member_id w index i) by (intros i [_ Hm]; rewrite (ri_empty _ _ _ _ Hri) in Hm; done). split; intros k i.
  - rewrite !addr_owner_key by done. setoid_rewrite Hm3. split.
    + intros (p & [[-> ->]|Hm] & Hk); [left; split; [|done]; unfold addr_key in Hk; rewrite E3, create_at, Z.eqb_refl in Hk; by injection Hk as <-|right]. exists p. split; [done|]. unfold addr_key in *. rewrite E3, create_at in Hk.
      destruct (Z.eqb_spec p index) as [->|]; [by destruct (Hnm i)|done].
    + intros [[-> ->]|(p & Hm & Hk)]; [exists index; split; [by left|exact Hk3]|]. exists p. split; [by right|]. unfold addr_key in *. rewrite E3, create_at. destruct (Z.eqb_spec p index) as [->|]; [by destruct (Hnm i)|done].
  - rewrite !ufrag_owner_key by done. setoid_rewrite Hm3. assert (Hhu : forall q, ufrag_holds w3 k q <-> ufrag_holds w k q).
    { intros q. change (st_ufrag_index (w_table w3)) with (st_ufrag_index (w_table w2')). rewrite Eui. apply rekey_holds. intros ? ? _ _. apply Huf. }
    split; intros (p & Hm & Hk); exists p; (split; [|by apply Hhu]); [|by right]. destruct Hm as [[-> ->]|Hm]; [|done]. apply Hhu in Hk as (? & ? & _ & _ & _ & Hk). unfold ufrag_key in Hk. rewrite create_not_before in Hk. done.
Qed.
End Create.
Definition table_full (w : world) : Prop := forall p, 0 <= p < SFU_SESSION_TABLE_MAX -> exists id, member_id w p id.
Definition bad_addr (addr : list Z) : Prop := addr = [] \/ 128 < zlen addr.
Lemma bad_addr_test addr : bool_decide (addr = []) || (128 <? zlen addr) = true <-> bad_addr addr.
Proof. unfold bad_addr. rewrite orb_true_iff, bool_decide_eq_true, Z.ltb_lt. done. Qed.
Lemma session_create_spec w held addr built : st_ok w -> refs_ok w held ->
  exists o w', sfu_session_table_get_or_create w addr built = Ok (o, w') /\ st_ok w' /\ refs_ok w' (got held o) /\
    (forall a i, addr_owner w' a i <-> addr_owner w a i \/ a = addr /\ o = Some i) /\ (forall u i, ufrag_owner w' u i <-> ufrag_owner w u i) /\
    match o with
    | Some id => addr_owner w' addr id /\ exists s, w_heap w' !! id = Some s /\ ss_open s = true /\ (addr_owner w addr id \/ ss_ufrag s = [])
    | None => w' = w /\ (bad_addr addr \/ (forall id, ~ addr_owner w addr id) /\ (built = false \/ table_full w))
    end.
Proof.
  intros Hw Hr. pose proof (so_links _ Hw) as Hl. unfold sfu_session_table_get_or_create, publish_session. assert (Hnone : forall a i, addr_owner w a i <-> addr_owner w a i \/ a = addr /\ @None Z = Some i) by (intros a i; split; [by left|by intros [?|[_ ?]]]).
  destruct (bool_decide (addr = []) || (128 <? zlen addr)) eqn:Eb; [apply bad_addr_test in Eb; exists None, w; do 5 (split; [done|]); split; [done|by left]|].
  assert (Hne : addr <> []) by (intros ->; done).
  destruct (addr_cases w addr (links_tbl _ Hl) (so_addr _ Hw)) as [(i & sl & id & s & Hp & Hsl & Hlv & Hs & Eadr)|(Hno & Hp & _)]; rewrite Hp; cbn [res_bind].
  - rewrite (member_slot_spec w _ i sl id s Hl Hsl Hlv Hs). cbn [res_bind]. destruct (retained_spec w held (Some id) Hw Hr) as (w' & -> & Hw' & Hr' & Hv & Hin); [intros id' [= <-]; by rewrite (proj2 (proj2 Hs))|].
    assert (Hown : addr_owner w addr id) by (by exists (hs_index sl), s). destruct (same_view_owners w w' Hl (so_links _ Hw') Hv) as [Ha Hu]. exists (Some id), w'. split; [done|]. split; [done|]. split; [done|]. split; [|split; [done|]].
    + intros a j. rewrite Ha. split; [by left|]. by intros [?|[-> [= <-]]].
    + split; [by apply Ha|]. assert (Hm : member_id w' (hs_index sl) id) by (apply (sv_members _ _ Hv); by destruct Hs as (? & ? & _)). destruct Hm as [_ Hm]. destruct (lk_member _ (so_links _ Hw') _ _ Hm) as (_ & x & Hx & _ & Ho & _). exists x. split; [done|]. split; [done|by left].
  - cbn [member_of_slot res_bind]. assert (Hnoown : forall id, ~ addr_owner w addr id) by (intros id (p & s & Hs & <-); by destruct (Hno p (so_addr_all _ Hw _ _ _ Hs))). pose proof (reserve_spec w Hl) as Hres.
    destruct (reserve_index w) as [[[index reused] w1]|].
    + destruct built; cbn [negb].
      * destruct (create_spec w w1 index reused addr Hw Hres Hne Hno held Hr) as (w' & -> & Hw3 & Hr3 & Hs3 & Ha3 & Hu3). cbn [res_bind negb]. rewrite <- (create_id w w1 index reused Hres) in *.
        eexists (Some (w_next w1)), _. split; [reflexivity|]. split; [exact Hw3|]. split; [exact Hr3|]. split; [|split; [exact Hu3|]].
        -- intros a i. rewrite Ha3. split; [intros [[-> ->]|?]; [by right|by left]|]. intros [?|[-> [= ->]]]; [by right|by left].
        -- split; [apply Ha3; by left|]. eexists. split; [exact Hs3|]. split; [done|by right].
      * rewrite (ri_back _ _ _ _ Hres). cbn [res_bind]. exists None, w. do 5 (split; [done|]). split; [done|]. right. split; [done|by left].
    + exists None, w. do 5 (split; [done|]). split; [done|]. right. split; [done|]. right. destruct Hres as [Hc Hall]. intros p Hpp. destruct (Hall p Hpp) as [id Hid]. exists id. split; [by rewrite Hc|done].
Qed.

(** ** Closing *)

(** An indexed address is removed from its slot. *)
Lemma remove_addr_run wx s idx : tbl_ok wx -> index_ok 16 fnv1a (addr_key wx) (st_addr_index (w_table wx)) -> ss_addr s <> [] -> addr_holds wx (ss_addr s) idx ->
  exists i sl, st_addr_index (w_table wx) !! i = Some sl /\ live sl /\ hs_index sl = idx /\
    table_remove_addr_hash wx s idx = Ok (wx <| w_table ::= fun t => t <| st_addr_index ::= <[i := sl <| hs_index := SFU_HASH_DELETED |>]> |> |>).
Proof.
  intros Ht Hix Hne Hheld. unfold table_remove_addr_hash. rewrite bool_decide_false by done. destruct (addr_cases wx (ss_addr s) Ht Hix) as [(i & sl & j & x & Hp & Hsl & Hlv & Hx & Ex)|(Hno & _)]; [|by destruct (Hno idx)].
  assert (Ei : hs_index sl = idx) by (eapply (holds_fun 16 fnv1a bits16 _ _ (ss_addr s)); [exact Hix|exists i, sl; split_and!; try done; apply addr_key_iff; by exists j, x|done]).
  exists i, sl. rewrite Hp. cbn [res_bind]. unfold slot_of, set_addr_slot. rewrite Nat2Z.id, Hsl. cbn [res_bind]. by rewrite Ei, Z.eqb_refl.
Qed.
Section Close.
Context (w : world) (id : Z) (s : session) (idx : Z) (Hw : st_ok w) (Hat : session_at w idx id s).
Let s1 := s <| ss_open := false |> <| ss_accepts_work := false |>.
Let w0 := set_session w id s1.
Lemma close_heap : w_heap w !! id = Some s.
Proof. apply Hat. Qed.
Lemma close_pos : 0 <= idx < st_count (w_table w) /\ st_sessions (w_table w) !! Z.to_nat idx = Some (Some id) /\ idx < SFU_SESSION_TABLE_MAX.
Proof. destruct Hat as (Hp & Hm & _). pose proof (lk_count _ (so_links _ Hw)). split_and!; try done; lia. Qed.
Lemma close_tbl : tbl_ok w0.
Proof.
  pose proof (links_tbl _ (so_links _ Hw)) as Ht. split; [apply Ht|apply Ht|]. intros p i Hp. destruct (tb_member _ Ht p i Hp) as (Hlt & x & Hx). split; [done|].
  change (w_heap w0) with (<[id := s1]> (w_heap w)). destruct (decide (i = id)) as [->|]; [rewrite lookup_insert_eq; by eexists|rewrite lookup_insert_ne by done; by exists x].
Qed.
Lemma close_view0 : same_view w w0.
Proof.
  split; try done; intros p.
  - unfold addr_key, w0. rewrite (set_at_index w id s s1) by apply close_heap. case_bool_decide as Hm; [|done]. by rewrite (member_index w id s p (so_links _ Hw) close_heap Hm).
  - unfold ufrag_key, w0. rewrite (set_at_index w id s s1) by apply close_heap. case_bool_decide as Hm; [|done]. by rewrite (member_index w id s p (so_links _ Hw) close_heap Hm).
Qed.
(** The address and the fragment go from the indices. *)
Lemma close_addr : exists ai, table_remove_addr_hash w0 s1 idx = Ok (w0 <| w_table ::= fun t => t <| st_addr_index := ai |> |>) /\
  index_ok 16 fnv1a (addr_key w) ai /\ forall k q, holds (addr_key w) ai k q <-> addr_holds w k q /\ q <> idx.
Proof.
  assert (Hne : ss_addr s <> []) by (destruct (lk_member _ (so_links _ Hw) _ _ (proj1 (proj2 close_pos))) as (_ & x & Hx & _ & _ & _ & Hne); rewrite close_heap in Hx; by injection Hx as <-).
  pose proof close_view0 as Hv. pose proof (same_view_holds _ _ Hv) as [Hh _].
  assert (Hix : index_ok 16 fnv1a (addr_key w0) (st_addr_index (w_table w0))) by (eapply rekey_ok; [apply bits16|apply Hw|intros ? ? _ _; apply (sv_addr _ _ Hv)]).
  destruct (remove_addr_run w0 s1 idx close_tbl Hix Hne) as (i & sl & Hsl & Hlv & Ei & E); [apply Hh; by apply (so_addr_all _ Hw _ id s)|]. rewrite E. eexists. split; [reflexivity|].
  split; [apply (delete_ok 16 fnv1a bits16); [apply Hw|done]|]. intros k q. rewrite <- Ei. by apply (delete_holds 16 fnv1a bits16); [apply Hw|..].
Qed.
Lemma probe_ufrag_ext w' w'' u b : st_ufrag_index (w_table w'') = st_ufrag_index (w_table w') -> st_sessions (w_table w'') = st_sessions (w_table w') -> st_count (w_table w'') = st_count (w_table w') -> w_heap w'' = w_heap w' ->
  probe_ufrag w' u b = probe_ufrag w'' u b.
Proof. intros E1 E2 E3 E4. unfold probe_ufrag, ufrag_matches_direct, member_at, deref. by rewrite E1, E2, E3, E4. Qed.
Lemma close_ufrag wa : st_ufrag_index (w_table wa) = st_ufrag_index (w_table w) -> st_sessions (w_table wa) = st_sessions (w_table w) -> st_count (w_table wa) = st_count (w_table w) -> w_heap wa = w_heap w0 ->
  exists ui, table_remove_ufrag_hash wa s1 idx = Ok (wa <| w_table ::= fun t => t <| st_ufrag_index := ui |> |>) /\
  index_ok 16 fnv1a (ufrag_key w) ui /\ forall k q, holds (ufrag_key w) ui k q <-> ufrag_holds w k q /\ q <> idx.
Proof.
  intros E1 E2 E3 E4. unfold table_remove_ufrag_hash. change (ss_ufrag s1) with (ss_ufrag s). assert (Hsame : wa = wa <| w_table ::= fun t => t <| st_ufrag_index := st_ufrag_index (w_table w) |> |>) by (rewrite <- E1; by destruct wa as [[] ? ?]).
  assert (Hkey : forall k, ufrag_key w idx = Some k -> k = ss_ufrag s /\ k <> []) by (intros k (i & x & Hx & <- & Hn)%ufrag_key_iff; by destruct (session_at_fun _ _ _ _ _ _ Hat Hx) as [_ ->]).
  assert (Hkeep : (forall k, ~ ufrag_holds w k idx) -> exists ui, Ok wa = Ok (wa <| w_table ::= fun t => t <| st_ufrag_index := ui |> |>) /\ index_ok 16 fnv1a (ufrag_key w) ui /\ forall k q, holds (ufrag_key w) ui k q <-> ufrag_holds w k q /\ q <> idx).
  { intros Hn. exists (st_ufrag_index (w_table w)). split; [by rewrite <- Hsame|]. split; [apply Hw|]. intros k q. split; [intros H; split; [done|]; intros ->; by apply (Hn k)|by intros [? _]]. }
  case_bool_decide as Eu; [apply Hkeep; intros k (? & ? & _ & _ & _ & Hk); by destruct (Hkey k Hk) as [-> ?]|].
  pose proof close_view0 as Hv. pose proof (same_view_holds _ _ Hv) as [_ Hh]. assert (Hix : index_ok 16 fnv1a (ufrag_key w0) (st_ufrag_index (w_table w0))) by (eapply rekey_ok; [apply bits16|apply Hw|intros ? ? _ _; apply (sv_ufrag _ _ Hv)]).
  rewrite <- (probe_ufrag_ext w0 wa) by done. destruct (ufrag_cases w0 (ss_ufrag s) close_tbl Hix) as [(i & sl & j & x & Hp & Hsl & Hlv & Hx & Ex & _)|(Hno & Hp & _)]; rewrite Hp; cbn [res_bind].
  2: { apply Hkeep. intros k Hk. pose proof Hk as (? & ? & _ & _ & _ & Hk'). destruct (Hkey k Hk') as [-> _]. apply (Hno idx). by apply Hh. }
  assert (Hi : ufrag_holds w (ss_ufrag s) (hs_index sl)) by (apply Hh; exists i, sl; split_and!; try done; apply ufrag_key_iff; by exists j, x). change (st_ufrag_index (w_table w0)) with (st_ufrag_index (w_table w)) in Hsl.
  unfold slot_of. rewrite E1, Nat2Z.id, Hsl. cbn [res_bind]. destruct (Z.eqb_spec (hs_index sl) idx) as [Ei|Hni].
  - eexists. split; [unfold set_ufrag_slot; rewrite Nat2Z.id; reflexivity|]. rewrite E1. split; [apply (delete_ok 16 fnv1a bits16); [apply Hw|done]|]. intros k q. rewrite <- Ei. by apply (delete_holds 16 fnv1a bits16); [apply Hw|..].
  - apply Hkeep. intros k Hk. pose proof Hk as (? & ? & _ & _ & _ & Hk'). destruct (Hkey k Hk') as [-> _]. apply Hni. eapply (holds_fun 16 fnv1a bits16); [apply (so_ufrag _ Hw)|exact Hi|exact Hk].
Qed.
(** The world after [unlink], with the indices it leaves. *)
Definition unlinked (ai ui : list sfu_hash_slot) (w' : world) : Prop :=
  st_addr_index (w_table w') = ai /\ st_ufrag_index (w_table w') = ui /\ st_sessions (w_table w') = <[Z.to_nat idx := None]> (st_sessions (w_table w)) /\
  st_count (w_table w') = st_count (w_table w) /\ st_free (w_table w') = st_free (w_table w) ++ [idx] /\ st_active_count (w_table w') = st_active_count (w_table w) - 1 /\
  w_next w' = w_next w /\ w_heap w' = <[id := s1 <| ss_table_index := NO_INDEX |>]> (w_heap w).
Lemma close_not_free : idx ∉ st_free (w_table w).
Proof. intros Hin. apply (lk_free _ (so_links _ Hw)) in Hin as [_ E]. destruct close_pos as (_ & E' & _). congruence. Qed.
Lemma close_free : zlen (st_free (w_table w)) < st_count (w_table w).
Proof.
  pose proof (so_links _ Hw) as Hl. pose proof close_pos as (Hp & _). assert (Hsub : idx :: st_free (w_table w) ⊆+ seqZ 0 (st_count (w_table w))).
  { apply NoDup_submseteq; [apply NoDup_cons; split; [apply close_not_free|apply Hl]|]. intros p [->|Hp']%elem_of_cons; [|apply (lk_free _ Hl) in Hp' as [? _]]; apply elem_of_seqZ; lia. }
  apply submseteq_length in Hsub. rewrite length_seqZ in Hsub. cbn in Hsub. unfold zlen. lia.
Qed.
Lemma unlink_run : exists ai ui w', unlink w0 id s1 idx = Ok w' /\ unlinked ai ui w' /\
  index_ok 16 fnv1a (addr_key w) ai /\ (forall k q, holds (addr_key w) ai k q <-> addr_holds w k q /\ q <> idx) /\
  index_ok 16 fnv1a (ufrag_key w) ui /\ (forall k q, holds (ufrag_key w) ui k q <-> ufrag_holds w k q /\ q <> idx).
Proof.
  destruct close_addr as (ai & E1 & Hai & Hah). pose proof close_free as Hf. pose proof (lk_count _ (so_links _ Hw)) as Hc. pose proof (lk_active _ (so_links _ Hw)) as Hact. unfold unlink. rewrite E1. cbn [res_bind].
  destruct (close_ufrag (w0 <| w_table ::= fun t => t <| st_addr_index := ai |> |>)) as (ui & E2 & Hui & Huh); [done..|]. rewrite E2. cbn [res_bind]. unfold push_free.
  match goal with |- context [zlen (st_free (w_table ?x))] => set (wd := x) end. change (st_free (w_table wd)) with (st_free (w_table w)). rewrite (proj2 (Z.ltb_lt _ _)) by lia. cbn [res_bind].
  exists ai, ui. eexists. split; [reflexivity|]. split; [|done]. do 5 (split; [done|]). split; [|split; [done|]].
  - change ((if 0 <? st_active_count (w_table w) then st_active_count (w_table w) - 1 else st_active_count (w_table w)) = st_active_count (w_table w) - 1). by rewrite (proj2 (Z.ltb_lt _ _)) by lia.
  - transitivity (<[id := s1 <| ss_table_index := NO_INDEX |>]> (<[id := s1]> (w_heap w))); [done|]. by rewrite insert_insert_eq.
Qed.
Context (ai ui : list sfu_hash_slot) (w' : world) (Hun : unlinked ai ui w').
Lemma unlinked_sessions p o : st_sessions (w_table w') !! p = Some o <-> p = Z.to_nat idx /\ o = None \/ p <> Z.to_nat idx /\ st_sessions (w_table w) !! p = Some o.
Proof. destruct Hun as (_ & _ & -> & _). apply lookup_set. eapply lookup_lt_Some, close_pos. Qed.
Lemma other_member p j : p <> Z.to_nat idx -> st_sessions (w_table w) !! p = Some (Some j) -> j <> id.
Proof.
  intros Hne Hj ->. destruct close_pos as (Hp & Hm & _). destruct (lk_member _ (so_links _ Hw) _ _ Hj) as (_ & x & Hx & Ix & _). destruct (lk_member _ (so_links _ Hw) _ _ Hm) as (_ & y & Hy & Iy & _).
  rewrite Hx in Hy. injection Hy as <-. lia.
Qed.
Lemma unlinked_links : links_ok w'.
Proof.
  pose proof (so_links _ Hw) as Hl. pose proof close_pos as (Hp & Hm & _). destruct Hun as (_ & _ & Es & Ec & Ef & Eac & En & Eh). split; rewrite ?Ec, ?Ef, ?Eac, ?Eh, ?En.
  - rewrite Es. unfold zlen. rewrite length_insert. apply Hl.
  - apply Hl.
  - intros p j Hj. apply unlinked_sessions in Hj as [[_ ?]|[Hne Hj]]; [done|]. destruct (lk_member _ Hl _ _ Hj) as (Hlt & x & Hx & H). split; [done|]. exists x. rewrite lookup_insert_ne; [done|]. intros <-. by apply (other_member p id).
  - intros j x. rewrite lookup_insert_Some. intros [[<- <-]|[Hne Hx]]; [done|]. pose proof (lk_outside _ Hl _ _ Hx) as Ho. destruct (ss_open x); [|done]. destruct Ho as [H0 Ho]. split; [done|]. apply unlinked_sessions.
    right. split; [|done]. intros E. rewrite E, Hm in Ho. by injection Ho as ->.
  - intros p. rewrite elem_of_app, list_elem_of_singleton, (lk_free _ Hl), unlinked_sessions. split.
    + intros [[Hpp Ho]| ->]; [split; [done|]; right; split; [|done]; intros E; rewrite E, Hm in Ho; done|split; [done|by left]].
    + intros [Hpp [[E _]|[_ Ho]]]; [right; lia|by left].
  - apply NoDup_app. split; [apply Hl|]. split; [|apply NoDup_singleton]. intros p Hin ->%list_elem_of_singleton. by apply close_not_free.
  - rewrite zlen_app, (lk_active _ Hl). change (zlen [idx]) with 1. lia.
  - intros j x. rewrite lookup_insert_Some. intros [[<- _]|[_ Hx]]; [by eapply (lk_fresh _ Hl), close_heap|by apply (lk_fresh _ Hl _ x)].
Qed.
Lemma unlinked_at p : at_index w' p = if p =? idx then None else at_index w p.
Proof.
  pose proof close_pos as (Hp & Hm & _). destruct Hun as (_ & _ & Es & Ec & _ & _ & _ & Eh). apply option_eq. intros x. rewrite at_index_iff. unfold session_at. setoid_rewrite unlinked_sessions. rewrite Ec, Eh. destruct (Z.eqb_spec p idx) as [->|Hne].
  - split; [|done]. by intros (j & _ & [[_ ?]|[? _]] & _).
  - rewrite at_index_iff. unfold session_at. split.
    + intros (j & Hpp & [[? _]|[Hn Hj]] & Hx); [lia|]. exists j. split_and!; try done; try lia. rewrite lookup_insert_ne in Hx; [done|]. intros <-. by apply (other_member (Z.to_nat p) id).
    + intros (j & Hpp & Hj & Hx). assert (Hn : Z.to_nat p <> Z.to_nat idx) by lia. exists j. split; [done|]. split; [by right|]. rewrite lookup_insert_ne; [done|]. intros <-. by apply (other_member (Z.to_nat p) id).
Qed.
End Close.
Lemma live_key {K} bits hash (key : Z -> option K) ix i sl : index_ok bits hash key ix -> ix !! i = Some sl -> live sl -> exists k, holds key ix k (hs_index sl).
Proof.
  intros Hix Hs Hl. destruct (ix_slots _ _ _ _ Hix _ _ Hs) as [H|[H|(_ & k & Hk & _)]]; [unfold live, SFU_HASH_EMPTY, SFU_HASH_DELETED in *; lia..|]. exists k, i, sl. done.
Qed.
Lemma unlinked_spec w held id s idx ai ui w' : st_ok w -> refs_ok w held -> session_at w idx id s -> unlinked w id s idx ai ui w' ->
  index_ok 16 fnv1a (addr_key w) ai -> (forall k q, holds (addr_key w) ai k q <-> addr_holds w k q /\ q <> idx) ->
  index_ok 16 fnv1a (ufrag_key w) ui -> (forall k q, holds (ufrag_key w) ui k q <-> ufrag_holds w k q /\ q <> idx) ->
  st_ok w' /\ refs_ok w' (one_more held id) /\ (forall a i, addr_owner w' a i <-> addr_owner w a i /\ i <> id) /\ (forall u i, ufrag_owner w' u i <-> ufrag_owner w u i /\ i <> id).
Proof.
  intros Hw Hr Hat Hun Hai Hah Hui Huh. pose proof (so_links _ Hw) as Hl. pose proof (unlinked_links w id s idx Hw Hat ai ui w' Hun) as Hl'. pose proof (unlinked_at w id s idx Hw Hat ai ui w' Hun) as Eat.
  assert (Hga : agrees (addr_key w) (addr_key w') ai). { intros i sl Hs Hlv. destruct (live_key _ _ _ _ _ _ Hai Hs Hlv) as [k [_ Hne]%Hah]. unfold addr_key. rewrite Eat. by rewrite (proj2 (Z.eqb_neq _ _)). }
  assert (Hgu : agrees (ufrag_key w) (ufrag_key w') ui). { intros i sl Hs Hlv. destruct (live_key _ _ _ _ _ _ Hui Hs Hlv) as [k [_ Hne]%Huh]. unfold ufrag_key. rewrite Eat. by rewrite (proj2 (Z.eqb_neq _ _)). }
  pose proof (fun k p => rekey_holds _ _ ai k p Hga) as Ha'. pose proof (fun k p => rekey_holds _ _ ui k p Hgu) as Hu'. destruct Hun as (Eai & Eui & Es & Ec & Ef & Eac & En & Eh).
  assert (Hm' : forall p i, member_id w' p i <-> member_id w p i /\ i <> id).
  { intros p i. unfold member_id. rewrite Ec, Es, lookup_set by (eapply lookup_lt_Some, Hat). split.
    - intros [Hp [[_ ?]|[Hne Hi]]]; [done|]. split; [done|]. by eapply (other_member w id s idx).
    - intros [[Hp Hi] Hne]. split; [done|]. right. split; [|done]. intros E. rewrite E in Hi. destruct Hat as (_ & Hm & _). congruence. }
  split; [split|split; [|split]].
  - done.
  - rewrite Eai. by eapply rekey_ok; [apply bits16|exact Hai|].
  - intros p i x Hx. rewrite Eai. assert (E : at_index w' p = Some x) by (apply at_index_iff; by exists i). rewrite Eat in E. destruct (Z.eqb_spec p idx) as [|Hne]; [done|]. apply at_index_iff in E as [i' Hx']. apply Ha', Hah. split; [by apply (so_addr_all _ Hw p i')|done].
  - rewrite Eui. by eapply rekey_ok; [apply bits16|exact Hui|].
  - intros i. rewrite Eh. unfold one_more. destruct (Hr i) as [H0 H]. destruct (Z.eqb_spec i id) as [->|Hne]; [|by rewrite lookup_insert_ne]. rewrite lookup_insert_eq. destruct Hat as (_ & Hm & Hs). rewrite Hs in H.
    destruct (lk_member _ Hl _ _ Hm) as (_ & y & Hy & _ & Ho & _). rewrite Hs in Hy. injection Hy as <-. rewrite Ho in H. cbn. lia.
  - intros k i. rewrite !addr_owner_key by done. setoid_rewrite Hm'. unfold addr_key. setoid_rewrite Eat. split.
    + intros (p & [Hm Hne] & Hk). split; [|done]. exists p. split; [done|]. by destruct (p =? idx).
    + intros [(p & Hm & Hk) Hne]. exists p. split; [done|]. destruct (Z.eqb_spec p idx) as [->|]; [|done]. destruct Hm as [_ Hm], Hat as (_ & Hm2 & _). congruence.
  - intros k i. rewrite !ufrag_owner_key by done. setoid_rewrite Hm'. rewrite Eui. setoid_rewrite Hu'. setoid_rewrite Huh. split.
    + intros (p & [Hm Hne] & Hk & _). split; [|done]. by exists p.
    + intros [(p & Hm & Hk) Hne]. exists p. split; [done|]. split; [done|]. intros ->. destruct Hm as [_ Hm], Hat as (_ & Hm2 & _). congruence.
Qed.
Lemma one_less_more held id : forall i, one_less (one_more held id) id i = held i.
Proof. intros i. unfold one_less, one_more. destruct (i =? id); lia. Qed.
Lemma refs_ext w h h' : refs_ok w h -> (forall i, h i = h' i) -> refs_ok w h'.
Proof. intros Hr E i. rewrite <- E. apply Hr. Qed.
Lemma open_at w id s : links_ok w -> w_heap w !! id = Some s -> ss_open s = true -> session_at w (ss_table_index s) id s.
Proof.
  intros Hl Hs Ho. pose proof (lk_outside _ Hl _ _ Hs) as H. rewrite Ho in H. destruct H as [H0 Hm]. destruct (lk_member _ Hl _ _ Hm). split; [lia|done].
Qed.
(** Closing takes the session out of the table, once; its callers keep their references. *)
Lemma begin_close_spec w held id s : st_ok w -> refs_ok w held -> w_heap w !! id = Some s ->
  exists w', sfu_session_begin_close w id = Ok (ss_open s, w') /\ st_ok w' /\ refs_ok w' held /\
    (forall a i, addr_owner w' a i <-> addr_owner w a i /\ i <> id) /\ (forall u i, ufrag_owner w' u i <-> ufrag_owner w u i /\ i <> id) /\ forall x, w_heap w' !! id = Some x -> ss_open x = false.
Proof.
  intros Hw Hr Hs. pose proof (so_links _ Hw) as Hl. unfold sfu_session_begin_close, deref. rewrite Hs. cbn [res_bind]. destruct (ss_open s) eqn:Ho; cbn [negb].
  2: { exists w. do 3 (split; [done|]). assert (Hno : forall p x, ~ session_at w p id x) by (intros p x (_ & Hm & _); destruct (lk_member _ Hl _ _ Hm) as (_ & y & Hy & _ & Hoy & _); congruence).
       split; [|split; [|congruence]]; intros k i; (split; [|by intros [? _]]); intros H; (split; [done|]); intros ->; destruct H as (p & x & Hx & _); by destruct (Hno p x). }
  pose proof (open_at w id s Hl Hs Ho) as Hat. set (s1 := s <| ss_open := false |> <| ss_accepts_work := false |>). assert (Hmi : table_member_index (set_session w id s1) id = Ok (Some (ss_table_index s))).
  { unfold table_member_index, deref, member_at. change (w_heap (set_session w id s1)) with (<[id := s1]> (w_heap w)). rewrite lookup_insert_eq. cbn [res_bind]. change (ss_table_index s1) with (ss_table_index s). change (w_table (set_session w id s1)) with (w_table w).
    destruct Hat as (Hp & Hm & _). rewrite (proj2 (Z.ltb_lt _ _)) by lia. rewrite Hm. cbn [res_bind]. by rewrite bool_decide_true. }
  rewrite Hmi. cbn [res_bind]. destruct (unlink_run w id s (ss_table_index s) Hw Hat) as (ai & ui & w1 & E1 & Hun & Hai & Hah & Hui & Huh). fold s1 in E1. rewrite E1. cbn [res_bind].
  destruct (unlinked_spec w held id s _ ai ui w1 Hw Hr Hat Hun Hai Hah Hui Huh) as (Hw1 & Hr1 & Ha1 & Hu1). destruct Hun as (_ & _ & _ & _ & _ & _ & _ & Eh).
  assert (Hs1 : w_heap w1 !! id = Some (s1 <| ss_table_index := NO_INDEX |>)) by (rewrite Eh; apply lookup_insert_eq).
  destruct (release_spec w1 (one_more held id) id (s1 <| ss_table_index := NO_INDEX |>) Hw1 Hr1) as (w2 & -> & Hw2 & Hr2 & Hv & _); [destruct (Hr id); unfold one_more; rewrite Z.eqb_refl; lia|done|]. cbn [res_bind].
  destruct (same_view_owners w1 w2 (so_links _ Hw1) (so_links _ Hw2) Hv) as [Ha2 Hu2]. exists w2. split; [done|]. split; [done|]. split; [eapply refs_ext; [exact Hr2|apply one_less_more]|]. split; [intros a i; by rewrite Ha2|]. split; [intros u i; by rewrite Hu2|].
  intros x Hx. destruct (ss_open x) eqn:Ex; [|done]. exfalso. pose proof (open_at w2 id x (so_links _ Hw2) Hx Ex) as Hax. assert (Hown : addr_owner w2 (ss_addr x) id) by (by exists (ss_table_index x), x). apply Ha2, Ha1 in Hown as [_ ?]. done.
Qed.

(** ** Rebinding an address *)

Lemma member_index_run w id s : links_ok w -> w_heap w !! id = Some s -> table_member_index w id = Ok (if ss_open s then Some (ss_table_index s) else None).
Proof.
  intros Hl Hs. unfold table_member_index, deref, member_at. rewrite Hs. cbn [res_bind]. destruct (ss_open s) eqn:Ho.
  - destruct (open_at w id s Hl Hs Ho) as (Hp & Hm & _). rewrite (proj2 (Z.ltb_lt _ _)) by lia. rewrite Hm. cbn [res_bind]. by rewrite bool_decide_true.
  - pose proof (lk_outside _ Hl _ _ Hs) as E. rewrite Ho in E. rewrite E. pose proof (lk_count _ Hl). rewrite (proj2 (Z.ltb_ge _ _)) by (unfold NO_INDEX, SFU_SESSION_TABLE_MAX in *; lia). done.
Qed.
Lemma open_accepts w id s : links_ok w -> w_heap w !! id = Some s -> ss_open s = true -> ss_accepts_work s = true /\ ss_addr s <> [].
Proof. intros Hl Hs Ho. destruct (open_at w id s Hl Hs Ho) as (_ & Hm & _). destruct (lk_member _ Hl _ _ Hm) as (_ & x & Hx & _ & _ & ? & ?). rewrite Hs in Hx. by injection Hx as <-. Qed.
Section Rebind.
Context (w : world) (held : Z -> Z) (id : Z) (s : session) (addr : list Z) (Hw : st_ok w) (Hr : refs_ok w held) (Hs : w_heap w !! id = Some s) (Ho : ss_open s = true) (Haddr : addr <> []).
Let idx := ss_table_index s.
Let s' := s <| ss_addr := addr |> <| ss_address_generation ::= fun n => u32 (n + 1) |>.
Definition moved (w' : world) : Prop :=
  st_ok w' /\ refs_ok w' held /\ (forall a i, addr_owner w' a i <-> a = addr /\ i = id \/ addr_owner w a i /\ i <> id) /\ (forall u i, ufrag_owner w' u i <-> ufrag_owner w u i) /\ w_heap w' !! id = Some s'.
Lemma moved_refs w' : w_heap w' = <[id := s']> (w_heap w) -> refs_ok w' held.
Proof. intros Eh i. rewrite Eh. destruct (Hr i) as [H0 H]. split; [done|]. destruct (decide (i = id)) as [->|]; [rewrite lookup_insert_eq; by rewrite Hs in H|by rewrite lookup_insert_ne]. Qed.
(** Back to its own address. *)
Lemma rebind_same : addr = ss_addr s -> exists w', (let! w1 := table_remove_addr_hash w s idx in
    let! slot := probe_addr w addr true in Ok (set_addr_slot (set_session w1 id s') (default 0 slot) (mk_hash_slot (fnv1a addr) idx))) = Ok w' /\ moved w'.
Proof.
  intros E. pose proof (so_links _ Hw) as Hl. pose proof (open_at w id s Hl Hs Ho) as Hat. destruct (remove_addr_run w s idx (links_tbl _ Hl) (so_addr _ Hw)) as (i & sl & Hsl & Hlv & Ei & ->); [by rewrite <- E|by apply (so_addr_all _ Hw _ id)|]. cbn [res_bind].
  destruct (addr_cases w addr (links_tbl _ Hl) (so_addr _ Hw)) as [(i2 & sl2 & j & x & Hp & Hsl2 & Hlv2 & Hx & Ex)|(Hno & _)]; [|by destruct (Hno idx); rewrite E; apply (so_addr_all _ Hw _ id)].
  rewrite Hp. cbn [res_bind from_option]. assert (Hk : addr_key w (hs_index sl) = Some addr) by (rewrite Ei, E; apply addr_key_iff; by exists id, s). assert (i2 = i) as -> by (eapply (holds_slot 16 fnv1a bits16 (addr_key w)); try done; [apply Hw|apply addr_key_iff; by exists j, x]).
  eexists. split; [reflexivity|]. assert (Esl : mk_hash_slot (fnv1a addr) idx = sl).
  { destruct (ix_slots _ _ _ _ (so_addr _ Hw) _ _ Hsl) as [H|[H|(_ & k & Hk' & Hh)]]; [unfold live, SFU_HASH_EMPTY, SFU_HASH_DELETED in *; lia..|]. rewrite Hk in Hk'. injection Hk' as <-. destruct sl; cbn in *. congruence. }
  assert (Ew : set_addr_slot (set_session (w <| w_table ::= fun t => t <| st_addr_index ::= <[i := sl <| hs_index := SFU_HASH_DELETED |>]> |> |>) id s') (from_option (fun x => x) 0 (Some (Z.of_nat i))) (mk_hash_slot (fnv1a addr) idx) = set_session w id s').
  { rewrite Esl. cbn [from_option]. unfold set_addr_slot. rewrite Nat2Z.id. destruct w as [[sessions free count active addrs ufrags] heap next]. cbn in Hsl. transitivity (mk_world (mk_session_table sessions free count active (<[i := sl]> (<[i := sl <| hs_index := SFU_HASH_DELETED |>]> addrs)) ufrags) (<[id := s']> heap) next); [done|].
    rewrite list_insert_insert_eq, list_insert_id by done. done. }
  refine (eq_ind_r moved _ Ew). destruct (touch_ok w id s s' Hw Hs) as [Hw' Hv]; [split; [done|done]|]. destruct (same_view_owners w _ Hl (so_links _ Hw') Hv) as [Ha Hu]. split; [done|]. split; [by apply moved_refs|]. split; [|split; [done|apply lookup_insert_eq]].
  assert (Hown : addr_owner w addr id) by (exists idx, s; done). intros a k. rewrite Ha. split.
  - intros H. destruct (decide (k = id)) as [->|]; [left|by right]. split; [|done]. destruct H as (p & x' & Hx' & <-). destruct (session_at_pos w idx p id s x' Hl Hat Hx') as [_ ->]. done.
  - by intros [[-> ->]|[? _]].
Qed.
(** To a free one. *)
Lemma rebind_new : (forall p, ~ addr_holds w addr p) -> exists w', (let! w1 := table_remove_addr_hash w s idx in
    let! slot := probe_addr w addr true in Ok (set_addr_slot (set_session w1 id s') (default 0 slot) (mk_hash_slot (fnv1a addr) idx))) = Ok w' /\ moved w'.
Proof.
  intros Hno. pose proof (so_links _ Hw) as Hl. pose proof (open_at w id s Hl Hs Ho) as Hat. destruct (open_accepts w id s Hl Hs Ho) as [_ Hne].
  destruct (remove_addr_run w s idx (links_tbl _ Hl) (so_addr _ Hw) Hne) as (i & sl & Hsl & Hlv & Ei & ->); [by apply (so_addr_all _ Hw _ id)|]. cbn [res_bind].
  destruct (addr_cases w addr (links_tbl _ Hl) (so_addr _ Hw)) as [(i2 & sl2 & j & x & _ & Hsl2 & Hlv2 & Hx & Ex)|(_ & _ & (j & Hp & Hj & Hf))].
  { exfalso. apply (Hno (hs_index sl2)). exists i2, sl2. split_and!; try done. apply addr_key_iff. by exists j, x. }
  rewrite Hp. cbn [res_bind from_option]. eexists. split; [reflexivity|]. set (w' := set_addr_slot _ _ _). set (ix1 := <[i := sl <| hs_index := SFU_HASH_DELETED |>]> (st_addr_index (w_table w))).
  assert (Hix1 : index_ok 16 fnv1a (addr_key w) ix1) by (apply (delete_ok 16 fnv1a bits16); [apply Hw|done]). assert (Hh1 : forall k q, holds (addr_key w) ix1 k q <-> addr_holds w k q /\ q <> idx) by (intros k q; rewrite <- Ei; by apply (delete_holds 16 fnv1a bits16); [apply Hw|..]).
  assert (Eat : forall p, at_index w' p = if p =? idx then Some s' else at_index w p).
  { intros p. change (at_index w' p) with (at_index (set_session w id s') p). rewrite (set_at_index w id s s') by done. case_bool_decide as Hm; destruct (Z.eqb_spec p idx) as [->|Hn]; try done; [|destruct Hm; by destruct Hat as (? & ? & _)].
    destruct Hn. destruct Hm as [Hpp Hm]. by destruct (session_at_pos w idx p id s s Hl Hat) as [-> _]. }
  assert (Hk' : addr_key w' idx = Some addr) by (unfold addr_key; by rewrite Eat, Z.eqb_refl). assert (Hi : 0 <= idx < SFU_HASH_DELETED) by (destruct Hat as (? & _); pose proof (lk_count _ Hl); unfold SFU_HASH_DELETED, SFU_SESSION_TABLE_MAX, idx in *; lia).
  assert (Hag : agrees (addr_key w) (addr_key w') ix1). { intros n x Hx Hlx. destruct (live_key _ _ _ _ _ _ Hix1 Hx Hlx) as [k [_ Hn]%Hh1]. unfold addr_key. rewrite Eat. by rewrite (proj2 (Z.eqb_neq _ _)). }
  assert (Hf1 : free_at SLOTS fnv1a (index_view (addr_key w) ix1) addr j) by (by apply (delete_free 16 fnv1a (addr_key w))).
  pose proof (set_ok 16 fnv1a bits16 (addr_key w) (addr_key w') ix1 addr idx j Hix1 Hi Hk' Hag (fun q Hq => Hno q (proj1 (proj1 (Hh1 addr q) Hq))) Hj Hf1) as Hok. pose proof (set_holds 16 fnv1a bits16 (addr_key w) (addr_key w') ix1 addr idx j Hix1 Hi Hk' Hag Hj Hf1) as Hh.
  assert (Huk : forall p, ufrag_key w' p = ufrag_key w p). { intros p. unfold ufrag_key. rewrite Eat. destruct (Z.eqb_spec p idx) as [->|]; [|done]. assert (at_index w idx = Some s) as -> by (apply at_index_iff; by exists id). done. }
  assert (Hl' : links_ok w') by (assert (Hls : links_ok (set_session w id s')) by (eapply set_links; try done; by left); by destruct Hls; split).
  split; [split|split; [by apply moved_refs|split; [|split; [|apply lookup_insert_eq]]]].
  - done.
  - exact Hok.
  - intros p n x Hx. apply Hh. assert (E : at_index w' p = Some x) by (apply at_index_iff; by exists n). rewrite Eat in E. destruct (Z.eqb_spec p idx) as [->|Hn]; [injection E as <-; by left|right]. apply at_index_iff in E as [n' Hx']. apply Hh1. split; [by apply (so_addr_all _ Hw p n')|done].
  - change (st_ufrag_index (w_table w')) with (st_ufrag_index (w_table w)). eapply rekey_ok; [apply bits16|apply Hw|intros ? ? _ _; apply Huk].
  - assert (Hpid : forall p, member_id w p id -> p = idx) by (intros p [Hpp Hm]; by destruct (session_at_pos w idx p id s s Hl Hat) as [-> _]). intros a n. rewrite !addr_owner_key by done. unfold addr_key. setoid_rewrite Eat. change (member_id w') with (member_id w). split.
    + intros (p & Hm & Hk). destruct (Z.eqb_spec p idx) as [->|Hn]; [left; injection Hk as <-; split; [done|]; destruct Hm as [_ Hm], Hat as (_ & Hm2 & _); unfold idx in *; congruence|right]. split; [by exists p|]. intros ->. by apply Hn, Hpid.
    + intros [[-> ->]|[(p & Hm & Hk) Hn]]; [exists idx; rewrite Z.eqb_refl; split; [by destruct Hat as (? & ? & _)|done]|]. exists p. split; [done|]. destruct (Z.eqb_spec p idx) as [->|]; [|done]. destruct Hm as [_ Hm], Hat as (_ & Hm2 & _). unfold idx in *. congruence.
  - intros u n. rewrite !ufrag_owner_key by done. change (member_id w') with (member_id w). change (st_ufrag_index (w_table w')) with (st_ufrag_index (w_table w)). assert (Hhu : forall q, holds (ufrag_key w') (st_ufrag_index (w_table w)) u q <-> ufrag_holds w u q) by (intros q; apply rekey_holds; intros ? ? _ _; apply Huk).
    by setoid_rewrite Hhu.
Qed.
End Rebind.
(** A session takes an address exactly if it is open and no other session has
    it; otherwise nothing changes. *)
Lemma rebind_spec w held id s addr : st_ok w -> refs_ok w held -> w_heap w !! id = Some s ->
  exists b w', sfu_session_table_rebind_addr w id addr = Ok (b, w') /\
    (b = true <-> ~ bad_addr addr /\ ss_open s = true /\ forall i, addr_owner w addr i -> i = id) /\ (if b then moved w held id s addr w' else w' = w).
Proof.
  intros Hw Hr Hs. pose proof (so_links _ Hw) as Hl. unfold sfu_session_table_rebind_addr. destruct (bool_decide (addr = []) || (128 <? zlen addr)) eqn:Eb.
  { apply bad_addr_test in Eb. exists false, w. split; [done|]. split; [|done]. split; [done|by intros [? _]]. }
  assert (Hnb : ~ bad_addr addr) by (intros H; apply bad_addr_test in H; congruence). assert (Hne : addr <> []) by (intros ->; apply Hnb; by left). rewrite (member_index_run w id s Hl Hs). unfold deref. rewrite Hs. cbn [res_bind].
  destruct (ss_open s) eqn:Ho; [|exists false, w; split; [done|]; split; [|done]; split; [done|by intros (_ & ? & _)]]. rewrite (proj1 (open_accepts w id s Hl Hs Ho)). cbn [negb orb]. pose proof (open_at w id s Hl Hs Ho) as Hat.
  assert (Hgo : forall j, probe_addr w addr true = Ok (Some j) -> (exists w', (let! w1 := table_remove_addr_hash w s (ss_table_index s) in let! slot := probe_addr w addr true in
    Ok (set_addr_slot (set_session w1 id (s <| ss_addr := addr |> <| ss_address_generation ::= fun n => u32 (n + 1) |>)) (default 0 slot) (mk_hash_slot (fnv1a addr) (ss_table_index s)))) = Ok w' /\ moved w held id s addr w') ->
    exists w', (let! w1 := table_remove_addr_hash w s (ss_table_index s) in Ok (true, set_addr_slot (set_session w1 id (s <| ss_addr := addr |> <| ss_address_generation ::= fun n => u32 (n + 1) |>)) j (mk_hash_slot (fnv1a addr) (ss_table_index s)))) = Ok (true, w') /\ moved w held id s addr w').
  { intros j Hj (w' & E & Hm). exists w'. split; [|done]. rewrite Hj in E. destruct (table_remove_addr_hash w s (ss_table_index s)); cbn [res_bind] in *; try done. by injection E as <-. }
  destruct (addr_cases w addr (links_tbl _ Hl) (so_addr _ Hw)) as [(i & sl & j & x & Hp & Hsl & Hlv & Hx & Ex)|(Hno & Hp & (j & Hp2 & _))]; rewrite ?Hp; cbn [res_bind]; rewrite ?Hp.
  - unfold slot_of. rewrite Nat2Z.id, Hsl. cbn [res_bind]. assert (Hown : addr_owner w addr j) by (by exists (hs_index sl), x). destruct (Z.eqb_spec (hs_index sl) (ss_table_index s)) as [Ei|Hni]; cbn [negb].
    + rewrite Ei in Hx. destruct (session_at_fun _ _ _ _ _ _ Hat Hx) as [-> ->]. rewrite ?Hp. cbn [res_bind]. destruct (Hgo _ (Hp true)) as (w' & -> & Hm); [by apply rebind_same|]. exists true, w'. split; [done|]. split; [|done]. split; [intros _|done].
      split_and!; try done. intros k Hk. by apply (addr_owner_fun w addr).
    + exists false, w. split; [done|]. split; [|done]. split; [done|]. intros (_ & _ & Hall). destruct Hni. rewrite (Hall j Hown) in Hx. by destruct (session_at_pos w _ _ id s x Hl Hat Hx) as [-> _].
  - cbn [res_bind]. rewrite Hp2. cbn [res_bind]. destruct (Hgo _ Hp2) as (w' & -> & Hm); [by apply rebind_new|]. exists true, w'. split; [done|]. split; [|done]. split; [intros _|done]. split_and!; try done.
    intros k (p & y & Hy & <-). by destruct (Hno p (so_addr_all _ Hw _ _ _ Hy)).
Qed.

(** ** Indexing a fragment *)

Lemma same_slot w i sl k : index_ok 16 fnv1a (ufrag_key w) (st_ufrag_index (w_table w)) -> st_ufrag_index (w_table w) !! i = Some sl -> live sl -> ufrag_key w (hs_index sl) = Some k ->
  set_ufrag_slot w (Z.of_nat i) (mk_hash_slot (fnv1a k) (hs_index sl)) = w.
Proof.
  intros Hix Hsl Hlv Hk. assert (Esl : mk_hash_slot (fnv1a k) (hs_index sl) = sl).
  { destruct (ix_slots _ _ _ _ Hix _ _ Hsl) as [H|[H|(_ & k' & Hk' & Hh)]]; [unfold live, SFU_HASH_EMPTY, SFU_HASH_DELETED in *; lia..|]. rewrite Hk in Hk'. injection Hk' as <-. destruct sl; cbn in *. congruence. }
  rewrite Esl. unfold set_ufrag_slot. rewrite Nat2Z.id. destruct w as [[sessions free count active addrs ufrags] heap next]. cbn in Hsl.
  transitivity (mk_world (mk_session_table sessions free count active addrs (<[i := sl]> ufrags)) heap next); [done|]. by rewrite list_insert_id.
Qed.
(** A session gets its fragment exactly if it is open and no other session has
    it; otherwise nothing changes. *)
Lemma index_ufrag_spec w held id s : st_ok w -> refs_ok w held -> w_heap w !! id = Some s ->
  exists b w', sfu_session_table_index_ufrag w id = Ok (b, w') /\
    (b = true <-> ss_ufrag s <> [] /\ ss_open s = true /\ forall i, ufrag_owner w (ss_ufrag s) i -> i = id) /\
    (if b then st_ok w' /\ w_heap w' = w_heap w /\ (forall a i, addr_owner w' a i <-> addr_owner w a i) /\ (forall u i, ufrag_owner w' u i <-> u = ss_ufrag s /\ i = id \/ ufrag_owner w u i) else w' = w).
Proof.
  intros Hw Hr Hs. pose proof (so_links _ Hw) as Hl. unfold sfu_session_table_index_ufrag, deref. rewrite Hs. cbn [res_bind]. case_bool_decide as Eu; [exists false, w; split; [done|]; split; [|done]; split; [done|by intros [? _]]|].
  rewrite (member_index_run w id s Hl Hs). cbn [res_bind]. destruct (ss_open s) eqn:Ho; [|exists false, w; split; [done|]; split; [|done]; split; [done|by intros (_ & ? & _)]]. rewrite (proj1 (open_accepts w id s Hl Hs Ho)). cbn [negb orb].
  pose proof (open_at w id s Hl Hs Ho) as Hat. assert (Hki : ufrag_key w (ss_table_index s) = Some (ss_ufrag s)) by (apply ufrag_key_iff; by exists id, s).
  destruct (ufrag_cases w (ss_ufrag s) (links_tbl _ Hl) (so_ufrag _ Hw)) as [(i & sl & j & x & Hp & Hsl & Hlv & Hx & Ex & _)|(Hno & Hp & (j & Hp2 & Hj & Hf))]; rewrite Hp; cbn [res_bind].
  - unfold slot_of. rewrite Nat2Z.id, Hsl. cbn [res_bind]. assert (Hown : ufrag_owner w (ss_ufrag s) j) by (exists (hs_index sl), x; split; [done|]; exists i, sl; split_and!; try done; apply ufrag_key_iff; by exists j, x).
    destruct (Z.eqb_spec (hs_index sl) (ss_table_index s)) as [Ei|Hni]; cbn [negb].
    + rewrite Ei in Hx. destruct (session_at_fun _ _ _ _ _ _ Hat Hx) as [-> ->]. rewrite Hp. cbn [res_bind]. exists true, w. rewrite <- Ei, (same_slot w i sl (ss_ufrag s)) by (done || apply Hw || by rewrite Ei). split; [done|].
      split; [split; [intros _|done]; split_and!; try done; intros k Hk; by apply (ufrag_owner_fun w (ss_ufrag s))|]. split; [done|]. split; [done|]. split; [done|]. intros u k. split; [by right|]. by intros [[-> ->]|?].
    + exists false, w. split; [done|]. split; [|done]. split; [done|]. intros (_ & _ & Hall). destruct Hni. rewrite (Hall j Hown) in Hx. by destruct (session_at_pos w _ _ id s x Hl Hat Hx) as [-> _].
  - rewrite Hp2. cbn [res_bind]. eexists true, _. split; [reflexivity|]. split; [split; [intros _|done]; split_and!; try done; intros k (p & y & _ & Hy); by destruct (Hno p)|]. set (w' := set_ufrag_slot _ _ _).
    assert (Hi : 0 <= ss_table_index s < SFU_HASH_DELETED) by (destruct Hat as (? & _); pose proof (lk_count _ Hl); unfold SFU_HASH_DELETED, SFU_SESSION_TABLE_MAX in *; lia).
    pose proof (set_ok 16 fnv1a bits16 (ufrag_key w) (ufrag_key w) _ (ss_ufrag s) (ss_table_index s) j (so_ufrag _ Hw) Hi Hki (fun _ _ _ _ => eq_refl) Hno Hj Hf) as Hok.
    pose proof (set_holds 16 fnv1a bits16 (ufrag_key w) (ufrag_key w) _ (ss_ufrag s) (ss_table_index s) j (so_ufrag _ Hw) Hi Hki (fun _ _ _ _ => eq_refl) Hj Hf) as Hh.
    assert (Hl' : links_ok w') by (by destruct Hl; split). split; [split; [done|apply Hw|apply Hw|exact Hok]|]. split; [done|]. split; [done|]. intros u k. rewrite !ufrag_owner_key by done. change (member_id w') with (member_id w). split.
    + intros (p & Hm & [[-> ->]|H]%Hh); [left; split; [done|]; destruct Hm as [_ Hm], Hat as (_ & Hm2 & _); congruence|right; by exists p].
    + intros [[-> ->]|(p & Hm & H)]; [exists (ss_table_index s); split; [by destruct Hat as (? & ? & _)|apply Hh; by left]|exists p; split; [done|apply Hh; by right]].
Qed.

(** ** Sessions by fragment *)

(** A session without a fragment is in no slot of that index, so naming it moves nothing. *)
Lemma name_ok w held id s u : st_ok w -> refs_ok w held -> w_heap w !! id = Some s -> ss_ufrag s = [] -> let w' := set_session w id (s <| ss_ufrag := u |>) in
  st_ok w' /\ refs_ok w' held /\ (forall a i, addr_owner w' a i <-> addr_owner w a i) /\ forall v i, ufrag_owner w' v i <-> ufrag_owner w v i.
Proof.
  intros Hw Hr Hs Eu w'. pose proof (so_links _ Hw) as Hl. set (s' := s <| ss_ufrag := u |>) in *. assert (Hl' : links_ok w') by (eapply set_links; try done; by right).
  assert (Ha : forall p, addr_key w' p = addr_key w p) by (intros p; unfold addr_key, w'; rewrite (set_at_index w id s s') by done; case_bool_decide as Hm; [|done]; by rewrite (member_index w id s p Hl Hs Hm)).
  assert (Hg : agrees (ufrag_key w) (ufrag_key w') (st_ufrag_index (w_table w))).
  { intros i sl Hsl Hlv. destruct (live_key _ _ _ _ _ _ (so_ufrag _ Hw) Hsl Hlv) as (k & _ & _ & _ & _ & _ & Hk). unfold ufrag_key, w' in *. rewrite (set_at_index w id s s') by done. case_bool_decide as Hm; [|done]. rewrite (member_index w id s _ Hl Hs Hm), Eu in Hk. done. }
  split; [split|split; [|split]].
  - done.
  - eapply rekey_ok; [apply bits16|apply Hw|intros ? ? _ _; apply Ha].
  - intros p i x Hx. apply (rekey_holds _ _ _ _ _ (fun _ _ _ _ => Ha _)). assert (E : addr_key w p = Some (ss_addr x)) by (rewrite <- Ha; apply addr_key_iff; by exists i, x). apply addr_key_iff in E as (i0 & x0 & Hx0 & <-). by apply (so_addr_all _ Hw p i0 x0).
  - eapply rekey_ok; [apply bits16|apply Hw|exact Hg].
  - intros i. change (w_heap w') with (<[id := s']> (w_heap w)). destruct (Hr i) as [H0 H]. split; [done|]. destruct (decide (i = id)) as [->|]; [rewrite lookup_insert_eq; by rewrite Hs in H|by rewrite lookup_insert_ne].
  - intros a i. rewrite !addr_owner_key by done. by setoid_rewrite Ha.
  - intros v i. rewrite !ufrag_owner_key by done. pose proof (fun q => rekey_holds _ _ _ v q Hg) as Hh. change (st_ufrag_index (w_table w')) with (st_ufrag_index (w_table w)). by setoid_rewrite Hh.
Qed.
Lemma got_less held id o : forall i, one_less (got held o) id i = got (one_less held id) o i.
Proof. intros i. destruct o as [j|]; [|done]. cbn [got]. unfold one_less, one_more. destruct (i =? id), (i =? j); lia. Qed.
Lemma got_self held id : forall i, held i = got (one_less held id) (Some id) i.
Proof. intros i. cbn [got]. unfold one_less, one_more. destruct (i =? id); lia. Qed.
Section Claim.
Context (w : world) (held : Z -> Z) (id : Z) (s : session) (u : list Z) (Hw : st_ok w) (Hr : refs_ok w held) (Hh : 1 <= held id) (Hs : w_heap w !! id = Some s) (Ho : ss_open s = true) (Hu : u <> []).
Record claimed (o : option Z) (w' : world) : Prop := {
  cl_ok : st_ok w';
  cl_refs : refs_ok w' (got (one_less held id) o);
  cl_addr : forall a i, addr_owner w' a i <-> addr_owner w a i;
  cl_owner : zlen u <= 31 -> forall i, o = Some i -> ufrag_owner w' u i;
  cl_who : zlen u <= 31 -> forall i, o = Some i -> i = id \/ ufrag_owner w u i;
  cl_others : zlen u <= 31 -> forall v i, o <> Some i -> (ufrag_owner w' v i <-> ufrag_owner w v i);
  cl_taken : zlen u <= 31 -> o = None -> ss_ufrag s <> [] /\ ss_ufrag s <> u
}.
Lemma claim_spec : exists o w', claim_ufrag quiet w id u = Ok (o, w') /\ claimed o w'.
Proof.
  unfold claim_ufrag, quiet, deref. rewrite Hs. cbn [res_bind]. destruct (negb (bool_decide (ss_ufrag s = [])) && negb (bool_decide (ss_ufrag s = u))) eqn:Ediff.
  { apply andb_true_iff in Ediff as [E1%negb_true_iff E2%negb_true_iff]. apply bool_decide_eq_false in E1, E2. destruct (release_spec w held id s Hw Hr Hh Hs) as (w' & -> & Hw' & Hr' & Hv & _). cbn [res_bind].
    destruct (same_view_owners w w' (so_links _ Hw) (so_links _ Hw') Hv) as [Ha Hu']. exists None, w'. split; [done|]. split; try done; intros _ v i _; apply Hu'. }
  set (name := if bool_decide (ss_ufrag s = []) then take 31 u else u). set (s1 := if bool_decide (ss_ufrag s = []) then s <| ss_ufrag := take 31 u |> else s). set (w1 := if bool_decide (ss_ufrag s = []) then _ else w).
  assert (H1 : st_ok w1 /\ refs_ok w1 held /\ (forall a i, addr_owner w1 a i <-> addr_owner w a i) /\ (forall v i, ufrag_owner w1 v i <-> ufrag_owner w v i) /\ w_heap w1 !! id = Some s1 /\ ss_open s1 = true /\ ss_ufrag s1 = name).
  { unfold w1, s1, name. case_bool_decide as Eu.
    - destruct (name_ok w held id s (take 31 u) Hw Hr Hs Eu) as (? & ? & ? & ?). do 4 (split; [done|]). split; [apply lookup_insert_eq|done].
    - do 6 (split; [done|]). cbn [negb andb] in Ediff. by apply negb_false_iff, bool_decide_eq_true in Ediff. }
  destruct H1 as (Hw1 & Hr1 & Ha1 & Hu1 & Hs1 & Ho1 & Eu1). assert (Hname : zlen u <= 31 -> name = u) by (intros Hz; unfold name; case_bool_decide; [apply take_ge; unfold zlen in Hz; lia|done]).
  assert (Hnn : name <> []) by (unfold name; case_bool_decide; [by destruct u|done]). destruct (index_ufrag_spec w1 held id s1 Hw1 Hr1 Hs1) as (b & w2 & -> & Hb & H2). cbn [res_bind]. rewrite Eu1, Ho1 in *. destruct b.
  - destruct H2 as (Hw2 & Eh & Ha2 & Hu2). exists (Some id), w2. split; [done|]. assert (Hr2 : refs_ok w2 held) by (intros i; rewrite Eh; apply Hr1). split; [done|eapply refs_ext; [exact Hr2|apply got_self]| | |intros _ i [= <-]; by left| |done].
    + intros a i. by rewrite Ha2, Ha1.
    + intros Hz i [= <-]. apply Hu2. left. by rewrite (Hname Hz).
    + intros _ v i Hne. rewrite Hu2, Hu1. split; [intros [[_ ->]|?]; done|by right].
  - subst w2. destruct (find_ufrag_spec w1 held u Hw1 Hr1) as (o & w3 & -> & Hw3 & Hr3 & Hv3 & Ho3 & _). cbn [res_bind]. pose proof (same_view_owners w1 w3 (so_links _ Hw1) (so_links _ Hw3) Hv3) as [Ha3 Hu3].
    assert (Hh3 : 1 <= got held o id) by (destruct o as [j|]; cbn [got]; unfold one_more; [destruct (id =? j); lia|done]). assert (Hs3 : exists s3, w_heap w3 !! id = Some s3) by (destruct (Hr3 id) as [_ H]; destruct (w_heap w3 !! id) as [s3|]; [by exists s3|lia]). destruct Hs3 as [s3 Hs3].
    destruct (release_spec w3 (got held o) id s3 Hw3 Hr3 Hh3 Hs3) as (w4 & -> & Hw4 & Hr4 & Hv4 & _). cbn [res_bind]. pose proof (same_view_owners w3 w4 (so_links _ Hw3) (so_links _ Hw4) Hv4) as [Ha4 Hu4].
    exists o, w4. split; [done|]. split; [done|eapply refs_ext; [exact Hr4|apply got_less]|intros a i; by rewrite Ha4, Ha3, Ha1|intros _ i Hi; by apply Hu4, Hu3, Ho3|intros _ i Hi; right; by apply Hu1, Ho3|intros _ v i _; by rewrite Hu4, Hu3, Hu1|].
    intros Hz ->. rewrite (Hname Hz) in *. exfalso. assert (false = true); [|done]. apply Hb. split_and!; try done. intros i Hi. apply Ho3 in Hi. done.
Qed.
End Claim.
(** What a connectivity check gets: the session of its fragment. *)
Record reached (w : world) (held : Z -> Z) (addr u : list Z) (allow built : bool) (o : option Z) (w' : world) : Prop := {
  re_ok : st_ok w';
  re_refs : refs_ok w' (got held o);
  re_owner : zlen u <= 31 -> forall id, o = Some id -> ufrag_owner w' u id /\ (addr_owner w' addr id \/ allow = false /\ ufrag_owner w u id);
  re_others : zlen u <= 31 -> forall id, o <> Some id -> (forall a, addr_owner w' a id <-> addr_owner w a id) /\ forall v, ufrag_owner w' v id <-> ufrag_owner w v id;
  re_none : zlen u <= 31 -> o = None -> bad_addr addr \/ u = [] \/ (exists j, addr_owner w addr j /\ ~ ufrag_owner w u j) \/ (forall j, ~ ufrag_owner w u j) /\ (forall j, ~ addr_owner w addr j) /\ (built = false \/ table_full w)
}.
Lemma owner_open w u id : st_ok w -> ufrag_owner w u id -> exists s, w_heap w !! id = Some s /\ ss_open s = true /\ addr_owner w (ss_addr s) id /\ ss_ufrag s = u.
Proof.
  intros Hw (p & s & Hs & (_ & _ & _ & _ & _ & Hk)). exists s. destruct (lk_member _ (so_links _ Hw) _ _ (proj1 (proj2 Hs))) as (_ & x & Hx & _ & Ho & _). assert (x = s) as -> by (destruct Hs as (_ & _ & Hs); congruence).
  split; [done|]. split; [done|]. split; [by exists p, s|]. apply ufrag_key_iff in Hk as (i & y & Hy & <- & _). by destruct (session_at_fun _ _ _ _ _ _ Hs Hy) as [_ ->].
Qed.
Section Known.
Context (w w1 : world) (held : Z -> Z) (id : Z) (addr u : list Z) (allow built : bool) (Hw1 : st_ok w1) (Hr1 : refs_ok w1 (one_more held id)) (Hheld : 0 <= held id)
  (Ha1 : forall a i, addr_owner w1 a i <-> addr_owner w a i) (Hu1 : forall v i, ufrag_owner w1 v i <-> ufrag_owner w v i) (Hown : ufrag_owner w1 u id).
(** The session of the fragment moves to the address, or keeps its own. *)
Lemma known_spec : exists o r w', (let! s := deref w1 id in
      if negb (bool_decide (ss_addr s = addr)) && allow then
        let! (rebound, w) := sfu_session_table_rebind_addr w1 id addr in
        if rebound then Ok (Some id, SFU_SESSION_REBIND_APPLIED, w) else let! w := sfu_session_release w id in Ok (None, SFU_SESSION_REBIND_REJECTED, w)
      else Ok (Some id, SFU_SESSION_REBIND_UNCHANGED, w1)) = Ok (o, r, w') /\ reached w held addr u allow built o w'.
Proof.
  destruct (owner_open w1 u id Hw1 Hown) as (s & Hs & Ho & Hadr & Eus). unfold deref. rewrite Hs. cbn [res_bind]. destruct (negb (bool_decide (ss_addr s = addr)) && allow) eqn:Eg.
  2: { exists (Some id), SFU_SESSION_REBIND_UNCHANGED, w1. split; [done|]. split; try done. intros _ i [= <-]. split; [done|]. apply andb_false_iff in Eg as [E|E]; [|right; split; [done|by apply Hu1]]. apply negb_false_iff, bool_decide_eq_true in E. left. by rewrite <- E. }
  destruct (rebind_spec w1 (one_more held id) id s addr Hw1 Hr1 Hs) as (b & w2 & -> & Hb & H2). cbn [res_bind]. destruct b.
  - destruct H2 as (Hw2 & Hr2 & Ha2 & Hu2 & _). exists (Some id), SFU_SESSION_REBIND_APPLIED, w2. split; [done|]. split; try done.
    + intros _ i [= <-]. split; [by apply Hu2|left]. apply Ha2. by left.
    + intros _ i Hne. split; [intros a; rewrite Ha2, Ha1|intros v; by rewrite Hu2, Hu1]. assert (i <> id) by congruence. split; [by intros [[_ ->]|[? _]]|by right].
  - subst w2. destruct (release_spec w1 (one_more held id) id s Hw1 Hr1) as (w3 & -> & Hw3 & Hr3 & Hv3 & _); [unfold one_more; rewrite Z.eqb_refl; lia|done|]. cbn [res_bind]. destruct (same_view_owners w1 w3 (so_links _ Hw1) (so_links _ Hw3) Hv3) as [Ha3 Hu3].
    exists None, SFU_SESSION_REBIND_REJECTED, w3. split; [done|]. split; try done; [eapply refs_ext; [exact Hr3|apply one_less_more]|intros _ i _; split; [intros a; by rewrite Ha3, Ha1|intros v; by rewrite Hu3, Hu1]|].
    intros _ _. destruct (decide (addr = [])) as [->|Hne]; [left; by left|]. destruct (Z_lt_le_dec 128 (zlen addr)) as [|Hz]; [left; by right|]. right. right. left. destruct (addr_cases w1 addr (links_tbl _ (so_links _ Hw1)) (so_addr _ Hw1)) as [(i & sl & j & x & _ & _ & _ & Hx & Ex)|(Hno & _)].
    + assert (Hj : addr_owner w1 addr j) by (by exists (hs_index sl), x). exists j. split; [by apply Ha1|]. intros Hj2. apply Hu1 in Hj2. assert (Ej : j = id) by (by apply (ufrag_owner_fun w1 u)). subst j. assert (false = true); [|done]. apply Hb. split; [intros [?|?]; [done|lia]|]. split; [done|]. intros k Hk. by apply (addr_owner_fun w1 addr).
    + exfalso. assert (false = true); [|done]. apply Hb. split; [intros [?|?]; [done|lia]|]. split; [done|]. intros k (p & y & Hy & <-). by destruct (Hno p (so_addr_all _ Hw1 _ _ _ Hy)).
Qed.
End Known.
Lemma by_ufrag_spec w held addr u allow built : st_ok w -> refs_ok w held ->
  exists o r w', sfu_session_table_get_or_create_by_ufrag quiet w addr u allow built = Ok (o, r, w') /\ reached w held addr u allow built o w'.
Proof.
  intros Hw Hr. unfold sfu_session_table_get_or_create_by_ufrag. change (quiet ?x) with x. destruct (bool_decide (addr = []) || (128 <? zlen addr) || bool_decide (u = [])) eqn:Eb.
  { exists None, SFU_SESSION_REBIND_UNCHANGED, w. split; [done|]. split; try done. intros _ _. apply orb_true_iff in Eb as [E|E]; [left; by apply bad_addr_test|right; left; by apply bool_decide_eq_true in E]. }
  apply orb_false_iff in Eb as [Eb Eu]. apply bool_decide_eq_false in Eu. destruct (find_ufrag_spec w held u Hw Hr) as (o & w1 & -> & Hw1 & Hr1 & Hv1 & Ho1 & _). cbn [res_bind]. destruct (same_view_owners w w1 (so_links _ Hw) (so_links _ Hw1) Hv1) as [Ha1 Hu1].
  destruct o as [id|]; [apply known_spec; try done; [apply Hr|by apply Hu1, Ho1]|]. assert (Hnone : forall j, ~ ufrag_owner w u j) by (intros j Hj; apply Ho1 in Hj; done).
  destruct (session_create_spec w1 held addr built Hw1 Hr1) as (o2 & w2 & -> & Hw2 & Hr2 & Ha2 & Hu2 & H2). cbn [res_bind]. destruct o2 as [id|].
  2: { destruct H2 as (-> & H2). exists None, SFU_SESSION_REBIND_UNCHANGED, w1. split; [done|]. split; try done. intros _ _. destruct H2 as [?|[Hna Hf]]; [by left|]. do 3 right. split; [done|]. split; [intros j Hj; by apply (Hna j), Ha1|]. destruct Hf as [?|Hf]; [by left|right]. intros p Hp. destruct (Hf p Hp) as [j Hj]. exists j. by apply (sv_members _ _ Hv1). }
  destruct H2 as (Hown & s & Hs & Ho & Hold). destruct (claim_spec w2 (one_more held id) id s u Hw2 Hr2) as (o & w3 & -> & Hc); [destruct (Hr id); unfold one_more; rewrite Z.eqb_refl; lia|done..|]. cbn [res_bind]. exists o, SFU_SESSION_REBIND_UNCHANGED, w3. split; [done|].
  assert (Hu2' : forall v i, ufrag_owner w2 v i <-> ufrag_owner w v i) by (intros v i; by rewrite Hu2, Hu1).
  assert (Hsame : zlen u <= 31 -> forall i, o = Some i -> i = id) by (intros Hz i Hi; destruct (cl_who _ _ _ _ _ _ _ Hc Hz i Hi) as [?|H]; [done|]; by destruct (Hnone i); apply Hu2').
  assert (Hback : zlen u <= 31 -> o = None -> addr_owner w addr id). { intros Hz Hn. destruct (cl_taken _ _ _ _ _ _ _ Hc Hz Hn) as [Hne _]. destruct Hold as [H|H]; [by apply Ha1|done]. }
  split; [apply Hc|eapply refs_ext; [apply Hc|]; intros i; destruct o; cbn [got]; unfold one_less, one_more; repeat destruct (_ =? _); lia| | |].
  - intros Hz i Hi. split; [by apply (cl_owner _ _ _ _ _ _ _ Hc)|left]. rewrite (Hsame Hz i Hi). by apply (cl_addr _ _ _ _ _ _ _ Hc).
  - intros Hz i Hne. split; [|intros v; rewrite (cl_others _ _ _ _ _ _ _ Hc Hz v i Hne); apply Hu2']. intros a. rewrite (cl_addr _ _ _ _ _ _ _ Hc), Ha2, Ha1. split; [|by left]. intros [?|[-> [= <-]]]; [done|]. apply Hback; [done|].
    destruct o as [j|]; [|done]. by rewrite (Hsame Hz j eq_refl) in Hne.
  - intros Hz Hn. right. right. left. exists id. split; [by apply Hback|]. apply Hnone.
Qed.

(** ** Any use of the table *)

Inductive op :=
| OpFind (addr : list Z) | OpFindUfrag (ufrag : list Z) | OpGet (addr : list Z) (built : bool) | OpCheck (addr ufrag : list Z) (allow_rebind built : bool)
| OpClose (id : Z) | OpRelease (id : Z) | OpRebind (id : Z) (addr : list Z) | OpIndex (id : Z) | OpName (id : Z) (ufrag : list Z).
(** A caller acts only on a session it has a reference to. *)
Definition run_op (st : world * (Z -> Z)) (o : op) : res (world * (Z -> Z)) :=
  let (w, h) := st in
  let holding id (k : res (world * (Z -> Z))) := if h id <? 1 then Ok st else k in
  match o with
  | OpFind addr => let! (f, w') := sfu_session_table_find w addr in Ok (w', got h f)
  | OpFindUfrag u => let! (f, w') := sfu_session_table_find_by_ufrag w u in Ok (w', got h f)
  | OpGet addr built => let! (f, w') := sfu_session_table_get_or_create w addr built in Ok (w', got h f)
  | OpCheck addr u allow built => let! (f, _, w') := sfu_session_table_get_or_create_by_ufrag quiet w addr u allow built in Ok (w', got h f)
  | OpClose id => holding id (let! (_, w') := sfu_session_begin_close w id in Ok (w', h))
  | OpRelease id => holding id (let! w' := sfu_session_release w id in Ok (w', one_less h id))
  | OpRebind id addr => holding id (let! (_, w') := sfu_session_table_rebind_addr w id addr in Ok (w', h))
  | OpIndex id => holding id (let! (_, w') := sfu_session_table_index_ufrag w id in Ok (w', h))
  | OpName id u => holding id (let! s := deref w id in Ok (if bool_decide (ss_ufrag s = []) then set_session w id (s <| ss_ufrag := take 31 u |>) else w, h))
  end.
Fixpoint run_ops (st : world * (Z -> Z)) (ops : list op) : res (world * (Z -> Z)) :=
  match ops with [] => Ok st | o :: ops => let! st := run_op st o in run_ops st ops end.
Definition start : world * (Z -> Z) := (empty_world, fun _ => 0).
Lemma empty_slot i s : replicate (Z.to_nat SLOTS) (mk_hash_slot 0 SFU_HASH_EMPTY) !! i = Some s -> hs_index s = SFU_HASH_EMPTY.
Proof. intros [-> _]%lookup_replicate. done. Qed.
Lemma empty_zlen {A} (n : Z) (x : A) : 0 <= n -> zlen (replicate (Z.to_nat n) x) = n.
Proof. intros Hn. unfold zlen. rewrite length_replicate. lia. Qed.
Lemma empty_world_ok : st_ok empty_world /\ refs_ok empty_world (fun _ => 0).
Proof.
  assert (Hm : forall p id, st_sessions (w_table empty_world) !! p = Some (Some id) -> False) by (intros p id [? _]%lookup_replicate; done).
  split; [split; [split|..]|].
  - apply empty_zlen. done.
  - done.
  - intros p id H. by destruct (Hm p id).
  - intros id s H. change (w_heap empty_world) with (∅ : gmap Z session) in H. by rewrite lookup_empty in H.
  - intros p. split; [intros H; by apply not_elem_of_nil in H|]. intros [[? H] _]. cbn in H. lia.
  - apply NoDup_nil_2.
  - done.
  - intros id s H. change (w_heap empty_world) with (∅ : gmap Z session) in H. by rewrite lookup_empty in H.
  - eapply (cleared_ok 16 fnv1a bits16); [by apply empty_zlen|apply empty_slot].
  - intros p id s (_ & H & _). by destruct (Hm (Z.to_nat p) id).
  - eapply (cleared_ok 16 fnv1a bits16); [by apply empty_zlen|apply empty_slot].
  - intros id. split; [done|]. change (w_heap empty_world) with (∅ : gmap Z session). by rewrite lookup_empty.
Qed.
Lemma held_session w h id : refs_ok w h -> 1 <= h id -> exists s, w_heap w !! id = Some s.
Proof. intros Hr Hh. destruct (Hr id) as [_ H]. destruct (w_heap w !! id) as [s|]; [by exists s|lia]. Qed.
Lemma run_op_ok w h o : st_ok w -> refs_ok w h -> exists w' h', run_op (w, h) o = Ok (w', h') /\ st_ok w' /\ refs_ok w' h'.
Proof.
  intros Hw Hr. assert (Hhold : forall id k, (forall s, 1 <= h id -> w_heap w !! id = Some s -> exists w' h', k = Ok (w', h') /\ st_ok w' /\ refs_ok w' h') -> exists w' h', (if h id <? 1 then Ok (w, h) else k) = Ok (w', h') /\ st_ok w' /\ refs_ok w' h').
  { intros id k Hk. destruct (Z.ltb_spec (h id) 1) as [|Hh]; [by exists w, h|]. destruct (held_session w h id Hr Hh) as [s Hs]. by apply (Hk s). }
  destruct o as [addr|u|addr built|addr u allow built|id|id|id addr|id|id u]; cbn [run_op].
  - destruct (find_spec w h addr Hw Hr) as (f & w' & -> & Hw' & Hr' & _). by exists w', (got h f).
  - destruct (find_ufrag_spec w h u Hw Hr) as (f & w' & -> & Hw' & Hr' & _). by exists w', (got h f).
  - destruct (session_create_spec w h addr built Hw Hr) as (f & w' & -> & Hw' & Hr' & _). by exists w', (got h f).
  - destruct (by_ufrag_spec w h addr u allow built Hw Hr) as (f & r & w' & -> & Hc). exists w', (got h f). split; [done|]. split; apply Hc.
  - apply Hhold. intros s Hh Hs. destruct (begin_close_spec w h id s Hw Hr Hs) as (w' & -> & Hw' & Hr' & _). by exists w', h.
  - apply Hhold. intros s Hh Hs. destruct (release_spec w h id s Hw Hr Hh Hs) as (w' & -> & Hw' & Hr' & _). by exists w', (one_less h id).
  - apply Hhold. intros s Hh Hs. destruct (rebind_spec w h id s addr Hw Hr Hs) as (b & w' & -> & _ & H). exists w', h. split; [done|]. destruct b; [by destruct H as (? & ? & _)|by subst w'].
  - apply Hhold. intros s Hh Hs. destruct (index_ufrag_spec w h id s Hw Hr Hs) as (b & w' & -> & _ & H). exists w', h. split; [done|]. destruct b; [|by subst w']. destruct H as (? & E & _). split; [done|]. intros i. rewrite E. apply Hr.
  - apply Hhold. intros s Hh Hs. unfold deref. rewrite Hs. cbn [res_bind]. eexists _, h. split; [done|]. case_bool_decide as Eu; [|done].
    destruct (name_ok w h id s (take 31 u) Hw Hr Hs Eu) as (? & ? & _). done.
Qed.
Lemma run_ops_ok ops w h : st_ok w -> refs_ok w h -> exists w' h', run_ops (w, h) ops = Ok (w', h') /\ st_ok w' /\ refs_ok w' h'.
Proof.
  revert w h. induction ops as [|o ops IH]; intros w h Hw Hr; cbn [run_ops]; [by exists w, h|]. destruct (run_op_ok w h o Hw Hr) as (w1 & h1 & -> & Hw1 & Hr1). cbn [res_bind]. by apply IH.
Qed.
Lemma open_member w id s : links_ok w -> w_heap w !! id = Some s -> ss_open s = true <-> exists p, member_id w p id.
Proof.
  intros Hl Hs. split.
  - intros Ho. destruct (open_at w id s Hl Hs Ho) as (Hp & Hm & _). by exists (ss_table_index s).
  - intros (p & _ & Hm). destruct (lk_member _ Hl _ _ Hm) as (_ & x & Hx & _ & Ho & _). congruence.
Qed.
(** C10: Whatever the order of lookups, creations, connectivity checks and their
    parts (naming and indexing a session), closes, rebinds and releases, as
    long as callers act on sessions they hold: no
    operation touches a freed session or leaves the table's arrays; a session
    is in memory exactly while the table or a caller has a reference, its
    count being that of those references; the table holds it exactly while it
    is open; and no address or fragment has two sessions. *)
Theorem session_references_safe ops : exists w h, run_ops start ops = Ok (w, h) /\
  (forall id, match w_heap w !! id with Some s => ss_refcount s = (if ss_open s then 1 else 0) + h id /\ 1 <= ss_refcount s | None => h id = 0 end) /\
  (forall id s, w_heap w !! id = Some s -> ss_open s = true <-> exists p, member_id w p id) /\ (forall p id, member_id w p id -> w_heap w !! id <> None) /\
  st_active_count (w_table w) = st_count (w_table w) - zlen (st_free (w_table w)) /\
  (forall addr i j, addr_owner w addr i -> addr_owner w addr j -> i = j) /\ (forall u i j, ufrag_owner w u i -> ufrag_owner w u j -> i = j).
Proof.
  destruct empty_world_ok as [Hs Hr0]. destruct (run_ops_ok ops _ _ Hs Hr0) as (w & h & E & Hw & Hr). pose proof (so_links _ Hw) as Hl. exists w, h. split; [exact E|]. split; [intros id; apply Hr|]. split; [intros id s; by apply open_member|].
  split; [intros p id [_ Hm]; destruct (lk_member _ Hl _ _ Hm) as (_ & s & -> & _); done|]. split; [apply Hl|]. split; [intros addr i j; by apply addr_owner_fun|intros u i j; by apply ufrag_owner_fun].
Qed.
(** C11: After any such use, a lookup by address or by fragment returns exactly
    the session that owns it, and a connectivity check during which no other
    thread changes the table returns the session of
    its fragment (of at most 31 bytes), which afterwards owns the fragment and,
    unless rebinding was not allowed, the address; no other session is
    affected, and it fails only on a bad address or fragment, on an address
    that belongs to another session, or when there is no room for a new one. *)
Theorem session_lookups_exact ops addr u allow built : exists w h, run_ops start ops = Ok (w, h) /\
  (exists o w1, sfu_session_table_find w addr = Ok (o, w1) /\ forall id, o = Some id <-> addr_owner w addr id) /\
  (exists o w1, sfu_session_table_find_by_ufrag w u = Ok (o, w1) /\ forall id, o = Some id <-> ufrag_owner w u id) /\
  exists o r w', sfu_session_table_get_or_create_by_ufrag quiet w addr u allow built = Ok (o, r, w') /\ reached w h addr u allow built o w'.
Proof.
  destruct empty_world_ok as [Hs Hr0]. destruct (run_ops_ok ops _ _ Hs Hr0) as (w & h & E & Hw & Hr). exists w, h. split; [exact E|]. split; [|split; [|by apply by_ufrag_spec]].
  - destruct (find_spec w h addr Hw Hr) as (o & w1 & Ef & _ & _ & _ & Ho & _). by exists o, w1.
  - destruct (find_ufrag_spec w h u Hw Hr) as (o & w1 & Ef & _ & _ & _ & Ho & _). by exists o, w1.
Qed.
(** A check creates a session, the same fragment from another address moves it, and its close frees it with the last reference. *)
Example session_life : (let! (w, h) := run_ops start [OpCheck [1] [7] true true; OpCheck [2] [7] true true; OpClose 0; OpRelease 0; OpRelease 0] in Ok (bool_decide (w_heap w = ∅), h 0, st_free (w_table w))) = Ok (true, 0, [0]).
Proof. vm_compute. done. Qed.
