(* ===== verification/Rtcp.v ===== *)
(** RTCP, [src/rtcp/]: the iterator over the members of a compound packet
    ([rtcp_compound.c]), the PLI and FIR parsers ([rtcp_fb.c]) and the PLI,
    FIR and REMB builders ([rtcp_kf.c]). *)

From S2P Require Import Prelude NetBytes RtpPacket.

(** * The compound iterator *)

(** [member] and [body] are offsets in the packet. *)
Record sfu_rtcp_member_view := mk_member_view {
  member : Z;
  member_len : Z;
  fmt_count : Z;
  pt : Z;
  sender_ssrc : Z;
  body : Z;
  body_len : Z
}.
Record sfu_rtcp_compound_iter := mk_iter {
  next : Z;
  remaining : Z;
  malformed : bool
}.
Inductive sfu_rtcp_compound_result :=
| COMPOUND_MALFORMED
| COMPOUND_END
| COMPOUND_ITEM (v : sfu_rtcp_member_view).

Definition sfu_rtcp_compound_iter_init (packet_len : Z) : sfu_rtcp_compound_iter :=
  mk_iter 0 packet_len false.

(** Errors inside [sfu_rtcp_compound_iter_next] go through [malformed()]. *)
Definition set_malformed (it : sfu_rtcp_compound_iter) : sfu_rtcp_compound_iter :=
  mk_iter (next it) 0 true.

(** The member at the front: its view and its size with padding. *)
Definition read_member (data : list Z) (it : sfu_rtcp_compound_iter)
  : res (sfu_rtcp_member_view * Z) :=
  let m := next it in
  reject (remaining it <? 4) (
  let! first := rd data m in
  reject (negb (Z.shiftr first 6 =? 2)) (
  let! words_minus_one := sfu_read_be16 data (m + 2) in
  let member_bytes := (words_minus_one + 1) * 4 in
  reject ((member_bytes <? 8) || (remaining it <? member_bytes)) (
  let! logical_bytes :=
    if negb (Z.land first 0x20 =? 0) then
      let! padding := rd data (m + member_bytes - 1) in
      let payload_bytes := member_bytes - 4 in
      reject ((padding =? 0) || (payload_bytes <? padding)) (
      let logical := member_bytes - padding in
      reject (logical <? 8) (Ok logical))
    else Ok member_bytes in
  let! p := rd data (m + 1) in
  let! ss := sfu_read_be32 data (m + 4) in
  Ok (mk_member_view m logical_bytes (Z.land first 0x1f) p ss (m + 8) (logical_bytes - 8), member_bytes)))).

Definition sfu_rtcp_compound_iter_next (data : list Z) (it : sfu_rtcp_compound_iter)
  : res (sfu_rtcp_compound_result * sfu_rtcp_compound_iter) :=
  if malformed it then Ok (COMPOUND_MALFORMED, it) else
  if remaining it =? 0 then Ok (COMPOUND_END, it) else
  match read_member data it with
  | Ok (v, n) => Ok (COMPOUND_ITEM v, mk_iter (next it + n) (remaining it - n) false)
  | Err => Ok (COMPOUND_MALFORMED, set_malformed it)
  | Fault => Fault
  end.

(** The caller's loop: the members, and whether the packet ended cleanly. *)
Fixpoint compound_collect (fuel : nat) (data : list Z) (it : sfu_rtcp_compound_iter)
  : res (list sfu_rtcp_member_view * bool) :=
  match fuel with
  | O => Fault
  | S fuel =>
      let! r := sfu_rtcp_compound_iter_next data it in
      match r with
      | (COMPOUND_MALFORMED, _) => Ok ([], false)
      | (COMPOUND_END, _) => Ok ([], true)
      | (COMPOUND_ITEM v, it) =>
          let! l := compound_collect fuel data it in
          let '(vs, ok) := l in Ok (v :: vs, ok)
      end
  end.

(** * Feedback messages *)

Record sfu_rtcp_pli := mk_pli { pli_sender : Z; pli_media : Z }.
Record sfu_rtcp_fir := mk_fir { fir_sender : Z; fir_media : Z; fci : Z; entry_count : Z }.
Record sfu_rtcp_fir_entry := mk_fir_entry { target_ssrc : Z; fir_seq : Z }.

Definition sfu_rtcp_parse_pli (data : list Z) (m : sfu_rtcp_member_view) : res sfu_rtcp_pli :=
  reject (negb (pt m =? 206) || negb (fmt_count m =? 1) || negb (member_len m =? 12) ||
          negb (body_len m =? 4) || negb (body m =? member m + 8)) (
  let! media := sfu_read_be32 data (body m) in
  Ok (mk_pli (sender_ssrc m) media)).

(** Every entry's reserved bytes are zero. *)
Fixpoint fir_reserved_zero (n : nat) (data : list Z) (entry : Z) : res bool :=
  match n with
  | O => Ok true
  | S n =>
      let! e5 := rd data (entry + 5) in
      let! e6 := rd data (entry + 6) in
      let! e7 := rd data (entry + 7) in
      if negb (e5 =? 0) || negb (e6 =? 0) || negb (e7 =? 0) then Ok false
      else fir_reserved_zero n data (entry + 8)
  end.

Definition sfu_rtcp_parse_fir (data : list Z) (m : sfu_rtcp_member_view) : res sfu_rtcp_fir :=
  reject (negb (pt m =? 206) || negb (fmt_count m =? 4) || (member_len m <? 20) ||
          (body_len m <? 12) || negb (body m =? member m + 8) ||
          negb (member_len m =? body_len m + 8) || negb ((body_len m - 4) mod 8 =? 0)) (
  let count := (body_len m - 4) / 8 in
  let! zero := fir_reserved_zero (Z.to_nat count) data (body m + 4) in
  reject (negb zero) (
  let! media := sfu_read_be32 data (body m) in
  Ok (mk_fir (sender_ssrc m) media (body m + 4) count))).

Definition sfu_rtcp_fir_entry_at (data : list Z) (f : sfu_rtcp_fir) (index : Z) : res sfu_rtcp_fir_entry :=
  reject (entry_count f <=? index) (
  let p := fci f + index * 8 in
  let! ss := sfu_read_be32 data p in
  let! s := rd data (p + 4) in
  Ok (mk_fir_entry ss s)).

(** * Builders

    [memcpy] of [htons(v)] or [htonl(v)] stores the bytes in network order on
    any host. *)
Definition put_be16 (b : list Z) (p v : Z) : res (list Z) := wr_n b p (enc16 v).
Definition put_be32 (b : list Z) (p v : Z) : res (list Z) := wr_n b p (enc32 v).

Definition sfu_rtcp_build_pli (sender media : Z) (buffer : list Z) (cap : Z) : res (list Z * Z) :=
  reject (cap <? 12) (
  let! buffer := wr buffer 0 0x81 in
  let! buffer := wr buffer 1 206 in
  let! buffer := put_be16 buffer 2 2 in
  let! buffer := put_be32 buffer 4 sender in
  let! buffer := put_be32 buffer 8 media in
  Ok (buffer, 12)).

(** Also returns the incremented command sequence number. *)
Definition sfu_rtcp_build_fir (sender media seq : Z) (buffer : list Z) (cap : Z)
  : res (list Z * Z * Z) :=
  reject (cap <? 20) (
  let! buffer := wr buffer 0 0x84 in
  let! buffer := wr buffer 1 206 in
  let! buffer := put_be16 buffer 2 4 in
  let! buffer := put_be32 buffer 4 sender in
  let! buffer := put_be32 buffer 8 media in
  let! buffer := put_be32 buffer 12 media in
  let! buffer := wr buffer 16 seq in
  let! buffer := wr buffer 17 0 in
  let! buffer := wr buffer 18 0 in
  let! buffer := wr buffer 19 0 in
  Ok (buffer, 20, u8 (seq + 1))).

(** Halve the bitrate until it fits 18 bits. *)
Fixpoint remb_scale (fuel : nat) (exponent mantissa : Z) : Z * Z :=
  match fuel with
  | O => (exponent, mantissa)
  | S fuel =>
      if (0x3FFFF <? mantissa) && (exponent <? 63)
      then remb_scale fuel (exponent + 1) (Z.shiftr mantissa 1)
      else (exponent, mantissa)
  end.

Fixpoint put_ssrcs (buffer : list Z) (off : Z) (ssrcs : list Z) : res (list Z) :=
  match ssrcs with
  | [] => Ok buffer
  | s :: ssrcs => let! buffer := put_be32 buffer off s in put_ssrcs buffer (off + 4) ssrcs
  end.

(** [media_ssrc_count] is the length of the list. *)
Definition sfu_rtcp_build_remb (sender bitrate_bps : Z) (media_ssrcs : list Z) (buffer : list Z) (cap : Z)
  : res (list Z * Z) :=
  let media_ssrc_count := zlen media_ssrcs in
  reject (media_ssrc_count =? 0) (
  let packet_len := 20 + media_ssrc_count * 4 in
  reject (cap <? packet_len) (
  let '(exponent, mantissa) := remb_scale 63 0 bitrate_bps in
  let mantissa := if 0x3FFFF <? mantissa then 0x3FFFF else mantissa in
  let! buffer := wr buffer 0 0x8F in
  let! buffer := wr buffer 1 206 in
  let! buffer := put_be16 buffer 2 (u16 (packet_len / 4 - 1)) in
  let! buffer := put_be32 buffer 4 sender in
  let! buffer := memset buffer 8 0 4 in
  let! buffer := wr_n buffer 12 [0x52; 0x45; 0x4D; 0x42] in
  let! buffer := wr buffer 16 media_ssrc_count in
  let encoded := Z.lor (Z.shiftl exponent 18) (u32 mantissa) in
  let! buffer := wr buffer 17 (u8 (Z.shiftr encoded 16)) in
  let! buffer := wr buffer 18 (u8 (Z.shiftr encoded 8)) in
  let! buffer := wr buffer 19 (u8 encoded) in
  let! buffer := put_ssrcs buffer 20 media_ssrcs in
  Ok (buffer, packet_len))).

(** * The compound grammar of RFC 3550 *)

Record rtcp_member := mk_rtcp_member {
  g_fmt : Z; g_pt : Z; g_ssrc : Z; g_body : list Z; g_pad : option (list Z)
}.
Definition member_size (m : rtcp_member) : Z := 8 + zlen (g_body m) + zlen (pad_wire (g_pad m)).
Definition member_wire (m : rtcp_member) : list Z :=
  [128 + flag (is_some (g_pad m)) 32 + g_fmt m; g_pt m] ++ enc16 (member_size m / 4 - 1) ++
  enc32 (g_ssrc m) ++ g_body m ++ pad_wire (g_pad m).
Definition member_wf (m : rtcp_member) : Prop :=
  0 <= g_fmt m <= 31 /\ is_u8 (g_pt m) /\ is_u32 (g_ssrc m) /\ bytes_ok (g_body m) /\
  pad_wf (g_pad m) /\ member_size m mod 4 = 0 /\ member_size m <= 262144.
Definition member_view_at (off : Z) (m : rtcp_member) : sfu_rtcp_member_view :=
  mk_member_view off (8 + zlen (g_body m)) (g_fmt m) (g_pt m) (g_ssrc m) (off + 8) (zlen (g_body m)).

Definition compound_wire (ms : list rtcp_member) : list Z := concat (map member_wire ms).
Fixpoint compound_views (off : Z) (ms : list rtcp_member) : list sfu_rtcp_member_view :=
  match ms with
  | [] => []
  | m :: ms => member_view_at off m :: compound_views (off + member_size m) ms
  end.

Lemma zlen_member_wire m : zlen (member_wire m) = member_size m.
Proof. unfold member_wire, member_size. zlen. Qed.

Lemma rtcp_byte0 p fmt :
  0 <= fmt <= 31 ->
  let b := 128 + flag p 32 + fmt in
  Z.shiftr b 6 = 2 /\ negb (Z.land b 0x20 =? 0) = p /\ Z.land b 0x1f = fmt /\ is_u8 b.
Proof.
  intros Hf b. assert (Hb : is_u8 fmt) by (unfold is_u8; lia).
  pose proof (byte_forall (fun c => (31 <? c) ||
    let b := 128 + flag p 32 + c in
    (Z.shiftr b 6 =? 2) && eqb (negb (Z.land b 0x20 =? 0)) p && (Z.land b 0x1f =? c) &&
    (0 <=? b) && (b <? 256))) as H.
  specialize (H ltac:(destruct p; vm_compute; reflexivity) fmt Hb). cbv beta zeta in H.
  apply orb_true_iff in H as [?|H]; [lia|]. fold b in H. bool_hyps.
  rewrite !eqb_true_iff in *. unfold is_u8. auto with lia.
Qed.

Lemma rtcp_byte0_rebuild b :
  is_u8 b -> Z.shiftr b 6 = 2 ->
  b = 128 + flag (negb (Z.land b 0x20 =? 0)) 32 + Z.land b 0x1f /\ 0 <= Z.land b 0x1f <= 31.
Proof.
  intros Hb H6.
  pose proof (byte_forall (fun b => negb (Z.shiftr b 6 =? 2) ||
    ((b =? 128 + flag (negb (Z.land b 0x20 =? 0)) 32 + Z.land b 0x1f) &&
     (0 <=? Z.land b 0x1f) && (Z.land b 0x1f <=? 31)))
    ltac:(vm_compute; reflexivity) b Hb) as H.
  cbv beta in H. rewrite H6 in H. simpl in H. bool_hyps. auto.
Qed.

Lemma member_wire_bytes_ok m : member_wf m -> bytes_ok (member_wire m).
Proof.
  intros (Hf & Hp & _ & Hb & Hpad & _). unfold member_wire.
  apply bytes_ok_app; [apply bytes_ok_cons; [by apply rtcp_byte0|auto with sfu]|].
  auto using pad_wire_bytes_ok with sfu.
Qed.

(** The header fields of a member behind [A], and its last byte when padded. *)
Lemma member_wire_fields A m R :
  member_wf m ->
  let d := A ++ member_wire m ++ R in
  let p := zlen A in
  byte_at d p = 128 + flag (is_some (g_pad m)) 32 + g_fmt m /\ byte_at d (p + 1) = g_pt m /\
  be16 d (p + 2) = member_size m / 4 - 1 /\ be32 d (p + 4) = g_ssrc m /\
  forall filler, g_pad m = Some filler -> byte_at d (p + member_size m - 1) = zlen filler + 1.
Proof.
  intros (_ & _ & Hs & _ & _ & Hm & Hmax) d p. zlen_pos.
  assert (0 <= member_size m / 4 - 1 < 65536)
    by (unfold member_size in *; zlen_pos; dlia).
  set (b0 := 128 + flag (is_some (g_pad m)) 32 + g_fmt m).
  assert (Ew : d = A ++ [b0; g_pt m] ++ enc16 (member_size m / 4 - 1) ++ enc32 (g_ssrc m) ++
                   g_body m ++ pad_wire (g_pad m) ++ R).
  { unfold d, member_wire. fold b0. cbn [app]. by rewrite <- !app_assoc. }
  rewrite Ew. repeat split.
  - by apply byte_at_mid.
  - change (A ++ [b0; g_pt m] ++ ?l) with (A ++ [b0] ++ g_pt m :: l). rewrite app_assoc.
    apply byte_at_mid. unfold p. zlen.
  - unfold p. rewrite be16_app_r, (be16_app_0 [b0; g_pt m]) by lia. by apply be16_enc16.
  - unfold p. rewrite be32_app_r by lia. rewrite app_assoc.
    change 4 with (zlen ([b0; g_pt m] ++ enc16 (member_size m / 4 - 1)) + 0).
    rewrite be32_app_r by done. by apply be32_enc32.
  - intros filler Hp. unfold p, member_size. rewrite Hp. cbn [pad_wire].
    rewrite <- (app_assoc filler), !app_assoc. rewrite <- (app_assoc _ [_] R).
    apply byte_at_mid. zlen.
Qed.

(** The member read is the one the wire image encodes. *)
Lemma read_member_wire A m R rem :
  member_wf m -> bytes_ok (A ++ member_wire m ++ R) -> member_size m <= rem ->
  read_member (A ++ member_wire m ++ R) (mk_iter (zlen A) rem false) =
    Ok (member_view_at (zlen A) m, member_size m).
Proof.
  intros Hwf Hb Hrem. pose proof Hwf as (Hf & Hp & Hs & Hbody & Hpad & Hm & Hmax).
  destruct (rtcp_byte0 (is_some (g_pad m)) (g_fmt m) Hf) as (E6 & Ep & Ef & _).
  destruct (member_wire_fields A m R Hwf) as (F0 & F1 & F16 & F32 & Fp).
  pose proof (zlen_member_wire m) as Hz.
  assert (Hn : member_size m = 8 + zlen (g_body m) + zlen (pad_wire (g_pad m))) by done.
  assert (HL : zlen (A ++ member_wire m ++ R) = zlen A + member_size m + zlen R) by zlen.
  set (d := A ++ member_wire m ++ R) in *. set (n := member_size m) in *. zlen_pos.
  unfold read_member. cbn [next remaining]. rewrite reject_false by lia.
  rewrite rd_ok by lia. cbn [res_bind]. rewrite F0, E6, reject_false by done.
  rewrite read_be16_ok by (done || lia). cbn [res_bind]. rewrite F16.
  replace ((n / 4 - 1 + 1) * 4) with n by dlia. rewrite reject_false by lia. rewrite Ep, Ef.
  rewrite (rd_ok d (zlen A + 1)) by lia. rewrite read_be32_ok by (done || lia). cbn [res_bind].
  rewrite F1, F32. unfold member_view_at. destruct (g_pad m) as [filler|]; cbn [is_some].
  - rewrite rd_ok by lia. cbn [res_bind]. rewrite (Fp filler) by done.
    cbn [pad_wire] in Hn. rewrite zlen_app, zlen_cons, @zlen_nil in Hn. zlen_pos.
    rewrite !reject_false by lia. cbn [res_bind]. do 3 f_equal; lia.
  - cbn [pad_wire] in Hn. rewrite @zlen_nil in Hn. cbn [res_bind]. do 3 f_equal; lia.
Qed.

Lemma read_member_no_fault data it :
  bytes_ok data -> 0 <= next it -> next it + remaining it <= zlen data ->
  read_member data it <> Fault.
Proof.
  intros Hb Hn Hl. unfold read_member.
  apply reject_no_fault. intros ?. bool_hyps. rewrite rd_ok by lia. cbn [res_bind].
  apply reject_no_fault. intros _. rewrite read_be16_ok by (done || lia). cbn [res_bind].
  pose proof (be16_u16 data (next it + 2) Hb). unfold is_u16 in *.
  set (n := (be16 data (next it + 2) + 1) * 4) in *.
  apply reject_no_fault. intros ?. bool_hyps. apply res_bind_no_fault.
  - destruct (negb _); [|done]. rewrite rd_ok by lia. cbn [res_bind].
    by repeat (apply reject_no_fault; intros _).
  - intros l _. rewrite rd_ok, read_be32_ok by (done || lia). done.
Qed.

(** Whatever is read is the wire image of a member. *)
Lemma read_member_sound data it v n :
  bytes_ok data -> 0 <= next it -> next it + remaining it <= zlen data ->
  read_member data it = Ok (v, n) ->
  exists m, member_wf m /\ n = member_size m /\ n <= remaining it /\
    slice data (next it) n = member_wire m /\ v = member_view_at (next it) m.
Proof.
  destruct it as [p rem bad]. cbn [next remaining]. intros Hb Hp Hl H. unfold read_member in H.
  cbn [next remaining] in H. apply reject_ok in H as [? H]. bool_hyps.
  rewrite rd_ok in H by lia. cbn [res_bind] in H. apply reject_ok in H as [E6 H]. bool_hyps.
  rewrite read_be16_ok in H by (done || lia). cbn [res_bind] in H.
  pose proof (be16_u16 data (p + 2) Hb) as H16. unfold is_u16 in H16.
  set (k := (be16 data (p + 2) + 1) * 4) in *. apply reject_ok in H as [? H]. bool_hyps.
  apply res_bind_ok in H as (logical & Hlog & H).
  rewrite rd_ok, read_be32_ok in H by (done || lia). cbn [res_bind] in H. injection H as <- <-.
  destruct (rtcp_byte0_rebuild (byte_at data p)) as [E0 Ef]; [by apply byte_at_u8|done|].
  set (padded := negb (Z.land (byte_at data p) 0x20 =? 0)) in *.
  assert (Hpad : exists pad, is_some pad = padded /\ pad_wf pad /\ 8 <= logical /\
            slice data (p + logical) (k - logical) = pad_wire pad /\ zlen (pad_wire pad) = k - logical).
  { destruct padded; [|injection Hlog as <-; exists None; cbn; rewrite Z.sub_diag; auto with lia].
    rewrite rd_ok in Hlog by lia. cbn [res_bind] in Hlog. res_inv.
    pose proof (byte_at_u8 data (p + k - 1) Hb). set (q := byte_at data (p + k - 1)) in *.
    unfold is_u8 in *. exists (Some (slice data (p + k - q) (q - 1))). cbn [is_some pad_wf pad_wire].
    replace (k - (k - q)) with q by lia. replace (p + (k - q)) with (p + k - q) by lia.
    rewrite zlen_app, zlen_slice by lia. change (zlen [_]) with 1. split_and!; auto with sfu; [lia| |lia].
    replace q with (q - 1 + 1) at 2 by lia. rewrite slice_split by lia. f_equal.
    replace (p + k - q + (q - 1)) with (p + k - 1) by lia.
    rewrite slice_cons by lia. f_equal. unfold q. lia. }
  destruct Hpad as (pad & Hsome & Hwf & H8 & Hsl & Hz). clear Hlog.
  zlen_pos. exists (mk_rtcp_member (Z.land (byte_at data p) 0x1f) (byte_at data (p + 1))
    (be32 data (p + 4)) (slice data (p + 8) (logical - 8)) pad).
  assert (Hsz : member_size (mk_rtcp_member (Z.land (byte_at data p) 0x1f) (byte_at data (p + 1))
    (be32 data (p + 4)) (slice data (p + 8) (logical - 8)) pad) = k).
  { unfold member_size. cbn [g_body g_pad]. rewrite zlen_slice by lia. lia. }
  unfold member_wf, member_view_at, member_wire. rewrite Hsz. cbn [g_fmt g_pt g_ssrc g_body g_pad].
  rewrite zlen_slice by lia. split_and!; auto with sfu; try lia.
  - unfold k. dlia.
  - rewrite Hsome, <- E0, <- Hsl. replace (k / 4 - 1) with (be16 data (p + 2)) by dlia.
    rewrite enc16_slice, enc32_slice by (done || lia).
    rewrite <- slice_2 by lia. rewrite !slice_join by lia. f_equal. lia.
  - f_equal; lia.
Qed.

(** * The iterator against the grammar *)

Lemma slice_parts data p n :
  0 <= p -> 0 <= n -> p + n <= zlen data ->
  data = slice data 0 p ++ slice data p n ++ drop (Z.to_nat (p + n)) data.
Proof.
  intros. rewrite app_assoc, slice_join by lia. by apply slice_prefix_split; lia.
Qed.

(** A failed read means that no member starts there. *)
Lemma read_member_complete data p rem m rest :
  bytes_ok data -> 0 <= p -> p + rem <= zlen data -> 0 <= rem ->
  member_wf m -> slice data p rem = member_wire m ++ rest ->
  read_member data (mk_iter p rem false) = Ok (member_view_at p m, member_size m).
Proof.
  intros Hb Hp Hl Hr Hm Hs.
  assert (zlen (slice data 0 p) = p) as Hz by zlen.
  assert (zlen (slice data p rem) = rem) as Hrem by zlen.
  rewrite Hs, zlen_app, zlen_member_wire in Hrem. zlen_pos.
  pose proof (read_member_wire (slice data 0 p) m (rest ++ drop (Z.to_nat (p + rem)) data) rem Hm) as R.
  rewrite (app_assoc (member_wire m)), <- Hs, <- slice_parts, Hz in R by lia. apply R; [done|lia].
Qed.

Lemma compound_collect_spec fuel data p rem :
  bytes_ok data -> 0 <= p -> 0 <= rem -> p + rem <= zlen data -> rem < 8 * Z.of_nat fuel ->
  exists ms rest ok,
    compound_collect fuel data (mk_iter p rem false) = Ok (compound_views p ms, ok) /\
    Forall member_wf ms /\ slice data p rem = compound_wire ms ++ rest /\
    (ok = true <-> rest = []) /\
    forall m tail, member_wf m -> rest <> member_wire m ++ tail.
Proof.
  intros Hb. revert p rem. induction fuel as [|fuel IH]; intros p rem Hp Hr Hl Hf; [lia|].
  cbn [compound_collect]. unfold sfu_rtcp_compound_iter_next. cbn [malformed remaining].
  destruct (Z.eqb_spec rem 0) as [->|Hne].
  { exists [], [], true. repeat split; [by constructor|]. intros m tail _ E.
    apply (f_equal zlen) in E. rewrite zlen_app, zlen_member_wire in E.
    unfold member_size in E. rewrite @zlen_nil in E. zlen_pos. lia. }
  destruct (read_member data (mk_iter p rem false)) as [[v n]| |] eqn:E.
  - apply read_member_sound in E as (m & Hm & -> & Hn & Hs & ->); cbn [next remaining] in *; try done.
    assert (8 <= member_size m) by (unfold member_size; zlen_pos; lia).
    destruct (IH (p + member_size m) (rem - member_size m)) as (ms & rest & ok & E & Hms & Hsl & Hok & Hno); try lia.
    cbn [res_bind]. rewrite E. cbn [res_bind]. exists (m :: ms), rest, ok. split_and!; try done; [by constructor|].
    cbn [compound_wire map concat]. rewrite <- Hs, <- app_assoc. fold (compound_wire ms). rewrite <- Hsl.
    rewrite slice_join by lia. f_equal. lia.
  - exists [], (slice data p rem), false. split_and!; try done; [split; [done|]|].
    + intros E'. apply (f_equal zlen) in E'. rewrite zlen_slice in E' by lia. rewrite @zlen_nil in E'. lia.
    + intros m tail Hm Es. by rewrite (read_member_complete data p rem m tail) in E.
  - by apply read_member_no_fault in E.
Qed.

(** C19: Iterating over any packet is safe and stops, and finds exactly its longest
    prefix of well-formed RTCP members: the views handed out are those of the
    members, in order and at their offsets; the iteration ends cleanly iff the
    members are the whole packet, and otherwise no member starts where it
    reports the packet malformed. *)
Theorem compound_iteration_exact data len :
  bytes_ok data -> 0 <= len <= zlen data ->
  exists ms rest ok,
    compound_collect (Z.to_nat (len / 8) + 1) data (sfu_rtcp_compound_iter_init len)
      = Ok (compound_views 0 ms, ok) /\
    Forall member_wf ms /\ slice data 0 len = compound_wire ms ++ rest /\
    (ok = true <-> rest = []) /\
    forall m tail, member_wf m -> rest <> member_wire m ++ tail.
Proof. intros Hb Hl. apply compound_collect_spec; try done; dlia. Qed.

Lemma compound_iteration_exact_witness :
  exists ms rest ok,
    compound_collect (Z.to_nat (13 / 8) + 1) [0x81; 206; 0; 2; 0;0;0;1; 0;0;0;2; 7]
      (sfu_rtcp_compound_iter_init 13) = Ok (compound_views 0 ms, ok) /\
    Forall member_wf ms /\
    slice [0x81; 206; 0; 2; 0;0;0;1; 0;0;0;2; 7] 0 13 = compound_wire ms ++ rest /\
    (ok = true <-> rest = []) /\
    forall m tail, member_wf m -> rest <> member_wire m ++ tail.
Proof. apply compound_iteration_exact; [by apply bytes_okb_ok|by vm_compute]. Defined.

(** * Builders and parsers *)

Definition pli_member (sender media : Z) : rtcp_member := mk_rtcp_member 1 206 sender (enc32 media) None.
Definition fir_member (sender media seq : Z) : rtcp_member :=
  mk_rtcp_member 4 206 sender (enc32 media ++ enc32 media ++ [seq; 0; 0; 0]) None.

Lemma build_pli_wire sender media buf cap :
  12 <= cap <= zlen buf ->
  sfu_rtcp_build_pli sender media buf cap = Ok (patch buf 0 (member_wire (pli_member sender media)), 12).
Proof.
  intros. unfold sfu_rtcp_build_pli, put_be16, put_be32. rewrite reject_false by lia. buf_run.
  patch_join. by rewrite <- !app_assoc.
Qed.

Lemma build_fir_wire sender media seq buf cap :
  20 <= cap <= zlen buf ->
  sfu_rtcp_build_fir sender media seq buf cap =
    Ok (patch buf 0 (member_wire (fir_member sender media seq)), 20, u8 (seq + 1)).
Proof.
  intros. unfold sfu_rtcp_build_fir, put_be16, put_be32. rewrite reject_false by lia. buf_run.
  patch_join. by rewrite <- !app_assoc.
Qed.

Lemma member_wf_small fmt sender body :
  0 <= fmt <= 31 -> is_u32 sender -> bytes_ok body -> zlen body mod 4 = 0 -> zlen body <= 262136 ->
  member_wf (mk_rtcp_member fmt 206 sender body None).
Proof.
  intros. unfold member_wf, member_size. cbn [g_fmt g_pt g_ssrc g_body g_pad pad_wire pad_wf].
  rewrite @zlen_nil. split_and!; try done; dlia.
Qed.

Lemma bytes_ok_member_in_buf buf m :
  bytes_ok buf -> member_wf m -> bytes_ok (patch buf 0 (member_wire m)).
Proof. auto using member_wire_bytes_ok with sfu. Qed.

(** A single member at the front of a buffer is what the iterator returns. *)
Lemma collect_single buf m :
  bytes_ok buf -> member_wf m -> member_size m <= zlen buf ->
  compound_collect 2 (patch buf 0 (member_wire m)) (sfu_rtcp_compound_iter_init (member_size m))
    = Ok ([member_view_at 0 m], true).
Proof.
  intros Hb Hm Hl. assert (8 <= member_size m) by (unfold member_size; zlen_pos; lia).
  assert (Hz : zlen (patch buf 0 (member_wire m)) = zlen buf)
    by (rewrite zlen_patch; rewrite ?zlen_member_wire; lia).
  cbn [compound_collect]. unfold sfu_rtcp_compound_iter_next at 1, sfu_rtcp_compound_iter_init.
  cbn [malformed remaining next]. decide_ifs.
  rewrite (read_member_complete _ 0 (member_size m) m []); try done; try lia.
  - cbn [res_bind]. unfold sfu_rtcp_compound_iter_next. cbn [malformed remaining]. by rewrite Z.sub_diag.
  - by apply bytes_ok_member_in_buf.
  - rewrite app_nil_r. unfold patch. cbn [take app Z.to_nat].
    rewrite take_0. cbn [app]. rewrite <- zlen_member_wire. apply slice_app_l.
Qed.

Lemma be32_in_buf A v C buf p :
  is_u32 v -> p = zlen A -> be32 (patch buf 0 (A ++ enc32 v ++ C)) p = v.
Proof.
  intros Hv ->. unfold patch. cbn [take app Z.to_nat]. rewrite take_0. cbn [app].
  rewrite <- !app_assoc. rewrite <- (Z.add_0_r (zlen A)), be32_app_r by done. by apply be32_enc32.
Qed.

(** The writers leave the rest of the buffer alone. *)
Definition same_tail (buf buf' : list Z) (n : Z) : Prop :=
  zlen buf' = zlen buf /\ drop (Z.to_nat n) buf' = drop (Z.to_nat n) buf.

Lemma patch_same_tail buf s n : n = zlen s -> n <= zlen buf -> same_tail buf (patch buf 0 s) n.
Proof.
  intros -> Hl. split; [zlen|]. unfold patch, zlen. cbn [Z.to_nat Nat.add]. rewrite take_0. cbn [app].
  by rewrite Nat2Z.id, drop_app_length.
Qed.

Lemma parse_pli_member buf sender media :
  bytes_ok buf -> is_u32 sender -> is_u32 media -> 12 <= zlen buf ->
  let b := patch buf 0 (member_wire (pli_member sender media)) in
  sfu_rtcp_parse_pli b (member_view_at 0 (pli_member sender media)) = Ok (mk_pli sender media).
Proof.
  intros Hb Hs Hm Hl b. assert (zlen b = zlen buf) by (unfold b; rewrite zlen_patch; rewrite ?zlen_member_wire; done).
  assert (bytes_ok b) by (apply bytes_ok_member_in_buf; [done|by apply member_wf_small; auto with sfu]).
  unfold sfu_rtcp_parse_pli. cbn [reject pt fmt_count member_len body_len body member_view_at member].
  rewrite reject_false by done.
  rewrite read_be32_ok by (done || lia). cbn [res_bind]. do 2 f_equal.
  unfold b, member_wire. rewrite app_nil_r, !app_assoc. rewrite <- (app_nil_r (_ ++ enc32 media)), <- app_assoc.
  by apply be32_in_buf.
Qed.

Lemma parse_fir_member buf sender media seq :
  bytes_ok buf -> is_u32 sender -> is_u32 media -> is_u8 seq -> 20 <= zlen buf ->
  let b := patch buf 0 (member_wire (fir_member sender media seq)) in
  sfu_rtcp_parse_fir b (member_view_at 0 (fir_member sender media seq)) = Ok (mk_fir sender media 12 1) /\
  sfu_rtcp_fir_entry_at b (mk_fir sender media 12 1) 0 = Ok (mk_fir_entry media seq).
Proof.
  intros Hb Hs Hm Hq Hl b.
  assert (zlen b = zlen buf) by (unfold b; rewrite zlen_patch; rewrite ?zlen_member_wire; done).
  assert (bytes_ok b).
  { apply bytes_ok_member_in_buf; [done|]. apply member_wf_small; auto with sfu; try done.
    repeat apply bytes_ok_app; auto with sfu. repeat constructor; unfold is_u8 in *; lia. }
  set (h := [132; 206] ++ enc16 4 ++ enc32 sender).
  assert (Eb : b = patch buf 0 (h ++ enc32 media ++ enc32 media ++ [seq; 0; 0; 0])).
  { unfold b, member_wire, h. cbn [fir_member g_fmt g_pt g_ssrc g_body g_pad pad_wire].
    by rewrite app_nil_r, <- !app_assoc. }
  assert (Hh : zlen h = 8) by done.
  assert (Hbyte : forall i x, 16 <= i < 20 -> x = byte_at [seq; 0; 0; 0] (i - 16) -> byte_at b i = x).
  { intros i x Hi ->. rewrite Eb, byte_at_patch by zlen.
    rewrite (proj2 (Z.leb_le _ _)), (proj2 (Z.ltb_lt _ _)) by zlen. cbn [andb].
    rewrite (app_assoc h), app_assoc, byte_at_app by lia.
    change (zlen ((h ++ enc32 media) ++ enc32 media)) with 16.
    rewrite (proj2 (Z.ltb_ge _ _)) by lia. f_equal; lia. }
  assert (E8 : be32 b 8 = media) by (rewrite Eb; by apply be32_in_buf).
  assert (E12 : be32 b 12 = media) by (rewrite Eb, (app_assoc h); by apply be32_in_buf).
  unfold sfu_rtcp_parse_fir, sfu_rtcp_fir_entry_at.
  cbn [pt fmt_count member_len body_len body member_view_at member entry_count fci sender_ssrc g_ssrc fir_member].
  rewrite !reject_false by done. change (Z.to_nat _) with 1%nat. cbn [fir_reserved_zero].
  rewrite !rd_ok by lia. cbn [res_bind]. rewrite !(Hbyte _ 0) by done. cbn [Z.eqb negb orb res_bind reject].
  rewrite !read_be32_ok by (done || lia). cbn [res_bind].
  change (12 + 0 * 8) with 12. change (12 + 4) with 16. change (0 + 8) with 8. change (8 + 4) with 12.
  rewrite E8, E12, (Hbyte _ seq) by done. done.
Qed.

(** PLI and FIR requests survive the wire.  With less than 12 (20) bytes of
    room nothing is built.  Otherwise the builder writes those bytes and leaves
    the rest of the buffer alone, the compound iterator finds exactly one
    member in them, and the parser returns the sender and media sources given;
    the single FIR entry carries the media source and the current command
    number, which is then incremented modulo 256. *)
Theorem keyframe_requests_roundtrip sender media seq buf cap :
  bytes_ok buf -> is_u32 sender -> is_u32 media -> is_u8 seq -> cap <= zlen buf ->
  (if cap <? 12 then sfu_rtcp_build_pli sender media buf cap = Err else
   exists buf' v, sfu_rtcp_build_pli sender media buf cap = Ok (buf', 12) /\ same_tail buf buf' 12 /\
     compound_collect 2 buf' (sfu_rtcp_compound_iter_init 12) = Ok ([v], true) /\
     sfu_rtcp_parse_pli buf' v = Ok (mk_pli sender media) /\ sfu_rtcp_parse_fir buf' v = Err) /\
  (if cap <? 20 then sfu_rtcp_build_fir sender media seq buf cap = Err else
   exists buf' v f, sfu_rtcp_build_fir sender media seq buf cap = Ok (buf', 20, (seq + 1) mod 256) /\
     same_tail buf buf' 20 /\
     compound_collect 2 buf' (sfu_rtcp_compound_iter_init 20) = Ok ([v], true) /\
     sfu_rtcp_parse_fir buf' v = Ok f /\ sfu_rtcp_parse_pli buf' v = Err /\
     f = mk_fir sender media 12 1 /\ sfu_rtcp_fir_entry_at buf' f 0 = Ok (mk_fir_entry media seq)).
Proof.
  intros Hb Hs Hm Hq Hc. split.
  - destruct (Z.ltb_spec cap 12); [by apply reject_true, Z.ltb_lt|].
    exists (patch buf 0 (member_wire (pli_member sender media))), (member_view_at 0 (pli_member sender media)).
    split_and!; [apply build_pli_wire; lia|by apply patch_same_tail; [|lia]| |by apply parse_pli_member; try lia|done].
    apply (collect_single buf (pli_member sender media)); [done| |change (12 <= zlen buf); lia].
    by apply member_wf_small; auto with sfu.
  - destruct (Z.ltb_spec cap 20); [by apply reject_true, Z.ltb_lt|].
    exists (patch buf 0 (member_wire (fir_member sender media seq))),
      (member_view_at 0 (fir_member sender media seq)), (mk_fir sender media 12 1).
    destruct (parse_fir_member buf sender media seq) as [Hp He]; try done; [lia|].
    split_and!; [apply build_fir_wire; lia|by apply patch_same_tail; [|lia]| |done..].
    apply (collect_single buf (fir_member sender media seq)); [done| |change (20 <= zlen buf); lia].
    apply member_wf_small; auto with sfu; try done.
    repeat apply bytes_ok_app; auto with sfu. repeat constructor; unfold is_u8 in *; lia.
Qed.

Lemma keyframe_requests_roundtrip_witness :
  (if 24 <? 20 then sfu_rtcp_build_fir 7 9 255 (zeros 32) 24 = Err else
   exists buf' v f, sfu_rtcp_build_fir 7 9 255 (zeros 32) 24 = Ok (buf', 20, (255 + 1) mod 256) /\
     same_tail (zeros 32) buf' 20 /\
     compound_collect 2 buf' (sfu_rtcp_compound_iter_init 20) = Ok ([v], true) /\
     sfu_rtcp_parse_fir buf' v = Ok f /\ sfu_rtcp_parse_pli buf' v = Err /\
     f = mk_fir 7 9 12 1 /\ sfu_rtcp_fir_entry_at buf' f 0 = Ok (mk_fir_entry 9 255)).
Proof.
  apply (keyframe_requests_roundtrip 7 9 255 (zeros 32) 24);
    [by apply bytes_okb_ok|done|done|done|by vm_compute].
Defined.

(** The exponent and mantissa of a REMB bitrate. *)
Lemma remb_scale_spec fuel e m :
  0 <= e -> 0 <= m < 2 ^ (18 + Z.of_nat fuel) -> e + Z.of_nat fuel <= 63 ->
  let '(e', m') := remb_scale fuel e m in
  e <= e' /\ m' = m / 2 ^ (e' - e) /\ 0 <= m' <= 0x3FFFF /\ (e' = e \/ 2 ^ 17 <= m').
Proof.
  revert e m. induction fuel as [|fuel IH]; intros e m He Hm Hb; cbn [remb_scale].
  - change (2 ^ (18 + Z.of_nat 0)) with 262144 in Hm. rewrite Z.sub_diag, Z.div_1_r. lia.
  - destruct (Z.ltb_spec 0x3FFFF m); cbn [andb]; [|rewrite Z.sub_diag, Z.div_1_r; lia].
    destruct (Z.ltb_spec e 63); [|lia]. rewrite Z.shiftr_div_pow2 by lia. change (2 ^ 1) with 2.
    assert (Hp : 2 ^ (18 + Z.of_nat (S fuel)) = 2 * 2 ^ (18 + Z.of_nat fuel))
      by (rewrite <- Z.pow_succ_r by lia; f_equal; lia).
    specialize (IH (e + 1) (m / 2) ltac:(lia) ltac:(dlia) ltac:(lia)).
    destruct (remb_scale fuel (e + 1) (m / 2)) as [e' m'] eqn:Es. destruct IH as (? & Em & ? & Hbig).
    split_and!; try lia.
    + rewrite Em, Zdiv_Zdiv by lia. f_equal. rewrite <- Z.pow_succ_r by lia. f_equal. lia.
    + right. destruct Hbig as [->|?]; [|lia]. rewrite Z.sub_diag, Z.div_1_r in Em. dlia.
Qed.

Lemma put_ssrcs_patch ssrcs buf off s :
  off = zlen s -> off + 4 * zlen ssrcs <= zlen buf ->
  put_ssrcs (patch buf 0 s) off ssrcs = Ok (patch buf 0 (s ++ concat (map enc32 ssrcs))).
Proof.
  revert off s. induction ssrcs as [|x ssrcs IH]; intros off s -> Hl; cbn [put_ssrcs map concat].
  - by rewrite app_nil_r.
  - rewrite zlen_cons in Hl. zlen_pos. unfold put_be32.
    rewrite wr_n_ok by zlen. cbn [res_bind].
    patch_join. rewrite (IH (zlen s + 4)), app_assoc by zlen. done.
Qed.

Lemma zlen_concat_enc32 l : zlen (concat (map enc32 l)) = 4 * zlen l.
Proof. induction l; [done|]. cbn [map concat]. zlen. Qed.

Definition remb_member (sender e m : Z) (ssrcs : list Z) : rtcp_member :=
  mk_rtcp_member 15 206 sender
    (zeros 4 ++ [0x52; 0x45; 0x4D; 0x42; zlen ssrcs; e * 4 + m / 65536; m / 256 mod 256; m mod 256] ++
     concat (map enc32 ssrcs)) None.

Lemma remb_rate b e m :
  is_u64 b -> remb_scale 63 0 b = (e, m) ->
  0 <= e < 64 /\ 0 <= m <= 0x3FFFF /\ m * 2 ^ e <= b < (m + 1) * 2 ^ e /\
  (b <= 0x3FFFF -> m * 2 ^ e = b) /\ 2 ^ 17 * (b - m * 2 ^ e) <= b.
Proof.
  intros Hb E. unfold is_u64 in Hb. pose proof (remb_scale_spec 63 0 b) as H. rewrite E in H.
  destruct H as (He & Hm & Hr & Hbig); [lia|change (2 ^ _) with 2417851639229258349412352; lia|lia|].
  rewrite Z.sub_0_r in Hm. assert (Hp : 0 < 2 ^ e) by lia.
  pose proof (Z.mul_div_le b (2 ^ e) Hp). pose proof (Z.mul_succ_div_gt b (2 ^ e) Hp).
  rewrite <- Hm in *. change (2 ^ 17) with 131072 in *.
  destruct Hbig as [->|Hbig]; [change (2 ^ 0) with 1 in *; lia|].
  destruct (decide (e = 0)) as [->|Hne]; [change (2 ^ 0) with 1 in *; lia|].
  assert (2 <= 2 ^ e) by (apply (Z.pow_le_mono_r 2 1 e); lia).
  split_and!; try lia; try nia.
  destruct (Z.lt_ge_cases e 64) as [?|H64]; [done|].
  apply (Z.pow_le_mono_r 2) in H64; [|lia]. change (2 ^ 64) with 18446744073709551616 in H64. nia.
Qed.

Lemma remb_member_wf sender e m ssrcs :
  is_u32 sender -> zlen ssrcs <= 255 -> 0 <= e < 64 -> 0 <= m <= 0x3FFFF ->
  member_wf (remb_member sender e m ssrcs) /\ member_size (remb_member sender e m ssrcs) = 20 + 4 * zlen ssrcs.
Proof.
  intros Hs Hn He Hm.
  assert (Hz : zlen (g_body (remb_member sender e m ssrcs)) = 12 + 4 * zlen ssrcs).
  { cbn [remb_member g_body]. rewrite !zlen_app, zlen_concat_enc32. change (zlen (zeros 4)) with 4. zlen. }
  zlen_pos. split; [|unfold member_size; rewrite Hz; cbn [remb_member g_pad pad_wire]; zlen].
  apply member_wf_small; try done; try (cbn [remb_member g_body] in Hz; rewrite Hz); [|dlia|lia].
  apply bytes_ok_app; [by apply bytes_okb_ok|]. apply bytes_ok_app; [repeat constructor; dlia|].
  clear. induction ssrcs; cbn; auto with sfu.
Qed.

Lemma build_remb_wire sender bitrate ssrcs buf cap e m :
  is_u64 bitrate -> 0 < zlen ssrcs <= 255 -> 20 + 4 * zlen ssrcs <= cap -> cap <= zlen buf ->
  remb_scale 63 0 bitrate = (e, m) ->
  sfu_rtcp_build_remb sender bitrate ssrcs buf cap =
    Ok (patch buf 0 (member_wire (remb_member sender e m ssrcs)), 20 + 4 * zlen ssrcs).
Proof.
  intros Hb Hn Hc Hl E. destruct (remb_rate bitrate e m Hb E) as (He & Hm & _).
  unfold sfu_rtcp_build_remb, put_be16, put_be32. rewrite !reject_false by lia. rewrite E. decide_ifs.
  assert (Hmm : u32 m = m) by dlia. rewrite Hmm, lor_shiftl_add, !Z.shiftr_div_pow2 by lia.
  change (2 ^ 18) with 262144. change (2 ^ 16) with 65536. change (2 ^ 8) with 256.
  assert (E1 : u8 ((e * 262144 + m) / 65536) = e * 4 + m / 65536) by dlia.
  assert (E2 : u8 ((e * 262144 + m) / 256) = m / 256 mod 256) by dlia.
  assert (E3 : u8 (e * 262144 + m) = m mod 256) by dlia. rewrite E1, E2, E3.
  change (Z.to_nat 4) with 4%nat. buf_run. patch_join.
  rewrite put_ssrcs_patch by zlen. cbn [res_bind]. do 2 f_equal; [|lia].
  unfold member_wire. f_equal.
  assert (Hsz : member_size (remb_member sender e m ssrcs) = 20 + 4 * zlen ssrcs).
  { unfold member_size. cbn [remb_member g_body g_pad pad_wire].
    rewrite !zlen_app, zlen_concat_enc32. change (zlen (zeros 4)) with 4. zlen. }
  rewrite Hsz. cbn [remb_member g_fmt g_pt g_ssrc g_body g_pad pad_wire is_some flag].
  replace (u16 ((20 + zlen ssrcs * 4) / 4 - 1)) with ((20 + 4 * zlen ssrcs) / 4 - 1) by dlia.
  rewrite <- !app_assoc. by rewrite app_nil_r.
Qed.

(** C40: A REMB report is built only for one to 255 sources that fit; it is then one
    well-formed RTCP member in the layout of the REMB draft (6-bit exponent,
    18-bit mantissa, the sources in order) and the rate it carries is the
    requested one rounded down to 18 significant bits: exact below 2^18, and
    never above nor more than one part in 2^17 below the request. *)
Theorem remb_encoding sender bitrate ssrcs buf cap :
  bytes_ok buf -> is_u32 sender -> is_u64 bitrate -> zlen ssrcs <= 255 ->
  cap <= zlen buf ->
  if (zlen ssrcs =? 0) || (cap <? 20 + 4 * zlen ssrcs)
  then sfu_rtcp_build_remb sender bitrate ssrcs buf cap = Err
  else exists e m,
    let n := 20 + 4 * zlen ssrcs in
    let buf' := patch buf 0 (member_wire (remb_member sender e m ssrcs)) in
    sfu_rtcp_build_remb sender bitrate ssrcs buf cap = Ok (buf', n) /\ same_tail buf buf' n /\
    member_wf (remb_member sender e m ssrcs) /\
    compound_collect 2 buf' (sfu_rtcp_compound_iter_init n)
      = Ok ([member_view_at 0 (remb_member sender e m ssrcs)], true) /\
    0 <= e < 64 /\ 0 <= m <= 0x3FFFF /\ m * 2 ^ e <= bitrate < (m + 1) * 2 ^ e /\
    (bitrate <= 0x3FFFF -> m * 2 ^ e = bitrate) /\
    2 ^ 17 * (bitrate - m * 2 ^ e) <= bitrate.
Proof.
  intros Hb Hs Hr Hn Hc. destruct (Z.eqb_spec (zlen ssrcs) 0) as [E0|Hne]; cbn [orb].
  { unfold sfu_rtcp_build_remb. by rewrite E0. }
  destruct (Z.ltb_spec cap (20 + 4 * zlen ssrcs)) as [Hlt|Hge].
  { unfold sfu_rtcp_build_remb. rewrite reject_false by lia. rewrite reject_true; [done|lia]. }
  destruct (remb_scale 63 0 bitrate) as [e m] eqn:E. pose proof (zlen_nonneg ssrcs).
  pose proof (remb_rate bitrate e m Hr E) as Hrate. destruct Hrate as (He & Hm & Hrate).
  destruct (remb_member_wf sender e m ssrcs) as [Hwf Hsz]; try done.
  exists e, m. cbv zeta. split_and!; try tauto; try lia.
  - by apply build_remb_wire; try lia.
  - apply patch_same_tail; [by rewrite zlen_member_wire|lia].
  - rewrite <- Hsz. apply collect_single; try done. lia.
Qed.

Lemma remb_encoding_witness :
  exists e m,
    let n := 20 + 4 * zlen [5; 6] in
    let buf' := patch (zeros 40) 0 (member_wire (remb_member 1 e m [5; 6])) in
    sfu_rtcp_build_remb 1 1000000 [5; 6] (zeros 40) 30 = Ok (buf', n) /\ same_tail (zeros 40) buf' n /\
    member_wf (remb_member 1 e m [5; 6]) /\
    compound_collect 2 buf' (sfu_rtcp_compound_iter_init n)
      = Ok ([member_view_at 0 (remb_member 1 e m [5; 6])], true) /\
    0 <= e < 64 /\ 0 <= m <= 0x3FFFF /\ m * 2 ^ e <= 1000000 < (m + 1) * 2 ^ e /\
    (1000000 <= 0x3FFFF -> m * 2 ^ e = 1000000) /\ 2 ^ 17 * (1000000 - m * 2 ^ e) <= 1000000.
Proof.
  apply (remb_encoding 1 1000000 [5; 6] (zeros 40) 30);
    [by apply bytes_okb_ok|done|done|done|by vm_compute].
Defined.
