(* ===== verification/TwccParser.v ===== *)
(** Transport-wide congestion control feedback, [src/congestion/twcc_parser.c]:
    the chunk validation, the unwrapping of the reference time and the
    iterator over packet statuses, against the chunk grammar of the
    transport-wide-cc draft. *)

From S2P Require Import Prelude NetBytes.

Definition TWCC_FIXED_LEN : Z := 20.
Definition TWCC_REF_RANGE_US : Z := Z.shiftl 1 24 * 64000.
Definition TWCC_STATUS_NOT_RECEIVED : Z := 0.
Definition TWCC_STATUS_SMALL_DELTA : Z := 1.
Definition TWCC_STATUS_LARGE_DELTA : Z := 2.
Definition TWCC_STATUS_RESERVED : Z := 3.

Record sfu_twcc_status := mk_status {
  sequence_number : Z;
  status : Z;
  receive_time_us : Z
}.

(** The packet bytes are an argument of the operations. *)
Record sfu_twcc_parser := mk_twcc_parser {
  p_len : Z;
  base_seq : Z;
  packet_status_count : Z;
  current_time_us : Z;
  current_seq : Z;
  chunk_offset : Z;
  delta_offset : Z;
  current_chunk : Z;
  is_run_length : bool;
  run_length_symbol : Z;
  statuses_left_in_chunk : Z;
  packets_processed : Z;
  packets_lost : Z;
  failed : bool
}.
#[export] Instance eta_twcc_parser : Eta sfu_twcc_parser := fun p =>
  mk_twcc_parser (p_len p) (base_seq p) (packet_status_count p) (current_time_us p) (current_seq p)
    (chunk_offset p) (delta_offset p) (current_chunk p) (is_run_length p) (run_length_symbol p)
    (statuses_left_in_chunk p) (packets_processed p) (packets_lost p) (failed p).

(** The offset behind the chunks; the zero of a rejected packet is [Err].
    The differences are taken in 32 bits, as in the code. *)
Fixpoint validate_loop (fuel : nat) (data : list Z) (len packet_status_count offset processed : Z) : res Z :=
  if processed <? packet_status_count then
    match fuel with
    | O => Fault
    | S fuel =>
        reject (len <? offset + 2) (
        let! chunk := sfu_read_be16 data offset in
        let offset := offset + 2 in
        if Z.land chunk 0x8000 =? 0 then
          let symbol := Z.land (Z.shiftr chunk 13) 3 in
          let run := Z.land chunk 0x1FFF in
          reject ((symbol =? TWCC_STATUS_RESERVED) || (run =? 0)) (
          reject (u32 (packet_status_count - run) <? processed) (
          validate_loop fuel data len packet_status_count offset (u32 (processed + run))))
        else
          let chunk_count := if negb (Z.land chunk 0x4000 =? 0) then 7 else 14 in
          reject (u32 (packet_status_count - chunk_count) <? processed) (
          validate_loop fuel data len packet_status_count offset (u32 (processed + chunk_count))))
    end
  else Ok offset.

(** Every chunk carries at least one status, so [packet_status_count] chunks
    are enough. *)
Definition validate_chunks (data : list Z) (len packet_status_count : Z) : res Z :=
  validate_loop (Z.to_nat packet_status_count) data len packet_status_count TWCC_FIXED_LEN 0.

(** The reference time next to the anchor; [%] is the remainder of C. *)
Definition unwrap_reference (ref_us unwrap_anchor_us : Z) : Z :=
  if 0 <? unwrap_anchor_us then
    let delta := ref_us - Z.rem unwrap_anchor_us TWCC_REF_RANGE_US in
    let delta := Z.rem (Z.rem delta TWCC_REF_RANGE_US + TWCC_REF_RANGE_US + TWCC_REF_RANGE_US / 2) TWCC_REF_RANGE_US
                 - TWCC_REF_RANGE_US / 2 in
    unwrap_anchor_us + delta
  else ref_us.

Definition sfu_twcc_parser_init (data : list Z) (len unwrap_anchor_us : Z) : res sfu_twcc_parser :=
  reject (len <? TWCC_FIXED_LEN) (
  let! base := sfu_read_be16 data 12 in
  let! count := sfu_read_be16 data 14 in
  let! doff := validate_chunks data len count in
  let! ref24 := sfu_read_be24 data 16 in
  let ref_us := unwrap_reference (ref24 * 64000) unwrap_anchor_us in
  Ok (mk_twcc_parser len base count ref_us base TWCC_FIXED_LEN doff 0 false 0 0 0 0 false)).

(** Load the next chunk; [None] when there is none or it is empty. *)
Definition load_chunk (data : list Z) (p : sfu_twcc_parser) : res (bool * sfu_twcc_parser) :=
  if statuses_left_in_chunk p =? 0 then
    if delta_offset p <? chunk_offset p + 2 then Ok (false, p) else
    let! c := sfu_read_be16 data (chunk_offset p) in
    let p := p <| current_chunk := c |> <| chunk_offset ::= fun o => o + 2 |> in
    let p :=
      if Z.land c 0x8000 =? 0 then
        p <| is_run_length := true |> <| run_length_symbol := Z.land (Z.shiftr c 13) 3 |>
          <| statuses_left_in_chunk := Z.land c 0x1FFF |>
      else
        p <| is_run_length := false |>
          <| statuses_left_in_chunk := if negb (Z.land c 0x4000 =? 0) then 7 else 14 |> in
    if statuses_left_in_chunk p =? 0 then Ok (false, p) else Ok (true, p)
  else Ok (true, p).

Definition get_next_status (data : list Z) (p : sfu_twcc_parser) : res (Z * sfu_twcc_parser) :=
  let! r := load_chunk data p in
  let '(more, p) := r in
  if negb more then Ok (TWCC_STATUS_RESERVED, p) else
  let p := p <| statuses_left_in_chunk ::= fun n => u16 (n - 1) |> in
  if is_run_length p then Ok (run_length_symbol p, p)
  else if negb (Z.land (current_chunk p) 0x4000 =? 0) then
    Ok (Z.land (Z.shiftr (current_chunk p) (statuses_left_in_chunk p * 2)) 3, p)
  else Ok (Z.land (Z.shiftr (current_chunk p) (statuses_left_in_chunk p)) 1, p).

(** [None] is the return of [false]; the parser may have failed then. *)
Definition sfu_twcc_parser_next_status (data : list Z) (p : sfu_twcc_parser)
  : res (option sfu_twcc_status * sfu_twcc_parser) :=
  if failed p || (packet_status_count p <=? packets_processed p) then Ok (None, p) else
  let! r := get_next_status data p in
  let '(st, p) := r in
  let seq := current_seq p in
  let p := p <| current_seq ::= fun s => u16 (s + 1) |> <| packets_processed ::= fun n => u32 (n + 1) |> in
  if st =? TWCC_STATUS_NOT_RECEIVED then
    Ok (Some (mk_status seq st 0), p <| packets_lost ::= fun n => u32 (n + 1) |>)
  else if st =? TWCC_STATUS_RESERVED then Ok (None, p <| failed := true |>)
  else
    let fail := Ok (None, p <| failed := true |>) in
    let finish delta_us p :=
      let p := p <| current_time_us ::= fun t => t + delta_us |> in
      Ok (Some (mk_status seq st (current_time_us p)), p) in
    if st =? TWCC_STATUS_SMALL_DELTA then
      if p_len p <? delta_offset p + 1 then fail else
      let! d := rd data (delta_offset p) in
      finish (d * 250) (p <| delta_offset ::= fun o => o + 1 |>)
    else
      if p_len p <? delta_offset p + 2 then fail else
      let! d := sfu_read_be16 data (delta_offset p) in
      finish (i16 d * 250) (p <| delta_offset ::= fun o => o + 2 |>).

Record gcc_packet_info := mk_packet_info {
  pi_sequence_number : Z;
  send_time_us : Z;
  pi_receive_time_us : Z;
  size_bytes : Z
}.

(** The next received packet; every round consumes a status. *)
Fixpoint next_loop (fuel : nat) (data : list Z) (p : sfu_twcc_parser)
  : res (option gcc_packet_info * sfu_twcc_parser) :=
  match fuel with
  | O => Fault
  | S fuel =>
      let! r := sfu_twcc_parser_next_status data p in
      match r with
      | (None, p) => Ok (None, p)
      | (Some s, p) =>
          if status s =? TWCC_STATUS_NOT_RECEIVED then next_loop fuel data p
          else Ok (Some (mk_packet_info (sequence_number s) 0 (receive_time_us s) 0), p)
      end
  end.
Definition sfu_twcc_parser_next (data : list Z) (p : sfu_twcc_parser)
  : res (option gcc_packet_info * sfu_twcc_parser) :=
  next_loop (Z.to_nat (packet_status_count p) + 1) data p.

(** The callers' loops. *)
Fixpoint status_collect (fuel : nat) (data : list Z) (p : sfu_twcc_parser)
  : res (list sfu_twcc_status * sfu_twcc_parser) :=
  match fuel with
  | O => Fault
  | S fuel =>
      let! r := sfu_twcc_parser_next_status data p in
      match r with
      | (None, p) => Ok ([], p)
      | (Some s, p) =>
          let! l := status_collect fuel data p in
          let '(ss, p) := l in Ok (s :: ss, p)
      end
  end.
Fixpoint packet_collect (fuel : nat) (data : list Z) (p : sfu_twcc_parser)
  : res (list gcc_packet_info * sfu_twcc_parser) :=
  match fuel with
  | O => Fault
  | S fuel =>
      let! r := sfu_twcc_parser_next data p in
      match r with
      | (None, p) => Ok ([], p)
      | (Some s, p) =>
          let! l := packet_collect fuel data p in
          let '(ss, p) := l in Ok (s :: ss, p)
      end
  end.

(** * The chunk grammar of the draft *)

(** A run-length chunk (top bit clear) repeats one two-bit symbol up to 8191
    times; a vector chunk lists 7 two-bit or 14 one-bit symbols. *)
Definition is_run (c : Z) : bool := c <? 32768.
Definition is_two_bit (c : Z) : bool := 49152 <=? c.
Definition chunk_size (c : Z) : Z :=
  if is_run c then c mod 8192 else if is_two_bit c then 7 else 14.
(** The symbol of chunk [c] that has [n] symbols behind it. *)
Definition chunk_symbol (c : Z) (n : nat) : Z :=
  if is_run c then c / 8192
  else if is_two_bit c then c / 4 ^ Z.of_nat n mod 4
  else c / 2 ^ Z.of_nat n mod 2.
Fixpoint chunk_tail (c : Z) (n : nat) : list Z :=
  match n with O => [] | S n => chunk_symbol c n :: chunk_tail c n end.
Definition chunk_symbols (c : Z) : list Z := chunk_tail c (Z.to_nat (chunk_size c)).
Definition chunk_valid (c : Z) : bool :=
  negb (chunk_size c =? 0) && negb (is_run c && (c / 8192 =? TWCC_STATUS_RESERVED)).

Fixpoint words (data : list Z) (off : Z) (n : nat) : list Z :=
  match n with O => [] | S n => be16 data off :: words data (off + 2) n end.

(** What the validation accepts: valid chunks up to the one that reaches the
    count, each of which fits what is left, or is larger than the whole count. *)
Fixpoint accepts (count processed : Z) (cs : list Z) : bool :=
  match cs with
  | [] => count <=? processed
  | c :: cs =>
      (processed <? count) && chunk_valid c &&
      ((processed + chunk_size c <=? count) || (count <? chunk_size c)) &&
      accepts count (processed + chunk_size c) cs
  end.

(** The statuses of a report, and whether all of them could be decoded: a
    reserved symbol or a missing delta ends it. *)
Fixpoint report (syms deltas : list Z) (seq clock : Z) : list sfu_twcc_status * bool :=
  match syms with
  | [] => ([], true)
  | s :: syms =>
      if s =? 0 then
        let '(l, ok) := report syms deltas (u16 (seq + 1)) clock in (mk_status seq s 0 :: l, ok)
      else if s =? 1 then
        match deltas with
        | d :: deltas =>
            let t := clock + d * 250 in
            let '(l, ok) := report syms deltas (u16 (seq + 1)) t in (mk_status seq s t :: l, ok)
        | _ => ([], false)
        end
      else if s =? 2 then
        match deltas with
        | d1 :: d0 :: deltas =>
            let t := clock + i16 (d1 * 256 + d0) * 250 in
            let '(l, ok) := report syms deltas (u16 (seq + 1)) t in (mk_status seq s t :: l, ok)
        | _ => ([], false)
        end
      else ([], false)
  end.

(** ** The bit tests of the code on a 16-bit chunk *)

Lemma chunk_bits c :
  is_u16 c ->
  (Z.land c 0x8000 =? 0) = is_run c /\
  (is_run c = true -> Z.land (Z.shiftr c 13) 3 = c / 8192 /\ 0 <= c / 8192 <= 3) /\
  Z.land c 0x1FFF = c mod 8192 /\
  (is_run c = false -> negb (Z.land c 0x4000 =? 0) = is_two_bit c).
Proof.
  intros Hc. unfold is_u16 in Hc. unfold is_run, is_two_bit.
  assert (bit : forall n, 0 <= n -> Z.land c (2 ^ n) = if Z.odd (c / 2 ^ n) then 2 ^ n else 0).
  { intros n Hn. rewrite <- Z.shiftr_div_pow2, <- Z.bit0_odd, Z.shiftr_spec, Z.add_0_l by lia.
    apply Z.bits_inj'. intros j Hj. rewrite Z.land_spec.
    destruct (decide (j = n)) as [->|Hne].
    - rewrite Z.pow2_bits_true, andb_true_r by lia. destruct (Z.testbit c n); [by rewrite Z.pow2_bits_true|by rewrite Z.bits_0].
    - rewrite Z.pow2_bits_false, andb_false_r by lia.
      destruct (Z.testbit c n); [by rewrite Z.pow2_bits_false by lia|by rewrite Z.bits_0]. }
  pose proof (bit 15 ltac:(lia)) as H15. pose proof (bit 14 ltac:(lia)) as H14. clear bit.
  change (2 ^ 15) with 32768 in H15. change (2 ^ 14) with 16384 in H14.
  rewrite H15, H14.
  change 0x1FFF with (2 ^ 13 - 1). change 3 with (2 ^ 2 - 1). rewrite !land_ones_mod by lia.
  rewrite Z.shiftr_div_pow2 by lia. change (2 ^ 13) with 8192. change (2 ^ 2) with 4.
  split_and!.
  - destruct (Z.ltb_spec c 32768).
    + replace (c / 32768) with 0 by dlia. done.
    + replace (c / 32768) with 1 by dlia. done.
  - intros. bool_hyps. dlia.
  - done.
  - intros. bool_hyps. destruct (Z.leb_spec 49152 c).
    + replace (c / 16384) with 3 by dlia. done.
    + replace (c / 16384) with 2 by dlia. done.
Qed.

Lemma chunk_symbol_bits c n :
  is_u16 c -> is_run c = false ->
  (is_two_bit c = true -> Z.land (Z.shiftr c (Z.of_nat n * 2)) 3 = chunk_symbol c n) /\
  (is_two_bit c = false -> Z.land (Z.shiftr c (Z.of_nat n)) 1 = chunk_symbol c n).
Proof.
  intros Hc Hr. unfold chunk_symbol. rewrite Hr. split; intros ->.
  - change 3 with (2 ^ 2 - 1). rewrite land_ones_mod, Z.shiftr_div_pow2 by lia.
    rewrite (Z.mul_comm (Z.of_nat n)), Z.pow_mul_r by lia. done.
  - change 1 with (2 ^ 1 - 1) at 1. rewrite land_ones_mod, Z.shiftr_div_pow2 by lia. done.
Qed.

(** * Validation *)

Lemma chunk_size_range c : is_u16 c -> 0 <= chunk_size c < 8192.
Proof. intros. unfold chunk_size. destruct (is_run c), (is_two_bit c); dlia. Qed.

Lemma validate_loop_spec fuel data len count off processed :
  bytes_ok data -> is_u16 count -> 0 <= off -> len <= zlen data -> 0 <= processed <= 131072 ->
  count - processed <= Z.of_nat fuel ->
  match validate_loop fuel data len count off processed with
  | Ok e => exists n, e = off + 2 * Z.of_nat n /\ (n = 0%nat \/ e <= len) /\
              accepts count processed (words data off n) = true
  | Err => forall n, off + 2 * Z.of_nat n <= len -> accepts count processed (words data off n) = false
  | Fault => False
  end.
Proof.
  intros Hb Hc. revert off processed. induction fuel as [|fuel IH]; intros off processed Ho Hl Hp Hf;
    cbn [validate_loop]; (destruct (Z.ltb_spec processed count) as [Hlt|Hge];
      [|exists 0%nat; split_and!; [lia|by left|cbn; lia]]); [lia|].
  destruct (Z.ltb_spec len (off + 2)) as [Hs|Hs]; cbn [reject].
  { intros [|n] Hn; [|lia]. cbn [words accepts]. lia. }
  rewrite read_be16_ok by (done || lia). cbn [res_bind].
  pose proof (be16_u16 data off Hb) as H16. set (c := be16 data off) in *.
  destruct (chunk_bits c H16) as (-> & Hrun & -> & Htwo). pose proof (chunk_size_range c H16) as Hsz.
  (* both branches make the same test on the size of the chunk *)
  assert (Hstep : chunk_valid c = true ->
    match reject (u32 (count - chunk_size c) <? processed)
            (validate_loop fuel data len count (off + 2) (u32 (processed + chunk_size c))) with
    | Ok e => exists n, e = off + 2 * Z.of_nat n /\ (n = 0%nat \/ e <= len) /\
                accepts count processed (words data off n) = true
    | Err => forall n, off + 2 * Z.of_nat n <= len -> accepts count processed (words data off n) = false
    | Fault => False
    end).
  { intros Hv. assert (0 < chunk_size c) by (unfold chunk_valid in Hv; bool_hyps; lia).
    replace (u32 (processed + chunk_size c)) with (processed + chunk_size c) by dlia.
    assert (Hrule : (u32 (count - chunk_size c) <? processed) =
      negb ((processed + chunk_size c <=? count) || (count <? chunk_size c))).
    { apply Bool.eq_iff_eq_true. rewrite negb_true_iff, orb_false_iff, Z.ltb_lt, Z.leb_gt, Z.ltb_ge. dlia. }
    rewrite Hrule. destruct ((_ <=? _) || _) eqn:G; cbn [negb reject].
    - specialize (IH (off + 2) (processed + chunk_size c) ltac:(lia) Hl ltac:(unfold is_u16 in Hc; lia) ltac:(lia)).
      destruct (validate_loop fuel _ _ _ _ _) as [e| |].
      + destruct IH as (n & -> & He & Ha). exists (S n). split_and!; [lia|right; lia|].
        cbn [words accepts]. fold c. rewrite Hv, G, Ha. lia.
      + intros [|n] Hn; [cbn; lia|]. cbn [words accepts]. rewrite IH by lia. by rewrite andb_false_r.
      + done.
    - intros [|n] Hn; [cbn; lia|]. cbn [words accepts]. fold c. rewrite G. by rewrite andb_false_r. }
  assert (Hbad : chunk_valid c = false ->
    forall n, off + 2 * Z.of_nat n <= len -> accepts count processed (words data off n) = false).
  { intros Hv [|n] Hn; [cbn; lia|]. cbn [words accepts]. fold c. rewrite Hv. by rewrite andb_false_r. }
  unfold chunk_valid, chunk_size in *. destruct (is_run c) eqn:Er.
  - destruct (Hrun eq_refl) as [-> _].
    destruct ((c / 8192 =? TWCC_STATUS_RESERVED) || (c mod 8192 =? 0)) eqn:G; cbn [reject].
    + apply Hbad. cbn [andb]. lia.
    + apply Hstep. cbn [andb]. lia.
  - rewrite Htwo by done. destruct (is_two_bit c); apply Hstep; done.
Qed.

(** * Iteration *)

(** The symbols a parser state still has in the chunks up to offset [e]. *)
Definition upcoming (data : list Z) (e : Z) (p : sfu_twcc_parser) : list Z :=
  chunk_tail (current_chunk p) (Z.to_nat (statuses_left_in_chunk p)) ++
  concat (map chunk_symbols (words data (chunk_offset p) (Z.to_nat ((e - chunk_offset p) / 2)))).

Record parser_inv (data : list Z) (e : Z) (p : sfu_twcc_parser) : Prop := {
  inv_bounds : 0 <= chunk_offset p <= e /\ e <= delta_offset p <= p_len p /\ p_len p <= zlen data;
  inv_even : (e - chunk_offset p) mod 2 = 0;
  inv_left : is_u16 (statuses_left_in_chunk p) /\ is_u16 (current_chunk p);
  inv_chunk : 0 < statuses_left_in_chunk p ->
    is_run_length p = is_run (current_chunk p) /\
    (is_run (current_chunk p) = true -> run_length_symbol p = current_chunk p / 8192);
  inv_valid : Forall (fun c => 0 < chunk_size c)
    (words data (chunk_offset p) (Z.to_nat ((e - chunk_offset p) / 2)))
}.

(** Reading a symbol only changes the chunk part of the state. *)
Definition same_rest (p q : sfu_twcc_parser) : Prop :=
  p_len q = p_len p /\ packet_status_count q = packet_status_count p /\
  current_time_us q = current_time_us p /\ current_seq q = current_seq p /\
  delta_offset q = delta_offset p /\ packets_processed q = packets_processed p /\
  failed q = failed p.

Lemma load_chunk_spec data e p s rest :
  bytes_ok data -> parser_inv data e p -> upcoming data e p = s :: rest ->
  exists q, load_chunk data p = Ok (true, q) /\ parser_inv data e q /\ same_rest p q /\
    upcoming data e q = s :: rest /\ 0 < statuses_left_in_chunk q.
Proof.
  intros Hb Hinv Hup. unfold load_chunk. pose proof Hinv as [Hbd Hev [Hl Hc] Hch Hv].
  unfold is_u16 in Hl. destruct (Z.eqb_spec (statuses_left_in_chunk p) 0) as [E|Hne].
  2: { exists p. split_and!; try done; lia. }
  unfold upcoming in Hup. rewrite E in Hup. cbn [Z.to_nat chunk_tail app] in Hup.
  destruct (Z.to_nat ((e - chunk_offset p) / 2)) as [|k] eqn:Ek; [done|].
  assert (Hroom : chunk_offset p + 2 <= e) by dlia.
  rewrite (proj2 (Z.ltb_ge _ _)) by lia. rewrite read_be16_ok by (done || lia). cbn [res_bind].
  cbn [words] in Hup, Hv. inversion Hv as [|? ? Hsz Hv']; subst.
  pose proof (be16_u16 data (chunk_offset p) Hb) as H16. set (c := be16 data (chunk_offset p)) in *.
  destruct (chunk_bits c H16) as (-> & Hrun & -> & Htwo). pose proof (chunk_size_range c H16) as Hr.
  assert (Ek' : Z.to_nat ((e - (chunk_offset p + 2)) / 2) = k) by dlia.
  assert (Hgoal : forall q, chunk_offset q = chunk_offset p + 2 -> current_chunk q = c ->
    statuses_left_in_chunk q = chunk_size c -> same_rest p q ->
    is_run_length q = is_run c -> (is_run c = true -> run_length_symbol q = c / 8192) ->
    exists q', (if statuses_left_in_chunk q =? 0 then Ok (false, q) else Ok (true, q)) = Ok (true, q') /\
      parser_inv data e q' /\ same_rest p q' /\ upcoming data e q' = s :: rest /\
      0 < statuses_left_in_chunk q').
  { intros q Eo Ec El Hsame Er Es. exists q. rewrite (proj2 (Z.eqb_neq _ 0)) by lia.
    split_and!; try done; [|unfold upcoming; rewrite Ec, El, Eo, Ek'; by rewrite <- Hup|lia].
    pose proof Hsame as (E1 & _ & _ & _ & E2 & _). constructor; rewrite ?E1, ?E2, ?Eo, ?Ec, ?El, ?Ek'; try done.
    - lia.
    - dlia.
    - split; [unfold is_u16; lia|done]. }
  unfold chunk_size in *. destruct (is_run c).
  - destruct (Hrun eq_refl) as [-> _]. apply Hgoal; try done; by destruct p.
  - rewrite Htwo by done. apply Hgoal; try done; by destruct p.
Qed.

Lemma get_next_status_spec data e p s rest :
  bytes_ok data -> parser_inv data e p -> upcoming data e p = s :: rest ->
  exists q, get_next_status data p = Ok (s, q) /\ parser_inv data e q /\ same_rest p q /\
    upcoming data e q = rest.
Proof.
  intros Hb Hinv Hup. unfold get_next_status.
  destruct (load_chunk_spec data e p s rest Hb Hinv Hup) as (q & -> & [Hbd Hev [Hl Hc] Hch Hv] & Hsame & Hq & Hpos).
  cbn [res_bind negb]. specialize (Hch Hpos) as [Er Es]. unfold is_u16 in Hl.
  destruct q as [len0 b0 n0 t0 q0 co do c ir rs left pp pl fl]. unfold set, eta_twcc_parser. cbn in *.
  replace (u16 (left - 1)) with (left - 1) by dlia.
  unfold upcoming in Hq. cbn [current_chunk statuses_left_in_chunk chunk_offset] in Hq.
  replace (Z.to_nat left) with (S (Z.to_nat (left - 1))) in Hq by lia. cbn [chunk_tail app] in Hq.
  injection Hq as Esym Hrest.
  set (q' := mk_twcc_parser len0 b0 n0 t0 q0 co do c ir rs (left - 1) pp pl fl).
  assert (Hgoal : exists q'', Ok (s, q') = Ok (s, q'') /\ parser_inv data e q'' /\ same_rest p q'' /\
            upcoming data e q'' = rest).
  { exists q'. split_and!; try done.
    constructor; cbn; [done|done|split; [unfold is_u16; lia|done]| |done]. intros; auto. }
  subst ir. destruct (is_run c) eqn:Er; cbn [is_run_length].
  - rewrite Es by done. unfold chunk_symbol in Esym. rewrite Er in Esym. by rewrite Esym.
  - destruct (chunk_bits c Hc) as (_ & _ & _ & ->); [|done].
    destruct (chunk_symbol_bits c (Z.to_nat (left - 1)) Hc Er) as [H2 H1].
    rewrite Z2Nat.id in H2, H1 by lia.
    destruct (is_two_bit c); [rewrite H2 by done|rewrite H1 by done]; by rewrite Esym.
Qed.

(** The bytes the deltas are read from. *)
Definition deltas_of (data : list Z) (p : sfu_twcc_parser) : list Z :=
  slice data (delta_offset p) (p_len p - delta_offset p).
Definition left_to_report (data : list Z) (e : Z) (p : sfu_twcc_parser) : list Z :=
  take (Z.to_nat (packet_status_count p - packets_processed p)) (upcoming data e p).
Definition report_of (data : list Z) (e : Z) (p : sfu_twcc_parser) : list sfu_twcc_status * bool :=
  report (left_to_report data e p) (deltas_of data p) (current_seq p) (current_time_us p).

Record iter_inv (data : list Z) (e : Z) (p : sfu_twcc_parser) : Prop := {
  iter_chunks : parser_inv data e p;
  iter_count : 0 <= packets_processed p <= packet_status_count p /\ is_u16 (packet_status_count p);
  iter_cover : packet_status_count p - packets_processed p <= zlen (upcoming data e p);
  iter_symbols : Forall (fun s => 0 <= s <= 3) (upcoming data e p)
}.

(** Moving the clock, the counters and the delta cursor keeps the chunks. *)
Lemma iter_inv_advance data e p q q' rest :
  parser_inv data e q -> same_rest p q -> upcoming data e q = rest ->
  0 <= packets_processed p < packet_status_count p -> is_u16 (packet_status_count p) ->
  packet_status_count p - packets_processed p <= 1 + zlen rest -> Forall (fun s => 0 <= s <= 3) rest ->
  chunk_offset q' = chunk_offset q -> current_chunk q' = current_chunk q ->
  is_run_length q' = is_run_length q -> run_length_symbol q' = run_length_symbol q ->
  statuses_left_in_chunk q' = statuses_left_in_chunk q -> p_len q' = p_len q ->
  packet_status_count q' = packet_status_count q ->
  packets_processed q' = u32 (packets_processed q + 1) ->
  delta_offset q <= delta_offset q' <= p_len q ->
  iter_inv data e q' /\ packets_processed q' = packets_processed p + 1 /\
  packet_status_count q' = packet_status_count p /\ upcoming data e q' = rest.
Proof.
  intros [Hbd Hev Hl Hch Hv] (E1 & E2 & _ & _ & E5 & E6 & _) Hup Hn Hn16 Hcov Hsym F1 F2 F3 F4 F5 F6 F7 F8 F9.
  assert (Hproc : packets_processed q' = packets_processed p + 1) by (rewrite F8, E6; dlia).
  assert (Hup' : upcoming data e q' = rest) by (unfold upcoming in *; by rewrite F1, F2, F5).
  split_and!; try done; [|congruence]. constructor.
  - constructor; rewrite ?F1, ?F2, ?F3, ?F4, ?F5, ?F6; try done. lia.
  - rewrite F7, E2, Hproc. split; [lia|done].
  - rewrite Hup', F7, E2, Hproc. lia.
  - by rewrite Hup'.
Qed.

Lemma report_cons syms deltas seq clock s :
  report (s :: syms) deltas seq clock =
    let next deltas t r := let '(l, ok) := report syms deltas (u16 (seq + 1)) t in (mk_status seq s r :: l, ok) in
    if s =? 0 then next deltas clock 0
    else if s =? 1 then
      match deltas with d :: ds => next ds (clock + d * 250) (clock + d * 250) | _ => ([], false) end
    else if s =? 2 then
      match deltas with
      | d1 :: d0 :: ds => let t := clock + i16 (d1 * 256 + d0) * 250 in next ds t t
      | _ => ([], false)
      end
    else ([], false).
Proof. done. Qed.

(** Statuses are handed out one by one: what the call returns in state [q']
    heads the report, which [q'] continues. *)
Lemma hand_out data e p q q' s rest st :
  parser_inv data e q -> same_rest p q -> upcoming data e q = rest -> upcoming data e p = s :: rest ->
  0 <= packets_processed p < packet_status_count p -> is_u16 (packet_status_count p) ->
  packet_status_count p - packets_processed p <= 1 + zlen rest -> Forall (fun s => 0 <= s <= 3) rest ->
  failed p = false ->
  q' = q <| current_seq := u16 (current_seq q + 1) |> <| packets_processed := u32 (packets_processed q + 1) |>
         <| packets_lost := packets_lost q' |> <| delta_offset := delta_offset q' |>
         <| current_time_us := current_time_us q' |> ->
  delta_offset q <= delta_offset q' <= p_len q ->
  iter_inv data e q' /\ failed q' = false /\ packets_processed q' = packets_processed p + 1 /\
  packet_status_count q' = packet_status_count p /\
  (let '(l, ok) := report (take (Z.to_nat (packet_status_count p - (packets_processed p + 1))) rest)
     (deltas_of data q') (u16 (current_seq p + 1)) (current_time_us q') in (st :: l, ok)) =
  (st :: fst (report_of data e q'), snd (report_of data e q')).
Proof.
  intros Hq Hsame Hrest Hup Hn Hn16 Hcov Hrs Hfail Eq Hd.
  destruct (iter_inv_advance data e p q q' rest) as (Hi & Hp & Hc & Hu); try done; try (by rewrite Eq).
  pose proof Hsame as (_ & _ & _ & E4 & _ & _ & E7).
  split_and!; try done; [by rewrite Eq; cbn; rewrite E7|].
  unfold report_of, left_to_report. rewrite Hu, Hp, Hc.
  replace (current_seq q') with (u16 (current_seq p + 1)) by (rewrite Eq; cbn; by rewrite E4).
  by destruct (report _ _ _ _).
Qed.

Ltac hand_over Hout :=
  match goal with |- iter_inv _ _ ?q /\ _ => exact (Hout q _ eq_refl ltac:(cbn; lia)) end.

(** One call hands out the head of the report still to be made. *)
Lemma next_status_spec data e p :
  bytes_ok data -> iter_inv data e p -> failed p = false ->
  exists o q, sfu_twcc_parser_next_status data p = Ok (o, q) /\
    match o with
    | Some s => iter_inv data e q /\ failed q = false /\ packets_processed q = packets_processed p + 1 /\
                packet_status_count q = packet_status_count p /\
                report_of data e p = (s :: fst (report_of data e q), snd (report_of data e q))
    | None => report_of data e p = ([], negb (failed q))
    end.
Proof.
  intros Hb [Hinv [Hn Hn16] Hcov Hsym] Hfail. unfold sfu_twcc_parser_next_status. rewrite Hfail. cbn [orb].
  destruct (Z.leb_spec (packet_status_count p) (packets_processed p)) as [Hge|Hlt].
  { exists None, p. split; [done|]. rewrite Hfail. unfold report_of, left_to_report.
    replace (Z.to_nat _) with 0%nat by lia. by rewrite take_0. }
  destruct (upcoming data e p) as [|s rest] eqn:Hup; [rewrite @zlen_nil in Hcov; lia|].
  destruct (get_next_status_spec data e p s rest Hb Hinv Hup) as (q & -> & Hq & Hsame & Hrest).
  cbn [res_bind]. inversion_clear Hsym as [|? ? Hs Hrs]. rewrite zlen_cons in Hcov.
  pose proof Hq as [(? & Hdo & Hlen) _ _ _ _]. pose proof Hsame as (E1 & _ & E3 & E4 & E5 & _ & _).
  assert (Hout := fun q' st => hand_out data e p q q' s rest st Hq Hsame Hrest Hup ltac:(lia) Hn16 Hcov Hrs Hfail).
  assert (Hrep : report_of data e p =
    report (s :: take (Z.to_nat (packet_status_count p - (packets_processed p + 1))) rest)
      (deltas_of data p) (current_seq p) (current_time_us p)).
  { unfold report_of, left_to_report. rewrite Hup.
    by replace (Z.to_nat (packet_status_count p - packets_processed p))
      with (S (Z.to_nat (packet_status_count p - (packets_processed p + 1)))) by lia. }
  rewrite Hrep, report_cons. clear Hrep. cbv zeta beta.
  assert (Edel : deltas_of data p = slice data (delta_offset q) (p_len q - delta_offset q))
    by (unfold deltas_of; by rewrite E1, E5).
  rewrite Edel, <- E3, <- E4. clear Edel.
  set (q1 := q <| current_seq ::= fun s => u16 (s + 1) |> <| packets_processed ::= fun n => u32 (n + 1) |>).
  change (p_len q1) with (p_len q). change (delta_offset q1) with (delta_offset q).
  destruct (Z.eqb_spec s TWCC_STATUS_NOT_RECEIVED) as [->|H0].
  { eexists _, _. split; [reflexivity|]. change (0 =? 0) with true. cbv iota.
    rewrite E4. hand_over Hout. }
  rewrite (proj2 (Z.eqb_neq s 0)) by done.
  destruct (Z.eqb_spec s TWCC_STATUS_RESERVED) as [->|H3].
  { by eexists None, _. }
  destruct (Z.eqb_spec s TWCC_STATUS_SMALL_DELTA) as [->|H1].
  - change (1 =? 1) with true. cbv iota. destruct (Z.ltb_spec (p_len q) (delta_offset q + 1)).
    { eexists None, _. split; [reflexivity|]. by replace (p_len q - delta_offset q) with 0 by lia. }
    rewrite rd_ok by lia. cbn [res_bind]. rewrite slice_cons by lia.
    eexists _, _. split; [reflexivity|].
    match goal with |- context [mk_status _ _ ?t] => change t with (current_time_us q + byte_at data (delta_offset q) * 250) end.
    replace (p_len q - delta_offset q - 1) with (p_len q - (delta_offset q + 1)) by lia.
    rewrite E4. hand_over Hout.
  - assert (s = 2) as -> by (unfold TWCC_STATUS_RESERVED, TWCC_STATUS_SMALL_DELTA, TWCC_STATUS_NOT_RECEIVED in *; lia).
    change (2 =? 1) with false. change (2 =? 2) with true. cbv iota.
    destruct (Z.ltb_spec (p_len q) (delta_offset q + 2)).
    { eexists None, _. split; [reflexivity|].
      destruct (decide (p_len q - delta_offset q = 0)) as [->|?]; [done|].
      replace (p_len q - delta_offset q) with 1 by lia. by rewrite slice_cons by lia. }
    rewrite read_be16_ok by (done || lia). cbn [res_bind]. rewrite !slice_cons by lia.
    eexists _, _. split; [reflexivity|]. unfold be16.
    match goal with |- context [mk_status _ _ ?t] =>
      change t with (current_time_us q + i16 (byte_at data (delta_offset q) * 256 + byte_at data (delta_offset q + 1)) * 250) end.
    replace (p_len q - delta_offset q - 1 - 1) with (p_len q - (delta_offset q + 2)) by lia.
    replace (delta_offset q + 1 + 1) with (delta_offset q + 2) by lia.
    rewrite E4. hand_over Hout.
Qed.

Lemma status_collect_spec fuel data e p :
  bytes_ok data -> iter_inv data e p -> failed p = false ->
  packet_status_count p - packets_processed p < Z.of_nat fuel ->
  exists q, status_collect fuel data p = Ok (fst (report_of data e p), q) /\
    failed q = negb (snd (report_of data e p)).
Proof.
  intros Hb. revert p. induction fuel as [|fuel IH]; intros p Hinv Hfail Hf.
  { destruct Hinv as [_ [Hn _] _ _]. lia. }
  cbn [status_collect]. destruct (next_status_spec data e p Hb Hinv Hfail) as ([s|] & q & -> & Hr); cbn [res_bind].
  - destruct Hr as (Hinv' & Hfail' & Hp & Hc & ->).
    destruct (IH q) as (q' & -> & Hq); [done|done|lia|]. by exists q'.
  - rewrite Hr. exists q. split; [done|]. cbn. by rewrite negb_involutive.
Qed.

(** The received packets of a report. *)
Definition packets_of (ss : list sfu_twcc_status) : list gcc_packet_info :=
  map (fun s => mk_packet_info (sequence_number s) 0 (receive_time_us s) 0)
    (List.filter (fun s => negb (status s =? TWCC_STATUS_NOT_RECEIVED)) ss).

Lemma packets_of_cons s ss :
  packets_of (s :: ss) =
    if status s =? TWCC_STATUS_NOT_RECEIVED then packets_of ss
    else mk_packet_info (sequence_number s) 0 (receive_time_us s) 0 :: packets_of ss.
Proof. unfold packets_of. cbn [List.filter]. by destruct (status s =? TWCC_STATUS_NOT_RECEIVED). Qed.

Lemma next_loop_spec fuel data e p :
  bytes_ok data -> iter_inv data e p -> failed p = false ->
  packet_status_count p - packets_processed p < Z.of_nat fuel ->
  exists o q, next_loop fuel data p = Ok (o, q) /\
    match o with
    | Some i => iter_inv data e q /\ failed q = false /\ packets_processed p < packets_processed q /\
                packet_status_count q = packet_status_count p /\
                packets_of (fst (report_of data e p)) = i :: packets_of (fst (report_of data e q))
    | None => packets_of (fst (report_of data e p)) = []
    end.
Proof.
  intros Hb. revert p. induction fuel as [|fuel IH]; intros p Hinv Hfail Hf.
  { destruct Hinv as [_ [Hn _] _ _]. lia. }
  cbn [next_loop]. destruct (next_status_spec data e p Hb Hinv Hfail) as ([s|] & q & -> & Hr); cbn [res_bind].
  2: { exists None, q. split; [done|]. by rewrite Hr. }
  destruct Hr as (Hinv' & Hfail' & Hp & Hc & ->). cbn [fst]. rewrite packets_of_cons.
  destruct (status s =? TWCC_STATUS_NOT_RECEIVED).
  - destruct (IH q) as (o & q' & -> & Ho); [done|done|lia|]. exists o, q'. split; [done|].
    destruct o as [i|]; [|by rewrite Ho]. destruct Ho as (H1 & H2 & H3 & H4 & H5). split_and!; try done; [lia|congruence].
  - eexists _, q. split; [done|]. split_and!; try done. lia.
Qed.

Lemma packet_collect_spec fuel data e p :
  bytes_ok data -> iter_inv data e p -> failed p = false ->
  packet_status_count p - packets_processed p < Z.of_nat fuel ->
  exists q, packet_collect fuel data p = Ok (packets_of (fst (report_of data e p)), q).
Proof.
  intros Hb. revert p. induction fuel as [|fuel IH]; intros p Hinv Hfail Hf.
  { destruct Hinv as [_ [Hn _] _ _]. lia. }
  cbn [packet_collect]. unfold sfu_twcc_parser_next. pose proof Hinv as [_ [Hn _] _ _].
  destruct (next_loop_spec (Z.to_nat (packet_status_count p) + 1) data e p Hb Hinv Hfail) as (o & q & -> & Ho); [lia|].
  cbn [res_bind]. destruct o as [i|]; [|exists q; by rewrite Ho].
  destruct Ho as (H1 & H2 & H3 & H4 & ->). destruct (IH q) as (q' & ->); [done|done|lia|]. by exists q'.
Qed.

(** * What initialisation establishes *)

Lemma chunk_tail_length c n : length (chunk_tail c n) = n.
Proof. induction n; cbn; auto. Qed.

Lemma chunk_symbols_range c : is_u16 c -> Forall (fun s => 0 <= s <= 3) (chunk_symbols c).
Proof.
  intros Hc. unfold chunk_symbols. induction (Z.to_nat (chunk_size c)) as [|n IH]; constructor; [|done].
  unfold chunk_symbol, is_run in *. destruct (Z.ltb_spec c 32768); [dlia|]. destruct (is_two_bit c).
  - pose proof (Z.mod_pos_bound (c / 4 ^ Z.of_nat n) 4). lia.
  - pose proof (Z.mod_pos_bound (c / 2 ^ Z.of_nat n) 2). lia.
Qed.

Lemma accepted_chunks count processed cs :
  accepts count processed cs = true -> Forall is_u16 cs ->
  Forall (fun c => 0 < chunk_size c) cs /\
  count - processed <= zlen (concat (map chunk_symbols cs)).
Proof.
  revert processed. induction cs as [|c cs IH]; intros processed Ha Hc; cbn [accepts] in Ha.
  - split; [constructor|]. cbn. bool_hyps. change (zlen []) with 0. lia.
  - bool_hyps. inversion_clear Hc as [|? ? Hc1 Hc2]. destruct (IH _ H0 Hc2) as [Hs Hl].
    pose proof (chunk_size_range c Hc1). unfold chunk_valid in *. bool_hyps.
    split; [constructor; [lia|done]|]. cbn [map concat]. rewrite zlen_app.
    assert (zlen (chunk_symbols c) = chunk_size c) as -> by (unfold zlen, chunk_symbols; rewrite chunk_tail_length; lia).
    lia.
Qed.

Lemma words_u16 data off n : bytes_ok data -> Forall is_u16 (words data off n).
Proof. intros Hb. revert off. induction n; intros off; constructor; auto with sfu. Qed.

Lemma concat_symbols_range cs :
  Forall is_u16 cs -> Forall (fun s => 0 <= s <= 3) (concat (map chunk_symbols cs)).
Proof. induction 1; cbn; [constructor|]. apply Forall_app. auto using chunk_symbols_range. Qed.

Lemma init_inv data len anchor n :
  bytes_ok data -> len <= zlen data -> TWCC_FIXED_LEN + 2 * Z.of_nat n <= len ->
  accepts (be16 data 14) 0 (words data TWCC_FIXED_LEN n) = true ->
  let e := TWCC_FIXED_LEN + 2 * Z.of_nat n in
  let p := mk_twcc_parser len (be16 data 12) (be16 data 14) anchor (be16 data 12) TWCC_FIXED_LEN e 0 false 0 0 0 0 false in
  iter_inv data e p /\
  report_of data e p =
    report (take (Z.to_nat (be16 data 14)) (concat (map chunk_symbols (words data TWCC_FIXED_LEN n))))
      (slice data e (len - e)) (be16 data 12) anchor.
Proof.
  intros Hb Hl He Ha e p. pose proof (words_u16 data TWCC_FIXED_LEN n Hb) as Hw.
  destruct (accepted_chunks _ _ _ Ha Hw) as [Hs Hlen]. pose proof (be16_u16 data 14 Hb) as H16. unfold is_u16 in H16.
  assert (En : Z.to_nat ((e - TWCC_FIXED_LEN) / 2) = n) by (unfold e; dlia).
  assert (Hup : upcoming data e p = concat (map chunk_symbols (words data TWCC_FIXED_LEN n))).
  { unfold upcoming, p. cbn [current_chunk statuses_left_in_chunk chunk_offset Z.to_nat chunk_tail app]. by rewrite En. }
  split.
  - constructor; rewrite ?Hup; cbn [packets_processed packet_status_count p]; try done.
    + constructor; cbn [chunk_offset delta_offset p_len statuses_left_in_chunk current_chunk is_run_length p]; try lia.
      * unfold TWCC_FIXED_LEN in *. lia.
      * unfold e. dlia.
      * by split.
      * by rewrite En.
    + unfold is_u16. lia.
    + by apply concat_symbols_range.
  - unfold report_of, left_to_report. rewrite Hup. unfold p. cbn [packets_processed packet_status_count].
    by rewrite Z.sub_0_r.
Qed.

(** Parsing against the chunk grammar, for any bytes. *)
Lemma twcc_parse_spec data len anchor :
  bytes_ok data -> 0 <= len <= zlen data ->
  match sfu_twcc_parser_init data len anchor with
  | Ok p =>
      exists n q q',
        let count := be16 data 14 in
        let e := TWCC_FIXED_LEN + 2 * Z.of_nat n in
        let r := report (take (Z.to_nat count) (concat (map chunk_symbols (words data TWCC_FIXED_LEN n))))
                   (slice data e (len - e)) (be16 data 12) (unwrap_reference (be24 data 16 * 64000) anchor) in
        e <= len /\ accepts count 0 (words data TWCC_FIXED_LEN n) = true /\
        status_collect (Z.to_nat count + 1) data p = Ok (fst r, q) /\ failed q = negb (snd r) /\
        packet_collect (Z.to_nat count + 1) data p = Ok (packets_of (fst r), q')
  | Err => len < TWCC_FIXED_LEN \/
      forall n, TWCC_FIXED_LEN + 2 * Z.of_nat n <= len ->
        accepts (be16 data 14) 0 (words data TWCC_FIXED_LEN n) = false
  | Fault => False
  end.
Proof.
  intros Hb Hl. unfold sfu_twcc_parser_init. destruct (Z.ltb_spec len TWCC_FIXED_LEN) as [|H20]; cbn [reject]; [by left|].
  unfold TWCC_FIXED_LEN in H20. rewrite !read_be16_ok by (done || lia). cbn [res_bind].
  pose proof (be16_u16 data 14 Hb) as H16. unfold is_u16 in H16.
  pose proof (validate_loop_spec (Z.to_nat (be16 data 14)) data len (be16 data 14) TWCC_FIXED_LEN 0
    Hb H16 ltac:(done) ltac:(lia) ltac:(lia) ltac:(lia)) as Hv.
  unfold validate_chunks. destruct (validate_loop _ _ _ _ _ _) as [doff| |]; cbn [res_bind]; [|by right|done].
  destruct Hv as (n & -> & He & Ha). rewrite read_be24_ok by (done || lia). cbn [res_bind].
  assert (Hlen : TWCC_FIXED_LEN + 2 * Z.of_nat n <= len) by (destruct He as [->|]; [unfold TWCC_FIXED_LEN; lia|done]).
  destruct (init_inv data len (unwrap_reference (be24 data 16 * 64000) anchor) n Hb ltac:(lia) Hlen Ha) as [Hinv Hrep].
  destruct (status_collect_spec (Z.to_nat (be16 data 14) + 1) _ _ _ Hb Hinv eq_refl) as (q & Hq & Hf); [cbn; lia|].
  destruct (packet_collect_spec (Z.to_nat (be16 data 14) + 1) _ _ _ Hb Hinv eq_refl) as (q' & Hq'); [cbn; lia|].
  rewrite Hrep in Hq, Hf, Hq'. by exists n, q, q'.
Qed.

(** The state the iteration starts from. *)
Lemma parser_init_iter data len anchor p :
  bytes_ok data -> 0 <= len <= zlen data -> sfu_twcc_parser_init data len anchor = Ok p ->
  exists e, iter_inv data e p /\ failed p = false /\ packets_processed p = 0.
Proof.
  intros Hb Hl. unfold sfu_twcc_parser_init. destruct (Z.ltb_spec len TWCC_FIXED_LEN) as [|H20]; cbn [reject]; [done|].
  unfold TWCC_FIXED_LEN in H20. rewrite !read_be16_ok by (done || lia). cbn [res_bind].
  pose proof (be16_u16 data 14 Hb) as H16. unfold is_u16 in H16.
  pose proof (validate_loop_spec (Z.to_nat (be16 data 14)) data len (be16 data 14) TWCC_FIXED_LEN 0
    Hb H16 ltac:(done) ltac:(lia) ltac:(lia) ltac:(lia)) as Hv.
  unfold validate_chunks. destruct (validate_loop _ _ _ _ _ _) as [doff| |]; cbn [res_bind]; [|done|done].
  destruct Hv as (n & -> & He & Ha). rewrite read_be24_ok by (done || lia). cbn [res_bind].
  assert (Hlen : TWCC_FIXED_LEN + 2 * Z.of_nat n <= len) by (destruct He as [->|]; [unfold TWCC_FIXED_LEN; lia|done]).
  destruct (init_inv data len (unwrap_reference (be24 data 16 * 64000) anchor) n Hb ltac:(lia) Hlen Ha) as [Hinv _].
  intros [= <-]. eexists. split; [exact Hinv|done].
Qed.

(** C28: For any bytes, parsing a transport-cc feedback is safe and stops.  A packet
    is rejected exactly when no sequence of chunks behind its header satisfies
    the validation rule; for an accepted one the iterator reports, one status
    per packet and in order, what the chunks and deltas encode (run-length,
    one-bit and two-bit vectors, 8- and 16-bit deltas of 250 us on the
    reference time), it is marked failed iff a reserved symbol or a missing
    delta cuts the report short, and the packet iterator returns exactly the
    received packets of that report. *)
Theorem twcc_parse_exact data len anchor :
  bytes_ok data -> 0 <= len <= zlen data ->
  match sfu_twcc_parser_init data len anchor with
  | Ok p =>
      exists n q q',
        let count := be16 data 14 in
        let e := TWCC_FIXED_LEN + 2 * Z.of_nat n in
        let r := report (take (Z.to_nat count) (concat (map chunk_symbols (words data TWCC_FIXED_LEN n))))
                   (slice data e (len - e)) (be16 data 12) (unwrap_reference (be24 data 16 * 64000) anchor) in
        e <= len /\ accepts count 0 (words data TWCC_FIXED_LEN n) = true /\
        status_collect (Z.to_nat count + 1) data p = Ok (fst r, q) /\ failed q = negb (snd r) /\
        packet_collect (Z.to_nat count + 1) data p = Ok (packets_of (fst r), q')
  | Err => len < TWCC_FIXED_LEN \/
      forall n, TWCC_FIXED_LEN + 2 * Z.of_nat n <= len ->
        accepts (be16 data 14) 0 (words data TWCC_FIXED_LEN n) = false
  | Fault => False
  end.
Proof. apply twcc_parse_spec. Qed.

(** Two packets with one lost between them: a two-bit vector and two deltas. *)
Definition ex_feedback : list Z :=
  [0x8f; 205; 0; 5; 0;0;0;1; 0;0;0;2; 0;100; 0;3; 0;0;10; 0; 0xd1; 0x00; 4; 8].

Lemma twcc_parse_exact_witness :
  exists q, status_collect 4 ex_feedback
    (mk_twcc_parser 24 100 3 640000 100 20 22 0 false 0 0 0 0 false)
    = Ok ([mk_status 100 1 641000; mk_status 101 0 0; mk_status 102 1 643000], q).
Proof.
  pose proof (twcc_parse_exact ex_feedback 24 0 (bytes_okb_ok ex_feedback eq_refl) ltac:(vm_compute; split; discriminate)) as H.
  change (sfu_twcc_parser_init ex_feedback 24 0)
    with (Ok (mk_twcc_parser 24 100 3 640000 100 20 22 0 false 0 0 0 0 false)) in H.
  cbv beta iota in H. destruct H as ([|[|n]] & q & q' & _ & Ha & H & _).
  - vm_compute in Ha. discriminate Ha.
  - exists q. vm_compute in H |- *. exact H.
  - cbn [words accepts] in Ha. rewrite !andb_true_iff in Ha. destruct Ha as [_ [[[Ha _] _] _]].
    vm_compute in Ha. discriminate Ha.
Defined.

(** Unwrapping the 24-bit reference time: the result is the time congruent to
    the received one modulo its range (2^24 units of 64 ms) that lies within
    half a range of the anchor; without an anchor it is the received time. *)
Theorem unwrap_nearest ref24 anchor :
  0 <= ref24 < 2 ^ 24 ->
  let t := unwrap_reference (ref24 * 64000) anchor in
  (anchor <= 0 -> t = ref24 * 64000) /\
  (0 < anchor ->
   (t - ref24 * 64000) mod TWCC_REF_RANGE_US = 0 /\
   - (TWCC_REF_RANGE_US / 2) <= t - anchor < TWCC_REF_RANGE_US / 2).
Proof.
  intros Hr t. unfold t, unwrap_reference. change TWCC_REF_RANGE_US with 1073741824000.
  change (2 ^ 24) with 16777216 in Hr. change (1073741824000 / 2) with 536870912000.
  destruct (Z.ltb_spec 0 anchor); (split; [lia|]); intros; [|lia].
  rewrite (Z.rem_mod_nonneg anchor) by lia.
  set (d := ref24 * 64000 - anchor mod 1073741824000).
  assert (Hd : Z.rem d 1073741824000 = d) by (apply Z.rem_small_iff; [done|]; unfold d; dlia).
  rewrite Hd, Z.rem_mod_nonneg by (unfold d; dlia). unfold d. dlia.
Qed.

Lemma unwrap_nearest_witness :
  (unwrap_reference (5 * 64000) 1073741800000 - 5 * 64000) mod TWCC_REF_RANGE_US = 0.
Proof. refine (proj1 (proj2 (unwrap_nearest 5 1073741800000 _) _)); lia. Defined.
