(* ===== verification/TwccFeedback.v ===== *)
(** The receiver's side of transport-wide congestion control,
    [src/congestion/twcc_feedback.c]: the arrival tracker and the builder of
    feedback packets, and their agreement with the compound iterator of
    [Rtcp] and the parser of [TwccParser]. *)

From S2P Require Import Prelude NetBytes RtpPacket Rtcp TwccParser.

Definition SFU_TWCC_RECV_CAPACITY : Z := 1024.
Definition SFU_TWCC_RECV_MASK : Z := SFU_TWCC_RECV_CAPACITY - 1.
Definition SFU_TWCC_FEEDBACK_MAX_PACKETS : Z := 256.
Definition TWCC_REF_UNIT_US : Z := 64000.
Definition TWCC_SMALL_DELTA_UNIT_US : Z := 250.

Record sfu_twcc_recv_entry := mk_recv_entry {
  re_seq : Z;
  arrival_us : Z;
  re_valid : bool
}.
Record sfu_twcc_recv_tracker := mk_tracker {
  recv_entries : list sfu_twcc_recv_entry;
  started : bool;
  report_start_seq : Z;
  latest_seq : Z;
  last_feedback_us : Z;
  fb_pkt_count : Z;
  have_kernel_clock : bool;
  last_arrival_us : Z
}.
#[export] Instance eta_tracker : Eta sfu_twcc_recv_tracker := fun t =>
  mk_tracker (recv_entries t) (started t) (report_start_seq t) (latest_seq t) (last_feedback_us t)
    (fb_pkt_count t) (have_kernel_clock t) (last_arrival_us t).

Definition empty_entry : sfu_twcc_recv_entry := mk_recv_entry 0 0 false.
Definition sfu_twcc_recv_tracker_init : sfu_twcc_recv_tracker :=
  mk_tracker (replicate (Z.to_nat SFU_TWCC_RECV_CAPACITY) empty_entry) false 0 0 0 0 false 0.

Definition slot_of_seq (seq : Z) : nat := Z.to_nat (Z.land seq SFU_TWCC_RECV_MASK).

Definition sfu_twcc_recv_tracker_record (t : sfu_twcc_recv_tracker) (seq arrival : Z) : sfu_twcc_recv_tracker :=
  let t := t <| recv_entries ::= <[slot_of_seq seq := mk_recv_entry seq arrival true]> |> in
  if negb (started t) then
    t <| started := true |> <| report_start_seq := seq |> <| latest_seq := seq |>
  else
    let fwd := u16 (seq - latest_seq t) in
    if (0 <? fwd) && (fwd <? 0x8000) then t <| latest_seq := seq |> else t.

Definition sfu_twcc_recv_tracker_pending (t : sfu_twcc_recv_tracker) : bool :=
  if negb (started t) then false else
  let fwd := u16 (latest_seq t - report_start_seq t) in
  (0 <=? fwd) && (fwd <? 0x8000).

(** ** The rows of a report *)

(** The first loop: status and arrival of the packet [i] places into the window. *)
Definition window_row (t : sfu_twcc_recv_tracker) (base i : Z) : Z * Z :=
  let seq := u16 (base + i) in
  let e := nth (slot_of_seq seq) (recv_entries t) empty_entry in
  if re_valid e && (re_seq e =? seq) then (TWCC_STATUS_SMALL_DELTA, arrival_us e)
  else (TWCC_STATUS_NOT_RECEIVED, 0).

Definition received (row : Z * Z) : bool := negb (fst row =? TWCC_STATUS_NOT_RECEIVED).

(** The arrival of the first received packet. *)
Fixpoint first_arrival (rows : list (Z * Z)) : Z :=
  match rows with
  | [] => 0
  | row :: rows => if received row then snd row else first_arrival rows
  end.

(** The delta of one packet to the running clock, rounded to units. *)
Definition delta_units_of (d_us : Z) : Z :=
  if 0 <=? d_us then (d_us + TWCC_SMALL_DELTA_UNIT_US / 2) / TWCC_SMALL_DELTA_UNIT_US
  else - ((- d_us + TWCC_SMALL_DELTA_UNIT_US / 2) / TWCC_SMALL_DELTA_UNIT_US).

(** The second loop: final status and delta of each packet. *)
Fixpoint delta_loop (rows : list (Z * Z)) (clock_us : Z) : list (Z * Z) :=
  match rows with
  | [] => []
  | (st, arrival) :: rows =>
      if st =? TWCC_STATUS_NOT_RECEIVED then (st, 0) :: delta_loop rows clock_us
      else
        let units := delta_units_of (arrival - clock_us) in
        let large := (units <? 0) || (255 <? units) in
        let st := if large then TWCC_STATUS_LARGE_DELTA else st in
        let units := if large then
                       let units := if 32767 <? units then 32767 else units in
                       if units <? -32768 then -32768 else units
                     else units in
        (st, units) :: delta_loop rows (clock_us + units * TWCC_SMALL_DELTA_UNIT_US)
  end.

(** ** Chunks and deltas *)

(** A buffer with its write position. *)
Definition write_run_chunk (b : list Z) (p symbol run : Z) : res (list Z * Z) :=
  let chunk := u16 (Z.lor (Z.shiftl symbol 13) (Z.land run 0x1FFF)) in
  let! b := sfu_write_be16 b p chunk in
  Ok (b, p + 2).

Fixpoint vector_bits (fuel : nat) (symbols : list Z) (count k chunk : Z) : res Z :=
  match fuel with
  | O => Ok chunk
  | S fuel =>
      let! sym := if k <? count then rd symbols k else Ok TWCC_STATUS_NOT_RECEIVED in
      vector_bits fuel symbols count (k + 1)
        (u16 (Z.lor chunk (u16 (Z.shiftl (Z.land sym 3) (12 - 2 * k)))))
  end.
Definition write_vector_chunk (b : list Z) (p : Z) (symbols : list Z) (count : Z) : res (list Z * Z) :=
  let! chunk := vector_bits 7 symbols count 0 (Z.lor 0x8000 0x4000) in
  let! b := sfu_write_be16 b p chunk in
  Ok (b, p + 2).

Fixpoint vector_loop (fuel : nat) (status : list Z) (window i : Z) (b : list Z) (p : Z) : res (list Z * Z) :=
  if i <? window then
    match fuel with
    | O => Fault
    | S fuel =>
        let n := if 7 <? window - i then 7 else window - i in
        let! r := write_vector_chunk b p (drop (Z.to_nat i) status) n in
        let '(b, p) := r in vector_loop fuel status window (i + 7) b p
    end
  else Ok (b, p).

Definition write_chunks (status : list Z) (window : Z) (b : list Z) : res (list Z * Z) :=
  match status with
  | [] => Fault
  | s0 :: rest =>
      if forallb (fun s => s =? s0) rest then write_run_chunk b 0 s0 (u16 window)
      else vector_loop (Z.to_nat window) status window 0 b 0
  end.

Fixpoint write_deltas (rows : list (Z * Z)) (b : list Z) (p : Z) : res (list Z * Z) :=
  match rows with
  | [] => Ok (b, p)
  | (st, units) :: rows =>
      if st =? TWCC_STATUS_SMALL_DELTA then
        let! b := wr b p (u8 units) in write_deltas rows b (p + 1)
      else if st =? TWCC_STATUS_LARGE_DELTA then
        let! b := sfu_write_be16 b p (u16 units) in write_deltas rows b (p + 2)
      else write_deltas rows b p
  end.

(** The return value, the tracker and the output buffer; 0 is nothing to
    report and -1 no room. *)
Definition sfu_twcc_feedback_build (t : sfu_twcc_recv_tracker) (sender media now_us : Z) (buf : list Z) (cap : Z)
  : res (Z * sfu_twcc_recv_tracker * list Z) :=
  if negb (sfu_twcc_recv_tracker_pending t) then Ok (0, t, buf) else
  let base := report_start_seq t in
  let window := u16 (latest_seq t - base) + 1 in
  let window := if SFU_TWCC_FEEDBACK_MAX_PACKETS <? window then SFU_TWCC_FEEDBACK_MAX_PACKETS else window in
  if window =? 0 then Ok (0, t, buf) else
  let rows := map (window_row t base) (seqZ 0 window) in
  if zlen (List.filter received rows) =? 0 then
    Ok (0, t <| report_start_seq := u16 (base + window) |>, buf) else
  let ref_us := first_arrival rows in
  let ref_floored_us := Z.quot ref_us TWCC_REF_UNIT_US * TWCC_REF_UNIT_US in
  let ref_quant := Z.land (Z.quot ref_us TWCC_REF_UNIT_US) 0xFFFFFF in
  let deltas := delta_loop rows ref_floored_us in
  let! c := write_chunks (map fst deltas) window (zeros (SFU_TWCC_FEEDBACK_MAX_PACKETS * 2)) in
  let '(chunk_buf, chunk_len) := c in
  let! d := write_deltas deltas (zeros (SFU_TWCC_FEEDBACK_MAX_PACKETS * 2)) 0 in
  let '(delta_buf, delta_len) := d in
  let total := TWCC_FIXED_LEN + chunk_len + delta_len in
  let pad := Z.land (4 - Z.land total 3) 3 in
  let packet_len := total + pad in
  if cap <? packet_len then Ok (-1, t, buf) else
  let! buf := wr buf 0 (Z.lor 0x80 15) in
  let! buf := if negb (pad =? 0) then
                let! b0 := rd buf 0 in wr buf 0 (Z.lor b0 0x20)
              else Ok buf in
  let! buf := wr buf 1 205 in
  let words := packet_len / 4 - 1 in
  let! buf := sfu_write_be16 buf 2 (u16 words) in
  let! buf := sfu_write_be32 buf 4 sender in
  let! buf := sfu_write_be32 buf 8 media in
  let! buf := sfu_write_be16 buf 12 base in
  let! buf := sfu_write_be16 buf 14 (u16 window) in
  let! buf := wr buf 16 (u8 (Z.land (Z.shiftr ref_quant 16) 0xFF)) in
  let! buf := wr buf 17 (u8 (Z.land (Z.shiftr ref_quant 8) 0xFF)) in
  let! buf := wr buf 18 (u8 (Z.land ref_quant 0xFF)) in
  let! buf := wr buf 19 (fb_pkt_count t) in
  let t := t <| fb_pkt_count ::= fun n => u8 (n + 1) |> in
  let! cs := rd_n chunk_buf 0 chunk_len in
  let! buf := wr_n buf TWCC_FIXED_LEN cs in
  let! ds := rd_n delta_buf 0 delta_len in
  let! buf := wr_n buf (TWCC_FIXED_LEN + chunk_len) ds in
  let! buf := if negb (pad =? 0) then
                let! buf := memset buf total 0 pad in wr buf (packet_len - 1) (u8 pad)
              else Ok buf in
  Ok (packet_len, t <| report_start_seq := u16 (base + window) |> <| last_feedback_us := now_us |>, buf).

(** * What the writers produce *)

Definition symbol (s : Z) : Prop := 0 <= s <= 3.

(** A group of up to seven statuses, filled up with "not received". *)
Definition pad7 (g : list Z) : list Z := take 7 (g ++ replicate 7 TWCC_STATUS_NOT_RECEIVED).
Fixpoint pack_bits (g : list Z) (k chunk : Z) : Z :=
  match g with
  | [] => chunk
  | s :: g => pack_bits g (k + 1) (u16 (Z.lor chunk (u16 (Z.shiftl (Z.land s 3) (12 - 2 * k)))))
  end.
Definition vector_word (g : list Z) : Z := pack_bits (pad7 g) 0 0xC000.

(** All symbol strings of a length. *)
Fixpoint strings (n : nat) : list (list Z) :=
  match n with O => [[]] | S n => flat_map (fun s => map (cons s) (strings n)) [0; 1; 2; 3] end.

Lemma strings_complete g : Forall symbol g -> In g (strings (length g)).
Proof.
  unfold symbol. induction 1 as [|s g Hs Hg IH]; [by left|]. cbn [length strings]. apply in_flat_map. exists s.
  split; [cbn; lia|]. by apply in_map.
Qed.

Lemma vector_word_symbols g :
  length g = 7%nat -> Forall symbol g ->
  let c := pack_bits g 0 0xC000 in is_u16 c /\ is_run c = false /\ chunk_size c = 7 /\ chunk_symbols c = g.
Proof.
  intros Hl Hg.
  assert (H : forallb (fun g => let c := pack_bits g 0 0xC000 in
    (0 <=? c) && (c <? 65536) && negb (is_run c) && (chunk_size c =? 7) &&
    bool_decide (chunk_symbols c = g)) (strings 7) = true) by (vm_compute; reflexivity).
  rewrite forallb_forall in H. specialize (H g). rewrite <- Hl in H. specialize (H (strings_complete g Hg)).
  cbv zeta in *. bool_hyps. unfold is_u16. rewrite bool_decide_eq_true in *. auto.
Qed.

Lemma vector_bits_pack fuel symbols count k chunk :
  0 <= k -> count <= zlen symbols ->
  vector_bits fuel symbols count k chunk =
    Ok (pack_bits (map (fun j => if j <? count then byte_at symbols j else 0) (seqZ k (Z.of_nat fuel))) k chunk).
Proof.
  intros Hk Hc. revert k chunk Hk. induction fuel as [|fuel IH]; intros k chunk Hk; [done|].
  cbn [vector_bits]. rewrite seqZ_cons by lia. cbn [map pack_bits].
  replace (Z.pred (Z.of_nat (S fuel))) with (Z.of_nat fuel) by lia. unfold Z.succ.
  destruct (Z.ltb_spec k count); [rewrite rd_ok by lia|]; cbn [res_bind]; by rewrite IH by lia.
Qed.

Lemma vector_bits_word symbols count :
  0 <= count <= 7 -> count <= zlen symbols ->
  vector_bits 7 symbols count 0 (Z.lor 0x8000 0x4000) = Ok (vector_word (take (Z.to_nat count) symbols)).
Proof.
  intros Hn Hc. rewrite vector_bits_pack by lia. change (Z.lor 0x8000 0x4000) with 0xC000.
  f_equal. unfold vector_word. f_equal. unfold pad7.
  apply byte_at_ext; unfold zlen in *; rewrite !length_map, length_seqZ;
    [rewrite length_take, length_app, length_take, length_replicate; lia|].
  intros i Hi. change (take 7 ?l) with (slice l 0 7). rewrite byte_at_slice, Z.add_0_l by lia.
  rewrite byte_at_app by lia. unfold zlen. rewrite length_take.
  replace (Z.of_nat (Z.to_nat count `min` length symbols)) with count by lia.
  unfold byte_at at 1. rewrite nth_lookup, list_lookup_fmap, lookup_seqZ_lt by lia. cbn [fmap option_fmap option_map default].
  replace (0 + Z.of_nat (Z.to_nat i)) with i by lia. destruct (Z.ltb_spec i count).
  - change (take (Z.to_nat count) symbols) with (slice symbols 0 count). by rewrite byte_at_slice by lia.
  - symmetry. apply (byte_at_replicate 7). lia.
Qed.

(** The words of the vector chunks, and what they decode to. *)
Fixpoint vector_words (fuel : nat) (ss : list Z) : list Z :=
  match fuel, ss with
  | S fuel, _ :: _ => vector_word (take 7 ss) :: vector_words fuel (drop 7 ss)
  | _, _ => []
  end.

Lemma pad7_symbols g : Forall symbol g -> Forall symbol (pad7 g) /\ length (pad7 g) = 7%nat.
Proof.
  intros Hg. unfold pad7. split; [|rewrite length_take, length_app, length_replicate; lia].
  apply Forall_take, Forall_app. split; [done|]. by apply Forall_replicate.
Qed.

Lemma vector_words_decode fuel ss :
  Forall symbol ss -> (length ss <= fuel)%nat ->
  take (length ss) (concat (map chunk_symbols (vector_words fuel ss))) = ss.
Proof.
  revert ss. induction fuel as [|fuel IH]; intros [|s ss] Hs Hl; try done; cbn [length] in Hl; [lia|].
  cbn [vector_words map concat].
  destruct (pad7_symbols (take 7 (s :: ss)) (Forall_take _ _ _ Hs)) as [Hp Hp7].
  destruct (vector_word_symbols _ Hp7 Hp) as (_ & _ & _ & E). unfold vector_word. rewrite E.
  set (l := s :: ss) in *. unfold pad7.
  destruct (decide (length l <= 7)%nat) as [Hle|Hgt].
  - rewrite (take_ge l) by lia. rewrite take_app_le by (rewrite length_take, length_app, length_replicate; lia).
    rewrite take_take, Nat.min_l by lia. by rewrite take_app_length.
  - rewrite (take_app_le (take 7 l)) by (rewrite length_take; lia). rewrite take_take. cbn [Nat.min].
    rewrite take_app, length_take, (take_ge (take 7 l)) by (rewrite length_take; lia).
    replace (7 `min` length l)%nat with 7%nat by lia.
    rewrite <- length_drop, IH; [by rewrite take_drop|by apply Forall_drop|].
    rewrite length_drop. unfold l. cbn [length]. lia.
Qed.

Lemma vector_words_chunks fuel ss :
  Forall symbol ss ->
  Forall (fun c => is_u16 c /\ chunk_valid c = true /\ chunk_size c = 7) (vector_words fuel ss).
Proof.
  revert ss. induction fuel as [|fuel IH]; intros [|s ss] Hs; cbn [vector_words]; constructor.
  - destruct (pad7_symbols (take 7 (s :: ss)) (Forall_take _ _ _ Hs)) as [Hp Hp7].
    destruct (vector_word_symbols _ Hp7 Hp) as (Hu & Hr & Hz & _). fold (vector_word (take 7 (s :: ss))) in *.
    unfold chunk_valid. by rewrite Hz, Hr.
  - by apply IH, Forall_drop.
Qed.

Lemma vector_words_length fuel ss :
  (length ss <= fuel)%nat -> zlen (vector_words fuel ss) = (zlen ss + 6) / 7.
Proof.
  revert ss. induction fuel as [|fuel IH]; intros [|s ss] Hl; try done; cbn [length] in Hl; [lia|].
  cbn [vector_words]. rewrite zlen_cons, IH by (rewrite length_drop; cbn [length]; lia).
  unfold zlen. rewrite length_drop. cbn [length]. dlia.
Qed.

Lemma concat_enc16_length ws : zlen (concat (map enc16 ws)) = 2 * zlen ws.
Proof. induction ws; [done|]. cbn [map concat]. zlen. Qed.

Lemma vector_loop_writes fuel f2 status window i b s :
  window = zlen status -> 0 <= i -> (length (drop (Z.to_nat i) status) <= fuel)%nat -> (fuel <= f2)%nat ->
  zlen s + 2 * zlen (vector_words f2 (drop (Z.to_nat i) status)) <= zlen b ->
  vector_loop fuel status window i (patch b 0 s) (zlen s) =
    let ws := concat (map enc16 (vector_words f2 (drop (Z.to_nat i) status))) in
    Ok (patch b 0 (s ++ ws), zlen s + zlen ws).
Proof.
  intros ->. revert f2 i s. induction fuel as [|fuel IH]; intros f2 i s Hi Hf Hf2 Hb;
    rewrite length_drop in Hf; cbn [vector_loop]; (destruct (Z.ltb_spec i (zlen status)) as [Hlt|Hge];
    [|rewrite drop_ge by (unfold zlen in *; lia); destruct f2; cbn; rewrite app_nil_r; f_equal; f_equal; zlen]);
    [unfold zlen in *; lia|].
  destruct f2 as [|f2]; [lia|].
  set (n := if 7 <? zlen status - i then 7 else zlen status - i).
  assert (Hn : 0 < n <= 7 /\ n <= zlen status - i) by (unfold n; destruct (Z.ltb_spec 7 (zlen status - i)); lia).
  destruct (drop (Z.to_nat i) status) as [|s0 rest] eqn:Ed.
  { apply (f_equal (@length Z)) in Ed. rewrite length_drop in Ed. unfold zlen in *. cbn in Ed. lia. }
  assert (Hzd : zlen (s0 :: rest) = zlen status - i) by (rewrite <- Ed; unfold zlen in *; rewrite length_drop; lia).
  unfold write_vector_chunk. rewrite vector_bits_word by lia. cbn [res_bind].
  assert (Et : take (Z.to_nat n) (s0 :: rest) = take 7 (s0 :: rest)).
  { unfold n. destruct (Z.ltb_spec 7 (zlen status - i)); [done|].
    rewrite !take_ge; unfold zlen in *; [done|lia|lia]. }
  rewrite Et. cbn [vector_words] in Hb |- *. rewrite zlen_cons in Hb. zlen_pos.
  rewrite write_be16_ok by zlen. cbn [res_bind]. patch_join.
  change (zlen s + 2) with (zlen s + zlen (enc16 (vector_word (take 7 (s0 :: rest))))). rewrite <- zlen_app.
  assert (Ed7 : drop 7 (s0 :: rest) = drop (Z.to_nat (i + 7)) status)
    by (rewrite <- Ed, drop_drop; f_equal; lia).
  rewrite Ed7 in Hb |- *. rewrite (IH f2); [|lia|rewrite length_drop; unfold zlen in *; lia|lia|zlen].
  cbn [map concat]. cbv zeta. rewrite <- app_assoc. do 2 f_equal. rewrite !zlen_app. lia.
Qed.

Definition homogeneous (ss : list Z) : bool :=
  match ss with [] => true | s0 :: rest => forallb (fun s => s =? s0) rest end.
Definition chunk_words (ss : list Z) : list Z :=
  if homogeneous ss then [byte_at ss 0 * 8192 + zlen ss] else vector_words (length ss) ss.

Lemma write_chunks_spec ss b :
  Forall symbol ss -> 0 < zlen ss <= 256 -> 512 <= zlen b ->
  let ws := concat (map enc16 (chunk_words ss)) in
  write_chunks ss (zlen ss) b = Ok (patch b 0 ws, zlen ws).
Proof.
  intros Hs Hn Hb. unfold write_chunks, chunk_words. destruct ss as [|s0 rest]; [rewrite @zlen_nil in Hn; lia|].
  cbn [homogeneous]. set (ss := s0 :: rest) in *. destruct (forallb _ rest) eqn:Eh.
  - inversion_clear Hs as [|? ? Hs0 _]. unfold write_run_chunk, symbol in *.
    assert (E : u16 (Z.lor (Z.shiftl s0 13) (Z.land (u16 (zlen ss)) 0x1FFF)) = s0 * 8192 + zlen ss).
    { change 0x1FFF with (2 ^ 13 - 1). rewrite land_ones_mod by lia. change (2 ^ 13) with 8192.
      replace (u16 (zlen ss) mod 8192) with (zlen ss) by dlia.
      rewrite lor_shiftl_add by (change (2 ^ 13) with 8192; lia). change (2 ^ 13) with 8192. dlia. }
    rewrite E, write_be16_ok by lia. cbn [res_bind map concat]. rewrite app_nil_r. done.
  - pose proof (vector_words_length (length ss) ss (Nat.le_refl _)) as Hl.
    pose proof (vector_loop_writes (length ss) (length ss) ss (zlen ss) 0 b []) as Hw.
    cbn [Z.to_nat] in Hw. rewrite drop_0 in Hw. change (patch b 0 []) with b in Hw.
    change (zlen []) with 0 in Hw. rewrite !Z.add_0_l in Hw.
    unfold zlen at 1. rewrite Nat2Z.id. apply Hw; try done. rewrite Hl. dlia.
Qed.

(** The chunks decode to the statuses, whatever follows them. *)
Lemma run_word_symbols s n :
  symbol s -> 0 < n < 8192 ->
  let c := s * 8192 + n in
  is_u16 c /\ chunk_size c = n /\ chunk_symbols c = replicate (Z.to_nat n) s /\
  chunk_valid c = negb (s =? TWCC_STATUS_RESERVED).
Proof.
  intros Hs Hn c. unfold symbol in Hs.
  assert (Hr : is_run c = true) by (unfold is_run; apply Z.ltb_lt; unfold c; lia).
  assert (Hq : c / 8192 = s) by (unfold c; dlia). assert (Hm : chunk_size c = n) by (unfold chunk_size; rewrite Hr; unfold c; dlia).
  split_and!; [unfold is_u16, c; lia|done| |].
  - unfold chunk_symbols. rewrite Hm. induction (Z.to_nat n) as [|k IH]; [done|].
    cbn [chunk_tail replicate]. unfold chunk_symbol. rewrite Hr, Hq. by f_equal.
  - unfold chunk_valid. rewrite Hm, Hr, Hq. cbn [andb]. lia.
Qed.

Lemma homogeneous_replicate ss :
  homogeneous ss = true -> replicate (length ss) (byte_at ss 0) = ss.
Proof.
  destruct ss as [|s0 rest]; [done|]. cbn [homogeneous]. intros H. cbn [length replicate].
  change (byte_at (s0 :: rest) 0) with s0. f_equal. induction rest as [|s rest IH]; [done|].
  cbn [forallb] in H. bool_hyps. subst. cbn [length replicate]. f_equal. auto.
Qed.

Lemma chunk_words_decode ss :
  Forall symbol ss -> 0 < zlen ss <= 256 ->
  Forall is_u16 (chunk_words ss) /\
  take (length ss) (concat (map chunk_symbols (chunk_words ss))) = ss.
Proof.
  intros Hs Hn. unfold chunk_words. destruct (homogeneous ss) eqn:Eh.
  - assert (Hb : symbol (byte_at ss 0)).
    { destruct ss; [rewrite @zlen_nil in Hn; lia|]. by inversion_clear Hs. }
    destruct (run_word_symbols (byte_at ss 0) (zlen ss) Hb ltac:(lia)) as (Hu & _ & E & _).
    split; [by constructor|]. cbn [map concat]. rewrite app_nil_r, E. unfold zlen. rewrite Nat2Z.id.
    rewrite homogeneous_replicate by done. by apply take_ge.
  - split; [|by apply vector_words_decode].
    pose proof (vector_words_chunks (length ss) ss Hs) as H. induction H as [|c l (? & _)]; by constructor.
Qed.

(** The parser's rule on the chunks of the builder: a run always passes;
    vectors pass when the last one is full or the whole report fits one. *)
Definition parser_friendly (ss : list Z) : bool :=
  homogeneous ss || (zlen ss <? 7) || (zlen ss mod 7 =? 0).

Lemma accepts_vectors cs count processed :
  Forall (fun c => is_u16 c /\ chunk_valid c = true /\ chunk_size c = 7) cs ->
  0 <= processed <= count -> processed mod 7 = 0 -> 0 < count -> zlen cs = (count - processed + 6) / 7 ->
  accepts count processed cs = (count <? 7) || (count mod 7 =? 0).
Proof.
  revert processed. induction cs as [|c cs IH]; intros processed Hc Hp Hm Hn Hl; cbn [accepts].
  - rewrite @zlen_nil in Hl. dlia.
  - inversion_clear Hc as [|? ? (_ & Hv & Hz) Hc']. rewrite zlen_cons in Hl. zlen_pos.
    rewrite Hv, Hz. assert (Hlt : processed < count) by dlia.
    destruct (Z.leb_spec (processed + 7) count).
    + rewrite IH; [|done|lia|dlia|lia|dlia]. decide_ifs. done.
    + assert (zlen cs = 0) by dlia. destruct cs; [|rewrite zlen_cons in *; zlen_pos; lia].
      cbn [accepts]. clear IH. dlia.
Qed.

(** ** Deltas *)

Definition delta_ok (row : Z * Z) : Prop :=
  let '(st, u) := row in
  st = 0 \/ (st = 1 /\ 0 <= u <= 255) \/ (st = 2 /\ -32768 <= u <= 32767).
Definition delta_bytes (row : Z * Z) : list Z :=
  let '(st, u) := row in
  if st =? 1 then [u] else if st =? 2 then enc16 (u mod 65536) else [].

(** What the receiver of the report decodes. *)
Fixpoint decoded (rows : list (Z * Z)) (seq clock : Z) : list sfu_twcc_status :=
  match rows with
  | [] => []
  | (st, u) :: rows =>
      let t := if st =? 0 then clock else clock + u * 250 in
      mk_status seq st (if st =? 0 then 0 else t) :: decoded rows (u16 (seq + 1)) t
  end.

Lemma delta_loop_ok rows clock :
  Forall (fun row => fst row = 0 \/ fst row = 1) rows -> Forall delta_ok (delta_loop rows clock).
Proof.
  intros H. revert clock. induction H as [|[st a] rows Hst Hrows IH]; intros clock; cbn [delta_loop]; [constructor|].
  cbn [fst] in Hst. destruct (Z.eqb_spec st TWCC_STATUS_NOT_RECEIVED) as [->|Hne]; constructor; try done; [by left|].
  unfold TWCC_STATUS_NOT_RECEIVED, TWCC_STATUS_LARGE_DELTA in *. assert (st = 1) as -> by lia. unfold delta_ok.
  set (u := delta_units_of _). destruct ((u <? 0) || (255 <? u)) eqn:G; [|right; left; lia].
  right. right. split; [done|].
  destruct (Z.ltb_spec 32767 u); [cbn; lia|]. destruct (Z.ltb_spec u (-32768)); lia.
Qed.

Lemma delta_symbols rows : Forall delta_ok rows -> Forall symbol (map fst rows).
Proof. induction 1 as [|[st u] rows H _ IH]; constructor; [|done]. unfold symbol, delta_ok in *. cbn. lia. Qed.

Lemma delta_bytes_ok row : delta_ok row -> bytes_ok (delta_bytes row) /\ zlen (delta_bytes row) <= 2.
Proof.
  destruct row as [st u]. unfold delta_ok, delta_bytes. intros H.
  destruct (Z.eqb_spec st 1); [split; [repeat constructor; unfold is_u8; lia|zlen]|].
  destruct (Z.eqb_spec st 2); split; auto with sfu; zlen.
Qed.

Lemma concat_delta_bytes rows :
  Forall delta_ok rows ->
  bytes_ok (concat (map delta_bytes rows)) /\ zlen (concat (map delta_bytes rows)) <= 2 * zlen rows.
Proof.
  induction 1 as [|row rows H _ IH]; [split; [constructor|done]|].
  destruct (delta_bytes_ok row H). cbn [map concat]. rewrite zlen_app, zlen_cons. split; [|lia].
  apply bytes_ok_app; tauto.
Qed.

Lemma write_deltas_spec rows b s :
  Forall delta_ok rows -> zlen s + 2 * zlen rows <= zlen b ->
  let ds := concat (map delta_bytes rows) in
  write_deltas rows (patch b 0 s) (zlen s) = Ok (patch b 0 (s ++ ds), zlen s + zlen ds).
Proof.
  intros H. revert s. induction H as [|[st u] rows H Hrows IH]; intros s Hb ds.
  { subst ds. cbn. rewrite app_nil_r. do 2 f_equal. zlen. }
  subst ds. cbn [write_deltas map concat]. rewrite zlen_cons in Hb. unfold delta_ok in H. zlen_pos.
  unfold TWCC_STATUS_SMALL_DELTA, TWCC_STATUS_LARGE_DELTA, delta_bytes at 1 3.
  destruct (Z.eqb_spec st 1) as [->|Hn1].
  - replace (u8 u) with u by dlia. unfold wr. rewrite wr_n_ok by zlen. cbn [res_bind]. patch_join.
    replace (zlen s + 1) with (zlen (s ++ [u])) by zlen. rewrite IH by zlen.
    rewrite <- app_assoc. do 2 f_equal. rewrite !zlen_app. lia.
  - destruct (Z.eqb_spec st 2) as [->|Hn2].
    + rewrite write_be16_ok by zlen. cbn [res_bind]. patch_join. unfold u16.
      replace (zlen s + 2) with (zlen (s ++ enc16 (u mod 65536))) by zlen. rewrite IH by zlen.
      rewrite <- app_assoc. do 2 f_equal. rewrite !zlen_app. lia.
    + rewrite IH by zlen. cbn [app]. done.
Qed.

Lemma report_decoded rows seq clock :
  Forall delta_ok rows ->
  report (map fst rows) (concat (map delta_bytes rows)) seq clock = (decoded rows seq clock, true).
Proof.
  intros H. revert seq clock. induction H as [|[st u] rows H Hrows IH]; intros seq clock; [done|].
  cbn [map fst concat]. rewrite report_cons. cbv zeta. cbn [decoded]. unfold delta_ok in H. unfold delta_bytes at 1 2 3 4 5.
  destruct H as [->|[[-> Hu]|[-> Hu]]]; cbn [Z.eqb Pos.eqb app].
  - by rewrite IH.
  - by rewrite IH.
  - unfold enc16 at 1. cbn [app].
    replace (i16 (u mod 65536 / 256 mod 256 * 256 + u mod 65536 mod 256)) with u by dlia. by rewrite IH.
Qed.

(** ** Decoded times follow the arrivals *)

(** Statuses [ss] tell of [rows], numbered from [seq]: lost packets as lost,
    received ones with a time that, shifted by [k], is within half a delta
    unit of the arrival. *)
Fixpoint tells (rows : list (Z * Z)) (ss : list sfu_twcc_status) (seq k : Z) : Prop :=
  match rows, ss with
  | [], [] => True
  | row :: rows, s :: ss =>
      sequence_number s = seq /\
      (if received row then status s <> 0 /\ Z.abs (receive_time_us s + k - snd row) <= 125
       else status s = 0) /\
      tells rows ss (u16 (seq + 1)) k
  | _, _ => False
  end.

Lemma delta_units_close d :
  Z.abs d <= 8191625 ->
  let u := delta_units_of d in Z.abs (d - u * 250) <= 125 /\ -32768 <= u <= 32767.
Proof.
  intros Hd u. unfold u, delta_units_of, TWCC_SMALL_DELTA_UNIT_US. change (250 / 2) with 125.
  destruct (Z.leb_spec 0 d); dlia.
Qed.

Lemma decoded_tells rows seq clock k c :
  Forall (fun row => fst row = 0 \/ fst row = 1) rows ->
  Forall (fun row => received row = true -> Z.abs (snd row - c) <= 4000000) rows ->
  Z.abs (clock - c) <= 4000125 ->
  tells rows (decoded (delta_loop rows clock) seq (clock - k)) seq k.
Proof.
  intros H. revert seq clock. induction H as [|[st a] rows Hst Hrows IH]; intros seq clock Hc Hcl; [done|].
  inversion_clear Hc as [|? ? Ha Hc']. cbn [fst] in Hst.
  cbn [delta_loop]. unfold received in Ha at 1. cbn [fst snd] in Ha. unfold TWCC_STATUS_NOT_RECEIVED in Ha.
  destruct (Z.eqb_spec st TWCC_STATUS_NOT_RECEIVED) as [->|Hne].
  - cbn [decoded tells]. split_and!; [done|done|]. by apply IH.
  - assert (st = 1) as -> by (unfold TWCC_STATUS_NOT_RECEIVED in *; lia). specialize (Ha eq_refl).
    destruct (delta_units_close (a - clock)) as [Hu Hr]; [lia|]. cbv zeta in Hu, Hr.
    set (u := delta_units_of (a - clock)) in *.
    rewrite (proj2 (Z.ltb_ge 32767 u)), (proj2 (Z.ltb_ge u (-32768))) by lia.
    assert (Eu : (if (u <? 0) || (255 <? u) then u else u) = u) by (by destruct (_ || _)). rewrite Eu.
    assert (Hs : forall b : bool, ((if b then TWCC_STATUS_LARGE_DELTA else 1) =? 0) = false) by (by intros []).
    cbn [decoded]. rewrite Hs. cbn [tells received fst snd sequence_number status receive_time_us negb Z.eqb].
    unfold received. cbn [fst negb Z.eqb TWCC_STATUS_NOT_RECEIVED].
    split_and!; [done|by destruct (_ || _)|lia|].
    unfold TWCC_SMALL_DELTA_UNIT_US. replace (clock - k + u * 250) with (clock + u * 250 - k) by lia.
    apply IH; [done|lia].
Qed.

(** * The packet built *)

Definition report_window (t : sfu_twcc_recv_tracker) : Z :=
  Z.min SFU_TWCC_FEEDBACK_MAX_PACKETS (u16 (latest_seq t - report_start_seq t) + 1).
Definition report_rows (t : sfu_twcc_recv_tracker) : list (Z * Z) :=
  map (window_row t (report_start_seq t)) (seqZ 0 (report_window t)).
Definition reference_units (t : sfu_twcc_recv_tracker) : Z :=
  Z.quot (first_arrival (report_rows t)) TWCC_REF_UNIT_US.
Definition report_deltas (t : sfu_twcc_recv_tracker) : list (Z * Z) :=
  delta_loop (report_rows t) (reference_units t * TWCC_REF_UNIT_US).

Definition feedback_head (t : sfu_twcc_recv_tracker) (media : Z) : list Z :=
  let r := reference_units t mod 16777216 in
  enc32 media ++ enc16 (report_start_seq t) ++ enc16 (report_window t) ++
  [r / 65536; r / 256 mod 256; r mod 256; fb_pkt_count t].
Definition feedback_chunks (t : sfu_twcc_recv_tracker) : list Z :=
  concat (map enc16 (chunk_words (map fst (report_deltas t)))).
Definition feedback_deltas (t : sfu_twcc_recv_tracker) : list Z := concat (map delta_bytes (report_deltas t)).
Definition feedback_length (t : sfu_twcc_recv_tracker) : Z :=
  20 + zlen (feedback_chunks t) + zlen (feedback_deltas t).
(** The member with its padding to a multiple of four bytes. *)
Definition feedback_member (t : sfu_twcc_recv_tracker) (sender media : Z) : rtcp_member :=
  let pad := - feedback_length t mod 4 in
  mk_rtcp_member 15 205 sender (feedback_head t media ++ feedback_chunks t ++ feedback_deltas t)
    (if pad =? 0 then None else Some (zeros (pad - 1))).

Record tracker_wf (t : sfu_twcc_recv_tracker) : Prop := {
  wf_entries : zlen (recv_entries t) = SFU_TWCC_RECV_CAPACITY;
  wf_seqs : is_u16 (report_start_seq t) /\ is_u16 (latest_seq t) /\ is_u8 (fb_pkt_count t)
}.

Lemma report_rows_status t : Forall (fun row => fst row = 0 \/ fst row = 1) (report_rows t).
Proof.
  apply Forall_map, Forall_forall. intros i _. unfold window_row. destruct (_ && _); cbn; auto.
Qed.

Lemma delta_loop_length rows clock : length (delta_loop rows clock) = length rows.
Proof.
  revert clock. induction rows as [|[st a] rows IH]; intros clock; [done|]. cbn [delta_loop].
  destruct (st =? TWCC_STATUS_NOT_RECEIVED); cbn [length]; by rewrite IH.
Qed.

Lemma report_facts t :
  sfu_twcc_recv_tracker_pending t = true ->
  0 < report_window t <= 256 /\ zlen (report_rows t) = report_window t /\
  zlen (report_deltas t) = report_window t /\ Forall delta_ok (report_deltas t) /\
  Forall symbol (map fst (report_deltas t)).
Proof.
  intros Hp. assert (Hw : 0 < report_window t <= 256).
  { unfold report_window, SFU_TWCC_FEEDBACK_MAX_PACKETS. pose proof (u16_range (latest_seq t - report_start_seq t)). unfold is_u16 in *. lia. }
  assert (Hr : zlen (report_rows t) = report_window t)
    by (unfold report_rows, zlen; rewrite length_map, length_seqZ; lia).
  assert (Hd : Forall delta_ok (report_deltas t)) by (apply delta_loop_ok, report_rows_status).
  split_and!; try lia; try done; [|by apply delta_symbols].
  unfold report_deltas, zlen in *. by rewrite delta_loop_length.
Qed.

Lemma chunk_words_length ss : 0 < zlen ss <= 256 -> zlen (chunk_words ss) <= 37.
Proof.
  intros Hn. unfold chunk_words. destruct (homogeneous ss); [zlen|].
  rewrite vector_words_length by done. dlia.
Qed.

Lemma feedback_sizes t :
  sfu_twcc_recv_tracker_pending t = true ->
  0 <= zlen (feedback_chunks t) <= 74 /\ 0 <= zlen (feedback_deltas t) <= 512 /\
  bytes_ok (feedback_chunks t) /\ bytes_ok (feedback_deltas t).
Proof.
  intros Hp. destruct (report_facts t Hp) as (Hw & _ & Hd & Hok & Hs).
  unfold feedback_chunks, feedback_deltas. destruct (concat_delta_bytes _ Hok).
  rewrite concat_enc16_length. zlen_pos.
  assert (zlen (map fst (report_deltas t)) = report_window t) by (unfold zlen in *; by rewrite length_map).
  pose proof (chunk_words_length (map fst (report_deltas t)) ltac:(lia)).
  split_and!; try done; try lia.
  clear. induction (chunk_words _); cbn; auto with sfu.
Qed.

Lemma feedback_member_wf t sender media :
  tracker_wf t -> sfu_twcc_recv_tracker_pending t = true -> is_u32 sender ->
  member_wf (feedback_member t sender media) /\
  member_size (feedback_member t sender media) = feedback_length t + - feedback_length t mod 4.
Proof.
  intros [_ (Hb & Hl & Hf)] Hp Hs. destruct (feedback_sizes t Hp) as (Hc & Hd & Hcb & Hdb).
  assert (Hh : zlen (feedback_head t media) = 12) by done.
  assert (Hz : zlen (g_body (feedback_member t sender media)) = feedback_length t - 8).
  { cbn [feedback_member g_body]. unfold feedback_length. zlen. }
  set (pad := - feedback_length t mod 4) in *.
  assert (Hpad : zlen (pad_wire (g_pad (feedback_member t sender media))) = pad).
  { cbn [feedback_member g_pad]. fold pad. destruct (Z.eqb_spec pad 0) as [->|Hne]; [done|].
    cbn [pad_wire]. rewrite zlen_app. unfold zeros. rewrite zlen_replicate by (unfold pad in *; dlia). zlen. }
  assert (Hsz : member_size (feedback_member t sender media) = feedback_length t + pad)
    by (unfold member_size; rewrite Hz, Hpad; lia).
  split; [|done]. unfold member_wf. rewrite Hsz. unfold feedback_length in *.
  cbn [feedback_member g_fmt g_pt g_ssrc g_body g_pad]. fold pad. split_and!; try done; try (unfold pad; dlia).
  - unfold feedback_head. repeat apply bytes_ok_app; auto with sfu.
    repeat constructor; try done; unfold is_u8; dlia.
  - unfold feedback_length. fold pad. destruct (pad =? 0) eqn:E; cbn [pad_wf]; [done|]. bool_hyps.
    split; [by apply bytes_ok_replicate|]. unfold zeros. rewrite zlen_replicate; unfold pad in *; dlia.
Qed.

Lemma header_first_byte {B} buf padded (k : list Z -> res B) :
  1 <= zlen buf ->
  (let! buf := wr buf 0 (Z.lor 0x80 15) in
   let! buf := if negb (Z.eqb padded 0) then
                 let! b0 := rd buf 0 in wr buf 0 (Z.lor b0 0x20)
               else Ok buf in k buf) =
  k (patch buf 0 [128 + flag (negb (padded =? 0)) 32 + 15]).
Proof.
  intros Hb. unfold wr. rewrite wr_n_ok by zlen. cbn [res_bind]. destruct (negb (padded =? 0)); [|done].
  rewrite rd_ok by zlen. cbn [res_bind]. rewrite byte_at_patch by zlen. decide_ifs.
  change (byte_at [Z.lor 128 15] (0 - 0)) with 143. change (Z.lor 143 32) with 175.
  rewrite wr_n_ok by zlen. cbn [res_bind]. by rewrite patch_over by zlen.
Qed.

Lemma pad_bits total : Z.land (4 - Z.land total 3) 3 = - total mod 4.
Proof. change 3 with (2 ^ 2 - 1). rewrite !land_ones_mod by lia. change (2 ^ 2) with 4. dlia. Qed.

Lemma padding_tail {B} buf s total pad (k : list Z -> res B) :
  total = zlen s -> 0 <= pad <= 3 -> total + pad <= zlen buf ->
  (let! buf := if negb (pad =? 0) then
                 let! buf := memset (patch buf 0 s) total 0 pad in wr buf (total + pad - 1) (u8 pad)
               else Ok (patch buf 0 s) in k buf) =
  k (patch buf 0 (s ++ pad_wire (if pad =? 0 then None else Some (zeros (pad - 1))))).
Proof.
  intros Ht Hp Hb. destruct (Z.eqb_spec pad 0) as [->|Hne]; cbn [negb res_bind pad_wire].
  { by rewrite app_nil_r. }
  assert (Hz : zlen (zeros (pad - 1)) = pad - 1) by (unfold zeros; rewrite zlen_replicate; lia).
  assert (Hr : replicate (Z.to_nat pad) 0 = zeros (pad - 1) ++ [0]).
  { unfold zeros. replace (Z.to_nat pad) with (Z.to_nat (pad - 1) + 1)%nat by lia. by rewrite replicate_add. }
  unfold memset, wr. rewrite Hr. zlen_pos. rewrite wr_n_ok by zlen. cbn [res_bind]. rewrite wr_n_ok by zlen. cbn [res_bind].
  patch_join. rewrite app_assoc, <- patch_patch_adj by zlen. rewrite Z.add_0_l.
  replace (zlen (s ++ zeros (pad - 1))) with (total + pad - 1) by zlen.
  rewrite patch_over by zlen. cbn [length drop app].
  replace (u8 pad) with pad by dlia. rewrite patch_join by zlen.
  rewrite Hz, <- app_assoc. do 5 f_equal. lia.
Qed.

Definition after_report (t : sfu_twcc_recv_tracker) : sfu_twcc_recv_tracker :=
  t <| report_start_seq := u16 (report_start_seq t + report_window t) |>.

Lemma window_eq t :
  (if SFU_TWCC_FEEDBACK_MAX_PACKETS <? u16 (latest_seq t - report_start_seq t) + 1
   then SFU_TWCC_FEEDBACK_MAX_PACKETS else u16 (latest_seq t - report_start_seq t) + 1) = report_window t.
Proof. unfold report_window. destruct (Z.ltb_spec SFU_TWCC_FEEDBACK_MAX_PACKETS (u16 (latest_seq t - report_start_seq t) + 1)); lia. Qed.

Lemma slice_patch_front b s : zlen s <= zlen b -> slice (patch b 0 s) 0 (zlen s) = s.
Proof. intros. unfold patch. cbn [Z.to_nat]. rewrite take_0. cbn [app]. apply slice_app_l. Qed.

(** The writes behind the first byte, in order. *)
Lemma packet_writes {B} buf b0 words sender media base window r fb cs ds cbuf dbuf pad (k : list Z -> res B) :
  zlen cs <= zlen cbuf -> zlen ds <= zlen dbuf -> 0 <= pad <= 3 ->
  let total := 20 + zlen cs + zlen ds in
  total + pad <= zlen buf ->
  (let! buf := wr (patch buf 0 [b0]) 1 205 in
   let! buf := sfu_write_be16 buf 2 words in
   let! buf := sfu_write_be32 buf 4 sender in
   let! buf := sfu_write_be32 buf 8 media in
   let! buf := sfu_write_be16 buf 12 base in
   let! buf := sfu_write_be16 buf 14 window in
   let! buf := wr buf 16 (u8 (Z.land (Z.shiftr (Z.land r 0xFFFFFF) 16) 0xFF)) in
   let! buf := wr buf 17 (u8 (Z.land (Z.shiftr (Z.land r 0xFFFFFF) 8) 0xFF)) in
   let! buf := wr buf 18 (u8 (Z.land (Z.land r 0xFFFFFF) 0xFF)) in
   let! buf := wr buf 19 fb in
   let! s1 := rd_n (patch cbuf 0 cs) 0 (zlen cs) in
   let! buf := wr_n buf 20 s1 in
   let! s2 := rd_n (patch dbuf 0 ds) 0 (zlen ds) in
   let! buf := wr_n buf (20 + zlen cs) s2 in
   let! buf := if negb (pad =? 0) then
                 let! buf := memset buf total 0 pad in wr buf (total + pad - 1) (u8 pad)
               else Ok buf in k buf) =
  (let m := r mod 16777216 in
   k (patch buf 0 ([b0; 205] ++ enc16 words ++ enc32 sender ++
     (((enc32 media ++ enc16 base ++ enc16 window ++ [m / 65536; m / 256 mod 256; m mod 256; fb]) ++ cs ++ ds) ++
     pad_wire (if pad =? 0 then None else Some (zeros (pad - 1))))))).
Proof.
  intros Hc Hd Hp total Hb. zlen_pos.
  change 0xFFFFFF with (2 ^ 24 - 1). change 0xFF with (2 ^ 8 - 1). rewrite !land_ones_mod by lia.
  rewrite !Z.shiftr_div_pow2 by lia. change (2 ^ 24) with 16777216. change (2 ^ 16) with 65536. change (2 ^ 8) with 256.
  set (m := r mod 16777216). assert (Hm : 0 <= m < 16777216) by (unfold m; dlia).
  replace (u8 (m / 65536 mod 256)) with (m / 65536) by dlia.
  replace (u8 (m / 256 mod 256)) with (m / 256 mod 256) by dlia.
  replace (u8 (m mod 256)) with (m mod 256) by dlia.
  unfold wr at 1 2 3 4 5. rewrite (rd_n_ok (patch cbuf 0 cs)), (rd_n_ok (patch dbuf 0 ds)) by zlen.
  rewrite !slice_patch_front by done. cbn [res_bind]. unfold total in *.
  do 11 (first [rewrite wr_n_ok by zlen | rewrite write_be16_ok by zlen | rewrite write_be32_ok by zlen]; cbn [res_bind]; patch_join).
  rewrite wr_n_ok by zlen. cbn [res_bind]. patch_join.
  rewrite padding_tail by zlen. cbv zeta. do 2 f_equal.
Qed.

Lemma build_wire t sender media now buf cap :
  tracker_wf t -> is_u32 sender -> cap <= zlen buf ->
  sfu_twcc_feedback_build t sender media now buf cap =
    if negb (sfu_twcc_recv_tracker_pending t) then Ok (0, t, buf)
    else if forallb (fun row => negb (received row)) (report_rows t) then Ok (0, after_report t, buf)
    else
      let n := feedback_length t + - feedback_length t mod 4 in
      if cap <? n then Ok (-1, t, buf)
      else Ok (n, (after_report t) <| fb_pkt_count ::= fun n => u8 (n + 1) |> <| last_feedback_us := now |>,
               patch buf 0 (member_wire (feedback_member t sender media))).
Proof.
  intros Hwf Hs32 Hcap. unfold sfu_twcc_feedback_build.
  destruct (sfu_twcc_recv_tracker_pending t) eqn:Hp; cbn [negb]; [|done].
  destruct (report_facts t Hp) as (Hw & Hr & Hd & Hok & Hs). destruct (feedback_sizes t Hp) as (Hc & Hdl & _ & _).
  rewrite window_eq. rewrite (proj2 (Z.eqb_neq (report_window t) 0)) by lia. fold (report_rows t).
  assert (Hnone : (zlen (List.filter received (report_rows t)) =? 0) =
                  forallb (fun row => negb (received row)) (report_rows t)).
  { clear. induction (report_rows t) as [|row rows IH]; [done|]. cbn [List.filter forallb].
    destruct (received row); cbn [negb andb]; [|done]. rewrite zlen_cons. zlen_pos. lia. }
  rewrite Hnone. destruct (forallb _ _); [done|]. fold (reference_units t) (report_deltas t).
  assert (Hz : zlen (map fst (report_deltas t)) = report_window t) by (unfold zlen in *; by rewrite length_map).
  rewrite <- Hz at 1. change (zeros (SFU_TWCC_FEEDBACK_MAX_PACKETS * 2)) with (zeros 512).
  rewrite write_chunks_spec by (done || lia). cbn [res_bind]. fold (feedback_chunks t).
  pose proof (write_deltas_spec (report_deltas t) (zeros 512) [] Hok) as Hwd.
  change (patch (zeros 512) 0 []) with (zeros 512) in Hwd. change (zlen []) with 0 in Hwd.
  rewrite Hwd by (change (zlen (zeros 512)) with 512; lia). cbn [res_bind]. rewrite Z.add_0_l. cbn [app].
  fold (feedback_deltas t). unfold TWCC_FIXED_LEN. fold (feedback_length t). rewrite pad_bits.
  set (pad := - feedback_length t mod 4). assert (Hpad : 0 <= pad <= 3) by (unfold pad; dlia). cbv zeta.
  destruct (Z.ltb_spec cap (feedback_length t + pad)) as [|Hroom]; [done|].
  assert (Hlen : feedback_length t = 20 + zlen (feedback_chunks t) + zlen (feedback_deltas t)) by done.
  rewrite header_first_byte by lia.
  rewrite packet_writes by (try done; change (zlen (zeros 512)) with 512; lia). cbv zeta. fold (feedback_length t).
  unfold member_wire. rewrite (proj2 (feedback_member_wf t sender media Hwf Hp Hs32)).
  f_equal. f_equal. cbn [feedback_member g_fmt g_pt g_ssrc g_body g_pad]. fold pad.
  replace (u16 ((feedback_length t + pad) / 4 - 1)) with ((feedback_length t + pad) / 4 - 1) by dlia.
  replace (u16 (report_window t)) with (report_window t) by dlia. by destruct (pad =? 0).
Qed.

(** * Parsing it back *)

Definition total_size (cs : list Z) : Z := foldr (fun c n => chunk_size c + n) 0 cs.

Lemma accepts_total count p cs : accepts count p cs = true -> count <= p + total_size cs.
Proof.
  revert p. induction cs as [|c cs IH]; intros p H; cbn [accepts total_size foldr] in *; bool_hyps; [lia|].
  specialize (IH _ H0). unfold total_size in IH. lia.
Qed.

Lemma accepts_stops count p cs ds :
  count <= p + total_size cs -> accepts count p (cs ++ ds) = true -> ds = [].
Proof.
  revert p. induction cs as [|c cs IH]; intros p Ht H; cbn [total_size foldr app] in *.
  - destruct ds as [|d ds]; [done|]. cbn [accepts] in H. bool_hyps. lia.
  - cbn [accepts] in H. bool_hyps. apply (IH (p + chunk_size c)); [|done]. unfold total_size. lia.
Qed.

Lemma words_split data off n m : words data off (n + m) = words data off n ++ words data (off + 2 * Z.of_nat n) m.
Proof.
  revert off. induction n as [|n IH]; intros off; [cbn; f_equal; lia|].
  cbn [Nat.add words app]. rewrite IH. do 3 f_equal. lia.
Qed.

Lemma words_length data off n : length (words data off n) = n.
Proof. revert off. induction n; intros; cbn; auto. Qed.

(** The chunk count of an accepted packet is determined by the sizes. *)
Lemma accepts_determined data off count n m :
  accepts count 0 (words data off n) = true ->
  count <= total_size (words data off m) ->
  (forall k, (k < m)%nat -> total_size (take k (words data off m)) < count) -> n = m.
Proof.
  intros Ha Ht Hk. pose proof (accepts_total _ _ _ Ha).
  destruct (Nat.lt_trichotomy n m) as [Hlt|[?|Hgt]]; [|done|].
  - specialize (Hk n Hlt). replace m with (n + (m - n))%nat in Hk by lia.
    rewrite words_split, take_app_length' in Hk by (by rewrite words_length). lia.
  - replace n with (m + (n - m))%nat in Ha by lia. rewrite words_split in Ha.
    apply accepts_stops in Ha; [|lia]. apply (f_equal (@length Z)) in Ha. rewrite words_length in Ha. cbn in Ha. lia.
Qed.

Lemma words_encoded A ws R off :
  Forall is_u16 ws -> off = zlen A ->
  words (A ++ concat (map enc16 ws) ++ R) off (length ws) = ws.
Proof.
  intros Hw. revert A off. induction Hw as [|w ws Hu Hw IH]; intros A off ->; [done|].
  cbn [length map concat words]. f_equal.
  - rewrite <- app_assoc, be16_app_0. by apply be16_enc16.
  - rewrite <- app_assoc, app_assoc. apply IH. zlen.
Qed.

Lemma chunk_words_total ss :
  Forall symbol ss -> Forall (fun s => s <> TWCC_STATUS_RESERVED) ss -> 0 < zlen ss <= 256 ->
  zlen ss <= total_size (chunk_words ss) /\
  (forall k, (k < length (chunk_words ss))%nat -> total_size (take k (chunk_words ss)) < zlen ss) /\
  accepts (zlen ss) 0 (chunk_words ss) = parser_friendly ss.
Proof.
  intros Hs Hr Hn. unfold chunk_words, parser_friendly. destruct (homogeneous ss) eqn:Eh; cbn [orb].
  - assert (Hb : symbol (byte_at ss 0) /\ byte_at ss 0 <> TWCC_STATUS_RESERVED).
    { destruct ss; [rewrite @zlen_nil in Hn; lia|]. inversion_clear Hs. by inversion_clear Hr. }
    destruct (run_word_symbols (byte_at ss 0) (zlen ss) (proj1 Hb) ltac:(lia)) as (_ & Hz & _ & Hv).
    unfold total_size. cbn [foldr length accepts]. rewrite Hz, Hv. rewrite (proj2 (Z.eqb_neq _ _) (proj2 Hb)). cbn [negb].
    split_and!; [lia| |lia]. intros [|k] Hk; [cbn; lia|lia].
  - pose proof (vector_words_chunks (length ss) ss Hs) as Hc.
    pose proof (vector_words_length (length ss) ss (Nat.le_refl _)) as Hl.
    assert (Ht : forall cs, Forall (fun c => is_u16 c /\ chunk_valid c = true /\ chunk_size c = 7) cs ->
              total_size cs = 7 * zlen cs).
    { intros cs H. induction H as [|c cs (_ & _ & Hz) _ IH]; [done|].
      unfold total_size in *. cbn [foldr]. rewrite Hz, IH, zlen_cons. lia. }
    split_and!.
    + rewrite Ht, Hl by done. dlia.
    + intros k Hk. rewrite Ht by (by apply Forall_take). unfold zlen in *. rewrite length_take. dlia.
    + apply accepts_vectors; try done; try lia. by rewrite Hl, Z.sub_0_r.
Qed.

Lemma feedback_layout t sender media buf :
  let data := patch buf 0 (member_wire (feedback_member t sender media)) in
  exists w R, data =
    ([128 + flag (is_some (g_pad (feedback_member t sender media))) 32 + 15; 205] ++ enc16 w ++ enc32 sender ++
     feedback_head t media) ++ feedback_chunks t ++ feedback_deltas t ++ R.
Proof.
  intros data. unfold data, patch, member_wire. cbn [Z.to_nat]. rewrite take_0.
  eexists _, _. cbn [app feedback_member g_fmt g_pt g_ssrc g_body].
  rewrite <- !app_assoc. reflexivity.
Qed.

Lemma feedback_fields t sender media buf :
  tracker_wf t -> sfu_twcc_recv_tracker_pending t = true ->
  let data := patch buf 0 (member_wire (feedback_member t sender media)) in
  let n := length (chunk_words (map fst (report_deltas t))) in
  be16 data 12 = report_start_seq t /\ be16 data 14 = report_window t /\
  be24 data 16 = reference_units t mod 16777216 /\
  words data TWCC_FIXED_LEN n = chunk_words (map fst (report_deltas t)) /\
  zlen (feedback_chunks t) = 2 * Z.of_nat n /\
  slice data (TWCC_FIXED_LEN + 2 * Z.of_nat n) (feedback_length t - (TWCC_FIXED_LEN + 2 * Z.of_nat n))
    = feedback_deltas t.
Proof.
  intros [_ (Hb & _ & _)] Hp data n. destruct (report_facts t Hp) as (Hw & _ & Hd & _ & Hs).
  assert (Hz : zlen (map fst (report_deltas t)) = report_window t) by (unfold zlen in *; by rewrite length_map).
  destruct (feedback_layout t sender media buf) as (w & R & E). fold data in E.
  set (A := [128 + flag (is_some (g_pad (feedback_member t sender media))) 32 + 15; 205] ++ enc16 w ++ enc32 sender ++
            feedback_head t media) in *.
  assert (HA : zlen A = 20) by done.
  assert (Hn : zlen (feedback_chunks t) = 2 * Z.of_nat n) by apply concat_enc16_length.
  set (r := reference_units t mod 16777216). assert (Hr : 0 <= r < 16777216) by (unfold r; dlia).
  assert (EA : A = ([128 + flag (is_some (g_pad (feedback_member t sender media))) 32 + 15; 205] ++ enc16 w ++ enc32 sender ++
    enc32 media) ++ (enc16 (report_start_seq t) ++ enc16 (report_window t) ++
    [r / 65536; r / 256 mod 256; r mod 256; fb_pkt_count t])) by done.
  set (A0 := [_; 205] ++ enc16 w ++ enc32 sender ++ enc32 media) in EA. assert (HA0 : zlen A0 = 12) by done.
  assert (E2 : data = A0 ++ enc16 (report_start_seq t) ++ enc16 (report_window t) ++
     [r / 65536; r / 256 mod 256; r mod 256; fb_pkt_count t] ++ (feedback_chunks t ++ feedback_deltas t ++ R)).
  { rewrite E, EA. by rewrite <- !app_assoc. }
  split_and!; try done.
  - rewrite E2, <- HA0, be16_app_0. by apply be16_enc16.
  - rewrite E2. change 14 with (zlen (A0 ++ enc16 (report_start_seq t))).
    rewrite (app_assoc A0), be16_app_0. apply be16_enc16. unfold is_u16. lia.
  - rewrite E2. change 16 with (zlen ((A0 ++ enc16 (report_start_seq t)) ++ enc16 (report_window t)) + 0).
    rewrite (app_assoc A0), (app_assoc (A0 ++ _)), be24_app_r by done.
    change (r / 65536 * 65536 + r / 256 mod 256 * 256 + r mod 256 = r). dlia.
  - rewrite E. apply words_encoded; [|done]. apply chunk_words_decode; [done|lia].
  - rewrite E, app_assoc. unfold TWCC_FIXED_LEN, feedback_length.
    apply slice_mid; [rewrite zlen_app; lia|lia].
Qed.

Lemma delta_statuses t :
  Forall delta_ok (report_deltas t) ->
  Forall (fun s => s <> TWCC_STATUS_RESERVED) (map fst (report_deltas t)).
Proof.
  intros H. induction H as [|[st u] l H _ IH]; constructor; [|done].
  unfold delta_ok, TWCC_STATUS_RESERVED in *. cbn. lia.
Qed.

Lemma parse_built t sender media buf :
  tracker_wf t -> sfu_twcc_recv_tracker_pending t = true -> is_u32 sender -> bytes_ok buf ->
  member_size (feedback_member t sender media) <= zlen buf ->
  let data := patch buf 0 (member_wire (feedback_member t sender media)) in
  if parser_friendly (map fst (report_deltas t)) then
    exists p q, sfu_twcc_parser_init data (feedback_length t) 0 = Ok p /\
      status_collect (Z.to_nat (report_window t) + 1) data p =
        Ok (decoded (report_deltas t) (report_start_seq t) (reference_units t mod 16777216 * 64000), q) /\
      failed q = false
  else sfu_twcc_parser_init data (feedback_length t) 0 = Err.
Proof.
  intros Hwf Hp Hs Hb Hl data. destruct (report_facts t Hp) as (Hw & _ & Hd & Hok & Hsym).
  assert (Hz : zlen (map fst (report_deltas t)) = report_window t) by (unfold zlen in *; by rewrite length_map).
  destruct (feedback_member_wf t sender media Hwf Hp Hs) as [Hmwf Hsz].
  destruct (feedback_fields t sender media buf Hwf Hp) as (F12 & F14 & F16 & Fw & Fc & Fd). fold data in F12, F14, F16, Fw, Fd.
  set (ss := map fst (report_deltas t)) in *. set (n := length (chunk_words ss)) in *.
  destruct (chunk_words_total ss) as (Htot & Hpre & Hacc); [done|by apply delta_statuses|lia|].
  destruct (chunk_words_decode ss Hsym) as [Hu16 Hdec]; [lia|].
  assert (Hdb : bytes_ok data) by (by apply bytes_ok_member_in_buf).
  assert (Hdl : zlen data = zlen buf) by (unfold data; rewrite zlen_patch; rewrite ?zlen_member_wire; lia).
  destruct (feedback_sizes t Hp) as (Hc & Hdz & _ & _).
  assert (Hlen : 0 <= feedback_length t <= zlen data) by (unfold feedback_length in *; dlia).
  pose proof (twcc_parse_spec data (feedback_length t) 0 Hdb Hlen) as Hparse.
  rewrite F12, F14, F16 in Hparse.
  assert (Hdet : forall m, accepts (report_window t) 0 (words data TWCC_FIXED_LEN m) = true ->
            m = n /\ parser_friendly ss = true).
  { intros m Hm. assert (m = n) as ->.
    { eapply accepts_determined; [exact Hm|by rewrite Fw, <- Hz|rewrite Fw, <- Hz; exact Hpre]. }
    split; [done|]. rewrite Fw, <- Hz in Hm. congruence. }
  assert (Hroom : TWCC_FIXED_LEN + 2 * Z.of_nat n <= feedback_length t)
    by (unfold TWCC_FIXED_LEN, feedback_length; lia).
  destruct (sfu_twcc_parser_init data (feedback_length t) 0) as [p| |]; [| |done].
  - destruct Hparse as (m & q & q' & _ & Hm & Hst & Hf & _). destruct (Hdet m Hm) as [-> Hfr]. rewrite Hfr.
    exists p, q. split; [done|]. rewrite Fw, Fd in Hst, Hf.
    replace (Z.to_nat (report_window t)) with (length ss) in Hst at 2 by (unfold zlen in Hz; lia).
    replace (Z.to_nat (report_window t)) with (length ss) in Hf by (unfold zlen in Hz; lia).
    rewrite Hdec in Hst, Hf. unfold ss, feedback_deltas in Hst, Hf.
    rewrite report_decoded in Hst, Hf by done. done.
  - destruct (parser_friendly ss) eqn:Hfr; [|done].
    destruct Hparse as [Hlt|Hno]; [unfold TWCC_FIXED_LEN, feedback_length in *; lia|].
    specialize (Hno n Hroom). rewrite Fw, <- Hz, Hacc in Hno. done.
Qed.

(** C27: What the receiver of media reports, the sender reads.  When packets are
    pending, one of them was received and the packet fits, the feedback is one
    well-formed RTCP member (205/15) at the front of the buffer, padded to a
    multiple of four bytes, and the tracker moves past the reported window.
    If the arrivals lie within four seconds of the first, the parser's
    statuses number the window without gaps, mark as lost exactly the packets
    not in the tracker, and give every other one its arrival time to within
    125 us, up to one common multiple of the reference range.  The parser
    refuses the packet exactly when its last vector chunk is partly filled and
    the window has at least seven packets. *)
Theorem feedback_roundtrip t sender media now buf cap :
  tracker_wf t -> bytes_ok buf -> is_u32 sender -> cap <= zlen buf ->
  sfu_twcc_recv_tracker_pending t = true ->
  (exists row, In row (report_rows t) /\ received row = true) ->
  0 <= first_arrival (report_rows t) ->
  Forall (fun row => received row = true -> Z.abs (snd row - first_arrival (report_rows t)) <= 4000000) (report_rows t) ->
  feedback_length t + - feedback_length t mod 4 <= cap ->
  exists n buf' v,
    sfu_twcc_feedback_build t sender media now buf cap =
      Ok (n, (after_report t) <| fb_pkt_count ::= fun n => u8 (n + 1) |> <| last_feedback_us := now |>, buf') /\
    n mod 4 = 0 /\ same_tail buf buf' n /\
    compound_collect 2 buf' (sfu_rtcp_compound_iter_init n) = Ok ([v], true) /\
    pt v = 205 /\ fmt_count v = 15 /\ sender_ssrc v = sender /\ member v = 0 /\
    if parser_friendly (map fst (report_deltas t)) then
      exists p q ss k, sfu_twcc_parser_init buf' (member_len v) 0 = Ok p /\
        status_collect (Z.to_nat (report_window t) + 1) buf' p = Ok (ss, q) /\ failed q = false /\
        tells (report_rows t) ss (report_start_seq t) (k * TWCC_REF_RANGE_US)
    else sfu_twcc_parser_init buf' (member_len v) 0 = Err.
Proof.
  intros Hwf Hb Hs Hcap Hp (row & Hin & Hrow) Hfirst Hclose Hroom.
  destruct (feedback_member_wf t sender media Hwf Hp Hs) as [Hmwf Hsz].
  exists (feedback_length t + - feedback_length t mod 4), (patch buf 0 (member_wire (feedback_member t sender media))),
    (member_view_at 0 (feedback_member t sender media)).
  assert (Hlen : member_len (member_view_at 0 (feedback_member t sender media)) = feedback_length t).
  { cbn [member_view_at member_len feedback_member g_body]. unfold feedback_length.
    rewrite !zlen_app. change (zlen (feedback_head t media)) with 12. lia. }
  rewrite Hlen. split_and!; try done.
  - rewrite build_wire, Hp by done. cbn [negb]. rewrite (proj2 (Z.ltb_ge cap _)) by done.
    assert (forallb (fun r => negb (received r)) (report_rows t) = false) as ->; [|done].
    apply not_true_iff_false. intros H. rewrite forallb_forall in H. specialize (H row Hin). by rewrite Hrow in H.
  - dlia.
  - apply patch_same_tail; [by rewrite zlen_member_wire|lia].
  - rewrite <- Hsz. apply collect_single; try done. lia.
  - pose proof (parse_built t sender media buf Hwf Hp Hs Hb ltac:(lia)) as Hparse. cbv zeta in Hparse.
    destruct (parser_friendly _); [|done]. destruct Hparse as (p & q & Hi & Hc & Hf).
    eexists p, q, _, (reference_units t / 16777216). split_and!; [done|exact Hc|done|].
    change TWCC_REF_RANGE_US with 1073741824000.
    replace (reference_units t mod 16777216 * 64000)
      with (reference_units t * TWCC_REF_UNIT_US - reference_units t / 16777216 * 1073741824000)
      by (unfold TWCC_REF_UNIT_US; dlia).
    unfold report_deltas. eapply decoded_tells; [apply report_rows_status|exact Hclose|].
    unfold reference_units, TWCC_REF_UNIT_US. rewrite Z.quot_div_nonneg by lia. dlia.
Qed.

Definition record_all (t : sfu_twcc_recv_tracker) (l : list (Z * Z)) : sfu_twcc_recv_tracker :=
  fold_left (fun t p => sfu_twcc_recv_tracker_record t (fst p) (snd p)) l t.
(** Packets 65535, 0 and 2 arrived; 1 is missing. *)
Definition ex_tracker : sfu_twcc_recv_tracker :=
  record_all sfu_twcc_recv_tracker_init [(65535, 1000000); (0, 1000600); (2, 1070000)].

Lemma feedback_roundtrip_witness :
  exists buf' v, sfu_twcc_feedback_build ex_tracker 1 2 5 (zeros 64) 64 =
      Ok (28, (after_report ex_tracker) <| fb_pkt_count ::= fun n => u8 (n + 1) |> <| last_feedback_us := 5 |>, buf') /\
    compound_collect 2 buf' (sfu_rtcp_compound_iter_init 28) = Ok ([v], true) /\
    exists p q ss k, sfu_twcc_parser_init buf' (member_len v) 0 = Ok p /\
      status_collect (Z.to_nat (report_window ex_tracker) + 1) buf' p = Ok (ss, q) /\ failed q = false /\
      tells (report_rows ex_tracker) ss 65535 (k * TWCC_REF_RANGE_US).
Proof.
  destruct (feedback_roundtrip ex_tracker 1 2 5 (zeros 64) 64) as (n & buf' & v & H & _ & _ & Hv & _ & _ & _ & _ & Hp).
  - constructor; [by vm_compute|]. split; [|split]; vm_compute; (split; [discriminate|reflexivity]).
  - by apply bytes_okb_ok.
  - done.
  - by vm_compute.
  - by vm_compute.
  - exists (1, 1000000). split; [vm_compute; by left|done].
  - vm_compute. discriminate.
  - change (first_arrival (report_rows ex_tracker)) with 1000000.
    change (report_rows ex_tracker) with [(1, 1000000); (1, 1000600); (0, 0); (1, 1070000)].
    repeat constructor; intros; cbn; lia.
  - vm_compute. discriminate.
  - assert (n = 28) as ->.
    { assert (E : match sfu_twcc_feedback_build ex_tracker 1 2 5 (zeros 64) 64 with Ok (k, _, _) => k | _ => 0 end = 28)
        by (vm_compute; reflexivity).
      rewrite H in E. exact E. }
    exists buf', v. split_and!; [exact H|exact Hv|].
    change (parser_friendly (map fst (report_deltas ex_tracker))) with true in Hp. exact Hp.
Defined.

(** Ten packets of which one is missing: the report is two vectors of seven,
    and the parser of this program refuses it. *)
Example partial_vector_refused :
  let t := record_all sfu_twcc_recv_tracker_init
             (map (fun i => (i, 1000000 + 1000 * i)) [0; 1; 2; 4; 5; 6; 7; 8; 9]) in
  match sfu_twcc_feedback_build t 1 2 5 (zeros 64) 64 with
  | Ok (n, _, buf) => n = 36 /\ sfu_twcc_parser_init buf (feedback_length t) 0 = Err
  | _ => False
  end.
Proof. vm_compute. auto. Qed.

(** Trackers are well formed from the start and stay so. *)
Lemma tracker_init_wf : tracker_wf sfu_twcc_recv_tracker_init.
Proof. by constructor. Qed.

Lemma tracker_record_wf t seq arrival :
  tracker_wf t -> is_u16 seq -> tracker_wf (sfu_twcc_recv_tracker_record t seq arrival).
Proof.
  intros [He (Hs & Hl & Hf)] Hq. unfold sfu_twcc_recv_tracker_record.
  assert (zlen (<[slot_of_seq seq := mk_recv_entry seq arrival true]> (recv_entries t)) = SFU_TWCC_RECV_CAPACITY)
    by (unfold zlen in *; by rewrite length_insert).
  destruct (negb _); [by constructor|]. destruct (_ && _); by constructor.
Qed.

(** * Every packet is reported *)

(** The feedback timer: rounds of the builder on the same output buffer. *)
Fixpoint build_rounds (rounds : nat) (t : sfu_twcc_recv_tracker) (sender media now : Z) (buf : list Z) (cap : Z)
  : res (list Z * sfu_twcc_recv_tracker) :=
  match rounds with
  | O => Ok ([], t)
  | S rounds =>
      let! r := sfu_twcc_feedback_build t sender media now buf cap in
      let '(n, t, buf) := r in
      let! rest := build_rounds rounds t sender media now buf cap in
      Ok (n :: fst rest, snd rest)
  end.

(** How many sequence numbers wait for a report. *)
Definition backlog (t : sfu_twcc_recv_tracker) : Z :=
  if sfu_twcc_recv_tracker_pending t then u16 (latest_seq t - report_start_seq t) + 1 else 0.

(** The largest report: 256 packets with 37 chunks and two-byte deltas. *)
Definition MAX_FEEDBACK : Z := 608.

Lemma backlog_step t t' :
  latest_seq t' = latest_seq t -> started t' = started t ->
  report_start_seq t' = u16 (report_start_seq t + report_window t) ->
  sfu_twcc_recv_tracker_pending t = true -> is_u16 (report_start_seq t) -> is_u16 (latest_seq t) ->
  backlog t' = Z.max 0 (backlog t - SFU_TWCC_FEEDBACK_MAX_PACKETS).
Proof.
  intros El Es Er Hp Hs Hl. unfold backlog at 2. rewrite Hp. unfold backlog, sfu_twcc_recv_tracker_pending in *.
  rewrite Es, El, Er. destruct (started t); cbn [negb] in *; [|done]. bool_hyps.
  unfold report_window, SFU_TWCC_FEEDBACK_MAX_PACKETS in *.
  set (d := u16 (latest_seq t - report_start_seq t)) in *.
  assert (Ed : u16 (latest_seq t - u16 (report_start_seq t + Z.min 256 (d + 1))) = u16 (d - Z.min 256 (d + 1)))
    by (unfold d; dlia).
  rewrite Ed. destruct (Z.leb_spec (d + 1) 256).
  - rewrite Z.min_r by lia. replace (d - (d + 1)) with (-1) by lia.
    change (u16 (-1)) with 65535. change ((0 <=? 65535) && (65535 <? 32768)) with false. cbv iota. lia.
  - rewrite Z.min_l by lia. replace (u16 (d - 256)) with (d - 256) by dlia. decide_ifs. lia.
Qed.

Lemma build_progress t sender media now buf cap :
  tracker_wf t -> is_u32 sender -> MAX_FEEDBACK <= cap <= zlen buf ->
  exists n t' buf', sfu_twcc_feedback_build t sender media now buf cap = Ok (n, t', buf') /\
    0 <= n <= MAX_FEEDBACK /\ zlen buf' = zlen buf /\ tracker_wf t' /\
    backlog t' = Z.max 0 (backlog t - SFU_TWCC_FEEDBACK_MAX_PACKETS).
Proof.
  intros Hwf Hs Hc. rewrite build_wire by (done || lia). pose proof Hwf as [He (Hb & Hl & Hf)].
  unfold MAX_FEEDBACK in *. destruct (sfu_twcc_recv_tracker_pending t) eqn:Hp; cbn [negb].
  2: { exists 0, t, buf. split_and!; try done. unfold backlog. by rewrite Hp. }
  destruct (feedback_sizes t Hp) as (Hcl & Hdl & _).
  assert (Hn : 0 <= feedback_length t + - feedback_length t mod 4 <= 608) by (unfold feedback_length in *; dlia).
  destruct (forallb _ _).
  { eexists _, _, _. split; [done|]. split_and!; try done; try lia.
    - constructor; cbn; auto with sfu.
    - by apply backlog_step. }
  cbv zeta. rewrite (proj2 (Z.ltb_ge cap _)) by lia. eexists _, _, _. split; [done|].
  destruct (feedback_member_wf t sender media Hwf Hp Hs) as [_ Hsz].
  split_and!; try lia.
  - rewrite zlen_patch; [done|lia|rewrite zlen_member_wire; lia].
  - constructor; cbn; auto with sfu.
  - by apply backlog_step.
Qed.

Lemma build_rounds_drain rounds t sender media now buf cap :
  tracker_wf t -> is_u32 sender -> MAX_FEEDBACK <= cap <= zlen buf ->
  backlog t <= SFU_TWCC_FEEDBACK_MAX_PACKETS * Z.of_nat rounds ->
  exists ns t', build_rounds rounds t sender media now buf cap = Ok (ns, t') /\
    Forall (fun n => 0 <= n <= MAX_FEEDBACK) ns /\ backlog t' = 0.
Proof.
  unfold SFU_TWCC_FEEDBACK_MAX_PACKETS. revert t buf. induction rounds as [|rounds IH]; intros t buf Hwf Hs Hc Hbl.
  - exists [], t. split_and!; [done|constructor|].
    unfold backlog in *. pose proof (u16_range (latest_seq t - report_start_seq t)). unfold is_u16 in *.
    destruct (sfu_twcc_recv_tracker_pending t); lia.
  - cbn [build_rounds]. destruct (build_progress t sender media now buf cap Hwf Hs Hc) as (n & t1 & buf1 & -> & Hn & Hz & Hwf1 & Hb1).
    unfold SFU_TWCC_FEEDBACK_MAX_PACKETS in Hb1. cbn [res_bind].
    destruct (IH t1 buf1) as (ns & t' & -> & Hns & Hb'); [done|done|lia|lia|].
    exists (n :: ns), t'. split_and!; [done|by constructor|done].
Qed.

(** The feedback timer catches up: with a buffer of 608 bytes no call fails or
    writes outside it, each call takes up to 256 sequence numbers off the
    backlog, and after as many rounds as the backlog has groups of 256 nothing
    is pending. *)
Theorem feedback_drains rounds t sender media now buf cap :
  tracker_wf t -> is_u32 sender -> MAX_FEEDBACK <= cap <= zlen buf ->
  backlog t <= SFU_TWCC_FEEDBACK_MAX_PACKETS * Z.of_nat rounds ->
  exists ns t', build_rounds rounds t sender media now buf cap = Ok (ns, t') /\
    Forall (fun n => 0 <= n <= MAX_FEEDBACK) ns /\ sfu_twcc_recv_tracker_pending t' = false.
Proof.
  intros Hwf Hs Hc Hb. destruct (build_rounds_drain rounds t sender media now buf cap Hwf Hs Hc Hb) as (ns & t' & -> & Hns & H0).
  exists ns, t'. split_and!; try done. unfold backlog in H0.
  pose proof (u16_range (latest_seq t' - report_start_seq t')). unfold is_u16 in *.
  destruct (sfu_twcc_recv_tracker_pending t'); [lia|done].
Qed.

Lemma feedback_drains_witness :
  exists ns t', build_rounds 1 ex_tracker 1 2 5 (zeros 700) 700 = Ok (ns, t') /\
    Forall (fun n => 0 <= n <= MAX_FEEDBACK) ns /\ sfu_twcc_recv_tracker_pending t' = false.
Proof.
  apply feedback_drains.
  - constructor; [by vm_compute|]. split; [|split]; vm_compute; (split; [discriminate|reflexivity]).
  - done.
  - vm_compute. split; discriminate.
  - vm_compute. discriminate.
Defined.
