(* ===== verification/TwccHistory.v ===== *)
(** The history of sent packets, [src/congestion/twcc_history.h], against a
    specification that only looks at the past calls. *)

From S2P Require Import Prelude NetBytes.

Definition SFU_TWCC_HISTORY_CAPACITY : Z := 4096.
Definition SFU_TWCC_HISTORY_MASK : Z := SFU_TWCC_HISTORY_CAPACITY - 1.

Record sfu_twcc_history_entry := mk_hist {
  h_seq : Z;
  h_send_time_us : Z;
  h_size_bytes : Z;
  h_valid : bool;
  received_consumed : bool;
  loss_reported : bool;
  is_probe : bool;
  probe_cluster_id : Z
}.
#[export] Instance eta_hist : Eta sfu_twcc_history_entry := fun e =>
  mk_hist (h_seq e) (h_send_time_us e) (h_size_bytes e) (h_valid e) (received_consumed e) (loss_reported e)
    (is_probe e) (probe_cluster_id e).
Abbreviation sfu_twcc_history := (list sfu_twcc_history_entry).

Definition zero_hist : sfu_twcc_history_entry := mk_hist 0 0 0 false false false false 0.
Definition sfu_twcc_history_init : sfu_twcc_history :=
  replicate (Z.to_nat SFU_TWCC_HISTORY_CAPACITY) zero_hist.

Definition hist_slot (seq : Z) : nat := Z.to_nat (Z.land seq SFU_TWCC_HISTORY_MASK).
(** The index is masked, so it is always inside the array. *)
Definition hist_entry (h : sfu_twcc_history) (seq : Z) : sfu_twcc_history_entry :=
  nth (hist_slot seq) h zero_hist.

Definition sfu_twcc_history_record (h : sfu_twcc_history) (seq send_time size : Z) : sfu_twcc_history :=
  <[hist_slot seq := mk_hist seq send_time size true false false false 0]> h.
Definition sfu_twcc_history_record_probe (h : sfu_twcc_history) (seq send_time size cluster : Z) : sfu_twcc_history :=
  <[hist_slot seq := mk_hist seq send_time size true false false true cluster]> h.

(** Send time, size, probe flag and cluster; output pointers that are [NULL]
    leave their part unused. *)
Definition sent_info : Type := Z * Z * bool * Z.
Definition info_of (e : sfu_twcc_history_entry) : sent_info :=
  (h_send_time_us e, h_size_bytes e, is_probe e, probe_cluster_id e).

Definition sfu_twcc_history_lookup_ext (h : sfu_twcc_history) (seq : Z) : option sent_info :=
  let e := hist_entry h seq in
  if h_valid e && (h_seq e =? seq) then Some (info_of e) else None.
Definition sfu_twcc_history_lookup (h : sfu_twcc_history) (seq : Z) : option (Z * Z) :=
  match sfu_twcc_history_lookup_ext h seq with Some (t, s, _, _) => Some (t, s) | None => None end.

(** The packet, and whether its loss had been reported. *)
Definition sfu_twcc_history_consume_received_ext (h : sfu_twcc_history) (seq : Z)
  : option (sent_info * bool) * sfu_twcc_history :=
  let e := hist_entry h seq in
  if negb (h_valid e) || negb (h_seq e =? seq) || received_consumed e then (None, h)
  else (Some (info_of e, loss_reported e), <[hist_slot seq := e <| received_consumed := true |>]> h).
Definition sfu_twcc_history_consume_received (h : sfu_twcc_history) (seq : Z)
  : option (Z * Z * bool) * sfu_twcc_history :=
  match sfu_twcc_history_consume_received_ext h seq with
  | (Some ((t, s, _, _), lost), h) => (Some (t, s, lost), h)
  | (None, h) => (None, h)
  end.

Definition sfu_twcc_history_report_loss_once (h : sfu_twcc_history) (seq : Z) : bool * sfu_twcc_history :=
  let e := hist_entry h seq in
  if negb (h_valid e) || negb (h_seq e =? seq) || received_consumed e || loss_reported e then (false, h)
  else (true, <[hist_slot seq := e <| loss_reported := true |>]> h).

(** * Histories of calls *)

Inductive hist_op :=
| Sent (seq send_time size : Z) (cluster : option Z)
| Lookup (seq : Z)
| Consume (seq : Z)
| ReportLoss (seq : Z).
Inductive hist_result :=
| RDone
| RLookup (o : option sent_info)
| RConsume (o : option (sent_info * bool))
| RLoss (b : bool).

Definition hist_step (h : sfu_twcc_history) (o : hist_op) : hist_result * sfu_twcc_history :=
  match o with
  | Sent seq t s (Some cluster) => (RDone, sfu_twcc_history_record_probe h seq t s cluster)
  | Sent seq t s None => (RDone, sfu_twcc_history_record h seq t s)
  | Lookup seq => (RLookup (sfu_twcc_history_lookup_ext h seq), h)
  | Consume seq => let '(r, h) := sfu_twcc_history_consume_received_ext h seq in (RConsume r, h)
  | ReportLoss seq => let '(r, h) := sfu_twcc_history_report_loss_once h seq in (RLoss r, h)
  end.
Fixpoint hist_run (h : sfu_twcc_history) (ops : list hist_op) : list hist_result :=
  match ops with
  | [] => []
  | o :: ops => let '(r, h) := hist_step h o in r :: hist_run h ops
  end.

(** ** The specification: answers from the past calls, newest first *)

Definition sent_as (t s : Z) (cluster : option Z) : sent_info :=
  match cluster with Some c => (t, s, true, c) | None => (t, s, false, 0) end.

(** The last packet sent in a slot and the calls since. *)
Fixpoint last_sent (slot : nat) (past : list hist_op) : option (Z * sent_info * list hist_op) :=
  match past with
  | [] => None
  | o :: past =>
      match o with
      | Sent seq t s cluster =>
          if decide (hist_slot seq = slot) then Some (seq, sent_as t s cluster, [])
          else match last_sent slot past with Some (s, i, since) => Some (s, i, o :: since) | None => None end
      | _ => match last_sent slot past with Some (s, i, since) => Some (s, i, o :: since) | None => None end
      end
  end.

#[export] Instance hist_op_eq_dec : EqDecision hist_op.
Proof. solve_decision. Defined.

Definition spec_lookup (past : list hist_op) (seq : Z) : option (sent_info * list hist_op) :=
  match last_sent (hist_slot seq) past with
  | Some (s, info, since) => if s =? seq then Some (info, since) else None
  | None => None
  end.
(** A call [o] was made since the packet was sent. *)
Definition since_has (since : list hist_op) (o : hist_op) : bool := bool_decide (o ∈ since).

Definition spec_answer (past : list hist_op) (o : hist_op) : hist_result :=
  match o with
  | Sent _ _ _ _ => RDone
  | Lookup seq => RLookup (match spec_lookup past seq with Some (info, _) => Some info | None => None end)
  | Consume seq =>
      RConsume (match spec_lookup past seq with
                | Some (info, since) =>
                    if since_has since (Consume seq) then None else Some (info, since_has since (ReportLoss seq))
                | None => None
                end)
  | ReportLoss seq =>
      RLoss (match spec_lookup past seq with
             | Some (_, since) => negb (since_has since (Consume seq)) && negb (since_has since (ReportLoss seq))
             | None => false
             end)
  end.
Fixpoint spec_run (past ops : list hist_op) : list hist_result :=
  match ops with
  | [] => []
  | o :: ops => spec_answer past o :: spec_run (o :: past) ops
  end.

(** * The ring of entries implements it *)

(** What a slot holds, given what happened to it. *)
Definition slot_holds (e : sfu_twcc_history_entry) (o : option (Z * sent_info * list hist_op)) : Prop :=
  match o with
  | None => h_valid e = false
  | Some (s, info, since) =>
      h_valid e = true /\ h_seq e = s /\ info_of e = info /\
      received_consumed e = since_has since (Consume s) /\
      (received_consumed e = false -> loss_reported e = since_has since (ReportLoss s))
  end.
Record hist_inv (h : sfu_twcc_history) (past : list hist_op) : Prop := {
  hist_len : zlen h = SFU_TWCC_HISTORY_CAPACITY;
  hist_slots : forall i, (i < length h)%nat -> slot_holds (nth i h zero_hist) (last_sent i past)
}.

Lemma hist_slot_range seq : (hist_slot seq < 4096)%nat.
Proof.
  unfold hist_slot. change SFU_TWCC_HISTORY_MASK with (2 ^ 12 - 1).
  rewrite land_ones_mod by lia. change (2 ^ 12) with 4096. dlia.
Qed.

Lemma since_has_cons o1 since o : since_has (o1 :: since) o = bool_decide (o = o1) || since_has since o.
Proof.
  unfold since_has. apply Bool.eq_iff_eq_true. rewrite orb_true_iff, !bool_decide_eq_true. apply elem_of_cons.
Qed.

(** A call that does not send adds itself to the calls since the last packet. *)
Lemma last_sent_query o i past :
  (forall seq t s c, o <> Sent seq t s c) ->
  last_sent i (o :: past) =
    match last_sent i past with Some (s, info, since) => Some (s, info, o :: since) | None => None end.
Proof. intros H. destruct o; try done. by destruct (H seq send_time size cluster). Qed.

(** It leaves a slot alone unless it asks for the packet in it. *)
Lemma slot_holds_other e o past i :
  (forall seq t s c, o <> Sent seq t s c) ->
  (forall seq, (o = Consume seq \/ o = ReportLoss seq) ->
     match last_sent i past with
     | Some (s, _, since) => s <> seq \/ received_consumed e = true \/
         (o = ReportLoss seq /\ loss_reported e = true)
     | None => True end) ->
  slot_holds e (last_sent i past) -> slot_holds e (last_sent i (o :: past)).
Proof.
  intros Hq Ho He. rewrite last_sent_query by done.
  destruct (last_sent i past) as [[[s info] since]|]; [|done]. cbn [slot_holds] in *.
  destruct He as (Hv & Hs & Hi & Hc & Hl). rewrite !since_has_cons.
  destruct (bool_decide_reflect (Consume s = o)) as [<-|Hnc].
  - destruct (Ho s (or_introl eq_refl)) as [?|[Hcons|[? ?]]]; [done| |done].
    split_and!; try done.
  - cbn [orb]. split_and!; try done. intros Hr. rewrite (Hl Hr).
    destruct (bool_decide_reflect (ReportLoss s = o)) as [<-|]; [|done]. cbn [orb].
    destruct (Ho s (or_intror eq_refl)) as [?|[?|[_ ?]]]; [done|congruence|]. rewrite <- (Hl Hr). done.
Qed.

Lemma slot_entry h past seq :
  hist_inv h past -> slot_holds (hist_entry h seq) (last_sent (hist_slot seq) past).
Proof.
  intros [Hl Hs]. apply Hs. pose proof (hist_slot_range seq).
  unfold zlen, SFU_TWCC_HISTORY_CAPACITY in Hl. lia.
Qed.

(** Overwriting the slot of a call keeps the other slots. *)
Lemma hist_inv_insert h past o seq e :
  hist_inv h past ->
  slot_holds e (last_sent (hist_slot seq) (o :: past)) ->
  (forall i, i <> hist_slot seq -> slot_holds (nth i h zero_hist) (last_sent i past) ->
     slot_holds (nth i h zero_hist) (last_sent i (o :: past))) ->
  hist_inv (<[hist_slot seq := e]> h) (o :: past).
Proof.
  intros [Hl Hs] He Hoth. constructor; [unfold zlen in *; by rewrite length_insert|].
  intros i Hi. rewrite length_insert in Hi. rewrite nth_lookup.
  destruct (decide (i = hist_slot seq)) as [->|Hne].
  - by rewrite list_lookup_insert_eq.
  - rewrite list_lookup_insert_ne, <- nth_lookup by done. auto.
Qed.

Lemma last_sent_slot i past s info since : last_sent i past = Some (s, info, since) -> hist_slot s = i.
Proof.
  revert info since. induction past as [|o past IH]; [done|]. intros info since E.
  destruct o; cbn [last_sent] in E.
  1: destruct (decide (hist_slot seq = i)); [congruence|].
  all: destruct (last_sent i past) as [[[s' i'] since']|]; [|done]; injection E as -> -> <-; by eapply IH.
Qed.

(** A query that changes nothing. *)
Lemma hist_inv_query h past o :
  hist_inv h past -> (forall seq t s c, o <> Sent seq t s c) ->
  (forall seq, (o = Consume seq \/ o = ReportLoss seq) ->
     match last_sent (hist_slot seq) past with
     | Some (s, _, since) => s <> seq \/ received_consumed (hist_entry h seq) = true \/
         (o = ReportLoss seq /\ loss_reported (hist_entry h seq) = true)
     | None => True end) ->
  hist_inv h (o :: past).
Proof.
  intros [Hl Hs] Hq Ho. constructor; [done|]. intros i Hi. apply slot_holds_other; [done| |by apply Hs].
  intros seq Hseq. specialize (Ho seq Hseq). destruct (decide (i = hist_slot seq)) as [->|Hne]; [done|].
  destruct (last_sent i past) as [[[s info] since]|] eqn:E; [|done]. left. intros ->.
  apply Hne. by apply last_sent_slot in E.
Qed.

(** A query that marks the entry of the packet it asks for. *)
Lemma hist_inv_mark h past o seq e :
  hist_inv h past -> o = Consume seq \/ o = ReportLoss seq ->
  slot_holds e (last_sent (hist_slot seq) (o :: past)) ->
  hist_inv (<[hist_slot seq := e]> h) (o :: past).
Proof.
  intros Hinv Ho He. apply hist_inv_insert; [done|done|]. intros i Hne Hi.
  apply slot_holds_other; [ |  |done]; [destruct Ho; by subst o|]. intros seq' Ho'.
  assert (seq' = seq) as -> by (destruct Ho, Ho'; subst o; congruence).
  destruct (last_sent i past) as [[[s info] since]|] eqn:E; [|done]. left. intros ->.
  by apply last_sent_slot in E.
Qed.

(** One call answers as specified and keeps the correspondence. *)
Lemma hist_step_spec h past o :
  hist_inv h past ->
  let '(r, h') := hist_step h o in r = spec_answer past o /\ hist_inv h' (o :: past).
Proof.
  intros Hinv. destruct o as [seq t s c|seq|seq|seq]; cbn [hist_step spec_answer].
  - assert (Hrec : forall e, slot_holds e (Some (seq, sent_as t s c, [])) ->
      hist_inv (<[hist_slot seq := e]> h) (Sent seq t s c :: past)).
    { intros e He. apply hist_inv_insert; [done| |].
      - cbn [last_sent]. by rewrite decide_True.
      - intros i Hne Hi. cbn [last_sent]. rewrite decide_False by done.
        destruct (last_sent i past) as [[[s' i'] since]|]; [|done]. cbn [slot_holds] in *.
        rewrite !since_has_cons. by rewrite !bool_decide_eq_false_2 by done. }
    destruct c; (split; [done|]); by apply Hrec.
  - split.
    + f_equal. unfold sfu_twcc_history_lookup_ext, spec_lookup. pose proof (slot_entry h past seq Hinv) as He.
      destruct (last_sent (hist_slot seq) past) as [[[s info] since]|]; cbn [slot_holds] in He; [|by rewrite He].
      destruct He as (-> & -> & -> & _). by destruct (s =? seq).
    + apply hist_inv_query; [done|done|]. by intros ? [?|?].
  - unfold sfu_twcc_history_consume_received_ext, spec_lookup. pose proof (slot_entry h past seq Hinv) as He.
    destruct (last_sent (hist_slot seq) past) as [[[s info] since]|] eqn:E; cbn [slot_holds] in He.
    2: { rewrite He. cbn [negb orb]. split; [done|]. apply hist_inv_query; [done|done|].
         intros ? [ [= ->] |?]; [by rewrite E|done]. }
    destruct He as (Hv & Hs & Hi & Hc & Hl). rewrite Hv, Hs. cbn [negb orb].
    destruct (Z.eqb_spec s seq) as [->|Hne]; cbn [negb orb].
    + rewrite <- Hc. destruct (received_consumed (hist_entry h seq)) eqn:Hr.
      * split; [done|]. apply hist_inv_query; [done|done|]. intros ? [ [= <-] |?]; [|done]. rewrite E. auto.
      * split; [by rewrite Hi, Hl|]. apply hist_inv_mark; [done|by left|]. rewrite last_sent_query, E by done.
        cbn [slot_holds]. rewrite !since_has_cons, bool_decide_eq_true_2 by done. by split_and!.
    + split; [done|]. apply hist_inv_query; [done|done|]. intros ? [ [= <-] |?]; [|done]. rewrite E. auto.
  - unfold sfu_twcc_history_report_loss_once, spec_lookup. pose proof (slot_entry h past seq Hinv) as He.
    destruct (last_sent (hist_slot seq) past) as [[[s info] since]|] eqn:E; cbn [slot_holds] in He.
    2: { rewrite He. cbn [negb orb]. split; [done|]. apply hist_inv_query; [done|done|].
         intros ? [?| [= ->] ]; [done|by rewrite E]. }
    destruct He as (Hv & Hs & Hi & Hc & Hl). rewrite Hv, Hs. cbn [negb orb].
    destruct (Z.eqb_spec s seq) as [->|Hne]; cbn [negb orb].
    2: { split; [done|]. apply hist_inv_query; [done|done|]. intros ? [?| [= <-] ]; [done|]. rewrite E. auto. }
    rewrite <- Hc. destruct (received_consumed (hist_entry h seq)) eqn:Hr; cbn [negb orb andb].
    { split; [done|]. apply hist_inv_query; [done|done|]. intros ? [?| [= <-] ]; [done|]. rewrite E. auto. }
    rewrite <- Hl by done. destruct (loss_reported (hist_entry h seq)) eqn:Hlr; cbn [negb].
    { split; [done|]. apply hist_inv_query; [done|done|]. intros ? [?| [= <-] ]; [done|]. rewrite E. auto. }
    split; [done|]. apply hist_inv_mark; [done|by right|]. rewrite last_sent_query, E by done.
    cbn [slot_holds]. rewrite !since_has_cons, (bool_decide_eq_true_2 (ReportLoss seq = _)) by done.
    rewrite bool_decide_eq_false_2 by done. split_and!; try done. cbn. by rewrite Hr.
Qed.

Lemma hist_run_spec h past ops : hist_inv h past -> hist_run h ops = spec_run past ops.
Proof.
  revert h past. induction ops as [|o ops IH]; intros h past Hinv; [done|]. cbn [hist_run spec_run].
  pose proof (hist_step_spec h past o Hinv) as Hs. destruct (hist_step h o) as [r h']. destruct Hs as [-> Hinv'].
  f_equal. by apply IH.
Qed.

Lemma hist_init_inv : hist_inv sfu_twcc_history_init [].
Proof.
  unfold sfu_twcc_history_init. constructor; [by apply zlen_replicate|]. intros i Hi. cbn [last_sent slot_holds].
  rewrite length_replicate in Hi. by rewrite nth_lookup, lookup_replicate_2.
Qed.

(** C37: For any sequence of calls on the send history, every answer is the one its
    past determines: a packet is known iff it is the last one sent in its ring
    slot; it is handed out as received at most once per sending, with the data
    recorded and the fact whether its loss was reported meanwhile; its loss is
    reported at most once and never after it was received. *)
Theorem history_answers_past ops : hist_run sfu_twcc_history_init ops = spec_run [] ops.
Proof. apply hist_run_spec, hist_init_inv. Qed.
