(* ===== verification/Bandwidth.v ===== *)
(** The downlink bandwidth allocator, [src/congestion/bandwidth_allocator.c]:
    selection and ordering of the streams, the filling of the classes and the
    totals per publisher. *)

From S2P Require Import Prelude.
From Stdlib Require Import Sorted.

Definition MAX_STREAMS : Z := 16.
Definition STREAM_CAMERA : Z := 1.
Definition STREAM_SCREEN : Z := 2.

(** The fields of [g_sfu_config] the allocator reads; zero means "default". *)
Record policy := mk_policy {
  cfg_pool_percent : Z;
  cfg_admission_bps : Z;
  cfg_screen_preferred_bps : Z;
  cfg_screen_mid_bps : Z;
  cfg_screen_cap_bps : Z;
  cfg_camera_mid_bps : Z;
  cfg_camera_cap_bps : Z
}.

Record stream_input := mk_input {
  in_publisher : Z;
  in_slot : Z;
  in_generation : Z;
  in_kind : Z;
  in_active : bool
}.
Record stream_alloc := mk_alloc {
  al_publisher : Z;
  al_slot : Z;
  al_generation : Z;
  al_kind : Z;
  al_bps : Z
}.
Record publisher_alloc := mk_pub { pub_id : Z; pub_bps : Z }.
Record bandwidth_allocation := mk_allocation {
  estimated_bps : Z;
  reserve_bps : Z;
  video_pool_bps : Z;
  allocated_bps : Z;
  unallocated_bps : Z;
  streams : list stream_alloc;
  publishers : list publisher_alloc
}.

(** ** Selection *)

Definition stream_key_less (a b : stream_input) : bool :=
  if negb (in_slot a =? in_slot b) then in_slot a <? in_slot b
  else if negb (in_publisher a =? in_publisher b) then in_publisher a <? in_publisher b
  else if negb (in_kind a =? in_kind b) then in_kind a <? in_kind b
  else in_generation a <? in_generation b.
Definition same_stream_key (a b : stream_input) : bool :=
  (in_publisher a =? in_publisher b) && (in_slot a =? in_slot b) &&
  (in_generation a =? in_generation b) && (in_kind a =? in_kind b).

(** The shift loop, on the part of [order] before the hole, last element first. *)
Fixpoint shift_insert (x : stream_input) (before : list stream_input) : list stream_input :=
  match before with
  | [] => [x]
  | y :: before => if stream_key_less x y then y :: shift_insert x before else x :: y :: before
  end.

(** One round of the selection loop; [order] holds the inputs themselves. *)
Definition select_one (order : list stream_input) (x : stream_input) : list stream_input :=
  if negb (in_active x) || (in_publisher x =? 0) ||
     (negb (in_kind x =? STREAM_CAMERA) && negb (in_kind x =? STREAM_SCREEN)) then order else
  if existsb (same_stream_key x) order then order else
  match rev order with
  | last :: before =>
      if (zlen order =? MAX_STREAMS) && negb (stream_key_less x last) then order
      else if zlen order <? MAX_STREAMS then rev (shift_insert x (last :: before))
      else rev (shift_insert x before)
  | [] => [x]
  end.
Definition select_streams (inputs : list stream_input) : list stream_input := fold_left select_one inputs [].

(** The second loop copies the selected inputs, dropping adjacent repeats. *)
Fixpoint copy_streams (prev : option stream_input) (order : list stream_input) : list stream_alloc :=
  match order with
  | [] => []
  | x :: order =>
      let rest := copy_streams (Some x) order in
      if match prev with Some y => same_stream_key x y | None => false end then rest
      else mk_alloc (in_publisher x) (in_slot x) (in_generation x) (in_kind x) 0 :: rest
  end.

(** ** Filling *)

Definition eligible (kind target : Z) (s : stream_alloc) : bool :=
  (al_kind s =? kind) && (al_bps s <? target).
Definition set_bps (s : stream_alloc) (bps : Z) : stream_alloc :=
  mk_alloc (al_publisher s) (al_slot s) (al_generation s) (al_kind s) bps.
Fixpoint need_of (kind target : Z) (ss : list stream_alloc) : Z :=
  match ss with
  | [] => 0
  | s :: ss => (if eligible kind target s then target - al_bps s else 0) + need_of kind target ss
  end.

(** The proportional loop over the eligible streams, [i] counting them. *)
Fixpoint share_loop (kind target share remainder i : Z) (ss : list stream_alloc) (remaining : Z)
  : list stream_alloc * Z :=
  match ss with
  | [] => ([], remaining)
  | s :: ss =>
      if eligible kind target s then
        let increment := share + (if i <? remainder then 1 else 0) in
        let deficit := target - al_bps s in
        let increment := if deficit <? increment then deficit else increment in
        let s := set_bps s (u32 (al_bps s + u32 increment)) in
        let '(ss, remaining) := share_loop kind target share remainder (i + 1) ss (u64 (remaining - increment)) in
        (s :: ss, remaining)
      else
        let '(ss, remaining) := share_loop kind target share remainder i ss remaining in
        (s :: ss, remaining)
  end.

Definition fill_class (ss : list stream_alloc) (kind target remaining : Z) : list stream_alloc * Z :=
  let eligible_count := zlen (List.filter (eligible kind target) ss) in
  let need := u64 (need_of kind target ss) in
  if (eligible_count =? 0) || (remaining =? 0) then (ss, remaining)
  else if need <=? remaining then
    (map (fun s => if eligible kind target s then set_bps s target else s) ss, u64 (remaining - need))
  else share_loop kind target (remaining / eligible_count) (remaining mod eligible_count) 0 ss remaining.

(** ** Totals *)

Fixpoint add_publisher (pubs : list publisher_alloc) (id bps : Z) : list publisher_alloc :=
  let bump p := let total := pub_bps p + bps in
                mk_pub (pub_id p) (if UINT32_MAX <? total then UINT32_MAX else total) in
  match pubs with
  | [] => [bump (mk_pub id 0)]
  | p :: pubs => if pub_id p =? id then bump p :: pubs else p :: add_publisher pubs id bps
  end.

Definition policy_value (configured fallback : Z) : Z := if negb (configured =? 0) then configured else fallback.

Definition has_screen (ss : list stream_alloc) : bool := existsb (fun s => al_kind s =? STREAM_SCREEN) ss.

(** The sequence of fills. *)
Definition fill_all (cfg : policy) (ss : list stream_alloc) (pool : Z) : list stream_alloc * Z :=
  let admission_bps := policy_value (cfg_admission_bps cfg) 240000 in
  let screen_preferred_bps := policy_value (cfg_screen_preferred_bps cfg) 2000000 in
  let screen_mid_bps := policy_value (cfg_screen_mid_bps cfg) 3000000 in
  let screen_cap_bps := policy_value (cfg_screen_cap_bps cfg) 3500000 in
  let camera_mid_bps := policy_value (cfg_camera_mid_bps cfg) 720000 in
  let camera_cap_bps := policy_value (cfg_camera_cap_bps cfg) 1000000 in
  let screens := has_screen ss in
  let '(ss, remaining) := fill_class ss STREAM_SCREEN (if admission_bps <? screen_cap_bps then admission_bps else screen_cap_bps) pool in
  let '(ss, remaining) := fill_class ss STREAM_SCREEN screen_preferred_bps remaining in
  let '(ss, remaining) := fill_class ss STREAM_CAMERA (if admission_bps <? camera_cap_bps then admission_bps else camera_cap_bps) remaining in
  if screens then
    let '(ss, remaining) := fill_class ss STREAM_SCREEN screen_mid_bps remaining in
    fill_class ss STREAM_SCREEN screen_cap_bps remaining
  else
    let '(ss, remaining) := fill_class ss STREAM_CAMERA camera_mid_bps remaining in
    fill_class ss STREAM_CAMERA camera_cap_bps remaining.

Definition sfu_bandwidth_allocate (cfg : policy) (inputs : list stream_input) (estimated : Z) : bandwidth_allocation :=
  let pool_percent := policy_value (cfg_pool_percent cfg) 85 in
  let pool := u64 (u64 (estimated / 100 * pool_percent) + u64 (estimated mod 100 * pool_percent) / 100) in
  let reserve := u64 (estimated - pool) in
  if (zlen inputs =? 0) || (pool =? 0) then mk_allocation estimated reserve pool 0 pool [] []
  else
    let ss := copy_streams None (select_streams inputs) in
    let '(ss, _) := fill_all cfg ss pool in
    let allocated := fold_left (fun n s => u64 (n + al_bps s)) ss 0 in
    let pubs := fold_left (fun pubs s => add_publisher pubs (al_publisher s) (al_bps s)) ss [] in
    mk_allocation estimated reserve pool allocated (u64 (pool - allocated)) ss pubs.

Definition sfu_bandwidth_has_unmet_demand (cfg : policy) (a : bandwidth_allocation) : bool :=
  if zlen (streams a) =? 0 then false else
  let screen_cap_bps := policy_value (cfg_screen_cap_bps cfg) 3500000 in
  let camera_cap_bps := policy_value (cfg_camera_cap_bps cfg) 1000000 in
  let admission_bps := policy_value (cfg_admission_bps cfg) 240000 in
  let screens := has_screen (streams a) in
  existsb (fun s =>
    if al_kind s =? STREAM_SCREEN then al_bps s <? screen_cap_bps
    else if al_kind s =? STREAM_CAMERA then
      al_bps s <? (if screens then (if admission_bps <? camera_cap_bps then admission_bps else camera_cap_bps)
                   else camera_cap_bps)
    else false) (streams a).

(** What a run adds to the metrics: runs, active streams, unallocated bits,
    screen at its preferred rate, screen below it, camera deferred. *)
Definition record_allocation_metrics (a : bandwidth_allocation) (screen_preferred_bps admission_bps : Z)
  : Z * Z * Z * bool * bool * bool :=
  let screens := List.filter (fun s => al_kind s =? STREAM_SCREEN) (streams a) in
  let cameras := List.filter (fun s => al_kind s =? STREAM_CAMERA) (streams a) in
  (1, zlen (streams a), unallocated_bps a,
   existsb (fun s => screen_preferred_bps <=? al_bps s) screens,
   existsb (fun s => al_bps s <? screen_preferred_bps) screens,
   negb (zlen screens =? 0) && existsb (fun s => al_bps s <=? admission_bps) cameras).

(** * Filling a class *)

Fixpoint total_bps (ss : list stream_alloc) : Z :=
  match ss with [] => 0 | s :: ss => al_bps s + total_bps ss end.

Definition of_kind (kind : Z) (s : stream_alloc) : Prop := al_kind s = kind.
Definition all_of (kind : Z) (P : Z -> Prop) (ss : list stream_alloc) : Prop :=
  Forall (fun s => of_kind kind s -> P (al_bps s)) ss.

(** The streams of a class are within one bit per second of each other, and
    equal as long as there is anything left to give. *)
Definition class_fair (kind : Z) (ss : list stream_alloc) (remaining : Z) : Prop :=
  exists lo, all_of kind (fun b => lo <= b <= lo + 1) ss /\ (remaining = 0 \/ all_of kind (fun b => b = lo) ss).

(** [s'] is [s] with no less bandwidth, and more only in the class up to the target. *)
Definition grown (kind target : Z) (s s' : stream_alloc) : Prop :=
  s' = set_bps s (al_bps s') /\ al_bps s <= al_bps s' /\
  (al_bps s' <> al_bps s -> of_kind kind s /\ al_bps s' <= target).

Lemma grown_self kind target s : grown kind target s s.
Proof. destruct s. by split_and!. Qed.
Lemma grown_refl kind target ss : Forall2 (grown kind target) ss ss.
Proof. induction ss; constructor; auto using grown_self. Qed.

Definition bps_ok (s : stream_alloc) : Prop := is_u32 (al_bps s).
Definition eligible_count (kind target : Z) (ss : list stream_alloc) : Z := zlen (List.filter (eligible kind target) ss).

Lemma eligible_uniform kind target v s :
  (of_kind kind s -> al_bps s = v) -> v < target -> eligible kind target s = (al_kind s =? kind).
Proof.
  unfold eligible, of_kind. intros H Hv. destruct (Z.eqb_spec (al_kind s) kind); [|done].
  rewrite H by done. cbn [andb]. lia.
Qed.

Lemma share_loop_spec kind target share remainder v i ss r :
  all_of kind (fun b => b = v) ss -> 0 <= v < target -> is_u32 target ->
  0 <= share -> share + 1 <= target - v -> 0 <= remainder -> 0 <= i ->
  let c := eligible_count kind target ss in
  let used := c * share + Z.max 0 (Z.min c (remainder - i)) in
  used <= r -> is_u64 r ->
  let '(ss', r') := share_loop kind target share remainder i ss r in
  Forall2 (grown kind target) ss ss' /\ r' = r - used /\ total_bps ss' = total_bps ss + used /\
  all_of kind (fun b => v + share <= b <= v + share + 1) ss'.
Proof.
  intros Hv Hvt Ht Hsh Hd Hrem. revert i r. induction Hv as [|s ss Hs Hss IH]; intros i r Hi.
  { cbn. intros. change (eligible_count kind target []) with 0 in *. split_and!; [constructor|lia|lia|constructor]. }
  unfold eligible_count in *. cbn [List.filter share_loop].
  rewrite (eligible_uniform kind target v s) by (done || lia). unfold is_u32, is_u64 in *.
  destruct (Z.eqb_spec (al_kind s) kind) as [Hk|Hk].
  - rewrite zlen_cons. set (c := zlen (List.filter (eligible kind target) ss)) in *. cbv zeta. intros Hu Hr.
    assert (0 <= c) by apply zlen_nonneg. rewrite (Hs Hk). 
    set (inc := share + (if i <? remainder then 1 else 0)).
    assert (Hinc : 0 <= inc <= target - v) by (unfold inc; destruct (i <? remainder); lia).
    rewrite (proj2 (Z.ltb_ge (target - v) inc)) by lia.
    replace (u32 inc) with inc by dlia. replace (u32 (v + inc)) with (v + inc) by dlia.
    assert (Hui : inc + (c * share + Z.max 0 (Z.min c (remainder - (i + 1)))) =
                  (1 + c) * share + Z.max 0 (Z.min (1 + c) (remainder - i))).
    { unfold inc. destruct (Z.ltb_spec i remainder); lia. }
    assert (0 <= c * share) by nia. replace (u64 (r - inc)) with (r - inc) by dlia.
    specialize (IH (i + 1) (r - inc) ltac:(lia)). cbv zeta in IH. specialize (IH ltac:(lia) ltac:(lia)).
    destruct (share_loop _ _ _ _ _ ss (r - inc)) as [ss' r']. destruct IH as (Hg & Hr' & Htot & Hall).
    split_and!.
    + constructor; [|done]. unfold grown, set_bps. cbn. rewrite (Hs Hk). split_and!; [done|lia|]. intros _. split; [done|lia].
    + lia.
    + cbn [total_bps set_bps al_bps]. rewrite (Hs Hk). lia.
    + constructor; [|done]. intros _. cbn [set_bps al_bps]. unfold inc. destruct (i <? remainder); lia.
  - cbv zeta. intros Hu Hr. specialize (IH i r Hi Hu Hr).
    destruct (share_loop _ _ _ _ _ ss r) as [ss' r']. destruct IH as (Hg & Hr' & Htot & Hall).
    split_and!; [constructor; [apply grown_self|done]|done|cbn [total_bps]; lia|].
    constructor; [by intros ?|done].
Qed.

Lemma need_uniform kind target v ss :
  all_of kind (fun b => b = v) ss -> v < target ->
  need_of kind target ss = eligible_count kind target ss * (target - v).
Proof.
  intros H Hv. unfold eligible_count. induction H as [|s ss Hs _ IH]; [done|]. cbn [need_of List.filter].
  rewrite (eligible_uniform kind target v s) by done. destruct (Z.eqb_spec (al_kind s) kind) as [Hk|]; [|done].
  rewrite zlen_cons, IH, (Hs Hk). lia.
Qed.

Record filled (kind target : Z) (ss : list stream_alloc) (r : Z) (ss' : list stream_alloc) (r' : Z) : Prop := {
  f_grown : Forall2 (grown kind target) ss ss';
  f_sum : r' + total_bps ss' = r + total_bps ss;
  f_remaining : 0 <= r' <= r;
  f_fair : class_fair kind ss' r';
  f_full : r' = 0 \/ all_of kind (fun b => target <= b) ss'
}.

Lemma fill_to_target kind target v ss :
  all_of kind (fun b => b = v) ss -> v < target -> 
  let ss' := map (fun s => if eligible kind target s then set_bps s target else s) ss in
  Forall2 (grown kind target) ss ss' /\
  total_bps ss' = total_bps ss + eligible_count kind target ss * (target - v) /\
  all_of kind (fun b => b = target) ss'.
Proof.
  intros H Hv ss'. subst ss'. unfold eligible_count. induction H as [|s ss Hs _ IH]; [cbn; split_and!; [constructor|done|constructor]|].
  destruct IH as (Hg & Ht & Ha). cbn [map List.filter].
  rewrite (eligible_uniform kind target v s) by done. destruct (Z.eqb_spec (al_kind s) kind) as [Hk|Hk].
  - specialize (Hs Hk). split_and!.
    + constructor; [|done]. unfold grown, set_bps. cbn. rewrite Hs. split_and!; [done|lia|]. intros _. split; [done|lia].
    + cbn [total_bps set_bps al_bps]. rewrite zlen_cons, Hs. lia.
    + by constructor.
  - split_and!; [constructor; [apply grown_self|done]|cbn [total_bps]; lia|constructor; [by intros ?|done]].
Qed.

Lemma filter_length_le {A} (f : A -> bool) l : zlen (List.filter f l) <= zlen l.
Proof. induction l as [|x l IH]; [done|]. cbn [List.filter]. destruct (f x); rewrite ?zlen_cons; lia. Qed.

Lemma class_fair_mono kind ss r r' : class_fair kind ss r -> r' = 0 \/ r' = r -> class_fair kind ss r'.
Proof. intros (lo & H1 & H2) H. exists lo. split; [done|]. destruct H as [->| ->]; auto. Qed.

Lemma no_eligible kind target v ss :
  all_of kind (fun b => b = v) ss -> v < target -> eligible_count kind target ss = 0 ->
  all_of kind (fun b => target <= b) ss.
Proof.
  unfold eligible_count. intros H Hv. induction H as [|s ss Hs Hss IH]; intros Hc; [constructor|].
  cbn [List.filter] in Hc. rewrite (eligible_uniform kind target v s) in Hc by done.
  destruct (Z.eqb_spec (al_kind s) kind) as [Hk|Hk].
  - rewrite zlen_cons in Hc. zlen_pos. lia.
  - constructor; [by intros ?|by apply IH].
Qed.

(** Filling a class hands out what is left, up to the target, equally. *)
Lemma fill_class_spec kind target ss r :
  Forall bps_ok ss -> zlen ss <= MAX_STREAMS -> is_u32 target -> is_u64 r -> class_fair kind ss r ->
  let '(ss', r') := fill_class ss kind target r in filled kind target ss r ss' r'.
Proof.
  intros Hok Hlen Ht Hr Hfair. unfold fill_class. fold (eligible_count kind target ss).
  unfold is_u32, is_u64, MAX_STREAMS in *.
  pose proof (zlen_nonneg (List.filter (eligible kind target) ss)) as Hc. fold (eligible_count kind target ss) in Hc.
  assert (Hc16 : eligible_count kind target ss <= 16)
    by (pose proof (filter_length_le (eligible kind target) ss); unfold eligible_count; lia).
  destruct (Z.eqb_spec r 0) as [->|Hrne].
  { rewrite orb_true_r. constructor; try done; auto using grown_refl. }
  rewrite orb_false_r. pose proof Hfair as (v & Hrange & [?|Hv]); [done|].
  destruct (Z.lt_ge_cases v target) as [Hlt|Hge].
  2: { assert (eligible_count kind target ss = 0) as ->.
       { unfold eligible_count. clear -Hv Hge. induction Hv as [|s ss Hs _ IH]; [done|]. cbn [List.filter].
         unfold eligible. destruct (Z.eqb_spec (al_kind s) kind) as [Hk|]; [|done]. rewrite (Hs Hk). cbn [andb].
         by rewrite (proj2 (Z.ltb_ge v target)). }
       constructor; auto using grown_refl; [lia|]. right.
       eapply Forall_impl; [|exact Hv]. cbn. intros s Hs Hk. rewrite (Hs Hk). lia. }
  destruct (Z.eqb_spec (eligible_count kind target ss) 0) as [Hz|Hnz].
  { constructor; auto using grown_refl; [lia|]. right. by eapply no_eligible. }
  assert (Hv0 : 0 <= v).
  { clear -Hv Hnz Hok. unfold eligible_count in Hnz. induction Hv as [|s ss Hs _ IH]; [done|].
    inversion_clear Hok as [|? ? Hb Hok']. cbn [List.filter] in Hnz. unfold eligible at 1 in Hnz.
    destruct (Z.eqb_spec (al_kind s) kind) as [Hk|]; [rewrite <- (Hs Hk); apply Hb|auto]. }
  rewrite (need_uniform kind target v ss Hv Hlt). set (c := eligible_count kind target ss) in *.
  replace (u64 (c * (target - v))) with (c * (target - v)) by (unfold u64; rewrite Z.mod_small; nia).
  destruct (Z.leb_spec (c * (target - v)) r) as [Henough|Hshort].
  - destruct (fill_to_target kind target v ss Hv Hlt) as (Hg & Htot & Ha). fold c in Htot.
    replace (u64 (r - c * (target - v))) with (r - c * (target - v)) by (unfold u64; rewrite Z.mod_small; nia).
    constructor; [done|lia|nia| |].
    + exists target. split; [|by right]. eapply Forall_impl; [|exact Ha]. cbn. intros s Hs Hk. rewrite (Hs Hk). lia.
    + right. eapply Forall_impl; [|exact Ha]. cbn. intros s Hs Hk. rewrite (Hs Hk). lia.
  - pose proof (Z.div_mod r c ltac:(lia)) as Hdm. pose proof (Z.mod_pos_bound r c ltac:(lia)) as Hmod.
    assert (Hshare : 0 <= r / c < target - v) by (split; [apply Z.div_pos; lia|apply Z.div_lt_upper_bound; lia]).
    pose proof (share_loop_spec kind target (r / c) (r mod c) v 0 ss r Hv ltac:(lia) Ht ltac:(lia) ltac:(lia) ltac:(lia) ltac:(lia)) as Hsl.
    cbv zeta in Hsl. fold c in Hsl. rewrite Z.sub_0_r, Z.min_r, Z.max_r in Hsl by lia.
    specialize (Hsl ltac:(lia) Hr). destruct (share_loop _ _ _ _ _ _ _) as [ss' r']. destruct Hsl as (Hg & -> & Htot & Ha).
    constructor; [done|lia|lia| |left; lia]. exists (v + r / c). split; [done|left; lia].
Qed.

(** * The sequence of fills *)

Record pool_inv (pool : Z) (ss : list stream_alloc) (r : Z) : Prop := {
  pi_ok : Forall bps_ok ss;
  pi_len : zlen ss <= MAX_STREAMS;
  pi_remaining : is_u64 r;
  pi_sum : r + total_bps ss = pool;
  pi_camera : class_fair STREAM_CAMERA ss r;
  pi_screen : class_fair STREAM_SCREEN ss r
}.

Lemma grown_all_of kind target k (P : Z -> Prop) ss ss' :
  Forall2 (grown kind target) ss ss' ->
  (forall b b', P b -> b <= b' -> b' <> b -> k = kind -> b' <= target -> P b') ->
  all_of k P ss -> all_of k P ss'.
Proof.
  intros Hg HP. unfold all_of. induction Hg as [|s s' ss ss' (E & Hle & Hch) _ IH]; intros H; [constructor|].
  inversion_clear H as [|? ? Hs Hss]. constructor; [|by apply IH]. intros Hk.
  assert (Hk' : of_kind k s) by (unfold of_kind in *; rewrite E in Hk; exact Hk).
  destruct (decide (al_bps s' = al_bps s)) as [->|Hne]; [by apply Hs|].
  destruct (Hch Hne) as [Hkind Ht]. apply (HP (al_bps s)); auto. unfold of_kind in *. congruence.
Qed.

Lemma grown_other kind target k (P : Z -> Prop) ss ss' :
  Forall2 (grown kind target) ss ss' -> k <> kind -> all_of k P ss -> all_of k P ss'.
Proof. intros Hg Hk. eapply grown_all_of; [done|]. by intros. Qed.

Lemma class_fair_other kind target k ss r ss' r' :
  Forall2 (grown kind target) ss ss' -> k <> kind -> 0 <= r' <= r -> class_fair k ss r -> class_fair k ss' r'.
Proof.
  intros Hg Hk Hr (lo & H1 & H2). exists lo. split; [by eapply grown_other|].
  destruct H2 as [->|H2]; [left; lia|right; by eapply grown_other].
Qed.

Lemma grown_bps_ok kind target ss ss' :
  is_u32 target -> Forall2 (grown kind target) ss ss' -> Forall bps_ok ss -> Forall bps_ok ss'.
Proof.
  intros Ht Hg. induction Hg as [|s s' ss ss' (E & Hle & Hch) _ IH]; intros H; [constructor|].
  inversion_clear H as [|? ? Hs Hss]. constructor; [|by apply IH]. unfold bps_ok, is_u32 in *.
  destruct (decide (al_bps s' = al_bps s)) as [->|Hne]; [done|]. destruct (Hch Hne). lia.
Qed.

Lemma fill_step pool kind target ss r :
  kind = STREAM_CAMERA \/ kind = STREAM_SCREEN -> is_u32 target -> pool_inv pool ss r ->
  let '(ss', r') := fill_class ss kind target r in pool_inv pool ss' r' /\ filled kind target ss r ss' r'.
Proof.
  intros Hkind Ht [Hok Hlen Hr Hsum Hcam Hscr].
  assert (Hfair : class_fair kind ss r) by (destruct Hkind; by subst).
  pose proof (fill_class_spec kind target ss r Hok Hlen Ht Hr Hfair) as Hf.
  destruct (fill_class ss kind target r) as [ss' r']. split; [|done].
  destruct Hf as [Hg Hs Hr' Hf _]. pose proof (Forall2_length Hg) as Hl. constructor.
  - by eapply grown_bps_ok.
  - unfold zlen in *. lia.
  - unfold is_u64 in *. lia.
  - lia.
  - destruct Hkind as [->| ->]; [done|by eapply class_fair_other].
  - destruct Hkind as [->| ->]; [by eapply class_fair_other|done].
Qed.

Lemma fill_class_zero ss kind target : fill_class ss kind target 0 = (ss, 0).
Proof. unfold fill_class. by rewrite orb_true_r. Qed.

(** Streams and their classes stay what they are. *)
Definition same_stream (s s' : stream_alloc) : Prop := s' = set_bps s (al_bps s').
Lemma grown_same kind target ss ss' : Forall2 (grown kind target) ss ss' -> Forall2 same_stream ss ss'.
Proof. induction 1 as [|s s' ss ss' (E & _)]; by constructor. Qed.
Lemma same_stream_trans ss1 ss2 ss3 :
  Forall2 same_stream ss1 ss2 -> Forall2 same_stream ss2 ss3 -> Forall2 same_stream ss1 ss3.
Proof.
  intros H. revert ss3. induction H as [|s1 s2 l1 l2 E _ IH]; intros ss3 H3; inversion_clear H3 as [|? s3 ? l3 E3]; constructor; auto.
  unfold same_stream in *. rewrite E3, E. done.
Qed.

(** A list of fills, each a class and a target. *)
Fixpoint fill_list (ss : list stream_alloc) (r : Z) (l : list (Z * Z)) : list stream_alloc * Z :=
  match l with
  | [] => (ss, r)
  | (k, t) :: l => let '(ss, r) := fill_class ss k t r in fill_list ss r l
  end.
Definition fill_ok (f : Z * Z) : Prop := (fst f = STREAM_CAMERA \/ fst f = STREAM_SCREEN) /\ is_u32 (snd f).

Record fills_result (pool : Z) (l : list (Z * Z)) (ss : list stream_alloc) (r : Z) (ss' : list stream_alloc) (r' : Z) : Prop := {
  fr_inv : pool_inv pool ss' r';
  fr_same : Forall2 same_stream ss ss';
  fr_reached : forall k t, In (k, t) l -> r' = 0 \/ all_of k (fun b => t <= b) ss';
  fr_lower : forall k m, all_of k (fun b => m <= b) ss -> all_of k (fun b => m <= b) ss';
  fr_upper : forall k m, (forall t, In (k, t) l -> t <= m) -> all_of k (fun b => b <= m) ss -> all_of k (fun b => b <= m) ss';
  fr_less : r' <= r
}.

Lemma fill_list_spec pool l ss r :
  Forall fill_ok l -> pool_inv pool ss r ->
  let '(ss', r') := fill_list ss r l in fills_result pool l ss r ss' r'.
Proof.
  intros Hl. revert ss r. induction Hl as [|[k t] l [Hk Ht] _ IH]; intros ss r Hinv; cbn [fill_list].
  { constructor; try done. induction ss as [|s ss _]; constructor; [by destruct s|].
    clear. induction ss as [|[] ss]; by constructor. }
  pose proof (fill_step pool k t ss r Hk Ht Hinv) as Hf. destruct (fill_class ss k t r) as [ss1 r1].
  destruct Hf as [Hinv1 [Hg Hs Hr Hfair Hfull]]. specialize (IH ss1 r1 Hinv1).
  destruct (fill_list ss1 r1 l) as [ss2 r2]. destruct IH as [Hinv2 Hsame Hreach Hlow Hup Hless].
  assert (Hpos : 0 <= r2) by (destruct Hinv2 as [_ _ H _ _ _]; apply H). constructor; try done.
  - eapply same_stream_trans; [by eapply grown_same|done].
  - intros k' t' [[= -> ->]|Hin]; [|by apply Hreach]. destruct Hfull as [->|Hfull]; [left; lia|right; by apply Hlow].
  - intros k' m H. apply Hlow. eapply grown_all_of; [done| |done]. cbn. lia.
  - intros k' m Hm H. apply Hup; [intros; apply Hm; by right|].
    eapply grown_all_of; [done| |done]. cbn. intros b b' ? ? ? -> ?. specialize (Hm t (or_introl eq_refl)). lia.
  - lia.
Qed.

Lemma fill_list_app ss r l1 l2 :
  fill_list ss r (l1 ++ l2) = let '(ss, r) := fill_list ss r l1 in fill_list ss r l2.
Proof.
  revert ss r. induction l1 as [|[k t] l1 IH]; intros ss r; [done|]. cbn [app fill_list].
  destruct (fill_class ss k t r). apply IH.
Qed.

Lemma fill_list_zero ss l : fill_list ss 0 l = (ss, 0).
Proof. induction l as [|[k t] l IH]; [done|]. cbn [fill_list]. by rewrite fill_class_zero. Qed.

(** ** The fills of the allocator *)

Section Policy.
Context (cfg : policy).
Definition admission := policy_value (cfg_admission_bps cfg) 240000.
Definition screen_preferred := policy_value (cfg_screen_preferred_bps cfg) 2000000.
Definition screen_mid := policy_value (cfg_screen_mid_bps cfg) 3000000.
Definition screen_cap := policy_value (cfg_screen_cap_bps cfg) 3500000.
Definition camera_mid := policy_value (cfg_camera_mid_bps cfg) 720000.
Definition camera_cap := policy_value (cfg_camera_cap_bps cfg) 1000000.

Definition first_fills : list (Z * Z) :=
  [(STREAM_SCREEN, Z.min admission screen_cap); (STREAM_SCREEN, screen_preferred)].
Definition later_fills (screens : bool) : list (Z * Z) :=
  (STREAM_CAMERA, Z.min admission camera_cap) ::
  if screens then [(STREAM_SCREEN, screen_mid); (STREAM_SCREEN, screen_cap)]
  else [(STREAM_CAMERA, camera_mid); (STREAM_CAMERA, camera_cap)].

Lemma min_if a b : (if a <? b then a else b) = Z.min a b.
Proof. destruct (Z.ltb_spec a b); lia. Qed.

Lemma fill_all_list ss pool :
  fill_all cfg ss pool = fill_list ss pool (first_fills ++ later_fills (has_screen ss)).
Proof.
  unfold fill_all. rewrite !min_if. cbn [first_fills app fill_list].
  fold admission screen_preferred screen_mid screen_cap camera_mid camera_cap.
  destruct (fill_class ss _ _ _) as [ss1 r1]. cbn [fill_list]. destruct (fill_class ss1 _ _ _) as [ss2 r2].
  cbn [later_fills fill_list]. destruct (fill_class ss2 _ _ _) as [ss3 r3].
  destruct (has_screen ss); cbn [fill_list]; destruct (fill_class ss3 _ _ _) as [ss4 r4];
    by destruct (fill_class ss4 _ _ _).
Qed.

Definition policy_u32 : Prop :=
  is_u32 (cfg_admission_bps cfg) /\ is_u32 (cfg_screen_preferred_bps cfg) /\
  is_u32 (cfg_screen_mid_bps cfg) /\ is_u32 (cfg_screen_cap_bps cfg) /\ is_u32 (cfg_camera_mid_bps cfg) /\
  is_u32 (cfg_camera_cap_bps cfg).

Lemma policy_value_u32 c f : is_u32 c -> is_u32 f -> is_u32 (policy_value c f).
Proof. unfold policy_value. by destruct (negb (c =? 0)). Qed.

Lemma fills_ok screens : policy_u32 -> Forall fill_ok (first_fills ++ later_fills screens).
Proof.
  intros (Ha & Hp & Hm & Hc & Hcm & Hcc).
  apply (policy_value_u32 _ 240000) in Ha; [|done]. apply (policy_value_u32 _ 2000000) in Hp; [|done].
  apply (policy_value_u32 _ 3000000) in Hm; [|done]. apply (policy_value_u32 _ 3500000) in Hc; [|done].
  apply (policy_value_u32 _ 720000) in Hcm; [|done]. apply (policy_value_u32 _ 1000000) in Hcc; [|done].
  unfold first_fills, later_fills, fill_ok, admission, screen_preferred, screen_mid, screen_cap, camera_mid, camera_cap.
  unfold is_u32 in *. destruct screens; cbn [app];
    repeat (apply Forall_cons_2; [cbn [fst snd]; split; [by left + by right|lia]|]); apply Forall_nil_2.
Qed.

(** The targets of a class rise to its cap. *)
Definition policy_sane : Prop :=
  screen_preferred <= screen_cap /\ screen_mid <= screen_cap /\ camera_mid <= camera_cap.

Lemma start_inv pool ss :
  is_u64 pool -> zlen ss <= MAX_STREAMS -> Forall (fun s => al_bps s = 0) ss -> pool_inv pool ss pool.
Proof.
  intros Hpool Hlen Hz. assert (Hall : forall k (P : Z -> Prop), P 0 -> all_of k P ss).
  { intros k P HP. eapply Forall_impl; [|exact Hz]. cbn. by intros s ->. }
  constructor; try done.
  - eapply Forall_impl; [|exact Hz]. cbn. unfold bps_ok, is_u32. intros s ->. lia.
  - clear -Hz. induction Hz as [|s ss E _ IH]; [cbn; lia|]. cbn [total_bps]. lia.
  - exists 0. split; [apply Hall; lia|right; by apply Hall].
  - exists 0. split; [apply Hall; lia|right; by apply Hall].
Qed.

Lemma no_screens ss P : has_screen ss = false -> all_of STREAM_SCREEN P ss.
Proof.
  unfold has_screen, all_of, of_kind. induction ss as [|s ss IH]; intros H; [constructor|].
  cbn [existsb] in H. apply orb_false_iff in H as [H1 H2]. constructor; [|auto]. intros. lia.
Qed.

Lemma has_screen_same ss ss' : Forall2 same_stream ss ss' -> has_screen ss' = has_screen ss.
Proof.
  unfold has_screen. induction 1 as [|s s' ss ss' E _ IH]; [done|]. cbn [existsb]. rewrite IH. f_equal. by rewrite E.
Qed.

Lemma fill_all_spec pool ss :
  policy_u32 -> is_u64 pool -> zlen ss <= MAX_STREAMS -> Forall (fun s => al_bps s = 0) ss ->
  let '(ss', r') := fill_all cfg ss pool in
  pool_inv pool ss' r' /\ Forall2 same_stream ss ss' /\
  (all_of STREAM_CAMERA (fun b => b <= 0) ss' \/ all_of STREAM_SCREEN (fun b => screen_preferred <= b) ss') /\
  (r' = 0 \/ all_of STREAM_SCREEN (fun b => screen_cap <= b) ss' /\
     all_of STREAM_CAMERA (fun b => (if has_screen ss then Z.min admission camera_cap else camera_cap) <= b) ss') /\
  (policy_sane -> all_of STREAM_SCREEN (fun b => b <= screen_cap) ss' /\
                  all_of STREAM_CAMERA (fun b => b <= camera_cap) ss').
Proof.
  intros Hcfg Hpool Hlen Hz. rewrite fill_all_list. pose proof (fills_ok (has_screen ss) Hcfg) as Hok.
  pose proof (start_inv pool ss Hpool Hlen Hz) as Hinv.
  assert (Hzero : forall k m, 0 <= m -> all_of k (fun b => b <= m) ss).
  { intros k m Hm. eapply Forall_impl; [|exact Hz]. cbn. by intros s ->. }
  pose proof (fill_list_spec pool _ ss pool Hok Hinv) as Hall. rewrite fill_list_app in Hall |- *.
  apply Forall_app in Hok as [Hok1 Hok2]. pose proof (fill_list_spec pool _ ss pool Hok1 Hinv) as H1.
  destruct (fill_list ss pool first_fills) as [ss1 r1]. destruct H1 as [Hinv1 Hsame1 Hr1 _ Hu1 _].
  pose proof (fill_list_spec pool _ ss1 r1 Hok2 Hinv1) as H2.
  assert (H0 : r1 = 0 -> fill_list ss1 r1 (later_fills (has_screen ss)) = (ss1, 0)) by (intros ->; apply fill_list_zero).
  destruct (fill_list ss1 r1 _) as [ss2 r2]. destruct Hall as [Hinv2 Hsame Hreach _ Hup _]. split_and!; [done|done| | |].
  - destruct (Hr1 STREAM_SCREEN screen_preferred) as [->|Hpref]; [cbn; auto| |].
    + left. injection (H0 eq_refl) as -> _. apply Hu1; [|apply Hzero; lia]. intros t [[=]|[[=]|[]]].
    + right. by apply (fr_lower _ _ _ _ _ _ H2).
  - destruct (decide (r2 = 0)) as [|Hne]; [by left|]. right.
    assert (Hin : forall k t, In (k, t) (first_fills ++ later_fills (has_screen ss)) -> all_of k (fun b => t <= b) ss2).
    { intros k t Hkt. by destruct (Hreach k t Hkt). }
    destruct (has_screen ss) eqn:Hs; split; try (apply Hin; cbn; tauto).
    apply no_screens. rewrite (has_screen_same _ _ Hsame). done.
  - assert (Hp0 : forall f c, 0 < f -> 0 <= c -> 0 <= policy_value c f)
      by (intros f c ? ?; unfold policy_value; destruct (negb (c =? 0)); lia).
    destruct Hcfg as (Ha & _ & _ & Hc & _ & Hcc). unfold is_u32 in *.
    intros (Hs1 & Hs2 & Hs3). split; apply Hup; try (apply Hzero; apply Hp0; lia).
    all: intros t Hin; destruct (has_screen ss); cbn in Hin;
      repeat (destruct Hin as [E|Hin]; [pose proof (f_equal fst E); pose proof (f_equal snd E);
        cbn in *; unfold STREAM_CAMERA, STREAM_SCREEN in *; lia|]); done.
Qed.
End Policy.

(** * Which streams are allocated *)

Definition less (a b : stream_input) : Prop := stream_key_less a b = true.
Definition same_key (a b : stream_input) : Prop := same_stream_key a b = true.

Lemma less_spec a b :
  less a b <->
  in_slot a < in_slot b \/
  in_slot a = in_slot b /\ (in_publisher a < in_publisher b \/
    in_publisher a = in_publisher b /\ (in_kind a < in_kind b \/
      in_kind a = in_kind b /\ in_generation a < in_generation b)).
Proof.
  unfold less, stream_key_less. destruct (Z.eqb_spec (in_slot a) (in_slot b)); cbn [negb]; [|rewrite Z.ltb_lt; lia].
  destruct (Z.eqb_spec (in_publisher a) (in_publisher b)); cbn [negb]; [|rewrite Z.ltb_lt; lia].
  destruct (Z.eqb_spec (in_kind a) (in_kind b)); cbn [negb]; rewrite Z.ltb_lt; lia.
Qed.
Lemma same_key_spec a b :
  same_key a b <-> in_publisher a = in_publisher b /\ in_slot a = in_slot b /\
    in_generation a = in_generation b /\ in_kind a = in_kind b.
Proof. unfold same_key, same_stream_key. rewrite !andb_true_iff, !Z.eqb_eq. tauto. Qed.

Lemma less_trans a b c : less a b -> less b c -> less a c.
Proof. rewrite !less_spec. lia. Qed.
Lemma less_total a b : less a b \/ same_key a b \/ less b a.
Proof. rewrite !less_spec, same_key_spec. lia. Qed.
Lemma less_not_same a b : less a b -> same_key a b -> False.
Proof. rewrite less_spec, same_key_spec. lia. Qed.
Lemma same_key_sym a b : same_key a b -> same_key b a.
Proof. rewrite !same_key_spec. intuition. Qed.
Lemma same_key_less a b c : same_key a b -> less c a -> less c b.
Proof. rewrite !less_spec, same_key_spec. lia. Qed.

Definition valid_input (x : stream_input) : Prop :=
  in_active x = true /\ in_publisher x <> 0 /\ (in_kind x = STREAM_CAMERA \/ in_kind x = STREAM_SCREEN).

Definition greater (a b : stream_input) : Prop := less b a.

Lemma shift_insert_in x l y : In y (shift_insert x l) <-> y = x \/ In y l.
Proof.
  induction l as [|z l IH]; cbn [shift_insert]; [cbn; intuition|].
  destruct (stream_key_less x z); cbn [In]; [rewrite IH|]; cbn [In]; intuition.
Qed.
Lemma shift_insert_length x l : zlen (shift_insert x l) = 1 + zlen l.
Proof.
  induction l as [|z l IH]; cbn [shift_insert]; [done|].
  destruct (stream_key_less x z); rewrite !zlen_cons; lia.
Qed.

Lemma shift_insert_sorted x l :
  StronglySorted greater l -> Forall (fun y => ~ same_key x y) l -> StronglySorted greater (shift_insert x l).
Proof.
  induction 1 as [|z l Hs IH Hz]; intros Hn; cbn [shift_insert]; [repeat constructor|].
  inversion_clear Hn as [|? ? Hxz Hn']. destruct (stream_key_less x z) eqn:E.
  - constructor; [by apply IH|]. apply List.Forall_forall. intros y Hy. apply shift_insert_in in Hy as [->|Hy]; [exact E|].
    rewrite List.Forall_forall in Hz. auto.
  - assert (Hg : less z x).
    { destruct (less_total x z) as [H|[H|H]]; [unfold less in H; congruence|done|done]. }
    constructor; [by constructor|]. constructor; [exact Hg|].
    eapply List.Forall_impl; [|exact Hz]. intros y Hy. by eapply less_trans.
Qed.

(** The selection so far, last stream first: at most sixteen streams in strict
    order, and every valid input seen is among them or behind all of them. *)
Record selection (seen : list stream_input) (rorder : list stream_input) : Prop := {
  sel_sorted : StronglySorted greater rorder;
  sel_length : zlen rorder <= MAX_STREAMS;
  sel_from : forall x, In x rorder -> In x seen /\ valid_input x;
  sel_smallest : forall x, In x seen -> valid_input x ->
    (exists y, In y rorder /\ same_key x y) \/
    zlen rorder = MAX_STREAMS /\ forall y, In y rorder -> less y x
}.

Lemma selection_skip seen rorder x :
  selection seen rorder -> ~ valid_input x -> selection (seen ++ [x]) rorder.
Proof.
  intros [Hs Hl Hf Hm] Hx. constructor; [done|done| |].
  - intros y Hy. destruct (Hf y Hy). split; [apply in_or_app; by left|done].
  - intros y Hy Hv. apply in_app_or in Hy as [Hy|[->|[]]]; [by apply Hm|done].
Qed.

Lemma selection_present seen rorder x :
  selection seen rorder ->
  ((exists y, In y rorder /\ same_key x y) \/ zlen rorder = MAX_STREAMS /\ forall y, In y rorder -> less y x) ->
  selection (seen ++ [x]) rorder.
Proof.
  intros [Hs Hl Hf Hm] Hx. constructor; [done|done| |].
  - intros y Hy. destruct (Hf y Hy). split; [apply in_or_app; by left|done].
  - intros y Hy Hv. apply in_app_or in Hy as [Hy|[->|[]]]; [by apply Hm|done].
Qed.

Lemma selection_grow seen rorder x :
  selection seen rorder -> valid_input x -> Forall (fun y => ~ same_key x y) rorder ->
  zlen rorder < MAX_STREAMS -> selection (seen ++ [x]) (shift_insert x rorder).
Proof.
  intros [Hs Hl Hf Hm] Hv Hn Hlt. constructor.
  - by apply shift_insert_sorted.
  - rewrite shift_insert_length. lia.
  - intros y Hy. apply shift_insert_in in Hy as [->|Hy]; [split; [apply in_or_app; right; by left|done]|].
    destruct (Hf y Hy). split; [apply in_or_app; by left|done].
  - intros y Hy Hvy. left. apply in_app_or in Hy as [Hy|[->|[]]].
    + destruct (Hm y Hy Hvy) as [(z & Hz & Hsame)|[Hfull _]]; [|lia].
      exists z. split; [apply shift_insert_in; by right|done].
    + exists y. split; [apply shift_insert_in; by left|]. apply same_key_spec. auto.
Qed.

Lemma selection_replace seen last before x :
  selection seen (last :: before) -> valid_input x -> Forall (fun y => ~ same_key x y) (last :: before) ->
  zlen (last :: before) = MAX_STREAMS -> less x last -> selection (seen ++ [x]) (shift_insert x before).
Proof.
  intros [Hs Hl Hf Hm] Hv Hn Hfull Hless. inversion_clear Hs as [|? ? Hs' Hlast]. inversion_clear Hn as [|? ? _ Hn'].
  rewrite List.Forall_forall in Hlast. rewrite zlen_cons in Hfull. constructor.
  - by apply shift_insert_sorted.
  - rewrite shift_insert_length. lia.
  - intros y Hy. apply shift_insert_in in Hy as [->|Hy]; [split; [apply in_or_app; right; by left|done]|].
    destruct (Hf y (or_intror Hy)). split; [apply in_or_app; by left|done].
  - assert (Hbehind : forall y, less last y \/ same_key last y ->
      zlen (shift_insert x before) = MAX_STREAMS /\ forall z, In z (shift_insert x before) -> less z y).
    { intros y Hy. split; [rewrite shift_insert_length; lia|]. intros z Hz.
      assert (Hzl : less z last) by (apply shift_insert_in in Hz as [->|Hz]; [done|by apply Hlast]).
      destruct Hy as [Hy|Hy]; [by eapply less_trans|by eapply same_key_less]. }
    intros y Hy Hvy. apply in_app_or in Hy as [Hy|[->|[]]].
    + destruct (Hm y Hy Hvy) as [(z & [->|Hz] & Hsame)|[_ Hall]].
      * right. apply Hbehind. right. by apply same_key_sym.
      * left. exists z. split; [apply shift_insert_in; by right|done].
      * right. apply Hbehind. left. apply Hall. by left.
    + left. exists y. split; [apply shift_insert_in; by left|]. apply same_key_spec. auto.
Qed.

Lemma invalid_test x :
  negb (in_active x) || (in_publisher x =? 0) ||
    (negb (in_kind x =? STREAM_CAMERA) && negb (in_kind x =? STREAM_SCREEN)) = false <-> valid_input x.
Proof.
  unfold valid_input. rewrite !orb_false_iff, andb_false_iff, !negb_false_iff, !Z.eqb_eq, Z.eqb_neq. tauto.
Qed.

Lemma select_one_spec seen order x :
  selection seen (rev order) -> selection (seen ++ [x]) (rev (select_one order x)).
Proof.
  intros Hsel. unfold select_one.
  destruct (negb (in_active x) || _ || _) eqn:Ev.
  { apply selection_skip; [done|]. rewrite <- invalid_test. congruence. }
  apply invalid_test in Ev.
  destruct (existsb (same_stream_key x) order) eqn:Ed.
  { apply selection_present; [done|]. left. apply existsb_exists in Ed as (y & Hy & Hk).
    exists y. split; [by apply in_rev in Hy|done]. }
  assert (Hn : Forall (fun y => ~ same_key x y) (rev order)).
  { apply List.Forall_forall. intros y Hy Hk. apply in_rev in Hy.
    assert (existsb (same_stream_key x) order = true) by (apply existsb_exists; by exists y). congruence. }
  assert (Hlen : zlen order = zlen (rev order)) by (unfold zlen; by rewrite length_rev).
  pose proof (sel_length _ _ Hsel) as Hmax. rewrite Hlen.
  destruct (rev order) as [|last before] eqn:Er.
  { change (rev [x]) with (shift_insert x []). apply selection_grow; try done. }
  destruct (Z.eqb_spec (zlen (last :: before)) MAX_STREAMS) as [Hfull|Hnf]; cbn [andb].
  - destruct (stream_key_less x last) eqn:El; cbn [negb].
    + rewrite (proj2 (Z.ltb_ge _ _)), rev_involutive by lia. by eapply selection_replace.
    + rewrite Er. apply selection_present; [done|]. right. split; [done|]. intros y Hy.
      assert (Hlast : less last x).
      { inversion_clear Hn as [|? ? Hnl _]. destruct (less_total x last) as [H|[H|H]]; [unfold less in H; congruence|done|done]. }
      destruct Hy as [<-|Hy]; [done|]. pose proof (sel_sorted _ _ Hsel) as Hs. inversion_clear Hs as [|? ? _ Hg].
      rewrite List.Forall_forall in Hg. eapply less_trans; [by apply Hg|done].
  - rewrite (proj2 (Z.ltb_lt _ _)), rev_involutive by lia. apply selection_grow; try done. lia.
Qed.

Lemma select_streams_spec inputs : selection inputs (rev (select_streams inputs)).
Proof.
  unfold select_streams.
  enough (H : forall seen order, selection seen (rev order) -> selection (seen ++ inputs) (rev (fold_left select_one inputs order))).
  { apply (H [] []). constructor; try done. constructor. }
  induction inputs as [|x inputs IH]; intros seen order Hsel; [by rewrite app_nil_r|].
  cbn [fold_left]. change (x :: inputs) with ([x] ++ inputs). rewrite app_assoc. by apply IH, select_one_spec.
Qed.

Lemma sorted_rev l : StronglySorted greater (rev l) -> StronglySorted less l.
Proof.
  assert (Hsnoc : forall l x, StronglySorted greater (l ++ [x]) -> StronglySorted greater l /\ Forall (fun y => less x y) l).
  { induction l0 as [|z l0 IH]; intros x H; [split; constructor|]. cbn [app] in H. inversion_clear H as [|? ? Hs Hz].
    destruct (IH x Hs) as [Hs' Hx]. apply Forall_app in Hz as [Hz1 Hz2].
    split; constructor; try done. by inversion_clear Hz2. }
  induction l as [|x l IH]; intros H; [constructor|]. cbn [rev] in H. apply Hsnoc in H as [Hs Hx].
  constructor; [by apply IH|]. apply List.Forall_forall. intros y Hy. rewrite List.Forall_forall in Hx.
  apply Hx. by apply in_rev in Hy.
Qed.

Definition to_alloc (x : stream_input) : stream_alloc :=
  mk_alloc (in_publisher x) (in_slot x) (in_generation x) (in_kind x) 0.

Lemma copy_streams_sorted prev order :
  StronglySorted less order -> (forall y, prev = Some y -> Forall (less y) order) ->
  copy_streams prev order = map to_alloc order.
Proof.
  intros H. revert prev. induction H as [|x l Hs IH Hx]; intros prev Hp; [done|]. cbn [copy_streams map].
  rewrite IH by (intros y [= <-]; exact Hx).
  destruct prev as [y|]; [|done]. specialize (Hp y eq_refl). inversion_clear Hp as [|? ? Hl _].
  destruct (same_stream_key x y) eqn:E; [|done]. exfalso.
  apply (less_not_same y x Hl). by apply same_key_sym.
Qed.

Lemma selected_allocs inputs :
  copy_streams None (select_streams inputs) = map to_alloc (select_streams inputs).
Proof. apply copy_streams_sorted; [|done]. apply sorted_rev, (sel_sorted _ _ (select_streams_spec inputs)). Qed.

(** * The allocation *)

Section Allocate.
Context (cfg : policy) (inputs : list stream_input) (estimated : Z).
Context (Hcfg : policy_u32 cfg) (Hest : is_u64 estimated).
Context (Hpercent : 0 <= cfg_pool_percent cfg <= 100).

Definition pool_of : Z := estimated * policy_value (cfg_pool_percent cfg) 85 / 100.

Lemma pool_value :
  u64 (u64 (estimated / 100 * policy_value (cfg_pool_percent cfg) 85) +
       u64 (estimated mod 100 * policy_value (cfg_pool_percent cfg) 85) / 100) = pool_of /\
  0 <= pool_of <= estimated.
Proof.
  unfold pool_of. assert (Hp : 0 <= policy_value (cfg_pool_percent cfg) 85 <= 100)
    by (unfold policy_value; destruct (Z.eqb_spec (cfg_pool_percent cfg) 0); cbn [negb]; lia).
  set (p := policy_value (cfg_pool_percent cfg) 85) in *. unfold is_u64 in Hest.
  pose proof (Z.div_mod estimated 100 ltac:(lia)) as Hdm. pose proof (Z.mod_pos_bound estimated 100 ltac:(lia)) as Hm.
  set (q := estimated / 100) in *. set (r := estimated mod 100) in *.
  assert (Hq : 0 <= q) by (unfold q; apply Z.div_pos; lia).
  assert (Hpool : estimated * p / 100 = q * p + r * p / 100).
  { replace (estimated * p) with (q * p * 100 + r * p) by nia. by rewrite Z.div_add_l by lia. }
  assert (Hr : 0 <= r * p / 100 <= r) by (split; [apply Z.div_pos; nia|apply Z.div_le_upper_bound; nia]).
  assert (Hqp : 0 <= q * p <= 100 * q) by nia.
  assert (Hrp : 0 <= r * p <= 10000) by nia.
  rewrite Hpool. split; [|lia]. unfold u64.
  rewrite (Z.mod_small (q * p)), (Z.mod_small (r * p)) by lia. apply Z.mod_small. lia.
Qed.

(** Everything the theorems below say of an allocation. *)
Record allocation_ok (a : bandwidth_allocation) : Prop := {
  ao_pool : video_pool_bps a = pool_of /\ reserve_bps a = estimated - pool_of;
  ao_sum : allocated_bps a = total_bps (streams a) /\ unallocated_bps a = pool_of - total_bps (streams a) /\
           0 <= unallocated_bps a;
  ao_streams : pool_of = 0 \/ inputs = [] \/ Forall2 same_stream (map to_alloc (select_streams inputs)) (streams a);
  ao_inv : pool_inv pool_of (streams a) (unallocated_bps a);
  ao_priority : all_of STREAM_CAMERA (fun b => b <= 0) (streams a) \/
                all_of STREAM_SCREEN (fun b => screen_preferred cfg <= b) (streams a);
  ao_met : unallocated_bps a = 0 \/
    all_of STREAM_SCREEN (fun b => screen_cap cfg <= b) (streams a) /\
    all_of STREAM_CAMERA (fun b => (if has_screen (streams a) then Z.min (admission cfg) (camera_cap cfg) else camera_cap cfg) <= b) (streams a);
  ao_caps : policy_sane cfg -> all_of STREAM_SCREEN (fun b => b <= screen_cap cfg) (streams a) /\
                               all_of STREAM_CAMERA (fun b => b <= camera_cap cfg) (streams a)
}.

Lemma fold_total ss n :
  Forall bps_ok ss -> 0 <= n -> n + total_bps ss < 18446744073709551616 ->
  fold_left (fun n s => u64 (n + al_bps s)) ss n = n + total_bps ss.
Proof.
  intros H. revert n. induction H as [|s ss Hs Hss IH]; intros n Hn Hlt; cbn [fold_left total_bps] in *; [lia|].
  assert (0 <= total_bps ss) by (clear -Hss; induction Hss as [|s ss [? _] _ IH]; cbn [total_bps]; lia).
  destruct Hs as [Hs _]. replace (u64 (n + al_bps s)) with (n + al_bps s) by (unfold u64; rewrite Z.mod_small; lia).
  rewrite IH; lia.
Qed.

Lemma total_nonneg ss : Forall bps_ok ss -> 0 <= total_bps ss.
Proof. induction 1 as [|s ss [? _] _ IH]; cbn [total_bps]; lia. Qed.

Lemma allocate_ok : allocation_ok (sfu_bandwidth_allocate cfg inputs estimated).
Proof.
  destruct pool_value as [Epool Hpool]. unfold sfu_bandwidth_allocate. rewrite Epool. unfold is_u64 in Hest.
  replace (u64 (estimated - pool_of)) with (estimated - pool_of) by (unfold u64; rewrite Z.mod_small; lia).
  destruct ((zlen inputs =? 0) || (pool_of =? 0)) eqn:Eempty.
  - constructor; cbn [video_pool_bps reserve_bps allocated_bps streams unallocated_bps total_bps]; try done; try lia.
    + apply orb_true_iff in Eempty as [E|E]; [right; left|left; lia].
      destruct inputs; [done|rewrite zlen_cons in E; zlen_pos; lia].
    + apply start_inv; [unfold is_u64; lia|done|constructor].
    + left. constructor.
    + right. split; constructor.
    + split; constructor.
  - rewrite selected_allocs. set (ss := map to_alloc (select_streams inputs)).
    assert (Hlen : zlen ss <= MAX_STREAMS).
    { pose proof (sel_length _ _ (select_streams_spec inputs)) as H. unfold ss, zlen in *.
      by rewrite length_map, <- length_rev. }
    assert (Hz : Forall (fun s => al_bps s = 0) ss) by (apply Forall_map, List.Forall_forall; done).
    pose proof (fill_all_spec cfg pool_of ss Hcfg ltac:(unfold is_u64; lia) Hlen Hz) as Hf.
    destruct (fill_all cfg ss pool_of) as [ss' r']. destruct Hf as (Hinv & Hsame & Hprio & Hmet & Hcaps).
    pose proof Hinv as [Hok _ Hr Hsum _ _]. pose proof (total_nonneg ss' Hok). unfold is_u64 in Hr.
    rewrite fold_total by (done || lia). rewrite Z.add_0_l.
    replace (u64 (pool_of - total_bps ss')) with r' by (unfold u64; rewrite Z.mod_small; lia).
    constructor; cbn [video_pool_bps reserve_bps allocated_bps streams unallocated_bps]; try done; try lia.
    + right. by right.
    + by rewrite (has_screen_same _ _ Hsame).
Qed.
End Allocate.

(** ** Totals per publisher *)

Fixpoint publisher_total (id : Z) (ss : list stream_alloc) : Z :=
  match ss with
  | [] => 0
  | s :: ss => (if al_publisher s =? id then al_bps s else 0) + publisher_total id ss
  end.

(** The table of publishers against the totals of the streams seen. *)
Record publishers_ok (total : Z -> Z) (ids : Z -> Prop) (pubs : list publisher_alloc) : Prop := {
  po_distinct : NoDup (map pub_id pubs);
  po_totals : forall p, In p pubs -> pub_bps p = Z.min UINT32_MAX (total (pub_id p));
  po_ids : forall id, In id (map pub_id pubs) <-> ids id
}.

Lemma add_publisher_ids pubs id bps x :
  In x (map pub_id (add_publisher pubs id bps)) <-> x = id \/ In x (map pub_id pubs).
Proof.
  induction pubs as [|p pubs IH]; cbn [add_publisher map In]; [cbn; intuition|].
  destruct (Z.eqb_spec (pub_id p) id) as [<-|]; cbn [map In pub_id]; [intuition|]. rewrite IH. intuition.
Qed.

Lemma add_publisher_ok total ids pubs id bps :
  (forall x, 0 <= total x) -> (forall x, ~ ids x -> total x = 0) -> 0 <= bps ->
  publishers_ok total ids pubs ->
  publishers_ok (fun x => total x + (if id =? x then bps else 0)) (fun x => x = id \/ ids x) (add_publisher pubs id bps).
Proof.
  intros Ht H0 Hb [Hd Hp Hi]. constructor.
  - clear Hp Hi. induction pubs as [|p pubs IH]; cbn [add_publisher map] in *; [apply NoDup_singleton|].
    inversion_clear Hd as [|? ? Hn Hd']. destruct (Z.eqb_spec (pub_id p) id); cbn [map pub_id]; constructor; auto.
    rewrite list_elem_of_In, add_publisher_ids. rewrite list_elem_of_In in Hn. intuition.
  - assert (Hzero : ~ In id (map pub_id pubs) -> total id = 0) by (intros Hn; apply H0; by rewrite <- Hi).
    clear Hi. induction pubs as [|p pubs IH]; cbn [add_publisher].
    + intros q [<-|[]]. cbn [pub_id pub_bps]. rewrite (Hzero ltac:(by intros [])), Z.eqb_refl.
      destruct (Z.ltb_spec UINT32_MAX (0 + bps)); lia.
    + inversion_clear Hd as [|? ? Hn Hd']. rewrite list_elem_of_In in Hn.
      destruct (Z.eqb_spec (pub_id p) id) as [<-|Hne].
      * intros q [<-|Hq]; cbn [pub_id pub_bps].
        -- rewrite Z.eqb_refl, (Hp p (or_introl eq_refl)). specialize (Ht (pub_id p)).
           destruct (Z.ltb_spec UINT32_MAX (Z.min UINT32_MAX (total (pub_id p)) + bps)); lia.
        -- rewrite (Hp q (or_intror Hq)). destruct (Z.eqb_spec (pub_id p) (pub_id q)) as [E|]; [|lia].
           exfalso. apply Hn. rewrite E. by apply in_map.
      * intros q [<-|Hq].
        -- rewrite (Hp p (or_introl eq_refl)). rewrite (proj2 (Z.eqb_neq id (pub_id p))) by done. lia.
        -- apply IH; [done|intros r Hr; apply Hp; by right| |done].
           intros Hni. apply Hzero. by intros [?|?].
  - intros x. rewrite add_publisher_ids, Hi. done.
Qed.

Lemma fold_publishers ss total ids pubs :
  Forall bps_ok ss -> (forall x, 0 <= total x) -> (forall x, ~ ids x -> total x = 0) ->
  publishers_ok total ids pubs ->
  publishers_ok (fun x => total x + publisher_total x ss) (fun x => ids x \/ In x (map al_publisher ss))
    (fold_left (fun pubs s => add_publisher pubs (al_publisher s) (al_bps s)) ss pubs).
Proof.
  intros Hss. revert total ids pubs. induction Hss as [|s ss Hs _ IH]; intros total ids pubs Ht H0 Hp; cbn [fold_left publisher_total map].
  - destruct Hp as [Hd Hp Hi]. constructor; [done| |].
    + intros p Hin. rewrite (Hp p Hin). f_equal. lia.
    + intros id. rewrite Hi. cbn. tauto.
  - pose proof (add_publisher_ok total ids pubs (al_publisher s) (al_bps s) Ht H0 (proj1 Hs) Hp) as Hp1.
    apply IH in Hp1.
    + destruct Hp1 as [Hd1 Hp1 Hi1]. constructor; [done| |].
      * intros p Hin. rewrite (Hp1 p Hin). f_equal. destruct (al_publisher s =? pub_id p); lia.
      * intros id. rewrite Hi1. cbn [In]. intuition.
    + intros x. specialize (Ht x). destruct Hs as [Hs _]. destruct (al_publisher s =? x); lia.
    + intros x Hx. rewrite H0 by tauto. destruct (Z.eqb_spec (al_publisher s) x) as [E|]; [|done].
      exfalso. apply Hx. by left.
Qed.

Lemma allocate_publishers cfg inputs estimated :
  policy_u32 cfg -> is_u64 estimated -> 0 <= cfg_pool_percent cfg <= 100 ->
  let a := sfu_bandwidth_allocate cfg inputs estimated in
  publishers_ok (fun id => publisher_total id (streams a)) (fun id => In id (map al_publisher (streams a))) (publishers a).
Proof.
  intros Hc He Hp a. pose proof (pi_ok _ _ _ (ao_inv _ _ _ _ (allocate_ok cfg inputs estimated Hc He Hp))) as Hok.
  fold a in Hok. unfold a, sfu_bandwidth_allocate in *. destruct (_ || _).
  { cbn. constructor; [constructor|done|done]. }
  destruct (fill_all _ _ _) as [ss r]. cbn [streams publishers] in *.
  destruct (fold_publishers ss (fun _ => 0) (fun _ => False) [] Hok) as [Hd Ht Hi]; try done.
  { constructor; [constructor|done|done]. }
  constructor; [done|exact Ht|]. intros id. rewrite Hi. tauto.
Qed.

(** The allocator never over-commits.  The video pool is the configured share
    of the estimate rounded down and the rest is reserved; at most sixteen
    streams are served; their rates sum to the allocated total, which never
    exceeds the pool, and the remainder is reported as unallocated; no stream
    gets more than the cap of its class; and every publisher of a stream is
    listed once, with the total of its streams. *)
Theorem allocation_bounds cfg inputs estimated :
  policy_u32 cfg -> policy_sane cfg -> 0 <= cfg_pool_percent cfg <= 100 -> is_u64 estimated ->
  let a := sfu_bandwidth_allocate cfg inputs estimated in
  let pool := estimated * policy_value (cfg_pool_percent cfg) 85 / 100 in
  video_pool_bps a = pool /\ reserve_bps a = estimated - pool /\ zlen (streams a) <= 16 /\
  allocated_bps a = total_bps (streams a) /\ 0 <= unallocated_bps a /\
  allocated_bps a + unallocated_bps a = pool /\
  Forall (fun s => 0 <= al_bps s) (streams a) /\
  all_of STREAM_SCREEN (fun b => b <= screen_cap cfg) (streams a) /\
  all_of STREAM_CAMERA (fun b => b <= camera_cap cfg) (streams a) /\
  publishers_ok (fun id => publisher_total id (streams a)) (fun id => In id (map al_publisher (streams a))) (publishers a).
Proof.
  intros Hc Hs Hp He a pool. pose proof (allocate_publishers cfg inputs estimated Hc He Hp) as Hpub.
  destruct (allocate_ok cfg inputs estimated Hc He Hp) as [[Ho1 Ho2] (Hs1 & Hs2 & Hs3) _ [Hok Hlen _ _ _ _] _ _ Hcaps].
  fold a in Ho1, Ho2, Hs1, Hs2, Hs3, Hok, Hlen, Hcaps, Hpub. unfold pool_of in *. fold pool in Ho1, Ho2, Hs2.
  destruct (Hcaps Hs). split_and!; try done; [lia|].
  eapply Forall_impl; [|exact Hok]. by intros s [? _].
Qed.

Definition default_policy : policy := mk_policy 0 0 0 0 0 0 0.
Definition ex_inputs : list stream_input :=
  [mk_input 7 1 1 STREAM_CAMERA true; mk_input 8 0 1 STREAM_SCREEN true; mk_input 7 1 1 STREAM_CAMERA true;
   mk_input 9 2 1 STREAM_CAMERA true; mk_input 5 3 1 STREAM_CAMERA false].

Lemma default_policy_u32 : policy_u32 default_policy.
Proof. unfold policy_u32, is_u32. cbn. lia. Qed.
Lemma default_policy_sane : policy_sane default_policy.
Proof. vm_compute. repeat split; discriminate. Qed.

Lemma allocation_bounds_witness :
  let a := sfu_bandwidth_allocate default_policy ex_inputs 3000000 in
  zlen (streams a) = 3 /\ allocated_bps a + unallocated_bps a = 3000000 * 85 / 100.
Proof.
  split; [reflexivity|].
  refine (proj1 (proj2 (proj2 (proj2 (proj2 (proj2 (allocation_bounds default_policy ex_inputs 3000000
    default_policy_u32 default_policy_sane _ _)))))));
    [cbn; lia|unfold is_u64; lia].
Defined.

(** C29: The allocation is fair, screens come first, and nothing is held back.
    Streams of one class differ by at most one bit per second; a camera gets
    bandwidth only when every screen share has its preferred rate; and when
    the demand test reports unmet demand the whole pool is in use. *)
Theorem allocation_fair_priority cfg inputs estimated :
  policy_u32 cfg -> 0 <= cfg_pool_percent cfg <= 100 -> is_u64 estimated ->
  let a := sfu_bandwidth_allocate cfg inputs estimated in
  (forall k s1 s2, k = STREAM_CAMERA \/ k = STREAM_SCREEN ->
     In s1 (streams a) -> In s2 (streams a) -> al_kind s1 = k -> al_kind s2 = k ->
     Z.abs (al_bps s1 - al_bps s2) <= 1) /\
  (forall s1 s2, In s1 (streams a) -> In s2 (streams a) -> al_kind s1 = STREAM_CAMERA -> al_kind s2 = STREAM_SCREEN ->
     0 < al_bps s1 -> screen_preferred cfg <= al_bps s2) /\
  (sfu_bandwidth_has_unmet_demand cfg a = true -> unallocated_bps a = 0).
Proof.
  intros Hc Hp He a. destruct (allocate_ok cfg inputs estimated Hc He Hp) as [_ _ _ [_ _ _ _ Hcam Hscr] Hprio Hmet _].
  fold a in Hcam, Hscr, Hprio, Hmet. unfold all_of in *. split_and!.
  - intros k s1 s2 Hk H1 H2 K1 K2.
    assert (Hfair : class_fair k (streams a) (unallocated_bps a)) by (destruct Hk as [->| ->]; done).
    destruct Hfair as (lo & Hlo & _). unfold all_of in Hlo. rewrite List.Forall_forall in Hlo.
    pose proof (Hlo s1 H1 K1). pose proof (Hlo s2 H2 K2). lia.
  - intros s1 s2 H1 H2 K1 K2 Hpos. rewrite !List.Forall_forall in Hprio. destruct Hprio as [Hz|Hs]; [|by apply Hs].
    specialize (Hz s1 H1 K1). lia.
  - destruct Hmet as [->|[Hs Hcm]]; [done|]. rewrite List.Forall_forall in Hs, Hcm.
    unfold sfu_bandwidth_has_unmet_demand. destruct (zlen (streams a) =? 0); [done|]. intros Hex.
    apply existsb_exists in Hex as (s & Hin & Hlt). exfalso. specialize (Hs s Hin). specialize (Hcm s Hin).
    unfold of_kind in *. fold (screen_cap cfg) (camera_cap cfg) (admission cfg) in Hlt. rewrite min_if in Hlt.
    destruct (Z.eqb_spec (al_kind s) STREAM_SCREEN); [specialize (Hs e); lia|].
    destruct (Z.eqb_spec (al_kind s) STREAM_CAMERA); [|done]. specialize (Hcm e).
    destruct (has_screen (streams a)); lia.
Qed.

Lemma allocation_fair_priority_witness :
  let a := sfu_bandwidth_allocate default_policy ex_inputs 3000000 in
  sfu_bandwidth_has_unmet_demand default_policy a = true /\ unallocated_bps a = 0.
Proof.
  split; [reflexivity|].
  refine (proj2 (proj2 (allocation_fair_priority default_policy ex_inputs 3000000 default_policy_u32 _ _)) _);
    [cbn; lia|unfold is_u64; lia|reflexivity].
Defined.

(** Selection is deterministic and keeps the first sixteen.  When there are
    inputs and a pool, the streams served are, in strict order of slot,
    publisher, kind and generation, the distinct keys of active camera and
    screen inputs; an eligible input is left out only if sixteen streams in
    front of it are served. *)
Theorem selection_smallest cfg inputs estimated :
  policy_u32 cfg -> 0 <= cfg_pool_percent cfg <= 100 -> is_u64 estimated -> inputs <> [] ->
  let a := sfu_bandwidth_allocate cfg inputs estimated in
  video_pool_bps a <> 0 ->
  exists sel, Forall2 same_stream (map to_alloc sel) (streams a) /\ StronglySorted less sel /\
    (forall x, In x sel -> In x inputs /\ valid_input x) /\
    (forall x, In x inputs -> valid_input x ->
       (exists y, In y sel /\ same_key x y) \/ zlen sel = MAX_STREAMS /\ forall y, In y sel -> less y x).
Proof.
  intros Hc Hp He Hin a Hpool. destruct (allocate_ok cfg inputs estimated Hc He Hp) as [[Ho _] _ Hs _ _ _ _].
  fold a in Ho, Hs. exists (select_streams inputs). pose proof (select_streams_spec inputs) as [Hsort Hlen Hfrom Hmin].
  split_and!.
  - destruct Hs as [?|[?|?]]; [congruence|done|done].
  - by apply sorted_rev.
  - intros x Hx. apply Hfrom. by apply in_rev in Hx.
  - intros x Hx Hv. destruct (Hmin x Hx Hv) as [(y & Hy & Hk)|[Hfull Hall]].
    + left. exists y. split; [|done]. by apply in_rev.
    + right. split; [unfold zlen in *; by rewrite length_rev in Hfull|].
      intros y Hy. apply Hall. by apply in_rev in Hy.
Qed.

Lemma selection_smallest_witness :
  exists sel, Forall2 same_stream (map to_alloc sel) (streams (sfu_bandwidth_allocate default_policy ex_inputs 3000000)) /\
    StronglySorted less sel.
Proof.
  destruct (selection_smallest default_policy ex_inputs 3000000 default_policy_u32) as (sel & H1 & H2 & _);
    [cbn; lia|unfold is_u64; lia|done|by vm_compute|by exists sel].
Defined.
