(* ===== verification/Gcc.v ===== *)
(** The delay-based bandwidth estimator, [src/congestion/gcc.c]: arrival
    groups, the trend line with its adaptive threshold, and the
    additive-increase multiplicative-decrease controller.  A C [double] is an
    IEEE binary64 number, computed exactly with the rounding of the standard
    library's [SpecFloat]. *)

From S2P Require Import Prelude TwccParser.
From Stdlib Require Import SpecFloat.
From stdpp Require Import relations.
Local Open Scope Z_scope.

(** ** Doubles *)

Definition double : Type := spec_float.
Definition of_int (z : Z) : double := binary_normalize 53 1024 z 0 false.
Definition fadd (x y : double) : double := SFadd 53 1024 x y.
Definition fsub (x y : double) : double := SFsub 53 1024 x y.
Definition fmul (x y : double) : double := SFmul 53 1024 x y.
Definition fdiv (x y : double) : double := SFdiv 53 1024 x y.
Definition flt (x y : double) : bool := SFltb x y.
Definition fle (x y : double) : bool := SFleb x y.
(** [x != y]: true when the operands are unordered. *)
Definition fne (x y : double) : bool := negb (SFeqb x y).
(** The literal [n / d], rounded once as a decimal literal is. *)
Definition lit (n d : Z) : double := fdiv (of_int n) (of_int d).
Definition fzero : double := S754_zero false.

(** Conversion to [uint64_t]: truncation.  Outside the range of the type,
    where C leaves the result open, it is the truncation modulo 2^64, and 0
    for an infinity or a NaN. *)
Definition to_u64 (x : double) : Z :=
  match x with
  | S754_finite s m e => let t := Z.shiftl (Zpos m) e in u64 (if s then - t else t)
  | _ => 0
  end.

Definition GCC_TRENDLINE_WINDOW_SIZE : Z := 20.
Definition GCC_BURST_GROUPING_THRESHOLD_US : Z := 5000.
Definition GCC_DELAY_SMOOTHING_ALPHA : double := lit 9 10.
Definition GCC_OVERUSE_TIME_THRESHOLD_MS : double := of_int 15.
Definition GCC_THRESHOLD_ADAPT_K_UP : double := lit 87 10000.
Definition GCC_THRESHOLD_ADAPT_K_DOWN : double := lit 39 1000.
Definition GCC_THRESHOLD_MAX_DELTA_MS : double := of_int 20.
Definition GCC_THRESHOLD_MIN_MS : double := of_int 6.
Definition GCC_THRESHOLD_MAX_MS : double := of_int 600.
Definition GCC_OVERUSE_GAP_DECAY_MS : double := of_int 75.
Definition GCC_AIMD_MIN_INCREASE_INTERVAL_US : Z := 100000.
Definition GCC_AIMD_ADDITIVE_BPS_PER_S : double := of_int 400000.
Definition GCC_RECOVERY_PROBE_STEP_BPS : Z := 50000.
Definition GCC_RECOVERY_PROBE_MAX_BPS : Z := 200000.
Definition GCC_RECOVERY_PROBE_INTERVAL_US : Z := 1000000.
Definition GCC_HIGH_LOSS_BACKOFF_WINDOWS : Z := 3.
Definition GCC_ACK_WINDOW_US : Z := 300000.
Definition GCC_ACK_GAP_RESET_US : Z := 300000.

(** ** State *)

Inductive gcc_bwe_usage := BWE_NORMAL | BWE_UNDERUSE | BWE_OVERUSE.
Inductive gcc_rate_ctrl_state := RATE_HOLD | RATE_INCREASE | RATE_DECREASE.
#[export] Instance gcc_bwe_usage_eq_dec : EqDecision gcc_bwe_usage.
Proof. solve_decision. Defined.
#[export] Instance gcc_rate_ctrl_state_eq_dec : EqDecision gcc_rate_ctrl_state.
Proof. solve_decision. Defined.

Record gcc_arrival_group := mk_group {
  first_send_us : Z;
  last_send_us : Z;
  first_recv_time_us : Z;
  last_recv_time_us : Z;
  total_size : Z;
  group_packet_count : Z
}.
#[export] Instance eta_group : Eta gcc_arrival_group := fun g =>
  mk_group (first_send_us g) (last_send_us g) (first_recv_time_us g) (last_recv_time_us g) (total_size g) (group_packet_count g).
Definition zero_group : gcc_arrival_group := mk_group 0 0 0 0 0 0.

Record gcc_trendline_estimator := mk_trendline {
  arrival_time_ms : list double;
  smoothed_delay_history_ms : list double;
  history_index : Z;
  history_count : Z;
  accumulated_delay_ms : double;
  smoothed_delay_ms : double;
  trendline_slope : double;
  threshold_ms : double;
  last_threshold_update_us : Z;
  time_over_using_ms : double;
  last_overuse_check_us : Z;
  first_arrival_time_us : Z;
  have_first_arrival : bool;
  usage_state : gcc_bwe_usage
}.
#[export] Instance eta_trendline : Eta gcc_trendline_estimator := fun t =>
  mk_trendline (arrival_time_ms t) (smoothed_delay_history_ms t) (history_index t) (history_count t)
    (accumulated_delay_ms t) (smoothed_delay_ms t) (trendline_slope t) (threshold_ms t) (last_threshold_update_us t)
    (time_over_using_ms t) (last_overuse_check_us t) (first_arrival_time_us t) (have_first_arrival t) (usage_state t).

Record gcc_aimd_controller := mk_aimd {
  current_bitrate_bps : Z;
  min_bitrate_bps : Z;
  max_bitrate_bps : Z;
  rate_state : gcc_rate_ctrl_state;
  last_increase_us : Z;
  last_recovery_probe_us : Z;
  last_active_probe_us : Z;
  ack_bitrate_bps : Z;
  ack_window_bytes : Z;
  ack_window_min_recv_us : Z;
  ack_window_max_recv_us : Z;
  consecutive_high_loss_windows : Z;
  have_ack_bitrate : bool;
  active_probing : bool
}.
#[export] Instance eta_aimd : Eta gcc_aimd_controller := fun a =>
  mk_aimd (current_bitrate_bps a) (min_bitrate_bps a) (max_bitrate_bps a) (rate_state a) (last_increase_us a)
    (last_recovery_probe_us a) (last_active_probe_us a) (ack_bitrate_bps a) (ack_window_bytes a)
    (ack_window_min_recv_us a) (ack_window_max_recv_us a) (consecutive_high_loss_windows a) (have_ack_bitrate a)
    (active_probing a).

Record gcc_bwe_context := mk_gcc {
  current_group : gcc_arrival_group;
  prev_group : gcc_arrival_group;
  trendline : gcc_trendline_estimator;
  aimd : gcc_aimd_controller;
  gcc_last_feedback_us : Z
}.
#[export] Instance eta_gcc : Eta gcc_bwe_context := fun c =>
  mk_gcc (current_group c) (prev_group c) (trendline c) (aimd c) (gcc_last_feedback_us c).

Definition clampd (v lo hi : double) : double := if flt v lo then lo else if flt hi v then hi else v.

Definition gcc_bwe_init (start_bitrate min_bitrate max_bitrate : Z) : gcc_bwe_context :=
  let bad := (min_bitrate =? 0) || (max_bitrate =? 0) || (max_bitrate <? min_bitrate) ||
             (start_bitrate <? min_bitrate) || (max_bitrate <? start_bitrate) in
  let min_b := if bad then 50000 else min_bitrate in
  let max_b := if bad then 5000000 else max_bitrate in
  let start := if bad then 300000 else start_bitrate in
  let zeros := replicate 20 fzero in
  mk_gcc zero_group zero_group
    (mk_trendline zeros zeros 0 0 fzero fzero fzero (lit 25 2) 0 fzero 0 0 false BWE_NORMAL)
    (mk_aimd start min_b max_b RATE_INCREASE 0 0 0 0 0 0 0 0 false false) 0.

(** ** Trend line *)

(** First loop: the sums and the extremes of the arrival times. *)
Fixpoint trend_sums (rows : list (double * double)) (sum_x sum_y x_min x_max : double)
  : double * double * double * double :=
  match rows with
  | [] => (sum_x, sum_y, x_min, x_max)
  | (x, y) :: rows =>
      trend_sums rows (fadd sum_x x) (fadd sum_y y)
        (if flt x x_min then x else x_min) (if flt x_max x then x else x_max)
  end.
(** Second loop: numerator and denominator of the slope. *)
Fixpoint trend_slope (rows : list (double * double)) (avg_x avg_y numerator denominator : double) : double * double :=
  match rows with
  | [] => (numerator, denominator)
  | (x, y) :: rows =>
      let dx := fsub x avg_x in
      trend_slope rows avg_x avg_y (fadd numerator (fmul dx (fsub y avg_y))) (fadd denominator (fmul dx dx))
  end.
Definition trendline_modified_trend (te : gcc_trendline_estimator) : double :=
  if history_count te <? 2 then fzero else
  let rows := zip (take (Z.to_nat (history_count te)) (arrival_time_ms te))
                  (take (Z.to_nat (history_count te)) (smoothed_delay_history_ms te)) in
  let first := nth 0 (arrival_time_ms te) fzero in
  let '(sum_x, sum_y, x_min, x_max) := trend_sums rows fzero fzero first first in
  let avg_x := fdiv sum_x (of_int (history_count te)) in
  let avg_y := fdiv sum_y (of_int (history_count te)) in
  let '(numerator, denominator) := trend_slope rows avg_x avg_y fzero fzero in
  let slope := if fne denominator fzero then fdiv numerator denominator else fzero in
  fmul slope (fsub x_max x_min).

Definition trendline_adapt_threshold (te : gcc_trendline_estimator) (modified_trend : double) (now_us : Z)
  : gcc_trendline_estimator :=
  if last_threshold_update_us te =? 0 then te <| last_threshold_update_us := now_us |> else
  let delta_s := fdiv (of_int (now_us - last_threshold_update_us te)) (of_int 1000000) in
  if fle delta_s fzero then te else
  let delta_s := if flt (lit 1 10) delta_s then lit 1 10 else delta_s in
  let abs_trend := SFabs modified_trend in
  if flt (fadd (threshold_ms te) GCC_THRESHOLD_MAX_DELTA_MS) abs_trend then te <| last_threshold_update_us := now_us |> else
  let k := if flt abs_trend (threshold_ms te) then GCC_THRESHOLD_ADAPT_K_DOWN else GCC_THRESHOLD_ADAPT_K_UP in
  let next := fadd (threshold_ms te) (fmul (fmul k (fsub abs_trend (threshold_ms te))) delta_s) in
  te <| threshold_ms := clampd next GCC_THRESHOLD_MIN_MS GCC_THRESHOLD_MAX_MS |> <| last_threshold_update_us := now_us |>.

Definition trendline_detect (te : gcc_trendline_estimator) (modified_trend : double) (now_us : Z)
  : gcc_trendline_estimator :=
  let te := if last_overuse_check_us te =? 0 then te <| last_overuse_check_us := now_us |> else te in
  let gap_ms := fdiv (of_int (now_us - last_overuse_check_us te)) (of_int 1000) in
  let te := te <| last_overuse_check_us := now_us |> in
  if flt (threshold_ms te) modified_trend then
    let te := if flt GCC_OVERUSE_GAP_DECAY_MS gap_ms then te <| time_over_using_ms := fzero |>
              else te <| time_over_using_ms ::= fun t => fadd t gap_ms |> in
    if fle GCC_OVERUSE_TIME_THRESHOLD_MS (time_over_using_ms te) && (2 <=? history_count te)
    then te <| time_over_using_ms := fzero |> <| usage_state := BWE_OVERUSE |> else te
  else if flt modified_trend (SFopp (threshold_ms te)) then
    te <| time_over_using_ms := fzero |> <| usage_state := BWE_UNDERUSE |>
  else te <| time_over_using_ms := fzero |> <| usage_state := BWE_NORMAL |>.

(** The arrays are written at [history_index], which stays inside them. *)
Definition update_trendline (te : gcc_trendline_estimator) (delay_variation_ms : double) (arrival_time_us : Z)
  : gcc_trendline_estimator :=
  let te := if negb (have_first_arrival te)
            then te <| first_arrival_time_us := arrival_time_us |> <| have_first_arrival := true |> else te in
  let te := te <| accumulated_delay_ms ::= fun d => fadd d delay_variation_ms |> in
  let te := te <| smoothed_delay_ms ::= fun s =>
    fadd (fmul GCC_DELAY_SMOOTHING_ALPHA s) (fmul (fsub (of_int 1) GCC_DELAY_SMOOTHING_ALPHA) (accumulated_delay_ms te)) |> in
  let rel_arrival_ms := fdiv (of_int (arrival_time_us - first_arrival_time_us te)) (of_int 1000) in
  let i := Z.to_nat (history_index te) in
  let te := te <| arrival_time_ms ::= <[i := rel_arrival_ms]> |>
               <| smoothed_delay_history_ms ::= <[i := smoothed_delay_ms te]> |>
               <| history_index ::= fun i => (i + 1) mod GCC_TRENDLINE_WINDOW_SIZE |> in
  let te := if history_count te <? GCC_TRENDLINE_WINDOW_SIZE then te <| history_count ::= Z.succ |> else te in
  let modified_trend := trendline_modified_trend te in
  let te := te <| trendline_slope := if 0 <? history_count te then fdiv modified_trend (of_int (history_count te)) else fzero |> in
  let te := trendline_adapt_threshold te modified_trend arrival_time_us in
  trendline_detect te modified_trend arrival_time_us.

(** ** Rate control *)

(** 85% of the rate, or of the acknowledged rate when that is smaller. *)
Definition backoff_bitrate (a : gcc_aimd_controller) : Z :=
  let basis := current_bitrate_bps a in
  let basis := if have_ack_bitrate a && (ack_bitrate_bps a <? basis) then ack_bitrate_bps a else basis in
  u64 (basis * 85) / 100.

(** The recovery probe of [update_aimd], when the rate is at its headroom. *)
Definition recovery_probe (a : gcc_aimd_controller) (cap now_us : Z) : gcc_aimd_controller :=
  if (0 <? last_active_probe_us a) && (last_active_probe_us a <? now_us) &&
     (now_us - last_active_probe_us a <? GCC_RECOVERY_PROBE_INTERVAL_US) then a else
  let recovery_cap := u64 (cap + GCC_RECOVERY_PROBE_MAX_BPS) in
  let recovery_cap := if max_bitrate_bps a <? recovery_cap then max_bitrate_bps a else recovery_cap in
  if current_bitrate_bps a <? recovery_cap then
    if last_recovery_probe_us a =? 0 then a <| last_recovery_probe_us := now_us |>
    else if GCC_RECOVERY_PROBE_INTERVAL_US <=? now_us - last_recovery_probe_us a then
      let next := current_bitrate_bps a + GCC_RECOVERY_PROBE_STEP_BPS in
      let next := if recovery_cap <? next then recovery_cap else next in
      a <| current_bitrate_bps := u32 next |> <| last_recovery_probe_us := now_us |>
    else a
  else a.

(** The additive step for the time since the last increase. *)
Definition increment_bps (a : gcc_aimd_controller) (now_us : Z) : Z :=
  let elapsed_s := fdiv (of_int (now_us - last_increase_us a)) (of_int 1000000) in
  let add := to_u64 (fmul GCC_AIMD_ADDITIVE_BPS_PER_S elapsed_s) in
  if add =? 0 then 1000 else add.

(** The increase of [update_aimd], at most every 100 ms. *)
Definition increase_rate (a : gcc_aimd_controller) (now_us : Z) : gcc_aimd_controller :=
  let add := increment_bps a now_us in
  let cap := if have_ack_bitrate a then u64 (ack_bitrate_bps a * 3) / 2 else UINT32_MAX in
  let a :=
    if current_bitrate_bps a <? cap then
      let next := u64 (current_bitrate_bps a + add) in
      let next := if cap <? next then cap else next in
      a <| current_bitrate_bps := if UINT32_MAX <? next then UINT32_MAX else next |> <| last_recovery_probe_us := 0 |>
    else if have_ack_bitrate a && negb (active_probing a) then recovery_probe a cap now_us
    else a in
  a <| last_increase_us := now_us |>.

Definition clamp_bitrate (a : gcc_aimd_controller) : gcc_aimd_controller :=
  let a := if current_bitrate_bps a <? min_bitrate_bps a then a <| current_bitrate_bps := min_bitrate_bps a |> else a in
  if max_bitrate_bps a <? current_bitrate_bps a then a <| current_bitrate_bps := max_bitrate_bps a |> else a.

Definition update_aimd (a : gcc_aimd_controller) (usage : gcc_bwe_usage) (now_us : Z) : gcc_aimd_controller :=
  clamp_bitrate
    match usage with
    | BWE_OVERUSE =>
        let next := backoff_bitrate a in
        a <| current_bitrate_bps := if UINT32_MAX <? next then UINT32_MAX else next |>
          <| rate_state := RATE_DECREASE |> <| last_recovery_probe_us := 0 |>
    | BWE_UNDERUSE => a <| rate_state := RATE_HOLD |>
    | BWE_NORMAL =>
        if bool_decide (rate_state a = RATE_DECREASE) then a <| rate_state := RATE_HOLD |> else
        let a := a <| rate_state := RATE_INCREASE |> in
        if last_increase_us a =? 0 then a <| last_increase_us := now_us |>
        else if GCC_AIMD_MIN_INCREASE_INTERVAL_US <=? now_us - last_increase_us a then increase_rate a now_us
        else a
    end.

(** The head of [update_ack_bitrate]: the window after a gap, and its span. *)
Definition ack_gap_reset (a : gcc_aimd_controller) (recv : Z) : gcc_aimd_controller :=
  if (0 <? ack_window_bytes a) && (ack_window_max_recv_us a <? recv) &&
     (GCC_ACK_GAP_RESET_US <? recv - ack_window_max_recv_us a)
  then a <| ack_window_bytes := 0 |> <| ack_window_min_recv_us := 0 |> <| ack_window_max_recv_us := 0 |>
         <| ack_bitrate_bps := 0 |> <| have_ack_bitrate := false |>
  else a.
Definition ack_window_extend (a : gcc_aimd_controller) (recv : Z) : gcc_aimd_controller :=
  if ack_window_bytes a =? 0 then a <| ack_window_min_recv_us := recv |> <| ack_window_max_recv_us := recv |>
  else
    let a := if recv <? ack_window_min_recv_us a then a <| ack_window_min_recv_us := recv |> else a in
    if ack_window_max_recv_us a <? recv then a <| ack_window_max_recv_us := recv |> else a.

Definition update_ack_bitrate (a : gcc_aimd_controller) (pkt : gcc_packet_info) : gcc_aimd_controller :=
  if size_bytes pkt =? 0 then a else
  let recv := pi_receive_time_us pkt in
  let a := ack_window_extend (ack_gap_reset a recv) recv in
  let a := a <| ack_window_bytes ::= fun n => u64 (n + size_bytes pkt) |> in
  let span_us := ack_window_max_recv_us a - ack_window_min_recv_us a in
  if span_us <? GCC_ACK_WINDOW_US then a else
  let sample := u64 (u64 (ack_window_bytes a * 8) * 1000000) / span_us in
  let sample := if UINT32_MAX <? sample then UINT32_MAX else sample in
  let sample := if have_ack_bitrate a then u64 (ack_bitrate_bps a * 9 + sample) / 10 else sample in
  a <| ack_bitrate_bps := u32 sample |> <| have_ack_bitrate := true |> <| ack_window_bytes := 0 |>
    <| ack_window_min_recv_us := 0 |> <| ack_window_max_recv_us := 0 |>.

(** The products of [lost] and [total] are 32-bit. *)
Definition gcc_bwe_report_loss (ctx : gcc_bwe_context) (lost total : Z) : bool * gcc_bwe_context :=
  let a := aimd ctx in
  if total =? 0 then (false, ctx)
  else if lost =? 0 then (false, ctx <| aimd := a <| consecutive_high_loss_windows := 0 |> |>)
  else if u32 (total * 10) <? u32 (lost * 100) then
    let a := a <| consecutive_high_loss_windows ::= fun n => u32 (n + 1) |> in
    if GCC_HIGH_LOSS_BACKOFF_WINDOWS <=? consecutive_high_loss_windows a then
      let next := backoff_bitrate a in
      let next := if next <? min_bitrate_bps a then min_bitrate_bps a
                  else if max_bitrate_bps a <? next then max_bitrate_bps a else next in
      (true, ctx <| aimd := a <| current_bitrate_bps := u32 next |> <| rate_state := RATE_HOLD |>
                              <| last_recovery_probe_us := 0 |> <| consecutive_high_loss_windows := 0 |> |>)
    else (false, ctx <| aimd := a |>)
  else
    let a := a <| consecutive_high_loss_windows := 0 |> in
    let a := if u32 (total * 2) <? u32 (lost * 100)
             then a <| rate_state := RATE_HOLD |> <| last_recovery_probe_us := 0 |> else a in
    (false, ctx <| aimd := a |>).

Definition gcc_bwe_process_twcc_packet (ctx : gcc_bwe_context) (pkt : gcc_packet_info) : Z * gcc_bwe_context :=
  let ctx := if gcc_last_feedback_us ctx <? send_time_us pkt
             then ctx <| gcc_last_feedback_us := send_time_us pkt |> else ctx in
  let cg := current_group ctx in
  if (0 <? group_packet_count cg) && (send_time_us pkt <? first_send_us cg)
  then (current_bitrate_bps (aimd ctx), ctx) else
  let ctx := ctx <| aimd ::= fun a => update_ack_bitrate a pkt |> in
  if (group_packet_count cg =? 0) || (send_time_us pkt - first_send_us cg <=? GCC_BURST_GROUPING_THRESHOLD_US) then
    let cg := if group_packet_count cg =? 0
              then cg <| first_send_us := send_time_us pkt |> <| first_recv_time_us := pi_receive_time_us pkt |> else cg in
    let cg := cg <| last_send_us := send_time_us pkt |> <| last_recv_time_us := pi_receive_time_us pkt |>
                 <| total_size ::= fun n => u32 (n + size_bytes pkt) |> <| group_packet_count ::= Z.succ |> in
    (current_bitrate_bps (aimd ctx), ctx <| current_group := cg |>)
  else
    let ctx :=
      if 0 <? group_packet_count (prev_group ctx) then
        let delta_send_ms := fdiv (of_int (last_send_us cg - last_send_us (prev_group ctx))) (of_int 1000) in
        let delta_recv_ms := fdiv (of_int (last_recv_time_us cg - last_recv_time_us (prev_group ctx))) (of_int 1000) in
        let te := update_trendline (trendline ctx) (fsub delta_recv_ms delta_send_ms) (last_recv_time_us cg) in
        ctx <| trendline := te |> <| aimd ::= fun a => update_aimd a (usage_state te) (last_recv_time_us cg) |>
      else ctx in
    let ctx := ctx <| prev_group := cg |>
      <| current_group := mk_group (send_time_us pkt) (send_time_us pkt) (pi_receive_time_us pkt) (pi_receive_time_us pkt)
                            (size_bytes pkt) 1 |> in
    (current_bitrate_bps (aimd ctx), ctx).

Definition gcc_bwe_is_overusing (ctx : gcc_bwe_context) : bool := bool_decide (usage_state (trendline ctx) = BWE_OVERUSE).
Definition gcc_bwe_get_usage (ctx : gcc_bwe_context) : gcc_bwe_usage := usage_state (trendline ctx).
Definition gcc_bwe_get_bitrate (ctx : gcc_bwe_context) : Z := current_bitrate_bps (aimd ctx).
Definition gcc_bwe_get_ack_bitrate (ctx : gcc_bwe_context) : Z :=
  if have_ack_bitrate (aimd ctx) then ack_bitrate_bps (aimd ctx) else 0.

Definition gcc_bwe_has_recent_feedback (ctx : gcc_bwe_context) (now_us max_age_us : Z) : bool :=
  if gcc_last_feedback_us ctx =? 0 then false
  else if now_us <=? gcc_last_feedback_us ctx then true
  else now_us - gcc_last_feedback_us ctx <=? max_age_us.
Definition gcc_bwe_record_feedback (ctx : gcc_bwe_context) (now_us : Z) : gcc_bwe_context :=
  if gcc_last_feedback_us ctx <? now_us then ctx <| gcc_last_feedback_us := now_us |> else ctx.

Definition gcc_bwe_set_active_probing (ctx : gcc_bwe_context) (act : bool) : gcc_bwe_context :=
  let ctx := ctx <| aimd ::= fun a => a <| active_probing := act |> |> in
  if act then ctx <| aimd ::= fun a => a <| last_recovery_probe_us := 0 |> |> else ctx.

Definition gcc_bwe_on_probe_cluster_completed (ctx : gcc_bwe_context) (probe_bitrate_bps now_us : Z) : gcc_bwe_context :=
  if probe_bitrate_bps =? 0 then ctx
  else if bool_decide (usage_state (trendline ctx) = BWE_OVERUSE) then ctx
  else
    let a := aimd ctx in
    let a :=
      if current_bitrate_bps a <? probe_bitrate_bps then
        let new_bps := probe_bitrate_bps in
        let new_bps := if max_bitrate_bps a <? new_bps then max_bitrate_bps a else new_bps in
        let new_bps := if new_bps <? min_bitrate_bps a then min_bitrate_bps a else new_bps in
        a <| current_bitrate_bps := new_bps |>
      else a in
    let a := if ack_bitrate_bps a <? probe_bitrate_bps
             then a <| ack_bitrate_bps := probe_bitrate_bps |> <| have_ack_bitrate := true |> else a in
    let a := a <| last_increase_us := now_us |> <| last_recovery_probe_us := now_us |> <| last_active_probe_us := now_us |> in
    let a := if bool_decide (rate_state a = RATE_HOLD) then a <| rate_state := RATE_INCREASE |> else a in
    ctx <| aimd := a |>.

(** * Invariant *)

Record trend_inv (te : gcc_trendline_estimator) : Prop := {
  ti_arrival : length (arrival_time_ms te) = 20%nat;
  ti_delay : length (smoothed_delay_history_ms te) = 20%nat;
  ti_index : 0 <= history_index te < GCC_TRENDLINE_WINDOW_SIZE;
  ti_count : 0 <= history_count te <= GCC_TRENDLINE_WINDOW_SIZE;
  ti_min : flt (threshold_ms te) GCC_THRESHOLD_MIN_MS = false;
  ti_max : flt GCC_THRESHOLD_MAX_MS (threshold_ms te) = false
}.
Record aimd_inv (lo hi : Z) (a : gcc_aimd_controller) : Prop := {
  ai_min : min_bitrate_bps a = lo;
  ai_max : max_bitrate_bps a = hi;
  ai_rate : lo <= current_bitrate_bps a <= hi;
  ai_ack : is_u32 (ack_bitrate_bps a);
  ai_streak : 0 <= consecutive_high_loss_windows a < GCC_HIGH_LOSS_BACKOFF_WINDOWS
}.
Record gcc_inv (lo hi : Z) (c : gcc_bwe_context) : Prop := {
  gi_trend : trend_inv (trendline c);
  gi_aimd : aimd_inv lo hi (aimd c)
}.

Lemma clampd_range v :
  flt (clampd v GCC_THRESHOLD_MIN_MS GCC_THRESHOLD_MAX_MS) GCC_THRESHOLD_MIN_MS = false /\
  flt GCC_THRESHOLD_MAX_MS (clampd v GCC_THRESHOLD_MIN_MS GCC_THRESHOLD_MAX_MS) = false.
Proof.
  unfold clampd. destruct (flt v GCC_THRESHOLD_MIN_MS) eqn:E1; [by vm_compute|].
  destruct (flt GCC_THRESHOLD_MAX_MS v) eqn:E2; [by vm_compute|]. done.
Qed.

Lemma increment_nonneg a now : 0 <= increment_bps a now.
Proof.
  unfold increment_bps. case_match; [lia|]. unfold to_u64. case_match; try lia. apply Z.mod_pos_bound. lia.
Qed.

#[local] Strategy opaque [of_int fadd fsub fmul fdiv flt fle fne lit to_u64 clampd trendline_modified_trend].

Lemma adapt_inv te m now : trend_inv te -> trend_inv (trendline_adapt_threshold te m now).
Proof.
  intros [H1 H2 H3 H4 H5 H6]. unfold trendline_adapt_threshold.
  repeat case_match; constructor; try assumption; apply clampd_range.
Qed.
Lemma detect_inv te m now : trend_inv te -> trend_inv (trendline_detect te m now).
Proof. intros [H1 H2 H3 H4 H5 H6]. unfold trendline_detect. repeat case_match; constructor; assumption. Qed.
(** Storing a sample keeps the index and the count in their ranges. *)
Lemma store_inv te x y :
  trend_inv te ->
  let i := Z.to_nat (history_index te) in
  let te := te <| arrival_time_ms ::= <[i := x]> |> <| smoothed_delay_history_ms ::= <[i := y]> |>
               <| history_index ::= fun i => (i + 1) mod GCC_TRENDLINE_WINDOW_SIZE |> in
  trend_inv (if history_count te <? GCC_TRENDLINE_WINDOW_SIZE then te <| history_count ::= Z.succ |> else te).
Proof.
  intros [H1 H2 H3 H4 H5 H6] i te1. unfold GCC_TRENDLINE_WINDOW_SIZE in *.
  assert (Hi : 0 <= (history_index te + 1) mod 20 < 20) by (apply Z.mod_pos_bound; lia).
  destruct (Z.ltb_spec (history_count te1) 20) as [Hlt|Hge]; constructor; try assumption;
    unfold te1, set, eta_trendline in *;
    cbn [arrival_time_ms smoothed_delay_history_ms history_index history_count] in *;
    rewrite ?length_insert; try assumption; unfold GCC_TRENDLINE_WINDOW_SIZE in *; lia.
Qed.
Lemma update_trendline_inv te d now : trend_inv te -> trend_inv (update_trendline te d now).
Proof.
  intros H. unfold update_trendline. apply detect_inv, adapt_inv.
  set (te1 := if negb (have_first_arrival te) then _ else _).
  assert (H1 : trend_inv te1) by (destruct H; unfold te1; case_match; by constructor). clearbody te1.
  set (te2 := te1 <| accumulated_delay_ms ::= _ |>). set (te3 := te2 <| smoothed_delay_ms ::= _ |>).
  assert (H3 : trend_inv te3) by (destruct H1; by constructor). clearbody te3.
  match goal with |- trend_inv (set trendline_slope _ ?t) => assert (H4 : trend_inv t) by exact (store_inv te3 _ _ H3) end.
  destruct H4. by constructor.
Qed.

(** What [clamp_bitrate] leaves alone. *)
Definition same_limits (a a' : gcc_aimd_controller) : Prop :=
  min_bitrate_bps a' = min_bitrate_bps a /\ max_bitrate_bps a' = max_bitrate_bps a /\
  ack_bitrate_bps a' = ack_bitrate_bps a /\ have_ack_bitrate a' = have_ack_bitrate a /\
  consecutive_high_loss_windows a' = consecutive_high_loss_windows a.
Lemma clamp_bitrate_same a : same_limits a (clamp_bitrate a).
Proof. unfold same_limits, clamp_bitrate. repeat case_match; done. Qed.
Lemma recovery_probe_same a cap now : same_limits a (recovery_probe a cap now).
Proof. unfold same_limits, recovery_probe. repeat case_match; done. Qed.
Lemma increase_rate_same a now : same_limits a (increase_rate a now).
Proof.
  unfold increase_rate. destruct (_ <? _); [done|]. destruct (_ && _); [|done].
  exact (recovery_probe_same a _ now).
Qed.
Lemma same_limits_trans a b c : same_limits a b -> same_limits b c -> same_limits a c.
Proof. unfold same_limits. intuition congruence. Qed.
Lemma update_aimd_same a u now : same_limits a (update_aimd a u now).
Proof.
  unfold update_aimd. eapply same_limits_trans; [|apply clamp_bitrate_same].
  destruct u; [|done|done]. destruct (bool_decide _); [done|]. destruct (_ =? _); [done|].
  destruct (_ <=? _); [|done]. eapply same_limits_trans; [|apply increase_rate_same]. done.
Qed.

Section Limits.
Context {lo hi : Z} (Hlim : 0 < lo <= hi) (Hhi : is_u32 hi).

Lemma clamp_bitrate_rate a :
  min_bitrate_bps a = lo -> max_bitrate_bps a = hi ->
  current_bitrate_bps (clamp_bitrate a) = Z.min hi (Z.max lo (current_bitrate_bps a)).
Proof.
  destruct a; cbn; intros -> ->. unfold clamp_bitrate, set, eta_aimd. cbn.
  repeat (case_match; cbn in *); bool_hyps; lia.
Qed.

Lemma update_aimd_inv a u now : aimd_inv lo hi a -> aimd_inv lo hi (update_aimd a u now).
Proof.
  intros [H1 H2 H3 H4 H5]. destruct (update_aimd_same a u now) as (E1 & E2 & E3 & _ & E5).
  constructor; try congruence.
  revert E1 E2. unfold update_aimd. set (b := match u with BWE_NORMAL => _ | _ => _ end). intros E1 E2.
  destruct (clamp_bitrate_same b) as (F1 & F2 & _). rewrite clamp_bitrate_rate by congruence. lia.
Qed.

Lemma update_ack_inv a pkt : is_u32 (size_bytes pkt) -> aimd_inv lo hi a -> aimd_inv lo hi (update_ack_bitrate a pkt).
Proof.
  intros Hs [H1 H2 H3 H4 H5].
  assert (Hg : aimd_inv lo hi (ack_gap_reset a (pi_receive_time_us pkt))).
  { unfold ack_gap_reset. case_match; constructor; try done. }
  assert (He : aimd_inv lo hi (ack_window_extend (ack_gap_reset a (pi_receive_time_us pkt)) (pi_receive_time_us pkt))).
  { unfold ack_window_extend. destruct Hg. repeat case_match; constructor; done. }
  unfold update_ack_bitrate. destruct (_ =? 0); [by constructor|].
  destruct He as [G1 G2 G3 G4 G5]. case_match; constructor; try done. apply u32_range.
Qed.

Lemma report_loss_inv c lost total b c' :
  gcc_bwe_report_loss c lost total = (b, c') -> gcc_inv lo hi c -> gcc_inv lo hi c'.
Proof.
  intros E [Ht [H1 H2 H3 H4 H5]]. unfold gcc_bwe_report_loss in E.
  destruct (total =? 0); [by injection E as <- <-|].
  destruct (lost =? 0); [by injection E as <- <-; constructor|].
  destruct (_ <? _).
  - cbn -[backoff_bitrate u32] in E. destruct (Z.leb_spec GCC_HIGH_LOSS_BACKOFF_WINDOWS (u32 (consecutive_high_loss_windows (aimd c) + 1))).
    + injection E as <- <-. constructor; [done|]. constructor; try done. cbn -[backoff_bitrate u32].
      rewrite H1, H2. match goal with |- context [u32 ?x] => set (n := x) end.
      assert (lo <= n <= hi) by (subst n; repeat case_match; bool_hyps; lia).
      unfold u32. rewrite Z.mod_small; [lia|]. destruct Hhi. lia.
    + injection E as <- <-. constructor; [done|]. constructor; try done. cbn -[u32].
      unfold GCC_HIGH_LOSS_BACKOFF_WINDOWS in *. pose proof (u32_range (consecutive_high_loss_windows (aimd c) + 1)) as [? _]. lia.
  - injection E as <- <-. constructor; [by case_match|]. case_match; by constructor.
Qed.

#[local] Strategy opaque [update_trendline update_aimd update_ack_bitrate].
Lemma process_inv c pkt r c' :
  is_u32 (size_bytes pkt) -> gcc_bwe_process_twcc_packet c pkt = (r, c') -> gcc_inv lo hi c -> gcc_inv lo hi c'.
Proof.
  intros Hs E [Ht Ha]. unfold gcc_bwe_process_twcc_packet in E.
  set (c1 := if gcc_last_feedback_us c <? _ then _ else _) in E.
  assert (H1 : gcc_inv lo hi c1) by (subst c1; clear E; case_match; by constructor). clearbody c1. clear Ht Ha.
  destruct H1 as [Ht Ha]. destruct (_ && _); [by injection E as <- <-|].
  apply (update_ack_inv _ pkt Hs) in Ha.
  destruct (_ || _); [by injection E as <- <-|].
  destruct (0 <? _); injection E as <- <-; [|by constructor]. constructor.
  - exact (update_trendline_inv _ _ _ Ht).
  - exact (update_aimd_inv _ _ _ Ha).
Qed.

Lemma probe_completed_inv c bps now :
  is_u32 bps -> gcc_inv lo hi c -> gcc_inv lo hi (gcc_bwe_on_probe_cluster_completed c bps now).
Proof.
  intros Hb [Ht [H1 H2 H3 H4 H5]]. unfold gcc_bwe_on_probe_cluster_completed.
  assert (Hc : gcc_inv lo hi c) by (constructor; [done|by constructor]).
  destruct (_ =? 0); [done|]. destruct (bool_decide _); [done|].
  constructor; [done|]. cbn [aimd set].
  set (a1 := if _ <? bps then _ else aimd c).
  assert (Ha1 : aimd_inv lo hi a1).
  { unfold a1. destruct (Z.ltb_spec (current_bitrate_bps (aimd c)) bps); constructor; try done.
    unfold set, eta_aimd. cbn [current_bitrate_bps]. rewrite H1, H2. repeat case_match; bool_hyps; lia. }
  clearbody a1. set (a2 := if _ <? bps then _ else a1).
  assert (Ha2 : aimd_inv lo hi a2) by (destruct Ha1; unfold a2; case_match; by constructor).
  clearbody a2. set (a3 := a2 <| last_increase_us := now |> <| last_recovery_probe_us := now |> <| last_active_probe_us := now |>).
  assert (Ha3 : aimd_inv lo hi a3) by (destruct Ha2; by constructor). clearbody a3.
  destruct Ha3. change (aimd_inv lo hi (if bool_decide (rate_state a3 = RATE_HOLD) then a3 <| rate_state := RATE_INCREASE |> else a3)).
  case_match; by constructor.
Qed.

End Limits.

Inductive gcc_step : gcc_bwe_context -> gcc_bwe_context -> Prop :=
| gcc_packet c pkt r c' :
    is_u32 (size_bytes pkt) -> gcc_bwe_process_twcc_packet c pkt = (r, c') -> gcc_step c c'
| gcc_loss c lost total b c' : gcc_bwe_report_loss c lost total = (b, c') -> gcc_step c c'
| gcc_feedback c now : gcc_step c (gcc_bwe_record_feedback c now)
| gcc_probing c act : gcc_step c (gcc_bwe_set_active_probing c act)
| gcc_probed c bps now : is_u32 bps -> gcc_step c (gcc_bwe_on_probe_cluster_completed c bps now).

Lemma gcc_step_inv lo hi c c' : 0 < lo <= hi -> is_u32 hi -> gcc_step c c' -> gcc_inv lo hi c -> gcc_inv lo hi c'.
Proof.
  intros Hlim Hhi Hs Hi. destruct Hs.
  - eapply process_inv; eassumption.
  - eapply report_loss_inv; eassumption.
  - unfold gcc_bwe_record_feedback. destruct Hi. case_match; by constructor.
  - destruct Hi as [Ht [H1 H2 H3 H4 H5]]. unfold gcc_bwe_set_active_probing. case_match; constructor; try done; by constructor.
  - by apply probe_completed_inv.
Qed.

(** The limits [gcc_bwe_init] settles on. *)
Definition limits_valid (start lo hi : Z) : bool :=
  negb ((lo =? 0) || (hi =? 0) || (hi <? lo) || (start <? lo) || (hi <? start)).
Lemma gcc_init_inv start lo hi :
  is_u32 lo -> is_u32 hi ->
  let '(lo', hi') := if limits_valid start lo hi then (lo, hi) else (50000, 5000000) in
  0 < lo' <= hi' /\ is_u32 hi' /\ gcc_inv lo' hi' (gcc_bwe_init start lo hi).
Proof.
  intros [Hl _] Hh. unfold limits_valid, gcc_bwe_init.
  destruct (_ || _) eqn:E; cbn [negb].
  - split; [lia|]. split; [by unfold is_u32|]. constructor; constructor; done || (cbn; unfold is_u32; lia) || by vm_compute.
  - bool_hyps. split; [lia|]. split; [done|].
    constructor; constructor; done || (cbn; unfold is_u32; lia) || by vm_compute.
Qed.

(** C38: Whatever limits the estimator is started with and whatever packets,
    loss reports and probe results it is given, the estimated bitrate stays
    between the limits (the defaults replace unusable ones), the trend window
    stays inside its arrays, the adaptive threshold never compares below 6 ms
    or above 600 ms, and the high-loss streak stays under three. *)
Theorem gcc_reachable_inv start lo hi c :
  is_u32 lo -> is_u32 hi -> rtc gcc_step (gcc_bwe_init start lo hi) c ->
  let '(lo', hi') := if limits_valid start lo hi then (lo, hi) else (50000, 5000000) in
  gcc_inv lo' hi' c.
Proof.
  intros Hl Hh Hr. pose proof (gcc_init_inv start lo hi Hl Hh) as Hi.
  destruct (if limits_valid start lo hi then _ else _) as [lo' hi']. destruct Hi as (Hlim & Hhi & Hi).
  remember (gcc_bwe_init start lo hi) as c0 eqn:E0. clear E0.
  induction Hr; [done|]. eauto using gcc_step_inv.
Qed.

Definition ex_gcc : gcc_bwe_context := gcc_bwe_on_probe_cluster_completed (gcc_bwe_init 300000 50000 2000000) 2500000 7.
Lemma gcc_reachable_inv_witness : current_bitrate_bps (aimd ex_gcc) = 2000000 /\ gcc_inv 50000 2000000 ex_gcc.
Proof.
  split; [reflexivity|]. refine (gcc_reachable_inv 300000 50000 2000000 ex_gcc _ _ _); [by unfold is_u32|by unfold is_u32|].
  eapply rtc_l; [|apply rtc_refl]. apply gcc_probed. by unfold is_u32.
Defined.

(** * Direction of the controller *)

Lemma backoff_value a :
  is_u32 (current_bitrate_bps a) -> is_u32 (ack_bitrate_bps a) ->
  backoff_bitrate a =
    (if have_ack_bitrate a then Z.min (current_bitrate_bps a) (ack_bitrate_bps a) else current_bitrate_bps a) * 85 / 100.
Proof.
  intros Hc Ha. unfold backoff_bitrate, is_u32 in *.
  destruct (have_ack_bitrate a); cbn [andb]; [destruct (Z.ltb_spec (ack_bitrate_bps a) (current_bitrate_bps a))|];
    unfold u64; rewrite Z.mod_small by lia; f_equal; lia.
Qed.

Lemma recovery_probe_rate a cap now :
  is_u32 (current_bitrate_bps a) -> is_u32 (max_bitrate_bps a) -> 0 <= cap < 18446744073709351616 ->
  current_bitrate_bps a <= current_bitrate_bps (recovery_probe a cap now) <=
    Z.max (current_bitrate_bps a) (cap + 200000).
Proof.
  intros [Hc1 Hc2] [Hm1 Hm2] Hcap. unfold recovery_probe, GCC_RECOVERY_PROBE_MAX_BPS, GCC_RECOVERY_PROBE_STEP_BPS.
  destruct (_ && _); [lia|]. unfold u64. rewrite Z.mod_small by lia.
  set (rc := if max_bitrate_bps a <? cap + 200000 then _ else _).
  assert (Hrc : rc <= max_bitrate_bps a /\ rc <= cap + 200000) by (unfold rc; destruct (Z.ltb_spec (max_bitrate_bps a) (cap + 200000)); lia).
  destruct (Z.ltb_spec (current_bitrate_bps a) rc); [|lia].
  destruct (_ =? 0); [cbn [current_bitrate_bps set]; unfold set, eta_aimd; cbn; lia|].
  destruct (_ <=? _); [|lia]. unfold set, eta_aimd. cbn [current_bitrate_bps].
  unfold u32. rewrite Z.mod_small; destruct (Z.ltb_spec rc (current_bitrate_bps a + 50000)); lia.
Qed.

Lemma increase_rate_rate a now :
  is_u32 (current_bitrate_bps a) -> is_u32 (max_bitrate_bps a) -> is_u32 (ack_bitrate_bps a) ->
  0 <= increment_bps a now < 2 ^ 63 ->
  current_bitrate_bps a <= current_bitrate_bps (increase_rate a now) /\
  (have_ack_bitrate a = true ->
   current_bitrate_bps (increase_rate a now) <= Z.max (current_bitrate_bps a) (ack_bitrate_bps a * 3 / 2 + 200000)) /\
  last_increase_us (increase_rate a now) = now.
Proof.
  intros Hc Hm Ha Hadd. unfold increase_rate.
  set (cap := if have_ack_bitrate a then _ else _).
  assert (Hcap : 0 <= cap < 2 ^ 34 /\ (have_ack_bitrate a = true -> cap = ack_bitrate_bps a * 3 / 2)).
  { unfold cap, is_u32 in *. destruct (have_ack_bitrate a); [|by unfold UINT32_MAX].
    unfold u64. rewrite Z.mod_small by lia. split; [|done].
    split; [apply Z.div_pos; lia|apply Z.div_lt_upper_bound; lia]. }
  destruct Hcap as [Hcap Hk]. unfold is_u32 in *.
  unfold set, eta_aimd. destruct (Z.ltb_spec (current_bitrate_bps a) cap); cbn [current_bitrate_bps last_increase_us].
  - unfold u64. rewrite (Z.mod_small (current_bitrate_bps a + _)) by lia.
    set (next := if cap <? _ then cap else _).
    assert (current_bitrate_bps a <= next <= cap) by (unfold next; destruct (Z.ltb_spec cap (current_bitrate_bps a + increment_bps a now)); lia).
    clearbody next. unfold UINT32_MAX. destruct (Z.ltb_spec 4294967295 next); (split_and!; [lia| |done]); intros Hh;
      rewrite <- Hk by done; lia.
  - destruct (have_ack_bitrate a && _) eqn:E; cbn [current_bitrate_bps last_increase_us]; [|split_and!; [lia|lia|done]].
    pose proof (recovery_probe_rate a cap now ltac:(unfold is_u32; lia) ltac:(unfold is_u32; lia) ltac:(lia)).
    split_and!; [lia| |done]. intros Hh. rewrite <- Hk by done. lia.
Qed.

Lemma clamp_bitrate_keeps a :
  rate_state (clamp_bitrate a) = rate_state a /\ last_increase_us (clamp_bitrate a) = last_increase_us a.
Proof. unfold clamp_bitrate. repeat case_match; done. Qed.

(** The additive branch, before the clamp. *)
Definition normal_step (a : gcc_aimd_controller) (now : Z) : gcc_aimd_controller :=
  if bool_decide (rate_state a = RATE_DECREASE) then a <| rate_state := RATE_HOLD |> else
  let a := a <| rate_state := RATE_INCREASE |> in
  if last_increase_us a =? 0 then a <| last_increase_us := now |>
  else if GCC_AIMD_MIN_INCREASE_INTERVAL_US <=? now - last_increase_us a then increase_rate a now
  else a.
Lemma normal_step_rate a now :
  is_u32 (current_bitrate_bps a) -> is_u32 (max_bitrate_bps a) -> is_u32 (ack_bitrate_bps a) ->
  increment_bps a now < 2 ^ 63 ->
  let rate := current_bitrate_bps a in
  let rate' := current_bitrate_bps (normal_step a now) in
  rate <= rate' /\
  (rate' <> rate -> GCC_AIMD_MIN_INCREASE_INTERVAL_US <= now - last_increase_us a /\
                    rate_state a <> RATE_DECREASE /\ last_increase_us (normal_step a now) = now) /\
  (have_ack_bitrate a = true -> rate' <= Z.max rate (ack_bitrate_bps a * 3 / 2 + 200000)).
Proof.
  intros Hc Hm Ha Hadd rate rate'. subst rate rate'. unfold normal_step.
  assert (Hid : forall b : gcc_aimd_controller, current_bitrate_bps b = current_bitrate_bps a ->
    current_bitrate_bps a <= current_bitrate_bps b /\
    (current_bitrate_bps b <> current_bitrate_bps a -> GCC_AIMD_MIN_INCREASE_INTERVAL_US <= now - last_increase_us a /\
       rate_state a <> RATE_DECREASE /\ last_increase_us b = now) /\
    (have_ack_bitrate a = true -> current_bitrate_bps b <= Z.max (current_bitrate_bps a) (ack_bitrate_bps a * 3 / 2 + 200000)))
    by (intros b ->; split_and!; [lia|done|lia]).
  case_bool_decide as Hd; [by apply Hid|]. destruct (_ =? 0); [by apply Hid|].
  destruct (Z.leb_spec GCC_AIMD_MIN_INCREASE_INTERVAL_US (now - last_increase_us a)) as [Hi|Hi].
  2: { change (last_increase_us (a <| rate_state := RATE_INCREASE |>)) with (last_increase_us a).
       rewrite (proj2 (Z.leb_gt _ _) Hi). by apply Hid. }
  change (last_increase_us (a <| rate_state := RATE_INCREASE |>)) with (last_increase_us a).
  rewrite (proj2 (Z.leb_le _ _) Hi).
  set (b := a <| rate_state := RATE_INCREASE |>).
  destruct (increase_rate_rate b now Hc Hm Ha) as (R1 & R2 & R3).
  { split; [apply increment_nonneg|exact Hadd]. }
  split; [exact R1|split; [done|exact R2]].
Qed.

(** The controller moves the right way.  Under overuse the bitrate falls
    to 85% of the smaller of the bitrate and the acknowledged rate, never
    below the minimum and never up; under underuse it holds; otherwise it
    never falls, rises only when the previous increase is at least 100 ms
    old and no decrease came just before, and with an acknowledged rate
    known it never rises past one and a half times that rate plus 200 kb/s. *)
Theorem aimd_direction lo hi a usage now :
  0 < lo <= hi -> is_u32 hi -> aimd_inv lo hi a -> increment_bps a now < 2 ^ 63 ->
  let a' := update_aimd a usage now in
  let rate := current_bitrate_bps a in
  let rate' := current_bitrate_bps a' in
  match usage with
  | BWE_OVERUSE =>
      rate' = Z.max lo ((if have_ack_bitrate a then Z.min rate (ack_bitrate_bps a) else rate) * 85 / 100) /\
      rate' <= rate /\ rate_state a' = RATE_DECREASE
  | BWE_UNDERUSE => rate' = rate /\ rate_state a' = RATE_HOLD
  | BWE_NORMAL =>
      rate <= rate' /\
      (rate' <> rate -> GCC_AIMD_MIN_INCREASE_INTERVAL_US <= now - last_increase_us a /\
                        rate_state a <> RATE_DECREASE /\ last_increase_us a' = now) /\
      (have_ack_bitrate a = true -> rate' <= Z.max rate (ack_bitrate_bps a * 3 / 2 + 200000))
  end.
Proof.
  intros Hlim Hhi [H1 H2 H3 H4 H5] Hadd a' rate rate'. unfold is_u32 in Hhi.
  assert (Hc : is_u32 rate) by (unfold is_u32, rate in *; lia).
  assert (Hm : is_u32 (max_bitrate_bps a)) by (unfold is_u32; lia).
  unfold rate', a'. destruct usage; unfold update_aimd.
  - fold (normal_step a now). destruct (normal_step_rate a now Hc Hm H4 Hadd) as (R1 & R2 & R3). fold rate in R1, R2, R3.
    destruct (update_aimd_same a BWE_NORMAL now) as (E1 & E2 & _). unfold update_aimd in E1, E2. fold (normal_step a now) in E1, E2.
    destruct (clamp_bitrate_same (normal_step a now)) as (F1 & F2 & _).
    destruct (clamp_bitrate_keeps (normal_step a now)) as [_ ->].
    rewrite (clamp_bitrate_rate Hlim) by congruence. fold rate in H3.
    split_and!; [lia| |intros Hh; specialize (R3 Hh); lia]. intros Hne. apply R2. lia.
  - rewrite (clamp_bitrate_rate Hlim) by done. split; [cbn; unfold rate; lia|apply clamp_bitrate_keeps].
  - set (b := if have_ack_bitrate a then _ else _).
    assert (Hb : backoff_bitrate a = b * 85 / 100) by (by apply backoff_value).
    assert (Hle : 0 <= b <= rate) by (unfold b, is_u32, rate in *; destruct (have_ack_bitrate a); lia).
    assert (0 <= b * 85 / 100 <= b) by (split; [apply Z.div_pos; lia|apply Z.div_le_upper_bound; lia]).
    rewrite (clamp_bitrate_rate Hlim) by done. unfold set, eta_aimd. cbn [current_bitrate_bps].
    rewrite Hb. unfold is_u32, UINT32_MAX in *. rewrite (proj2 (Z.ltb_ge 4294967295 (b * 85 / 100))) by lia.
    split_and!; [lia|lia|apply clamp_bitrate_keeps].
Qed.

Definition ex_aimd : gcc_aimd_controller := mk_aimd 1000000 50000 5000000 RATE_INCREASE 5 0 0 900000 0 0 0 0 true false.
Lemma aimd_direction_witness :
  increment_bps ex_aimd 300005 = 120000 /\
  current_bitrate_bps (update_aimd ex_aimd BWE_NORMAL 300005) = 1120000 /\
  1120000 <= Z.max 1000000 (900000 * 3 / 2 + 200000).
Proof.
  split; [by vm_compute|]. split; [by vm_compute|].
  assert (E : current_bitrate_bps (update_aimd ex_aimd BWE_NORMAL 300005) = 1120000) by by vm_compute.
  assert (Hi : aimd_inv 50000 5000000 ex_aimd) by (constructor; cbn; unfold is_u32, GCC_HIGH_LOSS_BACKOFF_WINDOWS; lia).
  assert (Hn : increment_bps ex_aimd 300005 < 2 ^ 63) by by vm_compute.
  pose proof (proj2 (proj2 (aimd_direction 50000 5000000 ex_aimd BWE_NORMAL 300005 ltac:(lia) ltac:(unfold is_u32; lia) Hi Hn)) eq_refl) as H.
  rewrite E in H. exact H.
Defined.

(** * Loss reports *)

(** Windows of loss reports, by their share: the estimator backs off at
    every third consecutive window with more than a tenth lost. *)
Fixpoint loss_run (c : gcc_bwe_context) (ws : list (Z * Z)) : list bool * gcc_bwe_context :=
  match ws with
  | [] => ([], c)
  | (lost, total) :: ws =>
      let (b, c) := gcc_bwe_report_loss c lost total in
      let (bs, c) := loss_run c ws in (b :: bs, c)
  end.
Fixpoint loss_spec (streak : Z) (ws : list (Z * Z)) : list bool :=
  match ws with
  | [] => []
  | (lost, total) :: ws =>
      if total =? 0 then false :: loss_spec streak ws
      else if 10 * lost <=? total then false :: loss_spec 0 ws
      else if streak =? 2 then true :: loss_spec 0 ws
      else false :: loss_spec (streak + 1) ws
  end.

(** Counts small enough for the 32-bit products. *)
Definition window_ok (w : Z * Z) : Prop := 0 <= fst w < 42949672 /\ 0 <= snd w < 42949672.

Lemma report_loss_step c lost total :
  0 <= consecutive_high_loss_windows (aimd c) < 3 -> window_ok (lost, total) ->
  let streak := consecutive_high_loss_windows (aimd c) in
  let r := gcc_bwe_report_loss c lost total in
  (fst r, consecutive_high_loss_windows (aimd (snd r))) =
    if total =? 0 then (false, streak)
    else if 10 * lost <=? total then (false, 0)
    else if streak =? 2 then (true, 0) else (false, streak + 1).
Proof.
  intros Hs [Hl Ht] streak r. cbn [fst snd] in *. unfold r, gcc_bwe_report_loss.
  destruct (Z.eqb_spec total 0); [done|]. destruct (Z.eqb_spec lost 0) as [->|].
  { rewrite (proj2 (Z.leb_le (10 * 0) total)) by lia. done. }
  unfold u32. rewrite (Z.mod_small (total * 10)), (Z.mod_small (lost * 100)), (Z.mod_small (total * 2)) by lia.
  destruct (Z.ltb_spec (total * 10) (lost * 100)); [rewrite (proj2 (Z.leb_gt (10 * lost) total)) by lia|
    rewrite (proj2 (Z.leb_le (10 * lost) total)) by lia; by case_match].
  change (consecutive_high_loss_windows ((aimd c) <| consecutive_high_loss_windows ::= fun n => (n + 1) mod 4294967296 |>))
    with ((streak + 1) mod 4294967296). unfold GCC_HIGH_LOSS_BACKOFF_WINDOWS.
  rewrite Z.mod_small by (unfold streak; lia).
  destruct (Z.eqb_spec streak 2); [rewrite (proj2 (Z.leb_le 3 (streak + 1))) by lia; done|].
  rewrite (proj2 (Z.leb_gt 3 (streak + 1))) by (unfold streak in *; lia). cbn [fst snd]. f_equal.
  change ((streak + 1) mod 4294967296 = streak + 1). rewrite Z.mod_small by (unfold streak; lia). done.
Qed.

(** Loss reports cut the rate exactly at every third consecutive window
    that lost more than a tenth of its packets: a quieter window ends the
    streak, an empty one leaves it, and a cut starts it anew. *)
Theorem loss_backoff_third_window c ws :
  consecutive_high_loss_windows (aimd c) = 0 -> Forall window_ok ws ->
  fst (loss_run c ws) = loss_spec 0 ws.
Proof.
  intros H0 Hw. assert (Hs : 0 <= consecutive_high_loss_windows (aimd c) < 3) by lia. rewrite <- H0. clear H0.
  revert c Hs. induction Hw as [|[lost total] ws Hok Hw IH]; intros c Hs; [done|].
  pose proof (report_loss_step c lost total Hs Hok) as Hstep. cbn [loss_run loss_spec].
  destruct (gcc_bwe_report_loss c lost total) as [b c'] eqn:E. cbn [fst snd] in Hstep.
  specialize (IH c'). destruct (loss_run c' ws) as [bs c''] eqn:E'. cbn [fst] in *.
  destruct (total =? 0); [injection Hstep as -> Hst; rewrite Hst in IH; by rewrite IH|].
  destruct (10 * lost <=? total); [injection Hstep as -> Hst; rewrite Hst in IH; by rewrite IH|].
  destruct (Z.eqb_spec (consecutive_high_loss_windows (aimd c)) 2);
    injection Hstep as -> Hst; rewrite Hst in IH; rewrite IH; done || lia.
Qed.

Lemma loss_backoff_third_window_witness :
  fst (loss_run (gcc_bwe_init 300000 50000 5000000) [(20, 100); (0, 0); (30, 100); (11, 100); (50, 100)]) =
    [false; false; false; true; false].
Proof.
  refine (loss_backoff_third_window (gcc_bwe_init 300000 50000 5000000) _ _ _); [done|].
  repeat constructor; cbn; lia.
Defined.
