(* ===== verification/Ring.v ===== *)
(** Circular buffers: an array with a head index and an element count, as the
    list of the elements between them.  Shared by the paced send queues. *)

From S2P Require Import Prelude.
Local Open Scope Z_scope.

Section Ring.
Context {A : Type} (d : A).

Definition ring_at (l : list A) (i : Z) : A := nth (Z.to_nat i) l d.
Definition ring_put (l : list A) (i : Z) (x : A) : list A := <[Z.to_nat i := x]> l.

(** The [n] elements from index [h] on. *)
Fixpoint ring (l : list A) (h : Z) (n : nat) : list A :=
  match n with
  | O => []
  | S n => ring_at l h :: ring l ((h + 1) mod zlen l) n
  end.

Lemma zlen_ring_put l i x : zlen (ring_put l i x) = zlen l.
Proof. unfold zlen, ring_put. by rewrite length_insert. Qed.
Lemma ring_length l h n : length (ring l h n) = n.
Proof. revert h. induction n; intros h; cbn; [done|]. by rewrite IHn. Qed.

Lemma ring_at_put l i j x :
  0 <= i < zlen l -> 0 <= j -> ring_at (ring_put l i x) j = if i =? j then x else ring_at l j.
Proof.
  intros Hi Hj. unfold ring_at, ring_put, zlen in *. rewrite !nth_lookup.
  destruct (Z.eqb_spec i j) as [<-|Hne]; [rewrite list_lookup_insert_eq by lia; done|].
  rewrite list_lookup_insert_ne by lia. done.
Qed.

Lemma ring_lookup l h n k :
  0 <= h < zlen l -> (k < n)%nat -> ring l h n !! k = Some (ring_at l ((h + Z.of_nat k) mod zlen l)).
Proof.
  revert h k. induction n as [|n IH]; intros h k Hh Hk; [lia|]. destruct k as [|k]; cbn.
  - rewrite Z.add_0_r, Z.mod_small by lia. done.
  - rewrite IH by (try lia; apply Z.mod_pos_bound; lia). rewrite Zplus_mod_idemp_l. do 3 f_equal. lia.
Qed.

Lemma ring_ext l l' h h' n :
  0 <= h < zlen l -> 0 <= h' < zlen l' ->
  (forall k, (k < n)%nat -> ring_at l ((h + Z.of_nat k) mod zlen l) = ring_at l' ((h' + Z.of_nat k) mod zlen l')) ->
  ring l h n = ring l' h' n.
Proof.
  intros Hh Hh' Hk. apply list_eq. intros k. destruct (decide (k < n)%nat).
  - rewrite !ring_lookup by lia. by rewrite Hk.
  - rewrite !lookup_ge_None_2 by (rewrite ring_length; lia). done.
Qed.

Lemma ring_offset_inj c h a b :
  0 <= a < c -> 0 <= b < c -> (h + a) mod c = (h + b) mod c -> a = b.
Proof.
  intros Ha Hb E. pose proof (Z.div_mod (h + a) c ltac:(lia)) as E1. pose proof (Z.div_mod (h + b) c ltac:(lia)) as E2.
  rewrite E in E1. assert (E3 : a - b = c * ((h + a) / c - (h + b) / c)) by lia.
  assert (Hz : (h + a) / c - (h + b) / c = 0) by nia. rewrite Hz in E3. lia.
Qed.

(** Push at the tail. *)
Lemma ring_push l h n x :
  0 <= h < zlen l -> Z.of_nat n < zlen l ->
  ring (ring_put l ((h + Z.of_nat n) mod zlen l) x) h (S n) = ring l h n ++ [x].
Proof.
  intros Hh Hn. assert (Hm : forall k : Z, 0 <= (h + k) mod zlen l < zlen l) by (intros; apply Z.mod_pos_bound; lia).
  apply list_eq. intros k. destruct (decide (k < S n)%nat) as [Hk|Hk].
  - rewrite ring_lookup by (rewrite ?zlen_ring_put; lia). rewrite zlen_ring_put, ring_at_put by (try apply Hm; apply Hm).
    destruct (decide (k = n)) as [->|Hne].
    + rewrite Z.eqb_refl. by rewrite list_lookup_middle by (by rewrite ring_length).
    + rewrite lookup_app_l by (rewrite ring_length; lia). rewrite ring_lookup by lia.
      destruct (Z.eqb_spec ((h + Z.of_nat n) mod zlen l) ((h + Z.of_nat k) mod zlen l)) as [E|]; [|done].
      apply ring_offset_inj in E; lia.
  - rewrite !lookup_ge_None_2; [done|rewrite length_app, ring_length; cbn; lia|rewrite ring_length; lia].
Qed.

(** Pop at the head. *)
Lemma ring_pop l h n : ring l h (S n) = ring_at l h :: ring l ((h + 1) mod zlen l) n.
Proof. done. Qed.

(** Drop at the tail. *)
Lemma ring_snoc l h n :
  0 <= h < zlen l -> ring l h (S n) = ring l h n ++ [ring_at l ((h + Z.of_nat n) mod zlen l)].
Proof.
  intros Hh. apply list_eq. intros k. destruct (decide (k < S n)%nat) as [Hk|Hk].
  - rewrite ring_lookup by lia. destruct (decide (k = n)) as [->|Hne].
    + by rewrite list_lookup_middle by (by rewrite ring_length).
    + rewrite lookup_app_l by (rewrite ring_length; lia). by rewrite ring_lookup by lia.
  - rewrite !lookup_ge_None_2; [done|rewrite length_app, ring_length; cbn; lia|rewrite ring_length; lia].
Qed.

(** Writes: inside the occupied part, and outside of it. *)
Lemma ring_put_in l h n k x :
  0 <= h < zlen l -> (k < n)%nat -> Z.of_nat n <= zlen l ->
  ring (ring_put l ((h + Z.of_nat k) mod zlen l) x) h n = <[k := x]> (ring l h n).
Proof.
  intros Hh Hk Hn. assert (Hm : forall k : Z, 0 <= (h + k) mod zlen l < zlen l) by (intros; apply Z.mod_pos_bound; lia).
  apply list_eq. intros j. destruct (decide (j < n)%nat) as [Hj|Hj].
  - rewrite ring_lookup by (rewrite ?zlen_ring_put; lia). rewrite zlen_ring_put, ring_at_put by (try apply Hm; apply Hm).
    destruct (decide (k = j)) as [->|Hne].
    + rewrite Z.eqb_refl, list_lookup_insert_eq by (rewrite ring_length; lia). done.
    + rewrite list_lookup_insert_ne by lia. rewrite ring_lookup by lia.
      destruct (Z.eqb_spec ((h + Z.of_nat k) mod zlen l) ((h + Z.of_nat j) mod zlen l)) as [E|]; [|done].
      apply ring_offset_inj in E; lia.
  - rewrite !lookup_ge_None_2; [done|rewrite length_insert, ring_length; lia|rewrite ring_length; lia].
Qed.
Lemma ring_put_out l h n k x :
  0 <= h < zlen l -> Z.of_nat n <= k < zlen l ->
  ring (ring_put l ((h + k) mod zlen l) x) h n = ring l h n.
Proof.
  intros Hh Hk. assert (Hm : forall k : Z, 0 <= (h + k) mod zlen l < zlen l) by (intros; apply Z.mod_pos_bound; lia).
  apply ring_ext; rewrite ?zlen_ring_put; [lia|lia|]. intros j Hj. rewrite ring_at_put by (try apply Hm; apply Hm).
  destruct (Z.eqb_spec ((h + k) mod zlen l) ((h + Z.of_nat j) mod zlen l)) as [E|]; [|done].
  apply ring_offset_inj in E; lia.
Qed.

Lemma ring_app l h n m :
  0 <= h < zlen l -> ring l h (n + m) = ring l h n ++ ring l ((h + Z.of_nat n) mod zlen l) m.
Proof.
  revert h. induction n as [|n IH]; intros h Hh.
  - cbn. rewrite Z.add_0_r, Z.mod_small by lia. done.
  - cbn. rewrite IH by (apply Z.mod_pos_bound; lia). rewrite Zplus_mod_idemp_l. do 4 f_equal. lia.
Qed.
Lemma ring_drop l h n k :
  0 <= h < zlen l -> (k <= n)%nat -> drop k (ring l h n) = ring l ((h + Z.of_nat k) mod zlen l) (n - k).
Proof.
  intros Hh Hk. replace n with (k + (n - k))%nat at 1 by lia. rewrite ring_app by done.
  rewrite drop_app_length' by (by rewrite ring_length). done.
Qed.
Lemma ring_take l h n k : 0 <= h < zlen l -> (k <= n)%nat -> take k (ring l h n) = ring l h k.
Proof.
  intros Hh Hk. replace n with (k + (n - k))%nat by lia. rewrite ring_app by done.
  rewrite take_app_length' by (by rewrite ring_length). done.
Qed.
End Ring.
