(* ===== verification/PacedSend.v ===== *)
(** The paced media queue, [src/pipeline/paced_send.c]: a ring of packets
    with release times, filled frame by frame and drained by the worker.
    Packets hold reservations of the session's pacer. *)

From S2P Require Import Prelude Pacer Rtx TwccHistory Ring.
From stdpp Require Import relations.
Local Open Scope Z_scope.

Definition SFU_PACED_SEND_CAPACITY : Z := 512.
Definition SFU_PACED_SEND_MAX_PAYLOAD : Z := 2048.
Definition SFU_PACED_SEND_MAX_DRAIN_PER_SCAN : Z := 4.
Definition SFU_PACED_SEND_SCAN_INTERVAL_US : Z := 2000.
Definition SFU_PACED_SEND_MIN_BPS : Z := 2000000.
Definition SFU_PACED_SEND_KEYFRAME_MIN_BPS : Z := 5000000.
Definition SFU_PACED_SEND_SCREEN_MOTION_MAX_DELAY_US : Z := 250000.
Definition SFU_PACED_SEND_MAX_DROPPED_PUBLISHERS : Z := 8.
Definition SFU_MAX_REMOTE_SLOTS : Z := 299.

(** Counters of 32 and 64 bits. *)
Definition inc32 (n : Z) : Z := u32 (n + 1).
Definition dec32 (n : Z) : Z := u32 (n - 1).
Definition inc64 (n : Z) : Z := u64 (n + 1).

Record sfu_paced_send_drop_report := mk_drop_report {
  dr_frames : Z;
  dr_truncated : bool;
  dr_publisher_peer_ids : list Z
}.

Record sfu_paced_send_metadata := mk_metadata {
  pm_assignment_generation : Z;
  pm_owner_value : Z;
  pm_transport_generation : Z;
  pm_address_generation : Z;
  pm_remote_slot : Z;
  pm_publisher_peer_id : Z;
  pm_twcc_seq : Z;
  pm_subscriber_seq : Z;
  pm_media_ssrc : Z;
  pm_rtx_ssrc : Z;
  pm_egress_generation : Z;
  pm_rtx_pt : Z;
  pm_twcc_written : bool;
  pm_cache_rtx : bool;
  pm_frame_end : bool;
  pm_is_keyframe : bool
}.
#[export] Instance eta_metadata : Eta sfu_paced_send_metadata := fun m =>
  mk_metadata (pm_assignment_generation m) (pm_owner_value m) (pm_transport_generation m) (pm_address_generation m)
    (pm_remote_slot m) (pm_publisher_peer_id m) (pm_twcc_seq m) (pm_subscriber_seq m) (pm_media_ssrc m) (pm_rtx_ssrc m)
    (pm_egress_generation m) (pm_rtx_pt m) (pm_twcc_written m) (pm_cache_rtx m) (pm_frame_end m) (pm_is_keyframe m).
Definition zero_metadata : sfu_paced_send_metadata :=
  mk_metadata 0 0 0 0 0 0 0 0 0 0 0 0 false false false false.

(** The packet bytes are the filled part of the two payload arrays; the pacer
    an entry points to is always the one of the session. *)
Record sfu_paced_send_entry := mk_paced_entry {
  pe_release_at_us : Z;
  pe_enqueued_at_us : Z;
  pe_span_us : Z;
  pe_dst : list Z;
  pe_dst_len : Z;
  pe_len : Z;
  pe_rtx_plaintext_len : Z;
  pe_pacer_class : Z;
  pe_reservation : sfu_pacer_reservation;
  pe_metadata : sfu_paced_send_metadata;
  pe_data : list Z;
  pe_rtx_plaintext : list Z
}.
#[export] Instance eta_paced_entry : Eta sfu_paced_send_entry := fun e =>
  mk_paced_entry (pe_release_at_us e) (pe_enqueued_at_us e) (pe_span_us e) (pe_dst e) (pe_dst_len e) (pe_len e)
    (pe_rtx_plaintext_len e) (pe_pacer_class e) (pe_reservation e) (pe_metadata e) (pe_data e) (pe_rtx_plaintext e).
Definition zero_entry : sfu_paced_send_entry :=
  mk_paced_entry 0 0 0 [] 0 0 0 0 no_reservation zero_metadata [] [].

(** [q_entries] is empty before the first allocation. *)
Record sfu_paced_send := mk_paced_send {
  q_entries : list sfu_paced_send_entry;
  q_capacity : Z;
  q_head : Z;
  q_tail : Z;
  q_count : Z;
  q_ready_count : Z;
  q_next_release_us : Z;
  q_input_timestamp : Z;
  q_high_water : Z;
  q_input_frame_started_us : Z;
  q_input_frame_base_next_release_us : Z;
  q_input_frame_queued_packets : Z;
  q_max_input_frame_span_us : Z;
  q_max_enqueue_to_send_us : Z;
  q_max_release_late_us : Z;
  q_enqueue_to_send_sum_us : Z;
  q_enqueue_to_send_samples : Z;
  q_input_frames_over_delay : Z;
  q_drain_invocations : Z;
  q_drain_cap_hits : Z;
  q_max_drain_packets : Z;
  q_input_frame_active : bool;
  q_drop_input_frame : bool;
  q_input_frame_is_keyframe : bool;
  q_rolled_back_publisher_peer_id : Z;
  q_rolled_back_media_ssrc : Z;
  q_rolled_back_packet_count : Z;
  q_sent : Z;
  q_dropped_full : Z;
  q_dropped_delay_frames : Z;
  q_dropped_frame_packets : Z;
  q_dropped_stale : Z;
  q_ready_frame_count : Z;
  q_motion_frame_count : Z;
  q_last_frame_size_bytes : Z
}.
#[export] Instance eta_paced_send : Eta sfu_paced_send := fun q =>
  mk_paced_send (q_entries q) (q_capacity q) (q_head q) (q_tail q) (q_count q) (q_ready_count q) (q_next_release_us q)
    (q_input_timestamp q) (q_high_water q) (q_input_frame_started_us q) (q_input_frame_base_next_release_us q)
    (q_input_frame_queued_packets q) (q_max_input_frame_span_us q) (q_max_enqueue_to_send_us q) (q_max_release_late_us q)
    (q_enqueue_to_send_sum_us q) (q_enqueue_to_send_samples q) (q_input_frames_over_delay q) (q_drain_invocations q)
    (q_drain_cap_hits q) (q_max_drain_packets q) (q_input_frame_active q) (q_drop_input_frame q)
    (q_input_frame_is_keyframe q) (q_rolled_back_publisher_peer_id q) (q_rolled_back_media_ssrc q)
    (q_rolled_back_packet_count q) (q_sent q) (q_dropped_full q) (q_dropped_delay_frames q) (q_dropped_frame_packets q)
    (q_dropped_stale q) (q_ready_frame_count q) (q_motion_frame_count q) (q_last_frame_size_bytes q).

Definition sfu_paced_send_init : sfu_paced_send :=
  mk_paced_send [] 0 0 0 0 0 0 0 0 0 0 0 0 0 0 0 0 0 0 0 0 false false false 0 0 0 0 0 0 0 0 0 0 0.

Definition entry_at (q : sfu_paced_send) (i : Z) : sfu_paced_send_entry := ring_at zero_entry (q_entries q) i.
Definition set_entry (q : sfu_paced_send) (i : Z) (e : sfu_paced_send_entry) : sfu_paced_send :=
  q <| q_entries ::= fun l => ring_put l i e |>.
Definition next_index (q : sfu_paced_send) (i : Z) : Z := u32 (i + 1) mod q_capacity q.
Definition prev_index (q : sfu_paced_send) (i : Z) : Z := if i =? 0 then u32 (q_capacity q - 1) else u32 (i - 1).

(** [destroy]: the open reservations of the queued packets are cancelled. *)
Fixpoint destroy_loop (n : nat) (q : sfu_paced_send) (index : Z) (p : sfu_pacer) : sfu_pacer :=
  match n with
  | O => p
  | S n =>
      let '(p, r) := sfu_pacer_cancel p (pe_reservation (entry_at q index)) in
      destroy_loop n (set_entry q index ((entry_at q index) <| pe_reservation := r |>)) (next_index q index) p
  end.
Definition sfu_paced_send_destroy (q : sfu_paced_send) (p : sfu_pacer) : sfu_paced_send * sfu_pacer :=
  let p := match q_entries q with [] => p | _ => destroy_loop (Z.to_nat (q_count q)) q (q_head q) p end in
  (sfu_paced_send_init, p).

Definition sfu_paced_send_projected_delay_us (q : sfu_paced_send) (now_us : Z) : Z :=
  if q_count q =? 0 then 0 else
  let serialization := if now_us <? q_next_release_us q then q_next_release_us q - now_us else 0 in
  let scans := (q_ready_count q + SFU_PACED_SEND_MAX_DRAIN_PER_SCAN - 1) / SFU_PACED_SEND_MAX_DRAIN_PER_SCAN in
  let scan_delay := scans * SFU_PACED_SEND_SCAN_INTERVAL_US in
  if scan_delay <? serialization then serialization else scan_delay.

(** ** Frames *)

Definition rollback_one (q : sfu_paced_send) (p : sfu_pacer) : sfu_paced_send * sfu_pacer :=
  let q := q <| q_tail := prev_index q (q_tail q) |> in
  let e := entry_at q (q_tail q) in
  let m := pe_metadata e in
  let q := if negb (pm_publisher_peer_id m =? 0)
           then q <| q_rolled_back_publisher_peer_id := pm_publisher_peer_id m |> else q in
  let q := if negb (pm_media_ssrc m =? 0) then q <| q_rolled_back_media_ssrc := pm_media_ssrc m |> else q in
  let p := (sfu_pacer_cancel p (pe_reservation e)).1 in
  ((set_entry q (q_tail q) zero_entry) <| q_count ::= dec32 |>, p).
Fixpoint undo_loop (n : nat) (q : sfu_paced_send) (p : sfu_pacer) : sfu_paced_send * sfu_pacer :=
  match n with
  | O => (q, p)
  | S n => let '(q, p) := rollback_one q p in undo_loop n q p
  end.
Definition sfu_paced_send_rollback_input_frame (q : sfu_paced_send) (p : sfu_pacer) : sfu_paced_send * sfu_pacer :=
  if bool_decide (q_entries q = []) || (q_input_frame_queued_packets q =? 0) ||
     (q_count q <? q_input_frame_queued_packets q) then (q, p) else
  let q := q <| q_rolled_back_packet_count := u16 (q_input_frame_queued_packets q) |> in
  let '(q, p) := undo_loop (Z.to_nat (q_input_frame_queued_packets q)) q p in
  let q := q <| q_next_release_us := q_input_frame_base_next_release_us q |>
             <| q_input_frame_queued_packets := 0 |> <| q_input_frame_is_keyframe := false |> in
  (if q_count q =? 0 then q <| q_tail := 0 |> <| q_head := 0 |> <| q_next_release_us := 0 |> <| q_ready_frame_count := 0 |>
   else q, p).

(** The start of a frame in [admit_frame_packet]. *)
Definition begin_frame (q : sfu_paced_send) (p : sfu_pacer) (rtp_timestamp : Z) (keyframe drop_on_delay : bool)
    (max_delay_us now_us : Z) : sfu_paced_send * sfu_pacer :=
  let '(q, p) :=
    if q_input_frame_active q && negb (q_input_timestamp q =? rtp_timestamp) then
      let '(q, p) := sfu_paced_send_rollback_input_frame q p in
      (q <| q_input_frame_active := false |> <| q_drop_input_frame := false |> <| q_input_frame_is_keyframe := false |>, p)
    else (q, p) in
  let q :=
    if q_input_frame_active q && (q_input_frame_started_us q <=? now_us) then
      let span := now_us - q_input_frame_started_us q in
      let q := if q_max_input_frame_span_us q <? span then q <| q_max_input_frame_span_us := span |> else q in
      if max_delay_us <? span then q <| q_input_frames_over_delay ::= inc64 |> else q
    else q in
  let q := q <| q_input_timestamp := rtp_timestamp |> <| q_input_frame_started_us := now_us |>
             <| q_input_frame_base_next_release_us := q_next_release_us q |> <| q_input_frame_queued_packets := 0 |>
             <| q_input_frame_active := true |> <| q_input_frame_is_keyframe := keyframe |> in
  let q := if 3 <? q_ready_frame_count q then q <| q_motion_frame_count ::= inc32 |>
           else if 0 <? q_motion_frame_count q then q <| q_motion_frame_count ::= dec32 |> else q in
  let effective_max_delay := if 0 <? q_motion_frame_count q then SFU_PACED_SEND_SCREEN_MOTION_MAX_DELAY_US else max_delay_us in
  let drop := drop_on_delay && negb keyframe && (effective_max_delay <=? sfu_paced_send_projected_delay_us q now_us) in
  let q := q <| q_drop_input_frame := drop |> in
  (if drop then q <| q_dropped_delay_frames ::= inc64 |> else q, p).

Definition sfu_paced_send_admit_frame_packet (q : sfu_paced_send) (p : sfu_pacer) (rtp_timestamp : Z)
    (marker keyframe drop_on_delay : bool) (max_delay_us now_us : Z) : bool * sfu_paced_send * sfu_pacer :=
  let '(q, p) :=
    if negb (q_input_frame_active q) || negb (q_input_timestamp q =? rtp_timestamp)
    then begin_frame q p rtp_timestamp keyframe drop_on_delay max_delay_us now_us else (q, p) in
  let q := if keyframe then q <| q_input_frame_is_keyframe := true |> else q in
  let admitted := negb (q_drop_input_frame q) in
  let q := if admitted then q else q <| q_dropped_frame_packets ::= inc64 |> in
  let q := if marker && negb admitted
           then q <| q_input_frame_active := false |> <| q_drop_input_frame := false |> <| q_input_frame_is_keyframe := false |>
           else q in
  (admitted, q, p).

Definition sfu_paced_send_finish_input_frame (q : sfu_paced_send) : sfu_paced_send :=
  if negb (q_input_frame_active q) then q else
  let q :=
    if negb (q_input_frame_queued_packets q =? 0) then
      let last := prev_index q (q_tail q) in
      (set_entry q last ((entry_at q last) <| pe_metadata ::= fun m => m <| pm_frame_end := true |> |>))
        <| q_ready_frame_count ::= inc32 |>
    else q in
  q <| q_ready_count ::= fun n => u32 (n + q_input_frame_queued_packets q) |>
    <| q_input_frame_queued_packets := 0 |> <| q_input_frame_active := false |> <| q_drop_input_frame := false |>
    <| q_input_frame_is_keyframe := false |>.

Definition sfu_paced_send_reject_input_frame (q : sfu_paced_send) : sfu_paced_send :=
  if q_input_frame_active q then q <| q_drop_input_frame := true |> else q.

(** ** Backlog *)

Fixpoint rebase_loop (n : nat) (q : sfu_paced_send) (index base : Z) : sfu_paced_send * Z :=
  match n with
  | O => (q, base)
  | S n =>
      let e := entry_at q index in
      rebase_loop n (set_entry q index (e <| pe_release_at_us := base |>)) (next_index q index) (base + pe_span_us e)
  end.
Fixpoint span_sum (n : nat) (q : sfu_paced_send) (index : Z) : Z :=
  match n with
  | O => 0
  | S n => pe_span_us (entry_at q index) + span_sum n q (next_index q index)
  end.
Definition rebase_backlog (q : sfu_paced_send) (now_us : Z) : sfu_paced_send :=
  let '(q, base) := rebase_loop (Z.to_nat (q_count q)) q (q_head q) now_us in
  let q := q <| q_next_release_us := if q_count q =? 0 then 0 else base |> in
  if q_input_frame_active q
  then q <| q_input_frame_base_next_release_us := now_us + span_sum (Z.to_nat (q_ready_count q)) q (q_head q) |>
  else q.

Definition sfu_paced_send_drop_report_init : sfu_paced_send_drop_report := mk_drop_report 0 false [].
Definition sfu_paced_send_drop_report_add (r : sfu_paced_send_drop_report) (publisher_peer_id : Z) : sfu_paced_send_drop_report :=
  if publisher_peer_id =? 0 then r
  else if existsb (Z.eqb publisher_peer_id) (dr_publisher_peer_ids r) then r
  else if SFU_PACED_SEND_MAX_DROPPED_PUBLISHERS <=? zlen (dr_publisher_peer_ids r)
  then mk_drop_report (dr_frames r) true (dr_publisher_peer_ids r)
  else mk_drop_report (dr_frames r) (dr_truncated r) (dr_publisher_peer_ids r ++ [publisher_peer_id]).

(** The inner loop of [bound_backlog]: the packet at the head, and the head frame. *)
Definition drop_packet (q : sfu_paced_send) (p : sfu_pacer) : sfu_paced_send * sfu_pacer :=
  let e := entry_at q (q_head q) in
  let p := (sfu_pacer_cancel p (pe_reservation e)).1 in
  let q := set_entry q (q_head q) zero_entry in
  (q <| q_head := next_index q (q_head q) |> <| q_count ::= dec32 |> <| q_ready_count ::= dec32 |>, p).
Fixpoint drop_frame (n : nat) (q : sfu_paced_send) (p : sfu_pacer) (frame_end : bool) (frame_publisher : Z)
  : sfu_paced_send * sfu_pacer * bool * Z :=
  match n with
  | O => (q, p, frame_end, frame_publisher)
  | S n =>
      if (q_ready_count q =? 0) || frame_end then (q, p, frame_end, frame_publisher) else
      let m := pe_metadata (entry_at q (q_head q)) in
      let '(q, p) := drop_packet q p in
      drop_frame n q p (pm_frame_end m) (pm_publisher_peer_id m)
  end.

(** One round of the outer loop. *)
Definition drop_head_frame (q : sfu_paced_send) (p : sfu_pacer) (now_us : Z) (report : sfu_paced_send_drop_report)
  : sfu_paced_send * sfu_pacer * sfu_paced_send_drop_report :=
  let '(q, p, frame_end, publisher) := drop_frame (Z.to_nat (q_ready_count q)) q p false 0 in
  let q := if frame_end && (0 <? q_ready_frame_count q) then q <| q_ready_frame_count ::= dec32 |> else q in
  let q := q <| q_dropped_delay_frames ::= inc64 |> in
  let report := sfu_paced_send_drop_report_add
                  (mk_drop_report (inc32 (dr_frames report)) (dr_truncated report) (dr_publisher_peer_ids report)) publisher in
  (rebase_backlog q now_us, p, report).

Fixpoint backlog_loop (fuel : nat) (q : sfu_paced_send) (p : sfu_pacer) (max_delay_us now_us : Z)
    (report : sfu_paced_send_drop_report) : sfu_paced_send * sfu_pacer * sfu_paced_send_drop_report :=
  match fuel with
  | O => (q, p, report)
  | S fuel =>
      if negb (q_ready_count q =? 0) && (max_delay_us <=? sfu_paced_send_projected_delay_us q now_us) then
        if pm_is_keyframe (pe_metadata (entry_at q (q_head q))) then (q, p, report) else
        let '(q, p, report) := drop_head_frame q p now_us report in
        backlog_loop fuel q p max_delay_us now_us report
      else (q, p, report)
  end.

(** Every round removes a packet, so the packets ready bound the rounds. *)
Definition sfu_paced_send_bound_backlog (q : sfu_paced_send) (p : sfu_pacer) (max_delay_us now_us : Z)
    (report : sfu_paced_send_drop_report) : bool * sfu_paced_send * sfu_pacer * sfu_paced_send_drop_report :=
  if (max_delay_us <=? 0) || q_input_frame_active q then (false, q, p, report) else
  let '(q, p, report) := backlog_loop (Z.to_nat (q_ready_count q) + 1) q p max_delay_us now_us report in
  let q := if q_count q =? 0 then q <| q_tail := 0 |> <| q_head := 0 |> <| q_ready_frame_count := 0 |> else q in
  (sfu_paced_send_projected_delay_us q now_us <? max_delay_us, q, p, report).

(** ** Enqueue *)

Definition pacing_span (len pacing_bps : Z) (is_keyframe : bool) : Z :=
  let min_rate := if is_keyframe then SFU_PACED_SEND_KEYFRAME_MIN_BPS else SFU_PACED_SEND_MIN_BPS in
  let rate := if pacing_bps <? min_rate then min_rate else pacing_bps in
  (len * 8 * 1000000 + rate - 1) / rate.

(** The entry goes to the tail; [next_release] is when the packet after it may go. *)
Definition append_entry (q : sfu_paced_send) (e : sfu_paced_send_entry) (next_release : Z) : sfu_paced_send :=
  let q := set_entry q (q_tail q) e in
  let q := q <| q_tail := next_index q (q_tail q) |> <| q_count ::= inc32 |> <| q_next_release_us := next_release |> in
  let q := if q_input_frame_active q then q <| q_input_frame_queued_packets ::= inc32 |> else q in
  if q_high_water q <? q_count q then q <| q_high_water := q_count q |> else q.

(** [alloc] is the outcome of the allocation of the ring. *)
Definition sfu_paced_send_enqueue (q : sfu_paced_send) (data : list Z) (len : Z) (rtx_plaintext : list Z) (rtx_plaintext_len : Z)
    (dst : list Z) (dst_len pacer_class pacing_bps : Z) (reservation : sfu_pacer_reservation)
    (metadata : sfu_paced_send_metadata) (now_us : Z) (alloc : bool)
  : bool * sfu_paced_send * sfu_pacer_reservation :=
  if negb (r_active reservation) || (len =? 0) || (SFU_PACED_SEND_MAX_PAYLOAD <? len) ||
     (SFU_PACED_SEND_MAX_PAYLOAD <? rtx_plaintext_len) then (false, q, reservation) else
  if bool_decide (q_entries q = []) && negb alloc then (false, q, reservation) else
  let q := if bool_decide (q_entries q = [])
           then q <| q_entries := replicate (Z.to_nat SFU_PACED_SEND_CAPACITY) zero_entry |> <| q_capacity := SFU_PACED_SEND_CAPACITY |>
           else q in
  if q_capacity q <=? q_count q then (false, q <| q_dropped_full ::= inc64 |>, reservation) else
  let span := pacing_span len pacing_bps (pm_is_keyframe metadata) in
  let base := if now_us <? q_next_release_us q then q_next_release_us q else now_us in
  let e := mk_paced_entry base now_us span dst dst_len len rtx_plaintext_len pacer_class reservation metadata
             (slice data 0 len) (slice rtx_plaintext 0 rtx_plaintext_len) in
  (true, append_entry q e (base + span), reservation <| r_active := false |>).

(** ** Drain *)

Definition pop_entry (q : sfu_paced_send) : sfu_paced_send :=
  let q := if pm_frame_end (pe_metadata (entry_at q (q_head q))) && (0 <? q_ready_frame_count q)
           then q <| q_ready_frame_count ::= dec32 |> else q in
  q <| q_head := next_index q (q_head q) |> <| q_count ::= dec32 |> <| q_ready_count ::= dec32 |>.
(** The reservation is cancelled in place, in the entry that is left behind. *)
Definition cancel_and_pop_entry (q : sfu_paced_send) (p : sfu_pacer) : sfu_paced_send * sfu_pacer :=
  let e := entry_at q (q_head q) in
  let '(p, r) := sfu_pacer_cancel p (pe_reservation e) in
  let q := set_entry q (q_head q) (e <| pe_reservation := r |>) in
  (pop_entry q, p).

(** What the queues read and write of the session they send for. *)
Record send_session := mk_send_session {
  ss_accepts_work : bool;
  ss_owner_value : Z;
  ss_applied_generations : list Z;
  ss_transport_generation : Z;
  ss_address_generation : Z;
  ss_addr : list Z;
  ss_addr_len : Z;
  ss_video_ready : bool;
  ss_twcc_history : option sfu_twcc_history;
  ss_rtx_cache : option sfu_rtx_cache;
  ss_pacer : sfu_pacer
}.
#[export] Instance eta_send_session : Eta send_session := fun s =>
  mk_send_session (ss_accepts_work s) (ss_owner_value s) (ss_applied_generations s) (ss_transport_generation s)
    (ss_address_generation s) (ss_addr s) (ss_addr_len s) (ss_video_ready s) (ss_twcc_history s) (ss_rtx_cache s) (ss_pacer s).

Definition sfu_session_remote_slot_authorized (s : send_session) (slot assignment_generation : Z) : bool :=
  (slot <? SFU_MAX_REMOTE_SLOTS) && negb (assignment_generation =? 0) &&
  (nth (Z.to_nat slot) (ss_applied_generations s) 0 =? assignment_generation).
(** [addr_len] and [memcmp] of the destination. *)
Definition same_address (s : send_session) (dst : list Z) (dst_len : Z) : bool :=
  (ss_addr_len s =? dst_len) && bool_decide (slice (ss_addr s) 0 dst_len = slice dst 0 dst_len).
Definition entry_valid (e : sfu_paced_send_entry) (s : send_session) : bool :=
  ss_accepts_work s && (ss_owner_value s =? pm_owner_value (pe_metadata e)) &&
  sfu_session_remote_slot_authorized s (pm_remote_slot (pe_metadata e)) (pm_assignment_generation (pe_metadata e)) &&
  (ss_transport_generation s =? pm_transport_generation (pe_metadata e)) &&
  (ss_address_generation s =? pm_address_generation (pe_metadata e)) &&
  same_address s (pe_dst e) (pe_dst_len e).

(** One attempt to send: the capacity of the packet buffer if one was free,
    whether the network took the packet, and the clock. *)
Record send_io := mk_send_io { io_buffer : option Z; io_sent : bool; io_clock : Z }.
Definition no_io : send_io := mk_send_io None false 0.
(** A datagram handed to the network. *)
Definition datagram : Type := list Z * list Z.

Definition can_send (io : send_io) (len : Z) : bool :=
  match io_buffer io with Some cap => (len <=? cap) && io_sent io | None => false end.
Definition accepted_time (io : send_io) (now_us : Z) : Z :=
  if (0 <? now_us) && (now_us <=? 3000000000000000) then now_us else io_clock io.

(** The records kept of a sent packet: the send history and the cache for
    retransmission. *)
Definition record_sent (e : sfu_paced_send_entry) (s : send_session) (accepted_us : Z) : res send_session :=
  let m := pe_metadata e in
  let s := if pm_twcc_written m && ss_video_ready s
           then s <| ss_twcc_history ::= option_map (fun h => sfu_twcc_history_record h (pm_twcc_seq m) accepted_us (pe_len e)) |>
           else s in
  match ss_rtx_cache s with
  | Some c =>
      if pm_cache_rtx m && ss_video_ready s then
        let! c := sfu_rtx_cache_put_stream c (pm_subscriber_seq m) (pe_rtx_plaintext e) (pe_rtx_plaintext_len e)
                    (pm_rtx_ssrc m) (pm_rtx_pt m) (pm_media_ssrc m) (pm_egress_generation m) in
        Ok (s <| ss_rtx_cache := Some c |>)
      else Ok s
  | None => Ok s
  end.

(** The statistics of a sent packet. *)
Definition record_timing (q : sfu_paced_send) (e : sfu_paced_send_entry) (accepted_us : Z) : sfu_paced_send :=
  let residence := if pe_enqueued_at_us e <=? accepted_us then accepted_us - pe_enqueued_at_us e else 0 in
  let late := if pe_release_at_us e <=? accepted_us then accepted_us - pe_release_at_us e else 0 in
  let q := if q_max_enqueue_to_send_us q <? residence then q <| q_max_enqueue_to_send_us := residence |> else q in
  let q := if q_max_release_late_us q <? late then q <| q_max_release_late_us := late |> else q in
  q <| q_enqueue_to_send_sum_us ::= fun n => u64 (n + residence) |> <| q_enqueue_to_send_samples ::= inc64 |>.

(** The drain loop: [n] is what is left of the limit; [processed] and
    [sent] count this call.  The network's answers come from [ios]. *)
Fixpoint drain_loop (n : nat) (q : sfu_paced_send) (s : send_session) (now_us : Z) (ios : list send_io) (processed sent : Z)
  : res (sfu_paced_send * send_session * list datagram * Z * Z) :=
  match n with
  | O => Ok (q, s, [], processed, sent)
  | S n =>
      if q_ready_count q =? 0 then Ok (q, s, [], processed, sent) else
      let e := entry_at q (q_head q) in
      if negb (entry_valid e s) then
        let '(q, p) := cancel_and_pop_entry q (ss_pacer s) in
        drain_loop n (q <| q_dropped_stale ::= inc64 |>) (s <| ss_pacer := p |>) now_us ios (processed + 1) sent
      else if now_us <? pe_release_at_us e then Ok (q, s, [], processed, sent)
      else
        let io := hd no_io ios in
        if negb (can_send io (pe_len e)) then Ok (q, s, [], processed, sent) else
        let accepted_us := accepted_time io now_us in
        let! s := record_sent e s accepted_us in
        let q := record_timing q e accepted_us in
        let '(p, r) := sfu_pacer_commit (ss_pacer s) (pe_reservation e) in
        let q := (pop_entry (set_entry q (q_head q) (e <| pe_reservation := r |>))) <| q_sent ::= inc64 |> in
        let! rest := drain_loop n q (s <| ss_pacer := p |>) now_us (tl ios) (processed + 1) (sent + 1) in
        let '(q, s, out, processed, sent) := rest in
        Ok (q, s, (pe_data e, pe_dst e) :: out, processed, sent)
  end.

(** The result: whether any work was done, what is left of the limit, and
    the datagrams sent. *)
Definition sfu_paced_send_drain (q : sfu_paced_send) (s : send_session) (now_us : Z) (ios : list send_io) (remaining : Z)
  : res (bool * sfu_paced_send * send_session * list datagram * Z) :=
  if (remaining =? 0) || bool_decide (q_entries q = []) || (q_count q =? 0) then Ok (false, q, s, [], remaining) else
  let q := q <| q_drain_invocations ::= inc64 |> in
  let! r := drain_loop (Z.to_nat remaining) q s now_us ios 0 0 in
  let '(q, s, out, processed, sent) := r in
  let q := if q_max_drain_packets q <? sent then q <| q_max_drain_packets := sent |> else q in
  let q := if (processed =? remaining) && negb (q_ready_count q =? 0) &&
              (pe_release_at_us (entry_at q (q_head q)) <=? now_us)
           then q <| q_drain_cap_hits ::= inc64 |> else q in
  let q := if q_count q =? 0
           then q <| q_tail := 0 |> <| q_head := 0 |> <| q_next_release_us := 0 |> <| q_ready_frame_count := 0 |> else q in
  Ok (negb (processed =? 0), q, s, out, remaining - processed).

(** * The queue as a list *)

Definition contents (q : sfu_paced_send) : list sfu_paced_send_entry :=
  ring zero_entry (q_entries q) (q_head q) (Z.to_nat (q_count q)).

(** The fields that place the ring. *)
Record ring_view := mk_ring_view {
  rv_entries : list sfu_paced_send_entry; rv_capacity : Z; rv_head : Z; rv_tail : Z; rv_count : Z
}.
Definition view (q : sfu_paced_send) : ring_view :=
  mk_ring_view (q_entries q) (q_capacity q) (q_head q) (q_tail q) (q_count q).
Definition listed (v : ring_view) : list sfu_paced_send_entry :=
  ring zero_entry (rv_entries v) (rv_head v) (Z.to_nat (rv_count v)).
Record ring_set (v : ring_view) : Prop := {
  rs_len : zlen (rv_entries v) = SFU_PACED_SEND_CAPACITY;
  rs_cap : rv_capacity v = SFU_PACED_SEND_CAPACITY;
  rs_head : 0 <= rv_head v < SFU_PACED_SEND_CAPACITY;
  rs_count : 0 <= rv_count v <= SFU_PACED_SEND_CAPACITY;
  rs_tail : rv_tail v = (rv_head v + rv_count v) mod SFU_PACED_SEND_CAPACITY
}.
Definition ring_unset (v : ring_view) : Prop := v = mk_ring_view [] 0 0 0 0.
Definition ring_ok (v : ring_view) : Prop := ring_unset v \/ ring_set v.

Lemma listed_contents q : listed (view q) = contents q.
Proof. done. Qed.
Lemma ring_ok_count v : ring_ok v -> 0 <= rv_count v <= 512.
Proof. intros [->|[]]; cbn; unfold SFU_PACED_SEND_CAPACITY in *; lia. Qed.
Lemma ring_ok_set v : ring_ok v -> rv_entries v <> [] \/ 0 < rv_count v -> ring_set v.
Proof. intros [->|H]; [cbn; intros [?|?]; [done|lia]|done]. Qed.
Lemma listed_length v : ring_ok v -> zlen (listed v) = rv_count v.
Proof. intros H%ring_ok_count. unfold zlen, listed. rewrite ring_length. lia. Qed.

Lemma u32_small x : 0 <= x < 4294967296 -> u32 x = x.
Proof. intros. unfold u32. by rewrite Z.mod_small. Qed.

Section RingOps.
Context (v : ring_view) (Hv : ring_set v).

Lemma ring_set_push e :
  rv_count v < SFU_PACED_SEND_CAPACITY ->
  let v' := mk_ring_view (ring_put (rv_entries v) (rv_tail v) e) (rv_capacity v) (rv_head v)
              (u32 (rv_tail v + 1) mod rv_capacity v) (inc32 (rv_count v)) in
  ring_set v' /\ listed v' = listed v ++ [e].
Proof.
  intros Hc v'. destruct Hv as [H1 H2 H3 H4 H5]. unfold SFU_PACED_SEND_CAPACITY in *.
  assert (Ht : 0 <= rv_tail v < 512) by (rewrite H5; apply Z.mod_pos_bound; lia).
  assert (Ei : inc32 (rv_count v) = rv_count v + 1) by (unfold inc32; apply u32_small; lia).
  split.
  - constructor; unfold v'; cbn; unfold SFU_PACED_SEND_CAPACITY; rewrite ?zlen_ring_put, ?Ei; try lia.
    rewrite u32_small, H2, H5, Zplus_mod_idemp_l by lia. f_equal. lia.
  - unfold listed, v'. cbn. rewrite Ei. replace (Z.to_nat (rv_count v + 1)) with (S (Z.to_nat (rv_count v))) by lia.
    rewrite <- ring_push by (rewrite ?H1; lia). rewrite H5, H1, Z2Nat.id by lia. done.
Qed.

(** Removal at the head, whatever is stored in the slot left behind. *)
Lemma ring_set_pop x :
  0 < rv_count v ->
  let v' := mk_ring_view (ring_put (rv_entries v) (rv_head v) x) (rv_capacity v) (u32 (rv_head v + 1) mod rv_capacity v)
              (rv_tail v) (dec32 (rv_count v)) in
  ring_set v' /\ listed v = ring_at zero_entry (rv_entries v) (rv_head v) :: listed v'.
Proof.
  intros Hc v'. destruct Hv as [H1 H2 H3 H4 H5]. unfold SFU_PACED_SEND_CAPACITY in *.
  assert (Ei : dec32 (rv_count v) = rv_count v - 1) by (unfold dec32; apply u32_small; lia).
  assert (Hm : 0 <= (rv_head v + 1) mod 512 < 512) by (apply Z.mod_pos_bound; lia).
  split.
  - constructor; unfold v'; cbn; unfold SFU_PACED_SEND_CAPACITY; rewrite ?zlen_ring_put, ?Ei; try lia.
    + rewrite u32_small, H2; lia.
    + rewrite u32_small, H2, H5, Zplus_mod_idemp_l by lia. f_equal. lia.
  - unfold listed, v'. cbn. rewrite Ei. replace (Z.to_nat (rv_count v)) with (S (Z.to_nat (rv_count v - 1))) by lia.
    rewrite ring_pop, H1. f_equal. rewrite u32_small, H2 by lia.
    replace (ring_put (rv_entries v) (rv_head v) x)
      with (ring_put (rv_entries v) (((rv_head v + 1) mod 512 + 511) mod zlen (rv_entries v)) x).
    { symmetry. apply ring_put_out; lia. }
    f_equal. rewrite H1, Zplus_mod_idemp_l. replace (rv_head v + 1 + 511) with (rv_head v + 1 * 512) by lia.
    rewrite Z_mod_plus_full, Z.mod_small by lia. done.
Qed.

Lemma prev_tail q : view q = v -> 0 < rv_count v ->
  prev_index q (rv_tail v) = (rv_head v + (rv_count v - 1)) mod SFU_PACED_SEND_CAPACITY.
Proof.
  intros E Hc. destruct Hv as [H1 H2 H3 H4 H5]. unfold SFU_PACED_SEND_CAPACITY in *.
  unfold prev_index. change (q_capacity q) with (rv_capacity (view q)). rewrite E, H2.
  pose proof (Z.div_mod (rv_head v + rv_count v) 512 ltac:(lia)) as Ed.
  assert (Ht : 0 <= rv_tail v < 512) by (rewrite H5; apply Z.mod_pos_bound; lia).
  rewrite <- H5 in Ed. destruct (Z.eqb_spec (rv_tail v) 0) as [E0|E0].
  - rewrite u32_small by lia. apply Z.mod_unique with ((rv_head v + rv_count v) / 512 - 1); lia.
  - rewrite u32_small by lia. apply Z.mod_unique with ((rv_head v + rv_count v) / 512); lia.
Qed.

(** Removal at the tail. *)
Lemma ring_set_unpush q x :
  view q = v -> 0 < rv_count v ->
  let t := prev_index q (rv_tail v) in
  let v' := mk_ring_view (ring_put (rv_entries v) t x) (rv_capacity v) (rv_head v) t (dec32 (rv_count v)) in
  ring_set v' /\ listed v = listed v' ++ [ring_at zero_entry (rv_entries v) t].
Proof.
  intros E Hc t v'. pose proof (prev_tail q E Hc) as Et. fold t in Et.
  destruct Hv as [H1 H2 H3 H4 H5]. unfold SFU_PACED_SEND_CAPACITY in *.
  assert (Ei : dec32 (rv_count v) = rv_count v - 1) by (unfold dec32; apply u32_small; lia).
  split.
  - constructor; unfold v'; cbn; unfold SFU_PACED_SEND_CAPACITY; rewrite ?zlen_ring_put, ?Ei; try lia.
  - unfold listed, v'. cbn. rewrite Ei. replace (Z.to_nat (rv_count v)) with (S (Z.to_nat (rv_count v - 1))) by lia.
    rewrite ring_snoc by lia. rewrite Et. f_equal.
    + symmetry. rewrite <- H1. apply ring_put_out; lia.
    + rewrite H1, Z2Nat.id by lia. done.
Qed.

(** A write to the last packet. *)
Lemma ring_set_last q x :
  view q = v -> 0 < rv_count v ->
  let t := prev_index q (rv_tail v) in
  let v' := mk_ring_view (ring_put (rv_entries v) t x) (rv_capacity v) (rv_head v) (rv_tail v) (rv_count v) in
  ring_set v' /\ exists l, listed v = l ++ [ring_at zero_entry (rv_entries v) t] /\ listed v' = l ++ [x].
Proof.
  intros E Hc t v'. pose proof (prev_tail q E Hc) as Et. fold t in Et.
  destruct Hv as [H1 H2 H3 H4 H5]. unfold SFU_PACED_SEND_CAPACITY in *.
  split; [constructor; unfold v'; cbn; rewrite ?zlen_ring_put; done|].
  exists (ring zero_entry (rv_entries v) (rv_head v) (Z.to_nat (rv_count v - 1))).
  unfold listed, v'. cbn. replace (Z.to_nat (rv_count v)) with (S (Z.to_nat (rv_count v - 1))) by lia.
  rewrite !ring_snoc by (rewrite ?zlen_ring_put; lia). rewrite Et, zlen_ring_put, H1, Z2Nat.id by lia.
  split; [done|]. f_equal.
  - rewrite <- H1. apply ring_put_out; lia.
  - rewrite ring_at_put, Z.eqb_refl; [done|rewrite H1; apply Z.mod_pos_bound; lia|apply Z.mod_pos_bound; lia].
Qed.

End RingOps.

(** An empty ring with its indices reset. *)
Lemma ring_set_reset v :
  ring_set v -> rv_count v = 0 ->
  let v' := mk_ring_view (rv_entries v) (rv_capacity v) 0 0 (rv_count v) in ring_set v' /\ listed v' = [] /\ listed v = [].
Proof.
  intros [H1 H2 H3 H4 H5] H0 v'. unfold SFU_PACED_SEND_CAPACITY in *.
  split; [constructor; unfold v'; cbn; rewrite ?H0; unfold SFU_PACED_SEND_CAPACITY; done || lia|].
  unfold listed, v'. cbn. rewrite H0. done.
Qed.

(** * Invariant *)

(** The release times leave every packet its span, and the next packet its. *)
Fixpoint spaced_from (lo : Z) (l : list sfu_paced_send_entry) (next : Z) : Prop :=
  match l with
  | [] => lo <= next
  | e :: l => lo <= pe_release_at_us e /\ spaced_from (pe_release_at_us e + pe_span_us e) l next
  end.
Definition spaced (l : list sfu_paced_send_entry) (next : Z) : Prop :=
  match l with
  | [] => True
  | e :: l => spaced_from (pe_release_at_us e + pe_span_us e) l next
  end.

Definition ends_frame (e : sfu_paced_send_entry) : bool := pm_frame_end (pe_metadata e).
Definition frame_ends (l : list sfu_paced_send_entry) : Z := zlen (List.filter ends_frame l).
(** A run of whole frames, the first perhaps without its beginning. *)
Definition whole_frames (l : list sfu_paced_send_entry) : Prop :=
  match last l with Some e => ends_frame e = true | None => True end.

Definition ready (q : sfu_paced_send) : list sfu_paced_send_entry := take (Z.to_nat (q_ready_count q)) (contents q).
Definition unfinished (q : sfu_paced_send) : list sfu_paced_send_entry := drop (Z.to_nat (q_ready_count q)) (contents q).

Record paced_inv (q : sfu_paced_send) : Prop := {
  pi_ring : ring_ok (view q);
  pi_ready : 0 <= q_ready_count q;
  pi_queued : 0 <= q_input_frame_queued_packets q;
  pi_count : q_ready_count q + q_input_frame_queued_packets q = q_count q;
  pi_active : q_input_frame_active q = false -> q_input_frame_queued_packets q = 0;
  pi_drop : q_drop_input_frame q = true -> q_input_frame_queued_packets q = 0;
  pi_frames : q_ready_frame_count q = frame_ends (ready q);
  pi_whole : whole_frames (ready q);
  pi_open : Forall (fun e => ends_frame e = false) (unfinished q);
  pi_spaced : spaced (contents q) (q_next_release_us q);
  pi_base : q_input_frame_active q = true -> spaced (ready q) (q_input_frame_base_next_release_us q)
}.

Definition queue_held (l : list sfu_paced_send_entry) : Z := held_sum (map pe_reservation l).

Lemma queue_held_app l1 l2 : queue_held (l1 ++ l2) = queue_held l1 + queue_held l2.
Proof. unfold queue_held. induction l1 as [|e l1 IH]; cbn in *; lia. Qed.
Lemma queue_held_cons e l : queue_held (e :: l) = held (pe_reservation e) + queue_held l.
Proof. done. Qed.

Lemma cancel_reserved p r : reserved_bytes (sfu_pacer_cancel p r).1 = reserved_bytes p - held r.
Proof.
  unfold sfu_pacer_cancel, held. destruct (r_active r); cbn [negb fst andb]; [|lia]. destruct (r_charged r); cbn; lia.
Qed.
Lemma commit_reserved p r : reserved_bytes (sfu_pacer_commit p r).1 = reserved_bytes p - held r.
Proof.
  unfold sfu_pacer_commit, held. destruct (r_active r); cbn [negb fst andb]; [|lia]. destruct (r_charged r); cbn; lia.
Qed.

(** ** Facts about spacing and frames *)

Lemma spaced_from_weaken lo lo' l next : lo' <= lo -> spaced_from lo l next -> spaced_from lo' l next.
Proof. destruct l; cbn; [lia|]. intros ? [? ?]. split; [lia|done]. Qed.
Lemma spaced_tail e l next : spaced (e :: l) next -> spaced l next.
Proof. destruct l; cbn; [done|]. by intros [_ ?]. Qed.
Lemma spaced_drop n l next : spaced l next -> spaced (drop n l) next.
Proof. revert l. induction n as [|n IH]; intros l H; [by rewrite drop_0|]. destruct l; [done|]. apply IH. by apply spaced_tail in H. Qed.
Lemma spaced_from_snoc lo l next e :
  spaced_from lo l next -> next <= pe_release_at_us e ->
  spaced_from lo (l ++ [e]) (pe_release_at_us e + pe_span_us e).
Proof. revert lo. induction l as [|x l IH]; intros lo H Hn; cbn in *; [lia|]. destruct H as [? H]. split; [done|]. by apply IH. Qed.
Lemma spaced_snoc l next e :
  spaced l next -> (l <> [] -> next <= pe_release_at_us e) -> spaced (l ++ [e]) (pe_release_at_us e + pe_span_us e).
Proof. destruct l as [|x l]; cbn; [lia|]. intros H Hn. apply spaced_from_snoc with next; [done|by apply Hn]. Qed.
(** Spacing only looks at the release times and the spans. *)
Definition same_timing (e e' : sfu_paced_send_entry) : Prop :=
  pe_release_at_us e' = pe_release_at_us e /\ pe_span_us e' = pe_span_us e.
Lemma spaced_same l e e' next : same_timing e e' -> spaced (l ++ [e]) next -> spaced (l ++ [e']) next.
Proof.
  intros [Hr Hs].
  assert (Hf : forall lo l, spaced_from lo (l ++ [e]) next -> spaced_from lo (l ++ [e']) next).
  { intros lo l0. revert lo. induction l0 as [|x l0 IH]; intros lo; cbn; [rewrite Hr, Hs; done|].
    intros [? ?]. split; [done|by apply IH]. }
  destruct l as [|x l]; cbn; [rewrite Hr, Hs; done|apply Hf].
Qed.

Lemma frame_ends_app l1 l2 : frame_ends (l1 ++ l2) = frame_ends l1 + frame_ends l2.
Proof. unfold frame_ends. rewrite List.filter_app. apply zlen_app. Qed.
Lemma frame_ends_cons e l : frame_ends (e :: l) = (if ends_frame e then 1 else 0) + frame_ends l.
Proof. unfold frame_ends. cbn. destruct (ends_frame e); [rewrite zlen_cons; lia|lia]. Qed.
Lemma frame_ends_nonneg l : 0 <= frame_ends l.
Proof. apply zlen_nonneg. Qed.
Lemma frame_ends_le l : frame_ends l <= zlen l.
Proof. induction l as [|e l IH]; [done|]. rewrite frame_ends_cons, zlen_cons. destruct (ends_frame e); lia. Qed.
Lemma frame_ends_none l : Forall (fun e => ends_frame e = false) l -> frame_ends l = 0.
Proof. induction 1 as [|e l He _ IH]; [done|]. rewrite frame_ends_cons, He. lia. Qed.
Lemma whole_frames_tail e l : whole_frames (e :: l) -> whole_frames l.
Proof. unfold whole_frames. destruct l; [done|]. done. Qed.
Lemma whole_frames_snoc l e : ends_frame e = true -> whole_frames (l ++ [e]).
Proof. intros. unfold whole_frames. by rewrite last_snoc. Qed.

Lemma paced_parts q : contents q = ready q ++ unfinished q.
Proof. unfold ready, unfinished. by rewrite take_drop. Qed.

Section Inv.
Context (q : sfu_paced_send) (Hq : paced_inv q).

Lemma contents_length : zlen (contents q) = q_count q.
Proof. destruct Hq. rewrite <- listed_contents, listed_length by done. done. Qed.
Lemma count_range : 0 <= q_count q <= 512.
Proof. destruct Hq. by apply (ring_ok_count (view q)). Qed.
Lemma ready_length : zlen (ready q) = q_ready_count q.
Proof.
  pose proof contents_length as Hl. pose proof count_range. destruct Hq. unfold ready, zlen in *. rewrite length_take. lia.
Qed.
Lemma unfinished_length : zlen (unfinished q) = q_input_frame_queued_packets q.
Proof.
  pose proof contents_length as Hl. pose proof count_range. destruct Hq. unfold unfinished, zlen in *. rewrite length_drop. lia.
Qed.
Lemma inv_ring_set : 0 < q_count q -> ring_set (view q).
Proof. intros. destruct Hq. apply ring_ok_set; [done|by right]. Qed.
End Inv.

Lemma init_paced_inv : paced_inv sfu_paced_send_init.
Proof. constructor; cbn; try done; try lia. by left. Qed.

Lemma paced_inv_intro q l1 l2 :
  ring_ok (view q) -> contents q = l1 ++ l2 -> q_ready_count q = zlen l1 -> q_input_frame_queued_packets q = zlen l2 ->
  (q_input_frame_active q = false -> l2 = []) -> (q_drop_input_frame q = true -> l2 = []) ->
  q_ready_frame_count q = frame_ends l1 -> whole_frames l1 -> Forall (fun e => ends_frame e = false) l2 ->
  spaced (l1 ++ l2) (q_next_release_us q) ->
  (q_input_frame_active q = true -> spaced l1 (q_input_frame_base_next_release_us q)) ->
  paced_inv q /\ ready q = l1 /\ unfinished q = l2.
Proof.
  intros Hr Hc H1 H2 Ha Hd Hf Hw Ho Hs Hb.
  assert (E1 : ready q = l1) by (unfold ready; rewrite Hc, H1; unfold zlen; rewrite Nat2Z.id; apply take_app_length).
  assert (E2 : unfinished q = l2) by (unfold unfinished; rewrite Hc, H1; unfold zlen; rewrite Nat2Z.id; apply drop_app_length).
  split; [|done]. pose proof (zlen_nonneg l1). pose proof (zlen_nonneg l2).
  constructor; rewrite ?E1, ?E2, ?Hc, ?H1, ?H2; try done.
  - change (q_count q) with (rv_count (view q)). rewrite <- listed_length by done.
    rewrite listed_contents, Hc, zlen_app. done.
  - intros E. by rewrite (Ha E).
  - intros E. by rewrite (Hd E).
Qed.

(** ** Enqueue *)

(** The ring is allocated by the first packet. *)
Definition allocated (q : sfu_paced_send) : sfu_paced_send :=
  if bool_decide (q_entries q = [])
  then q <| q_entries := replicate (Z.to_nat SFU_PACED_SEND_CAPACITY) zero_entry |> <| q_capacity := SFU_PACED_SEND_CAPACITY |>
  else q.
Lemma allocated_set q : ring_ok (view q) -> ring_set (view (allocated q)) /\ contents (allocated q) = contents q.
Proof.
  intros H. unfold allocated. case_bool_decide as E.
  - destruct H as [Hu|[H1 _ _ _ _]].
    2: { change (rv_entries (view q)) with (q_entries q) in H1. rewrite E in H1. done. }
    injection Hu as _ E2 E3 E4 E5. split.
    + constructor; cbn; rewrite ?E3, ?E4, ?E5; unfold SFU_PACED_SEND_CAPACITY, zlen; rewrite ?length_replicate; done || lia.
    + unfold contents. cbn. rewrite E5. done.
  - split; [|done]. apply ring_ok_set; [done|by left].
Qed.

(** The record the packet leaves in the queue. *)
Definition queued_entry (q : sfu_paced_send) (data : list Z) (len : Z) (rtx : list Z) (rtx_len : Z) (dst : list Z)
    (dst_len cls bps : Z) (r : sfu_pacer_reservation) (m : sfu_paced_send_metadata) (now : Z) : sfu_paced_send_entry :=
  mk_paced_entry (Z.max now (q_next_release_us q)) now (pacing_span len bps (pm_is_keyframe m)) dst dst_len len rtx_len cls r m
    (slice data 0 len) (slice rtx 0 rtx_len).

(** The fields the loops leave alone. *)
Definition rest (q : sfu_paced_send) : Z * Z * Z * Z * bool * bool * Z :=
  (q_ready_count q, q_next_release_us q, q_input_frame_base_next_release_us q, q_input_frame_queued_packets q,
   q_input_frame_active q, q_drop_input_frame q, q_ready_frame_count q).

Lemma append_entry_view q e n :
  ring_set (view q) -> q_count q < SFU_PACED_SEND_CAPACITY ->
  ring_set (view (append_entry q e n)) /\ contents (append_entry q e n) = contents q ++ [e].
Proof.
  intros Hs Hc. destruct (ring_set_push (view q) Hs e Hc) as [Hp Hl].
  rewrite <- !listed_contents.
  match type of Hp with ring_set ?v => assert (E : view (append_entry q e n) = v) end.
  { unfold append_entry. by repeat case_match. }
  by rewrite E.
Qed.
Lemma append_entry_rest q e n :
  let q' := append_entry q e n in
  q_ready_count q' = q_ready_count q /\
  q_input_frame_queued_packets q' = (if q_input_frame_active q then inc32 (q_input_frame_queued_packets q) else q_input_frame_queued_packets q) /\
  q_input_frame_active q' = q_input_frame_active q /\ q_drop_input_frame q' = q_drop_input_frame q /\
  q_ready_frame_count q' = q_ready_frame_count q /\ q_next_release_us q' = n /\
  q_input_frame_base_next_release_us q' = q_input_frame_base_next_release_us q.
Proof.
  cbv zeta. unfold append_entry. set (q1 := _ <| q_next_release_us := n |>).
  assert (F : rest q1 = (q_ready_count q, n, q_input_frame_base_next_release_us q, q_input_frame_queued_packets q,
                         q_input_frame_active q, q_drop_input_frame q, q_ready_frame_count q)) by done.
  clearbody q1. injection F as F1 F2 F3 F4 F5 F6 F7.
  set (q2 := if q_input_frame_active q1 then _ else q1).
  assert (G : rest q2 = (q_ready_count q, n, q_input_frame_base_next_release_us q,
                         (if q_input_frame_active q then inc32 (q_input_frame_queued_packets q) else q_input_frame_queued_packets q),
                         q_input_frame_active q, q_drop_input_frame q, q_ready_frame_count q)).
  { unfold q2. rewrite <- F1, <- F2, <- F3, <- F4, <- F5, <- F6, <- F7.
    destruct (q_input_frame_active q1) eqn:E; cbv iota; rewrite <- E; done. }
  clearbody q2. injection G as G1 G2 G3 G4 G5 G6 G7. destruct (_ <? _); done.
Qed.

Lemma max_if a b : (if b <? a then a else b) = Z.max a b.
Proof. destruct (Z.ltb_spec b a); lia. Qed.

Lemma enqueue_spec q data len rtx rtx_len dst dst_len cls bps r m now alloc ok q' r' :
  paced_inv q -> q_input_frame_active q = true -> q_drop_input_frame q = false -> pm_frame_end m = false ->
  sfu_paced_send_enqueue q data len rtx rtx_len dst dst_len cls bps r m now alloc = (ok, q', r') ->
  paced_inv q' /\ q_input_frame_active q' = true /\ q_drop_input_frame q' = false /\ ready q' = ready q /\
  q_input_frame_base_next_release_us q' = q_input_frame_base_next_release_us q /\
  if ok then
    let e := queued_entry q data len rtx rtx_len dst dst_len cls bps r m now in
    unfinished q' = unfinished q ++ [e] /\ r_active r = true /\ r' = r <| r_active := false |>
  else unfinished q' = unfinished q /\ r' = r.
Proof.
  intros Hq Ha Hd Hm E. pose proof Hq as [H1 H2 H3 H4 H5 H6 H7 H8 H9 H10 H11].
  pose proof (ready_length q Hq) as Lr. pose proof (unfinished_length q Hq) as Lu.
  unfold sfu_paced_send_enqueue in E.
  destruct (negb (r_active r) || _ || _ || _) eqn:G; [injection E as <- <- <-; done|].
  destruct (bool_decide (q_entries q = []) && negb alloc); [injection E as <- <- <-; done|].
  fold (allocated q) in E. destruct (allocated_set q H1) as [Hset Hcont].
  assert (Hkeep : forall x, q_ready_count (allocated q) = x <-> q_ready_count q = x) by (unfold allocated; by case_bool_decide).
  assert (F : q_ready_count (allocated q) = q_ready_count q /\
    q_input_frame_queued_packets (allocated q) = q_input_frame_queued_packets q /\
    q_input_frame_active (allocated q) = true /\ q_drop_input_frame (allocated q) = false /\
    q_ready_frame_count (allocated q) = q_ready_frame_count q /\ q_next_release_us (allocated q) = q_next_release_us q /\
    q_input_frame_base_next_release_us (allocated q) = q_input_frame_base_next_release_us q)
    by (unfold allocated; by case_bool_decide).
  revert Hset Hcont F E. clear Hkeep. generalize (allocated q). intros q1 Hset Hcont (F1 & F2 & F3 & F4 & F5 & F6 & F7) E.
  destruct (Z.leb_spec (q_capacity q1) (q_count q1)) as [Hfull|Hroom].
  { injection E as <- <- <-. rewrite <- F1 in Lr, H2. rewrite <- F2 in Lu. rewrite <- F5 in H7. rewrite paced_parts, <- F6 in H10. rewrite <- F7 in H11 |- *.
    destruct (paced_inv_intro (q1 <| q_dropped_full ::= inc64 |>) (ready q) (unfinished q)) as (Hi & Er & Eu); try done.
    - by right.
    - rewrite <- paced_parts. exact Hcont.
    - intros Hf. by destruct (eq_true_false_abs _ F3 Hf).
    - intros Hf. by destruct (eq_true_false_abs _ Hf F4).
    - intros _. by apply H11. }
  assert (Hcnt : q_count q1 = zlen (ready q ++ unfinished q)).
  { rewrite <- paced_parts, <- Hcont. symmetry. apply (listed_length (view q1)). by right. }
  rewrite zlen_app, Lr, Lu, H4 in Hcnt.
  set (e := queued_entry q data len rtx rtx_len dst dst_len cls bps r m now).
  assert (Hap : append_entry q1 e (pe_release_at_us e + pe_span_us e) = q' /\ ok = true /\ r' = r <| r_active := false |>).
  { rewrite F6, max_if, Z.max_comm in E. by injection E as <- <- <-. }
  destruct Hap as (<- & -> & ->). clear E.
  assert (Hcap : q_count q1 < SFU_PACED_SEND_CAPACITY) by (pose proof (rs_cap _ Hset) as Ec; cbn in Ec; rewrite <- Ec; done).
  destruct (append_entry_view q1 e (pe_release_at_us e + pe_span_us e) Hset Hcap) as [Hset' Hc'].
  destruct (append_entry_rest q1 e (pe_release_at_us e + pe_span_us e)) as (G1 & G2 & G3 & G4 & G5 & G6 & G7).
  rewrite F3 in G2, G3.
  destruct (paced_inv_intro (append_entry q1 e (pe_release_at_us e + pe_span_us e)) (ready q) (unfinished q ++ [e])) as (Hi & Er & Eu).
  - by right.
  - rewrite Hc', Hcont, paced_parts, app_assoc. done.
  - congruence.
  - rewrite G2, F2, zlen_app, zlen_cons, zlen_nil, Lu. unfold inc32, SFU_PACED_SEND_CAPACITY in *. rewrite u32_small; lia.
  - congruence.
  - congruence.
  - congruence.
  - done.
  - apply Forall_app. split; [done|]. by constructor.
  - rewrite app_assoc, <- paced_parts, G6. apply spaced_snoc with (q_next_release_us q); [done|]. cbn. lia.
  - intros _. rewrite G7, F7. by apply H11.
  - split_and!; try done; try congruence. bool_hyps. done.
Qed.

(** ** Rollback *)

Lemma rollback_one_spec q p q' p' :
  ring_set (view q) -> 0 < q_count q -> rollback_one q p = (q', p') ->
  ring_set (view q') /\ rest q' = rest q /\
  exists e, contents q = contents q' ++ [e] /\ reserved_bytes p' = reserved_bytes p - held (pe_reservation e).
Proof.
  intros Hs Hc E. destruct (ring_set_unpush (view q) Hs q zero_entry eq_refl Hc) as [Hset Hl].
  unfold rollback_one in E. injection E as <- <-.
  match goal with |- context [view ?x] => set (q1 := x) end.
  assert (Ev : view q1 = mk_ring_view (ring_put (q_entries q) (prev_index q (q_tail q)) zero_entry) (q_capacity q) (q_head q)
                 (prev_index q (q_tail q)) (dec32 (q_count q))) by (unfold q1; repeat case_match; done).
  split_and!.
  - rewrite Ev. exact Hset.
  - unfold q1; repeat case_match; done.
  - eexists. split; [rewrite <- !listed_contents, Ev; exact Hl|]. apply cancel_reserved.
Qed.

Lemma undo_loop_spec n q p q' p' l1 l2 :
  ring_set (view q) -> contents q = l1 ++ l2 -> length l2 = n -> undo_loop n q p = (q', p') ->
  ring_set (view q') /\ rest q' = rest q /\ contents q' = l1 /\ reserved_bytes p' = reserved_bytes p - queue_held l2.
Proof.
  revert q p l2. induction n as [|n IH]; intros q p l2 Hs Hl Hn E.
  { destruct l2; [|done]. injection E as <- <-. rewrite app_nil_r in Hl. cbn. split_and!; [done..|lia]. }
  cbn [undo_loop] in E. destruct (rollback_one q p) as [q1 p1] eqn:E1.
  assert (Hc : 0 < q_count q).
  { pose proof (listed_length (view q) (or_intror Hs)) as L. rewrite listed_contents, Hl, zlen_app in L.
    cbn in L. unfold zlen in L. lia. }
  destruct (rollback_one_spec q p q1 p1 Hs Hc E1) as (Hs1 & Hr1 & e & Hc1 & Hp1).
  destruct l2 as [|x l2 _] using rev_ind; [done|]. rewrite Hc1, app_assoc in Hl. apply app_inj_tail in Hl as [Hl1 ->].
  rewrite length_app in Hn. cbn in Hn.
  destruct (IH q1 p1 l2 Hs1 Hl1 ltac:(lia) E) as (Hs' & Hr' & Hc' & Hp').
  split_and!; [done|congruence|done|]. rewrite Hp', Hp1, queue_held_app. cbn. lia.
Qed.

(** Rolling back removes exactly the packets of the unfinished frame. *)
Lemma rollback_spec q p q' p' :
  paced_inv q -> sfu_paced_send_rollback_input_frame q p = (q', p') ->
  paced_inv q' /\ ready q' = ready q /\ unfinished q' = [] /\
  q_input_frame_active q' = q_input_frame_active q /\ q_drop_input_frame q' = q_drop_input_frame q /\
  (unfinished q <> [] -> q_next_release_us q' = if q_count q' =? 0 then 0 else q_input_frame_base_next_release_us q) /\
  q_input_frame_base_next_release_us q' = q_input_frame_base_next_release_us q /\
  reserved_bytes p' = reserved_bytes p - queue_held (unfinished q).
Proof.
  intros Hq E. pose proof (unfinished_length q Hq) as Lu. pose proof (ready_length q Hq) as Lr.
  pose proof (count_range q Hq) as Hcr. pose proof Hq as [H1 H2 H3 H4 H5 H6 H7 H8 H9 H10 H11].
  unfold sfu_paced_send_rollback_input_frame in E.
  destruct (bool_decide _ || _ || _) eqn:G.
  { injection E as <- <-.
    assert (Hu : unfinished q = []).
    { apply orb_prop in G as [[G|G]%orb_prop|G].
      - apply bool_decide_eq_true in G. destruct H1 as [Hu|[Hl _ _ _ _]].
        + injection Hu as _ _ _ _ Ec. unfold unfinished, contents. rewrite Ec. apply drop_nil.
        + change (rv_entries (view q)) with (q_entries q) in Hl. by rewrite G in Hl.
      - destruct (unfinished q); [done|]. rewrite zlen_cons in Lu. pose proof (zlen_nonneg l). lia.
      - pose proof (zlen_nonneg (ready q)). lia. }
    rewrite Hu. cbn. split_and!; try done. lia. }
  destruct (undo_loop _ _ _) as [q1 p1] eqn:E1.
  assert (Hset : ring_set (view q)).
  { apply inv_ring_set; [done|]. bool_hyps. lia. }
  apply (undo_loop_spec _ _ _ _ _ (ready q) (unfinished q)) in E1 as (Hs1 & Hr1 & Hc1 & Hp1);
    [|exact Hset|exact (paced_parts q)|change (length (unfinished q) = Z.to_nat (q_input_frame_queued_packets q)); unfold zlen in Lu; lia].
  injection E as <- <-. injection Hr1 as R1 R2 R3 R4 R5 R6 R7.
  set (q2 := q1 <| q_next_release_us := _ |> <| q_input_frame_queued_packets := 0 |> <| q_input_frame_is_keyframe := false |>).
  assert (Hcnt : q_count q1 = zlen (ready q)).
  { rewrite <- Hc1. symmetry. apply (listed_length (view q1)). by right. }
  assert (Hne : unfinished q <> []) by (intros Hn; rewrite Hn, zlen_nil in Lu; bool_hyps; lia).
  assert (Hact : q_input_frame_active q = true) by (destruct (q_input_frame_active q); [done|]; bool_hyps; by destruct H5).
  change (q_count q2) with (q_count q1).
  destruct (Z.eqb_spec (q_count q1) 0) as [E0|E0].
  - assert (Hr0 : ready q = []) by (destruct (ready q); [done|]; rewrite zlen_cons in Hcnt; pose proof (zlen_nonneg l); lia).
    destruct (ring_set_reset (view q1) Hs1 E0) as (Hz1 & Hz2 & _).
    destruct (paced_inv_intro (q2 <| q_tail := 0 |> <| q_head := 0 |> <| q_next_release_us := 0 |> <| q_ready_frame_count := 0 |>) [] [])
      as (Hi & Er & Eu); try done.
    + right. exact Hz1.
    + change (q_ready_count q1 = 0). rewrite R1, <- Lr, Hr0. done.
    + split_and!; try done; [congruence|intros _; change (0 = if q_count q1 =? 0 then 0 else q_input_frame_base_next_release_us q); by rewrite E0].
  - destruct (paced_inv_intro q2 (ready q) []) as (Hi & Er & Eu); try done.
    + by right.
    + rewrite app_nil_r. exact Hc1.
    + change (q_ready_count q1 = zlen (ready q)). congruence.
    + change (q_ready_frame_count q1 = frame_ends (ready q)). congruence.
    + rewrite app_nil_r. change (spaced (ready q) (q_input_frame_base_next_release_us q1)). rewrite R3. by apply H11.
    + intros _. change (spaced (ready q) (q_input_frame_base_next_release_us q1)). rewrite R3. by apply H11.
    + split_and!; try done. intros _. change (q_count q2) with (q_count q1). rewrite (proj2 (Z.eqb_neq _ _) E0). exact R3.
Qed.

(** ** Frames *)

(** Updates of the statistics keep the invariant. *)
Lemma paced_inv_same q q' :
  view q' = view q -> rest q' = rest q -> paced_inv q -> paced_inv q' /\ ready q' = ready q /\ unfinished q' = unfinished q.
Proof.
  intros Ev Er [H1 H2 H3 H4 H5 H6 H7 H8 H9 H10 H11]. injection Er as R1 R2 R3 R4 R5 R6 R7.
  assert (Ec : contents q' = contents q) by (rewrite <- !listed_contents; by rewrite Ev).
  assert (E1 : ready q' = ready q) by (unfold ready; by rewrite Ec, R1).
  assert (E2 : unfinished q' = unfinished q) by (unfold unfinished; by rewrite Ec, R1).
  pose proof Ev as [= _ _ _ _ V5].
  split; [|done]. constructor; rewrite ?Ev, ?E1, ?E2, ?Ec, ?R1, ?R2, ?R3, ?R4, ?R5, ?R6, ?R7, ?V5; done.
Qed.

Lemma begin_frame_spec q p ts kf dod maxd now q' p' :
  paced_inv q -> q_input_frame_active q = false \/ q_input_timestamp q <> ts ->
  begin_frame q p ts kf dod maxd now = (q', p') ->
  paced_inv q' /\ ready q' = ready q /\ unfinished q' = [] /\ q_input_frame_active q' = true /\
  q_input_frame_base_next_release_us q' = q_next_release_us q' /\
  (unfinished q = [] -> q_next_release_us q' = q_next_release_us q) /\
  reserved_bytes p' = reserved_bytes p - queue_held (unfinished q).
Proof.
  intros Hq Hnew E. unfold begin_frame in E.
  destruct (if q_input_frame_active q && _ then _ else _) as [q1 p1] eqn:E1.
  assert (H : paced_inv q1 /\ ready q1 = ready q /\ unfinished q1 = [] /\ (unfinished q = [] -> q_next_release_us q1 = q_next_release_us q) /\
              q_input_frame_active q1 = false /\ reserved_bytes p1 = reserved_bytes p - queue_held (unfinished q)).
  { destruct (q_input_frame_active q) eqn:Ea; cbn [andb] in E1.
    - destruct (Z.eqb_spec (q_input_timestamp q) ts); [by destruct Hnew|]. cbn [negb] in E1.
      destruct (sfu_paced_send_rollback_input_frame q p) as [q2 p2] eqn:E2.
      destruct (rollback_spec q p q2 p2 Hq E2) as (Hi & Hr & Hu & Ha & Hd & Hn & Hb & Hp).
      injection E1 as <- <-.
      assert (Hnext : unfinished q = [] -> q_next_release_us q2 = q_next_release_us q).
      { intros Hu0. unfold sfu_paced_send_rollback_input_frame in E2. pose proof (unfinished_length q Hq) as Lu.
        rewrite Hu0, zlen_nil in Lu. rewrite <- Lu in E2. cbn [Z.eqb orb] in E2. rewrite orb_true_r in E2. by injection E2 as <- <-. }
      destruct (paced_inv_intro (q2 <| q_input_frame_active := false |> <| q_drop_input_frame := false |> <| q_input_frame_is_keyframe := false |>)
                  (ready q) []) as (Hi' & Er & Eu); try done.
      + apply Hi.
      + rewrite <- Hr, <- Hu. exact (paced_parts q2).
      + rewrite <- Hr. symmetry. exact (ready_length q2 Hi).
      + rewrite <- Hu. symmetry. exact (unfinished_length q2 Hi).
      + rewrite <- Hr. apply Hi.
      + rewrite <- Hr. apply Hi.
      + rewrite <- Hr, <- Hu, <- paced_parts. apply Hi.
    - injection E1 as <- <-.
      assert (Hu : unfinished q = []).
      { pose proof (unfinished_length q Hq) as Lu. destruct Hq as [_ _ _ _ H5 _ _ _ _ _ _]. rewrite (H5 Ea) in Lu.
        destruct (unfinished q); [done|]. rewrite zlen_cons in Lu. pose proof (zlen_nonneg l). lia. }
      rewrite Hu. cbn. split_and!; try done. lia. }
  clear E1 Hnew. destruct H as (Hi & Hr & Hu & Hn & Ha & Hp).
  rewrite Ha in E. cbn [andb] in E.
  set (q2 := q1 <| q_input_timestamp := ts |> <| q_input_frame_started_us := now |>
               <| q_input_frame_base_next_release_us := q_next_release_us q1 |> <| q_input_frame_queued_packets := 0 |>
               <| q_input_frame_active := true |> <| q_input_frame_is_keyframe := kf |>) in E.
  set (q3 := if 3 <? q_ready_frame_count q2 then _ else _) in E.
  set (drop := dod && negb kf && _) in E.
  set (q4 := if drop then _ else _) in E.
  assert (F : view q4 = view q1 /\ rest q4 = (q_ready_count q1, q_next_release_us q1, q_next_release_us q1, 0, true, drop, q_ready_frame_count q1)).
  { unfold q4, q3. repeat case_match; done. }
  destruct F as [Fv Fr]. injection Fr as R1 R2 R3 R4 R5 R6 R7. injection E as <- <-. fold q4.
  destruct (paced_inv_intro q4 (ready q) []) as (Hi' & Er & Eu); try done.
  + rewrite Fv. apply Hi.
  + rewrite <- Hr, <- Hu, <- (paced_parts q1), <- !listed_contents, Fv. done.
  + rewrite R1, <- Hr. symmetry. exact (ready_length q1 Hi).
  + rewrite R7, <- Hr. apply Hi.
  + rewrite <- Hr. apply Hi.
  + rewrite R2, <- Hr, <- Hu, <- paced_parts. apply Hi.
  + intros _. rewrite R3. destruct Hi as [_ _ _ _ _ _ _ _ _ Hsp _]. rewrite (paced_parts q1), Hu, app_nil_r, Hr in Hsp. exact Hsp.
  + split_and!; try done; [congruence|]. intros Hu0. rewrite R2. by apply Hn.
Qed.

Lemma admit_spec q p ts marker kf dod maxd now ok q' p' :
  paced_inv q -> sfu_paced_send_admit_frame_packet q p ts marker kf dod maxd now = (ok, q', p') ->
  paced_inv q' /\ ready q' = ready q /\
  reserved_bytes p' + queue_held (unfinished q) = reserved_bytes p + queue_held (unfinished q') /\
  (unfinished q' = unfinished q \/ unfinished q' = []) /\
  (ok = true -> q_input_frame_active q' = true /\ q_drop_input_frame q' = false).
Proof.
  intros Hq E. unfold sfu_paced_send_admit_frame_packet in E.
  destruct (if negb (q_input_frame_active q) || _ then _ else _) as [q1 p1] eqn:E1.
  assert (H : paced_inv q1 /\ ready q1 = ready q /\ q_input_frame_active q1 = true /\
              (unfinished q1 = unfinished q \/ unfinished q1 = []) /\
              reserved_bytes p1 + queue_held (unfinished q) = reserved_bytes p + queue_held (unfinished q1)).
  { destruct (negb (q_input_frame_active q) || negb (q_input_timestamp q =? ts)) eqn:G.
    - apply begin_frame_spec in E1 as (Hi & Hr & Hu & Ha & _ & _ & Hp); [|done|].
      + rewrite Hu, Hp. cbn. split_and!; try done; [by right|lia].
      + apply orb_prop in G as [G|G]; [left; by destruct (q_input_frame_active q)|right].
        intros E0. by rewrite E0, Z.eqb_refl in G.
    - injection E1 as <- <-. bool_hyps. destruct (q_input_frame_active q); [|done]. split_and!; try done. by left. }
  clear E1. destruct H as (Hi & Hr & Ha & Hlost & Hp).
  set (q2 := if kf then _ else _) in E.
  assert (F2 : view q2 = view q1 /\ rest q2 = rest q1) by (unfold q2; by destruct kf).
  set (q3 := if negb (q_drop_input_frame q2) then _ else _) in E.
  assert (F3 : view q3 = view q1 /\ rest q3 = rest q1) by (unfold q3; destruct (negb _); done).
  destruct F2 as [_ F2]. destruct F3 as [Fv Fr].
  destruct (paced_inv_same q1 q3 Fv Fr Hi) as (Hi3 & Hr3 & Hu3).
  injection F2 as _ _ _ _ _ D2 _. injection Fr as _ _ _ _ A3 D3 _.
  destruct (marker && negb (negb (q_drop_input_frame q2))) eqn:G.
  - injection E as <- <- <-. apply andb_prop in G as [_ G]. rewrite negb_involutive in G.
    match goal with |- paced_inv ?x /\ _ => set (q4 := x) end.
    assert (Hu0 : unfinished q3 = []).
    { pose proof (unfinished_length q3 Hi3) as Lu. destruct Hi3 as [_ _ _ _ _ H6 _ _ _ _ _].
      rewrite H6 in Lu by congruence. destruct (unfinished q3); [done|]. rewrite zlen_cons in Lu. pose proof (zlen_nonneg l). lia. }
    destruct (paced_inv_intro q4 (ready q3) []) as (Hi4 & Er & Eu); try done.
    + apply Hi3.
    + rewrite <- Hu0. exact (paced_parts q3).
    + symmetry. exact (ready_length q3 Hi3).
    + rewrite <- Hu0. symmetry. exact (unfinished_length q3 Hi3).
    + apply Hi3.
    + apply Hi3.
    + rewrite <- Hu0, <- paced_parts. apply Hi3.
    + rewrite Er, Eu. rewrite <- Hu3, Hu0 in Hp. split_and!; try done; [congruence|by right|].
      destruct (q_drop_input_frame q2); done.
  - injection E as <- <- <-. rewrite Hu3. split_and!; try done; [congruence|]. intros Hok. split; [congruence|].
    destruct (q_drop_input_frame q2) eqn:D; [done|congruence].
Qed.

Definition mark_end (e : sfu_paced_send_entry) : sfu_paced_send_entry :=
  e <| pe_metadata ::= fun m => m <| pm_frame_end := true |> |>.

Lemma finish_spec q :
  paced_inv q -> q_input_frame_active q = true ->
  let q' := sfu_paced_send_finish_input_frame q in
  paced_inv q' /\ unfinished q' = [] /\ q_input_frame_active q' = false /\
  (unfinished q = [] /\ ready q' = ready q \/
   exists l e, unfinished q = l ++ [e] /\ ready q' = ready q ++ l ++ [mark_end e]).
Proof.
  intros Hq Ha q'. unfold q', sfu_paced_send_finish_input_frame. rewrite Ha. cbn [negb].
  pose proof (unfinished_length q Hq) as Lu. pose proof (ready_length q Hq) as Lr. pose proof (count_range q Hq) as Hcr.
  pose proof Hq as [H1 H2 H3 H4 H5 H6 H7 H8 H9 H10 H11].
  destruct (Z.eqb_spec (q_input_frame_queued_packets q) 0) as [E0|E0]; cbn [negb].
  - assert (Hu : unfinished q = []) by (destruct (unfinished q); [done|]; rewrite zlen_cons in Lu; pose proof (zlen_nonneg l); lia).
    match goal with |- paced_inv ?x /\ _ => set (q4 := x) end.
    destruct (paced_inv_intro q4 (ready q) []) as (Hi4 & Er & Eu); try done.
    + rewrite <- Hu. exact (paced_parts q).
    + change (u32 (q_ready_count q + q_input_frame_queued_packets q) = zlen (ready q)). rewrite E0, u32_small; lia.
    + rewrite <- Hu, <- paced_parts. exact H10.
    + split_and!; try done. left. done.
  - match goal with |- paced_inv ?x /\ _ => set (q4 := x) end.
    assert (Hset : ring_set (view q)) by (apply inv_ring_set; [done|lia]).
    destruct (ring_set_last (view q) Hset q (mark_end (entry_at q (prev_index q (q_tail q)))) eq_refl ltac:(change (0 < q_count q); lia))
      as (Hset' & l & Hl & Hl'). rewrite listed_contents in Hl. set (e := ring_at _ _ _) in Hl.
    destruct (unfinished q) as [|x l2 _] eqn:Hu using rev_ind; [rewrite zlen_nil in Lu; lia|].
    pose proof (paced_parts q) as Hp. rewrite Hu, Hl, app_assoc in Hp. apply app_inj_tail in Hp as [-> <-].
    destruct (paced_inv_intro q4 (ready q ++ l2 ++ [mark_end e]) []) as (Hi4 & Er & Eu); try done.
    + right. exact Hset'.
    + rewrite app_nil_r, app_assoc. exact Hl'.
    + change (u32 (q_ready_count q + q_input_frame_queued_packets q) = zlen (ready q ++ l2 ++ [mark_end e])).
      rewrite u32_small by lia. rewrite zlen_app, zlen_cons, zlen_nil in Lu. rewrite !zlen_app, zlen_cons, zlen_nil. lia.
    + change (inc32 (q_ready_frame_count q) = frame_ends (ready q ++ l2 ++ [mark_end e])).
      pose proof (frame_ends_le (ready q)). pose proof (frame_ends_nonneg (ready q)). unfold inc32. rewrite u32_small by lia.
      apply Forall_app in H9 as [H9 _]. rewrite !frame_ends_app, (frame_ends_none l2), frame_ends_cons by done.
      change (ends_frame (mark_end e)) with true. change (frame_ends []) with 0. cbv iota. lia.
    + rewrite app_assoc. by apply whole_frames_snoc.
    + rewrite app_nil_r, app_assoc. apply spaced_same with e; [done|]. rewrite <- app_assoc, <- Hu, <- paced_parts. exact H10.
    + split_and!; try done. right. by exists l2, e.
Qed.

Lemma reject_spec q :
  paced_inv q -> unfinished q = [] ->
  let q' := sfu_paced_send_reject_input_frame q in paced_inv q' /\ ready q' = ready q /\ unfinished q' = [].
Proof.
  intros Hq Hu q'. unfold q', sfu_paced_send_reject_input_frame. destruct (q_input_frame_active q) eqn:Ha; [|done].
  pose proof (unfinished_length q Hq) as Lu. pose proof (ready_length q Hq) as Lr.
  destruct Hq as [H1 H2 H3 H4 H5 H6 H7 H8 H9 H10 H11].
  apply (paced_inv_intro (q <| q_drop_input_frame := true |>) (ready q) []); try done.
  - rewrite <- Hu. exact (paced_parts q).
  - by rewrite <- Hu.
  - rewrite <- Hu, <- paced_parts. exact H10.
Qed.

(** ** Backlog *)

(** The first frame of a run of packets, and what follows it. *)
Fixpoint head_frame (l : list sfu_paced_send_entry) : list sfu_paced_send_entry * list sfu_paced_send_entry :=
  match l with
  | [] => ([], [])
  | e :: l => if ends_frame e then ([e], l) else let (f, r) := head_frame l in (e :: f, r)
  end.
Definition publisher_of (f : list sfu_paced_send_entry) (d : Z) : Z :=
  match last f with Some e => pm_publisher_peer_id (pe_metadata e) | None => d end.

Lemma head_frame_app l : l = (head_frame l).1 ++ (head_frame l).2.
Proof. induction l as [|e l IH]; [done|]. cbn. destruct (ends_frame e); [done|]. destruct (head_frame l). cbn in *. by rewrite <- IH. Qed.

(** The fields beside the ready count. *)
Definition frame_fields (q : sfu_paced_send) : Z * Z * Z * bool * bool * Z :=
  (q_next_release_us q, q_input_frame_base_next_release_us q, q_input_frame_queued_packets q,
   q_input_frame_active q, q_drop_input_frame q, q_ready_frame_count q).

Lemma drop_packet_spec q p q' p' :
  ring_set (view q) -> 0 < q_ready_count q <= q_count q -> drop_packet q p = (q', p') ->
  ring_set (view q') /\ contents q = entry_at q (q_head q) :: contents q' /\ q_ready_count q' = q_ready_count q - 1 /\
  q_count q' = q_count q - 1 /\ frame_fields q' = frame_fields q /\
  reserved_bytes p' = reserved_bytes p - held (pe_reservation (entry_at q (q_head q))).
Proof.
  intros Hs Hc E. assert (Hcr : 0 <= q_count q <= 512) by exact (ring_ok_count (view q) (or_intror Hs)).
  destruct (ring_set_pop (view q) Hs zero_entry ltac:(change (0 < q_count q); lia)) as [Hset Hl].
  injection E as <- <-. split_and!; try done.
  - change (dec32 (q_ready_count q) = q_ready_count q - 1). apply u32_small. lia.
  - change (dec32 (q_count q) = q_count q - 1). apply u32_small. lia.
  - apply cancel_reserved.
Qed.

Lemma drop_frame_spec n q p fe pub q' p' fe' pub' :
  ring_set (view q) -> q_ready_count q = q_count q -> n = Z.to_nat (q_count q) ->
  drop_frame n q p fe pub = (q', p', fe', pub') ->
  let '(f, r) := if fe then ([], contents q) else head_frame (contents q) in
  ring_set (view q') /\ contents q' = r /\ q_ready_count q' = q_count q' /\ frame_fields q' = frame_fields q /\
  reserved_bytes p' = reserved_bytes p - queue_held f /\ pub' = publisher_of f pub /\
  (fe' = true <-> fe = true \/ exists e, last f = Some e /\ ends_frame e = true).
Proof.
  revert q p fe pub. induction n as [|n IH]; intros q p fe pub Hs Hr Hn E.
  { injection E as <- <- <- <-. assert (Hc : contents q = []) by (unfold contents; by rewrite <- Hn).
    rewrite Hc. destruct fe; cbn; (split_and!; try done; try lia); split; try (by left); intros [?|(? & ? & _)]; done. }
  assert (Hcr : 0 <= q_count q <= 512) by exact (ring_ok_count (view q) (or_intror Hs)).
  cbn [drop_frame] in E. rewrite (proj2 (Z.eqb_neq (q_ready_count q) 0)) in E by lia.
  destruct fe; cbn [orb] in E.
  { injection E as <- <- <- <-. cbn. split_and!; try done; [lia|]. split; [by left|done]. }
  destruct (drop_packet q p) as [q1 p1] eqn:E1.
  destruct (drop_packet_spec q p q1 p1 Hs ltac:(lia) E1) as (Hs1 & Hc1 & Hr1 & Hn1 & Hf1 & Hp1).
  set (e := entry_at q (q_head q)) in *.
  specialize (IH q1 p1 (ends_frame e) (pm_publisher_peer_id (pe_metadata e)) Hs1 ltac:(lia) ltac:(lia) E).
  rewrite Hc1. cbn [head_frame]. destruct (ends_frame e) eqn:Ee.
  - destruct IH as (H1 & H2 & H3 & H4 & H5 & H6 & H7). split_and!; try done; [congruence| |].
    + rewrite H5, Hp1. cbn. lia.
    + split; [right; by exists e|]. intros _. apply H7. by left.
  - destruct (head_frame (contents q1)) as [f r]. destruct IH as (H1 & H2 & H3 & H4 & H5 & H6 & H7).
    split_and!; try done; [congruence|rewrite H5, Hp1, queue_held_cons; lia| |].
    + rewrite H6. unfold publisher_of. destruct f as [|x f]; [done|]. rewrite last_cons_cons.
      destruct (last (x :: f)) eqn:L; [done|by apply last_None in L].
    + rewrite H7. destruct f as [|y f]; [|done]. cbn. split; intros [?|(x & Hx & ?)]; try done.
      injection Hx as <-. congruence.
Qed.

(** [rebase_backlog]: the same packets, released back to back from now on. *)
Fixpoint rebased (base : Z) (l : list sfu_paced_send_entry) : list sfu_paced_send_entry :=
  match l with
  | [] => []
  | e :: l => e <| pe_release_at_us := base |> :: rebased (base + pe_span_us e) l
  end.
Fixpoint spans (l : list sfu_paced_send_entry) : Z :=
  match l with [] => 0 | e :: l => pe_span_us e + spans l end.

Lemma rebased_spaced base l : spaced_from base (rebased base l) (base + spans l).
Proof.
  revert base. induction l as [|e l IH]; intros base; cbn [rebased spaced_from spans]; [lia|].
  split; [cbn; lia|]. rewrite Z.add_assoc. apply (IH (base + pe_span_us e)).
Qed.
Lemma rebased_length base l : length (rebased base l) = length l.
Proof. revert base. induction l; intros; cbn; [done|]. by f_equal. Qed.
Lemma rebased_held base l : queue_held (rebased base l) = queue_held l.
Proof. revert base. induction l as [|e l IH]; intros base; [done|]. cbn [rebased]. rewrite !queue_held_cons, IH. done. Qed.
Lemma rebased_frame_ends base l : frame_ends (rebased base l) = frame_ends l.
Proof. revert base. induction l as [|e l IH]; intros base; [done|]. cbn [rebased]. rewrite !frame_ends_cons, IH. done. Qed.
Lemma rebased_last base l : match last l with
  | Some e => exists b, last (rebased base l) = Some (e <| pe_release_at_us := b |>) | None => rebased base l = [] end.
Proof.
  revert base. induction l as [|e l IH]; intros base; [done|]. cbn [rebased]. specialize (IH (base + pe_span_us e)).
  destruct l as [|x l]; [by exists base|]. rewrite last_cons_cons. destruct (last (x :: l)) eqn:E; [|by apply last_None in E].
  destruct IH as [b Hb]. exists b. rewrite last_cons, Hb. done.
Qed.
Lemma rebased_whole base l : whole_frames l -> whole_frames (rebased base l).
Proof.
  intros H. pose proof (rebased_last base l) as Hl. unfold whole_frames in *.
  destruct (last l) as [e|]; [|by rewrite Hl]. destruct Hl as [b ->]. exact H.
Qed.

Lemma rebase_loop_spec n q k base q' base' :
  ring_set (view q) -> 0 <= k -> k + Z.of_nat n = q_count q ->
  rebase_loop n q ((q_head q + k) mod SFU_PACED_SEND_CAPACITY) base = (q', base') ->
  ring_set (view q') /\ rest q' = rest q /\ q_count q' = q_count q /\
  contents q' = take (Z.to_nat k) (contents q) ++ rebased base (drop (Z.to_nat k) (contents q)) /\
  base' = base + spans (drop (Z.to_nat k) (contents q)).
Proof.
  revert q k base. induction n as [|n IH]; intros q k base Hs Hk Hn E.
  { injection E as <- <-. assert (Hl : length (contents q) = Z.to_nat k) by (unfold contents; rewrite ring_length; lia).
    rewrite drop_ge, take_ge by lia. cbn. rewrite app_nil_r. split_and!; try done. lia. }
  destruct Hs as [S1 S2 S3 S4 S5]. cbn [view rv_entries rv_capacity rv_head rv_tail rv_count] in *.
  set (i := (q_head q + k) mod SFU_PACED_SEND_CAPACITY) in *. unfold SFU_PACED_SEND_CAPACITY in *.
  assert (Hi : 0 <= i < 512) by (apply Z.mod_pos_bound; lia).
  cbn [rebase_loop] in E. set (e := entry_at q i) in *.
  set (q1 := set_entry q i (e <| pe_release_at_us := base |>)) in *.
  assert (Hs1 : ring_set (view q1)) by (constructor; cbn; rewrite ?zlen_ring_put; done).
  assert (Hni : next_index q i = (q_head q + (k + 1)) mod 512).
  { unfold next_index. rewrite S2, u32_small by lia. unfold i. rewrite Zplus_mod_idemp_l. f_equal. lia. }
  rewrite Hni in E. destruct (IH q1 (k + 1) (base + pe_span_us e) Hs1 ltac:(lia) ltac:(change (q_count q1) with (q_count q); lia) E)
    as (H1 & H2 & H3 & H4 & H5).
  assert (Hlen : length (contents q) = Z.to_nat (q_count q)) by (unfold contents; by rewrite ring_length).
  assert (He : contents q !! Z.to_nat k = Some e).
  { unfold contents. rewrite ring_lookup by (rewrite ?S1; lia). rewrite S1, Z2Nat.id by lia. done. }
  assert (Hc1 : contents q1 = <[Z.to_nat k := e <| pe_release_at_us := base |>]> (contents q)).
  { unfold contents, q1. rewrite <- (ring_put_in zero_entry) by (rewrite ?S1; lia). rewrite S1, Z2Nat.id by lia. done. }
  split_and!; try done.
  - rewrite H4, Hc1. replace (Z.to_nat (k + 1)) with (S (Z.to_nat k)) by lia.
    rewrite drop_insert_lt by lia. rewrite (drop_S (contents q) e (Z.to_nat k) He). cbn [rebased].
    rewrite (take_S_r _ _ (e <| pe_release_at_us := base |>)) by (rewrite list_lookup_insert_eq by lia; done).
    rewrite take_insert_ge by lia. by rewrite <- app_assoc.
  - rewrite H5, Hc1. replace (Z.to_nat (k + 1)) with (S (Z.to_nat k)) by lia.
    rewrite drop_insert_lt by lia. rewrite (drop_S (contents q) e (Z.to_nat k) He). cbn [spans]. lia.
Qed.

Lemma rebase_spec q now :
  ring_set (view q) -> q_input_frame_active q = false ->
  let q' := rebase_backlog q now in
  ring_set (view q') /\ contents q' = rebased now (contents q) /\ q_count q' = q_count q /\
  q_ready_count q' = q_ready_count q /\ q_input_frame_queued_packets q' = q_input_frame_queued_packets q /\
  q_input_frame_active q' = false /\ q_drop_input_frame q' = q_drop_input_frame q /\
  q_ready_frame_count q' = q_ready_frame_count q /\
  q_next_release_us q' = if q_count q =? 0 then 0 else now + spans (contents q).
Proof.
  intros Hs Ha q'. unfold q', rebase_backlog.
  assert (Hcr : 0 <= q_count q <= 512) by exact (ring_ok_count (view q) (or_intror Hs)).
  destruct (rebase_loop _ q (q_head q) now) as [q1 base] eqn:E.
  assert (Hh : q_head q = (q_head q + 0) mod SFU_PACED_SEND_CAPACITY).
  { destruct Hs as [_ _ S3 _ _]. cbn in S3. rewrite Z.add_0_r, Z.mod_small; done. }
  rewrite Hh in E. apply rebase_loop_spec in E as (H1 & H2 & H3 & H4 & H5); [|done|lia|lia].
  injection H2 as R1 R2 R3 R4 R5 R6 R7. cbn in H4, H5. rewrite H3.
  change (q_input_frame_active (q1 <| q_next_release_us := _ |>)) with (q_input_frame_active q1).
  rewrite R5, Ha. split_and!; try done.
  - exact (eq_trans R5 Ha).
  - subst base. done.
Qed.

(** A complete frame whose first packet is not of a keyframe. *)
Record droppable_frame (f : list sfu_paced_send_entry) : Prop := {
  df_whole : exists l e, f = l ++ [e] /\ ends_frame e = true /\ Forall (fun x => ends_frame x = false) l;
  df_plain : match f with e :: _ => pm_is_keyframe (pe_metadata e) = false | [] => True end
}.

Lemma head_frame_spec l :
  l <> [] -> whole_frames l ->
  let (f, r) := head_frame l in
  (exists l0 e, f = l0 ++ [e] /\ ends_frame e = true /\ Forall (fun x => ends_frame x = false) l0) /\ whole_frames r.
Proof.
  induction l as [|x l IH]; [done|]. intros _ Hw. cbn [head_frame]. destruct (ends_frame x) eqn:Ex.
  - split; [by exists [], x|]. by apply whole_frames_tail in Hw.
  - destruct l as [|y l]; [cbn in Hw; congruence|]. specialize (IH ltac:(done) (whole_frames_tail _ _ Hw)).
    destruct (head_frame (y :: l)) as [f r]. destruct IH as [(l0 & e & -> & He & Hl) Hr].
    split; [|done]. exists (x :: l0), e. split_and!; [done|done|by constructor].
Qed.
Lemma frame_ends_one l e :
  ends_frame e = true -> Forall (fun x => ends_frame x = false) l -> frame_ends (l ++ [e]) = 1.
Proof. intros He Hl. rewrite frame_ends_app, frame_ends_none, frame_ends_cons, He by done. done. Qed.

Definition untimed (e : sfu_paced_send_entry) : sfu_paced_send_entry := e <| pe_release_at_us := 0 |>.
Lemma untimed_rebased b l : map untimed (rebased b l) = map untimed l.
Proof. revert b. induction l as [|e l IH]; intros b; [done|]. cbn [rebased map]. by rewrite IH. Qed.

Lemma inactive_contents q : paced_inv q -> q_input_frame_active q = false ->
  unfinished q = [] /\ contents q = ready q /\ q_ready_count q = q_count q.
Proof.
  intros Hq Ha. pose proof (unfinished_length q Hq) as Lu. pose proof (paced_parts q) as Hp.
  destruct Hq as [_ _ _ H4 H5 _ _ _ _ _ _]. rewrite (H5 Ha) in Lu, H4.
  assert (Hu : unfinished q = []) by (destruct (unfinished q); [done|]; rewrite zlen_cons in Lu; pose proof (zlen_nonneg l); lia).
  rewrite Hu, app_nil_r in Hp. split_and!; [done|done|lia].
Qed.

Lemma drop_head_frame_spec q p now rep q' p' rep' :
  paced_inv q -> q_input_frame_active q = false -> 0 < q_ready_count q ->
  drop_head_frame q p now rep = (q', p', rep') ->
  let (f, r) := head_frame (contents q) in
  paced_inv q' /\ q_input_frame_active q' = false /\ contents q' = rebased now r /\
  q_ready_count q' < q_ready_count q /\
  (exists l e, f = l ++ [e] /\ ends_frame e = true /\ Forall (fun x => ends_frame x = false) l) /\
  reserved_bytes p' = reserved_bytes p - queue_held f /\
  rep' = sfu_paced_send_drop_report_add (mk_drop_report (inc32 (dr_frames rep)) (dr_truncated rep) (dr_publisher_peer_ids rep)) (publisher_of f 0).
Proof.
  intros Hq Ha Hpos E. destruct (inactive_contents q Hq Ha) as (Hu & Hc & Hrc).
  pose proof (contents_length q Hq) as Lc. pose proof (count_range q Hq) as Hcr.
  assert (Hset : ring_set (view q)) by (apply inv_ring_set; [done|lia]).
  pose proof Hq as [H1 H2 H3 H4 H5 H6 H7 H8 H9 H10 H11]. rewrite <- Hc in H7, H8.
  unfold drop_head_frame in E. destruct (drop_frame _ q p false 0) as [[[q1 p1] fe] pub] eqn:E1.
  apply drop_frame_spec in E1; [|done|done|by rewrite Hrc]. pose proof (head_frame_app (contents q)) as Happ.
  assert (Hne : contents q <> []) by (intros Hn; rewrite Hn, zlen_nil in Lc; lia).
  pose proof (head_frame_spec (contents q) Hne H8) as Hhf.
  destruct (head_frame (contents q)) as [f r]. cbn [fst snd] in Happ.
  destruct Hhf as [(l0 & e & Hf & He & Hl0) Hwr]. destruct E1 as (Hs1 & Hc1 & Hr1 & Hff & Hp1 & Hpub & Hfe).
  injection Hff as F1 F2 F3 F4 F5 F6.
  assert (fe = true) as -> by (apply Hfe; right; exists e; rewrite Hf, last_snoc; done).
  assert (Hfr : q_ready_frame_count q = 1 + frame_ends r) by (rewrite H7, Happ, frame_ends_app, Hf, frame_ends_one; done).
  pose proof (frame_ends_nonneg r) as Hnn. pose proof (frame_ends_le (contents q)) as Hle.
  rewrite F6, Hfr in E. rewrite (proj2 (Z.ltb_lt 0 (1 + frame_ends r))) in E by lia. cbn [andb] in E.
  injection E as <- <- <-.
  set (q2 := q1 <| q_ready_frame_count ::= dec32 |> <| q_dropped_delay_frames ::= inc64 |>).
  destruct (rebase_spec q2 now Hs1 (eq_trans F4 Ha)) as (R1 & R2 & R3 & R4 & R5 & R6 & R7 & R8 & R9).
  change (contents q2) with (contents q1) in R2, R9. rewrite Hc1 in R2, R9. change (q_count q2) with (q_count q1) in *.
  change (q_ready_count q2) with (q_ready_count q1) in R4.
  assert (Hlr : zlen r = q_count q1).
  { rewrite <- Hc1. apply (listed_length (view q1)). by right. }
  assert (Hlt : zlen r < zlen (contents q)).
  { rewrite Happ, Hf, !zlen_app, zlen_cons, zlen_nil. pose proof (zlen_nonneg l0). lia. }
  assert (Hlen : zlen (rebased now r) = zlen r) by (unfold zlen; by rewrite rebased_length).
  destruct (paced_inv_intro (rebase_backlog q2 now) (rebased now r) []) as (Hi & Er & Eu); try done.
  - by right.
  - by rewrite app_nil_r.
  - rewrite R4, Hlen. congruence.
  - rewrite R5. change (q_input_frame_queued_packets q1 = 0). rewrite F3. by apply H5.
  - rewrite R8, rebased_frame_ends. change (dec32 (q_ready_frame_count q1) = frame_ends r). rewrite F6, Hfr.
    unfold dec32. rewrite u32_small; [lia|]. rewrite <- Hlr in *. lia.
  - by apply rebased_whole.
  - rewrite app_nil_r, R9. destruct r as [|x r]; [done|].
    rewrite (proj2 (Z.eqb_neq (q_count q1) 0)) by (rewrite <- Hlr, zlen_cons; pose proof (zlen_nonneg r); lia).
    pose proof (rebased_spaced now (x :: r)) as [_ Hsp]. exact Hsp.
  - intros Ht. by rewrite R6 in Ht.
  - split_and!; try done; [rewrite R4, Hr1, <- Hlr; lia|by exists l0, e|]. by rewrite Hpub.
Qed.

(** The report names a publisher, or says that it ran out of room. *)
Definition reported (rep : sfu_paced_send_drop_report) (pub : Z) : Prop :=
  pub = 0 \/ dr_truncated rep = true \/ In pub (dr_publisher_peer_ids rep).
Lemma report_add_new rep pub : reported (sfu_paced_send_drop_report_add rep pub) pub.
Proof.
  unfold sfu_paced_send_drop_report_add, reported. destruct (Z.eqb_spec pub 0); [by left|]. right.
  destruct (existsb _ _) eqn:E.
  - right. apply existsb_exists in E as (x & Hx & ->%Z.eqb_eq). done.
  - destruct (_ <=? _); [by left|]. right. cbn. apply in_or_app. right. by left.
Qed.
Lemma report_add_keeps rep x pub : reported rep pub -> reported (sfu_paced_send_drop_report_add rep x) pub.
Proof.
  unfold sfu_paced_send_drop_report_add, reported. intros [?|[?|?]]; [by left|right..];
    repeat case_match; cbn; auto. right. apply in_or_app. by left.
Qed.
Lemma report_add_frames rep x : dr_frames (sfu_paced_send_drop_report_add rep x) = dr_frames rep.
Proof. unfold sfu_paced_send_drop_report_add. repeat case_match; done. Qed.

(** Why the trimming stopped. *)
Definition trimmed (q : sfu_paced_send) (max_delay now : Z) : Prop :=
  contents q = [] \/ sfu_paced_send_projected_delay_us q now < max_delay \/
  exists e l, contents q = e :: l /\ pm_is_keyframe (pe_metadata e) = true.

Lemma head_entry q : paced_inv q -> 0 < q_count q -> exists l, contents q = entry_at q (q_head q) :: l.
Proof.
  intros Hq Hc. unfold contents, entry_at. replace (Z.to_nat (q_count q)) with (S (Z.to_nat (q_count q - 1))) by lia. by eexists.
Qed.

Lemma backlog_loop_spec fuel q p maxd now rep q' p' rep' :
  paced_inv q -> q_input_frame_active q = false -> q_ready_count q < Z.of_nat fuel ->
  backlog_loop fuel q p maxd now rep = (q', p', rep') ->
  paced_inv q' /\ q_input_frame_active q' = false /\ trimmed q' maxd now /\
  exists fs, map untimed (contents q) = map untimed (concat fs ++ contents q') /\ Forall droppable_frame fs /\
    reserved_bytes p' = reserved_bytes p - queue_held (concat fs) /\
    (is_u32 (dr_frames rep) -> dr_frames rep' = u32 (dr_frames rep + zlen fs)) /\
    (forall pub, reported rep pub -> reported rep' pub) /\
    Forall (fun f => reported rep' (publisher_of f 0)) fs.
Proof.
  revert q p rep. induction fuel as [|fuel IH]; intros q p rep Hq Ha Hfuel E; [destruct Hq; lia|].
  destruct (inactive_contents q Hq Ha) as (_ & _ & Hrc). pose proof (contents_length q Hq) as Lc.
  cbn [backlog_loop] in E.
  assert (Hstop : trimmed q maxd now -> (q, p, rep) = (q', p', rep') ->
    paced_inv q' /\ q_input_frame_active q' = false /\ trimmed q' maxd now /\
    exists fs, map untimed (contents q) = map untimed (concat fs ++ contents q') /\ Forall droppable_frame fs /\
      reserved_bytes p' = reserved_bytes p - queue_held (concat fs) /\
      (is_u32 (dr_frames rep) -> dr_frames rep' = u32 (dr_frames rep + zlen fs)) /\
      (forall pub, reported rep pub -> reported rep' pub) /\
      Forall (fun f => reported rep' (publisher_of f 0)) fs).
  { intros Ht [= <- <- <-]. split_and!; try done. exists []. cbn. split_and!; try done; [lia|].
    intros Hr. rewrite zlen_nil, Z.add_0_r, u32_small; done. }
  destruct (Z.eqb_spec (q_ready_count q) 0) as [E0|E0]; cbn [negb andb] in E.
  { apply Hstop; [|done]. left. rewrite <- Hrc, E0 in Lc. destruct (contents q); [done|].
    rewrite zlen_cons in Lc. pose proof (zlen_nonneg l). lia. }
  destruct (Z.leb_spec maxd (sfu_paced_send_projected_delay_us q now)) as [Hd|Hd]; cbn [negb] in E.
  2: { apply Hstop; [|done]. by right; left. }
  pose proof (count_range q Hq) as Hcr. destruct (head_entry q Hq ltac:(destruct Hq; lia)) as [l Hl].
  destruct (pm_is_keyframe (pe_metadata (entry_at q (q_head q)))) eqn:Hk.
  { apply Hstop; [|done]. right; right. eauto. }
  destruct (drop_head_frame q p now rep) as [[q1 p1] rep1] eqn:E1.
  apply drop_head_frame_spec in E1; [|done|done|destruct Hq; lia]. pose proof (head_frame_app (contents q)) as Happ.
  destruct (head_frame (contents q)) as [f r]. cbn [fst snd] in Happ.
  destruct E1 as (Hi1 & Ha1 & Hc1 & Hlt & Hf & Hp1 & Hrep1).
  destruct (IH q1 p1 rep1 Hi1 Ha1 ltac:(lia) E) as (Hi' & Ha' & Ht' & fs & Hm & Hfs & Hp' & Hn' & Hk' & Hr').
  split_and!; try done. exists (f :: fs). cbn [concat]. split_and!.
  - rewrite Happ, <- app_assoc, !map_app. f_equal. rewrite <- map_app, <- Hm, Hc1. by rewrite untimed_rebased.
  - constructor; [|done]. constructor; [done|]. rewrite Happ in Hl. destruct Hf as (l0 & x & -> & _ & _).
    destruct l0; injection Hl as -> _; done.
  - rewrite Hp', Hp1, queue_held_app. lia.
  - intros Hr. rewrite Hn', Hrep1, report_add_frames by (rewrite Hrep1, report_add_frames; apply u32_range).
    unfold inc32, u32. cbn. rewrite Zplus_mod_idemp_l, zlen_cons. f_equal. lia.
  - intros pub Hpub. apply Hk'. rewrite Hrep1. by apply report_add_keeps.
  - constructor; [|done]. apply Hk'. rewrite Hrep1. apply report_add_new.
Qed.

Lemma empty_parts q : paced_inv q -> q_count q = 0 -> ready q = [] /\ unfinished q = [].
Proof.
  intros Hq Hc. pose proof (contents_length q Hq) as Hl. rewrite Hc in Hl. pose proof (paced_parts q) as Hp.
  destruct (contents q); [|rewrite zlen_cons in Hl; pose proof (zlen_nonneg l); lia].
  symmetry in Hp. by apply app_eq_nil in Hp.
Qed.
Lemma reset_empty q n :
  paced_inv q -> q_count q = 0 ->
  let q' := q <| q_tail := 0 |> <| q_head := 0 |> <| q_next_release_us := n |> <| q_ready_frame_count := 0 |> in
  paced_inv q' /\ ready q' = [] /\ unfinished q' = [].
Proof.
  intros Hq Hc q'. destruct (empty_parts q Hq Hc) as [Hr Hu].
  pose proof (ready_length q Hq) as Lr. pose proof (unfinished_length q Hq) as Lu. rewrite Hr in Lr. rewrite Hu in Lu.
  assert (Hv : ring_ok (view q')).
  { destruct Hq as [[Hun|Hset] _ _ _ _ _ _ _ _ _ _].
    - left. injection Hun as U1 U2 U3 U4 U5. unfold ring_unset, view. cbn. by rewrite U1, U2, U5.
    - right. by destruct (ring_set_reset (view q) Hset Hc) as (Hz & _). }
  apply (paced_inv_intro q' [] []); try done. change (ring zero_entry (q_entries q) 0 (Z.to_nat (q_count q)) = []). by rewrite Hc.
Qed.

Lemma bound_backlog_spec q p maxd now rep ok q' p' rep' :
  paced_inv q -> sfu_paced_send_bound_backlog q p maxd now rep = (ok, q', p', rep') ->
  if (maxd <=? 0) || q_input_frame_active q then ok = false /\ q' = q /\ p' = p /\ rep' = rep else
  paced_inv q' /\ q_input_frame_active q' = false /\ trimmed q' maxd now /\
  ok = (sfu_paced_send_projected_delay_us q' now <? maxd) /\
  exists fs, map untimed (contents q) = map untimed (concat fs ++ contents q') /\ Forall droppable_frame fs /\
    reserved_bytes p' = reserved_bytes p - queue_held (concat fs) /\
    (is_u32 (dr_frames rep) -> dr_frames rep' = u32 (dr_frames rep + zlen fs)) /\
    Forall (fun f => reported rep' (publisher_of f 0)) fs.
Proof.
  intros Hq E. unfold sfu_paced_send_bound_backlog in E.
  destruct (maxd <=? 0) eqn:Hm; cbn [orb] in *; [by injection E as <- <- <- <-|].
  destruct (q_input_frame_active q) eqn:Ha; [by injection E as <- <- <- <-|].
  destruct (backlog_loop _ q p maxd now rep) as [[q1 p1] rep1] eqn:E1.
  apply backlog_loop_spec in E1 as (Hi & Ha1 & Ht & fs & H1 & H2 & H3 & H4 & H5 & H6); [|done|done|destruct Hq; lia].
  injection E as <- <- <- <-. destruct (Z.eqb_spec (q_count q1) 0) as [E0|E0].
  - assert (Hc1 : contents q1 = []).
    { pose proof (contents_length q1 Hi) as Lc. destruct (contents q1); [done|]. rewrite zlen_cons in Lc. pose proof (zlen_nonneg l). lia. }
    set (q2 := q1 <| q_tail := 0 |> <| q_head := 0 |> <| q_ready_frame_count := 0 |>).
    destruct (reset_empty q1 (q_next_release_us q1) Hi E0) as (Hi2 & Hr2 & Hu2).
    change (paced_inv q2) in Hi2. change (ready q2 = []) in Hr2. change (unfinished q2 = []) in Hu2.
    assert (Hc2 : contents q2 = []) by (rewrite paced_parts, Hr2, Hu2; done).
    split_and!; try done; [by left|]. exists fs. rewrite Hc2. rewrite Hc1 in H1. done.
  - split_and!; try done. by exists fs.
Qed.

(** ** Drain *)

Definition entry_bytes (e : sfu_paced_send_entry) : Prop :=
  zlen (pe_rtx_plaintext e) = pe_rtx_plaintext_len e /\ pe_rtx_plaintext_len e <= SFU_PACED_SEND_MAX_PAYLOAD.
Definition cache_ok (s : send_session) : Prop :=
  match ss_rtx_cache s with Some c => exists f, cache_holds c f | None => True end.
(** The fields [entry_valid] reads. *)
Definition gate (s : send_session) : bool * Z * list Z * Z * Z * list Z * Z :=
  (ss_accepts_work s, ss_owner_value s, ss_applied_generations s, ss_transport_generation s, ss_address_generation s,
   ss_addr s, ss_addr_len s).
Lemma entry_valid_gate s s' e : gate s' = gate s -> entry_valid e s' = entry_valid e s.
Proof.
  intros [= G1 G2 G3 G4 G5 G6 G7]. unfold entry_valid, sfu_session_remote_slot_authorized, same_address.
  by rewrite G1, G2, G3, G4, G5, G6, G7.
Qed.

Lemma record_sent_spec e s now :
  cache_ok s -> entry_bytes e ->
  exists s', record_sent e s now = Ok s' /\ gate s' = gate s /\ ss_pacer s' = ss_pacer s /\ cache_ok s'.
Proof.
  intros Hc [Hl Hm]. unfold record_sent. set (s1 := if _ && ss_video_ready s then _ else s).
  assert (F : gate s1 = gate s /\ ss_pacer s1 = ss_pacer s /\ ss_rtx_cache s1 = ss_rtx_cache s) by (unfold s1; by case_match).
  destruct F as (F1 & F2 & F3). unfold cache_ok in *. rewrite F3.
  destruct (ss_rtx_cache s) as [c|] eqn:Ec; [|exists s1; rewrite F3; done].
  destruct (pm_cache_rtx (pe_metadata e) && ss_video_ready s1); [|exists s1; rewrite F3; split_and!; eauto]. destruct Hc as [f Hf].
  set (m := pe_metadata e).
  destruct (put_holds c f (mk_sent (pm_subscriber_seq m) (pe_rtx_plaintext e) (pm_rtx_ssrc m) (pm_rtx_pt m) (pm_media_ssrc m) (pm_egress_generation m)))
    as (c' & Hput & Hc').
  { done. }
  { cbn. unfold SFU_PACED_SEND_MAX_PAYLOAD in Hm. lia. }
  cbn [s_seq s_bytes s_rtx_ssrc s_rtx_pt s_ssrc s_gen] in Hput. rewrite Hl in Hput. rewrite Hput. cbn [res_bind].
  eexists. split_and!; [reflexivity|exact F1|exact F2|]. cbn. eauto.
Qed.

(** One packet leaves the head; its slot keeps [x]. *)
Lemma pop_spec q x :
  paced_inv q -> 0 < q_ready_count q -> ends_frame x = ends_frame (entry_at q (q_head q)) ->
  let q' := pop_entry (set_entry q (q_head q) x) in
  paced_inv q' /\ ready q = entry_at q (q_head q) :: ready q' /\ unfinished q' = unfinished q /\
  q_input_frame_active q' = q_input_frame_active q.
Proof.
  intros Hq Hpos Hx q'. pose proof (ready_length q Hq) as Lr. pose proof (unfinished_length q Hq) as Lu.
  pose proof (count_range q Hq) as Hcr. pose proof Hq as [H1 H2 H3 H4 H5 H6 H7 H8 H9 H10 H11].
  assert (Hset : ring_set (view q)) by (apply inv_ring_set; [done|lia]).
  destruct (ring_set_pop (view q) Hset x ltac:(change (0 < q_count q); lia)) as [Hset' Hl].
  set (e := entry_at q (q_head q)) in *.
  assert (Hat : entry_at (set_entry q (q_head q) x) (q_head q) = x).
  { change (ring_at zero_entry (ring_put (q_entries q) (q_head q) x) (q_head q) = x). destruct Hset as [S1 _ S3 _ _]. cbn in S1, S3. rewrite ring_at_put by (rewrite ?S1; lia). by rewrite Z.eqb_refl. }
  unfold q', pop_entry. change (q_head (set_entry q (q_head q) x)) with (q_head q). rewrite Hat.
  change (pm_frame_end (pe_metadata x)) with (ends_frame x). rewrite Hx.
  change (q_ready_frame_count (set_entry q (q_head q) x)) with (q_ready_frame_count q).
  set (q1 := if ends_frame e && _ then _ else _).
  set (q2 := q1 <| q_head := _ |> <| q_count ::= dec32 |> <| q_ready_count ::= dec32 |>).
  assert (Hv : view q2 = mk_ring_view (ring_put (q_entries q) (q_head q) x) (q_capacity q) (u32 (q_head q + 1) mod q_capacity q)
                 (q_tail q) (dec32 (q_count q))) by (unfold q2, q1; by case_match).
  assert (Hc2 : contents q = e :: contents q2) by (rewrite <- !listed_contents, Hv; exact Hl).
  rewrite paced_parts in Hc2. destruct (ready q) as [|y l1] eqn:Er; [rewrite zlen_nil in Lr; lia|]. injection Hc2 as -> Hc2.
  rewrite frame_ends_cons in H7. pose proof (frame_ends_nonneg l1). pose proof (frame_ends_le l1). rewrite zlen_cons in Lr.
  assert (F : rest q2 = (dec32 (q_ready_count q), q_next_release_us q, q_input_frame_base_next_release_us q,
              q_input_frame_queued_packets q, q_input_frame_active q, q_drop_input_frame q, frame_ends l1)).
  { unfold q2, q1. destruct (ends_frame e) eqn:Ee; cbn [andb].
    - rewrite (proj2 (Z.ltb_lt 0 (q_ready_frame_count q))) by lia. unfold rest. cbn. rewrite H7. unfold dec32.
      rewrite (u32_small (1 + frame_ends l1 - 1)) by lia. do 2 f_equal. lia.
    - unfold rest. cbn. rewrite H7. done. }
  clearbody q2. injection F as R1 R2 R3 R4 R5 R6 R7.
  destruct (paced_inv_intro q2 l1 (unfinished q)) as (Hi & Er' & Eu'); try done.
  - rewrite Hv. by right.
  - rewrite R1. unfold dec32. rewrite u32_small; lia.
  - congruence.
  - intros Hf. rewrite R5 in Hf. destruct (unfinished q); [done|]. rewrite zlen_cons, (H5 Hf) in Lu. pose proof (zlen_nonneg l). lia.
  - intros Hf. rewrite R6 in Hf. destruct (unfinished q); [done|]. rewrite zlen_cons, (H6 Hf) in Lu. pose proof (zlen_nonneg l). lia.
  - by apply whole_frames_tail in H8.
  - rewrite R2. rewrite paced_parts, Er in H10. by apply spaced_tail in H10.
  - intros Hf. rewrite R3. rewrite R5 in Hf. specialize (H11 Hf). by apply spaced_tail in H11.
  - split_and!; try done. by rewrite Er'.
Qed.

Definition wire (e : sfu_paced_send_entry) : datagram := (pe_data e, pe_dst e).
Definition valid_packets (s : send_session) (l : list sfu_paced_send_entry) : list sfu_paced_send_entry :=
  List.filter (fun e => entry_valid e s) l.

(** Why a drain stopped before its limit: nothing ready, the first packet not
    due, or the network did not take it. *)
Definition drain_stopped (s : send_session) (now : Z) (ios : list send_io) (l : list sfu_paced_send_entry) : Prop :=
  match l with
  | [] => True
  | e :: _ => entry_valid e s = true /\ (now < pe_release_at_us e \/ can_send (hd no_io ios) (pe_len e) = false)
  end.

(** What a drain did to the packets [l1] it removed. *)
Record drained (q : sfu_paced_send) (s : send_session) (now : Z) (ios : list send_io) (limit : Z)
    (l1 : list sfu_paced_send_entry) (q' : sfu_paced_send) (s' : send_session) (out : list datagram) : Prop := {
  dn_inv : paced_inv q';
  dn_ready : ready q = l1 ++ ready q';
  dn_unfinished : unfinished q' = unfinished q;
  dn_active : q_input_frame_active q' = q_input_frame_active q;
  dn_limit : zlen l1 <= limit;
  dn_out : out = map wire (valid_packets s l1);
  dn_due : Forall (fun e => entry_valid e s = true -> pe_release_at_us e <= now) l1;
  dn_reserved : reserved_bytes (ss_pacer s') = reserved_bytes (ss_pacer s) - queue_held l1;
  dn_gate : gate s' = gate s;
  dn_cache : cache_ok s';
  dn_stop : zlen l1 < limit -> drain_stopped s now (drop (length out) ios) (ready q')
}.

Lemma drained_nil q s now ios limit :
  paced_inv q -> cache_ok s -> 0 <= limit -> (0 < limit -> drain_stopped s now ios (ready q)) -> drained q s now ios limit [] q s [].
Proof. intros. constructor; try done. cbn. lia. Qed.

Lemma drain_loop_spec n q s now ios processed sent :
  paced_inv q -> Forall entry_bytes (contents q) -> cache_ok s ->
  exists q' s' out l1, drain_loop n q s now ios processed sent = Ok (q', s', out, processed + zlen l1, sent + zlen out) /\
    drained q s now ios (Z.of_nat n) l1 q' s' out.
Proof.
  revert q s ios processed sent. induction n as [|n IH]; intros q s ios processed sent Hq Hb Hc.
  { exists q, s, [], []. rewrite zlen_nil, !Z.add_0_r. split; [done|]. by apply drained_nil. }
  assert (Hstop : drain_stopped s now ios (ready q) ->
    exists q' s' out l1, Ok (q, s, [], processed, sent) = Ok (q', s', out, processed + zlen l1, sent + zlen out) /\
      drained q s now ios (Z.of_nat (S n)) l1 q' s' out).
  { intros Hst. exists q, s, [], []. rewrite !zlen_nil, !Z.add_0_r. split; [done|]. apply drained_nil; [done|done|lia|done]. }
  cbn [drain_loop]. pose proof (ready_length q Hq) as Lr.
  destruct (Z.eqb_spec (q_ready_count q) 0) as [E0|E0].
  { apply Hstop. destruct (ready q); [done|]. rewrite zlen_cons in Lr. pose proof (zlen_nonneg l). lia. }
  assert (Hpos : 0 < q_ready_count q) by (destruct Hq; lia).
  set (e := entry_at q (q_head q)).
  assert (Hcont : Forall (fun x => entry_bytes x) (ready q ++ unfinished q)) by (by rewrite <- paced_parts).
  destruct (entry_valid e s) eqn:Hv; cbn [negb].
  2: { (* a stale packet *)
    unfold cancel_and_pop_entry. fold e.
    pose proof (cancel_reserved (ss_pacer s) (pe_reservation e)) as Hres.
    destruct (sfu_pacer_cancel (ss_pacer s) (pe_reservation e)) as [p r]. cbn [fst] in Hres.
    set (x := e <| pe_reservation := r |>).
    destruct (pop_spec q x Hq Hpos eq_refl) as (Hi1 & Hr1 & Hu1 & Ha1). fold e in Hr1.
    set (q1 := pop_entry _) in *.
    cbv beta iota zeta. set (q2 := q1 <| q_dropped_stale ::= inc64 |>). set (s2 := s <| ss_pacer := p |>).
    destruct (paced_inv_same q1 q2 eq_refl eq_refl Hi1) as (Hi2 & Hr2 & Hu2).
    rewrite Hr1 in Hcont. inversion Hcont as [|? ? He Hrest]; subst.
    destruct (IH q2 s2 ios (processed + 1) sent) as (q' & s' & out & l1 & Hrun & D).
    { done. } { rewrite paced_parts, Hr2, Hu2, Hu1. done. } { done. }
    exists q', s', out, (e :: l1). rewrite Hrun, zlen_cons. split; [by rewrite !Z.add_assoc|].
    destruct D as [D1 D2 D3 D4 D5 D6 D7 D8 D9 D10 D11].
    assert (Hve : forall x, entry_valid x s2 = entry_valid x s) by done.
    constructor; try done.
    - rewrite Hr1. cbn. f_equal. by rewrite <- D2.
    - by rewrite D3, Hu2.
    - by rewrite D4.
    - rewrite zlen_cons. lia.
    - rewrite D6. unfold valid_packets. cbn. by rewrite Hv.
    - constructor; [congruence|done].
    - rewrite D8, queue_held_cons. cbn. lia.
    - rewrite zlen_cons. intros Hlt. apply D11. lia. }
  destruct (Z.ltb_spec now (pe_release_at_us e)) as [Hdue|Hdue].
  { apply Hstop. destruct (head_entry q Hq ltac:(destruct Hq; lia)) as [l Hl].
    rewrite paced_parts in Hl. destruct (ready q) as [|x l1]; [done|]. injection Hl as -> _. split; [done|by left]. }
  destruct (can_send (hd no_io ios) (pe_len e)) eqn:Hio; cbn [negb].
  2: { apply Hstop. destruct (head_entry q Hq ltac:(destruct Hq; lia)) as [l Hl].
    rewrite paced_parts in Hl. destruct (ready q) as [|x l1]; [done|]. injection Hl as -> _. split; [done|by right]. }
  set (acc := accepted_time (hd no_io ios) now).
  assert (Hbe : entry_bytes e).
  { destruct (head_entry q Hq ltac:(destruct Hq; lia)) as [l Hl]. rewrite Hl in Hb. by inversion Hb. }
  destruct (record_sent_spec e s acc Hc Hbe) as (s1 & -> & Hg1 & Hp1 & Hc1). cbn [res_bind].
  set (q0 := record_timing q e acc).
  assert (F0 : view q0 = view q /\ rest q0 = rest q) by (unfold q0, record_timing; repeat case_match; done).
  clearbody q0. destruct F0 as [Fv Fr]. destruct (paced_inv_same q q0 Fv Fr Hq) as (Hi0 & Hr0 & Hu0).
  pose proof (commit_reserved (ss_pacer s1) (pe_reservation e)) as Hres.
  destruct (sfu_pacer_commit (ss_pacer s1) (pe_reservation e)) as [p r]. cbn [fst] in Hres.
  assert (Hhd : entry_at q0 (q_head q0) = e).
  { injection Fv as V1 _ V3 _ _. unfold entry_at. by rewrite V1, V3. }
  pose proof Fr as [= FR1 _ _ _ FA _ _].
  set (x := e <| pe_reservation := r |>).
  assert (Hx : ends_frame x = ends_frame (entry_at q0 (q_head q0))) by (by rewrite Hhd).
  destruct (pop_spec q0 x Hi0 ltac:(lia) Hx) as (Hi1 & Hr1 & Hu1 & Ha1).
  rewrite Hhd, Hr0 in Hr1. rewrite Hu0 in Hu1. rewrite FA in Ha1.
  set (q1 := pop_entry _) in *.
  cbv beta iota zeta. set (q2 := q1 <| q_sent ::= inc64 |>). set (s2 := s1 <| ss_pacer := p |>).
  destruct (paced_inv_same q1 q2 eq_refl eq_refl Hi1) as (Hi2 & Hr2 & Hu2).
  rewrite Hr1 in Hcont. inversion Hcont as [|? ? He Hrest]; subst.
  destruct (IH q2 s2 (tl ios) (processed + 1) (sent + 1)) as (q' & s' & out & l1 & Hrun & D).
  { done. } { rewrite paced_parts, Hr2, Hu2, Hu1. done. } { done. }
  exists q', s', (wire e :: out), (e :: l1). rewrite Hrun, !zlen_cons. cbn [res_bind]. split; [by rewrite !Z.add_assoc|].
  destruct D as [D1 D2 D3 D4 D5 D6 D7 D8 D9 D10 D11].
  assert (Hve : forall x, entry_valid x s2 = entry_valid x s) by (intros; by apply entry_valid_gate).
  constructor; try done.
  - rewrite Hr1. cbn. f_equal. by rewrite <- D2.
  - by rewrite D3, Hu2.
  - by rewrite D4.
  - rewrite zlen_cons. lia.
  - rewrite D6. unfold valid_packets. cbn. rewrite Hv. cbn. do 2 f_equal. apply List.filter_ext. done.
  - constructor; [done|]. eapply Forall_impl; [exact D7|]. cbn. intros y Hy. by rewrite <- Hve.
  - rewrite D8, queue_held_cons. cbn. rewrite <- Hp1. lia.
  - by rewrite D9.
  - rewrite zlen_cons. intros Hlt. specialize (D11 ltac:(lia)). unfold drain_stopped in *.
    destruct (ready q'); [done|]. rewrite Hve in D11. destruct ios; [|done]. cbn in D11 |- *. by destruct (length out).
Qed.

Lemma drain_spec q s now ios remaining :
  paced_inv q -> Forall entry_bytes (contents q) -> cache_ok s -> 0 <= remaining ->
  exists q' s' out l1,
    sfu_paced_send_drain q s now ios remaining = Ok (negb (zlen l1 =? 0), q', s', out, remaining - zlen l1) /\
    drained q s now ios remaining l1 q' s' out.
Proof.
  intros Hq Hb Hc Hrem. unfold sfu_paced_send_drain.
  destruct ((remaining =? 0) || bool_decide (q_entries q = []) || (q_count q =? 0)) eqn:G.
  { exists q, s, [], []. rewrite zlen_nil, Z.sub_0_r. split; [done|]. apply drained_nil; try done. intros Hpos.
    assert (Hr : ready q = []); [|by rewrite Hr].
    apply (empty_parts q Hq). apply orb_true_iff in G as [G|G]; [|lia].
    apply orb_true_iff in G as [G|G]; [lia|]. apply bool_decide_eq_true in G.
    destruct Hq as [[Hun|Hset] _ _ _ _ _ _ _ _ _ _]; [by injection Hun|]. destruct Hset as [S1 _ _ _ _]. cbn in S1. by rewrite G in S1. }
  set (q0 := q <| q_drain_invocations ::= inc64 |>).
  destruct (paced_inv_same q q0 eq_refl eq_refl Hq) as (Hi0 & Hr0 & Hu0).
  destruct (drain_loop_spec (Z.to_nat remaining) q0 s now ios 0 0 Hi0 Hb Hc) as (q1 & s1 & out & l1 & -> & D).
  cbn [res_bind]. rewrite Z2Nat.id in D by done.
  match goal with |- exists q' s' out' l, Ok (_, ?x, _, _, _) = _ /\ _ => set (q4 := x) end.
  exists q4, s1, out, l1. split; [done|].
  destruct D as [D1 D2 D3 D4 D5 D6 D7 D8 D9 D10 D11].
  assert (H4 : paced_inv q4 /\ ready q4 = ready q1 /\ unfinished q4 = unfinished q1 /\ q_input_frame_active q4 = q_input_frame_active q1).
  { unfold q4. clear q4. set (q2 := if q_max_drain_packets q1 <? _ then _ else q1).
    assert (F2 : view q2 = view q1 /\ rest q2 = rest q1) by (unfold q2; by case_match). clearbody q2.
    set (q3 := if (_ =? remaining) && _ && _ then _ else q2).
    assert (F3 : view q3 = view q2 /\ rest q3 = rest q2) by (unfold q3; by case_match). clearbody q3.
    destruct F2 as [F2 F2'], F3 as [F3 F3']. rewrite F2 in F3. rewrite F2' in F3'.
    destruct (paced_inv_same q1 q3 F3 F3' D1) as (Hi3 & Hr3 & Hu3).
    destruct (Z.eqb_spec (q_count q3) 0) as [E0|E0].
    - destruct (reset_empty q3 0 Hi3 E0) as (Hi4 & Hr4 & Hu4). destruct (empty_parts q3 Hi3 E0) as [Hr3' Hu3'].
      split_and!; [done|congruence|congruence|]. injection F3' as _ _ _ _ FA _ _. exact FA.
    - split_and!; try done. by injection F3' as _ _ _ _ FA _ _. }
  destruct H4 as (Hi4 & Hr4 & Hu4 & Ha4).
  constructor; rewrite ?Hr4, ?Hu4, ?Ha4; try done.
Qed.

(** ** Destroy *)

Lemma destroy_loop_spec n q index p :
  ring_set (view q) -> 0 <= index < SFU_PACED_SEND_CAPACITY -> Z.of_nat n <= SFU_PACED_SEND_CAPACITY ->
  reserved_bytes (destroy_loop n q index p) = reserved_bytes p - queue_held (ring zero_entry (q_entries q) index n).
Proof.
  revert q index p. induction n as [|n IH]; intros q index p Hs Hi Hn; [cbn; lia|].
  cbn [destroy_loop]. set (e := entry_at q index).
  pose proof (cancel_reserved p (pe_reservation e)) as Hres.
  destruct (sfu_pacer_cancel p (pe_reservation e)) as [p1 r]. cbn [fst] in Hres.
  set (x := e <| pe_reservation := r |>).
  pose proof Hs as [S1 S2 S3 S4 S5]. cbn in S1, S2, S3, S4, S5. unfold SFU_PACED_SEND_CAPACITY in *.
  assert (Hs' : ring_set (view (set_entry q index x))).
  { constructor; cbn; unfold SFU_PACED_SEND_CAPACITY; rewrite ?zlen_ring_put; done. }
  assert (Hni : next_index q index = (index + 1) mod 512).
  { unfold next_index. rewrite S2, u32_small by lia. done. }
  assert (Hb : 0 <= (index + 1) mod 512 < 512) by (apply Z.mod_pos_bound; lia).
  rewrite IH by (try done; rewrite ?Hni; try done; lia).
  change (ring zero_entry (q_entries q) index (S n)) with
    (e :: ring zero_entry (q_entries q) ((index + 1) mod zlen (q_entries q)) n).
  rewrite Hni, S1, queue_held_cons.
  change (q_entries (set_entry q index x)) with (ring_put (q_entries q) index x).
  assert (Hin : index = ((index + 1) mod 512 + 511) mod zlen (q_entries q)).
  { rewrite S1, Zplus_mod_idemp_l. replace (index + 1 + 511) with (index + 1 * 512) by lia. by rewrite Z_mod_plus_full, Z.mod_small. }
  rewrite Hin at 1. rewrite ring_put_out by (rewrite S1; lia). lia.
Qed.
Lemma destroy_spec q p :
  paced_inv q -> let (q', p') := sfu_paced_send_destroy q p in
  q' = sfu_paced_send_init /\ reserved_bytes p' = reserved_bytes p - queue_held (contents q).
Proof.
  intros Hq. unfold sfu_paced_send_destroy. split; [done|]. destruct Hq as [[Hun|Hset] _ _ _ _ _ _ _ _ _ _].
  - injection Hun as U1 U2 U3 U4 U5. unfold contents. rewrite U1, U5. change (queue_held _) with 0. lia.
  - pose proof Hset as [S1 S2 S3 S4 S5]. cbn in S1, S3, S4. destruct (q_entries q) eqn:Ee; [done|]. rewrite <- Ee in *.
    apply destroy_loop_spec; [done|done|lia].
Qed.

(** * The protocol of the queue *)

Lemma reserve_reserved p cls bytes allow now r ok p' r' :
  sfu_pacer_reserve p cls bytes allow now r = (ok, p', r') -> reserved_bytes p' + held r = reserved_bytes p + held r'.
Proof.
  unfold sfu_pacer_reserve. destruct (r_active r) eqn:Ha; [by intros [= <- <- <-]|].
  assert (H0 : held r = 0) by (unfold held; by rewrite Ha). rewrite H0.
  destruct (_ && active p) eqn:Hc.
  - destruct (refill_spec p now) as (b & t & -> & _). cbn. case_match; intros [= <- <- <-]; unfold held; cbn; rewrite ?Ha; cbn; lia.
  - intros [= <- <- <-]. unfold held. cbn. lia.
Qed.

(** The egress of one remote slot and the worker: a reservation taken for the
    packet at hand ([ps_res]), the queue, the session it sends for, and the
    bytes other queues of the session hold ([ps_others]). *)
Record paced_state := mk_paced_state { ps_queue : sfu_paced_send; ps_session : send_session; ps_res : sfu_pacer_reservation; ps_others : Z }.
Definition ps_pacer (s : paced_state) : sfu_pacer := ss_pacer (ps_session s).
Definition with_pacer (s : paced_state) (q : sfu_paced_send) (p : sfu_pacer) (r : sfu_pacer_reservation) : paced_state :=
  mk_paced_state q ((ps_session s) <| ss_pacer := p |>) r (ps_others s).

Inductive paced_op :=
  | OpReserve (cls : sfu_pacer_class) (bytes : Z) (allow_drop : bool) (now : Z)
  | OpCancel
  | OpAdmit (ts : Z) (marker keyframe drop_on_delay : bool) (max_delay now : Z)
  | OpEnqueue (data : list Z) (len : Z) (rtx : list Z) (rtx_len : Z) (dst : list Z) (dst_len cls bps : Z)
      (m : sfu_paced_send_metadata) (now : Z) (alloc : bool)
  | OpFinish
  | OpAbandon
  | OpBound (max_delay now : Z) (report : sfu_paced_send_drop_report)
  | OpDrain (now : Z) (ios : list send_io) (remaining : Z)
  | OpDestroy
  | OpSession (g : send_session)
  | OpOthers (d : Z).

(** [None] where the program does not make the call. *)
Definition paced_exec (s : paced_state) (op : paced_op) : option paced_state :=
  let q := ps_queue s in let p := ps_pacer s in let r := ps_res s in
  match op with
  | OpReserve cls bytes allow now =>
      if r_active r then None else let '(_, p, r) := sfu_pacer_reserve p cls bytes allow now r in Some (with_pacer s q p r)
  | OpCancel => let '(p, r) := sfu_pacer_cancel p r in Some (with_pacer s q p r)
  | OpAdmit ts marker kf dod maxd now =>
      let '(_, q, p) := sfu_paced_send_admit_frame_packet q p ts marker kf dod maxd now in Some (with_pacer s q p r)
  | OpEnqueue data len rtx rtx_len dst dst_len cls bps m now alloc =>
      if q_input_frame_active q && negb (q_drop_input_frame q) && negb (pm_frame_end m) &&
         (0 <=? rtx_len) && (rtx_len <=? zlen rtx) then
        let '(_, q, r) := sfu_paced_send_enqueue q data len rtx rtx_len dst dst_len cls bps r m now alloc in Some (with_pacer s q p r)
      else None
  | OpFinish => Some (with_pacer s (sfu_paced_send_finish_input_frame q) p r)
  | OpAbandon =>
      let '(q, p) := sfu_paced_send_rollback_input_frame q p in Some (with_pacer s (sfu_paced_send_reject_input_frame q) p r)
  | OpBound maxd now rep => let '(_, q, p, _) := sfu_paced_send_bound_backlog q p maxd now rep in Some (with_pacer s q p r)
  | OpDrain now ios remaining =>
      if 0 <=? remaining then
        match sfu_paced_send_drain q (ps_session s) now ios remaining with
        | Ok (_, q, sess, _, _) => Some (mk_paced_state q sess r (ps_others s))
        | _ => None
        end
      else None
  | OpDestroy => let '(q, p) := sfu_paced_send_destroy q p in Some (with_pacer s q p r)
  | OpSession g =>
      let ss := ps_session s in
      Some (mk_paced_state q (g <| ss_twcc_history := ss_twcc_history ss |> <| ss_rtx_cache := ss_rtx_cache ss |> <| ss_pacer := p |>)
              r (ps_others s))
  | OpOthers d =>
      Some (mk_paced_state q ((ps_session s) <| ss_pacer := p <| reserved_bytes ::= Z.add d |> |>) r (ps_others s + d))
  end.
Fixpoint paced_run (ops : list paced_op) (s : paced_state) : option paced_state :=
  match ops with
  | [] => Some s
  | op :: ops => match paced_exec s op with Some s => paced_run ops s | None => None end
  end.

Record paced_state_ok (s : paced_state) : Prop := {
  po_inv : paced_inv (ps_queue s);
  po_bytes : Forall entry_bytes (contents (ps_queue s));
  po_cache : cache_ok (ps_session s);
  po_held : reserved_bytes (ps_pacer s) = ps_others s + held (ps_res s) + queue_held (contents (ps_queue s))
}.

Lemma entry_bytes_untimed l l' : map untimed l = map untimed l' -> Forall entry_bytes l -> Forall entry_bytes l'.
Proof.
  assert (He : forall e, entry_bytes (untimed e) <-> entry_bytes e) by done.
  intros E H. assert (H' : Forall entry_bytes (map untimed l')).
  { rewrite <- E. apply List.Forall_map. eapply Forall_impl; [exact H|]. done. }
  apply (proj1 (List.Forall_map untimed entry_bytes l')) in H'. eapply Forall_impl; [exact H'|]. done.
Qed.
Lemma queue_held_untimed l l' : map untimed l = map untimed l' -> queue_held l = queue_held l'.
Proof.
  intros E. assert (H : forall l, queue_held (map untimed l) = queue_held l).
  { clear. induction l as [|e l IH]; [done|]. cbn [map]. rewrite !queue_held_cons, IH. done. }
  by rewrite <- (H l), E, H.
Qed.
Lemma queued_bytes q data len rtx rtx_len dst dst_len cls bps r m now alloc q' r' :
  sfu_paced_send_enqueue q data len rtx rtx_len dst dst_len cls bps r m now alloc = (true, q', r') ->
  0 <= rtx_len <= zlen rtx -> entry_bytes (queued_entry q data len rtx rtx_len dst dst_len cls bps r m now).
Proof.
  unfold sfu_paced_send_enqueue. destruct (negb (r_active r) || _ || _ || _) eqn:G; [done|]. intros _ Hr. bool_hyps.
  split; cbn; [apply zlen_slice|]; lia.
Qed.

Lemma held_taken r : held (r <| r_active := false |>) = 0.
Proof. done. Qed.

Lemma paced_exec_ok s op s' : paced_state_ok s -> paced_exec s op = Some s' -> paced_state_ok s'.
Proof.
  intros [Hi Hb Hc Hh] E. destruct s as [q ss r o]. unfold ps_pacer in Hh. cbn in Hi, Hb, Hc, Hh.
  rewrite paced_parts in Hb. apply Forall_app in Hb as [Hb1 Hb2]. rewrite paced_parts, queue_held_app in Hh.
  assert (Hmk : forall q' p' r', paced_inv q' -> Forall entry_bytes (ready q') -> Forall entry_bytes (unfinished q') ->
     reserved_bytes p' = o + held r' + (queue_held (ready q') + queue_held (unfinished q')) ->
     paced_state_ok (with_pacer (mk_paced_state q ss r o) q' p' r')).
  { intros q' p' r' H1 H2 H3 H4. constructor; [exact H1|..].
    - cbn. rewrite paced_parts. by apply Forall_app.
    - exact Hc.
    - unfold ps_pacer, with_pacer. cbn. rewrite paced_parts, queue_held_app. exact H4. }
  destruct op; cbn [paced_exec] in E; unfold ps_pacer in E; cbn [ps_queue ps_session ps_res ps_others] in E.
  - destruct (r_active r); [done|]. destruct (sfu_pacer_reserve _ _ _ _ _ _) as [[ok p'] r'] eqn:Er.
    apply reserve_reserved in Er. injection E as <-. apply Hmk; try done. lia.
  - pose proof (cancel_reserved (ss_pacer ss) r) as Hr. unfold sfu_pacer_cancel in *.
    destruct (negb (r_active r)) eqn:Ha.
    + injection E as <-. apply Hmk; try done.
    + injection E as <-. apply Hmk; try done. cbn [fst] in Hr. rewrite held_taken. lia.
  - destruct (sfu_paced_send_admit_frame_packet _ _ _ _ _ _ _ _) as [[ok q'] p'] eqn:Ea. injection E as <-.
    apply admit_spec in Ea as (Hi' & Hr' & Hp & Hl & _); [|done]. apply Hmk; rewrite ?Hr'; try done; [|lia].
    by destruct Hl as [->| ->].
  - destruct (_ && _ && _ && _ && _) eqn:G; [|done]. bool_hyps.
    destruct (sfu_paced_send_enqueue _ _ _ _ _ _ _ _ _ _ _ _ _) as [[ok q'] r'] eqn:Ee. injection E as <-.
    pose proof Ee as Ee'. apply enqueue_spec in Ee as (Hi' & Ha' & Hd' & Hr' & Hbase & Hok); try done.
    destruct ok.
    + destruct Hok as (Hu & Hra & ->). apply Hmk; rewrite ?Hr', ?Hu; try done.
      * apply Forall_app. split; [done|]. constructor; [|done]. eapply queued_bytes; [exact Ee'|lia].
      * rewrite queue_held_app, queue_held_cons, held_taken. change (queue_held []) with 0. cbn [queued_entry pe_reservation]. lia.
    + destruct Hok as [Hu ->]. apply Hmk; rewrite ?Hr', ?Hu; done.
  - injection E as <-. destruct (q_input_frame_active q) eqn:Ha.
    + destruct (finish_spec q Hi Ha) as (Hi' & Hu & _ & [[Hu0 Hr]|(l & e & Hu0 & Hr)]); apply Hmk; rewrite ?Hr, ?Hu; try done.
      * by rewrite Hu0 in Hh.
      * rewrite Hu0 in Hb2. apply Forall_app in Hb2 as [Hb2 Hb3]. apply Forall_app. split; [done|].
        apply Forall_app. split; [done|]. inversion Hb3; subst. by constructor.
      * rewrite Hh, Hu0, !queue_held_app, !queue_held_cons. cbn. lia.
    + unfold sfu_paced_send_finish_input_frame. rewrite Ha. by apply Hmk.
  - destruct (sfu_paced_send_rollback_input_frame _ _) as [q1 p1] eqn:Er. injection E as <-.
    apply rollback_spec in Er as (Hi' & Hr & Hu & _ & _ & _ & _ & Hp); [|done].
    destruct (reject_spec q1 Hi' Hu) as (Hi2 & Hr2 & Hu2). apply Hmk; rewrite ?Hr2, ?Hu2, ?Hr; try done. cbn. lia.
  - destruct (sfu_paced_send_bound_backlog _ _ _ _ _) as [[[ok q'] p'] rep'] eqn:Eb. injection E as <-.
    apply bound_backlog_spec in Eb; [|done]. destruct (_ || _) eqn:G.
    + destruct Eb as (_ & -> & -> & _). by apply Hmk.
    + destruct Eb as (Hi' & Ha' & _ & _ & fs & Hm & _ & Hp & _).
      apply orb_false_iff in G as [_ Ha]. destruct (inactive_contents q Hi Ha) as (Hu0 & Hc0 & _).
      destruct (inactive_contents q' Hi' Ha') as (Hu1 & Hc1 & _).
      pose proof (queue_held_untimed _ _ Hm) as Hq. rewrite queue_held_app, Hc0, Hc1 in Hq. rewrite Hu0 in Hh.
      apply Hmk; rewrite ?Hu1; try done.
      * rewrite Hc0, Hc1 in Hm. apply entry_bytes_untimed in Hm; [|done]. by apply Forall_app in Hm as [_ ?].
      * lia.
  - destruct (0 <=? _) eqn:G; [|done]. destruct (drain_spec q ss now ios remaining Hi) as (q' & s1 & out & l1 & Hrun & D).
    { rewrite paced_parts. by apply Forall_app. } { done. } { lia. }
    rewrite Hrun in E. injection E as <-. destruct D as [D1 D2 D3 D4 D5 D6 D7 D8 D9 D10 D11].
    rewrite D2 in Hb1. apply Forall_app in Hb1 as [_ Hb1]. rewrite D2, queue_held_app in Hh.
    constructor; unfold ps_pacer; cbn; try done.
    + rewrite paced_parts, D3. by apply Forall_app.
    + rewrite paced_parts, D3, queue_held_app, D8. lia.
  - pose proof (destroy_spec q (ss_pacer ss) Hi) as Hd. destruct (sfu_paced_send_destroy _ _) as [q' p'].
    destruct Hd as [-> Hd]. injection E as <-. apply Hmk; try done; [apply init_paced_inv|].
    rewrite Hd, paced_parts, queue_held_app. change (ready sfu_paced_send_init) with (@nil sfu_paced_send_entry).
    change (unfinished sfu_paced_send_init) with (@nil sfu_paced_send_entry). change (queue_held []) with 0. lia.
  - injection E as <-. constructor; unfold ps_pacer; cbn; try done; rewrite ?paced_parts, ?queue_held_app; [by apply Forall_app|done].
  - injection E as <-. constructor; unfold ps_pacer; cbn; try done; rewrite ?paced_parts, ?queue_held_app; [by apply Forall_app|lia].
Qed.

(** The first packet of a frame: the frame starts where the queue ends. *)
Lemma admit_first q p ts marker kf dod maxd now q' p' :
  paced_inv q -> q_input_frame_active q = false ->
  sfu_paced_send_admit_frame_packet q p ts marker kf dod maxd now = (true, q', p') ->
  unfinished q' = [] /\ q_input_frame_base_next_release_us q' = q_next_release_us q /\ q_next_release_us q' = q_next_release_us q /\
  reserved_bytes p' = reserved_bytes p.
Proof.
  intros Hq Ha E. unfold sfu_paced_send_admit_frame_packet in E. rewrite Ha in E. cbn [negb orb] in E.
  destruct (inactive_contents q Hq Ha) as (Hu0 & _ & _).
  destruct (begin_frame _ _ _ _ _ _ _) as [q1 p1] eqn:E1.
  apply begin_frame_spec in E1 as (Hi & Hr & Hu & Ha1 & Hb & Hn & Hp); [|done|by left].
  set (q2 := if kf then _ else _) in E.
  assert (F2 : view q2 = view q1 /\ rest q2 = rest q1) by (unfold q2; by destruct kf).
  clearbody q2. destruct F2 as [Fv Fr]. destruct (paced_inv_same q1 q2 Fv Fr Hi) as (Hi2 & Hr2 & Hu2).
  injection Fr as _ F2 F3 _ _ _ _. destruct (q_drop_input_frame q2); cbn [negb] in E; [by injection E|].
  rewrite andb_false_r in E. injection E as <- <-. rewrite Hu0 in Hp. change (queue_held []) with 0 in Hp.
  split_and!; [congruence|rewrite F3, Hb; auto|rewrite F2; auto|lia].
Qed.

(** Attempts to queue the packets of the frame, each with its reservation. *)
Record attempt := mk_attempt {
  at_data : list Z; at_len : Z; at_rtx : list Z; at_rtx_len : Z; at_dst : list Z; at_dst_len : Z; at_cls : Z; at_bps : Z;
  at_reservation : sfu_pacer_reservation; at_metadata : sfu_paced_send_metadata; at_now : Z; at_alloc : bool
}.
Definition try_enqueue (q : sfu_paced_send) (a : attempt) : bool * sfu_paced_send * sfu_pacer_reservation :=
  sfu_paced_send_enqueue q (at_data a) (at_len a) (at_rtx a) (at_rtx_len a) (at_dst a) (at_dst_len a) (at_cls a) (at_bps a)
    (at_reservation a) (at_metadata a) (at_now a) (at_alloc a).
(** The queue after the attempts, and the bytes it took over. *)
Fixpoint try_all (q : sfu_paced_send) (l : list attempt) : sfu_paced_send * Z :=
  match l with
  | [] => (q, 0)
  | a :: l =>
      let '(ok, q, _) := try_enqueue q a in
      let '(q, n) := try_all q l in (q, (if ok then held (at_reservation a) else 0) + n)
  end.

Lemma try_all_spec l q q' n :
  paced_inv q -> q_input_frame_active q = true -> q_drop_input_frame q = false ->
  Forall (fun a => pm_frame_end (at_metadata a) = false) l -> try_all q l = (q', n) ->
  paced_inv q' /\ q_input_frame_active q' = true /\ ready q' = ready q /\
  q_input_frame_base_next_release_us q' = q_input_frame_base_next_release_us q /\
  (exists added, unfinished q' = unfinished q ++ added /\ queue_held added = n) /\
  (unfinished q' = [] -> q_next_release_us q' = q_next_release_us q).
Proof.
  revert q n. induction l as [|a l IH]; intros q n Hq Ha Hd Hl E; cbn [try_all] in E.
  { injection E as <- <-. split_and!; try done. exists []. by rewrite app_nil_r. }
  inversion Hl as [|? ? Hm Hl']; subst. destruct (try_enqueue q a) as [[ok q1] r1] eqn:E1. unfold try_enqueue in E1.
  destruct (try_all q1 l) as [q2 n2] eqn:E2. injection E as <- <-. pose proof E1 as E1'.
  apply enqueue_spec in E1 as (Hi & Ha1 & Hd1 & Hr1 & Hb1 & Hok); try done.
  apply IH in E2 as (Hi2 & Ha2 & Hr2 & Hb2 & (added & Hu2 & Hh2) & Hn2); try done.
  split_and!; try done; try congruence.
  - rewrite Hu2. destruct ok; destruct Hok as [-> _]; [|by exists added].
    eexists. rewrite <- app_assoc. split; [done|]. rewrite queue_held_app, queue_held_cons. change (queue_held []) with 0.
    cbn [queued_entry pe_reservation]. lia.
  - intros Hu. rewrite (Hn2 Hu). rewrite Hu2 in Hu. apply app_eq_nil in Hu as [Hu1 _].
    destruct ok; destruct Hok as [Hub _]; [by rewrite Hub in Hu1; destruct (unfinished q)|].
    unfold sfu_paced_send_enqueue in E1'. repeat case_match; try discriminate; by injection E1' as <- <-.
Qed.

Lemma paced_run_ok ops s s' : paced_state_ok s -> paced_run ops s = Some s' -> paced_state_ok s'.
Proof.
  revert s. induction ops as [|op ops IH]; intros s Hs E; cbn [paced_run] in E; [by injection E as <-|].
  destruct (paced_exec s op) as [s1|] eqn:E1; [|done]. apply (IH s1); [|done]. by eapply paced_exec_ok.
Qed.
Definition paced_start (ss : send_session) : paced_state :=
  mk_paced_state sfu_paced_send_init ss no_reservation (reserved_bytes (ss_pacer ss)).
Lemma paced_start_ok ss : cache_ok ss -> paced_state_ok (paced_start ss).
Proof.
  intros Hc. constructor; [apply init_paced_inv|by constructor|exact Hc|].
  change (reserved_bytes (ss_pacer ss) = reserved_bytes (ss_pacer ss) + 0 + 0). lia.
Qed.

(** ** An example: two queued frames *)

Definition ex_metadata : sfu_paced_send_metadata := mk_metadata 7 1 1 1 0 42 5 9 1000 1001 1 97 false false false false.
Definition ex_session : send_session :=
  mk_send_session true 1 [7] 1 1 [10; 0; 0; 1] 4 true None None (sfu_pacer_set_rate sfu_pacer_init 1000000 100).
Definition ex_packet (now : Z) : paced_op :=
  OpEnqueue [1; 2; 3] 3 [1; 2; 3] 3 [10; 0; 0; 1] 4 2 1000000 ex_metadata now true.
Definition ex_frame (ts now : Z) : list paced_op :=
  [OpReserve CLASS_VIDEO_BASE 3 false now; OpAdmit ts false false false 100000 now; ex_packet now;
   OpReserve CLASS_VIDEO_BASE 3 false now; OpAdmit ts true false false 100000 now; ex_packet now; OpFinish].
Definition ex_ops : list paced_op := ex_frame 9000 100 ++ ex_frame 12000 200.
Definition ex_queued : paced_state :=
  match paced_run ex_ops (paced_start ex_session) with Some s => s | None => paced_start ex_session end.
Lemma ex_run : paced_run ex_ops (paced_start ex_session) = Some ex_queued.
Proof. vm_compute. reflexivity. Qed.
Lemma ex_queued_ok : paced_state_ok ex_queued.
Proof. exact (paced_run_ok _ _ _ (paced_start_ok ex_session I) ex_run). Qed.

(** * Properties *)

(** C30: Whatever egress and worker do in the order the program allows
    (reserve, admit, enqueue, finish or abandon a frame, trim, drain,
    destroy, with the session and the other queues of the pacer changing in
    between), the queue stays a ring of at most 512 packets made of whole
    ready frames and one open frame, packets leave each other their span of
    time, and the bytes reserved from the pacer are exactly those of the other
    queues, of the packet at hand and of the queued packets: none is lost or
    given back twice. *)
Theorem paced_reachable_inv ss ops s :
  cache_ok ss -> paced_run ops (paced_start ss) = Some s -> paced_state_ok s.
Proof. intros Hc. apply paced_run_ok. by apply paced_start_ok. Qed.

Lemma paced_reachable_inv_witness : q_count (ps_queue ex_queued) = 4 /\ paced_state_ok ex_queued.
Proof.
  split; [vm_compute; reflexivity|].
  exact (paced_reachable_inv ex_session ex_ops ex_queued I ex_run).
Defined.

(** C31: A drain of a reachable queue always completes. It removes a prefix of
    the ready packets, sends exactly those whose session, slot, transport and
    address are still current, in order and none before its release time,
    gives back exactly their reservations, leaves the open frame alone, and
    stops before its limit only when nothing is ready, the first packet is
    not due yet, or the network did not take it. *)
Theorem drain_sends_due_prefix s now ios remaining :
  paced_state_ok s -> 0 <= remaining ->
  exists q' s' out l1,
    sfu_paced_send_drain (ps_queue s) (ps_session s) now ios remaining =
      Ok (negb (zlen l1 =? 0), q', s', out, remaining - zlen l1) /\
    drained (ps_queue s) (ps_session s) now ios remaining l1 q' s' out.
Proof. intros [Hi Hb Hc _] Hr. by apply drain_spec. Qed.

Lemma drain_sends_due_prefix_witness :
  exists q' s' out l1,
    sfu_paced_send_drain (ps_queue ex_queued) (ps_session ex_queued) 115 [mk_send_io (Some 2048) true 0; mk_send_io (Some 2048) true 0] 4 =
      Ok (negb (zlen l1 =? 0), q', s', out, 4 - zlen l1) /\
    drained (ps_queue ex_queued) (ps_session ex_queued) 115 [mk_send_io (Some 2048) true 0; mk_send_io (Some 2048) true 0] 4 l1 q' s' out.
Proof. refine (drain_sends_due_prefix ex_queued 115 _ 4 ex_queued_ok _). lia. Defined.

(** Trimming a queue between frames always completes: it drops whole
    frames from the front, none that starts a keyframe, until the
    projected delay is below the bound, nothing is left, or a keyframe is in
    front; it names every publisher it dropped from (or says the report is
    full), gives back exactly the dropped packets' reservations, and answers
    whether the delay is below the bound. *)
Theorem backlog_trimmed q p max_delay now rep :
  paced_inv q -> 0 < max_delay -> q_input_frame_active q = false ->
  match sfu_paced_send_bound_backlog q p max_delay now rep with
  | (ok, q', p', rep') =>
      trimmed q' max_delay now /\ ok = (sfu_paced_send_projected_delay_us q' now <? max_delay) /\
      exists fs, map untimed (contents q) = map untimed (concat fs ++ contents q') /\ Forall droppable_frame fs /\
        reserved_bytes p' = reserved_bytes p - queue_held (concat fs) /\
        Forall (fun f => reported rep' (publisher_of f 0)) fs
  end.
Proof.
  intros Hq Hm Ha. destruct (sfu_paced_send_bound_backlog q p max_delay now rep) as [[[ok q'] p'] rep'] eqn:E.
  apply bound_backlog_spec in E; [|done]. rewrite (proj2 (Z.leb_gt _ _) Hm), Ha in E.
  destruct E as (_ & _ & Ht & Hok & fs & H1 & H2 & H3 & _ & H5). split_and!; try done. by exists fs.
Qed.

Lemma backlog_trimmed_witness :
  trimmed (sfu_paced_send_bound_backlog (ps_queue ex_queued) (ps_pacer ex_queued) 1 300 sfu_paced_send_drop_report_init).1.1.2 1 300.
Proof.
  pose proof (backlog_trimmed (ps_queue ex_queued) (ps_pacer ex_queued) 1 300 sfu_paced_send_drop_report_init
                (po_inv _ ex_queued_ok) eq_refl eq_refl) as H.
  destruct (sfu_paced_send_bound_backlog _ _ _ _ _) as [[[ok q'] p'] rep']. exact (proj1 H).
Defined.

(** C32: A frame that fails part way leaves no trace: once its first packet
    was admitted, whatever packets were queued or refused, rolling the frame
    back restores the ready packets and the release time of the next packet,
    and gives back exactly the reservations the queue took over. *)
Theorem failed_frame_leaves_no_trace q p ts marker kf dod maxd now q1 p1 packets q2 taken q3 p3 :
  paced_inv q -> q_input_frame_active q = false ->
  sfu_paced_send_admit_frame_packet q p ts marker kf dod maxd now = (true, q1, p1) ->
  Forall (fun a => pm_frame_end (at_metadata a) = false) packets -> try_all q1 packets = (q2, taken) ->
  sfu_paced_send_rollback_input_frame q2 p1 = (q3, p3) ->
  contents q3 = contents q /\ reserved_bytes p3 = reserved_bytes p - taken /\
  (contents q <> [] -> q_next_release_us q3 = q_next_release_us q).
Proof.
  intros Hq Ha E1 Hm E2 E3. destruct (inactive_contents q Hq Ha) as (_ & Hc & _).
  destruct (admit_first _ _ _ _ _ _ _ _ _ _ Hq Ha E1) as (Hu1 & Hb1 & Hn1 & Hp1).
  apply admit_spec in E1 as (Hi1 & Hr1 & _ & _ & Hok); [|done]. destruct (Hok eq_refl) as [Ha1 Hd1].
  apply try_all_spec in E2 as (Hi2 & Ha2 & Hr2 & Hb2 & (added & Hu2 & Hh2) & Hn2); try done.
  pose proof E3 as E3'. apply rollback_spec in E3 as (Hi3 & Hr3 & Hu3 & _ & _ & Hn3 & _ & Hp3); [|done].
  rewrite Hu1 in Hu2. cbn in Hu2.
  assert (Hc3 : contents q3 = contents q) by (rewrite paced_parts, Hu3, app_nil_r; congruence).
  split_and!; [done|rewrite Hp3, Hu2; lia|].
  intros Hne. destruct (unfinished q2) as [|e l] eqn:Hu.
  - unfold sfu_paced_send_rollback_input_frame in E3'. pose proof (unfinished_length q2 Hi2) as Lu.
    rewrite Hu, zlen_nil in Lu. rewrite <- Lu in E3'. cbn [Z.eqb orb] in E3'. rewrite orb_true_r in E3'. injection E3' as <- <-.
    rewrite Hn2; congruence.
  - rewrite Hn3 by done. pose proof (contents_length q3 Hi3) as L3. rewrite Hc3 in L3.
    destruct (Z.eqb_spec (q_count q3) 0) as [E0|_]; [|congruence].
    destruct (contents q) as [|x lx]; [done|]. rewrite zlen_cons in L3. pose proof (zlen_nonneg lx). lia.
Qed.

Definition ex_admitted : bool * sfu_paced_send * sfu_pacer :=
  sfu_paced_send_admit_frame_packet (ps_queue ex_queued) (ps_pacer ex_queued) 15000 false false false 100000 300.
Definition ex_attempts : list attempt :=
  [mk_attempt [1; 2; 3] 3 [] 0 [10; 0; 0; 1] 4 2 1000000 (mk_reservation 3 CLASS_VIDEO_BASE true true) ex_metadata 300 true;
   mk_attempt [] 0 [] 0 [10; 0; 0; 1] 4 2 1000000 (mk_reservation 5 CLASS_VIDEO_BASE true true) ex_metadata 300 true].
Definition ex_rolled : sfu_paced_send * sfu_pacer :=
  sfu_paced_send_rollback_input_frame (try_all ex_admitted.1.2 ex_attempts).1 ex_admitted.2.
Lemma failed_frame_leaves_no_trace_witness :
  contents ex_rolled.1 = contents (ps_queue ex_queued) /\ reserved_bytes ex_rolled.2 = reserved_bytes (ps_pacer ex_queued) - 3.
Proof.
  pose proof (failed_frame_leaves_no_trace (ps_queue ex_queued) (ps_pacer ex_queued) 15000 false false false 100000 300
    ex_admitted.1.2 ex_admitted.2 ex_attempts (try_all ex_admitted.1.2 ex_attempts).1 3 ex_rolled.1 ex_rolled.2
    (po_inv _ ex_queued_ok)) as H.
  destruct H as (H1 & H2 & _).
  - vm_compute. reflexivity.
  - vm_compute. reflexivity.
  - by repeat constructor.
  - vm_compute. reflexivity.
  - unfold ex_rolled. by destruct (sfu_paced_send_rollback_input_frame _ _).
  - exact (conj H1 H2).
Defined.
