(* ===== verification/PriorityQueue.v ===== *)
(** The priority queues of [src/pipeline/paced_send.c]: one ring for
    retransmissions and one for probes, with a byte budget and a bound on the
    time a packet may wait; the worker drains them before the media. *)

From S2P Require Import Prelude Pacer TwccHistory Ring PacedSend.
Local Open Scope Z_scope.

Definition SFU_PACED_PRIORITY_QUEUE_CAPACITY : Z := 128.
Definition SFU_PACED_RTX_MAX_RESIDENCE_US : Z := 200000.
Definition SFU_PACED_PROBE_MAX_RESIDENCE_US : Z := 50000.
Definition SFU_PACED_RTX_MAX_BYTES : Z := 128 * 1500.
Definition SFU_PACED_PROBE_MAX_BYTES : Z := 64 * 1500.

Record sfu_paced_priority_entry := mk_prio_entry {
  xe_data : list Z;
  xe_len : Z;
  xe_dst : list Z;
  xe_dst_len : Z;
  xe_enqueued_at_us : Z;
  xe_owner_value : Z;
  xe_transport_generation : Z;
  xe_address_generation : Z;
  xe_twcc_seq : Z;
  xe_twcc_written : bool;
  xe_pacer_charged_bytes : Z;
  xe_is_probe : bool;
  xe_probe_cluster_id : Z
}.
Definition zero_prio_entry : sfu_paced_priority_entry := mk_prio_entry [] 0 [] 0 0 0 0 0 0 false 0 false 0.

Record sfu_paced_priority_queue := mk_prio_queue {
  pq_entries : list sfu_paced_priority_entry;
  pq_capacity : Z;
  pq_head : Z;
  pq_tail : Z;
  pq_count : Z;
  pq_byte_count : Z;
  pq_max_bytes : Z;
  pq_max_residence_us : Z;
  pq_is_probe_queue : bool;
  pq_enqueued : Z;
  pq_sent : Z;
  pq_dropped_full : Z;
  pq_dropped_expired : Z;
  pq_dropped_stale : Z;
  pq_bytes_sent : Z
}.
#[export] Instance eta_prio_queue : Eta sfu_paced_priority_queue := fun q =>
  mk_prio_queue (pq_entries q) (pq_capacity q) (pq_head q) (pq_tail q) (pq_count q) (pq_byte_count q) (pq_max_bytes q)
    (pq_max_residence_us q) (pq_is_probe_queue q) (pq_enqueued q) (pq_sent q) (pq_dropped_full q) (pq_dropped_expired q)
    (pq_dropped_stale q) (pq_bytes_sent q).
Definition zero_prio_queue : sfu_paced_priority_queue := mk_prio_queue [] 0 0 0 0 0 0 0 false 0 0 0 0 0 0.

Definition sfu_paced_priority_queue_init (is_probe_queue : bool) (max_residence_us max_bytes : Z) : sfu_paced_priority_queue :=
  zero_prio_queue <| pq_is_probe_queue := is_probe_queue |> <| pq_max_residence_us := max_residence_us |> <| pq_max_bytes := max_bytes |>.

Definition prio_at (q : sfu_paced_priority_queue) (i : Z) : sfu_paced_priority_entry := ring_at zero_prio_entry (pq_entries q) i.
Definition prio_next (q : sfu_paced_priority_queue) (i : Z) : Z := u32 (i + 1) mod pq_capacity q.

(** What the entry was charged goes back to the retransmission budget. *)
Definition refund_entry (p : sfu_pacer) (e : sfu_paced_priority_entry) : sfu_pacer :=
  if 0 <? xe_pacer_charged_bytes e then sfu_pacer_rtx_refund p (xe_pacer_charged_bytes e) else p.
Fixpoint refund_loop (n : nat) (q : sfu_paced_priority_queue) (index : Z) (p : sfu_pacer) : sfu_pacer :=
  match n with
  | O => p
  | S n => refund_loop n q (prio_next q index) (refund_entry p (prio_at q index))
  end.
Definition refund_all (q : sfu_paced_priority_queue) (p : option sfu_pacer) : option sfu_pacer :=
  match pq_entries q, p with
  | _ :: _, Some p => Some (refund_loop (Z.to_nat (pq_count q)) q (pq_head q) p)
  | _, _ => p
  end.
Definition sfu_paced_priority_queue_destroy (q : sfu_paced_priority_queue) (p : option sfu_pacer)
  : sfu_paced_priority_queue * option sfu_pacer := (zero_prio_queue, refund_all q p).
Definition sfu_paced_priority_queue_clear (q : sfu_paced_priority_queue) (p : option sfu_pacer)
  : sfu_paced_priority_queue * option sfu_pacer :=
  (q <| pq_head := 0 |> <| pq_tail := 0 |> <| pq_count := 0 |> <| pq_byte_count := 0 |>, refund_all q p).

(** The part both ways to enqueue share: the ring is allocated ([alloc] is the
    outcome), a full queue or byte budget drops the packet. *)
Definition prio_push (q : sfu_paced_priority_queue) (e : sfu_paced_priority_entry) (alloc : bool) : bool * sfu_paced_priority_queue :=
  if bool_decide (pq_entries q = []) && negb alloc then (false, q) else
  let q := if bool_decide (pq_entries q = [])
           then q <| pq_entries := replicate (Z.to_nat SFU_PACED_PRIORITY_QUEUE_CAPACITY) zero_prio_entry |>
                  <| pq_capacity := SFU_PACED_PRIORITY_QUEUE_CAPACITY |>
           else q in
  if (pq_capacity q <=? pq_count q) || ((0 <? pq_max_bytes q) && (pq_max_bytes q <? u32 (pq_byte_count q + xe_len e)))
  then (false, q <| pq_dropped_full ::= inc64 |>) else
  (true, q <| pq_entries ::= (fun l => ring_put l (pq_tail q) e) |> <| pq_tail := prio_next q (pq_tail q) |>
           <| pq_count ::= inc32 |> <| pq_byte_count ::= (fun n => u32 (n + xe_len e)) |> <| pq_enqueued ::= inc64 |>).
Definition bad_packet (len dst_len : Z) : bool := (len =? 0) || (SFU_PACED_SEND_MAX_PAYLOAD <? len) || (dst_len =? 0).

Definition sfu_paced_priority_queue_enqueue (q : sfu_paced_priority_queue) (data : list Z) (len : Z) (dst : list Z) (dst_len : Z)
    (owner_value transport_generation address_generation : Z) (twcc_written : bool) (twcc_seq pacer_charged_bytes now_us : Z)
    (alloc : bool) : bool * sfu_paced_priority_queue :=
  if bad_packet len dst_len then (false, q) else
  prio_push q (mk_prio_entry (slice data 0 len) len dst dst_len now_us owner_value transport_generation address_generation
                 twcc_seq twcc_written pacer_charged_bytes (pq_is_probe_queue q) 0) alloc.
Definition sfu_paced_priority_queue_enqueue_probe (q : sfu_paced_priority_queue) (data : list Z) (len : Z) (dst : list Z)
    (dst_len owner_value transport_generation address_generation : Z) (twcc_written : bool) (twcc_seq probe_cluster_id now_us : Z)
    (alloc : bool) : bool * sfu_paced_priority_queue :=
  if bad_packet len dst_len then (false, q) else
  prio_push q (mk_prio_entry (slice data 0 len) len dst dst_len now_us owner_value transport_generation address_generation
                 twcc_seq twcc_written 0 true probe_cluster_id) alloc.

Definition priority_entry_valid (e : sfu_paced_priority_entry) (s : send_session) : bool :=
  ss_accepts_work s && (ss_owner_value s =? xe_owner_value e) &&
  (ss_transport_generation s =? xe_transport_generation e) && (ss_address_generation s =? xe_address_generation e) &&
  same_address s (xe_dst e) (xe_dst_len e).
Definition prio_expired (e : sfu_paced_priority_entry) (max_residence_us now_us : Z) : bool :=
  (0 <? max_residence_us) && (xe_enqueued_at_us e <? now_us) && (max_residence_us <? now_us - xe_enqueued_at_us e).

(** The head leaves the queue. *)
Definition prio_pop (q : sfu_paced_priority_queue) : sfu_paced_priority_queue :=
  let len := xe_len (prio_at q (pq_head q)) in
  q <| pq_byte_count ::= (fun n => if len <=? n then n - len else 0) |> <| pq_head := prio_next q (pq_head q) |> <| pq_count ::= dec32 |>.

(** The send history of a sent packet. *)
Definition record_prio (probe_queue : bool) (e : sfu_paced_priority_entry) (s : send_session) (accepted_us : Z) : send_session :=
  if xe_twcc_written e && ss_video_ready s then
    s <| ss_twcc_history ::= option_map (fun h =>
           if probe_queue || xe_is_probe e
           then sfu_twcc_history_record_probe h (xe_twcc_seq e) accepted_us (xe_len e) (xe_probe_cluster_id e)
           else sfu_twcc_history_record h (xe_twcc_seq e) accepted_us (xe_len e)) |>
  else s.

(** [n] is what is left of the limit, [ios] the network's answers. *)
Fixpoint prio_drain_loop (n : nat) (q : sfu_paced_priority_queue) (s : send_session) (now_us : Z) (ios : list send_io) (processed : Z)
  : sfu_paced_priority_queue * send_session * list datagram * Z :=
  match n with
  | O => (q, s, [], processed)
  | S n =>
      if pq_count q =? 0 then (q, s, [], processed) else
      let e := prio_at q (pq_head q) in
      if negb (priority_entry_valid e s) then
        prio_drain_loop n (prio_pop (q <| pq_dropped_stale ::= inc64 |>)) (s <| ss_pacer ::= fun p => refund_entry p e |>)
          now_us ios (processed + 1)
      else if prio_expired e (pq_max_residence_us q) now_us then
        prio_drain_loop n (prio_pop (q <| pq_dropped_expired ::= inc64 |>)) (s <| ss_pacer ::= fun p => refund_entry p e |>)
          now_us ios (processed + 1)
      else
        let io := hd no_io ios in
        if negb (can_send io (xe_len e)) then (q, s, [], processed) else
        let s := record_prio (pq_is_probe_queue q) e s (accepted_time io now_us) in
        let q := q <| pq_sent ::= inc64 |> <| pq_bytes_sent ::= fun b => u64 (b + xe_len e) |> in
        let '(q, s, out, processed) := prio_drain_loop n (prio_pop q) s now_us (tl ios) (processed + 1) in
        (q, s, (xe_data e, xe_dst e) :: out, processed)
  end.
Definition sfu_paced_priority_queue_drain (q : sfu_paced_priority_queue) (s : send_session) (now_us : Z) (ios : list send_io)
    (remaining : Z) : bool * sfu_paced_priority_queue * send_session * list datagram * Z :=
  if (remaining =? 0) || bool_decide (pq_entries q = []) || (pq_count q =? 0) then (false, q, s, [], remaining) else
  let '(q, s, out, processed) := prio_drain_loop (Z.to_nat remaining) q s now_us ios 0 in
  let q := if pq_count q =? 0 then q <| pq_head := 0 |> <| pq_tail := 0 |> <| pq_byte_count := 0 |> else q in
  (negb (processed =? 0), q, s, out, remaining - processed).

(** * Specification: a first-in first-out list *)

Record fifo := mk_fifo {
  f_items : list sfu_paced_priority_entry;
  f_ready : bool;
  f_max_bytes : Z;
  f_max_residence : Z;
  f_probe : bool
}.
Definition bytes_of (l : list sfu_paced_priority_entry) : Z := foldr (fun e n => xe_len e + n) 0 l.
Definition fifo_push (f : fifo) (e : sfu_paced_priority_entry) (alloc : bool) : bool * fifo :=
  if negb (f_ready f) && negb alloc then (false, f) else
  if (SFU_PACED_PRIORITY_QUEUE_CAPACITY <=? zlen (f_items f)) ||
     ((0 <? f_max_bytes f) && (f_max_bytes f <? bytes_of (f_items f) + xe_len e))
  then (false, mk_fifo (f_items f) true (f_max_bytes f) (f_max_residence f) (f_probe f))
  else (true, mk_fifo (f_items f ++ [e]) true (f_max_bytes f) (f_max_residence f) (f_probe f)).
Fixpoint fifo_drain (probe : bool) (residence : Z) (n : nat) (l : list sfu_paced_priority_entry) (s : send_session) (now : Z)
    (ios : list send_io) : list sfu_paced_priority_entry * send_session * list datagram * Z :=
  match n, l with
  | S n, e :: l' =>
      if negb (priority_entry_valid e s) || prio_expired e residence now then
        let '(r, s, out, k) := fifo_drain probe residence n l' (s <| ss_pacer ::= fun p => refund_entry p e |>) now ios in
        (r, s, out, k + 1)
      else if can_send (hd no_io ios) (xe_len e) then
        let '(r, s, out, k) :=
          fifo_drain probe residence n l' (record_prio probe e s (accepted_time (hd no_io ios) now)) now (tl ios) in
        (r, s, (xe_data e, xe_dst e) :: out, k + 1)
      else (l, s, [], 0)
  | _, _ => (l, s, [], 0)
  end.
Definition refund_items (l : list sfu_paced_priority_entry) (p : sfu_pacer) : sfu_pacer := foldl refund_entry p l.

(** * The ring *)

Definition prio_contents (q : sfu_paced_priority_queue) : list sfu_paced_priority_entry :=
  ring zero_prio_entry (pq_entries q) (pq_head q) (Z.to_nat (pq_count q)).
Definition fifo_of (q : sfu_paced_priority_queue) : fifo :=
  mk_fifo (prio_contents q) (negb (bool_decide (pq_entries q = []))) (pq_max_bytes q) (pq_max_residence_us q) (pq_is_probe_queue q).

Definition prio_len_ok (e : sfu_paced_priority_entry) : Prop := 0 < xe_len e <= SFU_PACED_SEND_MAX_PAYLOAD.
Definition prio_fresh (q : sfu_paced_priority_queue) : Prop :=
  pq_entries q = [] /\ pq_head q = 0 /\ pq_tail q = 0 /\ pq_count q = 0.
Definition prio_set (q : sfu_paced_priority_queue) : Prop :=
  zlen (pq_entries q) = SFU_PACED_PRIORITY_QUEUE_CAPACITY /\ pq_capacity q = SFU_PACED_PRIORITY_QUEUE_CAPACITY /\
  0 <= pq_head q < SFU_PACED_PRIORITY_QUEUE_CAPACITY /\ 0 <= pq_count q <= SFU_PACED_PRIORITY_QUEUE_CAPACITY /\
  pq_tail q = (pq_head q + pq_count q) mod SFU_PACED_PRIORITY_QUEUE_CAPACITY.
Record prio_inv (q : sfu_paced_priority_queue) : Prop := {
  xi_ring : prio_fresh q \/ prio_set q;
  xi_bytes : pq_byte_count q = bytes_of (prio_contents q);
  xi_lens : Forall prio_len_ok (prio_contents q)
}.

Lemma bytes_of_cons e l : bytes_of (e :: l) = xe_len e + bytes_of l.
Proof. done. Qed.
Lemma bytes_of_app l1 l2 : bytes_of (l1 ++ l2) = bytes_of l1 + bytes_of l2.
Proof. induction l1 as [|e l1 IH]; [done|]. change (xe_len e + bytes_of (l1 ++ l2) = xe_len e + bytes_of l1 + bytes_of l2). lia. Qed.
Lemma bytes_of_bound l : Forall prio_len_ok l -> 0 <= bytes_of l <= SFU_PACED_SEND_MAX_PAYLOAD * zlen l.
Proof. induction 1 as [|e l He _ IH]; [done|]. rewrite bytes_of_cons, zlen_cons. destruct He. unfold SFU_PACED_SEND_MAX_PAYLOAD in *. lia. Qed.

Lemma prio_contents_length q : prio_fresh q \/ prio_set q -> zlen (prio_contents q) = pq_count q.
Proof.
  intros H. unfold zlen, prio_contents. rewrite ring_length. apply Z2Nat.id.
  destruct H as [(_ & _ & _ & ->)|(_ & _ & _ & ? & _)]; lia.
Qed.
Lemma prio_empty q : prio_inv q -> pq_count q = 0 -> prio_contents q = [].
Proof. intros _ E. unfold prio_contents. by rewrite E. Qed.
Lemma prio_nonempty_set q : prio_inv q -> pq_count q <> 0 -> prio_set q.
Proof. intros [[(_ & _ & _ & ?)|H] _ _] Hc; done. Qed.
Lemma prio_head q : prio_set q -> pq_count q <> 0 -> exists l, prio_contents q = prio_at q (pq_head q) :: l.
Proof.
  intros (_ & _ & _ & Hc & _) Hn. unfold prio_contents.
  replace (Z.to_nat (pq_count q)) with (S (Z.to_nat (pq_count q - 1))) by lia. by eexists.
Qed.

Lemma prio_pop_spec q : prio_inv q -> pq_count q <> 0 ->
  prio_inv (prio_pop q) /\ prio_contents q = prio_at q (pq_head q) :: prio_contents (prio_pop q) /\ prio_set (prio_pop q).
Proof.
  intros Hq Hn. pose proof (prio_nonempty_set q Hq Hn) as Hs. pose proof Hs as (H1 & H2 & H3 & H4 & H5).
  destruct Hq as [_ Hb Hl]. unfold SFU_PACED_PRIORITY_QUEUE_CAPACITY in *.
  assert (Hd : dec32 (pq_count q) = pq_count q - 1) by (unfold dec32; apply u32_small; lia).
  assert (Hx : prio_next q (pq_head q) = (pq_head q + 1) mod 128) by (unfold prio_next; rewrite H2, u32_small by lia; done).
  assert (Hm : 0 <= (pq_head q + 1) mod 128 < 128) by (apply Z.mod_pos_bound; lia).
  assert (Hc : prio_contents q = prio_at q (pq_head q) :: prio_contents (prio_pop q)).
  { unfold prio_contents, prio_pop. cbn. rewrite Hd, Hx.
    replace (Z.to_nat (pq_count q)) with (S (Z.to_nat (pq_count q - 1))) by lia. rewrite ring_pop, H1. done. }
  assert (Hset : prio_set (prio_pop q)).
  { unfold prio_set, prio_pop, SFU_PACED_PRIORITY_QUEUE_CAPACITY. cbn. rewrite Hd, Hx. split_and!; try done; try lia.
    rewrite H5, Zplus_mod_idemp_l. f_equal. lia. }
  rewrite Hc in Hb, Hl. inversion Hl as [|? ? He Hl']; subst. rewrite bytes_of_cons in Hb.
  pose proof (bytes_of_bound _ Hl') as Hbb. split_and!; try done. constructor; [by right| |done].
  change (pq_byte_count (prio_pop q)) with
    (if xe_len (prio_at q (pq_head q)) <=? pq_byte_count q then pq_byte_count q - xe_len (prio_at q (pq_head q)) else 0).
  rewrite Hb. destruct (Z.leb_spec (xe_len (prio_at q (pq_head q))) (xe_len (prio_at q (pq_head q)) + bytes_of (prio_contents (prio_pop q)))); lia.
Qed.

Lemma prio_push_spec q e alloc ok q' :
  prio_inv q -> prio_len_ok e -> prio_push q e alloc = (ok, q') -> prio_inv q' /\ fifo_push (fifo_of q) e alloc = (ok, fifo_of q').
Proof.
  intros Hq He E. unfold prio_push in E. unfold fifo_push. cbn [fifo_of f_ready f_items f_max_bytes f_max_residence f_probe].
  rewrite negb_involutive. destruct (bool_decide (pq_entries q = []) && negb alloc); [by injection E as <- <-|].
  set (q1 := if bool_decide _ then _ else q) in E.
  assert (F : prio_set q1 /\ prio_contents q1 = prio_contents q /\ pq_byte_count q1 = pq_byte_count q /\
              pq_max_bytes q1 = pq_max_bytes q /\ pq_max_residence_us q1 = pq_max_residence_us q /\ pq_is_probe_queue q1 = pq_is_probe_queue q).
  { unfold q1. clear q1 E. case_bool_decide as Hnil.
    - destruct Hq as [[(_ & Hh & Ht & Hc)|(Hz & _)] _ _]; [|by rewrite Hnil in Hz].
      split_and!; try done; [|unfold prio_contents; cbn; by rewrite Hc].
      unfold prio_set. cbn. rewrite Hh, Ht, Hc. split_and!; done || lia.
    - split_and!; try done. by destruct Hq as [[(? & _)|?] _ _]. }
  clearbody q1. destruct F as (Hs & Fc & Fb & Fm & Fr & Fp). pose proof Hs as (H1 & H2 & H3 & H4 & H5).
  destruct Hq as [_ Hb Hl]. pose proof (bytes_of_bound _ Hl) as Hbb.
  assert (Hlen : zlen (prio_contents q) = pq_count q1) by (rewrite <- Fc; apply prio_contents_length; by right).
  unfold prio_len_ok, SFU_PACED_PRIORITY_QUEUE_CAPACITY, SFU_PACED_SEND_MAX_PAYLOAD in *.
  rewrite u32_small in E by lia. rewrite H2, Fm, Fb, Hb in E. rewrite Hlen.
  assert (Hne : bool_decide (pq_entries q1 = []) = false) by (apply bool_decide_eq_false; intros Hz; by rewrite Hz in H1).
  destruct (_ || _) eqn:G.
  - injection E as <- <-. rewrite <- Fm, <- Fr, <- Fp. split; [|by unfold fifo_of; cbn; rewrite Hne, <- Fc].
    constructor; [by right|..]; change (prio_contents (q1 <| pq_dropped_full ::= inc64 |>)) with (prio_contents q1); rewrite Fc; [|done].
    by rewrite <- Hb, <- Fb.
  - injection E as <- <-. match goal with |- prio_inv ?x /\ _ => set (q2 := x) end. bool_hyps.
    assert (Ei : inc32 (pq_count q1) = pq_count q1 + 1) by (unfold inc32; apply u32_small; lia).
    assert (Ht : 0 <= pq_tail q1 < 128) by (rewrite H5; apply Z.mod_pos_bound; lia).
    assert (Hc2 : prio_contents q2 = prio_contents q ++ [e]).
    { rewrite <- Fc. unfold prio_contents, q2. cbn. rewrite Ei.
      replace (Z.to_nat (pq_count q1 + 1)) with (S (Z.to_nat (pq_count q1))) by lia.
      rewrite <- ring_push by (rewrite ?H1; lia). rewrite H5, H1, Z2Nat.id by lia. done. }
    assert (Hs2 : prio_set q2).
    { unfold prio_set, q2, SFU_PACED_PRIORITY_QUEUE_CAPACITY. cbn. rewrite zlen_ring_put, Ei. unfold prio_next.
      rewrite u32_small, H2, H5, Zplus_mod_idemp_l by lia. split_and!; try lia. f_equal. lia. }
    split.
    + constructor; [by right|..]; rewrite Hc2.
      * change (u32 (pq_byte_count q1 + xe_len e) = bytes_of (prio_contents q ++ [e])).
        rewrite u32_small, bytes_of_app, bytes_of_cons by lia. cbn. lia.
      * apply Forall_app. split; [done|]. by constructor.
    + unfold fifo_of. rewrite Hc2. do 2 f_equal.
      * assert (Hne2 : bool_decide (pq_entries q2 = []) = false); [|by rewrite Hne2].
        apply bool_decide_eq_false. intros Hz. destruct Hs2 as (Hz2 & _). by rewrite Hz in Hz2.
      * exact (eq_sym Fm).
      * exact (eq_sym Fr).
      * exact (eq_sym Fp).
Qed.

(** A change of the counters only. *)
Definition prio_same (q q' : sfu_paced_priority_queue) : Prop :=
  pq_entries q' = pq_entries q /\ pq_capacity q' = pq_capacity q /\ pq_head q' = pq_head q /\ pq_tail q' = pq_tail q /\
  pq_count q' = pq_count q /\ pq_byte_count q' = pq_byte_count q.
Lemma prio_same_spec q q' : prio_same q q' -> prio_inv q ->
  prio_inv q' /\ prio_contents q' = prio_contents q /\ prio_at q' (pq_head q') = prio_at q (pq_head q).
Proof.
  intros (E1 & E2 & E3 & E4 & E5 & E6) [H1 H2 H3].
  assert (Ec : prio_contents q' = prio_contents q) by (unfold prio_contents; congruence).
  split_and!; [|done|unfold prio_at; congruence]. constructor; [|congruence|congruence].
  unfold prio_fresh, prio_set in *. rewrite E1, E2, E3, E4, E5. done.
Qed.
(** The part of the configuration a drain reads. *)
Definition prio_config (q : sfu_paced_priority_queue) : Z * Z * bool := (pq_max_bytes q, pq_max_residence_us q, pq_is_probe_queue q).

Lemma prio_drain_loop_spec n q s now ios processed :
  prio_inv q ->
  let '(q', s', out, processed') := prio_drain_loop n q s now ios processed in
  prio_inv q' /\ prio_config q' = prio_config q /\ (prio_set q -> prio_set q') /\
  fifo_drain (pq_is_probe_queue q) (pq_max_residence_us q) n (prio_contents q) s now ios =
    (prio_contents q', s', out, processed' - processed).
Proof.
  revert q s ios processed. induction n as [|n IH]; intros q s ios processed Hq; cbn [prio_drain_loop fifo_drain].
  { by rewrite Z.sub_diag. }
  destruct (Z.eqb_spec (pq_count q) 0) as [E0|E0].
  { rewrite (prio_empty q Hq E0), Z.sub_diag. done. }
  set (e := prio_at q (pq_head q)).
  assert (Hstep : forall q1, prio_same q q1 -> prio_config q1 = prio_config q ->
    prio_inv (prio_pop q1) /\ (prio_config (prio_pop q1) = prio_config q /\ pq_max_residence_us (prio_pop q1) = pq_max_residence_us q /\
      pq_is_probe_queue (prio_pop q1) = pq_is_probe_queue q) /\ prio_set (prio_pop q1) /\
    prio_contents q = e :: prio_contents (prio_pop q1)).
  { intros q1 Hsame Hconf. destruct (prio_same_spec q q1 Hsame Hq) as (Hi & Hc & Hh).
    destruct (prio_pop_spec q1 Hi) as (Hi' & Hc' & Hs').
    { destruct Hsame as (_ & _ & _ & _ & -> & _). done. }
    rewrite Hc, Hh in Hc'. pose proof Hconf as [= ? ? ?]. split_and!; try done. }
  destruct (negb (priority_entry_valid e s)) eqn:Hv.
  { set (q1 := q <| pq_dropped_stale ::= inc64 |>). destruct (Hstep q1 ltac:(done) ltac:(done)) as (Hi & Hconf & Hs & Hc).
    rewrite Hc, Hv. cbn [orb]. specialize (IH (prio_pop q1) (s <| ss_pacer ::= fun p => refund_entry p e |>) ios (processed + 1) Hi).
    destruct (prio_drain_loop n _ _ _ _ _) as [[[q2 s2] out] k]. destruct IH as (I1 & I2 & I3 & I4).
    destruct Hconf as (C1 & C2 & C3). rewrite C2, C3 in I4. rewrite I4. split_and!; [done|exact (eq_trans I2 C1)|by auto|].
    by replace (k - (processed + 1) + 1) with (k - processed) by lia. }
  destruct (prio_expired e (pq_max_residence_us q) now) eqn:Hx.
  { set (q1 := q <| pq_dropped_expired ::= inc64 |>). destruct (Hstep q1 ltac:(done) ltac:(done)) as (Hi & Hconf & Hs & Hc).
    rewrite Hc, Hv, Hx. cbn [orb]. specialize (IH (prio_pop q1) (s <| ss_pacer ::= fun p => refund_entry p e |>) ios (processed + 1) Hi).
    destruct (prio_drain_loop n _ _ _ _ _) as [[[q2 s2] out] k]. destruct IH as (I1 & I2 & I3 & I4).
    destruct Hconf as (C1 & C2 & C3). rewrite C2, C3 in I4. rewrite I4. split_and!; [done|exact (eq_trans I2 C1)|by auto|].
    by replace (k - (processed + 1) + 1) with (k - processed) by lia. }
  destruct (can_send (hd no_io ios) (xe_len e)) eqn:Hio; cbn [negb].
  - set (q1 := q <| pq_sent ::= inc64 |> <| pq_bytes_sent ::= fun b => u64 (b + xe_len e) |>).
    destruct (Hstep q1 ltac:(done) ltac:(done)) as (Hi & Hconf & Hs & Hc). rewrite Hc, Hv, Hx, Hio. cbn [orb].
    specialize (IH (prio_pop q1) (record_prio (pq_is_probe_queue q) e s (accepted_time (hd no_io ios) now)) (tl ios) (processed + 1) Hi).
    destruct (prio_drain_loop n _ _ _ _ _) as [[[q2 s2] out] k]. destruct IH as (I1 & I2 & I3 & I4).
    destruct Hconf as (C1 & C2 & C3). rewrite C2, C3 in I4. rewrite I4. split_and!; [done|exact (eq_trans I2 C1)|by auto|].
    by replace (k - (processed + 1) + 1) with (k - processed) by lia.
  - destruct (prio_head q (prio_nonempty_set q Hq E0) E0) as [l Hl]. fold e in Hl.
    split_and!; try done. rewrite Hl, Hv, Hx, Hio. cbn [orb]. by rewrite Z.sub_diag.
Qed.

Lemma prio_emptied q q' :
  prio_fresh q \/ prio_set q -> pq_entries q' = pq_entries q -> pq_capacity q' = pq_capacity q ->
  pq_head q' = 0 -> pq_tail q' = 0 -> pq_count q' = 0 -> pq_byte_count q' = 0 -> prio_inv q' /\ prio_contents q' = [].
Proof.
  intros Hq E1 E2 E3 E4 E5 E6. assert (Hc : prio_contents q' = []) by (unfold prio_contents; by rewrite E5).
  split; [|done]. constructor; [|by rewrite Hc|by rewrite Hc]. unfold prio_fresh, prio_set in *. rewrite E1, E2, E3, E4, E5.
  destruct Hq as [(? & _)|(H1 & H2 & _)]; [by left|right]. split_and!; done.
Qed.

Lemma prio_drain_spec q s now ios remaining :
  prio_inv q -> 0 <= remaining ->
  let '(did, q', s', out, rem') := sfu_paced_priority_queue_drain q s now ios remaining in
  prio_inv q' /\ prio_config q' = prio_config q /\ bool_decide (pq_entries q' = []) = bool_decide (pq_entries q = []) /\
  fifo_drain (pq_is_probe_queue q) (pq_max_residence_us q) (Z.to_nat remaining) (prio_contents q) s now ios =
    (prio_contents q', s', out, remaining - rem') /\ did = negb (rem' =? remaining).
Proof.
  intros Hq Hr. unfold sfu_paced_priority_queue_drain.
  destruct ((remaining =? 0) || bool_decide (pq_entries q = []) || (pq_count q =? 0)) eqn:G.
  { rewrite Z.eqb_refl, Z.sub_diag. split_and!; try done.
    destruct (Z.eqb_spec remaining 0) as [->|]; [done|]. cbn [orb] in G.
    assert (Hc : prio_contents q = []).
    { apply prio_empty; [done|]. apply orb_true_iff in G as [G|G]; [|lia]. apply bool_decide_eq_true in G.
      destruct Hq as [[(_ & _ & _ & ?)|(Hz & _)] _ _]; [done|by rewrite G in Hz]. }
    rewrite Hc. by destruct (Z.to_nat remaining). }
  apply orb_false_iff in G as [G G3]. apply orb_false_iff in G as [_ G2]. apply Z.eqb_neq in G3.
  pose proof (prio_nonempty_set q Hq G3) as Hs.
  pose proof (prio_drain_loop_spec (Z.to_nat remaining) q s now ios 0 Hq) as H.
  destruct (prio_drain_loop _ q s now ios 0) as [[[q1 s1] out] k]. destruct H as (H1 & H2 & H3 & H4). specialize (H3 Hs).
  rewrite Z.sub_0_r in H4. rewrite H4.
  set (q2 := if pq_count q1 =? 0 then _ else q1).
  assert (F : prio_inv q2 /\ prio_contents q2 = prio_contents q1 /\ pq_entries q2 = pq_entries q1 /\ prio_config q2 = prio_config q1).
  { unfold q2. destruct (Z.eqb_spec (pq_count q1) 0) as [E0|]; [|done].
    destruct (prio_emptied q1 (q1 <| pq_head := 0 |> <| pq_tail := 0 |> <| pq_byte_count := 0 |>)) as [I1 I2]; try done; [by right|].
    rewrite (prio_empty q1 H1 E0). done. }
  destruct F as (F1 & F2 & F3 & F4). split_and!; try done; [congruence|..].
  - rewrite G2, F3. apply bool_decide_eq_false. intros Hz. destruct H3 as (Hz' & _). by rewrite Hz in Hz'.
  - rewrite F2. by replace (remaining - (remaining - k)) with k by lia.
  - destruct (Z.eqb_spec k 0), (Z.eqb_spec (remaining - k) remaining); try done; lia.
Qed.

Lemma refund_loop_spec n q index p :
  prio_set q -> 0 <= index < SFU_PACED_PRIORITY_QUEUE_CAPACITY ->
  refund_loop n q index p = refund_items (ring zero_prio_entry (pq_entries q) index n) p.
Proof.
  intros (H1 & H2 & _). unfold SFU_PACED_PRIORITY_QUEUE_CAPACITY in *.
  revert index p. induction n as [|n IH]; intros index p Hi; [done|]. cbn [refund_loop ring].
  rewrite IH by (unfold prio_next; rewrite H2; apply Z.mod_pos_bound; lia).
  unfold prio_next. rewrite H1, H2, u32_small by lia. done.
Qed.
Lemma refund_all_spec q p : prio_inv q -> refund_all q p = option_map (refund_items (prio_contents q)) p.
Proof.
  intros [[(Hn & _ & _ & Hc)|Hs] _ _]; unfold refund_all.
  - unfold prio_contents. rewrite Hn, Hc. by destruct p.
  - pose proof Hs as (H1 & _ & H3 & _). destruct (pq_entries q) eqn:E; [done|]. rewrite <- E in *. destruct p as [p|]; [|done].
    cbn. rewrite refund_loop_spec by done. done.
Qed.

(** * The queue refines the list *)

Inductive prio_op :=
  | XEnqueue (data : list Z) (len : Z) (dst : list Z) (dst_len owner tgen agen : Z) (twcc : bool) (seq charged now : Z) (alloc : bool)
  | XProbe (data : list Z) (len : Z) (dst : list Z) (dst_len owner tgen agen : Z) (twcc : bool) (seq cluster now : Z) (alloc : bool)
  | XDrain (now : Z) (ios : list send_io) (limit : nat)
  | XClear (refund : bool)
  | XDestroy (refund : bool)
  | XSession (s : send_session).
Definition prio_op_ok (op : prio_op) : Prop :=
  match op with XEnqueue _ len _ _ _ _ _ _ _ _ _ _ | XProbe _ len _ _ _ _ _ _ _ _ _ _ => is_u16 len | _ => True end.

(** The answer of an operation: its truth value and the datagrams sent. *)
Definition answer : Type := bool * list datagram.
Definition set_pacer (s : send_session) (p : option sfu_pacer) : send_session :=
  match p with Some p => s <| ss_pacer := p |> | None => s end.
Definition pacer_for (refund : bool) (s : send_session) : option sfu_pacer := if refund then Some (ss_pacer s) else None.

Definition prio_exec (st : sfu_paced_priority_queue * send_session) (op : prio_op)
  : sfu_paced_priority_queue * send_session * answer :=
  let '(q, s) := st in
  match op with
  | XEnqueue data len dst dst_len owner tg ag twcc seq charged now alloc =>
      let '(ok, q) := sfu_paced_priority_queue_enqueue q data len dst dst_len owner tg ag twcc seq charged now alloc in (q, s, (ok, []))
  | XProbe data len dst dst_len owner tg ag twcc seq cluster now alloc =>
      let '(ok, q) := sfu_paced_priority_queue_enqueue_probe q data len dst dst_len owner tg ag twcc seq cluster now alloc in (q, s, (ok, []))
  | XDrain now ios limit =>
      let '(did, q, s, out, _) := sfu_paced_priority_queue_drain q s now ios (Z.of_nat limit) in (q, s, (did, out))
  | XClear refund => let '(q, p) := sfu_paced_priority_queue_clear q (pacer_for refund s) in (q, set_pacer s p, (true, []))
  | XDestroy refund => let '(q, p) := sfu_paced_priority_queue_destroy q (pacer_for refund s) in (q, set_pacer s p, (true, []))
  | XSession s => (q, s, (true, []))
  end.
Definition fifo_exec (st : fifo * send_session) (op : prio_op) : fifo * send_session * answer :=
  let '(f, s) := st in
  match op with
  | XEnqueue data len dst dst_len owner tg ag twcc seq charged now alloc =>
      if bad_packet len dst_len then (f, s, (false, [])) else
      let '(ok, f) := fifo_push f (mk_prio_entry (slice data 0 len) len dst dst_len now owner tg ag seq twcc charged (f_probe f) 0) alloc in
      (f, s, (ok, []))
  | XProbe data len dst dst_len owner tg ag twcc seq cluster now alloc =>
      if bad_packet len dst_len then (f, s, (false, [])) else
      let '(ok, f) := fifo_push f (mk_prio_entry (slice data 0 len) len dst dst_len now owner tg ag seq twcc 0 true cluster) alloc in
      (f, s, (ok, []))
  | XDrain now ios limit =>
      let '(l, s, out, k) := fifo_drain (f_probe f) (f_max_residence f) limit (f_items f) s now ios in
      (mk_fifo l (f_ready f) (f_max_bytes f) (f_max_residence f) (f_probe f), s, (negb (k =? 0), out))
  | XClear refund =>
      (mk_fifo [] (f_ready f) (f_max_bytes f) (f_max_residence f) (f_probe f),
       set_pacer s (option_map (refund_items (f_items f)) (pacer_for refund s)), (true, []))
  | XDestroy refund => (mk_fifo [] false 0 0 false, set_pacer s (option_map (refund_items (f_items f)) (pacer_for refund s)), (true, []))
  | XSession s => (f, s, (true, []))
  end.
Fixpoint run_ops {S O A} (exec : S -> O -> S * A) (st : S) (ops : list O) : S * list A :=
  match ops with
  | [] => (st, [])
  | op :: ops => let '(st, a) := exec st op in let '(st, l) := run_ops exec st ops in (st, a :: l)
  end.

Lemma prio_exec_refines q s op :
  prio_inv q -> prio_op_ok op ->
  let '(q', s', a) := prio_exec (q, s) op in
  prio_inv q' /\ fifo_exec (fifo_of q, s) op = (fifo_of q', s', a).
Proof.
  intros Hq Hop.
  assert (Hpush : forall e al, prio_len_ok e ->
    let '(ok, q') := prio_push q e al in prio_inv q' /\ fifo_push (fifo_of q) e al = (ok, fifo_of q')).
  { intros e al He. destruct (prio_push q e al) as [ok q'] eqn:E. by apply prio_push_spec in E. }
  destruct op as [data len dst dl ow tg ag tw seq ch now al|data len dst dl ow tg ag tw seq ch now al|now ios limit|rf|rf|s1];
    cbn [prio_exec fifo_exec prio_op_ok] in *.
  - unfold sfu_paced_priority_queue_enqueue. destruct (bad_packet len dl) eqn:G; [done|]. cbn [fifo_of f_probe].
    match goal with |- context [prio_push _ ?x _] => specialize (Hpush x al) end.
    destruct (prio_push q _ al) as [ok q']. destruct Hpush as [Hi E]; [|by rewrite E].
    unfold bad_packet in G. unfold is_u16 in Hop. bool_hyps. split; cbn; lia.
  - unfold sfu_paced_priority_queue_enqueue_probe. destruct (bad_packet len dl) eqn:G; [done|]. cbn [fifo_of f_probe].
    match goal with |- context [prio_push _ ?x _] => specialize (Hpush x al) end.
    destruct (prio_push q _ al) as [ok q']. destruct Hpush as [Hi E]; [|by rewrite E].
    unfold bad_packet in G. unfold is_u16 in Hop. bool_hyps. split; cbn; lia.
  - pose proof (prio_drain_spec q s now ios (Z.of_nat limit) Hq ltac:(lia)) as H.
    destruct (sfu_paced_priority_queue_drain _ _ _ _ _) as [[[[did q'] s'] out] rem']. destruct H as (Hi & Hconf & He & Hf & ->).
    rewrite Nat2Z.id in Hf. cbn [fifo_of f_probe f_max_residence f_items f_ready f_max_bytes]. rewrite Hf.
    injection Hconf as C1 C2 C3. split; [done|]. unfold fifo_of. rewrite He, C1, C2, C3. do 2 f_equal.
    destruct (Z.eqb_spec (Z.of_nat limit - rem') 0), (Z.eqb_spec rem' (Z.of_nat limit)); try done; lia.
  - unfold sfu_paced_priority_queue_clear. rewrite refund_all_spec by done.
    destruct (prio_emptied q (q <| pq_head := 0 |> <| pq_tail := 0 |> <| pq_count := 0 |> <| pq_byte_count := 0 |>)) as [I1 I2]; try done.
    apply Hq.
  - unfold sfu_paced_priority_queue_destroy. rewrite refund_all_spec by done. split; [|done].
    constructor; [by left|done|by constructor].
  - done.
Qed.

(** * Properties *)

(** C33: The ring of the priority queue behaves as a plain first-in first-out
    list: any sequence of enqueue, probe enqueue, drain, clear and destroy
    gives the same answers, sends the same datagrams and leaves the same
    session (budget refunds and send history included) as the list, where an
    enqueue is refused exactly when 128 packets or the byte budget would be
    exceeded, and a drain takes packets from the front, refunds the stale and
    expired ones, sends the others in order, and stops at the limit or when
    the network refuses. *)
Theorem priority_queue_refines_fifo probe residence max_bytes s ops :
  Forall prio_op_ok ops ->
  let '(q', s', l) := run_ops prio_exec (sfu_paced_priority_queue_init probe residence max_bytes, s) ops in
  run_ops fifo_exec (mk_fifo [] false max_bytes residence probe, s) ops = (fifo_of q', s', l).
Proof.
  intros Hops. set (q := sfu_paced_priority_queue_init probe residence max_bytes).
  replace (mk_fifo [] false max_bytes residence probe) with (fifo_of q) by done.
  assert (Hq : prio_inv q) by (constructor; [by left|done|by constructor]).
  clearbody q. revert q s Hq. induction Hops as [|op ops Hop _ IH]; intros q s Hq; cbn [run_ops]; [done|].
  pose proof (prio_exec_refines q s op Hq Hop) as H. destruct (prio_exec (q, s) op) as [[q1 s1] a]. destruct H as [H1 H2].
  rewrite H2. specialize (IH q1 s1 H1). destruct (run_ops prio_exec (q1, s1) ops) as [[q2 s2] l]. by rewrite IH.
Qed.

Definition ex_prio_ops : list prio_op :=
  [XEnqueue [1; 2] 2 [10; 0; 0; 1] 4 1 1 1 false 0 2 100 true; XEnqueue [3] 1 [9; 9; 9; 9] 4 1 1 1 false 0 1 100 true;
   XDrain 150 [mk_send_io (Some 1500) true 0] 4].
Lemma priority_queue_refines_fifo_witness :
  run_ops fifo_exec (mk_fifo [] false SFU_PACED_RTX_MAX_BYTES SFU_PACED_RTX_MAX_RESIDENCE_US false, ex_session) ex_prio_ops =
  (mk_fifo [] true SFU_PACED_RTX_MAX_BYTES SFU_PACED_RTX_MAX_RESIDENCE_US false, ex_session,
   [(true, []); (true, []); (true, [([1; 2], [10; 0; 0; 1])])]).
Proof.
  assert (Hok : Forall prio_op_ok ex_prio_ops) by (repeat apply Forall_cons_2; try apply Forall_nil_2; done || (cbn; unfold is_u16; lia)).
  assert (E : forall q s l, run_ops prio_exec (sfu_paced_priority_queue_init false SFU_PACED_RTX_MAX_RESIDENCE_US SFU_PACED_RTX_MAX_BYTES, ex_session)
                ex_prio_ops = (q, s, l) ->
              (fifo_of q, s, l) = (mk_fifo [] true SFU_PACED_RTX_MAX_BYTES SFU_PACED_RTX_MAX_RESIDENCE_US false, ex_session,
                [(true, []); (true, []); (true, [([1; 2], [10; 0; 0; 1])])])).
  { intros q s l. vm_compute. intros [= <- <- <-]. reflexivity. }
  pose proof (priority_queue_refines_fifo false SFU_PACED_RTX_MAX_RESIDENCE_US SFU_PACED_RTX_MAX_BYTES ex_session ex_prio_ops Hok) as H.
  destruct (run_ops prio_exec _ _) as [[q s] l]. rewrite H. by apply E.
Defined.
