(* ===== verification/ProbeController.v ===== *)
(** The bandwidth probe of a subscriber, [src/congestion/probe_controller.c]:
    when the allocator has demand left over, a burst of padding is sent above
    the estimate and the estimate is raised if it arrives.  The state machine
    works on the estimator of [Gcc], and sends through the sequence
    translator, the padding builder and the probe queue.  Its steps are taken
    one after the other; what another thread could do while a step has
    released the lock is not modelled. *)

From S2P Require Import Prelude Rtx RtxBuild SeqTranslate Gcc PacedSend PriorityQueue.
Local Open Scope Z_scope.

Definition SFU_PROBE_CLUSTER_DURATION_US : Z := 15000.
Definition SFU_PROBE_CLUSTER_TIMEOUT_US : Z := 500000.
Definition SFU_PROBE_MIN_STEP_BPS : Z := 500000.
Definition SFU_PROBE_MAX_BITRATE_BPS : Z := 5000000.
Definition SFU_PROBE_COOLDOWN_SUCCESS_US : Z := 250000.
Definition SFU_PROBE_COOLDOWN_FAILURE_US : Z := 1000000.
Definition SFU_PROBE_SUCCESS_THRESHOLD_NUM : Z := 85.
Definition SFU_PROBE_SUCCESS_THRESHOLD_DEN : Z := 100.

Inductive sfu_probe_state := PROBE_IDLE | PROBE_PROBING | PROBE_WAITING_FEEDBACK.
#[export] Instance probe_state_eq : EqDecision sfu_probe_state.
Proof. solve_decision. Defined.

Record sfu_probe_controller := mk_probe {
  pc_state : sfu_probe_state;
  pc_cluster_id : Z;
  pc_base_bitrate_bps : Z;
  pc_target_bitrate_bps : Z;
  pc_bytes_target : Z;
  pc_bytes_sent : Z;
  pc_packets_sent : Z;
  pc_packets_received : Z;
  pc_bytes_received : Z;
  pc_packets_lost : Z;
  pc_start_time_us : Z;
  pc_send_end_time_us : Z;
  pc_first_recv_us : Z;
  pc_last_recv_us : Z;
  pc_cooldown_until_us : Z;
  pc_has_unmet_demand : bool;
  pc_aborted : bool;
  pc_clusters_started : Z;
  pc_clusters_succeeded : Z;
  pc_clusters_failed : Z;
  pc_clusters_aborted : Z
}.
#[export] Instance eta_probe : Eta sfu_probe_controller := fun p =>
  mk_probe (pc_state p) (pc_cluster_id p) (pc_base_bitrate_bps p) (pc_target_bitrate_bps p) (pc_bytes_target p) (pc_bytes_sent p)
    (pc_packets_sent p) (pc_packets_received p) (pc_bytes_received p) (pc_packets_lost p) (pc_start_time_us p) (pc_send_end_time_us p)
    (pc_first_recv_us p) (pc_last_recv_us p) (pc_cooldown_until_us p) (pc_has_unmet_demand p) (pc_aborted p) (pc_clusters_started p)
    (pc_clusters_succeeded p) (pc_clusters_failed p) (pc_clusters_aborted p).
Definition idle (pc : sfu_probe_controller) : bool := bool_decide (pc_state pc = PROBE_IDLE).

Definition sfu_probe_controller_init : sfu_probe_controller :=
  mk_probe PROBE_IDLE 0 0 0 0 0 0 0 0 0 0 0 0 0 0 false false 0 0 0 0.
Definition sfu_probe_controller_reset (pc : sfu_probe_controller) : sfu_probe_controller :=
  pc <| pc_state := PROBE_IDLE |> <| pc_bytes_sent := 0 |> <| pc_packets_sent := 0 |> <| pc_packets_received := 0 |>
     <| pc_bytes_received := 0 |> <| pc_packets_lost := 0 |> <| pc_start_time_us := 0 |> <| pc_send_end_time_us := 0 |>
     <| pc_first_recv_us := 0 |> <| pc_last_recv_us := 0 |> <| pc_aborted := false |> <| pc_cooldown_until_us := 0 |>.
Definition sfu_probe_controller_set_unmet_demand (pc : sfu_probe_controller) (has_unmet_demand : bool) : sfu_probe_controller :=
  pc <| pc_has_unmet_demand := has_unmet_demand |>.
Definition sfu_probe_controller_is_probing (pc : sfu_probe_controller) : bool := negb (idle pc).

Definition sfu_probe_controller_should_probe (pc : sfu_probe_controller) (gcc : gcc_bwe_context) (now_us : Z)
    (twcc_negotiated rtx_available : bool) (rtx_queue_count media_backlog_count : Z) : bool :=
  if negb twcc_negotiated || negb rtx_available then false
  else if (0 <? rtx_queue_count) || (0 <? media_backlog_count) then false
  else if negb (idle pc) || negb (pc_has_unmet_demand pc) || (now_us <? pc_cooldown_until_us pc) then false
  else if gcc_bwe_is_overusing gcc || negb (bool_decide (gcc_bwe_get_usage gcc = BWE_NORMAL)) then false
  else gcc_bwe_has_recent_feedback gcc now_us 500000.

(** [gcc] may be missing. *)
Definition set_probing (gcc : option gcc_bwe_context) (on : bool) : option gcc_bwe_context :=
  option_map (fun g => gcc_bwe_set_active_probing g on) gcc.
Definition base_bitrate (gcc : option gcc_bwe_context) : Z :=
  let base_bps := match gcc with Some g => gcc_bwe_get_bitrate g | None => 0 end in
  if base_bps =? 0 then 300000 else base_bps.
Definition target_bitrate (base_bps : Z) : Z :=
  let step := base_bps / 2 in
  let step := if step <? SFU_PROBE_MIN_STEP_BPS then SFU_PROBE_MIN_STEP_BPS else step in
  let target := base_bps + step in
  u32 (if SFU_PROBE_MAX_BITRATE_BPS <? target then SFU_PROBE_MAX_BITRATE_BPS else target).
Definition target_bytes (target_bps : Z) : Z :=
  let bytes := u32 (target_bps * SFU_PROBE_CLUSTER_DURATION_US / 8000000) in
  if bytes <? 750 then 750 else bytes.
Definition next_cluster (id : Z) : Z := let id := u32 (id + 1) in if id =? 0 then 1 else id.
Definition sfu_probe_controller_start_probe (pc : sfu_probe_controller) (gcc : option gcc_bwe_context) (now_us : Z)
  : bool * sfu_probe_controller * option gcc_bwe_context :=
  if negb (idle pc) then (false, pc, gcc) else
  let base_bps := base_bitrate gcc in
  if SFU_PROBE_MAX_BITRATE_BPS <=? base_bps then (false, pc, gcc) else
  let target := target_bitrate base_bps in
  let pc := pc <| pc_cluster_id ::= next_cluster |> <| pc_state := PROBE_PROBING |> <| pc_start_time_us := now_us |>
               <| pc_send_end_time_us := 0 |> <| pc_first_recv_us := 0 |> <| pc_last_recv_us := 0 |> <| pc_bytes_sent := 0 |>
               <| pc_packets_sent := 0 |> <| pc_packets_received := 0 |> <| pc_bytes_received := 0 |> <| pc_packets_lost := 0 |>
               <| pc_aborted := false |> <| pc_base_bitrate_bps := base_bps |> <| pc_target_bitrate_bps := target |>
               <| pc_bytes_target := target_bytes target |> <| pc_clusters_started ::= fun n => u64 (n + 1) |> in
  (true, pc, set_probing gcc true).

Definition sfu_probe_controller_on_packet_received (pc : sfu_probe_controller) (cluster_id size_bytes recv_time_us : Z) : sfu_probe_controller :=
  if negb (idle pc) && (pc_cluster_id pc =? cluster_id) then
    let pc := pc <| pc_packets_received ::= fun n => u32 (n + 1) |> <| pc_bytes_received ::= fun n => u32 (n + size_bytes) |> in
    let pc := if (pc_first_recv_us pc =? 0) || (recv_time_us <? pc_first_recv_us pc) then pc <| pc_first_recv_us := recv_time_us |> else pc in
    if pc_last_recv_us pc <? recv_time_us then pc <| pc_last_recv_us := recv_time_us |> else pc
  else pc.
Definition sfu_probe_controller_on_packet_lost (pc : sfu_probe_controller) (cluster_id : Z) : sfu_probe_controller :=
  if negb (idle pc) && (pc_cluster_id pc =? cluster_id) then pc <| pc_packets_lost ::= fun n => u32 (n + 1) |> else pc.
Definition sfu_probe_controller_abort (pc : sfu_probe_controller) (gcc : option gcc_bwe_context) (now_us : Z)
  : sfu_probe_controller * option gcc_bwe_context :=
  if idle pc then (pc, gcc) else
  (pc <| pc_state := PROBE_IDLE |> <| pc_aborted := true |> <| pc_cooldown_until_us := now_us + SFU_PROBE_COOLDOWN_FAILURE_US |>
      <| pc_clusters_aborted ::= fun n => u64 (n + 1) |>, set_probing gcc false).

(** ** The end of a cluster *)

Definition all_feedback (pc : sfu_probe_controller) : bool :=
  (0 <? pc_packets_sent pc) && (pc_packets_sent pc <=? u32 (pc_packets_received pc + pc_packets_lost pc)).
Definition timed_out (pc : sfu_probe_controller) (now_us : Z) : bool :=
  (0 <? pc_send_end_time_us pc) && (SFU_PROBE_CLUSTER_TIMEOUT_US <? now_us - pc_send_end_time_us pc).
Definition measured_bps (pc : sfu_probe_controller) : Z :=
  if 2 <=? pc_packets_received pc then
    let span_us := pc_last_recv_us pc - pc_first_recv_us pc in
    if 0 <? span_us then pc_bytes_received pc * 8 * 1000000 / span_us else pc_target_bitrate_bps pc
  else if (pc_packets_received pc =? 1) && (pc_packets_lost pc =? 0) then pc_target_bitrate_bps pc
  else 0.
Definition probe_success (pc : sfu_probe_controller) : bool :=
  let loss_ok := (pc_packets_lost pc =? 0) || (u32 (pc_packets_lost pc * 100) <=? u32 (pc_packets_sent pc * 5)) in
  let bytes_ok := u32 (pc_bytes_target pc * SFU_PROBE_SUCCESS_THRESHOLD_NUM) <=? u32 (pc_bytes_received pc * SFU_PROBE_SUCCESS_THRESHOLD_DEN) in
  let rate_ok := pc_target_bitrate_bps pc * SFU_PROBE_SUCCESS_THRESHOLD_NUM <=? u64 (measured_bps pc * SFU_PROBE_SUCCESS_THRESHOLD_DEN) in
  loss_ok && bytes_ok && rate_ok.
Definition fail_cluster (pc : sfu_probe_controller) (now_us : Z) : sfu_probe_controller :=
  pc <| pc_clusters_failed ::= fun n => u64 (n + 1) |> <| pc_state := PROBE_IDLE |>
     <| pc_cooldown_until_us := now_us + SFU_PROBE_COOLDOWN_FAILURE_US |>.
(** Whether a cluster ended, and the bitrate it proved, 0 for none. *)
Definition sfu_probe_controller_check_cluster_done (pc : sfu_probe_controller) (gcc : option gcc_bwe_context) (now_us : Z)
  : bool * Z * sfu_probe_controller * option gcc_bwe_context :=
  if idle pc then (false, 0, pc, gcc) else
  if pc_aborted pc then (false, 0, pc <| pc_state := PROBE_IDLE |> <| pc_aborted := false |>, set_probing gcc false) else
  if match gcc with Some g => gcc_bwe_is_overusing g | None => false end then (true, 0, fail_cluster pc now_us, set_probing gcc false) else
  if negb (all_feedback pc) && negb (timed_out pc now_us) then (false, 0, pc, gcc) else
  if probe_success pc then
    (true, pc_target_bitrate_bps pc,
     pc <| pc_clusters_succeeded ::= fun n => u64 (n + 1) |> <| pc_state := PROBE_IDLE |>
        <| pc_cooldown_until_us := now_us + SFU_PROBE_COOLDOWN_SUCCESS_US |>, set_probing gcc false)
  else (true, 0, fail_cluster pc now_us, set_probing gcc false).

(** ** The stream that carries the padding *)

(** What the search reads of an entry of the receiver snapshot. *)
Record rtx_entry_view := mk_rtx_view {
  rx_has_screen : bool; rx_screen_rtx_ssrc : Z; rx_screen_rtx_pt : Z; rx_has_video : bool; rx_video_rtx_ssrc : Z; rx_video_rtx_pt : Z
}.
(** The retransmission streams of the session's own screen and camera. *)
Record own_rtx := mk_own_rtx { own_screen_ssrc : Z; own_screen_pt : Z; own_video_ssrc : Z; own_video_pt : Z }.
Fixpoint rtx_of_entries (l : list rtx_entry_view) : option (Z * Z) :=
  match l with
  | [] => None
  | e :: l =>
      if rx_has_screen e && negb (rx_screen_rtx_ssrc e =? 0) then Some (rx_screen_rtx_ssrc e, rx_screen_rtx_pt e)
      else if rx_has_video e && negb (rx_video_rtx_ssrc e =? 0) then Some (rx_video_rtx_ssrc e, rx_video_rtx_pt e)
      else rtx_of_entries l
  end.
Definition find_outbound_rtx_params (snapshot : option (list rtx_entry_view)) (own : own_rtx) : option (Z * Z) :=
  match match snapshot with Some l => rtx_of_entries l | None => None end with
  | Some r => Some r
  | None =>
      if negb (own_screen_ssrc own =? 0) then Some (own_screen_ssrc own, own_screen_pt own)
      else if negb (own_video_ssrc own =? 0) then Some (own_video_ssrc own, own_video_pt own)
      else None
  end.

(** ** A step *)

(** What a step reads and writes of the session. *)
Record probe_session := mk_probe_session {
  pb_controller : sfu_probe_controller;
  pb_gcc : gcc_bwe_context;
  pb_snapshot : option (list rtx_entry_view);
  pb_own : own_rtx;
  pb_camera_counts : list Z;
  pb_screen_counts : list Z;
  pb_rtx : sfu_paced_priority_queue;
  pb_twcc_id : Z;
  pb_translator : seq_translator;
  pb_next_twcc_seq : Z;
  pb_queue : sfu_paced_priority_queue;
  pb_send : send_session
}.
#[export] Instance eta_probe_session : Eta probe_session := fun s =>
  mk_probe_session (pb_controller s) (pb_gcc s) (pb_snapshot s) (pb_own s) (pb_camera_counts s) (pb_screen_counts s) (pb_rtx s)
    (pb_twcc_id s) (pb_translator s) (pb_next_twcc_seq s) (pb_queue s) (pb_send s).

Fixpoint sum_counts (l : list Z) (total : Z) : Z := match l with [] => total | n :: l => sum_counts l (u32 (total + n)) end.
(** Stops at the first queue with packets. *)
Fixpoint any_count (l : list Z) (backlog : Z) : Z :=
  match l with
  | [] => backlog
  | n :: l => if backlog =? 0 then any_count l (if 0 <? n then u32 (backlog + 1) else backlog) else backlog
  end.
Definition media_backlog (s : probe_session) : Z := any_count (pb_screen_counts s) (sum_counts (pb_camera_counts s) 0).

Definition with_controller (s : probe_session) (r : sfu_probe_controller * option gcc_bwe_context) : probe_session :=
  let s := s <| pb_controller := r.1 |> in match r.2 with Some g => s <| pb_gcc := g |> | None => s end.
Definition idle_step (s : probe_session) (rtx_available : bool) (now_us : Z) : probe_session :=
  if sfu_probe_controller_should_probe (pb_controller s) (pb_gcc s) now_us (negb (pb_twcc_id s =? 0)) rtx_available (pq_count (pb_rtx s)) (media_backlog s)
  then let '(_, pc, gcc) := sfu_probe_controller_start_probe (pb_controller s) (Some (pb_gcc s)) now_us in with_controller s (pc, gcc)
  else s.
Definition abort_step (s : probe_session) (now_us : Z) : probe_session :=
  with_controller s (sfu_probe_controller_abort (pb_controller s) (Some (pb_gcc s)) now_us).
Definition finish_step (s : probe_session) (now_us : Z) : probe_session :=
  let '(done, probe_bps, pc, gcc) := sfu_probe_controller_check_cluster_done (pb_controller s) (Some (pb_gcc s)) now_us in
  let s := with_controller s (pc, gcc) in
  if done then
    let s := if 0 <? probe_bps then s <| pb_gcc ::= fun g => gcc_bwe_on_probe_cluster_completed g probe_bps now_us |> else s in
    s <| pb_gcc ::= fun g => gcc_bwe_set_active_probing g false |>
  else s.

(** The counter of the cache; the sequence number of a padding packet is the
    next of the retransmission stream, or counted when there is no cache. *)
Definition take_rtx_seq (s : probe_session) (c : sfu_rtx_cache) : Z * probe_session :=
  (next_rtx_seq c, s <| pb_send ::= fun g => g <| ss_rtx_cache := Some (mk_rtx_cache (entries c) (u16 (next_rtx_seq c + 1))) |> |>).
Definition probe_seq (s : probe_session) (rtx_ssrc : Z) : res (Z * probe_session) :=
  match ss_rtx_cache (pb_send s) with
  | Some c =>
      let '(src_seq, s) := take_rtx_seq s c in
      match sfu_rtp_seq_translate (pb_translator s) rtx_ssrc src_seq with
      | Ok (seq, t) => Ok (seq, s <| pb_translator := t |>)
      | Err => Ok (src_seq, s)
      | Fault => Fault
      end
  | None => Ok (u16 (pc_packets_sent (pb_controller s) + 1), s)
  end.
(** One padding packet, and whether the loop goes on.  [stack] is the buffer on the
    stack, [protect] what SRTP makes of a packet. *)
Definition generate_one (s : probe_session) (rtx_ssrc rtx_pt now_us : Z) (stack : list Z) (protect : list Z -> Z -> Z -> option (list Z * Z))
    (alloc : bool) : res (bool * probe_session) :=
  if (0 <? pq_capacity (pb_queue s)) && (pq_capacity (pb_queue s) <=? pq_count (pb_queue s)) then Ok (false, s) else
  let! (rtp_seq, s) := probe_seq s rtx_ssrc in
  let twcc_seq := pb_next_twcc_seq s in
  let s := s <| pb_next_twcc_seq := u16 (twcc_seq + 1) |> in
  match sfu_rtp_padding_build stack SFU_PACED_SEND_MAX_PAYLOAD rtx_pt rtp_seq 0 rtx_ssrc SFU_RTP_PADDING_DEFAULT_BYTES (pb_twcc_id s) twcc_seq with
  | Fault => Fault
  | Err => Ok (false, s)
  | Ok (packet, built_len) =>
      match protect packet built_len SFU_PACED_SEND_MAX_PAYLOAD with
      | None => Ok (false, s)
      | Some (packet, enc_len) =>
          let g := pb_send s in
          let '(queued, q) :=
            sfu_paced_priority_queue_enqueue_probe (pb_queue s) packet (u16 enc_len) (ss_addr g) (ss_addr_len g) (ss_owner_value g)
              (ss_transport_generation g) (ss_address_generation g) (negb (pb_twcc_id s =? 0)) twcc_seq (pc_cluster_id (pb_controller s))
              now_us alloc in
          let s := s <| pb_queue := q |> in
          if negb queued then Ok (false, s) else
          Ok (true, s <| pb_controller ::= fun pc => pc <| pc_bytes_sent ::= fun n => u32 (n + u32 enc_len) |> <| pc_packets_sent ::= fun n => u32 (n + 1) |> |>)
      end
  end.
(** At most [SFU_PACED_SEND_MAX_DRAIN_PER_SCAN] packets a step. *)
Fixpoint generate_loop (n : nat) (s : probe_session) (rtx_ssrc rtx_pt now_us : Z) (stack : list Z)
    (protect : list Z -> Z -> Z -> option (list Z * Z)) (alloc : bool) : res probe_session :=
  match n with
  | O => Ok s
  | S n =>
      if pc_bytes_sent (pb_controller s) <? pc_bytes_target (pb_controller s) then
        let! (go, s) := generate_one s rtx_ssrc rtx_pt now_us stack protect alloc in
        if go then generate_loop n s rtx_ssrc rtx_pt now_us stack protect alloc else Ok s
      else Ok s
  end.
Definition probing_step (s : probe_session) (rtx : option (Z * Z)) (now_us : Z) (stack : list Z)
    (protect : list Z -> Z -> Z -> option (list Z * Z)) (alloc : bool) : res probe_session :=
  let pc := pb_controller s in
  if gcc_bwe_is_overusing (pb_gcc s) then Ok (abort_step s now_us) else
  match rtx with
  | None => Ok (abort_step s now_us)
  | Some (rtx_ssrc, rtx_pt) =>
      if 0 <? pq_count (pb_rtx s) then Ok (abort_step s now_us)
      else if (0 <? pc_start_time_us pc) && (SFU_PROBE_CLUSTER_TIMEOUT_US <? now_us - pc_start_time_us pc) then Ok (finish_step s now_us)
      else
        let! s := generate_loop (Z.to_nat SFU_PACED_SEND_MAX_DRAIN_PER_SCAN) s rtx_ssrc rtx_pt now_us stack protect alloc in
        Ok (if pc_bytes_target (pb_controller s) <=? pc_bytes_sent (pb_controller s)
            then s <| pb_controller ::= fun pc => pc <| pc_state := PROBE_WAITING_FEEDBACK |> <| pc_send_end_time_us := now_us |> |> else s)
  end.
Definition sfu_probe_controller_step (s : probe_session) (now_us : Z) (stack : list Z) (protect : list Z -> Z -> Z -> option (list Z * Z))
    (alloc : bool) : res probe_session :=
  let rtx := find_outbound_rtx_params (pb_snapshot s) (pb_own s) in
  let pc := pb_controller s in
  match pc_state pc with
  | PROBE_IDLE => Ok (idle_step s (match rtx with Some _ => true | None => false end) now_us)
  | PROBE_PROBING => probing_step s rtx now_us stack protect alloc
  | PROBE_WAITING_FEEDBACK => Ok (if timed_out pc now_us then finish_step s now_us else s)
  end.

(** * The flag of the estimator *)

Definition probing_flag (g : gcc_bwe_context) : bool := active_probing (aimd g).
Lemma set_probing_flag g on : probing_flag (gcc_bwe_set_active_probing g on) = on.
Proof. by destruct on. Qed.
Lemma completed_flag g bps now : probing_flag (gcc_bwe_on_probe_cluster_completed g bps now) = probing_flag g.
Proof.
  unfold gcc_bwe_on_probe_cluster_completed, probing_flag. destruct (_ =? 0); [done|]. destruct (bool_decide _); [done|].
  set (a1 := if current_bitrate_bps (aimd g) <? bps then _ else _). assert (E1 : active_probing a1 = active_probing (aimd g)) by (unfold a1; by case_match).
  clearbody a1. rewrite <- E1. set (a2 := if ack_bitrate_bps a1 <? bps then _ else _).
  assert (E2 : active_probing a2 = active_probing a1) by (unfold a2; by case_match). clearbody a2. rewrite <- E2. by case_match.
Qed.
Lemma update_aimd_flag a u now : active_probing (update_aimd a u now) = active_probing a.
Proof.
  assert (Hc : forall b, active_probing (clamp_bitrate b) = active_probing b) by (intros b; unfold clamp_bitrate; repeat case_match; done).
  unfold update_aimd. rewrite Hc. destruct u; [|done|done]. destruct (bool_decide _); [done|]. set (b := a <| rate_state := _ |>).
  change (active_probing a) with (active_probing b). clearbody b. destruct (_ =? 0); [done|]. destruct (_ <=? _); [|done].
  unfold increase_rate. set (cap := if have_ack_bitrate b then _ else _). clearbody cap. destruct (_ <? _); [done|]. destruct (_ && _); [|done].
  change (active_probing (recovery_probe b cap now) = active_probing b). unfold recovery_probe. repeat case_match; done.
Qed.
Lemma update_ack_flag a pkt : active_probing (update_ack_bitrate a pkt) = active_probing a.
Proof.
  unfold update_ack_bitrate. destruct (_ =? 0); [done|]. set (b := ack_window_extend _ _).
  assert (E : active_probing b = active_probing a) by (unfold b, ack_window_extend, ack_gap_reset; repeat case_match; done). clearbody b.
  set (c := b <| ack_window_bytes ::= _ |>). change (active_probing b) with (active_probing c) in E. clearbody c. by destruct (_ <? _).
Qed.
Lemma packet_flag g pkt : probing_flag (gcc_bwe_process_twcc_packet g pkt).2 = probing_flag g.
Proof.
  unfold gcc_bwe_process_twcc_packet, probing_flag. set (g1 := if _ <? _ then _ else g).
  assert (E1 : aimd g1 = aimd g) by (unfold g1; by case_match). clearbody g1. destruct (_ && _); [by rewrite <- E1|].
  set (g2 := g1 <| aimd ::= _ |>). assert (E2 : active_probing (aimd g2) = active_probing (aimd g)) by (rewrite <- E1; apply update_ack_flag).
  clearbody g2. destruct (_ || _); [exact E2|]. destruct (_ <? _); [|exact E2]. rewrite <- E2. apply update_aimd_flag.
Qed.
Lemma loss_flag g lost total : probing_flag (gcc_bwe_report_loss g lost total).2 = probing_flag g.
Proof.
  unfold gcc_bwe_report_loss, probing_flag. destruct (_ =? 0); [done|]. destruct (_ =? 0); [done|]. destruct (_ <? _); [by destruct (_ <=? _)|].
  by destruct (_ <? _).
Qed.

(** * Any use of the controller *)

Record probe_ok (pc : sfu_probe_controller) (g : gcc_bwe_context) : Prop := {
  po_flag : probing_flag g = sfu_probe_controller_is_probing pc;
  po_aborted : pc_aborted pc = true -> pc_state pc = PROBE_IDLE;
  po_target : pc_state pc <> PROBE_IDLE ->
    pc_target_bitrate_bps pc = target_bitrate (pc_base_bitrate_bps pc) /\ pc_bytes_target pc = target_bytes (pc_target_bitrate_bps pc) /\
    0 < pc_base_bitrate_bps pc < pc_target_bitrate_bps pc /\ pc_target_bitrate_bps pc <= SFU_PROBE_MAX_BITRATE_BPS /\
    750 <= pc_bytes_target pc <= 9375;
  po_probing : pc_state pc = PROBE_PROBING -> pc_bytes_sent pc < pc_bytes_target pc /\ pc_send_end_time_us pc = 0;
  po_waiting : pc_state pc = PROBE_WAITING_FEEDBACK -> pc_bytes_target pc <= pc_bytes_sent pc
}.

Lemma target_range base : 0 < base < SFU_PROBE_MAX_BITRATE_BPS -> base < target_bitrate base <= SFU_PROBE_MAX_BITRATE_BPS.
Proof.
  unfold target_bitrate, SFU_PROBE_MAX_BITRATE_BPS, SFU_PROBE_MIN_STEP_BPS, u32. intros Hb.
  set (step := if base / 2 <? 500000 then 500000 else base / 2).
  assert (Hs : 500000 <= step <= 2500000) by (unfold step; destruct (Z.ltb_spec (base / 2) 500000); dlia). clearbody step.
  destruct (Z.ltb_spec 5000000 (base + step)); rewrite Z.mod_small; lia.
Qed.
Lemma bytes_range target : 0 < target <= SFU_PROBE_MAX_BITRATE_BPS -> 750 <= target_bytes target <= 9375.
Proof.
  unfold target_bytes, SFU_PROBE_MAX_BITRATE_BPS, SFU_PROBE_CLUSTER_DURATION_US, u32. intros Ht.
  rewrite Z.mod_small by dlia. destruct (Z.ltb_spec (target * 15000 / 8000000) 750); dlia.
Qed.
Lemma ended_ok pc pc' g : probe_ok pc g -> pc_state pc' = PROBE_IDLE -> probe_ok pc' (gcc_bwe_set_active_probing g false).
Proof. intros _ E. constructor; rewrite ?E; try done. rewrite set_probing_flag. unfold sfu_probe_controller_is_probing, idle. by rewrite E. Qed.
Lemma start_ok pc g now ok pc' g' : probe_ok pc g -> 0 <= gcc_bwe_get_bitrate g ->
  sfu_probe_controller_start_probe pc (Some g) now = (ok, pc', Some g') -> probe_ok pc' g'.
Proof.
  intros H Hb. unfold sfu_probe_controller_start_probe. destruct (negb (idle pc)); [by intros [= <- <- <-]|].
  assert (Hbase : 0 < base_bitrate (Some g)) by (unfold base_bitrate; destruct (Z.eqb_spec (gcc_bwe_get_bitrate g) 0); lia).
  set (base := base_bitrate (Some g)) in *. clearbody base. destruct (Z.leb_spec SFU_PROBE_MAX_BITRATE_BPS base); [by intros [= <- <- <-]|].
  pose proof (target_range base ltac:(lia)) as Ht. set (target := target_bitrate base) in *.
  pose proof (bytes_range target ltac:(lia)) as Hy. intros E. cbv zeta in E. set (pc2 := set pc_clusters_started _ _) in E. injection E as <- <- <-.
  constructor; try done.
  - intros _. change (target = target_bitrate base /\ target_bytes target = target_bytes target /\ 0 < base < target /\
      target <= SFU_PROBE_MAX_BITRATE_BPS /\ 750 <= target_bytes target <= 9375). split_and!; try done; lia.
  - intros _. change (0 < target_bytes target /\ 0 = 0). lia.
Qed.

(** A change of the counters of what came back. *)
Lemma counters_ok pc pc' g :
  (pc_state pc', pc_aborted pc', pc_base_bitrate_bps pc', pc_target_bitrate_bps pc', pc_bytes_target pc', pc_bytes_sent pc', pc_send_end_time_us pc') =
  (pc_state pc, pc_aborted pc, pc_base_bitrate_bps pc, pc_target_bitrate_bps pc, pc_bytes_target pc, pc_bytes_sent pc, pc_send_end_time_us pc) ->
  probe_ok pc g -> probe_ok pc' g.
Proof.
  intros [= E1 E2 E3 E4 E5 E6 E7] [H1 H2 H3 H4 H5]. constructor; unfold sfu_probe_controller_is_probing, idle in *; rewrite ?E1, ?E2, ?E3, ?E4, ?E5, ?E6, ?E7; done.
Qed.
Lemma received_ok pc g id size recv : probe_ok pc g -> probe_ok (sfu_probe_controller_on_packet_received pc id size recv) g.
Proof.
  intros H. unfold sfu_probe_controller_on_packet_received. destruct (_ && _); [|done]. set (p1 := pc <| pc_packets_received ::= _ |> <| pc_bytes_received ::= _ |>).
  assert (H1 : probe_ok p1 g) by (by apply (counters_ok pc)). clearbody p1. set (p2 := if _ || _ then _ else p1).
  assert (H2 : probe_ok p2 g) by (unfold p2; destruct (_ || _); [by apply (counters_ok p1)|done]). clearbody p2.
  destruct (_ <? _); [by apply (counters_ok p2)|done].
Qed.
Lemma lost_ok pc g id : probe_ok pc g -> probe_ok (sfu_probe_controller_on_packet_lost pc id) g.
Proof. intros H. unfold sfu_probe_controller_on_packet_lost. destruct (_ && _); [by apply (counters_ok pc)|done]. Qed.
Lemma abort_ok pc g now pc' g' : probe_ok pc g -> sfu_probe_controller_abort pc (Some g) now = (pc', Some g') -> probe_ok pc' g'.
Proof.
  intros H. unfold sfu_probe_controller_abort. destruct (idle pc); [by intros [= <- <-]|]. intros E. cbv zeta in E. cbn [set_probing option_map] in E.
  injection E as <- <-. by apply (ended_ok pc).
Qed.
(** What the end of a cluster leaves: the same controller and estimator, or an idle one. *)
Lemma done_cases pc g now done bps pc' g' :
  probe_ok pc g -> sfu_probe_controller_check_cluster_done pc (Some g) now = (done, bps, pc', Some g') ->
  (pc', g') = (pc, g) /\ done = false \/ probe_ok pc' g' /\ g' = gcc_bwe_set_active_probing g false /\ pc_state pc' = PROBE_IDLE.
Proof.
  intros H. unfold sfu_probe_controller_check_cluster_done. destruct (idle pc); [intros [= <- <- <- <-]; by left|]. cbn [set_probing option_map].
  destruct (pc_aborted pc); [intros [= <- <- <- <-]; right; split_and!; try done; by apply (ended_ok pc)|].
  destruct (gcc_bwe_is_overusing g); [intros [= <- <- <- <-]; right; split_and!; try done; by apply (ended_ok pc)|].
  destruct (_ && _); [intros [= <- <- <- <-]; by left|].
  destruct (probe_success pc); intros [= <- <- <- <-]; right; split_and!; try done; by apply (ended_ok pc).
Qed.

(** ** The session around it *)

Section Limits.
Context (lo hi : Z) (Hlim : 0 < lo <= hi) (Hhi : is_u32 hi).

Definition view_ok (e : rtx_entry_view) : Prop :=
  is_u32 (rx_screen_rtx_ssrc e) /\ 0 <= rx_screen_rtx_pt e /\ is_u32 (rx_video_rtx_ssrc e) /\ 0 <= rx_video_rtx_pt e.
Definition own_ok (o : own_rtx) : Prop := is_u32 (own_screen_ssrc o) /\ 0 <= own_screen_pt o /\ is_u32 (own_video_ssrc o) /\ 0 <= own_video_pt o.
(** The numbers of the streams are 16-bit. *)
Definition numbers_ok (t : seq_translator) : Prop := exists m, represents t m /\ forall k v, m !! k = Some v -> is_u16 v.
Record world_ok (s : probe_session) : Prop := {
  wo_snapshot : match pb_snapshot s with Some l => Forall view_ok l | None => True end;
  wo_own : own_ok (pb_own s);
  wo_twcc : 0 <= pb_twcc_id s /\ is_u16 (pb_next_twcc_seq s);
  wo_cache : match option_map next_rtx_seq (ss_rtx_cache (pb_send s)) with Some n => is_u16 n | None => True end;
  wo_numbers : numbers_ok (pb_translator s)
}.
Record session_ok (s : probe_session) : Prop := {
  so_probe : probe_ok (pb_controller s) (pb_gcc s);
  so_gcc : gcc_inv lo hi (pb_gcc s);
  so_world : world_ok s
}.

Lemma session_bitrate s : session_ok s -> 0 <= gcc_bwe_get_bitrate (pb_gcc s).
Proof. intros [_ [_ [_ _ H _ _]] _]. unfold gcc_bwe_get_bitrate. lia. Qed.
Lemma gcc_ok g g' : gcc_step g g' -> gcc_inv lo hi g -> gcc_inv lo hi g'.
Proof. by apply gcc_step_inv. Qed.
(** Replacing the controller and the estimator. *)
Definition world (s : probe_session) := (pb_snapshot s, pb_own s, pb_twcc_id s, pb_next_twcc_seq s, option_map next_rtx_seq (ss_rtx_cache (pb_send s)), pb_translator s).
Lemma world_same s s' : world s' = world s -> world_ok s -> world_ok s'.
Proof. intros [= E1 E2 E3 E4 E5 E6] [H1 H2 H3 H4 H5]. constructor; rewrite ?E1, ?E2, ?E3, ?E4, ?E5, ?E6; done. Qed.
Lemma with_controller_ok s pc g : world_ok s -> probe_ok pc g -> gcc_inv lo hi g -> session_ok (with_controller s (pc, Some g)).
Proof. intros Hw Hp Hg. constructor; [exact Hp|exact Hg|]. by apply (world_same s). Qed.

Lemma idle_step_ok s rtx now : session_ok s -> session_ok (idle_step s rtx now).
Proof.
  intros H. unfold idle_step. destruct (sfu_probe_controller_should_probe _ _ _ _ _ _ _); [|done].
  destruct (sfu_probe_controller_start_probe (pb_controller s) (Some (pb_gcc s)) now) as [[ok pc] g] eqn:E.
  assert (Hg : exists g', g = Some g' /\ (g' = pb_gcc s \/ g' = gcc_bwe_set_active_probing (pb_gcc s) true)).
  { unfold sfu_probe_controller_start_probe in E. destruct (negb _); [injection E as <- <- <-; eauto|]. destruct (_ <=? _); injection E as <- <- <-; eauto. }
  destruct Hg as (g' & -> & Hg). destruct H as [Hp Hi Hw] eqn:EH. apply with_controller_ok; [done| |].
  - apply (start_ok _ _ _ _ _ _ Hp) in E; [done|]. by apply session_bitrate.
  - destruct Hg as [-> | ->]; [done|]. apply (gcc_ok (pb_gcc s)); [apply gcc_probing|done].
Qed.
Lemma abort_step_ok s now : session_ok s -> session_ok (abort_step s now).
Proof.
  intros [Hp Hi Hw]. unfold abort_step. destruct (sfu_probe_controller_abort _ _ now) as [pc g] eqn:E.
  assert (Hg : exists g', g = Some g' /\ (g' = pb_gcc s \/ g' = gcc_bwe_set_active_probing (pb_gcc s) false)).
  { unfold sfu_probe_controller_abort in E. destruct (idle _); injection E as <- <-; eauto. }
  destruct Hg as (g' & -> & Hg). apply with_controller_ok; [done|by eapply abort_ok|]. destruct Hg as [-> | ->]; [done|].
  apply (gcc_ok (pb_gcc s)); [apply gcc_probing|done].
Qed.
(** Another estimator with the same flag. *)
Lemma probe_ok_flag pc g g' : probing_flag g' = probing_flag g -> probe_ok pc g -> probe_ok pc g'.
Proof. intros E [F A T P W]. constructor; try done. by rewrite E. Qed.
Lemma estimator_ok s g : session_ok s -> gcc_step (pb_gcc s) g -> probing_flag g = probing_flag (pb_gcc s) -> session_ok (s <| pb_gcc := g |>).
Proof.
  intros [Hp Hi Hw] Hs E. constructor; [by apply (probe_ok_flag _ (pb_gcc s))|by apply (gcc_ok (pb_gcc s))|by apply (world_same s)].
Qed.
Lemma cluster_done_ok s now d bps pc g : session_ok s -> sfu_probe_controller_check_cluster_done (pb_controller s) (Some (pb_gcc s)) now = (d, bps, pc, g) ->
  session_ok (with_controller s (pc, g)) /\ is_u32 bps /\ (d = true -> pc_state pc = PROBE_IDLE).
Proof.
  intros [Hp Hi Hw] E. assert (Hg : exists g', g = Some g' /\ is_u32 bps).
  { unfold sfu_probe_controller_check_cluster_done, idle in E. destruct (bool_decide_reflect (pc_state (pb_controller s) = PROBE_IDLE)) as [|Hne].
    { injection E as <- <- <- <-. eexists. by split. }
    apply (po_target _ _ Hp) in Hne as (_ & _ & Hb & Ht & _). unfold SFU_PROBE_MAX_BITRATE_BPS in Ht.
    repeat case_match; injection E as <- <- <- <-; eexists; (split; [done|]); unfold is_u32; lia. }
  destruct Hg as (g' & -> & Hb). destruct (done_cases _ _ _ _ _ _ _ Hp E) as [[[= -> ->] ->]|(Hp' & -> & Hidle)].
  - split_and!; [by apply with_controller_ok|done|done].
  - split_and!; [|done|done]. apply with_controller_ok; try done. apply (gcc_ok (pb_gcc s)); [apply gcc_probing|done].
Qed.
Lemma completed_ok s bps now : session_ok s -> is_u32 bps -> session_ok (s <| pb_gcc ::= fun g => gcc_bwe_on_probe_cluster_completed g bps now |>).
Proof. intros H Hb. apply (estimator_ok s); [done|by apply gcc_probed|apply completed_flag]. Qed.
Lemma finish_step_ok s now : session_ok s -> session_ok (finish_step s now).
Proof.
  intros H. unfold finish_step. destruct (sfu_probe_controller_check_cluster_done _ _ now) as [[[d bps] pc] g] eqn:E.
  destruct (cluster_done_ok s now d bps pc g H E) as (H1 & Hb & Hd). set (s1 := with_controller s _) in *.
  assert (E1 : pb_controller s1 = pc) by (unfold s1, with_controller; by destruct g). clearbody s1. destruct d; [|done]. specialize (Hd eq_refl).
  set (s2 := if 0 <? bps then _ else s1).
  assert (H2 : session_ok s2 /\ pb_controller s2 = pc) by (unfold s2; destruct (0 <? bps); [|done]; split; [by apply completed_ok|done]).
  clearbody s2. destruct H2 as [[_ Hi2 Hw2] E2]. constructor; [|apply (gcc_ok (pb_gcc s2)); [apply gcc_probing|done]|by apply (world_same s2)].
  change (probe_ok (pb_controller s2) (gcc_bwe_set_active_probing (pb_gcc s2) false)). rewrite E2.
  constructor; rewrite ?Hd; try done. rewrite set_probing_flag. unfold sfu_probe_controller_is_probing, idle. by rewrite Hd.
Qed.

Lemma rtx_params_ok s ssrc pt : world_ok s -> find_outbound_rtx_params (pb_snapshot s) (pb_own s) = Some (ssrc, pt) -> is_u32 ssrc /\ 0 <= pt.
Proof.
  intros [Hs (O1 & O2 & O3 & O4) _ _ _]. unfold find_outbound_rtx_params.
  assert (He : forall l, Forall view_ok l -> rtx_of_entries l = Some (ssrc, pt) -> is_u32 ssrc /\ 0 <= pt).
  { intros l Hl. induction Hl as [|e l (V1 & V2 & V3 & V4) _ IH]; [done|]. cbn [rtx_of_entries].
    destruct (_ && _); [by intros [= <- <-]|]. destruct (_ && _); [by intros [= <- <-]|done]. }
  destruct (match pb_snapshot s with Some l => rtx_of_entries l | None => None end) as [[a b]|] eqn:E.
  - intros [= -> ->]. destruct (pb_snapshot s) as [l|]; [by apply (He l)|done].
  - destruct (negb _); [by intros [= <- <-]|]. destruct (negb _); [by intros [= <- <-]|done].
Qed.
Lemma numbers_insert t m ssrc v : represents t m -> (forall k v, m !! k = Some v -> is_u16 v) ->
  (forall t', represents t' (<[ssrc := u16 v]> m) -> numbers_ok t').
Proof.
  intros Hm Hv t' Ht. exists (<[ssrc := u16 v]> m). split; [done|]. intros k x.
  destruct (decide (k = ssrc)) as [->|]; [rewrite fin_maps.lookup_insert_eq; intros [= <-]; apply u16_range|rewrite fin_maps.lookup_insert_ne by done; apply Hv].
Qed.
Definition inner (s : probe_session) := (pb_controller s, pb_gcc s, pb_snapshot s, pb_own s, pb_twcc_id s).
Lemma take_seq_ok s c : world_ok s -> ss_rtx_cache (pb_send s) = Some c -> world_ok (take_rtx_seq s c).2 /\ is_u16 (take_rtx_seq s c).1.
Proof. intros [W1 W2 W3 W4 W5] E. rewrite E in W4. split; [constructor; try done; apply u16_range|exact W4]. Qed.
Lemma session_translate s ssrc n : world_ok s -> is_u16 n ->
  (exists seq t, sfu_rtp_seq_translate (pb_translator s) ssrc n = Ok (seq, t) /\ is_u16 seq /\ world_ok (s <| pb_translator := t |>)) \/
  sfu_rtp_seq_translate (pb_translator s) ssrc n = Err.
Proof.
  intros [W1 W2 W3 W4 W5] H16. pose proof W5 as (m & Hm & Hv). pose proof (translate_refines (pb_translator s) m ssrc n Hm) as T.
  assert (Hn : forall t v, represents t (<[ssrc := u16 v]> m) -> world_ok (s <| pb_translator := t |>))
    by (intros t v Ht; constructor; try done; by apply (numbers_insert (pb_translator s) m ssrc v)).
  destruct (m !! ssrc) as [v|] eqn:Ev; [destruct T as (t & -> & Ht)|destruct T as [(t & -> & Ht)|[-> _]]]; [left|left|by right];
    (do 2 eexists; split; [done|]; split; [by eauto|by eauto]).
Qed.
Lemma probe_seq_ok s ssrc : world_ok s -> exists seq s', probe_seq s ssrc = Ok (seq, s') /\ world_ok s' /\ is_u16 seq /\ inner s' = inner s.
Proof.
  intros H. unfold probe_seq. destruct (ss_rtx_cache (pb_send s)) as [c|] eqn:En.
  - destruct (take_seq_ok s c H En) as [H1 Hn]. assert (Hi : inner (take_rtx_seq s c).2 = inner s) by done.
    destruct (take_rtx_seq s c) as [n s1]. cbn [fst snd] in *.
    destruct (session_translate s1 ssrc n H1 Hn) as [(seq & t & -> & Hs & Ht)| ->]; do 2 eexists; (split; [done|]; by split_and!).
  - do 2 eexists. split; [done|]. split_and!; [done|apply u16_range|done].
Qed.
Lemma padding_safe stack pt seq ssrc id twcc : bytes_ok stack -> zlen stack = SFU_PACED_SEND_MAX_PAYLOAD -> 0 <= pt -> is_u16 seq -> is_u32 ssrc -> 0 <= id ->
  sfu_rtp_padding_build stack SFU_PACED_SEND_MAX_PAYLOAD pt seq 0 ssrc SFU_RTP_PADDING_DEFAULT_BYTES id twcc <> Fault.
Proof.
  intros. pose proof (padding_build_correct stack SFU_PACED_SEND_MAX_PAYLOAD pt seq 0 ssrc SFU_RTP_PADDING_DEFAULT_BYTES id twcc) as E. cbv zeta in E.
  rewrite E by (done || unfold is_u32 in *; lia). by destruct (_ && _).
Qed.
Definition stack_ok (stack : list Z) : Prop := bytes_ok stack /\ zlen stack = SFU_PACED_SEND_MAX_PAYLOAD.

(** A packet leaves the phase of the cluster as it is. *)
Definition phase (pc : sfu_probe_controller) :=
  (pc_state pc, pc_aborted pc, pc_base_bitrate_bps pc, pc_target_bitrate_bps pc, pc_bytes_target pc, pc_send_end_time_us pc).

Lemma generate_one_ok s ssrc pt now stack protect alloc : world_ok s -> is_u32 ssrc -> 0 <= pt -> stack_ok stack ->
  exists go s', generate_one s ssrc pt now stack protect alloc = Ok (go, s') /\ world_ok s' /\ pb_gcc s' = pb_gcc s /\
    phase (pb_controller s') = phase (pb_controller s).
Proof.
  intros H Hs Hpt [Hst1 Hst2]. unfold generate_one. destruct (_ && _); [by do 2 eexists|].
  destruct (probe_seq_ok s ssrc H) as (seq & s1 & -> & H1 & Hseq & [= E1 E2 _ _ _]). cbn [res_bind].
  set (s2 := s1 <| pb_next_twcc_seq := _ |>).
  assert (H2 : world_ok s2) by (destruct H1 as [W1 W2 [W3 _] W4 W5]; constructor; try done; split; [done|apply u16_range]).
  assert (E2' : pb_gcc s2 = pb_gcc s) by (by rewrite <- E2). assert (E1' : pb_controller s2 = pb_controller s) by (by rewrite <- E1).
  set (tw := pb_next_twcc_seq s1). clearbody s2 tw. pose proof (padding_safe stack pt seq ssrc (pb_twcc_id s2) tw Hst1 Hst2 Hpt Hseq Hs (proj1 (wo_twcc _ H2))) as N.
  destruct (sfu_rtp_padding_build _ _ _ _ _ _ _ _ _) as [[packet n]| |]; [| |done].
  2: { do 2 eexists. split; [done|]. split; [done|]. by rewrite E1'. }
  destruct (protect packet n SFU_PACED_SEND_MAX_PAYLOAD) as [[packet' enc]|]; [|do 2 eexists; split; [done|]; split; [done|]; by rewrite E1'].
  destruct (sfu_paced_priority_queue_enqueue_probe _ _ _ _ _ _ _ _ _ _ _ _ _) as [queued q]. set (s3 := s2 <| pb_queue := q |>).
  assert (H3 : world_ok s3) by (by apply (world_same s2)). assert (E3 : pb_controller s3 = pb_controller s) by done. assert (E4 : pb_gcc s3 = pb_gcc s) by done.
  clearbody s3. destruct queued; cbn [negb]; do 2 eexists; (split; [done|]); [|split; [done|]; by rewrite E3].
  split; [by apply (world_same s3)|]. split; [done|]. rewrite <- E3. done.
Qed.
Lemma generate_loop_ok n : forall s ssrc pt now stack protect alloc, world_ok s -> is_u32 ssrc -> 0 <= pt -> stack_ok stack ->
  exists s', generate_loop n s ssrc pt now stack protect alloc = Ok s' /\ world_ok s' /\ pb_gcc s' = pb_gcc s /\
    phase (pb_controller s') = phase (pb_controller s).
Proof.
  induction n as [|n IH]; intros s ssrc pt now stack protect alloc H Hs Hpt Hst; cbn [generate_loop]; [by eexists|].
  destruct (_ <? _); [|by eexists]. destruct (generate_one_ok s ssrc pt now stack protect alloc H Hs Hpt Hst) as (go & s1 & -> & H1 & E1 & E2).
  cbn [res_bind]. destruct go; [|by eexists]. destruct (IH s1 ssrc pt now stack protect alloc H1 Hs Hpt Hst) as (s2 & -> & H2 & E3 & E4).
  eexists. split; [done|]. split; [done|]. by rewrite E3, E4.
Qed.
(** The end of a sending step: the cluster goes on, or waits. *)
Lemma sent_ok pc pc' g now : probe_ok pc g -> pc_state pc = PROBE_PROBING -> phase pc' = phase pc ->
  probe_ok (if pc_bytes_target pc' <=? pc_bytes_sent pc' then pc' <| pc_state := PROBE_WAITING_FEEDBACK |> <| pc_send_end_time_us := now |> else pc') g.
Proof.
  intros [F A T P W] E [= E1 E2 E3 E4 E5 E6]. rewrite E in E1. unfold sfu_probe_controller_is_probing, idle in *. rewrite E in F, A, T.
  assert (Ha : pc_aborted pc' = false) by (rewrite E2; destruct (pc_aborted pc); [by specialize (A eq_refl)|done]).
  specialize (T ltac:(done)). rewrite <- E3, <- E4, <- E5 in T. destruct (Z.leb_spec (pc_bytes_target pc') (pc_bytes_sent pc')).
  - set (p := pc' <| pc_state := _ |> <| pc_send_end_time_us := _ |>). constructor; try done. change (pc_aborted p) with (pc_aborted pc'). by rewrite Ha.
  - constructor; try done; unfold sfu_probe_controller_is_probing, idle; rewrite ?E1, ?Ha; try done. intros _. split; [done|]. rewrite E6. by apply P.
Qed.
Lemma step_ok s now stack protect alloc : session_ok s -> stack_ok stack ->
  exists s', sfu_probe_controller_step s now stack protect alloc = Ok s' /\ session_ok s'.
Proof.
  intros H Hst. unfold sfu_probe_controller_step. destruct (pc_state (pb_controller s)) eqn:Es.
  - eexists. split; [done|]. by apply idle_step_ok.
  - unfold probing_step. destruct (gcc_bwe_is_overusing _); [eexists; split; [done|by apply abort_step_ok]|].
    destruct (find_outbound_rtx_params _ _) as [[ssrc pt]|] eqn:Er; [|eexists; split; [done|by apply abort_step_ok]].
    destruct (0 <? _); [eexists; split; [done|by apply abort_step_ok]|]. destruct (_ && _); [eexists; split; [done|by apply finish_step_ok]|].
    destruct H as [Hp Hi Hw]. destruct (rtx_params_ok s ssrc pt Hw Er) as [R1 R2].
    destruct (generate_loop_ok (Z.to_nat SFU_PACED_SEND_MAX_DRAIN_PER_SCAN) s ssrc pt now stack protect alloc Hw R1 R2 Hst) as (s1 & -> & H1 & E1 & E2).
    cbn [res_bind]. eexists. split; [done|]. pose proof (sent_ok _ _ _ now Hp Es E2) as Hs. rewrite <- E1 in Hs, Hi.
    destruct (_ <=? _); constructor; try done. by apply (world_same s1).
  - eexists. split; [done|]. destruct (timed_out _ _); [by apply finish_step_ok|done].
Qed.

(** ** What a step leaves alone *)

Definition kept (s : probe_session) :=
  (pb_rtx s, ss_pacer (pb_send s), ss_twcc_history (pb_send s), option_map entries (ss_rtx_cache (pb_send s))).
Lemma with_controller_kept s r : kept (with_controller s r) = kept s.
Proof. unfold with_controller. by destruct r as [pc [g|]]. Qed.
Lemma finish_step_kept s now : kept (finish_step s now) = kept s.
Proof.
  unfold finish_step. destruct (sfu_probe_controller_check_cluster_done _ _ _) as [[[d bps] pc] g]. rewrite <- (with_controller_kept s (pc, g)).
  set (s1 := with_controller s (pc, g)). clearbody s1. destruct d; [|done]. by destruct (0 <? bps).
Qed.
Lemma probe_seq_kept s ssrc seq s' : probe_seq s ssrc = Ok (seq, s') -> kept s' = kept s.
Proof.
  unfold probe_seq, kept. destruct (ss_rtx_cache (pb_send s)) as [c|] eqn:E; [|intros [= _ <-]; by rewrite E]. cbn [take_rtx_seq].
  destruct (sfu_rtp_seq_translate _ _ _) as [[n t]| |]; [| |done]; by intros [= _ <-].
Qed.
Lemma generate_one_kept s ssrc pt now stack protect alloc go s' : generate_one s ssrc pt now stack protect alloc = Ok (go, s') -> kept s' = kept s.
Proof.
  unfold generate_one. destruct (_ && _); [by intros [= _ <-]|]. intros E. apply res_bind_ok in E as ([seq s1] & E1 & E). apply probe_seq_kept in E1.
  cbv zeta in E. set (s2 := s1 <| pb_next_twcc_seq := _ |>) in E. change (kept s1) with (kept s2) in E1. rewrite <- E1. clearbody s2.
  destruct (sfu_rtp_padding_build _ _ _ _ _ _ _ _ _) as [[pk n]| |]; [|by injection E as _ <-|done].
  destruct (protect pk n _) as [[pk' en]|]; [|by injection E as _ <-].
  destruct (sfu_paced_priority_queue_enqueue_probe _ _ _ _ _ _ _ _ _ _ _ _ _) as [[] q]; cbn [negb] in E; by injection E as _ <-.
Qed.
Lemma step_kept s now stack protect alloc s' : sfu_probe_controller_step s now stack protect alloc = Ok s' -> kept s' = kept s.
Proof.
  unfold sfu_probe_controller_step. destruct (pc_state _).
  - intros [= <-]. unfold idle_step. destruct (sfu_probe_controller_should_probe _ _ _ _ _ _ _); [|done].
    destruct (sfu_probe_controller_start_probe _ _ _) as [[? pc] g]. apply with_controller_kept.
  - unfold probing_step. destruct (gcc_bwe_is_overusing _); [intros [= <-]; apply with_controller_kept|].
    destruct (find_outbound_rtx_params _ _) as [[ssrc pt]|]; [|intros [= <-]; apply with_controller_kept].
    destruct (0 <? _); [intros [= <-]; apply with_controller_kept|]. destruct (_ && _); [intros [= <-]; apply finish_step_kept|].
    intros E. apply res_bind_ok in E as (s1 & E1 & E).
    assert (K : forall n s s1, generate_loop n s ssrc pt now stack protect alloc = Ok s1 -> kept s1 = kept s).
    { clear. induction n as [|n IH]; intros s s1; cbn [generate_loop]; [by intros [= <-]|]. destruct (_ <? _); [|by intros [= <-]].
      intros E. apply res_bind_ok in E as ([go s2] & E2 & E). apply generate_one_kept in E2. destruct go; [|injection E as <-; done]. by rewrite (IH _ _ E). }
    apply K in E1. rewrite <- E1. destruct (_ <=? _); by injection E as <-.
  - intros [= <-]. destruct (timed_out _ _); [apply finish_step_kept|done].
Qed.

(** ** The end of a cluster *)

Lemma completed_rate g bps now : gcc_inv lo hi g -> 0 < bps -> usage_state (trendline g) <> BWE_OVERUSE ->
  gcc_bwe_get_bitrate (gcc_bwe_on_probe_cluster_completed g bps now) = Z.max (gcc_bwe_get_bitrate g) (Z.min bps hi).
Proof.
  clear Hlim Hhi. intros [_ [H1 H2 H3 _ _]] Hb Hu. unfold gcc_bwe_on_probe_cluster_completed, gcc_bwe_get_bitrate.
  destruct (Z.eqb_spec bps 0); [lia|]. rewrite bool_decide_eq_false_2 by done.
  set (a1 := if current_bitrate_bps (aimd g) <? bps then _ else _).
  assert (E1 : current_bitrate_bps a1 = Z.max (current_bitrate_bps (aimd g)) (Z.min bps hi)).
  { unfold a1. destruct (Z.ltb_spec (current_bitrate_bps (aimd g)) bps); [|lia]. rewrite H1, H2. cbn.
    destruct (Z.ltb_spec hi bps); repeat case_match; bool_hyps; lia. }
  clearbody a1. rewrite <- E1. set (a2 := if ack_bitrate_bps a1 <? bps then _ else _).
  assert (E2 : current_bitrate_bps a2 = current_bitrate_bps a1) by (unfold a2; by case_match). clearbody a2. rewrite <- E2. by case_match.
Qed.
End Limits.

(** Counters for which the 32-bit products of the test do not wrap. *)
Definition counters_small (pc : sfu_probe_controller) : Prop :=
  0 <= pc_packets_sent pc < 2 ^ 25 /\ 0 <= pc_packets_lost pc < 2 ^ 25 /\ 0 <= pc_bytes_received pc < 2 ^ 25 /\ 0 <= pc_packets_received pc < 2 ^ 25.
(** What counts as arrived: at most 5% lost, 85% of the bytes, 85% of the rate. *)
Definition cluster_arrived (pc : sfu_probe_controller) : Prop :=
  20 * pc_packets_lost pc <= pc_packets_sent pc /\ 85 * pc_bytes_target pc <= 100 * pc_bytes_received pc /\
  85 * pc_target_bitrate_bps pc <= 100 * measured_bps pc.
Lemma measured_range pc : counters_small pc -> 0 <= pc_target_bitrate_bps pc <= SFU_PROBE_MAX_BITRATE_BPS -> 0 <= measured_bps pc <= 2 ^ 25 * 8000000.
Proof.
  unfold counters_small, SFU_PROBE_MAX_BITRATE_BPS, measured_bps. intros (_ & _ & Hb & _) Ht. destruct (_ <=? _).
  - destruct (Z.ltb_spec 0 (pc_last_recv_us pc - pc_first_recv_us pc)); [|lia]. split; [apply Z.div_pos; lia|].
    apply Z.div_le_upper_bound; [lia|]. nia.
  - destruct (_ && _); lia.
Qed.
Lemma success_exact pc g : probe_ok pc g -> pc_state pc <> PROBE_IDLE -> counters_small pc ->
  probe_success pc = true <-> cluster_arrived pc.
Proof.
  intros H Hs Hc. apply (po_target _ _ H) in Hs as (_ & _ & Hb & Ht & Hy). pose proof (measured_range pc Hc ltac:(lia)) as Hm.
  destruct Hc as (C1 & C2 & C3 & C4). unfold probe_success, cluster_arrived, SFU_PROBE_SUCCESS_THRESHOLD_NUM, SFU_PROBE_SUCCESS_THRESHOLD_DEN, u32, u64.
  unfold SFU_PROBE_MAX_BITRATE_BPS in Ht. rewrite !Z.mod_small by lia.
  rewrite !andb_true_iff, orb_true_iff, Z.eqb_eq, !Z.leb_le. lia.
Qed.

Lemma finish_outcome lo hi s now : session_ok lo hi s -> pc_state (pb_controller s) = PROBE_WAITING_FEEDBACK ->
  timed_out (pb_controller s) now = true ->
  let s' := finish_step s now in let ok := negb (gcc_bwe_is_overusing (pb_gcc s)) && probe_success (pb_controller s) in
  pc_state (pb_controller s') = PROBE_IDLE /\ probing_flag (pb_gcc s') = false /\
  pc_cooldown_until_us (pb_controller s') = now + (if ok then SFU_PROBE_COOLDOWN_SUCCESS_US else SFU_PROBE_COOLDOWN_FAILURE_US) /\
  gcc_bwe_get_bitrate (pb_gcc s') =
    if ok then Z.max (gcc_bwe_get_bitrate (pb_gcc s)) (Z.min (pc_target_bitrate_bps (pb_controller s)) hi) else gcc_bwe_get_bitrate (pb_gcc s).
Proof.
  intros H Es Ht. unfold finish_step, sfu_probe_controller_check_cluster_done, idle. rewrite bool_decide_eq_false_2 by (by rewrite Es).
  destruct (pc_aborted _) eqn:Ea; [by apply (po_aborted _ _ (so_probe _ _ _ H)) in Ea; rewrite Es in Ea|].
  destruct (gcc_bwe_is_overusing (pb_gcc s)) eqn:Ho; cbn [negb andb]; [by split_and!|]. rewrite Ht, andb_false_r.
  destruct (po_target _ _ (so_probe _ _ _ H)) as (_ & _ & Hb & _); [by rewrite Es|]. cbn [set_probing option_map].
  destruct (probe_success _); cbv zeta.
  - rewrite (proj2 (Z.ltb_lt 0 _)) by lia. set (g := gcc_bwe_set_active_probing (pb_gcc s) false).
    assert (Hg : gcc_inv lo hi g) by (destruct H as [_ [? [? ? ? ? ?]] _]; constructor; [done|by constructor]).
    assert (Hu : usage_state (trendline g) <> BWE_OVERUSE).
    { change (usage_state (trendline g)) with (usage_state (trendline (pb_gcc s))). intros E. unfold gcc_bwe_is_overusing in Ho. by rewrite E in Ho. }
    pose proof (completed_rate lo hi g (pc_target_bitrate_bps (pb_controller s)) now Hg ltac:(lia) Hu) as Hr. by split_and!.
  - by split_and!.
Qed.

(** C36: A cluster that has been sent and has waited out its half second ends
    at the next step: the controller is idle and the estimator no longer in
    its probing mode.  Either the estimator sees no overuse and the cluster
    arrived, and then the estimate is raised to the probed rate (within the
    limit, never lowered) and the next probe may come after 250 ms; or there
    is overuse or the cluster did not arrive, and then the estimate is as it
    was and the next probe waits a second.  The counters of the cluster are
    taken to be below 2^25, so that the 32-bit products of the test, which
    the code does not guard, do not wrap. *)
Theorem probe_cluster_outcome lo hi s now stack protect alloc :
  session_ok lo hi s -> pc_state (pb_controller s) = PROBE_WAITING_FEEDBACK -> 0 < pc_send_end_time_us (pb_controller s) ->
  SFU_PROBE_CLUSTER_TIMEOUT_US < now - pc_send_end_time_us (pb_controller s) -> counters_small (pb_controller s) ->
  exists s', sfu_probe_controller_step s now stack protect alloc = Ok s' /\
    pc_state (pb_controller s') = PROBE_IDLE /\ active_probing (aimd (pb_gcc s')) = false /\
    (gcc_bwe_is_overusing (pb_gcc s) = false /\ cluster_arrived (pb_controller s) /\ pc_cooldown_until_us (pb_controller s') = now + 250000 /\
     gcc_bwe_get_bitrate (pb_gcc s') = Z.max (gcc_bwe_get_bitrate (pb_gcc s)) (Z.min (pc_target_bitrate_bps (pb_controller s)) hi) \/
     (gcc_bwe_is_overusing (pb_gcc s) = true \/ ~ cluster_arrived (pb_controller s)) /\ pc_cooldown_until_us (pb_controller s') = now + 1000000 /\
     gcc_bwe_get_bitrate (pb_gcc s') = gcc_bwe_get_bitrate (pb_gcc s)).
Proof.
  intros H Es Hp Ht Hc. unfold sfu_probe_controller_step. rewrite Es.
  assert (Hto : timed_out (pb_controller s) now = true) by (unfold timed_out; rewrite andb_true_iff, !Z.ltb_lt; lia). rewrite Hto.
  eexists. split; [done|]. destruct (finish_outcome lo hi s now H Es Hto) as (E1 & E2 & E3 & E4). split; [done|]. split; [exact E2|].
  pose proof (success_exact (pb_controller s) (pb_gcc s) (so_probe _ _ _ H) ltac:(by rewrite Es) Hc) as Hx.
  destruct (gcc_bwe_is_overusing (pb_gcc s)); cbn [negb andb] in E3, E4; [right; split; [by left|done]|].
  destruct (probe_success (pb_controller s)); [left|right]; (split; [|done || (split; [by apply Hx|done])]); [done|]. right. intros Ha. by apply Hx in Ha.
Qed.

Definition ex_waiting (received : Z) : probe_session :=
  mk_probe_session (mk_probe PROBE_WAITING_FEEDBACK 1 300000 800000 1500 1530 6 6 received 0 1000 2000 3000 12000 0 true false 1 0 0 0)
    (gcc_bwe_set_active_probing (gcc_bwe_init 300000 50000 2000000) true) None (mk_own_rtx 0 0 7 97) [] [] (sfu_paced_priority_queue_init false 0 0) 5 sfu_rtp_seq_translator_init 9
    (sfu_paced_priority_queue_init true 0 0) (ex_session).
Lemma ex_waiting_ok received : session_ok 50000 2000000 (ex_waiting received).
Proof.
  destruct (gcc_init_inv 300000 50000 2000000) as (_ & _ & Hg); [by unfold is_u32|by unfold is_u32|]. constructor.
  - constructor; try done.
  - apply (gcc_step_inv 50000 2000000 (gcc_bwe_init 300000 50000 2000000)); [done|by unfold is_u32|apply gcc_probing|done].
  - constructor; try done. exists ∅. split; [apply init_represents|]. intros k v. by rewrite fin_maps.lookup_empty.
Qed.
Lemma probe_cluster_outcome_witness :
  (exists s', sfu_probe_controller_step (ex_waiting 1500) 600000 [] (fun _ _ _ => None) true = Ok s' /\ gcc_bwe_get_bitrate (pb_gcc s') = 800000) /\
  (exists s', sfu_probe_controller_step (ex_waiting 1200) 600000 [] (fun _ _ _ => None) true = Ok s' /\ gcc_bwe_get_bitrate (pb_gcc s') = 300000).
Proof.
  assert (Hc : forall n, 0 <= n < 2 ^ 25 -> counters_small (pb_controller (ex_waiting n))) by (intros n Hn; unfold counters_small; cbn; lia). split.
  - destruct (probe_cluster_outcome 50000 2000000 (ex_waiting 1500) 600000 [] (fun _ _ _ => None) true (ex_waiting_ok _) eq_refl eq_refl eq_refl
      (Hc 1500 ltac:(lia))) as (s' & E & _ & _ & [(_ & _ & _ & Hr)|([Hn|Hn] & _)]); [exists s'; by rewrite Hr|by vm_compute in Hn|]. destruct Hn. by vm_compute.
  - destruct (probe_cluster_outcome 50000 2000000 (ex_waiting 1200) 600000 [] (fun _ _ _ => None) true (ex_waiting_ok _) eq_refl eq_refl eq_refl
      (Hc 1200 ltac:(lia))) as (s' & E & _ & _ & [(_ & Ha & _)|(_ & _ & Hr)]); [|exists s'; by rewrite Hr]. destruct Ha as (_ & Ha & _). vm_compute in Ha. by destruct Ha.
Defined.

(** A cluster for which nothing could be sent does not time out: the step
    finds it late and leaves everything as it is, at every later time. *)
Lemma probing_timeout_stuck s rtx now stack protect alloc :
  pc_state (pb_controller s) = PROBE_PROBING -> pc_aborted (pb_controller s) = false -> pc_packets_sent (pb_controller s) = 0 ->
  pc_send_end_time_us (pb_controller s) = 0 -> gcc_bwe_is_overusing (pb_gcc s) = false ->
  find_outbound_rtx_params (pb_snapshot s) (pb_own s) = Some rtx -> pq_count (pb_rtx s) = 0 ->
  0 < pc_start_time_us (pb_controller s) -> SFU_PROBE_CLUSTER_TIMEOUT_US < now - pc_start_time_us (pb_controller s) ->
  sfu_probe_controller_step s now stack protect alloc = Ok s.
Proof.
  intros Es Ea Ep Ee Ho Er Ec H1 H2. unfold sfu_probe_controller_step, probing_step. rewrite Es, Er, Ho, Ec. destruct rtx as [ssrc pt]. cbn [Z.ltb Z.compare].
  rewrite (proj2 (Z.ltb_lt 0 _) H1), (proj2 (Z.ltb_lt _ _) H2). cbn [andb].
  unfold finish_step, sfu_probe_controller_check_cluster_done, idle, all_feedback, timed_out. rewrite Es, Ea, Ho, Ep, Ee. cbn. by destruct s.
Qed.
