(* ===== verification/LayerScheduler.v ===== *)
(** The layer scheduler, [src/media/svc/layer_scheduler.c]: for every
    forwarded video stream it decides packet by packet what a subscriber gets
    of the spatial and temporal layers, so that what is sent can be decoded. *)

From S2P Require Import Prelude Pacer.
Local Open Scope Z_scope.

Definition SFU_LAYER_SCHEDULER_CAP : Z := 16.

Inductive sfu_media_kind := MEDIA_AUDIO | MEDIA_VIDEO | MEDIA_SCREEN | MEDIA_DATA.
#[export] Instance media_kind_eq : EqDecision sfu_media_kind.
Proof. solve_decision. Defined.
Definition kind_value (k : sfu_media_kind) : Z :=
  match k with MEDIA_AUDIO => 0 | MEDIA_VIDEO => 1 | MEDIA_SCREEN => 2 | MEDIA_DATA => 3 end.
Definition is_screen (k : sfu_media_kind) : bool := bool_decide (k = MEDIA_SCREEN).

(** The descriptor of a packet, as the codec parser leaves it. *)
Record sfu_svc_descriptor := mk_svc_descriptor {
  sd_rtp_timestamp : Z;
  sd_seq : Z;
  sd_sid : Z;
  sd_tid : Z;
  sd_p_bit : Z;
  sd_u_bit : Z;
  sd_d_bit : Z;
  sd_b_bit : Z;
  sd_e_bit : Z;
  sd_l_bit : Z
}.
Definition sfu_svc_descriptor_is_keyframe (d : sfu_svc_descriptor) : bool := (sd_b_bit d =? 1) && (sd_p_bit d =? 0) && (sd_sid d =? 0).

Record sfu_layer_scheduler := mk_scheduler {
  ls_last_target_change_us : Z;
  ls_active_publisher_id : Z;
  ls_picture_timestamp : Z;
  ls_transition_timestamp : Z;
  ls_temporal_transition_timestamp : Z;
  ls_keyframe_timestamp : Z;
  ls_pacer_frame_timestamp : Z;
  ls_allocated_bps : Z;
  ls_target_sid : Z;
  ls_target_tid : Z;
  ls_current_sid : Z;
  ls_current_tid : Z;
  ls_started_sid_mask : Z;
  ls_completed_sid_mask : Z;
  ls_failed_sid_mask : Z;
  ls_transition_sid : Z;
  ls_temporal_transition_tid : Z;
  ls_pacer_frame_sid : Z;
  ls_pacer_frame_tid : Z;
  ls_expected_seq : Z;
  ls_source : sfu_media_kind;
  ls_needs_keyframe : bool;
  ls_is_pinned : bool;
  ls_picture_valid : bool;
  ls_transition_active : bool;
  ls_transition_failed : bool;
  ls_temporal_transition_active : bool;
  ls_temporal_transition_failed : bool;
  ls_keyframe_active : bool;
  ls_keyframe_failed : bool;
  ls_pacer_frame_active : bool;
  ls_seq_initialized : bool;
  ls_frame_corrupted : bool
}.
#[export] Instance eta_scheduler : Eta sfu_layer_scheduler := fun s =>
  mk_scheduler (ls_last_target_change_us s) (ls_active_publisher_id s) (ls_picture_timestamp s) (ls_transition_timestamp s)
    (ls_temporal_transition_timestamp s) (ls_keyframe_timestamp s) (ls_pacer_frame_timestamp s) (ls_allocated_bps s)
    (ls_target_sid s) (ls_target_tid s) (ls_current_sid s) (ls_current_tid s) (ls_started_sid_mask s) (ls_completed_sid_mask s)
    (ls_failed_sid_mask s) (ls_transition_sid s) (ls_temporal_transition_tid s) (ls_pacer_frame_sid s) (ls_pacer_frame_tid s)
    (ls_expected_seq s) (ls_source s) (ls_needs_keyframe s) (ls_is_pinned s) (ls_picture_valid s) (ls_transition_active s)
    (ls_transition_failed s) (ls_temporal_transition_active s) (ls_temporal_transition_failed s) (ls_keyframe_active s)
    (ls_keyframe_failed s) (ls_pacer_frame_active s) (ls_seq_initialized s) (ls_frame_corrupted s).
Definition zero_scheduler : sfu_layer_scheduler :=
  mk_scheduler 0 0 0 0 0 0 0 0 0 0 0 0 0 0 0 0 0 0 0 0 MEDIA_AUDIO false false false false false false false false false false false false.

Inductive sfu_layer_reject_reason :=
  | REJECT_NONE
  | REJECT_INVALID_SID
  | REJECT_OVER_TARGET_OR_FAILED
  | REJECT_MISSING_FRAME_START
  | REJECT_KEYFRAME_REQUIRED
  | REJECT_KEYFRAME_MISMATCH
  | REJECT_SPATIAL_TARGET
  | REJECT_SPATIAL_TRANSITION
  | REJECT_SPATIAL_START
  | REJECT_SPATIAL_DEPENDENCY
  | REJECT_TEMPORAL_TRANSITION
  | REJECT_TEMPORAL_SWITCH
  | REJECT_PACER_OVERLAP
  | REJECT_PACER_ORPHAN
  | REJECT_SEQUENCE_GAP.
#[export] Instance reject_reason_eq : EqDecision sfu_layer_reject_reason.
Proof. solve_decision. Defined.

Record sfu_layer_scheduler_decision := mk_decision {
  ld_rtp_timestamp : Z;
  ld_seq : Z;
  ld_sid : Z;
  ld_tid : Z;
  ld_b_bit : Z;
  ld_e_bit : Z;
  ld_reject_reason : sfu_layer_reject_reason;
  ld_should_forward : bool;
  ld_set_marker : bool;
  ld_start_keyframe : bool;
  ld_keyframe_packet : bool;
  ld_start_transition : bool;
  ld_transition_packet : bool;
  ld_start_temporal_transition : bool;
  ld_temporal_transition_packet : bool;
  ld_pacer_frame_start : bool;
  ld_pacer_frame_continuation : bool;
  ld_pacer_frame_end : bool;
  ld_pacer_class : sfu_pacer_class
}.
#[export] Instance eta_decision : Eta sfu_layer_scheduler_decision := fun d =>
  mk_decision (ld_rtp_timestamp d) (ld_seq d) (ld_sid d) (ld_tid d) (ld_b_bit d) (ld_e_bit d) (ld_reject_reason d)
    (ld_should_forward d) (ld_set_marker d) (ld_start_keyframe d) (ld_keyframe_packet d) (ld_start_transition d)
    (ld_transition_packet d) (ld_start_temporal_transition d) (ld_temporal_transition_packet d) (ld_pacer_frame_start d)
    (ld_pacer_frame_continuation d) (ld_pacer_frame_end d) (ld_pacer_class d).

Definition sfu_layer_scheduler_init (initial_publisher : Z) : sfu_layer_scheduler :=
  zero_scheduler <| ls_active_publisher_id := initial_publisher |> <| ls_needs_keyframe := true |>
    <| ls_target_sid := 0 |> <| ls_target_tid := 2 |>.

(** ** Pictures *)

Definition incomplete_picture (s : sfu_layer_scheduler) : bool :=
  ls_picture_valid s && negb (ls_started_sid_mask s =? 0) &&
  (negb (Z.land (ls_started_sid_mask s) (Z.lnot (ls_completed_sid_mask s)) =? 0) ||
   negb (Z.land (ls_started_sid_mask s) (ls_failed_sid_mask s) =? 0)).
Definition layer_scheduler_begin_picture (s : sfu_layer_scheduler) (rtp_timestamp : Z) : sfu_layer_scheduler :=
  if ls_picture_valid s && (ls_picture_timestamp s =? rtp_timestamp) then s else
  let s := if incomplete_picture s then s <| ls_needs_keyframe := true |> else s in
  let s := if ls_keyframe_active s
           then s <| ls_needs_keyframe := true |> <| ls_keyframe_active := false |> <| ls_keyframe_failed := true |> else s in
  s <| ls_transition_active := false |> <| ls_transition_failed := false |> <| ls_temporal_transition_active := false |>
    <| ls_temporal_transition_failed := false |> <| ls_pacer_frame_active := false |>
    <| ls_picture_valid := true |> <| ls_picture_timestamp := rtp_timestamp |> <| ls_started_sid_mask := 0 |>
    <| ls_completed_sid_mask := 0 |> <| ls_failed_sid_mask := 0 |> <| ls_transition_sid := 0 |>
    <| ls_transition_timestamp := 0 |> <| ls_temporal_transition_tid := 0 |> <| ls_temporal_transition_timestamp := 0 |>
    <| ls_frame_corrupted := false |>.

Definition sfu_layer_scheduler_classify_frame (d : sfu_svc_descriptor) : sfu_pacer_class :=
  if (0 <? sd_sid d) || (0 <? sd_tid d) then CLASS_VIDEO_ENH else CLASS_VIDEO_BASE.

(** ** Preparing a packet *)

(** The sequence number continues the stream: [true] when it does. *)
Definition check_sequence (s : sfu_layer_scheduler) (d : sfu_svc_descriptor) (is_keyframe : bool) : bool * sfu_layer_scheduler :=
  let next := u16 (sd_seq d + 1) in
  let gap := (false, s <| ls_frame_corrupted := true |> <| ls_needs_keyframe := true |> <| ls_expected_seq := next |>) in
  if sd_b_bit d =? 0 then
    if negb (ls_seq_initialized s) || negb (sd_seq d =? ls_expected_seq s) || ls_frame_corrupted s then gap
    else (true, s <| ls_expected_seq := next |>)
  else if negb is_keyframe then
    if ls_seq_initialized s && negb (sd_seq d =? ls_expected_seq s) then gap
    else (true, s <| ls_frame_corrupted := false |> <| ls_expected_seq := next |>)
  else (true, s <| ls_seq_initialized := true |> <| ls_frame_corrupted := false |> <| ls_expected_seq := next |>).

(** A screen share keeps all temporal layers; a camera steps down at once. *)
Definition settle_target (s : sfu_layer_scheduler) : sfu_layer_scheduler :=
  if is_screen (ls_source s) then s <| ls_target_tid := 2 |> <| ls_current_tid := 2 |> else
  let s := if ls_target_sid s <? ls_current_sid s then s <| ls_current_sid := ls_target_sid s |> else s in
  if ls_target_tid s <? ls_current_tid s then s <| ls_current_tid := ls_target_tid s |> else s.

(** The checks that follow only read the scheduler and fill in the decision;
    [inl] is a rejection with what was filled in so far. *)
Definition judged : Type := (sfu_layer_reject_reason * sfu_layer_scheduler_decision) + sfu_layer_scheduler_decision.
Definition judge_bind (m : judged) (k : sfu_layer_scheduler_decision -> judged) : judged :=
  match m with inl r => inl r | inr d => k d end.

Definition sid_bit (sid : Z) : Z := u8 (Z.shiftl 1 sid).
Definition mask_has (mask sid : Z) : bool := negb (Z.land mask (sid_bit sid) =? 0).

Definition judge_target (s : sfu_layer_scheduler) (d : sfu_svc_descriptor) (o : sfu_layer_scheduler_decision) : judged :=
  if mask_has (ls_failed_sid_mask s) (sd_sid d) || (ls_target_sid s <? sd_sid d) ||
     (negb (is_screen (ls_source s)) && (ls_target_tid s <? sd_tid d))
  then inl (REJECT_OVER_TARGET_OR_FAILED, o)
  else if (sd_b_bit d =? 0) && negb (mask_has (ls_started_sid_mask s) (sd_sid d))
  then inl (REJECT_MISSING_FRAME_START, o)
  else inr o.

Definition of_keyframe (o : sfu_layer_scheduler_decision) : sfu_layer_scheduler_decision :=
  o <| ld_keyframe_packet := true |> <| ld_transition_packet := true |>.
Definition judge_keyframe (s : sfu_layer_scheduler) (d : sfu_svc_descriptor) (is_keyframe : bool)
    (o : sfu_layer_scheduler_decision) : judged :=
  if ls_needs_keyframe s then
    if negb (ls_keyframe_active s) then
      if negb is_keyframe || (sd_b_bit d =? 0) || negb (sd_sid d =? 0) then inl (REJECT_KEYFRAME_REQUIRED, o)
      else inr (of_keyframe (o <| ld_start_keyframe := true |>))
    else if ls_keyframe_failed s || negb (ls_keyframe_timestamp s =? sd_rtp_timestamp d) || negb (sd_sid d =? 0) ||
            negb (sd_p_bit d =? 0) then inl (REJECT_KEYFRAME_MISMATCH, o)
    else inr (of_keyframe o)
  else if is_keyframe || ls_keyframe_active s then
    if negb (ls_keyframe_active s) then
      if negb (sd_b_bit d =? 0) && (sd_sid d =? 0) then inr (of_keyframe (o <| ld_start_keyframe := true |>)) else inr o
    else if (ls_keyframe_timestamp s =? sd_rtp_timestamp d) && (sd_sid d =? 0) && (sd_p_bit d =? 0) then inr (of_keyframe o)
    else inr o
  else inr o.

Definition judge_spatial (s : sfu_layer_scheduler) (d : sfu_svc_descriptor) (o : sfu_layer_scheduler_decision) : judged :=
  if ls_current_sid s <? sd_sid d then
    let candidate_sid := u8 (ls_current_sid s + 1) in
    if negb (sd_sid d =? candidate_sid) || (ls_target_sid s <? candidate_sid) then inl (REJECT_SPATIAL_TARGET, o)
    else if ls_transition_active s then
      if negb (ls_transition_timestamp s =? sd_rtp_timestamp d) || negb (ls_transition_sid s =? sd_sid d) || ls_transition_failed s
      then inl (REJECT_SPATIAL_TRANSITION, o)
      else inr (o <| ld_transition_packet := true |>)
    else if (sd_b_bit d =? 0) || negb (sd_p_bit d =? 0) then inl (REJECT_SPATIAL_START, o)
    else if negb (sd_d_bit d =? 0) &&
            (negb (mask_has (ls_completed_sid_mask s) (ls_current_sid s)) || mask_has (ls_failed_sid_mask s) (ls_current_sid s))
    then inl (REJECT_SPATIAL_DEPENDENCY, o)
    else inr (o <| ld_start_transition := true |> <| ld_transition_packet := true |>)
  else inr o.

Definition judge_temporal (s : sfu_layer_scheduler) (d : sfu_svc_descriptor) (o : sfu_layer_scheduler_decision) : judged :=
  if negb (is_screen (ls_source s)) && (ls_current_tid s <? sd_tid d) then
    let pass o := inr (o <| ld_temporal_transition_packet := true |> <| ld_transition_packet := true |>) in
    if ls_temporal_transition_active s then
      if negb (ls_temporal_transition_timestamp s =? sd_rtp_timestamp d) || negb (ls_temporal_transition_tid s =? sd_tid d) ||
         ls_temporal_transition_failed s then inl (REJECT_TEMPORAL_TRANSITION, o)
      else pass o
    else if (sd_b_bit d =? 0) || (sd_u_bit d =? 0) then inl (REJECT_TEMPORAL_SWITCH, o)
    else pass (o <| ld_start_temporal_transition := true |>)
  else inr o.

(** The packet continues the enhancement frame the pacer admitted. *)
Definition in_pacer_frame (s : sfu_layer_scheduler) (timestamp sid tid : Z) : bool :=
  ls_pacer_frame_active s && (ls_pacer_frame_timestamp s =? timestamp) && (ls_pacer_frame_sid s =? sid) &&
  (ls_pacer_frame_tid s =? tid).
Definition is_enh (c : sfu_pacer_class) : bool := bool_decide (c = CLASS_VIDEO_ENH).
Definition judge_pacer (s : sfu_layer_scheduler) (d : sfu_svc_descriptor) (o : sfu_layer_scheduler_decision) : judged :=
  let o := if (sd_b_bit d =? 0) && mask_has (ls_started_sid_mask s) (sd_sid d) then o <| ld_transition_packet := true |> else o in
  let o := if (ls_current_sid s <? ls_target_sid s) && (sd_p_bit d =? 0) then o <| ld_transition_packet := true |> else o in
  let here := in_pacer_frame s (sd_rtp_timestamp d) (sd_sid d) (sd_tid d) in
  let o := if ld_transition_packet o && negb ((sd_b_bit d =? 0) && here)
           then o <| ld_pacer_class := CLASS_VIDEO_TRANSITION |> <| ld_pacer_frame_continuation := false |> else o in
  if is_enh (ld_pacer_class o) then
    let o := o <| ld_pacer_frame_start := negb (sd_b_bit d =? 0) |> <| ld_pacer_frame_end := negb (sd_e_bit d =? 0) |> in
    if ld_pacer_frame_start o then
      if ls_pacer_frame_active s then inl (REJECT_PACER_OVERLAP, o) else inr o
    else
      let o := o <| ld_pacer_frame_continuation := true |> in
      if negb here then inl (REJECT_PACER_ORPHAN, o) else inr o
  else inr o.

(** The highest spatial layer of the picture that is sent. *)
Definition output_sid (s : sfu_layer_scheduler) (d : sfu_svc_descriptor) (o : sfu_layer_scheduler_decision) : Z :=
  if ls_transition_active s && negb (ls_transition_failed s) && (ls_transition_timestamp s =? sd_rtp_timestamp d) then ls_transition_sid s
  else if ld_start_transition o then sd_sid d
  else if (ls_current_sid s <? ls_target_sid s) && (sd_p_bit d =? 0) then ls_target_sid s
  else ls_current_sid s.
Definition set_forward (s : sfu_layer_scheduler) (d : sfu_svc_descriptor) (o : sfu_layer_scheduler_decision) : judged :=
  let marker := if sd_l_bit d =? 0 then negb (sd_e_bit d =? 0)
                else negb (sd_e_bit d =? 0) && (sd_sid d =? output_sid s d o) in
  inr (o <| ld_set_marker := marker |> <| ld_should_forward := true |>).

Definition judge (s : sfu_layer_scheduler) (d : sfu_svc_descriptor) (is_keyframe : bool) (o : sfu_layer_scheduler_decision) : judged :=
  judge_bind (judge_target s d o) (fun o => judge_bind (judge_keyframe s d is_keyframe o) (fun o =>
  judge_bind (judge_spatial s d o) (fun o => judge_bind (judge_temporal s d o) (fun o =>
  judge_bind (judge_pacer s d o) (set_forward s d))))).

Definition first_decision (d : sfu_svc_descriptor) : sfu_layer_scheduler_decision :=
  let cls := sfu_layer_scheduler_classify_frame d in
  mk_decision (sd_rtp_timestamp d) (sd_seq d) (sd_sid d) (sd_tid d) (sd_b_bit d) (sd_e_bit d) REJECT_NONE false false false false
    false false false false false (is_enh cls && (sd_b_bit d =? 0)) false cls.
Definition layer_scheduler_reject (o : sfu_layer_scheduler_decision) (reason : sfu_layer_reject_reason) : sfu_layer_scheduler_decision :=
  o <| ld_reject_reason := reason |>.

(** The answer, the scheduler and the decision the caller commits or rejects. *)
Definition sfu_layer_scheduler_prepare_packet (s : sfu_layer_scheduler) (d : sfu_svc_descriptor) (is_keyframe : bool)
  : bool * sfu_layer_scheduler * sfu_layer_scheduler_decision :=
  let o := first_decision d in
  if 8 <=? sd_sid d then (false, s, layer_scheduler_reject o REJECT_INVALID_SID) else
  let s := layer_scheduler_begin_picture s (sd_rtp_timestamp d) in
  let '(ok, s) := check_sequence s d is_keyframe in
  if negb ok then (false, s, layer_scheduler_reject o REJECT_SEQUENCE_GAP) else
  let s := settle_target s in
  match judge s d is_keyframe o with
  | inl (reason, o) => (false, s, layer_scheduler_reject o reason)
  | inr o => (true, s, o)
  end.

(** ** Commit and rejection *)

Definition same_picture (s : sfu_layer_scheduler) (o : sfu_layer_scheduler_decision) : bool :=
  ls_picture_valid s && (ls_picture_timestamp s =? ld_rtp_timestamp o) && (ld_sid o <? 8).

Definition commit_starts (s : sfu_layer_scheduler) (o : sfu_layer_scheduler_decision) : sfu_layer_scheduler :=
  let s := if negb (ld_b_bit o =? 0) then s <| ls_started_sid_mask ::= fun m => Z.lor m (sid_bit (ld_sid o)) |> else s in
  let s := if ld_start_keyframe o
           then s <| ls_keyframe_active := true |> <| ls_keyframe_failed := false |> <| ls_keyframe_timestamp := ld_rtp_timestamp o |> else s in
  let s := if ld_start_transition o
           then s <| ls_transition_active := true |> <| ls_transition_failed := false |> <| ls_transition_sid := ld_sid o |>
                  <| ls_transition_timestamp := ld_rtp_timestamp o |> else s in
  if ld_start_temporal_transition o
  then s <| ls_temporal_transition_active := true |> <| ls_temporal_transition_failed := false |>
         <| ls_temporal_transition_tid := ld_tid o |> <| ls_temporal_transition_timestamp := ld_rtp_timestamp o |> else s.
Definition commit_pacer (s : sfu_layer_scheduler) (o : sfu_layer_scheduler_decision) : sfu_layer_scheduler :=
  if ld_pacer_frame_start o && negb (ld_pacer_frame_end o)
  then s <| ls_pacer_frame_active := true |> <| ls_pacer_frame_timestamp := ld_rtp_timestamp o |>
         <| ls_pacer_frame_sid := ld_sid o |> <| ls_pacer_frame_tid := ld_tid o |>
  else if ld_pacer_frame_end o && in_pacer_frame s (ld_rtp_timestamp o) (ld_sid o) (ld_tid o)
  then s <| ls_pacer_frame_active := false |> else s.
Definition commit_keyframe (s : sfu_layer_scheduler) (o : sfu_layer_scheduler_decision) : sfu_layer_scheduler :=
  if ld_keyframe_packet o && negb (ld_e_bit o =? 0) then
    let complete := ls_keyframe_active s && negb (ls_keyframe_failed s) && (ls_keyframe_timestamp s =? ld_rtp_timestamp o) &&
                    negb (mask_has (ls_failed_sid_mask s) (ld_sid o)) in
    let s := s <| ls_needs_keyframe := negb complete |> <| ls_keyframe_active := false |> <| ls_keyframe_failed := negb complete |> in
    if complete && is_screen (ls_source s) then s <| ls_target_tid := 2 |> <| ls_current_tid := 2 |> else s
  else s.
Definition commit_transition (s : sfu_layer_scheduler) (o : sfu_layer_scheduler_decision) : sfu_layer_scheduler :=
  if ls_transition_active s && (ls_transition_timestamp s =? ld_rtp_timestamp o) && (ls_transition_sid s =? ld_sid o) &&
     negb (ld_e_bit o =? 0) then
    let s := if negb (ls_transition_failed s) && negb (mask_has (ls_failed_sid_mask s) (ld_sid o)) && (ld_sid o <=? ls_target_sid s)
             then s <| ls_current_sid := ld_sid o |> else s in
    s <| ls_transition_active := false |> <| ls_transition_failed := false |>
  else s.
Definition commit_temporal (s : sfu_layer_scheduler) (o : sfu_layer_scheduler_decision) : sfu_layer_scheduler :=
  if ls_temporal_transition_active s && (ls_temporal_transition_timestamp s =? ld_rtp_timestamp o) &&
     (ls_temporal_transition_tid s =? ld_tid o) && negb (ld_e_bit o =? 0) then
    let s := if negb (ls_temporal_transition_failed s) && negb (mask_has (ls_failed_sid_mask s) (ld_sid o)) &&
                (ld_tid o <=? ls_target_tid s)
             then s <| ls_current_tid := ld_tid o |> else s in
    s <| ls_temporal_transition_active := false |> <| ls_temporal_transition_failed := false |>
  else s.
Definition sfu_layer_scheduler_commit_packet (s : sfu_layer_scheduler) (o : sfu_layer_scheduler_decision) : sfu_layer_scheduler :=
  if negb (ld_should_forward o) || negb (same_picture s o) then s else
  let s := s <| ls_seq_initialized := true |> <| ls_expected_seq := u16 (ld_seq o + 1) |> in
  let s := commit_pacer (commit_starts s o) o in
  let s := if negb (ld_e_bit o =? 0) && negb (mask_has (ls_failed_sid_mask s) (ld_sid o))
           then s <| ls_completed_sid_mask ::= fun m => Z.lor m (sid_bit (ld_sid o)) |> else s in
  commit_temporal (commit_transition (commit_keyframe s o) o) o.

Definition expected_reject (s : sfu_layer_scheduler) (o : sfu_layer_scheduler_decision) : bool :=
  bool_decide (ld_reject_reason o = REJECT_NONE) || bool_decide (ld_reject_reason o = REJECT_KEYFRAME_REQUIRED) ||
  bool_decide (ld_reject_reason o = REJECT_KEYFRAME_MISMATCH) || bool_decide (ld_reject_reason o = REJECT_MISSING_FRAME_START) ||
  bool_decide (ld_reject_reason o = REJECT_SEQUENCE_GAP) || mask_has (ls_started_sid_mask s) (ld_sid o).
Definition active_camera_layer (s : sfu_layer_scheduler) (o : sfu_layer_scheduler_decision) : bool :=
  bool_decide (ls_source s = MEDIA_VIDEO) && ((ld_sid o <=? ls_current_sid s) || mask_has (ls_started_sid_mask s) (ld_sid o)).
Definition sfu_layer_scheduler_reject_packet (s : sfu_layer_scheduler) (o : sfu_layer_scheduler_decision) : sfu_layer_scheduler :=
  if negb (same_picture s o) then s else
  let s := s <| ls_failed_sid_mask ::= fun m => Z.lor m (sid_bit (ld_sid o)) |> in
  let s := if in_pacer_frame s (ld_rtp_timestamp o) (ld_sid o) (ld_tid o) then s <| ls_pacer_frame_active := false |> else s in
  let s := if ld_keyframe_packet o || (ls_keyframe_active s && (ls_keyframe_timestamp s =? ld_rtp_timestamp o) && (ld_sid o =? 0))
           then s <| ls_needs_keyframe := true |> <| ls_keyframe_active := false |> <| ls_keyframe_failed := true |> else s in
  let s := if is_screen (ls_source s) || (active_camera_layer s o && expected_reject s o)
           then s <| ls_needs_keyframe := true |> else s in
  let s := if bool_decide (ld_reject_reason o = REJECT_SEQUENCE_GAP) then s <| ls_frame_corrupted := true |> else s in
  let s := if (ld_start_transition o || ls_transition_active s) && (ls_transition_timestamp s =? ld_rtp_timestamp o) &&
              (ls_transition_sid s =? ld_sid o)
           then s <| ls_transition_failed := true |> else s in
  if (ld_start_temporal_transition o || ls_temporal_transition_active s) &&
     (ls_temporal_transition_timestamp s =? ld_rtp_timestamp o) && (ls_temporal_transition_tid s =? ld_tid o)
  then s <| ls_temporal_transition_failed := true |> else s.

(** ** Target layers from the bitrate *)

Record sfu_layer_rung := mk_rung { rung_rate_bps : Z; rung_sid : Z; rung_tid : Z }.
Definition k_layer_ladder : list sfu_layer_rung := [mk_rung 200000 0 0; mk_rung 600000 0 1; mk_rung 1200000 0 2].
Definition SFU_LAYER_UP_HEADROOM_NUM : Z := 6.
Definition SFU_LAYER_UP_HEADROOM_DEN : Z := 5.
Definition SFU_LAYER_UP_DWELL_US : Z := 3000000.

Definition rung (i : Z) : sfu_layer_rung := nth (Z.to_nat i) k_layer_ladder (mk_rung 0 0 0).
(** The downward loops over the ladder, from the rung [n - 1]; [-1] for none. *)
Fixpoint ladder_scan (n : nat) (f : sfu_layer_rung -> bool) : Z :=
  match n with
  | O => -1
  | S n => if f (rung (Z.of_nat n)) then Z.of_nat n else ladder_scan n f
  end.
Definition up_rate (r : sfu_layer_rung) : Z := rung_rate_bps r * SFU_LAYER_UP_HEADROOM_NUM / SFU_LAYER_UP_HEADROOM_DEN.

(** The rung for a rate: with headroom, or the present one as long as its
    plain rate is there. *)
Definition choose_rung (s : sfu_layer_scheduler) (bitrate_bps : Z) : Z :=
  let chosen := ladder_scan 3 (fun r => up_rate r <=? bitrate_bps) in
  if negb (ls_last_target_change_us s =? 0) && (chosen <? 2) then
    let current := ladder_scan 3 (fun r => (rung_sid r <=? ls_target_sid s) && (rung_tid r <=? ls_target_tid s)) in
    if (chosen <? current) && (0 <=? current) && (rung_rate_bps (rung current) <=? bitrate_bps) then current else chosen
  else chosen.
Definition sfu_layer_scheduler_set_bitrate (s : sfu_layer_scheduler) (bitrate_bps now : Z) : sfu_layer_scheduler :=
  let s := s <| ls_allocated_bps := bitrate_bps |> in
  let chosen := choose_rung s bitrate_bps in
  let target_sid := if 0 <=? chosen then rung_sid (rung chosen) else 0 in
  let target_tid := if 0 <=? chosen then rung_tid (rung chosen) else 0 in
  let target_tid := if is_screen (ls_source s) then 2 else target_tid in
  if (target_sid =? ls_target_sid s) && (target_tid =? ls_target_tid s) then s else
  let is_upgrade := (ls_target_sid s <? target_sid) || ((target_sid =? ls_target_sid s) && (ls_target_tid s <? target_tid)) in
  if negb (is_screen (ls_source s)) && is_upgrade && negb (ls_last_target_change_us s =? 0) &&
     (now - ls_last_target_change_us s <? SFU_LAYER_UP_DWELL_US) then s else
  s <| ls_last_target_change_us := now |> <| ls_target_sid := target_sid |> <| ls_target_tid := target_tid |>.

(** ** The table of a session *)

Record sfu_layer_scheduler_slot := mk_slot { slot_publisher_id : Z; slot_sched : sfu_layer_scheduler }.
#[export] Instance eta_slot : Eta sfu_layer_scheduler_slot := fun s => mk_slot (slot_publisher_id s) (slot_sched s).
Definition sfu_layer_scheduler_slot_reset : sfu_layer_scheduler_slot := mk_slot 0 zero_scheduler.

Definition stream_key (publisher_id : Z) (source : sfu_media_kind) : Z := Z.lor (u64 (Z.shiftl publisher_id 8)) (kind_value source).
Definition set_source (s : sfu_layer_scheduler) (source : sfu_media_kind) : sfu_layer_scheduler :=
  let s := s <| ls_source := source |> in
  if is_screen source then s <| ls_target_tid := 2 |> <| ls_current_tid := 2 |> else s.

(** The search: the slot of the key, and the first free one. *)
Fixpoint find_slot (key : Z) (l : list sfu_layer_scheduler_slot) (i : nat) (free : option nat) : option nat * option nat :=
  match l with
  | [] => (None, free)
  | x :: l =>
      if slot_publisher_id x =? key then (Some i, free)
      else find_slot key l (S i) (match free with None => if slot_publisher_id x =? 0 then Some i else None | _ => free end)
  end.
Definition slot_at (l : list sfu_layer_scheduler_slot) (i : nat) : sfu_layer_scheduler_slot := nth i l sfu_layer_scheduler_slot_reset.

(** The slot used, if any, and the table; [ready] says that the session has
    its video state. *)
Definition sfu_layer_scheduler_for_stream (ready : bool) (table : list sfu_layer_scheduler_slot) (publisher_id : Z)
    (source : sfu_media_kind) : option nat * list sfu_layer_scheduler_slot :=
  if negb ready || (publisher_id =? 0) || bool_decide (source = MEDIA_AUDIO) then (None, table) else
  let key := stream_key publisher_id source in
  match find_slot key table 0 None with
  | (Some i, _) => (Some i, <[i := (slot_at table i) <| slot_sched ::= fun s => set_source s source |>]> table)
  | (None, Some i) => (Some i, <[i := mk_slot key (set_source (sfu_layer_scheduler_init publisher_id) source)]> table)
  | (None, None) => (None, table)
  end.
Definition sfu_layer_scheduler_for (ready : bool) (table : list sfu_layer_scheduler_slot) (publisher_id : Z) :=
  sfu_layer_scheduler_for_stream ready table publisher_id MEDIA_VIDEO.

(** What pruning reads of an entry of the receiver snapshot. *)
Record receiver_view := mk_receiver_view {
  rv_publisher_peer_id : Z; rv_has_video : bool; rv_video_active : bool; rv_has_screen : bool; rv_screen_active : bool
}.
Definition keeps (e : receiver_view) (x : sfu_layer_scheduler_slot) : bool :=
  negb (rv_publisher_peer_id e =? 0) && negb (slot_publisher_id x =? 0) &&
  ((rv_has_video e && rv_video_active e && (slot_publisher_id x =? stream_key (rv_publisher_peer_id e) MEDIA_VIDEO)) ||
   (rv_has_screen e && rv_screen_active e && (slot_publisher_id x =? stream_key (rv_publisher_peer_id e) MEDIA_SCREEN))).
Fixpoint keep_loop (entries : list receiver_view) (table : list sfu_layer_scheduler_slot) (keep : list bool) : list bool :=
  match entries with
  | [] => keep
  | e :: entries => keep_loop entries table (zip_with (fun x k => keeps e x || k) table keep)
  end.
Definition sfu_layer_scheduler_prune (ready : bool) (table : list sfu_layer_scheduler_slot) (entries : list receiver_view)
  : list sfu_layer_scheduler_slot :=
  if negb ready then table else
  let keep := keep_loop entries table (replicate (length table) false) in
  zip_with (fun x k => if negb (slot_publisher_id x =? 0) && negb k then sfu_layer_scheduler_slot_reset else x) table keep.

(** The new table and whether the egress generation is advanced. *)
Definition sfu_layer_scheduler_switch_source (ready : bool) (table : list sfu_layer_scheduler_slot) (new_publisher_id : Z)
  : list sfu_layer_scheduler_slot * bool :=
  match sfu_layer_scheduler_for ready table new_publisher_id with
  | (None, table) => (table, false)
  | (Some i, table) =>
      let s := slot_sched (slot_at table i) in
      let s := s <| ls_active_publisher_id := new_publisher_id |> <| ls_current_sid := 0 |>
                 <| ls_current_tid := if is_screen (ls_source s) then 2 else 0 |> in
      let s := if is_screen (ls_source s) then s <| ls_target_tid := 2 |> else s in
      let s := s <| ls_needs_keyframe := true |> <| ls_picture_valid := false |> <| ls_started_sid_mask := 0 |>
                 <| ls_completed_sid_mask := 0 |> <| ls_failed_sid_mask := 0 |> <| ls_transition_active := false |>
                 <| ls_transition_failed := false |> <| ls_temporal_transition_active := false |>
                 <| ls_temporal_transition_failed := false |> <| ls_keyframe_active := false |> <| ls_keyframe_failed := false |>
                 <| ls_pacer_frame_active := false |> <| ls_expected_seq := 0 |> <| ls_seq_initialized := false |>
                 <| ls_frame_corrupted := false |> in
      (<[i := (slot_at table i) <| slot_sched := s |>]> table, true)
  end.

(** The slot found has the key; a free one is used only when no slot has it. *)
Lemma find_slot_search key l : forall i free,
  match find_slot key l i free with
  | (Some j, _) => exists n x, j = (i + n)%nat /\ l !! n = Some x /\ slot_publisher_id x = key
  | (None, o) => Forall (fun x => slot_publisher_id x <> key) l /\
      match o with Some j => free = Some j \/ exists n x, j = (i + n)%nat /\ l !! n = Some x /\ slot_publisher_id x = 0 | None => True end
  end.
Proof.
  induction l as [|x l IH]; intros i free; cbn [find_slot]; [split; [by constructor|]; destruct free; [by left|done]|].
  destruct (Z.eqb_spec (slot_publisher_id x) key) as [E|Hne]; [exists 0%nat, x; split_and!; [lia|done|done]|].
  set (free' := match free with None => _ | _ => free end).
  assert (Hf : forall j, free' = Some j -> free = Some j \/ j = i /\ slot_publisher_id x = 0).
  { intros j. unfold free'. destruct free; [by left|]. destruct (Z.eqb_spec (slot_publisher_id x) 0); [intros [= <-]; by right|done]. }
  clearbody free'. specialize (IH (S i) free'). destruct (find_slot key l (S i) free') as [[j|] o].
  - destruct IH as (n & y & -> & Hn & Hk). exists (S n), y. split_and!; [lia|done|done].
  - destruct IH as [Hl Ho]. split; [by constructor|]. destruct o as [j|]; [|done].
    destruct Ho as [Hj|(n & y & -> & Hn & Hk)]; [|right; exists (S n), y; split_and!; [lia|done|done]].
    destruct (Hf _ Hj) as [?|[-> Hz]]; [by left|]. right. exists 0%nat, x. split_and!; [lia|done|done].
Qed.
Lemma find_slot_spec key l :
  match find_slot key l 0 None with
  | (Some j, _) => exists x, l !! j = Some x /\ slot_publisher_id x = key
  | (None, Some j) => (exists x, l !! j = Some x /\ slot_publisher_id x = 0) /\ Forall (fun x => slot_publisher_id x <> key) l
  | (None, None) => Forall (fun x => slot_publisher_id x <> key) l
  end.
Proof.
  pose proof (find_slot_search key l 0 None) as H. destruct (find_slot key l 0 None) as [[j|] [j'|]].
  - destruct H as (n & x & -> & H). by exists x.
  - destruct H as (n & x & -> & H). by exists x.
  - destruct H as [Hl [Hj|(n & x & -> & H)]]; [done|]. split; [by exists x|done].
  - by destruct H.
Qed.

(** * The stream of packets

    The egress prepares every packet and commits it when it was sent (or
    queued), and rejects it otherwise; in between the target changes, the
    slot is looked up again, or the egress asks for a keyframe
    ([sfu_egress_reset_scheduler_for_keyframe] in [src/pipeline/egress.c]),
    also between preparing a packet and its end ([reset] below). *)

Definition sfu_egress_reset_scheduler_for_keyframe (s : sfu_layer_scheduler) : sfu_layer_scheduler :=
  s <| ls_needs_keyframe := true |> <| ls_keyframe_active := false |> <| ls_keyframe_failed := false |>
    <| ls_transition_active := false |> <| ls_transition_failed := false |> <| ls_temporal_transition_active := false |>
    <| ls_temporal_transition_failed := false |> <| ls_pacer_frame_active := false |> <| ls_expected_seq := 0 |>
    <| ls_seq_initialized := false |> <| ls_frame_corrupted := false |>.

Record video_packet := mk_video_packet { vp_desc : sfu_svc_descriptor; vp_keyframe : bool }.
Inductive stream_event :=
  | EvPacket (p : video_packet) (reset sent : bool)
  | EvRate (bps now : Z)
  | EvReset
  | EvLookup (source : sfu_media_kind).

Definition process_packet (s : sfu_layer_scheduler) (p : video_packet) (reset sent : bool) : sfu_layer_scheduler * bool :=
  let '(ok, s, o) := sfu_layer_scheduler_prepare_packet s (vp_desc p) (vp_keyframe p) in
  let s := if reset then sfu_egress_reset_scheduler_for_keyframe s else s in
  if ok && sent then (sfu_layer_scheduler_commit_packet s o, true) else (sfu_layer_scheduler_reject_packet s o, false).
(** The scheduler after the events, and the packets it has seen, each with
    whether it was forwarded; a packet of a layer that does not exist
    ([sid] above 7) is refused unseen. *)
Definition seen : Type := video_packet * bool.
Definition seen_packet (p : video_packet) (forwarded : bool) : list seen := if sd_sid (vp_desc p) <? 8 then [(p, forwarded)] else [].
Fixpoint stream_run (s : sfu_layer_scheduler) (evs : list stream_event) : sfu_layer_scheduler * list seen :=
  match evs with
  | [] => (s, [])
  | EvPacket p reset sent :: evs =>
      let '(s, forwarded) := process_packet s p reset sent in
      let '(s, l) := stream_run s evs in (s, seen_packet p forwarded ++ l)
  | EvRate bps now :: evs => stream_run (sfu_layer_scheduler_set_bitrate s bps now) evs
  | EvReset :: evs => stream_run (sfu_egress_reset_scheduler_for_keyframe s) evs
  | EvLookup source :: evs => stream_run (set_source s source) evs
  end.

(** ** The keyframe gate *)

Definition gated (s : sfu_layer_scheduler) : Prop := ls_needs_keyframe s = true /\ ls_keyframe_active s = false.

Definition starts_keyframe (p : video_packet) : Prop := vp_keyframe p = true /\ sd_b_bit (vp_desc p) <> 0 /\ sd_sid (vp_desc p) = 0.
Definition ends_base_frame (p : video_packet) : Prop := sd_e_bit (vp_desc p) <> 0 /\ sd_sid (vp_desc p) = 0.
Definition next_seq (p : video_packet) : Z := u16 (sd_seq (vp_desc p) + 1).
(** What is seen of a keyframe of the time [t]: from its first packet on, every
    packet has that time, and every packet of the base layer is forwarded and
    continues the numbers of the packet seen before it. *)
Inductive keyframe_run (t : Z) : list seen -> Prop :=
  | run_start p : starts_keyframe p -> sd_rtp_timestamp (vp_desc p) = t -> keyframe_run t [(p, true)]
  | run_next r x q fw :
      keyframe_run t (r ++ [x]) -> sd_rtp_timestamp (vp_desc q) = t ->
      (sd_sid (vp_desc q) = 0 -> fw = true /\ sd_seq (vp_desc q) = next_seq x.1) -> keyframe_run t ((r ++ [x]) ++ [(q, fw)]).
(** [h] has a keyframe from its first to its last packet. *)
Definition has_keyframe (h : list seen) : Prop :=
  exists h0 r b h1 t, h = h0 ++ (r ++ [(b, true)]) ++ h1 /\ keyframe_run t (r ++ [(b, true)]) /\ ends_base_frame b.
(** [p] continues a keyframe that [h] ends in. *)
Definition continues_keyframe (h : list seen) (p : video_packet) : Prop :=
  exists h0 r x, h = h0 ++ r ++ [x] /\ keyframe_run (sd_rtp_timestamp (vp_desc p)) (r ++ [x]) /\ sd_seq (vp_desc p) = next_seq x.1 /\
    sd_sid (vp_desc p) = 0 /\ sd_p_bit (vp_desc p) = 0.
(** What may be forwarded after [h] was seen. *)
Definition decodable_after (h : list seen) (p : video_packet) : Prop := starts_keyframe p \/ continues_keyframe h p \/ has_keyframe h.

(** The gate does not open between [s] and [s']. *)
Record gate_shut (s s' : sfu_layer_scheduler) : Prop := {
  gs_needs : ls_needs_keyframe s' = false -> ls_needs_keyframe s = false;
  gs_active : ls_keyframe_active s' = true -> ls_keyframe_active s = true;
  gs_time : ls_keyframe_timestamp s' = ls_keyframe_timestamp s
}.
Lemma gate_shut_refl s : gate_shut s s.
Proof. by constructor. Qed.
Lemma gate_shut_trans s1 s2 s3 : gate_shut s1 s2 -> gate_shut s2 s3 -> gate_shut s1 s3.
Proof. intros [A1 A2 A3] [B1 B2 B3]. constructor; auto. congruence. Qed.

Lemma begin_shut s t : gate_shut s (layer_scheduler_begin_picture s t).
Proof.
  unfold layer_scheduler_begin_picture. destruct (_ && _); [apply gate_shut_refl|].
  set (s1 := if incomplete_picture s then _ else s). set (s2 := if ls_keyframe_active s1 then _ else s1).
  assert (H1 : gate_shut s s1) by (unfold s1; case_match; by constructor). clearbody s1.
  assert (H2 : gate_shut s1 s2) by (unfold s2; case_match; constructor; done). clearbody s2.
  apply (gate_shut_trans _ s1); [done|]. apply (gate_shut_trans _ s2); [done|]. by constructor.
Qed.
Lemma sequence_shut s d kf ok s' : check_sequence s d kf = (ok, s') -> gate_shut s s'.
Proof. unfold check_sequence. repeat case_match; intros [= <- <-]; by constructor. Qed.
Lemma settle_shut s : gate_shut s (settle_target s).
Proof.
  unfold settle_target. destruct (is_screen (ls_source s)); [by constructor|].
  set (s1 := if ls_target_sid s <? _ then _ else s). assert (H1 : gate_shut s s1) by (unfold s1; case_match; by constructor).
  clearbody s1. apply (gate_shut_trans _ s1); [done|]. case_match; by constructor.
Qed.

Lemma shut_let s (a : sfu_layer_scheduler) f :
  gate_shut s a -> (forall x, gate_shut s x -> gate_shut s (f x)) -> gate_shut s (let x := a in f x).
Proof. intros H1 H2. exact (H2 a H1). Qed.
Lemma shut_if s x (c : bool) a : gate_shut s x -> gate_shut x a -> gate_shut s (if c then a else x).
Proof. intros H1 H2. destruct c; [by apply (gate_shut_trans _ x)|done]. Qed.
Ltac shut_lets :=
  repeat match goal with
  | |- gate_shut ?s (let x := ?a in @?f x) => apply (shut_let s a f); [|intros ? ?]; cbv beta
  end.
Lemma reject_shut s o : gate_shut s (sfu_layer_scheduler_reject_packet s o).
Proof.
  cbv beta delta [sfu_layer_scheduler_reject_packet]. destruct (negb (same_picture s o)); [apply gate_shut_refl|].
  shut_lets; try (apply shut_if; [done|]); by constructor.
Qed.
Lemma set_bitrate_shut s bps now : gate_shut s (sfu_layer_scheduler_set_bitrate s bps now).
Proof. unfold sfu_layer_scheduler_set_bitrate. repeat case_match; by constructor. Qed.
Lemma set_source_shut s k : gate_shut s (set_source s k).
Proof. unfold set_source. case_match; by constructor. Qed.
Lemma reset_shut s : gate_shut s (sfu_egress_reset_scheduler_for_keyframe s).
Proof. by constructor. Qed.

(** What a keyframe in progress depends on, and changes from outside the
    stream that leave it alone or end it. *)
Definition track (s : sfu_layer_scheduler) : Z * bool * Z * Z * bool :=
  (ls_keyframe_timestamp s, ls_picture_valid s, ls_picture_timestamp s, ls_expected_seq s, ls_seq_initialized s).
Record calm (s s' : sfu_layer_scheduler) : Prop := {
  ca_shut : gate_shut s s';
  ca_track : ls_keyframe_active s' = true -> track s' = track s
}.
Lemma calm_refl s : calm s s.
Proof. split; [apply gate_shut_refl|done]. Qed.
Lemma calm_trans s1 s2 s3 : calm s1 s2 -> calm s2 s3 -> calm s1 s3.
Proof. intros [G1 T1] [G2 T2]. split; [by eapply gate_shut_trans|]. intros Ha. rewrite T2 by done. apply T1. by apply G2. Qed.
Lemma set_bitrate_calm s bps now : calm s (sfu_layer_scheduler_set_bitrate s bps now).
Proof. split; [apply set_bitrate_shut|]. unfold sfu_layer_scheduler_set_bitrate. by repeat case_match. Qed.
Lemma set_source_calm s k : calm s (set_source s k).
Proof. split; [apply set_source_shut|]. unfold set_source. by case_match. Qed.
Lemma reset_calm s : calm s (sfu_egress_reset_scheduler_for_keyframe s).
Proof. split; [apply reset_shut|done]. Qed.

(** The part of a decision that is settled by the keyframe check. *)
Definition key (o : sfu_layer_scheduler_decision) : Z * Z * Z * Z * Z * Z * bool * bool * sfu_layer_reject_reason :=
  (ld_rtp_timestamp o, ld_seq o, ld_sid o, ld_tid o, ld_b_bit o, ld_e_bit o, ld_start_keyframe o, ld_keyframe_packet o,
   ld_reject_reason o).
Lemma judge_target_key s d o o' : judge_target s d o = inr o' -> key o' = key o.
Proof. unfold judge_target. repeat case_match; by intros [= <-]. Qed.
Lemma judge_spatial_key s d o o' : judge_spatial s d o = inr o' -> key o' = key o.
Proof. unfold judge_spatial. repeat case_match; by intros [= <-]. Qed.
Lemma judge_temporal_key s d o o' : judge_temporal s d o = inr o' -> key o' = key o.
Proof. unfold judge_temporal. repeat case_match; by intros [= <-]. Qed.
Lemma judge_pacer_key s d o o' : judge_pacer s d o = inr o' -> key o' = key o.
Proof.
  unfold judge_pacer. set (o1 := if _ && _ then _ else o). assert (K1 : key o1 = key o) by (unfold o1; by case_match). clearbody o1.
  set (o2 := if _ && _ then _ else o1). assert (K2 : key o2 = key o1) by (unfold o2; by case_match). clearbody o2.
  set (o3 := if ld_transition_packet o2 && _ then _ else o2). assert (K3 : key o3 = key o2) by (unfold o3; by case_match). clearbody o3.
  rewrite <- K1, <- K2, <- K3. repeat case_match; by intros [= <-].
Qed.
Lemma judge_keyframe_key s d kf o o' :
  judge_keyframe s d kf o = inr o' ->
  ld_start_keyframe o = false -> ld_keyframe_packet o = false ->
  (ld_rtp_timestamp o', ld_seq o', ld_sid o', ld_tid o', ld_b_bit o', ld_e_bit o', ld_reject_reason o') =
  (ld_rtp_timestamp o, ld_seq o, ld_sid o, ld_tid o, ld_b_bit o, ld_e_bit o, ld_reject_reason o) /\
  (ld_start_keyframe o' = true -> kf = true /\ sd_b_bit d <> 0 /\ sd_sid d = 0) /\
  (ld_keyframe_packet o' = true -> sd_sid d = 0) /\
  (ls_needs_keyframe s = true -> ld_start_keyframe o' = true \/
     ls_keyframe_active s = true /\ ls_keyframe_timestamp s = sd_rtp_timestamp d /\ sd_sid d = 0 /\ sd_p_bit d = 0).
Proof.
  unfold judge_keyframe. intros E H1 H2. destruct (ls_needs_keyframe s).
  - destruct (ls_keyframe_active s); cbn [negb] in E.
    + destruct (_ || _) eqn:G in E; [done|]. injection E as <-. bool_hyps.
      split_and!; try done; [by intros; cbn in *; congruence|]. intros _. right. split_and!; done || lia.
    + destruct (_ || _) eqn:G in E; [done|]. injection E as <-. bool_hyps. destruct kf; [|done].
      split_and!; try done; try lia. by left.
  - destruct (kf || ls_keyframe_active s) eqn:Hk; [|injection E as <-; split_and!; try done; congruence].
    destruct (ls_keyframe_active s); cbn [negb] in E.
    + destruct (_ && _) eqn:G in E; injection E as <-; split_and!; try done; try (cbn; congruence). intros _. bool_hyps. lia.
    + rewrite orb_false_r in Hk. destruct (_ && _) eqn:G in E; injection E as <-; split_and!; try done; try congruence;
        intros; bool_hyps; try split_and!; done || lia.
Qed.

Lemma judge_spec s d kf o :
  judge s d kf (first_decision d) = inr o ->
  ld_rtp_timestamp o = sd_rtp_timestamp d /\ ld_seq o = sd_seq d /\ ld_sid o = sd_sid d /\ ld_tid o = sd_tid d /\
  ld_b_bit o = sd_b_bit d /\ ld_e_bit o = sd_e_bit d /\ ld_should_forward o = true /\ ld_reject_reason o = REJECT_NONE /\
  (ld_start_keyframe o = true -> kf = true /\ sd_b_bit d <> 0 /\ sd_sid d = 0) /\
  (ld_keyframe_packet o = true -> sd_sid d = 0) /\
  (ls_needs_keyframe s = true -> ld_start_keyframe o = true \/
     ls_keyframe_active s = true /\ ls_keyframe_timestamp s = sd_rtp_timestamp d /\ sd_sid d = 0 /\ sd_p_bit d = 0).
Proof.
  unfold judge, judge_bind. destruct (judge_target s d _) as [|o1] eqn:E1; [done|]. apply judge_target_key in E1.
  destruct (judge_keyframe s d kf o1) as [|o2] eqn:E2; [done|].
  destruct (judge_spatial s d o2) as [|o3] eqn:E3; [done|]. apply judge_spatial_key in E3.
  destruct (judge_temporal s d o3) as [|o4] eqn:E4; [done|]. apply judge_temporal_key in E4.
  destruct (judge_pacer s d o4) as [|o5] eqn:E5; [done|]. apply judge_pacer_key in E5.
  assert (K : key o5 = key o2) by congruence. clear E3 E4 E5.
  injection E1 as A1 A2 A3 A4 A5 A6 A7 A8 A9. apply judge_keyframe_key in E2 as (B & B1 & B2 & B3); [|done|done].
  injection B as C1 C2 C3 C4 C5 C6 C7. injection K as K1 K2 K3 K4 K5 K6 K7 K8 K9.
  unfold set_forward. intros [= <-].
  match goal with |- ld_rtp_timestamp ?x = _ /\ _ => set (o6 := x) end.
  assert (F : ld_should_forward o6 = true) by done.
  assert (F1 : ld_rtp_timestamp o6 = ld_rtp_timestamp o5) by done. assert (F2 : ld_seq o6 = ld_seq o5) by done.
  assert (F3 : ld_sid o6 = ld_sid o5) by done. assert (F4 : ld_tid o6 = ld_tid o5) by done.
  assert (F5 : ld_b_bit o6 = ld_b_bit o5) by done. assert (F6 : ld_e_bit o6 = ld_e_bit o5) by done.
  assert (F7 : ld_start_keyframe o6 = ld_start_keyframe o5) by done.
  assert (F8 : ld_keyframe_packet o6 = ld_keyframe_packet o5) by done.
  assert (F9 : ld_reject_reason o6 = ld_reject_reason o5) by done. clearbody o6.
  rewrite F7, F8, K7, K8.
  split_and!; try done; congruence.
Qed.

(** What a commit does to the gate. *)
Definition kf_view (s : sfu_layer_scheduler) : bool * bool * Z := (ls_needs_keyframe s, ls_keyframe_active s, ls_keyframe_timestamp s).
Lemma commit_starts_view s o :
  kf_view (commit_starts s o) =
    if ld_start_keyframe o then (ls_needs_keyframe s, true, ld_rtp_timestamp o) else kf_view s.
Proof.
  unfold commit_starts. set (s1 := if negb _ then _ else s). assert (E1 : kf_view s1 = kf_view s) by (unfold s1; by case_match). clearbody s1.
  set (s2 := if ld_start_keyframe o then _ else s1).
  assert (E2 : kf_view s2 = if ld_start_keyframe o then (ls_needs_keyframe s, true, ld_rtp_timestamp o) else kf_view s).
  { injection E1 as E11 E12 E13. unfold s2. rewrite <- E11. destruct (ld_start_keyframe o); [done|]. unfold kf_view. congruence. }
  clearbody s2. set (s3 := if ld_start_transition o then _ else s2).
  assert (E3 : kf_view s3 = kf_view s2) by (unfold s3; by destruct (ld_start_transition o)). clearbody s3.
  rewrite <- E2, <- E3. by destruct (ld_start_temporal_transition o).
Qed.
Lemma commit_pacer_view s o : kf_view (commit_pacer s o) = kf_view s.
Proof. unfold commit_pacer. by repeat case_match. Qed.
Lemma commit_transition_view s o : kf_view (commit_transition s o) = kf_view s.
Proof. unfold commit_transition. by repeat case_match. Qed.
Lemma commit_temporal_view s o : kf_view (commit_temporal s o) = kf_view s.
Proof. unfold commit_temporal. by repeat case_match. Qed.
Lemma commit_keyframe_view s o :
  exists c : bool, kf_view (commit_keyframe s o) =
    (if ld_keyframe_packet o && negb (ld_e_bit o =? 0) then (negb c, false, ls_keyframe_timestamp s) else kf_view s) /\
    (c = true -> ls_keyframe_active s = true /\ ls_keyframe_timestamp s = ld_rtp_timestamp o).
Proof.
  unfold commit_keyframe. destruct (_ && negb (ld_e_bit o =? 0)); [|by exists false].
  set (c := _ && negb (mask_has _ _)). exists c. split; [by case_match|]. unfold c. intros Hc. bool_hyps. done.
Qed.

Lemma commit_gate s o :
  let s' := sfu_layer_scheduler_commit_packet s o in
  (ls_needs_keyframe s' = false -> ls_needs_keyframe s = false \/
     ld_keyframe_packet o = true /\ ld_e_bit o <> 0 /\
     (ld_start_keyframe o = true \/ ls_keyframe_active s = true /\ ls_keyframe_timestamp s = ld_rtp_timestamp o)) /\
  (ls_keyframe_active s' = true ->
     ld_start_keyframe o = true /\ ls_keyframe_timestamp s' = ld_rtp_timestamp o \/
     ls_keyframe_active s = true /\ ls_keyframe_timestamp s' = ls_keyframe_timestamp s).
Proof.
  cbv zeta. cbv beta delta [sfu_layer_scheduler_commit_packet]. destruct (_ || _); [split; auto|].
  set (s1 := s <| ls_seq_initialized := true |> <| ls_expected_seq := _ |>).
  assert (E1 : kf_view s1 = kf_view s) by done. clearbody s1. cbv zeta.
  pose proof (commit_starts_view s1 o) as E2. set (s2 := commit_starts s1 o) in *. clearbody s2.
  pose proof (commit_pacer_view s2 o) as E3. set (s3 := commit_pacer s2 o) in *. clearbody s3.
  set (s4 := if _ && _ then _ else s3). assert (E4 : kf_view s4 = kf_view s3) by (unfold s4; by destruct (_ && _)). clearbody s4.
  destruct (commit_keyframe_view s4 o) as (c & E5 & Hc). set (s5 := commit_keyframe s4 o) in *. clearbody s5.
  pose proof (commit_temporal_view (commit_transition s5 o) o) as E6. rewrite commit_transition_view in E6.
  set (s6 := commit_temporal _ o) in *. clearbody s6. rewrite E5 in E6.
  assert (E : kf_view s4 = if ld_start_keyframe o then (ls_needs_keyframe s, true, ld_rtp_timestamp o) else kf_view s).
  { injection E1 as E11 E12 E13. rewrite E4, E3, E2, <- E11. unfold kf_view. destruct (ld_start_keyframe o); congruence. }
  clear E1 E2 E3 E4 E5. unfold kf_view in E, E6.
  destruct (ld_keyframe_packet o && negb (ld_e_bit o =? 0)) eqn:G.
  - injection E6 as -> -> _. bool_hyps. split; [|done]. intros Hn. right. destruct c; [|done].
    destruct (Hc eq_refl) as [Hc1 Hc2]. split_and!; [done|done|].
    destruct (ld_start_keyframe o); [by left|right]. injection E as _ F2 F3. split; congruence.
  - rewrite E in E6. destruct (ld_start_keyframe o); injection E6 as -> -> ->; auto.
Qed.

(** ** Well-formed schedulers *)

Definition submask (a b : Z) : Prop := Z.land a (Z.lnot b) = 0.
Record sched_ok (s : sfu_layer_scheduler) : Prop := {
  so_current_sid : 0 <= ls_current_sid s < 8;
  so_target_sid : 0 <= ls_target_sid s < 8;
  so_current_tid : 0 <= ls_current_tid s <= 2;
  so_target_tid : 0 <= ls_target_tid s <= 2;
  so_started : is_u8 (ls_started_sid_mask s);
  so_completed : is_u8 (ls_completed_sid_mask s);
  so_failed : is_u8 (ls_failed_sid_mask s);
  so_seq : is_u16 (ls_expected_seq s);
  so_sub : submask (ls_completed_sid_mask s) (ls_started_sid_mask s);
  so_keyframe : ls_keyframe_active s = true ->
    ls_picture_valid s = true /\ ls_keyframe_timestamp s = ls_picture_timestamp s /\ ls_keyframe_failed s = false;
  so_transition : ls_transition_active s = true -> ls_picture_valid s = true /\ ls_transition_timestamp s = ls_picture_timestamp s;
  so_temporal : ls_temporal_transition_active s = true ->
    ls_picture_valid s = true /\ ls_temporal_transition_timestamp s = ls_picture_timestamp s;
  so_pacer : ls_pacer_frame_active s = true -> ls_picture_valid s = true /\ ls_pacer_frame_timestamp s = ls_picture_timestamp s
}.
Definition desc_ok (d : sfu_svc_descriptor) : Prop := 0 <= sd_sid d < 256 /\ 0 <= sd_tid d < 8.

Lemma sid_bit_u8 sid : is_u8 (sid_bit sid).
Proof. unfold sid_bit, is_u8, u8. apply Z.mod_pos_bound. lia. Qed.
Lemma submask_bits a b : submask a b <-> forall i, 0 <= i -> Z.testbit a i = true -> Z.testbit b i = true.
Proof.
  unfold submask. split.
  - intros H i Hi Ha. assert (E : Z.testbit (Z.land a (Z.lnot b)) i = false) by (by rewrite H, Z.bits_0).
    rewrite Z.land_spec, Z.lnot_spec, Ha in E by done. by destruct (Z.testbit b i).
  - intros H. apply Z.bits_inj'. intros i Hi. rewrite Z.land_spec, Z.lnot_spec, Z.bits_0 by done. specialize (H i Hi).
    destruct (Z.testbit a i); [|done]. by rewrite H.
Qed.
Lemma submask_lor_l a b c : submask a b -> submask c b -> submask (Z.lor a c) b.
Proof.
  rewrite !submask_bits. intros H1 H2 i Hi. rewrite Z.lor_spec, orb_true_iff. intros [?|?]; auto.
Qed.
Lemma submask_lor_r a b c : submask a b -> submask a (Z.lor b c).
Proof. rewrite !submask_bits. intros H i Hi Ha. rewrite Z.lor_spec, (H i Hi Ha). done. Qed.
Lemma sid_bit_test sid i : 0 <= sid < 8 -> 0 <= i -> Z.testbit (sid_bit sid) i = (i =? sid).
Proof.
  intros Hs Hi. unfold sid_bit. rewrite Z.shiftl_1_l. unfold u8.
  rewrite Z.mod_small by (split; [apply Z.pow_nonneg; lia|]; apply (Z.pow_lt_mono_r 2 sid 8); lia).
  rewrite Z.pow2_bits_eqb by lia. by rewrite Z.eqb_sym.
Qed.
Lemma mask_has_sub m sid : 0 <= sid < 8 -> mask_has m sid = true -> submask (sid_bit sid) m.
Proof.
  intros Hs H. apply submask_bits. intros i Hi. rewrite sid_bit_test by done. intros ->%Z.eqb_eq.
  unfold mask_has in H. apply negb_true_iff, Z.eqb_neq in H. destruct (Z.testbit m sid) eqn:E; [done|]. exfalso. apply H.
  apply Z.bits_inj'. intros i Hi'. rewrite Z.land_spec, sid_bit_test, Z.bits_0 by done.
  destruct (Z.eqb_spec i sid) as [->|]; [by rewrite E|by rewrite andb_false_r].
Qed.

Lemma init_ok pub : sched_ok (sfu_layer_scheduler_init pub).
Proof. constructor; cbn; try done; try lia; unfold is_u8, is_u16; lia. Qed.
Lemma begin_ok s t : sched_ok s -> sched_ok (layer_scheduler_begin_picture s t).
Proof.
  intros Hs. unfold layer_scheduler_begin_picture. destruct (_ && _); [done|].
  set (s1 := if incomplete_picture s then _ else s).
  assert (H1 : sched_ok s1) by (unfold s1; destruct (incomplete_picture s); [destruct Hs; by constructor|done]). clearbody s1.
  set (s2 := if ls_keyframe_active s1 then _ else s1).
  assert (H2 : sched_ok s2 /\ ls_keyframe_active s2 = false).
  { unfold s2. destruct (ls_keyframe_active s1) eqn:E; [|done]. destruct H1; split; [by constructor|done]. }
  clearbody s2. destruct H2 as [[] H2]. constructor; try done; unfold is_u8; cbn; try lia. congruence.
Qed.
Lemma begin_picture_time s t :
  let s' := layer_scheduler_begin_picture s t in ls_picture_valid s' = true /\ ls_picture_timestamp s' = t.
Proof. cbv zeta. unfold layer_scheduler_begin_picture. destruct (_ && _) eqn:E; [bool_hyps; done|done]. Qed.
Lemma sequence_ok s d kf ok s' : sched_ok s -> check_sequence s d kf = (ok, s') -> sched_ok s'.
Proof.
  intros []. unfold check_sequence. pose proof (u16_range (sd_seq d + 1)).
  repeat case_match; intros [= <- <-]; by constructor.
Qed.
Lemma settle_ok s : sched_ok s -> sched_ok (settle_target s).
Proof.
  intros Hs. unfold settle_target. destruct (is_screen (ls_source s)); [destruct Hs; constructor; cbn; try done; lia|].
  set (s1 := if ls_target_sid s <? _ then _ else s).
  assert (H1 : sched_ok s1) by (unfold s1; destruct (_ <? _); [destruct Hs; by constructor|done]). clearbody s1.
  destruct (_ <? _); [destruct H1; by constructor|done].
Qed.
Lemma prepare_time s d kf ok s' o :
  sfu_layer_scheduler_prepare_packet s d kf = (ok, s', o) -> sd_sid d < 8 ->
  ls_picture_valid s' = true /\ ls_picture_timestamp s' = sd_rtp_timestamp d.
Proof.
  unfold sfu_layer_scheduler_prepare_packet. intros E Hs. rewrite (proj2 (Z.leb_gt _ _) Hs) in E.
  pose proof (begin_picture_time s (sd_rtp_timestamp d)) as Ht. cbv zeta in Ht.
  set (s1 := layer_scheduler_begin_picture _ _) in *. clearbody s1.
  destruct (check_sequence s1 d kf) as [ok1 s2] eqn:E2.
  assert (H2 : ls_picture_valid s2 = ls_picture_valid s1 /\ ls_picture_timestamp s2 = ls_picture_timestamp s1).
  { unfold check_sequence in E2. repeat case_match; by injection E2 as <- <-. }
  destruct H2 as [P1 P2]. rewrite <- P1, <- P2 in Ht. destruct ok1; cbn [negb] in E; [|by injection E as <- <- <-].
  assert (H3 : ls_picture_valid (settle_target s2) = ls_picture_valid s2 /\ ls_picture_timestamp (settle_target s2) = ls_picture_timestamp s2).
  { unfold settle_target. destruct (is_screen _); [done|]. set (s3 := if ls_target_sid s2 <? _ then _ else s2).
    assert (F : ls_picture_valid s3 = ls_picture_valid s2 /\ ls_picture_timestamp s3 = ls_picture_timestamp s2) by (unfold s3; by destruct (_ <? _)).
    clearbody s3. by destruct (_ <? _). }
  destruct H3 as [Q1 Q2]. rewrite <- Q1, <- Q2 in Ht. by destruct (judge _ _ _ _) as [[r o1]|o1]; injection E as <- <- <-.
Qed.

(** What a prepared packet is, whether it may be forwarded or not. *)
Lemma judge_inl_key s d kf r o : judge s d kf (first_decision d) = inl (r, o) ->
  ld_rtp_timestamp o = sd_rtp_timestamp d /\ ld_sid o = sd_sid d.
Proof.
  unfold judge, judge_bind. set (o0 := first_decision d).
  assert (K0 : ld_rtp_timestamp o0 = sd_rtp_timestamp d /\ ld_sid o0 = sd_sid d) by done. clearbody o0.
  destruct (judge_target s d o0) as [[r1 x]|o1] eqn:E1.
  { intros [= <- <-]. unfold judge_target in E1. repeat case_match; try discriminate; injection E1 as <- <-; done. }
  apply judge_target_key in E1. injection E1 as A1 _ A3 _ _ _ _ _ _. rewrite <- A1, <- A3 in K0.
  destruct (judge_keyframe s d kf o1) as [[r2 x]|o2] eqn:E2.
  { intros [= <- <-]. unfold judge_keyframe in E2. repeat case_match; try discriminate; injection E2 as <- <-; done. }
  assert (K2 : ld_rtp_timestamp o2 = ld_rtp_timestamp o1 /\ ld_sid o2 = ld_sid o1)
    by (unfold judge_keyframe in E2; repeat case_match; try discriminate; by injection E2 as <-).
  destruct K2 as [B1 B3]. rewrite <- B1, <- B3 in K0.
  destruct (judge_spatial s d o2) as [[r3 x]|o3] eqn:E3.
  { intros [= <- <-]. unfold judge_spatial in E3. repeat case_match; try discriminate; injection E3 as <- <-; done. }
  apply judge_spatial_key in E3. injection E3 as C1 _ C3 _ _ _ _ _ _. rewrite <- C1, <- C3 in K0.
  destruct (judge_temporal s d o3) as [[r4 x]|o4] eqn:E4.
  { intros [= <- <-]. unfold judge_temporal in E4. repeat case_match; try discriminate; injection E4 as <- <-; done. }
  apply judge_temporal_key in E4. injection E4 as D1 _ D3 _ _ _ _ _ _. rewrite <- D1, <- D3 in K0.
  destruct (judge_pacer s d o4) as [[r5 x]|o5] eqn:E5; [|done].
  intros [= <- <-]. unfold judge_pacer in E5.
  set (x1 := if _ && _ then _ else o4) in E5. assert (F1 : key x1 = key o4) by (unfold x1; by destruct (_ && _)). clearbody x1.
  set (x2 := if _ && _ then _ else x1) in E5. assert (F2 : key x2 = key x1) by (unfold x2; by destruct (_ && _)). clearbody x2.
  set (x3 := if ld_transition_packet x2 && _ then _ else x2) in E5.
  assert (F3 : key x3 = key x2) by (unfold x3; by destruct (_ && negb _)). clearbody x3.
  assert (F : key x = key o4); [|injection F as -> _ -> _ _ _ _ _ _; done].
  rewrite <- F1, <- F2, <- F3. destruct (is_enh (ld_pacer_class x3)); [|done].
  case_match; (case_match; [|done]); by injection E5 as <- <-.
Qed.

Lemma prepare_shut s d kf ok s' o : sfu_layer_scheduler_prepare_packet s d kf = (ok, s', o) -> gate_shut s s'.
Proof.
  unfold sfu_layer_scheduler_prepare_packet. destruct (_ <=? _); [intros [= <- <- <-]; apply gate_shut_refl|].
  pose proof (begin_shut s (sd_rtp_timestamp d)) as H1. set (s1 := layer_scheduler_begin_picture _ _) in *. clearbody s1.
  destruct (check_sequence s1 d kf) as [ok1 s2] eqn:E2. apply sequence_shut in E2.
  pose proof (gate_shut_trans _ _ _ H1 E2) as H2. destruct ok1; cbn [negb]; [|by intros [= <- <- <-]].
  pose proof (gate_shut_trans _ _ _ H2 (settle_shut s2)). destruct (judge _ _ _ _) as [[r o1]|o1]; by intros [= <- <- <-].
Qed.
Lemma prepare_ok s d kf ok s' o : sched_ok s -> sfu_layer_scheduler_prepare_packet s d kf = (ok, s', o) -> sched_ok s'.
Proof.
  unfold sfu_layer_scheduler_prepare_packet. intros Hs. destruct (_ <=? _); [by intros [= <- <- <-]|].
  pose proof (begin_ok s (sd_rtp_timestamp d) Hs) as H1. set (s1 := layer_scheduler_begin_picture _ _) in *. clearbody s1.
  destruct (check_sequence s1 d kf) as [ok1 s2] eqn:E2. apply sequence_ok in E2; [|done].
  destruct ok1; cbn [negb]; [|by intros [= <- <- <-]].
  pose proof (settle_ok s2 E2). destruct (judge _ _ _ _) as [[r o1]|o1]; by intros [= <- <- <-].
Qed.
Lemma prepare_forward s d kf s' o :
  sfu_layer_scheduler_prepare_packet s d kf = (true, s', o) -> sd_sid d < 8 /\ judge s' d kf (first_decision d) = inr o.
Proof.
  unfold sfu_layer_scheduler_prepare_packet. destruct (Z.leb_spec 8 (sd_sid d)); [done|].
  destruct (check_sequence _ d kf) as [ok1 s2]. destruct ok1; cbn [negb]; [|done].
  destruct (judge _ _ _ _) as [[r o1]|o1] eqn:E; [done|]. intros [= <- <-]. split; [lia|done].
Qed.
Lemma judge_started s d kf o : judge s d kf (first_decision d) = inr o -> sd_b_bit d = 0 -> mask_has (ls_started_sid_mask s) (sd_sid d) = true.
Proof.
  unfold judge, judge_bind, judge_target. destruct (_ || _); [done|]. intros E Hb. rewrite Hb in E. cbn [Z.eqb andb] in E.
  by destruct (mask_has (ls_started_sid_mask s) (sd_sid d)).
Qed.

(** A commit of a packet of the present picture. *)
Lemma commit_starts_ok s o :
  sched_ok s -> ls_picture_valid s = true -> ls_picture_timestamp s = ld_rtp_timestamp o -> sched_ok (commit_starts s o).
Proof.
  intros Hs Hv Ht. unfold commit_starts. set (s1 := if negb _ then _ else s).
  assert (H1 : sched_ok s1 /\ ls_picture_valid s1 = true /\ ls_picture_timestamp s1 = ld_rtp_timestamp o).
  { unfold s1. destruct (negb _); [|done]. destruct Hs. split; [|done]. constructor; try done.
    - apply lor_u8; [done|apply sid_bit_u8].
    - by apply submask_lor_r. }
  clearbody s1. destruct H1 as (H1 & Hv1 & Ht1).
  set (s2 := if ld_start_keyframe o then _ else s1).
  assert (H2 : sched_ok s2 /\ ls_picture_valid s2 = true /\ ls_picture_timestamp s2 = ld_rtp_timestamp o).
  { unfold s2. destruct (ld_start_keyframe o); [|done]. destruct H1. split; [by constructor|done]. }
  clearbody s2. destruct H2 as (H2 & Hv2 & Ht2). set (s3 := if ld_start_transition o then _ else s2).
  assert (H3 : sched_ok s3 /\ ls_picture_valid s3 = true /\ ls_picture_timestamp s3 = ld_rtp_timestamp o).
  { unfold s3. destruct (ld_start_transition o); [|done]. destruct H2. split; [by constructor|done]. }
  clearbody s3. destruct H3 as (H3 & Hv3 & Ht3). destruct (ld_start_temporal_transition o); [|done]. destruct H3. by constructor.
Qed.
Lemma commit_pacer_ok s o :
  sched_ok s -> ls_picture_valid s = true -> ls_picture_timestamp s = ld_rtp_timestamp o -> sched_ok (commit_pacer s o).
Proof.
  intros Hs Hv Ht. unfold commit_pacer. destruct (_ && _); [destruct Hs; by constructor|].
  destruct (_ && _); [destruct Hs; by constructor|done].
Qed.
Lemma commit_keyframe_ok s o : sched_ok s -> sched_ok (commit_keyframe s o).
Proof.
  intros Hs. unfold commit_keyframe. destruct (_ && _); [|done]. set (c := _ && negb _). clearbody c.
  set (s1 := s <| ls_needs_keyframe := _ |> <| ls_keyframe_active := _ |> <| ls_keyframe_failed := _ |>).
  assert (H1 : sched_ok s1) by (destruct Hs; by constructor). clearbody s1.
  destruct (_ && _); [|done]. destruct H1. constructor; try done.
Qed.
Lemma commit_transition_ok s o : sched_ok s -> 0 <= ld_sid o < 8 -> sched_ok (commit_transition s o).
Proof.
  intros Hs Hd. unfold commit_transition. destruct (_ && negb (ld_e_bit o =? 0)); [|done].
  set (s1 := if _ && (ld_sid o <=? _) then _ else s).
  assert (H1 : sched_ok s1) by (unfold s1; destruct (_ && _); [destruct Hs; by constructor|done]). clearbody s1.
  destruct H1. by constructor.
Qed.
Lemma commit_temporal_ok s o : sched_ok s -> 0 <= ld_tid o -> sched_ok (commit_temporal s o).
Proof.
  intros Hs Hd. unfold commit_temporal. destruct (_ && negb (ld_e_bit o =? 0)); [|done].
  set (s1 := if _ && (ld_tid o <=? _) then _ else s).
  assert (H1 : sched_ok s1).
  { unfold s1. destruct (_ && (ld_tid o <=? _)) eqn:G; [|done]. bool_hyps. destruct Hs. constructor; try done. cbn. lia. }
  clearbody s1. destruct H1. by constructor.
Qed.

Lemma commit_ok s o :
  sched_ok s -> 0 <= ld_sid o -> 0 <= ld_tid o -> (ld_b_bit o = 0 -> mask_has (ls_started_sid_mask s) (ld_sid o) = true) ->
  sched_ok (sfu_layer_scheduler_commit_packet s o).
Proof.
  intros Hs Hsid Htid Hb. cbv beta delta [sfu_layer_scheduler_commit_packet]. destruct (_ || _) eqn:G; [done|].
  apply orb_false_iff in G as [_ G]. unfold same_picture in G. apply negb_false_iff in G.
  apply andb_prop in G as [G G3]. apply andb_prop in G as [G1 G2]. apply Z.eqb_eq in G2. apply Z.ltb_lt in G3.
  set (s1 := s <| ls_seq_initialized := true |> <| ls_expected_seq := _ |>).
  assert (H1 : sched_ok s1) by (pose proof (u16_range (ld_seq o + 1)); destruct Hs; by constructor).
  assert (F1 : ls_picture_valid s1 = true /\ ls_picture_timestamp s1 = ld_rtp_timestamp o /\
               ls_started_sid_mask s1 = ls_started_sid_mask s) by done.
  clearbody s1. destruct F1 as (Hv & Ht & Hst). cbv zeta.
  pose proof (commit_starts_ok s1 o H1 Hv Ht) as H2.
  assert (F2 : ls_picture_valid (commit_starts s1 o) = true /\ ls_picture_timestamp (commit_starts s1 o) = ld_rtp_timestamp o /\
               submask (sid_bit (ld_sid o)) (ls_started_sid_mask (commit_starts s1 o))).
  { unfold commit_starts. set (x1 := if negb _ then _ else s1).
    assert (X1 : ls_picture_valid x1 = true /\ ls_picture_timestamp x1 = ld_rtp_timestamp o /\
                 submask (sid_bit (ld_sid o)) (ls_started_sid_mask x1)).
    { unfold x1. destruct (Z.eqb_spec (ld_b_bit o) 0) as [E|E]; cbn [negb].
      - split_and!; try done. rewrite Hst. apply mask_has_sub; [lia|auto].
      - split_and!; try done. change (submask (sid_bit (ld_sid o)) (Z.lor (ls_started_sid_mask s1) (sid_bit (ld_sid o)))).
        rewrite Z.lor_comm. apply submask_lor_r, submask_bits. auto. }
    clearbody x1. by destruct (ld_start_keyframe o), (ld_start_transition o), (ld_start_temporal_transition o). }
  destruct F2 as (Hv2 & Ht2 & Hsub). set (s2 := commit_starts s1 o) in *. clearbody s2.
  pose proof (commit_pacer_ok s2 o H2 Hv2 Ht2) as H3.
  assert (F3 : ls_started_sid_mask (commit_pacer s2 o) = ls_started_sid_mask s2) by (unfold commit_pacer; by repeat case_match).
  rewrite <- F3 in Hsub. set (s3 := commit_pacer s2 o) in *. clearbody s3.
  set (s4 := if _ && _ then _ else s3).
  assert (H4 : sched_ok s4).
  { unfold s4. destruct (_ && _); [|done]. destruct H3. constructor; try done.
    - apply lor_u8; [done|apply sid_bit_u8].
    - by apply submask_lor_l. }
  clearbody s4. apply commit_temporal_ok; [|done]. apply commit_transition_ok; [|lia]. by apply commit_keyframe_ok.
Qed.

Lemma ok_let (a : sfu_layer_scheduler) f : sched_ok a -> (forall x, sched_ok x -> sched_ok (f x)) -> sched_ok (let x := a in f x).
Proof. intros H1 H2. exact (H2 a H1). Qed.
Ltac ok_step := match goal with |- sched_ok (let x := ?a in @?f x) => apply (ok_let a f) end.
Lemma reject_packet_ok s o : sched_ok s -> sched_ok (sfu_layer_scheduler_reject_packet s o).
Proof.
  intros Hs. cbv beta delta [sfu_layer_scheduler_reject_packet]. destruct (negb (same_picture s o)); [done|].
  ok_step; [|intros s1 H1; cbv beta].
  { destruct Hs. constructor; try done. apply lor_u8; [done|apply sid_bit_u8]. }
  repeat (ok_step; [|intros ? ?; cbv beta]);
    match goal with |- sched_ok (if ?c then _ else _) => destruct c; [|done] end;
    match goal with H : sched_ok _ |- _ => destruct H; by constructor end.
Qed.
Lemma ladder_scan_range n f : -1 <= ladder_scan n f < Z.of_nat n.
Proof. induction n as [|n IH]; cbn [ladder_scan]; [lia|]. destruct (f _); lia. Qed.
Lemma choose_rung_range s bps : -1 <= choose_rung s bps < 3.
Proof.
  unfold choose_rung. pose proof (ladder_scan_range 3 (fun r => up_rate r <=? bps)).
  pose proof (ladder_scan_range 3 (fun r => (rung_sid r <=? ls_target_sid s) && (rung_tid r <=? ls_target_tid s))).
  repeat case_match; lia.
Qed.
Lemma rung_range c : 0 <= c < 3 -> rung_sid (rung c) = 0 /\ rung_tid (rung c) = c.
Proof. intros Hc. assert (E : c = 0 \/ c = 1 \/ c = 2) by lia. destruct E as [->|[->| ->]]; done. Qed.
Lemma set_bitrate_ok s bps now : sched_ok s -> sched_ok (sfu_layer_scheduler_set_bitrate s bps now).
Proof.
  intros Hs. cbv beta delta [sfu_layer_scheduler_set_bitrate]. ok_step; [destruct Hs; by constructor|].
  clear s Hs. intros s Hs. cbv beta zeta. pose proof (choose_rung_range s bps) as Hc. set (c := choose_rung s bps) in *. clearbody c.
  destruct (_ && _); [done|]. destruct (_ && (_ <? SFU_LAYER_UP_DWELL_US)); [done|].
  assert (Hr : 0 <= (if 0 <=? c then rung_sid (rung c) else 0) < 8 /\
               0 <= (if is_screen (ls_source s) then 2 else if 0 <=? c then rung_tid (rung c) else 0) <= 2).
  { destruct (Z.leb_spec 0 c) as [Hp|]; [destruct (rung_range c ltac:(lia)) as [-> ->]|]; destruct (is_screen _); lia. }
  destruct Hs. destruct Hr. by constructor.
Qed.
Lemma set_source_ok s k : sched_ok s -> sched_ok (set_source s k).
Proof. intros []. unfold set_source. destruct (is_screen k); constructor; try done; cbn; lia. Qed.
Lemma reset_ok s : sched_ok s -> sched_ok (sfu_egress_reset_scheduler_for_keyframe s).
Proof. intros []. by constructor. Qed.

Definition event_ok (e : stream_event) : Prop := match e with EvPacket p _ _ => desc_ok (vp_desc p) | _ => True end.
Lemma process_ok s p reset sent : sched_ok s -> desc_ok (vp_desc p) -> sched_ok (process_packet s p reset sent).1.
Proof.
  intros Hs [Hd1 Hd2]. unfold process_packet. destruct (sfu_layer_scheduler_prepare_packet s _ _) as [[ok s1] o] eqn:E.
  pose proof (prepare_ok _ _ _ _ _ _ Hs E) as H1. set (s2 := if reset then _ else s1).
  assert (H2 : sched_ok s2 /\ ls_started_sid_mask s2 = ls_started_sid_mask s1)
    by (unfold s2; destruct reset; [split; [by apply reset_ok|done]|done]).
  clearbody s2. destruct H2 as [H2 Em]. destruct ok; cbn [andb]; [|by apply reject_packet_ok].
  destruct sent; [|by apply reject_packet_ok]. apply prepare_forward in E as [Hsid Hj].
  destruct (judge_spec _ _ _ _ Hj) as (_ & _ & E3 & E4 & E5 & _). apply commit_ok; rewrite ?E3, ?E4, ?E5, ?Em; try done; try lia.
  by eapply judge_started.
Qed.

Lemma prepare_key s d kf ok s' o :
  sfu_layer_scheduler_prepare_packet s d kf = (ok, s', o) -> ld_rtp_timestamp o = sd_rtp_timestamp d /\ ld_sid o = sd_sid d.
Proof.
  unfold sfu_layer_scheduler_prepare_packet. destruct (_ <=? _); [by intros [= <- <- <-]|].
  destruct (check_sequence _ d kf) as [ok1 s2]. destruct ok1; cbn [negb]; [|by intros [= <- <- <-]].
  destruct (judge _ _ _ _) as [[r o1]|o1] eqn:E; intros [= <- <- <-].
  - apply judge_inl_key in E. exact E.
  - apply judge_spec in E as (? & _ & ? & _). done.
Qed.
Lemma reject_base_inactive s o :
  (ls_keyframe_active s = true -> ls_keyframe_timestamp s = ls_picture_timestamp s) -> same_picture s o = true -> ld_sid o = 0 -> ls_keyframe_active (sfu_layer_scheduler_reject_packet s o) = false.
Proof.
  intros Hs Hp Hz. cbv beta delta [sfu_layer_scheduler_reject_packet]. rewrite Hp. cbn [negb].
  unfold same_picture in Hp. apply andb_prop in Hp as [Hp _]. apply andb_prop in Hp as [_ Hp]. apply Z.eqb_eq in Hp.
  set (s1 := s <| ls_failed_sid_mask ::= _ |>).
  assert (F1 : ls_keyframe_active s1 = true -> ls_keyframe_timestamp s1 = ld_rtp_timestamp o).
  { intros Ha. exact (eq_trans (Hs Ha) Hp). }
  clearbody s1. cbv zeta.
  set (s2 := if in_pacer_frame s1 _ _ _ then _ else s1).
  assert (F2 : ls_keyframe_active s2 = true -> ls_keyframe_timestamp s2 = ld_rtp_timestamp o) by (unfold s2; by destruct (in_pacer_frame _ _ _ _)).
  clearbody s2. set (s3 := if ld_keyframe_packet o || _ then _ else s2).
  assert (F3 : ls_keyframe_active s3 = false).
  { unfold s3. rewrite Hz. destruct (ls_keyframe_active s2) eqn:Ea.
    - rewrite (F2 eq_refl), !Z.eqb_refl, orb_true_r. done.
    - by destruct (ld_keyframe_packet o). }
  clearbody s3. repeat match goal with |- context [if ?c then ?a else ?b] => destruct c end; done.
Qed.

(** ** What a packet does to the keyframe in progress *)

Definition place (s : sfu_layer_scheduler) : bool * Z * Z * bool := (ls_picture_valid s, ls_picture_timestamp s, ls_expected_seq s, ls_seq_initialized s).
Lemma begin_track s t :
  let s' := layer_scheduler_begin_picture s t in
  place s' = (true, t, ls_expected_seq s, ls_seq_initialized s) /\ ls_keyframe_timestamp s' = ls_keyframe_timestamp s /\
  (ls_keyframe_active s' = true -> ls_picture_valid s = true /\ ls_picture_timestamp s = t).
Proof.
  cbv zeta. split; [|split; [apply begin_shut|]].
  - unfold layer_scheduler_begin_picture. destruct (ls_picture_valid s && _) eqn:E; [unfold place; bool_hyps; congruence|].
    set (s1 := if incomplete_picture s then _ else s). assert (H1 : place s1 = place s) by (unfold s1; by case_match). clearbody s1.
    set (s2 := if ls_keyframe_active s1 then _ else s1). assert (H2 : place s2 = place s) by (unfold s2; by case_match). clearbody s2.
    injection H2 as _ _ H3 H4. rewrite <- H3, <- H4. done.
  - unfold layer_scheduler_begin_picture. destruct (ls_picture_valid s && _) eqn:E; [intros _; bool_hyps; done|].
    set (s1 := if incomplete_picture s then _ else s). clearbody s1. destruct (ls_keyframe_active s1) eqn:Ea; [done|]. intros Hc.
    assert (ls_keyframe_active s1 = true) by exact Hc. congruence.
Qed.
Lemma sequence_track s d kf ok s' :
  check_sequence s d kf = (ok, s') ->
  place s' = (ls_picture_valid s, ls_picture_timestamp s, u16 (sd_seq d + 1), ls_seq_initialized s') /\
  (ls_seq_initialized s = true -> ls_seq_initialized s' = true) /\
  (ok = true -> ls_seq_initialized s = true -> sd_b_bit d = 0 \/ kf = false -> sd_seq d = ls_expected_seq s).
Proof.
  unfold check_sequence. destruct (Z.eqb_spec (sd_b_bit d) 0) as [Hb|Hb].
  - destruct (_ || _) eqn:E; intros [= <- <-]; (split; [done|]; split; [done|]); [done|]. intros _ _ _. bool_hyps. done.
  - destruct kf; cbn [negb]; [intros [= <- <-]; split; [done|]; split; [done|]; intros _ _ [?|?]; done|].
    destruct (_ && _) eqn:E; intros [= <- <-]; (split; [done|]; split; [done|]); [done|]. intros _ Hi _. rewrite Hi in E. cbn [andb] in E. bool_hyps. done.
Qed.
Lemma settle_place s : place (settle_target s) = place s.
Proof.
  unfold settle_target. destruct (is_screen (ls_source s)); [done|]. set (s1 := if ls_target_sid s <? _ then _ else s).
  assert (H1 : place s1 = place s) by (unfold s1; by case_match). clearbody s1. rewrite <- H1. by case_match.
Qed.
Lemma prepare_track s d kf ok s1 o :
  sd_sid d < 8 -> sfu_layer_scheduler_prepare_packet s d kf = (ok, s1, o) ->
  place s1 = (true, sd_rtp_timestamp d, u16 (sd_seq d + 1), ls_seq_initialized s1) /\ ls_keyframe_timestamp s1 = ls_keyframe_timestamp s /\
  (ls_keyframe_active s1 = true -> ls_picture_valid s = true /\ ls_picture_timestamp s = sd_rtp_timestamp d) /\
  (ls_seq_initialized s = true -> ls_seq_initialized s1 = true) /\
  (ok = true -> ls_seq_initialized s = true -> sd_b_bit d = 0 \/ kf = false -> sd_seq d = ls_expected_seq s).
Proof.
  intros Hsid E. split_and!; [|by eapply (gs_time _ _ (prepare_shut _ _ _ _ _ _ E))|..]; revert E; unfold sfu_layer_scheduler_prepare_packet;
    (destruct (Z.leb_spec 8 (sd_sid d)); [lia|]); destruct (begin_track s (sd_rtp_timestamp d)) as (Hp & _ & Ha); set (s0 := layer_scheduler_begin_picture _ _) in *; clearbody s0;
    injection Hp as Hp1 Hp2 Hp3 Hp4; destruct (check_sequence s0 d kf) as [ok1 s2] eqn:Eq; pose proof (sequence_shut _ _ _ _ _ Eq) as Hsh; apply sequence_track in Eq as (Q & Qi & Qs);
    rewrite Hp1, Hp2 in Q; rewrite Hp4 in Qi, Qs; rewrite Hp3 in Qs; pose proof (settle_place s2) as Hset; pose proof (settle_shut s2) as Hss.
  - destruct ok1; cbn [negb]; [|intros [= _ <- _]; exact Q]. assert (Hq : place (settle_target s2) = (true, sd_rtp_timestamp d, u16 (sd_seq d + 1), ls_seq_initialized (settle_target s2))).
    { injection Hset as S1 S2 S3 S4. injection Q as Q1 Q2 Q3. unfold place. rewrite S1, S2, S3, Q1, Q2, Q3. done. }
    destruct (judge _ _ _ _) as [[r o1]|o1]; intros [= _ <- _]; exact Hq.
  - destruct ok1; cbn [negb]; [|intros [= _ <- _] Hac; by apply Ha, Hsh]. destruct (judge _ _ _ _) as [[r o1]|o1]; intros [= _ <- _] Hac; by apply Ha, Hsh, Hss.
  - assert (Hi : ls_seq_initialized (settle_target s2) = ls_seq_initialized s2) by (by injection Hset).
    destruct ok1; cbn [negb]; [|intros [= _ <- _]; exact Qi]. destruct (judge _ _ _ _) as [[r o1]|o1]; intros [= _ <- _]; rewrite Hi; exact Qi.
  - destruct ok1; cbn [negb]; [|by intros [= <- _ _]]. intros _ _. by apply Qs.
Qed.
Lemma commit_starts_place s o : place (commit_starts s o) = place s.
Proof.
  cbv beta delta [commit_starts]. cbv zeta. set (s1 := if negb (ld_b_bit o =? 0) then _ else s).
  assert (E1 : place s1 = place s) by (unfold s1; by case_match). clearbody s1.
  set (s2 := if ld_start_keyframe o then _ else s1). assert (E2 : place s2 = place s) by (unfold s2; by case_match). clearbody s2.
  set (s3 := if ld_start_transition o then _ else s2). assert (E3 : place s3 = place s) by (unfold s3; by case_match). clearbody s3.
  by case_match.
Qed.
Lemma commit_keyframe_place s o : place (commit_keyframe s o) = place s.
Proof. unfold commit_keyframe. case_match; [|done]. cbv zeta. by case_match. Qed.
Lemma commit_transition_place s o : place (commit_transition s o) = place s.
Proof. unfold commit_transition. case_match; [|done]. cbv zeta. by case_match. Qed.
Lemma commit_temporal_place s o : place (commit_temporal s o) = place s.
Proof. unfold commit_temporal. case_match; [|done]. cbv zeta. by case_match. Qed.
Lemma commit_track s o :
  ld_should_forward o = true -> same_picture s o = true ->
  place (sfu_layer_scheduler_commit_packet s o) = (true, ld_rtp_timestamp o, u16 (ld_seq o + 1), true).
Proof.
  intros Hf Hp. cbv beta delta [sfu_layer_scheduler_commit_packet]. rewrite Hf, Hp. cbn [negb orb]. cbv zeta.
  rewrite commit_temporal_place, commit_transition_place, commit_keyframe_place. unfold same_picture in Hp. bool_hyps.
  set (s1 := s <| ls_seq_initialized := true |> <| ls_expected_seq := _ |>).
  assert (E1 : place s1 = (true, ld_rtp_timestamp o, u16 (ld_seq o + 1), true)) by (unfold place; cbn; congruence). clearbody s1.
  pose proof (commit_starts_place s1 o) as E2. set (s2 := commit_starts s1 o) in *. clearbody s2.
  assert (E3 : place (commit_pacer s2 o) = place s2) by (unfold commit_pacer; by repeat case_match). set (s3 := commit_pacer s2 o) in *. clearbody s3.
  case_match; [|congruence]. change (place (s3 <| ls_completed_sid_mask ::= fun m => Z.lor m (sid_bit (ld_sid o)) |>)) with (place s3). congruence.
Qed.
Lemma reject_place s o : place (sfu_layer_scheduler_reject_packet s o) = place s.
Proof.
  cbv beta delta [sfu_layer_scheduler_reject_packet]. destruct (negb (same_picture s o)); [done|].
  set (s1 := s <| ls_failed_sid_mask ::= _ |>). assert (E : place s1 = place s) by done. clearbody s1. cbv zeta.
  set (s2 := if in_pacer_frame s1 _ _ _ then _ else s1). assert (E2 : place s2 = place s) by (unfold s2; by destruct (in_pacer_frame _ _ _ _)). clearbody s2.
  set (s3 := if ld_keyframe_packet o || _ then _ else s2). assert (E3 : place s3 = place s) by (unfold s3; by destruct (ld_keyframe_packet o || _)). clearbody s3.
  set (s4 := if is_screen _ || _ then _ else s3). assert (E4 : place s4 = place s) by (unfold s4; by destruct (is_screen _ || _)). clearbody s4.
  set (s5 := if bool_decide _ then _ else s4). assert (E5 : place s5 = place s) by (unfold s5; by destruct (bool_decide _)). clearbody s5.
  set (s6 := if _ && _ then _ else s5). assert (E6 : place s6 = place s) by (unfold s6; by destruct (_ && _)). clearbody s6.
  by destruct (_ && _).
Qed.

(** What a scheduler knows of the packets it has seen. *)
Definition in_keyframe (s : sfu_layer_scheduler) (h : list seen) : Prop :=
  ls_picture_valid s = true /\ ls_keyframe_timestamp s = ls_picture_timestamp s /\ ls_seq_initialized s = true /\
  exists h0 r x, h = h0 ++ r ++ [x] /\ keyframe_run (ls_keyframe_timestamp s) (r ++ [x]) /\ ls_expected_seq s = next_seq x.1.
Record gate_history (s : sfu_layer_scheduler) (h : list seen) : Prop := {
  gh_open : ls_needs_keyframe s = false -> has_keyframe h;
  gh_active : ls_keyframe_active s = true -> in_keyframe s h
}.
Lemma has_keyframe_app h h' : has_keyframe h -> has_keyframe (h ++ h').
Proof. intros (h0 & r & b & h1 & t & -> & Hr). exists h0, r, b, (h1 ++ h'), t. split; [by rewrite <- !app_assoc|done]. Qed.
Lemma gate_history_calm s s' h : calm s s' -> gate_history s h -> gate_history s' h.
Proof.
  intros [[G1 G2 G3] T] [H1 H2]. constructor; [auto|]. intros Ha. specialize (H2 (G2 Ha)). specialize (T Ha).
  injection T as T1 T2 T3 T4 T5. unfold in_keyframe. rewrite T1, T2, T3, T4, T5. exact H2.
Qed.
Lemma gated_history s : gated s -> gate_history s [].
Proof. intros [Hn Ha]. constructor; congruence. Qed.

(** A packet of the picture of the keyframe in progress extends it, when it is
    of a higher layer or was forwarded. *)
Lemma run_extend s h p ok s1 o :
  sd_sid (vp_desc p) < 8 -> gate_history s h -> sfu_layer_scheduler_prepare_packet s (vp_desc p) (vp_keyframe p) = (ok, s1, o) ->
  ls_keyframe_active s1 = true ->
  ls_keyframe_timestamp s1 = sd_rtp_timestamp (vp_desc p) /\ ls_seq_initialized s1 = true /\
  (ok = true -> starts_keyframe p \/ sd_sid (vp_desc p) <> 0 \/
     exists h0 r x, h = h0 ++ r ++ [x] /\ keyframe_run (sd_rtp_timestamp (vp_desc p)) (r ++ [x]) /\ sd_seq (vp_desc p) = next_seq x.1) /\
  forall fw, sd_sid (vp_desc p) <> 0 \/ ok = true /\ fw = true ->
    exists h0 r, h ++ [(p, fw)] = h0 ++ r ++ [(p, fw)] /\ keyframe_run (sd_rtp_timestamp (vp_desc p)) (r ++ [(p, fw)]).
Proof.
  intros Hsid Hh E Ha. pose proof (prepare_shut _ _ _ _ _ _ E) as [_ G _]. destruct (prepare_track _ _ _ _ _ _ Hsid E) as (_ & Kt & Pa & Si & Sq).
  destruct (Pa Ha) as [Pv Pt]. destruct (gh_active _ _ Hh (G Ha)) as (_ & Hk & Hi & h0 & r & x & -> & Hr & He).
  assert (Ht : ls_keyframe_timestamp s = sd_rtp_timestamp (vp_desc p)) by congruence. rewrite Ht in Hr. rewrite He in Sq.
  assert (Hseq : ok = true -> starts_keyframe p \/ sd_sid (vp_desc p) <> 0 \/ sd_seq (vp_desc p) = next_seq x.1).
  { intros Hok. destruct (decide (sd_sid (vp_desc p) = 0)) as [Hz|]; [|auto]. destruct (decide (sd_b_bit (vp_desc p) = 0)); [auto|].
    destruct (vp_keyframe p) eqn:Hkf; [left; done|auto]. }
  split; [congruence|]. split; [auto|]. split.
  { intros Hok. destruct (Hseq Hok) as [?|[?|?]]; [auto|auto|]. right. right. exists h0, r, x. done. }
  intros fw Hfw. assert (Hgo : sd_sid (vp_desc p) <> 0 \/ fw = true /\ (starts_keyframe p \/ sd_seq (vp_desc p) = next_seq x.1)).
  { destruct Hfw as [?|[Hok ->]]; [auto|]. destruct (Hseq Hok) as [?|[?|?]]; auto. }
  destruct (decide (sd_sid (vp_desc p) = 0)) as [Hz|Hz].
  - destruct Hgo as [?|[-> [Hst|Hn]]]; [done|exists (h0 ++ r ++ [x]), []; split; [done|by apply run_start]|].
    exists h0, (r ++ [x]). split; [by rewrite <- app_assoc|]. by apply run_next.
  - exists h0, (r ++ [x]). split; [by rewrite <- app_assoc|]. by apply run_next.
Qed.

(** A prepared packet that is committed, whatever closed the gate meanwhile. *)
Lemma forward_gate s p s1 o s2 h :
  gate_history s h -> sfu_layer_scheduler_prepare_packet s (vp_desc p) (vp_keyframe p) = (true, s1, o) -> calm s1 s2 ->
  gate_history (sfu_layer_scheduler_commit_packet s2 o) (h ++ [(p, true)]) /\ decodable_after h p.
Proof.
  intros Hh E Hrs. pose proof (prepare_shut _ _ _ _ _ _ E) as [Sn Sa _]. pose proof (prepare_forward _ _ _ _ _ E) as [Hsid Hj].
  destruct (judge_spec _ _ _ _ Hj) as (Ets & Eseq & Esid & _ & _ & Ee & Efw & _ & Hst & Hkp & Hneed).
  pose proof (run_extend s h p true s1 o Hsid Hh E) as Hext. destruct (prepare_track _ _ _ _ _ _ Hsid E) as (Pl & _). clear E.
  assert (Hnew : ld_start_keyframe o = true \/ ls_keyframe_active s1 = true ->
    exists h0 r, h ++ [(p, true)] = h0 ++ r ++ [(p, true)] /\ keyframe_run (sd_rtp_timestamp (vp_desc p)) (r ++ [(p, true)])).
  { intros [Ht|Ha]; [|by apply Hext; auto]. exists h, []. split; [done|]. by apply run_start; [apply Hst|]. }
  split.
  - destruct Hrs as [[R1 R2 R3] Tr]. destruct (commit_gate s2 o) as [Cn Ca]. constructor.
    + intros Hn. destruct (Cn Hn) as [Hn1|(Hkf & He & Hs)]; [by apply has_keyframe_app, (gh_open _ _ Hh), Sn, R1|].
      destruct Hnew as (h0 & r & Eh & Hr); [destruct Hs as [Hs|[Hs _]]; auto|].
      exists h0, r, p, [], (sd_rtp_timestamp (vp_desc p)). rewrite app_nil_r. split; [done|]. split; [done|]. split; [congruence|by apply Hkp].
    + intros Hac. assert (Hsp : ls_keyframe_active s2 = true -> same_picture s2 o = true).
      { intros Ha2. specialize (Tr Ha2). unfold same_picture. injection Tr as _ T2 T3 _ _. injection Pl as P1 P2 P3.
        rewrite T2, T3, P1, P2, Ets, Esid, Z.eqb_refl. by apply Z.ltb_lt in Hsid as ->. }
      destruct (same_picture s2 o) eqn:Hp.
      2: { exfalso. revert Hac. unfold sfu_layer_scheduler_commit_packet. rewrite Hp, orb_true_r. intros Ha2. by specialize (Hsp Ha2). }
      pose proof (commit_track s2 o Efw Hp) as Hpl. injection Hpl as L1 L2 L3 L4. unfold in_keyframe. rewrite L1, L2, L3, L4.
      assert (Hk : ls_keyframe_timestamp (sfu_layer_scheduler_commit_packet s2 o) = sd_rtp_timestamp (vp_desc p) /\ (ld_start_keyframe o = true \/ ls_keyframe_active s1 = true)).
      { destruct (Ca Hac) as [[Hs1 ->]|[Hs1 ->]]; [auto|]. rewrite R3. split; [|auto]. by apply Hext, R2. }
      destruct Hk as [-> Hor]. split; [done|]. split; [done|]. split; [done|]. destruct (Hnew Hor) as (h0 & r & Eh & Hr).
      exists h0, r, (p, true). split; [done|]. split; [done|]. rewrite Eseq. done.
  - destruct (ls_needs_keyframe s1) eqn:Hn; [|right; right; by apply (gh_open _ _ Hh), Sn].
    destruct (Hneed eq_refl) as [Hs|(Hact & Hts & Hz & Hp)]; [left; by apply Hst|].
    destruct (Hext Hact) as (_ & _ & Hc & _). destruct (Hc eq_refl) as [?|[?|(h0 & r & x & Eh & Hr & Hn')]]; [by left|done|].
    right. left. exists h0, r, x. done.
Qed.
(** A packet that is refused. *)
Lemma refuse_gate s p ok s1 o s2 h :
  sd_sid (vp_desc p) < 8 -> gate_history s h -> sfu_layer_scheduler_prepare_packet s (vp_desc p) (vp_keyframe p) = (ok, s1, o) -> calm s1 s2 ->
  gate_history (sfu_layer_scheduler_reject_packet s2 o) (h ++ [(p, false)]).
Proof.
  intros Hsid Hh E [[R1 R2 R3] Tr]. destruct (prepare_key _ _ _ _ _ _ E) as [Ets Esid]. pose proof (prepare_shut _ _ _ _ _ _ E) as [Sn Sa _]. destruct (reject_shut s2 o) as [J1 J2 J3].
  constructor; [intros Hn; by apply has_keyframe_app, (gh_open _ _ Hh), Sn, R1, J1|]. intros Ha.
  pose proof (J2 Ha) as Ha2. pose proof (R2 Ha2) as Ha1. specialize (Tr Ha2).
  destruct (run_extend s h p ok s1 o Hsid Hh E Ha1) as (Kt & Si & _ & Hext). destruct (prepare_track _ _ _ _ _ _ Hsid E) as (Pl & _).
  pose proof (reject_place s2 o) as Rp. injection Tr as T1 T2 T3 T4 T5. injection Pl as P1 P2 P3. injection Rp as Q1 Q2 Q3 Q4.
  unfold in_keyframe. rewrite J3, T1, Kt, Q1, Q2, Q3, Q4, T2, T3, T4, T5, P1, P2, P3, Si. split; [done|]. split; [done|]. split; [done|].
  destruct (decide (sd_sid (vp_desc p) = 0)) as [Hz|Hz].
  { exfalso. enough (ls_keyframe_active (sfu_layer_scheduler_reject_packet s2 o) = false) by congruence.
    apply reject_base_inactive; [intros _; congruence| |congruence]. unfold same_picture.
    rewrite T2, T3, P1, P2, Ets, Esid, Z.eqb_refl, Hz. done. }
  destruct (Hext false (or_introl Hz)) as (h0 & r & Eh & Hr). exists h0, r, (p, false). done.
Qed.
(** A packet of a layer that does not exist is not seen. *)
Lemma refuse_unseen s p ok s1 o : 8 <= sd_sid (vp_desc p) -> sfu_layer_scheduler_prepare_packet s (vp_desc p) (vp_keyframe p) = (ok, s1, o) -> ok = false /\ s1 = s.
Proof. intros Hsid. unfold sfu_layer_scheduler_prepare_packet. rewrite (proj2 (Z.leb_le _ _) Hsid). by intros [= <- <- <-]. Qed.
(** The end of a prepared packet. *)
Lemma packet_gate s p ok s1 o s2 h (fw : bool) :
  gate_history s h -> sfu_layer_scheduler_prepare_packet s (vp_desc p) (vp_keyframe p) = (ok, s1, o) -> calm s1 s2 -> (fw = true -> ok = true) ->
  gate_history (if fw then sfu_layer_scheduler_commit_packet s2 o else sfu_layer_scheduler_reject_packet s2 o) (h ++ seen_packet p fw) /\
  (fw = true -> decodable_after h p).
Proof.
  intros Hh E Hc Hfw. destruct (prepare_key _ _ _ _ _ _ E) as [Et Es]. unfold seen_packet. destruct (Z.ltb_spec (sd_sid (vp_desc p)) 8) as [Hs|Hs].
  - destruct fw; [|split; [by eapply refuse_gate|done]]. rewrite (Hfw eq_refl) in E. destruct (forward_gate s p s1 o s2 h Hh E Hc). done.
  - destruct (refuse_unseen s p ok s1 o Hs E) as [-> ->]. destruct fw; [by specialize (Hfw eq_refl)|]. split; [|done]. rewrite app_nil_r.
    unfold sfu_layer_scheduler_reject_packet, same_picture. rewrite (proj2 (Z.ltb_ge (ld_sid o) 8)) by congruence. rewrite andb_false_r. cbn [negb].
    by eapply gate_history_calm.
Qed.

Lemma stream_gate evs s s' l h :
  gate_history s h -> stream_run s evs = (s', l) -> forall l1 p l2, l = l1 ++ (p, true) :: l2 -> decodable_after (h ++ l1) p.
Proof.
  revert s s' l h. induction evs as [|ev evs IH]; intros s s' l h Hh E l1 p l2 El; cbn [stream_run] in E.
  { injection E as <- <-. by destruct l1. }
  destruct ev as [q reset sent|bps now| |k].
  - unfold process_packet in E. destruct (sfu_layer_scheduler_prepare_packet s _ _) as [[ok s1] o] eqn:Ep. set (s2 := if reset then _ else s1) in *.
    assert (Hc : calm s1 s2) by (unfold s2; destruct reset; [apply reset_calm|apply calm_refl]). clearbody s2.
    destruct (packet_gate s q ok s1 o s2 h (ok && sent) Hh Ep Hc ltac:(by destruct ok)) as [H1 Hd]. set (fw := ok && sent) in *. clearbody fw.
    assert (E' : exists s3 l', stream_run (if fw then sfu_layer_scheduler_commit_packet s2 o else sfu_layer_scheduler_reject_packet s2 o) evs = (s3, l') /\
                 l1 ++ (p, true) :: l2 = seen_packet q fw ++ l').
    { destruct fw; destruct (stream_run _ evs) as [s3 l'] eqn:E2; injection E as <- <-; eauto. }
    destruct E' as (s3 & l' & E2 & El'). specialize (IH _ _ _ _ H1 E2). clear -IH Hd El'. unfold seen_packet in *. destruct (_ <? 8).
    + destruct l1 as [|q' l1]; [injection El' as -> <- _; rewrite app_nil_r; by apply Hd|]. injection El' as -> El'.
      specialize (IH _ _ _ (eq_sym El')). by rewrite <- app_assoc in IH.
    + rewrite app_nil_r in IH. by eapply IH.
  - eapply IH; [|done|done]. by apply (gate_history_calm s); [apply set_bitrate_calm|].
  - eapply IH; [|done|done]. by apply (gate_history_calm s); [apply reset_calm|].
  - eapply IH; [|done|done]. by apply (gate_history_calm s); [apply set_source_calm|].
Qed.

Lemma stream_run_ok evs s : sched_ok s -> Forall event_ok evs -> sched_ok (stream_run s evs).1.
Proof.
  intros Hs Hev. revert s Hs. induction Hev as [|ev evs He _ IH]; intros s Hs; cbn [stream_run]; [done|].
  destruct ev as [p reset sent|bps now| |k]; cbn in He.
  - pose proof (process_ok s p reset sent Hs He) as H1. destruct (process_packet s p reset sent) as [s1 fw]. specialize (IH s1 H1).
    by destruct (stream_run s1 evs).
  - by apply IH, set_bitrate_ok.
  - by apply IH, reset_ok.
  - by apply IH, set_source_ok.
Qed.

(** Points after which the receiver cannot decode what refers to earlier
    pictures: the start, a request for a keyframe, a gap in the sequence
    numbers within a frame of the base layer, and a packet of the base layer
    of a camera or screen that the egress could not send. *)
Definition reachable (s : sfu_layer_scheduler) : Prop :=
  exists pub evs, Forall event_ok evs /\ s = (stream_run (sfu_layer_scheduler_init pub) evs).1.
Inductive resync : sfu_layer_scheduler -> Prop :=
  | resync_init pub : resync (sfu_layer_scheduler_init pub)
  | resync_reset s : resync (sfu_egress_reset_scheduler_for_keyframe s)
  | resync_gap s p reset sent :
      reachable s -> desc_ok (vp_desc p) -> sd_sid (vp_desc p) = 0 -> sd_b_bit (vp_desc p) = 0 ->
      ls_seq_initialized s = false \/ sd_seq (vp_desc p) <> ls_expected_seq s -> resync (process_packet s p reset sent).1
  | resync_unsent s p reset s1 o :
      reachable s -> desc_ok (vp_desc p) -> sd_sid (vp_desc p) = 0 -> ls_source s = MEDIA_VIDEO \/ ls_source s = MEDIA_SCREEN ->
      sfu_layer_scheduler_prepare_packet s (vp_desc p) (vp_keyframe p) = (true, s1, o) -> resync (process_packet s p reset false).1.

Lemma reachable_ok s : reachable s -> sched_ok s.
Proof. intros (pub & evs & He & ->). apply stream_run_ok; [apply init_ok|done]. Qed.

Lemma prepare_source s d kf ok s' o : sfu_layer_scheduler_prepare_packet s d kf = (ok, s', o) -> ls_source s' = ls_source s.
Proof.
  unfold sfu_layer_scheduler_prepare_packet. destruct (_ <=? _); [by intros [= <- <- <-]|].
  set (s1 := layer_scheduler_begin_picture s _).
  assert (H1 : ls_source s1 = ls_source s).
  { unfold s1, layer_scheduler_begin_picture. destruct (_ && _); [done|].
    destruct (incomplete_picture s); by (destruct (ls_keyframe_active _)). }
  clearbody s1. destruct (check_sequence s1 d kf) as [ok1 s2] eqn:E2.
  assert (H2 : ls_source s2 = ls_source s1) by (unfold check_sequence in E2; repeat case_match; by injection E2 as <- <-).
  destruct ok1; cbn [negb]; [|intros [= <- <- <-]; congruence].
  assert (H3 : ls_source (settle_target s2) = ls_source s2).
  { unfold settle_target. destruct (is_screen _) eqn:E; [done|]. set (x := if ls_target_sid s2 <? _ then _ else s2).
    assert (Hx : ls_source x = ls_source s2) by (unfold x; by destruct (_ <? _)). clearbody x. by destruct (_ <? _). }
  destruct (judge _ _ _ _) as [[r o1]|o1]; intros [= <- <- <-]; congruence.
Qed.
Lemma reject_arms s o :
  sched_ok s -> same_picture s o = true -> ld_sid o = 0 -> ls_source s = MEDIA_VIDEO \/ ls_source s = MEDIA_SCREEN ->
  ld_reject_reason o = REJECT_NONE -> ls_needs_keyframe (sfu_layer_scheduler_reject_packet s o) = true.
Proof.
  intros Hs Hp Hz Hsrc Hr. cbv beta delta [sfu_layer_scheduler_reject_packet]. rewrite Hp. cbn [negb]. clear Hp.
  set (s1 := s <| ls_failed_sid_mask ::= _ |>).
  assert (F1 : ls_source s1 = ls_source s /\ ls_current_sid s1 = ls_current_sid s) by done. clearbody s1. cbv zeta.
  set (s2 := if in_pacer_frame s1 _ _ _ then _ else s1).
  assert (F2 : ls_source s2 = ls_source s /\ ls_current_sid s2 = ls_current_sid s) by (unfold s2; by destruct (in_pacer_frame _ _ _ _)).
  clearbody s2. set (s3 := if ld_keyframe_packet o || _ then _ else s2).
  assert (F3 : ls_source s3 = ls_source s /\ ls_current_sid s3 = ls_current_sid s) by (unfold s3; by destruct (ld_keyframe_packet o || _)).
  clearbody s3. clear F1 F2. destruct F3 as [Fs Fc].
  assert (Hc : is_screen (ls_source s3) || (active_camera_layer s3 o && expected_reject s3 o) = true).
  { unfold is_screen, active_camera_layer, expected_reject. rewrite Fs, Fc, Hz, Hr. destruct Hs as [[Hc _] _ _ _ _ _ _ _ _ _ _ _ _].
    rewrite (proj2 (Z.leb_le 0 _) Hc). destruct Hsrc as [-> | ->]; done. }
  rewrite Hc. set (s4 := s3 <| ls_needs_keyframe := true |>). assert (F4 : ls_needs_keyframe s4 = true) by done. clearbody s4.
  repeat match goal with |- context [if ?c then ?a else ?b] => destruct c end; done.
Qed.
Lemma prepare_gap s d kf :
  sd_sid d < 8 -> sd_b_bit d = 0 -> ls_seq_initialized s = false \/ sd_seq d <> ls_expected_seq s ->
  exists s' o, sfu_layer_scheduler_prepare_packet s d kf = (false, s', o) /\ ls_needs_keyframe s' = true.
Proof.
  intros Hs Hb Hg. unfold sfu_layer_scheduler_prepare_packet. rewrite (proj2 (Z.leb_gt _ _) Hs).
  set (s1 := layer_scheduler_begin_picture s _).
  assert (H1 : ls_seq_initialized s1 = ls_seq_initialized s /\ ls_expected_seq s1 = ls_expected_seq s).
  { unfold s1, layer_scheduler_begin_picture. destruct (_ && _); [done|].
    destruct (incomplete_picture s); by (destruct (ls_keyframe_active _)). }
  clearbody s1. destruct H1 as [H1 H2]. unfold check_sequence. rewrite Hb, Z.eqb_refl, H1, H2.
  assert (Hc : negb (ls_seq_initialized s) || negb (sd_seq d =? ls_expected_seq s) || ls_frame_corrupted s1 = true).
  { destruct Hg as [-> |Hn]; [done|]. rewrite (proj2 (Z.eqb_neq _ _) Hn). by destruct (ls_seq_initialized s). }
  rewrite Hc. cbn [negb]. eauto.
Qed.

(** The scheduler between preparing a packet and its end. *)
Lemma prepare_reset s d kf ok s1 o (reset : bool) :
  sched_ok s -> sfu_layer_scheduler_prepare_packet s d kf = (ok, s1, o) -> sd_sid d < 8 ->
  let s2 := if reset then sfu_egress_reset_scheduler_for_keyframe s1 else s1 in
  sched_ok s2 /\ same_picture s2 o = true /\ ld_sid o = sd_sid d /\ ls_source s2 = ls_source s /\
  (ls_needs_keyframe s1 = true -> ls_needs_keyframe s2 = true).
Proof.
  intros Hs E Hd. pose proof (prepare_ok _ _ _ _ _ _ Hs E) as H1. pose proof (prepare_source _ _ _ _ _ _ E) as Esrc.
  destruct (prepare_key _ _ _ _ _ _ E) as [Kt Ks]. destruct (prepare_time _ _ _ _ _ _ E) as [Pv Pt]; [done|].
  assert (Hp : same_picture s1 o = true).
  { unfold same_picture. rewrite Pv, Pt, Kt, Ks, Z.eqb_refl. by apply Z.ltb_lt in Hd as ->. }
  cbv zeta. destruct reset; split_and!; try done. by apply reset_ok.
Qed.

Lemma resync_gated s : resync s -> gated s.
Proof.
  intros [pub|s0|s0 p reset sent Hr [Hd _] Hsid Hb Hg|s0 p reset s1 o Hr [Hd _] Hsid Hsrc E]; [done|done|..].
  - apply reachable_ok in Hr. destruct (prepare_gap s0 (vp_desc p) (vp_keyframe p)) as (s1 & o & E & Hn); [lia|done|done|].
    unfold process_packet. rewrite E. cbn [andb fst].
    destruct (prepare_reset _ _ _ _ _ _ reset Hr E ltac:(lia)) as (H2 & Hp & Hz & _ & Hk). set (s2 := if reset then _ else s1) in *. clearbody s2.
    split; [|apply reject_base_inactive; [apply (so_keyframe _ H2)|done|congruence]].
    destruct (reject_shut s2 o) as [G _ _]. destruct (ls_needs_keyframe (sfu_layer_scheduler_reject_packet s2 o)); [done|].
    rewrite (G eq_refl) in Hk. by apply Hk.
  - apply reachable_ok in Hr. unfold process_packet. rewrite E. cbn [andb fst].
    destruct (prepare_reset _ _ _ _ _ _ reset Hr E ltac:(lia)) as (H2 & Hp & Hz & Hs & _). set (s2 := if reset then _ else s1) in *. clearbody s2.
    apply prepare_forward in E as [_ Hj]. apply judge_spec in Hj as (_ & _ & _ & _ & _ & _ & _ & Hreason & _).
    split; [apply reject_arms|apply reject_base_inactive; [apply (so_keyframe _ H2)|..]]; try done; congruence.
Qed.

Lemma choose_rung_spec s bps :
  sched_ok s -> ls_target_sid s = 0 ->
  -1 <= choose_rung s bps < 3 /\
  (ls_target_tid s < choose_rung s bps -> up_rate (rung (choose_rung s bps)) <= bps) /\
  (ls_last_target_change_us s <> 0 -> choose_rung s bps < ls_target_tid s -> bps < rung_rate_bps (rung (ls_target_tid s))).
Proof.
  intros Hs Hsid. split; [apply choose_rung_range|]. pose proof (so_target_tid s Hs) as Ht. unfold choose_rung.
  assert (Ec : ladder_scan 3 (fun r => (rung_sid r <=? ls_target_sid s) && (rung_tid r <=? ls_target_tid s)) = ls_target_tid s).
  { rewrite Hsid. assert (E : ls_target_tid s = 0 \/ ls_target_tid s = 1 \/ ls_target_tid s = 2) by lia.
    destruct E as [->|[->| ->]]; done. }
  rewrite Ec. set (c := ladder_scan 3 _).
  assert (Hc : -1 <= c < 3 /\ (0 <= c -> up_rate (rung c) <= bps)).
  { split; [apply (ladder_scan_range 3)|]. unfold c. cbn [ladder_scan].
    repeat (match goal with |- context [if ?b then _ else _] => destruct b eqn:? end); try lia; intros _; bool_hyps; done. }
  destruct Hc as [Hr Hup]. clearbody c.
  destruct (Z.eqb_spec (ls_last_target_change_us s) 0); cbn [negb andb]; [split; [intros; apply Hup; lia|done]|].
  destruct (Z.ltb_spec c 2); cbn [andb]; [|split; [intros; apply Hup; lia|lia]].
  destruct (_ && (rung_rate_bps _ <=? bps)) eqn:G; [split; lia|]. split; [intros; apply Hup; lia|]. intros _ Hlt.
  rewrite (proj2 (Z.ltb_lt _ _) Hlt), (proj2 (Z.leb_le _ _)) in G by lia. cbn [andb] in G. apply Z.leb_gt in G. lia.
Qed.
Lemma set_bitrate_camera s bps now :
  ls_source s <> MEDIA_SCREEN -> ls_target_sid s = 0 -> -1 <= choose_rung s bps < 3 ->
  let c := Z.max 0 (choose_rung s bps) in
  let held := (ls_target_tid s <? c) && negb (ls_last_target_change_us s =? 0) && (now - ls_last_target_change_us s <? SFU_LAYER_UP_DWELL_US) in
  let s' := sfu_layer_scheduler_set_bitrate s bps now in
  ls_target_sid s' = 0 /\ ls_target_tid s' = (if held then ls_target_tid s else c) /\
  ls_last_target_change_us s' = (if held then ls_last_target_change_us s else if c =? ls_target_tid s then ls_last_target_change_us s else now).
Proof.
  intros Hk Hsid Hc c held. cbv beta delta [sfu_layer_scheduler_set_bitrate]. set (s1 := s <| ls_allocated_bps := bps |>).
  assert (F : ls_source s1 = ls_source s /\ ls_target_sid s1 = 0 /\ ls_target_tid s1 = ls_target_tid s /\
              ls_last_target_change_us s1 = ls_last_target_change_us s /\ choose_rung s1 bps = choose_rung s bps) by done.
  clearbody s1. destruct F as (F1 & F2 & F3 & F4 & F5). cbv zeta. unfold is_screen. rewrite F1, F2, F3, F4, F5.
  rewrite bool_decide_false by done. cbn [negb andb].
  assert (Hz : (if 0 <=? choose_rung s bps then rung_sid (rung (choose_rung s bps)) else 0) = 0 /\
               (if 0 <=? choose_rung s bps then rung_tid (rung (choose_rung s bps)) else 0) = c).
  { unfold c. destruct (Z.leb_spec 0 (choose_rung s bps)); [destruct (rung_range (choose_rung s bps)) as [-> ->]; lia|lia]. }
  destruct Hz as [-> ->]. rewrite Z.eqb_refl, Z.ltb_irrefl. cbn [andb orb]. clearbody c.
  destruct (Z.eqb_spec c (ls_target_tid s)) as [->|Hne].
  - unfold held. rewrite Z.ltb_irrefl. cbn [andb]. done.
  - fold held. destruct held; done.
Qed.

(** ** An example: a camera stream with a lost packet *)

Definition ex_desc (ts seq p b e : Z) : sfu_svc_descriptor := mk_svc_descriptor ts seq 0 0 p 0 0 b e 0.
Definition ex_events : list stream_event :=
  [EvLookup MEDIA_VIDEO; EvPacket (mk_video_packet (ex_desc 1000 10 0 1 0) true) false true;
   EvPacket (mk_video_packet (ex_desc 1000 11 0 0 1) false) false true; EvPacket (mk_video_packet (ex_desc 3000 12 1 1 0) false) false true].
Lemma ex_events_ok : Forall event_ok ex_events.
Proof. repeat apply Forall_cons_2; try apply Forall_nil_2; done || (split; cbn; lia). Qed.
(** Packet 13 is missing; 14 ends the picture, the next one refers to it. *)
Definition ex_lost : video_packet := mk_video_packet (ex_desc 3000 14 1 0 1) false.
Definition ex_broken : sfu_layer_scheduler :=
  (process_packet (stream_run (sfu_layer_scheduler_init 7) ex_events).1 ex_lost false true).1.
Definition ex_recovery : list stream_event :=
  [EvPacket (mk_video_packet (ex_desc 5000 15 1 1 1) false) false true; EvPacket (mk_video_packet (ex_desc 6000 40 0 1 1) true) false true;
   EvPacket (mk_video_packet (ex_desc 9000 41 1 1 1) false) false true].
Lemma ex_broken_resync : resync ex_broken.
Proof.
  apply resync_gap; [|split; cbn; lia|done|done|right; by vm_compute]. exists 7, ex_events. split; [exact ex_events_ok|done].
Qed.
Definition ex_seen : list seen :=
  [(mk_video_packet (ex_desc 5000 15 1 1 1) false, false); (mk_video_packet (ex_desc 6000 40 0 1 1) true, true)].
Lemma ex_recovered :
  stream_run ex_broken ex_recovery =
  ((stream_run ex_broken ex_recovery).1, ex_seen ++ (mk_video_packet (ex_desc 9000 41 1 1 1) false, true) :: []).
Proof. vm_compute. reflexivity. Qed.

(** * Properties *)

(** C34: Whatever packets, rate changes, keyframe requests and lookups a
    stream sees, its scheduler stays well formed: layers and masks keep their
    widths and ranges, a layer counts as complete only when its start was
    forwarded, a keyframe, layer switch or paced frame in progress always
    belongs to the present picture, and a keyframe in progress never carries
    the mark of a failed one. *)
Theorem scheduler_reachable_ok pub evs :
  Forall event_ok evs -> sched_ok (stream_run (sfu_layer_scheduler_init pub) evs).1.
Proof. intros. apply stream_run_ok; [apply init_ok|done]. Qed.

Lemma scheduler_reachable_ok_witness : sched_ok (stream_run (sfu_layer_scheduler_init 7) ex_events).1.
Proof. exact (scheduler_reachable_ok 7 ex_events ex_events_ok). Defined.

(** After a point where decoding broke (the start, a gap in the sequence
    numbers of the base layer, an unsent base layer packet, a keyframe
    request), only decodable packets are forwarded: each is the first packet
    of a keyframe, or an intra packet of the base layer that continues, number
    by number, a keyframe all of whose base packets were forwarded so far, or
    comes after a whole such keyframe. *)
Theorem keyframe_gate s evs s' h p h' :
  resync s -> stream_run s evs = (s', h ++ (p, true) :: h') -> decodable_after h p.
Proof. intros Hr%resync_gated%gated_history E. exact (stream_gate evs s s' _ [] Hr E h p h' eq_refl). Qed.

Lemma keyframe_gate_witness : resync ex_broken /\ decodable_after ex_seen (mk_video_packet (ex_desc 9000 41 1 1 1) false).
Proof.
  split; [exact ex_broken_resync|].
  exact (keyframe_gate ex_broken ex_recovery (stream_run ex_broken ex_recovery).1 ex_seen
           (mk_video_packet (ex_desc 9000 41 1 1 1) false) [] ex_broken_resync ex_recovered).
Defined.

(** The temporal target of a camera follows its bitrate with hysteresis:
    it goes up only when the bitrate has the headroom of a fifth above the
    new rung and three seconds have passed since the last change, it goes down
    only when the bitrate is below the plain rate of the present rung, it
    never leaves the ladder, and the spatial target is always the base. *)
Theorem bitrate_hysteresis s bps now :
  sched_ok s -> ls_source s <> MEDIA_SCREEN -> ls_target_sid s = 0 -> 0 <= bps ->
  let s' := sfu_layer_scheduler_set_bitrate s bps now in
  ls_target_sid s' = 0 /\ 0 <= ls_target_tid s' <= 2 /\
  (ls_target_tid s < ls_target_tid s' ->
     up_rate (rung (ls_target_tid s')) <= bps /\ ls_last_target_change_us s' = now /\
     (ls_last_target_change_us s = 0 \/ SFU_LAYER_UP_DWELL_US <= now - ls_last_target_change_us s)) /\
  (ls_target_tid s' < ls_target_tid s ->
     ls_last_target_change_us s' = now /\
     (ls_last_target_change_us s = 0 \/ bps < rung_rate_bps (rung (ls_target_tid s)))).
Proof.
  intros Hs Hk Hsid Hb. pose proof (so_target_tid s Hs) as Ht.
  destruct (choose_rung_spec s bps Hs Hsid) as (Hc & Hup & Hdown). cbv zeta.
  destruct (set_bitrate_camera s bps now Hk Hsid Hc) as (-> & -> & ->). set (c := Z.max 0 (choose_rung s bps)) in *.
  destruct ((ls_target_tid s <? c) && _ && _) eqn:G.
  - split_and!; try done; lia.
  - split_and!; try done; try lia.
    + intros Hlt. split; [|split].
      * assert (Ec : c = choose_rung s bps) by (unfold c in *; lia). rewrite Ec. apply Hup. lia.
      * by rewrite (proj2 (Z.eqb_neq _ _)) by lia.
      * destruct (Z.eqb_spec (ls_last_target_change_us s) 0); [by left|right].
        rewrite (proj2 (Z.ltb_lt _ _) Hlt) in G. cbn [andb negb] in G. bool_hyps. lia.
    + intros Hlt. split; [by rewrite (proj2 (Z.eqb_neq _ _)) by lia|].
      destruct (Z.eqb_spec (ls_last_target_change_us s) 0); [by left|right]. apply Hdown; [done|unfold c in *; lia].
Qed.

Lemma bitrate_hysteresis_witness :
  let s := sfu_layer_scheduler_set_bitrate (set_source (sfu_layer_scheduler_init 7) MEDIA_VIDEO) 100000 1000 in
  ls_target_tid s = 0 /\ ls_target_tid (sfu_layer_scheduler_set_bitrate s 1500000 4000000) = 2 /\
  up_rate (rung (ls_target_tid (sfu_layer_scheduler_set_bitrate s 1500000 4000000))) <= 1500000.
Proof.
  cbv zeta. set (s := sfu_layer_scheduler_set_bitrate _ _ _).
  assert (Hok : sched_ok s) by (apply set_bitrate_ok, set_source_ok, init_ok).
  pose proof (bitrate_hysteresis s 1500000 4000000 Hok ltac:(done) ltac:(by vm_compute) ltac:(lia)) as (_ & _ & H & _).
  split; [by vm_compute|]. split; [by vm_compute|]. apply (proj1 (H ltac:(by vm_compute))).
Defined.
