(* ===== verification/SvcParser.v ===== *)
(** The payload descriptors of VP8 and VP9, [src/media/svc/svc_parser.c], and
    the part of them that the layer scheduler works on,
    [src/media/svc/svc_descriptor.c].  Every stage of a parser is shown to be
    a parser of lists, and that to be the inverse of an encoder. *)

From S2P Require Import Prelude LayerScheduler.
Local Open Scope Z_scope.

Definition SFU_VP9_MAX_P_DIFF : Z := 3.

Record sfu_vp8_descriptor := mk_vp8 {
  v8_x : bool; v8_n : bool; v8_s : bool;
  v8_part_id : Z;
  v8_i : bool; v8_l : bool; v8_t : bool; v8_k : bool;
  v8_picture_id : Z;
  v8_tl0picidx : Z;
  v8_tid : Z;
  v8_y : bool;
  v8_keyidx : Z;
  v8_header_len : Z;
  v8_is_keyframe : bool
}.

Record sfu_vp9_descriptor := mk_vp9 {
  v9_i_bit : bool; v9_p_bit : bool; v9_l_bit : bool; v9_f_bit : bool;
  v9_b_bit : bool; v9_e_bit : bool; v9_v_bit : bool; v9_z_bit : bool;
  v9_picture_id : Z;
  v9_tid : Z;
  v9_u_bit : Z;
  v9_sid : Z;
  v9_d_bit : Z;
  v9_tl0picidx : Z;
  v9_p_diff : list Z;
  v9_p_diff_count : Z;
  v9_header_length : Z
}.

(** * The parsers *)

(** [if (offset >= len) return -1; b = payload[offset++];] *)
Definition next_byte (payload : list Z) (len offset : Z) : res (Z * Z) :=
  reject (len <=? offset) (let! b := rd payload offset in Ok (b, offset + 1)).
(** [(b >> n) & 0x01] and [(b & mask) != 0] *)
Definition bit (b n : Z) : bool := negb (Z.land (Z.shiftr b n) 1 =? 0).
Definition flag (b mask : Z) : bool := negb (Z.land b mask =? 0).

(** One or two bytes of picture id, by the high bit of the first; VP8 and VP9
    have the same encoding. *)
Definition picture_id_field (payload : list Z) (len : Z) (present : bool) (offset : Z) : res (Z * Z) :=
  if present then
    let! (first, offset) := next_byte payload len offset in
    if bit first 7 then
      let! (second, offset) := next_byte payload len offset in
      Ok (Z.lor (Z.shiftl (Z.land first 0x7F) 8) second, offset)
    else Ok (Z.land first 0x7F, offset)
  else Ok (0, offset).

(** ** VP8 *)

Definition vp8_tl0 (payload : list Z) (len : Z) (present : bool) (offset : Z) : res (Z * Z) :=
  if present then next_byte payload len offset else Ok (0, offset).
Definition vp8_layer (payload : list Z) (len : Z) (present : bool) (offset : Z) : res (Z * bool * Z * Z) :=
  if present then
    let! (b, offset) := next_byte payload len offset in
    Ok (Z.shiftr (Z.land b 0xC0) 6, flag b 0x20, Z.land b 0x1F, offset)
  else Ok (0, false, 0, offset).
Definition vp8_extension (payload : list Z) (len : Z) (x : bool) (offset : Z) : res (bool * bool * bool * bool * Z * Z * (Z * bool * Z) * Z) :=
  if x then
    let! (b, offset) := next_byte payload len offset in
    let i := flag b 0x80 in let l := flag b 0x40 in let t := flag b 0x20 in let k := flag b 0x10 in
    let! (picture_id, offset) := picture_id_field payload len i offset in
    let! (tl0, offset) := vp8_tl0 payload len l offset in
    let! (tid, y, keyidx, offset) := vp8_layer payload len (t || k) offset in
    Ok (i, l, t, k, picture_id, tl0, (tid, y, keyidx), offset)
  else Ok (false, false, false, false, 0, 0, (0, false, 0), offset).
Definition sfu_parse_vp8_descriptor (payload : list Z) (payload_len : Z) : res sfu_vp8_descriptor :=
  reject (payload_len <? 1) (
  let! b := rd payload 0 in
  let x := flag b 0x80 in let n := flag b 0x20 in let s := flag b 0x10 in let part_id := Z.land b 0x0F in
  let! (i, l, t, k, picture_id, tl0, (tid, y, keyidx), offset) := vp8_extension payload payload_len x 1 in
  let! is_keyframe :=
    if s && (part_id =? 0) && (offset <? payload_len)
    then let! first := rd payload offset in Ok (Z.land first 1 =? 0) else Ok false in
  Ok (mk_vp8 x n s part_id i l t k picture_id tl0 tid y keyidx (u32 offset) is_keyframe)).

(** ** VP9 *)

Definition vp9_layers (payload : list Z) (len : Z) (l_bit f_bit : bool) (offset : Z) : res (Z * Z * Z * Z * Z * Z) :=
  if l_bit then
    let! (b, offset) := next_byte payload len offset in
    let tid := Z.land (Z.shiftr b 5) 7 in let u := Z.land (Z.shiftr b 4) 1 in
    let sid := Z.land (Z.shiftr b 1) 7 in let d := Z.land b 1 in
    if negb f_bit then
      let! (tl0, offset) := next_byte payload len offset in Ok (tid, u, sid, d, tl0, offset)
    else Ok (tid, u, sid, d, 0, offset)
  else Ok (0, 0, 0, 0, 0, offset).

(** The [do] loop; it runs at most [SFU_VP9_MAX_P_DIFF] times. *)
Fixpoint diff_loop (fuel : nat) (payload : list Z) (len : Z) (diffs : list Z) (count offset : Z) : res (list Z * Z * Z) :=
  match fuel with
  | O => Fault
  | S fuel =>
      let! (diff, offset) := next_byte payload len offset in
      let diffs := if count <? SFU_VP9_MAX_P_DIFF then <[Z.to_nat count := Z.land diff 0x7F]> diffs else diffs in
      let count := u8 (count + 1) in
      if Z.land diff 0x80 =? 0 then Ok (diffs, count, offset)
      else if count <? SFU_VP9_MAX_P_DIFF then diff_loop fuel payload len diffs count offset
      else Ok (diffs, count, offset)
  end.
Definition vp9_diffs (payload : list Z) (len : Z) (present : bool) (offset : Z) : res (list Z * Z * Z) :=
  if present then
    let! (diffs, count, offset) := diff_loop 3 payload len [0; 0; 0] 0 offset in
    let! too_many := if count =? SFU_VP9_MAX_P_DIFF then let! b := rd payload (offset - 1) in Ok (flag b 0x80) else Ok false in
    reject too_many (Ok (diffs, count, offset))
  else Ok ([0; 0; 0], 0, offset).

(** The picture group description: [n] entries. *)
Fixpoint group_loop (n : nat) (payload : list Z) (len offset : Z) : res Z :=
  match n with
  | O => Ok offset
  | S n =>
      let! (b, offset) := next_byte payload len offset in
      let r := Z.land (Z.shiftr b 2) 3 in
      reject (len - offset <? r) (group_loop n payload len (offset + r))
  end.
(** The scalability structure, of which only the length matters. *)
Definition vp9_structure (payload : list Z) (len : Z) (v_bit : bool) (offset : Z) : res Z :=
  if v_bit then
    let! (ss_first, offset) := next_byte payload len offset in
    let n_s := Z.land (Z.shiftr ss_first 5) 7 in
    let res_bytes := (n_s + 1) * 4 in
    let! offset := if bit ss_first 4 then reject (len - offset <? res_bytes) (Ok (offset + res_bytes)) else Ok offset in
    if bit ss_first 3 then
      let! (n_g, offset) := next_byte payload len offset in group_loop (Z.to_nat n_g) payload len offset
    else Ok offset
  else Ok offset.

Definition sfu_parse_vp9_descriptor (payload : list Z) (len : Z) : res sfu_vp9_descriptor :=
  reject (len =? 0) (
  let! first := rd payload 0 in
  let i := bit first 7 in let p := bit first 6 in let l := bit first 5 in let f := bit first 4 in
  let b := bit first 3 in let e := bit first 2 in let v := bit first 1 in let z := bit first 0 in
  let! (picture_id, offset) := picture_id_field payload len i 1 in
  let! (tid, u, sid, d, tl0, offset) := vp9_layers payload len l f offset in
  let! (diffs, count, offset) := vp9_diffs payload len (p && f) offset in
  let! offset := vp9_structure payload len v offset in
  Ok (mk_vp9 i p l f b e v z picture_id tid u sid d tl0 diffs count offset)).

(** ** The descriptor of the scheduler *)

Inductive sfu_video_codec := CODEC_NONE | CODEC_VP8 | CODEC_VP9 | CODEC_AV1 | CODEC_H264.
(** The time and the sequence number are filled in by the caller. *)
Definition parse_vp9 (payload : list Z) (payload_len : Z) (out : sfu_svc_descriptor) : res sfu_svc_descriptor :=
  let! d := sfu_parse_vp9_descriptor payload payload_len in
  Ok (mk_svc_descriptor (sd_rtp_timestamp out) (sd_seq out) (v9_sid d) (v9_tid d) (Z.b2z (v9_p_bit d)) (v9_u_bit d) (v9_d_bit d)
        (Z.b2z (v9_b_bit d)) (Z.b2z (v9_e_bit d)) (Z.b2z (v9_l_bit d))).
Definition sfu_svc_parse_descriptor (codec : sfu_video_codec) (payload : list Z) (payload_len : Z) (out : sfu_svc_descriptor)
  : res sfu_svc_descriptor :=
  match codec with CODEC_VP9 => parse_vp9 payload payload_len out | _ => Err end.

(** * Parsers of lists and their encoders *)

Definition is_some {A} (o : option A) : bool := match o with Some _ => true | None => false end.
Definition byte8 (b7 b6 b5 b4 b3 b2 b1 b0 : bool) : Z :=
  Z.b2z b7 * 128 + Z.b2z b6 * 64 + Z.b2z b5 * 32 + Z.b2z b4 * 16 + Z.b2z b3 * 8 + Z.b2z b2 * 4 + Z.b2z b1 * 2 + Z.b2z b0.

(** ** Picture ids: [true] for the long form *)

Definition enc_pid (f : option (bool * Z)) : list Z :=
  match f with None => [] | Some (false, v) => [v] | Some (true, v) => [128 + v / 256; v mod 256] end.
Definition wf_pid (f : option (bool * Z)) : Prop :=
  match f with None => True | Some (false, v) => 0 <= v < 128 | Some (true, v) => 0 <= v < 32768 end.
Definition p_pid (present : bool) (l : list Z) : option (option (bool * Z) * list Z) :=
  if present then
    match l with
    | [] => None
    | b :: r => if b <? 128 then Some (Some (false, b), r)
                else match r with [] => None | c :: r => Some (Some (true, (b - 128) * 256 + c), r) end
    end
  else Some (None, l).
Definition view_pid (f : option (bool * Z)) : Z := match f with Some (_, v) => v | None => 0 end.

Lemma p_pid_sound present l f r : bytes_ok l -> p_pid present l = Some (f, r) -> l = enc_pid f ++ r /\ wf_pid f /\ is_some f = present.
Proof.
  unfold p_pid. intros Hl. destruct present; [|by intros [= <- <-]]. destruct l as [|b l]; [done|]. apply Forall_cons_1 in Hl as [Hb Hl].
  unfold is_u8 in Hb. destruct (Z.ltb_spec b 128); [intros [= <- <-]; cbn; split_and!; try done; lia|].
  destruct l as [|c l]; [done|]. apply Forall_cons_1 in Hl as [Hc _]. unfold is_u8 in Hc. intros [= <- <-]. cbn. split_and!; try done; [|lia|lia].
  f_equal; [dlia|f_equal; dlia].
Qed.
Lemma p_pid_complete f r : wf_pid f -> p_pid (is_some f) (enc_pid f ++ r) = Some (f, r).
Proof.
  destruct f as [[[|] v]|]; cbn [is_some enc_pid app p_pid wf_pid]; [|intros H; by rewrite (proj2 (Z.ltb_lt _ _)) by lia|done].
  intros H. rewrite (proj2 (Z.ltb_ge _ _)) by dlia. do 4 f_equal. dlia.
Qed.

(** ** Layer indices of VP9: temporal layer, U, spatial layer, D and, without
    F, the index of the base layer picture *)

Definition layer_indices : Type := Z * Z * Z * Z * Z.
Definition enc_layers (f_bit : bool) (f : option layer_indices) : list Z :=
  match f with
  | None => []
  | Some (tid, u, sid, d, tl0) => tid * 32 + u * 16 + sid * 2 + d :: if f_bit then [] else [tl0]
  end.
Definition wf_layers (f_bit : bool) (f : option layer_indices) : Prop :=
  match f with
  | None => True
  | Some (tid, u, sid, d, tl0) => 0 <= tid < 8 /\ 0 <= u < 2 /\ 0 <= sid < 8 /\ 0 <= d < 2 /\ (if f_bit then tl0 = 0 else is_u8 tl0)
  end.
Definition p_layers (l_bit f_bit : bool) (l : list Z) : option (option layer_indices * list Z) :=
  if l_bit then
    match l with
    | [] => None
    | b :: r =>
        let f tl0 := Some (b / 32, b / 16 mod 2, b / 2 mod 8, b mod 2, tl0) in
        if f_bit then Some (f 0, r) else match r with [] => None | tl0 :: r => Some (f tl0, r) end
    end
  else Some (None, l).
Definition view_layers (f : option layer_indices) : layer_indices := match f with Some x => x | None => (0, 0, 0, 0, 0) end.

Lemma p_layers_sound l_bit f_bit l f r :
  bytes_ok l -> p_layers l_bit f_bit l = Some (f, r) -> l = enc_layers f_bit f ++ r /\ wf_layers f_bit f /\ is_some f = l_bit.
Proof.
  unfold p_layers. intros Hl. destruct l_bit; [|by intros [= <- <-]]. destruct l as [|b l]; [done|]. apply Forall_cons_1 in Hl as [Hb Hl].
  destruct f_bit; [intros [= <- <-]|destruct l as [|c l]; [done|]; apply Forall_cons_1 in Hl as [Hc _]; intros [= <- <-]];
    cbn [enc_layers wf_layers is_some app]; (split_and!; try done; [|dlia|dlia|dlia|dlia|dlia|dlia|dlia|dlia]); f_equal; dlia.
Qed.
Lemma p_layers_complete f_bit f r : wf_layers f_bit f -> p_layers (is_some f) f_bit (enc_layers f_bit f ++ r) = Some (f, r).
Proof.
  destruct f as [[[[[tid u] sid] d] tl0]|]; [|done]. cbn [is_some enc_layers p_layers wf_layers app]. intros (H1 & H2 & H3 & H4 & H5).
  set (b := tid * 32 + u * 16 + sid * 2 + d).
  assert (E : b / 32 = tid /\ b / 16 mod 2 = u /\ b / 2 mod 8 = sid /\ b mod 2 = d) by (unfold b; split_and!; dlia).
  destruct E as (E1 & E2 & E3 & E4). clearbody b. destruct f_bit; cbn [app]; rewrite E1, E2, E3, E4; by subst.
Qed.

(** ** Reference differences of VP9, at most three *)

Fixpoint enc_diffs (l : list Z) : list Z :=
  match l with [] => [] | [d] => [d] | d :: l => 128 + d :: enc_diffs l end.
Definition wf_diffs (present : bool) (l : list Z) : Prop :=
  if present then 1 <= zlen l <= 3 /\ Forall (fun d => 0 <= d < 128) l else l = [].
Fixpoint p_diff_list (n : nat) (l : list Z) : option (list Z * list Z) :=
  match n, l with
  | S n, b :: r =>
      if b <? 128 then Some ([b], r)
      else match p_diff_list n r with Some (ds, r) => Some (b - 128 :: ds, r) | None => None end
  | _, _ => None
  end.
Definition p_diffs (present : bool) (l : list Z) : option (list Z * list Z) := if present then p_diff_list 3 l else Some ([], l).
Definition view_diffs (l : list Z) : list Z * Z := (take 3 (l ++ [0; 0; 0]), zlen l).

Lemma p_diff_list_sound n l ds r : bytes_ok l -> p_diff_list n l = Some (ds, r) ->
  l = enc_diffs ds ++ r /\ (0 < length ds <= n)%nat /\ Forall (fun d => 0 <= d < 128) ds.
Proof.
  revert l ds r. induction n as [|n IH]; intros l ds r Hl; [done|]. destruct l as [|b l]; [done|]. cbn [p_diff_list].
  apply Forall_cons_1 in Hl as [Hb Hl]. unfold is_u8 in Hb. destruct (Z.ltb_spec b 128).
  { intros [= <- <-]. split_and!; cbn; try done; try lia. apply Forall_cons_2; [lia|apply Forall_nil_2]. }
  destruct (p_diff_list n l) as [[ds' r']|] eqn:E; [|done]. intros [= <- <-]. apply IH in E as (-> & Hn & Hf); [|done].
  split_and!; cbn [length]; try lia; [|apply Forall_cons_2; [lia|done]]. destruct ds' as [|d ds']; [cbn in Hn; lia|].
  cbn [enc_diffs app]. f_equal. lia.
Qed.
Lemma p_diff_list_complete n ds r : (0 < length ds <= n)%nat -> Forall (fun d => 0 <= d < 128) ds -> p_diff_list n (enc_diffs ds ++ r) = Some (ds, r).
Proof.
  revert ds. induction n as [|n IH]; intros ds Hn Hf; [lia|]. destruct ds as [|d ds]; [cbn in Hn; lia|].
  apply Forall_cons_1 in Hf as [Hd Hf]. destruct ds as [|d' ds]; cbn [enc_diffs app p_diff_list].
  - by rewrite (proj2 (Z.ltb_lt _ _)) by lia.
  - rewrite (proj2 (Z.ltb_ge _ _)) by lia.
    specialize (IH (d' :: ds) ltac:(cbn in *; lia) Hf). cbn [enc_diffs] in IH. rewrite IH. do 3 f_equal. lia.
Qed.

(** ** The scalability structure of VP9: the reserved bits, the number of
    spatial layers less one, the resolutions, and the picture groups with
    their reference differences *)

Definition p_take (n : Z) (l : list Z) : option (list Z * list Z) :=
  if zlen l <? n then None else Some (take (Z.to_nat n) l, drop (Z.to_nat n) l).
Lemma p_take_sound n l a r : 0 <= n -> p_take n l = Some (a, r) -> l = a ++ r /\ zlen a = n.
Proof.
  unfold p_take. destruct (Z.ltb_spec (zlen l) n); [done|]. intros Hn [= <- <-]. split; [by rewrite take_drop|].
  unfold zlen in *. rewrite length_take. lia.
Qed.
Lemma p_take_complete n a r : zlen a = n -> p_take n (a ++ r) = Some (a, r).
Proof.
  intros <-. unfold p_take. rewrite zlen_app. pose proof (zlen_nonneg r). rewrite (proj2 (Z.ltb_ge _ _)) by lia.
  unfold zlen. rewrite Nat2Z.id, take_app_length, drop_app_length. done.
Qed.

Definition group : Type := Z * list Z.
Definition enc_group (g : group) : list Z := g.1 :: g.2.
Definition wf_group (g : group) : Prop := is_u8 g.1 /\ zlen g.2 = g.1 / 4 mod 4.
Fixpoint p_groups (n : nat) (l : list Z) : option (list group * list Z) :=
  match n, l with
  | O, _ => Some ([], l)
  | S n, [] => None
  | S n, b :: r =>
      match p_take (b / 4 mod 4) r with
      | Some (refs, r) => match p_groups n r with Some (gs, r) => Some ((b, refs) :: gs, r) | None => None end
      | None => None
      end
  end.
Lemma p_groups_sound n l gs r : bytes_ok l -> p_groups n l = Some (gs, r) -> l = concat (map enc_group gs) ++ r /\ length gs = n /\ Forall wf_group gs.
Proof.
  revert l gs r. induction n as [|n IH]; intros l gs r Hl; cbn [p_groups]; [by intros [= <- <-]|]. destruct l as [|b l]; [done|].
  apply Forall_cons_1 in Hl as [Hb Hl]. destruct (p_take _ l) as [[refs r1]|] eqn:E1; [|done].
  apply p_take_sound in E1 as [-> Hr]; [|dlia]. apply Forall_app in Hl as [_ Hl]. destruct (p_groups n r1) as [[gs1 r2]|] eqn:E2; [|done].
  apply IH in E2 as (-> & <- & Hg); [|done]. intros [= <- <-]. cbn. split_and!; [by rewrite <- app_assoc|done|].
  by apply Forall_cons_2.
Qed.
Lemma p_groups_complete gs r : Forall wf_group gs -> p_groups (length gs) (concat (map enc_group gs) ++ r) = Some (gs, r).
Proof.
  induction 1 as [|[b refs] gs [Hb Hr] _ IH]; [done|]. cbn [length map concat enc_group app p_groups fst snd]. rewrite <- app_assoc.
  cbn in Hr. rewrite (p_take_complete _ refs) by done. by rewrite IH.
Qed.

Record structure := mk_structure { ss_low : Z; ss_spatial : Z; ss_sizes : option (list Z); ss_groups : option (list group) }.
Definition enc_sizes (o : option (list Z)) : list Z := match o with Some l => l | None => [] end.
Definition enc_groups (o : option (list group)) : list Z := match o with Some gs => zlen gs :: concat (map enc_group gs) | None => [] end.
Definition enc_structure (o : option structure) : list Z :=
  match o with
  | None => []
  | Some s => ss_spatial s * 32 + Z.b2z (is_some (ss_sizes s)) * 16 + Z.b2z (is_some (ss_groups s)) * 8 + ss_low s ::
              enc_sizes (ss_sizes s) ++ enc_groups (ss_groups s)
  end.
Definition wf_structure (o : option structure) : Prop :=
  match o with
  | None => True
  | Some s => 0 <= ss_low s < 8 /\ 0 <= ss_spatial s < 8 /\
      match ss_sizes s with Some l => zlen l = (ss_spatial s + 1) * 4 | None => True end /\
      match ss_groups s with Some gs => zlen gs <= 255 /\ Forall wf_group gs | None => True end
  end.
Definition p_sizes (present : bool) (n : Z) (l : list Z) : option (option (list Z) * list Z) :=
  if present then match p_take n l with Some (a, r) => Some (Some a, r) | None => None end else Some (None, l).
Definition p_some_groups (present : bool) (l : list Z) : option (option (list group) * list Z) :=
  if present then
    match l with
    | [] => None
    | n :: r => match p_groups (Z.to_nat n) r with Some (gs, r) => Some (Some gs, r) | None => None end
    end
  else Some (None, l).
Definition p_structure (present : bool) (l : list Z) : option (option structure * list Z) :=
  if present then
    match l with
    | [] => None
    | b :: r =>
        match p_sizes (bit b 4) ((b / 32 + 1) * 4) r with
        | Some (sizes, r) =>
            match p_some_groups (bit b 3) r with
            | Some (groups, r) => Some (Some (mk_structure (b mod 8) (b / 32) sizes groups), r)
            | None => None
            end
        | None => None
        end
    end
  else Some (None, l).

Lemma bit_value b n : 0 <= n -> Z.b2z (bit b n) = b / 2 ^ n mod 2.
Proof.
  intros Hn. unfold bit. rewrite Z.shiftr_div_pow2 by done. change 1 with (2 ^ 1 - 1) at 1. rewrite land_ones_mod by done. change (2 ^ 1) with 2.
  destruct (Z.eqb_spec (b / 2 ^ n mod 2) 0) as [->|]; [done|]. cbn [negb Z.b2z]. dlia.
Qed.
Lemma bit_of b n (x : bool) : 0 <= n -> b / 2 ^ n mod 2 = Z.b2z x -> bit b n = x.
Proof. intros Hn E. rewrite <- bit_value in E by done. by destruct (bit b n), x. Qed.

Lemma p_structure_sound present l f r : bytes_ok l -> p_structure present l = Some (f, r) ->
  l = enc_structure f ++ r /\ wf_structure f /\ is_some f = present.
Proof.
  unfold p_structure. intros Hl. destruct present; [|by intros [= <- <-]]. destruct l as [|b l]; [done|]. apply Forall_cons_1 in Hl as [Hb Hl].
  destruct (p_sizes _ _ l) as [[sizes r1]|] eqn:E1; [|done].
  assert (H1 : l = enc_sizes sizes ++ r1 /\ is_some sizes = bit b 4 /\ match sizes with Some a => zlen a = (b / 32 + 1) * 4 | None => True end).
  { unfold p_sizes in E1. destruct (bit b 4); [|by injection E1 as <- <-]. destruct (p_take _ l) as [[a r2]|] eqn:E2; [|done].
    injection E1 as <- <-. apply p_take_sound in E2 as [-> Ha]; [done|dlia]. }
  destruct H1 as (-> & Hs & Hz). apply Forall_app in Hl as [_ Hl]. destruct (p_some_groups _ r1) as [[groups r2]|] eqn:E2; [|done].
  assert (H2 : r1 = enc_groups groups ++ r2 /\ is_some groups = bit b 3 /\ match groups with Some gs => zlen gs <= 255 /\ Forall wf_group gs | None => True end).
  { unfold p_some_groups in E2. destruct (bit b 3); [|by injection E2 as <- <-]. destruct r1 as [|n r1]; [done|].
    apply Forall_cons_1 in Hl as [Hn Hl]. unfold is_u8 in Hn. destruct (p_groups _ r1) as [[gs r3]|] eqn:E3; [|done]. injection E2 as <- <-.
    apply p_groups_sound in E3 as (-> & Hlen & Hg); [|done]. cbn. unfold zlen. rewrite Hlen, Z2Nat.id by lia. split_and!; try done; lia. }
  destruct H2 as (-> & Hg & Hz2). intros [= <- <-]. cbn. split_and!; try done; try dlia. rewrite Hs, Hg, !bit_value by lia.
  rewrite app_assoc. f_equal. change (2 ^ 4) with 16. change (2 ^ 3) with 8. dlia.
Qed.
Lemma p_structure_complete f r : wf_structure f -> p_structure (is_some f) (enc_structure f ++ r) = Some (f, r).
Proof.
  destruct f as [[low n sizes groups]|]; [|done]. cbn [is_some enc_structure wf_structure ss_low ss_spatial ss_sizes ss_groups app p_structure].
  intros (H1 & H2 & H3 & H4). rewrite <- app_assoc. set (b := n * 32 + _ + _ + low).
  assert (Eb : bit b 4 = is_some sizes /\ bit b 3 = is_some groups /\ b / 32 = n /\ b mod 8 = low).
  { unfold b. destruct (is_some sizes), (is_some groups); cbn [Z.b2z]; (split_and!; [apply bit_of; [lia|]; cbn [Z.b2z]; change (2 ^ 4) with 16; dlia|
      apply bit_of; [lia|]; cbn [Z.b2z]; change (2 ^ 3) with 8; dlia|dlia|dlia]). }
  destruct Eb as (-> & -> & -> & ->). clear b.
  assert (Es : p_sizes (is_some sizes) ((n + 1) * 4) (enc_sizes sizes ++ enc_groups groups ++ r) = Some (sizes, enc_groups groups ++ r)).
  { destruct sizes as [a|]; [|done]. cbn [is_some enc_sizes p_sizes]. by rewrite p_take_complete. }
  rewrite Es. destruct groups as [gs|]; [|done]. destruct H4 as [_ Hg]. cbn [is_some enc_groups app p_some_groups].
  unfold zlen. rewrite Nat2Z.id. by rewrite p_groups_complete.
Qed.

(** * The stages are these parsers *)

Section Stages.
Context (payload : list Z) (len : Z) (Hlen : 0 <= len <= zlen payload) (Hbytes : bytes_ok payload).

(** [l] is what is left of the payload at [offset]. *)
Definition at_input (offset : Z) (l : list Z) : Prop := 0 <= offset <= len /\ slice payload offset (len - offset) = l.
Lemma at_input_len offset l : at_input offset l -> zlen l = len - offset.
Proof. intros [H <-]. apply zlen_slice; lia. Qed.
Lemma at_input_bytes offset l : at_input offset l -> bytes_ok l.
Proof. intros [_ <-]. by apply bytes_ok_slice. Qed.
Lemma at_input_skip offset a r : at_input offset (a ++ r) -> at_input (offset + zlen a) r.
Proof.
  intros H. pose proof (at_input_len _ _ H) as Hz. destruct H as [H E]. rewrite zlen_app in Hz. pose proof (zlen_nonneg a). pose proof (zlen_nonneg r).
  split; [lia|]. replace (len - offset) with (zlen a + (len - (offset + zlen a))) in E by lia. rewrite slice_split in E by lia.
  apply app_inj_1 in E as [_ E]; [done|]. apply Nat2Z.inj. change (zlen (slice payload offset (zlen a)) = zlen a). apply zlen_slice; lia.
Qed.
Lemma next_byte_at offset l : at_input offset l ->
  match l with [] => next_byte payload len offset = Err | b :: r => next_byte payload len offset = Ok (b, offset + 1) /\ at_input (offset + 1) r end.
Proof.
  intros H. pose proof (at_input_len _ _ H) as Hz. unfold next_byte. destruct l as [|b r].
  - rewrite zlen_nil in Hz. rewrite reject_true by lia. done.
  - rewrite zlen_cons in Hz. pose proof (zlen_nonneg r). split; [|by apply (at_input_skip offset [b])]. destruct H as [H E].
    rewrite reject_false, rd_ok by lia. rewrite slice_cons in E by lia. cbn. by injection E as -> _.
Qed.

(** The stage [m] does what the parser of lists answers with [o]. *)
Definition corresponds {F X} (o : option (F * list Z)) (view : F -> X) (m : res (X * Z)) : Prop :=
  match o with None => m = Err | Some (f, r) => exists offset, m = Ok (view f, offset) /\ at_input offset r end.
Definition moves {F} (o : option (F * list Z)) (m : res Z) : Prop :=
  match o with None => m = Err | Some (_, r) => exists offset, m = Ok offset /\ at_input offset r end.

Lemma bit7_ge b : is_u8 b -> bit b 7 = negb (b <? 128).
Proof. intros Hb. apply eqb_prop. revert b Hb. apply byte_forall. vm_compute. reflexivity. Qed.
Lemma low7 b : is_u8 b -> Z.land b 127 = b mod 128.
Proof. intros _. by apply (land_ones_mod b 7). Qed.

Lemma picture_id_corresponds present offset l : at_input offset l ->
  corresponds (p_pid present l) view_pid (picture_id_field payload len present offset).
Proof.
  intros H. unfold p_pid, picture_id_field. destruct present; [|by exists offset]. pose proof (next_byte_at _ _ H) as N. pose proof (at_input_bytes _ _ H) as B.
  destruct l as [|b l]; [by rewrite N|]. destruct N as [-> H1]. cbn [res_bind]. apply Forall_cons_1 in B as [Hb B].
  rewrite bit7_ge, low7 by done. unfold is_u8 in Hb. destruct (Z.ltb_spec b 128); cbn [negb].
  { exists (offset + 1). split; [|done]. cbn. rewrite Z.mod_small by lia. done. }
  pose proof (next_byte_at _ _ H1) as N. destruct l as [|c l]; [by rewrite N|]. destruct N as [-> H2]. cbn [res_bind].
  apply Forall_cons_1 in B as [Hc _]. exists (offset + 1 + 1). split; [|done]. rewrite lor_shiftl_add by (unfold is_u8 in Hc; lia). cbn. do 2 f_equal. dlia.
Qed.

Lemma layer_bits b : is_u8 b -> Z.land (Z.shiftr b 5) 7 = b / 32 /\ Z.land (Z.shiftr b 4) 1 = b / 16 mod 2 /\ Z.land (Z.shiftr b 1) 7 = b / 2 mod 8 /\
  Z.land b 1 = b mod 2.
Proof.
  intros Hb. assert (E : (Z.land (Z.shiftr b 5) 7 =? b / 32) && (Z.land (Z.shiftr b 4) 1 =? b / 16 mod 2) &&
    (Z.land (Z.shiftr b 1) 7 =? b / 2 mod 8) && (Z.land b 1 =? b mod 2) = true) by (revert b Hb; apply byte_forall; vm_compute; reflexivity).
  bool_hyps. split_and!; lia.
Qed.
Lemma layers_corresponds l_bit f_bit offset l : at_input offset l ->
  corresponds (p_layers l_bit f_bit l) view_layers (vp9_layers payload len l_bit f_bit offset).
Proof.
  intros H. unfold p_layers, vp9_layers. destruct l_bit; [|by exists offset]. pose proof (next_byte_at _ _ H) as N. pose proof (at_input_bytes _ _ H) as B.
  destruct l as [|b l]; [by rewrite N|]. destruct N as [-> H1]. cbn [res_bind]. apply Forall_cons_1 in B as [Hb B].
  destruct (layer_bits b Hb) as (-> & -> & -> & ->). destruct f_bit; cbn [negb]; [by exists (offset + 1)|].
  pose proof (next_byte_at _ _ H1) as N. destruct l as [|c l]; [by rewrite N|]. destruct N as [-> H2]. by exists (offset + 1 + 1).
Qed.

Lemma byte_here offset b r : at_input offset (b :: r) -> rd payload offset = Ok b.
Proof.
  intros H. pose proof (at_input_len _ _ H) as Hz. rewrite zlen_cons in Hz. pose proof (zlen_nonneg r). destruct H as [H E].
  rewrite rd_ok by lia. rewrite slice_cons in E by lia. by injection E as -> _.
Qed.
Lemma high_bit b : is_u8 b -> (Z.land b 128 =? 0) = (b <? 128).
Proof. intros Hb. apply eqb_prop. revert b Hb. apply byte_forall. vm_compute. reflexivity. Qed.

(** The loop after the differences [ds]. *)
Lemma diff_loop_spec n ds offset l :
  at_input offset l -> (length ds + n = 3)%nat -> (0 < n)%nat ->
  match p_diff_list n l with
  | Some (es, r) => exists offset', diff_loop n payload len (take 3 (ds ++ [0; 0; 0])) (zlen ds) offset =
      Ok (take 3 ((ds ++ es) ++ [0; 0; 0]), zlen (ds ++ es), offset') /\ at_input offset' r /\
      exists b, rd payload (offset' - 1) = Ok b /\ flag b 128 = false
  | None => diff_loop n payload len (take 3 (ds ++ [0; 0; 0])) (zlen ds) offset = Err \/
      exists diffs offset' b, diff_loop n payload len (take 3 (ds ++ [0; 0; 0])) (zlen ds) offset = Ok (diffs, 3, offset') /\
        rd payload (offset' - 1) = Ok b /\ flag b 128 = true
  end.
Proof.
  revert ds offset l. induction n as [|n IH]; intros ds offset l H Hn Hpos; [lia|]. cbn [diff_loop p_diff_list].
  pose proof (next_byte_at _ _ H) as N. pose proof (at_input_bytes _ _ H) as B. destruct l as [|b l]; [left; by rewrite N|].
  destruct N as [-> H1]. cbn [res_bind]. apply Forall_cons_1 in B as [Hb _]. rewrite high_bit, low7 by done.
  assert (Hr : rd payload (offset + 1 - 1) = Ok b) by (replace (offset + 1 - 1) with offset by lia; by eapply byte_here).
  assert (Hf : flag b 128 = negb (b <? 128)) by (unfold flag; by rewrite high_bit).
  set (d := b mod 128). unfold SFU_VP9_MAX_P_DIFF. rewrite (proj2 (Z.ltb_lt (zlen ds) 3)) by (unfold zlen; lia).
  assert (Ed : <[Z.to_nat (zlen ds) := d]> (take 3 (ds ++ [0; 0; 0])) = take 3 ((ds ++ [d]) ++ [0; 0; 0])).
  { unfold zlen. rewrite Nat2Z.id. destruct ds as [|x [|y [|z ds]]]; cbn in Hn; [done|done|done|lia]. }
  assert (Ec : u8 (zlen ds + 1) = zlen (ds ++ [d])) by (rewrite zlen_app; unfold u8, zlen; cbn; rewrite Z.mod_small; lia).
  rewrite Ed, Ec. destruct (Z.ltb_spec b 128).
  { exists (offset + 1). assert (d = b) as -> by (unfold d, is_u8 in *; rewrite Z.mod_small; lia). split_and!; [done|done|]. exists b. by rewrite Hf. }
  assert (Hd : b - 128 = d) by (unfold d; dlia). rewrite Hd. destruct n as [|n].
  - cbn [p_diff_list]. right. rewrite (proj2 (Z.ltb_ge _ _)) by (rewrite zlen_app; unfold zlen; cbn; lia).
    do 3 eexists. split; [|split; [exact Hr|by rewrite Hf]]. do 3 f_equal. rewrite zlen_app. unfold zlen. cbn. lia.
  - rewrite (proj2 (Z.ltb_lt _ _)) by (rewrite zlen_app; unfold zlen; cbn; lia).
    specialize (IH (ds ++ [d]) (offset + 1) l H1 ltac:(rewrite length_app; cbn; lia) ltac:(lia)).
    destruct (p_diff_list (S n) l) as [[es r]|]; [|exact IH]. by rewrite <- (app_assoc ds [d] es) in IH.
Qed.
Lemma diffs_corresponds present offset l : at_input offset l -> corresponds (p_diffs present l) view_diffs (vp9_diffs payload len present offset).
Proof.
  intros H. unfold p_diffs, vp9_diffs. destruct present; [|by exists offset].
  pose proof (diff_loop_spec 3 [] offset l H eq_refl ltac:(lia)) as S. cbn [app take] in S. change (zlen []) with 0 in S.
  destruct (p_diff_list 3 l) as [[es r]|].
  - destruct S as (offset' & -> & H' & b & Hb & Hf). cbn [res_bind]. exists offset'. split; [|done]. rewrite Hb. cbn [res_bind]. rewrite Hf.
    by destruct (_ =? _).
  - destruct S as [-> |(diffs & offset' & b & -> & Hb & Hf)]; [done|]. cbn. rewrite Hb. cbn. by rewrite Hf.
Qed.

Lemma group_refs b : is_u8 b -> Z.land (Z.shiftr b 2) 3 = b / 4 mod 4.
Proof. intros _. rewrite Z.shiftr_div_pow2 by lia. by apply (land_ones_mod _ 2). Qed.
Lemma group_loop_moves n offset l : at_input offset l -> moves (p_groups n l) (group_loop n payload len offset).
Proof.
  revert offset l. induction n as [|n IH]; intros offset l H; cbn [p_groups group_loop]; [by exists offset|].
  pose proof (next_byte_at _ _ H) as N. pose proof (at_input_bytes _ _ H) as B. destruct l as [|b l]; [by rewrite N|].
  destruct N as [-> H1]. cbn [res_bind]. apply Forall_cons_1 in B as [Hb _]. rewrite group_refs by done. pose proof (at_input_len _ _ H1) as Hz.
  destruct (p_take _ l) as [[refs r]|] eqn:E.
  - apply p_take_sound in E as [-> Hr]; [|dlia]. rewrite reject_false by (rewrite zlen_app in Hz; pose proof (zlen_nonneg r); lia).
    apply at_input_skip in H1. rewrite Hr in H1. specialize (IH _ _ H1). by destruct (p_groups n r) as [[gs r']|].
  - unfold p_take in E. destruct (Z.ltb_spec (zlen l) (b / 4 mod 4)); [|done]. by rewrite reject_true by lia.
Qed.
Lemma structure_moves present offset l : at_input offset l -> moves (p_structure present l) (vp9_structure payload len present offset).
Proof.
  intros H. unfold p_structure, vp9_structure. destruct present; [|by exists offset]. pose proof (next_byte_at _ _ H) as N.
  pose proof (at_input_bytes _ _ H) as B. destruct l as [|b l]; [by rewrite N|]. destruct N as [-> H1]. cbn [res_bind].
  apply Forall_cons_1 in B as [Hb B]. destruct (layer_bits b Hb) as (-> & _). set (n := (b / 32 + 1) * 4). assert (Hn : 0 <= n) by (unfold n; dlia).
  assert (Hs : moves (p_sizes (bit b 4) n l) (if bit b 4 then reject (len - (offset + 1) <? n) (Ok (offset + 1 + n)) else Ok (offset + 1))).
  { unfold p_sizes. destruct (bit b 4); [|by exists (offset + 1)]. pose proof (at_input_len _ _ H1) as Hz. destruct (p_take n l) as [[a r]|] eqn:E.
    - apply p_take_sound in E as [-> Ha]; [|done]. exists (offset + 1 + n). rewrite reject_false by (rewrite zlen_app in Hz; pose proof (zlen_nonneg r); lia).
      split; [done|]. apply at_input_skip in H1. by rewrite Ha in H1.
    - unfold p_take in E. destruct (Z.ltb_spec (zlen l) n); [|done]. cbn. by rewrite reject_true by lia. }
  destruct (p_sizes (bit b 4) n l) as [[sizes r]|]; cbn [moves] in Hs; [|by rewrite Hs]. destruct Hs as (offset2 & -> & H2). cbn [res_bind].
  unfold p_some_groups. destruct (bit b 3); [|by exists offset2]. pose proof (next_byte_at _ _ H2) as N. destruct r as [|g r]; [by rewrite N|].
  destruct N as [-> H3]. cbn [res_bind]. pose proof (group_loop_moves (Z.to_nat g) _ _ H3) as Hg. by destruct (p_groups (Z.to_nat g) r) as [[gs r']|].
Qed.
End Stages.

(** * The VP9 descriptor *)

Record vp9_fields := mk_vp9_fields {
  f9_p : bool; f9_f : bool; f9_b : bool; f9_e : bool; f9_z : bool;
  f9_pid : option (bool * Z);
  f9_layers : option layer_indices;
  f9_diffs : list Z;
  f9_structure : option structure
}.
Definition enc_vp9 (f : vp9_fields) : list Z :=
  byte8 (is_some (f9_pid f)) (f9_p f) (is_some (f9_layers f)) (f9_f f) (f9_b f) (f9_e f) (is_some (f9_structure f)) (f9_z f) ::
  enc_pid (f9_pid f) ++ enc_layers (f9_f f) (f9_layers f) ++ enc_diffs (f9_diffs f) ++ enc_structure (f9_structure f).
Definition wf_vp9 (f : vp9_fields) : Prop :=
  wf_pid (f9_pid f) /\ wf_layers (f9_f f) (f9_layers f) /\ wf_diffs (f9_p f && f9_f f) (f9_diffs f) /\ wf_structure (f9_structure f).
Definition view_vp9 (f : vp9_fields) : sfu_vp9_descriptor :=
  let '(tid, u, sid, d, tl0) := view_layers (f9_layers f) in
  mk_vp9 (is_some (f9_pid f)) (f9_p f) (is_some (f9_layers f)) (f9_f f) (f9_b f) (f9_e f) (is_some (f9_structure f)) (f9_z f)
    (view_pid (f9_pid f)) tid u sid d tl0 (view_diffs (f9_diffs f)).1 (view_diffs (f9_diffs f)).2 (zlen (enc_vp9 f)).

Lemma byte8_bits b7 b6 b5 b4 b3 b2 b1 b0 :
  let x := byte8 b7 b6 b5 b4 b3 b2 b1 b0 in
  bit x 7 = b7 /\ bit x 6 = b6 /\ bit x 5 = b5 /\ bit x 4 = b4 /\ bit x 3 = b3 /\ bit x 2 = b2 /\ bit x 1 = b1 /\ bit x 0 = b0.
Proof. by destruct b7, b6, b5, b4, b3, b2, b1, b0. Qed.
Lemma byte8_eq x : is_u8 x -> byte8 (bit x 7) (bit x 6) (bit x 5) (bit x 4) (bit x 3) (bit x 2) (bit x 1) (bit x 0) = x.
Proof. intros Hx. apply Z.eqb_eq. revert x Hx. apply byte_forall. vm_compute. reflexivity. Qed.

Definition p_vp9 (l : list Z) : option (vp9_fields * list Z) :=
  match l with
  | [] => None
  | x :: l =>
      match p_pid (bit x 7) l with
      | Some (pid, l) =>
          match p_layers (bit x 5) (bit x 4) l with
          | Some (layers, l) =>
              match p_diffs (bit x 6 && bit x 4) l with
              | Some (diffs, l) =>
                  match p_structure (bit x 1) l with
                  | Some (s, l) => Some (mk_vp9_fields (bit x 6) (bit x 4) (bit x 3) (bit x 2) (bit x 0) pid layers diffs s, l)
                  | None => None
                  end
              | None => None
              end
          | None => None
          end
      | None => None
      end
  end.
Lemma p_diffs_sound present l ds r : bytes_ok l -> p_diffs present l = Some (ds, r) -> l = enc_diffs ds ++ r /\ wf_diffs present ds.
Proof.
  intros Hl. unfold p_diffs, wf_diffs. destruct present; [|by intros [= <- <-]]. intros E.
  apply p_diff_list_sound in E as (-> & Hn & Hf); [|done]. split_and!; try done; unfold zlen; lia.
Qed.
Lemma p_diffs_complete present ds r : wf_diffs present ds -> p_diffs present (enc_diffs ds ++ r) = Some (ds, r).
Proof.
  unfold p_diffs, wf_diffs. destruct present; [|by intros ->]. intros [Hn Hf]. apply p_diff_list_complete; [unfold zlen in Hn; lia|done].
Qed.
Lemma p_vp9_sound l f r : bytes_ok l -> p_vp9 l = Some (f, r) -> l = enc_vp9 f ++ r /\ wf_vp9 f.
Proof.
  unfold p_vp9. destruct l as [|x l]; [done|]. intros [Hx Hl]%Forall_cons_1.
  destruct (p_pid _ l) as [[pid l1]|] eqn:E1; [|done]. apply p_pid_sound in E1 as (-> & W1 & S1); [|done]. apply Forall_app in Hl as [_ Hl].
  destruct (p_layers _ _ l1) as [[layers l2]|] eqn:E2; [|done]. apply p_layers_sound in E2 as (-> & W2 & S2); [|done]. apply Forall_app in Hl as [_ Hl].
  destruct (p_diffs _ l2) as [[ds l3]|] eqn:E3; [|done]. apply p_diffs_sound in E3 as (-> & W3); [|done]. apply Forall_app in Hl as [_ Hl].
  destruct (p_structure _ l3) as [[s l4]|] eqn:E4; [|done]. apply p_structure_sound in E4 as (-> & W4 & S4); [|done]. intros [= <- <-].
  split; [|done]. unfold enc_vp9. cbn. rewrite S1, S2, S4, byte8_eq by done. by rewrite <- !app_assoc.
Qed.
Lemma p_vp9_complete f r : wf_vp9 f -> p_vp9 (enc_vp9 f ++ r) = Some (f, r).
Proof.
  destruct f as [p f b e z pid layers ds s]. intros (W1 & W2 & W3 & W4). unfold enc_vp9, p_vp9. cbn in *.
  destruct (byte8_bits (is_some pid) p (is_some layers) f b e (is_some s) z) as (-> & -> & -> & -> & -> & -> & -> & ->). rewrite <- !app_assoc.
  rewrite p_pid_complete by done. rewrite p_layers_complete by done. rewrite p_diffs_complete by done. by rewrite p_structure_complete.
Qed.

Lemma vp9_parse_eq payload len : 0 <= len <= zlen payload -> bytes_ok payload ->
  sfu_parse_vp9_descriptor payload len =
  match p_vp9 (slice payload 0 len) with None => Err | Some (f, _) => Ok (view_vp9 f) end.
Proof.
  intros Hlen Hb. unfold sfu_parse_vp9_descriptor. assert (H : at_input payload len 0 (slice payload 0 len)) by (split; [lia|by rewrite Z.sub_0_r]).
  pose proof (at_input_len _ _ Hlen _ _ H) as Hz. pose proof (at_input_bytes _ _ Hb _ _ H) as Hl.
  assert (Hs : forall f r, p_vp9 (slice payload 0 len) = Some (f, r) -> zlen (enc_vp9 f) = len - zlen r).
  { intros f r E. apply p_vp9_sound in E as [E _]; [|done]. rewrite E, zlen_app in Hz. lia. }
  unfold p_vp9 in *. destruct (slice payload 0 len) as [|x l]; [rewrite zlen_nil in Hz; by rewrite reject_true by lia|].
  rewrite zlen_cons in Hz. pose proof (zlen_nonneg l). rewrite reject_false by lia. rewrite (byte_here _ _ Hlen _ _ _ H). cbn [res_bind].
  apply (at_input_skip _ _ Hlen _ [x]) in H. change (0 + zlen [x]) with 1 in H.
  pose proof (picture_id_corresponds _ _ Hlen Hb (bit x 7) _ _ H) as S1. destruct (p_pid (bit x 7) l) as [[pid l1]|] eqn:E1; [|by rewrite S1].
  destruct S1 as (o1 & -> & H1). cbn [res_bind].
  pose proof (layers_corresponds _ _ Hlen Hb (bit x 5) (bit x 4) _ _ H1) as S2. destruct (p_layers _ _ l1) as [[layers l2]|] eqn:E2; [|by rewrite S2].
  destruct S2 as (o2 & -> & H2). destruct (view_layers layers) as [[[[tid u] sid] d] tl0] eqn:Ev. cbn [res_bind].
  pose proof (diffs_corresponds _ _ Hlen Hb (bit x 6 && bit x 4) _ _ H2) as S3. destruct (p_diffs _ l2) as [[ds l3]|]; [|by rewrite S3].
  destruct S3 as (o3 & -> & H3). cbn [res_bind view_diffs].
  pose proof (structure_moves _ _ Hlen Hb (bit x 1) _ _ H3) as S4. destruct (p_structure _ l3) as [[s l4]|] eqn:E4; [|by rewrite S4].
  destruct S4 as (o4 & -> & H4). cbn [res_bind]. specialize (Hs _ _ eq_refl). pose proof (at_input_len _ _ Hlen _ _ H4) as Hz4.
  apply p_pid_sound in E1 as (_ & _ & E1); [|exact (at_input_bytes _ _ Hb _ _ H)]. apply p_layers_sound in E2 as (_ & _ & E2); [|exact (at_input_bytes _ _ Hb _ _ H1)].
  apply p_structure_sound in E4 as (_ & _ & E4); [|exact (at_input_bytes _ _ Hb _ _ H3)]. unfold view_vp9. cbn [f9_p f9_f f9_b f9_e f9_z f9_pid f9_layers f9_diffs f9_structure].
  rewrite Ev, E1, E2, E4, Hs. do 2 f_equal. lia.
Qed.

(** * The VP8 descriptor *)

Record vp8_extension_fields := mk_vp8_extension {
  e8_low : Z;
  e8_pid : option (bool * Z);
  e8_tl0 : option Z;
  e8_t : bool; e8_k : bool;
  e8_layer : option (Z * bool * Z)
}.
Record vp8_fields := mk_vp8_fields { f8_r : bool; f8_n : bool; f8_s : bool; f8_part : Z; f8_ext : option vp8_extension_fields }.
Definition enc_opt (o : option Z) : list Z := match o with Some b => [b] | None => [] end.
Definition enc_vp8_layer (o : option (Z * bool * Z)) : list Z :=
  match o with Some (tid, y, keyidx) => [tid * 64 + Z.b2z y * 32 + keyidx] | None => [] end.
Definition enc_vp8_ext (o : option vp8_extension_fields) : list Z :=
  match o with
  | None => []
  | Some x => Z.b2z (is_some (e8_pid x)) * 128 + Z.b2z (is_some (e8_tl0 x)) * 64 + Z.b2z (e8_t x) * 32 + Z.b2z (e8_k x) * 16 + e8_low x ::
              enc_pid (e8_pid x) ++ enc_opt (e8_tl0 x) ++ enc_vp8_layer (e8_layer x)
  end.
Definition enc_vp8 (f : vp8_fields) : list Z :=
  Z.b2z (is_some (f8_ext f)) * 128 + Z.b2z (f8_r f) * 64 + Z.b2z (f8_n f) * 32 + Z.b2z (f8_s f) * 16 + f8_part f :: enc_vp8_ext (f8_ext f).
Definition wf_vp8_ext (o : option vp8_extension_fields) : Prop :=
  match o with
  | None => True
  | Some x => 0 <= e8_low x < 16 /\ wf_pid (e8_pid x) /\ is_some (e8_layer x) = e8_t x || e8_k x /\
      match e8_layer x with Some (tid, _, keyidx) => 0 <= tid < 4 /\ 0 <= keyidx < 32 | None => True end
  end.
Definition wf_vp8 (f : vp8_fields) : Prop := 0 <= f8_part f < 16 /\ wf_vp8_ext (f8_ext f).
(** The first byte after the descriptor tells a keyframe. *)
Definition view_vp8 (f : vp8_fields) (rest : list Z) : sfu_vp8_descriptor :=
  let x := match f8_ext f with Some x => x | None => mk_vp8_extension 0 None None false false None end in
  let '(tid, y, keyidx) := match e8_layer x with Some v => v | None => (0, false, 0) end in
  mk_vp8 (is_some (f8_ext f)) (f8_n f) (f8_s f) (f8_part f) (is_some (e8_pid x)) (is_some (e8_tl0 x)) (e8_t x) (e8_k x)
    (view_pid (e8_pid x)) (match e8_tl0 x with Some v => v | None => 0 end) tid y keyidx (u32 (zlen (enc_vp8 f)))
    (f8_s f && (f8_part f =? 0) && match rest with b :: _ => b mod 2 =? 0 | [] => false end).

Definition p_opt (present : bool) (l : list Z) : option (option Z * list Z) :=
  if present then match l with [] => None | b :: r => Some (Some b, r) end else Some (None, l).
Definition p_vp8_layer (present : bool) (l : list Z) : option (option (Z * bool * Z) * list Z) :=
  if present then match l with [] => None | b :: r => Some (Some (b / 64, bit b 5, b mod 32), r) end else Some (None, l).
Definition p_vp8_ext (present : bool) (l : list Z) : option (option vp8_extension_fields * list Z) :=
  if present then
    match l with
    | [] => None
    | b :: l =>
        match p_pid (bit b 7) l with
        | Some (pid, l) =>
            match p_opt (bit b 6) l with
            | Some (tl0, l) =>
                match p_vp8_layer (bit b 5 || bit b 4) l with
                | Some (layer, l) => Some (Some (mk_vp8_extension (b mod 16) pid tl0 (bit b 5) (bit b 4) layer), l)
                | None => None
                end
            | None => None
            end
        | None => None
        end
    end
  else Some (None, l).
Definition p_vp8 (l : list Z) : option (vp8_fields * list Z) :=
  match l with
  | [] => None
  | b :: l =>
      match p_vp8_ext (bit b 7) l with
      | Some (ext, l) => Some (mk_vp8_fields (bit b 6) (bit b 5) (bit b 4) (b mod 16) ext, l)
      | None => None
      end
  end.

Definition hi4 (b7 b6 b5 b4 : bool) (low : Z) : Z := Z.b2z b7 * 128 + Z.b2z b6 * 64 + Z.b2z b5 * 32 + Z.b2z b4 * 16 + low.
Lemma hi4_bits b7 b6 b5 b4 low : 0 <= low < 16 ->
  let x := hi4 b7 b6 b5 b4 low in bit x 7 = b7 /\ bit x 6 = b6 /\ bit x 5 = b5 /\ bit x 4 = b4 /\ x mod 16 = low.
Proof.
  intros Hl x. unfold x, hi4. split_and!; [apply bit_of; [lia|]..|]; [change (2 ^ 7) with 128|change (2 ^ 6) with 64|change (2 ^ 5) with 32|
    change (2 ^ 4) with 16|]; destruct b7, b6, b5, b4; cbn [Z.b2z]; dlia.
Qed.
Lemma hi4_eq b : is_u8 b -> hi4 (bit b 7) (bit b 6) (bit b 5) (bit b 4) (b mod 16) = b.
Proof. intros Hb. apply Z.eqb_eq. revert b Hb. apply byte_forall. vm_compute. reflexivity. Qed.
Lemma vp8_layer_bits b : is_u8 b ->
  Z.shiftr (Z.land b 192) 6 = b / 64 /\ flag b 32 = bit b 5 /\ Z.land b 31 = b mod 32 /\ b / 64 * 64 + Z.b2z (bit b 5) * 32 + b mod 32 = b.
Proof.
  intros Hb. assert (E : (Z.shiftr (Z.land b 192) 6 =? b / 64) && eqb (flag b 32) (bit b 5) && (Z.land b 31 =? b mod 32) &&
    (b / 64 * 64 + Z.b2z (bit b 5) * 32 + b mod 32 =? b) = true) by (revert b Hb; apply byte_forall; vm_compute; reflexivity).
  apply andb_prop in E as [E E4]. apply andb_prop in E as [E E3]. apply andb_prop in E as [E1 E2]. apply eqb_prop in E2. split_and!; [lia|done|lia|lia].
Qed.
Lemma flag_bits b : is_u8 b -> flag b 128 = bit b 7 /\ flag b 64 = bit b 6 /\ flag b 32 = bit b 5 /\ flag b 16 = bit b 4 /\ Z.land b 15 = b mod 16.
Proof.
  intros Hb. assert (E : eqb (flag b 128) (bit b 7) && eqb (flag b 64) (bit b 6) && eqb (flag b 32) (bit b 5) && eqb (flag b 16) (bit b 4) = true)
    by (revert b Hb; apply byte_forall; vm_compute; reflexivity).
  apply andb_prop in E as [E E4]. apply andb_prop in E as [E E3]. apply andb_prop in E as [E1 E2].
  apply eqb_prop in E1, E2, E3, E4. split_and!; try done. by apply (land_ones_mod b 4).
Qed.

Lemma p_opt_sound present l f r : bytes_ok l -> p_opt present l = Some (f, r) -> l = enc_opt f ++ r /\ is_some f = present.
Proof. unfold p_opt. destruct present; [|by intros _ [= <- <-]]. destruct l as [|b l]; [done|]. by intros _ [= <- <-]. Qed.
Lemma p_opt_complete f r : p_opt (is_some f) (enc_opt f ++ r) = Some (f, r).
Proof. by destruct f. Qed.
Definition wf_vp8_layer (o : option (Z * bool * Z)) : Prop := match o with Some (tid, _, keyidx) => 0 <= tid < 4 /\ 0 <= keyidx < 32 | None => True end.
Lemma p_vp8_layer_sound present l f r : bytes_ok l -> p_vp8_layer present l = Some (f, r) -> l = enc_vp8_layer f ++ r /\ wf_vp8_layer f /\ is_some f = present.
Proof.
  unfold p_vp8_layer. destruct present; [|by intros _ [= <- <-]]. destruct l as [|b l]; [done|]. intros [Hb _]%Forall_cons_1 [= <- <-].
  destruct (vp8_layer_bits b Hb) as (_ & _ & _ & E). cbn. rewrite E. split_and!; try done; dlia.
Qed.
Lemma p_vp8_layer_complete f r : wf_vp8_layer f -> p_vp8_layer (is_some f) (enc_vp8_layer f ++ r) = Some (f, r).
Proof.
  destruct f as [[[tid y] keyidx]|]; [|done]. intros [H1 H2]. cbn [is_some enc_vp8_layer app p_vp8_layer]. do 3 f_equal.
  assert (bit (tid * 64 + Z.b2z y * 32 + keyidx) 5 = y) as -> by (apply bit_of; [lia|]; change (2 ^ 5) with 32; destruct y; cbn [Z.b2z]; dlia).
  f_equal; [f_equal|]; destruct y; cbn [Z.b2z]; dlia.
Qed.
Lemma p_vp8_ext_sound present l f r : bytes_ok l -> p_vp8_ext present l = Some (f, r) -> l = enc_vp8_ext f ++ r /\ wf_vp8_ext f /\ is_some f = present.
Proof.
  unfold p_vp8_ext. destruct present; [|by intros _ [= <- <-]]. destruct l as [|b l]; [done|]. intros [Hb Hl]%Forall_cons_1.
  destruct (p_pid _ l) as [[pid l1]|] eqn:E1; [|done]. apply p_pid_sound in E1 as (-> & W1 & S1); [|done]. apply Forall_app in Hl as [_ Hl].
  destruct (p_opt _ l1) as [[tl0 l2]|] eqn:E2; [|done]. apply p_opt_sound in E2 as (-> & S2); [|done]. apply Forall_app in Hl as [_ Hl].
  destruct (p_vp8_layer _ l2) as [[layer l3]|] eqn:E3; [|done]. apply p_vp8_layer_sound in E3 as (-> & W3 & S3); [|done]. intros [= <- <-].
  split; [|split; [|done]].
  - unfold enc_vp8_ext. cbn [e8_pid e8_tl0 e8_t e8_k e8_low e8_layer]. rewrite S1, S2. fold (hi4 (bit b 7) (bit b 6) (bit b 5) (bit b 4) (b mod 16)).
    rewrite hi4_eq by done. cbn. by rewrite <- !app_assoc.
  - cbn. split_and!; try done; dlia.
Qed.
Lemma p_vp8_ext_complete f r : wf_vp8_ext f -> p_vp8_ext (is_some f) (enc_vp8_ext f ++ r) = Some (f, r).
Proof.
  destruct f as [[low pid tl0 t k layer]|]; [|done]. unfold enc_vp8_ext, p_vp8_ext, wf_vp8_ext. cbn [is_some e8_pid e8_tl0 e8_t e8_k e8_low e8_layer].
  intros (H1 & W1 & S3 & W3). fold (hi4 (is_some pid) (is_some tl0) t k low). cbn [app].
  destruct (hi4_bits (is_some pid) (is_some tl0) t k low H1) as (-> & -> & -> & -> & ->). rewrite <- !app_assoc.
  rewrite p_pid_complete by done. rewrite p_opt_complete. rewrite <- S3. by rewrite p_vp8_layer_complete.
Qed.
Lemma p_vp8_sound l f r : bytes_ok l -> p_vp8 l = Some (f, r) -> l = enc_vp8 f ++ r /\ wf_vp8 f.
Proof.
  unfold p_vp8. destruct l as [|b l]; [done|]. intros [Hb Hl]%Forall_cons_1. destruct (p_vp8_ext _ l) as [[ext l1]|] eqn:E; [|done].
  apply p_vp8_ext_sound in E as (-> & W & S); [|done]. intros [= <- <-]. split; [|split; [cbn; dlia|exact W]].
  unfold enc_vp8. cbn [f8_r f8_n f8_s f8_part f8_ext]. rewrite S. fold (hi4 (bit b 7) (bit b 6) (bit b 5) (bit b 4) (b mod 16)). by rewrite hi4_eq.
Qed.
Lemma p_vp8_complete f r : wf_vp8 f -> p_vp8 (enc_vp8 f ++ r) = Some (f, r).
Proof.
  destruct f as [x n s part ext]. intros [H1 W]. unfold enc_vp8, p_vp8. cbn [f8_r f8_n f8_s f8_part f8_ext app] in *. fold (hi4 (is_some ext) x n s part).
  destruct (hi4_bits (is_some ext) x n s part H1) as (-> & -> & -> & -> & ->). by rewrite p_vp8_ext_complete.
Qed.

Definition no_extension : vp8_extension_fields := mk_vp8_extension 0 None None false false None.
Definition opt_value (o : option Z) : Z := match o with Some v => v | None => 0 end.
Definition layer_value (o : option (Z * bool * Z)) : Z * bool * Z := match o with Some v => v | None => (0, false, 0) end.
Definition extension_value (o : option vp8_extension_fields) : bool * bool * bool * bool * Z * Z * (Z * bool * Z) :=
  let e := match o with Some e => e | None => no_extension end in
  (is_some (e8_pid e), is_some (e8_tl0 e), e8_t e, e8_k e, view_pid (e8_pid e), opt_value (e8_tl0 e), layer_value (e8_layer e)).

Section Vp8Stages.
Context (payload : list Z) (len : Z) (Hlen : 0 <= len <= zlen payload) (Hbytes : bytes_ok payload).
Lemma vp8_tl0_corresponds present offset l : at_input payload len offset l ->
  corresponds payload len (p_opt present l) opt_value (vp8_tl0 payload len present offset).
Proof.
  intros H. unfold p_opt, vp8_tl0. destruct present; [|by exists offset]. pose proof (next_byte_at _ _ Hlen _ _ H) as N.
  destruct l as [|c l]; [done|]. destruct N as [-> N]. by exists (offset + 1).
Qed.
Lemma vp8_layer_corresponds present offset l : at_input payload len offset l ->
  corresponds payload len (p_vp8_layer present l) layer_value (vp8_layer payload len present offset).
Proof.
  intros H. unfold p_vp8_layer, vp8_layer. destruct present; [|by exists offset]. pose proof (next_byte_at _ _ Hlen _ _ H) as N.
  pose proof (at_input_bytes _ _ Hbytes _ _ H) as B. destruct l as [|c l]; [by rewrite N|]. destruct N as [-> N]. cbn [res_bind].
  apply Forall_cons_1 in B as [Hc _]. destruct (vp8_layer_bits c Hc) as (-> & -> & -> & _). by exists (offset + 1).
Qed.
Lemma vp8_extension_corresponds present offset l : at_input payload len offset l ->
  corresponds payload len (p_vp8_ext present l) extension_value (vp8_extension payload len present offset).
Proof.
  intros H. unfold p_vp8_ext, vp8_extension. destruct present; [|by exists offset]. pose proof (next_byte_at _ _ Hlen _ _ H) as N.
  pose proof (at_input_bytes _ _ Hbytes _ _ H) as B. destruct l as [|b l]; [by rewrite N|]. destruct N as [-> H1]. cbn [res_bind].
  apply Forall_cons_1 in B as [Hb B]. destruct (flag_bits b Hb) as (-> & -> & -> & -> & _).
  pose proof (picture_id_corresponds _ _ Hlen Hbytes (bit b 7) _ _ H1) as S1. destruct (p_pid (bit b 7) l) as [[pid l1]|] eqn:E1; [|by rewrite S1].
  destruct S1 as (o1 & -> & H2). cbn [res_bind]. apply p_pid_sound in E1 as (_ & _ & E1); [|done].
  pose proof (vp8_tl0_corresponds (bit b 6) _ _ H2) as S2. destruct (p_opt (bit b 6) l1) as [[tl0 l2]|] eqn:E2; [|by rewrite S2].
  destruct S2 as (o2 & -> & H3). cbn [res_bind]. apply p_opt_sound in E2 as (_ & E2); [|exact (at_input_bytes _ _ Hbytes _ _ H2)].
  pose proof (vp8_layer_corresponds (bit b 5 || bit b 4) _ _ H3) as S3. destruct (p_vp8_layer _ l2) as [[layer l3]|]; [|by rewrite S3].
  destruct S3 as (o3 & -> & H4). exists o3. split; [|done]. cbn [res_bind]. unfold extension_value. cbn [e8_pid e8_tl0 e8_t e8_k e8_layer].
  rewrite E1, E2. by destruct layer as [[[tid y] keyidx]|].
Qed.
End Vp8Stages.

Lemma vp8_parse_eq payload len : 0 <= len <= zlen payload -> bytes_ok payload ->
  sfu_parse_vp8_descriptor payload len =
  match p_vp8 (slice payload 0 len) with None => Err | Some (f, r) => Ok (view_vp8 f r) end.
Proof.
  intros Hlen Hb. unfold sfu_parse_vp8_descriptor. assert (H : at_input payload len 0 (slice payload 0 len)) by (split; [lia|by rewrite Z.sub_0_r]).
  pose proof (at_input_len _ _ Hlen _ _ H) as Hz. pose proof (at_input_bytes _ _ Hb _ _ H) as Hl.
  assert (Hs : forall f r, p_vp8 (slice payload 0 len) = Some (f, r) -> zlen (enc_vp8 f) = len - zlen r).
  { intros f r E. apply p_vp8_sound in E as [E _]; [|done]. rewrite E, zlen_app in Hz. lia. }
  unfold p_vp8 in *. destruct (slice payload 0 len) as [|x l]; [rewrite zlen_nil in Hz; by rewrite reject_true by lia|].
  rewrite zlen_cons in Hz. pose proof (zlen_nonneg l). rewrite reject_false by lia. rewrite (byte_here _ _ Hlen _ _ _ H). cbn [res_bind].
  apply Forall_cons_1 in Hl as [Hx _]. destruct (flag_bits x Hx) as (-> & _ & -> & -> & ->).
  apply (at_input_skip _ _ Hlen _ [x]) in H. change (0 + zlen [x]) with 1 in H.
  pose proof (vp8_extension_corresponds _ _ Hlen Hb (bit x 7) _ _ H) as S. destruct (p_vp8_ext (bit x 7) l) as [[ext r]|] eqn:Ee; [|by rewrite S].
  destruct S as (offset & -> & Hr). specialize (Hs _ _ eq_refl). pose proof (at_input_len _ _ Hlen _ _ Hr) as Hzr.
  apply p_vp8_ext_sound in Ee as (_ & _ & Ee); [|exact (at_input_bytes _ _ Hb _ _ H)].
  unfold view_vp8, extension_value. rewrite Hs. cbn [f8_ext f8_n f8_s f8_part]. rewrite Ee. fold no_extension.
  set (e := match ext with Some e => e | None => _ end). fold (layer_value (e8_layer e)). fold (opt_value (e8_tl0 e)).
  destruct (layer_value (e8_layer e)) as [[tid y] keyidx]. cbn [res_bind].
  replace (len - zlen r) with offset by lia. destruct (bit x 4 && (x mod 16 =? 0)); [|done]. cbn [andb]. destruct r as [|c r].
  - rewrite zlen_nil in Hzr. by rewrite (proj2 (Z.ltb_ge _ _)) by lia.
  - rewrite zlen_cons in Hzr. pose proof (zlen_nonneg r). rewrite (proj2 (Z.ltb_lt _ _)) by lia. rewrite (byte_here _ _ Hlen _ _ _ Hr). cbn [res_bind].
    pose proof (land_ones_mod c 1 ltac:(lia)) as E. change (2 ^ 1 - 1) with 1 in E. change (2 ^ 1) with 2 in E. by rewrite E.
Qed.

(** What is parsed fits the layer scheduler. *)
Lemma svc_descriptor_fits codec payload len out d :
  0 <= len <= zlen payload -> bytes_ok payload -> sfu_svc_parse_descriptor codec payload len out = Ok d -> desc_ok d /\ sd_sid d < 8.
Proof.
  intros Hlen Hb E. destruct codec; try done. cbn in E. unfold parse_vp9 in E. apply res_bind_ok in E as (v & E & [= <-]).
  rewrite vp9_parse_eq in E by done. destruct (p_vp9 (slice payload 0 len)) as [[f r]|] eqn:Ep; [|done]. injection E as <-.
  apply p_vp9_sound in Ep as [_ (_ & W & _)]; [|by apply bytes_ok_slice]. unfold view_vp9, desc_ok.
  destruct (f9_layers f) as [[[[[tid u] sid] dd] tl0]|]; cbn in *; lia.
Qed.

(** * Properties *)

(** C35: The two descriptor parsers never read outside the payload, and accept
    exactly the descriptors of the two formats: a payload parses if and only
    if it starts with the encoding of well-formed fields, and then the result
    is those fields with the length of the encoding (for VP8 also whether the
    byte behind it starts a keyframe). *)
Theorem descriptor_parsers_exact payload len :
  0 <= len <= zlen payload -> bytes_ok payload ->
  sfu_parse_vp9_descriptor payload len <> Fault /\ sfu_parse_vp8_descriptor payload len <> Fault /\
  (forall d, sfu_parse_vp9_descriptor payload len = Ok d <->
     exists f rest, wf_vp9 f /\ slice payload 0 len = enc_vp9 f ++ rest /\ d = view_vp9 f) /\
  (forall d, sfu_parse_vp8_descriptor payload len = Ok d <->
     exists f rest, wf_vp8 f /\ slice payload 0 len = enc_vp8 f ++ rest /\ d = view_vp8 f rest).
Proof.
  intros Hlen Hb. rewrite (vp9_parse_eq _ _ Hlen Hb), (vp8_parse_eq _ _ Hlen Hb). pose proof (bytes_ok_slice payload 0 len Hb) as Hl. split_and!.
  - by destruct (p_vp9 _) as [[f r]|].
  - by destruct (p_vp8 _) as [[f r]|].
  - intros d. split.
    + destruct (p_vp9 _) as [[f r]|] eqn:E; [|done]. intros [= <-]. apply p_vp9_sound in E as [E W]; [|done]. by exists f, r.
    + intros (f & r & W & -> & ->). by rewrite p_vp9_complete.
  - intros d. split.
    + destruct (p_vp8 _) as [[f r]|] eqn:E; [|done]. intros [= <-]. apply p_vp8_sound in E as [E W]; [|done]. by exists f, r.
    + intros (f & r & W & -> & ->). by rewrite p_vp8_complete.
Qed.

(** A VP9 packet with all parts: long picture id, layers, two reference
    differences, and a structure with one size and one picture group. *)
Definition ex_vp9 : vp9_fields :=
  mk_vp9_fields true true true false true (Some (true, 4660)) (Some (1, 1, 2, 0, 0)) [3; 5]
    (Some (mk_structure 0 0 (Some [1; 64; 0; 240]) (Some [(4, [7])]))).
Lemma descriptor_parsers_exact_witness :
  sfu_parse_vp9_descriptor (enc_vp9 ex_vp9 ++ [9; 9]) 16 = Ok (view_vp9 ex_vp9).
Proof.
  destruct (descriptor_parsers_exact (enc_vp9 ex_vp9 ++ [9; 9]) 16) as (_ & _ & H & _).
  - vm_compute. split; discriminate.
  - apply bytes_okb_ok. vm_compute. reflexivity.
  - apply H. exists ex_vp9, [9; 9]. split; [|split; vm_compute; reflexivity]. vm_compute. repeat split; try discriminate; repeat constructor; discriminate.
Defined.
