(* ===== verification/Egress.v ===== *)
(** The egress of one subscriber, [src/pipeline/egress.c]: a forwarded packet
    is judged by the layer scheduler of its stream, renumbered, given the
    subscriber's header extensions, encrypted, charged to the pacer, and
    queued or sent; a packet that fails on the way gives everything back. *)

From S2P Require Import Prelude NetBytes RtpPacket RtpExt Rtx Pacer SeqTranslate TwccHistory Ring PacedSend LayerScheduler.
Local Open Scope Z_scope.

Definition SFU_PACED_SEND_SCREEN_MAX_DELAY_US : Z := 750000.
Definition SFU_PACED_SEND_CAMERA_MAX_DELAY_US : Z := 200000.
Definition SFU_REMOTE_MID_BASE : Z := 3.
Definition SFU_REMOTE_TRANSCEIVERS_PER_SLOT : Z := 3.

(** [em_publisher] is the peer id of the publishing session, if there is one. *)
Record sfu_egress_media := mk_media {
  em_publisher : option Z;
  em_svc : sfu_svc_descriptor;
  em_source : sfu_media_kind;
  em_video_ssrc : Z;
  em_video_rtx_ssrc : Z;
  em_assignment_generation : Z;
  em_remote_slot : Z;
  em_video_pt : Z;
  em_video_rtx_pt : Z;
  em_has_video : bool;
  em_is_audio : bool;
  em_has_svc : bool;
  em_is_keyframe : bool
}.

(** What the egress reads and writes of the subscriber's session; [es_out]
    are the datagrams sent at once, [es_requests] the keyframes asked for. *)
Record egress_session := mk_egress {
  es_send : send_session;
  es_translator : seq_translator;
  es_screen : list sfu_paced_send;
  es_camera : list sfu_paced_send;
  es_schedulers : list sfu_layer_scheduler_slot;
  es_generation : Z;
  es_next_twcc_seq : Z;
  es_mid_extmap_id : Z;
  es_twcc_extmap_id : Z;
  es_out : list datagram;
  es_requests : list (Z * sfu_media_kind)
}.
#[export] Instance eta_egress : Eta egress_session := fun s =>
  mk_egress (es_send s) (es_translator s) (es_screen s) (es_camera s) (es_schedulers s) (es_generation s) (es_next_twcc_seq s)
    (es_mid_extmap_id s) (es_twcc_extmap_id s) (es_out s) (es_requests s).

Definition es_pacer (st : egress_session) : sfu_pacer := ss_pacer (es_send st).
Definition set_es_pacer (st : egress_session) (p : sfu_pacer) : egress_session := st <| es_send ::= fun s => s <| ss_pacer := p |> |>.
Definition request_keyframe (st : egress_session) (peer : Z) (source : sfu_media_kind) : egress_session :=
  st <| es_requests ::= fun l => l ++ [(peer, source)] |>.

(** ** The media queue of a packet *)

Definition screen_packet (m : sfu_egress_media) : bool := is_screen (em_source m) && em_has_video m && negb (em_is_audio m).
Definition camera_packet (m : sfu_egress_media) : bool :=
  bool_decide (em_source m = MEDIA_VIDEO) && em_has_video m && negb (em_is_audio m).
(** Screen or camera, and the remote slot. *)
Definition queue_key : Type := bool * nat.
Definition select_queue (m : sfu_egress_media) : option queue_key :=
  if em_remote_slot m <? SFU_MAX_REMOTE_SLOTS then
    if screen_packet m then Some (true, Z.to_nat (em_remote_slot m))
    else if camera_packet m then Some (false, Z.to_nat (em_remote_slot m)) else None
  else None.
Definition queue_at (st : egress_session) (k : queue_key) : sfu_paced_send :=
  nth k.2 (if k.1 then es_screen st else es_camera st) sfu_paced_send_init.
Definition put_queue (st : egress_session) (k : queue_key) (q : sfu_paced_send) (p : sfu_pacer) : egress_session :=
  let st := set_es_pacer st p in
  if k.1 then st <| es_screen ::= <[k.2 := q]> |> else st <| es_camera ::= <[k.2 := q]> |>.

(** ** Invalidation of schedulers *)

Definition schedulers_ready (st : egress_session) : bool := ss_video_ready (es_send st) && negb (bool_decide (es_schedulers st = [])).
Definition invalidate_slot (source : sfu_media_kind) (publisher_peer_id : Z) (x : sfu_layer_scheduler_slot) : sfu_layer_scheduler_slot :=
  if (slot_publisher_id x =? 0) || negb (u8 (slot_publisher_id x) =? kind_value source) then x
  else if negb (publisher_peer_id =? 0) && negb (u32 (Z.shiftr (slot_publisher_id x) 8) =? publisher_peer_id) then x
  else x <| slot_sched ::= sfu_egress_reset_scheduler_for_keyframe |>.
Definition sfu_egress_invalidate_publisher_scheduler (st : egress_session) (source : sfu_media_kind) (publisher_peer_id : Z)
  : egress_session :=
  if negb (schedulers_ready st) then st else st <| es_schedulers ::= map (invalidate_slot source publisher_peer_id) |>.

Fixpoint invalidate_each (st : egress_session) (source : sfu_media_kind) (ids : list Z) : egress_session :=
  match ids with
  | [] => st
  | id :: ids => invalidate_each (sfu_egress_invalidate_publisher_scheduler st source id) source ids
  end.
Definition publisher_id (m : sfu_egress_media) : Z := match em_publisher m with Some p => p | None => 0 end.
Definition sfu_egress_invalidate_backlog_drops (st : egress_session) (source : sfu_media_kind) (report : sfu_paced_send_drop_report)
    (m : sfu_egress_media) : egress_session :=
  if (dr_frames report =? 0) || bool_decide (dr_publisher_peer_ids report = []) then st else
  let st := if dr_truncated report then sfu_egress_invalidate_publisher_scheduler st source 0
            else invalidate_each st source (dr_publisher_peer_ids report) in
  if publisher_id m =? 0 then st else request_keyframe st (publisher_id m) source.

(** Numbers given back to the renumbering of a stream; an unknown stream is
    left alone. *)
Definition give_back (st : egress_session) (ssrc count : Z) : egress_session :=
  match sfu_rtp_seq_translator_rollback (es_translator st) ssrc count with
  | Ok t => st <| es_translator := t |>
  | _ => st
  end.

Definition sfu_egress_invalidate_rolled_back_frame (st : egress_session) (source : sfu_media_kind) (k : queue_key)
    (m : sfu_egress_media) : egress_session :=
  let q := queue_at st k in
  if (q_rolled_back_publisher_peer_id q =? 0) && (q_rolled_back_packet_count q =? 0) then st else
  let publisher_peer_id := q_rolled_back_publisher_peer_id q in
  let media_ssrc := q_rolled_back_media_ssrc q in
  let packet_count := q_rolled_back_packet_count q in
  let q := q <| q_rolled_back_publisher_peer_id := 0 |> <| q_rolled_back_media_ssrc := 0 |> <| q_rolled_back_packet_count := 0 |> in
  let st := put_queue st k q (es_pacer st) in
  let st := if negb (media_ssrc =? 0) && (0 <? packet_count) then give_back st media_ssrc packet_count else st in
  let publisher_peer_id := if publisher_peer_id =? 0 then publisher_id m else publisher_peer_id in
  let st := if negb (publisher_peer_id =? 0) then sfu_egress_invalidate_publisher_scheduler st source publisher_peer_id else st in
  match em_publisher m with
  | Some p => if (publisher_peer_id =? 0) || (p =? publisher_peer_id) then request_keyframe st p source else st
  | None => st
  end.

(** The frame a packet of which failed is rolled back and refused. *)
Definition abandon_frame (st : egress_session) (m : sfu_egress_media) : egress_session :=
  match select_queue m with
  | None => st
  | Some k =>
      let '(q, p) := sfu_paced_send_rollback_input_frame (queue_at st k) (es_pacer st) in
      let st := put_queue st k (sfu_paced_send_reject_input_frame q) p in
      sfu_egress_invalidate_rolled_back_frame st (em_source m) k m
  end.

(** The publisher is asked for a keyframe and its schedulers wait for it. *)
Definition refresh_publisher (st : egress_session) (m : sfu_egress_media) : egress_session :=
  if publisher_id m =? 0 then st else
  request_keyframe (sfu_egress_invalidate_publisher_scheduler st (em_source m) (publisher_id m)) (publisher_id m) (em_source m).

(** ** Admission *)

(** What is known of a packet once it is admitted. *)
Record admitted_packet := mk_admitted { ap_data : list Z; ap_queue : option queue_key; ap_marker : bool }.
(** [inl] returns [false] to the caller. *)
Definition local_result (A : Type) : Type := (egress_session * sfu_paced_send_drop_report) + (egress_session * sfu_paced_send_drop_report * A).

Definition trim_screen_backlog (st : egress_session) (m : sfu_egress_media) (now_us : Z) (report : sfu_paced_send_drop_report)
  : bool * egress_session * sfu_paced_send_drop_report :=
  match select_queue m with
  | Some k =>
      if screen_packet m && negb (q_input_frame_active (queue_at st k)) then
        let '(under_delay, q, p, report) :=
          sfu_paced_send_bound_backlog (queue_at st k) (es_pacer st) SFU_PACED_SEND_SCREEN_MAX_DELAY_US now_us report in
        (under_delay || em_is_keyframe m, put_queue st k q p, report)
      else (true, st, report)
  | None => (true, st, report)
  end.
Definition admit_packet (st : egress_session) (m : sfu_egress_media) (timestamp : Z) (marker : bool) (now_us : Z) : bool * egress_session :=
  match select_queue m with
  | Some k =>
      let '(admitted, q, p) :=
        sfu_paced_send_admit_frame_packet (queue_at st k) (es_pacer st) timestamp marker (em_is_keyframe m) (camera_packet m)
          (if camera_packet m then SFU_PACED_SEND_CAMERA_MAX_DELAY_US else SFU_PACED_SEND_SCREEN_MAX_DELAY_US) now_us in
      (admitted, sfu_egress_invalidate_rolled_back_frame (put_queue st k q p) (em_source m) k m)
  | None => (true, st)
  end.

Definition local_admit (st : egress_session) (data : list Z) (len : Z) (m : sfu_egress_media) (set_marker : option bool) (now_us : Z)
    (report : sfu_paced_send_drop_report) : res (local_result admitted_packet) :=
  if negb (sfu_session_remote_slot_authorized (es_send st) (em_remote_slot m) (em_assignment_generation m)) then Ok (inl (st, report)) else
  let! d1 := rd data 1 in
  let! data := if negb (em_is_audio m) && em_has_video m && negb (em_video_pt m =? 0) && negb (Z.land d1 0x7f =? em_video_pt m)
               then wr data 1 (Z.lor (Z.land d1 0x80) (Z.land (em_video_pt m) 0x7f)) else Ok data in
  if len <? 12 then Ok (inl (st, report)) else
  let! timestamp := sfu_read_be32 data 4 in
  let! d1 := rd data 1 in
  let marker := match set_marker with Some b => b | None => negb (Z.land d1 0x80 =? 0) end in
  let '(go, st, report) := trim_screen_backlog st m now_us report in
  if negb go then Ok (inl (refresh_publisher st m, report)) else
  let '(admitted, st) := admit_packet st m timestamp marker now_us in
  if admitted then Ok (inr (st, report, mk_admitted data (select_queue m) marker))
  else Ok (inl (if em_has_video m && negb (em_is_audio m) then refresh_publisher st m else st, report)).

(** ** Rewriting *)

Definition sfu_remote_slot_first_mid (slot : Z) : Z := u32 (SFU_REMOTE_MID_BASE + u32 (slot * SFU_REMOTE_TRANSCEIVERS_PER_SLOT)).
Definition media_mid (m : sfu_egress_media) : Z :=
  u32 (sfu_remote_slot_first_mid (em_remote_slot m) + if em_is_audio m then 0 else if is_screen (em_source m) then 2 else 1).
(** Decimal digits, as [snprintf] prints them; ten are enough for 32 bits. *)
Fixpoint decimal (fuel : nat) (n : Z) : list Z :=
  match fuel with
  | O => []
  | S fuel => if n <? 10 then [48 + n] else decimal fuel (n / 10) ++ [48 + n mod 10]
  end.
Definition mid_text (mid : Z) : list Z :=
  if mid <? 10 then [48 + mid] else if mid <? 100 then [48 + mid / 10; 48 + mid mod 10] else decimal 10 mid.

(** The packet after rewriting, with what the queue entry needs. *)
Record rewritten := mk_rewritten {
  rw_data : list Z;
  rw_len : Z;
  rw_ssrc : Z;
  rw_seq : Z;
  rw_rtx_plaintext : list Z;
  rw_rtx_len : Z;
  rw_cache_rtx : bool;
  rw_twcc_seq : Z;
  rw_twcc_written : bool
}.
(** A failure after renumbering: the number and the frame are given back. *)
Definition fail_packet (st : egress_session) (m : sfu_egress_media) (ssrc : Z) : egress_session :=
  abandon_frame (give_back st ssrc 1) m.

(** Sequence number, marker and MID; [None] when one of them fails. *)
Definition rewrite_header (data : list Z) (len cap : Z) (m : sfu_egress_media) (set_marker : option bool) (mid_id seq : Z)
  : res (option (list Z * Z)) :=
  match sfu_rtp_packet_set_seq data len seq with
  | Fault => Fault
  | Err => Ok None
  | Ok data =>
      match match set_marker with Some b => sfu_rtp_packet_set_marker data len b | None => Ok data end with
      | Fault => Fault
      | Err => Ok None
      | Ok data =>
          if mid_id =? 0 then Ok (Some (data, len)) else
          let! r := sfu_rtp_ext_write_mid data len cap mid_id (mid_text (media_mid m)) in
          match r with (Some len, data) => Ok (Some (data, len)) | (None, _) => Ok None end
      end
  end.

(** The copy kept for retransmission: what fits of the array, and its length. *)
Definition keep_plaintext (cache : bool) (data : list Z) (len : Z) : res (list Z * Z) :=
  if cache && (0 <? len) && (len <=? SFU_PACED_SEND_MAX_PAYLOAD) then
    let! bytes := rd_n data 0 len in Ok (patch (zeros SFU_PACED_SEND_MAX_PAYLOAD) 0 bytes, len)
  else Ok (zeros SFU_PACED_SEND_MAX_PAYLOAD, 0).
(** A packet that is not queued is cached at once. *)
Definition cache_now (st : egress_session) (m : sfu_egress_media) (seq : Z) (data : list Z) (len : Z) : res egress_session :=
  match ss_rtx_cache (es_send st) with
  | Some c =>
      let! bytes := rd_n data 0 len in
      let! c := sfu_rtx_cache_put_stream c seq bytes (u32 len) (em_video_rtx_ssrc m) (em_video_rtx_pt m) (em_video_ssrc m) (es_generation st) in
      Ok (st <| es_send ::= fun s => s <| ss_rtx_cache := Some c |> |>)
  | None => Ok st
  end.
(** The transport-wide sequence number: number, written, data and length. *)
Definition stamp_twcc (st : egress_session) (data : list Z) (len cap : Z) : res (egress_session * Z * bool * list Z * Z) :=
  if es_twcc_extmap_id st =? 0 then Ok (st, 0, false, data, len) else
  let seq := es_next_twcc_seq st in
  let st := st <| es_next_twcc_seq := u16 (seq + 1) |> in
  match sfu_rtp_ext_write_twcc data len cap (es_twcc_extmap_id st) seq with
  | Ok (data, len) => Ok (st, seq, true, data, len)
  | Err => Ok (st, seq, false, data, len)
  | Fault => Fault
  end.

(** [protect] is what SRTP makes of the packet: [None] for an error. *)
Definition local_rewrite (st : egress_session) (a : admitted_packet) (len cap : Z) (m : sfu_egress_media) (set_marker : option bool)
    (protect : list Z -> Z -> Z -> option (list Z * Z)) : res (egress_session + egress_session * rewritten) :=
  let! source_seq := sfu_read_be16 (ap_data a) 2 in
  let! ssrc := sfu_read_be32 (ap_data a) 8 in
  match sfu_rtp_seq_translate (es_translator st) ssrc source_seq with
  | Fault => Fault
  | Err => Ok (inl st)
  | Ok (seq, t) =>
      let st := st <| es_translator := t |> in
      let! header := rewrite_header (ap_data a) len cap m set_marker (es_mid_extmap_id st) seq in
      match header with
      | None => Ok (inl (fail_packet st m ssrc))
      | Some (data, len) =>
          let cache := em_has_video m && negb (em_is_audio m) && ss_video_ready (es_send st) &&
                       match ss_rtx_cache (es_send st) with Some _ => true | None => false end in
          let! plain := keep_plaintext cache data len in
          let! st := if cache && bool_decide (ap_queue a = None) then cache_now st m seq data len else Ok st in
          let! stamped := stamp_twcc st data len cap in
          let '(st, twcc_seq, written, data, len) := stamped in
          match protect data len cap with
          | None => Ok (inl (fail_packet st m ssrc))
          | Some (data, len) => Ok (inr (st, mk_rewritten data len ssrc seq plain.1 plain.2 cache twcc_seq written))
          end
      end
  end.

(** ** Sending *)

Definition entry_metadata (st : egress_session) (m : sfu_egress_media) (r : rewritten) (q : sfu_paced_send) : sfu_paced_send_metadata :=
  mk_metadata (em_assignment_generation m) (ss_owner_value (es_send st)) (ss_transport_generation (es_send st))
    (ss_address_generation (es_send st)) (em_remote_slot m) (publisher_id m) (rw_twcc_seq r) (rw_seq r) (em_video_ssrc m)
    (em_video_rtx_ssrc m) (es_generation st) (em_video_rtx_pt m) (rw_twcc_written r) (rw_cache_rtx r && (0 <? rw_rtx_len r)) false
    (em_is_keyframe m || q_input_frame_is_keyframe q).

Definition queue_packet (st : egress_session) (k : queue_key) (m : sfu_egress_media) (r : rewritten) (cls : sfu_pacer_class)
    (reservation : sfu_pacer_reservation) (marker : bool) (dst : list Z) (dst_len now_us : Z) (alloc : bool)
    (report : sfu_paced_send_drop_report) : bool * egress_session * sfu_paced_send_drop_report :=
  let q := queue_at st k in
  let refused := (false, q, reservation) in
  let '(ok, q, reservation) :=
    if (rw_len r <=? 0) || (SFU_PACED_SEND_MAX_PAYLOAD <? rw_len r) then refused else
    sfu_paced_send_enqueue q (rw_data r) (u16 (rw_len r)) (rw_rtx_plaintext r) (rw_rtx_len r) dst dst_len (Z.of_nat (class_index cls))
      (pacing_bps (es_pacer st)) reservation (entry_metadata st m r q) now_us alloc in
  let st := put_queue st k q (es_pacer st) in
  if negb ok then
    let st := set_es_pacer st (sfu_pacer_cancel (es_pacer st) reservation).1 in
    (false, fail_packet st m (rw_ssrc r), report)
  else if marker then
    let st := put_queue st k (sfu_paced_send_finish_input_frame (queue_at st k)) (es_pacer st) in
    if screen_packet m then
      let '(_, q, p, report) :=
        sfu_paced_send_bound_backlog (queue_at st k) (es_pacer st) SFU_PACED_SEND_SCREEN_MAX_DELAY_US now_us report in
      (true, put_queue st k q p, report)
    else (true, st, report)
  else (true, st, report).

Definition send_now (st : egress_session) (m : sfu_egress_media) (r : rewritten) (reservation : sfu_pacer_reservation) (dst : list Z)
    (now_us : Z) (net_ok : bool) : bool * egress_session :=
  if negb net_ok then
    let st := set_es_pacer st (sfu_pacer_cancel (es_pacer st) reservation).1 in (false, give_back st (rw_ssrc r) 1)
  else
    let st := set_es_pacer st (sfu_pacer_commit (es_pacer st) reservation).1 in
    let st := st <| es_out ::= fun l => l ++ [(slice (rw_data r) 0 (rw_len r), dst)] |> in
    let st := if rw_twcc_written r && ss_video_ready (es_send st)
              then st <| es_send ::= fun s => s <| ss_twcc_history ::=
                     option_map (fun h => sfu_twcc_history_record h (rw_twcc_seq r) now_us (u32 (rw_len r))) |> |>
              else st in
    (true, st).

Definition local_send (st : egress_session) (a : admitted_packet) (r : rewritten) (m : sfu_egress_media) (cls : sfu_pacer_class)
    (allow_congestion_drop : bool) (dst : list Z) (dst_len now_us : Z) (alloc net_ok : bool) (report : sfu_paced_send_drop_report)
  : bool * egress_session * sfu_paced_send_drop_report :=
  let '(ok, p, reservation) := sfu_pacer_reserve (es_pacer st) cls (u32 (rw_len r)) allow_congestion_drop now_us no_reservation in
  let st := set_es_pacer st p in
  if negb ok then (false, fail_packet st m (rw_ssrc r), report) else
  match ap_queue a with
  | Some k => queue_packet st k m r cls reservation (ap_marker a) dst dst_len now_us alloc report
  | None => let '(ok, st) := send_now st m r reservation dst now_us net_ok in (ok, st, report)
  end.

(** ** The whole path *)

(** The packet as handed in: buffer, length and capacity; what the outside
    world answers: SRTP, the network, the allocation of a queue, the clock. *)
Record packet_in := mk_packet_in { pi_data : list Z; pi_len : Z; pi_cap : Z }.
Record outside := mk_outside {
  ow_protect : list Z -> Z -> Z -> option (list Z * Z);
  ow_net_ok : bool;
  ow_alloc : bool;
  ow_now_us : Z
}.
Definition local_class (m : sfu_egress_media) (video_class : sfu_pacer_class) : sfu_pacer_class :=
  if em_is_audio m then CLASS_AUDIO else if em_has_video m then video_class else CLASS_VIDEO_BASE.
Definition sfu_egress_process_local (st : egress_session) (pkt : packet_in) (dst : list Z) (dst_len : Z) (m : sfu_egress_media)
    (video_class : sfu_pacer_class) (decision : option sfu_layer_scheduler_decision) (w : outside) (report : sfu_paced_send_drop_report)
  : res (bool * egress_session * sfu_paced_send_drop_report) :=
  let set_marker := option_map ld_set_marker decision in
  let! r := local_admit st (pi_data pkt) (pi_len pkt) m set_marker (ow_now_us w) report in
  match r with
  | inl (st, report) => Ok (false, st, report)
  | inr (st, report, a) =>
      let! r := local_rewrite st a (pi_len pkt) (pi_cap pkt) m set_marker (ow_protect w) in
      match r with
      | inl st => Ok (false, st, report)
      | inr (st, r) =>
          let allow_drop := camera_packet m && match decision with Some o => ld_pacer_frame_start o | None => false end in
          Ok (local_send st a r m (local_class m video_class) allow_drop dst dst_len (ow_now_us w) (ow_alloc w) (ow_net_ok w) report)
      end
  end.

Definition set_sched (st : egress_session) (i : nat) (s : sfu_layer_scheduler) : egress_session :=
  st <| es_schedulers ::= alter (fun x => x <| slot_sched := s |>) i |>.
Definition sched_at (st : egress_session) (i : nat) : sfu_layer_scheduler := slot_sched (slot_at (es_schedulers st) i).
Definition ask_if_needed (st : egress_session) (i : nat) (m : sfu_egress_media) : egress_session :=
  if ls_needs_keyframe (sched_at st i) && negb (publisher_id m =? 0) then request_keyframe st (publisher_id m) (em_source m) else st.
Definition sfu_egress_handle_scheduler_rejection (st : egress_session) (i : nat) (o : sfu_layer_scheduler_decision) (m : sfu_egress_media)
  : egress_session :=
  let st := set_sched st i (sfu_layer_scheduler_reject_packet (sched_at st i) o) in
  ask_if_needed (abandon_frame st m) i m.

(** The judgement of the layer scheduler: [inl] drops the packet, otherwise
    the slot and the decision when the stream has layers, and the class. *)
Definition schedule_packet (st : egress_session) (m : sfu_egress_media)
  : egress_session + egress_session * option (nat * sfu_layer_scheduler_decision) * sfu_pacer_class :=
  if em_has_svc m && em_has_video m && negb (em_is_audio m) && negb (publisher_id m =? 0) then
    match sfu_layer_scheduler_for_stream (schedulers_ready st) (es_schedulers st) (publisher_id m) (em_source m) with
    | (None, table) => inl (st <| es_schedulers := table |>)
    | (Some i, table) =>
        let st := st <| es_schedulers := table |> in
        let s := sched_at st i in
        let st := if ls_needs_keyframe s || (ls_current_sid s <? ls_target_sid s)
                  then request_keyframe st (publisher_id m) (em_source m) else st in
        let '(ok, s, o) := sfu_layer_scheduler_prepare_packet s (em_svc m) (em_is_keyframe m) in
        let st := set_sched st i s in
        if ok then inr (st, Some (i, o), ld_pacer_class o) else inl (sfu_egress_handle_scheduler_rejection st i o m)
    end
  else inr (st, None, CLASS_VIDEO_BASE).
(** The end of a packet for the scheduler. *)
Definition finish_packet (st : egress_session) (d : option (nat * sfu_layer_scheduler_decision)) (admitted : bool) (m : sfu_egress_media)
    (report : sfu_paced_send_drop_report) : egress_session :=
  let st := match d with
            | None => st
            | Some (i, o) =>
                if admitted then set_sched st i (sfu_layer_scheduler_commit_packet (sched_at st i) o)
                else ask_if_needed (set_sched st i (sfu_layer_scheduler_reject_packet (sched_at st i) o)) i m
            end in
  sfu_egress_invalidate_backlog_drops st (em_source m) report m.

Definition process_scheduled (st : egress_session) (d : option (nat * sfu_layer_scheduler_decision)) (cls : sfu_pacer_class)
    (pkt : packet_in) (dst : list Z) (dst_len : Z) (m : sfu_egress_media) (w : outside) : res (bool * egress_session) :=
  let! r := sfu_egress_process_local st pkt dst dst_len m cls (option_map snd d) w sfu_paced_send_drop_report_init in
  let '(admitted, st, report) := r in
  Ok (admitted, finish_packet st d admitted m report).

(** [owned]: the worker owns the session. *)
Definition sfu_egress_process (st : egress_session) (owned : bool) (pkt : packet_in) (dst : list Z) (dst_len : Z) (m : sfu_egress_media)
    (w : outside) : res (bool * egress_session) :=
  if negb owned then Ok (false, st) else
  match schedule_packet st m with
  | inl st => Ok (false, st)
  | inr (st, d, cls) => process_scheduled st d cls pkt dst dst_len m w
  end.

(** The buffer a plaintext is copied to: the reserved one, with whether it is
    of the arena, or else one of the arena or of the pool; one of the arena
    that is too small is exchanged for one of the pool.  The arguments are
    the old bytes of the buffers the two allocators would give. *)
Definition choose_output (len : Z) (reserved : option (bool * list Z)) (arena pool : option (list Z)) : option (list Z) :=
  let output := match reserved with
                | Some b => Some b
                | None => match arena with Some b => Some (true, b) | None => option_map (pair false) pool end
                end in
  match output with
  | Some (true, b) => if zlen b <? len then pool else Some b
  | Some (false, b) => Some b
  | None => None
  end.
(** [memcpy] of the plaintext to the front of the buffer. *)
Definition copied (plain old : list Z) : packet_in := mk_packet_in (plain ++ skipn (length plain) old) (zlen plain) (zlen old).
Definition sfu_egress_process_plaintext_output (st : egress_session) (owned : bool) (plain : list Z) (reserved : option (bool * list Z))
    (arena pool : option (list Z)) (dst : list Z) (dst_len : Z) (m : sfu_egress_media) (w : outside) : res (bool * egress_session) :=
  if negb owned || negb (ss_accepts_work (es_send st)) then Ok (false, st) else
  match schedule_packet st m with
  | inl st => Ok (false, st)
  | inr (st, d, cls) =>
      let failed := Ok (false, match d with Some (i, o) => sfu_egress_handle_scheduler_rejection st i o m | None => st end) in
      match choose_output (zlen plain) reserved arena pool with
      | Some b => if zlen b <? zlen plain then failed else process_scheduled st d cls (copied plain b) dst dst_len m w
      | None => failed
      end
  end.
Definition sfu_egress_process_plaintext (st : egress_session) (owned : bool) (plain : list Z) (arena pool : option (list Z)) (dst : list Z)
    (dst_len : Z) (m : sfu_egress_media) (w : outside) : res (bool * egress_session) :=
  sfu_egress_process_plaintext_output st owned plain None arena pool dst dst_len m w.
Definition sfu_egress_process_plaintext_reserved (st : egress_session) (owned : bool) (plain : list Z) (output : bool * list Z)
    (arena pool : option (list Z)) (dst : list Z) (dst_len : Z) (m : sfu_egress_media) (w : outside) : res (bool * egress_session) :=
  sfu_egress_process_plaintext_output st owned plain (Some output) arena pool dst dst_len m w.

(** ** The drain of one media queue, as the worker loop calls it *)

Definition drain_slot (st : egress_session) (k : queue_key) (now_us : Z) (ios : list send_io) : res (bool * egress_session) :=
  if q_count (queue_at st k) =? 0 then Ok (false, st) else
  let! r := sfu_paced_send_drain (queue_at st k) (es_send st) now_us ios SFU_PACED_SEND_MAX_DRAIN_PER_SCAN in
  let '(worked, q, send, out, _) := r in
  let st := st <| es_send := send |> <| es_out ::= fun l => l ++ out |> in
  Ok (worked, put_queue st k q (ss_pacer send)).

(** * Resources *)

Definition queue_ok (q : sfu_paced_send) : Prop := paced_inv q /\ Forall entry_bytes (contents q).
Definition total_held (l : list sfu_paced_send) : Z := foldr (fun q n => queue_held (contents q) + n) 0 l.
Definition queues_held (st : egress_session) : Z := total_held (es_screen st) + total_held (es_camera st).

(** Between calls the pacer holds exactly the reservations of the queued
    packets; within a call also [x] bytes of the packet at hand. *)
Record egress_inv (st : egress_session) (x : Z) : Prop := {
  ei_screen : zlen (es_screen st) = SFU_MAX_REMOTE_SLOTS /\ Forall queue_ok (es_screen st);
  ei_camera : zlen (es_camera st) = SFU_MAX_REMOTE_SLOTS /\ Forall queue_ok (es_camera st);
  ei_cache : cache_ok (es_send st);
  ei_held : reserved_bytes (es_pacer st) = queues_held st + x;
  ei_numbers : exists m, represents (es_translator st) m;
  ei_ids : is_u8 (es_mid_extmap_id st) /\ is_u16 (es_next_twcc_seq st)
}.

(** Everything the invariant speaks about. *)
Definition resources (st : egress_session) := (es_screen st, es_camera st, es_send st, es_translator st, es_mid_extmap_id st, es_next_twcc_seq st).
Lemma egress_inv_same st st' x : resources st' = resources st -> egress_inv st x -> egress_inv st' x.
Proof.
  intros [= E1 E2 E3 E4 E5 E6] [H1 H2 H3 H4 H5 H6]. constructor; unfold es_pacer, queues_held in *; rewrite ?E1, ?E2, ?E3, ?E4, ?E5, ?E6; done.
Qed.

Definition valid_key (k : queue_key) : Prop := (k.2 < Z.to_nat SFU_MAX_REMOTE_SLOTS)%nat.
Lemma select_queue_valid m k : select_queue m = Some k -> valid_key k.
Proof.
  unfold select_queue, valid_key. destruct (Z.ltb_spec (em_remote_slot m) SFU_MAX_REMOTE_SLOTS); [|done].
  unfold SFU_MAX_REMOTE_SLOTS in *. destruct (screen_packet m); [intros [= <-]; cbn; lia|].
  destruct (camera_packet m); [|done]. intros [= <-]. cbn. lia.
Qed.

Lemma total_held_insert l i q : (i < length l)%nat ->
  total_held (<[i := q]> l) = total_held l - queue_held (contents (nth i l sfu_paced_send_init)) + queue_held (contents q).
Proof.
  revert i. induction l as [|x l IH]; intros i Hi; [cbn in Hi; lia|]. destruct i as [|i]; cbn [list_insert insert nth].
  - change (queue_held (contents q) + total_held l = queue_held (contents x) + total_held l - queue_held (contents x) + queue_held (contents q)). lia.
  - change (queue_held (contents x) + total_held (<[i := q]> l) =
      queue_held (contents x) + total_held l - queue_held (contents (nth i l sfu_paced_send_init)) + queue_held (contents q)).
    rewrite IH by (cbn in Hi; lia). lia.
Qed.
Lemma Forall_insert_at {A} (P : A -> Prop) l i x : Forall P l -> P x -> Forall P (<[i := x]> l).
Proof. intros. by apply Forall_insert. Qed.

Lemma queue_at_ok st x k : egress_inv st x -> valid_key k -> queue_ok (queue_at st k).
Proof.
  intros [[L1 F1] [L2 F2] _ _ _ _] Hk. unfold valid_key in Hk. unfold queue_at, zlen in *.
  unfold SFU_MAX_REMOTE_SLOTS in *. destruct k as [[|] i]; cbn [fst snd] in *.
  - apply (proj1 (List.Forall_nth queue_ok (es_screen st)) F1). lia.
  - apply (proj1 (List.Forall_nth queue_ok (es_camera st)) F2). lia.
Qed.
Lemma queue_at_put st k q p : valid_key k -> zlen (es_screen st) = SFU_MAX_REMOTE_SLOTS -> zlen (es_camera st) = SFU_MAX_REMOTE_SLOTS ->
  queue_at (put_queue st k q p) k = q.
Proof.
  intros Hk L1 L2. unfold valid_key, zlen, SFU_MAX_REMOTE_SLOTS in *. unfold queue_at, put_queue. destruct k as [[|] i]; cbn in *;
    rewrite nth_lookup, list_lookup_insert_eq by lia; done.
Qed.

Lemma put_queue_inv st x k q p y :
  egress_inv st x -> valid_key k -> queue_ok q ->
  reserved_bytes p - queue_held (contents q) - y = reserved_bytes (es_pacer st) - queue_held (contents (queue_at st k)) - x ->
  egress_inv (put_queue st k q p) y.
Proof.
  intros [[L1 F1] [L2 F2] Hc Hh Hn Hi] Hk Hq Hr. unfold valid_key, zlen, SFU_MAX_REMOTE_SLOTS in *.
  unfold queues_held in Hh. destruct k as [[|] i]; unfold queue_at in Hr; cbn [fst snd] in *.
  - constructor; try done.
    + split; [change (zlen (<[i := q]> (es_screen st)) = SFU_MAX_REMOTE_SLOTS); unfold zlen; rewrite length_insert; exact L1|].
      by apply Forall_insert_at.
    + change (reserved_bytes p = total_held (<[i := q]> (es_screen st)) + total_held (es_camera st) + y).
      rewrite total_held_insert by lia. lia.
  - constructor; try done.
    + split; [change (zlen (<[i := q]> (es_camera st)) = SFU_MAX_REMOTE_SLOTS); unfold zlen; rewrite length_insert; exact L2|].
      by apply Forall_insert_at.
    + change (reserved_bytes p = total_held (es_screen st) + total_held (<[i := q]> (es_camera st)) + y).
      rewrite total_held_insert by lia. lia.
Qed.

(** One operation on a media queue, with a reservation [r] at hand. *)
Definition slot_state (st : egress_session) (k : queue_key) (r : sfu_pacer_reservation) : paced_state :=
  mk_paced_state (queue_at st k) (es_send st) r (reserved_bytes (es_pacer st) - held r - queue_held (contents (queue_at st k))).
Lemma queue_step st x k r op q' p' r' :
  egress_inv st x -> valid_key k -> paced_exec (slot_state st k r) op = Some (with_pacer (slot_state st k r) q' p' r') ->
  queue_ok q' /\ egress_inv (put_queue st k q' p') (x - held r + held r').
Proof.
  intros Hst Hk E. destruct (queue_at_ok st x k Hst Hk) as [Hi Hb].
  assert (Hok : paced_state_ok (slot_state st k r)).
  { constructor; [exact Hi|exact Hb|exact (ei_cache _ _ Hst)|]. unfold slot_state, ps_pacer. cbn. unfold es_pacer. lia. }
  apply paced_exec_ok in E; [|done]. destruct E as [Hi' Hb' _ Hh'].
  change (reserved_bytes p' = reserved_bytes (es_pacer st) - held r - queue_held (contents (queue_at st k)) + held r' + queue_held (contents q')) in Hh'.
  assert (Hq : queue_ok q') by (split; [exact Hi'|exact Hb']). split; [done|]. apply (put_queue_inv st x); try done. lia.
Qed.

Lemma give_back_inv st x ssrc n : egress_inv st x -> egress_inv (give_back st ssrc n) x.
Proof.
  intros Hst. unfold give_back. destruct (ei_numbers _ _ Hst) as [m Hm]. pose proof (rollback_represents _ _ ssrc n Hm) as Hr.
  destruct (sfu_rtp_seq_translator_rollback (es_translator st) ssrc n) as [t| |] eqn:E; [|done|done].
  destruct (m !! ssrc); [|done]. destruct (n =? 0); [done|]. destruct Hr as (t' & [= <-] & Hr). destruct Hst. constructor; try done. by eexists.
Qed.
Lemma invalidate_resources st k p : resources (sfu_egress_invalidate_publisher_scheduler st k p) = resources st.
Proof. unfold sfu_egress_invalidate_publisher_scheduler. by destruct (negb _). Qed.
Lemma invalidate_each_resources st k l : resources (invalidate_each st k l) = resources st.
Proof. revert st. induction l as [|p l IH]; intros st; cbn; [done|]. rewrite IH. apply invalidate_resources. Qed.
Lemma refresh_resources st m : resources (refresh_publisher st m) = resources st.
Proof.
  unfold refresh_publisher. destruct (_ =? 0); [done|]. change (resources (request_keyframe ?a _ _)) with (resources a).
  apply (invalidate_resources st).
Qed.

Lemma rolled_back_inv st x k m : egress_inv st x -> valid_key k -> egress_inv (sfu_egress_invalidate_rolled_back_frame st (em_source m) k m) x.
Proof.
  intros Hst Hk. cbv beta delta [sfu_egress_invalidate_rolled_back_frame]. cbv zeta. destruct (_ && _); [done|].
  set (q' := (queue_at st k) <| q_rolled_back_publisher_peer_id := 0 |> <| q_rolled_back_media_ssrc := 0 |> <| q_rolled_back_packet_count := 0 |>).
  assert (H1 : egress_inv (put_queue st k q' (es_pacer st)) x).
  { destruct (queue_at_ok st x k Hst Hk) as [Hi Hb]. destruct (paced_inv_same (queue_at st k) q' eq_refl eq_refl Hi) as (Hi' & _).
    apply (put_queue_inv st x); try done. }
  set (st1 := put_queue st k q' (es_pacer st)) in *. clearbody st1. clear q'.
  set (st2 := if _ && _ then give_back st1 _ _ else st1).
  assert (H2 : egress_inv st2 x) by (unfold st2; destruct (_ && _); [by apply give_back_inv|done]). clearbody st2.
  set (pub := if _ =? 0 then publisher_id m else _). clearbody pub.
  set (st3 := if negb (pub =? 0) then _ else st2).
  assert (H3 : egress_inv st3 x).
  { unfold st3. destruct (negb _); [|done]. apply (egress_inv_same st2); [apply invalidate_resources|done]. }
  clearbody st3. destruct (em_publisher m); [|done]. destruct (_ || _); [|done]. by apply (egress_inv_same st3).
Qed.
Lemma abandon_inv st x m : egress_inv st x -> egress_inv (abandon_frame st m) x.
Proof.
  intros Hst. unfold abandon_frame. destruct (select_queue m) as [k|] eqn:Ek; [|done]. apply select_queue_valid in Ek.
  pose proof (queue_step st x k no_reservation OpAbandon) as Hs. cbn [paced_exec] in Hs.
  change (ps_queue (slot_state st k no_reservation)) with (queue_at st k) in Hs.
  change (ps_pacer (slot_state st k no_reservation)) with (es_pacer st) in Hs.
  destruct (sfu_paced_send_rollback_input_frame _ _) as [q p]. destruct (Hs _ _ _ Hst Ek eq_refl) as [_ H1].
  rewrite Z.sub_add in H1. by apply rolled_back_inv.
Qed.
Lemma fail_inv st x m ssrc : egress_inv st x -> egress_inv (fail_packet st m ssrc) x.
Proof. intros. by apply abandon_inv, give_back_inv. Qed.

Lemma set_pacer_inv st x p y : egress_inv st x -> reserved_bytes p - y = reserved_bytes (es_pacer st) - x -> egress_inv (set_es_pacer st p) y.
Proof.
  intros [H1 H2 H3 H4 H5 H6] Hr. constructor; try done.
  change (reserved_bytes p = queues_held st + y). lia.
Qed.

(** The queue takes packets of the frame that is being admitted. *)
Definition taking (st : egress_session) (k : queue_key) : Prop :=
  q_input_frame_active (queue_at st k) = true /\ q_drop_input_frame (queue_at st k) = false.
Definition queues (st : egress_session) := (es_screen st, es_camera st).
Lemma taking_same st st' k : queues st' = queues st -> taking st k -> taking st' k.
Proof. intros [= E1 E2] H. unfold taking, queue_at in *. by rewrite E1, E2. Qed.
Lemma give_back_queues st ssrc n : queues (give_back st ssrc n) = queues st.
Proof. unfold give_back. by destruct (sfu_rtp_seq_translator_rollback _ _ _). Qed.
Lemma invalidate_queues st k p : queues (sfu_egress_invalidate_publisher_scheduler st k p) = queues st.
Proof. unfold sfu_egress_invalidate_publisher_scheduler. by destruct (negb _). Qed.

Lemma rolled_back_taking st x k m :
  egress_inv st x -> valid_key k -> taking st k -> taking (sfu_egress_invalidate_rolled_back_frame st (em_source m) k m) k.
Proof.
  intros Hst Hk Ht. cbv beta delta [sfu_egress_invalidate_rolled_back_frame]. cbv zeta. destruct (_ && _); [done|].
  set (q' := (queue_at st k) <| q_rolled_back_publisher_peer_id := 0 |> <| q_rolled_back_media_ssrc := 0 |> <| q_rolled_back_packet_count := 0 |>).
  assert (H1 : taking (put_queue st k q' (es_pacer st)) k).
  { destruct Hst as [[L1 _] [L2 _] _ _ _ _]. unfold taking. rewrite queue_at_put by done. exact Ht. }
  set (st1 := put_queue st k q' (es_pacer st)) in *. clearbody st1. clear q'.
  set (st2 := if _ && _ then give_back st1 _ _ else st1).
  assert (H2 : taking st2 k) by (unfold st2; destruct (_ && _); [apply (taking_same st1); [apply give_back_queues|done]|done]). clearbody st2.
  set (pub := if _ =? 0 then publisher_id m else _). clearbody pub.
  set (st3 := if negb (pub =? 0) then _ else st2).
  assert (H3 : taking st3 k) by (unfold st3; destruct (negb _); [apply (taking_same st2); [apply invalidate_queues|done]|done]).
  clearbody st3. destruct (em_publisher m); [|done]. destruct (_ || _); [|done]. by apply (taking_same st3).
Qed.

Lemma trim_inv st x m now rep go st' rep' : egress_inv st x -> trim_screen_backlog st m now rep = (go, st', rep') -> egress_inv st' x.
Proof.
  intros Hst. unfold trim_screen_backlog. destruct (select_queue m) as [k|] eqn:Ek; [|by intros [= <- <- <-]].
  apply select_queue_valid in Ek. destruct (_ && _); [|by intros [= <- <- <-]].
  pose proof (queue_step st x k no_reservation (OpBound SFU_PACED_SEND_SCREEN_MAX_DELAY_US now rep)) as Hs. cbn [paced_exec] in Hs.
  change (ps_queue (slot_state st k no_reservation)) with (queue_at st k) in Hs.
  change (ps_pacer (slot_state st k no_reservation)) with (es_pacer st) in Hs.
  destruct (sfu_paced_send_bound_backlog _ _ _ _ _) as [[[u q] p] rep1]. intros [= <- <- <-].
  destruct (Hs _ _ _ Hst Ek eq_refl) as [_ H1]. by rewrite Z.sub_add in H1.
Qed.
Lemma admit_packet_inv st x m ts marker now ok st' :
  egress_inv st x -> admit_packet st m ts marker now = (ok, st') ->
  egress_inv st' x /\ (ok = true -> forall k, select_queue m = Some k -> taking st' k).
Proof.
  intros Hst. unfold admit_packet. destruct (select_queue m) as [k|] eqn:Ek; [|by intros [= <- <-]].
  apply select_queue_valid in Ek.
  set (maxd := if camera_packet m then _ else _).
  pose proof (queue_step st x k no_reservation (OpAdmit ts marker (em_is_keyframe m) (camera_packet m) maxd now)) as Hs. cbn [paced_exec] in Hs.
  change (ps_queue (slot_state st k no_reservation)) with (queue_at st k) in Hs.
  change (ps_pacer (slot_state st k no_reservation)) with (es_pacer st) in Hs.
  destruct (sfu_paced_send_admit_frame_packet _ _ _ _ _ _ _ _) as [[ok1 q] p] eqn:Ea. intros [= <- <-].
  destruct (Hs _ _ _ Hst Ek eq_refl) as [_ H1]. rewrite Z.sub_add in H1. split; [by apply rolled_back_inv|].
  intros -> k' [= <-]. apply (rolled_back_taking _ x); [done|done|]. destruct (queue_at_ok st x k Hst Ek) as [Hi _].
  apply admit_spec in Ea as (_ & _ & _ & _ & Ht); [|done]. destruct Hst as [[L1 _] [L2 _] _ _ _ _].
  unfold taking. rewrite queue_at_put by done. by apply Ht.
Qed.

Lemma local_admit_inv st x data len m sm now rep :
  egress_inv st x -> bytes_ok data -> 12 <= zlen data -> 0 <= em_video_pt m ->
  exists r, local_admit st data len m sm now rep = Ok r /\
    match r with
    | inl (st', _) => egress_inv st' x
    | inr (st', _, a) => egress_inv st' x /\ 12 <= len /\ bytes_ok (ap_data a) /\ zlen (ap_data a) = zlen data /\ ap_queue a = select_queue m /\
        forall k, select_queue m = Some k -> taking st' k
    end.
Proof.
  intros Hst Hb Hl Hpt. unfold local_admit. destruct (negb _); [by eexists|].
  rewrite rd_ok by lia. cbn [res_bind]. set (d1 := byte_at data 1).
  assert (Hd1 : is_u8 d1) by (by apply byte_at_u8).
  assert (Hd : exists data', (if negb (em_is_audio m) && em_has_video m && negb (em_video_pt m =? 0) && negb (Z.land d1 0x7f =? em_video_pt m)
               then wr data 1 (Z.lor (Z.land d1 0x80) (Z.land (em_video_pt m) 0x7f)) else Ok data) = Ok data' /\
               bytes_ok data' /\ zlen data' = zlen data).
  { destruct (_ && _); [|by exists data]. unfold wr. rewrite wr_n_ok by (rewrite ?zlen_cons, ?zlen_nil; lia). eexists. split; [done|]. split.
    - apply bytes_ok_patch; [done|]. apply bytes_ok_cons; [|apply bytes_ok_nil].
      apply lor_u8; apply land_u8; unfold is_u8 in *; lia.
    - apply zlen_patch; rewrite ?zlen_cons, ?zlen_nil; lia. }
  destruct Hd as (data' & -> & Hb' & Hl'). cbn [res_bind]. destruct (Z.ltb_spec len 12); [by eexists|].
  rewrite read_be32_ok by (done || lia). cbn [res_bind]. rewrite rd_ok by (rewrite Hl'; lia). cbn [res_bind].
  set (marker := match sm with Some b => b | None => _ end). clearbody marker.
  destruct (trim_screen_backlog st m now rep) as [[go st1] rep1] eqn:E1. apply trim_inv with (x := x) in E1; [|done].
  destruct go; cbn [negb]; [|eexists; split; [done|]; cbn; apply (egress_inv_same st1); [apply refresh_resources|done]].
  destruct (admit_packet st1 m _ marker now) as [ok st2] eqn:E2. apply (admit_packet_inv _ x) in E2 as [H2 Ht]; [|done].
  destruct ok; [eexists; split; [done|]; cbn; split_and!; auto; lia|].
  eexists; split; [done|]. cbn. destruct (_ && _); [|done]. apply (egress_inv_same st2); [apply refresh_resources|done].
Qed.

Lemma decimal_bytes fuel n : 0 <= n -> bytes_ok (decimal fuel n).
Proof.
  revert n. induction fuel as [|fuel IH]; intros n Hn; cbn [decimal]; [apply bytes_ok_nil|].
  destruct (Z.ltb_spec n 10); [apply bytes_ok_cons; [unfold is_u8; lia|apply bytes_ok_nil]|].
  apply bytes_ok_app; [apply IH; apply Z.div_pos; lia|]. apply bytes_ok_cons; [|apply bytes_ok_nil].
  pose proof (Z.mod_pos_bound n 10 ltac:(lia)). unfold is_u8. lia.
Qed.
Lemma mid_text_bytes m : bytes_ok (mid_text (media_mid m)).
Proof.
  assert (Hm : 0 <= media_mid m) by apply u32_range. unfold mid_text.
  destruct (Z.ltb_spec (media_mid m) 10); [apply bytes_ok_cons; [unfold is_u8; lia|apply bytes_ok_nil]|].
  destruct (Z.ltb_spec (media_mid m) 100); [|by apply decimal_bytes].
  pose proof (Z.mod_pos_bound (media_mid m) 10 ltac:(lia)). pose proof (Z.div_pos (media_mid m) 10 ltac:(lia) ltac:(lia)).
  assert (media_mid m / 10 < 10) by (apply Z.div_lt_upper_bound; lia).
  repeat apply bytes_ok_cons; try apply bytes_ok_nil; unfold is_u8; lia.
Qed.

Lemma rewrite_header_safe data len cap m sm id seq :
  bytes_ok data -> zlen data = cap -> 12 <= len <= cap -> is_u8 id ->
  exists r, rewrite_header data len cap m sm id seq = Ok r /\
    match r with Some (d, l) => bytes_ok d /\ zlen d = cap /\ 0 <= l <= cap | None => True end.
Proof.
  intros Hb Hc Hl Hi. unfold rewrite_header, sfu_rtp_packet_set_seq, RTP_FIXED_HEADER_LEN.
  rewrite (proj2 (Z.ltb_ge _ _)) by lia. cbn [reject]. rewrite write_be16_ok by lia.
  set (d1 := patch data 2 (enc16 seq)).
  assert (H1 : bytes_ok d1 /\ zlen d1 = cap).
  { split; [apply bytes_ok_patch; [done|apply enc16_bytes_ok]|]. unfold d1. rewrite zlen_patch; [done|lia|]. change (zlen (enc16 seq)) with 2. lia. }
  clearbody d1. destruct H1 as [Hb1 Hz1].
  assert (H2 : exists d2, match sm with Some b => sfu_rtp_packet_set_marker d1 len b | None => Ok d1 end = Ok d2 /\ bytes_ok d2 /\ zlen d2 = cap).
  { destruct sm as [b|]; [|by exists d1]. unfold sfu_rtp_packet_set_marker, RTP_FIXED_HEADER_LEN.
    rewrite (proj2 (Z.ltb_ge _ _)) by lia. cbn [reject]. rewrite rd_ok by lia. cbn [res_bind].
    pose proof (byte_at_u8 d1 1 Hb1) as Hd.
    destruct b; unfold wr; rewrite wr_n_ok by (rewrite ?zlen_cons, ?zlen_nil; lia); eexists; (split; [done|]); split;
      try (rewrite zlen_patch; rewrite ?zlen_cons, ?zlen_nil; lia); apply bytes_ok_patch; try done; apply bytes_ok_cons;
      try apply bytes_ok_nil.
    - apply lor_u8; [done|unfold is_u8; lia].
    - apply land_u8; unfold is_u8 in *; lia. }
  destruct H2 as (d2 & -> & Hb2 & Hz2). destruct (id =? 0); [eexists; split; [done|]; split_and!; done || lia|].
  unfold sfu_rtp_ext_write_mid.
  destruct (write_value_safe d2 len cap id (mid_text (media_mid m)) Hb2 ltac:(lia)) as (l & d3 & E & Hz3 & Hl3).
  rewrite E. cbn [res_bind]. apply write_value_bytes in E; [|done|done|apply mid_text_bytes].
  destruct l as [l|]; [|by eexists]. eexists. split; [done|]. split_and!; done || lia.
Qed.

Lemma keep_plaintext_safe cache data len :
  len <= zlen data -> exists b n, keep_plaintext cache data len = Ok (b, n) /\ zlen b = SFU_PACED_SEND_MAX_PAYLOAD /\ 0 <= n <= SFU_PACED_SEND_MAX_PAYLOAD.
Proof.
  intros Hl. unfold keep_plaintext. destruct (_ && _) eqn:G.
  - bool_hyps. rewrite rd_n_ok by lia. cbn [res_bind]. eexists _, _. split; [done|].
    assert (Hz : zlen (zeros SFU_PACED_SEND_MAX_PAYLOAD) = SFU_PACED_SEND_MAX_PAYLOAD) by (vm_compute; reflexivity).
    rewrite zlen_patch; rewrite ?Hz, ?zlen_slice by lia; lia.
  - eexists _, _. split; [done|]. split; [by vm_compute|]. unfold SFU_PACED_SEND_MAX_PAYLOAD. lia.
Qed.
Lemma cache_now_safe st x m seq data len :
  egress_inv st x -> 0 <= len <= zlen data -> zlen data < 4294967294 ->
  exists st', cache_now st m seq data len = Ok st' /\ egress_inv st' x /\ queues st' = queues st.
Proof.
  intros Hst Hl Hz. unfold cache_now. pose proof (ei_cache _ _ Hst) as Hc. unfold cache_ok in Hc.
  destruct (ss_rtx_cache (es_send st)) as [c|]; [|by exists st]. destruct Hc as [f Hf].
  rewrite rd_n_ok by lia. cbn [res_bind]. assert (Hsl : zlen (slice data 0 len) = len) by (apply zlen_slice; lia).
  destruct (put_holds c f (mk_sent seq (slice data 0 len) (em_video_rtx_ssrc m) (em_video_rtx_pt m) (em_video_ssrc m) (es_generation st)) Hf)
    as (c' & E & Hf'); cbn [s_bytes]; [lia|].
  cbn [s_seq s_bytes s_rtx_ssrc s_rtx_pt s_ssrc s_gen] in E. rewrite Hsl in E. rewrite u32_small by lia. rewrite E. cbn [res_bind].
  eexists. split; [done|]. split; [|done]. destruct Hst. constructor; try done. cbn. by eexists.
Qed.
Lemma stamp_safe st x data len cap :
  egress_inv st x -> bytes_ok data -> zlen data = cap ->
  exists st' seq w d l, stamp_twcc st data len cap = Ok (st', seq, w, d, l) /\ egress_inv st' x /\ queues st' = queues st.
Proof.
  intros Hst Hb Hz. unfold stamp_twcc. destruct (_ =? 0); [by do 5 eexists|].
  set (st1 := st <| es_next_twcc_seq := _ |>).
  assert (H1 : egress_inv st1 x /\ queues st1 = queues st).
  { split; [|done]. destruct Hst as [H1 H2 H3 H4 H5 [H6 H7]]. constructor; try done. split; [done|]. apply u16_range. }
  clearbody st1. pose proof (write_twcc_safe data len cap (es_twcc_extmap_id st1) (es_next_twcc_seq st) Hb ltac:(lia)) as Hs.
  destruct (sfu_rtp_ext_write_twcc _ _ _ _ _) as [[d l]| |]; [by do 5 eexists..|done].
Qed.

Definition rtx_fits (r : rewritten) : Prop := 0 <= rw_rtx_len r <= zlen (rw_rtx_plaintext r).
Lemma local_rewrite_inv st x a len cap m sm protect :
  egress_inv st x -> bytes_ok (ap_data a) -> zlen (ap_data a) = cap -> 12 <= len <= cap -> cap < 4294967294 ->
  exists r, local_rewrite st a len cap m sm protect = Ok r /\
    match r with
    | inl st' => egress_inv st' x
    | inr (st', r) => egress_inv st' x /\ queues st' = queues st /\ rtx_fits r
    end.
Proof.
  intros Hst Hb Hc Hl Hcap. unfold local_rewrite. rewrite read_be16_ok, read_be32_ok by (done || lia). cbn [res_bind].
  set (ssrc := be32 (ap_data a) 8). clearbody ssrc. destruct (ei_numbers _ _ Hst) as [nm Hm].
  pose proof (translate_refines _ _ ssrc (be16 (ap_data a) 2) Hm) as Ht.
  assert (H1 : sfu_rtp_seq_translate (es_translator st) ssrc (be16 (ap_data a) 2) = Err \/
    exists seq t nm', sfu_rtp_seq_translate (es_translator st) ssrc (be16 (ap_data a) 2) = Ok (seq, t) /\ represents t nm').
  { destruct (nm !! ssrc); [right; destruct Ht as (t & E & Hr); by do 3 eexists|].
    destruct Ht as [(t & E & Hr)|[E _]]; [right; by do 3 eexists|by left]. }
  destruct H1 as [->|(seq & t & nm' & -> & Hr)]; [by eexists|].
  set (st1 := st <| es_translator := t |>).
  assert (I1 : egress_inv st1 x /\ queues st1 = queues st) by (split; [destruct Hst; constructor; try done; by eexists|done]).
  clearbody st1. destruct I1 as [I1 Q1].
  destruct (rewrite_header_safe (ap_data a) len cap m sm (es_mid_extmap_id st1) seq Hb Hc Hl (proj1 (ei_ids _ _ I1))) as (h & -> & Hh).
  cbn [res_bind]. destruct h as [[d l]|]; [|eexists; split; [done|]; by apply fail_inv]. destruct Hh as (Hbd & Hzd & Hld).
  set (cache := _ && match ss_rtx_cache _ with Some _ => true | None => false end). clearbody cache.
  destruct (keep_plaintext_safe cache d l ltac:(lia)) as (pb & pn & -> & Hpb & Hpn). cbn [res_bind].
  assert (H2 : exists st2, (if cache && bool_decide (ap_queue a = None) then cache_now st1 m seq d l else Ok st1) = Ok st2 /\
    egress_inv st2 x /\ queues st2 = queues st1).
  { destruct (_ && _); [apply cache_now_safe; done || lia|by exists st1]. }
  destruct H2 as (st2 & -> & I2 & Q2). cbn [res_bind].
  destruct (stamp_safe st2 x d l cap I2 Hbd Hzd) as (st3 & ts & w & d3 & l3 & -> & I3 & Q3). cbn [res_bind].
  destruct (protect d3 l3 cap) as [[d4 l4]|]; [|eexists; split; [done|]; by apply fail_inv].
  eexists. split; [done|]. split_and!; [done|congruence|]. unfold rtx_fits. cbn. lia.
Qed.

Lemma held_none : held no_reservation = 0.
Proof. done. Qed.
Lemma queue_packet_inv st k m r cls res marker dst dl now alloc rep ok st' rep' :
  egress_inv st (held res) -> select_queue m = Some k -> taking st k -> rtx_fits r ->
  queue_packet st k m r cls res marker dst dl now alloc rep = (ok, st', rep') -> egress_inv st' 0.
Proof.
  intros Hst Ek [Ha Hd] Hr. apply select_queue_valid in Ek. unfold queue_packet.
  assert (Hstep : forall ok1 q1 r1,
    (if (rw_len r <=? 0) || (SFU_PACED_SEND_MAX_PAYLOAD <? rw_len r) then (false, queue_at st k, res) else
     sfu_paced_send_enqueue (queue_at st k) (rw_data r) (u16 (rw_len r)) (rw_rtx_plaintext r) (rw_rtx_len r) dst dl (Z.of_nat (class_index cls))
      (pacing_bps (es_pacer st)) res (entry_metadata st m r (queue_at st k)) now alloc) = (ok1, q1, r1) ->
    egress_inv (put_queue st k q1 (es_pacer st)) (held r1) /\ (ok1 = true -> held r1 = 0)).
  { intros ok1 q1 r1. destruct (queue_at_ok st _ k Hst Ek) as [Hi Hb]. destruct (_ || _).
    - intros [= <- <- <-]. split; [|done]. apply (put_queue_inv st (held res)); try done.
    - set (meta := entry_metadata st m r (queue_at st k)). intros E.
      pose proof (queue_step st (held res) k res (OpEnqueue (rw_data r) (u16 (rw_len r)) (rw_rtx_plaintext r) (rw_rtx_len r) dst dl
        (Z.of_nat (class_index cls)) (pacing_bps (es_pacer st)) meta now alloc) q1 (es_pacer st) r1 Hst Ek) as Hs.
      cbn [paced_exec] in Hs. change (ps_queue (slot_state st k res)) with (queue_at st k) in Hs.
      change (ps_pacer (slot_state st k res)) with (es_pacer st) in Hs. change (ps_res (slot_state st k res)) with res in Hs.
      rewrite Ha, Hd, E in Hs. change (pm_frame_end meta) with false in Hs. cbn [negb andb] in Hs.
      unfold rtx_fits in Hr. rewrite !(proj2 (Z.leb_le _ _)) in Hs by lia. cbn [andb] in Hs.
      destruct (Hs eq_refl) as [_ H1]. rewrite Z.sub_diag in H1. split; [exact H1|].
      apply enqueue_spec in E as (_ & _ & _ & _ & _ & Hok); try done. intros ->. destruct Hok as (_ & _ & ->). done. }
  destruct (if (rw_len r <=? 0) || _ then _ else _) as [[ok1 q1] r1] eqn:E1. destruct (Hstep _ _ _ eq_refl) as [H1 Hz]. clear Hstep E1.
  set (st1 := put_queue st k q1 (es_pacer st)) in *. clearbody st1. destruct ok1; cbn [negb].
  2: { intros [= <- <- <-]. apply fail_inv. apply (set_pacer_inv _ (held r1)); [done|]. rewrite cancel_reserved. lia. }
  rewrite (Hz eq_refl) in H1. destruct marker; [|by intros [= <- <- <-]].
  pose proof (queue_step st1 0 k no_reservation OpFinish _ _ _ H1 Ek eq_refl) as [_ H2].
  change (ps_queue (slot_state st1 k no_reservation)) with (queue_at st1 k) in H2.
  change (ps_pacer (slot_state st1 k no_reservation)) with (es_pacer st1) in H2. rewrite Z.sub_add in H2.
  set (st2 := put_queue st1 k _ _) in *. clearbody st2. destruct (screen_packet m); [|by intros [= <- <- <-]].
  pose proof (queue_step st2 0 k no_reservation (OpBound SFU_PACED_SEND_SCREEN_MAX_DELAY_US now rep)) as Hs. cbn [paced_exec] in Hs.
  change (ps_queue (slot_state st2 k no_reservation)) with (queue_at st2 k) in Hs.
  change (ps_pacer (slot_state st2 k no_reservation)) with (es_pacer st2) in Hs.
  destruct (sfu_paced_send_bound_backlog _ _ _ _ _) as [[[u q] p] rep1]. intros [= <- <- <-].
  destruct (Hs _ _ _ H2 Ek eq_refl) as [_ H3]. by rewrite Z.sub_add in H3.
Qed.

Lemma local_send_inv st a r m cls drop dst dl now alloc net rep ok st' rep' :
  egress_inv st 0 -> ap_queue a = select_queue m -> (forall k, select_queue m = Some k -> taking st k) -> rtx_fits r ->
  local_send st a r m cls drop dst dl now alloc net rep = (ok, st', rep') -> egress_inv st' 0.
Proof.
  intros Hst Hq Ht Hr. unfold local_send.
  destruct (sfu_pacer_reserve (es_pacer st) cls (u32 (rw_len r)) drop now no_reservation) as [[ok1 p] res] eqn:E1.
  assert (Hno : ok1 = false -> held res = 0).
  { intros ->. unfold sfu_pacer_reserve in E1. cbn [r_active no_reservation] in E1. by repeat case_match; simplify_eq. }
  apply reserve_reserved in E1. rewrite held_none in E1.
  assert (H1 : egress_inv (set_es_pacer st p) (held res)) by (apply (set_pacer_inv _ 0); [done|lia]).
  set (st1 := set_es_pacer st p) in *. assert (Q1 : queues st1 = queues st) by done. clearbody st1.
  destruct ok1; cbn [negb]; [|intros [= <- <- <-]; rewrite (Hno eq_refl) in H1; by apply fail_inv].
  rewrite Hq. destruct (select_queue m) as [k|] eqn:Ek.
  - intros E. eapply queue_packet_inv; [exact H1|exact Ek| |exact Hr|exact E]. apply (taking_same st); [done|by apply Ht].
  - destruct (send_now st1 m r res dst now net) as [ok2 st2] eqn:E2. intros [= <- <- <-]. unfold send_now in E2.
    destruct net; cbn [negb] in E2; injection E2 as <- <-.
    + set (st3 := set_es_pacer st1 _). assert (H3 : egress_inv st3 0) by (apply (set_pacer_inv _ (held res)); [done|]; rewrite commit_reserved; lia).
      clearbody st3. set (st4 := st3 <| es_out ::= _ |>). assert (H4 : egress_inv st4 0) by (by apply (egress_inv_same st3)). clearbody st4.
      destruct (_ && _); [|done]. destruct H4. constructor; try done.
    + apply give_back_inv. apply (set_pacer_inv _ (held res)); [done|]. rewrite cancel_reserved. lia.
Qed.

Definition packet_fits (pkt : packet_in) : Prop :=
  bytes_ok (pi_data pkt) /\ zlen (pi_data pkt) = pi_cap pkt /\ 0 <= pi_len pkt <= pi_cap pkt /\ 12 <= pi_cap pkt < 4294967294.
Lemma process_local_inv st pkt dst dl m cls d w rep :
  egress_inv st 0 -> packet_fits pkt -> 0 <= em_video_pt m ->
  exists ok st' rep', sfu_egress_process_local st pkt dst dl m cls d w rep = Ok (ok, st', rep') /\ egress_inv st' 0.
Proof.
  intros Hst (Hb & Hz & Hl & Hc) Hpt. unfold sfu_egress_process_local.
  destruct (local_admit_inv st 0 (pi_data pkt) (pi_len pkt) m (option_map ld_set_marker d) (ow_now_us w) rep Hst Hb ltac:(lia) Hpt) as (r & -> & Hr).
  cbn [res_bind]. destruct r as [[st1 rep1]|[[st1 rep1] a]]; [by do 3 eexists|].
  destruct Hr as (I1 & Hlen & Hba & Hza & Hqa & Hta).
  destruct (local_rewrite_inv st1 0 a (pi_len pkt) (pi_cap pkt) m (option_map ld_set_marker d) (ow_protect w) I1 Hba ltac:(lia) ltac:(lia) ltac:(lia)) as (r2 & -> & Hr2).
  cbn [res_bind]. destruct r2 as [st2|[st2 rw]]; [by do 3 eexists|]. destruct Hr2 as (I2 & Q2 & Hfit).
  destruct (local_send _ _ _ _ _ _ _ _ _ _ _ _) as [[ok st3] rep3] eqn:E3. do 3 eexists. split; [done|].
  eapply local_send_inv; [exact I2|exact Hqa| |exact Hfit|exact E3]. intros k Hk. apply (taking_same st1); [done|]. by apply Hta.
Qed.

(** * Schedulers *)

(** Between two tables the gates of all streams can only have closed, and a
    keyframe in progress was left alone or given up. *)
Definition slot_calm (x y : sfu_layer_scheduler_slot) : Prop :=
  slot_publisher_id y = slot_publisher_id x /\ calm (slot_sched x) (slot_sched y).
Definition tables_calm (st st' : egress_session) : Prop := Forall2 slot_calm (es_schedulers st) (es_schedulers st').
Lemma slot_calm_refl x : slot_calm x x.
Proof. split; [done|apply calm_refl]. Qed.
Lemma tables_same st st' : es_schedulers st' = es_schedulers st -> tables_calm st st'.
Proof. intros E. unfold tables_calm. rewrite E. apply Forall_Forall2_diag, Forall_true. intros; apply slot_calm_refl. Qed.
Lemma tables_trans st1 st2 st3 : tables_calm st1 st2 -> tables_calm st2 st3 -> tables_calm st1 st3.
Proof.
  unfold tables_calm. generalize (es_schedulers st3). intros l3 H. revert l3.
  induction H as [|x y l1 l2 [E1 G1] _ IH]; intros l3 H2; inversion H2 as [|? z ? l3' [E2 G2]]; subst; constructor; [|by apply IH].
  split; [congruence|by eapply calm_trans].
Qed.

Lemma invalidate_tables st k p : tables_calm st (sfu_egress_invalidate_publisher_scheduler st k p).
Proof.
  unfold sfu_egress_invalidate_publisher_scheduler. destruct (negb _); [by apply tables_same|].
  unfold tables_calm. change (es_schedulers (st <| es_schedulers ::= ?f |>)) with (f (es_schedulers st)).
  apply Forall2_fmap_r, Forall_Forall2_diag, Forall_true. intros x. cbv beta delta [compose invalidate_slot].
  destruct (_ || _); [apply slot_calm_refl|]. destruct (_ && _); [apply slot_calm_refl|]. split; [done|apply reset_calm].
Qed.
Lemma invalidate_each_tables st k l : tables_calm st (invalidate_each st k l).
Proof. revert st. induction l as [|p l IH]; intros st; cbn; [by apply tables_same|]. eapply tables_trans; [apply invalidate_tables|apply IH]. Qed.
Lemma backlog_tables st k rep m : tables_calm st (sfu_egress_invalidate_backlog_drops st k rep m).
Proof.
  unfold sfu_egress_invalidate_backlog_drops. destruct (_ || _); [by apply tables_same|].
  set (st1 := if dr_truncated rep then _ else _).
  assert (H1 : tables_calm st st1) by (unfold st1; destruct (dr_truncated rep); [apply invalidate_tables|apply invalidate_each_tables]).
  clearbody st1. destruct (_ =? 0); [done|]. eapply tables_trans; [exact H1|]. by apply tables_same.
Qed.
Lemma refresh_tables st m : tables_calm st (refresh_publisher st m).
Proof.
  unfold refresh_publisher. destruct (_ =? 0); [by apply tables_same|]. eapply tables_trans; [apply invalidate_tables|]. by apply tables_same.
Qed.
Lemma give_back_tables st ssrc n : es_schedulers (give_back st ssrc n) = es_schedulers st.
Proof. unfold give_back. by destruct (sfu_rtp_seq_translator_rollback _ _ _). Qed.
Lemma put_queue_tables st k q p : es_schedulers (put_queue st k q p) = es_schedulers st.
Proof. unfold put_queue. by destruct (k.1). Qed.
Lemma rolled_back_tables st s k m : tables_calm st (sfu_egress_invalidate_rolled_back_frame st s k m).
Proof.
  cbv beta delta [sfu_egress_invalidate_rolled_back_frame]. cbv zeta. destruct (_ && _); [by apply tables_same|].
  set (st1 := put_queue st k _ _). assert (H1 : tables_calm st st1) by (apply tables_same, put_queue_tables). clearbody st1.
  set (st2 := if _ && _ then give_back st1 _ _ else st1).
  assert (H2 : tables_calm st1 st2) by (apply tables_same; unfold st2; destruct (_ && _); [apply give_back_tables|done]). clearbody st2.
  set (pub := if _ =? 0 then publisher_id m else _). clearbody pub.
  set (st3 := if negb (pub =? 0) then _ else st2).
  assert (H3 : tables_calm st2 st3) by (unfold st3; destruct (negb _); [apply invalidate_tables|by apply tables_same]). clearbody st3.
  eapply tables_trans; [exact H1|]. eapply tables_trans; [exact H2|]. eapply tables_trans; [exact H3|].
  apply tables_same. destruct (em_publisher m); [|done]. by destruct (_ || _).
Qed.
Lemma abandon_tables st m : tables_calm st (abandon_frame st m).
Proof.
  unfold abandon_frame. destruct (select_queue m) as [k|]; [|by apply tables_same].
  destruct (sfu_paced_send_rollback_input_frame _ _) as [q p]. eapply tables_trans; [|apply rolled_back_tables].
  apply tables_same, put_queue_tables.
Qed.
Lemma fail_tables st m ssrc : tables_calm st (fail_packet st m ssrc).
Proof. eapply tables_trans; [apply tables_same, give_back_tables|apply abandon_tables]. Qed.
Lemma trim_tables st m now rep : es_schedulers (trim_screen_backlog st m now rep).1.2 = es_schedulers st.
Proof.
  unfold trim_screen_backlog. destruct (select_queue m); [|done]. destruct (_ && _); [|done].
  destruct (sfu_paced_send_bound_backlog _ _ _ _ _) as [[[u q'] p] rep1]. apply put_queue_tables.
Qed.
Lemma admit_tables st m ts marker now : tables_calm st (admit_packet st m ts marker now).2.
Proof.
  unfold admit_packet. destruct (select_queue m) as [k|]; [|by apply tables_same].
  destruct (sfu_paced_send_admit_frame_packet _ _ _ _ _ _ _ _) as [[ok q] p]. cbn [snd].
  eapply tables_trans; [apply tables_same, put_queue_tables|apply rolled_back_tables].
Qed.
Definition result_session {A} (r : local_result A) : egress_session := match r with inl (st, _) => st | inr (st, _, _) => st end.
Lemma local_admit_tables st data len m sm now rep r : local_admit st data len m sm now rep = Ok r -> tables_calm st (result_session r).
Proof.
  unfold local_admit. destruct (negb _); [intros [= <-]; by apply tables_same|]. intros E.
  apply res_bind_ok in E as (d1 & _ & E). apply res_bind_ok in E as (data' & _ & E).
  destruct (len <? 12); [injection E as <-; by apply tables_same|].
  apply res_bind_ok in E as (ts & _ & E). apply res_bind_ok in E as (d1' & _ & E).
  pose proof (trim_tables st m now rep) as H1. destruct (trim_screen_backlog st m now rep) as [[go st1] rep1]. cbn [fst snd] in H1.
  assert (H1' : tables_calm st st1) by (by apply tables_same).
  destruct go; cbn [negb] in E; [|injection E as <-; eapply tables_trans; [exact H1'|apply refresh_tables]].
  match type of E with context [admit_packet st1 m ts ?b now] => pose proof (admit_tables st1 m ts b now) as H2; destruct (admit_packet st1 m ts b now) as [ok st2] end.
  cbn [snd] in H2. destruct ok; injection E as <-; cbn [result_session]; (eapply tables_trans; [exact H1'|]); [done|].
  destruct (_ && _); [|done]. eapply tables_trans; [exact H2|apply refresh_tables].
Qed.
Lemma cache_now_tables st m seq data len st' : cache_now st m seq data len = Ok st' -> es_schedulers st' = es_schedulers st.
Proof.
  unfold cache_now. destruct (ss_rtx_cache _); [|by intros [= <-]]. intros E. apply res_bind_ok in E as (b & _ & E).
  apply res_bind_ok in E as (c & _ & E). by injection E as <-.
Qed.
Lemma stamp_tables st data len cap st' a b c d : stamp_twcc st data len cap = Ok (st', a, b, c, d) -> es_schedulers st' = es_schedulers st.
Proof.
  unfold stamp_twcc. destruct (_ =? 0); [by intros [= <- _ _ _ _]|]. destruct (sfu_rtp_ext_write_twcc _ _ _ _ _) as [[x y]| |]; [| |done];
    by intros [= <- _ _ _ _].
Qed.
Lemma local_rewrite_tables st a len cap m sm protect r :
  local_rewrite st a len cap m sm protect = Ok r -> tables_calm st (match r with inl st' => st' | inr (st', _) => st' end).
Proof.
  unfold local_rewrite. intros E. apply res_bind_ok in E as (sq & _ & E). apply res_bind_ok in E as (ssrc & _ & E).
  destruct (sfu_rtp_seq_translate _ _ _) as [[seq t]| |]; [|injection E as <-; by apply tables_same|done].
  set (st1 := st <| es_translator := t |>) in E. assert (H1 : tables_calm st st1) by (by apply tables_same). clearbody st1.
  apply res_bind_ok in E as (h & _ & E). destruct h as [[d l]|]; [|injection E as <-; eapply tables_trans; [exact H1|apply fail_tables]].
  set (cache := _ && match ss_rtx_cache _ with Some _ => true | None => false end) in E. clearbody cache.
  apply res_bind_ok in E as (pl & _ & E). apply res_bind_ok in E as (st2 & E2 & E). apply res_bind_ok in E as (sp & E3 & E).
  destruct sp as [[[[st3 ts] w] d3] l3].
  assert (H2 : tables_calm st1 st2) by (apply tables_same; destruct (_ && _); [by eapply cache_now_tables|by injection E2 as <-]).
  assert (H3 : tables_calm st2 st3) by (apply tables_same; by eapply stamp_tables).
  pose proof (tables_trans _ _ _ H1 (tables_trans _ _ _ H2 H3)) as H. destruct (protect d3 l3 cap) as [[d4 l4]|]; injection E as <-; [done|].
  eapply tables_trans; [exact H|apply fail_tables].
Qed.
Lemma queue_packet_tables st k m r cls res marker dst dl now alloc rep :
  tables_calm st (queue_packet st k m r cls res marker dst dl now alloc rep).1.2.
Proof.
  unfold queue_packet. destruct (if _ || _ then _ else _) as [[ok q] r1].
  set (st1 := put_queue st k q _). assert (H1 : tables_calm st st1) by (apply tables_same, put_queue_tables). clearbody st1.
  destruct ok; cbn [negb]; [|cbn [fst snd]; eapply tables_trans; [exact H1|]; eapply tables_trans; [|apply fail_tables]; by apply tables_same].
  destruct marker; [|done]. set (st2 := put_queue st1 k _ _). assert (H2 : tables_calm st1 st2) by (apply tables_same, put_queue_tables).
  clearbody st2. pose proof (tables_trans _ _ _ H1 H2) as H. destruct (screen_packet m); [|done].
  destruct (sfu_paced_send_bound_backlog _ _ _ _ _) as [[[u q'] p] rep1]. cbn [fst snd].
  eapply tables_trans; [exact H|]. apply tables_same, put_queue_tables.
Qed.
Lemma local_send_tables st a r m cls drop dst dl now alloc net rep :
  tables_calm st (local_send st a r m cls drop dst dl now alloc net rep).1.2.
Proof.
  unfold local_send. destruct (sfu_pacer_reserve _ _ _ _ _ _) as [[ok p] res].
  set (st1 := set_es_pacer st p). assert (H1 : tables_calm st st1) by (by apply tables_same). clearbody st1.
  destruct ok; cbn [negb]; [|cbn [fst snd]; eapply tables_trans; [exact H1|apply fail_tables]].
  destruct (ap_queue a) as [k|]; [eapply tables_trans; [exact H1|apply queue_packet_tables]|].
  destruct (send_now st1 m r res dst now net) as [ok2 st2] eqn:E2. cbn [fst snd]. eapply tables_trans; [exact H1|]. apply tables_same.
  unfold send_now in E2. destruct net; cbn [negb] in E2; injection E2 as <- <-; [by destruct (_ && _)|apply (give_back_tables (set_es_pacer st1 _))].
Qed.
Lemma process_local_tables st pkt dst dl m cls d w rep ok st' rep' :
  sfu_egress_process_local st pkt dst dl m cls d w rep = Ok (ok, st', rep') -> tables_calm st st'.
Proof.
  unfold sfu_egress_process_local. intros E. apply res_bind_ok in E as (r & E1 & E). apply local_admit_tables in E1.
  destruct r as [[st1 rep1]|[[st1 rep1] a]]; [by injection E as <- <- <-|]. cbn [result_session] in E1.
  apply res_bind_ok in E as (r & E2 & E). apply local_rewrite_tables in E2. destruct r as [st2|[st2 rw]]; [injection E as <- <- <-; by eapply tables_trans|].
  injection E as E. match type of E with local_send ?s ?a ?r ?m ?c ?dr ?ds ?dl ?n ?al ?ne ?rp = _ =>
    pose proof (local_send_tables s a r m c dr ds dl n al ne rp) as H end.
  rewrite E in H. eapply tables_trans; [exact E1|]. by eapply tables_trans.
Qed.

(** ** The history of a stream *)

(** The slot that a stream is looked up in. *)
Definition first_slot (key : Z) (l : list sfu_layer_scheduler_slot) (i : nat) (x : sfu_layer_scheduler_slot) : Prop :=
  l !! i = Some x /\ slot_publisher_id x = key /\ forall j y, (j < i)%nat -> l !! j = Some y -> slot_publisher_id y <> key.
Lemma find_slot_first key l i f :
  match (find_slot key l i f).1 with
  | Some n => exists j x, n = (i + j)%nat /\ first_slot key l j x
  | None => Forall (fun x => slot_publisher_id x <> key) l
  end.
Proof.
  revert i f. induction l as [|x l IH]; intros i f; cbn [find_slot]; [constructor|]. destruct (Z.eqb_spec (slot_publisher_id x) key) as [E|E].
  - exists 0%nat, x. split; [lia|]. split; [done|]. split; [done|]. intros j y Hj. lia.
  - match goal with |- context [find_slot key l (S i) ?g] => specialize (IH (S i) g); destruct (find_slot key l (S i) g).1 as [n|] end; [|by constructor].
    destruct IH as (j & y & -> & Hy & Hk & Hmin). exists (S j), y. split; [lia|]. split; [done|]. split; [done|].
    intros [|k] z Hj; cbn; [by intros [= <-]|]. apply Hmin. lia.
Qed.
Lemma first_slot_unique key l i j x y : first_slot key l i x -> first_slot key l j y -> i = j /\ x = y.
Proof.
  intros (Hx & Kx & Mx) (Hy & Ky & My). assert (i = j) as ->; [|split; congruence].
  destruct (Nat.lt_trichotomy i j) as [H|[H|H]]; [by destruct (My i x H Hx)|done|by destruct (Mx j y H Hy)].
Qed.

(** The gate of the stream [key] is where the packets [h] it has seen allow. *)
Definition stream_history (key : Z) (h : list seen) (st : egress_session) : Prop :=
  forall i x, first_slot key (es_schedulers st) i x -> gate_history (slot_sched x) h.
Lemma first_slot_calm key l l' i y : Forall2 slot_calm l l' -> first_slot key l' i y -> exists x, first_slot key l i x /\ slot_calm x y.
Proof.
  intros H (Hy & Hk & Hm). destruct (Forall2_lookup_r _ _ _ _ _ H Hy) as (x & Hx & Hc). exists x. split; [|done].
  split; [done|]. split; [destruct Hc; congruence|]. intros j z Hj Hz. destruct (Forall2_lookup_l _ _ _ _ _ H Hz) as (z' & Hz' & Ez & _).
  rewrite <- Ez. by apply (Hm j).
Qed.
Lemma calm_history key h st st' : tables_calm st st' -> stream_history key h st -> stream_history key h st'.
Proof. intros Ht H i y Hy. destruct (first_slot_calm _ _ _ _ _ Ht Hy) as (x & Hx & _ & Hc). eapply gate_history_calm; [exact Hc|by eapply H]. Qed.
Lemma history_same key h st st' : es_schedulers st' = es_schedulers st -> stream_history key h st -> stream_history key h st'.
Proof. unfold stream_history. by intros ->. Qed.

Definition has_slot (st : egress_session) (i : nat) (key : Z) : Prop := exists x, first_slot key (es_schedulers st) i x.
Lemma has_slot_at st i key : has_slot st i key -> first_slot key (es_schedulers st) i (slot_at (es_schedulers st) i).
Proof. intros (x & Hx). unfold slot_at. rewrite (nth_lookup_Some _ _ _ _ (proj1 Hx)). exact Hx. Qed.
Lemma has_slot_calm st st' i key : tables_calm st st' -> has_slot st i key -> has_slot st' i key /\ calm (sched_at st i) (sched_at st' i).
Proof.
  intros H Hi. apply has_slot_at in Hi as (Hx & Hk & Hm). destruct (Forall2_lookup_l _ _ _ _ _ H Hx) as (y & Hy & E & G). split.
  - exists y. split; [done|]. split; [congruence|]. intros j z Hj Hz. destruct (Forall2_lookup_r _ _ _ _ _ H Hz) as (z' & Hz' & Ez & _).
    rewrite Ez. by apply (Hm j).
  - unfold sched_at at 2, slot_at. by rewrite (nth_lookup_Some _ _ _ _ Hy).
Qed.
Lemma set_sched_first st i s key j y :
  first_slot key (es_schedulers (set_sched st i s)) j y -> exists x, first_slot key (es_schedulers st) j x /\ slot_sched y = if decide (i = j) then s else slot_sched x.
Proof.
  change (es_schedulers (set_sched st i s)) with (alter (fun x => x <| slot_sched := s |>) i (es_schedulers st)). intros (Hy & Hk & Hm).
  assert (Hm' : forall k z, (k < j)%nat -> es_schedulers st !! k = Some z -> slot_publisher_id z <> key).
  { intros k z Hj Hz. destruct (decide (i = k)) as [->|]; [|apply (Hm k z Hj); by rewrite list_lookup_alter_ne].
    change (slot_publisher_id (z <| slot_sched := s |>) <> key). apply (Hm k _ Hj). by rewrite list_lookup_alter_eq, Hz. }
  destruct (decide (i = j)) as [->|Hne].
  - rewrite list_lookup_alter_eq in Hy. destruct (es_schedulers st !! j) as [x|] eqn:Ex; [|done]. injection Hy as <-. by exists x.
  - rewrite list_lookup_alter_ne in Hy by done. by exists y.
Qed.
Lemma set_sched_at st i key s : has_slot st i key -> has_slot (set_sched st i s) i key /\ sched_at (set_sched st i s) i = s.
Proof.
  intros (x & Hx & Hk & Hm). unfold has_slot, sched_at, slot_at.
  change (es_schedulers (set_sched st i s)) with (alter (fun x => x <| slot_sched := s |>) i (es_schedulers st)).
  set (y := x <| slot_sched := s |>). assert (Hy : alter (fun x => x <| slot_sched := s |>) i (es_schedulers st) !! i = Some y) by (by rewrite list_lookup_alter_eq, Hx).
  rewrite (nth_lookup_Some _ _ _ _ Hy). split; [|done]. exists y. split; [done|]. split; [done|]. intros j z Hj.
  rewrite list_lookup_alter_ne by lia. by apply Hm.
Qed.
(** A new scheduler in the slot of the stream [k]. *)
Lemma set_sched_history key h st i s k :
  has_slot st i k -> (k <> key -> stream_history key h st) -> (k = key -> gate_history s h) -> stream_history key h (set_sched st i s).
Proof.
  intros (x & Hx) H Hs j y Hy. destruct (set_sched_first _ _ _ _ _ _ Hy) as (x' & Hx' & ->). destruct (decide (k = key)) as [E|E].
  - rewrite decide_True; [auto|]. rewrite E in Hx. by destruct (first_slot_unique _ _ _ _ _ _ Hx Hx').
  - rewrite decide_False; [by apply (H E j)|]. intros ->. destruct Hx as (Hx & Kx & _), Hx' as (Hx' & Kx' & _). congruence.
Qed.

(** Looking a stream up never opens a gate. *)
Lemma for_stream_history ready st pub k o table key h :
  key <> 0 -> sfu_layer_scheduler_for_stream ready (es_schedulers st) pub k = (o, table) -> stream_history key h st ->
  stream_history key h (st <| es_schedulers := table |>) /\ forall i, o = Some i -> has_slot (st <| es_schedulers := table |>) i (stream_key pub k).
Proof.
  intros Hkey. unfold sfu_layer_scheduler_for_stream. destruct (_ || _); [intros [= <- <-] H; split; [exact H|done]|].
  pose proof (find_slot_first (stream_key pub k) (es_schedulers st) 0 None) as F. pose proof (find_slot_spec (stream_key pub k) (es_schedulers st)) as G.
  destruct (find_slot _ _ 0 None) as [[j|] f]; cbn [fst] in F.
  - destruct F as (j' & x & -> & Hf). cbn [Nat.add] in *. clear G. unfold slot_at. rewrite (nth_lookup_Some _ _ _ _ (proj1 Hf)). intros [= <- <-] H.
    set (y := x <| slot_sched ::= _ |>).
    assert (Hc : tables_calm st (st <| es_schedulers := <[j' := y]> (es_schedulers st) |>)).
    { unfold tables_calm. change (es_schedulers (st <| es_schedulers := ?t |>)) with t. rewrite <- (list_insert_id (es_schedulers st) j' x (proj1 Hf)) at 1.
      apply Forall2_insert; [apply (tables_same st st eq_refl)|]. split; [done|apply set_source_calm]. }
    split; [by eapply calm_history|]. intros i [= <-]. apply (has_slot_calm st); [done|by exists x].
  - destruct f as [j|]; [|intros [= <- <-] H; split; [exact H|done]]. destruct G as [(x & Hx & Hz) _]. pose proof (lookup_lt_Some _ _ _ Hx) as Hn.
    intros [= <- <-] H. set (y := mk_slot _ _). rewrite Forall_lookup in F. split.
    + intros i z. change (es_schedulers (st <| es_schedulers := ?t |>)) with t. intros (Hl & Hk & Hm). destruct (decide (j = i)) as [->|Hne].
      * rewrite list_lookup_insert_eq in Hl by done. injection Hl as <-. eapply gate_history_calm; [apply set_source_calm|]. by constructor.
      * rewrite list_lookup_insert_ne in Hl by done. apply (H i). split; [done|]. split; [done|]. intros j' y' Hj' Hy'.
        destruct (decide (j = j')) as [->|]; [congruence|]. apply (Hm j' y' Hj'). by rewrite list_lookup_insert_ne.
    + intros i [= <-]. exists y. change (es_schedulers (st <| es_schedulers := ?t |>)) with t. split; [by apply list_lookup_insert_eq|]. split; [done|].
      intros j' y' Hj'. rewrite list_lookup_insert_ne by lia. apply F.
Qed.

(** The packet as its scheduler sees it, when it has one. *)
Definition layered (m : sfu_egress_media) : bool := em_has_svc m && em_has_video m && negb (em_is_audio m) && negb (publisher_id m =? 0).
Definition layered_packet (m : sfu_egress_media) : video_packet := mk_video_packet (em_svc m) (em_is_keyframe m).
Definition media_key (m : sfu_egress_media) : Z := stream_key (publisher_id m) (em_source m).
(** There is a scheduler for the packet, which knows its layer. *)
Definition reaches (st : egress_session) (m : sfu_egress_media) : bool :=
  match sfu_layer_scheduler_for_stream (schedulers_ready st) (es_schedulers st) (publisher_id m) (em_source m) with
  | (Some _, _) => sd_sid (em_svc m) <? 8
  | (None, _) => false
  end.
(** What a call adds to what was seen of the streams: the packet, when it was
    accepted, or when it was [asked] for and reached its scheduler. *)
Definition noticed (st : egress_session) (m : sfu_egress_media) (asked admitted : bool) : list (Z * seen) :=
  if layered m && (admitted || asked && reaches st m) then [(media_key m, (layered_packet m, admitted))] else [].
Definition of_stream (key : Z) (l : list (Z * seen)) : list seen := map snd (List.filter (fun e => e.1 =? key) l).
(** The packet went to the slot [i] of its stream, whose scheduler answered. *)
Definition scheduled (ok : bool) (st : egress_session) (m : sfu_egress_media) (h : list seen) (key : Z) (i : nat) (o : sfu_layer_scheduler_decision) : Prop :=
  layered m = true /\ has_slot st i (media_key m) /\ (media_key m <> key -> stream_history key h st) /\
  exists s, sfu_layer_scheduler_prepare_packet s (em_svc m) (em_is_keyframe m) = (ok, sched_at st i, o) /\ (media_key m = key -> gate_history s h).
(** What is known after a call: the new history, and that what was forwarded is decodable. *)
Definition told (key : Z) (h : list seen) (l : list (Z * seen)) (st' : egress_session) : Prop :=
  stream_history key (h ++ of_stream key l) st' /\ forall p, of_stream key l = [(p, true)] -> decodable_after h p.
Lemma told_nothing key h st : stream_history key h st -> told key h [] st.
Proof. intros H. split; [by rewrite app_nil_r|done]. Qed.
Lemma told_calm key h l st st' : tables_calm st st' -> told key h l st -> told key h l st'.
Proof. intros Ht [H1 H2]. split; [by eapply calm_history|done]. Qed.

(** The end of a packet at its scheduler. *)
Lemma end_told key h ok st st' m i o (fw : bool) :
  scheduled ok st m h key i o -> tables_calm st st' -> (fw = true -> ok = true) ->
  told key h (map (pair (media_key m)) (seen_packet (layered_packet m) fw))
    (set_sched st' i (if fw then sfu_layer_scheduler_commit_packet (sched_at st' i) o else sfu_layer_scheduler_reject_packet (sched_at st' i) o)).
Proof.
  intros (_ & Hi & Hother & s & Ep & Hg) Ht Hfw. destruct (has_slot_calm _ _ _ _ Ht Hi) as [Hi' Hc].
  assert (Hpg := fun E : media_key m = key => packet_gate s (layered_packet m) ok (sched_at st i) o (sched_at st' i) h fw (Hg E) Ep Hc Hfw).
  unfold told, of_stream. destruct (Z.eqb_spec (media_key m) key) as [E|E].
  - replace (map snd _) with (seen_packet (layered_packet m) fw).
    2: { unfold seen_packet. destruct (_ <? 8); cbn; [|done]. by rewrite (proj2 (Z.eqb_eq _ _) E). }
    destruct (Hpg E) as [H1 H2]. split; [by apply (set_sched_history _ _ _ _ _ (media_key m)); [done|intros ?|]|].
    intros p Hp. unfold seen_packet in Hp. destruct (_ <? 8); [|done]. injection Hp as <- Hp. by apply H2.
  - replace (map snd _) with (@nil seen).
    2: { unfold seen_packet. destruct (_ <? 8); cbn; [|done]. by rewrite (proj2 (Z.eqb_neq _ _) E). }
    rewrite app_nil_r. split; [|done]. apply (set_sched_history _ _ _ _ _ (media_key m)); [done| |done]. intros _. eapply calm_history; [exact Ht|auto].
Qed.
Lemma ask_same st i m : es_schedulers (ask_if_needed st i m) = es_schedulers st.
Proof. unfold ask_if_needed. by destruct (_ && _). Qed.
Lemma rejection_told key h ok st m i o :
  scheduled ok st m h key i o -> told key h (map (pair (media_key m)) (seen_packet (layered_packet m) false)) (sfu_egress_handle_scheduler_rejection st i o m).
Proof.
  intros Hs. unfold sfu_egress_handle_scheduler_rejection. eapply told_calm; [apply tables_same, ask_same|].
  eapply told_calm; [apply abandon_tables|]. exact (end_told key h ok st st m i o false Hs (tables_same _ _ eq_refl) ltac:(done)).
Qed.
Lemma schedule_told key h st m :
  key <> 0 -> stream_history key h st ->
  match schedule_packet st m with
  | inl st' => told key h (noticed st m true false) st'
  | inr (st', None, _) => layered m = false /\ stream_history key h st'
  | inr (st', Some (i, o), _) => scheduled true st' m h key i o /\ forall fw, noticed st m true fw = map (pair (media_key m)) (seen_packet (layered_packet m) fw)
  end.
Proof.
  intros Hkey H. unfold schedule_packet, noticed, reaches. fold (layered m). destruct (layered m) eqn:El; [|done].
  destruct (sfu_layer_scheduler_for_stream _ _ _ _) as [o table] eqn:Ef.
  destruct (for_stream_history _ _ _ _ _ _ key h Hkey Ef H) as [H1 Hs]. destruct o as [i|]; [|by apply told_nothing]. specialize (Hs i eq_refl).
  set (st1 := st <| es_schedulers := table |>) in *. clearbody st1. set (s := sched_at st1 i). set (st2 := if _ || _ then _ else st1).
  assert (E2 : es_schedulers st2 = es_schedulers st1) by (unfold st2; by destruct (_ || _)). clearbody st2.
  destruct (has_slot_calm st1 st2 i (media_key m) (tables_same _ _ E2) Hs) as [Hs2 _].
  assert (Hg : media_key m = key -> gate_history s h) by (intros <-; eapply H1, has_slot_at, Hs).
  destruct (sfu_layer_scheduler_prepare_packet s (em_svc m) (em_is_keyframe m)) as [[ok s'] o] eqn:Ep.
  destruct (set_sched_at st2 i (media_key m) s' Hs2) as [Hs3 Hat].
  assert (Hsch : scheduled ok (set_sched st2 i s') m h key i o).
  { split; [done|]. split; [done|]. split; [|exists s; by rewrite Hat]. intros E. apply (set_sched_history _ _ _ _ _ (media_key m)); [done| |done].
    intros _. by apply (history_same _ _ st1). }
  destruct ok.
  - split; [done|]. intros fw. apply prepare_forward in Ep as [Hsid _]. unfold seen_packet. cbn. rewrite (proj2 (Z.ltb_lt _ _) Hsid). by rewrite orb_true_r.
  - cbn [andb orb]. pose proof (rejection_told key h false _ m i o Hsch) as Hr. unfold seen_packet in Hr. cbn [layered_packet vp_desc] in Hr. by destruct (_ <? 8).
Qed.
Lemma process_scheduled_told key h st i o cls pkt dst dl m w ok st' :
  scheduled true st m h key i o -> process_scheduled st (Some (i, o)) cls pkt dst dl m w = Ok (ok, st') ->
  told key h (map (pair (media_key m)) (seen_packet (layered_packet m) ok)) st'.
Proof.
  intros Hs E. unfold process_scheduled in E. apply res_bind_ok in E as ([[ok1 st1] rep] & E1 & E). injection E as <- <-.
  apply process_local_tables in E1. unfold finish_packet. eapply told_calm; [apply backlog_tables|].
  pose proof (end_told key h true st st1 m i o ok1 Hs E1 ltac:(done)) as Ht. destruct ok1; [exact Ht|].
  eapply told_calm; [apply tables_same, ask_same|exact Ht].
Qed.
Lemma process_plain_told key h st cls pkt dst dl m w ok st' :
  stream_history key h st -> process_scheduled st None cls pkt dst dl m w = Ok (ok, st') -> told key h [] st'.
Proof.
  intros H E. unfold process_scheduled in E. apply res_bind_ok in E as ([[ok1 st1] rep] & E1 & E). injection E as <- <-.
  apply process_local_tables in E1. apply told_nothing. unfold finish_packet. eapply calm_history; [apply backlog_tables|by eapply calm_history].
Qed.

(** * Any use of the egress *)

(** What the worker does with the egress of a session: packets to forward,
    queues to drain, a new rate for a stream, pruning. *)
Inductive egress_event :=
  | EgOwned (owned : bool) (pkt : packet_in) (dst : list Z) (dst_len : Z) (m : sfu_egress_media) (w : outside)
  | EgCopied (owned : bool) (plain : list Z) (reserved : option (bool * list Z)) (arena pool : option (list Z)) (dst : list Z) (dst_len : Z)
      (m : sfu_egress_media) (w : outside)
  | EgDrain (k : queue_key) (now_us : Z) (ios : list send_io)
  | EgRate (i : nat) (bps now_us : Z)
  | EgPrune (entries : list receiver_view).

(** The streams and the packets seen of them, each with whether it was
    accepted to be queued or sent, and the session. *)
Definition egress_step (st : egress_session) (ev : egress_event) : res (list (Z * seen) * egress_session) :=
  match ev with
  | EgOwned owned pkt dst dl m w => let! r := sfu_egress_process st owned pkt dst dl m w in Ok (noticed st m owned r.1, r.2)
  | EgCopied owned plain reserved arena pool dst dl m w =>
      let! r := sfu_egress_process_plaintext_output st owned plain reserved arena pool dst dl m w in
      Ok (noticed st m (owned && ss_accepts_work (es_send st)) r.1, r.2)
  | EgDrain k now ios => let! r := drain_slot st k now ios in Ok ([], r.2)
  | EgRate i bps now => Ok ([], set_sched st i (sfu_layer_scheduler_set_bitrate (sched_at st i) bps now))
  | EgPrune entries => Ok ([], st <| es_schedulers := sfu_layer_scheduler_prune (schedulers_ready st) (es_schedulers st) entries |>)
  end.
Fixpoint egress_run (st : egress_session) (evs : list egress_event) : res (list (Z * seen) * egress_session) :=
  match evs with
  | [] => Ok ([], st)
  | ev :: evs => let! r := egress_step st ev in let! r' := egress_run r.2 evs in Ok (r.1 ++ r'.1, r'.2)
  end.

(** ** The gate of a stream *)

Lemma rate_history key h st i bps now :
  stream_history key h st -> stream_history key h (set_sched st i (sfu_layer_scheduler_set_bitrate (sched_at st i) bps now)).
Proof.
  intros H j y Hy. destruct (set_sched_first _ _ _ _ _ _ Hy) as (x & Hx & ->). destruct (decide (i = j)) as [->|]; [|by apply (H j)].
  eapply gate_history_calm; [apply set_bitrate_calm|]. apply (H j). apply has_slot_at. by exists x.
Qed.
Lemma keep_loop_same entries table keep i j x y :
  length keep = length table -> table !! i = Some x -> table !! j = Some y -> slot_publisher_id x = slot_publisher_id y -> keep !! i = keep !! j ->
  keep_loop entries table keep !! i = keep_loop entries table keep !! j.
Proof.
  intros Hl Hx Hy E. revert keep Hl. induction entries as [|e entries IH]; intros keep Hl Hk; cbn [keep_loop]; [done|]. apply IH; [rewrite length_zip_with; lia|].
  rewrite !lookup_zip_with, Hx, Hy, <- Hk. cbn. destruct (keep !! i); [|done]. cbn. unfold keeps. by rewrite E.
Qed.
Lemma prune_history key h ready st entries :
  key <> 0 -> stream_history key h st -> stream_history key h (st <| es_schedulers := sfu_layer_scheduler_prune ready (es_schedulers st) entries |>).
Proof.
  intros Hk H. unfold sfu_layer_scheduler_prune. destruct (negb ready); [exact H|]. intros i y. change (es_schedulers (st <| es_schedulers := ?t |>)) with t.
  set (keep := keep_loop _ _ _). intros (Hy & Ey & Hm). apply lookup_zip_with_Some in Hy as (x & b & -> & Hx & Hb).
  destruct (negb (slot_publisher_id x =? 0) && negb b) eqn:G; [by cbn in Ey; congruence|]. apply (H i). split; [done|]. split; [done|].
  intros j z Hj Hz Ez. assert (Hb' : keep !! j = Some b).
  { rewrite <- Hb. apply (keep_loop_same _ _ _ j i z x); [by rewrite length_replicate|done|done|congruence|].
    rewrite !lookup_replicate_2; [done|by eapply lookup_lt_Some|by eapply lookup_lt_Some]. }
  apply (Hm j z Hj); [|done]. apply lookup_zip_with_Some. exists z, b. split; [|done]. rewrite Ez, <- Ey, G. done.
Qed.
Lemma drain_history key h st k now ios ok st' : drain_slot st k now ios = Ok (ok, st') -> stream_history key h st -> stream_history key h st'.
Proof.
  unfold drain_slot. destruct (_ =? 0); [by intros [= <- <-]|]. intros E. apply res_bind_ok in E as ([[[[b q] g] out] n] & _ & E).
  injection E as <- <-. apply history_same. by rewrite put_queue_tables.
Qed.
Lemma unasked_nothing st m : noticed st m false false = [].
Proof. unfold noticed. by rewrite andb_false_r. Qed.
Lemma plain_nothing st m asked admitted : layered m = false -> noticed st m asked admitted = [].
Proof. unfold noticed. by intros ->. Qed.

Lemma egress_step_told key h st ev l st' :
  key <> 0 -> stream_history key h st -> egress_step st ev = Ok (l, st') -> told key h l st'.
Proof.
  intros Hk H E. destruct ev; cbn [egress_step] in E.
  - apply res_bind_ok in E as ([ok st1] & E1 & E). injection E as <- <-. unfold sfu_egress_process in E1. cbn [fst snd].
    destruct owned; cbn [negb] in E1; [|injection E1 as <- <-; rewrite unasked_nothing; by apply told_nothing].
    pose proof (schedule_told key h st m Hk H) as Hs. destruct (schedule_packet st m) as [st2|[[st2 [[i o]|]] cls]].
    + by injection E1 as <- <-.
    + destruct Hs as [Hs ->]. by eapply process_scheduled_told.
    + destruct Hs as [Hl Hs]. rewrite plain_nothing by done. by eapply process_plain_told.
  - apply res_bind_ok in E as ([ok st1] & E1 & E). injection E as <- <-. unfold sfu_egress_process_plaintext_output in E1. cbn [fst snd].
    destruct (negb owned || _) eqn:Eo.
    { injection E1 as <- <-. replace (owned && _) with false by (by destruct owned; [destruct (ss_accepts_work _)|]). rewrite unasked_nothing. by apply told_nothing. }
    replace (owned && _) with true by (by destruct owned; [destruct (ss_accepts_work _)|]).
    pose proof (schedule_told key h st m Hk H) as Hs. destruct (schedule_packet st m) as [st2|[[st2 [[i o]|]] cls]]; cbv zeta in E1.
    + by injection E1 as <- <-.
    + destruct Hs as [Hs ->]. destruct (choose_output _ _ _ _) as [b|]; [destruct (_ <? _)|].
      * injection E1 as <- <-. by eapply rejection_told.
      * by eapply process_scheduled_told.
      * injection E1 as <- <-. by eapply rejection_told.
    + destruct Hs as [Hl Hs]. rewrite plain_nothing by done. destruct (choose_output _ _ _ _) as [b|]; [destruct (_ <? _)|].
      * injection E1 as <- <-. by apply told_nothing.
      * by eapply process_plain_told.
      * injection E1 as <- <-. by apply told_nothing.
  - apply res_bind_ok in E as ([ok st1] & E1 & E). injection E as <- <-. apply told_nothing. by eapply drain_history.
  - injection E as <- <-. by apply told_nothing, rate_history.
  - injection E as <- <-. by apply told_nothing, prune_history.
Qed.
Lemma of_stream_app key l l' : of_stream key (l ++ l') = of_stream key l ++ of_stream key l'.
Proof. unfold of_stream. by rewrite List.filter_app, map_app. Qed.
Lemma egress_run_told key evs : forall h st l st',
  key <> 0 -> stream_history key h st -> egress_run st evs = Ok (l, st') ->
  forall l1 p l2, of_stream key l = l1 ++ (p, true) :: l2 -> decodable_after (h ++ l1) p.
Proof.
  induction evs as [|ev evs IH]; intros h st l st' Hk H E l1 p l2 Hl; cbn [egress_run] in E.
  { injection E as <- <-. by destruct l1. }
  apply res_bind_ok in E as ([la st1] & E1 & E). apply res_bind_ok in E as ([lb st2] & E2 & E). injection E as <- <-. cbn [fst snd] in *.
  destruct (egress_step_told key h st ev la st1 Hk H E1) as [H1 Hd]. rewrite of_stream_app in Hl.
  assert (Hone : (length (of_stream key la) <= 1)%nat).
  { unfold of_stream. rewrite length_map. transitivity (length la); [apply List.filter_length_le|]. destruct ev; cbn [egress_step] in E1;
      try (apply res_bind_ok in E1 as (r & _ & E1)); injection E1 as <- <-; try (cbn; lia); unfold noticed; case_match; cbn; lia. }
  destruct (of_stream key la) as [|a [|b la']]; [| |cbn in Hone; lia].
  - rewrite app_nil_r in H1. by apply (IH h st1 lb st2 Hk H1 E2 l1 p l2).
  - destruct l1 as [|a' l1]; cbn in Hl; injection Hl as -> Hl.
    + rewrite app_nil_r. by apply Hd.
    + specialize (IH (h ++ [a']) st1 lb st2 Hk H1 E2 l1 p l2 Hl). by rewrite <- app_assoc in IH.
Qed.

(** All slots of a stream wait for a keyframe. *)
Definition stream_gated (key : Z) (st : egress_session) : Prop :=
  Forall (fun x => slot_publisher_id x = key -> gated (slot_sched x)) (es_schedulers st).
Lemma stream_gated_history key st : stream_gated key st -> stream_history key [] st.
Proof. unfold stream_gated. rewrite Forall_lookup. intros H i x (Hx & Hk & _). by apply gated_history, (H i). Qed.

(** ** Dropped frames close the gate *)

Lemma stream_key_value pub k : is_u32 pub -> stream_key pub k = pub * 256 + kind_value k.
Proof.
  intros Hp. unfold stream_key, is_u32 in *. rewrite Z.shiftl_mul_pow2 by lia. unfold u64. rewrite Z.mod_small by lia.
  rewrite <- (Z.shiftl_mul_pow2 pub 8) by lia. rewrite lor_shiftl_add by (destruct k; cbn; lia). lia.
Qed.
Lemma invalidate_slot_id k p x : slot_publisher_id (invalidate_slot k p x) = slot_publisher_id x.
Proof. unfold invalidate_slot. repeat case_match; done. Qed.
Lemma invalidate_slot_gates k p pub x : is_u32 pub -> 0 < pub -> p = 0 \/ p = pub -> slot_publisher_id x = stream_key pub k ->
  gated (slot_sched (invalidate_slot k p x)).
Proof.
  intros Hp Hpos Hor E. unfold invalidate_slot. rewrite E, (stream_key_value pub k Hp). unfold is_u32, u8, u32 in *.
  assert (Hk : 0 <= kind_value k < 256) by (destruct k; cbn; lia). rewrite Z.shiftr_div_pow2 by lia. change (2 ^ 8) with 256.
  rewrite Z.div_add_l by lia. rewrite (Z.div_small _ _ Hk), Z.add_0_r, (Z.mod_small pub) by lia.
  replace ((pub * 256 + kind_value k) mod 256) with (kind_value k) by (rewrite Z.add_comm, Z_mod_plus_full, Z.mod_small; lia).
  rewrite (proj2 (Z.eqb_neq _ _)) by lia. rewrite Z.eqb_refl. cbn [negb orb].
  replace (negb (p =? 0) && negb (pub =? p)) with false by (destruct Hor as [-> | ->]; [done|]; rewrite Z.eqb_refl; by rewrite andb_false_r). done.
Qed.
Lemma invalidate_gates st k p pub : schedulers_ready st = true -> is_u32 pub -> 0 < pub -> p = 0 \/ p = pub ->
  stream_gated (stream_key pub k) (sfu_egress_invalidate_publisher_scheduler st k p).
Proof.
  intros Hr Hp Hpos Hor. unfold sfu_egress_invalidate_publisher_scheduler. rewrite Hr. cbn [negb]. unfold stream_gated.
  change (es_schedulers (st <| es_schedulers ::= ?f |>)) with (f (es_schedulers st)). apply Forall_fmap, Forall_true. intros x.
  change (slot_publisher_id (invalidate_slot k p x) = stream_key pub k -> gated (slot_sched (invalidate_slot k p x))).
  rewrite invalidate_slot_id. by apply invalidate_slot_gates.
Qed.
Lemma invalidate_ready st k p : schedulers_ready (sfu_egress_invalidate_publisher_scheduler st k p) = schedulers_ready st.
Proof.
  unfold sfu_egress_invalidate_publisher_scheduler. destruct (negb _); [done|]. unfold schedulers_ready.
  change (es_send (st <| es_schedulers ::= ?f |>)) with (es_send st). change (es_schedulers (st <| es_schedulers ::= ?f |>)) with (f (es_schedulers st)).
  f_equal. by destruct (es_schedulers st).
Qed.
Lemma calm_gated key st st' : tables_calm st st' -> stream_gated key st -> stream_gated key st'.
Proof.
  unfold tables_calm, stream_gated. induction 1 as [|x y l l' [E [[G1 G2 _] _]] _ IH]; [done|]. intros [Hx Hl]%Forall_cons_1.
  apply Forall_cons_2; [|auto]. intros Ey. destruct Hx as [Hn Ha]; [congruence|]. split.
  - destruct (ls_needs_keyframe (slot_sched y)); [done|]. rewrite G1 in Hn; done.
  - destruct (ls_keyframe_active (slot_sched y)); [|done]. rewrite G2 in Ha; done.
Qed.
Lemma invalidate_each_gates ids : forall st k pub, schedulers_ready st = true -> is_u32 pub -> 0 < pub -> In pub ids ->
  stream_gated (stream_key pub k) (invalidate_each st k ids).
Proof.
  induction ids as [|id ids IH]; intros st k pub Hr Hp Hpos Hin; [done|]. cbn [invalidate_each]. destruct Hin as [->|Hin].
  - eapply calm_gated; [apply invalidate_each_tables|]. apply invalidate_gates; try done. by right.
  - apply IH; try done. by rewrite invalidate_ready.
Qed.

(** ** Every use keeps the resources *)

Lemma set_sched_inv st x i s : egress_inv st x -> egress_inv (set_sched st i s) x.
Proof. by apply egress_inv_same. Qed.
Lemma ask_inv st x i m : egress_inv st x -> egress_inv (ask_if_needed st i m) x.
Proof. unfold ask_if_needed. destruct (_ && _); [by apply egress_inv_same|done]. Qed.
Lemma rejection_inv st x i o m : egress_inv st x -> egress_inv (sfu_egress_handle_scheduler_rejection st i o m) x.
Proof. intros. unfold sfu_egress_handle_scheduler_rejection. by apply ask_inv, abandon_inv, set_sched_inv. Qed.
Lemma schedule_inv st x m : egress_inv st x ->
  match schedule_packet st m with inl st' => egress_inv st' x | inr (st', _, _) => egress_inv st' x end.
Proof.
  intros H. unfold schedule_packet. destruct (_ && _ && _ && _); [|done].
  destruct (sfu_layer_scheduler_for_stream _ _ _ _) as [[i|] table]; [|by apply (egress_inv_same st)].
  set (st1 := st <| es_schedulers := table |>). assert (H1 : egress_inv st1 x) by (by apply (egress_inv_same st)). clearbody st1.
  set (st2 := if _ || _ then _ else st1). assert (H2 : egress_inv st2 x) by (unfold st2; destruct (_ || _); [by apply (egress_inv_same st1)|done]).
  clearbody st2. destruct (sfu_layer_scheduler_prepare_packet _ _ _) as [[[|] s] o]; [by apply set_sched_inv|by apply rejection_inv, set_sched_inv].
Qed.
Lemma backlog_drops_inv st x k rep m : egress_inv st x -> egress_inv (sfu_egress_invalidate_backlog_drops st k rep m) x.
Proof.
  intros H. unfold sfu_egress_invalidate_backlog_drops. destruct (_ || _); [done|]. set (st1 := if dr_truncated rep then _ else _).
  assert (H1 : egress_inv st1 x).
  { apply (egress_inv_same st); [|done]. unfold st1. destruct (dr_truncated rep); [apply invalidate_resources|apply invalidate_each_resources]. }
  clearbody st1. destruct (_ =? 0); [done|by apply (egress_inv_same st1)].
Qed.
Lemma finish_inv st x d ok m rep : egress_inv st x -> egress_inv (finish_packet st d ok m rep) x.
Proof.
  intros H. unfold finish_packet. apply backlog_drops_inv. destruct d as [[i o]|]; [|done].
  destruct ok; [by apply set_sched_inv|by apply ask_inv, set_sched_inv].
Qed.
Lemma process_scheduled_inv st d cls pkt dst dl m w : egress_inv st 0 -> packet_fits pkt -> 0 <= em_video_pt m ->
  exists ok st', process_scheduled st d cls pkt dst dl m w = Ok (ok, st') /\ egress_inv st' 0.
Proof.
  intros H Hp Hm. unfold process_scheduled.
  destruct (process_local_inv st pkt dst dl m cls (option_map snd d) w sfu_paced_send_drop_report_init H Hp Hm) as (ok & st1 & rep & -> & H1).
  do 2 eexists. split; [done|]. by apply finish_inv.
Qed.
Lemma drain_slot_inv st k now ios : egress_inv st 0 -> valid_key k ->
  exists ok st', drain_slot st k now ios = Ok (ok, st') /\ egress_inv st' 0.
Proof.
  intros H Hk. unfold drain_slot. destruct (_ =? 0); [by do 2 eexists|]. destruct (queue_at_ok st 0 k H Hk) as [Hi Hb].
  destruct (drain_spec (queue_at st k) (es_send st) now ios SFU_PACED_SEND_MAX_DRAIN_PER_SCAN Hi Hb (ei_cache _ _ H) ltac:(done))
    as (q & g & out & l1 & E & _).
  assert (Hok : paced_state_ok (slot_state st k no_reservation)).
  { constructor; [exact Hi|exact Hb|exact (ei_cache _ _ H)|]. unfold slot_state, ps_pacer. cbn. unfold es_pacer. lia. }
  pose proof (paced_exec_ok _ (OpDrain now ios SFU_PACED_SEND_MAX_DRAIN_PER_SCAN)
    (mk_paced_state q g no_reservation (ps_others (slot_state st k no_reservation))) Hok) as Hx.
  cbn [paced_exec] in Hx. change (ps_queue (slot_state st k no_reservation)) with (queue_at st k) in Hx.
  change (ps_session (slot_state st k no_reservation)) with (es_send st) in Hx. rewrite E in Hx |- *. cbn [res_bind].
  destruct (Hx eq_refl) as [Hi' Hb' Hc' Hh']. clear Hx.
  change (reserved_bytes (ss_pacer g) =
    reserved_bytes (es_pacer st) - held no_reservation - queue_held (contents (queue_at st k)) + held no_reservation + queue_held (contents q)) in Hh'.
  set (st1 := st <| es_send := g |> <| es_out ::= fun l => l ++ out |>). do 2 eexists. split; [done|].
  assert (H1 : egress_inv st1 (reserved_bytes (ss_pacer g) - queues_held st)).
  { destruct H as [A1 A2 A3 A4 A5 A6]. constructor; try done.
    change (reserved_bytes (ss_pacer g) = queues_held st + (reserved_bytes (ss_pacer g) - queues_held st)). lia. }
  apply (put_queue_inv st1 (reserved_bytes (ss_pacer g) - queues_held st)); [done|done|by split|].
  change (queue_at st1 k) with (queue_at st k). change (es_pacer st1) with (ss_pacer g). pose proof (ei_held _ _ H). lia.
Qed.

(** Buffers have room for an RTP header and a 32-bit size. *)
Definition buffer_fits (b : list Z) : Prop := bytes_ok b /\ 12 <= zlen b < 4294967294.
Definition event_fits (ev : egress_event) : Prop :=
  match ev with
  | EgOwned _ pkt _ _ m _ => packet_fits pkt /\ 0 <= em_video_pt m
  | EgCopied _ plain reserved arena pool _ _ m _ =>
      bytes_ok plain /\ (forall a b, reserved = Some (a, b) -> buffer_fits b) /\ (forall b, arena = Some b -> buffer_fits b) /\
      (forall b, pool = Some b -> buffer_fits b) /\ 0 <= em_video_pt m
  | EgDrain k _ _ => valid_key k
  | EgRate _ _ _ | EgPrune _ => True
  end.
Lemma choose_output_fits len reserved arena pool b :
  (forall a b, reserved = Some (a, b) -> buffer_fits b) -> (forall b, arena = Some b -> buffer_fits b) ->
  (forall b, pool = Some b -> buffer_fits b) -> choose_output len reserved arena pool = Some b -> buffer_fits b.
Proof.
  intros H1 H2 H3. unfold choose_output. destruct reserved as [[[|] r]|].
  - destruct (_ <? _); [by apply H3|]. intros [= <-]. by apply (H1 true).
  - intros [= <-]. by apply (H1 false).
  - destruct arena as [r|]; [destruct (_ <? _); [by apply H3|]; intros [= <-]; by apply H2|]. destruct pool; [|done]. intros [= <-]. by apply H3.
Qed.
Lemma copied_fits plain b : bytes_ok plain -> buffer_fits b -> zlen plain <= zlen b -> packet_fits (copied plain b).
Proof.
  intros Hp [Hb Hl] Hle. unfold packet_fits, copied. cbn. assert (Hz : zlen (plain ++ skipn (length plain) b) = zlen b).
  { unfold zlen in *. rewrite length_app, length_skipn. lia. }
  split_and!; try lia; [|apply zlen_nonneg]. apply Forall_app. split; [done|]. by apply Forall_drop.
Qed.
Lemma egress_step_inv st ev : egress_inv st 0 -> event_fits ev -> exists l st', egress_step st ev = Ok (l, st') /\ egress_inv st' 0.
Proof.
  intros H He. destruct ev; cbn [egress_step event_fits] in *.
  - destruct He as [Hp Hm]. unfold sfu_egress_process. destruct (negb owned); [by do 2 eexists|].
    pose proof (schedule_inv st 0 m H) as Hs. destruct (schedule_packet st m) as [st1|[[st1 d] cls]]; [by do 2 eexists|].
    destruct (process_scheduled_inv st1 d cls pkt dst dst_len m w Hs Hp Hm) as (ok & st2 & -> & H2). by do 2 eexists.
  - destruct He as (Hp & Hr & Ha & Hpl & Hm). unfold sfu_egress_process_plaintext_output. destruct (_ || _); [by do 2 eexists|].
    pose proof (schedule_inv st 0 m H) as Hs. destruct (schedule_packet st m) as [st1|[[st1 d] cls]]; [by do 2 eexists|]. cbv zeta.
    set (st3 := match d with Some (i, o) => _ | None => st1 end).
    assert (H3 : egress_inv st3 0) by (unfold st3; destruct d as [[i o]|]; [by apply rejection_inv|done]). clearbody st3.
    destruct (choose_output _ _ _ _) as [b|] eqn:Eb; [|by do 2 eexists]. destruct (Z.ltb_spec (zlen b) (zlen plain)); [by do 2 eexists|].
    apply choose_output_fits in Eb; [|done..].
    destruct (process_scheduled_inv st1 d cls (copied plain b) dst dst_len m w Hs (copied_fits _ _ Hp Eb ltac:(lia)) Hm) as (ok & st2 & -> & H2).
    by do 2 eexists.
  - destruct (drain_slot_inv st k now_us ios H He) as (ok & st1 & -> & H1). by do 2 eexists.
  - do 2 eexists. split; [done|]. by apply set_sched_inv.
  - do 2 eexists. split; [done|]. by apply (egress_inv_same st).
Qed.

(** ** An example: a camera keyframe and the picture after it *)

Definition ex_media (ts seq p b e : Z) (keyframe : bool) : sfu_egress_media :=
  mk_media (Some 9) (ex_desc ts seq p b e) MEDIA_VIDEO 77 78 7 0 96 97 true false true keyframe.
Definition ex_bytes (seq marker : Z) : list Z := [128; marker * 128 + 96; 0; seq; 0; 0; 4; 0; 0; 0; 0; 77; 1; 2; 3; 4] ++ zeros 24.
Definition ex_outside (now : Z) : outside := mk_outside (fun data len _ => Some (data, len)) true true now.
Definition ex_call (ts seq p b e : Z) (keyframe : bool) (now : Z) : egress_event :=
  EgOwned true (mk_packet_in (ex_bytes seq e) 16 40) [10; 0; 0; 1] 4 (ex_media ts seq p b e keyframe) (ex_outside now).
Definition ex_calls : list egress_event :=
  [ex_call 1000 9 1 1 1 false 100; ex_call 2000 10 0 1 0 true 200; ex_call 2000 11 0 0 1 true 300; EgDrain (false, 0%nat) 20000 [mk_send_io (Some 2048) true 0];
   ex_call 5000 12 1 1 1 false 30000].
Definition ex_egress : egress_session :=
  mk_egress ex_session sfu_rtp_seq_translator_init (replicate 299 sfu_paced_send_init) (replicate 299 sfu_paced_send_init)
    (replicate 4 sfu_layer_scheduler_slot_reset) 1 0 3 5 [] [].
Lemma ex_egress_inv : egress_inv ex_egress 0.
Proof.
  constructor; try done; try (split; [done|]; apply Forall_replicate; split; [apply init_paced_inv|by constructor]).
  exists ∅. apply init_represents.
Qed.
Lemma ex_call_fits ts seq p b e kf now : is_u8 seq -> e = 0 \/ e = 1 -> event_fits (ex_call ts seq p b e kf now).
Proof.
  intros Hs He. split; [|done]. split_and!; [|done|done|done|done|done].
  apply Forall_app. split; [|by apply bytes_ok_replicate]. repeat (apply Forall_cons_2; [unfold is_u8 in *; lia|]). apply Forall_nil_2.
Qed.
Lemma ex_calls_fit : Forall event_fits ex_calls.
Proof.
  unfold ex_calls. apply Forall_cons_2; [apply ex_call_fits; unfold is_u8; lia|]. apply Forall_cons_2; [apply ex_call_fits; unfold is_u8; lia|].
  apply Forall_cons_2; [apply ex_call_fits; unfold is_u8; lia|]. apply Forall_cons_2; [by apply Nat.ltb_lt|].
  apply Forall_cons_2; [apply ex_call_fits; unfold is_u8; lia|]. apply Forall_nil_2.
Qed.
Definition ex_early : video_packet := mk_video_packet (ex_desc 1000 9 1 1 1) false.
Definition ex_start : video_packet := mk_video_packet (ex_desc 2000 10 0 1 0) true.
Definition ex_end : video_packet := mk_video_packet (ex_desc 2000 11 0 0 1) true.
Definition ex_next : video_packet := mk_video_packet (ex_desc 5000 12 1 1 1) false.
Definition ex_result : list (Z * seen) * egress_session :=
  match egress_run ex_egress ex_calls with Ok r => r | _ => ([], ex_egress) end.
Lemma ex_ran : egress_run ex_egress ex_calls = Ok ex_result.
Proof. vm_compute. reflexivity. Qed.

(** * Properties *)

(** C1: Whatever packets are forwarded to a subscriber, whatever fails on the
    way (no scheduler, no translation, a header without room, SRTP, the
    pacer, the queue's allocation, the network), and however drains, rate
    changes and pruning come in between, every call completes without an
    access outside a buffer, all queues keep their invariant, the sequence
    translator stays a map of streams, and the pacer's reservations are
    exactly those of the packets still queued: no failure leaks a byte. *)
Theorem egress_never_leaks st evs :
  egress_inv st 0 -> Forall event_fits evs -> exists l st', egress_run st evs = Ok (l, st') /\ egress_inv st' 0.
Proof.
  intros H He. revert st H. induction He as [|ev evs Hev _ IH]; intros st H; cbn [egress_run]; [by do 2 eexists|].
  destruct (egress_step_inv st ev H Hev) as (la & st1 & -> & H1). destruct (IH st1 H1) as (lb & st2 & E2 & H2).
  cbn [res_bind fst snd]. rewrite E2. by do 2 eexists.
Qed.

Lemma egress_never_leaks_witness : exists l st', egress_run ex_egress ex_calls = Ok (l, st') /\ egress_inv st' 0.
Proof. exact (egress_never_leaks ex_egress ex_calls ex_egress_inv ex_calls_fit). Defined.

(** C2: From a session in which a layered stream waits for a keyframe (a new
    stream, a lost packet, a dropped frame), only decodable packets of the
    stream are ever accepted to be queued or sent, whatever happens to the
    packets of all streams in the queues, the pacer and the network.  Each is
    the first packet of a keyframe; or an intra packet of the base layer that
    continues, with the next sequence number, a keyframe whose base packets
    were all accepted so far; or it comes after such a keyframe was accepted
    from its first to its last base packet, where each base packet has the
    number after the one of the packet the scheduler saw before it, and no
    packet of another picture came in between. *)
Theorem egress_keyframe_gate key st evs l st' l1 p l2 :
  key <> 0 -> stream_gated key st -> egress_run st evs = Ok (l, st') -> of_stream key l = l1 ++ (p, true) :: l2 -> decodable_after l1 p.
Proof. intros Hk Hg E Hl. exact (egress_run_told key evs [] st l st' Hk (stream_gated_history _ _ Hg) E l1 p l2 Hl). Qed.

Lemma egress_keyframe_gate_witness :
  of_stream (stream_key 9 MEDIA_VIDEO) ex_result.1 = [(ex_early, false); (ex_start, true); (ex_end, true)] ++ (ex_next, true) :: [] /\
  decodable_after [(ex_early, false); (ex_start, true); (ex_end, true)] ex_next.
Proof.
  assert (E : of_stream (stream_key 9 MEDIA_VIDEO) ex_result.1 = [(ex_early, false); (ex_start, true); (ex_end, true)] ++ (ex_next, true) :: [])
    by (vm_compute; reflexivity).
  split; [exact E|].
  refine (egress_keyframe_gate (stream_key 9 MEDIA_VIDEO) ex_egress ex_calls ex_result.1 ex_result.2 _ _ [] _ _ _ E); [done| |].
  - unfold stream_gated. apply Forall_replicate. done.
  - rewrite ex_ran. by destruct ex_result.
Defined.

(** When trimming a backlog dropped frames of a publisher, its streams of
    that kind wait for a keyframe at the end of the call, even if the packet
    just committed completed one: the gate is closed after the commit. *)
Theorem backlog_drop_closes_gate st d admitted m report pub :
  schedulers_ready st = true -> is_u32 pub -> 0 < pub -> dr_frames report <> 0 -> dr_publisher_peer_ids report <> [] ->
  dr_truncated report = true \/ In pub (dr_publisher_peer_ids report) ->
  stream_gated (stream_key pub (em_source m)) (finish_packet st d admitted m report).
Proof.
  intros Hr Hp Hpos Hf Hids Hor. unfold finish_packet. set (st1 := match d with Some (i, o) => _ | None => st end).
  assert (Hr1 : schedulers_ready st1 = true).
  { unfold st1. destruct d as [[i o]|]; [|done]. assert (Hset : forall s, schedulers_ready (set_sched st i s) = true).
    { intros s. rewrite <- Hr. unfold schedulers_ready.
      change (es_schedulers (set_sched st i s)) with (alter (fun x => x <| slot_sched := s |>) i (es_schedulers st)).
      change (es_send (set_sched st i s)) with (es_send st). f_equal. by destruct (es_schedulers st), i. }
    destruct admitted; [apply Hset|]. unfold ask_if_needed. destruct (_ && _); apply Hset. }
  clearbody st1. unfold sfu_egress_invalidate_backlog_drops. rewrite (proj2 (Z.eqb_neq _ _) Hf), bool_decide_eq_false_2 by done. cbn [orb].
  set (st2 := if dr_truncated report then _ else _). assert (H2 : stream_gated (stream_key pub (em_source m)) st2).
  { unfold st2. destruct (dr_truncated report); [apply invalidate_gates; try done; by left|]. destruct Hor; [done|]. by apply invalidate_each_gates. }
  clearbody st2. destruct (_ =? 0); exact H2.
Qed.

Lemma backlog_drop_closes_gate_witness :
  stream_gated (stream_key 9 MEDIA_VIDEO)
    (finish_packet ex_result.2 None true (ex_media 5000 12 1 1 1 false) (mk_drop_report 1 false [9])).
Proof.
  refine (backlog_drop_closes_gate ex_result.2 None true (ex_media 5000 12 1 1 1 false)
            (mk_drop_report 1 false [9]) 9 _ _ _ _ _ _); try (by vm_compute).
  right. vm_compute. by left.
Defined.
