(* ===== verification/LayerUpdate.v ===== *)
(** A new bandwidth estimate, [sfu_svc_update_layers] in
    [src/pipeline/ingress.c]: it becomes the rate of the pacer, is divided
    between the streams the subscriber receives, and every stream's share goes
    to its layer scheduler and, as a demand, to its publisher.  The clock is
    read once a call: the readings of one call are taken to be equal. *)

From S2P Require Import Prelude Pacer Gcc PacedSend PriorityQueue Bandwidth ProbeController LayerScheduler.
Local Open Scope Z_scope.

Definition SFU_BANDWIDTH_SOURCE_ADMISSION_BPS : Z := 240000.

(** An entry the iterator over the receiver snapshot yields. *)
Record receiver_entry := mk_receiver { re_remote_slot : Z; re_assignment_generation : Z; re_view : receiver_view }.
Record sfu_remb_contribution := mk_contribution {
  rc_sequence : Z; rc_assignment_generation : Z; rc_updated_at_us : Z; rc_camera_bitrate_bps : Z; rc_screen_bitrate_bps : Z
}.
(** What the feedback of a subscriber reads and writes of its session:
    [fb_entries] is the receiver snapshot, if there is one, [fb_schedulers] is
    empty when the table is not allocated, [fb_requests] are the keyframes
    asked of the publishers. *)
Record feedback_session := mk_feedback {
  fb_probe : probe_session;
  fb_entries : option (list receiver_entry);
  fb_contributions : list sfu_remb_contribution;
  fb_schedulers : list sfu_layer_scheduler_slot;
  fb_last_feedback_ref_us : Z;
  fb_generation : Z;
  fb_requests : list (Z * sfu_media_kind)
}.
#[export] Instance eta_feedback : Eta feedback_session := fun s =>
  mk_feedback (fb_probe s) (fb_entries s) (fb_contributions s) (fb_schedulers s) (fb_last_feedback_ref_us s) (fb_generation s) (fb_requests s).
Definition video_ready (s : feedback_session) : bool := ss_video_ready (pb_send (fb_probe s)).
Definition set_fb_pacer (s : feedback_session) (p : sfu_pacer) : feedback_session :=
  s <| fb_probe ::= fun q => q <| pb_send ::= fun g => g <| ss_pacer := p |> |> |>.
Definition fb_pacer (s : feedback_session) : sfu_pacer := ss_pacer (pb_send (fb_probe s)).

(** ** The streams to divide the estimate between *)

Definition screen_on (v : receiver_view) : bool := rv_has_screen v && rv_screen_active v.
Definition camera_on (v : receiver_view) : bool := rv_has_video v && rv_video_active v.
Definition add_input (on : bool) (kind : Z) (e : receiver_entry) (inputs : list stream_input) : list stream_input :=
  if on && (zlen inputs <? MAX_STREAMS)
  then inputs ++ [mk_input (rv_publisher_peer_id (re_view e)) (re_remote_slot e) (re_assignment_generation e) kind true]
  else inputs.
Fixpoint collect_inputs (entries : list receiver_entry) (inputs : list stream_input) : list stream_input :=
  match entries with
  | [] => inputs
  | e :: entries =>
      if zlen inputs <? MAX_STREAMS then
        if rv_publisher_peer_id (re_view e) =? 0 then collect_inputs entries inputs
        else collect_inputs entries
               (add_input (camera_on (re_view e)) STREAM_CAMERA e (add_input (screen_on (re_view e)) STREAM_SCREEN e inputs))
      else inputs
  end.

(** ** The shares *)

Fixpoint find_share (l : list stream_alloc) (publisher_peer_id kind : Z) : Z :=
  match l with
  | [] => 0
  | a :: l => if (al_publisher a =? publisher_peer_id) && (al_kind a =? kind) then al_bps a else find_share l publisher_peer_id kind
  end.
Definition allocation_for_stream (a : bandwidth_allocation) (publisher_peer_id kind : Z) : Z := find_share (streams a) publisher_peer_id kind.
Definition source_demand_bps (allocation_bps : Z) : Z := if SFU_BANDWIDTH_SOURCE_ADMISSION_BPS <=? allocation_bps then allocation_bps else 0.
Definition stream_source (a : stream_alloc) : sfu_media_kind := if al_kind a =? STREAM_SCREEN then MEDIA_SCREEN else MEDIA_VIDEO.
Definition share_key (a : stream_alloc) : Z := stream_key (al_publisher a) (stream_source a).
Definition allocation_contains_stream (a : bandwidth_allocation) (key : Z) : bool := existsb (fun x => share_key x =? key) (streams a).

Definition sfu_session_write_remb_contribution (l : list sfu_remb_contribution) (remote_slot assignment_generation camera_bps screen_bps now_us : Z)
  : list sfu_remb_contribution :=
  if (SFU_MAX_REMOTE_SLOTS <=? remote_slot) || (assignment_generation =? 0) then l else
  alter (fun c => mk_contribution (u32 (u32 (rc_sequence c + 1) + 1)) assignment_generation now_us camera_bps screen_bps) (Z.to_nat remote_slot) l.
Definition write_demand (a : bandwidth_allocation) (now_us : Z) (l : list sfu_remb_contribution) (e : receiver_entry) : list sfu_remb_contribution :=
  let pub := rv_publisher_peer_id (re_view e) in
  sfu_session_write_remb_contribution l (re_remote_slot e) (re_assignment_generation e)
    (source_demand_bps (allocation_for_stream a pub STREAM_CAMERA)) (source_demand_bps (allocation_for_stream a pub STREAM_SCREEN)) now_us.

(** ** The schedulers *)

Definition give_share (a : stream_alloc) (now_us : Z) (x : sfu_layer_scheduler_slot) : sfu_layer_scheduler_slot :=
  x <| slot_sched ::= fun s =>
    let s := sfu_layer_scheduler_set_bitrate s (al_bps a) now_us in
    if is_screen (stream_source a) then s <| ls_target_tid := 2 |> <| ls_current_tid := 2 |> else s |>.
Definition apply_share (ready : bool) (now_us : Z) (table : list sfu_layer_scheduler_slot) (a : stream_alloc) : list sfu_layer_scheduler_slot :=
  match sfu_layer_scheduler_for_stream ready table (al_publisher a) (stream_source a) with
  | (None, table) => table
  | (Some i, table) => alter (give_share a now_us) i table
  end.
Definition clear_unserved (a : bandwidth_allocation) (now_us : Z) (x : sfu_layer_scheduler_slot) : sfu_layer_scheduler_slot :=
  if negb (slot_publisher_id x =? 0) && negb (allocation_contains_stream a (slot_publisher_id x))
  then x <| slot_sched ::= fun s => sfu_layer_scheduler_set_bitrate s 0 now_us |> else x.
Definition update_schedulers (ready : bool) (entries : option (list receiver_entry)) (a : bandwidth_allocation) (now_us : Z)
    (table : list sfu_layer_scheduler_slot) : list sfu_layer_scheduler_slot :=
  if bool_decide (table = []) then table else
  let table := match entries with Some l => sfu_layer_scheduler_prune ready table (map re_view l) | None => table end in
  map (clear_unserved a now_us) (fold_left (apply_share ready now_us) (streams a) table).

(** [cfg] is the allocator's part of the configuration. *)
Definition current_allocation (cfg : policy) (s : feedback_session) (bitrate_bps : Z) : bandwidth_allocation :=
  sfu_bandwidth_allocate cfg (match fb_entries s with Some l => collect_inputs l [] | None => [] end) bitrate_bps.
Definition sfu_svc_update_layers (cfg : policy) (s : feedback_session) (bitrate_bps now_us : Z) : feedback_session :=
  let s := set_fb_pacer s (sfu_pacer_set_rate (fb_pacer s) bitrate_bps now_us) in
  let a := current_allocation cfg s bitrate_bps in
  let s := s <| fb_probe ::= fun q => q <| pb_controller ::= fun pc =>
             sfu_probe_controller_set_unmet_demand pc (sfu_bandwidth_has_unmet_demand cfg a) |> |> in
  let s := match fb_entries s with Some l => s <| fb_contributions ::= fun c => fold_left (write_demand a now_us) l c |> | None => s end in
  s <| fb_schedulers := update_schedulers (video_ready s) (fb_entries s) a now_us (fb_schedulers s) |>.

(** * The table follows the allocation *)

(** The keys of the occupied slots; a stream has one slot. *)
Definition occupied (t : list sfu_layer_scheduler_slot) : list Z := List.filter (fun k => negb (k =? 0)) (map slot_publisher_id t).
(** What the allocation says of a stream: the last share of that key. *)
Definition share_of (ss : list stream_alloc) (key : Z) : Z := fold_left (fun v a => if share_key a =? key then al_bps a else v) ss 0.
Definition given_rate (t : list sfu_layer_scheduler_slot) : Z :=
  foldr (fun x n => (if slot_publisher_id x =? 0 then 0 else ls_allocated_bps (slot_sched x)) + n) 0 t.
Definition served (p : list stream_alloc) (t : list sfu_layer_scheduler_slot) : Prop :=
  Forall (fun x => slot_publisher_id x <> 0 -> In (slot_publisher_id x) (map share_key p) ->
                   ls_allocated_bps (slot_sched x) = share_of p (slot_publisher_id x)) t.

Lemma share_of_snoc ss a key : share_of (ss ++ [a]) key = if share_key a =? key then al_bps a else share_of ss key.
Proof. unfold share_of. by rewrite fold_left_app. Qed.
Lemma total_snoc ss a : total_bps (ss ++ [a]) = total_bps ss + al_bps a.
Proof. induction ss as [|b ss IH]; cbn [total_bps app]; lia. Qed.
Lemma key_nonzero a : share_key a <> 0.
Proof.
  intros E. unfold share_key, stream_key in E. apply Z.lor_eq_0_iff in E as [_ E]. unfold stream_source in E. by destruct (_ =? _).
Qed.
Lemma filter_unique (P : Z -> bool) l i j k : NoDup (List.filter P l) -> l !! i = Some k -> l !! j = Some k -> P k = true -> i = j.
Proof.
  revert i j. induction l as [|x l IH]; intros i j; [done|]. cbn [List.filter].
  assert (Hin : forall n, l !! n = Some k -> P k = true -> k ∈ List.filter P l).
  { intros n Hn HP. apply list_elem_of_In, filter_In. split; [|done]. apply list_elem_of_In. by eapply list_elem_of_lookup_2. }
  destruct i as [|i], j as [|j]; cbn; intros Hd Hi Hj HP; [done| | |].
  - injection Hi as ->. rewrite HP in Hd. apply list.NoDup_cons in Hd as [Hd _]. by destruct Hd; eapply Hin.
  - injection Hj as ->. rewrite HP in Hd. apply list.NoDup_cons in Hd as [Hd _]. by destruct Hd; eapply Hin.
  - f_equal. apply IH; try done. destruct (P x); [by apply list.NoDup_cons in Hd as []|done].
Qed.
Lemma slot_unique t i j x y : NoDup (occupied t) -> t !! i = Some x -> t !! j = Some y -> slot_publisher_id y = slot_publisher_id x ->
  slot_publisher_id x <> 0 -> i = j.
Proof.
  intros Hd Hi Hj E Hz. unfold occupied in Hd. eapply (filter_unique _ _ _ _ (slot_publisher_id x) Hd).
  - by rewrite list_lookup_fmap, Hi.
  - rewrite list_lookup_fmap, Hj. cbn. by rewrite E.
  - by destruct (Z.eqb_spec (slot_publisher_id x) 0).
Qed.
Lemma occupied_map t t' : map slot_publisher_id t' = map slot_publisher_id t -> occupied t' = occupied t.
Proof. unfold occupied. by intros ->. Qed.
(** Writing a slot: of the key it had, or a free one for a new key. *)
Lemma occupied_place t i x y : t !! i = Some x -> NoDup (occupied t) -> slot_publisher_id y <> 0 ->
  slot_publisher_id x = slot_publisher_id y \/ slot_publisher_id x = 0 /\ Forall (fun z => slot_publisher_id z <> slot_publisher_id y) t ->
  NoDup (occupied (<[i := y]> t)).
Proof.
  intros Hi Hd Hz Hx. assert (El : t = take i t ++ x :: drop (S i) t) by (symmetry; by apply take_drop_middle).
  assert (Ei : <[i := y]> t = take i t ++ y :: drop (S i) t) by (apply insert_take_drop; by eapply lookup_lt_Some).
  rewrite Ei. unfold occupied in *. rewrite map_app, List.filter_app in *. cbn [map List.filter].
  destruct Hx as [E|[E Hf]].
  - rewrite El in Hd. rewrite map_app, List.filter_app in Hd. cbn [map List.filter] in Hd. by rewrite E in Hd.
  - destruct (Z.eqb_spec (slot_publisher_id y) 0) as [|_]; [done|]. cbn [negb].
    rewrite El in Hd, Hf. rewrite map_app, List.filter_app in Hd. cbn [map List.filter] in Hd. rewrite E in Hd. cbn [Z.eqb negb] in Hd.
    rewrite list.NoDup_app in Hd. destruct Hd as (D1 & D2 & D3). apply Forall_app in Hf as [H1 Hf]. apply Forall_cons_1 in Hf as [_ H2].
    rewrite Forall_forall in H1, H2. assert (Hn : forall l, (forall z, In z l -> slot_publisher_id z <> slot_publisher_id y) ->
      slot_publisher_id y ∉ List.filter (fun k => negb (k =? 0)) (map slot_publisher_id l)).
    { intros l Hl Hin. apply list_elem_of_In, filter_In in Hin as [Hin _]. apply in_map_iff in Hin as (z & Hk & Hin). by apply (Hl z). }
    rewrite list.NoDup_app, list.NoDup_cons. split_and!; [done| |exact (Hn _ H2)|done].
    intros k Hk Hin. apply elem_of_cons in Hin as [->|Hin]; [by apply (Hn _ H1)|by apply (D2 k)].
Qed.

Lemma set_bitrate_allocated s bps now : ls_allocated_bps (sfu_layer_scheduler_set_bitrate s bps now) = bps.
Proof.
  unfold sfu_layer_scheduler_set_bitrate. set (s1 := s <| ls_allocated_bps := bps |>). assert (E : ls_allocated_bps s1 = bps) by done.
  clearbody s1. destruct (_ && _); [done|]. destruct (_ && _ && _); done.
Qed.

Lemma alter_insert {A} (f : A -> A) i v (l : list A) : alter f i (<[i := v]> l) = <[i := f v]> l.
Proof.
  revert i. induction l as [|x l IH]; intros [|i]; cbn; [done|done|done|]. f_equal. apply IH.
Qed.
(** The slot a share is written to. *)
Lemma place_served t i x y p a : t !! i = Some x -> NoDup (occupied t) -> slot_publisher_id y = share_key a -> share_key a <> 0 ->
  ls_allocated_bps (slot_sched y) = al_bps a ->
  slot_publisher_id x = share_key a \/ slot_publisher_id x = 0 /\ Forall (fun z => slot_publisher_id z <> share_key a) t ->
  served p t -> NoDup (occupied (<[i := y]> t)) /\ served (p ++ [a]) (<[i := y]> t).
Proof.
  intros Hi Hd Ey Hk Ha Hx Hs. split; [apply (occupied_place t i x); rewrite ?Ey; done|].
  apply Forall_lookup. intros j z Hj. destruct (decide (i = j)) as [<-|Hij].
  - rewrite list_lookup_insert_eq in Hj by (by eapply lookup_lt_Some). injection Hj as <-. intros _ _. by rewrite share_of_snoc, Ey, Z.eqb_refl.
  - rewrite list_lookup_insert_ne in Hj by done. intros Hz Hin.
    assert (Hne : share_key a <> slot_publisher_id z).
    { intros E. destruct Hx as [Ex|[_ Hf]]; [|rewrite Forall_lookup in Hf; by apply (Hf _ _ Hj)].
      apply Hij. apply (slot_unique t i j x z); try done; by rewrite Ex. }
    rewrite share_of_snoc. destruct (Z.eqb_spec (share_key a) (slot_publisher_id z)); [done|].
    unfold served in Hs. rewrite Forall_lookup in Hs. apply (Hs j z Hj Hz). rewrite map_app, in_app_iff in Hin. by destruct Hin as [|[|[]]].
Qed.
Lemma apply_share_cases ready now t a :
  apply_share ready now t a = t /\ (ready = true -> al_publisher a <> 0 -> Forall (fun z => slot_publisher_id z <> share_key a) t) \/
  exists i x y, t !! i = Some x /\ apply_share ready now t a = <[i := give_share a now y]> t /\ slot_publisher_id y = share_key a /\
    (slot_sched y = set_source (slot_sched x) (stream_source a) \/ slot_sched y = set_source (sfu_layer_scheduler_init (al_publisher a)) (stream_source a)) /\
    (slot_publisher_id x = share_key a \/ slot_publisher_id x = 0 /\ Forall (fun z => slot_publisher_id z <> share_key a) t).
Proof.
  unfold apply_share, sfu_layer_scheduler_for_stream. rewrite (bool_decide_eq_false_2 (stream_source a = MEDIA_AUDIO)) by (unfold stream_source; by case_match).
  rewrite orb_false_r. change (stream_key (al_publisher a) (stream_source a)) with (share_key a).
  destruct (negb ready || (al_publisher a =? 0)) eqn:Er; [left; split; [done|]; intros -> Hp; cbn in Er; by apply Z.eqb_eq in Er|].
  pose proof (find_slot_spec (share_key a) t) as F. destruct (find_slot (share_key a) t 0 None) as [[i|] f].
  - destruct F as (x & Hx & E). right. rewrite alter_insert. unfold slot_at. rewrite (nth_lookup_Some _ _ _ _ Hx). exists i, x. eexists.
    split_and!; [done|done|exact E|by left|by left].
  - destruct f as [i|]; [|left; by split]. destruct F as [(x & Hx & E) Hf]. right. rewrite alter_insert. exists i, x. eexists.
    split_and!; [done|done|done|by right|by right].
Qed.
Lemma give_share_bps a now y : ls_allocated_bps (slot_sched (give_share a now y)) = al_bps a.
Proof. pose proof (set_bitrate_allocated (slot_sched y) (al_bps a) now) as H. rewrite <- H. unfold give_share. cbn. by destruct (is_screen _). Qed.
Lemma apply_share_served now p t a : NoDup (occupied t) -> al_publisher a <> 0 -> served p t ->
  NoDup (occupied (apply_share true now t a)) /\ served (p ++ [a]) (apply_share true now t a).
Proof.
  intros Hd Hp Hs. destruct (apply_share_cases true now t a) as [[-> F]|(i & x & y & Hx & -> & E & _ & Hk)].
  - split; [done|]. specialize (F eq_refl Hp). apply Forall_lookup. intros j z Hj Hz Hin. unfold served in Hs. rewrite Forall_lookup in Hs, F.
    rewrite share_of_snoc. destruct (Z.eqb_spec (share_key a) (slot_publisher_id z)) as [Ek|]; [by destruct (F j z Hj)|].
    apply (Hs j z Hj Hz). rewrite map_app, in_app_iff in Hin. by destruct Hin as [|[|[]]].
  - exact (place_served t i x (give_share a now y) p a Hx Hd E (key_nonzero a) (give_share_bps a now y) Hk Hs).
Qed.
Lemma shares_served now ss t : NoDup (occupied t) -> Forall (fun a => al_publisher a <> 0) ss ->
  let t' := fold_left (apply_share true now) ss t in NoDup (occupied t') /\ served ss t'.
Proof.
  intros Hd Hp. induction ss as [|a ss IH] using rev_ind; [split; [done|]; apply Forall_true; by intros|].
  apply Forall_app in Hp as [Hp Ha]. apply Forall_cons_1 in Ha as [Ha _]. destruct (IH Hp) as [H1 H2]. rewrite fold_left_app.
  by apply apply_share_served.
Qed.
Lemma contains_in a key : allocation_contains_stream a key = true <-> In key (map share_key (streams a)).
Proof.
  unfold allocation_contains_stream. rewrite existsb_exists, in_map_iff. split.
  - intros (x & Hx & E). apply Z.eqb_eq in E. by exists x.
  - intros (x & E & Hx). exists x. by rewrite Z.eqb_eq.
Qed.
Lemma share_absent ss key : ~ In key (map share_key ss) -> share_of ss key = 0.
Proof.
  induction ss as [|a ss IH] using rev_ind; [done|]. rewrite share_of_snoc, map_app, in_app_iff. cbn [map In]. intros H.
  destruct (Z.eqb_spec (share_key a) key); [tauto|]. apply IH. tauto.
Qed.
(** Every occupied slot has the share of its stream, zero for a stream that is not served. *)
Definition follows (ss : list stream_alloc) (t : list sfu_layer_scheduler_slot) : Prop :=
  Forall (fun x => slot_publisher_id x <> 0 -> ls_allocated_bps (slot_sched x) = share_of ss (slot_publisher_id x)) t.
Lemma clear_follows a now t : served (streams a) t -> follows (streams a) (map (clear_unserved a now) t).
Proof.
  intros H. unfold follows. apply Forall_map. eapply Forall_impl; [|exact H]. clear H. intros x H. cbn beta. unfold clear_unserved.
  destruct (Z.eqb_spec (slot_publisher_id x) 0); cbn [negb andb]; [done|].
  destruct (allocation_contains_stream a (slot_publisher_id x)) eqn:E; cbn [negb]; intros Hz.
  - apply H; [done|]. by apply contains_in.
  - etransitivity; [apply set_bitrate_allocated|]. symmetry. apply share_absent. rewrite <- contains_in.
    change (allocation_contains_stream a (slot_publisher_id x) <> true). by rewrite E.
Qed.
Lemma clear_occupied a now t : occupied (map (clear_unserved a now) t) = occupied t.
Proof. apply occupied_map. rewrite map_map. apply map_ext. intros x. unfold clear_unserved. by case_match. Qed.

(** The sum of the shares of distinct streams is at most that of all shares. *)
Fixpoint sum_shares (ss : list stream_alloc) (ks : list Z) : Z := match ks with [] => 0 | k :: ks => share_of ss k + sum_shares ss ks end.
Lemma sum_shares_snoc ss a ks : 0 <= al_bps a -> Forall (fun b => 0 <= al_bps b) ss -> NoDup ks -> sum_shares (ss ++ [a]) ks <= sum_shares ss ks + al_bps a.
Proof.
  intros Ha Hs Hd. assert (Hz : forall k, 0 <= share_of ss k).
  { intros k. clear -Hs. induction ss as [|b ss IH] using rev_ind; [done|]. apply Forall_app in Hs as [Hs Hb]. apply Forall_cons_1 in Hb as [Hb _].
    rewrite share_of_snoc. destruct (_ =? _); [done|by apply IH]. }
  induction ks as [|k ks IH]; cbn [sum_shares]; [lia|]. apply list.NoDup_cons in Hd as [Hk Hd]. specialize (IH Hd). rewrite share_of_snoc.
  destruct (Z.eqb_spec (share_key a) k) as [<-|]; [|lia].
  assert (E : sum_shares (ss ++ [a]) ks = sum_shares ss ks).
  { clear -Hk. induction ks as [|k ks IH]; cbn [sum_shares]; [done|]. rewrite elem_of_cons in Hk. rewrite IH by tauto. rewrite share_of_snoc.
    destruct (Z.eqb_spec (share_key a) k); [tauto|done]. }
  specialize (Hz (share_key a)). lia.
Qed.
Lemma sum_shares_total ss ks : Forall (fun b => 0 <= al_bps b) ss -> NoDup ks -> sum_shares ss ks <= total_bps ss.
Proof.
  intros Hs Hd. induction ss as [|a ss IH] using rev_ind.
  - clear. induction ks as [|k ks IH]; cbn [sum_shares total_bps] in *; [done|]. cbn [share_of fold_left]. unfold share_of. cbn. lia.
  - apply Forall_app in Hs as [Hs Ha]. apply Forall_cons_1 in Ha as [Ha _]. rewrite total_snoc. pose proof (sum_shares_snoc ss a ks Ha Hs Hd). specialize (IH Hs). lia.
Qed.
Lemma follows_rate ss t : follows ss t -> given_rate t = sum_shares ss (occupied t).
Proof.
  intros H. induction H as [|x t Hx _ IH]; [done|]. cbn [given_rate foldr]. unfold occupied in *. cbn [map List.filter].
  destruct (Z.eqb_spec (slot_publisher_id x) 0); cbn [negb]; [exact IH|]. cbn [sum_shares]. rewrite Hx by done. unfold given_rate in IH. lia.
Qed.

(** ** Whose slots remain *)

Definition active_key (l : list receiver_entry) (key : Z) : Prop :=
  exists e, In e l /\ let v := re_view e in rv_publisher_peer_id v <> 0 /\
    (camera_on v = true /\ key = stream_key (rv_publisher_peer_id v) MEDIA_VIDEO \/ screen_on v = true /\ key = stream_key (rv_publisher_peer_id v) MEDIA_SCREEN).
Definition keys_in (P : Z -> Prop) (t : list sfu_layer_scheduler_slot) : Prop := Forall (fun x => slot_publisher_id x = 0 \/ P (slot_publisher_id x)) t.

Lemma keep_loop_map entries t keep : length keep = length t ->
  keep_loop entries t keep = zip_with (fun x k => existsb (fun e => keeps e x) entries || k) t keep.
Proof.
  revert keep. induction entries as [|e entries IH]; intros keep Hl; cbn [keep_loop].
  - revert keep Hl. induction t as [|x t IHt]; intros [|k keep] Hl; try done. cbn. f_equal. apply IHt. cbn in Hl. lia.
  - rewrite IH by (rewrite length_zip_with; lia). clear IH. revert keep Hl. induction t as [|x t IHt]; intros [|k keep] Hl; try done.
    cbn [zip_with existsb]. f_equal; [|apply IHt; cbn in Hl; lia]. by destruct (keeps e x), (existsb _ entries), k.
Qed.
Lemma prune_map t entries : sfu_layer_scheduler_prune true t entries =
  map (fun x => if negb (slot_publisher_id x =? 0) && negb (existsb (fun e => keeps e x) entries) then sfu_layer_scheduler_slot_reset else x) t.
Proof.
  unfold sfu_layer_scheduler_prune. cbn [negb]. rewrite keep_loop_map by (by rewrite length_replicate).
  induction t as [|x t IH]; [done|]. cbn [length replicate zip_with map]. rewrite orb_false_r. f_equal. exact IH.
Qed.
Lemma prune_occupied t entries : NoDup (occupied t) -> NoDup (occupied (sfu_layer_scheduler_prune true t entries)).
Proof.
  rewrite prune_map. set (f := fun x => _). assert (Hf : forall x, slot_publisher_id (f x) = slot_publisher_id x \/ slot_publisher_id (f x) = 0)
    by (intros x; unfold f; destruct (_ && _); [by right|by left]). clearbody f. unfold occupied.
  assert (Hin : forall k t, k ∈ List.filter (fun k => negb (k =? 0)) (map slot_publisher_id (map f t)) -> k ∈ List.filter (fun k => negb (k =? 0)) (map slot_publisher_id t)).
  { intros k t0. rewrite !list_elem_of_In, !filter_In, !in_map_iff. intros [(y & E & Hy) Hk]. apply in_map_iff in Hy as (x & <- & Hx).
    split; [|done]. exists x. destruct (Hf x) as [E'|E']; [by rewrite <- E'|]. rewrite E' in E. by subst k. }
  induction t as [|x t IH]; cbn [map List.filter]; [done|]. destruct (Hf x) as [-> | ->].
  - destruct (negb _); [|exact IH]. rewrite !list.NoDup_cons. intros [Hn Hd]. split; [|by apply IH]. intros Hi. by apply Hn, Hin.
  - cbn [Z.eqb negb]. destruct (negb _); [|exact IH]. rewrite list.NoDup_cons. intros [_ Hd]. by apply IH.
Qed.
Lemma prune_active t l : keys_in (active_key l) (sfu_layer_scheduler_prune true t (map re_view l)).
Proof.
  rewrite prune_map. apply Forall_map, Forall_true. intros x. cbn beta. destruct (Z.eqb_spec (slot_publisher_id x) 0) as [|Hz]; cbn [negb andb]; [by left|].
  destruct (existsb _ _) eqn:E; cbn [negb]; [right|by left]. apply existsb_exists in E as (v & Hv & E). apply in_map_iff in Hv as (e & <- & He).
  exists e. split; [done|]. unfold keeps in E. apply andb_true_iff in E as [E1 E2]. apply andb_true_iff in E1 as [E1 _].
  apply negb_true_iff, Z.eqb_neq in E1. split; [done|]. apply orb_true_iff in E2 as [E2|E2]; apply andb_true_iff in E2 as [E2 E3]; apply Z.eqb_eq in E3; [by left|by right].
Qed.
Lemma apply_share_keys P ready now t a : P (share_key a) -> keys_in P t -> keys_in P (apply_share ready now t a).
Proof.
  intros Ha Ht. destruct (apply_share_cases ready now t a) as [[-> _]|(i & x & y & Hx & -> & E & _)]; [done|].
  apply Forall_insert; [done|]. right. change (slot_publisher_id (give_share a now y)) with (slot_publisher_id y). by rewrite E.
Qed.
Lemma shares_keys P ready now ss t : Forall (fun a => P (share_key a)) ss -> keys_in P t -> keys_in P (fold_left (apply_share ready now) ss t).
Proof.
  intros Hs. revert t. induction Hs as [|a ss Ha _ IH]; intros t Ht; [done|]. cbn [fold_left]. by apply IH, apply_share_keys.
Qed.

Definition input_active (l : list receiver_entry) (i : stream_input) : Prop :=
  exists e, In e l /\ in_publisher i = rv_publisher_peer_id (re_view e) /\ in_publisher i <> 0 /\
    (in_kind i = STREAM_CAMERA /\ camera_on (re_view e) = true \/ in_kind i = STREAM_SCREEN /\ screen_on (re_view e) = true).
Lemma collect_active all l inputs : (forall e, In e l -> In e all) -> Forall (input_active all) inputs -> Forall (input_active all) (collect_inputs l inputs).
Proof.
  revert inputs. induction l as [|e l IH]; intros inputs Hin Hi; cbn [collect_inputs]; [done|]. destruct (_ <? _); [|done].
  destruct (Z.eqb_spec (rv_publisher_peer_id (re_view e)) 0) as [|Hz]; [apply IH; [intros; apply Hin; by right|done]|].
  apply IH; [intros; apply Hin; by right|]. assert (He : In e all) by (apply Hin; by left).
  assert (Ha : forall on kind l0, Forall (input_active all) l0 -> (on = true -> kind = STREAM_CAMERA /\ camera_on (re_view e) = true \/ kind = STREAM_SCREEN /\ screen_on (re_view e) = true) ->
    Forall (input_active all) (add_input on kind e l0)).
  { intros on kind l0 Hl Hk. unfold add_input. destruct on; [|done]. destruct (_ <? _); [|done]. apply Forall_app. split; [done|].
    apply Forall_cons_2; [|apply Forall_nil_2]. exists e. split_and!; try done. by apply Hk. }
  apply Ha; [apply Ha; [done|]|]; intros E; [by right|by left].
Qed.
Lemma streams_from cfg inputs est : policy_u32 cfg -> is_u64 est -> 0 <= cfg_pool_percent cfg <= 100 ->
  Forall (fun a => exists i, In i inputs /\ al_publisher a = in_publisher i /\ al_kind a = in_kind i) (streams (sfu_bandwidth_allocate cfg inputs est)).
Proof.
  intros Hc He Hp. destruct (pool_value cfg est He Hp) as [Ep _]. destruct (ao_streams _ _ _ _ (allocate_ok cfg inputs est Hc He Hp)) as [E|[->|H]].
  - unfold sfu_bandwidth_allocate. rewrite Ep, E, orb_true_r. apply Forall_nil_2.
  - apply Forall_nil_2.
  - apply Forall_lookup. intros j a Hj. destruct (Forall2_lookup_r _ _ _ _ _ H Hj) as (b & Hb & Hs).
    rewrite list_lookup_fmap in Hb. destruct (select_streams inputs !! j) as [i|] eqn:Ei; [|done]. injection Hb as <-. exists i. split.
    + apply (sel_from _ _ (select_streams_spec inputs)). apply in_rev. rewrite rev_involutive. apply list_elem_of_In. by eapply list_elem_of_lookup_2.
    + rewrite Hs. by split.
Qed.

(** ** The schedulers stay well-formed *)

Definition scheds_ok (t : list sfu_layer_scheduler_slot) : Prop := Forall (fun x => sched_ok (slot_sched x)) t.
Lemma zero_scheduler_ok : sched_ok zero_scheduler.
Proof. constructor; try done; cbn; unfold is_u8, is_u16; lia. Qed.
Lemma give_share_ok a now y : sched_ok (slot_sched y) -> sched_ok (slot_sched (give_share a now y)).
Proof.
  intros H. apply (set_bitrate_ok _ (al_bps a) now) in H. unfold give_share. change (slot_sched (?x <| slot_sched ::= ?f |>)) with (f (slot_sched x)). cbv beta zeta.
  destruct (is_screen _); [|done]. destruct H. constructor; try done; cbn; lia.
Qed.
Lemma update_schedulers_ok ready entries a now t : scheds_ok t -> scheds_ok (update_schedulers ready entries a now t).
Proof.
  intros H. unfold update_schedulers. destruct (bool_decide _); [done|].
  assert (H1 : scheds_ok (match entries with Some l => sfu_layer_scheduler_prune ready t (map re_view l) | None => t end)).
  { destruct entries as [l|]; [|done]. destruct ready; [|done]. rewrite prune_map. apply Forall_map. eapply Forall_impl; [|exact H]. intros x Hx. cbn beta.
    destruct (_ && _); [apply zero_scheduler_ok|done]. }
  revert H1. generalize (match entries with Some l => sfu_layer_scheduler_prune ready t (map re_view l) | None => t end). clear t H.
  assert (Hs : forall ss t, scheds_ok t -> scheds_ok (fold_left (apply_share ready now) ss t)).
  { induction ss as [|b ss IH]; intros t Ht; [done|]. apply IH. destruct (apply_share_cases ready now t b) as [[-> _]|(i & x & y & Hx & -> & _ & Hy & _)]; [done|].
    apply Forall_insert; [done|]. apply give_share_ok. unfold scheds_ok in Ht. rewrite Forall_lookup in Ht. specialize (Ht i x Hx).
    destruct Hy as [-> | ->]; apply set_source_ok; [done|apply init_ok]. }
  intros t Ht. apply Forall_map. eapply Forall_impl; [|by apply (Hs (streams a))]. intros x Hx. unfold clear_unserved. destruct (_ && _); [|done].
  by apply (set_bitrate_ok _ 0 now) in Hx.
Qed.

(** * Properties *)

Lemma update_layers_schedulers cfg s bps now :
  fb_schedulers (sfu_svc_update_layers cfg s bps now) = update_schedulers (video_ready s) (fb_entries s) (current_allocation cfg s bps) now (fb_schedulers s).
Proof. by destruct s as [p [l|] c t r g q]. Qed.
Lemma update_layers_demand cfg s bps now :
  pc_has_unmet_demand (pb_controller (fb_probe (sfu_svc_update_layers cfg s bps now))) = sfu_bandwidth_has_unmet_demand cfg (current_allocation cfg s bps).
Proof. by destruct s as [p [l|] c t r g q]. Qed.
Lemma active_shares cfg l est : policy_u32 cfg -> is_u64 est -> 0 <= cfg_pool_percent cfg <= 100 ->
  Forall (fun a => al_publisher a <> 0 /\ active_key l (share_key a)) (streams (sfu_bandwidth_allocate cfg (collect_inputs l []) est)).
Proof.
  intros Hc He Hp. pose proof (collect_active l l [] (fun _ H => H) (Forall_nil_2 _)) as Hi. rewrite List.Forall_forall in Hi.
  eapply Forall_impl; [|by apply streams_from]. intros a (i & Hin & E1 & E2). destruct (Hi i Hin) as (e & He' & Ep & Hz & Hk). split; [by rewrite E1|].
  exists e. split; [done|]. split; [by rewrite <- Ep|]. unfold share_key, stream_source. rewrite E1, E2, Ep. destruct Hk as [[-> Hk]|[-> Hk]]; [by left|by right].
Qed.

(** C6: After a new estimate every stream of the subscriber's table has the
    share the allocator gave it, and a stream that got none has zero; the
    shares in the table add up to at most the video pool of the estimate;
    the table has at most one slot for a stream, only for streams that are
    active in the receiver snapshot; and the probe controller is told
    whether demand is left. *)
Theorem layers_follow_allocation cfg s l bps now :
  policy_u32 cfg -> 0 <= cfg_pool_percent cfg <= 100 -> is_u32 bps -> video_ready s = true -> fb_entries s = Some l ->
  NoDup (occupied (fb_schedulers s)) ->
  let a := sfu_bandwidth_allocate cfg (collect_inputs l []) bps in
  let s' := sfu_svc_update_layers cfg s bps now in
  NoDup (occupied (fb_schedulers s')) /\
  Forall (fun x => slot_publisher_id x = 0 \/
            active_key l (slot_publisher_id x) /\ ls_allocated_bps (slot_sched x) = share_of (streams a) (slot_publisher_id x)) (fb_schedulers s') /\
  given_rate (fb_schedulers s') <= bps * policy_value (cfg_pool_percent cfg) 85 / 100 /\
  pc_has_unmet_demand (pb_controller (fb_probe s')) = sfu_bandwidth_has_unmet_demand cfg a.
Proof.
  intros Hc Hp Hb Hr El Hd a s'. assert (He : is_u64 bps) by (unfold is_u32, is_u64 in *; lia).
  assert (Es : fb_schedulers s' = update_schedulers true (Some l) a now (fb_schedulers s))
    by (unfold s'; rewrite update_layers_schedulers; unfold current_allocation; by rewrite El, Hr).
  assert (Eu : pc_has_unmet_demand (pb_controller (fb_probe s')) = sfu_bandwidth_has_unmet_demand cfg a)
    by (unfold s'; rewrite update_layers_demand; unfold current_allocation; by rewrite El).
  destruct (allocate_ok cfg (collect_inputs l []) bps Hc He Hp) as [_ (_ & Hsum & Hun) _ [Hok _ _ _ _ _] _ _ _]. fold a in Hsum, Hun, Hok.
  pose proof (active_shares cfg l bps Hc He Hp) as Ha. fold a in Ha. clearbody s' a. rewrite Es, Eu. clear Es Eu s'. unfold update_schedulers.
  assert (Hpos : Forall (fun b => 0 <= al_bps b) (streams a)) by (eapply Forall_impl; [|exact Hok]; by intros b [? _]).
  assert (Hpool : total_bps (streams a) <= bps * policy_value (cfg_pool_percent cfg) 85 / 100) by (unfold pool_of in *; lia).
  destruct (bool_decide_reflect (fb_schedulers s = [])) as [->|_].
  { split_and!; [constructor|apply Forall_nil_2| |done]. cbn. etransitivity; [|exact Hpool]. by apply total_nonneg. }
  pose proof (prune_occupied (fb_schedulers s) (map re_view l) Hd) as D1. pose proof (prune_active (fb_schedulers s) l) as K1.
  revert D1 K1. generalize (sfu_layer_scheduler_prune true (fb_schedulers s) (map re_view l)). intros t D1 K1.
  apply list.Forall_and in Ha as [Hz Hk]. destruct (shares_served now (streams a) t D1 Hz) as [D2 S2].
  apply (shares_keys _ true now (streams a)) in K1; [|exact Hk]. revert D2 S2 K1. generalize (fold_left (apply_share true now) (streams a) t). intros t2 D2 S2 K2.
  pose proof (clear_follows a now t2 S2) as F. pose proof (clear_occupied a now t2) as Eo. split_and!.
  - by rewrite Eo.
  - apply Forall_lookup. intros j x Hj. unfold follows in F. rewrite Forall_lookup in F. specialize (F j x Hj).
    rewrite list_lookup_fmap in Hj. destruct (t2 !! j) as [y|] eqn:Ey; [|done]. injection Hj as <-. unfold keys_in in K2. rewrite Forall_lookup in K2.
    assert (Ei : slot_publisher_id (clear_unserved a now y) = slot_publisher_id y) by (unfold clear_unserved; by case_match). rewrite Ei in F |- *.
    destruct (Z.eqb_spec (slot_publisher_id y) 0); [by left|right]. destruct (K2 j y Ey); [done|]. split; [done|by apply F].
  - rewrite (follows_rate _ _ F), Eo. etransitivity; [by apply sum_shares_total|done].
  - done.
Qed.

(** A subscriber that receives a camera and a shared screen, and has the slot
    of a camera that has left. *)
Definition ex_entries : list receiver_entry :=
  [mk_receiver 0 5 (mk_receiver_view 7 true true false false); mk_receiver 1 6 (mk_receiver_view 9 true false true true)].
Definition ex_feedback_session : feedback_session :=
  mk_feedback (ex_waiting 1500) (Some ex_entries) (replicate 299 (mk_contribution 0 0 0 0 0))
    [mk_slot (stream_key 8 MEDIA_VIDEO) (sfu_layer_scheduler_init 8); mk_slot (stream_key 7 MEDIA_VIDEO) (sfu_layer_scheduler_init 7);
     sfu_layer_scheduler_slot_reset] 0 1 [].
Lemma layers_follow_allocation_witness :
  map (fun x => (slot_publisher_id x, ls_allocated_bps (slot_sched x))) (fb_schedulers (sfu_svc_update_layers default_policy ex_feedback_session 3000000 50)) =
    [(stream_key 9 MEDIA_SCREEN, 2310000); (stream_key 7 MEDIA_VIDEO, 240000); (0, 0)] /\
  given_rate (fb_schedulers (sfu_svc_update_layers default_policy ex_feedback_session 3000000 50)) <= 2550000.
Proof.
  split; [vm_compute; reflexivity|].
  assert (Hp : policy_u32 default_policy) by (unfold policy_u32, default_policy, is_u32; cbn; lia).
  assert (Hd : NoDup (occupied (fb_schedulers ex_feedback_session))) by (apply NoDup_ListNoDup; vm_compute; repeat (constructor; cbn; [lia|]); constructor).
  pose proof (layers_follow_allocation default_policy ex_feedback_session ex_entries 3000000 50 Hp ltac:(cbn; lia) ltac:(by unfold is_u32) eq_refl eq_refl Hd) as (_ & _ & H & _).
  exact H.
Defined.
