(* ===== verification/Feedback.v ===== *)
(** The RTCP feedback of a subscriber, [handle_rtcp] and its helpers in
    [src/pipeline/ingress.c]: transport-wide feedback drives the send history,
    the estimator, the probe and the layers; a NACK is answered from the cache
    through the retransmission queue; a PLI, a FIR and a NACK for a packet
    that is gone become keyframe requests to the publisher of the stream. *)

From S2P Require Import Prelude NetBytes RtpPacket RtpExt Rtx RtxBuild Pacer SeqTranslate Rtcp TwccParser TwccHistory Gcc PacedSend PriorityQueue.
From S2P Require Import Bandwidth ProbeController LayerScheduler LayerUpdate.
Local Open Scope Z_scope.

Definition SFU_INGRESS_NACK_REQUEST_CAP : Z := 48.
Definition SFU_INGRESS_TWCC_BATCH_CAP : Z := 256.

(** ** Whom to ask for a keyframe *)

(** What the search reads of a peer of the room: the SSRCs of its media
    snapshot and the subscribers its camera and its screen are routed to. *)
Record publisher_view := mk_publisher {
  pv_peer : Z;
  pv_video_ssrc : Z; pv_video_rtx_ssrc : Z; pv_screen_ssrc : Z; pv_screen_rtx_ssrc : Z;
  pv_video_routes : list Z; pv_screen_routes : list Z
}.
(** The room of the subscriber [rm_self], if it is in one; empty places are [None]. *)
Record room_view := mk_room_view { rm_self : Z; rm_peers : option (list (option publisher_view)) }.
Definition media_source (v : publisher_view) (media_ssrc : Z) : option sfu_media_kind :=
  if (pv_video_ssrc v =? media_ssrc) || (pv_video_rtx_ssrc v =? media_ssrc) then Some MEDIA_VIDEO
  else if (pv_screen_ssrc v =? media_ssrc) || (pv_screen_rtx_ssrc v =? media_ssrc) then Some MEDIA_SCREEN
  else None.
Definition routed (v : publisher_view) (source : sfu_media_kind) (subscriber : Z) : bool :=
  existsb (fun p => p =? subscriber) (if is_screen source then pv_screen_routes v else pv_video_routes v).
Fixpoint find_publisher (need_route : bool) (self media_ssrc : Z) (peers : list (option publisher_view)) : option (Z * sfu_media_kind) :=
  match peers with
  | [] => None
  | None :: peers => find_publisher need_route self media_ssrc peers
  | Some v :: peers =>
      if pv_peer v =? self then find_publisher need_route self media_ssrc peers else
      match media_source v media_ssrc with
      | None => find_publisher need_route self media_ssrc peers
      | Some source =>
          if negb need_route || routed v source self then Some (pv_peer v, source)
          else find_publisher need_route self media_ssrc peers
      end
  end.
Definition find_publisher_by_media_ssrc (room : room_view) (media_ssrc : Z) : option (Z * sfu_media_kind) :=
  match rm_peers room with Some l => find_publisher true (rm_self room) media_ssrc l | None => None end.
Definition find_publisher_by_media_ssrc_unrouted (room : room_view) (media_ssrc : Z) : option (Z * sfu_media_kind) :=
  match rm_peers room with
  | Some l => if media_ssrc =? 0 then None else find_publisher false (rm_self room) media_ssrc l
  | None => None
  end.
Definition request_source_keyframe (room : room_view) (s : feedback_session) (media_ssrc : Z) : feedback_session :=
  match match find_publisher_by_media_ssrc room media_ssrc with
        | Some p => Some p
        | None => find_publisher_by_media_ssrc_unrouted room media_ssrc
        end with
  | Some p => s <| fb_requests ::= fun l => l ++ [p] |>
  | None => s
  end.

(** ** Transport-wide feedback *)

(** The loop that fills the batch. *)
Fixpoint status_batch (n : nat) (data : list Z) (p : sfu_twcc_parser) : res (list sfu_twcc_status * sfu_twcc_parser) :=
  match n with
  | O => Ok ([], p)
  | S n =>
      let! r := sfu_twcc_parser_next_status data p in
      match r with
      | (None, p) => Ok ([], p)
      | (Some s, p) => let! (ss, p) := status_batch n data p in Ok (s :: ss, p)
      end
  end.
(** What the loop over the batch carries: the history, the controller, the
    estimator, the estimate and the fresh counts. *)
Record twcc_acc := mk_acc {
  ac_history : sfu_twcc_history; ac_controller : sfu_probe_controller; ac_gcc : gcc_bwe_context;
  ac_estimated : Z; ac_lost : Z; ac_total : Z
}.
#[export] Instance eta_acc : Eta twcc_acc := fun a =>
  mk_acc (ac_history a) (ac_controller a) (ac_gcc a) (ac_estimated a) (ac_lost a) (ac_total a).
Definition count_lost (a : twcc_acc) (seq : Z) : twcc_acc :=
  let '(is_probe, cluster) := match sfu_twcc_history_lookup_ext (ac_history a) seq with Some (_, _, b, c) => (b, c) | None => (false, 0) end in
  let '(fresh, h) := sfu_twcc_history_report_loss_once (ac_history a) seq in
  let a := a <| ac_history := h |> in
  if negb fresh then a
  else if (is_probe : bool) then a <| ac_controller ::= fun pc => sfu_probe_controller_on_packet_lost pc cluster |>
  else a <| ac_lost ::= fun n => u32 (n + 1) |> <| ac_total ::= fun n => u32 (n + 1) |>.
Definition estimate_packet (a : twcc_acc) (item : gcc_packet_info) : twcc_acc :=
  let '(bps, g) := gcc_bwe_process_twcc_packet (ac_gcc a) item in a <| ac_gcc := g |> <| ac_estimated := bps |>.
Definition count_received (a : twcc_acc) (seq receive_time_us : Z) : twcc_acc :=
  match sfu_twcc_history_consume_received_ext (ac_history a) seq with
  | (None, _) => a
  | (Some ((send_time_us, size_bytes, is_probe, cluster), was_loss_reported), h) =>
      let a := a <| ac_history := h |> in
      let item := mk_packet_info seq send_time_us receive_time_us size_bytes in
      if (is_probe : bool) then
        let a := if negb was_loss_reported
                 then a <| ac_controller ::= fun pc => sfu_probe_controller_on_packet_received pc cluster size_bytes receive_time_us |> else a in
        estimate_packet a item
      else
        let a := estimate_packet a item in
        if negb was_loss_reported then a <| ac_total ::= fun n => u32 (n + 1) |> else a
  end.
Definition count_status (a : twcc_acc) (s : sfu_twcc_status) : twcc_acc :=
  if status s =? TWCC_STATUS_NOT_RECEIVED then count_lost a (TwccParser.sequence_number s)
  else count_received a (TwccParser.sequence_number s) (receive_time_us s).

Definition put_acc (s : feedback_session) (a : twcc_acc) : feedback_session :=
  s <| fb_probe ::= fun q => q <| pb_controller := ac_controller a |> <| pb_gcc := ac_gcc a |>
                               <| pb_send ::= fun g => g <| ss_twcc_history := Some (ac_history a) |> |> |>.
(** What the batch changes, with the estimate and the fresh counts. *)
Definition count_batch (s : feedback_session) (batch : list sfu_twcc_status) : feedback_session * Z * Z * Z :=
  let q := fb_probe s in
  let estimated_bps := gcc_bwe_get_bitrate (pb_gcc q) in
  match ss_twcc_history (pb_send q) with
  | None => (s, estimated_bps, 0, 0)
  | Some h =>
      let a := fold_left count_status batch (mk_acc h (pb_controller q) (pb_gcc q) estimated_bps 0 0) in
      (put_acc s a, ac_estimated a, ac_lost a, ac_total a)
  end.
Definition note_reference (s : feedback_session) (current_time_us : Z) : feedback_session :=
  if fb_last_feedback_ref_us s <? current_time_us then s <| fb_last_feedback_ref_us := current_time_us |> else s.
Definition report_losses (s : feedback_session) (estimated_bps fresh_lost fresh_total now_us : Z) : feedback_session * Z :=
  if 0 <? fresh_lost then
    let q := fb_probe s in
    let '(sustained_loss, g) := gcc_bwe_report_loss (pb_gcc q) fresh_lost fresh_total in
    let q := q <| pb_gcc := g |> in
    (s <| fb_probe := if (sustained_loss : bool) then with_controller q (sfu_probe_controller_abort (pb_controller q) (Some g) now_us) else q |>,
     gcc_bwe_get_bitrate g)
  else (s, estimated_bps).
Definition finish_cluster (s : feedback_session) (estimated_bps now_us : Z) : feedback_session * Z :=
  let q := fb_probe s in
  let '(done, probe_result_bps, pc, gcc) := sfu_probe_controller_check_cluster_done (pb_controller q) (Some (pb_gcc q)) now_us in
  let q := with_controller q (pc, gcc) in
  if done && (0 <? probe_result_bps) then
    let g := gcc_bwe_on_probe_cluster_completed (pb_gcc q) probe_result_bps now_us in
    (s <| fb_probe := q <| pb_gcc := g |> |>, gcc_bwe_get_bitrate g)
  else (s <| fb_probe := q |>, estimated_bps).
Definition apply_batch (cfg : policy) (s : feedback_session) (batch : list sfu_twcc_status) (current_time_us now_us : Z) : feedback_session :=
  let '(s, estimated_bps, fresh_lost, fresh_total) := count_batch s batch in
  let s := note_reference s current_time_us in
  let '(s, estimated_bps) := report_losses s estimated_bps fresh_lost fresh_total now_us in
  let '(s, estimated_bps) := finish_cluster s estimated_bps now_us in
  if 0 <? estimated_bps then sfu_svc_update_layers cfg s estimated_bps now_us else s.
(** [member] are the bytes of the member. *)
Definition handle_twcc_member (cfg : policy) (s : feedback_session) (member : list Z) (now_us : Z) : res feedback_session :=
  if negb (video_ready s) then Ok s else
  match sfu_twcc_parser_init member (zlen member) (fb_last_feedback_ref_us s) with
  | Fault => Fault
  | Err => Ok s
  | Ok parser =>
      if SFU_INGRESS_TWCC_BATCH_CAP <? packet_status_count parser then Ok s else
      let! (batch, parser) := status_batch (Z.to_nat (packet_status_count parser)) member parser in
      if failed parser || negb (packets_processed parser =? packet_status_count parser) || negb (zlen batch =? packet_status_count parser)
      then Ok s else Ok (apply_batch cfg s batch (current_time_us parser) now_us)
  end.

(** ** Retransmissions *)

(** What the handler gets from outside: the packet pool (a buffer, or none),
    what SRTP makes of a packet, whether the ring could be allocated. *)
Record nack_io := mk_nack_io {
  ni_pool : Z -> option (list Z);
  ni_protect : list Z -> Z -> Z -> option (list Z * Z);
  ni_alloc : bool
}.
Definition refund (s : feedback_session) (bytes : Z) : feedback_session := set_fb_pacer s (sfu_pacer_rtx_refund (fb_pacer s) bytes).
(** The transport-wide number of a retransmission, if the extension is negotiated. *)
Definition stamp_rtx (s : feedback_session) (data : list Z) (len : Z) : res (feedback_session * bool * Z * list Z * Z) :=
  let id := pb_twcc_id (fb_probe s) in
  if id =? 0 then Ok (s, false, 0, data, len) else
  let twcc_seq := pb_next_twcc_seq (fb_probe s) in
  let s := s <| fb_probe ::= fun q => q <| pb_next_twcc_seq := u16 (twcc_seq + 1) |> |> in
  match sfu_rtp_ext_write_twcc data len (zlen data) id twcc_seq with
  | Fault => Fault
  | Err => Ok (s, false, twcc_seq, data, len)
  | Ok (data, len) => Ok (s, true, twcc_seq, data, len)
  end.
Definition queue_rtx (s : feedback_session) (data : list Z) (len : Z) (twcc_written : bool) (twcc_seq charged_bytes now_us : Z) (alloc : bool)
  : feedback_session :=
  let g := pb_send (fb_probe s) in
  let '(queued, q) :=
    sfu_paced_priority_queue_enqueue (pb_rtx (fb_probe s)) data (u16 len) (ss_addr g) (ss_addr_len g) (ss_owner_value g) (ss_transport_generation g)
      (ss_address_generation g) twcc_written twcc_seq charged_bytes now_us alloc in
  let s := s <| fb_probe ::= fun p => p <| pb_rtx := q |> |> in
  if queued then s else refund s charged_bytes.
(** The retransmission of a packet the cache has and the budget allows. *)
Definition send_rtx (s : feedback_session) (c : sfu_rtx_cache) (orig : list Z) (rtx_ssrc rtx_pt : Z) (buffer : list Z) (charged_bytes now_us : Z) (io : nack_io)
  : res feedback_session :=
  let '(source_rtx_seq, q) := take_rtx_seq (fb_probe s) c in
  let s := s <| fb_probe := q |> in
  match sfu_rtp_seq_translate (pb_translator q) rtx_ssrc source_rtx_seq with
  | Fault => Fault
  | Err => Ok (refund s charged_bytes)
  | Ok (subscriber_rtx_seq, t) =>
      let s := s <| fb_probe ::= fun q => q <| pb_translator := t |> |> in
      match sfu_rtx_build orig (zlen orig) rtx_pt subscriber_rtx_seq rtx_ssrc buffer (zlen buffer) with
      | Fault => Fault
      | Err => Ok (refund s charged_bytes)
      | Ok (data, len) =>
          let! (s, twcc_written, twcc_seq, data, len) := stamp_rtx s data len in
          match ni_protect io data len (zlen data) with
          | None => Ok (refund s charged_bytes)
          | Some (data, len) => Ok (queue_rtx s data len twcc_written twcc_seq charged_bytes now_us (ni_alloc io))
          end
      end
  end.
(** One sequence number: whether the packet is gone. *)
Definition serve_one (s : feedback_session) (lost_seq media_ssrc generation now_us : Z) (io : nack_io) : res (bool * feedback_session) :=
  match ss_rtx_cache (pb_send (fb_probe s)) with
  | None => Ok (false, s)
  | Some c =>
      match sfu_rtx_cache_get_stream c lost_seq media_ssrc generation with
      | Fault => Fault
      | Err => Ok (true, s)
      | Ok (orig, rtx_ssrc, rtx_pt) =>
          let charged_bytes := u32 (zlen orig + 2) in
          let '(allowed, p) := sfu_pacer_rtx_allow (fb_pacer s) charged_bytes now_us in
          let s := set_fb_pacer s p in
          if negb allowed then Ok (false, s) else
          match ni_pool io lost_seq with
          | None => Ok (false, refund s charged_bytes)
          | Some buffer => let! s := send_rtx s c orig rtx_ssrc rtx_pt buffer charged_bytes now_us io in Ok (false, s)
          end
      end
  end.
(** The loop over the numbers the parser yields: each is served once, and at
    most [SFU_INGRESS_NACK_REQUEST_CAP] of them. *)
Fixpoint serve_nacks (fuel : nat) (member : list Z) (p : sfu_nack_parser) (s : feedback_session) (requested : list Z) (unrecoverable : bool)
    (media_ssrc generation now_us : Z) (io : nack_io) : res (bool * feedback_session) :=
  match fuel with
  | O => Fault
  | S fuel =>
      let! (o, p) := sfu_nack_parser_next member p in
      match o with
      | None => Ok (unrecoverable, s)
      | Some lost_seq =>
          if existsb (fun q => q =? lost_seq) requested
          then serve_nacks fuel member p s requested unrecoverable media_ssrc generation now_us io
          else if SFU_INGRESS_NACK_REQUEST_CAP <=? zlen requested then Ok (unrecoverable, s)
          else
            let! (gone, s) := serve_one s lost_seq media_ssrc generation now_us io in
            serve_nacks fuel member p s (requested ++ [lost_seq]) (gone || unrecoverable) media_ssrc generation now_us io
      end
  end.
Definition handle_nack_member (room : room_view) (s : feedback_session) (member : list Z) (now_us : Z) (io : nack_io) : res feedback_session :=
  match sfu_nack_parser_init member (zlen member) with
  | Fault => Fault
  | Err => Ok s
  | Ok p =>
      match ss_rtx_cache (pb_send (fb_probe s)) with
      | None => Ok s
      | Some _ =>
          let nack_media_ssrc := sfu_nack_parser_media_ssrc p in
          let! (unrecoverable, s) :=
            serve_nacks (Z.to_nat (5 * zlen member) + 1) member p s [] false nack_media_ssrc (fb_generation s) now_us io in
          Ok (if unrecoverable then request_source_keyframe room s nack_media_ssrc else s)
      end
  end.

(** ** Keyframe requests and the dispatch *)

Definition handle_pli_member (room : room_view) (s : feedback_session) (data : list Z) (view : sfu_rtcp_member_view) : res feedback_session :=
  match sfu_rtcp_parse_pli data view with
  | Fault => Fault
  | Err => Ok s
  | Ok pli => Ok (request_source_keyframe room s (pli_media pli))
  end.
Fixpoint fir_entries (n : nat) (room : room_view) (s : feedback_session) (data : list Z) (f : sfu_rtcp_fir) (i : Z) : res feedback_session :=
  match n with
  | O => Ok s
  | S n =>
      match sfu_rtcp_fir_entry_at data f i with
      | Fault => Fault
      | Err => fir_entries n room s data f (i + 1)
      | Ok entry =>
          fir_entries n room (if target_ssrc entry =? 0 then s else request_source_keyframe room s (target_ssrc entry)) data f (i + 1)
      end
  end.
Definition handle_fir_member (room : room_view) (s : feedback_session) (data : list Z) (view : sfu_rtcp_member_view) : res feedback_session :=
  match sfu_rtcp_parse_fir data view with
  | Fault => Fault
  | Err => Ok s
  | Ok f => fir_entries (Z.to_nat (entry_count f)) room s data f 0
  end.
Definition handle_member (cfg : policy) (room : room_view) (s : feedback_session) (data : list Z) (view : sfu_rtcp_member_view) (now_us : Z) (io : nack_io)
  : res feedback_session :=
  let bytes := slice data (member view) (member_len view) in
  if pt view =? 205 then
    if fmt_count view =? 15 then handle_twcc_member cfg s bytes now_us
    else if fmt_count view =? 1 then handle_nack_member room s bytes now_us io
    else Ok s
  else if pt view =? 206 then
    if fmt_count view =? 1 then handle_pli_member room s data view
    else if fmt_count view =? 4 then handle_fir_member room s data view
    else Ok s
  else Ok s.
Fixpoint rtcp_loop (fuel : nat) (cfg : policy) (room : room_view) (s : feedback_session) (data : list Z) (it : sfu_rtcp_compound_iter) (now_us : Z)
    (io : nack_io) : res feedback_session :=
  match fuel with
  | O => Fault
  | S fuel =>
      let! (rc, it) := sfu_rtcp_compound_iter_next data it in
      match rc with
      | COMPOUND_END | COMPOUND_MALFORMED => Ok s
      | COMPOUND_ITEM view =>
          let! s := handle_member cfg room s data view now_us io in
          rtcp_loop fuel cfg room s data it now_us io
      end
  end.
(** Every member is at least eight bytes long. *)
Definition handle_rtcp (cfg : policy) (room : room_view) (s : feedback_session) (data : list Z) (len now_us : Z) (io : nack_io) : res feedback_session :=
  rtcp_loop (Z.to_nat (len / 8) + 1) cfg room s data (sfu_rtcp_compound_iter_init len) now_us io.

(** * Feedback counts once *)

(** The history has nothing more to say about a status: the packet is not
    there, or it has been consumed, or its loss has been reported. *)
Definition settled (h : sfu_twcc_history) (seq : Z) (lost : bool) : Prop :=
  let e := hist_entry h seq in
  h_valid e = false \/ h_seq e <> seq \/ received_consumed e = true \/ lost = true /\ loss_reported e = true.
(** Flags of an entry are only ever set. *)
Definition hist_grows (h h' : sfu_twcc_history) : Prop :=
  length h' = length h /\ forall i, let e := nth i h zero_hist in let e' := nth i h' zero_hist in
    h_valid e' = h_valid e /\ h_seq e' = h_seq e /\ (received_consumed e = true -> received_consumed e' = true) /\ (loss_reported e = true -> loss_reported e' = true).
Definition is_lost (s : sfu_twcc_status) : bool := status s =? TWCC_STATUS_NOT_RECEIVED.

Lemma hist_grows_refl h : hist_grows h h.
Proof. split; [done|]. intros i. cbv zeta. by split_and!. Qed.
Lemma hist_grows_trans h1 h2 h3 : hist_grows h1 h2 -> hist_grows h2 h3 -> hist_grows h1 h3.
Proof.
  intros [L1 H1] [L2 H2]. split; [congruence|]. intros i. specialize (H1 i). specialize (H2 i). cbv zeta in *.
  destruct H1 as (A1 & B1 & C1 & D1), H2 as (A2 & B2 & C2 & D2). split_and!; [congruence|congruence|auto|auto].
Qed.
Lemma settled_grows h h' seq lost : hist_grows h h' -> settled h seq lost -> settled h' seq lost.
Proof.
  intros [_ H]. specialize (H (hist_slot seq)). unfold settled, hist_entry. cbv zeta in *. destruct H as (-> & -> & Hc & Hl).
  intros [E|[E|[E|[E1 E2]]]]; [by left|by right; left|by right; right; left; auto|right; right; right; auto].
Qed.
Lemma hist_insert_grows h i e f : nth i h zero_hist = e -> h_valid f = h_valid e -> h_seq f = h_seq e ->
  (received_consumed e = true -> received_consumed f = true) -> (loss_reported e = true -> loss_reported f = true) -> hist_grows h (<[i := f]> h).
Proof.
  intros He E1 E2 E3 E4. split; [apply length_insert|]. intros j. cbv zeta.
  destruct (decide (j = i)) as [->|Hne]; [|rewrite !nth_lookup, list_lookup_insert_ne by done; by split_and!].
  destruct (decide (i < length h)%nat) as [Hi|Hi].
  - rewrite (nth_lookup (<[i := f]> h)), list_lookup_insert_eq by done. cbn. subst e. by split_and!.
  - rewrite list_insert_ge by lia. by split_and!.
Qed.
Lemma report_loss_grows h seq : length h = 4096%nat -> let r := sfu_twcc_history_report_loss_once h seq in hist_grows h r.2 /\ settled r.2 seq true.
Proof.
  intros Hl. unfold sfu_twcc_history_report_loss_once. pose proof (hist_slot_range seq) as Hr.
  destruct (negb (h_valid (hist_entry h seq)) || _ || _ || _) eqn:E; cbv zeta; cbn [snd].
  - split; [apply hist_grows_refl|]. unfold settled. rewrite !orb_true_iff, !negb_true_iff, Z.eqb_neq in E. tauto.
  - split; [by eapply hist_insert_grows|]. unfold settled, hist_entry. rewrite nth_lookup, list_lookup_insert_eq by lia. cbn. tauto.
Qed.
Lemma consume_grows h seq : length h = 4096%nat -> let r := sfu_twcc_history_consume_received_ext h seq in hist_grows h r.2 /\ settled r.2 seq false.
Proof.
  intros Hl. unfold sfu_twcc_history_consume_received_ext. pose proof (hist_slot_range seq) as Hr.
  destruct (negb (h_valid (hist_entry h seq)) || _ || _) eqn:E; cbv zeta; cbn [snd].
  - split; [apply hist_grows_refl|]. unfold settled. rewrite !orb_true_iff, !negb_true_iff, Z.eqb_neq in E. tauto.
  - split; [by eapply hist_insert_grows|]. unfold settled, hist_entry. rewrite nth_lookup, list_lookup_insert_eq by lia. cbn. tauto.
Qed.
Lemma lost_history a seq : ac_history (count_lost a seq) = (sfu_twcc_history_report_loss_once (ac_history a) seq).2.
Proof.
  unfold count_lost. destruct (match sfu_twcc_history_lookup_ext (ac_history a) seq with Some _ => _ | None => _ end) as [p c].
  destruct (sfu_twcc_history_report_loss_once (ac_history a) seq) as [[] h]; [|done]. by destruct p.
Qed.
Lemma received_history a seq t : ac_history (count_received a seq t) = (sfu_twcc_history_consume_received_ext (ac_history a) seq).2.
Proof.
  unfold count_received. destruct (sfu_twcc_history_consume_received_ext (ac_history a) seq) as [[[[[[st sz] p] c] w]|] h] eqn:E.
  - assert (He : forall b i, ac_history (estimate_packet b i) = ac_history b) by (intros b i; unfold estimate_packet; by destruct (gcc_bwe_process_twcc_packet _ _)).
    cbv zeta. destruct p.
    + rewrite He. by destruct w.
    + cbn [snd]. set (a1 := estimate_packet _ _). assert (E1 : ac_history a1 = h) by apply He. clearbody a1. by destruct w.
  - unfold sfu_twcc_history_consume_received_ext in E. destruct (_ || _); [|done]. by injection E as <-.
Qed.
Lemma status_grows a s : length (ac_history a) = 4096%nat ->
  hist_grows (ac_history a) (ac_history (count_status a s)) /\ settled (ac_history (count_status a s)) (TwccParser.sequence_number s) (is_lost s).
Proof.
  intros Hl. unfold count_status, is_lost. destruct (_ =? _).
  - rewrite lost_history. by apply report_loss_grows.
  - rewrite received_history. by apply consume_grows.
Qed.
Lemma batch_settles batch a : length (ac_history a) = 4096%nat -> let a' := fold_left count_status batch a in
  hist_grows (ac_history a) (ac_history a') /\ Forall (fun s => settled (ac_history a') (TwccParser.sequence_number s) (is_lost s)) batch.
Proof.
  cbv zeta. revert a. induction batch as [|s batch IH]; intros a Hl; cbn [fold_left]; [split; [apply hist_grows_refl|apply Forall_nil_2]|].
  destruct (status_grows a s Hl) as [G S]. destruct (IH (count_status a s)) as [G' F]; [destruct G; congruence|].
  split; [by eapply hist_grows_trans|]. apply Forall_cons_2; [|done]. by eapply settled_grows.
Qed.
Lemma settled_status a s : settled (ac_history a) (TwccParser.sequence_number s) (is_lost s) -> count_status a s = a.
Proof.
  unfold settled, count_status, is_lost. destruct (_ =? _) eqn:El; intros H.
  - unfold count_lost. destruct (match sfu_twcc_history_lookup_ext _ _ with Some _ => _ | None => _ end) as [p c].
    unfold sfu_twcc_history_report_loss_once. destruct (negb _ || _ || _ || _) eqn:E; [by destruct a|].
    rewrite !orb_false_iff, !negb_false_iff, Z.eqb_eq in E. destruct E as (((E1 & E2) & E3) & E4). rewrite E1, E2, E3, E4 in H. intuition congruence.
  - unfold count_received, sfu_twcc_history_consume_received_ext. destruct (negb _ || _ || _) eqn:E; [by destruct a|].
    rewrite !orb_false_iff, !negb_false_iff, Z.eqb_eq in E. destruct E as ((E1 & E2) & E3). rewrite E1, E2, E3 in H. intuition congruence.
Qed.

Lemma settled_received h seq lost : settled h seq false -> settled h seq lost.
Proof. intros [H|[H|[H|[H _]]]]; [by left|by right; left|by right; right; left|done]. Qed.
(** A status of a packet of the batch, received only if it was received there. *)
Definition repeats (batch : list sfu_twcc_status) (r : sfu_twcc_status) : Prop :=
  exists r0, In r0 batch /\ TwccParser.sequence_number r0 = TwccParser.sequence_number r /\ (is_lost r = false -> is_lost r0 = false).
Lemma repeated_batch batch batch' a : Forall (repeats batch) batch' ->
  Forall (fun s => settled (ac_history a) (TwccParser.sequence_number s) (is_lost s)) batch -> fold_left count_status batch' a = a.
Proof.
  intros Hr Hs. induction Hr as [|r batch' (r0 & Hin & Hseq & Hl) _ IH]; cbn [fold_left]; [done|]. rewrite settled_status; [done|].
  rewrite Forall_forall in Hs. specialize (Hs r0 Hin). rewrite Hseq in Hs. destruct (is_lost r0); [|by apply settled_received].
  destruct (is_lost r); [done|]. by specialize (Hl eq_refl).
Qed.
(** Each status adds at most one packet to the counts, and a lost one to both. *)
Lemma status_counts a s : 0 <= ac_lost a <= ac_total a -> ac_total a < 2 ^ 32 - 1 ->
  0 <= ac_lost (count_status a s) <= ac_total (count_status a s) /\ ac_total (count_status a s) <= ac_total a + 1.
Proof.
  intros H1 H2. unfold count_status. destruct (_ =? _).
  - unfold count_lost. destruct (match sfu_twcc_history_lookup_ext (ac_history a) _ with Some _ => _ | None => _ end) as [p c].
    destruct (sfu_twcc_history_report_loss_once (ac_history a) _) as [[] h]; [|cbn; lia]. destruct p; [cbn; lia|].
    cbn. unfold u32. rewrite !Z.mod_small by lia. lia.
  - unfold count_received. destruct (sfu_twcc_history_consume_received_ext (ac_history a) _) as [[[[[[st sz] p] c] w]|] h]; [|lia].
    assert (He : forall b i, ac_lost (estimate_packet b i) = ac_lost b /\ ac_total (estimate_packet b i) = ac_total b)
      by (intros b i; unfold estimate_packet; by destruct (gcc_bwe_process_twcc_packet _ _)).
    cbv zeta. destruct p.
    + match goal with |- context [estimate_packet ?b ?i] => destruct (He b i) as [-> ->] end. destruct w; cbn; lia.
    + match goal with |- context [estimate_packet ?b ?i] => destruct (He b i) as [E1 E2]; set (a1 := estimate_packet b i) in * end.
      cbn in E1, E2. clearbody a1. destruct w; cbn; [lia|]. unfold u32. rewrite Z.mod_small by lia. lia.
Qed.
Lemma batch_counts batch a : 0 <= ac_lost a <= ac_total a -> ac_total a + zlen batch < 2 ^ 32 - 1 -> let a' := fold_left count_status batch a in
  0 <= ac_lost a' <= ac_total a' /\ ac_total a' <= ac_total a + zlen batch.
Proof.
  cbv zeta. revert a. induction batch as [|s batch IH]; intros a H1 H2; cbn [fold_left]; [change (zlen (@nil sfu_twcc_status)) with 0; lia|].
  rewrite zlen_cons in *. pose proof (zlen_nonneg batch). destruct (status_counts a s H1 ltac:(lia)) as [H3 H4].
  destruct (IH (count_status a s) H3 ltac:(lia)). lia.
Qed.
Lemma put_own s h e : ss_twcc_history (pb_send (fb_probe s)) = Some h ->
  put_acc s (mk_acc h (pb_controller (fb_probe s)) (pb_gcc (fb_probe s)) e 0 0) = s.
Proof. intros E. destruct s as [q ? ? ? ? ? ?]. destruct q. cbn in *. destruct pb_send. cbn in *. by subst. Qed.

(** * Any feedback is handled, and leaves the session in order *)

Definition hist_ok (h : sfu_twcc_history) : Prop := length h = 4096%nat /\ Forall (fun e => is_u32 (h_size_bytes e)) h.
Definition cached_ok (c : sfu_rtx_cache) : Prop :=
  exists f, cache_holds c f /\ forall i u, f i = Some u -> bytes_ok (s_bytes u) /\ is_u32 (s_rtx_ssrc u) /\ 0 <= s_rtx_pt u.

(** ** The retransmission budget *)

(** The budget at a time: what is left after the refill due then. *)
Definition budget_at (now : Z) (p : sfu_pacer) : Z := rtx_budget_bytes (rtx_refill p now).
Definition charged (l : list sfu_paced_priority_entry) : Z := foldr (fun e n => xe_pacer_charged_bytes e + n) 0 l.
(** From [p] to [p'] exactly [c] bytes were spent. *)
Definition spent (now : Z) (p p' : sfu_pacer) (c : Z) : Prop :=
  active p' = active p /\ (active p = true -> budget_at now p' + c = budget_at now p).

Lemma charged_app l k : charged (l ++ k) = charged l + charged k.
Proof. induction l as [|e l IH]; [done|]. change (xe_pacer_charged_bytes e + charged (l ++ k) = xe_pacer_charged_bytes e + charged l + charged k). lia. Qed.
Lemma spent_refl now p : spent now p p 0.
Proof. split; [done|]. lia. Qed.
Lemma spent_trans now p1 p2 p3 c d : spent now p1 p2 c -> spent now p2 p3 d -> spent now p1 p3 (c + d).
Proof. intros [A1 B1] [A2 B2]. split; [congruence|]. intros Ha. rewrite A1 in B2. specialize (B1 Ha). specialize (B2 Ha). lia. Qed.
Lemma refill_fixed p now q : 0 < now -> rtx_last_refill_us q = rtx_last_refill_us (rtx_refill p now) -> rtx_refill q now = q.
Proof.
  intros Hn E. assert (Hl : rtx_last_refill_us (rtx_refill p now) <> 0 /\ now <= rtx_last_refill_us (rtx_refill p now)).
  { unfold rtx_refill. destruct (Z.eqb_spec (rtx_last_refill_us p) 0); [cbn; lia|]. destruct (Z.ltb_spec (rtx_last_refill_us p) now); [|lia].
    cbv zeta. destruct (_ <? _); [destruct (_ <? _)|]; cbn; lia. }
  unfold rtx_refill at 1. rewrite E.
  destruct (Z.eqb_spec (rtx_last_refill_us (rtx_refill p now)) 0); [lia|]. by destruct (Z.ltb_spec (rtx_last_refill_us (rtx_refill p now)) now); [lia|].
Qed.
Lemma refill_keeps p now : active (rtx_refill p now) = active p /\ rtx_budget_cap_bytes (rtx_refill p now) = rtx_budget_cap_bytes p /\
  (0 <= rtx_budget_bytes p <= rtx_budget_cap_bytes p -> is_u32 (rtx_budget_bps p) -> 0 <= rtx_budget_bytes (rtx_refill p now) <= rtx_budget_cap_bytes p).
Proof.
  unfold rtx_refill. destruct (_ =? _); [done|]. destruct (Z.ltb_spec (rtx_last_refill_us p) now); [|done]. cbv zeta.
  set (p1 := p <| rtx_last_refill_us := now |>). set (t := rtx_budget_bps p1 / 8 * _ / _). destruct (Z.ltb_spec 0 t); [|done].
  set (p2 := p1 <| rtx_budget_bytes ::= Z.add t |>). change (rtx_budget_cap_bytes p2) with (rtx_budget_cap_bytes p). change (rtx_budget_bytes p2) with (t + rtx_budget_bytes p).
  destruct (Z.ltb_spec (rtx_budget_cap_bytes p) (t + rtx_budget_bytes p)); split_and!; try done; cbn; lia.
Qed.
(** The outcome of asking for the budget, and of giving it back. *)
Lemma allow_spent now p rs bytes ok p' : 0 < now -> pacer_inv (p, rs) -> is_u32 bytes -> sfu_pacer_rtx_allow p bytes now = (ok, p') ->
  spent now p p' (if ok then bytes else 0) /\ (ok = true -> spent now p (sfu_pacer_rtx_refund p' bytes) 0).
Proof.
  intros Hn Hi Hb E. destruct Hi as [_ _ _ Hr [_ Hu] _]. cbn [fst snd] in *. destruct (refill_keeps p now) as (Ra & Rc & Rb). specialize (Rb Hr Hu).
  unfold sfu_pacer_rtx_allow in E. destruct (active p) eqn:Ea; cbn [negb] in E; [|injection E as <- <-; unfold spent, sfu_pacer_rtx_refund; rewrite Ea; cbn; by rewrite Ea].
  set (r := rtx_refill p now) in *.
  assert (Hs : forall q c, active q = active r -> rtx_last_refill_us q = rtx_last_refill_us r -> rtx_budget_bytes q + c = rtx_budget_bytes r -> spent now p q c).
  { intros q c Aq Lq Eb. split; [congruence|]. intros _. unfold budget_at. by rewrite (refill_fixed p now q). }
  destruct (Z.ltb_spec (rtx_budget_bytes r) bytes); injection E as <- <-.
  - split; [|done]. apply Hs; [done|done|cbn; lia].
  - split; [apply Hs; [done|done|cbn; lia]|]. intros _. unfold sfu_pacer_rtx_refund.
    set (r1 := r <| rtx_budget_bytes ::= _ |>). change (active r1) with (active r). rewrite Ra. cbn [negb orb]. unfold is_u32 in Hb.
    destruct (Z.eqb_spec bytes 0) as [->|]; [apply Hs; [done|done|cbn; lia]|].
    set (r2 := r1 <| rtx_budget_bytes ::= Z.add bytes |>). assert (E2 : rtx_budget_bytes r2 = rtx_budget_bytes r) by (unfold r2, r1; cbn; lia).
    change (rtx_budget_cap_bytes r2) with (rtx_budget_cap_bytes r). rewrite E2, Rc.
    destruct (Z.ltb_spec (rtx_budget_cap_bytes p) (rtx_budget_bytes r)); [lia|]. apply Hs; [done|done|lia].
Qed.

Section Limits.
Context (lo hi : Z) (Hlim : 0 < lo <= hi) (Hhi : is_u32 hi).

Record feedback_ok (s : feedback_session) : Prop := {
  fo_session : session_ok lo hi (fb_probe s);
  fo_scheds : scheds_ok (fb_schedulers s);
  fo_history : match ss_twcc_history (pb_send (fb_probe s)) with Some h => hist_ok h | None => True end;
  fo_cache : match ss_rtx_cache (pb_send (fb_probe s)) with Some c => cached_ok c | None => True end;
  fo_queue : prio_inv (pb_rtx (fb_probe s));
  fo_pacer : exists rs, pacer_inv (fb_pacer s, rs)
}.

(** ** Transport-wide feedback *)

Record acc_ok (a : twcc_acc) : Prop := {
  aa_probe : probe_ok (ac_controller a) (ac_gcc a);
  aa_gcc : gcc_inv lo hi (ac_gcc a);
  aa_estimated : lo <= ac_estimated a <= hi;
  aa_history : hist_ok (ac_history a)
}.
Lemma hist_entry_size h seq : hist_ok h -> is_u32 (h_size_bytes (hist_entry h seq)).
Proof.
  intros [Hl Hs]. unfold hist_entry. pose proof (hist_slot_range seq) as Hr. destruct (lookup_lt_is_Some_2 h (hist_slot seq) ltac:(lia)) as [e He].
  rewrite (nth_lookup_Some _ _ _ _ He). rewrite Forall_lookup in Hs. by apply (Hs _ _ He).
Qed.
Lemma hist_ok_insert h i e : hist_ok h -> is_u32 (h_size_bytes e) -> hist_ok (<[i := e]> h).
Proof. intros [Hl Hs] He. split; [by rewrite length_insert|by apply Forall_insert]. Qed.
Lemma report_loss_hist h seq : hist_ok h -> hist_ok (sfu_twcc_history_report_loss_once h seq).2.
Proof.
  intros H. unfold sfu_twcc_history_report_loss_once. destruct (_ || _); [done|]. apply hist_ok_insert; [done|].
  exact (hist_entry_size h seq H).
Qed.
Lemma consume_hist h seq o h' : hist_ok h -> sfu_twcc_history_consume_received_ext h seq = (o, h') ->
  hist_ok h' /\ match o with Some ((_, size, _, _), _) => is_u32 size | None => True end.
Proof.
  intros H. pose proof (hist_entry_size h seq H) as Hs. unfold sfu_twcc_history_consume_received_ext.
  destruct (_ || _); intros [= <- <-]; [done|]. split; [by apply hist_ok_insert|done].
Qed.
Lemma count_lost_ok a seq : acc_ok a -> acc_ok (count_lost a seq).
Proof.
  intros [Hp Hg He Hh]. unfold count_lost. destruct (match sfu_twcc_history_lookup_ext _ _ with Some _ => _ | None => _ end) as [p c].
  pose proof (report_loss_hist (ac_history a) seq Hh) as Hr. destruct (sfu_twcc_history_report_loss_once (ac_history a) seq) as [fresh h]. cbn [snd] in Hr.
  cbv zeta. set (a1 := a <| ac_history := h |>). assert (H1 : acc_ok a1) by (by constructor). clearbody a1. clear -H1.
  destruct fresh; [|done]. destruct H1. cbn [negb]. destruct p; constructor; try done. by apply lost_ok.
Qed.
Lemma process_rate g pkt : (gcc_bwe_process_twcc_packet g pkt).1 = gcc_bwe_get_bitrate (gcc_bwe_process_twcc_packet g pkt).2.
Proof.
  unfold gcc_bwe_process_twcc_packet. set (g1 := if _ <? _ then _ else g). clearbody g1. destruct (_ && _); [done|].
  set (g2 := g1 <| aimd ::= _ |>). clearbody g2. destruct (_ || _); done.
Qed.
Lemma estimate_ok a item : acc_ok a -> is_u32 (size_bytes item) -> acc_ok (estimate_packet a item).
Proof.
  intros [Hp Hg He Hh] Hs. unfold estimate_packet. pose proof (process_rate (ac_gcc a) item) as Er. pose proof (packet_flag (ac_gcc a) item) as Ef.
  destruct (gcc_bwe_process_twcc_packet (ac_gcc a) item) as [bps g] eqn:E. cbn [fst snd] in *.
  assert (Hi : gcc_inv lo hi g) by (apply (gcc_step_inv lo hi (ac_gcc a)); try done; by eapply gcc_packet).
  constructor; try done; [by apply (probe_ok_flag _ (ac_gcc a))|]. change (lo <= bps <= hi). rewrite Er. apply Hi.
Qed.
Lemma count_received_ok a seq t : acc_ok a -> acc_ok (count_received a seq t).
Proof.
  intros H. unfold count_received. destruct (sfu_twcc_history_consume_received_ext (ac_history a) seq) as [o h] eqn:E.
  destruct (consume_hist _ _ _ _ (aa_history _ H) E) as [Hh Hs]. destruct o as [[[[[st sz] p] c] w]|]; [|done]. cbv zeta.
  set (a1 := a <| ac_history := h |>). assert (H1 : acc_ok a1) by (destruct H; by constructor). clearbody a1. clear -H1 Hlim Hhi Hs. destruct p.
  - apply estimate_ok; [|done]. destruct w; [done|]. destruct H1. constructor; try done. by apply received_ok.
  - pose proof (estimate_ok a1 (mk_packet_info seq st t sz) H1 Hs) as H2. destruct w; [done|]. destruct H2. by constructor.
Qed.
Lemma batch_ok batch a : acc_ok a -> acc_ok (fold_left count_status batch a).
Proof.
  revert a. induction batch as [|s batch IH]; intros a H; [done|]. cbn [fold_left]. apply IH. unfold count_status.
  destruct (_ =? _); [by apply count_lost_ok|by apply count_received_ok].
Qed.

Lemma put_probe_ok s q : feedback_ok s -> session_ok lo hi q -> pb_rtx q = pb_rtx (fb_probe s) -> pb_send q = pb_send (fb_probe s) ->
  feedback_ok (s <| fb_probe := q |>).
Proof.
  intros [H1 H2 H3 H4 H5 H6] Hq Er Es. constructor; try done; cbn [fb_probe set] in *; change (fb_probe (s <| fb_probe := q |>)) with q; rewrite ?Es, ?Er; try done.
  unfold fb_pacer in *. change (fb_probe (s <| fb_probe := q |>)) with q. by rewrite Es.
Qed.
Lemma session_rate q : session_ok lo hi q -> lo <= gcc_bwe_get_bitrate (pb_gcc q) <= hi.
Proof. by intros [_ [_ [_ _ H _ _]] _]. Qed.
Lemma count_batch_ok s batch : feedback_ok s ->
  let '(s', est, _, _) := count_batch s batch in feedback_ok s' /\ lo <= est <= hi.
Proof.
  intros H. pose proof (session_rate _ (fo_session _ H)) as Hr. unfold count_batch. destruct (ss_twcc_history _) as [h|] eqn:Eh; [|by split].
  pose proof H as [[Hp Hg Hw] H2 H3 H4 H5 H6]. rewrite Eh in H3. set (a := fold_left _ _ _).
  assert (Ha : acc_ok a) by (by apply batch_ok). clearbody a. destruct Ha as [A1 A2 A3 A4]. split; [|done].
  constructor; try done. constructor; [done|done|]. by apply (world_same (fb_probe s)).
Qed.
Lemma note_reference_ok s t : feedback_ok s -> feedback_ok (note_reference s t).
Proof. intros H. unfold note_reference. destruct (_ <? _); [|done]. destruct H. by constructor. Qed.
Lemma with_controller_same q r : pb_rtx (with_controller q r) = pb_rtx q /\ pb_send (with_controller q r) = pb_send q.
Proof. unfold with_controller. by destruct r as [pc [g|]]. Qed.
Lemma report_losses_ok s est lost total now : feedback_ok s -> lo <= est <= hi ->
  let '(s', est') := report_losses s est lost total now in feedback_ok s' /\ lo <= est' <= hi.
Proof.
  intros H He. unfold report_losses. destruct (_ <? _); [|by split]. pose proof (loss_flag (pb_gcc (fb_probe s)) lost total) as Ef.
  destruct (gcc_bwe_report_loss (pb_gcc (fb_probe s)) lost total) as [b g] eqn:E. cbn [snd] in Ef.
  set (q := (fb_probe s) <| pb_gcc := g |>).
  assert (Hq : session_ok lo hi q) by (apply estimator_ok; [done|done|apply H|by eapply gcc_loss|done]).
  split; [|exact (session_rate q Hq)]. destruct b.
  - pose proof (abort_step_ok lo hi Hlim Hhi q now Hq) as Ha. change (abort_step q now) with (with_controller q (sfu_probe_controller_abort (pb_controller q) (Some g) now)) in Ha.
    destruct (with_controller_same q (sfu_probe_controller_abort (pb_controller q) (Some g) now)) as [W1 W2]. by apply put_probe_ok.
  - by apply put_probe_ok.
Qed.
Lemma finish_cluster_ok s est now : feedback_ok s -> lo <= est <= hi ->
  let '(s', est') := finish_cluster s est now in feedback_ok s' /\ lo <= est' <= hi.
Proof.
  intros H He. unfold finish_cluster. destruct (sfu_probe_controller_check_cluster_done _ _ now) as [[[d bps] pc] g] eqn:E.
  destruct (cluster_done_ok lo hi Hlim Hhi (fb_probe s) now d bps pc g (fo_session _ H) E) as (H1 & Hb & _).
  destruct (with_controller_same (fb_probe s) (pc, g)) as [W1 W2]. set (q := with_controller (fb_probe s) (pc, g)) in *. clearbody q.
  destruct (d && _).
  - pose proof (completed_ok lo hi Hlim Hhi q bps now H1 Hb) as H2. split; [by apply put_probe_ok|exact (session_rate _ H2)].
  - split; [by apply put_probe_ok|done].
Qed.
Lemma update_layers_ok cfg s bps now : feedback_ok s -> is_u32 bps -> feedback_ok (sfu_svc_update_layers cfg s bps now).
Proof.
  intros H Hb. unfold sfu_svc_update_layers. set (s1 := set_fb_pacer s _).
  assert (H1 : feedback_ok s1).
  { destruct H as [H1 H2 H3 H4 H5 (rs & H6)]. constructor; try done; [|exists rs; by apply set_rate_inv].
    destruct H1 as [P1 P2 P3]. constructor; [done|done|by apply (world_same (fb_probe s))]. }
  clearbody s1. clear s H. set (a := current_allocation cfg s1 bps). clearbody a. set (s2 := s1 <| fb_probe ::= _ |>).
  assert (H2 : feedback_ok s2).
  { apply put_probe_ok; [done| |done|done]. destruct H1 as [[P1 P2 P3] _ _ _ _ _]. constructor; [|done|by apply (world_same (fb_probe s1))].
    by apply (counters_ok (pb_controller (fb_probe s1))). }
  clearbody s2. clear s1 H1. set (s3 := match fb_entries s2 with Some l => _ | None => s2 end).
  assert (H3 : feedback_ok s3) by (unfold s3; destruct (fb_entries s2); [destruct H2; by constructor|done]). clearbody s3.
  destruct H3 as [F1 F2 F3 F4 F5 F6]. constructor; try done. by apply update_schedulers_ok.
Qed.
Lemma apply_batch_ok cfg s batch t now : feedback_ok s -> feedback_ok (apply_batch cfg s batch t now).
Proof.
  intros H. unfold apply_batch. pose proof (count_batch_ok s batch H) as H1. destruct (count_batch s batch) as [[[s1 e1] lost] total]. destruct H1 as [H1 E1].
  apply (note_reference_ok _ t) in H1. pose proof (report_losses_ok _ e1 lost total now H1 E1) as H2.
  destruct (report_losses _ e1 lost total now) as [s2 e2]. destruct H2 as [H2 E2].
  pose proof (finish_cluster_ok s2 e2 now H2 E2) as H3. destruct (finish_cluster s2 e2 now) as [s3 e3]. destruct H3 as [H3 E3].
  destruct (_ <? _); [|done]. apply update_layers_ok; [done|]. unfold is_u32 in *. lia.
Qed.

Lemma status_batch_ok n data e p : bytes_ok data -> iter_inv data e p -> failed p = false -> exists ss q, status_batch n data p = Ok (ss, q).
Proof.
  intros Hb. revert p. induction n as [|n IH]; intros p Hi Hf; cbn [status_batch]; [by do 2 eexists|].
  destruct (next_status_spec data e p Hb Hi Hf) as ([s|] & q & -> & Hr); cbn [res_bind]; [|by do 2 eexists].
  destruct Hr as (Hi' & Hf' & _). destruct (IH q Hi' Hf') as (ss & q' & ->). by do 2 eexists.
Qed.
Lemma twcc_member_ok cfg s member now : feedback_ok s -> bytes_ok member ->
  exists s', handle_twcc_member cfg s member now = Ok s' /\ feedback_ok s'.
Proof.
  intros H Hb. unfold handle_twcc_member. destruct (negb _); [by eexists|]. pose proof (zlen_nonneg member) as Hz.
  pose proof (twcc_parse_spec member (zlen member) (fb_last_feedback_ref_us s) Hb ltac:(lia)) as Hp.
  destruct (sfu_twcc_parser_init member (zlen member) (fb_last_feedback_ref_us s)) as [p| |] eqn:E; [|by eexists|done].
  destruct (parser_init_iter member (zlen member) _ p Hb ltac:(lia) E) as (e & Hi & Hf & _). destruct (_ <? _); [by eexists|].
  destruct (status_batch_ok (Z.to_nat (packet_status_count p)) member e p Hb Hi Hf) as (ss & q & ->). cbn [res_bind].
  destruct (_ || _); [by eexists|]. eexists. split; [done|]. by apply apply_batch_ok.
Qed.

(** ** Retransmissions *)

(** What a retransmission leaves alone, and the queue. *)
Definition outer (s : feedback_session) :=
  let g := pb_send (fb_probe s) in
  (option_map entries (ss_rtx_cache g), fb_requests s, fb_generation s, pb_twcc_id (fb_probe s),
   (ss_addr g, ss_addr_len g, ss_owner_value g, ss_transport_generation g, ss_address_generation g)).
Definition rtx_items (s : feedback_session) : list sfu_paced_priority_entry := prio_contents (pb_rtx (fb_probe s)).
(** The next number of the retransmission stream, before translation. *)
Definition own_rtx_seq (s : feedback_session) : Z := match ss_rtx_cache (pb_send (fb_probe s)) with Some c => next_rtx_seq c | None => 0 end.

Lemma set_pacer_ok s p : feedback_ok s -> (exists rs, pacer_inv (p, rs)) -> feedback_ok (set_fb_pacer s p).
Proof.
  intros [H1 H2 H3 H4 H5 _] Hp. constructor; try done. destruct H1 as [P1 P2 P3]. constructor; [done|done|by apply (world_same (fb_probe s))].
Qed.
Lemma refund_ok s bytes : feedback_ok s -> is_u32 bytes -> feedback_ok (refund s bytes).
Proof.
  intros H Hb. apply set_pacer_ok; [done|]. destruct (fo_pacer _ H) as [rs Hr]. exists rs. eapply pacer_step_inv; [exact Hr|]. by apply step_rtx_refund.
Qed.
(** The packet handed to SRTP: the built one without a number when the
    extension is not negotiated; otherwise with the next transport-wide
    number, unless there is no room to write it. *)
Definition stamped (s : feedback_session) (built : list Z) (n : Z) (data : list Z) (len : Z) (written : bool) (seq : Z) : Prop :=
  let id := pb_twcc_id (fb_probe s) in let next := pb_next_twcc_seq (fb_probe s) in
  (id = 0 -> data = built /\ len = n /\ written = false /\ seq = 0) /\
  (id <> 0 -> seq = next /\
     if written then sfu_rtp_ext_write_twcc built n (zlen built) id next = Ok (data, len)
     else sfu_rtp_ext_write_twcc built n (zlen built) id next = Err /\ data = built /\ len = n).
Definition next_twcc (s : feedback_session) : Z :=
  if pb_twcc_id (fb_probe s) =? 0 then pb_next_twcc_seq (fb_probe s) else u16 (pb_next_twcc_seq (fb_probe s) + 1).
Lemma stamp_rtx_ok s built n : feedback_ok s -> bytes_ok built ->
  exists s' w q d l, stamp_rtx s built n = Ok (s', w, q, d, l) /\ feedback_ok s' /\
    s' = s <| fb_probe ::= fun p => p <| pb_next_twcc_seq := next_twcc s |> |> /\ stamped s built n d l w q.
Proof.
  intros H Hb. unfold stamp_rtx, stamped, next_twcc. destruct (Z.eqb_spec (pb_twcc_id (fb_probe s)) 0) as [Ez|Ez].
  { do 5 eexists. split_and!; try done. by destruct s as [[]]. }
  set (s1 := s <| fb_probe ::= _ |>). assert (H1 : feedback_ok s1).
  { apply put_probe_ok; [done| |done|done]. destruct H as [[P1 P2 [W1 W2 [W3 _] W4 W5]] _ _ _ _ _]. constructor; [done|done|].
    constructor; try done. split; [done|apply u16_range]. }
  pose proof (write_twcc_safe built n (zlen built) (pb_twcc_id (fb_probe s)) (pb_next_twcc_seq (fb_probe s)) Hb ltac:(lia)) as Hs.
  destruct (sfu_rtp_ext_write_twcc _ _ _ _ _) as [[d l]| |] eqn:E; [| |done]; do 5 eexists; by split_and!.
Qed.
(** The queue takes a packet. *)
Definition accepts (q : sfu_paced_priority_queue) (len dst_len : Z) (alloc : bool) : bool :=
  (0 <? len) && (len <=? SFU_PACED_SEND_MAX_PAYLOAD) && negb (dst_len =? 0) && (negb (bool_decide (pq_entries q = [])) || alloc) &&
  (zlen (prio_contents q) <? SFU_PACED_PRIORITY_QUEUE_CAPACITY) &&
  ((pq_max_bytes q <=? 0) || (bytes_of (prio_contents q) + len <=? pq_max_bytes q)).
Lemma enqueue_exact q d l dst dl ow tg ag w seq ch now alloc : prio_inv q -> is_u16 l ->
  let e := mk_prio_entry (slice d 0 l) l dst dl now ow tg ag seq w ch (pq_is_probe_queue q) 0 in
  let r := sfu_paced_priority_queue_enqueue q d l dst dl ow tg ag w seq ch now alloc in
  r.1 = accepts q l dl alloc /\ prio_inv r.2 /\ prio_contents r.2 = prio_contents q ++ (if accepts q l dl alloc then [e] else []).
Proof.
  intros Hq Hl. cbv zeta. unfold sfu_paced_priority_queue_enqueue, bad_packet, accepts. set (e := mk_prio_entry _ _ _ _ _ _ _ _ _ _ _ _ _). unfold is_u16 in Hl.
  destruct (Z.eqb_spec l 0) as [Ez|Ez]; [rewrite Ez; cbn; by rewrite app_nil_r|]. rewrite (proj2 (Z.ltb_lt 0 l)) by lia. cbn [orb andb].
  rewrite (Z.leb_antisym SFU_PACED_SEND_MAX_PAYLOAD l). destruct (Z.ltb_spec SFU_PACED_SEND_MAX_PAYLOAD l) as [Hm|Hm]; [cbn; by rewrite app_nil_r|]. cbn [orb andb negb].
  destruct (dl =? 0); [cbn; by rewrite app_nil_r|]. cbn [orb andb negb].
  assert (He : prio_len_ok e) by (unfold prio_len_ok; change (xe_len e) with l; lia).
  destruct (prio_push q e alloc) as [ok r] eqn:E. destruct (prio_push_spec q e alloc ok r Hq He E) as [Hr Hf]. cbn [fst snd].
  unfold fifo_push in Hf. cbn [fifo_of f_ready f_items f_max_bytes] in Hf. change (xe_len e) with l in Hf. rewrite negb_involutive in Hf.
  rewrite (Z.ltb_antisym _ (zlen (prio_contents q))), (Z.leb_antisym 0 (pq_max_bytes q)), (Z.leb_antisym (pq_max_bytes q)).
  destruct (bool_decide (pq_entries q = [])); destruct alloc; cbn [andb negb orb] in *; try (injection Hf as <- Hf; rewrite app_nil_r; done);
    destruct (_ <=? _); cbn [andb negb orb] in *; try (injection Hf as <- Hf; rewrite app_nil_r; done);
    destruct (0 <? _); cbn [andb negb orb] in *; try (injection Hf as <- Hf; done);
    destruct (_ <? _); cbn [andb negb orb] in *; injection Hf as <- Hf; rewrite ?app_nil_r; done.
Qed.
(** Queued and kept on the budget, or not queued and given back. *)
Lemma queue_rtx_ok s d l w q bytes now alloc : feedback_ok s -> is_u32 bytes ->
  let g := pb_send (fb_probe s) in let s' := queue_rtx s d l w q bytes now alloc in
  let ok := accepts (pb_rtx (fb_probe s)) (u16 l) (ss_addr_len g) alloc in
  feedback_ok s' /\ outer s' = outer s /\ own_rtx_seq s' = own_rtx_seq s /\ pb_next_twcc_seq (fb_probe s') = pb_next_twcc_seq (fb_probe s) /\
  pb_translator (fb_probe s') = pb_translator (fb_probe s) /\
  rtx_items s' = rtx_items s ++ (if ok then [mk_prio_entry (slice d 0 (u16 l)) (u16 l) (ss_addr g) (ss_addr_len g) now (ss_owner_value g)
    (ss_transport_generation g) (ss_address_generation g) q w bytes (pq_is_probe_queue (pb_rtx (fb_probe s))) 0] else []) /\
  fb_pacer s' = if ok then fb_pacer s else sfu_pacer_rtx_refund (fb_pacer s) bytes.
Proof.
  intros H Hb. cbv zeta. unfold queue_rtx. set (g := pb_send (fb_probe s)).
  assert (Hput : forall r, prio_inv r -> feedback_ok (s <| fb_probe ::= fun p => p <| pb_rtx := r |> |>)).
  { intros r Hr. destruct H as [[P1 P2 P3] H2 H3 H4 H5 H6]. constructor; try done. constructor; [done|done|by apply (world_same (fb_probe s))]. }
  pose proof (enqueue_exact (pb_rtx (fb_probe s)) d (u16 l) (ss_addr g) (ss_addr_len g) (ss_owner_value g) (ss_transport_generation g)
    (ss_address_generation g) w q bytes now alloc (fo_queue _ H) (u16_range l)) as He. cbv zeta in He.
  destruct (sfu_paced_priority_queue_enqueue _ _ _ _ _ _ _ _ _ _ _ _ _) as [ok r]. cbn [fst snd] in He. destruct He as (-> & Hr & Hc).
  specialize (Hput r Hr). set (s1 := s <| fb_probe ::= _ |>) in *. destruct (accepts _ _ _ _).
  - by split_and!.
  - split; [by apply refund_ok|]. by split_and!.
Qed.

(** ** What becomes of a requested packet *)

Definition io_ok (io : nack_io) : Prop := forall seq b, ni_pool io seq = Some b -> bytes_ok b.
Definition missed (c : sfu_rtx_cache) (media_ssrc generation seq : Z) : bool :=
  match sfu_rtx_cache_get_stream c seq media_ssrc generation with Err => true | _ => false end.
Section Outcome.
Context (c : sfu_rtx_cache) (io : nack_io) (media_ssrc generation now : Z).

(** The retransmission of the cached packet of the number [seq], before SRTP:
    an RFC 4588 packet with the next number of the subscriber's
    retransmission stream, and the transport-wide number. *)
Definition retransmission (s : feedback_session) (seq : Z) (orig data : list Z) (len : Z) (written : bool) (twcc_seq : Z) : Prop :=
  exists rtx_ssrc rtx_pt buffer rtx_seq t built n,
    sfu_rtx_cache_get_stream c seq media_ssrc generation = Ok (orig, rtx_ssrc, rtx_pt) /\ ni_pool io seq = Some buffer /\
    sfu_rtp_seq_translate (pb_translator (fb_probe s)) rtx_ssrc (own_rtx_seq s) = Ok (rtx_seq, t) /\
    sfu_rtx_build orig (zlen orig) rtx_pt rtx_seq rtx_ssrc buffer (zlen buffer) = Ok (built, n) /\ stamped s built n data len written twcc_seq.
(** Whether the queue takes what SRTP made. *)
Definition takes (s : feedback_session) (len : Z) : bool := accepts (pb_rtx (fb_probe s)) (u16 len) (ss_addr_len (pb_send (fb_probe s))) (ni_alloc io).
(** Why a packet the cache has is not sent again, or what is queued. *)
Inductive nack_outcome (s : feedback_session) (seq : Z) : option sfu_paced_priority_entry -> Prop :=
  | out_budget orig rtx_ssrc rtx_pt :
      sfu_rtx_cache_get_stream c seq media_ssrc generation = Ok (orig, rtx_ssrc, rtx_pt) ->
      active (fb_pacer s) = true -> budget_at now (fb_pacer s) < zlen orig + 2 -> nack_outcome s seq None
  | out_pool orig rtx_ssrc rtx_pt :
      sfu_rtx_cache_get_stream c seq media_ssrc generation = Ok (orig, rtx_ssrc, rtx_pt) -> ni_pool io seq = None -> nack_outcome s seq None
  | out_number orig rtx_ssrc rtx_pt :
      sfu_rtx_cache_get_stream c seq media_ssrc generation = Ok (orig, rtx_ssrc, rtx_pt) ->
      sfu_rtp_seq_translate (pb_translator (fb_probe s)) rtx_ssrc (own_rtx_seq s) = Err -> nack_outcome s seq None
  | out_build orig rtx_ssrc rtx_pt buffer rtx_seq t :
      sfu_rtx_cache_get_stream c seq media_ssrc generation = Ok (orig, rtx_ssrc, rtx_pt) -> ni_pool io seq = Some buffer ->
      sfu_rtp_seq_translate (pb_translator (fb_probe s)) rtx_ssrc (own_rtx_seq s) = Ok (rtx_seq, t) ->
      sfu_rtx_build orig (zlen orig) rtx_pt rtx_seq rtx_ssrc buffer (zlen buffer) = Err -> nack_outcome s seq None
  | out_protect orig data len written twcc_seq :
      retransmission s seq orig data len written twcc_seq -> ni_protect io data len (zlen data) = None -> nack_outcome s seq None
  | out_queue orig data len written twcc_seq d l :
      retransmission s seq orig data len written twcc_seq -> ni_protect io data len (zlen data) = Some (d, l) -> takes s l = false ->
      nack_outcome s seq None
  | out_sent orig data len written twcc_seq d l g :
      (active (fb_pacer s) = true -> zlen orig + 2 <= budget_at now (fb_pacer s)) ->
      retransmission s seq orig data len written twcc_seq -> ni_protect io data len (zlen data) = Some (d, l) -> takes s l = true ->
      g = pb_send (fb_probe s) ->
      nack_outcome s seq (Some (mk_prio_entry (slice d 0 (u16 l)) (u16 l) (ss_addr g) (ss_addr_len g) now (ss_owner_value g)
        (ss_transport_generation g) (ss_address_generation g) twcc_seq written (zlen orig + 2) (pq_is_probe_queue (pb_rtx (fb_probe s))) 0)).

Definition queued (o : option sfu_paced_priority_entry) : list sfu_paced_priority_entry := match o with Some e => [e] | None => [] end.
(** The session after an outcome: the queue, the budget and the numbers. *)
Record after (s : feedback_session) (o : option sfu_paced_priority_entry) (s' : feedback_session) : Prop := {
  af_outer : outer s' = outer s;
  af_items : rtx_items s' = rtx_items s ++ queued o;
  af_spent : spent now (fb_pacer s) (fb_pacer s') (charged (queued o));
  af_numbers : (own_rtx_seq s', pb_next_twcc_seq (fb_probe s')) = (u16 (own_rtx_seq s + 1), next_twcc s) \/
    o = None /\ pb_next_twcc_seq (fb_probe s') = pb_next_twcc_seq (fb_probe s) /\ (own_rtx_seq s' = own_rtx_seq s \/ own_rtx_seq s' = u16 (own_rtx_seq s + 1));
  af_translator : pb_translator (fb_probe s') = pb_translator (fb_probe s) \/
    exists rtx_ssrc rtx_seq, sfu_rtp_seq_translate (pb_translator (fb_probe s)) rtx_ssrc (own_rtx_seq s) = Ok (rtx_seq, pb_translator (fb_probe s'))
}.
(** The requested numbers in turn, and what was queued for them. *)
Inductive nack_served : feedback_session -> list Z -> list (Z * sfu_paced_priority_entry) -> feedback_session -> Prop :=
  | served_all s : nack_served s [] [] s
  | served_missing s seq seqs answered s' :
      missed c media_ssrc generation seq = true -> nack_served s seqs answered s' -> nack_served s (seq :: seqs) answered s'
  | served_found s seq o s1 seqs answered s' :
      missed c media_ssrc generation seq = false -> nack_outcome s seq o -> after s o s1 -> nack_served s1 seqs answered s' ->
      nack_served s (seq :: seqs) (map (pair seq) (queued o) ++ answered) s'.
Lemma served_sums s seqs answered s' : nack_served s seqs answered s' ->
  outer s' = outer s /\ rtx_items s' = rtx_items s ++ map snd answered /\ sublist (map fst answered) seqs /\
  spent now (fb_pacer s) (fb_pacer s') (charged (map snd answered)).
Proof.
  induction 1 as [s|s seq seqs a s' _ _ (O & I & U & S)|s seq o s1 seqs a s' _ _ [A1 A2 A3 _ _] _ (O & I & U & S)].
  - rewrite app_nil_r. split_and!; try done. apply spent_refl.
  - split_and!; try done. by apply sublist_cons.
  - assert (Es : map snd (map (pair seq) (queued o)) = queued o) by (by destruct o). rewrite !map_app, Es. split_and!.
    + congruence.
    + by rewrite I, A2, <- app_assoc.
    + destruct o; cbn; [by apply sublist_skip|by apply sublist_cons].
    + rewrite charged_app. by eapply spent_trans.
Qed.
End Outcome.

Lemma took_ok s c : feedback_ok s -> ss_rtx_cache (pb_send (fb_probe s)) = Some c ->
  feedback_ok (s <| fb_probe := (take_rtx_seq (fb_probe s) c).2 |>) /\ is_u16 (take_rtx_seq (fb_probe s) c).1.
Proof.
  intros [[P1 P2 P3] H2 H3 H4 H5 H6] E. destruct (take_seq_ok (fb_probe s) c P3 E) as [W N]. split; [|done]. rewrite E in H4. by constructor.
Qed.
(** The numbers and the queue of a session between the stages of a retransmission. *)
Definition stage (s : feedback_session) (p : sfu_pacer) (own twcc : Z) (s' : feedback_session) : Prop :=
  feedback_ok s' /\ outer s' = outer s /\ pb_rtx (fb_probe s') = pb_rtx (fb_probe s) /\ fb_pacer s' = p /\ own_rtx_seq s' = own /\
  pb_next_twcc_seq (fb_probe s') = twcc.
(** The outcome of a retransmission that the pacer [p] has charged. *)
Definition settles (c : sfu_rtx_cache) (io : nack_io) (media_ssrc generation now : Z) (s : feedback_session) (p : sfu_pacer) (bytes seq : Z)
    (s' : feedback_session) : Prop :=
  feedback_ok s' /\ exists o, nack_outcome c io media_ssrc generation now s seq o /\
    (spent now (fb_pacer s) (fb_pacer s') (charged (queued o)) -> after now s o s') /\
    fb_pacer s' = (match o with Some _ => p | None => sfu_pacer_rtx_refund p bytes end) /\ charged (queued o) = match o with Some _ => bytes | None => 0 end.
Lemma settle_none c io ssrc gen now s p bytes seq own twcc s' :
  stage s p own twcc s' -> is_u32 bytes -> nack_outcome c io ssrc gen now s seq None ->
  twcc = pb_next_twcc_seq (fb_probe s) /\ (own = own_rtx_seq s \/ own = u16 (own_rtx_seq s + 1)) \/ (own, twcc) = (u16 (own_rtx_seq s + 1), next_twcc s) ->
  pb_translator (fb_probe s') = pb_translator (fb_probe s) \/
    (exists rtx_ssrc rtx_seq, sfu_rtp_seq_translate (pb_translator (fb_probe s)) rtx_ssrc (own_rtx_seq s) = Ok (rtx_seq, pb_translator (fb_probe s'))) ->
  settles c io ssrc gen now s p bytes seq (refund s' bytes).
Proof.
  intros (H & O & Q & P & N & T) Hb Ho Hn Ht. split; [by apply refund_ok|]. exists None. split; [done|]. split; [|split; [|done]].
  - intros Hs. constructor; [exact O| |exact Hs| |exact Ht].
    + unfold rtx_items. cbn [queued]. rewrite app_nil_r. by rewrite <- Q.
    + change (own_rtx_seq (refund s' bytes)) with (own_rtx_seq s'). change (pb_next_twcc_seq (fb_probe (refund s' bytes))) with (pb_next_twcc_seq (fb_probe s')).
      rewrite N, T. destruct Hn as [[-> Hn]|Hn]; [right|left]; done.
  - by rewrite <- P.
Qed.
Lemma send_rtx_ok s p c c' orig rtx_ssrc rtx_pt buffer bytes now io seq media_ssrc generation :
  feedback_ok (set_fb_pacer s p) -> ss_rtx_cache (pb_send (fb_probe s)) = Some c' ->
  sfu_rtx_cache_get_stream c seq media_ssrc generation = Ok (orig, rtx_ssrc, rtx_pt) ->
  (active (fb_pacer s) = true -> zlen orig + 2 <= budget_at now (fb_pacer s)) ->
  ni_pool io seq = Some buffer -> bytes_ok orig -> zlen orig <= 2048 -> is_u32 rtx_ssrc -> 0 <= rtx_pt -> bytes_ok buffer -> bytes = zlen orig + 2 ->
  exists s', send_rtx (set_fb_pacer s p) c' orig rtx_ssrc rtx_pt buffer bytes now io = Ok s' /\
    settles c io media_ssrc generation now s p bytes seq s'.
Proof.
  intros H Ec Eg Haff Ep Hb Hz Hss Hpt Hbuf Ebytes. pose proof (zlen_nonneg orig) as Hz0. assert (Hu : is_u32 bytes) by (unfold is_u32; lia). unfold send_rtx.
  destruct (took_ok (set_fb_pacer s p) c' H Ec) as [H1 Hn]. assert (Eown : own_rtx_seq s = next_rtx_seq c') by (unfold own_rtx_seq; by rewrite Ec).
  set (s1 := (set_fb_pacer s p) <| fb_probe := (take_rtx_seq (fb_probe (set_fb_pacer s p)) c').2 |>) in *.
  assert (Etake : take_rtx_seq (fb_probe (set_fb_pacer s p)) c' = (next_rtx_seq c', fb_probe s1)) by done.
  rewrite Etake. change (is_u16 (next_rtx_seq c')) in Hn. cbv beta iota. clear Etake.
  change ((set_fb_pacer s p) <| fb_probe := fb_probe s1 |>) with s1.
  assert (G1 : stage s p (u16 (own_rtx_seq s + 1)) (pb_next_twcc_seq (fb_probe s)) s1).
  { split; [done|]. split; [unfold outer; cbn; by rewrite Ec|]. rewrite Eown. done. }
  assert (Et : pb_translator (fb_probe s1) = pb_translator (fb_probe s)) by done.
  destruct (session_translate (fb_probe s1) rtx_ssrc (next_rtx_seq c') (so_world _ _ _ (fo_session _ H1)) Hn) as [(sub & t & E1 & Hsub & Ht)|E1]; rewrite E1.
  2: { eexists. split; [done|]. eapply settle_none; [exact G1|done| |auto|auto]. eapply out_number; [exact Eg|]. by rewrite Eown, <- Et. }
  rewrite Et, <- Eown in E1. set (s2 := s1 <| fb_probe ::= _ |>).
  assert (H2 : feedback_ok s2) by (apply put_probe_ok; [done| |done|done]; destruct H1 as [[P1 P2 P3] _ _ _ _ _]; by constructor).
  assert (G2 : stage s p (u16 (own_rtx_seq s + 1)) (pb_next_twcc_seq (fb_probe s)) s2) by (destruct G1 as [_ G1]; split; [done|exact G1]).
  assert (T2 : pb_translator (fb_probe s2) = t) by done. clearbody s2. clear s1 H1 Et Ht G1 Hn.
  assert (Hmax : zlen orig + 2 <= UINT64_MAX) by (unfold UINT64_MAX; lia).
  pose proof (rtx_build_safe orig (zlen orig) rtx_pt sub rtx_ssrc buffer (zlen buffer) Hb ltac:(lia) Hmax Hpt Hsub Hss Hbuf ltac:(lia)) as Hbs.
  destruct (sfu_rtx_build orig _ _ _ _ _ _) as [[built n]| |] eqn:Eb; [| |done].
  2: { eexists. split; [done|]. eapply settle_none; [exact G2|done| |auto|right; exists rtx_ssrc, sub; by rewrite T2]. by eapply out_build. }
  destruct Hbs as (_ & Hbb & _). destruct (stamp_rtx_ok s2 built n H2 Hbb) as (s3 & w & tq & d & l & -> & H3 & E3 & Hst). cbn [res_bind].
  destruct G2 as (_ & O2 & Q2 & P2 & N2 & W2). assert (Eid : pb_twcc_id (fb_probe s2) = pb_twcc_id (fb_probe s)) by (by injection O2).
  unfold stamped in Hst. rewrite Eid, W2 in Hst. assert (Enx : next_twcc s2 = next_twcc s) by (unfold next_twcc; by rewrite Eid, W2).
  assert (G3 : stage s p (u16 (own_rtx_seq s + 1)) (next_twcc s) s3) by (subst s3; split; [done|]; by split_and!).
  assert (T3 : pb_translator (fb_probe s3) = t) by (by subst s3). clear E3.
  assert (Hr : retransmission c io media_ssrc generation s seq orig d l w tq) by (exists rtx_ssrc, rtx_pt, buffer, sub, t, built, n; done).
  assert (Htr : exists rs n, sfu_rtp_seq_translate (pb_translator (fb_probe s)) rs (own_rtx_seq s) = Ok (n, pb_translator (fb_probe s3))) by (exists rtx_ssrc, sub; by rewrite T3).
  destruct (ni_protect io d l (zlen d)) as [[d' l']|] eqn:Epr.
  2: { eexists. split; [done|]. eapply settle_none; [exact G3|done| |auto|auto]. by eapply out_protect. }
  eexists. split; [done|]. destruct G3 as (_ & O3 & Q3 & P3 & N3 & W3).
  destruct (queue_rtx_ok s3 d' l' w tq bytes now (ni_alloc io) H3 Hu) as (H4 & R1 & R2 & R3 & R4 & R5 & R6).
  set (s4 := queue_rtx s3 d' l' w tq bytes now (ni_alloc io)) in *. clearbody s4. split; [done|].
  assert (Eg3 : outer s3 = outer s) by done. unfold outer in Eg3. cbv zeta in Eg3. injection Eg3 as _ _ _ _ A1 A2 A3 A4 A5.
  rewrite Q3, A1, A2, A3, A4, A5 in R5. rewrite Q3, A2, P3 in R6. unfold rtx_items in R5 at 2. rewrite Q3 in R5.
  destruct (accepts (pb_rtx (fb_probe s)) (u16 l') (ss_addr_len (pb_send (fb_probe s))) (ni_alloc io)) eqn:Ea.
  - eexists (Some _). split; [by eapply out_sent|]. split; [|split; [exact R6|cbn; lia]]. intros Hs. constructor; [by rewrite R1| |exact Hs|left; by rewrite R2, R3, N3, W3|right; by rewrite R4].
    rewrite R5. cbn [queued]. by rewrite Ebytes.
  - exists None. split; [by eapply out_queue|]. split; [|split; [exact R6|done]]. intros Hs. constructor; [by rewrite R1| |exact Hs|left; by rewrite R2, R3, N3, W3|right; by rewrite R4].
    exact R5.
Qed.

(** The numbers that are served: the first [SFU_INGRESS_NACK_REQUEST_CAP] distinct ones. *)
Fixpoint to_serve (seqs requested : list Z) : list Z :=
  match seqs with
  | [] => []
  | q :: seqs =>
      if existsb (fun r => r =? q) requested then to_serve seqs requested
      else if SFU_INGRESS_NACK_REQUEST_CAP <=? zlen requested then []
      else q :: to_serve seqs (requested ++ [q])
  end.
Lemma get_entries c c' seq ssrc gen : entries c' = entries c -> sfu_rtx_cache_get_stream c' seq ssrc gen = sfu_rtx_cache_get_stream c seq ssrc gen.
Proof. intros E. unfold sfu_rtx_cache_get_stream. by rewrite E. Qed.
Lemma cached_get c seq ssrc gen : cached_ok c ->
  match sfu_rtx_cache_get_stream c seq ssrc gen with
  | Ok (orig, rs, rp) => bytes_ok orig /\ zlen orig <= 2048 /\ is_u32 rs /\ 0 <= rp
  | Err => True
  | Fault => False
  end.
Proof.
  intros (f & Hc & Hf). rewrite (get_holds c f seq ssrc gen Hc). destruct (f (rtx_index seq ssrc)) as [u|] eqn:E; [|done].
  destruct (_ && _); [|done]. destruct (Hf _ _ E) as (B & S & P). split_and!; try done.
  destruct (Hc _ (rtx_index_range seq ssrc)) as (e & _ & _ & Hh). rewrite E in Hh. by destruct Hh as (_ & _ & _ & _ & _ & _ & _ & Hh & _).
Qed.
Lemma allow_exact p bytes now ok p' : sfu_pacer_rtx_allow p bytes now = (ok, p') ->
  if ok then active p = true -> bytes <= budget_at now p else active p = true /\ budget_at now p < bytes.
Proof.
  unfold sfu_pacer_rtx_allow, budget_at. destruct (active p); cbn [negb]; [|intros [= <- _]; done].
  destruct (Z.ltb_spec (rtx_budget_bytes (rtx_refill p now)) bytes); by intros [= <- _].
Qed.
Lemma outcome_entries c c' io ssrc gen now s seq o :
  entries c' = entries c -> nack_outcome c' io ssrc gen now s seq o -> nack_outcome c io ssrc gen now s seq o.
Proof.
  intros E H. assert (Er : forall orig data len w q, retransmission c' io ssrc gen s seq orig data len w q -> retransmission c io ssrc gen s seq orig data len w q)
    by (intros orig data len w q; unfold retransmission; by rewrite (get_entries c c' seq ssrc gen E)).
  destruct H; rewrite ?(get_entries c c' seq ssrc gen E) in *; eauto using nack_outcome.
Qed.
Lemma serve_one_ok s c seq ssrc gen now io : 0 < now -> io_ok io -> feedback_ok s -> option_map entries (ss_rtx_cache (pb_send (fb_probe s))) = Some (entries c) ->
  exists s', serve_one s seq ssrc gen now io = Ok (missed c ssrc gen seq, s') /\ feedback_ok s' /\
    (if missed c ssrc gen seq then s' = s else exists o, nack_outcome c io ssrc gen now s seq o /\ after now s o s').
Proof.
  intros Hn Hio H Ec. pose proof (fo_cache _ H) as Hc. unfold serve_one, missed. destruct (ss_rtx_cache (pb_send (fb_probe s))) as [c'|] eqn:E; [|done].
  injection Ec as Ec. pose proof (cached_get c' seq ssrc gen Hc) as Hg. rewrite <- (get_entries c c' seq ssrc gen Ec).
  destruct (sfu_rtx_cache_get_stream c' seq ssrc gen) as [[[orig rs] rp]| |] eqn:Eg; [|by exists s|done].
  rewrite (get_entries c c' seq ssrc gen Ec) in Eg.
  destruct Hg as (B & L & S & P). cbv zeta. pose proof (zlen_nonneg orig) as Hz. rewrite u32_small by lia. set (bytes := zlen orig + 2).
  assert (Hu : is_u32 bytes) by (unfold is_u32, bytes; lia).
  destruct (fo_pacer _ H) as [rs' Hp]. destruct (sfu_pacer_rtx_allow (fb_pacer s) bytes now) as [ok p] eqn:Ea.
  destruct (allow_spent now (fb_pacer s) rs' bytes ok p Hn Hp Hu Ea) as [A1 A2]. pose proof (rtx_inv _ _ _ _ _ _ Hp Hu Ea) as Hp'. apply allow_exact in Ea.
  assert (H1 : feedback_ok (set_fb_pacer s p)) by (apply set_pacer_ok; [done|by exists rs']).
  assert (Hquiet : forall s1, outer s1 = outer s -> pb_rtx (fb_probe s1) = pb_rtx (fb_probe s) -> own_rtx_seq s1 = own_rtx_seq s ->
    pb_next_twcc_seq (fb_probe s1) = pb_next_twcc_seq (fb_probe s) -> pb_translator (fb_probe s1) = pb_translator (fb_probe s) ->
    spent now (fb_pacer s) (fb_pacer s1) 0 -> after now s None s1).
  { intros s1 O1 O2 O3 O4 O5 O6. constructor; [done| |done|right; auto|by left]. unfold rtx_items. cbn [queued]. rewrite app_nil_r. by rewrite O2. }
  destruct ok; cbn [negb].
  2: { exists (set_fb_pacer s p). split; [done|]. split; [done|]. destruct Ea. exists None. split; [by eapply out_budget|]. by apply Hquiet. }
  specialize (A2 eq_refl). destruct (ni_pool io seq) as [buffer|] eqn:Ep.
  2: { exists (refund (set_fb_pacer s p) bytes). split; [done|]. split; [by apply refund_ok|]. exists None. split; [by eapply out_pool|]. by apply Hquiet. }
  destruct (send_rtx_ok s p c c' orig rs rp buffer bytes now io seq ssrc gen H1 E Eg Ea Ep B L S P (Hio _ _ Ep) eq_refl) as (s2 & -> & H2 & o & Ho & Haf & Pe & Ch).
  cbn [res_bind]. exists s2. split; [done|]. split; [done|]. exists o. split; [done|]. apply Haf. rewrite Pe, Ch. by destruct o.
Qed.
Lemma serve_nacks_ok fuel member c : bytes_ok member -> forall p s requested unrec ssrc gen now io,
  0 < now -> io_ok io -> feedback_ok s -> option_map entries (ss_rtx_cache (pb_send (fb_probe s))) = Some (entries c) ->
  nack_inv member p -> (length (Rtx.remaining member p) < fuel)%nat ->
  let seqs := to_serve (Rtx.remaining member p) requested in
  exists s' answered, serve_nacks fuel member p s requested unrec ssrc gen now io = Ok (existsb (missed c ssrc gen) seqs || unrec, s') /\
    feedback_ok s' /\ nack_served c io ssrc gen now s seqs answered s'.
Proof.
  intros Hb. induction fuel as [|fuel IH]; intros p s requested unrec ssrc gen now io Hn Hio H Ec Hi Hf; [lia|]. cbn [serve_nacks].
  destruct (nack_next_spec member p Hb Hi) as (r & q & -> & Hq & Er). cbn [res_bind]. rewrite Er in *. destruct r as [seq|].
  2: { exists s, []. split; [done|]. split; [done|constructor]. }
  cbn [to_serve length] in *. destruct (existsb (fun r => r =? seq) requested); [apply IH; try done; lia|].
  destruct (_ <=? _); [exists s, []; split; [done|]; split; [done|constructor]|].
  destruct (serve_one_ok s c seq ssrc gen now io Hn Hio H Ec) as (s1 & -> & H1 & N1). cbn [res_bind].
  assert (Ec1 : option_map entries (ss_rtx_cache (pb_send (fb_probe s1))) = Some (entries c)).
  { destruct (missed c ssrc gen seq); [by subst s1|]. destruct N1 as (o & _ & [O1 _ _ _ _]). rewrite <- Ec. by injection O1. }
  destruct (IH q s1 (requested ++ [seq]) (missed c ssrc gen seq || unrec) ssrc gen now io Hn Hio H1 Ec1 Hq ltac:(lia)) as (s2 & ans & -> & H2 & F2).
  exists s2. cbn [existsb].
  assert (Eb : existsb (missed c ssrc gen) (to_serve (Rtx.remaining member q) (requested ++ [seq])) || (missed c ssrc gen seq || unrec) =
    missed c ssrc gen seq || existsb (missed c ssrc gen) (to_serve (Rtx.remaining member q) (requested ++ [seq])) || unrec) by (by destruct (existsb _ _), (missed c ssrc gen seq), unrec).
  rewrite Eb. destruct (missed c ssrc gen seq) eqn:Em.
  - subst s1. exists ans. split; [done|]. split; [done|]. by apply served_missing.
  - destruct N1 as (o & Ho & Ha). exists (map (pair seq) (queued o) ++ ans). split; [done|]. split; [done|]. by eapply served_found.
Qed.

Lemma to_serve_nodup seqs : forall requested, NoDup (to_serve seqs requested) /\ (forall q, q ∈ to_serve seqs requested -> (q ∉ requested) /\ (q ∈ seqs)).
Proof.
  induction seqs as [|q seqs IH]; intros requested; cbn [to_serve]; [split; [constructor|]; intros q Hq; by apply not_elem_of_nil in Hq|].
  destruct (existsb _ requested) eqn:E.
  - destruct (IH requested) as [H1 H2]. split; [done|]. intros r Hr. destruct (H2 r Hr). split; [done|]. by apply elem_of_cons; right.
  - destruct (_ <=? _); [split; [constructor|]; intros r Hr; by apply not_elem_of_nil in Hr|]. destruct (IH (requested ++ [q])) as [H1 H2].
    assert (Hq : q ∉ requested).
    { intros Hq. assert (Et : existsb (fun r => r =? q) requested = true); [|congruence]. apply existsb_exists. exists q. split; [by apply list_elem_of_In|apply Z.eqb_refl]. }
    split.
    + apply list.NoDup_cons. split; [|done]. intros Hin. destruct (H2 q Hin) as [Hn _]. apply Hn, elem_of_app. right. by apply list_elem_of_singleton.
    + intros r Hr. apply elem_of_cons in Hr as [->|Hr]; [split; [done|]; by apply elem_of_cons; left|]. destruct (H2 r Hr) as [Hn Hs]. split.
      * intros Hr'. apply Hn, elem_of_app. by left.
      * by apply elem_of_cons; right.
Qed.
Lemma to_serve_length seqs : forall requested, zlen requested <= SFU_INGRESS_NACK_REQUEST_CAP ->
  zlen requested + zlen (to_serve seqs requested) <= SFU_INGRESS_NACK_REQUEST_CAP.
Proof.
  induction seqs as [|q seqs IH]; intros requested Hl; cbn [to_serve]; [zlen; lia|]. destruct (existsb _ _); [by apply IH|].
  destruct (Z.leb_spec SFU_INGRESS_NACK_REQUEST_CAP (zlen requested)); [zlen; lia|]. specialize (IH (requested ++ [q])).
  rewrite zlen_app, zlen_cons, zlen_nil in IH. rewrite zlen_cons. specialize (IH ltac:(lia)). lia.
Qed.

(** ** The other members and the dispatch *)

Definition keyframe_target (room : room_view) (media_ssrc : Z) : list (Z * sfu_media_kind) :=
  match find_publisher_by_media_ssrc room media_ssrc with
  | Some p => [p]
  | None => match find_publisher_by_media_ssrc_unrouted room media_ssrc with Some p => [p] | None => [] end
  end.
Lemma request_exact room s ssrc : request_source_keyframe room s ssrc = s <| fb_requests ::= fun l => l ++ keyframe_target room ssrc |>.
Proof.
  unfold request_source_keyframe, keyframe_target. destruct (find_publisher_by_media_ssrc room ssrc); [done|].
  destruct (find_publisher_by_media_ssrc_unrouted room ssrc); [done|]. destruct s. unfold set, eta_feedback. cbn. by rewrite app_nil_r.
Qed.
Lemma request_ok room s ssrc : feedback_ok s -> feedback_ok (request_source_keyframe room s ssrc).
Proof. intros H. rewrite request_exact. destruct H. by constructor. Qed.
Lemma nack_member_spec room s member now io c p : 0 < now -> io_ok io -> feedback_ok s -> bytes_ok member ->
  ss_rtx_cache (pb_send (fb_probe s)) = Some c -> sfu_nack_parser_init member (zlen member) = Ok p ->
  let ssrc := be32 member 8 in let gen := fb_generation s in
  let seqs := to_serve (fci_seqs (Z.to_nat ((zlen member - 12) / 4)) member 12) [] in
  exists s' answered, nack_served c io ssrc gen now s seqs answered s' /\ feedback_ok s' /\
    handle_nack_member room s member now io =
      Ok (s' <| fb_requests ::= fun l => l ++ (if existsb (missed c ssrc gen) seqs then keyframe_target room ssrc else []) |>).
Proof.
  intros Hn Hio H Hb Ec Ep. cbv zeta. pose proof (zlen_nonneg member) as Hz. pose proof (nack_init_spec member (zlen member) Hb ltac:(lia)) as Hi.
  unfold handle_nack_member. rewrite Ep in *. destruct Hi as (-> & Hi & Hr). rewrite Ec.
  pose proof (fci_seqs_length (Z.to_nat ((zlen member - 12) / 4)) member 12) as Hl.
  destruct (serve_nacks_ok (Z.to_nat (5 * zlen member) + 1) member c Hb p s [] false (be32 member 8) (fb_generation s) now io Hn Hio H ltac:(by rewrite Ec) Hi
    ltac:(rewrite Hr; clear -Hl Hz; dlia)) as (s' & ans & -> & H' & F). rewrite Hr in *. cbn [res_bind]. rewrite orb_false_r.
  exists s', ans. split; [done|]. split; [done|]. destruct (existsb _ _); [by rewrite request_exact|].
  destruct s'. unfold set, eta_feedback. cbn. by rewrite app_nil_r.
Qed.
Lemma nack_member_ok room s member now io : 0 < now -> io_ok io -> feedback_ok s -> bytes_ok member ->
  exists s', handle_nack_member room s member now io = Ok s' /\ feedback_ok s'.
Proof.
  intros Hn Hio H Hb. pose proof (zlen_nonneg member) as Hz. pose proof (nack_init_spec member (zlen member) Hb ltac:(lia)) as Hi.
  destruct (sfu_nack_parser_init member (zlen member)) as [p| |] eqn:Ep; [|unfold handle_nack_member; rewrite Ep; by eexists|done].
  destruct (ss_rtx_cache (pb_send (fb_probe s))) as [c|] eqn:Ec; [|unfold handle_nack_member; rewrite Ep, Ec; by eexists].
  destruct (nack_member_spec room s member now io c p Hn Hio H Hb Ec Ep) as (s' & ans & _ & H' & E). eexists. split; [exact E|].
  destruct H'. by constructor.
Qed.
Definition view_ok (data : list Z) (v : sfu_rtcp_member_view) : Prop :=
  0 <= member v /\ 8 <= member_len v /\ member v + member_len v <= zlen data /\ body v = member v + 8 /\ body_len v = member_len v - 8.
Lemma pli_member_ok room s data v : bytes_ok data -> view_ok data v -> feedback_ok s -> exists s', handle_pli_member room s data v = Ok s' /\ feedback_ok s'.
Proof.
  intros Hb (V1 & V2 & V3 & V4 & V5) H. unfold handle_pli_member, sfu_rtcp_parse_pli. destruct (_ || _) eqn:G; cbn [reject]; [by eexists|]. bool_hyps.
  rewrite read_be32_ok by (done || lia). cbn [res_bind]. eexists. split; [done|]. by apply request_ok.
Qed.
Lemma reserved_zero_ok n data p : bytes_ok data -> 0 <= p -> p + 8 * Z.of_nat n <= zlen data -> exists b, fir_reserved_zero n data p = Ok b.
Proof.
  intros Hb. revert p. induction n as [|n IH]; intros p Hp Hl; cbn [fir_reserved_zero]; [by eexists|]. rewrite !rd_ok by lia. cbn [res_bind].
  destruct (_ || _); [by eexists|]. apply IH; lia.
Qed.
Lemma fir_entries_ok n room data f i s : bytes_ok data -> 0 <= fci f -> fci f + 8 * entry_count f <= zlen data -> 0 <= i -> feedback_ok s ->
  exists s', fir_entries n room s data f i = Ok s' /\ feedback_ok s'.
Proof.
  intros Hb Hf Hl. revert i s. induction n as [|n IH]; intros i s Hi H; cbn [fir_entries]; [by eexists|]. unfold sfu_rtcp_fir_entry_at.
  destruct (Z.leb_spec (entry_count f) i); cbn [reject]; [apply IH; [lia|done]|]. rewrite read_be32_ok, rd_ok by (done || lia). cbn [res_bind].
  apply IH; [lia|]. destruct (_ =? 0); [done|by apply request_ok].
Qed.
Lemma fir_member_ok room s data v : bytes_ok data -> view_ok data v -> feedback_ok s -> exists s', handle_fir_member room s data v = Ok s' /\ feedback_ok s'.
Proof.
  intros Hb (V1 & V2 & V3 & V4 & V5) H. unfold handle_fir_member, sfu_rtcp_parse_fir. destruct (_ || _) eqn:G; cbn [reject]; [by eexists|]. bool_hyps.
  set (count := (body_len v - 4) / 8). assert (Hc : 0 <= count /\ 8 * count <= body_len v - 4) by (unfold count; dlia).
  destruct (reserved_zero_ok (Z.to_nat count) data (body v + 4) Hb ltac:(lia) ltac:(lia)) as [b ->]. cbn [res_bind]. destruct b; cbn [negb reject]; [|by eexists].
  rewrite read_be32_ok by (done || lia). cbn [res_bind entry_count]. apply fir_entries_ok; cbn; done || lia.
Qed.
Lemma handle_member_ok cfg room s data v now io : 0 < now -> io_ok io -> bytes_ok data -> view_ok data v -> feedback_ok s ->
  exists s', handle_member cfg room s data v now io = Ok s' /\ feedback_ok s'.
Proof.
  intros Hn Hio Hb Hv H. unfold handle_member. assert (Hm : bytes_ok (slice data (member v) (member_len v))) by (by apply bytes_ok_slice). cbv zeta.
  destruct (_ =? 205).
  - destruct (_ =? 15); [by apply twcc_member_ok|]. destruct (_ =? 1); [by apply nack_member_ok|by eexists].
  - destruct (_ =? 206); [|by eexists]. destruct (_ =? 1); [by apply pli_member_ok|]. destruct (_ =? 4); [by apply fir_member_ok|by eexists].
Qed.
Lemma rtcp_loop_ok fuel cfg room data now io : 0 < now -> io_ok io -> bytes_ok data -> forall p rem s,
  0 <= p -> 0 <= rem -> p + rem <= zlen data -> rem < 8 * Z.of_nat fuel -> feedback_ok s ->
  exists s', rtcp_loop fuel cfg room s data (mk_iter p rem false) now io = Ok s' /\ feedback_ok s'.
Proof.
  intros Hn Hio Hb. induction fuel as [|fuel IH]; intros p rem s Hp Hr Hl Hf H; [lia|]. cbn [rtcp_loop]. unfold sfu_rtcp_compound_iter_next. cbn [malformed Rtcp.remaining].
  destruct (rem =? 0); [by eexists|]. destruct (read_member data (mk_iter p rem false)) as [[v n]| |] eqn:E; cbn [res_bind]; [|by eexists|].
  - apply read_member_sound in E as (m & Hm & -> & Hs & Hw & ->); cbn [next Rtcp.remaining] in *; [|done|lia|lia].
    pose proof (zlen_nonneg (g_body m)) as Hz1. pose proof (zlen_nonneg (pad_wire (g_pad m))) as Hz2. unfold member_size in *.
    destruct (handle_member_ok cfg room s data (member_view_at p m) now io Hn Hio Hb ltac:(unfold view_ok; cbn; lia) H) as (s1 & -> & H1). cbn [res_bind].
    apply IH; try done; lia.
  - apply read_member_no_fault in E; [done|done|cbn; lia|cbn; lia].
Qed.
End Limits.

(** ** Any sequence of feedback and probe steps *)

Inductive feedback_event :=
| FbRtcp (room : room_view) (data : list Z) (len now_us : Z) (io : nack_io)
| FbProbe (now_us : Z) (stack : list Z) (protect : list Z -> Z -> Z -> option (list Z * Z)) (alloc : bool).
Definition feedback_step (cfg : policy) (s : feedback_session) (ev : feedback_event) : res feedback_session :=
  match ev with
  | FbRtcp room data len now io => handle_rtcp cfg room s data len now io
  | FbProbe now stack protect alloc => let! q := sfu_probe_controller_step (fb_probe s) now stack protect alloc in Ok (s <| fb_probe := q |>)
  end.
Fixpoint feedback_run (cfg : policy) (s : feedback_session) (evs : list feedback_event) : res feedback_session :=
  match evs with [] => Ok s | ev :: evs => let! s := feedback_step cfg s ev in feedback_run cfg s evs end.
Definition feedback_event_ok (ev : feedback_event) : Prop :=
  match ev with
  | FbRtcp _ data len now io => bytes_ok data /\ 0 <= len <= zlen data /\ 0 < now /\ io_ok io
  | FbProbe _ stack _ _ => stack_ok stack
  end.
Lemma probe_event_ok lo hi s q : feedback_ok lo hi s -> session_ok lo hi q -> kept q = kept (fb_probe s) -> feedback_ok lo hi (s <| fb_probe := q |>).
Proof.
  intros [H1 H2 H3 H4 H5 H6] Hq [= E1 E2 E3 E4]. constructor; try done; change (fb_probe (s <| fb_probe := q |>)) with q.
  - by rewrite E3.
  - destruct (ss_rtx_cache (pb_send q)) as [c|], (ss_rtx_cache (pb_send (fb_probe s))) as [c'|]; try done. injection E4 as E4.
    destruct H4 as (f & Hc & Hf). exists f. split; [|done]. unfold cache_holds in *. by rewrite E4.
  - by rewrite E1.
  - unfold fb_pacer. change (fb_probe (s <| fb_probe := q |>)) with q. by rewrite E2.
Qed.
Lemma feedback_step_ok lo hi cfg s ev : 0 < lo <= hi -> is_u32 hi -> feedback_event_ok ev -> feedback_ok lo hi s ->
  exists s', feedback_step cfg s ev = Ok s' /\ feedback_ok lo hi s'.
Proof.
  intros Hlim Hhi Hev H. destruct ev as [room data len now io|now stack protect alloc]; cbn [feedback_step].
  - destruct Hev as (Hb & Hl & Hn & Hio). apply rtcp_loop_ok; try done; dlia.
  - destruct (step_ok lo hi Hlim Hhi (fb_probe s) now stack protect alloc (fo_session _ _ _ H) Hev) as (q & E & Hq). rewrite E. cbn [res_bind].
    eexists. split; [done|]. apply probe_event_ok; [done|done|]. by eapply step_kept.
Qed.

(** ** A subscriber *)

(** It was sent the packets 100 to 102 and has packet 10 of stream 30 in its
    cache; peer 9 publishes stream 30 in its room. *)
Definition ex_cached : list sent_packet := [mk_sent 10 (rtp_wire RtpExt.ex_packet) 77 97 30 1].
Definition ex_cache : sfu_rtx_cache :=
  match (let! c := sfu_rtx_cache_init true in put_all c ex_cached) with Ok c => c | _ => mk_rtx_cache [] 0 end.
Definition ex_history : sfu_twcc_history := foldr (fun q h => sfu_twcc_history_record h q 1000 1200) sfu_twcc_history_init [100; 101; 102].
Definition ex_subscriber : feedback_session :=
  ex_feedback_session <| fb_probe ::= fun q => q <| pb_send ::= fun g => g <| ss_twcc_history := Some ex_history |> <| ss_rtx_cache := Some ex_cache |> |> |>.
Definition ex_room : room_view := mk_room_view 4 (Some [None; Some (mk_publisher 4 30 0 0 0 [] []); Some (mk_publisher 9 30 77 0 0 [] [])]).
Definition ex_io : nack_io := mk_nack_io (fun _ => Some (zeros 64)) (fun d n _ => Some (d, n)) true.
Definition ex_nacks : list Z := [0x81; 205; 0; 3; 0; 0; 0; 1; 0; 0; 0; 30; 0; 10; 0; 1].

Lemma ex_cache_ok : cached_ok ex_cache.
Proof.
  assert (Hc : cache_holds (mk_rtx_cache (replicate (Z.to_nat SFU_RTX_CACHE_SIZE) (mk_rtx_entry (zeros SFU_MAX_PAYLOAD_SIZE) 0 0 0 0 false 0 0)) 0) (fun _ => None)).
  { intros i Hi. cbn [entries]. rewrite lookup_replicate_2 by (unfold SFU_RTX_CACHE_SIZE; lia).
    eexists; split; [done|]. split; [|done]. cbn [e_data]. unfold zeros. by rewrite zlen_replicate. }
  destruct (put_all_holds ex_cached _ _ Hc) as (c & E & Hc'); [repeat constructor|].
  assert (Ec : ex_cache = c) by (unfold ex_cache; cbn [sfu_rtx_cache_init negb reject res_bind]; by rewrite E). rewrite Ec. clear E Ec. eexists. split; [exact Hc'|].
  intros i u Hu. unfold ex_cached in Hu. cbn [last_in_slot] in Hu. destruct (_ && _); [|done]. injection Hu as <-.
  cbn. split_and!; [apply bytes_okb_ok; reflexivity|by unfold is_u32|lia].
Qed.
Lemma ex_subscriber_ok : feedback_ok 50000 2000000 ex_subscriber.
Proof.
  destruct (ex_waiting_ok 1500) as [P1 P2 P3]. constructor.
  - constructor; [done|done|]. destruct P3 as [W1 W2 W3 W4 W5]. by constructor.
  - repeat apply Forall_cons_2; try apply Forall_nil_2; try apply init_ok. apply zero_scheduler_ok.
  - assert (Hh : hist_ok sfu_twcc_history_init) by (split; [vm_compute; reflexivity|apply Forall_replicate; by unfold is_u32]).
    cbn. unfold ex_history. cbn [foldr]. repeat apply hist_ok_insert; try done; by unfold is_u32.
  - apply ex_cache_ok.
  - constructor; [by left|done|apply Forall_nil_2].
  - exists []. change (fb_pacer ex_subscriber) with (sfu_pacer_set_rate sfu_pacer_init 1000000 100). apply set_rate_inv; [exact (pacer_start_inv 0)|by unfold is_u32].
Qed.

(** ** The publisher of a stream *)

(** A peer the search can name: another one, publishing the stream, routed to
    the subscriber if [need]. *)
Definition candidate (need : bool) (room : room_view) (media_ssrc : Z) (v : publisher_view) (source : sfu_media_kind) : Prop :=
  pv_peer v <> rm_self room /\ media_source v media_ssrc = Some source /\ (need = true -> routed v source (rm_self room) = true).
Definition peers_of (room : room_view) : list (option publisher_view) := default [] (rm_peers room).
Lemma find_publisher_spec need room ssrc l :
  match find_publisher need (rm_self room) ssrc l with
  | Some (p, k) => exists v, In (Some v) l /\ pv_peer v = p /\ candidate need room ssrc v k
  | None => forall v k, In (Some v) l -> ~ candidate need room ssrc v k
  end.
Proof.
  induction l as [|[v|] l IH]; cbn [find_publisher]; [by intros v k []| |].
  - destruct (Z.eqb_spec (pv_peer v) (rm_self room)) as [Es|Es]; [|destruct (media_source v ssrc) as [k|] eqn:Em; [destruct (negb need || routed v k (rm_self room)) eqn:Er|]].
    2:{ exists v. split_and!; [by left|done|]. split_and!; [done..|]. intros ->. by destruct (routed v k _). }
    all: destruct (find_publisher need (rm_self room) ssrc l) as [[p k']|]; [destruct IH as (u & Hin & Hu); exists u; split; [by right|done]|].
    all: intros u k' [[= <-]|Hin] Hc; [destruct Hc as (C1 & C2 & C3)|by eapply IH].
    + done.
    + rewrite Em in C2. injection C2 as <-. destruct need; [|done]. by rewrite (C3 eq_refl) in Er.
    + congruence.
  - destruct (find_publisher need (rm_self room) ssrc l) as [[p k]|]; [destruct IH as (u & Hin & Hu); exists u; split; [by right|done]|].
    intros u k [|Hin]; [done|by apply IH].
Qed.
Lemma routed_spec room ssrc :
  match find_publisher_by_media_ssrc room ssrc with
  | Some (p, k) => exists v, In (Some v) (peers_of room) /\ pv_peer v = p /\ candidate true room ssrc v k
  | None => forall v k, In (Some v) (peers_of room) -> ~ candidate true room ssrc v k
  end.
Proof. unfold find_publisher_by_media_ssrc, peers_of. destruct (rm_peers room) as [l|]; [apply find_publisher_spec|by intros v k []]. Qed.
Lemma unrouted_spec room ssrc :
  match find_publisher_by_media_ssrc_unrouted room ssrc with
  | Some (p, k) => exists v, In (Some v) (peers_of room) /\ pv_peer v = p /\ candidate false room ssrc v k
  | None => ssrc = 0 \/ forall v k, In (Some v) (peers_of room) -> ~ candidate false room ssrc v k
  end.
Proof.
  unfold find_publisher_by_media_ssrc_unrouted, peers_of. destruct (rm_peers room) as [l|]; [|right; by intros v k []].
  destruct (Z.eqb_spec ssrc 0); [by left|]. pose proof (find_publisher_spec false room ssrc l) as H.
  destruct (find_publisher false _ ssrc l) as [[p k]|]; [done|by right].
Qed.

(** * Properties *)

(** C4: Whatever datagrams a subscriber sends as RTCP, interleaved with the
    steps of its bandwidth probe, every one is handled without a fault, and
    the session stays in order: the estimate stays within its limits, the
    estimator probes exactly while the controller does and the probe's
    target stays bounded, the layer schedulers, the retransmission queue and
    the pacer keep their invariants. *)
Theorem feedback_reachable_ok lo hi cfg s evs :
  0 < lo <= hi -> is_u32 hi -> Forall feedback_event_ok evs -> feedback_ok lo hi s ->
  exists s', feedback_run cfg s evs = Ok s' /\ feedback_ok lo hi s'.
Proof.
  intros Hlim Hhi Hevs. revert s. induction Hevs as [|ev evs Hev _ IH]; intros s H; cbn [feedback_run]; [by eexists|].
  destruct (feedback_step_ok lo hi cfg s ev Hlim Hhi Hev H) as (s1 & -> & H1). cbn [res_bind]. by apply IH.
Qed.

Lemma feedback_reachable_ok_witness :
  exists s', feedback_run default_policy ex_subscriber
      [FbRtcp ex_room (TwccParser.ex_feedback ++ ex_nacks ++ [7]) 41 600000 ex_io; FbProbe 700000 (zeros SFU_PACED_SEND_MAX_PAYLOAD) (fun _ _ _ => None) true] = Ok s' /\
    feedback_ok 50000 2000000 s'.
Proof.
  refine (feedback_reachable_ok 50000 2000000 default_policy ex_subscriber _ _ _ _ ex_subscriber_ok); [lia|by unfold is_u32|].
  repeat apply Forall_cons_2; try apply Forall_nil_2.
  - split_and!; [apply bytes_okb_ok; reflexivity|lia|by vm_compute|lia|]. intros seq b [= <-]. apply bytes_okb_ok. reflexivity.
  - split; [apply bytes_okb_ok; reflexivity|reflexivity].
Defined.

(** C3: A generic NACK is answered exactly.  The first 48 distinct sequence
    numbers it names are looked up in the cache, once each and in order.  A
    packet found is queued again unless the retransmission budget does not
    cover it, there is no buffer, the number translation has no room, the
    packet does not fit the buffer, SRTP refuses it, or the queue is full.
    What is queued is the cached packet as an RFC 4588 retransmission with
    the next number of the subscriber's retransmission stream, and with the
    subscriber's next transport-wide number when the extension is negotiated
    and there is room to write it, encrypted, addressed to the subscriber.
    The budget pays for exactly the packets queued, since whatever fails on
    the way is given back; and a keyframe is asked of the publisher exactly
    when one of the numbers is not in the cache. *)
Theorem nack_answered lo hi room s member now io c p :
  feedback_ok lo hi s -> bytes_ok member -> 0 < now -> io_ok io ->
  ss_rtx_cache (pb_send (fb_probe s)) = Some c -> sfu_nack_parser_init member (zlen member) = Ok p ->
  let ssrc := be32 member 8 in let gen := fb_generation s in
  let seqs := to_serve (fci_seqs (Z.to_nat ((zlen member - 12) / 4)) member 12) [] in
  NoDup seqs /\ zlen seqs <= 48 /\
  exists s' answered, nack_served c io ssrc gen now s seqs answered s' /\
    handle_nack_member room s member now io =
      Ok (s' <| fb_requests ::= fun l => l ++ (if existsb (missed c ssrc gen) seqs then keyframe_target room ssrc else []) |>) /\
    fb_requests s' = fb_requests s /\
    prio_contents (pb_rtx (fb_probe s')) = prio_contents (pb_rtx (fb_probe s)) ++ map snd answered /\ sublist (map fst answered) seqs /\
    (active (fb_pacer s) = true -> budget_at now (fb_pacer s') + charged (map snd answered) = budget_at now (fb_pacer s)).
Proof.
  intros H Hb Hn Hio Ec Ep. cbv zeta. split; [apply to_serve_nodup|]. split.
  { pose proof (to_serve_length (fci_seqs (Z.to_nat ((zlen member - 12) / 4)) member 12) [] ltac:(by vm_compute)) as Hl. rewrite zlen_nil in Hl. exact Hl. }
  destruct (nack_member_spec lo hi room s member now io c p Hn Hio H Hb Ec Ep) as (s' & ans & F & _ & E). exists s', ans.
  destruct (served_sums _ _ _ _ _ _ _ _ _ F) as (O & I & U & _ & S). split_and!; try done. by injection O.
Qed.

Lemma nack_answered_witness :
  exists s' e, handle_nack_member ex_room ex_subscriber ex_nacks 600000 ex_io = Ok s' /\ prio_contents (pb_rtx (fb_probe s')) = [e] /\
    xe_len e = 29 /\ fb_requests s' = [(9, MEDIA_VIDEO)].
Proof.
  destruct (sfu_nack_parser_init ex_nacks (zlen ex_nacks)) as [p| |] eqn:Ep; [|vm_compute in Ep; discriminate Ep..].
  destruct (nack_answered 50000 2000000 ex_room ex_subscriber ex_nacks 600000 ex_io ex_cache p) as (_ & _ & s' & ans & _ & E & R & I & _).
  - apply ex_subscriber_ok.
  - by apply bytes_okb_ok.
  - lia.
  - intros seq b [= <-]. apply bytes_okb_ok. reflexivity.
  - reflexivity.
  - exact Ep.
  - set (t := s' <| fb_requests ::= _ |>) in E. exists t.
    assert (El : match handle_nack_member ex_room ex_subscriber ex_nacks 600000 ex_io with
      | Ok t => map xe_len (prio_contents (pb_rtx (fb_probe t))) | _ => [] end = [29]) by (vm_compute; reflexivity).
    rewrite E in El. assert (Et : fb_requests t = [(9, MEDIA_VIDEO)]).
    { change (fb_requests t) with (fb_requests s' ++ (if existsb (missed ex_cache (be32 ex_nacks 8) (fb_generation ex_subscriber))
        (to_serve (fci_seqs (Z.to_nat ((zlen ex_nacks - 12) / 4)) ex_nacks 12) []) then keyframe_target ex_room (be32 ex_nacks 8) else [])). rewrite R. vm_compute. reflexivity. }
    destruct (prio_contents (pb_rtx (fb_probe t))) as [|e [|e' l]]; [discriminate El| |discriminate El].
    exists e. injection El as El. split; [exact E|]. split; [reflexivity|]. split; [exact El|exact Et].
Defined.

(** C5: A packet is counted once.  The losses and packets a batch of at most
    256 statuses adds to the loss report are at most the statuses of the
    batch, losses among them; and a later batch that repeats packets of it
    (a packet reported lost may only be repeated as lost, one reported
    received as either) changes nothing: the history, the estimator and the
    probe stay as they are, and no packet is counted. *)
Theorem feedback_counted_once s h batch s1 est lost total :
  ss_twcc_history (pb_send (fb_probe s)) = Some h -> length h = 4096%nat -> zlen batch <= SFU_INGRESS_TWCC_BATCH_CAP ->
  count_batch s batch = (s1, est, lost, total) ->
  0 <= lost <= total /\ total <= zlen batch /\
  forall s2 batch', ss_twcc_history (pb_send (fb_probe s2)) = ss_twcc_history (pb_send (fb_probe s1)) -> Forall (repeats batch) batch' ->
    count_batch s2 batch' = (s2, gcc_bwe_get_bitrate (pb_gcc (fb_probe s2)), 0, 0).
Proof.
  unfold count_batch. intros Eh Hl Hc. rewrite Eh. set (a0 := mk_acc h _ _ _ 0 0). intros [= <- <- <- <-]. unfold SFU_INGRESS_TWCC_BATCH_CAP in Hc.
  destruct (batch_counts batch a0 ltac:(cbn; lia) ltac:(cbn; lia)) as [C1 C2]. change (ac_total a0) with 0 in C2.
  split; [exact C1|]. split; [lia|]. intros s2 batch' E2 Hr.
  destruct (batch_settles batch a0 Hl) as [_ Hs]. set (a1 := fold_left count_status batch a0) in *. clearbody a1.
  change (ss_twcc_history (pb_send (fb_probe (put_acc s a1)))) with (Some (ac_history a1)) in E2. rewrite E2.
  rewrite (repeated_batch batch batch' _ Hr) by exact Hs. by rewrite put_own.
Qed.

Lemma feedback_counted_once_witness :
  exists s1 est, count_batch ex_subscriber [mk_status 100 TWCC_STATUS_NOT_RECEIVED 0; mk_status 101 TWCC_STATUS_NOT_RECEIVED 0] = (s1, est, 2, 2) /\
    count_batch s1 [mk_status 101 TWCC_STATUS_NOT_RECEIVED 0] = (s1, gcc_bwe_get_bitrate (pb_gcc (fb_probe s1)), 0, 0).
Proof.
  set (batch := [_; _]). destruct (count_batch ex_subscriber batch) as [[[s1 est] lost] total] eqn:E.
  assert (El : (count_batch ex_subscriber batch).1.2 = 2 /\ (count_batch ex_subscriber batch).2 = 2) by (vm_compute; by split).
  rewrite E in El. cbn in El. destruct El as [-> ->]. exists s1, est. split; [reflexivity|].
  destruct (feedback_counted_once ex_subscriber ex_history batch s1 est 2 2) as (_ & _ & H).
  - reflexivity.
  - vm_compute. reflexivity.
  - by vm_compute.
  - exact E.
  - apply H; [reflexivity|]. apply Forall_cons_2; [|apply Forall_nil_2]. eexists. split; [right; left; reflexivity|]. by split.
Defined.

(** A keyframe request reaches whoever can answer it.  At most one request
    is made for a feedback; it goes to a peer of the room that publishes the
    stream, under its media or its retransmission SSRC, and never to the peer
    that asked; a publisher routed to the asker is preferred; and with a
    nonzero SSRC none is made only when no other peer publishes the stream. *)
Theorem keyframe_target_sound room s ssrc :
  exists target, request_source_keyframe room s ssrc = s <| fb_requests ::= fun l => l ++ target |> /\
    match target with
    | [] => forall v k, In (Some v) (peers_of room) -> ~ candidate (ssrc =? 0) room ssrc v k
    | [(p, k)] => exists v, In (Some v) (peers_of room) /\ pv_peer v = p /\ candidate false room ssrc v k /\
        (candidate true room ssrc v k \/ forall u k', In (Some u) (peers_of room) -> ~ candidate true room ssrc u k')
    | _ => False
    end.
Proof.
  exists (keyframe_target room ssrc). split; [apply request_exact|]. unfold keyframe_target.
  pose proof (routed_spec room ssrc) as Hr. pose proof (unrouted_spec room ssrc) as Hu.
  destruct (find_publisher_by_media_ssrc room ssrc) as [[p k]|].
  - destruct Hr as (v & Hin & Hp & Hc). exists v. split_and!; [done..| |by left]. by destruct Hc as (C1 & C2 & _).
  - destruct (find_publisher_by_media_ssrc_unrouted room ssrc) as [[p k]|].
    + destruct Hu as (v & Hin & Hp & Hc). exists v. split_and!; [done..|by right].
    + destruct Hu as [->|Hu]; [exact Hr|]. intros v k Hin (C1 & C2 & _). by apply (Hu v k Hin).
Qed.
