(* ===== verification/Upstream.v ===== *)
(** What the unit tells a publisher, the feedback part of [src/peer/session.c]:
    keyframe requests with their throttle, the bitrate its subscribers can take
    as REMB reports, and transport-wide feedback on the media it sends.  The
    demand of a subscriber is read from a record another worker writes, under a
    sequence lock: writer and reader are interleaved load by load and store by
    store (sequentially consistent, one writer a record). *)

From S2P Require Import Prelude NetBytes RtpPacket Rtcp TwccParser TwccFeedback PacedSend Bandwidth LayerScheduler LayerUpdate.
From stdpp Require Import relations.
Local Open Scope Z_scope.

Definition SFU_SESSION_KF_THROTTLE_MS : Z := 300.
Definition SFU_REMB_CONTRIBUTION_MAX_AGE_US : Z := 2000000.
Definition SFU_REMB_NORMAL_INTERVAL_US : Z := 500000.
Definition SFU_REMB_DECREASE_INTERVAL_US : Z := 100000.
Definition SFU_REMB_REFRESH_INTERVAL_US : Z := 2000000.
Definition SFU_TWCC_FEEDBACK_INTERVAL_US : Z := 20000.

(** * The sequence lock *)

#[export] Instance eta_contribution : Eta sfu_remb_contribution := fun c =>
  mk_contribution (rc_sequence c) (rc_assignment_generation c) (rc_updated_at_us c) (rc_camera_bitrate_bps c) (rc_screen_bitrate_bps c).

(** The atomic operations of a write, in the order of the code. *)
Inductive store := Bump | StoreGeneration (v : Z) | StoreCamera (v : Z) | StoreScreen (v : Z) | StoreTime (v : Z).
Definition exec_store (c : sfu_remb_contribution) (o : store) : sfu_remb_contribution :=
  match o with
  | Bump => c <| rc_sequence ::= fun n => u32 (n + 1) |>
  | StoreGeneration v => c <| rc_assignment_generation := v |>
  | StoreCamera v => c <| rc_camera_bitrate_bps := v |>
  | StoreScreen v => c <| rc_screen_bitrate_bps := v |>
  | StoreTime v => c <| rc_updated_at_us := v |>
  end.
Record demand := mk_demand { d_generation : Z; d_camera_bps : Z; d_screen_bps : Z; d_now_us : Z }.
Definition field_stores (d : demand) : list store :=
  [StoreGeneration (d_generation d); StoreCamera (d_camera_bps d); StoreScreen (d_screen_bps d); StoreTime (d_now_us d)].
Definition write_stores (d : demand) : list store := Bump :: field_stores d ++ [Bump].

(** What a reader loads of a record, in the order of the code. *)
Definition fields (c : sfu_remb_contribution) : list Z :=
  [rc_assignment_generation c; rc_camera_bitrate_bps c; rc_screen_bitrate_bps c; rc_updated_at_us c].
(** A reader before the load of the sequence number, with its attempts left;
    between the loads of the fields; and with its answer. *)
Inductive reader :=
| RdStart (attempts : nat)
| RdLoad (attempts : nat) (sequence0 : Z) (loaded : list Z)
| RdDone (answer : option (Z * Z)).

Section Read.
Context (assignment_generation now_us max_age_us : Z).
Definition judge_fields (loaded : list Z) : option (Z * Z) :=
  match loaded with
  | [generation; camera_bitrate; screen_bitrate; updated_at_us] =>
      if negb (generation =? assignment_generation) || (updated_at_us =? 0) || (now_us <? updated_at_us) then None
      else if max_age_us <? now_us - updated_at_us then None
      else Some (camera_bitrate, screen_bitrate)
  | _ => None
  end.
(** One load of the reader. *)
Definition reader_step (c : sfu_remb_contribution) (r : reader) : reader :=
  match r with
  | RdStart O => RdDone None
  | RdStart (S n) => if Z.odd (rc_sequence c) then RdStart n else RdLoad n (rc_sequence c) []
  | RdLoad n sequence0 loaded =>
      match fields c !! length loaded with
      | Some v => RdLoad n sequence0 (loaded ++ [v])
      | None => if sequence0 =? rc_sequence c then RdDone (judge_fields loaded) else RdStart n
      end
  | RdDone a => RdDone a
  end.
(** The reader with nobody writing: six loads an attempt. *)
Fixpoint read_alone (fuel : nat) (c : sfu_remb_contribution) (r : reader) : option (Z * Z) :=
  match r, fuel with
  | RdDone a, _ => a
  | _, O => None
  | _, S fuel => read_alone fuel c (reader_step c r)
  end.
Definition sfu_session_read_remb_contribution (l : list sfu_remb_contribution) (remote_slot : Z) : option (Z * Z) :=
  if (SFU_MAX_REMOTE_SLOTS <=? remote_slot) || (assignment_generation =? 0) then None
  else c ← l !! Z.to_nat remote_slot; read_alone 25 c (RdStart 4).

(** A writer with the stores it has left and a reader on one record. *)
Record shared := mk_shared { sh_record : sfu_remb_contribution; sh_writer : list store; sh_reader : reader }.
Inductive shared_step : shared -> shared -> Prop :=
| step_write c o os r : shared_step (mk_shared c (o :: os) r) (mk_shared (exec_store c o) os r)
| step_read c os r : shared_step (mk_shared c os r) (mk_shared c os (reader_step c r)).
End Read.

(** The stores of a write one after the other are the write of [LayerUpdate]. *)
Lemma write_stores_alone l slot d : 0 <= slot < SFU_MAX_REMOTE_SLOTS -> d_generation d <> 0 ->
  sfu_session_write_remb_contribution l slot (d_generation d) (d_camera_bps d) (d_screen_bps d) (d_now_us d)
  = alter (fun c => fold_left exec_store (write_stores d) c) (Z.to_nat slot) l.
Proof.
  intros Hs Hg. unfold sfu_session_write_remb_contribution.
  destruct (Z.leb_spec SFU_MAX_REMOTE_SLOTS slot); [lia|]. by destruct (Z.eqb_spec (d_generation d) 0).
Qed.
Lemma read_alone_S gen now age fuel c r : match r with RdDone _ => False | _ => True end ->
  read_alone gen now age (S fuel) c r = read_alone gen now age fuel c (reader_step gen now age c r).
Proof. by destruct r. Qed.
(** Alone, the first attempt answers. *)
Lemma read_alone_exact gen now age c : Z.odd (rc_sequence c) = false -> read_alone gen now age 25 c (RdStart 4) = judge_fields gen now age (fields c).
Proof.
  intros E. rewrite read_alone_S by done. cbn [reader_step]. rewrite E.
  do 4 (rewrite read_alone_S by done; cbn [reader_step fields length lookup list_lookup app]).
  rewrite read_alone_S by done. cbn [reader_step fields length lookup list_lookup]. by rewrite Z.eqb_refl.
Qed.

(** ** Interleavings *)

Definition demand_fields (d : demand) : list Z := [d_generation d; d_camera_bps d; d_screen_bps d; d_now_us d].
Definition is_field_store (o : store) : Prop := o <> Bump.
(** Between writes: [k] bumps have been done. *)
Definition at_rest (k : Z) (versions : list (list Z)) (ds : list demand) (c : sfu_remb_contribution) (os : list store) : Prop :=
  Z.even k = true /\ In (fields c) versions /\ os = concat (map write_stores ds).
(** Inside the write of [d]: the fields will be its fields when the field stores are done. *)
Definition in_write (k : Z) (versions : list (list Z)) (ds : list demand) (c : sfu_remb_contribution) (os : list store) : Prop :=
  Z.even k = false /\ exists rest d, os = rest ++ Bump :: concat (map write_stores ds) /\ Forall is_field_store rest /\
    fields (fold_left exec_store rest c) = demand_fields d /\ In (demand_fields d) versions.
Definition reader_knows (versions : list (list Z)) (gen now age q k : Z) (c : sfu_remb_contribution) (r : reader) : Prop :=
  match r with
  | RdStart _ => True
  | RdLoad _ s0 loaded => exists k0, s0 = u32 (q + k0) /\ Z.even k0 = true /\ 0 <= k0 <= k /\ (k0 = k -> loaded = take (length loaded) (fields c))
  | RdDone None => True
  | RdDone (Some (cam, scr)) => exists upd, In [gen; cam; scr; upd] versions /\ 0 <> upd /\ upd <= now /\ now - upd <= age
  end.
Definition shared_inv (versions : list (list Z)) (gen now age q n : Z) (s : shared) : Prop :=
  exists k ds, 0 <= k /\ k + 2 * zlen ds <= 2 * n /\ rc_sequence (sh_record s) = u32 (q + k) /\ Forall (fun d => In (demand_fields d) versions) ds /\
    (at_rest k versions ds (sh_record s) (sh_writer s) \/ k + 2 * zlen ds < 2 * n /\ in_write k versions ds (sh_record s) (sh_writer s)) /\
    reader_knows versions gen now age q k (sh_record s) (sh_reader s).

Lemma exec_bump_fields c : fields (exec_store c Bump) = fields c.
Proof. done. Qed.
Lemma exec_field_sequence c o : is_field_store o -> rc_sequence (exec_store c o) = rc_sequence c.
Proof. by destruct o. Qed.
(** Any store ends what a reader knew of an earlier count, unless the count is the same. *)
Lemma knows_later versions gen now age q k k' c c' r : k <= k' -> (k = k' -> Z.even k = false) ->
  reader_knows versions gen now age q k c r -> reader_knows versions gen now age q k' c' r.
Proof.
  intros Hk He. destruct r as [n|n s0 loaded|[[cam scr]|]]; cbn; try done.
  intros (k0 & E & E0 & Hr & _). exists k0. split_and!; [done..|lia|lia|]. intros ->.
  assert (k' = k) as -> by lia. rewrite (He eq_refl) in E0. done.
Qed.

Lemma even_unique q k0 k n : Z.even k0 = true -> 0 <= k0 <= k -> k <= 2 * n -> n < 2 ^ 31 -> u32 (q + k0) = u32 (q + k) -> k0 = k.
Proof. intros _ H1 H2 H3 E. unfold u32 in E. dlia. Qed.
Lemma odd_count q k : Z.even q = true -> Z.odd (u32 (q + k)) = negb (Z.even k).
Proof.
  intros Hq. unfold u32. rewrite <- Z.negb_even. f_equal. rewrite (Z.mod_eq (q + k) 4294967296) by lia.
  rewrite Z.even_sub, Z.even_add, Z.even_mul, Hq. change (Z.even 4294967296) with true. cbn. by destruct (Z.even k).
Qed.
Lemma shared_step_inv versions gen now age q n s s' : Z.even q = true -> n < 2 ^ 31 ->
  shared_step gen now age s s' -> shared_inv versions gen now age q n s -> shared_inv versions gen now age q n s'.
Proof.
  intros Hq Hn Hs (k & ds & Hk & Hb & Eq & Hds & Hw & Hr). destruct Hs as [c o os r|c os r]; cbn [sh_record sh_writer sh_reader] in *.
  - destruct Hw as [(He & Hin & Eo)|(Hlt & He & rest & d & Eo & Hrest & Ef & Hd)].
    + destruct ds as [|d ds]; [done|]. apply Forall_cons_1 in Hds as [Hd Hds]. rewrite zlen_cons in Hb.
      change (concat (map write_stores (d :: ds))) with (Bump :: (field_stores d ++ [Bump]) ++ concat (map write_stores ds)) in Eo.
      injection Eo as -> ->. exists (k + 1), ds. cbn [sh_record sh_writer sh_reader]. split; [lia|]. split; [lia|]. split.
      { cbn. rewrite Eq. unfold u32. dlia. }
      split; [done|]. split; [|apply (knows_later _ _ _ _ _ k _ c); [lia|lia|done]].
      right. split; [lia|]. split; [rewrite Z.even_add, He; done|]. exists (field_stores d), d. split; [reflexivity|].
      split; [repeat apply Forall_cons_2; try apply Forall_nil_2; done|]. by split.
    + destruct rest as [|o' rest]; cbn [app] in Eo; injection Eo as -> ->.
      * exists (k + 1), ds. cbn [sh_record sh_writer sh_reader]. split; [lia|]. split; [lia|]. split.
        { cbn. rewrite Eq. unfold u32. dlia. }
        split; [done|]. split; [|apply (knows_later _ _ _ _ _ k _ c); [lia|lia|done]].
        left. split_and!; [rewrite Z.even_add, He; done| |done]. cbn [fold_left] in Ef. rewrite exec_bump_fields, Ef. done.
      * apply Forall_cons_1 in Hrest as [Ho Hrest]. exists k, ds. cbn [sh_record sh_writer sh_reader]. split; [lia|]. split; [lia|].
        split; [by rewrite exec_field_sequence|]. split; [done|]. split; [|apply (knows_later _ _ _ _ _ k _ c); [lia|done|done]].
        right. split; [lia|]. split; [done|]. exists rest, d. by split_and!.
  - exists k, ds. cbn [sh_record sh_writer sh_reader]. split_and!; [done..|]. destruct r as [[|m]|m s0 loaded|a]; cbn [reader_step]; [done| | |done].
    + rewrite Eq, odd_count by done. destruct (Z.even k) eqn:He; cbn [negb]; [|done]. exists k. split_and!; done || lia.
    + destruct Hr as (k0 & E0 & He0 & Hr & Hl). destruct (fields c !! length loaded) as [v|] eqn:Ev.
      * exists k0. split_and!; [done..|lia|lia|]. intros E. rewrite length_app. cbn [length]. rewrite Nat.add_1_r.
        rewrite (take_S_r _ _ v) by done. by rewrite <- Hl.
      * destruct (Z.eqb_spec s0 (rc_sequence c)) as [Es|Es]; [|done].
        assert (k0 = k) as -> by (eapply (even_unique q k0 k n); [done|lia| |lia|congruence]; pose proof (zlen_nonneg ds); lia).
        apply lookup_ge_None in Ev. rewrite (Hl eq_refl), take_ge by done.
        destruct Hw as [(_ & Hin & _)|(_ & He & _)]; [|by rewrite He0 in He]. cbn [judge_fields fields].
        destruct (Z.eqb_spec (rc_assignment_generation c) gen) as [Eg|]; [|done]. destruct (Z.eqb_spec (rc_updated_at_us c) 0) as [|Hu]; [done|].
        destruct (Z.ltb_spec now (rc_updated_at_us c)); [done|]. cbn [negb orb]. destruct (Z.ltb_spec age (now - rc_updated_at_us c)); [done|].
        cbn. exists (rc_updated_at_us c). unfold fields in Hin. rewrite Eg in Hin. split_and!; done || lia.
Qed.

(** * The publisher *)

(** What the functions read and write of the publisher's session.  The media
    state is read under its lock for keyframes and feedback, and as a snapshot
    for REMB.  [pu_sent] are the packets handed to the network, each before
    and after encryption. *)
Record publisher := mk_publisher_state {
  pu_established : bool; pu_accepts_work : bool; pu_owner_worker : Z; pu_video_runtime_ready : bool;
  pu_uplink_video_ssrc : Z; pu_uplink_audio_ssrc : Z; pu_screen_ssrc : Z; pu_snap_video_ssrc : Z; pu_snap_screen_ssrc : Z;
  pu_last_pli_time : Z; pu_last_screen_pli_time : Z; pu_fir_seq : Z;
  pu_last_remb_target_bps : Z;
  pu_last_camera_remb_bps : Z; pu_last_camera_remb_time_us : Z; pu_last_screen_remb_bps : Z; pu_last_screen_remb_time_us : Z;
  pu_twcc_recv : option sfu_twcc_recv_tracker;
  pu_sent : list (list Z * list Z)
}.
#[export] Instance eta_publisher : Eta publisher := fun p =>
  mk_publisher_state (pu_established p) (pu_accepts_work p) (pu_owner_worker p) (pu_video_runtime_ready p)
    (pu_uplink_video_ssrc p) (pu_uplink_audio_ssrc p) (pu_screen_ssrc p) (pu_snap_video_ssrc p) (pu_snap_screen_ssrc p)
    (pu_last_pli_time p) (pu_last_screen_pli_time p) (pu_fir_seq p) (pu_last_remb_target_bps p)
    (pu_last_camera_remb_bps p) (pu_last_camera_remb_time_us p) (pu_last_screen_remb_bps p) (pu_last_screen_remb_time_us p)
    (pu_twcc_recv p) (pu_sent p).

(** What one attempt to send gets from outside: a buffer of the packet pool,
    or none; what SRTP makes of the packet; whether the network takes it. *)
Record send_io := mk_send_io {
  so_buffer : option (list Z);
  so_protect : list Z -> Z -> Z -> option (list Z * Z);
  so_accepted : bool
}.
(** Protect a packet of [len] bytes and send it. *)
Definition send_rtcp (p : publisher) (data : list Z) (len : Z) (io : send_io) : option publisher :=
  match so_protect io data len (zlen data) with
  | None => None
  | Some (enc, enc_len) =>
      if so_accepted io then Some (p <| pu_sent ::= fun l => l ++ [(slice data 0 len, slice enc 0 enc_len)] |>) else None
  end.
Definition SFU_SENDER_SSRC : Z := 1.

(** ** Keyframe requests *)

(** How a call ended: the session takes no work, the publisher belongs to
    another worker, a request went out a moment ago, no packet left, or one
    did. *)
Inductive keyframe_outcome := KF_IGNORED | KF_OFFLOADED | KF_COALESCED | KF_FAILED | KF_SENT.
#[export] Instance keyframe_outcome_eq : EqDecision keyframe_outcome.
Proof. solve_decision. Defined.
Definition keyframe_ssrc (p : publisher) (source : sfu_media_kind) : Z := if is_screen source then pu_screen_ssrc p else pu_uplink_video_ssrc p.
Definition last_pli (p : publisher) (source : sfu_media_kind) : Z := if is_screen source then pu_last_screen_pli_time p else pu_last_pli_time p.
Definition set_last_pli (p : publisher) (source : sfu_media_kind) (now : Z) : publisher :=
  if is_screen source then p <| pu_last_screen_pli_time := now |> else p <| pu_last_pli_time := now |>.
Definition build_keyframe (p : publisher) (use_fir : bool) (media_ssrc : Z) (buffer : list Z) : res (list Z * Z * publisher) :=
  if use_fir then
    let! (data, len, seq) := sfu_rtcp_build_fir SFU_SENDER_SSRC media_ssrc (pu_fir_seq p) buffer (zlen buffer) in
    Ok (data, len, p <| pu_fir_seq := seq |>)
  else
    let! (data, len) := sfu_rtcp_build_pli SFU_SENDER_SSRC media_ssrc buffer (zlen buffer) in
    Ok (data, len, p).
Definition sfu_session_request_keyframe_for_source (worker_index : Z) (p : publisher) (use_fir : bool) (source : sfu_media_kind) (now : Z) (io : send_io)
  : res (keyframe_outcome * publisher) :=
  if negb (pu_established p) || negb (pu_accepts_work p) then Ok (KF_IGNORED, p) else
  if negb (pu_owner_worker p =? worker_index) then Ok (KF_OFFLOADED, p) else
  let media_ssrc := keyframe_ssrc p source in
  if negb (last_pli p source =? 0) && (now - last_pli p source <? SFU_SESSION_KF_THROTTLE_MS) then Ok (KF_COALESCED, p) else
  if media_ssrc =? 0 then Ok (KF_FAILED, p) else
  match so_buffer io with
  | None => Ok (KF_FAILED, p)
  | Some buffer =>
      match build_keyframe p use_fir media_ssrc buffer with
      | Fault => Fault
      | Err => Ok (KF_FAILED, p)
      | Ok (data, len, p) =>
          match send_rtcp p data len io with
          | None => Ok (KF_FAILED, p)
          | Some p => Ok (KF_SENT, set_last_pli p source now)
          end
      end
  end.
Definition sfu_session_request_keyframe (worker_index : Z) (p : publisher) (use_fir : bool) (now : Z) (io : send_io) : res (keyframe_outcome * publisher) :=
  sfu_session_request_keyframe_for_source worker_index p use_fir MEDIA_VIDEO now io.
Definition sfu_worker_request_keyframe_throttled_for_source (worker_index : Z) (p : publisher) (source : sfu_media_kind) (now : Z) (io : send_io)
  : res (keyframe_outcome * publisher) :=
  sfu_session_request_keyframe_for_source worker_index p false source now io.
Definition sfu_worker_request_keyframe_throttled (worker_index : Z) (p : publisher) (now : Z) (io : send_io) : res (keyframe_outcome * publisher) :=
  sfu_worker_request_keyframe_throttled_for_source worker_index p MEDIA_VIDEO now io.

(** ** REMB *)

Definition sfu_session_send_remb_for_source (worker_index : Z) (p : publisher) (source : sfu_media_kind) (bitrate_bps : Z) (io : send_io)
  : res (bool * publisher) :=
  if negb (bool_decide (source = MEDIA_VIDEO) || is_screen source) || (bitrate_bps =? 0) || negb (pu_established p) || negb (pu_accepts_work p)
     || negb (pu_owner_worker p =? worker_index) then Ok (false, p) else
  let media_ssrc := if is_screen source then pu_snap_screen_ssrc p else pu_snap_video_ssrc p in
  if media_ssrc =? 0 then Ok (false, p) else
  match so_buffer io with
  | None => Ok (false, p)
  | Some buffer =>
      match sfu_rtcp_build_remb SFU_SENDER_SSRC bitrate_bps [media_ssrc] buffer (zlen buffer) with
      | Fault => Fault
      | Err => Ok (false, p)
      | Ok (data, len) =>
          match send_rtcp p data len io with
          | None => Ok (false, p)
          | Some p => Ok (true, p)
          end
      end
  end.
Definition publisher_remb_due (last_time_us last_bps bitrate_bps now_us : Z) : bool :=
  if (last_time_us =? 0) || (last_bps =? 0) then true else
  let elapsed := now_us - last_time_us in
  let delta := if last_bps <? bitrate_bps then bitrate_bps - last_bps else last_bps - bitrate_bps in
  let decreased_20_percent := (bitrate_bps <? last_bps) && (bitrate_bps * 5 <=? last_bps * 4) in
  let changed_10_percent := last_bps <=? delta * 10 in
  decreased_20_percent && (SFU_REMB_DECREASE_INTERVAL_US <=? elapsed) || changed_10_percent && (SFU_REMB_NORMAL_INTERVAL_US <=? elapsed)
  || (SFU_REMB_REFRESH_INTERVAL_US <=? elapsed).

(** A fanout route: the demand records of its subscriber, and where the
    publisher's is among them. *)
Record fanout_route := mk_fanout_route { fr_contributions : option (list sfu_remb_contribution); fr_remote_slot : Z; fr_assignment_generation : Z }.
Definition route_demand (source : sfu_media_kind) (now_us : Z) (r : fanout_route) : option Z :=
  l ← fr_contributions r;
  x ← sfu_session_read_remb_contribution (fr_assignment_generation r) now_us SFU_REMB_CONTRIBUTION_MAX_AGE_US l (fr_remote_slot r);
  Some (if is_screen source then x.2 else x.1).
(** The largest fresh demand, the routes and the fresh ones among them. *)
Definition count_route (source : sfu_media_kind) (now_us : Z) (acc : Z * Z * Z) (r : fanout_route) : Z * Z * Z :=
  let '(target, routes, fresh) := acc in
  match route_demand source now_us r with
  | Some bps => (if target <? bps then bps else target, routes + 1, fresh + 1)
  | None => (target, routes + 1, fresh)
  end.
Definition remb_targets (cfg : policy) (p : publisher) (camera screen : list fanout_route) (now_us : Z) : Z * Z :=
  let '(camera_target, _, _) := fold_left (count_route MEDIA_VIDEO now_us) camera (0, 0, 0) in
  let '(screen_target, routes, fresh) := fold_left (count_route MEDIA_SCREEN now_us) screen (0, 0, 0) in
  let screen_target :=
    if (screen_target =? 0) && (0 <? routes) && (fresh =? 0) && (pu_last_screen_remb_bps p =? 0)
    then policy_value (cfg_screen_preferred_bps cfg) 2000000 else screen_target in
  (camera_target, screen_target).
(** The report on the camera, if one is due. *)
Definition report_camera (worker_index : Z) (p : publisher) (target now_us : Z) (io : send_io) : res (bool * publisher) :=
  if (0 <? target) && publisher_remb_due (pu_last_camera_remb_time_us p) (pu_last_camera_remb_bps p) target now_us then
    let! (sent, p) := sfu_session_send_remb_for_source worker_index p MEDIA_VIDEO target io in
    Ok (sent, if sent then p <| pu_last_camera_remb_bps := target |> <| pu_last_camera_remb_time_us := now_us |> else p)
  else Ok (false, p).
Definition report_screen (worker_index : Z) (p : publisher) (target now_us : Z) (io : send_io) : res (bool * publisher) :=
  if (0 <? target) && publisher_remb_due (pu_last_screen_remb_time_us p) (pu_last_screen_remb_bps p) target now_us then
    let! (sent, p) := sfu_session_send_remb_for_source worker_index p MEDIA_SCREEN target io in
    Ok (sent, if sent then p <| pu_last_screen_remb_bps := target |> <| pu_last_screen_remb_time_us := now_us |> else p)
  else Ok (false, p).
Definition sfu_session_maybe_send_publisher_remb (cfg : policy) (worker_index : Z) (p : publisher) (camera screen : list fanout_route) (now_us : Z)
    (io_camera io_screen : send_io) : res (bool * publisher) :=
  if (now_us <=? 0) || negb (pu_accepts_work p) || negb (pu_owner_worker p =? worker_index) then Ok (false, p) else
  let '(camera_target, screen_target) := remb_targets cfg p camera screen now_us in
  let p := p <| pu_last_remb_target_bps := if screen_target <? camera_target then camera_target else screen_target |> in
  if (camera_target =? 0) && (screen_target =? 0) then Ok (false, p) else
  let! (sent_camera, p) := report_camera worker_index p camera_target now_us io_camera in
  let! (sent_screen, p) := report_screen worker_index p screen_target now_us io_screen in
  Ok (sent_camera || sent_screen, p).

(** ** Transport-wide feedback *)

Definition put_tracker (p : publisher) (t : sfu_twcc_recv_tracker) : publisher := p <| pu_twcc_recv := Some t |>.
(** The packets of a burst; [ios] are the attempts to send them. *)
Fixpoint feedback_burst (ios : list send_io) (p : publisher) (t : sfu_twcc_recv_tracker) (media_ssrc now_us : Z) : res publisher :=
  match ios with
  | [] => Ok (put_tracker p t)
  | io :: ios =>
      if negb (sfu_twcc_recv_tracker_pending t) then Ok (put_tracker p t) else
      match so_buffer io with
      | None => Ok (put_tracker p t)
      | Some buffer =>
          let! (rtcp_len, t, data) := sfu_twcc_feedback_build t SFU_SENDER_SSRC media_ssrc now_us buffer (zlen buffer) in
          if rtcp_len <? 0 then Ok (put_tracker p t)
          else if rtcp_len =? 0 then feedback_burst ios p t media_ssrc now_us
          else feedback_burst ios (match send_rtcp p data rtcp_len io with Some p => p | None => p end) t media_ssrc now_us
      end
  end.
Definition sfu_session_maybe_send_twcc_feedback (worker_index : Z) (p : publisher) (now_us : Z) (ios : nat -> send_io) : res publisher :=
  if negb (pu_video_runtime_ready p) then Ok p else
  match pu_twcc_recv p with
  | None => Ok p
  | Some t =>
      if negb (pu_owner_worker p =? worker_index) then Ok p else
      if negb (sfu_twcc_recv_tracker_pending t) then Ok p else
      if negb (last_feedback_us t =? 0) && (now_us - last_feedback_us t <? SFU_TWCC_FEEDBACK_INTERVAL_US) then Ok p else
      let media_ssrc := if negb (pu_uplink_video_ssrc p =? 0) then pu_uplink_video_ssrc p else pu_uplink_audio_ssrc p in
      feedback_burst (map ios (seq 0 8)) p t media_ssrc now_us
  end.

(** * What leaves for the publisher *)

Definition pu_config (p : publisher) : bool * bool * Z * (Z * Z * Z * Z) :=
  (pu_established p, pu_accepts_work p, pu_owner_worker p, (pu_uplink_video_ssrc p, pu_screen_ssrc p, pu_snap_video_ssrc p, pu_snap_screen_ssrc p)).
(** The attempt gets a packet of these bytes out. *)
Definition delivers (io : send_io) (w : list Z) : Prop :=
  exists b, so_buffer io = Some b /\ zlen w <= zlen b /\ is_Some (so_protect io (patch b 0 w) (zlen w) (zlen b)) /\ so_accepted io = true.
Definition sent_only (p p' : publisher) (ws : list (list Z)) : Prop :=
  exists encs, pu_sent p' = pu_sent p ++ zip ws encs /\ length encs = length ws.

Lemma send_spec p b w io : zlen w <= zlen b -> so_buffer io = Some b ->
  match send_rtcp p (patch b 0 w) (zlen w) io with
  | Some p' => delivers io w /\ exists enc, p' = p <| pu_sent ::= fun l => l ++ [(w, enc)] |>
  | None => ~ delivers io w
  end.
Proof.
  intros Hl Hb. unfold send_rtcp, delivers. rewrite slice_patch_front, zlen_patch by (done || lia).
  destruct (so_protect io (patch b 0 w) (zlen w) (zlen b)) as [[enc n]|] eqn:Ep; [destruct (so_accepted io) eqn:Ea|].
  - split; [|by eexists]. exists b. rewrite Ep. by split_and!.
  - intros (b' & Eb & _ & _ & E). congruence.
  - intros (b' & Eb & _ & [x E] & _). rewrite Hb in Eb. injection Eb as <-. congruence.
Qed.

(** ** Keyframe requests *)

Definition request_wire (p : publisher) (use_fir : bool) (source : sfu_media_kind) : list Z :=
  member_wire (if use_fir then fir_member SFU_SENDER_SSRC (keyframe_ssrc p source) (pu_fir_seq p) else pli_member SFU_SENDER_SSRC (keyframe_ssrc p source)).
Definition same_stamps (p p' : publisher) : Prop := pu_last_pli_time p' = pu_last_pli_time p /\ pu_last_screen_pli_time p' = pu_last_screen_pli_time p.
Definition recent (p : publisher) (source : sfu_media_kind) (now : Z) : Prop :=
  last_pli p source <> 0 /\ now - last_pli p source < SFU_SESSION_KF_THROTTLE_MS.
Definition takes (worker : Z) (p : publisher) : Prop := pu_established p = true /\ pu_accepts_work p = true /\ pu_owner_worker p = worker.

Lemma zlen_request p fir source : zlen (request_wire p fir source) = if fir then 20 else 12.
Proof. unfold request_wire. rewrite zlen_member_wire. by destruct fir. Qed.
Lemma build_keyframe_spec p fir source b :
  match build_keyframe p fir (keyframe_ssrc p source) b with
  | Ok (data, len, p') => zlen (request_wire p fir source) <= zlen b /\ data = patch b 0 (request_wire p fir source) /\ len = zlen (request_wire p fir source) /\
      p' = p <| pu_fir_seq := pu_fir_seq p' |>
  | Err => zlen b < zlen (request_wire p fir source)
  | Fault => False
  end.
Proof.
  unfold build_keyframe. rewrite zlen_request. destruct fir.
  - destruct (Z.ltb_spec (zlen b) 20) as [H|H].
    + unfold sfu_rtcp_build_fir. rewrite reject_true by lia. done.
    + rewrite build_fir_wire by lia. cbn [res_bind]. by split_and!.
  - destruct (Z.ltb_spec (zlen b) 12) as [H|H].
    + unfold sfu_rtcp_build_pli. rewrite reject_true by lia. done.
    + rewrite build_pli_wire by lia. cbn [res_bind]. split_and!; [lia|done|done|by destruct p].
Qed.
(** Every branch of a request. *)
Lemma keyframe_call worker p fir source now io :
  exists o p', sfu_session_request_keyframe_for_source worker p fir source now io = Ok (o, p') /\ pu_config p' = pu_config p /\
  match o with
  | KF_SENT => takes worker p /\ ~ recent p source now /\ p' = set_last_pli (p <| pu_fir_seq := pu_fir_seq p' |> <| pu_sent := pu_sent p' |>) source now /\
      sent_only p p' [request_wire p fir source]
  | KF_COALESCED => takes worker p /\ recent p source now /\ p' = p
  | KF_FAILED => takes worker p /\ ~ recent p source now /\ p' = p <| pu_fir_seq := pu_fir_seq p' |> /\
      (keyframe_ssrc p source = 0 \/ ~ delivers io (request_wire p fir source))
  | _ => ~ takes worker p /\ p' = p
  end.
Proof.
  unfold sfu_session_request_keyframe_for_source, takes.
  destruct (pu_established p) eqn:E1; [|exists KF_IGNORED, p; split_and!; try done; intuition congruence].
  destruct (pu_accepts_work p) eqn:E2; [|exists KF_IGNORED, p; split_and!; try done; intuition congruence].
  destruct (Z.eqb_spec (pu_owner_worker p) worker) as [E3|E3]; cbn [negb orb]; [|exists KF_OFFLOADED, p; split_and!; try done; intuition congruence].
  cbv zeta. destruct (negb (last_pli p source =? 0) && (now - last_pli p source <? SFU_SESSION_KF_THROTTLE_MS)) eqn:Er.
  { exists KF_COALESCED, p. rewrite andb_true_iff, negb_true_iff, Z.eqb_neq, Z.ltb_lt in Er. by split_and!. }
  assert (Hr : ~ recent p source now) by (unfold recent; rewrite andb_false_iff, negb_false_iff, Z.eqb_eq, Z.ltb_ge in Er; lia).
  assert (Hp : p = p <| pu_fir_seq := pu_fir_seq p |>) by (by destruct p).
  destruct (Z.eqb_spec (keyframe_ssrc p source) 0) as [Es|Es]; [exists KF_FAILED, p; split_and!; try done; by left|].
  destruct (so_buffer io) as [b|] eqn:Eb.
  2:{ exists KF_FAILED, p. split_and!; try done. right. intros (b & E & _). congruence. }
  pose proof (build_keyframe_spec p fir source b) as Hk. destruct (build_keyframe p fir (keyframe_ssrc p source) b) as [[[data len] q]| |]; [| |done].
  2:{ exists KF_FAILED, p. split_and!; try done. right. intros (b' & E & Hl & _). rewrite Eb in E. injection E as <-. lia. }
  destruct Hk as (Hl & -> & -> & Eq). pose proof (send_spec q b _ io Hl Eb) as Hs.
  destruct (send_rtcp q _ _ io) as [q'|].
  - destruct Hs as (_ & enc & ->). eexists KF_SENT, _. split; [done|]. rewrite Eq. split; [by unfold set_last_pli; destruct (is_screen source)|].
    split_and!; try done; [by unfold set_last_pli; destruct (is_screen source)|]. exists [enc]. by unfold set_last_pli; destruct (is_screen source).
  - exists KF_FAILED, q. split_and!; try done; [by rewrite Eq|by right].
Qed.

(** *** A sequence of requests *)

Record keyframe_request := mk_request { kq_worker : Z; kq_fir : bool; kq_source : sfu_media_kind; kq_now : Z; kq_io : send_io }.
Fixpoint keyframe_run (p : publisher) (reqs : list keyframe_request) : res (list (keyframe_request * keyframe_outcome) * publisher) :=
  match reqs with
  | [] => Ok ([], p)
  | r :: reqs =>
      let! (o, p) := sfu_session_request_keyframe_for_source (kq_worker r) p (kq_fir r) (kq_source r) (kq_now r) (kq_io r) in
      let! (outs, p) := keyframe_run p reqs in
      Ok ((r, o) :: outs, p)
  end.
(** A request for this kind of source that went out. *)
Definition went_out (screen : bool) (a : keyframe_request * keyframe_outcome) : Prop := a.2 = KF_SENT /\ is_screen (kq_source a.1) = screen.
Definition stamp (p : publisher) (screen : bool) : Z := if screen then pu_last_screen_pli_time p else pu_last_pli_time p.
(** The stamps are the times of the last requests that went out. *)
Definition stamps_ok (past : list (keyframe_request * keyframe_outcome)) (p : publisher) : Prop :=
  forall screen, Forall (fun a => went_out screen a -> 0 < kq_now a.1 <= stamp p screen) past /\
    (stamp p screen <> 0 -> Exists (fun a => went_out screen a /\ kq_now a.1 = stamp p screen) past).
(** The bytes of a request: the sequence number of a FIR is the publisher's. *)
Definition request_bytes (p : publisher) (r : keyframe_request) (w : list Z) : Prop :=
  exists seq, w = member_wire (if kq_fir r then fir_member SFU_SENDER_SSRC (keyframe_ssrc p (kq_source r)) seq
                               else pli_member SFU_SENDER_SSRC (keyframe_ssrc p (kq_source r))).
Definition can_serve (p : publisher) (r : keyframe_request) : Prop :=
  takes (kq_worker r) p /\ keyframe_ssrc p (kq_source r) <> 0 /\ forall w, request_bytes p r w -> delivers (kq_io r) w.
Definition judged (p : publisher) (past : list (keyframe_request * keyframe_outcome)) (a : keyframe_request * keyframe_outcome) : Prop :=
  let '(r, o) := a in let screen := is_screen (kq_source r) in
  (o = KF_SENT -> Forall (fun b => went_out screen b -> SFU_SESSION_KF_THROTTLE_MS <= kq_now r - kq_now b.1) past) /\
  (o = KF_COALESCED -> Exists (fun b => went_out screen b /\ kq_now r - kq_now b.1 < SFU_SESSION_KF_THROTTLE_MS) past) /\
  (can_serve p r -> o = KF_SENT \/ o = KF_COALESCED).
Definition is_sent (a : keyframe_request * keyframe_outcome) : bool := match a.2 with KF_SENT => true | _ => false end.

Lemma stamp_pli p source : last_pli p source = stamp p (is_screen source).
Proof. done. Qed.
Lemma config_ssrc p q source : pu_config q = pu_config p -> keyframe_ssrc q source = keyframe_ssrc p source.
Proof. unfold pu_config, keyframe_ssrc. intros [= _ _ _ -> -> _ _]. done. Qed.
Lemma config_serve p q r : pu_config q = pu_config p -> can_serve p r -> can_serve q r.
Proof.
  intros E (T & S & D). unfold can_serve, request_bytes, takes in *. rewrite (config_ssrc p q) by done.
  unfold pu_config in E. injection E as E1 E2 E3 _ _ _ _. rewrite E1, E2, E3. done.
Qed.
Lemma judged_config p q past a : pu_config q = pu_config p -> judged q past a -> judged p past a.
Proof. destruct a as [r o]. intros E (H1 & H2 & H3). split_and!; try done. intros Hc. apply H3. by eapply config_serve. Qed.
Lemma stamps_snoc past p p' r o : stamps_ok past p -> (forall b, stamp p' b = if bool_decide (o = KF_SENT /\ is_screen (kq_source r) = b) then kq_now r else stamp p b) ->
  (o = KF_SENT -> 0 < kq_now r /\ stamp p (is_screen (kq_source r)) <= kq_now r) -> stamps_ok (past ++ [(r, o)]) p'.
Proof.
  intros H E Ho b. destruct (H b) as [H1 H2]. rewrite E. case_bool_decide as Hb.
  - destruct Hb as [-> Hb]. destruct (Ho eq_refl) as [Hn Hle]. rewrite Hb in Hle. split.
    + apply Forall_app. split; [eapply Forall_impl; [exact H1|]|apply Forall_cons_2; [|apply Forall_nil_2]; cbn; lia].
      cbn. intros a Ha Hw. specialize (Ha Hw). lia.
    + intros _. apply Exists_app. right. apply Exists_cons_hd. by split_and!.
  - split; [apply Forall_app; split; [done|apply Forall_cons_2; [|apply Forall_nil_2]]|].
    + intros Hw. by destruct Hb.
    + intros Hz. apply Exists_app. left. auto.
Qed.
Lemma set_stamp p source now b : stamp (set_last_pli p source now) b = if bool_decide (is_screen source = b) then now else stamp p b.
Proof. unfold set_last_pli, stamp. by destruct (is_screen source), b. Qed.
Lemma keyframe_step past p r o p' : 0 < kq_now r -> stamps_ok past p ->
  sfu_session_request_keyframe_for_source (kq_worker r) p (kq_fir r) (kq_source r) (kq_now r) (kq_io r) = Ok (o, p') ->
  pu_config p' = pu_config p /\ stamps_ok (past ++ [(r, o)]) p' /\ judged p past (r, o) /\
  exists ws, sent_only p p' ws /\ Forall2 (fun a w => request_bytes p a.1 w) (if is_sent (r, o) then [(r, o)] else []) ws.
Proof.
  intros Hn Hs E. destruct (keyframe_call (kq_worker r) p (kq_fir r) (kq_source r) (kq_now r) (kq_io r)) as (o2 & p2 & E2 & Hc & H).
  rewrite E2 in E. injection E as -> ->. split; [done|]. destruct (Hs (is_screen (kq_source r))) as [Hall Hex]. rewrite <- stamp_pli in Hall, Hex.
  assert (Hsame : forall q, (forall b, stamp q b = stamp p b) -> o <> KF_SENT -> stamps_ok (past ++ [(r, o)]) q).
  { intros q Hq Ho. apply (stamps_snoc past p); [done| |done]. intros b. rewrite Hq. case_bool_decide as Hb; [by destruct Hb|done]. }
  assert (Hw : request_bytes p r (request_wire p (kq_fir r) (kq_source r))) by (by exists (pu_fir_seq p)).
  destruct o; cbn [is_sent snd].
  - destruct H as [Ht ->]. split; [by apply Hsame|]. split; [split_and!; try done; by intros (? & _)|]. exists []. split; [exists []; by rewrite app_nil_r|constructor].
  - destruct H as [Ht ->]. split; [by apply Hsame|]. split; [split_and!; try done; by intros (? & _)|]. exists []. split; [exists []; by rewrite app_nil_r|constructor].
  - destruct H as (Ht & [Hz Hr] & ->). split; [by apply Hsame|]. split; [|exists []; split; [exists []; by rewrite app_nil_r|constructor]].
    split_and!; try done; [|by right]. intros _. eapply Exists_impl; [exact (Hex Hz)|]. cbn. intros a [Ha Ea]. split; [done|]. lia.
  - destruct H as (Ht & Hr & Ep & Hf). split; [apply Hsame; [intros b; by rewrite Ep|done]|].
    split; [split_and!; try done; intros (_ & Hz & Hd); destruct Hf as [|Hf]; [done|destruct Hf; by apply Hd]|].
    exists []. split; [exists []; rewrite Ep; by rewrite app_nil_r|constructor].
  - destruct H as (Ht & Hr & Ep & Hsent).
    assert (Hlast : last_pli p (kq_source r) = 0 \/ SFU_SESSION_KF_THROTTLE_MS <= kq_now r - last_pli p (kq_source r)) by (unfold recent in Hr; lia).
    split.
    { apply (stamps_snoc past p); [done| |].
      - intros b. rewrite Ep, set_stamp. repeat case_bool_decide; try tauto; by unfold stamp; destruct b.
      - intros _. rewrite <- stamp_pli. unfold SFU_SESSION_KF_THROTTLE_MS in Hlast. lia. }
    split.
    { split_and!; try done; [|by left]. intros _. eapply Forall_impl; [exact Hall|]. cbn. intros a Ha Hga. specialize (Ha Hga). lia. }
    exists [request_wire p (kq_fir r) (kq_source r)]. split; [done|]. repeat constructor. done.
Qed.
Lemma sent_trans p q r ws1 ws2 : sent_only p q ws1 -> sent_only q r ws2 -> sent_only p r (ws1 ++ ws2).
Proof.
  intros (e1 & E1 & L1) (e2 & E2 & L2). exists (e1 ++ e2). rewrite E2, E1, zip_with_app, app_assoc by done. split; [done|]. rewrite !length_app. lia.
Qed.
Lemma sent_none p q : pu_sent q = pu_sent p -> sent_only p q [].
Proof. intros E. exists []. by rewrite app_nil_r. Qed.
Lemma keyframe_run_spec p0 reqs past p : pu_config p = pu_config p0 -> Forall (fun r => 0 < kq_now r) reqs -> stamps_ok past p ->
  exists outs p', keyframe_run p reqs = Ok (outs, p') /\ map fst outs = reqs /\
    (forall l a r, outs = l ++ a :: r -> judged p0 (past ++ l) a) /\
    exists ws, sent_only p p' ws /\ Forall2 (fun a w => request_bytes p0 a.1 w) (List.filter is_sent outs) ws.
Proof.
  intros Hc Hn. revert past p Hc. induction Hn as [|r reqs Hr _ IH]; intros past p Hc Hs; cbn [keyframe_run].
  { exists [], p. split_and!; try done; [by intros [] a r|]. exists []. split; [by apply sent_none|constructor]. }
  destruct (keyframe_call (kq_worker r) p (kq_fir r) (kq_source r) (kq_now r) (kq_io r)) as (o & p1 & E & _). rewrite E. cbn [res_bind].
  destruct (keyframe_step past p r o p1 Hr Hs E) as (Hc1 & Hs1 & Hj & ws1 & S1 & F1).
  destruct (IH (past ++ [(r, o)]) p1 ltac:(congruence) Hs1) as (outs & p2 & -> & Em & HJ & ws2 & S2 & F2). cbn [res_bind].
  exists ((r, o) :: outs), p2. split_and!; [done|by cbn; rewrite Em| |].
  - intros [|b l] a rest E'; injection E' as <- ->; [rewrite app_nil_r; by eapply judged_config|].
    replace (past ++ (r, o) :: l) with ((past ++ [(r, o)]) ++ l) by (by rewrite <- app_assoc). by eapply HJ.
  - exists (ws1 ++ ws2). split; [by eapply sent_trans|].
    assert (F1' : Forall2 (fun a w => request_bytes p0 a.1 w) (if is_sent (r, o) then [(r, o)] else []) ws1).
    { eapply Forall2_impl; [exact F1|]. cbn. intros a w [q Hq]. exists q. by rewrite <- (config_ssrc p0 p). }
    cbn [List.filter]. destruct (is_sent (r, o)); [exact (Forall2_app F1' F2)|]. inversion F1'; subst. done.
Qed.

(** ** REMB *)

Definition remb_wire (bps media_ssrc : Z) : list Z :=
  let '(e, m) := remb_scale 63 0 bps in member_wire (remb_member SFU_SENDER_SSRC e m [media_ssrc]).
(** A route has a demand of [bps] for the source: the record is the one of the
    assignment, and at most two seconds old. *)
Definition fresh_demand (source : sfu_media_kind) (now : Z) (r : fanout_route) (bps : Z) : Prop :=
  exists l c, fr_contributions r = Some l /\ 0 <= fr_remote_slot r < SFU_MAX_REMOTE_SLOTS /\ l !! Z.to_nat (fr_remote_slot r) = Some c /\
    fr_assignment_generation r <> 0 /\ rc_assignment_generation c = fr_assignment_generation r /\
    rc_updated_at_us c <> 0 /\ rc_updated_at_us c <= now <= rc_updated_at_us c + SFU_REMB_CONTRIBUTION_MAX_AGE_US /\
    bps = if is_screen source then rc_screen_bitrate_bps c else rc_camera_bitrate_bps c.
Definition max_demand (source : sfu_media_kind) (now : Z) (routes : list fanout_route) (target : Z) : Prop :=
  (forall r bps, In r routes -> fresh_demand source now r bps -> bps <= target) /\
  (target = 0 \/ exists r, In r routes /\ fresh_demand source now r target).
(** Nobody is writing the records of the route. *)
Definition route_ok (r : fanout_route) : Prop :=
  0 <= fr_remote_slot r /\ forall l, fr_contributions r = Some l ->
    Forall (fun c => Z.odd (rc_sequence c) = false /\ is_u32 (rc_camera_bitrate_bps c) /\ is_u32 (rc_screen_bitrate_bps c)) l.
(** A report of [target] may follow one of [last_bps]. *)
Definition remb_spaced (last_time last_bps target now : Z) : Prop :=
  last_time = 0 \/ last_bps = 0 \/ SFU_REMB_REFRESH_INTERVAL_US <= now - last_time \/
  SFU_REMB_NORMAL_INTERVAL_US <= now - last_time /\ last_bps <= 10 * Z.abs (target - last_bps) \/
  SFU_REMB_DECREASE_INTERVAL_US <= now - last_time /\ target < last_bps /\ 5 * target <= 4 * last_bps.

Lemma remb_due_spec t b target now : publisher_remb_due t b target now = true <-> remb_spaced t b target now.
Proof.
  unfold publisher_remb_due, remb_spaced. destruct (Z.eqb_spec t 0); [tauto|]. destruct (Z.eqb_spec b 0); [tauto|]. cbn [orb]. cbv zeta.
  rewrite !orb_true_iff, !andb_true_iff, !Z.leb_le, Z.ltb_lt.
  destruct (Z.ltb_spec b target); unfold SFU_REMB_DECREASE_INTERVAL_US, SFU_REMB_NORMAL_INTERVAL_US, SFU_REMB_REFRESH_INTERVAL_US; lia.
Qed.
Lemma route_demand_spec source now r : route_ok r ->
  match route_demand source now r with Some bps => fresh_demand source now r bps /\ is_u32 bps | None => forall bps, ~ fresh_demand source now r bps end.
Proof.
  intros [Hs Hl]. unfold route_demand, fresh_demand. destruct (fr_contributions r) as [l|]; cbn; [|intros bps (l & c & E & _); done].
  specialize (Hl l eq_refl). unfold sfu_session_read_remb_contribution.
  destruct (Z.leb_spec SFU_MAX_REMOTE_SLOTS (fr_remote_slot r)) as [H|H]; cbn [orb]; [intros bps (l' & c & [= <-] & Hr & _); lia|].
  destruct (Z.eqb_spec (fr_assignment_generation r) 0) as [Hg|Hg]; [intros bps (l' & c & _ & _ & _ & Hn & _); done|].
  destruct (l !! Z.to_nat (fr_remote_slot r)) as [c|] eqn:Ec; cbn [mbind option_bind]; [|intros bps (l' & c & [= <-] & _ & E & _); congruence].
  destruct (Forall_lookup_1 _ _ _ _ Hl Ec) as (He & Hc1 & Hc2).
  rewrite read_alone_exact by done. cbn [judge_fields fields].
  destruct (Z.eqb_spec (rc_assignment_generation c) (fr_assignment_generation r)) as [E1|E1]; cbn [negb orb].
  2:{ intros bps (l' & c' & [= <-] & _ & E & _ & E' & _). rewrite Ec in E. injection E as <-. done. }
  destruct (Z.eqb_spec (rc_updated_at_us c) 0) as [E2|E2]; cbn [orb].
  { intros bps (l' & c' & [= <-] & _ & E & _ & _ & E' & _). rewrite Ec in E. injection E as <-. done. }
  destruct (Z.ltb_spec now (rc_updated_at_us c)) as [E3|E3].
  { intros bps (l' & c' & [= <-] & _ & E & _ & _ & _ & E' & _). rewrite Ec in E. injection E as <-. lia. }
  destruct (Z.ltb_spec SFU_REMB_CONTRIBUTION_MAX_AGE_US (now - rc_updated_at_us c)) as [E4|E4]; cbn.
  { intros bps (l' & c' & [= <-] & _ & E & _ & _ & _ & E' & _). rewrite Ec in E. injection E as <-. lia. }
  split; [exists l, c; split_and!; done || lia|by destruct (is_screen source)].
Qed.
Lemma count_routes_spec source now routes : Forall route_ok routes ->
  match fold_left (count_route source now) routes (0, 0, 0) with
  | (t, n, f) => max_demand source now routes t /\ is_u32 t /\ n = zlen routes /\ 0 <= f /\ (f = 0 <-> forall r bps, In r routes -> ~ fresh_demand source now r bps)
  end.
Proof.
  induction routes as [|r routes IH] using rev_ind; intros H.
  { cbn. split; [split; [by intros r bps []|by left]|]. by split_and!. }
  apply Forall_app in H as [H Hr]. apply Forall_cons_1 in Hr as [Hr _]. specialize (IH H). rewrite fold_left_app. cbn [fold_left].
  destruct (fold_left (count_route source now) routes (0, 0, 0)) as [[t n] f]. destruct IH as ([M1 M2] & Ht & -> & Hf0 & Hf). unfold count_route.
  pose proof (route_demand_spec source now r Hr) as Hd. rewrite zlen_app, zlen_cons. change (zlen (@nil fanout_route)) with 0.
  destruct (route_demand source now r) as [bps|].
  - destruct Hd as [Hd Hu]. assert (Hone : forall bps', fresh_demand source now r bps' -> bps' = bps).
    { intros bps' (l & c & E1 & _ & E2 & _ & _ & _ & _ & ->). destruct Hd as (l' & c' & E1' & _ & E2' & _ & _ & _ & _ & ->). by assert (c = c') as -> by congruence. }
    split_and!; [|by destruct (t <? bps)|lia|lia|].
    + split.
      * intros q b Hin Hq. destruct (in_app_or _ _ _ Hin) as [Hin'|[<-|[]]]; [specialize (M1 q b Hin' Hq)|apply Hone in Hq as ->]; destruct (Z.ltb_spec t bps); lia.
      * destruct (Z.ltb_spec t bps); [right; exists r; split; [apply in_or_app; right; by left|done]|].
        destruct M2 as [->|(q & Hin & Hq)]; [by left|right; exists q; split; [apply in_or_app; by left|done]].
    + split; [lia|]. intros Hno. destruct (Hno r bps); [apply in_or_app; right; by left|done].
  - split_and!; [|done|lia|lia|].
    + split; [|destruct M2 as [->|(q & Hin & Hq)]; [by left|right; exists q; split; [apply in_or_app; by left|done]]].
      intros q b Hin Hq. destruct (in_app_or _ _ _ Hin) as [Hin'|[<-|[]]]; [by eapply M1|by apply Hd in Hq].
    + rewrite Hf. split; [intros Hno q b Hin Hq|intros Hno q b Hin; apply Hno, in_or_app; by left].
      destruct (in_app_or _ _ _ Hin) as [Hin'|[<-|[]]]; [by eapply Hno|by apply Hd in Hq].
Qed.
(** The screen's target: its largest demand, or, when no subscriber has said
    anything and no report was ever made, the preferred rate. *)
Definition screen_goal (cfg : policy) (p : publisher) (screen : list fanout_route) (now target : Z) : Prop :=
  max_demand MEDIA_SCREEN now screen target /\ (target <> 0 \/ pu_last_screen_remb_bps p <> 0 \/ screen = [] \/ exists r, In r screen /\ fresh_demand MEDIA_SCREEN now r 0) \/
  screen <> [] /\ pu_last_screen_remb_bps p = 0 /\ (forall r bps, In r screen -> ~ fresh_demand MEDIA_SCREEN now r bps) /\
  target = if cfg_screen_preferred_bps cfg =? 0 then 2000000 else cfg_screen_preferred_bps cfg.
Lemma remb_targets_spec cfg p camera screen now : Forall route_ok camera -> Forall route_ok screen -> is_u32 (cfg_screen_preferred_bps cfg) ->
  match remb_targets cfg p camera screen now with
  | (ct, st) => max_demand MEDIA_VIDEO now camera ct /\ screen_goal cfg p screen now st /\ is_u32 ct /\ is_u32 st
  end.
Proof.
  intros Hc Hs Hp. unfold remb_targets. pose proof (count_routes_spec MEDIA_VIDEO now camera Hc) as Mc. pose proof (count_routes_spec MEDIA_SCREEN now screen Hs) as Ms.
  destruct (fold_left (count_route MEDIA_VIDEO now) camera _) as [[ct n1] f1], (fold_left (count_route MEDIA_SCREEN now) screen _) as [[st n] f].
  destruct Mc as (Mc & Uc & _), Ms as (Ms & Us & -> & Hf0 & Hf). destruct (_ && _ && _ && _) eqn:E.
  - rewrite !andb_true_iff, !Z.eqb_eq, Z.ltb_lt in E. destruct E as (((E1 & E2) & E3) & E4). split_and!; try done.
    + right. split_and!; [by intros ->|done|by apply Hf|]. unfold policy_value. by destruct (_ =? _).
    + unfold policy_value. by destruct (_ =? _).
  - split_and!; try done. left. split; [done|]. rewrite !andb_false_iff, !Z.eqb_neq, Z.ltb_ge in E.
    destruct E as [[[E|E]|E]|E]; [by left| | |by right; left].
    + right; right; left. destruct screen; [done|]. rewrite zlen_cons in E. pose proof (zlen_nonneg screen). lia.
    + destruct (Z.eq_dec st 0) as [->|]; [|by left]. right; right; right.
      assert (Hs' : forall r, In r screen -> route_ok r) by (intros r Hin; rewrite Forall_forall in Hs; by apply Hs, list_elem_of_In).
      destruct (existsb (fun r => match route_demand MEDIA_SCREEN now r with Some _ => true | None => false end) screen) eqn:Ex.
      * apply existsb_exists in Ex as (r & Hin & Hr). exists r. split; [done|]. pose proof (route_demand_spec MEDIA_SCREEN now r (Hs' r Hin)) as Hd.
        destruct (route_demand MEDIA_SCREEN now r) as [b|]; [|done]. destruct Hd as [Hd Hu]. destruct Ms as [M _]. specialize (M r b Hin Hd).
        assert (b = 0) as -> by (unfold is_u32 in Hu; lia). done.
      * destruct E. apply Hf. intros r b Hin Hd. pose proof (route_demand_spec MEDIA_SCREEN now r (Hs' r Hin)) as Hd'.
        destruct (route_demand MEDIA_SCREEN now r) as [b'|] eqn:Er; [|by eapply Hd']. apply not_true_iff_false in Ex. apply Ex, existsb_exists. exists r. by rewrite Er.
Qed.

Definition remb_ssrc (p : publisher) (source : sfu_media_kind) : Z := if is_screen source then pu_snap_screen_ssrc p else pu_snap_video_ssrc p.
(** A report of the rate can be made. *)
Definition remb_can (worker : Z) (p : publisher) (source : sfu_media_kind) (bps : Z) (io : send_io) : Prop :=
  takes worker p /\ remb_ssrc p source <> 0 /\ delivers io (remb_wire bps (remb_ssrc p source)).

Lemma build_remb_spec bps ssrc b : is_u32 bps ->
  match sfu_rtcp_build_remb SFU_SENDER_SSRC bps [ssrc] b (zlen b) with
  | Ok (data, len) => zlen (remb_wire bps ssrc) <= zlen b /\ data = patch b 0 (remb_wire bps ssrc) /\ len = zlen (remb_wire bps ssrc)
  | Err => zlen b < zlen (remb_wire bps ssrc)
  | Fault => False
  end.
Proof.
  intros Hb. unfold remb_wire. destruct (remb_scale 63 0 bps) as [e m] eqn:E. assert (Hb' : is_u64 bps) by (unfold is_u32, is_u64 in *; lia).
  destruct (remb_rate bps e m Hb' E) as (He & Hm & _).
  destruct (remb_member_wf SFU_SENDER_SSRC e m [ssrc]) as [_ Hsz]; [done..|]. rewrite zlen_member_wire, Hsz. change (20 + 4 * zlen [ssrc]) with 24.
  destruct (Z.ltb_spec (zlen b) 24) as [H|H].
  - unfold sfu_rtcp_build_remb. change (zlen [ssrc]) with 1. rewrite reject_false by done. rewrite reject_true; [done|lia].
  - rewrite (build_remb_wire _ _ _ _ _ e m); [|done|by vm_compute|change (24 <= zlen b); lia|lia|done]. change (20 + 4 * zlen [ssrc]) with 24. by split_and!.
Qed.
Lemma send_remb_spec worker p source bps io : source = MEDIA_VIDEO \/ source = MEDIA_SCREEN -> is_u32 bps -> 0 < bps ->
  exists b p', sfu_session_send_remb_for_source worker p source bps io = Ok (b, p') /\ (b = true <-> remb_can worker p source bps io) /\
    p' = p <| pu_sent := pu_sent p' |> /\ sent_only p p' (if b then [remb_wire bps (remb_ssrc p source)] else []).
Proof.
  intros Hsrc Hb Hpos. unfold sfu_session_send_remb_for_source, remb_can, takes.
  assert (E0 : bool_decide (source = MEDIA_VIDEO) || is_screen source = true) by (by destruct Hsrc as [->| ->]). rewrite E0.
  destruct (Z.eqb_spec bps 0); [lia|]. cbn [negb orb].
  assert (Hno : forall P : Prop, ~ P -> exists b p', Ok (false, p) = Ok (b, p') /\ (b = true <-> P) /\ p' = p <| pu_sent := pu_sent p' |> /\
    sent_only p p' (if b then [remb_wire bps (remb_ssrc p source)] else [])).
  { intros P HP. exists false, p. split_and!; try done; [by destruct p|by apply sent_none]. }
  destruct (pu_established p) eqn:E1; cbn [negb orb]; [|apply Hno; intuition congruence].
  destruct (pu_accepts_work p) eqn:E2; cbn [negb orb]; [|apply Hno; intuition congruence].
  destruct (Z.eqb_spec (pu_owner_worker p) worker) as [E3|E3]; cbn [negb]; [|apply Hno; intuition congruence].
  cbv zeta. fold (remb_ssrc p source). destruct (Z.eqb_spec (remb_ssrc p source) 0) as [E4|E4]; [apply Hno; tauto|].
  destruct (so_buffer io) as [b|] eqn:Eb; [|apply Hno; intros (_ & _ & b & E & _); congruence].
  pose proof (build_remb_spec bps (remb_ssrc p source) b Hb) as Hk. destruct (sfu_rtcp_build_remb _ _ _ _ _) as [[data len]| |]; [| |done].
  2:{ apply Hno. intros (_ & _ & b' & E & Hl & _). rewrite Eb in E. injection E as <-. lia. }
  destruct Hk as (Hl & -> & ->). pose proof (send_spec p b _ io Hl Eb) as Hs. destruct (send_rtcp p _ _ io) as [q|]; [|apply Hno; tauto].
  destruct Hs as (Hd & enc & ->). eexists true, _. split; [done|]. split_and!; [tauto|done|by exists [enc]].
Qed.
(** The two reports differ only in the fields they read and write. *)
Ltac report_cases worker p source target io Hsrc Hu :=
  setoid_rewrite <- remb_due_spec;
  let E := fresh "E" in destruct ((0 <? target) && publisher_remb_due _ _ _ _) eqn:E;
  [ rewrite andb_true_iff, Z.ltb_lt in E; destruct E as [E1 E2];
    destruct (send_remb_spec worker p source target io Hsrc Hu E1) as (b & q & -> & Hb & Eq & Hs); cbn [res_bind];
    eexists b, _; split; [done|]; destruct b; [rewrite Eq|]; split_and!; try done; tauto
  | exists false, p; split; [done|]; split_and!; [|by destruct p|by apply sent_none];
    rewrite andb_false_iff, Z.ltb_ge in E; split; [done|]; intros (E1 & E2 & _); destruct E; [lia|congruence] ].
Lemma report_camera_spec worker p target now io : is_u32 target ->
  exists b p', report_camera worker p target now io = Ok (b, p') /\
    (b = true <-> 0 < target /\ remb_spaced (pu_last_camera_remb_time_us p) (pu_last_camera_remb_bps p) target now /\ remb_can worker p MEDIA_VIDEO target io) /\
    p' = (if b then p <| pu_last_camera_remb_bps := target |> <| pu_last_camera_remb_time_us := now |> else p) <| pu_sent := pu_sent p' |> /\
    sent_only p p' (if b then [remb_wire target (remb_ssrc p MEDIA_VIDEO)] else []).
Proof.
  intros Hu. unfold report_camera. report_cases worker p MEDIA_VIDEO target io (or_introl (B:=MEDIA_VIDEO = MEDIA_SCREEN) (eq_refl MEDIA_VIDEO)) Hu.
Qed.
Lemma report_screen_spec worker p target now io : is_u32 target ->
  exists b p', report_screen worker p target now io = Ok (b, p') /\
    (b = true <-> 0 < target /\ remb_spaced (pu_last_screen_remb_time_us p) (pu_last_screen_remb_bps p) target now /\ remb_can worker p MEDIA_SCREEN target io) /\
    p' = (if b then p <| pu_last_screen_remb_bps := target |> <| pu_last_screen_remb_time_us := now |> else p) <| pu_sent := pu_sent p' |> /\
    sent_only p p' (if b then [remb_wire target (remb_ssrc p MEDIA_SCREEN)] else []).
Proof.
  intros Hu. unfold report_screen. report_cases worker p MEDIA_SCREEN target io (or_intror (A:=MEDIA_SCREEN = MEDIA_VIDEO) (eq_refl MEDIA_SCREEN)) Hu.
Qed.

(** ** Transport-wide feedback *)

Definition feedback_due (worker : Z) (p : publisher) (t : sfu_twcc_recv_tracker) (now : Z) : Prop :=
  pu_video_runtime_ready p = true /\ pu_owner_worker p = worker /\ sfu_twcc_recv_tracker_pending t = true /\
  (last_feedback_us t = 0 \/ SFU_TWCC_FEEDBACK_INTERVAL_US <= now - last_feedback_us t).
Definition big_buffer (io : send_io) : Prop := forall b, so_buffer io = Some b -> MAX_FEEDBACK <= zlen b.
Definition has_buffer (io : send_io) : Prop := is_Some (so_buffer io).
Definition sent_feedback (p p' : publisher) (most : Z) : Prop :=
  exists new, pu_sent p' = pu_sent p ++ new /\ zlen new <= most /\ Forall (fun x => zlen x.1 <= MAX_FEEDBACK) new.

Lemma backlog_nonneg t : 0 <= backlog t.
Proof. unfold backlog. pose proof (u16_range (latest_seq t - report_start_seq t)). unfold is_u16 in *. destruct (sfu_twcc_recv_tracker_pending t); lia. Qed.
Lemma no_backlog t : sfu_twcc_recv_tracker_pending t = false -> backlog t = 0.
Proof. intros E. unfold backlog. by rewrite E. Qed.
Lemma sent_feedback_none p p' most : pu_sent p' = pu_sent p -> 0 <= most -> sent_feedback p p' most.
Proof. intros E H. exists []. rewrite E, app_nil_r. split_and!; [done|by change (zlen (@nil (list Z * list Z))) with 0|apply Forall_nil_2]. Qed.
Lemma burst_send p data len io : len <= MAX_FEEDBACK -> sent_feedback p (match send_rtcp p data len io with Some q => q | None => p end) 1.
Proof.
  intros Hl. unfold send_rtcp. destruct (so_protect io data len (zlen data)) as [[enc n]|]; [destruct (so_accepted io)|]; try (by apply sent_feedback_none).
  eexists. split; [reflexivity|]. split; [done|]. apply Forall_cons_2; [|apply Forall_nil_2]. cbn.
  unfold slice, zlen. rewrite length_take. unfold MAX_FEEDBACK in *. lia.
Qed.
Lemma sent_feedback_trans p q r m n : sent_feedback p q m -> sent_feedback q r n -> sent_feedback p r (m + n).
Proof.
  intros (l & E1 & L1 & F1) (k & E2 & L2 & F2). exists (l ++ k). rewrite E2, E1, app_assoc, zlen_app. split_and!; [done|lia|by apply Forall_app].
Qed.
Lemma feedback_burst_spec ios p t media now : tracker_wf t -> Forall big_buffer ios ->
  exists p' t', feedback_burst ios p t media now = Ok p' /\ pu_twcc_recv p' = Some t' /\ tracker_wf t' /\ sent_feedback p p' (zlen ios) /\
    (Forall has_buffer ios -> backlog t' = Z.max 0 (backlog t - SFU_TWCC_FEEDBACK_MAX_PACKETS * zlen ios)).
Proof.
  intros Hw Hb. revert p t Hw. induction Hb as [|io ios Hio _ IH]; intros p t Hw; cbn [feedback_burst].
  { exists (put_tracker p t), t. split_and!; try done; [by exists []; rewrite app_nil_r|]. intros _. unfold SFU_TWCC_FEEDBACK_MAX_PACKETS.
    change (zlen (@nil send_io)) with 0. pose proof (backlog_nonneg t). lia. }
  rewrite zlen_cons. pose proof (zlen_nonneg ios) as Hz.
  destruct (sfu_twcc_recv_tracker_pending t) eqn:Hp; cbn [negb].
  2:{ exists (put_tracker p t), t. split_and!; try done; [apply sent_feedback_none; [done|lia]|]. intros _. rewrite no_backlog by done.
      unfold SFU_TWCC_FEEDBACK_MAX_PACKETS. lia. }
  destruct (so_buffer io) as [b|] eqn:Eb.
  2:{ exists (put_tracker p t), t. split_and!; try done; [apply sent_feedback_none; [done|lia]|]. intros Hh. apply Forall_cons_1 in Hh as [[x Hx] _]. congruence. }
  destruct (build_progress t SFU_SENDER_SSRC media now b (zlen b) Hw ltac:(done) (conj (Hio b Eb) (Z.le_refl _))) as (n & t1 & data & -> & Hn & _ & Hw1 & Hb1).
  cbn [res_bind]. destruct (Z.ltb_spec n 0); [lia|].
  assert (Hbk : forall t', backlog t' = Z.max 0 (backlog t1 - SFU_TWCC_FEEDBACK_MAX_PACKETS * zlen ios) ->
                backlog t' = Z.max 0 (backlog t - SFU_TWCC_FEEDBACK_MAX_PACKETS * (1 + zlen ios))) by (rewrite Hb1; unfold SFU_TWCC_FEEDBACK_MAX_PACKETS; lia).
  assert (Hall : Forall has_buffer (io :: ios) -> Forall has_buffer ios) by (intros Hh; by apply Forall_cons_1 in Hh as [_ Hh]).
  destruct (Z.eqb_spec n 0).
  - destruct (IH p t1 Hw1) as (p' & t' & -> & Et & Hw' & (new & Es & Hl & Hf) & Hd). exists p', t'. split_and!; try done; [exists new; split_and!; [done|lia|done]|auto].
  - destruct (IH (match send_rtcp p data n io with Some q => q | None => p end) t1 Hw1) as (p' & t' & -> & Et & Hw' & Hs & Hd). exists p', t'.
    split_and!; try done; [|auto]. eapply sent_feedback_trans; [|exact Hs]. apply burst_send. lia.
Qed.

(** * Properties *)

(** C7: A reader of a demand record never sees half of a write.  However the
    loads of a reader and the stores of up to 2^31 writes of the record are
    interleaved, if the reader answers, both rates it answers come from one
    and the same write (or from the record as it was), that write belongs to
    the assignment asked for, and it is not older than asked for. *)
Theorem remb_read_consistent c ds gen now age c' os cam scr :
  Z.even (rc_sequence c) = true -> is_u32 (rc_sequence c) -> zlen ds < 2 ^ 31 ->
  rtc (shared_step gen now age) (mk_shared c (concat (map write_stores ds)) (RdStart 4)) (mk_shared c' os (RdDone (Some (cam, scr)))) ->
  exists upd, In [gen; cam; scr; upd] (fields c :: map demand_fields ds) /\ 0 <> upd /\ upd <= now /\ now - upd <= age.
Proof.
  intros He Hu Hn Hr. set (versions := fields c :: map demand_fields ds).
  assert (H0 : shared_inv versions gen now age (rc_sequence c) (zlen ds) (mk_shared c (concat (map write_stores ds)) (RdStart 4))).
  { exists 0, ds. cbn [sh_record sh_writer sh_reader]. split_and!; [done|lia|unfold u32, is_u32 in *; rewrite Z.add_0_r, Z.mod_small by lia; done| | |done].
    - apply list.Forall_forall. intros d Hd. right. apply in_map. by apply list_elem_of_In.
    - left. split_and!; [done|by left|done]. }
  assert (H1 : shared_inv versions gen now age (rc_sequence c) (zlen ds) (mk_shared c' os (RdDone (Some (cam, scr))))).
  { clear -Hr H0 He Hn. induction Hr as [|s1 s2 s3 Hs _ IH]; [done|]. apply IH. by eapply shared_step_inv. }
  by destruct H1 as (k & ds' & _ & _ & _ & _ & _ & H).
Qed.

Definition ex_record : sfu_remb_contribution := mk_contribution 4294967294 7 1000 300000 0.
(** A scheduler: [true] lets the writer store, [false] the reader load. *)
Fixpoint shared_run (gen now age : Z) (s : shared) (sched : list bool) : shared :=
  match sched with
  | [] => s
  | b :: sched =>
      shared_run gen now age
        (match b, sh_writer s with
         | true, o :: os => mk_shared (exec_store (sh_record s) o) os (sh_reader s)
         | _, os => mk_shared (sh_record s) os (reader_step gen now age (sh_record s) (sh_reader s))
         end) sched
  end.
Lemma shared_run_steps gen now age s sched : rtc (shared_step gen now age) s (shared_run gen now age s sched).
Proof.
  revert s. induction sched as [|b sched IH]; intros [c os r]; cbn [shared_run sh_record sh_writer sh_reader]; [apply rtc_refl|].
  eapply rtc_l; [|apply IH]. destruct b; [destruct os|]; constructor.
Qed.
(** The write falls between the loads of the first attempt; the second answers. *)
Definition ex_schedule : list bool :=
  [false; false; false; true; true; true; false; false; true; true; true; false; false; false; false; false; false; false].
Lemma remb_read_consistent_witness :
  exists upd, In [7; 500000; 900000; upd] (fields ex_record :: map demand_fields [mk_demand 7 500000 900000 2000]) /\ 0 <> upd /\ upd <= 3000 /\ 3000 - upd <= 2000.
Proof.
  eapply (remb_read_consistent ex_record [mk_demand 7 500000 900000 2000] 7 3000 2000); [done|done|done|].
  match goal with |- rtc _ ?s _ => pose proof (shared_run_steps 7 3000 2000 s ex_schedule) as H end. vm_compute in H. exact H.
Defined.

(** C9: Keyframe requests to a publisher are throttled, and none is lost.
    Whatever requests are made of it, from whatever workers and with whatever
    failures: two requests for the same kind of source go out at least 300 ms
    apart; one is dropped in favour of another only when that one went out
    less than 300 ms before, so an attempt that failed never uses up the
    window; one that can be served (the session is established on this worker,
    the source has an SSRC, the packet gets out) goes out or is dropped that
    way; and what is sent are the PLI or FIR packets of the requests that went
    out, in order, for the SSRC of their source. *)
Theorem keyframes_throttled p reqs :
  pu_last_pli_time p = 0 -> pu_last_screen_pli_time p = 0 -> Forall (fun r => 0 < kq_now r) reqs ->
  exists outs p', keyframe_run p reqs = Ok (outs, p') /\ map fst outs = reqs /\
    (forall past a rest, outs = past ++ a :: rest -> judged p past a) /\
    exists ws, sent_only p p' ws /\ Forall2 (fun a w => request_bytes p a.1 w) (List.filter is_sent outs) ws.
Proof.
  intros E1 E2 Hn. apply (keyframe_run_spec p reqs [] p eq_refl Hn). intros b. split; [apply Forall_nil_2|]. destruct b; cbn; congruence.
Qed.

Definition ex_publisher : publisher :=
  mk_publisher_state true true 0 true 111 222 333 111 333 0 0 255 0 0 0 0 0 None [].
Definition ex_send : send_io := mk_send_io (Some (zeros 1500)) (fun data n cap => Some (data, n)) true.
Definition ex_no_buffer : send_io := mk_send_io None (fun data n cap => Some (data, n)) true.
Definition ex_requests : list keyframe_request :=
  [mk_request 0 false MEDIA_VIDEO 1000 ex_no_buffer; mk_request 0 false MEDIA_VIDEO 1001 ex_send; mk_request 0 true MEDIA_VIDEO 1200 ex_send;
   mk_request 0 true MEDIA_SCREEN 1200 ex_send; mk_request 3 false MEDIA_VIDEO 1400 ex_send; mk_request 0 false MEDIA_VIDEO 1500 ex_send].
Lemma keyframes_throttled_witness :
  exists outs p', keyframe_run ex_publisher ex_requests = Ok (outs, p') /\ map snd outs = [KF_FAILED; KF_SENT; KF_COALESCED; KF_SENT; KF_OFFLOADED; KF_SENT] /\
    length (pu_sent p') = 3%nat.
Proof.
  destruct (keyframes_throttled ex_publisher ex_requests) as (outs & p' & E & _); [done|done|repeat apply Forall_cons_2; try apply Forall_nil_2; done|].
  exists outs, p'. split; [exact E|].
  assert (H : match keyframe_run ex_publisher ex_requests with Ok (o, q) => (map snd o, length (pu_sent q)) | _ => ([], 0%nat) end =
              ([KF_FAILED; KF_SENT; KF_COALESCED; KF_SENT; KF_OFFLOADED; KF_SENT], 3%nat)) by (vm_compute; reflexivity).
  rewrite E in H. injection H as H1 H2. split; [exact H1|exact H2].
Defined.

(** C8: A publisher is told what its subscribers can take.  The camera's target
    is the largest demand among its routes that is fresh (of the assignment,
    at most two seconds old), and zero without one; the screen's likewise,
    but for the preferred rate before anybody has said anything.  A report of
    a target goes out exactly when the target is positive, the session can
    send it, and the last report allows it: two seconds ago, or half a second
    with a change of a tenth, or a tenth of a second with a fall by a fifth;
    it is a REMB of that rate for the SSRC of the source, and is remembered as
    the last report only then. *)
Theorem remb_follows_demand cfg worker p camera screen now io_camera io_screen :
  0 < now -> pu_accepts_work p = true -> pu_owner_worker p = worker -> Forall route_ok camera -> Forall route_ok screen -> is_u32 (cfg_screen_preferred_bps cfg) ->
  exists ct st cam scr p', sfu_session_maybe_send_publisher_remb cfg worker p camera screen now io_camera io_screen = Ok (cam || scr, p') /\
    max_demand MEDIA_VIDEO now camera ct /\ screen_goal cfg p screen now st /\ pu_last_remb_target_bps p' = Z.max ct st /\
    (cam = true <-> 0 < ct /\ remb_spaced (pu_last_camera_remb_time_us p) (pu_last_camera_remb_bps p) ct now /\ remb_can worker p MEDIA_VIDEO ct io_camera) /\
    (scr = true <-> 0 < st /\ remb_spaced (pu_last_screen_remb_time_us p) (pu_last_screen_remb_bps p) st now /\ remb_can worker p MEDIA_SCREEN st io_screen) /\
    (pu_last_camera_remb_time_us p', pu_last_camera_remb_bps p') = (if cam then (now, ct) else (pu_last_camera_remb_time_us p, pu_last_camera_remb_bps p)) /\
    (pu_last_screen_remb_time_us p', pu_last_screen_remb_bps p') = (if scr then (now, st) else (pu_last_screen_remb_time_us p, pu_last_screen_remb_bps p)) /\
    sent_only p p' ((if cam then [remb_wire ct (pu_snap_video_ssrc p)] else []) ++ (if scr then [remb_wire st (pu_snap_screen_ssrc p)] else [])).
Proof.
  intros Hn Ha Ho Hc Hs Hp. unfold sfu_session_maybe_send_publisher_remb. rewrite Ha, Ho, Z.eqb_refl. destruct (Z.leb_spec now 0); [lia|]. cbn [negb orb].
  pose proof (remb_targets_spec cfg p camera screen now Hc Hs Hp) as Ht. destruct (remb_targets cfg p camera screen now) as [ct st].
  destruct Ht as (Mc & Ms & Uc & Us). set (p1 := p <| pu_last_remb_target_bps := _ |>).
  assert (Em : pu_last_remb_target_bps p1 = Z.max ct st) by (cbn; destruct (Z.ltb_spec st ct); lia).
  destruct ((ct =? 0) && (st =? 0)) eqn:E0.
  { rewrite andb_true_iff, !Z.eqb_eq in E0. destruct E0 as [-> ->]. exists 0, 0, false, false, p1.
    split_and!; try done; [intuition (done || lia)..|]. by apply sent_none. }
  destruct (report_camera_spec worker p1 ct now io_camera Uc) as (cam & p2 & -> & Hcam & E2 & S2). cbn [res_bind].
  destruct (report_screen_spec worker p2 st now io_screen Us) as (scr & p3 & -> & Hscr & E3 & S3). cbn [res_bind].
  exists ct, st, cam, scr, p3.
  assert (Hsame : pu_last_screen_remb_time_us p2 = pu_last_screen_remb_time_us p /\ pu_last_screen_remb_bps p2 = pu_last_screen_remb_bps p /\
    pu_last_remb_target_bps p2 = Z.max ct st /\ remb_ssrc p2 MEDIA_SCREEN = pu_snap_screen_ssrc p /\
    (remb_can worker p2 MEDIA_SCREEN st io_screen <-> remb_can worker p MEDIA_SCREEN st io_screen) /\
    (pu_last_camera_remb_time_us p2, pu_last_camera_remb_bps p2) = (if cam then (now, ct) else (pu_last_camera_remb_time_us p, pu_last_camera_remb_bps p))).
  { rewrite E2, <- Em. by destruct cam. }
  destruct Hsame as (F1 & F2 & F3 & F4 & F5 & F6). rewrite F1, F2, F5 in Hscr. rewrite F4 in S3.
  split_and!; try done; [rewrite E3, <- F3; by destruct scr|rewrite <- F6, E3; by destruct scr|rewrite E3; destruct scr; cbn; congruence|].
  eapply (sent_trans p p2); [|exact S3]. exact S2.
Qed.

Definition ex_route : fanout_route := mk_fanout_route (Some [mk_contribution 2 7 1000 500000 0]) 0 7.
Definition ex_stale_route : fanout_route := mk_fanout_route (Some [mk_contribution 2 6 1000 900000 0]) 0 7.
Lemma remb_follows_demand_witness :
  exists sent p', sfu_session_maybe_send_publisher_remb default_policy 0 ex_publisher [ex_route; ex_stale_route] [ex_stale_route] 2000 ex_send ex_no_buffer = Ok (sent, p') /\
    sent = true /\ pu_last_camera_remb_bps p' = 500000 /\ pu_last_screen_remb_bps p' = 0 /\ pu_last_remb_target_bps p' = 2000000.
Proof.
  destruct (remb_follows_demand default_policy 0 ex_publisher [ex_route; ex_stale_route] [ex_stale_route] 2000 ex_send ex_no_buffer)
    as (ct & st & cam & scr & p' & E & _); [lia|done|done|..].
  - repeat apply Forall_cons_2; try apply Forall_nil_2; (split; [done|]; intros l [= <-]; repeat apply Forall_cons_2; try apply Forall_nil_2; done).
  - repeat apply Forall_cons_2; try apply Forall_nil_2; (split; [done|]; intros l [= <-]; repeat apply Forall_cons_2; try apply Forall_nil_2; done).
  - done.
  - exists (cam || scr), p'. split; [exact E|].
    assert (H : match sfu_session_maybe_send_publisher_remb default_policy 0 ex_publisher [ex_route; ex_stale_route] [ex_stale_route] 2000 ex_send ex_no_buffer with
                | Ok (b, q) => (b, pu_last_camera_remb_bps q, pu_last_screen_remb_bps q, pu_last_remb_target_bps q) | _ => (false, 0, 0, 0) end
              = (true, 500000, 0, 2000000)) by (vm_compute; reflexivity).
    rewrite E in H. injection H as H1 H2 H3 H4. by split_and!.
Defined.

(** C39: The feedback to a publisher catches up.  A call never fails, sends at
    most eight packets of at most 608 bytes, nothing when the last feedback
    is less than 20 ms old, and when it is due and has buffers it takes 2048
    sequence numbers off the backlog, so that nothing is pending after a
    backlog of that size. *)
Theorem feedback_catches_up worker p t now ios :
  pu_twcc_recv p = Some t -> tracker_wf t -> (forall i, big_buffer (ios i)) ->
  exists p' t', sfu_session_maybe_send_twcc_feedback worker p now ios = Ok p' /\ pu_twcc_recv p' = Some t' /\ tracker_wf t' /\
    sent_feedback p p' 8 /\ (~ feedback_due worker p t now -> p' = p) /\
    (feedback_due worker p t now -> (forall i, has_buffer (ios i)) ->
      backlog t' = Z.max 0 (backlog t - 2048) /\ (backlog t <= 2048 -> sfu_twcc_recv_tracker_pending t' = false)).
Proof.
  intros Et Hw Hb. unfold sfu_session_maybe_send_twcc_feedback, feedback_due. rewrite Et.
  assert (Hno : forall P : Prop, ~ P -> exists p' t', Ok p = Ok p' /\ pu_twcc_recv p' = Some t' /\ tracker_wf t' /\ sent_feedback p p' 8 /\ (~ P -> p' = p) /\
    (P -> (forall i, has_buffer (ios i)) -> backlog t' = Z.max 0 (backlog t - 2048) /\ (backlog t <= 2048 -> sfu_twcc_recv_tracker_pending t' = false))).
  { intros P HP. exists p, t. split_and!; try done. by apply sent_feedback_none. }
  destruct (pu_video_runtime_ready p) eqn:E1; cbn [negb]; [|apply Hno; by intros (? & _)].
  destruct (Z.eqb_spec (pu_owner_worker p) worker) as [E2|E2]; cbn [negb]; [|apply Hno; by intros (_ & ? & _)].
  destruct (sfu_twcc_recv_tracker_pending t) eqn:E3; cbn [negb]; [|apply Hno; by intros (_ & _ & ? & _)].
  destruct (_ && _) eqn:E4; [apply Hno; rewrite andb_true_iff, negb_true_iff, Z.eqb_neq, Z.ltb_lt in E4; lia|].
  cbv zeta. set (media := if negb _ then _ else _). clearbody media.
  destruct (feedback_burst_spec (map ios (seq 0 8)) p t media now Hw) as (p' & t' & -> & Et' & Hw' & Hs & Hd).
  { repeat apply Forall_cons_2; try apply Forall_nil_2; apply Hb. }
  change (zlen (map ios (seq 0 8))) with 8 in *. exists p', t'. split_and!; try done.
  - intros Hdue. destruct Hdue. rewrite andb_false_iff, negb_false_iff, Z.eqb_eq, Z.ltb_ge in E4. by split_and!.
  - intros _ Hh. rewrite Hd by (repeat apply Forall_cons_2; try apply Forall_nil_2; apply Hh). split; [done|]. intros Hle.
    destruct (sfu_twcc_recv_tracker_pending t') eqn:E5; [|done]. specialize (Hd ltac:(repeat apply Forall_cons_2; try apply Forall_nil_2; apply Hh)).
    unfold backlog at 1 in Hd. rewrite E5 in Hd. pose proof (u16_range (latest_seq t' - report_start_seq t')) as Hr. unfold is_u16, SFU_TWCC_FEEDBACK_MAX_PACKETS in *. lia.
Qed.

Lemma feedback_catches_up_witness :
  exists p' t', sfu_session_maybe_send_twcc_feedback 0 (ex_publisher <| pu_twcc_recv := Some ex_tracker |>) 5 (fun _ => ex_send) = Ok p' /\
    pu_twcc_recv p' = Some t' /\ sfu_twcc_recv_tracker_pending t' = false.
Proof.
  destruct (feedback_catches_up 0 (ex_publisher <| pu_twcc_recv := Some ex_tracker |>) ex_tracker 5 (fun _ => ex_send))
    as (p' & t' & E & Et & _ & _ & _ & H).
  - reflexivity.
  - constructor; [by vm_compute|]. split; [|split]; vm_compute; (split; [discriminate|reflexivity]).
  - intros _ b [= <-]. by vm_compute.
  - exists p', t'. split; [exact E|]. split; [exact Et|]. apply H; [|intros _; by eexists|by vm_compute].
    split; [reflexivity|]. split; [reflexivity|]. split; [vm_compute; reflexivity|]. left. vm_compute. reflexivity.
Defined.
