(* ===== verification/SpscRing.v ===== *)
(** The single-producer single-consumer ring, [src/util/ringbuffer.c], that
    carries packets and jobs between the dispatcher and the workers.  The two
    threads are interleaved access by access (sequentially consistent), and
    every interleaving is shown to behave as a bounded queue whose operations
    happen at one instant. *)

From S2P Require Import Prelude.
From stdpp Require Import relations.
Local Open Scope Z_scope.

(** The pointers in the slots are numbers. *)
Record sfu_spsc_ring := mk_spsc {
  rb_slots : list Z; rb_capacity : Z; rb_mask : Z;
  rb_head : Z; rb_tail : Z; rb_high_water : Z; rb_push_failures : Z
}.
#[export] Instance eta_spsc : Eta sfu_spsc_ring := fun r =>
  mk_spsc (rb_slots r) (rb_capacity r) (rb_mask r) (rb_head r) (rb_tail r) (rb_high_water r) (rb_push_failures r).

(** [alloc]: the slots could be allocated. *)
Definition sfu_spsc_ring_init (capacity_pow2 : Z) (alloc : bool) : option sfu_spsc_ring :=
  if (capacity_pow2 =? 0) || negb (Z.land capacity_pow2 (u32 (capacity_pow2 - 1)) =? 0) then None
  else if negb alloc then None
  else Some (mk_spsc (replicate (Z.to_nat capacity_pow2) 0) capacity_pow2 (capacity_pow2 - 1) 0 0 0 0).
Definition sfu_spsc_ring_size (r : sfu_spsc_ring) : Z := Z.land (u32 (rb_tail r - rb_head r)) (rb_mask r).

(** ** The threads *)

(** A producer between the accesses of a push: after the loads of tail and
    head, after the store of the slot, in the loop that raises the high-water
    mark. *)
Inductive producer :=
| PIdle
| PTail (item tail : Z)
| PHead (item tail head : Z)
| PStored (item tail head : Z)
| PHigh (item tail depth high : Z)
| PPublish (item tail : Z).
Inductive consumer :=
| CIdle
| CHead (head : Z)
| CTail (head : Z)
| CItem (head item : Z).
(** What an operation answered, at the access that settles it. *)
Inductive ring_event := EvPushed (item : Z) | EvFull (item : Z) | EvPopped (item : Z) | EvEmpty.

Definition log_event (e : option ring_event) : list ring_event := match e with Some e => [e] | None => [] end.

(** One access of a push; [todo] are the items still to push, [spurious] lets
    the weak compare-and-exchange fail. *)
Definition push_step (r : sfu_spsc_ring) (p : producer) (todo : list Z) (spurious : bool)
  : sfu_spsc_ring * producer * list Z * option ring_event :=
  match p with
  | PIdle =>
      match todo with
      | [] => (r, PIdle, [], None)
      | item :: todo => (r, PTail item (rb_tail r), todo, None)
      end
  | PTail item tail =>
      let head := rb_head r in
      if rb_capacity r <=? u32 (tail - head)
      then (r <| rb_push_failures ::= fun n => u64 (n + 1) |>, PIdle, todo, Some (EvFull item))
      else (r, PHead item tail head, todo, None)
  | PHead item tail head =>
      (r <| rb_slots ::= <[Z.to_nat (Z.land tail (rb_mask r)) := item]> |>, PStored item tail head, todo, None)
  | PStored item tail head => (r, PHigh item tail (u32 (u32 (tail - head) + 1)) (rb_high_water r), todo, None)
  | PHigh item tail depth high =>
      if high <? depth then
        if negb spurious && (rb_high_water r =? high) then (r <| rb_high_water := depth |>, PPublish item tail, todo, None)
        else (r, PHigh item tail depth (rb_high_water r), todo, None)
      else (r, PPublish item tail, todo, None)
  | PPublish item tail => (r <| rb_tail := u32 (tail + 1) |>, PIdle, todo, Some (EvPushed item))
  end.
(** One access of a pop. *)
Definition pop_step (r : sfu_spsc_ring) (c : consumer) : sfu_spsc_ring * consumer * option ring_event :=
  match c with
  | CIdle => (r, CHead (rb_head r), None)
  | CHead head => if head =? rb_tail r then (r, CIdle, Some EvEmpty) else (r, CTail head, None)
  | CTail head => (r, CItem head (nth (Z.to_nat (Z.land head (rb_mask r))) (rb_slots r) 0), None)
  | CItem head item => (r <| rb_head := u32 (head + 1) |>, CIdle, Some (EvPopped item))
  end.

(** The operations with the other thread idle. *)
Fixpoint push_alone (fuel : nat) (r : sfu_spsc_ring) (p : producer) (todo : list Z) : option (bool * sfu_spsc_ring) :=
  match fuel with
  | O => None
  | S fuel =>
      match push_step r p todo false with
      | (r, _, _, Some (EvPushed _)) => Some (true, r)
      | (r, _, _, Some _) => Some (false, r)
      | (r, p, todo, None) => push_alone fuel r p todo
      end
  end.
Definition sfu_spsc_ring_push (r : sfu_spsc_ring) (item : Z) : option (bool * sfu_spsc_ring) := push_alone 6 r PIdle [item].
Fixpoint pop_alone (fuel : nat) (r : sfu_spsc_ring) (c : consumer) : option (option Z * sfu_spsc_ring) :=
  match fuel with
  | O => None
  | S fuel =>
      match pop_step r c with
      | (r, _, Some (EvPopped x)) => Some (Some x, r)
      | (r, _, Some _) => Some (None, r)
      | (r, c, None) => pop_alone fuel r c
      end
  end.
Definition sfu_spsc_ring_pop (r : sfu_spsc_ring) : option (option Z * sfu_spsc_ring) := pop_alone 4 r CIdle.

(** ** Both threads on one ring *)

Record spsc_state := mk_spsc_state { sp_ring : sfu_spsc_ring; sp_producer : producer; sp_todo : list Z; sp_consumer : consumer; sp_log : list ring_event }.
Inductive spsc_step : spsc_state -> spsc_state -> Prop :=
| step_produce r p todo c log spurious r' p' todo' e :
    push_step r p todo spurious = (r', p', todo', e) -> spsc_step (mk_spsc_state r p todo c log) (mk_spsc_state r' p' todo' c (log ++ log_event e))
| step_consume r p todo c log r' c' e :
    pop_step r c = (r', c', e) -> spsc_step (mk_spsc_state r p todo c log) (mk_spsc_state r' p todo c' (log ++ log_event e)).

(** ** The bounded queue *)

Definition queue_step (capacity : Z) (q : list Z) (e : ring_event) : option (list Z) :=
  match e with
  | EvPushed x => if zlen q <? capacity then Some (q ++ [x]) else None
  | EvFull _ => if zlen q =? capacity then Some q else None
  | EvPopped x => match q with y :: q => if x =? y then Some q else None | [] => None end
  | EvEmpty => match q with [] => Some [] | _ => None end
  end.
Fixpoint replay (capacity : Z) (q : list Z) (log : list ring_event) : option (list Z) :=
  match log with
  | [] => Some q
  | e :: log => q ← queue_step capacity q e; replay capacity q log
  end.
Definition offered (e : ring_event) : list Z := match e with EvPushed x | EvFull x => [x] | _ => [] end.
Definition in_hand (p : producer) : list Z :=
  match p with PIdle => [] | PTail x _ | PHead x _ _ | PStored x _ _ | PHigh x _ _ _ | PPublish x _ => [x] end.

(** * Proofs *)

Lemma pow2_of_land c : 0 < c -> Z.land c (c - 1) = 0 -> exists k, 0 <= k /\ c = 2 ^ k.
Proof.
  intros Hc H. exists (Z.log2 c). pose proof (Z.log2_nonneg c). split; [done|]. destruct (Z.log2_spec c Hc) as [H1 H2].
  destruct (Z.eq_dec c (2 ^ Z.log2 c)) as [|Hne]; [done|]. exfalso.
  assert (El : Z.log2 (c - 1) = Z.log2 c) by (apply Z.log2_unique; [done|lia]).
  assert (Hb : Z.testbit (Z.land c (c - 1)) (Z.log2 c) = true).
  { rewrite Z.land_spec, Z.bit_log2 by done. rewrite <- El at 1. rewrite El. rewrite <- El. apply Z.bit_log2. pose proof (Z.pow_pos_nonneg 2 (Z.log2 c)). lia. }
  by rewrite H, Z.bits_0 in Hb.
Qed.
Section Ring.
Context (k : Z) (Hk : 0 <= k <= 31).
Let cap := 2 ^ k.

Lemma cap_range : 1 <= cap <= 2147483648.
Proof. unfold cap. change 2147483648 with (2 ^ 31). split; [pose proof (Z.pow_pos_nonneg 2 k); lia|apply Z.pow_le_mono_r; lia]. Qed.
Lemma slot_of n : Z.land (u32 n) (cap - 1) = n mod cap.
Proof.
  unfold cap, u32. rewrite land_ones_mod by lia. replace 4294967296 with (2 ^ k * 2 ^ (32 - k)).
  - rewrite Z.rem_mul_r by (apply Z.pow_nonzero || apply Z.pow_pos_nonneg; lia). rewrite Z.mul_comm, Z_mod_plus_full. apply Z.mod_mod, Z.pow_nonzero; lia.
  - rewrite <- Z.pow_add_r by lia. by replace (k + (32 - k)) with 32 by lia.
Qed.
Lemma slot_range n : (Z.to_nat (n mod cap) < Z.to_nat cap)%nat.
Proof. pose proof cap_range. pose proof (Z.mod_pos_bound n cap). lia. Qed.
Lemma slot_apart n m : n < m < n + cap -> Z.to_nat (n mod cap) <> Z.to_nat (m mod cap).
Proof.
  intros H E. pose proof cap_range. pose proof (Z.mod_pos_bound n cap ltac:(lia)). pose proof (Z.mod_pos_bound m cap ltac:(lia)).
  assert (Em : n mod cap = m mod cap) by lia. assert (Hd : (m - n) mod cap = 0) by (rewrite Zminus_mod, Em, Z.sub_diag; apply Z.mod_0_l; lia).
  rewrite Z.mod_small in Hd by lia. lia.
Qed.

(** [nc] items have been taken out, [np] put in; the slots between hold [q]. *)
Record ring_holds (r : sfu_spsc_ring) (np nc : Z) (q : list Z) : Prop := {
  rh_capacity : rb_capacity r = cap; rh_mask : rb_mask r = cap - 1; rh_slots : length (rb_slots r) = Z.to_nat cap;
  rh_head : rb_head r = u32 nc; rh_tail : rb_tail r = u32 np; rh_count : np = nc + zlen q; rh_fits : zlen q <= cap;
  rh_items : forall i x, q !! i = Some x -> rb_slots r !! Z.to_nat ((nc + Z.of_nat i) mod cap) = Some x
}.
Definition producer_ok (r : sfu_spsc_ring) (np nc : Z) (p : producer) : Prop :=
  match p with
  | PIdle => True
  | PTail _ t => t = u32 np
  | PHead _ t h => t = u32 np /\ np - nc < cap
  | PStored x t _ | PHigh x t _ _ | PPublish x t => t = u32 np /\ np - nc < cap /\ rb_slots r !! Z.to_nat (np mod cap) = Some x
  end.
Definition consumer_ok (nc : Z) (q : list Z) (c : consumer) : Prop :=
  match c with
  | CIdle => True
  | CHead h => h = u32 nc
  | CTail h => h = u32 nc /\ q <> []
  | CItem h x => h = u32 nc /\ head q = Some x
  end.
Lemma count_difference np nc n : np = nc + n -> 0 <= n <= cap -> u32 (u32 np - u32 nc) = n.
Proof. pose proof cap_range. intros -> H0. dlia. Qed.

Lemma push_step_ok r np nc q p todo c spurious r' p' todo' e : ring_holds r np nc q -> producer_ok r np nc p -> consumer_ok nc q c ->
  push_step r p todo spurious = (r', p', todo', e) ->
  exists np' q', replay cap q (log_event e) = Some q' /\ ring_holds r' np' nc q' /\ producer_ok r' np' nc p' /\ consumer_ok nc q' c /\
    in_hand p ++ todo = concat (map offered (log_event e)) ++ in_hand p' ++ todo'.
Proof.
  intros H Hp Hc E. pose proof cap_range as Hcap. pose proof (zlen_nonneg q) as Hq. pose proof H as [Ec Em Es Eh Et En Ef Ei].
  destruct p as [|x t|x t h|x t h|x t d hw|x t]; cbn [push_step] in E.
  - destruct todo as [|x todo]; injection E as <- <- <- <-; exists np, q; split_and!; try done.
  - cbn in Hp. subst t. rewrite Ec, Eh, (count_difference np nc (zlen q)) in E by lia. destruct (Z.leb_spec cap (zlen q)).
    + injection E as <- <- <- <-. exists np, q. split_and!; try done. cbn. by rewrite (proj2 (Z.eqb_eq _ _)) by lia.
    + injection E as <- <- <- <-. exists np, q. split_and!; try done. cbn. lia.
  - cbn in Hp. destruct Hp as [-> Hlt]. injection E as <- <- <- <-. rewrite Em, slot_of. exists np, q. split_and!; try done.
    + constructor; try done; [cbn; by rewrite length_insert|]. intros i y Hy. cbn. rewrite list_lookup_insert_ne; [by apply Ei|].
      apply lookup_lt_Some in Hy. intros E. symmetry in E. revert E. apply slot_apart. unfold zlen in *. lia.
    + cbn. split_and!; [done|done|]. rewrite list_lookup_insert_eq; [done|]. rewrite Es. apply slot_range.
  - cbn in Hp. injection E as <- <- <- <-. exists np, q. by split_and!.
  - cbn in Hp. destruct (hw <? d); [destruct (negb spurious && _)|]; injection E as <- <- <- <-; exists np, q; by split_and!.
  - cbn in Hp. destruct Hp as (-> & Hlt & Hs). injection E as <- <- <- <-. exists (np + 1), (q ++ [x]). split_and!; try done.
    + cbn. by rewrite (proj2 (Z.ltb_lt _ _)) by lia.
    + constructor; try done; [cbn; dlia|rewrite zlen_app; change (zlen [x]) with 1; lia|rewrite zlen_app; change (zlen [x]) with 1; lia|].
      intros i y Hy. cbn. apply lookup_app_Some in Hy as [Hy|[Hl Hy]]; [by apply Ei|]. apply list_lookup_singleton_Some in Hy as [Hi <-].
      replace (nc + Z.of_nat i) with np by (unfold zlen in *; lia). done.
    + destruct c as [|h|h|h y]; cbn in *; try done; [destruct Hc; split; [done|by destruct q]|destruct Hc as [-> Hh]; by destruct q].
Qed.
Lemma pop_step_ok r np nc q p c r' c' e : ring_holds r np nc q -> producer_ok r np nc p -> consumer_ok nc q c -> pop_step r c = (r', c', e) ->
  exists nc' q', replay cap q (log_event e) = Some q' /\ ring_holds r' np nc' q' /\ producer_ok r' np nc' p /\ consumer_ok nc' q' c' /\
    concat (map offered (log_event e)) = [].
Proof.
  intros H Hp Hc E. pose proof cap_range as Hcap. pose proof (zlen_nonneg q) as Hq. pose proof H as [Ec Em Es Eh Et En Ef Ei].
  destruct c as [|h|h|h x]; cbn [pop_step] in E.
  - injection E as <- <- <-. exists nc, q. by split_and!.
  - cbn in Hc. subst h. rewrite Et in E. destruct (Z.eqb_spec (u32 nc) (u32 np)) as [E0|E0]; injection E as <- <- <-; exists nc, q; split_and!; try done.
    + assert (q = []) as -> by (destruct q as [|x q]; [done|]; rewrite zlen_cons in *; pose proof (zlen_nonneg q); exfalso; dlia). done.
    + split; [done|]. intros ->. change (zlen (@nil Z)) with 0 in En. by replace np with nc in E0 by lia.
  - cbn in Hc. destruct Hc as [-> Hne]. injection E as <- <- <-. exists nc, q. split_and!; try done. cbn. split; [done|].
    destruct q as [|x q]; [done|]. specialize (Ei O x eq_refl). rewrite Z.add_0_r in Ei. rewrite Em, slot_of, nth_lookup, Ei. done.
  - cbn in Hc. destruct Hc as [-> Hx]. injection E as <- <- <-. destruct q as [|y q]; [done|]. injection Hx as ->. rewrite zlen_cons in *.
    exists (nc + 1), q. split_and!; try done.
    + cbn. by rewrite Z.eqb_refl.
    + constructor; try done; [cbn; dlia|lia|lia|]. intros i z Hz. cbn. specialize (Ei (S i) z Hz). by replace (nc + 1 + Z.of_nat i) with (nc + Z.of_nat (S i)) by lia.
    + destruct p; cbn in *; try done; intuition lia.
Qed.
End Ring.

Lemma replay_app cap q l1 l2 : replay cap q (l1 ++ l2) = (q' ← replay cap q l1; replay cap q' l2).
Proof. revert q. induction l1 as [|e l1 IH]; intros q; cbn; [done|]. destruct (queue_step cap q e); cbn; [apply IH|done]. Qed.
Definition spsc_inv (k : Z) (items : list Z) (s : spsc_state) : Prop :=
  exists np nc q, ring_holds k (sp_ring s) np nc q /\ producer_ok k (sp_ring s) np nc (sp_producer s) /\ consumer_ok nc q (sp_consumer s) /\
    replay (2 ^ k) [] (sp_log s) = Some q /\ items = concat (map offered (sp_log s)) ++ in_hand (sp_producer s) ++ sp_todo s.
Lemma spsc_step_inv k items s s' : 0 <= k <= 31 -> spsc_step s s' -> spsc_inv k items s -> spsc_inv k items s'.
Proof.
  intros Hk Hs (np & nc & q & H & Hp & Hc & Hr & Hi). destruct Hs as [r p todo c log sp r' p' todo' e E|r p todo c log r' c' e E]; cbn in *.
  - destruct (push_step_ok k Hk r np nc q p todo c sp r' p' todo' e H Hp Hc E) as (np' & q' & R & H' & Hp' & Hc' & Ho).
    exists np', nc, q'. split_and!; try done; cbn; [by rewrite replay_app, Hr|]. rewrite map_app, concat_app, <- app_assoc, Hi, Ho. done.
  - destruct (pop_step_ok k Hk r np nc q p c r' c' e H Hp Hc E) as (nc' & q' & R & H' & Hp' & Hc' & Ho).
    exists np, nc', q'. split_and!; try done; cbn; [by rewrite replay_app, Hr|]. by rewrite map_app, concat_app, Ho, app_nil_r.
Qed.
Lemma spsc_init_ok c r : is_u32 c -> sfu_spsc_ring_init c true = Some r -> exists k, 0 <= k <= 31 /\ c = 2 ^ k /\ ring_holds k r 0 0 [].
Proof.
  unfold sfu_spsc_ring_init. intros Hc. destruct (Z.eqb_spec c 0) as [|Hz]; [done|]. cbn [orb].
  destruct (Z.eqb_spec (Z.land c (u32 (c - 1))) 0) as [E|]; [|done]. cbn [negb]. intros [= <-].
  assert (Eu : u32 (c - 1) = c - 1) by dlia. rewrite Eu in E. destruct (pow2_of_land c) as (k & Hk & ->); [unfold is_u32 in Hc; lia|done|].
  assert (k <= 31) by (destruct (Z.le_gt_cases k 31); [done|]; pose proof (Z.pow_le_mono_r 2 32 k ltac:(lia) ltac:(lia)); unfold is_u32 in Hc; lia).
  exists k. split; [lia|]. split; [done|]. pose proof (Z.pow_pos_nonneg 2 k ltac:(lia) ltac:(lia)).
  constructor; try done; [cbn; apply length_replicate|change (0 <= 2 ^ k); lia].
Qed.

(** The reported size: the number of items below the capacity, but zero for a
    full ring, since the difference is masked. *)
Lemma ring_size_exact k r np nc q : 0 <= k <= 31 -> ring_holds k r np nc q ->
  sfu_spsc_ring_size r = if zlen q =? 2 ^ k then 0 else zlen q.
Proof.
  intros Hk [_ Em _ Eh Et En Ef _]. unfold sfu_spsc_ring_size. pose proof (zlen_nonneg q). rewrite Eh, Et, Em, (count_difference k Hk np nc (zlen q)) by (done || lia).
  rewrite land_ones_mod by lia. destruct (Z.eqb_spec (zlen q) (2 ^ k)) as [->|]; [apply Z.mod_same, Z.pow_nonzero; lia|apply Z.mod_small; lia].
Qed.
(** Two packets in a ring of two, and none is seen. *)
Example full_ring_looks_empty :
  match sfu_spsc_ring_init 2 true with
  | Some r => match sfu_spsc_ring_push r 5 with
              | Some (true, r) => match sfu_spsc_ring_push r 6 with Some (true, r) => sfu_spsc_ring_size r = 0 | _ => False end
              | _ => False end
  | None => False
  end.
Proof. reflexivity. Qed.

(** Alone, the two operations end within their accesses and are those of the queue. *)
Lemma push_ends r x : is_Some (sfu_spsc_ring_push r x).
Proof.
  unfold sfu_spsc_ring_push. cbn [push_alone push_step]. destruct (_ <=? _); [done|]. cbn [push_alone push_step]. destruct (_ <? _); [|done].
  cbn [push_alone push_step negb andb]. by rewrite Z.eqb_refl.
Qed.
Lemma pop_ends r : is_Some (sfu_spsc_ring_pop r).
Proof. unfold sfu_spsc_ring_pop. cbn [pop_alone pop_step]. by destruct (_ =? _). Qed.
Lemma push_alone_queue k fuel r p todo b r' np nc q : 0 <= k <= 31 -> ring_holds k r np nc q -> producer_ok k r np nc p ->
  push_alone fuel r p todo = Some (b, r') ->
  exists e np' q', (b = true <-> exists x, e = EvPushed x) /\ queue_step (2 ^ k) q e = Some q' /\ ring_holds k r' np' nc q'.
Proof.
  intros Hk. revert r p todo np q. induction fuel as [|fuel IH]; intros r p todo np q H Hp E; cbn [push_alone] in E; [done|].
  destruct (push_step r p todo false) as [[[r1 p1] todo1] e] eqn:Es.
  destruct (push_step_ok k Hk r np nc q p todo CIdle false r1 p1 todo1 e H Hp I Es) as (np1 & q1 & R & H1 & P1 & _ & _).
  destruct e as [e|]; cbn [log_event replay] in R.
  - destruct (queue_step (2 ^ k) q e) as [q2|] eqn:Eq; [|done]. injection R as ->. exists e, np1, q1.
    destruct e; injection E as <- <-; split_and!; try done; (split; [eauto; done|by intros (? & ?)]).
  - injection R as ->. by apply (IH r1 p1 todo1 np1 q1).
Qed.

(** * Properties *)

(** C16: Two threads on the ring see a bounded first-in first-out queue.  However
    a pushing and a popping thread are interleaved, through any number of
    wrap-arounds of the 32-bit indices, the operations in the order they are
    settled are a run of the queue: a push is refused only when it holds the
    capacity, a pop finds nothing only when it is empty, and every item is
    popped once, in the order of the pushes; each item is offered once and in
    the order given, and the number of items in the ring is the distance of
    the indices. *)
Theorem spsc_linearizable capacity r items s :
  is_u32 capacity -> sfu_spsc_ring_init capacity true = Some r ->
  rtc spsc_step (mk_spsc_state r PIdle items CIdle []) s ->
  exists q, replay capacity [] (sp_log s) = Some q /\ zlen q <= capacity /\
    items = concat (map offered (sp_log s)) ++ in_hand (sp_producer s) ++ sp_todo s /\
    u32 (rb_tail (sp_ring s) - rb_head (sp_ring s)) = zlen q.
Proof.
  intros Hu Hi Hr. destruct (spsc_init_ok capacity r Hu Hi) as (k & Hk & -> & H0).
  assert (H1 : spsc_inv k items s).
  { assert (Hs : spsc_inv k items (mk_spsc_state r PIdle items CIdle [])) by (by exists 0, 0, []).
    clear -Hr Hs Hk. induction Hr as [|s1 s2 s3 Hs1 _ IH]; [done|]. apply IH. by eapply spsc_step_inv. }
  destruct H1 as (np & nc & q & [Ec Em Es Eh Et En Ef Ei] & _ & _ & Hrep & Hit). exists q. split_and!; try done.
  rewrite Eh, Et. apply (count_difference k Hk); [done|]. pose proof (zlen_nonneg q). lia.
Qed.

(** A scheduler: [true] lets the producer go. *)
Fixpoint spsc_run (s : spsc_state) (sched : list bool) : spsc_state :=
  match sched with
  | [] => s
  | b :: sched =>
      spsc_run
        (if b then let '(r, p, todo, e) := push_step (sp_ring s) (sp_producer s) (sp_todo s) false in mk_spsc_state r p todo (sp_consumer s) (sp_log s ++ log_event e)
         else let '(r, c, e) := pop_step (sp_ring s) (sp_consumer s) in mk_spsc_state r (sp_producer s) (sp_todo s) c (sp_log s ++ log_event e)) sched
  end.
Lemma spsc_run_steps s sched : rtc spsc_step s (spsc_run s sched).
Proof.
  revert s. induction sched as [|b sched IH]; intros [r p todo c log]; cbn [spsc_run sp_ring sp_producer sp_todo sp_consumer sp_log]; [apply rtc_refl|].
  eapply rtc_l; [|apply IH]. destruct b.
  - destruct (push_step r p todo false) as [[[r' p'] todo'] e] eqn:E. by eapply step_produce.
  - destruct (pop_step r c) as [[r' c'] e] eqn:E. by eapply step_consume.
Qed.
Definition ex_ring : sfu_spsc_ring := mk_spsc (replicate 2 0) 2 1 0 0 0 0.
Definition ex_sched : list bool :=
  [false; false; true; true; true; true; false; true; true; true; true; true; true; false; true; true; true; false; true; true; false; false; true; true].
Lemma spsc_linearizable_witness :
  exists q, replay 2 [] [EvEmpty; EvPushed 5; EvPushed 6; EvFull 7; EvPopped 5] = Some q /\ zlen q <= 2 /\
    [5; 6; 7; 8] = concat (map offered [EvEmpty; EvPushed 5; EvPushed 6; EvFull 7; EvPopped 5]) ++ [8] ++ [] /\ u32 (2 - 1) = zlen q.
Proof.
  pose proof (spsc_run_steps (mk_spsc_state ex_ring PIdle [5; 6; 7; 8] CIdle []) ex_sched) as H. vm_compute in H.
  refine (spsc_linearizable 2 ex_ring [5; 6; 7; 8] _ _ eq_refl H). unfold is_u32. lia.
Defined.
