(* ===== verification/AfXdpFrame.v ===== *)
(** Ethernet frames around datagrams, [src/net/af_xdp_frame.c]: the AF_XDP
    backend takes UDP payloads out of raw frames and puts them into frames it
    builds, with the Internet checksum on the way; and the arithmetic of its
    frame pool.  Addresses and ports are the bytes they have in memory and on
    the wire; a 16-bit checksum is the number those two bytes stand for. *)

From S2P Require Import Prelude NetBytes.
Local Open Scope Z_scope.

Definition ETH_HLEN : Z := 14.
Definition ETH_P_IP : Z := 0x0800.
Definition ETH_P_8021Q : Z := 0x8100.
Definition ETH_P_8021AD : Z := 0x88A8.
Definition VLAN_LEN : Z := 4.
Definition IPHDR_LEN : Z := 20.
Definition UDPHDR_LEN : Z := 8.
Definition IPPROTO_UDP : Z := 17.
Definition SFU_AF_XDP_FRAME_HEADER_SIZE : Z := ETH_HLEN + IPHDR_LEN + UDPHDR_LEN.
Definition SFU_AF_XDP_IPV4_FRAGMENT_MASK : Z := 0x3fff.

(** ** The Internet checksum *)

Record sfu_checksum_state := mk_checksum { ck_sum : Z; ck_high_byte : Z; ck_odd : bool }.
#[export] Instance eta_checksum : Eta sfu_checksum_state := fun s => mk_checksum (ck_sum s) (ck_high_byte s) (ck_odd s).
Definition add_word (s : sfu_checksum_state) (hi lo : Z) : sfu_checksum_state :=
  s <| ck_sum ::= fun n => u32 (n + Z.lor (Z.shiftl hi 8) lo) |>.
Fixpoint add_words (s : sfu_checksum_state) (bytes : list Z) : sfu_checksum_state :=
  match bytes with
  | hi :: lo :: bytes => add_words (add_word s hi lo) bytes
  | [hi] => s <| ck_high_byte := hi |> <| ck_odd := true |>
  | [] => s
  end.
Definition checksum_add (s : sfu_checksum_state) (bytes : list Z) : sfu_checksum_state :=
  match ck_odd s, bytes with
  | true, lo :: bytes => add_words ((add_word s (ck_high_byte s) lo) <| ck_odd := false |>) bytes
  | _, _ => add_words s bytes
  end.
Fixpoint fold_sum (fuel : nat) (sum : Z) : res Z :=
  if Z.shiftr sum 16 =? 0 then Ok sum else
  match fuel with
  | O => Fault
  | S fuel => fold_sum fuel (Z.land sum 0xffff + Z.shiftr sum 16)
  end.
(** Two rounds are enough for 32 bits. *)
Definition checksum_finish (s : sfu_checksum_state) : res Z :=
  let sum := if ck_odd s then u32 (ck_sum s + Z.shiftl (ck_high_byte s) 8) else ck_sum s in
  let! sum := fold_sum 2 sum in
  Ok (u16 (Z.lnot sum)).
Definition zero_checksum : sfu_checksum_state := mk_checksum 0 0 false.
Definition sfu_af_xdp_checksum (data : list Z) : res Z := checksum_finish (checksum_add zero_checksum data).
Definition udp_checksum (saddr daddr udp : list Z) (udp_len : Z) : res Z :=
  let s := checksum_add zero_checksum saddr in
  let s := checksum_add s daddr in
  let s := checksum_add s [0; IPPROTO_UDP] in
  let s := checksum_add s (enc16 udp_len) in
  checksum_finish (checksum_add s udp).

(** ** Frames *)

(** [payload] is the offset in the frame. *)
Record sfu_af_xdp_parse_result := mk_parse_result {
  pr_payload : Z; pr_payload_len : Z; pr_payload_cap : Z; pr_source_ip : list Z; pr_source_port : list Z; pr_header_len : Z; pr_vlan : bool
}.
(** The protocol behind the Ethernet header and a VLAN tag, if there is one. *)
Definition parse_ethernet (frame : list Z) (frame_len : Z) : res (Z * Z * bool) :=
  let! protocol := sfu_read_be16 frame 12 in
  if (protocol =? ETH_P_8021Q) || (protocol =? ETH_P_8021AD) then
    reject (frame_len <? ETH_HLEN + VLAN_LEN) (
    let! protocol := sfu_read_be16 frame (ETH_HLEN + 2) in
    Ok (protocol, ETH_HLEN + VLAN_LEN, true))
  else Ok (protocol, ETH_HLEN, false).
(** The header and the total length of the datagram at [offset]. *)
Definition parse_ip (frame : list Z) (offset frame_len : Z) : res (Z * Z) :=
  let! b0 := rd frame offset in
  let ihl := Z.land b0 15 * 4 in
  let! ip_total_len := sfu_read_be16 frame (offset + 2) in
  let! protocol := rd frame (offset + 9) in
  let! frag_off := sfu_read_be16 frame (offset + 6) in
  reject (negb (Z.shiftr b0 4 =? 4) || (ihl <? IPHDR_LEN) || (ip_total_len <? ihl + UDPHDR_LEN) || (frame_len <? offset + ihl)
          || (frame_len - offset <? ip_total_len) || negb (protocol =? IPPROTO_UDP) || negb (Z.land frag_off SFU_AF_XDP_IPV4_FRAGMENT_MASK =? 0)) (
  let! header := rd_n frame offset ihl in
  let! check := sfu_af_xdp_checksum header in
  reject (negb (check =? 0)) (Ok (ihl, ip_total_len))).
Definition sfu_af_xdp_parse_frame (frame : list Z) (frame_len frame_capacity media_port : Z) : res sfu_af_xdp_parse_result :=
  reject ((frame_capacity <? frame_len) || (frame_len <? ETH_HLEN)) (
  let! (protocol, offset, vlan) := parse_ethernet frame frame_len in
  reject (negb (protocol =? ETH_P_IP) || (frame_len <? offset + IPHDR_LEN)) (
  let! (ihl, ip_total_len) := parse_ip frame offset frame_len in
  let! saddr := rd_n frame (offset + 12) 4 in
  let! daddr := rd_n frame (offset + 16) 4 in
  let udp := offset + ihl in
  let! source := rd_n frame udp 2 in
  let! dest := sfu_read_be16 frame (udp + 2) in
  let! udp_len := sfu_read_be16 frame (udp + 4) in
  let! check := sfu_read_be16 frame (udp + 6) in
  reject ((udp_len <=? UDPHDR_LEN) || (ip_total_len - ihl <? udp_len) || (frame_len <? udp + udp_len) || negb (dest =? media_port)) (
  let! sum := if negb (check =? 0) then let! bytes := rd_n frame udp udp_len in udp_checksum saddr daddr bytes udp_len else Ok 0 in
  reject (negb (sum =? 0)) (
  let header_len := udp + UDPHDR_LEN in
  Ok (mk_parse_result header_len (udp_len - UDPHDR_LEN) (frame_capacity - header_len) saddr source header_len vlan))))).

Record sfu_af_xdp_frame_params := mk_frame_params {
  fp_source_mac : list Z; fp_destination_mac : list Z; fp_source_ip : list Z; fp_destination_ip : list Z;
  fp_source_port : list Z; fp_destination_port : list Z; fp_payload : list Z
}.
Definition ip_header (p : sfu_af_xdp_frame_params) (check : Z) : list Z :=
  [0x45; 0] ++ enc16 (u16 (IPHDR_LEN + UDPHDR_LEN + zlen (fp_payload p))) ++ [0; 0; 0; 0; 64; IPPROTO_UDP] ++ enc16 check ++ fp_source_ip p ++ fp_destination_ip p.
Definition udp_header (p : sfu_af_xdp_frame_params) (check : Z) : list Z :=
  fp_source_port p ++ fp_destination_port p ++ enc16 (u16 (UDPHDR_LEN + zlen (fp_payload p))) ++ enc16 check.
Definition sfu_af_xdp_build_frame (frame : list Z) (frame_capacity : Z) (p : sfu_af_xdp_frame_params) : res (list Z * Z) :=
  let payload_len := zlen (fp_payload p) in
  reject ((payload_len =? 0) || (UINT16_MAX - IPHDR_LEN - UDPHDR_LEN <? payload_len) || (frame_capacity <? payload_len)
          || (frame_capacity - payload_len <? SFU_AF_XDP_FRAME_HEADER_SIZE)) (
  let! frame := wr_n frame 0 (fp_destination_mac p ++ fp_source_mac p ++ enc16 ETH_P_IP) in
  let! ip_check := sfu_af_xdp_checksum (ip_header p 0) in
  let! frame := wr_n frame ETH_HLEN (ip_header p ip_check) in
  let! frame := wr_n frame (ETH_HLEN + IPHDR_LEN) (udp_header p 0) in
  let! frame := wr_n frame SFU_AF_XDP_FRAME_HEADER_SIZE (fp_payload p) in
  let udp_len := u16 (UDPHDR_LEN + payload_len) in
  let! udp := rd_n frame (ETH_HLEN + IPHDR_LEN) udp_len in
  let! check := udp_checksum (fp_source_ip p) (fp_destination_ip p) udp udp_len in
  let check := if check =? 0 then 0xffff else check in
  let! frame := wr_n frame (ETH_HLEN + IPHDR_LEN) (udp_header p check) in
  Ok (frame, SFU_AF_XDP_FRAME_HEADER_SIZE + payload_len)).

(** ** The frame pool *)

Definition sfu_af_xdp_partition_frames (total : Z) : option (Z * Z) :=
  if (total <? 8) || negb (Z.land total (u32 (total - 1)) =? 0) then None else Some (total / 2, total / 2).
Fixpoint grow_frames (fuel : nat) (frames available : Z) : res Z :=
  if frames <=? available / 2 then
    match fuel with O => Fault | S fuel => grow_frames fuel (u32 (Z.shiftl frames 1)) available end
  else Ok frames.
Definition sfu_af_xdp_frames_per_queue (total_frames queue_count : Z) : res Z :=
  if queue_count =? 0 then Ok 0 else
  let! frames := grow_frames 32 1 (total_frames / queue_count) in
  Ok (if 8 <=? frames then frames else 0).
Definition sfu_af_xdp_encode_rx_return (queue_slot frame : Z) : option Z :=
  if (queue_slot =? UINT32_MAX) || (frame =? UINT32_MAX) then None
  else Some (Z.lor (u64 (Z.shiftl (u32 (queue_slot + 1)) 32)) (u32 (frame + 1))).
Definition sfu_af_xdp_decode_rx_return (token : Z) : option (Z * Z) :=
  let slot_value := u32 (Z.shiftr token 32) in
  let frame_value := u32 token in
  if (slot_value =? 0) || (frame_value =? 0) then None else Some (slot_value - 1, frame_value - 1).

(** * The checksum *)

(** The sum of the 16-bit words, a last single byte being the high one. *)
Fixpoint word_sum (bytes : list Z) : Z :=
  match bytes with
  | hi :: lo :: bytes => hi * 256 + lo + word_sum bytes
  | [hi] => hi * 256
  | [] => 0
  end.
Definition total (s : sfu_checksum_state) : Z := if ck_odd s then ck_sum s + ck_high_byte s * 256 else ck_sum s.

Lemma pair_ind (P : list Z -> Prop) : P [] -> (forall x, P [x]) -> (forall x y l, P l -> P (x :: y :: l)) -> forall l, P l.
Proof.
  intros H0 H1 H2 l. assert (P l /\ forall x, P (x :: l)) as [? _]; [|done].
  induction l as [|y l [IH1 IH2]]; [by split|]. split; [apply IH2|]. intros x. by apply H2.
Qed.
Lemma word_sum_bound l : bytes_ok l -> 0 <= word_sum l <= 65280 * zlen l.
Proof.
  induction l as [|x|x y l IH] using pair_ind; intros H; cbn [word_sum].
  - change (zlen (@nil Z)) with 0. lia.
  - apply Forall_cons_1 in H as [Hx _]. change (zlen [x]) with 1. unfold is_u8 in Hx. lia.
  - apply Forall_cons_1 in H as [Hx H]. apply Forall_cons_1 in H as [Hy H]. specialize (IH H). rewrite !zlen_cons. unfold is_u8 in *. lia.
Qed.
Lemma word_sum_app a b : zlen a mod 2 = 0 -> word_sum (a ++ b) = word_sum a + word_sum b.
Proof.
  induction a as [|x|x y a IH] using pair_ind; intros H; [done|done|]. cbn [word_sum app]. rewrite IH; [lia|]. rewrite !zlen_cons in H. dlia.
Qed.
Lemma word_sum_enc16 v : is_u16 v -> word_sum (enc16 v) = v.
Proof. intros H. unfold enc16. cbn [word_sum]. dlia. Qed.
Lemma word_value hi lo : is_u8 lo -> Z.lor (Z.shiftl hi 8) lo = hi * 256 + lo.
Proof. intros H. apply (lor_shiftl_add hi lo 8); [done|]. unfold is_u8 in H. lia. Qed.

Lemma add_words_total l s : bytes_ok l -> ck_odd s = false -> 0 <= ck_sum s -> ck_sum s + word_sum l < 4294967296 ->
  total (add_words s l) = ck_sum s + word_sum l /\ 0 <= ck_sum (add_words s l) /\
  (zlen l mod 2 = 0 -> ck_odd (add_words s l) = false) /\ (ck_odd (add_words s l) = true -> is_u8 (ck_high_byte (add_words s l))).
Proof.
  revert s. induction l as [|x|x y l IH] using pair_ind; intros s H Ho Hs Hb; cbn [add_words word_sum] in *.
  - unfold total. rewrite Ho. split_and!; done || lia.
  - apply Forall_cons_1 in H as [Hx _]. unfold total. cbn. split_and!; done || lia.
  - apply Forall_cons_1 in H as [Hx H]. apply Forall_cons_1 in H as [Hy H]. pose proof (word_sum_bound l H) as Hw.
    assert (Es : ck_sum (add_word s x y) = ck_sum s + (x * 256 + y)).
    { unfold add_word. cbn. rewrite word_value by done. unfold u32, is_u8 in *. apply Z.mod_small. lia. }
    destruct (IH (add_word s x y)) as (E & E1 & E2 & E3); [done|done|rewrite Es; unfold is_u8 in *; lia|rewrite Es; lia|].
    split_and!; [rewrite E, Es; lia|done| |done]. intros Hm. apply E2. rewrite !zlen_cons in Hm. dlia.
Qed.
Lemma checksum_add_even s l : bytes_ok l -> ck_odd s = false -> zlen l mod 2 = 0 -> 0 <= ck_sum s -> ck_sum s + word_sum l < 4294967296 ->
  ck_odd (checksum_add s l) = false /\ ck_sum (checksum_add s l) = ck_sum s + word_sum l.
Proof.
  intros H Ho Hm Hs Hb. unfold checksum_add. rewrite Ho. destruct (add_words_total l s H Ho Hs Hb) as (E & _ & E2 & _). specialize (E2 Hm).
  split; [done|]. unfold total in E. by rewrite E2 in E.
Qed.
Lemma fold_sum_spec x : 0 <= x < 4294967296 -> exists y, fold_sum 2 x = Ok y /\ 0 <= y <= 65535 /\ y mod 65535 = x mod 65535 /\ (y = 0 <-> x = 0).
Proof.
  intros Hx. assert (Hstep : forall z, 0 <= z -> Z.land z 0xffff + Z.shiftr z 16 = z - 65535 * (z / 65536)).
  { intros z Hz. change 0xffff with (2 ^ 16 - 1). rewrite land_ones_mod, Z.shiftr_div_pow2 by lia. change (2 ^ 16) with 65536. dlia. }
  assert (Hmod : forall z q, (z - 65535 * q) mod 65535 = z mod 65535) by (intros z q; replace (z - 65535 * q) with (z + (- q) * 65535) by lia; apply Z_mod_plus_full).
  cbn [fold_sum]. rewrite (Hstep x), (Z.shiftr_div_pow2 x) by lia. change (2 ^ 16) with 65536.
  destruct (Z.eqb_spec (x / 65536) 0); [exists x; split_and!; done || dlia|].
  set (y := x - 65535 * (x / 65536)). assert (Hy : 0 < y <= 131070) by (subst y; dlia).
  assert (Ey : y mod 65535 = x mod 65535) by apply Hmod. clearbody y.
  rewrite (Hstep y), (Z.shiftr_div_pow2 y) by lia. change (2 ^ 16) with 65536.
  destruct (Z.eqb_spec (y / 65536) 0); [exists y; split_and!; done || dlia|].
  set (z := y - 65535 * (y / 65536)). assert (Hz : 0 < z <= 65535) by (subst z; dlia). assert (Ez : z mod 65535 = y mod 65535) by apply Hmod. clearbody z.
  rewrite (Z.shiftr_div_pow2 z) by lia. change (2 ^ 16) with 65536.
  destruct (Z.eqb_spec (z / 65536) 0); [exists z; split_and!; done || congruence || dlia|dlia].
Qed.
Lemma checksum_finish_spec s : 0 <= ck_sum s -> (ck_odd s = true -> is_u8 (ck_high_byte s)) -> total s < 4294967296 ->
  exists c, checksum_finish s = Ok c /\ is_u16 c /\ (c = 0 <-> 0 < total s /\ total s mod 65535 = 0) /\ (total s + c) mod 65535 = 0.
Proof.
  intros H1 H2 H3. unfold checksum_finish.
  assert (E : (if ck_odd s then u32 (ck_sum s + Z.shiftl (ck_high_byte s) 8) else ck_sum s) = total s /\ 0 <= total s).
  { unfold total in *. destruct (ck_odd s); [|done]. specialize (H2 eq_refl). rewrite Z.shiftl_mul_pow2 by lia. change (2 ^ 8) with 256. unfold u32, is_u8 in *.
    rewrite Z.mod_small by lia. lia. }
  destruct E as [-> H0]. destruct (fold_sum_spec (total s)) as (y & -> & Hy & Em & Ez); [done|]. cbn [res_bind]. exists (65535 - y).
  assert (El : u16 (Z.lnot y) = 65535 - y) by (rewrite Z.lnot_eq_pred_opp; dlia). rewrite El.
  split_and!; [done|unfold is_u16; lia| |dlia]. split; [intros Hc; assert (y = 65535) as -> by lia; split; [lia|by rewrite <- Em]|].
  intros [Hp Hm]. rewrite Hm in Em. dlia.
Qed.

(** ** The two checksums of a frame *)

Lemma checksum_spec data : bytes_ok data -> zlen data <= 65535 -> exists c, sfu_af_xdp_checksum data = Ok c /\ is_u16 c /\
  (c = 0 <-> 0 < word_sum data /\ word_sum data mod 65535 = 0) /\ (word_sum data + c) mod 65535 = 0.
Proof.
  intros Hb Hl. pose proof (word_sum_bound data Hb) as Hw. unfold sfu_af_xdp_checksum, checksum_add. cbn [ck_odd zero_checksum].
  destruct (add_words_total data zero_checksum Hb eq_refl) as (E & E1 & _ & E3); [done|cbn; lia|].
  destruct (checksum_finish_spec (add_words zero_checksum data) E1 E3) as (c & Ec & Hc); [rewrite E; cbn; lia|]. exists c. rewrite E in Hc. by cbn in Hc.
Qed.
Definition udp_total (saddr daddr udp : list Z) (udp_len : Z) : Z := word_sum saddr + word_sum daddr + IPPROTO_UDP + udp_len + word_sum udp.
Lemma udp_checksum_spec saddr daddr udp len : bytes_ok saddr -> bytes_ok daddr -> bytes_ok udp -> zlen saddr = 4 -> zlen daddr = 4 -> zlen udp <= 65535 -> is_u16 len ->
  exists c, udp_checksum saddr daddr udp len = Ok c /\ is_u16 c /\
    (c = 0 <-> udp_total saddr daddr udp len mod 65535 = 0) /\ (udp_total saddr daddr udp len + c) mod 65535 = 0.
Proof.
  intros H1 H2 H3 L1 L2 L3 Hl. unfold udp_checksum, udp_total. pose proof (word_sum_bound saddr H1). pose proof (word_sum_bound daddr H2). pose proof (word_sum_bound udp H3).
  unfold is_u16, IPPROTO_UDP in *. set (s0 := zero_checksum). assert (O0 : ck_odd s0 = false) by done. assert (S0 : ck_sum s0 = 0) by done. clearbody s0.
  destruct (checksum_add_even s0 saddr) as [O1 S1]; [done|done|by rewrite L1|lia|lia|]. set (s1 := checksum_add s0 saddr) in *. clearbody s1.
  destruct (checksum_add_even s1 daddr) as [O2 S2]; [done|done|by rewrite L2|lia|lia|]. set (s2 := checksum_add s1 daddr) in *. clearbody s2.
  assert (E17 : word_sum [0; 17] = 17) by done. assert (El : word_sum (enc16 len) = len) by (by apply word_sum_enc16).
  destruct (checksum_add_even s2 [0; 17]) as [O3 S3]; [by apply bytes_okb_ok|done|done|lia|lia|]. set (s3 := checksum_add s2 [0; 17]) in *. clearbody s3.
  destruct (checksum_add_even s3 (enc16 len)) as [O4 S4]; [auto with sfu|done|done|lia|lia|]. set (s4 := checksum_add s3 (enc16 len)) in *. clearbody s4.
  unfold checksum_add. rewrite O4. destruct (add_words_total udp s4 H3 O4) as (E & E1 & _ & E3); [lia|lia|].
  destruct (checksum_finish_spec (add_words s4 udp) E1 E3) as (c & Ec & Hc1 & Hc2 & Hc3); [lia|]. exists c.
  assert (Et : total (add_words s4 udp) = word_sum saddr + word_sum daddr + 17 + len + word_sum udp) by lia. rewrite Et in *.
  split; [done|]. split; [done|]. split; [|done]. rewrite Hc2. split; [tauto|]. split; [lia|done].
Qed.

(** * The round trip *)

Record params_ok (p : sfu_af_xdp_frame_params) : Prop := {
  po_dmac : zlen (fp_destination_mac p) = 6; po_smac : zlen (fp_source_mac p) = 6;
  po_sip : zlen (fp_source_ip p) = 4; po_dip : zlen (fp_destination_ip p) = 4;
  po_sport : zlen (fp_source_port p) = 2; po_dport : zlen (fp_destination_port p) = 2;
  po_macs : bytes_ok (fp_destination_mac p ++ fp_source_mac p);
  po_bytes : bytes_ok (fp_source_ip p ++ fp_destination_ip p ++ fp_source_port p ++ fp_destination_port p ++ fp_payload p)
}.
Definition eth_header (p : sfu_af_xdp_frame_params) : list Z := fp_destination_mac p ++ fp_source_mac p ++ enc16 ETH_P_IP.
Definition good_ip_check (p : sfu_af_xdp_frame_params) (c : Z) : Prop := is_u16 c /\ sfu_af_xdp_checksum (ip_header p c) = Ok 0.
Definition good_udp_check (p : sfu_af_xdp_frame_params) (c : Z) : Prop :=
  is_u16 c /\ c <> 0 /\ udp_checksum (fp_source_ip p) (fp_destination_ip p) (udp_header p c ++ fp_payload p) (8 + zlen (fp_payload p)) = Ok 0.

Section Build.
Context (p : sfu_af_xdp_frame_params) (Hp : params_ok p) (Hn : 0 < zlen (fp_payload p) <= 65507).
Lemma params_bytes : bytes_ok (fp_source_ip p) /\ bytes_ok (fp_destination_ip p) /\ bytes_ok (fp_source_port p) /\ bytes_ok (fp_destination_port p) /\ bytes_ok (fp_payload p).
Proof. destruct Hp as [_ _ _ _ _ _ _ H]. unfold bytes_ok in *. rewrite !Forall_app in H. tauto. Qed.
Lemma zlen_eth : zlen (eth_header p) = 14.
Proof. unfold eth_header. rewrite !zlen_app, zlen_enc16, (po_dmac _ Hp), (po_smac _ Hp). done. Qed.
Lemma zlen_ip c : zlen (ip_header p c) = 20.
Proof. unfold ip_header. rewrite !zlen_app, !zlen_enc16, (po_sip _ Hp), (po_dip _ Hp). done. Qed.
Lemma zlen_udp c : zlen (udp_header p c) = 8.
Proof. unfold udp_header. rewrite !zlen_app, !zlen_enc16, (po_sport _ Hp), (po_dport _ Hp). done. Qed.
Lemma ip_bytes c : bytes_ok (ip_header p c).
Proof. destruct params_bytes as (? & ? & _). unfold ip_header. repeat apply bytes_ok_app; auto with sfu; by apply bytes_okb_ok. Qed.
Lemma udp_bytes c : bytes_ok (udp_header p c).
Proof. destruct params_bytes as (_ & _ & ? & ? & _). unfold udp_header. repeat apply bytes_ok_app; auto with sfu. Qed.
Lemma ip_word_sum c : is_u16 c -> word_sum (ip_header p c) = word_sum (ip_header p 0) + c.
Proof. intros Hc. unfold ip_header. rewrite !word_sum_app by (rewrite ?zlen_enc16, ?(po_sip _ Hp); reflexivity). rewrite !word_sum_enc16 by (done || apply u16_range). lia. Qed.
Lemma udp_word_sum c : is_u16 c -> word_sum (udp_header p c ++ fp_payload p) = word_sum (udp_header p 0 ++ fp_payload p) + c.
Proof.
  intros Hc. rewrite !(word_sum_app (udp_header p _)) by (by rewrite zlen_udp). unfold udp_header.
  rewrite !word_sum_app by (rewrite ?zlen_enc16, ?(po_sport _ Hp), ?(po_dport _ Hp); reflexivity). rewrite !word_sum_enc16 by (done || apply u16_range). lia.
Qed.
Lemma ip_check_good : exists c, sfu_af_xdp_checksum (ip_header p 0) = Ok c /\ good_ip_check p c.
Proof.
  destruct (checksum_spec (ip_header p 0) (ip_bytes 0)) as (c & E & Hc & _ & Hm); [rewrite zlen_ip; lia|]. exists c. split; [done|]. split; [done|].
  destruct (checksum_spec (ip_header p c) (ip_bytes c)) as (d & -> & _ & Hd & _); [rewrite zlen_ip; lia|]. f_equal. apply Hd. rewrite ip_word_sum by done. split; [|done].
  assert (0 < word_sum (ip_header p 0)); [|unfold is_u16 in Hc; lia].
  change (ip_header p 0) with ([0x45; 0] ++ (enc16 (u16 (IPHDR_LEN + UDPHDR_LEN + zlen (fp_payload p))) ++ [0; 0; 0; 0; 64; IPPROTO_UDP] ++ enc16 0 ++ fp_source_ip p ++ fp_destination_ip p)).
  pose proof (ip_bytes 0) as Hb. unfold ip_header, bytes_ok in Hb. apply Forall_app in Hb as [_ Hb]. rewrite word_sum_app by done. pose proof (word_sum_bound _ Hb). cbn [word_sum]. lia.
Qed.
Lemma udp_check_good : exists c, udp_checksum (fp_source_ip p) (fp_destination_ip p) (udp_header p 0 ++ fp_payload p) (8 + zlen (fp_payload p)) = Ok c /\
  good_udp_check p (if c =? 0 then 0xffff else c).
Proof.
  destruct params_bytes as (B1 & B2 & _ & _ & B5). assert (Hb : forall c, bytes_ok (udp_header p c ++ fp_payload p)) by (intros c; apply bytes_ok_app; [apply udp_bytes|done]).
  assert (Hz : forall c, zlen (udp_header p c ++ fp_payload p) <= 65535) by (intros c; rewrite zlen_app, zlen_udp; lia).
  assert (Hl : is_u16 (8 + zlen (fp_payload p))) by (unfold is_u16; lia).
  destruct (udp_checksum_spec _ _ _ _ B1 B2 (Hb 0) (po_sip _ Hp) (po_dip _ Hp) (Hz 0) Hl) as (c & E & Hc & H0 & Hm). exists c. split; [done|].
  set (c' := if c =? 0 then 0xffff else c). assert (Hc' : is_u16 c' /\ c' <> 0 /\ c' mod 65535 = c mod 65535).
  { unfold c'. destruct (Z.eqb_spec c 0) as [->|]; [by split_and!|]. by split_and!. }
  destruct Hc' as (U & Hne & Em). split_and!; [done..|].
  destruct (udp_checksum_spec _ _ _ _ B1 B2 (Hb c') (po_sip _ Hp) (po_dip _ Hp) (Hz c') Hl) as (d & -> & _ & Hd & _). f_equal. apply Hd.
  unfold udp_total in *. rewrite udp_word_sum by done. rewrite Z.add_assoc. rewrite Zplus_mod, Em, <- Zplus_mod. done.
Qed.

(** The headers and their sums. *)
Lemma ip_header_wire c : ip_header p c =
  [0x45; 0] ++ enc16 (28 + zlen (fp_payload p)) ++ [0; 0; 0; 0; 64; 17] ++ enc16 c ++ fp_source_ip p ++ fp_destination_ip p.
Proof. unfold ip_header, IPHDR_LEN, UDPHDR_LEN, u16. by rewrite Z.mod_small by lia. Qed.
Lemma udp_header_wire d : udp_header p d = fp_source_port p ++ fp_destination_port p ++ enc16 (8 + zlen (fp_payload p)) ++ enc16 d.
Proof. unfold udp_header, UDPHDR_LEN, u16. by rewrite Z.mod_small by lia. Qed.
Lemma good_ip_sum c : good_ip_check p c -> is_u16 c /\ word_sum (ip_header p c) mod 65535 = 0.
Proof.
  intros [U E]. split; [done|]. destruct (checksum_spec (ip_header p c) (ip_bytes c)) as (d & E' & _ & Hd & _); [rewrite zlen_ip; lia|].
  rewrite E in E'. injection E' as <-. by apply Hd.
Qed.
Lemma good_udp_sum d : good_udp_check p d -> 0 < d < 65536 /\
  (word_sum (fp_source_ip p) + word_sum (fp_destination_ip p) + 17 + (8 + zlen (fp_payload p)) + word_sum (udp_header p d ++ fp_payload p)) mod 65535 = 0.
Proof.
  intros (U & Hne & E). split; [unfold is_u16 in U; lia|]. destruct params_bytes as (B1 & B2 & _ & _ & B5).
  destruct (udp_checksum_spec (fp_source_ip p) (fp_destination_ip p) (udp_header p d ++ fp_payload p) (8 + zlen (fp_payload p))) as (x & E' & _ & Hx & _);
    [done|done|apply bytes_ok_app; [apply udp_bytes|done]|apply (po_sip _ Hp)|apply (po_dip _ Hp)|rewrite zlen_app, zlen_udp; lia|unfold is_u16; lia|].
  rewrite E in E'. injection E' as <-. by apply Hx.
Qed.

Definition frame_wire (ip_check udp_check : Z) : list Z := eth_header p ++ ip_header p ip_check ++ udp_header p udp_check ++ fp_payload p.
Lemma zlen_frame c d : zlen (frame_wire c d) = 42 + zlen (fp_payload p).
Proof. unfold frame_wire. rewrite !zlen_app, zlen_eth, zlen_ip, zlen_udp. lia. Qed.
Lemma patch_front b w : zlen w <= zlen b -> patch b 0 w = w ++ drop (length w) b.
Proof. intros _. unfold patch. cbn [take Z.to_nat]. by rewrite take_0. Qed.
Lemma build_frame_wire frame cap : 42 + zlen (fp_payload p) <= cap <= zlen frame ->
  exists c d, good_ip_check p c /\ good_udp_check p d /\ sfu_af_xdp_build_frame frame cap p = Ok (patch frame 0 (frame_wire c d), 42 + zlen (fp_payload p)).
Proof.
  intros Hc. destruct ip_check_good as (c & Ec & Gc). destruct udp_check_good as (d & Ed & Gd). exists c, (if d =? 0 then 0xffff else d). split_and!; try done.
  unfold sfu_af_xdp_build_frame. cbv zeta. unfold SFU_AF_XDP_FRAME_HEADER_SIZE, UINT16_MAX, IPHDR_LEN, UDPHDR_LEN, ETH_HLEN.
  rewrite reject_false by lia. fold (eth_header p).
  pose proof zlen_eth as Ze. pose proof (zlen_ip c) as Zi. pose proof (zlen_udp 0) as Zu.
  rewrite wr_n_ok by lia. cbn [res_bind]. rewrite Ec. cbn [res_bind].
  rewrite wr_n_ok by (rewrite ?zlen_patch; lia). cbn [res_bind]. rewrite (patch_join frame 0 (eth_header p)) by lia.
  assert (Z1 : zlen (eth_header p ++ ip_header p c) = 34) by (rewrite zlen_app; lia).
  rewrite wr_n_ok by (rewrite ?zlen_patch; lia). cbn [res_bind]. rewrite (patch_join frame 0 (eth_header p ++ ip_header p c)) by lia.
  assert (Z2 : zlen ((eth_header p ++ ip_header p c) ++ udp_header p 0) = 42) by (rewrite zlen_app; lia).
  rewrite wr_n_ok by (rewrite ?zlen_patch; lia). cbn [res_bind]. rewrite (patch_join frame 0 ((eth_header p ++ ip_header p c) ++ udp_header p 0)) by lia.
  assert (Eu : u16 (8 + zlen (fp_payload p)) = 8 + zlen (fp_payload p)) by (unfold u16; apply Z.mod_small; lia). rewrite Eu.
  rewrite <- !app_assoc. fold (frame_wire c 0). pose proof (zlen_frame c 0) as Zf. rewrite patch_front by lia.
  set (R := drop (length (frame_wire c 0)) frame). assert (Ef : frame_wire c 0 ++ R = (eth_header p ++ ip_header p c) ++ (udp_header p 0 ++ fp_payload p) ++ R)
    by (unfold frame_wire; by rewrite <- !app_assoc).
  rewrite rd_n_ok by (rewrite ?zlen_app; pose proof (zlen_nonneg R); lia). cbn [res_bind]. rewrite Ef.
  rewrite (slice_mid (eth_header p ++ ip_header p c)) by (rewrite ?zlen_app; lia). rewrite Ed. cbn [res_bind]. set (d' := if d =? 0 then 0xffff else d).
  pose proof (zlen_udp d') as Zd. rewrite wr_n_ok by (rewrite ?zlen_app; pose proof (zlen_nonneg R); lia). cbn [res_bind].
  rewrite <- (app_assoc (udp_header p 0)). rewrite (patch_mid (eth_header p ++ ip_header p c)) by lia. f_equal. f_equal.
  rewrite patch_front by (rewrite zlen_frame; lia). unfold frame_wire, R. rewrite <- !app_assoc. do 4 f_equal.
  pose proof (zlen_frame c 0) as L1. pose proof (zlen_frame c d') as L2. unfold zlen in L1, L2. f_equal. unfold frame_wire in *. lia.
Qed.

Lemma frame_wire_bytes c d : bytes_ok (frame_wire c d).
Proof.
  destruct params_bytes as (_ & _ & _ & _ & ?). pose proof (po_macs _ Hp) as Hm. unfold bytes_ok in Hm. rewrite Forall_app in Hm. destruct Hm. unfold frame_wire, eth_header.
  apply bytes_ok_app; [repeat apply bytes_ok_app; auto with sfu|]. apply bytes_ok_app; [apply ip_bytes|]. apply bytes_ok_app; [apply udp_bytes|done].
Qed.
Lemma parse_frame_wire c d R n cap : good_ip_check p c -> good_udp_check p d -> bytes_ok R -> 42 + zlen (fp_payload p) <= n -> n <= cap -> cap <= zlen (frame_wire c d ++ R) ->
  sfu_af_xdp_parse_frame (frame_wire c d ++ R) n cap (be16 (fp_destination_port p) 0)
    = Ok (mk_parse_result 42 (zlen (fp_payload p)) (cap - 42) (fp_source_ip p) (fp_source_port p) 42 false).
Proof.
  intros [Gc Ic] (Gd & Nd & Id) HR Hn1 Hn2 Hn3. set (F := frame_wire c d ++ R) in *. set (len := zlen (fp_payload p)) in *.
  assert (HF : bytes_ok F) by (apply bytes_ok_app; [apply frame_wire_bytes|done]).
  pose proof zlen_eth as Ze. pose proof (zlen_ip c) as Zi. pose proof (zlen_udp d) as Zu.
  assert (F0 : F = (fp_destination_mac p ++ fp_source_mac p) ++ enc16 ETH_P_IP ++ ip_header p c ++ udp_header p d ++ fp_payload p ++ R)
    by (unfold F, frame_wire, eth_header; by rewrite <- !app_assoc).
  set (I0 := enc16 (u16 (IPHDR_LEN + UDPHDR_LEN + len))).
  assert (F1 : F = eth_header p ++ ip_header p c ++ udp_header p d ++ fp_payload p ++ R) by (unfold F, frame_wire; by rewrite <- !app_assoc).
  assert (F2 : F = (eth_header p ++ [0x45; 0]) ++ I0 ++ [0; 0] ++ [0; 0; 64; 17] ++ enc16 c ++ fp_source_ip p ++ fp_destination_ip p ++ udp_header p d ++ fp_payload p ++ R)
    by (rewrite F1; unfold ip_header, I0; by rewrite <- !app_assoc).
  set (H12 := [0x45; 0] ++ I0 ++ [0; 0] ++ [0; 0; 64; 17] ++ enc16 c).
  assert (F3 : F = (eth_header p ++ H12) ++ fp_source_ip p ++ fp_destination_ip p ++ udp_header p d ++ fp_payload p ++ R)
    by (rewrite F2; unfold H12; by rewrite <- !app_assoc).
  assert (Z12 : zlen H12 = 12) by (unfold H12, I0; rewrite !zlen_app, !zlen_enc16; done).
  set (E34 := eth_header p ++ ip_header p c). assert (Z34 : zlen E34 = 34) by (unfold E34; rewrite zlen_app; lia).
  assert (F4 : F = E34 ++ (udp_header p d ++ fp_payload p) ++ R) by (rewrite F1; unfold E34; by rewrite <- !app_assoc).
  set (L8 := enc16 (u16 (UDPHDR_LEN + len))).
  assert (F5 : F = E34 ++ fp_source_port p ++ fp_destination_port p ++ L8 ++ enc16 d ++ fp_payload p ++ R)
    by (rewrite F4; unfold udp_header, L8; by rewrite <- !app_assoc).
  unfold sfu_af_xdp_parse_frame, ETH_HLEN. rewrite reject_false by lia. unfold parse_ethernet. rewrite read_be16_ok by (done || lia). cbn [res_bind].
  assert (P0 : be16 F 12 = ETH_P_IP) by (rewrite F0; apply be16_at; [done|rewrite zlen_app, (po_dmac _ Hp), (po_smac _ Hp); done]). rewrite P0. change ((ETH_P_IP =? ETH_P_8021Q) || (ETH_P_IP =? ETH_P_8021AD)) with false. cbn [res_bind].
  unfold ETH_HLEN. rewrite reject_false by (unfold IPHDR_LEN, ETH_P_IP; lia). unfold parse_ip.
  assert (B0 : byte_at F 14 = 0x45) by (rewrite F1; apply byte_at_mid; lia).
  assert (B9 : byte_at F (14 + 9) = 17).
  { replace F with (((eth_header p ++ [0x45; 0]) ++ I0 ++ [0; 0; 0; 0; 64]) ++ 17 :: enc16 c ++ fp_source_ip p ++ fp_destination_ip p ++ udp_header p d ++ fp_payload p ++ R)
      by (rewrite F2; by rewrite <- !app_assoc). apply byte_at_mid. rewrite !zlen_app, Ze. done. }
  assert (P2 : be16 F (14 + 2) = 28 + len).
  { rewrite F2. unfold I0. rewrite (be16_at (eth_header p ++ [0x45; 0])); [|apply u16_range|rewrite zlen_app, Ze; done]. unfold u16, IPHDR_LEN, UDPHDR_LEN. apply Z.mod_small. lia. }
  assert (P6 : be16 F (14 + 6) = 0).
  { rewrite F2. rewrite app_assoc, (app_assoc _ [0; 0]). apply (be16_at (((eth_header p ++ [0x45; 0]) ++ I0) ++ [0; 0]) 0); [done|]. rewrite !zlen_app, Ze. done. }
  assert (ZF : 42 + len <= zlen F) by lia.
  rewrite (rd_ok F 14), B0 by lia. cbn [res_bind]. rewrite (read_be16_ok F), P2 by (done || lia). cbn [res_bind]. rewrite (rd_ok F (14 + 9)), B9 by lia. cbn [res_bind].
  rewrite (read_be16_ok F), P6 by (done || lia). cbn [res_bind]. change (Z.land 69 15 * 4) with 20. change (Z.shiftr 69 4) with 4.
  unfold IPHDR_LEN, UDPHDR_LEN, IPPROTO_UDP. rewrite reject_false by (change (Z.land 0 SFU_AF_XDP_IPV4_FRAGMENT_MASK) with 0; lia).
  rewrite (rd_n_ok F 14 20) by lia. cbn [res_bind]. assert (S14 : slice F 14 20 = ip_header p c) by (rewrite F1; apply slice_mid; lia). rewrite S14, Ic. cbn [res_bind].
  rewrite reject_false by done. cbn [res_bind].
  rewrite (rd_n_ok F (14 + 12) 4) by lia. cbn [res_bind].
  assert (S26 : slice F (14 + 12) 4 = fp_source_ip p) by (rewrite F3; apply slice_mid; [rewrite zlen_app; lia|by rewrite (po_sip _ Hp)]). rewrite S26.
  rewrite (rd_n_ok F (14 + 16) 4) by lia. cbn [res_bind].
  assert (S30 : slice F (14 + 16) 4 = fp_destination_ip p).
  { rewrite F3, (app_assoc _ (fp_source_ip p)). apply slice_mid; [rewrite !zlen_app, (po_sip _ Hp); lia|by rewrite (po_dip _ Hp)]. } rewrite S30.
  change (14 + 20) with 34. rewrite (rd_n_ok F 34 2) by lia. cbn [res_bind].
  assert (S34 : slice F 34 2 = fp_source_port p) by (rewrite F5; apply slice_mid; [done|by rewrite (po_sport _ Hp)]). rewrite S34.
  rewrite (read_be16_ok F (34 + 2)) by (done || lia). cbn [res_bind].
  assert (P36 : be16 F (34 + 2) = be16 (fp_destination_port p) 0).
  { rewrite F5, app_assoc. replace (34 + 2) with (zlen (E34 ++ fp_source_port p) + 0) by (rewrite zlen_app, (po_sport _ Hp); lia). rewrite be16_app_r by done.
    pose proof (po_dport _ Hp) as Hd. destruct (fp_destination_port p) as [|x [|y l]]; done. } rewrite P36.
  rewrite (read_be16_ok F (34 + 4)) by (done || lia). cbn [res_bind].
  assert (P38 : be16 F (34 + 4) = 8 + len).
  { rewrite F5, app_assoc, app_assoc. unfold L8. rewrite (be16_at ((E34 ++ fp_source_port p) ++ fp_destination_port p)); [|apply u16_range|rewrite !zlen_app, (po_sport _ Hp), (po_dport _ Hp); lia].
    unfold u16, UDPHDR_LEN. apply Z.mod_small. lia. } rewrite P38.
  rewrite (read_be16_ok F (34 + 6)) by (done || lia). cbn [res_bind].
  assert (P40 : be16 F (34 + 6) = d).
  { rewrite F5, app_assoc, app_assoc, app_assoc. apply be16_at; [done|]. unfold L8. rewrite !zlen_app, zlen_enc16, (po_sport _ Hp), (po_dport _ Hp). lia. } rewrite P40.
  rewrite reject_false by (rewrite Z.eqb_refl; lia). destruct (Z.eqb_spec d 0); [done|]. cbn [negb]. rewrite (rd_n_ok F 34 (8 + len)) by lia. cbn [res_bind].
  assert (SU : slice F 34 (8 + len) = udp_header p d ++ fp_payload p) by (rewrite F4; apply slice_mid; [done|rewrite zlen_app; lia]). rewrite SU, Id. cbn [res_bind].
  rewrite reject_false by done. do 2 f_equal. lia.
Qed.
End Build.

(** ** Any frame *)

Lemma checksum_safe data : bytes_ok data -> zlen data <= 65535 -> sfu_af_xdp_checksum data <> Fault.
Proof. intros Hb Hl. destruct (checksum_spec data Hb Hl) as (c & -> & _). done. Qed.
Lemma parse_ip_safe frame offset n : bytes_ok frame -> 0 <= offset -> offset + 20 <= n -> n <= zlen frame ->
  match parse_ip frame offset n with
  | Ok (ihl, tot) => 20 <= ihl <= 60 /\ ihl + 8 <= tot < 65536 /\ offset + tot <= n
  | Err => True
  | Fault => False
  end.
Proof.
  intros Hb Ho Hn Hl. unfold parse_ip. rewrite rd_ok by lia. cbn [res_bind]. rewrite read_be16_ok by (done || lia). cbn [res_bind]. rewrite rd_ok by lia. cbn [res_bind].
  rewrite read_be16_ok by (done || lia). cbn [res_bind]. set (b0 := byte_at frame offset). set (ihl := Z.land b0 15 * 4). set (tot := be16 frame (offset + 2)).
  assert (Hi : 0 <= ihl <= 60).
  { unfold ihl. change 15 with (2 ^ 4 - 1). rewrite land_ones_mod by lia. change (2 ^ 4) with 16. dlia. }
  assert (Ht : is_u16 tot) by (apply be16_u16; done). clearbody ihl tot b0.
  destruct (reject _ _) as [[ihl' tot']| |] eqn:E; [|done|].
  - apply reject_ok in E as [E1 E2]. apply orb_false_iff in E1 as [E1 _]. repeat (apply orb_false_iff in E1 as [E1 ?]). unfold IPHDR_LEN, UDPHDR_LEN, is_u16 in *.
    res_inv. lia.
  - unfold reject at 1 in E. destruct (_ || _) eqn:E1; [done|]. repeat (apply orb_false_iff in E1 as [E1 ?]). rewrite rd_n_ok in E by lia. cbn [res_bind] in E.
    destruct (checksum_spec (slice frame offset ihl)) as (c & Ec & _); [by apply bytes_ok_slice|rewrite zlen_slice; lia|]. rewrite Ec in E. cbn [res_bind] in E. by destruct (negb (c =? 0)).
Qed.

(** ** The frame pool *)

Lemma grow_frames_spec fuel f a : 1 <= f -> a < 2 ^ Z.of_nat fuel * (2 * f) -> 0 <= a < 4294967296 ->
  exists k, 0 <= k /\ grow_frames fuel f a = Ok (f * 2 ^ k) /\ a < 2 * (f * 2 ^ k) /\ (0 < k -> f * 2 ^ k <= a).
Proof.
  revert f. induction fuel as [|fuel IH]; intros f Hf Ha Hr; cbn [grow_frames].
  - change (2 ^ Z.of_nat 0) with 1 in Ha. destruct (Z.leb_spec f (a / 2)); [dlia|]. exists 0. rewrite Z.mul_1_r. split_and!; done || lia.
  - destruct (Z.leb_spec f (a / 2)).
    + assert (E : u32 (Z.shiftl f 1) = 2 * f) by (rewrite Z.shiftl_mul_pow2 by lia; change (2 ^ 1) with 2; unfold u32; rewrite Z.mod_small; dlia). rewrite E.
      destruct (IH (2 * f)) as (k & Hk & -> & H1 & H2); [lia|rewrite Nat2Z.inj_succ, Z.pow_succ_r in Ha by lia; lia|done|].
      exists (k + 1). rewrite Z.pow_add_r by lia. change (2 ^ 1) with 2. replace (f * (2 ^ k * 2)) with (2 * f * 2 ^ k) by lia. split_and!; [lia|done|done|].
      intros _. destruct (Z.eq_dec k 0) as [->|]; [dlia|]. apply H2. lia.
    + exists 0. rewrite Z.mul_1_r. split_and!; done || dlia.
Qed.
(** A queue gets the largest power of two that is its share, or nothing. *)
Lemma frames_per_queue_exact total queues : is_u32 total -> is_u32 queues ->
  exists r, sfu_af_xdp_frames_per_queue total queues = Ok r /\
    (r = 0 /\ (queues = 0 \/ total / queues < 8) \/ exists k, 3 <= k /\ r = 2 ^ k /\ r <= total / queues < 2 * r).
Proof.
  intros Ht Hq. unfold sfu_af_xdp_frames_per_queue. destruct (Z.eqb_spec queues 0) as [->|Hz]; [exists 0; split; [done|]; left; by split; [|left]|].
  assert (Ha : 0 <= total / queues < 4294967296) by (unfold is_u32 in *; split; [apply Z.div_pos; lia|apply Z.div_lt_upper_bound; nia]).
  destruct (grow_frames_spec 32 1 (total / queues)) as (k & Hk & -> & H1 & H2); [lia|cbn; lia|lia|]. rewrite Z.mul_1_l in *. cbn [res_bind].
  eexists. split; [done|]. destruct (Z.leb_spec 8 (2 ^ k)) as [H8|H8].
  - right. exists k. assert (3 <= k) by (apply (Z.pow_le_mono_r_iff 2); [lia..|]; done). split_and!; [done|done|apply H2; lia|done].
  - left. split; [done|]. right. assert (k < 3) by (apply (Z.pow_lt_mono_r_iff 2); [lia..|]; done). assert (k = 0 \/ k = 1 \/ k = 2) as [->|[->| ->]] by lia; cbn in H1; lia.
Qed.
Lemma rx_return_roundtrip slot frame : is_u32 slot -> is_u32 frame ->
  match sfu_af_xdp_encode_rx_return slot frame with
  | Some token => sfu_af_xdp_decode_rx_return token = Some (slot, frame)
  | None => slot = UINT32_MAX \/ frame = UINT32_MAX
  end.
Proof.
  intros Hs Hf. unfold sfu_af_xdp_encode_rx_return, is_u32, UINT32_MAX in *. destruct (Z.eqb_spec slot 4294967295); [by left|]. destruct (Z.eqb_spec frame 4294967295); [by right|]. cbn [orb].
  assert (E1 : u32 (slot + 1) = slot + 1) by (unfold u32; apply Z.mod_small; lia). assert (E2 : u32 (frame + 1) = frame + 1) by (unfold u32; apply Z.mod_small; lia). rewrite E1, E2.
  assert (E3 : u64 (Z.shiftl (slot + 1) 32) = Z.shiftl (slot + 1) 32) by (rewrite Z.shiftl_mul_pow2 by lia; change (2 ^ 32) with 4294967296; unfold u64; apply Z.mod_small; lia).
  rewrite E3, lor_shiftl_add by (change (2 ^ 32) with 4294967296; lia). change (2 ^ 32) with 4294967296. unfold sfu_af_xdp_decode_rx_return.
  assert (E4 : u32 (Z.shiftr ((slot + 1) * 4294967296 + (frame + 1)) 32) = slot + 1) by (rewrite Z.shiftr_div_pow2 by lia; change (2 ^ 32) with 4294967296; dlia).
  assert (E5 : u32 ((slot + 1) * 4294967296 + (frame + 1)) = frame + 1) by dlia. rewrite E4, E5.
  destruct (Z.eqb_spec (slot + 1) 0); [lia|]. destruct (Z.eqb_spec (frame + 1) 0); [lia|]. cbn [orb]. do 2 f_equal; lia.
Qed.
(** Whatever arrives, the parser reads inside the frame, and the payload it
    reports is not empty and lies inside it. *)
Lemma parse_frame_safe frame n cap port : bytes_ok frame -> cap <= zlen frame ->
  match sfu_af_xdp_parse_frame frame n cap port with
  | Ok r => pr_payload r = pr_header_len r /\ 42 <= pr_header_len r <= 86 /\ 0 < pr_payload_len r /\ pr_header_len r + pr_payload_len r <= n <= cap /\
      pr_payload_cap r = cap - pr_header_len r
  | Err => True
  | Fault => False
  end.
Proof.
  intros Hb Hc. unfold sfu_af_xdp_parse_frame, ETH_HLEN, reject at 1. destruct (Z.ltb_spec cap n); [done|]. destruct (Z.ltb_spec n 14); [done|]. cbn [orb].
  assert (He : match parse_ethernet frame n with Ok (pr, off, v) => 14 <= off <= 18 | Err => True | Fault => False end).
  { unfold parse_ethernet. rewrite read_be16_ok by (done || lia). cbn [res_bind]. destruct (_ || _); [|done]. unfold reject. destruct (Z.ltb_spec n (ETH_HLEN + VLAN_LEN)); [done|].
    unfold ETH_HLEN, VLAN_LEN in *. rewrite read_be16_ok by (done || lia). done. }
  destruct (parse_ethernet frame n) as [[[proto off] vlan]| |]; [|done|done]. cbn [res_bind]. unfold reject at 1. destruct (negb _ || _) eqn:E0; [done|].
  apply orb_false_iff in E0 as [_ E0]. unfold IPHDR_LEN in E0. pose proof (parse_ip_safe frame off n Hb ltac:(lia) ltac:(lia) ltac:(lia)) as Hi.
  destruct (parse_ip frame off n) as [[ihl tot]| |]; [|done|done]. cbn [res_bind]. rewrite (rd_n_ok frame (off + 12)), (rd_n_ok frame (off + 16)), (rd_n_ok frame (off + ihl)) by lia. cbn [res_bind].
  rewrite !read_be16_ok by (done || lia). cbn [res_bind]. set (ul := be16 frame (off + ihl + 4)). assert (Hu : is_u16 ul) by (apply be16_u16; done). clearbody ul. unfold reject at 1.
  destruct (_ || _) eqn:E1; [done|]. repeat (apply orb_false_iff in E1 as [E1 ?]). unfold UDPHDR_LEN, is_u16 in *.
  assert (Hs : exists c, (if negb (be16 frame (off + ihl + 6) =? 0) then let! bytes := rd_n frame (off + ihl) ul in udp_checksum (slice frame (off + 12) 4) (slice frame (off + 16) 4) bytes ul else Ok 0) = Ok c).
  { destruct (negb (be16 frame (off + ihl + 6) =? 0)); [|exists 0; reflexivity]. rewrite rd_n_ok by lia. cbn [res_bind].
    destruct (udp_checksum_spec (slice frame (off + 12) 4) (slice frame (off + 16) 4) (slice frame (off + ihl) ul) ul) as (c & Ec & _);
      [by apply bytes_ok_slice..|rewrite zlen_slice; lia|rewrite zlen_slice; lia|rewrite zlen_slice; lia|unfold is_u16; lia|by exists c]. }
  destruct Hs as [c ->]. cbn [res_bind]. unfold reject. destruct (negb (c =? 0)); [done|]. cbn. split_and!; done || lia.
Qed.

(** * Properties *)

(** C20: What the builder puts into a frame the parser takes out.  A frame is
    refused exactly when the payload is empty, longer than a datagram can be
    or does not fit.  Otherwise the builder writes the destination and the
    source MAC, an IPv4 header, a UDP header and the payload to the front of
    the buffer and leaves the rest alone.  Both checksums are right: the
    one's complement sums of the IPv4 header, and of the pseudo header and the
    UDP datagram, are all ones; and the UDP checksum is never zero, which
    would mean none.  The parser finds the payload, the source address and
    port, also when the frame arrives with padding behind it. *)
Theorem frame_roundtrip frame cap p : params_ok p -> bytes_ok frame -> cap <= zlen frame ->
  let len := zlen (fp_payload p) in
  if (len =? 0) || (65507 <? len) || (cap <? 42 + len) then sfu_af_xdp_build_frame frame cap p = Err else
  exists frame' ip_check udp_check,
    let ip := [0x45; 0] ++ enc16 (28 + len) ++ [0; 0; 0; 0; 64; 17] ++ enc16 ip_check ++ fp_source_ip p ++ fp_destination_ip p in
    let udp := (fp_source_port p ++ fp_destination_port p ++ enc16 (8 + len) ++ enc16 udp_check) ++ fp_payload p in
    sfu_af_xdp_build_frame frame cap p = Ok (frame', 42 + len) /\ zlen frame' = zlen frame /\
    frame' = (fp_destination_mac p ++ fp_source_mac p ++ [0x08; 0x00]) ++ ip ++ udp ++ drop (Z.to_nat (42 + len)) frame /\
    is_u16 ip_check /\ word_sum ip mod 65535 = 0 /\
    0 < udp_check < 65536 /\ (word_sum (fp_source_ip p) + word_sum (fp_destination_ip p) + 17 + (8 + len) + word_sum udp) mod 65535 = 0 /\
    forall n cap', 42 + len <= n -> n <= cap' -> cap' <= zlen frame ->
      sfu_af_xdp_parse_frame frame' n cap' (be16 (fp_destination_port p) 0)
        = Ok (mk_parse_result 42 len (cap' - 42) (fp_source_ip p) (fp_source_port p) 42 false).
Proof.
  intros Hp Hb Hc. cbv zeta. set (len := zlen (fp_payload p)). pose proof (zlen_nonneg (fp_payload p)) as Hl. destruct (_ || _) eqn:E.
  { unfold sfu_af_xdp_build_frame. apply reject_true. unfold UINT16_MAX, IPHDR_LEN, UDPHDR_LEN, SFU_AF_XDP_FRAME_HEADER_SIZE, ETH_HLEN, IPHDR_LEN, UDPHDR_LEN. fold len.
    fold len in Hl. clearbody len. clear -E Hl. lia. }
  assert (Hn : 0 < zlen (fp_payload p) <= 65507) by (fold len in Hl |- *; lia).
  destruct (build_frame_wire p Hp Hn frame cap) as (c & d & Gc & Gd & Eb); [fold len; lia|]. exists (patch frame 0 (frame_wire p c d)), c, d. pose proof (zlen_frame p Hp c d) as Zf.
  fold len in Zf, Eb. assert (Hfit : zlen (frame_wire p c d) <= zlen frame) by lia. split; [done|]. split; [rewrite zlen_patch; lia|]. rewrite patch_front by done.
  assert (Hd : length (frame_wire p c d) = Z.to_nat (42 + len)) by (unfold zlen in Zf; lia). rewrite <- Hd. set (R := drop (length (frame_wire p c d)) frame).
  pose proof (ip_header_wire p Hn c) as Ei. pose proof (udp_header_wire p Hn d) as Eu. fold len in Ei, Eu. rewrite <- Ei, <- Eu. destruct (good_ip_sum p Hp Hn c Gc) as [U1 S1]. destruct (good_udp_sum p Hp Hn d Gd) as [U2 S2]. fold len in S2.
  split; [unfold frame_wire, eth_header; by rewrite <- !app_assoc|]. split_and!; try done; try lia. intros n cap' H1 H2 H3. apply (parse_frame_wire p Hp Hn); try done.
  + by apply Forall_drop.
  + unfold R. rewrite zlen_app. unfold zlen in *. rewrite length_drop. lia.
Qed.

Definition ex_params : sfu_af_xdp_frame_params :=
  mk_frame_params [2; 0; 0; 0; 0; 1] [2; 0; 0; 0; 0; 2] [10; 0; 0; 1] [10; 0; 0; 2] [200; 1] [19; 136] [1; 2; 3].
Lemma frame_roundtrip_witness :
  exists frame', sfu_af_xdp_build_frame (zeros 64) 64 ex_params = Ok (frame', 45) /\
    sfu_af_xdp_parse_frame frame' 60 64 5000 = Ok (mk_parse_result 42 3 22 [10; 0; 0; 1] [200; 1] 42 false).
Proof.
  destruct (frame_roundtrip (zeros 64) 64 ex_params) as (frame' & c & d & E & _ & _ & _ & _ & _ & _ & H).
  - constructor; try done; by apply bytes_okb_ok.
  - by apply bytes_okb_ok.
  - done.
  - exists frame'. split; [exact E|]. apply (H 60 64); by vm_compute.
Defined.
