(* ===== verification/Stun.v ===== *)
(** ICE connectivity checks, [src/transport/stun/stun.c]: the parser of STUN
    binding requests, their authentication and the response.  HMAC-SHA1 is
    the function [hmac] of key and message; the random bytes are an argument.
    Strings are the lists of their bytes without the final zero. *)

From S2P Require Import Prelude NetBytes.
Local Open Scope Z_scope.

Definition STUN_MAGIC_COOKIE : Z := 0x2112A442.
Definition STUN_HEADER_LEN : Z := 20.
Definition STUN_TYPE_BINDING_REQ : Z := 0x0001.
Definition STUN_TYPE_BINDING_RESP : Z := 0x0101.
Definition ATTR_USERNAME : Z := 0x0006.
Definition ATTR_MESSAGE_INTEGRITY : Z := 0x0008.
Definition ATTR_XOR_MAPPED_ADDRESS : Z := 0x0020.
Definition ATTR_USE_CANDIDATE : Z := 0x0025.
Definition ATTR_FINGERPRINT : Z := 0x8028.
Definition COLON : Z := 58.

(** ** Credentials *)

Definition kIceAlphabet : list Z := map Z.of_nat (seq 65 26 ++ seq 97 26 ++ seq 48 10).
(** [raw] are the random bytes. *)
Definition random_ice_string (raw : list Z) (len : Z) : list Z :=
  map (fun b => nth (Z.to_nat (b mod 62)) kIceAlphabet 0) (take (Z.to_nat len) raw).
Record sfu_ice_credentials := mk_credentials { ic_ufrag : list Z; ic_pwd : list Z }.
Definition sfu_ice_credentials_generate (raw_ufrag raw_pwd : list Z) : sfu_ice_credentials :=
  mk_credentials (random_ice_string raw_ufrag 8) (random_ice_string raw_pwd 24).

(** ** Messages *)

Definition read_be16 (b : list Z) (p : Z) : res Z :=
  let! b0 := rd b p in
  let! b1 := rd b (p + 1) in
  Ok (Z.lor (Z.shiftl b0 8) b1).
Definition write_be16 (b : list Z) (p v : Z) : res (list Z) :=
  let! b := wr b p (u8 (Z.shiftr v 8)) in
  wr b (p + 1) (Z.land v 0xFF).
Definition write_be32 (b : list Z) (p v : Z) : res (list Z) :=
  let! b := wr b p (u8 (Z.shiftr v 24)) in
  let! b := wr b (p + 1) (u8 (Z.shiftr v 16)) in
  let! b := wr b (p + 2) (u8 (Z.shiftr v 8)) in
  wr b (p + 3) (u8 v).
Definition sfu_stun_is_stun_packet (data : list Z) (len : Z) : res bool :=
  if len <? STUN_HEADER_LEN then Ok false else
  let! b0 := rd data 0 in
  if negb (Z.land b0 0xC0 =? 0) then Ok false else
  let! b4 := rd data 4 in
  let! b5 := rd data 5 in
  let! b6 := rd data 6 in
  let! b7 := rd data 7 in
  let cookie := Z.lor (Z.lor (Z.lor (Z.shiftl b4 24) (Z.shiftl b5 16)) (Z.shiftl b6 8)) b7 in
  Ok (cookie =? STUN_MAGIC_COOKIE).
Definition crc_bit (crc : Z) : Z := if Z.odd crc then Z.lxor (Z.shiftr crc 1) 0xEDB88320 else Z.shiftr crc 1.
Definition crc_byte (crc b : Z) : Z := Nat.iter 8 crc_bit (Z.lxor crc b).
Definition crc32_ieee (data : list Z) : Z := u32 (Z.lnot (fold_left crc_byte data 0xFFFFFFFF)).

(** An attribute takes its header and its value up to a multiple of four. *)
Definition padded (attr_len : Z) : Z := Z.land (attr_len + 3) (Z.lnot 3).
Fixpoint find_mi (fuel : nat) (data : list Z) (len off : Z) : res Z :=
  if off + 4 <=? len then
    match fuel with
    | O => Fault
    | S fuel =>
        let! attr_type := read_be16 data off in
        let! attr_len := read_be16 data (off + 2) in
        if attr_type =? ATTR_MESSAGE_INTEGRITY then Ok off
        else find_mi fuel data len (off + (4 + padded attr_len))
    end
  else Ok 0.
(** An attribute is at least four bytes long. *)
Definition attr_fuel (len : Z) : nat := Z.to_nat (len / 4).
Definition find_message_integrity (data : list Z) (len : Z) : res Z := find_mi (attr_fuel len) data len STUN_HEADER_LEN.
Fixpoint find_name (fuel : nat) (data : list Z) (len off : Z) : res (option (Z * Z)) :=
  if off + 4 <=? len then
    match fuel with
    | O => Fault
    | S fuel =>
        let! attr_type := read_be16 data off in
        let! attr_len := read_be16 data (off + 2) in
        if (attr_type =? ATTR_USERNAME) && (off + 4 + attr_len <=? len) then Ok (Some (off + 4, attr_len))
        else find_name fuel data len (off + (4 + padded attr_len))
    end
  else Ok None.
(** The offset and the length of the user name. *)
Definition find_username (data : list Z) (len : Z) : res (option (Z * Z)) := find_name (attr_fuel len) data len STUN_HEADER_LEN.
(** Whether the user name is for the fragment: it, a colon, and the rest. *)
Definition username_matches (data : list Z) (username username_len : Z) (ufrag : list Z) : res bool :=
  if username_len <=? zlen ufrag then Ok false else
  let! c := rd data (username + zlen ufrag) in
  if negb (c =? COLON) then Ok false else
  let! prefix := rd_n data username (zlen ufrag) in
  Ok (bool_decide (prefix = ufrag)).

Section Stun.
Context (hmac : list Z -> list Z -> list Z).

Definition verify_message_integrity (data : list Z) (len mi_offset : Z) (pwd : list Z) : res bool :=
  if (mi_offset =? 0) || (len <? mi_offset + 24) then Ok false else
  if 1500 <? mi_offset then Ok false else
  let! scratch := rd_n data 0 mi_offset in
  let patched_len := u16 (mi_offset - STUN_HEADER_LEN + 24) in
  let! scratch := write_be16 scratch 2 patched_len in
  let computed := hmac pwd scratch in
  if negb (zlen computed =? 20) then Ok false else
  let! sent := rd_n data (mi_offset + 4) 20 in
  Ok (bool_decide (computed = sent)).
Definition append_integrity_and_fingerprint (buf : list Z) (body_len : Z) (pwd : list Z) : res (list Z * Z) :=
  let! buf := write_be16 buf 2 (u16 (body_len - STUN_HEADER_LEN + 24)) in
  let! body := rd_n buf 0 body_len in
  let mac := hmac pwd body in
  let! buf := write_be16 buf body_len ATTR_MESSAGE_INTEGRITY in
  let! buf := write_be16 buf (body_len + 2) 20 in
  let! buf := wr_n buf (body_len + 4) (take 20 mac) in
  let body_len := body_len + (4 + 20) in
  let! buf := write_be16 buf 2 (u16 (body_len - STUN_HEADER_LEN + 8)) in
  let! body := rd_n buf 0 body_len in
  let crc := Z.lxor (crc32_ieee body) 0x5354554E in
  let! buf := write_be16 buf body_len ATTR_FINGERPRINT in
  let! buf := write_be16 buf (body_len + 2) 4 in
  let! buf := write_be32 buf (body_len + 4) crc in
  Ok (buf, body_len + (4 + 4)).
(** The address the request came from: [inet] if it is IPv4, then its port and
    address as numbers.  A zero result is [Err]. *)
Record source_addr := mk_source { sa_inet : bool; sa_port : Z; sa_addr : Z }.
Definition write_response (data : list Z) (src : source_addr) (pwd out : list Z) : res (list Z * Z) :=
  let! out := write_be16 out 0 STUN_TYPE_BINDING_RESP in
  let! out := write_be16 out 2 0 in
  let! out := write_be32 out 4 STUN_MAGIC_COOKIE in
  let! txid := rd_n data 8 12 in
  let! out := wr_n out 8 txid in
  let off := STUN_HEADER_LEN in
  let! out := write_be16 out off ATTR_XOR_MAPPED_ADDRESS in
  let! out := write_be16 out (off + 2) 8 in
  let! out := wr out (off + 4) 0x00 in
  let! out := wr out (off + 5) 0x01 in
  let xport := Z.lxor (sa_port src) (Z.shiftr STUN_MAGIC_COOKIE 16) in
  let! out := write_be16 out (off + 6) xport in
  let xaddr := Z.lxor (sa_addr src) STUN_MAGIC_COOKIE in
  let! out := write_be32 out (off + 8) xaddr in
  append_integrity_and_fingerprint out (off + (4 + 8)) pwd.
Definition sfu_stun_handle_binding_request (data : list Z) (len : Z) (local : sfu_ice_credentials) (src : source_addr) (out : list Z) (out_cap : Z)
  : res (list Z * Z) :=
  let! is_stun := sfu_stun_is_stun_packet data len in
  reject (negb is_stun) (
  let! msg_type := read_be16 data 0 in
  reject (negb (msg_type =? STUN_TYPE_BINDING_REQ)) (
  let! u := find_username data len in
  match u with
  | None => Err
  | Some (username, username_len) =>
      let! ok := username_matches data username username_len (ic_ufrag local) in
      reject (negb ok) (
      let! mi_offset := find_message_integrity data len in
      let! ok := verify_message_integrity data len mi_offset (ic_pwd local) in
      reject (negb ok) (
      reject (negb (sa_inet src) || (out_cap <? STUN_HEADER_LEN + 12 + 24 + 8)) (
      write_response data src (ic_pwd local) out)))
  end)).
End Stun.

Fixpoint candidate_scan (fuel : nat) (data : list Z) (mi_offset off : Z) : res bool :=
  if off + 4 <=? mi_offset then
    match fuel with
    | O => Fault
    | S fuel =>
        let! attr_type := read_be16 data off in
        let! attr_len := read_be16 data (off + 2) in
        if mi_offset <? off + 4 + padded attr_len then Ok false
        else if attr_type =? ATTR_USE_CANDIDATE then Ok (attr_len =? 0)
        else candidate_scan fuel data mi_offset (off + (4 + padded attr_len))
    end
  else Ok false.
Definition sfu_stun_has_use_candidate (data : list Z) (len : Z) : res bool :=
  let! is_stun := sfu_stun_is_stun_packet data len in
  if negb is_stun then Ok false else
  let! msg_type := read_be16 data 0 in
  if negb (msg_type =? STUN_TYPE_BINDING_REQ) then Ok false else
  let! mi_offset := find_message_integrity data len in
  if mi_offset =? 0 then Ok false else candidate_scan (attr_fuel mi_offset) data mi_offset STUN_HEADER_LEN.
(** The fragment of the client, if it fits into [max_len] with its final zero. *)
Definition sfu_stun_extract_client_ufrag (data : list Z) (len : Z) (local_ufrag : list Z) (max_len : Z) : res (list Z) :=
  let! is_stun := sfu_stun_is_stun_packet data len in
  reject (negb is_stun) (
  let! msg_type := read_be16 data 0 in
  reject (negb (msg_type =? STUN_TYPE_BINDING_REQ)) (
  let! u := find_username data len in
  match u with
  | None => Err
  | Some (username, username_len) =>
      let! ok := username_matches data username username_len local_ufrag in
      reject (negb ok) (
      let client_ufrag_len := username_len - zlen local_ufrag - 1 in
      reject ((max_len <=? client_ufrag_len) || (client_ufrag_len =? 0)) (
      rd_n data (username + zlen local_ufrag + 1) client_ufrag_len))
  end)).

(** The check value of the CRC: that of the digits one to nine. *)
Example crc32_check_value : crc32_ieee [49; 50; 51; 52; 53; 54; 55; 56; 57] = 0xCBF43926.
Proof. vm_compute. reflexivity. Qed.

(** * Accesses *)

Lemma stun_read_ok b p : bytes_ok b -> 0 <= p -> p + 2 <= zlen b -> read_be16 b p = Ok (be16 b p).
Proof.
  intros Hb Hp Hl. unfold read_be16. rewrite !rd_ok by lia. cbn [res_bind]. f_equal. unfold be16.
  rewrite (lor_shiftl_add _ _ 8); [done|lia|]. pose proof (byte_at_u8 b (p + 1) Hb). unfold is_u8 in *. change (2 ^ 8) with 256. lia.
Qed.
Lemma stun_write16_ok b p v : 0 <= p -> p + 2 <= zlen b -> write_be16 b p v = Ok (patch b p (enc16 v)).
Proof.
  intros Hp Hl. rewrite <- write_be16_ok by done. unfold write_be16, sfu_write_be16. change 0xFF with (2 ^ 8 - 1). by rewrite land_ones_mod.
Qed.
Lemma stun_write32_ok b p v : 0 <= p -> p + 4 <= zlen b -> write_be32 b p v = Ok (patch b p (enc32 v)).
Proof. intros Hp Hl. by rewrite <- write_be32_ok. Qed.
Lemma padded_bounds n : 0 <= n -> n <= padded n <= n + 3 /\ padded n mod 4 = 0.
Proof. intros Hn. unfold padded. rewrite land_lnot3. dlia. Qed.
Lemma is_stun_spec data len : bytes_ok data -> len <= zlen data ->
  exists b, sfu_stun_is_stun_packet data len = Ok b /\ (b = true -> 20 <= len /\ be32 data 4 = STUN_MAGIC_COOKIE).
Proof.
  intros Hb Hl. unfold sfu_stun_is_stun_packet, STUN_HEADER_LEN. destruct (Z.ltb_spec len 20); [by exists false|]. rewrite rd_ok by lia. cbn [res_bind].
  destruct (Z.eqb_spec (Z.land (byte_at data 0) 0xC0) 0) as [E|E]; cbn [negb]; [|by exists false]. rewrite !rd_ok by lia. cbn [res_bind]. eexists. split; [done|]. intros E4.
  apply Z.eqb_eq in E4. split; [lia|]. rewrite <- E4. assert (Hr : sfu_read_be32 data 4 = Ok (be32 data 4)) by (apply read_be32_ok; [done|lia|lia]).
  unfold sfu_read_be32 in Hr. rewrite !rd_ok in Hr by lia. cbn [res_bind] in Hr. by injection Hr.
Qed.
Lemma find_mi_spec fuel data len off : bytes_ok data -> len <= zlen data -> 20 <= off -> len - off < 4 * (Z.of_nat fuel + 1) ->
  exists r, find_mi fuel data len off = Ok r /\ (r = 0 \/ off <= r /\ r + 4 <= len /\ be16 data r = ATTR_MESSAGE_INTEGRITY).
Proof.
  intros Hb Hl. revert off. induction fuel as [|fuel IH]; intros off Ho Hf; cbn [find_mi]; destruct (Z.leb_spec (off + 4) len); try (exists 0; split; [done|by left]); [lia|].
  rewrite !stun_read_ok by (done || lia). cbn [res_bind]. destruct (Z.eqb_spec (be16 data off) ATTR_MESSAGE_INTEGRITY) as [E|E]; [exists off; split; [done|]; right; split_and!; done || lia|].
  pose proof (be16_u16 data (off + 2) Hb) as Hu. unfold is_u16 in Hu. destruct (padded_bounds (be16 data (off + 2))) as [Hp _]; [lia|].
  destruct (IH (off + (4 + padded (be16 data (off + 2))))) as (r & -> & Hr); [lia|lia|]. exists r. split; [done|]. destruct Hr as [->|Hr]; [by left|right]. lia.
Qed.
Lemma find_name_spec fuel data len off : bytes_ok data -> len <= zlen data -> 20 <= off -> len - off < 4 * (Z.of_nat fuel + 1) ->
  exists r, find_name fuel data len off = Ok r /\ match r with None => True | Some (o, n) => off + 4 <= o /\ 0 <= n /\ o + n <= len /\ be16 data (o - 4) = ATTR_USERNAME end.
Proof.
  intros Hb Hl. revert off. induction fuel as [|fuel IH]; intros off Ho Hf; cbn [find_name]; destruct (Z.leb_spec (off + 4) len); try (exists None; by split); [lia|].
  rewrite !stun_read_ok by (done || lia). cbn [res_bind]. pose proof (be16_u16 data (off + 2) Hb) as Hu. unfold is_u16 in Hu.
  destruct (_ && _) eqn:E.
  - rewrite andb_true_iff, Z.eqb_eq, Z.leb_le in E. eexists. split; [done|]. cbn. replace (off + 4 - 4) with off by lia. lia.
  - destruct (padded_bounds (be16 data (off + 2))) as [Hp _]; [lia|].
    destruct (IH (off + (4 + padded (be16 data (off + 2))))) as (r & -> & Hr); [lia|lia|]. exists r. split; [done|]. destruct r as [[o n]|]; [lia|done].
Qed.
Lemma attr_fuel_enough len : 0 <= len -> len - 20 < 4 * (Z.of_nat (attr_fuel len) + 1).
Proof. intros H. unfold attr_fuel. dlia. Qed.
Lemma matches_spec data u n ufrag : bytes_ok data -> 0 <= u -> u + n <= zlen data ->
  exists b, username_matches data u n ufrag = Ok b /\ (b = true -> zlen ufrag < n /\ slice data u (zlen ufrag + 1) = ufrag ++ [COLON]).
Proof.
  intros Hb Hu Hn. unfold username_matches. pose proof (zlen_nonneg ufrag). destruct (Z.leb_spec n (zlen ufrag)); [by exists false|]. rewrite rd_ok by lia. cbn [res_bind].
  destruct (Z.eqb_spec (byte_at data (u + zlen ufrag)) COLON) as [Ec|]; cbn [negb]; [|by exists false]. rewrite rd_n_ok by lia. cbn [res_bind]. eexists. split; [done|].
  intros E. apply bool_decide_eq_true in E. split; [lia|]. rewrite slice_split by lia. rewrite E. f_equal. rewrite slice_cons by lia. by rewrite Ec, slice_0.
Qed.

(** * The response *)

Lemma patch_inside b w i t : 0 <= i -> i + zlen t <= zlen w -> zlen w <= zlen b -> patch (patch b 0 w) i t = patch b 0 (patch w i t).
Proof.
  intros Hi Ht Hw. pose proof (zlen_nonneg t). assert (Hz : zlen (patch w i t) = zlen w) by (apply zlen_patch; lia).
  apply byte_at_ext; [rewrite !zlen_patch; rewrite ?zlen_patch; lia|]. intros j Hj. rewrite !zlen_patch in Hj by (rewrite ?zlen_patch; lia).
  rewrite (byte_at_patch (patch b 0 w)) by (rewrite ?zlen_patch; lia). rewrite (byte_at_patch b 0 w), (byte_at_patch b 0 (patch w i t)) by lia. rewrite Hz, !Z.sub_0_r.
  destruct (Z.ltb_spec j (0 + zlen w)), (Z.leb_spec 0 j); cbn [andb]; try lia.
  - rewrite (byte_at_patch w) by lia. done.
  - destruct (Z.leb_spec i j), (Z.ltb_spec j (i + zlen t)); cbn [andb]; done || lia.
Qed.
Lemma slice_front b w : zlen w <= zlen b -> rd_n (patch b 0 w) 0 (zlen w) = Ok w.
Proof.
  intros Hw. pose proof (zlen_nonneg w). rewrite rd_n_ok by (rewrite ?zlen_patch; lia). f_equal. unfold patch. cbn [take Z.to_nat]. rewrite take_0. cbn [app]. apply slice_app_l.
Qed.

Lemma lxor_below n a b : 0 <= n -> 0 <= a < 2 ^ n -> 0 <= b < 2 ^ n -> 0 <= Z.lxor a b < 2 ^ n.
Proof.
  intros Hn Ha Hb. assert (H0 : 0 <= Z.lxor a b) by (apply Z.lxor_nonneg; lia). split; [done|].
  destruct (Z.eq_dec (Z.lxor a b) 0) as [->|Hz]; [lia|]. apply Z.log2_lt_pow2; [lia|]. pose proof (Z.log2_lxor a b ltac:(lia) ltac:(lia)).
  assert (Hlog : forall x, 0 <= x < 2 ^ n -> Z.log2 x < n \/ x = 0).
  { intros x Hx. destruct (Z.eq_dec x 0); [by right|left]. apply Z.log2_lt_pow2; lia. }
  destruct (Hlog a Ha) as [La| ->], (Hlog b Hb) as [Lb| ->]; rewrite ?Z.lxor_0_l, ?Z.lxor_0_r in *; try lia; by destruct Hz.
Qed.
Lemma lxor_u16 a b : is_u16 a -> is_u16 b -> is_u16 (Z.lxor a b).
Proof. apply (lxor_below 16); lia. Qed.
Lemma lxor_u32 a b : is_u32 a -> is_u32 b -> is_u32 (Z.lxor a b).
Proof. apply (lxor_below 32); lia. Qed.
Lemma lxor_twice a b : Z.lxor (Z.lxor a b) b = a.
Proof. by rewrite Z.lxor_assoc, Z.lxor_nilpotent, Z.lxor_0_r. Qed.

Section Response.
Context (hmac : list Z -> list Z -> list Z) (Hmac : forall k m, zlen (hmac k m) = 20 /\ bytes_ok (hmac k m)).

Definition resp_header (len : Z) (txid : list Z) : list Z := enc16 STUN_TYPE_BINDING_RESP ++ enc16 len ++ enc32 STUN_MAGIC_COOKIE ++ txid.
Definition resp_address (src : source_addr) : list Z :=
  enc16 ATTR_XOR_MAPPED_ADDRESS ++ enc16 8 ++ [0x00; 0x01] ++ enc16 (Z.lxor (sa_port src) 0x2112) ++ enc32 (Z.lxor (sa_addr src) STUN_MAGIC_COOKIE).
Definition resp_mac (txid : list Z) (src : source_addr) (pwd : list Z) : list Z := hmac pwd (resp_header 36 txid ++ resp_address src).
Definition resp_signed (txid : list Z) (src : source_addr) (pwd : list Z) : list Z :=
  resp_header 44 txid ++ resp_address src ++ enc16 ATTR_MESSAGE_INTEGRITY ++ enc16 20 ++ resp_mac txid src pwd.
Definition response (txid : list Z) (src : source_addr) (pwd : list Z) : list Z :=
  resp_signed txid src pwd ++ enc16 ATTR_FINGERPRINT ++ enc16 4 ++ enc32 (Z.lxor (crc32_ieee (resp_signed txid src pwd)) 0x5354554E).

Lemma zlen_resp_header n txid : zlen txid = 12 -> zlen (resp_header n txid) = 20.
Proof. intros H. unfold resp_header. rewrite !zlen_app, !zlen_enc16, zlen_enc32, H. done. Qed.
Lemma zlen_resp_address src : zlen (resp_address src) = 12.
Proof. unfold resp_address. rewrite !zlen_app, !zlen_enc16, zlen_enc32. done. Qed.
Lemma zlen_signed txid src pwd : zlen txid = 12 -> zlen (resp_signed txid src pwd) = 56.
Proof.
  intros H. unfold resp_signed, resp_mac. rewrite !zlen_app, zlen_resp_header, zlen_resp_address, !zlen_enc16 by done. destruct (Hmac pwd (resp_header 36 txid ++ resp_address src)) as [-> _]. done.
Qed.
Lemma zlen_response txid src pwd : zlen txid = 12 -> zlen (response txid src pwd) = 64.
Proof. intros H. unfold response. rewrite !zlen_app, zlen_signed, !zlen_enc16, zlen_enc32 by done. done. Qed.
Lemma set_length n m txid rest : zlen txid = 12 -> patch (resp_header n txid ++ rest) 2 (enc16 m) = resp_header m txid ++ rest.
Proof. intros H. unfold resp_header. rewrite <- !app_assoc. by apply patch_mid. Qed.

Lemma append_spec out txid src pwd n : zlen txid = 12 -> 64 <= zlen out ->
  append_integrity_and_fingerprint hmac (patch out 0 (resp_header n txid ++ resp_address src)) 32 pwd = Ok (patch out 0 (response txid src pwd), 64).
Proof.
  intros Ht Ho. unfold append_integrity_and_fingerprint, STUN_HEADER_LEN. set (A := resp_address src). assert (ZA : zlen A = 12) by apply zlen_resp_address.
  assert (ZH : forall m, zlen (resp_header m txid) = 20) by (intros m; by apply zlen_resp_header).
  assert (ZW : forall m, zlen (resp_header m txid ++ A) = 32) by (intros m; rewrite zlen_app, ZH, ZA; done).
  rewrite stun_write16_ok by (rewrite ?zlen_patch; rewrite ?ZW; lia). cbn [res_bind].
  rewrite patch_inside by (rewrite ?ZW, ?zlen_enc16; lia). rewrite set_length by done. change (u16 (32 - 20 + 24)) with 36.
  rewrite <- (ZW 36) at 1. rewrite slice_front by (rewrite ZW; lia). cbn [res_bind]. change (hmac pwd (resp_header 36 txid ++ A)) with (resp_mac txid src pwd).
  destruct (Hmac pwd (resp_header 36 txid ++ A)) as [Zm _]. change (hmac pwd (resp_header 36 txid ++ A)) with (resp_mac txid src pwd) in Zm.
  set (M := resp_mac txid src pwd) in *. rewrite (take_ge M 20) by (unfold zlen in Zm; lia).
  rewrite stun_write16_ok by (rewrite ?zlen_patch; rewrite ?ZW; lia). cbn [res_bind]. rewrite (patch_join out 0 (resp_header 36 txid ++ A)) by (rewrite ?ZW, ?zlen_enc16; lia).
  set (W2 := (resp_header 36 txid ++ A) ++ enc16 ATTR_MESSAGE_INTEGRITY). assert (Z2 : zlen W2 = 34) by (unfold W2; rewrite zlen_app, ZW, zlen_enc16; done).
  rewrite stun_write16_ok by (rewrite ?zlen_patch; rewrite ?Z2; lia). cbn [res_bind]. rewrite (patch_join out 0 W2) by (rewrite ?Z2, ?zlen_enc16; lia).
  set (W3 := W2 ++ enc16 20). assert (Z3 : zlen W3 = 36) by (unfold W3; rewrite zlen_app, Z2, zlen_enc16; done).
  rewrite wr_n_ok by (rewrite ?zlen_patch; rewrite ?Z3, ?Zm; lia). cbn [res_bind]. rewrite (patch_join out 0 W3) by (rewrite ?Z3, ?Zm; lia).
  assert (E4 : W3 ++ M = resp_header 36 txid ++ A ++ enc16 ATTR_MESSAGE_INTEGRITY ++ enc16 20 ++ M) by (unfold W3, W2; by rewrite <- !app_assoc).
  assert (Z4 : zlen (W3 ++ M) = 56) by (rewrite zlen_app, Z3, Zm; done). rewrite E4 in *.
  rewrite stun_write16_ok by (rewrite ?zlen_patch; rewrite ?Z4; lia). cbn [res_bind]. rewrite patch_inside by (rewrite ?Z4, ?zlen_enc16; lia). rewrite set_length by done.
  change (u16 (32 + (4 + 20) - 20 + 8)) with 44. set (S := resp_header 44 txid ++ A ++ enc16 ATTR_MESSAGE_INTEGRITY ++ enc16 20 ++ M).
  assert (ZS : zlen S = 56) by (unfold S; rewrite zlen_app, ZH; rewrite zlen_app, ZH in Z4; lia). change (32 + (4 + 20)) with 56.
  rewrite <- ZS at 1. rewrite slice_front by lia. cbn [res_bind]. set (C := Z.lxor (crc32_ieee S) 0x5354554E).
  rewrite stun_write16_ok by (rewrite ?zlen_patch; rewrite ?ZS; lia). cbn [res_bind]. rewrite (patch_join out 0 S) by (rewrite ?ZS, ?zlen_enc16; lia).
  set (W5 := S ++ enc16 ATTR_FINGERPRINT). assert (Z5 : zlen W5 = 58) by (unfold W5; rewrite zlen_app, ZS, zlen_enc16; done).
  rewrite stun_write16_ok by (rewrite ?zlen_patch; rewrite ?Z5; lia). cbn [res_bind]. rewrite (patch_join out 0 W5) by (rewrite ?Z5, ?zlen_enc16; lia).
  set (W6 := W5 ++ enc16 4). assert (Z6 : zlen W6 = 60) by (unfold W6; rewrite zlen_app, Z5, zlen_enc16; done).
  rewrite stun_write32_ok by (rewrite ?zlen_patch; rewrite ?Z6; lia). cbn [res_bind]. rewrite (patch_join out 0 W6) by (rewrite ?Z6, ?zlen_enc32; lia).
  change (response txid src pwd) with (S ++ enc16 ATTR_FINGERPRINT ++ enc16 4 ++ enc32 C). unfold W6, W5. by rewrite <- !app_assoc.
Qed.

Lemma write_response_spec data src pwd out : bytes_ok data -> 20 <= zlen data -> 64 <= zlen out ->
  write_response hmac data src pwd out = Ok (patch out 0 (response (slice data 8 12) src pwd), 64).
Proof.
  intros Hb Hd Ho. unfold write_response, STUN_HEADER_LEN. set (T := slice data 8 12). assert (ZT : zlen T = 12) by (apply zlen_slice; lia).
  rewrite stun_write16_ok by lia. cbn [res_bind]. rewrite stun_write16_ok by (rewrite ?zlen_patch; rewrite ?zlen_enc16; lia). cbn [res_bind]. rewrite (patch_join out 0 (enc16 _)) by (rewrite ?zlen_enc16; lia).
  set (W1 := enc16 _ ++ enc16 _). assert (Z1 : zlen W1 = 4) by (unfold W1; rewrite zlen_app, !zlen_enc16; done).
  rewrite stun_write32_ok by (rewrite ?zlen_patch; lia). cbn [res_bind]. rewrite (patch_join out 0 W1) by (rewrite ?zlen_enc32; lia).
  set (W2 := W1 ++ _). assert (Z2 : zlen W2 = 8) by (unfold W2; rewrite zlen_app, zlen_enc32, Z1; done). rewrite rd_n_ok by lia. cbn [res_bind]. fold T.
  rewrite wr_n_ok by (rewrite ?zlen_patch; lia). cbn [res_bind]. rewrite (patch_join out 0 W2) by lia. set (W3 := W2 ++ T). assert (Z3 : zlen W3 = 20) by (unfold W3; rewrite zlen_app; lia).
  rewrite stun_write16_ok by (rewrite ?zlen_patch; lia). cbn [res_bind]. rewrite (patch_join out 0 W3) by (rewrite ?zlen_enc16; lia).
  set (W4 := W3 ++ _). assert (Z4 : zlen W4 = 22) by (unfold W4; rewrite zlen_app, zlen_enc16; lia).
  rewrite stun_write16_ok by (rewrite ?zlen_patch; lia). cbn [res_bind]. rewrite (patch_join out 0 W4) by (rewrite ?zlen_enc16; lia).
  set (W5 := W4 ++ _). assert (Z5 : zlen W5 = 24) by (unfold W5; rewrite zlen_app, zlen_enc16; lia). unfold wr.
  rewrite wr_n_ok by (rewrite ?zlen_patch; change (zlen [0x00]) with 1; lia). cbn [res_bind]. rewrite (patch_join out 0 W5) by (change (zlen [0x00]) with 1; lia).
  set (W6 := W5 ++ _). assert (Z6 : zlen W6 = 25) by (unfold W6; rewrite zlen_app, Z5; done).
  rewrite wr_n_ok by (rewrite ?zlen_patch; change (zlen [0x01]) with 1; lia). cbn [res_bind]. rewrite (patch_join out 0 W6) by (change (zlen [0x01]) with 1; lia).
  set (W7 := W6 ++ _). assert (Z7 : zlen W7 = 26) by (unfold W7; rewrite zlen_app, Z6; done).
  rewrite stun_write16_ok by (rewrite ?zlen_patch; lia). cbn [res_bind]. rewrite (patch_join out 0 W7) by (rewrite ?zlen_enc16; lia).
  set (W8 := W7 ++ _). assert (Z8 : zlen W8 = 28) by (unfold W8; rewrite zlen_app, zlen_enc16; lia).
  rewrite stun_write32_ok by (rewrite ?zlen_patch; lia). cbn [res_bind]. rewrite (patch_join out 0 W8) by (rewrite ?zlen_enc32; lia).
  assert (E : W8 ++ enc32 (Z.lxor (sa_addr src) STUN_MAGIC_COOKIE) = resp_header 0 T ++ resp_address src).
  { unfold W8, W7, W6, W5, W4, W3, W2, W1, resp_header, resp_address. by rewrite <- !app_assoc. }
  rewrite E. by apply append_spec.
Qed.

(** What a request has to carry: a user name for the fragment, and the HMAC of
    everything before the integrity attribute, with the length up to its end. *)
Definition authentic (data : list Z) (len : Z) (local : sfu_ice_credentials) : Prop :=
  20 <= len /\ be32 data 4 = STUN_MAGIC_COOKIE /\ be16 data 0 = STUN_TYPE_BINDING_REQ /\
  (exists u n, 24 <= u /\ u + n <= len /\ be16 data (u - 4) = ATTR_USERNAME /\ zlen (ic_ufrag local) < n /\
     slice data u (zlen (ic_ufrag local) + 1) = ic_ufrag local ++ [COLON]) /\
  exists mi, 20 <= mi <= 1500 /\ mi + 24 <= len /\ be16 data mi = ATTR_MESSAGE_INTEGRITY /\
    slice data (mi + 4) 20 = hmac (ic_pwd local) (patch (slice data 0 mi) 2 (enc16 (mi + 4))).

Lemma verify_spec data len mi pwd : bytes_ok data -> len <= zlen data -> mi = 0 \/ 20 <= mi ->
  exists b, verify_message_integrity hmac data len mi pwd = Ok b /\
    (b = true <-> 20 <= mi <= 1500 /\ mi + 24 <= len /\ slice data (mi + 4) 20 = hmac pwd (patch (slice data 0 mi) 2 (enc16 (mi + 4)))).
Proof.
  intros Hb Hl Hm. unfold verify_message_integrity. destruct (Z.eqb_spec mi 0) as [->|Hz]; [exists false; split; [done|]; split; [done|]; lia|]. cbn [orb].
  destruct (Z.ltb_spec len (mi + 24)); [exists false; split; [done|]; split; [done|]; lia|]. destruct (Z.ltb_spec 1500 mi); [exists false; split; [done|]; split; [done|]; lia|].
  rewrite rd_n_ok by lia. cbn [res_bind]. rewrite stun_write16_ok by (rewrite ?zlen_slice; lia). cbn [res_bind].
  assert (E : u16 (mi - STUN_HEADER_LEN + 24) = mi + 4) by (unfold u16, STUN_HEADER_LEN; rewrite Z.mod_small; lia). rewrite E.
  set (m := patch _ _ _). destruct (Hmac pwd m) as [-> _]. cbn [Z.eqb negb Pos.eqb]. rewrite rd_n_ok by lia. cbn [res_bind]. eexists. split; [done|].
  rewrite bool_decide_eq_true. split; [intros ->; split_and!; done || lia|by intros (_ & _ & ->)].
Qed.
Lemma handle_spec data len local src out cap : bytes_ok data -> 0 <= len <= zlen data -> cap <= zlen out ->
  match sfu_stun_handle_binding_request hmac data len local src out cap with
  | Ok (out', n) => authentic data len local /\ sa_inet src = true /\ 64 <= cap /\ n = 64 /\ out' = patch out 0 (response (slice data 8 12) src (ic_pwd local))
  | Err => True
  | Fault => False
  end.
Proof.
  intros Hb Hl Hc. unfold sfu_stun_handle_binding_request. destruct (is_stun_spec data len Hb) as (b & -> & Hs); [lia|]. cbn [res_bind]. destruct b; cbn [negb reject]; [|done].
  destruct (Hs eq_refl) as [H20 Hk]. unfold reject. rewrite stun_read_ok by (done || lia). cbn [res_bind]. destruct (Z.eqb_spec (be16 data 0) STUN_TYPE_BINDING_REQ) as [Et|]; cbn [negb]; [|done].
  unfold find_username, STUN_HEADER_LEN. destruct (find_name_spec (attr_fuel len) data len 20 Hb) as (u & -> & Hu); [lia|lia|apply attr_fuel_enough; lia|]. cbn [res_bind].
  destruct u as [[u n]|]; [|done]. destruct Hu as (Hu1 & Hu2 & Hu3 & Hu4). destruct (matches_spec data u n (ic_ufrag local) Hb) as (b & -> & Hm); [lia|lia|]. cbn [res_bind]. destruct b; cbn [negb]; [|done].
  destruct (Hm eq_refl) as [Hm1 Hm2]. unfold find_message_integrity, STUN_HEADER_LEN.
  destruct (find_mi_spec (attr_fuel len) data len 20 Hb) as (mi & -> & Hmi); [lia|lia|apply attr_fuel_enough; lia|]. cbn [res_bind].
  destruct (verify_spec data len mi (ic_pwd local) Hb) as (b & -> & Hv); [lia|lia|]. cbn [res_bind]. destruct b; cbn [negb]; [|done]. destruct (proj1 Hv eq_refl) as (V1 & V2 & V3).
  destruct (sa_inet src); cbn [negb orb]; [|done]. destruct (Z.ltb_spec cap (20 + 12 + 24 + 8)); [done|]. rewrite write_response_spec by (done || lia).
  split; [|split_and!; done || lia]. split; [lia|]. split; [done|]. split; [done|]. split; [exists u, n; split_and!; done || lia|].
  exists mi. destruct Hmi as [->|(_ & _ & Hmi)]; [lia|]. split_and!; done || lia.
Qed.
(** The response passes the check of the one who sent the request. *)
Lemma response_verifies txid src pwd rest : zlen txid = 12 -> bytes_ok txid -> bytes_ok rest -> is_u16 (sa_port src) -> is_u32 (sa_addr src) ->
  let r := response txid src pwd ++ rest in
  find_message_integrity r 64 = Ok 32 /\ verify_message_integrity hmac r 64 32 pwd = Ok true /\ be16 r 0 = STUN_TYPE_BINDING_RESP /\ slice r 8 12 = txid /\
  Z.lxor (be16 r 26) 0x2112 = sa_port src /\ Z.lxor (be32 r 28) STUN_MAGIC_COOKIE = sa_addr src /\ be16 r 2 + 20 = 64.
Proof.
  intros Ht Hbt Hbr Hp Ha. cbv zeta. set (M := resp_mac txid src pwd). destruct (Hmac pwd (resp_header 36 txid ++ resp_address src)) as [ZM BM]. fold M in ZM, BM.
  set (FP := enc16 ATTR_FINGERPRINT ++ enc16 4 ++ enc32 (Z.lxor (crc32_ieee (resp_signed txid src pwd)) 0x5354554E)).
  set (r := response txid src pwd ++ rest). pose proof (zlen_resp_header 44 txid Ht) as ZH. pose proof (zlen_resp_address src) as ZA.
  assert (R0 : r = enc16 STUN_TYPE_BINDING_RESP ++ enc16 44 ++ enc32 STUN_MAGIC_COOKIE ++ txid ++ resp_address src ++ (enc16 ATTR_MESSAGE_INTEGRITY ++ enc16 20 ++ M) ++ FP ++ rest)
    by (unfold r, response, resp_signed, resp_header; by rewrite <- !app_assoc).
  assert (R1 : r = resp_header 44 txid ++ resp_address src ++ (enc16 ATTR_MESSAGE_INTEGRITY ++ enc16 20 ++ M) ++ FP ++ rest) by (rewrite R0; unfold resp_header; by rewrite <- !app_assoc).
  set (xp := Z.lxor (sa_port src) 0x2112) in *. set (xa := Z.lxor (sa_addr src) STUN_MAGIC_COOKIE) in *.
  assert (R2 : r = resp_header 44 txid ++ enc16 ATTR_XOR_MAPPED_ADDRESS ++ enc16 8 ++ [0x00; 0x01] ++ enc16 xp ++ enc32 xa ++ (enc16 ATTR_MESSAGE_INTEGRITY ++ enc16 20 ++ M) ++ FP ++ rest)
    by (rewrite R1; unfold resp_address; by rewrite <- !app_assoc).
  assert (Br : bytes_ok r).
  { rewrite R2. unfold resp_header, FP. repeat apply bytes_ok_app; auto with sfu. by apply bytes_okb_ok. }
  assert (Zr : 64 <= zlen r) by (unfold r; rewrite zlen_app, zlen_response by done; pose proof (zlen_nonneg rest); lia).
  assert (Ux : is_u16 xp) by (unfold xp; apply lxor_u16; done). assert (Uy : is_u32 xa) by (unfold xa; apply lxor_u32; done).
  assert (P20 : be16 r 20 = ATTR_XOR_MAPPED_ADDRESS) by (rewrite R2; by apply be16_at).
  assert (P22 : be16 r 22 = 8) by (rewrite R2, app_assoc; apply be16_at; [done|rewrite zlen_app, ZH, zlen_enc16; done]).
  assert (P26 : be16 r 26 = xp).
  { rewrite R2, (app_assoc _ (enc16 ATTR_XOR_MAPPED_ADDRESS)), (app_assoc _ (enc16 8)), (app_assoc _ [0; 1]). apply be16_at; [done|]. rewrite !zlen_app, ZH, !zlen_enc16. done. }
  assert (P28 : be32 r 28 = xa).
  { rewrite R2, (app_assoc _ (enc16 ATTR_XOR_MAPPED_ADDRESS)), (app_assoc _ (enc16 8)), (app_assoc _ [0; 1]), (app_assoc _ (enc16 xp)). apply be32_at; [done|]. rewrite !zlen_app, ZH, !zlen_enc16. done. }
  assert (P32 : be16 r 32 = ATTR_MESSAGE_INTEGRITY) by (rewrite R1, app_assoc, <- !(app_assoc (enc16 ATTR_MESSAGE_INTEGRITY)); apply be16_at; [done|rewrite zlen_app; lia]).
  split; [|split].
  - unfold find_message_integrity, STUN_HEADER_LEN. change (attr_fuel 64) with 16%nat. cbn [find_mi]. change (20 + 4 <=? 64) with true. cbv iota.
    rewrite !stun_read_ok by (done || lia). cbn [res_bind]. rewrite P20. change (20 + 2) with 22. rewrite P22. change (ATTR_XOR_MAPPED_ADDRESS =? ATTR_MESSAGE_INTEGRITY) with false. cbv iota.
    change (20 + (4 + padded 8)) with 32. change (32 + 4 <=? 64) with true. cbv iota. rewrite !stun_read_ok by (done || lia). cbn [res_bind]. by rewrite P32, Z.eqb_refl.
  - destruct (verify_spec r 64 32 pwd Br Zr) as (b & -> & Hv); [by right|]. f_equal. apply Hv. split; [done|]. split; [done|].
    assert (S0 : slice r 0 32 = resp_header 44 txid ++ resp_address src) by (rewrite R1, app_assoc; replace 32 with (zlen (resp_header 44 txid ++ resp_address src)) by (rewrite zlen_app; lia); apply slice_app_l).
    rewrite S0, set_length by done. change (hmac pwd (resp_header (32 + 4) txid ++ resp_address src)) with M.
    rewrite R1, app_assoc, <- !(app_assoc (enc16 ATTR_MESSAGE_INTEGRITY)), (app_assoc _ (enc16 ATTR_MESSAGE_INTEGRITY)), <- (app_assoc (enc16 20)), (app_assoc _ (enc16 20)).
    apply slice_mid; [|done]. rewrite !zlen_app, ZH, ZA, !zlen_enc16. done.
  - split; [rewrite R0; by apply (be16_at [])|]. split.
    + rewrite R0, (app_assoc (enc16 STUN_TYPE_BINDING_RESP)), (app_assoc _ (enc32 STUN_MAGIC_COOKIE)). apply slice_mid; [|done]. rewrite !zlen_app, !zlen_enc16, zlen_enc32. done.
    + rewrite P26, P28. unfold xp, xa. rewrite !lxor_twice. split; [done|]. split; [done|]. rewrite R0, (be16_at (enc16 STUN_TYPE_BINDING_RESP) 44); done.
Qed.
End Response.

(** * Well-formed requests *)

Record attribute := mk_attr { at_type : Z; at_value : list Z; at_pad : list Z }.
Definition attr_ok (a : attribute) : Prop :=
  is_u16 (at_type a) /\ zlen (at_value a) < 65536 /\ bytes_ok (at_value a) /\ bytes_ok (at_pad a) /\ zlen (at_value a) + zlen (at_pad a) = padded (zlen (at_value a)).
Definition attr_wire (a : attribute) : list Z := enc16 (at_type a) ++ enc16 (zlen (at_value a)) ++ at_value a ++ at_pad a.
Definition attrs_wire (l : list attribute) : list Z := concat (map attr_wire l).

Lemma zlen_attr a : attr_ok a -> zlen (attr_wire a) = 4 + padded (zlen (at_value a)).
Proof. intros (_ & _ & _ & _ & H). unfold attr_wire. rewrite !zlen_app, !zlen_enc16. lia. Qed.
Lemma attr_bytes a : attr_ok a -> bytes_ok (attr_wire a).
Proof. intros (_ & _ & H1 & H2 & _). unfold attr_wire. repeat apply bytes_ok_app; auto with sfu. Qed.
Lemma attrs_bytes l : Forall attr_ok l -> bytes_ok (attrs_wire l).
Proof. induction 1 as [|a l Ha _ IH]; [apply bytes_ok_nil|]. apply bytes_ok_app; [by apply attr_bytes|done]. Qed.
Lemma attrs_long l : Forall attr_ok l -> 4 * zlen l <= zlen (attrs_wire l).
Proof.
  induction 1 as [|a l Ha _ IH]; [done|]. unfold attrs_wire in *. cbn [map concat]. rewrite zlen_app, zlen_cons, zlen_attr by done.
  destruct Ha as (_ & _ & _ & _ & H). pose proof (zlen_nonneg (at_value a)). pose proof (zlen_nonneg (at_pad a)). lia.
Qed.
(** Reading the header of an attribute. *)
Lemma attr_fields data P a S : bytes_ok data -> attr_ok a -> data = P ++ attr_wire a ++ S ->
  read_be16 data (zlen P) = Ok (at_type a) /\ read_be16 data (zlen P + 2) = Ok (zlen (at_value a)) /\ zlen P + 4 <= zlen data /\
  zlen P + (4 + padded (zlen (at_value a))) = zlen (P ++ attr_wire a).
Proof.
  intros Hb Ha E. pose proof (zlen_attr a Ha) as Z. pose proof (zlen_nonneg (at_value a)) as Hv. destruct (padded_bounds (zlen (at_value a)) Hv) as [Hp _].
  assert (Hl : zlen P + 4 <= zlen data) by (rewrite E, !zlen_app, Z; pose proof (zlen_nonneg S); lia). pose proof (zlen_nonneg P). destruct Ha as (H1 & H2 & _).
  rewrite !stun_read_ok by (done || lia). split_and!; [..|done|rewrite zlen_app; lia].
  - f_equal. rewrite E. unfold attr_wire. rewrite <- !app_assoc. by apply be16_at.
  - f_equal. rewrite E. unfold attr_wire. rewrite <- !app_assoc, (app_assoc P). apply be16_at; [unfold is_u16; lia|]. by rewrite zlen_app, zlen_enc16.
Qed.
Lemma find_mi_walk data l : forall P S fuel, bytes_ok data -> Forall attr_ok l -> Forall (fun a => at_type a <> ATTR_MESSAGE_INTEGRITY) l -> data = P ++ attrs_wire l ++ S ->
  find_mi (length l + fuel) data (zlen data) (zlen P) = find_mi fuel data (zlen data) (zlen (P ++ attrs_wire l)).
Proof.
  induction l as [|a l IH]; intros P S fuel Hb Hok Hno E; [by rewrite app_nil_r|].
  apply Forall_cons_1 in Hok as [Ha Hok]. apply Forall_cons_1 in Hno as [Hn Hno]. change (attrs_wire (a :: l)) with (attr_wire a ++ attrs_wire l) in *. rewrite <- (app_assoc (attr_wire a)) in E.
  destruct (attr_fields data P a _ Hb Ha E) as (E1 & E2 & E3 & E4). cbn [length Nat.add find_mi]. rewrite (proj2 (Z.leb_le _ _)) by done. rewrite E1, E2. cbn [res_bind].
  destruct (Z.eqb_spec (at_type a) ATTR_MESSAGE_INTEGRITY); [done|]. rewrite E4. rewrite (IH (P ++ attr_wire a) S fuel); try done; by rewrite <- ?app_assoc.
Qed.
Lemma find_name_walk data l : forall P S fuel, bytes_ok data -> Forall attr_ok l -> Forall (fun a => at_type a <> ATTR_USERNAME) l -> data = P ++ attrs_wire l ++ S ->
  find_name (length l + fuel) data (zlen data) (zlen P) = find_name fuel data (zlen data) (zlen (P ++ attrs_wire l)).
Proof.
  induction l as [|a l IH]; intros P S fuel Hb Hok Hno E; [by rewrite app_nil_r|].
  apply Forall_cons_1 in Hok as [Ha Hok]. apply Forall_cons_1 in Hno as [Hn Hno]. change (attrs_wire (a :: l)) with (attr_wire a ++ attrs_wire l) in *. rewrite <- (app_assoc (attr_wire a)) in E.
  destruct (attr_fields data P a _ Hb Ha E) as (E1 & E2 & E3 & E4). cbn [length Nat.add find_name]. rewrite (proj2 (Z.leb_le _ _)) by done. rewrite E1, E2. cbn [res_bind].
  destruct (Z.eqb_spec (at_type a) ATTR_USERNAME); [done|]. cbn [andb]. rewrite E4. rewrite (IH (P ++ attr_wire a) S fuel); try done; by rewrite <- ?app_assoc.
Qed.
Fixpoint nominates (l : list attribute) : bool :=
  match l with
  | [] => false
  | a :: l => if at_type a =? ATTR_USE_CANDIDATE then zlen (at_value a) =? 0 else nominates l
  end.
Lemma candidate_walk data l : forall P S fuel, bytes_ok data -> Forall attr_ok l -> data = P ++ attrs_wire l ++ S -> (length l <= fuel)%nat ->
  candidate_scan fuel data (zlen (P ++ attrs_wire l)) (zlen P) = Ok (nominates l).
Proof.
  induction l as [|a l IH]; intros P S fuel Hb Hok E Hf.
  { rewrite app_nil_r. destruct fuel; cbn [candidate_scan]; rewrite (proj2 (Z.leb_gt _ _)) by lia; done. }
  apply Forall_cons_1 in Hok as [Ha Hok]. change (attrs_wire (a :: l)) with (attr_wire a ++ attrs_wire l) in *. rewrite <- (app_assoc (attr_wire a)) in E.
  destruct (attr_fields data P a _ Hb Ha E) as (E1 & E2 & E3 & E4). cbn [length] in Hf. destruct fuel as [|fuel]; [lia|]. cbn [candidate_scan nominates].
  rewrite (app_assoc P). rewrite zlen_app in E4. pose proof (zlen_nonneg (attrs_wire l)). pose proof (zlen_attr a Ha) as Z. destruct (padded_bounds (zlen (at_value a)) (zlen_nonneg _)) as [Hp _].
  pose proof (zlen_nonneg (at_value a)). rewrite (zlen_app (P ++ attr_wire a)), (zlen_app P). rewrite (proj2 (Z.leb_le _ _)) by lia. rewrite E1, E2. cbn [res_bind].
  rewrite (proj2 (Z.ltb_ge _ _)) by lia. destruct (Z.eqb_spec (at_type a) ATTR_USE_CANDIDATE); [done|]. rewrite <- (zlen_app P), E4, <- (zlen_app P), <- zlen_app.
  apply (IH (P ++ attr_wire a) S fuel); try done; [by rewrite <- ?app_assoc|lia].
Qed.

(** A binding request: the attributes up to the integrity attribute, with the
    user name [ufrag:client] among them, the integrity attribute and a rest. *)
Record request := mk_request_msg {
  rq_length : Z; rq_txid : list Z; rq_before : list attribute; rq_ufrag : list Z; rq_client : list Z; rq_name_pad : list Z;
  rq_after : list attribute; rq_mac : list Z; rq_rest : list Z
}.
Definition rq_name (q : request) : attribute := mk_attr ATTR_USERNAME (rq_ufrag q ++ COLON :: rq_client q) (rq_name_pad q).
Definition rq_attrs (q : request) : list attribute := rq_before q ++ rq_name q :: rq_after q.
Definition rq_prefix (q : request) : list Z :=
  (enc16 STUN_TYPE_BINDING_REQ ++ enc16 (rq_length q) ++ enc32 STUN_MAGIC_COOKIE ++ rq_txid q) ++ attrs_wire (rq_attrs q).
Definition request_msg (q : request) : list Z := rq_prefix q ++ (enc16 ATTR_MESSAGE_INTEGRITY ++ enc16 20 ++ rq_mac q) ++ rq_rest q.
Record request_ok (q : request) : Prop := {
  qo_txid : zlen (rq_txid q) = 12; qo_txid_bytes : bytes_ok (rq_txid q); qo_attrs : Forall attr_ok (rq_attrs q);
  qo_before : Forall (fun a => at_type a <> ATTR_USERNAME) (rq_before q); qo_no_mi : Forall (fun a => at_type a <> ATTR_MESSAGE_INTEGRITY) (rq_before q ++ rq_after q);
  qo_mac : zlen (rq_mac q) = 20; qo_mac_bytes : bytes_ok (rq_mac q); qo_rest : bytes_ok (rq_rest q); qo_size : zlen (rq_prefix q) <= 1500
}.
Section Request.
Context (q : request) (Hq : request_ok q).
Definition rq_header : list Z := enc16 STUN_TYPE_BINDING_REQ ++ enc16 (rq_length q) ++ enc32 STUN_MAGIC_COOKIE ++ rq_txid q.
Lemma zlen_rq_header : zlen rq_header = 20.
Proof. unfold rq_header. rewrite !zlen_app, !zlen_enc16, zlen_enc32, (qo_txid _ Hq). done. Qed.
Lemma rq_bytes : bytes_ok (request_msg q).
Proof.
  unfold request_msg, rq_prefix. destruct Hq. apply bytes_ok_app; [apply bytes_ok_app; [repeat apply bytes_ok_app; auto with sfu|by apply attrs_bytes]|repeat apply bytes_ok_app; auto with sfu].
Qed.
Lemma zlen_rq : zlen (request_msg q) = zlen (rq_prefix q) + 24 + zlen (rq_rest q) /\ zlen (rq_prefix q) = 20 + zlen (attrs_wire (rq_attrs q)).
Proof. unfold request_msg, rq_prefix. fold rq_header. rewrite !zlen_app, zlen_rq_header, !zlen_enc16, (qo_mac _ Hq). lia. Qed.
Lemma rq_is_stun : sfu_stun_is_stun_packet (request_msg q) (zlen (request_msg q)) = Ok true /\ read_be16 (request_msg q) 0 = Ok STUN_TYPE_BINDING_REQ.
Proof.
  destruct zlen_rq as [Z1 Z2]. pose proof (zlen_nonneg (rq_rest q)). pose proof (zlen_nonneg (attrs_wire (rq_attrs q))). pose proof rq_bytes as Hb.
  assert (E : request_msg q = enc16 STUN_TYPE_BINDING_REQ ++ enc16 (rq_length q) ++ enc32 STUN_MAGIC_COOKIE ++ rq_txid q ++ attrs_wire (rq_attrs q) ++
    (enc16 ATTR_MESSAGE_INTEGRITY ++ enc16 20 ++ rq_mac q) ++ rq_rest q) by (unfold request_msg, rq_prefix; by rewrite <- !app_assoc).
  split; [|rewrite stun_read_ok by (done || lia); f_equal; rewrite E; by apply (be16_at [])].
  unfold sfu_stun_is_stun_packet, STUN_HEADER_LEN. rewrite (proj2 (Z.ltb_ge _ _)) by lia. rewrite rd_ok by lia. cbn [res_bind].
  assert (B0 : byte_at (request_msg q) 0 = 0) by (rewrite E; done). rewrite B0. cbn [Z.land Z.eqb negb]. rewrite !rd_ok by lia. cbn [res_bind]. reflexivity.
Qed.
Lemma fuel_split k : (k <= length (rq_attrs q))%nat -> exists f, attr_fuel (zlen (request_msg q)) = (k + S f)%nat.
Proof.
  intros Hk. destruct zlen_rq as [Z1 Z2]. pose proof (attrs_long _ (qo_attrs _ Hq)) as Hl. pose proof (zlen_nonneg (rq_rest q)). exists (attr_fuel (zlen (request_msg q)) - S k)%nat.
  unfold attr_fuel, zlen in *. assert (Z.of_nat (length (rq_attrs q)) + 11 <= Z.of_nat (length (request_msg q)) / 4) by (apply Z.div_le_lower_bound; lia). lia.
Qed.
Lemma rq_find_mi : find_message_integrity (request_msg q) (zlen (request_msg q)) = Ok (zlen (rq_prefix q)).
Proof.
  destruct zlen_rq as [Z1 Z2]. pose proof (zlen_nonneg (rq_rest q)). unfold find_message_integrity, STUN_HEADER_LEN. destruct (fuel_split (length (rq_attrs q))) as [f ->]; [done|].
  rewrite <- zlen_rq_header. rewrite (find_mi_walk (request_msg q) (rq_attrs q) rq_header ((enc16 ATTR_MESSAGE_INTEGRITY ++ enc16 20 ++ rq_mac q) ++ rq_rest q) (S f)).
  - fold (rq_prefix q). change (rq_header ++ attrs_wire (rq_attrs q)) with (rq_prefix q). cbn [find_mi]. rewrite (proj2 (Z.leb_le _ _)) by lia. pose proof (zlen_nonneg (rq_prefix q)).
    rewrite !stun_read_ok by (apply rq_bytes || lia). cbn [res_bind]. unfold request_msg at 1. rewrite <- !app_assoc. rewrite be16_at by done. by rewrite Z.eqb_refl.
  - apply rq_bytes.
  - apply Hq.
  - pose proof (qo_no_mi _ Hq) as Hn. unfold rq_attrs. apply Forall_app in Hn as [H1 H2]. apply Forall_app. split; [done|]. by apply Forall_cons_2.
  - unfold request_msg, rq_prefix. by rewrite <- !app_assoc.
Qed.
Definition name_offset : Z := 20 + zlen (attrs_wire (rq_before q)) + 4.
Lemma attrs_wire_split : attrs_wire (rq_attrs q) = attrs_wire (rq_before q) ++ attr_wire (rq_name q) ++ attrs_wire (rq_after q).
Proof. unfold attrs_wire, rq_attrs. by rewrite map_app, concat_app. Qed.
Lemma name_here : exists S, request_msg q = (rq_header ++ attrs_wire (rq_before q)) ++ attr_wire (rq_name q) ++ S.
Proof. eexists. unfold request_msg, rq_prefix. fold rq_header. rewrite attrs_wire_split, <- !app_assoc. reflexivity. Qed.
Lemma rq_find_name : find_username (request_msg q) (zlen (request_msg q)) = Ok (Some (name_offset, zlen (at_value (rq_name q)))).
Proof.
  destruct name_here as [S E]. pose proof (qo_attrs _ Hq) as Ha. unfold rq_attrs in Ha. apply Forall_app in Ha as [Hb Ha]. apply Forall_cons_1 in Ha as [Hn _].
  unfold find_username, STUN_HEADER_LEN. destruct (fuel_split (length (rq_before q))) as [f ->]; [unfold rq_attrs; rewrite length_app; lia|].
  rewrite <- zlen_rq_header. rewrite (find_name_walk (request_msg q) (rq_before q) rq_header (attr_wire (rq_name q) ++ S) (Datatypes.S f)); [|apply rq_bytes|done|apply Hq|by rewrite E, <- app_assoc].
  destruct (attr_fields (request_msg q) (rq_header ++ attrs_wire (rq_before q)) (rq_name q) S rq_bytes Hn E) as (E1 & E2 & E3 & E4). cbn [find_name].
  rewrite (proj2 (Z.leb_le _ _)) by done. rewrite E1, E2. cbn [res_bind at_type rq_name]. rewrite Z.eqb_refl. cbn [andb].
  assert (Hl : zlen (rq_header ++ attrs_wire (rq_before q)) + 4 + zlen (at_value (rq_name q)) <= zlen (request_msg q)).
  { rewrite E, (zlen_app _ (attr_wire _ ++ S)), (zlen_app (attr_wire _)), zlen_attr by done. destruct (padded_bounds (zlen (at_value (rq_name q))) (zlen_nonneg _)) as [Hp _]. pose proof (zlen_nonneg S). lia. }
  fold (rq_name q). rewrite (proj2 (Z.leb_le _ _)) by done. do 3 f_equal. rewrite zlen_app, zlen_rq_header. done.
Qed.
Lemma rq_name_value : slice (request_msg q) name_offset (zlen (at_value (rq_name q))) = rq_ufrag q ++ COLON :: rq_client q.
Proof.
  destruct name_here as [S E]. rewrite E. unfold attr_wire. rewrite <- !app_assoc, (app_assoc rq_header), (app_assoc _ (enc16 _)), (app_assoc _ (enc16 (zlen _))). apply slice_mid; [|done].
  unfold name_offset. rewrite !zlen_app, zlen_rq_header, !zlen_enc16. lia.
Qed.
Lemma rq_name_fits : name_offset + zlen (at_value (rq_name q)) <= zlen (request_msg q) /\ 0 <= name_offset.
Proof.
  destruct (find_name_spec (attr_fuel (zlen (request_msg q))) (request_msg q) (zlen (request_msg q)) 20 rq_bytes) as (r & Er & Hr); [lia|lia|apply attr_fuel_enough, zlen_nonneg|].
  pose proof rq_find_name as En. unfold find_username, STUN_HEADER_LEN in En. rewrite En in Er. injection Er as <-. cbv beta iota in Hr. destruct Hr as (H1 & _ & H2 & _). unfold name_offset in *. pose proof (zlen_nonneg (attrs_wire (rq_before q))). split; [exact H2|lia].
Qed.
Lemma rq_matches : username_matches (request_msg q) name_offset (zlen (at_value (rq_name q))) (rq_ufrag q) = Ok true.
Proof.
  destruct rq_name_fits as [Hf H0]. pose proof rq_name_value as Hv. pose proof (zlen_nonneg (rq_ufrag q)). pose proof (zlen_nonneg (rq_client q)).
  assert (Zv : zlen (at_value (rq_name q)) = zlen (rq_ufrag q) + 1 + zlen (rq_client q)) by (cbn [rq_name at_value]; rewrite zlen_app, zlen_cons; lia). rewrite Zv in *.
  unfold username_matches. rewrite (proj2 (Z.leb_gt _ _)) by lia. rewrite rd_ok by lia. cbn [res_bind].
  rewrite <- Z.add_assoc, slice_split in Hv by lia. apply app_inj_1 in Hv as [V1 V2]; [|assert (zlen (slice (request_msg q) name_offset (zlen (rq_ufrag q))) = zlen (rq_ufrag q)) by (apply zlen_slice; lia); unfold zlen in *; lia].
  rewrite slice_cons in V2 by lia. injection V2 as V2 _. rewrite V2. cbn [Z.eqb negb]. change (COLON =? COLON) with true. cbn [negb]. rewrite rd_n_ok by lia. cbn [res_bind]. by rewrite V1, bool_decide_true.
Qed.
Lemma rq_client_slice : slice (request_msg q) (name_offset + zlen (rq_ufrag q) + 1) (zlen (rq_client q)) = rq_client q.
Proof.
  destruct name_here as [S E]. rewrite E. unfold attr_wire. cbn [at_value rq_name at_type at_pad]. change (COLON :: rq_client q) with ([COLON] ++ rq_client q).
  rewrite <- !app_assoc, (app_assoc rq_header), (app_assoc _ (enc16 _)), (app_assoc _ (enc16 (zlen _))), (app_assoc _ (rq_ufrag q)), (app_assoc _ [COLON]). apply slice_mid; [|done].
  unfold name_offset. rewrite !zlen_app, zlen_rq_header, !zlen_enc16. change (zlen [COLON]) with 1. lia.
Qed.
Lemma rq_verify hmac pwd : (forall k m, zlen (hmac k m) = 20 /\ bytes_ok (hmac k m)) ->
  verify_message_integrity hmac (request_msg q) (zlen (request_msg q)) (zlen (rq_prefix q)) pwd =
    Ok (bool_decide (rq_mac q = hmac pwd (patch (rq_prefix q) 2 (enc16 (zlen (rq_prefix q) + 4))))).
Proof.
  intros Hmac. destruct zlen_rq as [Z1 Z2]. pose proof (zlen_nonneg (rq_rest q)). pose proof (zlen_nonneg (attrs_wire (rq_attrs q))).
  destruct (verify_spec hmac Hmac (request_msg q) (zlen (request_msg q)) (zlen (rq_prefix q)) pwd rq_bytes) as (b & -> & Hb); [lia|lia|].
  assert (S1 : slice (request_msg q) (zlen (rq_prefix q) + 4) 20 = rq_mac q).
  { unfold request_msg. rewrite <- !app_assoc, (app_assoc _ (enc16 _)), (app_assoc _ (enc16 20)). apply slice_mid; [|symmetry; apply (qo_mac _ Hq)]. rewrite !zlen_app, !zlen_enc16. lia. }
  assert (S2 : slice (request_msg q) 0 (zlen (rq_prefix q)) = rq_prefix q) by (unfold request_msg; apply slice_app_l). rewrite S1, S2 in Hb.
  f_equal. destruct (bool_decide_reflect (rq_mac q = hmac pwd (patch (rq_prefix q) 2 (enc16 (zlen (rq_prefix q) + 4))))) as [E|E].
  - apply Hb. pose proof (qo_size _ Hq). split; [lia|]. split; [lia|done].
  - destruct b; [|done]. destruct (proj1 Hb eq_refl) as (_ & _ & E'). done.
Qed.
Lemma rq_nominates : sfu_stun_has_use_candidate (request_msg q) (zlen (request_msg q)) = Ok (nominates (rq_attrs q)).
Proof.
  destruct rq_is_stun as [E1 E2]. destruct zlen_rq as [Z1 Z2]. pose proof (zlen_nonneg (attrs_wire (rq_attrs q))). unfold sfu_stun_has_use_candidate. rewrite E1. cbn [res_bind negb]. rewrite E2. cbn [res_bind].
  rewrite Z.eqb_refl. cbn [negb]. rewrite rq_find_mi. cbn [res_bind]. rewrite (proj2 (Z.eqb_neq _ _)) by lia. unfold STUN_HEADER_LEN. rewrite <- zlen_rq_header.
  change (rq_prefix q) with (rq_header ++ attrs_wire (rq_attrs q)) at 2. eapply candidate_walk; [apply rq_bytes|apply Hq|unfold request_msg, rq_prefix; by rewrite <- !app_assoc|].
  pose proof (attrs_long _ (qo_attrs _ Hq)) as Hl. unfold attr_fuel, zlen in *. assert (Z.of_nat (length (rq_attrs q)) <= Z.of_nat (length (rq_prefix q)) / 4) by (apply Z.div_le_lower_bound; lia). lia.
Qed.
Lemma rq_extract max_len : sfu_stun_extract_client_ufrag (request_msg q) (zlen (request_msg q)) (rq_ufrag q) max_len =
  if (max_len <=? zlen (rq_client q)) || (zlen (rq_client q) =? 0) then Err else Ok (rq_client q).
Proof.
  destruct rq_is_stun as [E1 E2]. unfold sfu_stun_extract_client_ufrag, reject. rewrite E1. cbn [res_bind negb]. rewrite E2. cbn [res_bind]. rewrite Z.eqb_refl. cbn [negb]. rewrite rq_find_name. cbn [res_bind].
  rewrite rq_matches. cbn [res_bind negb]. destruct rq_name_fits as [Hf H0]. pose proof (zlen_nonneg (rq_ufrag q)). pose proof (zlen_nonneg (rq_client q)).
  assert (Zv : zlen (at_value (rq_name q)) = zlen (rq_ufrag q) + 1 + zlen (rq_client q)) by (cbn [rq_name at_value]; rewrite zlen_app, zlen_cons; lia).
  replace (zlen (at_value (rq_name q)) - zlen (rq_ufrag q) - 1) with (zlen (rq_client q)) by lia. destruct (_ || _); [done|]. rewrite rd_n_ok by lia. by rewrite rq_client_slice.
Qed.
Lemma rq_txid_slice : slice (request_msg q) 8 12 = rq_txid q.
Proof.
  unfold request_msg, rq_prefix. rewrite <- !app_assoc, (app_assoc (enc16 _)), (app_assoc _ (enc32 _)). apply slice_mid; [|symmetry; apply (qo_txid _ Hq)]. rewrite !zlen_app, !zlen_enc16, zlen_enc32. done.
Qed.
End Request.

(** * Properties *)

(** C15: only authenticated requests are answered.  For any received bytes a
    binding request is handled without an access out of bounds; a response is
    written only if the request carries a user name that begins with the
    local fragment and a colon, and the HMAC under the local password of
    everything before its integrity attribute; the response has 64 bytes that
    fit the buffer, repeats the transaction, passes the integrity check of a
    peer that knows the password, and its mapped address decodes to the source
    of the request; nothing behind it is written. *)
Theorem binding_authenticated hmac data len local src out cap : (forall k m, zlen (hmac k m) = 20 /\ bytes_ok (hmac k m)) ->
  bytes_ok data -> bytes_ok out -> 0 <= len <= zlen data -> cap <= zlen out -> is_u16 (sa_port src) -> is_u32 (sa_addr src) ->
  match sfu_stun_handle_binding_request hmac data len local src out cap with
  | Ok (out', n) =>
      authentic hmac data len local /\ sa_inet src = true /\ n = 64 /\ n <= cap /\ zlen out' = zlen out /\ drop 64 out' = drop 64 out /\
      be16 out' 0 = STUN_TYPE_BINDING_RESP /\ be16 out' 2 + 20 = n /\ slice out' 8 12 = slice data 8 12 /\
      find_message_integrity out' n = Ok 32 /\ verify_message_integrity hmac out' n 32 (ic_pwd local) = Ok true /\
      Z.lxor (be16 out' 26) 0x2112 = sa_port src /\ Z.lxor (be32 out' 28) STUN_MAGIC_COOKIE = sa_addr src
  | Err => True
  | Fault => False
  end.
Proof.
  intros Hmac Hb Ho Hl Hc Hp Ha. pose proof (handle_spec hmac Hmac data len local src out cap Hb Hl Hc) as H.
  destruct (sfu_stun_handle_binding_request _ _ _ _ _ _ _) as [[out' n]| |]; [|done|done]. destruct H as (Hau & Hi & H64 & -> & ->). assert (H20 : 20 <= len) by apply Hau.
  set (T := slice data 8 12). assert (ZT : zlen T = 12) by (apply zlen_slice; lia). assert (BT : bytes_ok T) by (by apply bytes_ok_slice).
  pose proof (zlen_response hmac Hmac T src (ic_pwd local) ZT) as ZR. assert (E : patch out 0 (response hmac T src (ic_pwd local)) = response hmac T src (ic_pwd local) ++ drop 64 out).
  { unfold patch. unfold zlen in ZR. replace (Z.to_nat 0 + length (response hmac T src (ic_pwd local)))%nat with 64%nat by lia. reflexivity. }
  destruct (response_verifies hmac Hmac T src (ic_pwd local) (drop 64 out) ZT BT (Forall_drop _ _ _ Ho) Hp Ha) as (R1 & R2 & R3 & R4 & R5 & R6 & R7).
  split; [exact Hau|]. split; [exact Hi|]. split; [reflexivity|]. split; [exact H64|]. split; [rewrite zlen_patch; lia|]. rewrite E.
  split; [rewrite drop_app_length'; [reflexivity|unfold zlen in ZR; lia]|]. exact (conj R3 (conj R7 (conj R4 (conj R1 (conj R2 (conj R5 R6)))))).
Qed.

(** C21: well-formed requests are understood.  On a binding request whose
    first user name is the local fragment, a colon and the client's fragment,
    with its integrity attribute within the first 1500 bytes, whatever other
    attributes it has: it is answered exactly if its integrity attribute holds
    the HMAC of the bytes before it with the length field set to the end of
    that attribute; the client's fragment is read back if it is not empty and
    fits; and the pair is nominated exactly if the first USE-CANDIDATE before
    the integrity attribute is empty. *)
Theorem binding_answered hmac q pwd src out cap max_len : (forall k m, zlen (hmac k m) = 20 /\ bytes_ok (hmac k m)) ->
  request_ok q -> sa_inet src = true -> 64 <= cap <= zlen out ->
  let data := request_msg q in
  sfu_stun_handle_binding_request hmac data (zlen data) (mk_credentials (rq_ufrag q) pwd) src out cap =
    (if bool_decide (rq_mac q = hmac pwd (patch (rq_prefix q) 2 (enc16 (zlen (rq_prefix q) + 4))))
     then Ok (patch out 0 (response hmac (rq_txid q) src pwd), 64) else Err) /\
  sfu_stun_extract_client_ufrag data (zlen data) (rq_ufrag q) max_len =
    (if (max_len <=? zlen (rq_client q)) || (zlen (rq_client q) =? 0) then Err else Ok (rq_client q)) /\
  sfu_stun_has_use_candidate data (zlen data) = Ok (nominates (rq_attrs q)).
Proof.
  intros Hmac Hq Hi Hc data. unfold data. split; [|split; [by apply rq_extract|by apply rq_nominates]]. destruct (rq_is_stun q Hq) as [E1 E2].
  destruct (zlen_rq q Hq) as [Z1 Z2]. pose proof (zlen_nonneg (rq_rest q)). pose proof (zlen_nonneg (attrs_wire (rq_attrs q))).
  unfold sfu_stun_handle_binding_request, reject. rewrite E1. cbn [res_bind negb]. rewrite E2. cbn [res_bind]. rewrite Z.eqb_refl. cbn [negb]. rewrite rq_find_name by done. cbn [res_bind ic_ufrag ic_pwd].
  rewrite rq_matches by done. cbn [res_bind negb]. rewrite rq_find_mi by done. cbn [res_bind]. rewrite rq_verify by done. cbn [res_bind]. destruct (bool_decide _); cbn [negb]; [|reflexivity].
  rewrite Hi. unfold STUN_HEADER_LEN. rewrite (proj2 (Z.ltb_ge _ _)) by lia. cbn [negb orb]. rewrite write_response_spec; [|exact Hmac|by apply rq_bytes|lia|lia]. by rewrite rq_txid_slice.
Qed.

(** * Witnesses *)

(** A keyed sum in place of HMAC-SHA1. *)
Definition sum_mac (k m : list Z) : list Z := repeat (fold_right Z.add 0 (k ++ m) mod 256) 20.
Lemma sum_mac_ok k m : zlen (sum_mac k m) = 20 /\ bytes_ok (sum_mac k m).
Proof. split; [done|]. apply List.Forall_forall. intros x Hx. apply repeat_spec in Hx as ->. unfold is_u8. apply Z.mod_pos_bound. lia. Qed.
(** Alice checks a path to [ab] as [xyz] with [pw]: priority, name, nomination. *)
Definition demo_request (mac : list Z) : request :=
  mk_request_msg 64 [1; 2; 3; 4; 5; 6; 7; 8; 9; 10; 11; 12] [mk_attr 0x0024 [1; 2; 3; 4] []] [97; 98] [120; 121; 122] [0; 0]
    [mk_attr ATTR_USE_CANDIDATE [] []] mac [0x80; 0x28; 0; 4; 0; 0; 0; 0].
Definition demo_mac : list Z := sum_mac [112; 119] (patch (rq_prefix (demo_request [])) 2 (enc16 (zlen (rq_prefix (demo_request [])) + 4))).
Definition demo_src : source_addr := mk_source true 5000 0x7F000001.
Lemma demo_request_ok : request_ok (demo_request demo_mac).
Proof.
  constructor.
  - reflexivity.
  - apply bytes_okb_ok. reflexivity.
  - repeat apply Forall_cons_2; try apply Forall_nil_2; (split; [vm_compute; split; (discriminate || reflexivity)|]); (split; [vm_compute; reflexivity|]);
      (split; [apply bytes_okb_ok; reflexivity|]); (split; [apply bytes_okb_ok; reflexivity|]); vm_compute; reflexivity.
  - repeat constructor; discriminate.
  - repeat constructor; discriminate.
  - reflexivity.
  - apply sum_mac_ok.
  - apply bytes_okb_ok. reflexivity.
  - vm_compute. discriminate.
Qed.
Lemma binding_answered_witness :
  let data := request_msg (demo_request demo_mac) in
  sfu_stun_handle_binding_request sum_mac data (zlen data) (mk_credentials [97; 98] [112; 119]) demo_src (zeros 80) 80 =
    Ok (patch (zeros 80) 0 (response sum_mac [1; 2; 3; 4; 5; 6; 7; 8; 9; 10; 11; 12] demo_src [112; 119]), 64) /\
  sfu_stun_extract_client_ufrag data (zlen data) [97; 98] 32 = Ok [120; 121; 122] /\ sfu_stun_has_use_candidate data (zlen data) = Ok true.
Proof.
  pose proof (binding_answered sum_mac (demo_request demo_mac) [112; 119] demo_src (zeros 80) 80 32 sum_mac_ok demo_request_ok eq_refl ltac:(vm_compute; split; discriminate)) as (H1 & H2 & H3).
  cbv zeta. split; [|split; [exact H2|exact H3]]. rewrite bool_decide_true in H1 by (vm_compute; reflexivity). exact H1.
Defined.
Lemma binding_authenticated_witness :
  let data := request_msg (demo_request demo_mac) in
  exists out', sfu_stun_handle_binding_request sum_mac data (zlen data) (mk_credentials [97; 98] [112; 119]) demo_src (zeros 80) 80 = Ok (out', 64) /\
    authentic sum_mac data (zlen data) (mk_credentials [97; 98] [112; 119]) /\ Z.lxor (be16 out' 26) 0x2112 = 5000.
Proof.
  cbv zeta. set (data := request_msg (demo_request demo_mac)).
  assert (Hb : bytes_ok data) by (apply rq_bytes, demo_request_ok).
  pose proof (binding_authenticated sum_mac data (zlen data) (mk_credentials [97; 98] [112; 119]) demo_src (zeros 80) 80 sum_mac_ok Hb ltac:(by apply bytes_okb_ok)
    ltac:(vm_compute; split; discriminate) ltac:(vm_compute; discriminate) ltac:(vm_compute; split; (discriminate || reflexivity)) ltac:(vm_compute; split; (discriminate || reflexivity))) as H.
  destruct (sfu_stun_handle_binding_request sum_mac data (zlen data) (mk_credentials [97; 98] [112; 119]) demo_src (zeros 80) 80) as [[out' n]| |] eqn:E.
  - destruct H as (Ha & _ & -> & _ & _ & _ & _ & _ & _ & _ & _ & Hp & _). exists out'. split; [reflexivity|]. split; [exact Ha|exact Hp].
  - exfalso. vm_compute in E. discriminate E.
  - destruct H.
Defined.
